(* ===== verification/_CoqProject ===== *)
-Q . S2P
Prelude.v
Strconv.v
Bitmap.v
Base64.v
Unicode.v
Text.v
Url.v
Json.v
Byter.v
Packets.v
ResponseHandler.v
Mqtt.v
Lightspeed.v
TableKinds.v
TableThreads.v
TableMessages.v
Tables.v
WrapMessages.v
MessageID.v
MetaID.v
Cookies.v
Endpoints.v
Mentions.v
TaskTypes.v
Events.v
SyncManager.v
Socket.v
Tasks.v
Interaction.v
Stateful.v
Errors.v
ReadLoop.v
ClientState.v
Http.v
Media.v
ClientLoop.v
Parts.v
FromMeta.v
FromWhatsApp.v
DirectMedia.v
Connection.v
Requests.v
DGW.v
MetaDB.v
ChatInfo.v
StartChat.v
Login.v
PageModules.v
Backfill.v
RemoteEvents.v
EventMethods.v
ConnectionEvents.v
Outgoing.v
HandleMatrix.v
ParseTable.v
Effects.v
BloksScript.v
BloksTree.v
BloksPages.v
HttpMethods.v
Mercury.v
DgwLoop.v
BloksInterp.v
BloksEval.v
BloksBrowser.v
BloksLogin.v
