(* ===== verification/Prelude.v ===== *)
(** * mautrix-meta: a verification library

    mautrix-meta bridges Messenger and Instagram to Matrix.  [pkg/messagix] is the client of
    Meta's protocol, [pkg/connector] and [pkg/msgconv] connect it to the bridge framework,
    [pkg/metaid] makes the identifiers they share.  This library is a shallow embedding of
    the parts that decide what is read, sent and delivered, with the theorems that make them
    correct.

    ** The program

    The server speaks MQTT over a websocket.  The read loop parses every packet
    ([response.go], with the reflective codec [byter]); acknowledgements and the answers to
    requests go to the goroutine that waits for them, by packet id ([responsehandler.go]).
    The payload of a publish is a LightSpeed program, JSON which the decoder
    ([lightspeed/decode.go]) interprets; the stored procedures it calls append rows to the
    tables of [table.LSTable], through reflection over the tags of the row types.  Message
    rows are then bundled with their attachments and reactions ([table/wrappedmessage.go]).
    Cursors in the tables drive the sync of each database ([syncManager.go]).  What the client
    wants of the server is a task ([socket/tasks.go]), written as JSON into a publish.  A second
    websocket ([dgw]) carries a stream protocol of its own.

    The connector logs in, connects, reconnects and tells the user the state of both of its
    connections ([client.go]).  It turns every table into the bridge's remote events
    ([handlemeta.go], [events.go]), derives the members and permissions of a chat
    ([chatinfo.go]), plans and collects history ([backfill.go], [threadbackfill.go]), and turns
    what Matrix users do into tasks ([handlematrix.go]); its own database is in [metadb].  The
    contents of messages are converted in [msgconv], in both directions, with their files.

    The login of Messenger Lite drives Bloks pages: a page is a tree of components whose
    behaviour is a script in a small Lisp.  [bloks/script.go] parses scripts,
    [bloks/interp.go] runs them against variables, a heap of arrays and maps and a bridge of
    call-backs, and [bloks/selenium.go] plays the user, page after page, until the scripts
    hand over the session.

    ** How the program is modelled

    What the code computes is a function, with the names of the source (an operation [F] of a
    type [T] is [F] or [T_F]).  A Go call has an outcome ([res]: a value, an error, or a halt
    that is a panic, an exit or divergence).  State that one goroutine owns is passed along;
    shared objects are in a heap.  A handler that calls the server, the framework, the clock or
    a database is a tree of requests ([Interaction.prog]): a result, or a request and what is
    done with each possible answer, so that a theorem about its runs holds whatever the
    environment answers.  [Stateful] adds the state of the client, which other goroutines may
    change while a call blocks.

    ** The files

    Shared:
    - [Prelude]: outcomes, machine integers, bytes, slices, struct tags;
    - [Strconv], [Base64], [Unicode], [Text], [Url], [Json], [Bitmap]: the parts of Go's
      standard library the code relies on (numbers and splitting, base 64, UTF-8 and UTF-16,
      searching, replacing and escaping, query strings, the writer and reader of JSON), and the
      bitmaps of [bitmap.go];
    - [Effects]: a state and error monad with the judgements proofs about it use (what a
      computation keeps, how it ends, which state it may reach, which runs it is related to);
    - [Interaction], [Stateful]: trees of requests, their runs, and those with a state.

    The protocol:
    - [Byter]: [messagix/byter].  A struct is a list of fields (name, kind, tags) beside a
      list of values; [ReadToStruct] and [WriteFromStruct] traverse them;
    - [Packets], [Mqtt]: [messagix/packets], [request.go], [payload.go], [response.go] and the
      event structs of [events.go];
    - [ResponseHandler]: [responsehandler.go], its operations as functions, and in its module
      [Conc] their interleavings as a step relation over goroutines and one-slot channels;
    - [Lightspeed]: the decoder in a state monad over registers, a heap of maps and slices, and
      the tables; a row type is a [Schema] and a row an [Inst];
    - [TableKinds], [TableThreads], [TableMessages]: every row type of [messagix/table], field
      by field with its tags; [Tables]: the table struct, the procedure map and [ToInsert];
    - [WrapMessages]: [wrappedmessage.go], with a heap for the messages two results share;
    - [Events]: [Finish], from a publish response to its tables;
    - [MessageID], [MetaID]: message, epoch, user, portal and media ids;
    - [TaskTypes], [Tasks]: every task of [socket/tasks.go] with its JSON, and their payload;
    - [SyncManager]: [syncManager.go], with a heap for the database objects its map points to;
    - [Socket]: packet ids and the senders of [socket.go], with what the read loop delivers
      while they wait as their environment;
    - [ReadLoop]: the goroutines of one connection ([socket.go]: reader, handler, pings and
      the handlers of events) as a step relation;
    - [Cookies], [Endpoints], [Errors], [Http]: [cookies.go] and [types/client.go],
      [data/endpoints], the errors of the client, and [http.go] with its redirects and retries;
    - [ClientState], [ClientLoop]: [client.go], [configs.go] and [json.go], the client, what is
      saved and restored of it and what it does when it is ready ([events.go]); connecting and
      the loops that connect again, on top of [ReadLoop];
    - [PageModules]: [js_module_parser.go] and [modules.go], what a page sets up;
    - [HttpMethods], [Mercury]: what the client asks over HTTP ([graphql.go], [instagram.go],
      [facebook.go], [messengerlite.go], [media.go], the headers and queries of [http.go]) and
      uploads ([mercury.go]);
    - [DGW]: the frames of [dgw/frames.go], the splitting of messages and what a frame does
      ([dgw/dgwsocket.go]); [DgwLoop]: the goroutines of that connection as steps.

    The connector:
    - [Connection]: [client.go], connecting, states, saving, disconnecting, the encrypted
      connection; [ConnectionEvents]: the handlers of connection events, of the encrypted
      library, the queue of tables, thread backfill and push notifications;
    - [Requests]: the requests of the connector and their answers;
    - [MetaDB]: [metadb/database.go], each query a function on tables of rows that keep the
      unique constraints of the schema;
    - [ChatInfo]: [chatinfo.go], members, power levels and names;
    - [Backfill]: [backfill.go], collectors, the plan of a fetch and its wait;
    - [RemoteEvents]: the handlers of [handlemeta.go] and the event types of [events.go];
      [EventMethods]: what the framework asks of an event; [ParseTable]: [parseTable], the
      order in which a table becomes events;
    - [HandleMatrix]: every handler of [handlematrix.go]; [StartChat]: [startchat.go],
      [userinfo.go] with its caches, and [commands.go]; [Login]: [login.go] and [config.go];
    - [DirectMedia]: [directmedia.go], files that stay at Meta and their addresses.

    Messages ([msgconv]):
    - [Media]: [media.go], downloads whole and in chunks; [Parts]: what a message is converted
      to, and the requests of a conversion;
    - [Mentions]: texts and their mentions, in both directions ([mentions.go]);
    - [FromMeta], [FromWhatsApp]: [from-meta.go] and [from-whatsapp.go];
    - [Outgoing]: [from-matrix.go] and [to-whatsapp.go].

    The login:
    - [BloksScript]: [bloks/script.go], parser and printer; [BloksTree]: pages as trees,
      addressed by paths, and the searches of [bloks/tree.go]; [BloksPages]: pages as they are
      decoded from JSON and given their real names ([bloks/tree.go], [bloks/minify.go]);
    - [BloksInterp]: [bloks/interp.go], one definition per function scripts may call, the
      interpreter with fuel, the bridge as a record, the library as a class [Library];
      [BloksEval]: what holds of every evaluation;
    - [BloksBrowser]: [bloks/selenium.go], the browser, its tables of transitions, its bridge
      and each login step; [BloksLogin]: the login as a whole, against an abstract machine.

    ** The theorems

    - the codec: reading inverts writing ([Byter.struct_roundtrip], [Byter.vlq_codec]), no
      input makes it panic ([Byter.read_never_panics]);
    - packets: what the client writes is read back, and exactly which packets make the reader
      panic ([Mqtt.response_read_panics_iff]);
    - requests: in every interleaving a waiter gets a reply meant for it
      ([ResponseHandler.reply_routing]) and the registry is sound; however a request ends, the
      registry is as it was before ([Socket.request_settles]);
    - the decoder: it terminates on every program ([Lightspeed.decode_total]), keeps the tables
      typed and only appends; a row holds exactly the arguments its tags name
      ([Tables.table_row_is_arguments]) and no argument is lost ([Tables.no_argument_lost]);
    - tasks: what is put on the wire is read back as the tasks it was made of
      ([Tasks.tasks_on_the_wire]);
    - wrapping: each message carries exactly the attachments and reactions that name it, each
      chunk the messages of its thread ([WrapMessages.wrap_messages_bundles], [..._chunks]);
    - syncing: cursors are those of the last transaction, every round continues from the cursor
      it received, and the recursion ends when the cursor does not move;
    - identifiers: printing and parsing are inverse, fresh ids do not repeat;
    - a connection: its goroutines handle every packet in order, the error of the first to
      fail is the one returned, or else the server's refusal
      ([ReadLoop.loop_returns_first_error]), and all of them end unless the reader waits for
      room in the queue of a worker that has ended or in a channel that already holds a reply
      ([ReadLoop.loop_ends_unless_stuck]); the loop around it gives up when the server refuses
      for good ([ClientLoop.refused_client_gives_up]), tells of every failure
      ([ClientLoop.loop_tells_errors]) and waits between two attempts, by how many short
      connections there were ([ClientLoop.loop_waits_bounded]); a connection is set up in order,
      each step after the one before was answered well ([ClientState.ready_in_order]); what is
      written of a client is restored, except for what the JSON leaves out
      ([ClientState.saved_connection_is_restored]);
    - the second connection: frames are read back ([DGW.dgw_frames_roundtrip]), handled in order
      and acknowledged, and it ends, with the first error, unless a goroutine waits for a writer
      that has ended or the reader is caught in a message ([DgwLoop.gateway_ends_unless_stuck]);
    - a page only adds to what is known ([PageModules.page_only_adds]); a LightSpeed request
      gives the tables its answer writes ([HttpMethods.ls_request_gives_tables]), a thread is
      deleted by the id of its route, an upload ends ([Mercury.upload_ends]);
    - the connector's connection: connecting ends and tells the user one final state
      ([Connection.connecting_ends]), the state told is the worst one, a login the server
      refuses is forgotten, disconnecting leaves nothing behind, requests are bounded
      ([Http.requests_are_bounded]), thread backfill ends; the cursors of a table move only
      after the framework took its events ([ConnectionEvents.cursor_moves_after_events]);
    - the connector: which events a table yields and in which order, which collectors a
      batch of history reaches, what a stored row reads back as; what a Matrix message, edit,
      reaction or receipt makes the server do ([HandleMatrix.message_delivery]); a group that
      is created is the one asked for, the ids of users that are found are right
      ([StartChat.ids_agree]), a login is recorded for the user whose page was loaded, with the
      cookies as the responses of the server left them ([Login.cookie_login_is_recorded]), and a
      refreshed address is one the server gave in the same message, by the id or the index
      ([DirectMedia.refreshed_address_is_its_own]);
    - messages: a message that comes in and has what the code dereferences is converted,
      whatever becomes of its files, to parts with ids that differ
      ([FromMeta.message_is_converted], [FromWhatsApp.encrypted_message_is_converted]); files over the limit are not uploaded
      ([FromMeta.large_files_stay]); a video in chunks is read whole; mentions become links
      over exactly the text they name ([Mentions.mentions_become_links]);
    - pages: decoding reads back what was encoded, of literals those that are no other form
      ([BloksPages.page_is_read_back]), attributes
      get their names and naming twice is naming once;
    - scripts: parsing always ends and inverts printing; an evaluation ends when its calls do,
      more fuel never changes a run, arrays and maps are only added, a variable reads back
      what was last written, a lambda is applied to its own arguments
      ([BloksEval.scripts_end], [more_fuel_same_run], [application_binds]);
    - the login: every run of the browser is a run of a small machine of states
      ([BloksLogin.login_refines_machine]), it succeeds only with the session a script handed
      over, and its loop makes progress or asks the user.

    Where the code does something it does not mean to, a theorem states what it does.

    ** Bounds and fuel

    [EncodeVLQ] takes ten rounds of fuel: a non-negative 64-bit integer has at most nine groups
    of seven bits, and a negative one never ends ([Byter.vlq_codec]).  [Decode] takes the size
    of its program as fuel; [decode_total] shows that more changes nothing.  [SyncSocketData]
    takes the number of rounds the server keeps the cursor moving; [sync_terminates] bounds it.
    The reader of [DGW] takes the length of the message: every frame is at least one byte.
    The reader of JSON takes the length of the text plus one, the decoder of UTF-8 and
    [TrimSpace] the length of theirs, a bitmap six bits a group.  The search for a free packet
    id takes the number of active ids plus one.  [connection_loop] and [connectDGW], which run until
    they are cancelled, take the number of rounds.  The retries take the constants of the code:
    five sends, eleven attempts to connect, six tries of a request or an upload, the limit of batches of a
    thread backfill.  The loops over tables and notifications take the number of events the
    environment delivers.  [Media.read_all] takes more than twice the length of the file: a read
    gives a byte, closes a chunk or ends.
    The script parser takes twice the length of the text plus two ([bloks_parse_total]).
    [Evaluate] takes the depth of calls, which scripts may make infinite; [scripts_end] gives
    enough fuel for scripts without loops and [more_fuel_same_run] makes the choice
    immaterial.  [Flatten] takes the number of maps in the heap, beyond which a chain of maps
    contains itself and the source overflows its stack.  The bridge of the browser takes the
    nesting of page set-ups, the login the number of rounds.

    ** What is not modelled

    Parameters of the definitions stand for code outside the repository: the JID and URL
    parsers, the growth of Go slices, sorting, HTML, file extensions, the answers of the server,
    the framework and the encrypted library.  Where a Go map is ranged over, the order is the
    model's own.  Concurrency is modelled where the program's correctness rests on it: the
    reply registry, the goroutines of a connection, and the state of the client while a call
    blocks.  In pages, the HTML parser, the JSON decoder and regular expressions are parameters, and
    so are the decoders of the answers to requests over HTTP.  Ciphers, the store of encryption
    keys and its registration, the tables of capabilities and the command-line tools are not
    modelled; neither are the printing of pages and logging. *)

From Stdlib Require Export ZArith Lia Strings.Byte Strings.String.
From stdpp Require Export base gmap list strings numbers option.
Export list_basics.list list_relations.list list_monad.list list_misc.list.
From coqutil Require Byte Word.LittleEndianList.

#[global] Open Scope Z_scope.

(** ** Outcomes of a Go call

    A Go function of type [(T, error)] returns a value or an error; besides, a call may
    never come back: it panics (index out of range, failed type assertion, send on a closed
    channel), calls [os.Exit], or loops for ever. *)

Inductive halt := HPanic | HExit | HDiverge.

Inductive res (A : Type) : Type :=
| Ok (a : A)
| Err (e : string)
| Halt (h : halt).

Arguments Ok {A} a.
Arguments Err {A} e.
Arguments Halt {A} h.

Abbreviation Panic := (Halt HPanic).
Abbreviation Exit := (Halt HExit).
Abbreviation Diverge := (Halt HDiverge).

#[global] Instance halt_eq_dec : EqDecision halt.
Proof. solve_decision. Defined.

#[global] Instance res_eq_dec `{EqDecision A} : EqDecision (res A).
Proof. solve_decision. Defined.

#[global] Instance res_ret : MRet res := @Ok.

#[global] Instance res_bind : MBind res := fun A B f m =>
  match m with
  | Ok a => f a
  | Err e => Err e
  | Halt h => Halt h
  end.

#[global] Instance res_fmap : FMap res := fun A B f m =>
  match m with
  | Ok a => Ok (f a)
  | Err e => Err e
  | Halt h => Halt h
  end.

(** [is_halt m]: the call does not return to its caller. *)
Definition is_halt {A} (m : res A) : bool :=
  match m with Halt _ => true | _ => false end.

Lemma res_bind_Ok {A B} (m : res A) (f : A -> res B) b :
  m ≫= f = Ok b <-> exists a, m = Ok a /\ f a = Ok b.
Proof. destruct m; cbn; naive_solver. Qed.

Lemma res_bind_Halt {A B} (m : res A) (f : A -> res B) h :
  m ≫= f = Halt h <-> m = Halt h \/ exists a, m = Ok a /\ f a = Halt h.
Proof. destruct m; cbn; naive_solver. Qed.

Lemma res_bind_Err {A B} (m : res A) (f : A -> res B) e :
  m ≫= f = Err e <-> m = Err e \/ exists a, m = Ok a /\ f a = Err e.
Proof. destruct m; cbn; naive_solver. Qed.

Lemma res_bind_ret {A B} (a : A) (f : A -> res B) : Ok a ≫= f = f a.
Proof. reflexivity. Qed.

(** [inv_res H] takes a successful chain of binds apart. *)
Ltac inv_res H :=
  match type of H with
  | _ ≫= _ = Ok _ =>
      let a := fresh "r" in let E := fresh "E" in
      apply res_bind_Ok in H as (a & E & H); try inv_res E; try inv_res H
  | Ok _ = Ok _ => injection H as H; subst
  | Err _ = Ok _ => discriminate H
  | Halt _ = Ok _ => discriminate H
  end.

(** [blia] proves a boolean combination of integer tests true or false; [cond_true] and
    [cond_false] settle the test of an [if] that way. *)
Ltac blia :=
  first [ apply not_true_is_false | idtac ];
  rewrite ?andb_true_iff, ?orb_true_iff, ?negb_true_iff,
    ?Z.leb_le, ?Z.ltb_lt, ?Z.leb_gt, ?Z.ltb_ge, ?Z.eqb_eq, ?Z.eqb_neq,
    ?Nat.leb_le, ?Nat.ltb_lt, ?Nat.eqb_eq; lia.

Ltac cond_true :=
  match goal with |- context [if ?c then _ else _] => replace c with true by (symmetry; blia) end.
Ltac cond_false :=
  match goal with |- context [if ?c then _ else _] => replace c with false by (symmetry; blia) end.

(** ** Machine integers *)

(** Conversion to an unsigned integer of [w] bits keeps the low [w] bits. *)
Definition uintN (w z : Z) : Z := z mod 2 ^ w.

(** Conversion to a signed integer of [w] bits, two's complement. *)
Definition intN (w z : Z) : Z := (z + 2 ^ (w - 1)) mod 2 ^ w - 2 ^ (w - 1).

Abbreviation uint8 := (uintN 8).
Abbreviation uint16 := (uintN 16).
Abbreviation uint32 := (uintN 32).
Abbreviation uint64 := (uintN 64).
Abbreviation int32 := (intN 32).
Abbreviation int64 := (intN 64).

Definition in_uint (w z : Z) : Prop := 0 <= z < 2 ^ w.
Definition in_int (w z : Z) : Prop := - 2 ^ (w - 1) <= z < 2 ^ (w - 1).

Lemma uintN_small w z : in_uint w z -> uintN w z = z.
Proof. intros H. by apply Z.mod_small. Qed.

Lemma uintN_range w z : 0 <= w -> in_uint w (uintN w z).
Proof. intros H. apply Z.mod_pos_bound. lia. Qed.

Lemma intN_small w z : 0 < w -> in_int w z -> intN w z = z.
Proof.
  unfold intN, in_int. intros Hw H.
  assert (2 ^ w = 2 * 2 ^ (w - 1)) as E.
  { replace w with (Z.succ (w - 1)) at 1 by lia. rewrite Z.pow_succ_r; lia. }
  rewrite E, Z.mod_small by lia. lia.
Qed.

Lemma intN_range w z : 0 < w -> in_int w (intN w z).
Proof.
  unfold intN, in_int. intros Hw.
  assert (2 ^ w = 2 * 2 ^ (w - 1)) as E.
  { replace w with (Z.succ (w - 1)) at 1 by lia. rewrite Z.pow_succ_r; lia. }
  pose proof (Z.mod_pos_bound (z + 2 ^ (w - 1)) (2 ^ w)). lia.
Qed.

(** Reinterpreting a signed value as unsigned and back is the identity. *)
Lemma intN_uintN w z : 0 < w -> in_int w z -> intN w (uintN w z) = z.
Proof.
  intros Hw H. rewrite <- (intN_small w z) at 2 by done.
  unfold intN, uintN. by rewrite Z.add_mod_idemp_l by lia.
Qed.

Lemma uintN_intN w z : 0 < w -> in_uint w z -> uintN w (intN w z) = z.
Proof.
  intros Hw H. unfold intN, uintN.
  rewrite Zminus_mod_idemp_l.
  replace (z + 2 ^ (w - 1) - 2 ^ (w - 1)) with z by lia.
  by apply Z.mod_small.
Qed.

(** ** Bytes *)

(** [byte] is the standard library's type of bytes; a Go [[]byte] is a [list byte] and a Go
    [string], a sequence of bytes, a [string]. *)

Abbreviation b2z := Byte.byte.unsigned.
Abbreviation z2b := Byte.byte.of_Z.

Lemma b2z_range b : 0 <= b2z b < 256.
Proof. apply Byte.byte.unsigned_range. Qed.

Lemma b2z_z2b z : b2z (z2b z) = uint8 z.
Proof. apply Byte.byte.unsigned_of_Z. Qed.

Lemma b2z_z2b_small z : in_uint 8 z -> b2z (z2b z) = z.
Proof. intros. rewrite b2z_z2b. by apply uintN_small. Qed.

Lemma z2b_b2z b : z2b (b2z b) = b.
Proof. apply Byte.byte.of_Z_unsigned. Qed.

Lemma b2z_inj a b : b2z a = b2z b -> a = b.
Proof. apply Byte.byte.unsigned_inj. Qed.

#[global] Instance byte_eq_decision : EqDecision byte := Byte.byte_eq_dec.

Abbreviation s2l := list_byte_of_string.
Abbreviation l2s := string_of_list_byte.

Lemma s2l_l2s l : s2l (l2s l) = l.
Proof. apply list_byte_of_string_of_list_byte. Qed.

Lemma l2s_s2l s : l2s (s2l s) = s.
Proof. apply string_of_list_byte_of_string. Qed.

Lemma s2l_length s : length (s2l s) = String.length s.
Proof.
  unfold s2l. induction s as [|a s IH]; [done|]. cbn in *. by rewrite IH.
Qed.

Lemma s2l_app a b : s2l (a ++ b)%string = s2l a ++ s2l b.
Proof.
  induction a as [|c a IH]; [done|].
  change (Ascii.byte_of_ascii c :: s2l (a ++ b)%string = Ascii.byte_of_ascii c :: s2l a ++ s2l b). by rewrite IH.
Qed.

(** Go's [len] of a string or slice, as an [int]. *)
Abbreviation slen s := (Z.of_nat (String.length s)).
Abbreviation llen l := (Z.of_nat (length l)).

(** ** [encoding/binary] *)

(** [le_encode n z]: the [n] low bytes of [z], least significant first
    ([binary.LittleEndian.AppendUint16] and the like); [be_encode] is the big-endian one. *)
Definition le_encode (n : nat) (z : Z) : list byte := LittleEndianList.le_split n z.
Definition le_decode (bs : list byte) : Z := LittleEndianList.le_combine bs.
Definition be_encode (n : nat) (z : Z) : list byte := rev (le_encode n z).
Definition be_decode (bs : list byte) : Z := le_decode (rev bs).

Lemma le_encode_length n z : length (le_encode n z) = n.
Proof. apply LittleEndianList.length_le_split. Qed.

Lemma be_encode_length n z : length (be_encode n z) = n.
Proof. unfold be_encode. by rewrite length_rev, le_encode_length. Qed.

Lemma le_decode_encode n z : le_decode (le_encode n z) = uintN (8 * Z.of_nat n) z.
Proof.
  unfold le_decode, le_encode, uintN. rewrite LittleEndianList.le_combine_split.
  by rewrite Z.mul_comm.
Qed.

Lemma be_decode_encode n z : be_decode (be_encode n z) = uintN (8 * Z.of_nat n) z.
Proof. unfold be_decode, be_encode. by rewrite rev_involutive, le_decode_encode. Qed.

Lemma le_encode_decode n bs : length bs = n -> le_encode n (le_decode bs) = bs.
Proof. apply LittleEndianList.split_le_combine'. Qed.

Lemma be_encode_decode n bs : length bs = n -> be_encode n (be_decode bs) = bs.
Proof.
  intros. unfold be_encode, be_decode.
  rewrite le_encode_decode; [apply rev_involutive | by rewrite length_rev].
Qed.

Lemma le_decode_range bs : in_uint (8 * llen bs) (le_decode bs).
Proof. apply LittleEndianList.le_combine_bound. Qed.

Lemma be_decode_range bs : in_uint (8 * llen bs) (be_decode bs).
Proof.
  unfold be_decode. pose proof (le_decode_range (rev bs)) as H.
  by rewrite length_rev in H.
Qed.

Lemma le_encode_1 z : le_encode 1 z = [z2b z].
Proof. reflexivity. Qed.

Lemma be_encode_1 z : be_encode 1 z = [z2b z].
Proof. reflexivity. Qed.

Lemma le_decode_1 b : le_decode [b] = b2z b.
Proof. apply LittleEndianList.le_combine_1. Qed.

Lemma be_decode_1 b : be_decode [b] = b2z b.
Proof. apply LittleEndianList.le_combine_1. Qed.

(** Encoding depends on the low bytes only. *)
Lemma le_encode_uintN n z : le_encode n (uintN (8 * Z.of_nat n) z) = le_encode n z.
Proof.
  unfold le_encode, uintN. rewrite (LittleEndianList.le_split_mod z).
  by rewrite (Z.mul_comm 8).
Qed.

(** A decidable property of every byte value is checked by enumeration. *)
Lemma forall_below (n : nat) (P : Z -> bool) :
  forallb P (Z.of_nat <$> seq 0 n) = true -> forall z, 0 <= z < Z.of_nat n -> P z = true.
Proof.
  intros H z Hz. rewrite forallb_forall in H. apply H, list_elem_of_In, list_elem_of_fmap.
  exists (Z.to_nat z). split; [lia|]. apply elem_of_seq. lia.
Qed.

(** [by_enum n P] proves [P z = true] for a bounded [z] by evaluating [P] on the whole range. *)
Ltac by_enum n P := apply (forall_below n P); [vm_compute; reflexivity | lia].

Lemma land_127 z : Z.land z 127 = z mod 128.
Proof. change 127 with (Z.ones 7). by rewrite Z.land_ones by lia. Qed.

Lemma lor_128 z : 0 <= z < 128 -> Z.lor z 128 = z + 128.
Proof.
  intros H. apply Z.eqb_eq. by_enum 128%nat (fun z => Z.lor z 128 =? z + 128).
Qed.

Lemma land_128 z : 0 <= z < 256 -> Z.land z 128 = if z <? 128 then 0 else 128.
Proof.
  intros H. apply Z.eqb_eq.
  by_enum 256%nat (fun z => Z.land z 128 =? (if z <? 128 then 0 else 128)).
Qed.

(** Bits below a shifted value do not overlap with it. *)
Lemma lor_shiftl_low a b n : 0 <= n -> 0 <= b < 2 ^ n -> Z.lor (Z.shiftl a n) b = a * 2 ^ n + b.
Proof.
  intros Hn Hb. assert (Z.land (Z.shiftl a n) b = 0) as Hl.
  { apply Z.bits_inj'. intros k Hk. rewrite Z.land_spec, Z.bits_0, Z.shiftl_spec by done.
    destruct (Z.ltb_spec k n); [by rewrite Z.testbit_neg_r by lia|].
    rewrite <- (Z.mod_small b (2 ^ n)) by lia. rewrite Z.mod_pow2_bits_high by lia.
    apply andb_false_r. }
  rewrite <- Z.shiftl_mul_pow2 by done. pose proof (Z.add_lor_land (Z.shiftl a n) b). lia.
Qed.

(** ** Slices *)

(** [index l i] is [l[i]]. *)
Definition index {A} (l : list A) (i : Z) : res A :=
  if 0 <=? i then match l !! Z.to_nat i with Some x => Ok x | None => Panic end else Panic.

(** [slice l lo hi] is [l[lo:hi]] and panics unless [0 <= lo <= hi <= len(l)].  (For a
    slice with spare capacity Go only requires [hi <= cap(l)]; every use below either is
    guarded by a length test or is followed by an access that panics in the same case.) *)
Definition slice {A} (l : list A) (lo hi : Z) : res (list A) :=
  if (0 <=? lo) && (lo <=? hi) && (hi <=? llen l)
  then Ok (take (Z.to_nat (hi - lo)) (drop (Z.to_nat lo) l))
  else Panic.

(** [slice_from l lo] is [l[lo:]]. *)
Definition slice_from {A} (l : list A) (lo : Z) : res (list A) := slice l lo (llen l).

Lemma slice_app {A} (pre mid post : list A) lo hi :
  lo = llen pre -> hi = llen pre + llen mid ->
  slice (pre ++ mid ++ post) lo hi = Ok mid.
Proof.
  intros -> ->. unfold slice. rewrite !length_app.
  cond_true.
  rewrite drop_app_length' by lia. by rewrite take_app_length' by lia.
Qed.

Lemma slice_from_app {A} (pre post : list A) lo :
  lo = llen pre -> slice_from (pre ++ post) lo = Ok post.
Proof.
  intros ->. unfold slice_from. rewrite <- (app_nil_r post) at 1.
  apply slice_app; [done|]. rewrite length_app. lia.
Qed.

Lemma slice_prefix {A} (pre post : list A) hi :
  hi = llen pre -> slice (pre ++ post) 0 hi = Ok pre.
Proof. intros ->. by apply (slice_app []). Qed.

Lemma slice_Ok_length {A} (l : list A) lo hi r :
  slice l lo hi = Ok r -> llen r = hi - lo.
Proof.
  unfold slice. case_match eqn:E; [|done]. intros [= <-].
  rewrite length_take, length_drop. lia.
Qed.

Lemma slice_ok {A} (l : list A) lo hi :
  0 <= lo <= hi -> hi <= llen l ->
  slice l lo hi = Ok (take (Z.to_nat (hi - lo)) (drop (Z.to_nat lo) l)).
Proof. intros. unfold slice. by cond_true. Qed.

Lemma slice_panic {A} (l : list A) lo hi : hi < lo -> slice l lo hi = Panic.
Proof. intros. unfold slice. by cond_false. Qed.

Lemma index_ok {A} (l : list A) i x : l !! Z.to_nat i = Some x -> 0 <= i -> index l i = Ok x.
Proof. intros E H. unfold index. cond_true. by rewrite E. Qed.

Lemma index_app {A} (pre post : list A) x i : i = llen pre -> index (pre ++ x :: post) i = Ok x.
Proof. intros ->. apply index_ok; [|lia]. by rewrite Nat2Z.id, list_lookup_middle. Qed.

(** ** [reflect.Kind] *)

Inductive Kind :=
| KInvalid | KBool | KInt | KInt8 | KInt16 | KInt32 | KInt64
| KUint | KUint8 | KUint16 | KUint32 | KUint64
| KFloat64 | KInterface | KMap | KPtr | KSlice | KString | KStruct.

#[global] Instance Kind_eq_dec : EqDecision Kind.
Proof. solve_decision. Defined.

(** ** Struct tags: [Tag.Get] returns the empty string for a missing key. *)
Fixpoint tag_get (key : string) (tags : list (string * string)) : string :=
  match tags with
  | [] => ""
  | (k, v) :: rest => if (k =? key)%string then v else tag_get key rest
  end.

(** ** Reflexive transitive closure of a step relation *)
Abbreviation steps := rtc.

(** ** Automation shared by the components *)

Create HintDb meta_bytes.
Create Rewrite HintDb meta_bytes.
#[export] Hint Rewrite @length_app le_encode_length be_encode_length s2l_length s2l_l2s l2s_s2l
  : meta_bytes.
#[export] Hint Resolve b2z_range le_decode_range be_decode_range : meta_bytes.

Ltac bytes_simpl := autorewrite with meta_bytes in *.

(** Split every conjunction of boolean tests in the context. *)
Ltac bool_hyps :=
  repeat match goal with
  | H : (_ && _) = true |- _ => apply andb_true_iff in H as [? ?]
  | H : negb _ = true |- _ => apply negb_true_iff in H
  | H : bool_decide _ = true |- _ => apply bool_decide_eq_true in H
  | H : bool_decide _ = false |- _ => apply bool_decide_eq_false in H
  end.
