(* ===== verification/Strconv.v ===== *)
(** * Strconv: the parts of [strconv] and [strings] that the code uses

    [FormatInt] and [ParseInt] in a base of at most ten, [Atoi], [strings.Split],
    [strings.HasPrefix].  [ParseInt] returns a value beside the error, as callers that ignore
    the error see the saturated value. *)

From S2P Require Import Prelude.
From Stdlib Require Import Ascii.

(** ** Digits *)

Definition digit_char (d : Z) : ascii := ascii_of_nat (Z.to_nat (48 + d)).

Definition char_digit (c : ascii) : Z := Z.of_nat (nat_of_ascii c) - 48.

(** The digits of [n >= 0], in front of [acc]. *)
Fixpoint digits (base : Z) (fuel : nat) (n : Z) (acc : string) : string :=
  match fuel with
  | O => acc
  | S fuel =>
      if n <? base then String (digit_char n) acc
      else digits base fuel (n / base) (String (digit_char (n mod base)) acc)
  end.

(** [strconv.FormatInt] of an [int64]: 64 digits suffice from base 2 on. *)
Definition FormatInt (base n : Z) : string :=
  if n <? 0 then String "-"%char (digits base 64 (- n) "") else digits base 64 n "".

(** ** Parsing *)

Inductive NumError := ErrSyntax | ErrRange.

Definition max_uint64 : Z := 2 ^ 64 - 1.

(** The loop of [ParseUint]: a bad character is a syntax error, an overflow that is noticed
    first a range error with the largest value. *)
Fixpoint ParseUint_loop (base n : Z) (s : string) : Z * option NumError :=
  match s with
  | EmptyString => (n, None)
  | String c s =>
      let d := char_digit c in
      if (0 <=? d) && (d <? base) then
        if n >=? max_uint64 / base + 1 then (max_uint64, Some ErrRange)
        else
          let n1 := n * base + d in
          if n1 >? max_uint64 then (max_uint64, Some ErrRange)
          else ParseUint_loop base n1 s
      else (0, Some ErrSyntax)
  end.

Definition ParseUint (base : Z) (s : string) : Z * option NumError :=
  match s with
  | EmptyString => (0, Some ErrSyntax)
  | _ => ParseUint_loop base 0 s
  end.

Definition ParseInt (base : Z) (s : string) : Z * option NumError :=
  match s with
  | EmptyString => (0, Some ErrSyntax)
  | String c rest =>
      let neg := (c =? "-")%char in
      let digs := if neg || (c =? "+")%char then rest else s in
      match ParseUint base digs with
      | (_, Some ErrSyntax) => (0, Some ErrSyntax)
      | (un, _) =>
          let cutoff := 2 ^ 63 in
          if negb neg && (un >=? cutoff) then (cutoff - 1, Some ErrRange)
          else if neg && (un >? cutoff) then (- cutoff, Some ErrRange)
          else (if neg then - un else un, None)
      end
  end.

Definition Atoi (s : string) : Z * option NumError := ParseInt 10 s.

(** ** strings *)

(** [strings.Split(s, sep)] for a one-byte separator. *)
Fixpoint Split (sep : ascii) (s : string) : list string :=
  match s with
  | EmptyString => [""%string]
  | String c s =>
      let parts := Split sep s in
      if (c =? sep)%char then ""%string :: parts
      else match parts with
           | p :: ps => String c p :: ps
           | [] => [String c ""]
           end
  end.

(** [strings.SplitN(s, sep, n)]: at most [n] parts, the last one unsplit. *)
Fixpoint SplitN (sep : ascii) (n : nat) (s : string) : list string :=
  match n with
  | O => []
  | S O => [s]
  | S (S _ as n') =>
      (fix cut (pre rest : string) : list string :=
         match rest with
         | EmptyString => [pre]
         | String c rest' =>
             if (c =? sep)%char then pre :: SplitN sep n' rest'
             else cut (pre ++ String c "")%string rest'
         end) ""%string s
  end.

Definition HasPrefix (s pre : string) : bool := String.prefix pre s.

(** ** Round trip *)

Lemma char_digit_char d : 0 <= d < 10 -> char_digit (digit_char d) = d.
Proof.
  intros H. apply Z.eqb_eq. by_enum 10%nat (fun d => char_digit (digit_char d) =? d).
Qed.

(** Parsing the digits of [n] after having read the value [v] of a prefix. *)
Lemma digits_parse base fuel : forall n v s,
  2 <= base <= 10 -> 0 <= n < base ^ Z.of_nat fuel -> 0 <= v ->
  exists k, n < base ^ k /\ 0 <= k /\
  (v * base ^ k + n <= max_uint64 ->
   ParseUint_loop base v (digits base fuel n s) = ParseUint_loop base (v * base ^ k + n) s).
Proof.
  induction fuel as [|fuel IH]; intros n v s Hb Hn Hv.
  { exists 0. cbn in Hn |- *. split; [lia|]. split; [lia|]. intros _. f_equal. lia. }
  cbn [digits]. destruct (Z.ltb_spec n base) as [Hlt|Hge].
  - exists 1. rewrite Z.pow_1_r. split; [lia|]. split; [lia|]. intros Hm.
    cbn [ParseUint_loop]. rewrite char_digit_char by lia.
    replace ((0 <=? n) && (n <? base)) with true by (symmetry; blia).
    assert (v < max_uint64 / base + 1) as Hq.
    { assert (v <= max_uint64 / base); [|lia]. apply Z.div_le_lower_bound; lia. }
    replace (v >=? max_uint64 / base + 1) with false
      by (symmetry; apply not_true_is_false; rewrite Z.geb_le; lia).
    by replace (v * base + n >? max_uint64) with false
      by (symmetry; apply not_true_is_false; rewrite Z.gtb_lt; lia).
  - rewrite Nat2Z.inj_succ, Z.pow_succ_r in Hn by lia.
    pose proof (Z.div_mod n base ltac:(lia)) as Hdm.
    pose proof (Z.mod_pos_bound n base ltac:(lia)).
    destruct (IH (n / base) v (String (digit_char (n mod base)) s) Hb) as (k & Hk & Hk0 & E);
      [split; [apply Z.div_pos; lia | apply Z.div_lt_upper_bound; lia] | done |].
    exists (Z.succ k). rewrite Z.pow_succ_r by lia. split; [nia|]. split; [lia|].
    intros Hm. rewrite E by nia. cbn [ParseUint_loop]. rewrite char_digit_char by lia.
    replace ((0 <=? n mod base) && (n mod base <? base)) with true by (symmetry; blia).
    set (u := v * base ^ k + n / base) in *.
    assert (u * base + n mod base = v * (base * base ^ k) + n) as Eu by (unfold u; nia).
    assert (u < max_uint64 / base + 1) as Hq.
    { assert (u <= max_uint64 / base); [|lia]. apply Z.div_le_lower_bound; lia. }
    replace (u >=? max_uint64 / base + 1) with false
      by (symmetry; apply not_true_is_false; rewrite Z.geb_le; lia).
    rewrite Eu.
    by replace (v * (base * base ^ k) + n >? max_uint64) with false
      by (symmetry; apply not_true_is_false; rewrite Z.gtb_lt; lia).
Qed.

Lemma digits_not_sign base fuel : forall n s,
  2 <= base <= 10 -> 0 <= n ->
  exists c r, digits base (S fuel) n s = String c r /\
    ((c =? "-")%char = false /\ (c =? "+")%char = false).
Proof.
  assert (forall d, 0 <= d < 10 -> (digit_char d =? "-")%char = false /\ (digit_char d =? "+")%char = false) as Hd.
  { intros d H.
    assert (negb (digit_char d =? "-")%char && negb (digit_char d =? "+")%char = true) as Hx
      by (by_enum 10%nat (fun d => negb (digit_char d =? "-")%char && negb (digit_char d =? "+")%char)).
    apply andb_true_iff in Hx as [H1%negb_true_iff H2%negb_true_iff]. by rewrite H1, H2. }
  induction fuel as [|fuel IH]; intros n s Hb Hn.
  - cbn [digits]. destruct (Z.ltb_spec n base); [do 2 eexists; split; [done|apply Hd; lia]|].
    do 2 eexists. split; [done|]. apply Hd. pose proof (Z.mod_pos_bound n base). lia.
  - change (digits base (S (S fuel)) n s) with
      (if n <? base then String (digit_char n) s
       else digits base (S fuel) (n / base) (String (digit_char (n mod base)) s)).
    destruct (Z.ltb_spec n base); [do 2 eexists; split; [done|apply Hd; lia]|].
    apply IH; [done|]. apply Z.div_pos; lia.
Qed.

Lemma ParseUint_digits n : 0 <= n <= max_uint64 -> forall base, 2 <= base <= 10 ->
  ParseUint base (digits base 64 n "") = (n, None).
Proof.
  intros Hn base Hb.
  destruct (digits_not_sign base 63 n "" Hb) as (c & r & Ed & _); [lia|..].
  unfold ParseUint. rewrite Ed, <- Ed.
  destruct (digits_parse base 64 n 0 "" Hb) as (k & _ & _ & E); [|lia|..].
  { split; [lia|]. assert (2 ^ Z.of_nat 64 <= base ^ Z.of_nat 64) by (apply Z.pow_le_mono_l; lia).
    unfold max_uint64 in Hn. change (2 ^ Z.of_nat 64) with (2 ^ 64) in *. lia. }
  by rewrite E by lia.
Qed.

Lemma ParseInt_FormatInt base n : 2 <= base <= 10 -> in_int 64 n ->
  ParseInt base (FormatInt base n) = (n, None).
Proof.
  unfold in_int. intros Hb Hn. unfold FormatInt. destruct (Z.ltb_spec n 0) as [Hneg|Hpos].
  - cbn [ParseInt]. change ("-" =? "-")%char with true. cbn [orb negb andb].
    rewrite ParseUint_digits by (unfold max_uint64; lia).
    replace (- n >? 2 ^ 63) with false by (symmetry; apply not_true_is_false; rewrite Z.gtb_lt; lia).
    f_equal. lia.
  - destruct (digits_not_sign base 63 n "" Hb Hpos) as (c & r & Ed & Hm & Hp).
    unfold ParseInt. rewrite Ed, Hm, Hp. cbn [orb negb andb]. rewrite <- Ed.
    rewrite ParseUint_digits by (unfold max_uint64; lia).
    by replace (n >=? 2 ^ 63) with false by (symmetry; apply not_true_is_false; rewrite Z.geb_le; lia).
Qed.

Lemma FormatInt_inj base n m : 2 <= base <= 10 -> in_int 64 n -> in_int 64 m ->
  FormatInt base n = FormatInt base m -> n = m.
Proof.
  intros Hb Hn Hm E. pose proof (ParseInt_FormatInt base n Hb Hn) as H1.
  rewrite E, (ParseInt_FormatInt base m Hb Hm) in H1. by injection H1.
Qed.

(** Every value [ParseInt] returns is an [int64], with or without an error. *)
Lemma ParseUint_loop_range base s : 2 <= base <= 10 -> forall n, 0 <= n <= max_uint64 ->
  0 <= fst (ParseUint_loop base n s) <= max_uint64.
Proof.
  intros Hb. induction s as [|c s IH]; intros n Hn; [done|]. cbn [ParseUint_loop].
  destruct ((0 <=? char_digit c) && (char_digit c <? base)) eqn:E; [|by cbn].
  destruct (n >=? _); [done|]. destruct (n * base + char_digit c >? max_uint64) eqn:E2; [done|].
  apply IH. rewrite Z.gtb_ltb, Z.ltb_ge in E2. bool_hyps. rewrite Z.leb_le in *. nia.
Qed.

Lemma ParseInt_range base s : 2 <= base <= 10 -> in_int 64 (fst (ParseInt base s)).
Proof.
  intros Hb. unfold in_int. destruct s as [|c s]; [cbn; lia|]. cbn [ParseInt].
  set (digs := if _ || _ then s else _). clearbody digs.
  assert (0 <= fst (ParseUint base digs) <= max_uint64) as Hr.
  { destruct digs as [|c' d]; [by cbn|]. apply ParseUint_loop_range; [done|by cbn]. }
  destruct (ParseUint base digs) as [un [[]|]]; cbn [fst] in *; [cbn; lia| |];
    destruct (c =? "-")%char; cbn [negb andb fst];
    repeat (match goal with |- context [if ?b then _ else _] => destruct b eqn:? end);
    cbn [fst]; rewrite ?Z.geb_leb, ?Z.gtb_ltb, ?Z.leb_gt, ?Z.ltb_ge in *; lia.
Qed.

(** ** Splitting *)

(** [has_char sep s]: the separator occurs in the string. *)
Fixpoint has_char (sep : ascii) (s : string) : bool :=
  match s with
  | EmptyString => false
  | String c s => (c =? sep)%char || has_char sep s
  end.

Lemma has_char_app sep a b : has_char sep (a ++ b) = has_char sep a || has_char sep b.
Proof. induction a as [|c a IH]; [done|]. simpl. by rewrite IH, orb_assoc. Qed.

Lemma string_app_cons c a b : (String c a ++ b)%string = String c (a ++ b)%string.
Proof. reflexivity. Qed.

Lemma string_app_nil_r s : (s ++ "")%string = s.
Proof. induction s as [|c s IH]; [done|]. by rewrite string_app_cons, IH. Qed.

Lemma string_app_assoc (a b c : string) : (a ++ (b ++ c) = (a ++ b) ++ c)%string.
Proof. induction a as [|x a IH]; [done|]. by rewrite !string_app_cons, IH. Qed.

(** [SplitN] cuts at the first separator. *)
Lemma SplitN_cut sep n a rest : has_char sep a = false ->
  SplitN sep (S (S n)) (a ++ String sep rest) = a :: SplitN sep (S n) rest.
Proof.
  intros Ha. cbn [SplitN].
  match goal with |- context [?F ""%string _] => is_fix F; set (cut := F) end.
  assert (forall pre c r, cut pre (String c r) =
    if (c =? sep)%char then pre :: SplitN sep (S n) r else cut (pre ++ String c "")%string r) as Hcut
    by reflexivity.
  clearbody cut.
  enough (forall pre, cut pre (a ++ String sep rest)%string = (pre ++ a)%string :: SplitN sep (S n) rest)
    as H by apply (H ""%string).
  revert Ha. induction a as [|c a IH]; intros Ha pre.
  - rewrite string_app_nil_r. change ("" ++ String sep rest)%string with (String sep rest).
    by rewrite Hcut, Ascii.eqb_refl.
  - simpl in Ha. apply orb_false_iff in Ha as [Hc Ha].
    rewrite string_app_cons, Hcut, Hc, IH by done. by rewrite <- string_app_assoc.
Qed.

Lemma SplitN_whole sep n s : has_char sep s = false -> SplitN sep (S n) s = [s].
Proof.
  intros Hs. destruct n as [|n]; [done|]. cbn [SplitN].
  match goal with |- context [?F ""%string _] => is_fix F; set (cut := F) end.
  assert (forall pre c r, cut pre (String c r) =
    if (c =? sep)%char then pre :: SplitN sep (S n) r else cut (pre ++ String c "")%string r) as Hcut
    by reflexivity.
  assert (forall pre, cut pre ""%string = [pre]) as Hnil by reflexivity.
  clearbody cut.
  enough (forall pre, cut pre s = [(pre ++ s)%string]) as H by apply (H ""%string).
  revert Hs. induction s as [|c s IH]; intros Hs pre.
  - by rewrite string_app_nil_r.
  - simpl in Hs. apply orb_false_iff in Hs as [Hc Hs].
    rewrite Hcut, Hc, IH by done. by rewrite <- string_app_assoc.
Qed.

(** A string with a separator falls apart at its first one. *)
Lemma has_char_split sep s : has_char sep s = true ->
  exists a rest, s = (a ++ String sep rest)%string /\ has_char sep a = false.
Proof.
  induction s as [|c s IH]; [done|]. cbn. destruct (Ascii.eqb_spec c sep) as [->|Hne].
  - intros _. by exists ""%string, s.
  - cbn. intros (a & rest & -> & Ha)%IH. exists (String c a), rest. split; [done|]. cbn.
    rewrite Ha. destruct (Ascii.eqb_spec c sep); done.
Qed.

(** ** The characters of a printed number *)

Definition is_digit (c : ascii) : bool := (48 <=? nat_of_ascii c)%nat && (nat_of_ascii c <=? 57)%nat.

Fixpoint all_chars (p : ascii -> bool) (s : string) : bool :=
  match s with String c s => p c && all_chars p s | EmptyString => true end.

Lemma all_chars_app p a b : all_chars p (a ++ b)%string = all_chars p a && all_chars p b.
Proof. induction a as [|c a IH]; [done|]. rewrite string_app_cons. cbn. by rewrite IH, andb_assoc. Qed.

Lemma all_chars_impl (p q : ascii -> bool) s : (forall c, p c = true -> q c = true) ->
  all_chars p s = true -> all_chars q s = true.
Proof.
  intros Hpq. induction s as [|c s IH]; [done|]. cbn. rewrite !andb_true_iff. intros [Hc Hs].
  split; [by apply Hpq|by apply IH].
Qed.

Lemma digit_char_digit d : 0 <= d < 10 -> is_digit (digit_char d) = true.
Proof.
  intros H. assert (d = 0 \/ d = 1 \/ d = 2 \/ d = 3 \/ d = 4 \/ d = 5 \/ d = 6 \/ d = 7 \/ d = 8 \/ d = 9) as
    [->|[->|[->|[->|[->|[->|[->|[->|[->| ->]]]]]]]]] by lia; reflexivity.
Qed.

Lemma digits_all fuel : forall n acc, 0 <= n -> all_chars is_digit acc = true ->
  all_chars is_digit (digits 10 fuel n acc) = true.
Proof.
  induction fuel as [|fuel IH]; intros n acc Hn Ha; [done|]. cbn [digits].
  destruct (n <? 10) eqn:E.
  - cbn. by rewrite digit_char_digit, Ha by lia.
  - apply IH; [by apply Z.div_pos|]. cbn. by rewrite digit_char_digit, Ha by (apply Z.mod_pos_bound; lia).
Qed.

Lemma digits_nonempty fuel n acc : (fuel <> 0)%nat \/ acc <> ""%string -> digits 10 fuel n acc <> ""%string.
Proof.
  revert n acc. induction fuel as [|fuel IH]; intros n acc H; [cbn; destruct H as [H|H]; [lia|done]|].
  cbn. destruct (n <? 10); [done|]. apply IH. by right.
Qed.


(** A printed integer: an optional sign and digits, at least one character. *)
Lemma FormatInt_chars n : all_chars (fun c => is_digit c || (c =? "-")%char) (FormatInt 10 n) = true /\
  FormatInt 10 n <> ""%string.
Proof.
  assert (forall n, 0 <= n -> all_chars (fun c => is_digit c || (c =? "-")%char) (digits 10 64 n "") = true) as Hd.
  { intros m Hm. apply (all_chars_impl is_digit); [by intros c ->|by apply digits_all]. }
  unfold FormatInt. destruct (Z.ltb_spec n 0).
  - split; [|done]. cbn [all_chars]. by rewrite Hd by lia.
  - split; [by apply Hd|]. apply digits_nonempty. by left.
Qed.

(** ** Parts of strings *)

(** [s[:n]] and [s[n:]] with [n] in range. *)
Definition str_to (n : Z) (s : string) : string := String.substring 0 (Z.to_nat n) s.
Definition str_from (n : Z) (s : string) : string :=
  String.substring (Z.to_nat n) (String.length s - Z.to_nat n) s.

Lemma string_app_length a b : String.length (a ++ b)%string = (String.length a + String.length b)%nat.
Proof. induction a as [|c a IH]; [done|]. rewrite string_app_cons. cbn. by rewrite IH. Qed.

Lemma substring_app_l a b : String.substring 0 (String.length a) (a ++ b)%string = a.
Proof. induction a as [|c a IH]; [by destruct b|]. rewrite string_app_cons. cbn. by rewrite IH. Qed.

Lemma substring_app_r a b n : String.substring (String.length a) n (a ++ b)%string = String.substring 0 n b.
Proof. induction a as [|c a IH]; [done|]. rewrite string_app_cons. cbn. by rewrite IH. Qed.

Lemma substring_all s : String.substring 0 (String.length s) s = s.
Proof. rewrite <- (string_app_nil_r s) at 2. apply substring_app_l. Qed.

Lemma str_to_app a b : str_to (slen a) (a ++ b) = a.
Proof. unfold str_to. rewrite Nat2Z.id. apply substring_app_l. Qed.

Lemma str_from_app a b : str_from (slen a) (a ++ b) = b.
Proof.
  unfold str_from. rewrite Nat2Z.id, substring_app_r, string_app_length.
  replace (_ - _)%nat with (String.length b) by lia. apply substring_all.
Qed.
