(* ===== verification/Bitmap.v ===== *)
(** * Bitmap: the sets of modules a page reports ([crypto/bitmap.go], [configs.go])

    A set of indices, and its compression: the first bit, the lengths of the runs in the gamma
    code, and an encoding of six bits to a character.  [decompress] is the other end. *)

From Stdlib Require Import Ascii.
From S2P Require Import Prelude Strconv.
#[local] Open Scope Z_scope.

Definition charMap : string := "0123456789abcdefghijklmnopqrstuvwxyzABCDEFGHIJKLMNOPQRSTUVWXYZ-_".

Record Bitmap := mkBitmap { BMap : list Z; CompressedStr : string }.

Definition NewBitmap : Bitmap := mkBitmap [] "".

(** ** Update *)

Definition max_index (data : list Z) : Z := foldl (fun m index => if index >? m then index else m) (-1) data.

(** The second loop: a new index drops the cached string. *)
Fixpoint set_bits (data : list Z) (b : Bitmap) : res Bitmap :=
  match data with
  | [] => Ok b
  | i :: data =>
      v ← index (BMap b) i;
      let str := if (v =? 0) && negb (CompressedStr b =? "")%string then ""%string else CompressedStr b in
      set_bits data (mkBitmap (<[Z.to_nat i := 1]> (BMap b)) str)
  end.

Definition expand (n : Z) (l : list Z) : list Z :=
  if n >=? llen l then l ++ replicate (Z.to_nat (n + 1 - llen l)) 0 else l.

Definition Update (data : list Z) (b : Bitmap) : res Bitmap :=
  set_bits data (mkBitmap (expand (max_index data) (BMap b)) (CompressedStr b)).

(** ** Compression *)

Fixpoint zeros (n : nat) : string := match n with O => "" | S n => String "0" (zeros n) end.

Definition encodeRunLength (num : Z) : string :=
  let binaryStr := FormatInt 2 num in
  (zeros (String.length binaryStr - 1) ++ binaryStr)%string.

(** The bits, padded with zeros to groups of six; each group is a character. *)
Fixpoint pad (fuel : nat) (s : string) : string :=
  match fuel with
  | O => s
  | S fuel => if (String.length s mod 6 =? 0)%nat then s else pad fuel (s ++ "0")
  end.

Definition char_of (group : string) : string :=
  match String.get (Z.to_nat (fst (ParseInt 2 group))) charMap with Some c => String c "" | None => "" end.

Fixpoint groups (fuel : nat) (s : string) : string :=
  match fuel, s with
  | O, _ | _, EmptyString => ""
  | S fuel, _ => (char_of (str_to 6 s) ++ groups fuel (str_from 6 s))%string
  end.

Definition encodeBase64 (s : string) : string := let s := pad 6 s in groups (String.length s) s.

(** The loop over the bits, with the last value and its count. *)
Fixpoint compress_runs (l : list Z) (lastValue count : Z) : string :=
  match l with
  | [] => if count >? 0 then encodeRunLength count else ""
  | currentValue :: l =>
      if currentValue =? lastValue then compress_runs l lastValue (count + 1)
      else (encodeRunLength count ++ compress_runs l currentValue 1)%string
  end.

(** The string of bits of a map that is not empty. *)
Definition compress (l : list Z) : string :=
  match l with
  | [] => ""
  | lastValue :: l => encodeBase64 (FormatInt 10 lastValue ++ compress_runs l lastValue 1)
  end.

Definition ToCompressedString (b : Bitmap) : Bitmap :=
  if llen (BMap b) =? 0 then b
  else if negb (CompressedStr b =? "")%string then b
  else mkBitmap (BMap b) (compress (BMap b)).

(** [LoadBitmaps] of one of the maps: what is collected in its [BMap] are indices. *)
Definition LoadBitmap (indices : list Z) : res Bitmap := b ← Update indices NewBitmap; Ok (ToCompressedString b).

(** ** The other end *)

(** The six bits of a character. *)
Definition bits_of (c : ascii) : string :=
  match String.index 0 (String c "") charMap with
  | Some n => let s := FormatInt 2 (Z.of_nat n) in (zeros (6 - String.length s) ++ s)%string
  | None => ""
  end.

Fixpoint all_bits (s : string) : string :=
  match s with EmptyString => "" | String c s => (bits_of c ++ all_bits s)%string end.

(** The number of zeros in front, and what follows. *)
Fixpoint leading (s : string) : nat * string :=
  match s with
  | String c r => if (c =? "0")%char then let '(n, r) := leading r in (S n, r) else (O, s)
  | EmptyString => (O, s)
  end.

(** The runs of bits, from [v] on; zeros at the end are padding. *)
Fixpoint read_runs (fuel : nat) (v : Z) (s : string) : list Z :=
  match fuel with
  | O => []
  | S fuel =>
      let '(k, r) := leading s in
      if (r =? "")%string then []
      else replicate (Z.to_nat (fst (ParseInt 2 (str_to (Z.of_nat (S k)) r)))) v
             ++ read_runs fuel (1 - v) (str_from (Z.of_nat (S k)) r)
  end.

Definition decompress (s : string) : list Z :=
  match all_bits s with
  | EmptyString => []
  | String c r => read_runs (String.length r) (char_digit c) r
  end.

Example compress_example :
  CompressedStr (ToCompressedString (mkBitmap [0; 0; 1; 0; 1; 1; 1] "")) = "bo"%string /\
  decompress "bo" = [0; 0; 1; 0; 1; 1; 1].
Proof. by vm_compute. Qed.

(** ** Lemmas: strings of bits *)

Definition is_bit (c : ascii) : bool := (c =? "0")%char || (c =? "1")%char.
Definition bit_string (s : string) : bool := all_chars is_bit s.

Lemma is_bit_cases c : is_bit c = true -> c = "0"%char \/ c = "1"%char.
Proof. unfold is_bit. rewrite orb_true_iff, !Ascii.eqb_eq. done. Qed.

Lemma zeros_bits n : bit_string (zeros n) = true.
Proof. unfold bit_string. induction n as [|n IH]; [done|]. cbn. by rewrite IH. Qed.

(** The digits in base two: bits, the first of which is a one. *)
Lemma digits2 fuel : forall n acc, 0 < n < 2 ^ Z.of_nat fuel -> bit_string acc = true ->
  exists r, digits 2 fuel n acc = String "1" r /\ bit_string r = true.
Proof.
  induction fuel as [|fuel IH]; intros n acc Hn Ha; [change (2 ^ Z.of_nat 0) with 1 in Hn; lia|].
  cbn [digits]. destruct (Z.ltb_spec n 2) as [H|H].
  - assert (n = 1) as -> by lia. by exists acc.
  - apply IH.
    + rewrite Nat2Z.inj_succ, Z.pow_succ_r in Hn by lia. Z.to_euclidean_division_equations; lia.
    + pose proof (Z.mod_pos_bound n 2 ltac:(lia)).
      assert (n mod 2 = 0 \/ n mod 2 = 1) as [-> | ->] by lia; done.
Qed.

Lemma FormatInt2 n : 0 < n < 2 ^ 63 -> exists r, FormatInt 2 n = String "1" r /\ bit_string r = true.
Proof.
  intros H. unfold FormatInt. cond_false. apply digits2; [|done].
  change (Z.of_nat 64) with 64. change (2 ^ 64) with (2 * 2 ^ 63). lia.
Qed.

(** ** Lemmas: runs *)

Lemma leading_zeros k r : leading (zeros k ++ String "1" r) = (k, String "1" r).
Proof. induction k as [|k IH]; [done|]. cbn [zeros]. rewrite string_app_cons. cbn [leading]. by rewrite IH. Qed.

Lemma leading_only_zeros k : leading (zeros k) = (k, ""%string).
Proof. induction k as [|k IH]; [done|]. cbn. by rewrite IH. Qed.

Lemma read_padding fuel v k : read_runs fuel v (zeros k) = [].
Proof. destruct fuel; [done|]. cbn [read_runs]. by rewrite leading_only_zeros. Qed.

Lemma read_run fuel v n rest : 0 < n < 2 ^ 63 ->
  read_runs (S fuel) v (encodeRunLength n ++ rest) = replicate (Z.to_nat n) v ++ read_runs fuel (1 - v) rest.
Proof.
  intros Hn. unfold encodeRunLength. destruct (FormatInt2 n Hn) as (r & E & _). rewrite E.
  rewrite <- string_app_assoc. cbn [String.length]. replace (S (String.length r) - 1)%nat with (String.length r) by lia.
  rewrite string_app_cons. cbn [read_runs]. rewrite leading_zeros.
  change (String "1" (r ++ rest) =? "")%string with false. cbn iota.
  change (String "1" (r ++ rest)) with (String "1" r ++ rest)%string.
  replace (Z.of_nat (S (String.length r))) with (slen (String "1" r)) by done.
  rewrite str_to_app, str_from_app, <- E, ParseInt_FormatInt; [done|lia|].
  unfold in_int. change (64 - 1) with 63. lia.
Qed.

Lemma encodeRunLength_length n : 0 < n < 2 ^ 63 -> (0 < String.length (encodeRunLength n))%nat.
Proof.
  intros Hn. unfold encodeRunLength. destruct (FormatInt2 n Hn) as (r & E & _). rewrite E, string_app_length. cbn. lia.
Qed.

Lemma encodeRunLength_bits n : 0 < n < 2 ^ 63 -> bit_string (encodeRunLength n) = true.
Proof.
  intros Hn. unfold encodeRunLength. destruct (FormatInt2 n Hn) as (r & E & Hr). rewrite E.
  unfold bit_string. rewrite all_chars_app. apply andb_true_iff. split; [apply zeros_bits|exact Hr].
Qed.

Definition bit (x : Z) : Prop := x = 0 \/ x = 1.

Lemma read_compressed l : forall v count fuel p, bit v -> Forall bit l -> 0 < count -> count + llen l < 2 ^ 63 ->
  (String.length (compress_runs l v count) <= fuel)%nat ->
  read_runs fuel v (compress_runs l v count ++ zeros p) = replicate (Z.to_nat count) v ++ l.
Proof.
  induction l as [|x l IH]; intros v count fuel p Hv Hl Hc Hb Hf; cbn [compress_runs length] in *.
  - replace (count >? 0) with true in * by (symmetry; apply Z.gtb_lt; lia).
    pose proof (encodeRunLength_length count ltac:(lia)). destruct fuel as [|fuel]; [lia|].
    rewrite read_run by lia. by rewrite read_padding, app_nil_r.
  - apply Forall_cons in Hl as [Hx Hl]. destruct (Z.eqb_spec x v) as [->|Hne].
    + rewrite IH by (done || lia). replace (Z.to_nat (count + 1)) with (Z.to_nat count + 1)%nat by lia.
      by rewrite replicate_add, <- app_assoc.
    + rewrite string_app_length in Hf. pose proof (encodeRunLength_length count ltac:(lia)).
      destruct fuel as [|fuel]; [lia|]. rewrite <- string_app_assoc, read_run by lia.
      replace (1 - v) with x by (destruct Hv, Hx; lia). by rewrite IH by (done || lia).
Qed.

Lemma compress_runs_bits l : forall v count, 0 < count -> count + llen l < 2 ^ 63 ->
  bit_string (compress_runs l v count) = true.
Proof.
  induction l as [|x l IH]; intros v count Hc Hb; cbn [compress_runs length] in *.
  - replace (count >? 0) with true by (symmetry; apply Z.gtb_lt; lia). apply encodeRunLength_bits. lia.
  - destruct (x =? v); [apply IH; lia|]. unfold bit_string. rewrite all_chars_app. apply andb_true_iff.
    split; [apply encodeRunLength_bits; lia|apply IH; lia].
Qed.

(** ** Lemmas: groups of six *)

Lemma group_read c1 c2 c3 c4 c5 c6 : Forall (fun c => is_bit c = true) [c1; c2; c3; c4; c5; c6] ->
  let g := String c1 (String c2 (String c3 (String c4 (String c5 (String c6 ""))))) in
  exists c, char_of g = String c "" /\ bits_of c = g.
Proof.
  intros H. repeat (apply Forall_cons in H as [?%is_bit_cases H]).
  repeat match goal with H : _ \/ _ |- _ => destruct H as [-> | ->] end;
    eexists; (split; [vm_compute; reflexivity|vm_compute; reflexivity]).
Qed.

Lemma groups_read n : forall fuel s, String.length s = (6 * n)%nat -> (n <= fuel)%nat -> bit_string s = true ->
  all_bits (groups fuel s) = s.
Proof.
  induction n as [|n IH]; intros fuel s Hl Hf Hs; [destruct s; [by destruct fuel|done]|].
  destruct fuel as [|fuel]; [lia|].
  do 6 (destruct s as [|? s]; [cbn in Hl; lia|]). unfold bit_string in Hs. cbn in Hs.
  rewrite !andb_true_iff in Hs. destruct Hs as (H1 & H2 & H3 & H4 & H5 & H6 & Hs).
  cbn [groups]. set (g := String a (String a0 (String a1 (String a2 (String a3 (String a4 "")))))).
  change (String a (String a0 (String a1 (String a2 (String a3 (String a4 s)))))) with (g ++ s)%string.
  change 6 with (slen g). rewrite str_to_app, str_from_app.
  destruct (group_read a a0 a1 a2 a3 a4) as (c & Ec & Eb); [by repeat constructor|]. fold g in Ec, Eb.
  rewrite Ec. rewrite string_app_cons. change (("" ++ ?x)%string) with x. cbn [all_bits]. rewrite Eb, IH; [done|cbn in Hl; lia|lia|done].
Qed.

Lemma pad_spec fuel : forall s, ((6 - String.length s mod 6) mod 6 <= fuel)%nat ->
  exists p, pad fuel s = (s ++ zeros p)%string /\ (String.length (pad fuel s) mod 6 = 0)%nat.
Proof.
  induction fuel as [|fuel IH]; intros s Hf; cbn [pad].
  - exists 0%nat. rewrite string_app_nil_r. split; [done|].
    pose proof (Nat.mod_upper_bound (String.length s) 6 ltac:(lia)).
    destruct (decide (String.length s mod 6 = 0)%nat); [done|].
    rewrite Nat.mod_small in Hf by lia. lia.
  - destruct (Nat.eqb_spec (String.length s mod 6) 0) as [E|E]; [exists 0%nat; by rewrite string_app_nil_r|].
    destruct (IH (s ++ "0")%string) as (p & Ep & Hp).
    + rewrite string_app_length. change (String.length "0") with 1%nat.
      pose proof (Nat.mod_upper_bound (String.length s) 6 ltac:(lia)).
      rewrite (Nat.mod_small (6 - _)) in Hf by lia.
      rewrite Nat.Div0.add_mod, (Nat.mod_small 1 6) by lia.
      destruct (decide (String.length s mod 6 = 5)%nat) as [-> |]; [cbn; lia|].
      rewrite (Nat.mod_small (_ mod 6 + 1) 6) by lia. rewrite Nat.mod_small by lia. lia.
    + exists (S p). split; [|done]. rewrite Ep, <- string_app_assoc. done.
Qed.

Lemma encodeBase64_read s : bit_string s = true -> exists p, all_bits (encodeBase64 s) = (s ++ zeros p)%string.
Proof.
  intros Hs. unfold encodeBase64. destruct (pad_spec 6 s) as (p & Ep & Hm).
  { pose proof (Nat.mod_upper_bound (6 - String.length s mod 6) 6 ltac:(lia)). lia. }
  exists p. rewrite <- Ep. apply Nat.Div0.mod_divides in Hm as (n & Hn).
  apply (groups_read n); [done|lia|]. rewrite Ep. unfold bit_string. rewrite all_chars_app.
  apply andb_true_iff. split; [done|apply zeros_bits].
Qed.

Lemma bitmap_decompress l : l <> [] -> Forall bit l -> llen l < 2 ^ 63 -> decompress (compress l) = l.
Proof.
  destruct l as [|v l]; [done|]. intros _ Hb Hl. apply Forall_cons in Hb as [Hv Hb]. cbn [length] in Hl.
  unfold decompress, compress.
  assert (exists c, FormatInt 10 v = String c "" /\ is_bit c = true /\ char_digit c = v) as (c & Ec & Hc & Ed).
  { destruct Hv as [-> | ->]; eexists; (split; [reflexivity|done]). }
  rewrite Ec, string_app_cons. change (("" ++ ?x)%string) with x.
  destruct (encodeBase64_read (String c (compress_runs l v 1))) as (p & ->).
  { unfold bit_string. cbn. rewrite Hc. apply compress_runs_bits; lia. }
  rewrite string_app_cons, Ed, read_compressed; [done|done|done|lia|lia|]. rewrite string_app_length. lia.
Qed.

(** ** Lemmas: updates *)

Lemma max_index_spec data : forall m, let n := foldl (fun m i => if i >? m then i else m) m data in
  m <= n /\ Forall (fun i => i <= n) data /\ (n = m \/ n ∈ data).
Proof.
  induction data as [|i data IH]; intros m; cbv zeta; cbn [foldl]; [split_and!; [lia|constructor|by left]|].
  destruct (Z.gtb_spec i m); [destruct (IH i) as (H1 & H2 & H3) | destruct (IH m) as (H1 & H2 & H3)].
  - split_and!; [lia|by constructor|]. right. destruct H3 as [-> |H3]; [by left|by right].
  - split_and!; [lia|constructor; [lia|done]|]. destruct H3 as [-> |H3]; [by left|right; by right].
Qed.

Lemma expand_lookup n l i : expand n l !! i = Some 1 <-> l !! i = Some 1.
Proof.
  unfold expand. destruct (n >=? llen l); [|done]. rewrite lookup_app.
  destruct (l !! i) eqn:E; [done|]. split; [|done]. intros [H _]%lookup_replicate. done.
Qed.

Lemma expand_length n l : -1 <= n -> llen l <= llen (expand n l) /\ n < llen (expand n l) /\
  (llen (expand n l) = llen l \/ llen (expand n l) = n + 1).
Proof.
  intros Hn. unfold expand. destruct (Z.geb_spec n (llen l)); [|lia]. rewrite length_app, length_replicate. lia.
Qed.

Lemma expand_bits n l : Forall bit l -> Forall bit (expand n l).
Proof.
  intros H. unfold expand. destruct (n >=? llen l); [|done]. apply Forall_app. split; [done|].
  apply Forall_replicate. by left.
Qed.

(** The bits after the second loop, and the cached string: kept only if nothing has changed. *)
Lemma set_bits_spec data : forall b, Forall (fun i => 0 <= i < llen (BMap b)) data -> Forall bit (BMap b) ->
  exists b', set_bits data b = Ok b' /\ length (BMap b') = length (BMap b) /\ Forall bit (BMap b') /\
    (forall i, BMap b' !! i = Some 1 <-> BMap b !! i = Some 1 \/ Z.of_nat i ∈ data) /\
    (CompressedStr b' = ""%string \/ b' = b).
Proof.
  induction data as [|i data IH]; intros b Hd Hb.
  { exists b. cbn [set_bits]. split_and!; [done|done|done| |by right].
    intros i. split; [by left|]. intros [H|H]; [done|]. by apply elem_of_nil in H. }
  apply Forall_cons in Hd as [Hi Hd]. cbn [set_bits].
  destruct (lookup_lt_is_Some_2 (BMap b) (Z.to_nat i)) as [v Hv]; [lia|].
  rewrite (index_ok _ _ v) by (done || lia). cbn [mbind res_bind].
  set (str := if _ && _ then _ else _).
  destruct (IH (mkBitmap (<[Z.to_nat i:=1]> (BMap b)) str)) as (b' & E & Hl & Hb' & Hbits & Hs).
  { cbn [BMap]. by rewrite length_insert. }
  { cbn [BMap]. apply Forall_insert; [done|by right]. }
  exists b'. cbn [BMap CompressedStr] in *. rewrite length_insert in Hl. split_and!; [done|done|done| |].
  - intros j. rewrite Hbits, elem_of_cons. destruct (decide (Z.to_nat i = j)) as [<-|Hne].
    + rewrite list_lookup_insert_eq by lia. split; intros _; [right; left; lia|by left].
    + rewrite list_lookup_insert_ne by done. split; [naive_solver|]. intros [H|[H|H]]; [naive_solver|lia|naive_solver].
  - destruct Hs as [Hs| ->]; [by left|]. cbn [CompressedStr]. subst str.
    pose proof (Forall_lookup_1 _ _ _ _ Hb Hv) as [-> | ->].
    + destruct (String.eqb_spec (CompressedStr b) ""); left; cbn; [done|done].
    + right. rewrite list_insert_id by done. by destruct b.
Qed.

Definition bits_ok (b : Bitmap) : Prop := Forall bit (BMap b).

(** The cached string is the one of the current bits, or there is none. *)
Definition cache_ok (b : Bitmap) : Prop := CompressedStr b = ""%string \/ CompressedStr b = compress (BMap b).

Lemma Update_spec data b : Forall (fun i => 0 <= i) data -> bits_ok b -> cache_ok b ->
  exists b', Update data b = Ok b' /\ bits_ok b' /\ cache_ok b' /\ llen (BMap b) <= llen (BMap b') /\
    (forall n, llen (BMap b) <= n -> Forall (fun i => i < n) data -> llen (BMap b') <= n) /\
    (data <> [] -> BMap b' <> []) /\
    (forall i, BMap b' !! i = Some 1 <-> BMap b !! i = Some 1 \/ Z.of_nat i ∈ data).
Proof.
  intros Hd Hb Hc. destruct (max_index_spec data (-1)) as (H1 & H2 & H3). fold (max_index data) in *.
  destruct (expand_length (max_index data) (BMap b) H1) as (L1 & L2 & L3).
  destruct (set_bits_spec data (mkBitmap (expand (max_index data) (BMap b)) (CompressedStr b))) as (b' & E & Hl & Hbits & Hi & Hs).
  { cbn [BMap]. rewrite Forall_forall in *. intros i Hin. specialize (Hd i Hin). specialize (H2 i Hin). cbn in *. lia. }
  { by apply expand_bits. }
  exists b'. cbn [BMap CompressedStr] in *.
  assert (forall i, BMap b' !! i = Some 1 <-> BMap b !! i = Some 1 \/ Z.of_nat i ∈ data) as Hiff.
  { intros i. by rewrite Hi, expand_lookup. }
  split_and!; [done|done| |lia| | |done].
  - destruct Hs as [Hs| ->]; [by left|]. destruct Hc as [Hc|Hc]; [by left|]. cbn [BMap CompressedStr] in *.
    destruct (decide (llen (expand (max_index data) (BMap b)) = llen (BMap b))) as [Ee|Ne].
    + right. unfold expand in *. destruct (Z.geb_spec (max_index data) (llen (BMap b))); [|done].
      rewrite length_app, length_replicate in Ee. lia.
    + exfalso. assert (max_index data ∈ data) as Hm by (destruct H3 as [E3|]; [|done]; lia).
      pose proof (Forall_forall (fun i => 0 <= i) data) as [Hp _]. specialize (Hp Hd _ Hm). cbn in Hp.
      destruct (Hiff (Z.to_nat (max_index data))) as [_ Hx]. rewrite Z2Nat.id in Hx by lia.
      specialize (Hx (or_intror Hm)). rewrite expand_lookup in Hx. apply lookup_lt_Some in Hx. lia.
  - intros n Hn Hall. destruct L3 as [E3|E3]; rewrite Hl; [lia|]. rewrite E3.
    destruct H3 as [-> |Hm]; [lia|]. rewrite Forall_forall in Hall. specialize (Hall _ Hm). lia.
  - intros Hne En. rewrite En in Hl. cbn in Hl. destruct data as [|i data]; [done|].
    apply Forall_cons in Hd as [Hd _]. apply Forall_cons in H2 as [H2 _]. lia.
Qed.

Lemma ToCompressedString_BMap b : BMap (ToCompressedString b) = BMap b.
Proof. unfold ToCompressedString. by repeat case_match. Qed.

(** ** Properties *)

(** The string a page reports for a list of indices, decoded, has a one exactly at those
    indices. *)
Theorem bitmap_reports_set indices (Hne : indices <> []) (Hr : Forall (fun i => 0 <= i < 2 ^ 62) indices) :
  exists b, LoadBitmap indices = Ok b /\
    forall i, decompress (CompressedStr b) !! i = Some 1 <-> Z.of_nat i ∈ indices.
Proof.
  unfold LoadBitmap.
  destruct (Update_spec indices NewBitmap) as (b & -> & Hb & Hc & _ & Hn & Hd & Hi).
  { eapply Forall_impl; [exact Hr|]. cbn. lia. }
  { constructor. } { by left. }
  eexists. split; [done|]. intros i.
  assert (CompressedStr (ToCompressedString b) = compress (BMap b)) as ->.
  { unfold ToCompressedString. specialize (Hd Hne). destruct (Z.eqb_spec (llen (BMap b)) 0) as [E|_].
    { destruct (BMap b); [done|cbn in E; lia]. }
    destruct (String.eqb_spec (CompressedStr b) ""); [done|]. cbn [negb]. by destruct Hc. }
  rewrite bitmap_decompress; [|by apply Hd|done|].
  - rewrite Hi. cbn [BMap NewBitmap]. rewrite lookup_nil. naive_solver.
  - specialize (Hn (2 ^ 62) ltac:(cbn; lia)). assert (llen (BMap b) <= 2 ^ 62); [|lia]. apply Hn.
    eapply Forall_impl; [exact Hr|]. cbn. lia.
Qed.

(** The cached string is never stale: after any updates and compressions it is the one of
    the bits as they are, and compressing gives the one of the bits whether or not there is a
    cached one. *)
Theorem bitmap_cache_fresh b data (Hb : bits_ok b) (Hc : cache_ok b) (Hd : Forall (fun i => 0 <= i) data) :
  exists b', Update data b = Ok b' /\ cache_ok b' /\ cache_ok (ToCompressedString b') /\
    (BMap b' <> [] -> CompressedStr (ToCompressedString b') = compress (BMap b')).
Proof.
  destruct (Update_spec data b Hd Hb Hc) as (b' & E & Hb' & Hc' & _). exists b'. split; [done|]. split; [done|].
  assert (BMap b' <> [] -> CompressedStr (ToCompressedString b') = compress (BMap b')) as H.
  { intros Hne. unfold ToCompressedString. destruct (Z.eqb_spec (llen (BMap b')) 0) as [E0|_].
    { destruct (BMap b'); [done|cbn in E0; lia]. }
    destruct (String.eqb_spec (CompressedStr b') ""); [done|]. cbn [negb]. by destruct Hc'. }
  split; [|done]. destruct (BMap b') eqn:Eb.
  - unfold ToCompressedString. by rewrite Eb.
  - right. rewrite H by done. by rewrite ToCompressedString_BMap, Eb.
Qed.

Lemma bitmap_reports_set_witness :
  exists b, LoadBitmap [3; 70; 3; 12] = Ok b /\
    forall i, decompress (CompressedStr b) !! i = Some 1 <-> Z.of_nat i ∈ [3; 70; 3; 12].
Proof. apply (bitmap_reports_set [3; 70; 3; 12]); [done|]. repeat constructor; lia. Defined.

Lemma bitmap_cache_fresh_witness :
  let b := ToCompressedString (mkBitmap [0; 1; 1] "") in
  exists b', Update [5] b = Ok b' /\ cache_ok b' /\ cache_ok (ToCompressedString b') /\
    (BMap b' <> [] -> CompressedStr (ToCompressedString b') = compress (BMap b')).
Proof.
  apply (bitmap_cache_fresh (ToCompressedString (mkBitmap [0; 1; 1] "")) [5]).
  - repeat constructor; (by left) || by right.
  - by right.
  - repeat constructor; lia.
Defined.
