(* ===== verification/Base64.v ===== *)
(** * Base64: [encoding/base64] as the code uses it

    [EncodeToString] and [DecodeString] of an encoding given by its alphabet and padding
    ([StdEncoding], [RawURLEncoding]).  Decoding skips carriage returns and line feeds, wants
    exact padding where the encoding pads, and ignores the unused bits of the last quantum
    (no encoding in use is strict). *)

From S2P Require Import Prelude.
From Stdlib Require Import Ascii.

Record Encoding := mkEncoding { alphabet : list byte; padChar : option byte }.

Definition StdEncoding : Encoding :=
  mkEncoding (s2l "ABCDEFGHIJKLMNOPQRSTUVWXYZabcdefghijklmnopqrstuvwxyz0123456789+/") (Some "="%byte).

Definition RawURLEncoding : Encoding :=
  mkEncoding (s2l "ABCDEFGHIJKLMNOPQRSTUVWXYZabcdefghijklmnopqrstuvwxyz0123456789-_") None.

Definition enc_char (enc : Encoding) (v : Z) : byte :=
  nth (Z.to_nat v) (alphabet enc) "?"%byte.

Fixpoint position (c : byte) (l : list byte) (i : Z) : option Z :=
  match l with
  | [] => None
  | x :: l => if Byte.eqb x c then Some i else position c l (i + 1)
  end.

(** [enc.decodeMap[c]]; [None] is the code's 0xff. *)
Definition dec_char (enc : Encoding) (c : byte) : option Z := position c (alphabet enc) 0.

Definition padding (enc : Encoding) (n : nat) : list byte :=
  match padChar enc with Some p => replicate n p | None => [] end.

Fixpoint Encode (enc : Encoding) (bs : list byte) : list byte :=
  match bs with
  | [] => []
  | [a] =>
      let n := b2z a * 2 ^ 16 in
      [enc_char enc (n / 2 ^ 18); enc_char enc (n / 2 ^ 12 mod 64)] ++ padding enc 2
  | [a; b] =>
      let n := b2z a * 2 ^ 16 + b2z b * 2 ^ 8 in
      [enc_char enc (n / 2 ^ 18); enc_char enc (n / 2 ^ 12 mod 64);
       enc_char enc (n / 2 ^ 6 mod 64)] ++ padding enc 1
  | a :: b :: c :: bs =>
      let n := b2z a * 2 ^ 16 + b2z b * 2 ^ 8 + b2z c in
      [enc_char enc (n / 2 ^ 18); enc_char enc (n / 2 ^ 12 mod 64);
       enc_char enc (n / 2 ^ 6 mod 64); enc_char enc (n mod 64)] ++ Encode enc bs
  end.

Definition is_newline (c : byte) : bool := Byte.eqb c "010"%byte || Byte.eqb c "013"%byte.

Fixpoint skip_newlines (src : list byte) : list byte :=
  match src with
  | c :: src' => if is_newline c then skip_newlines src' else src
  | [] => []
  end.

(** The bytes of a quantum of [dlen] sextets. *)
Definition emit (acc : list Z) : list byte :=
  match acc with
  | [a; b; c; d] =>
      let n := a * 2 ^ 18 + b * 2 ^ 12 + c * 2 ^ 6 + d in
      [z2b (n / 2 ^ 16); z2b (n / 2 ^ 8); z2b n]
  | [a; b; c] =>
      let n := a * 2 ^ 18 + b * 2 ^ 12 + c * 2 ^ 6 in [z2b (n / 2 ^ 16); z2b (n / 2 ^ 8)]
  | [a; b] => let n := a * 2 ^ 18 + b * 2 ^ 12 in [z2b (n / 2 ^ 16)]
  | _ => []
  end.

Definition corrupt {A} : res A := Err "illegal base64 data".

(** After a padding character that ends a quantum of sextets [acc]. *)
Definition end_padding (pad : byte) (acc : list Z) (src : list byte) : res (list byte) :=
  match acc with
  | [_; _] =>
      match skip_newlines src with
      | c :: src' =>
          if Byte.eqb c pad then
            match skip_newlines src' with [] => Ok (emit acc) | _ => corrupt end
          else corrupt
      | [] => corrupt
      end
  | [_; _; _] => match skip_newlines src with [] => Ok (emit acc) | _ => corrupt end
  | _ => corrupt
  end.

(** [enc.Decode] with the sextets [acc] of the current quantum already read. *)
Fixpoint Decode_from (enc : Encoding) (acc : list Z) (src : list byte) : res (list byte) :=
  match src with
  | [] =>
      match acc with
      | [] => Ok []
      | [_] => corrupt
      | _ => match padChar enc with Some _ => corrupt | None => Ok (emit acc) end
      end
  | c :: src =>
      match dec_char enc c with
      | Some v =>
          if (length acc =? 3)%nat
          then rest ← Decode_from enc [] src; Ok (emit (acc ++ [v]) ++ rest)
          else Decode_from enc (acc ++ [v]) src
      | None =>
          if is_newline c then Decode_from enc acc src
          else match padChar enc with
               | Some pad => if Byte.eqb c pad then end_padding pad acc src else corrupt
               | None => corrupt
               end
      end
  end.

Definition DecodeString (enc : Encoding) (s : string) : res (list byte) :=
  Decode_from enc [] (s2l s).

Definition EncodeToString (enc : Encoding) (bs : list byte) : string := l2s (Encode enc bs).

(** ** Round trip *)

(** What decoding needs of an encoding: the alphabet is read back, and the padding character
    and the alphabet are disjoint. *)
Definition enc_ok (enc : Encoding) : Prop :=
  (forall v, 0 <= v < 64 -> dec_char enc (enc_char enc v) = Some v) /\
  (forall p, padChar enc = Some p -> dec_char enc p = None /\ is_newline p = false).

Definition dec_enc_check (enc : Encoding) (v : Z) : bool :=
  bool_decide (dec_char enc (enc_char enc v) = Some v).

Lemma StdEncoding_ok : enc_ok StdEncoding.
Proof.
  split.
  - intros v Hv. apply (bool_decide_unpack _), Is_true_true.
    by_enum 64%nat (dec_enc_check StdEncoding).
  - intros p [= <-]. done.
Qed.

Lemma RawURLEncoding_ok : enc_ok RawURLEncoding.
Proof.
  split; [|done]. intros v Hv. apply (bool_decide_unpack _), Is_true_true.
  by_enum 64%nat (dec_enc_check RawURLEncoding).
Qed.

Lemma z2b_mod z b : z mod 256 = b2z b -> z2b z = b.
Proof. intros H. apply b2z_inj. rewrite b2z_z2b. done. Qed.

Ltac zdm := Z.div_mod_to_equations; lia.

Section RoundTrip.
Context (enc : Encoding) (Henc : enc_ok enc).

Lemma Decode_char v acc src : 0 <= v < 64 ->
  Decode_from enc acc (enc_char enc v :: src) =
  if (length acc =? 3)%nat
  then rest ← Decode_from enc [] src; Ok (emit (acc ++ [v]) ++ rest)
  else Decode_from enc (acc ++ [v]) src.
Proof. intros Hv. cbn [Decode_from]. by rewrite (proj1 Henc). Qed.

Lemma Decode_end acc n : (n = 1 /\ length acc = 3 \/ n = 2 /\ length acc = 2)%nat ->
  Decode_from enc acc (padding enc n) = Ok (emit acc).
Proof.
  intros Hn. unfold padding. destruct (padChar enc) as [p|] eqn:Ep.
  - destruct (proj2 Henc p Ep) as [Hd Hnl].
    destruct Hn as [[-> Hl]|[-> Hl]];
      [destruct acc as [|? [|? [|? [|]]]]; try discriminate Hl
      |destruct acc as [|? [|? [|]]]; try discriminate Hl];
      cbn [replicate Decode_from end_padding skip_newlines];
      rewrite Hd, Hnl, Ep, (Byte.byte_dec_lb (eq_refl p));
      cbn [end_padding skip_newlines]; rewrite ?Hnl, ?(Byte.byte_dec_lb (eq_refl p)); done.
  - destruct Hn as [[-> Hl]|[-> Hl]];
      [destruct acc as [|? [|? [|? [|]]]]; try discriminate Hl
      |destruct acc as [|? [|? [|]]]; try discriminate Hl];
      cbn; by rewrite Ep.
Qed.

Lemma Decode_Encode_strong n : forall bs, (length bs <= n)%nat ->
  Decode_from enc [] (Encode enc bs) = Ok bs.
Proof.
  induction n as [|n IH]; intros bs Hl; [by destruct bs; [|cbn in Hl; lia]|].
  destruct bs as [|a [|b [|c bs]]]; [done|..];
    try pose proof (b2z_range a); try pose proof (b2z_range b); try pose proof (b2z_range c);
    cbn [Encode app].
  - rewrite Decode_char by zdm. cbn [length Nat.eqb app].
    rewrite Decode_char by zdm. cbn [length Nat.eqb app].
    rewrite Decode_end by (right; done). cbn [emit].
    repeat f_equal; apply z2b_mod; zdm.
  - do 3 (rewrite Decode_char by zdm; cbn [length Nat.eqb app]).
    rewrite Decode_end by (left; done). cbn [emit].
    repeat f_equal; apply z2b_mod; zdm.
  - do 4 (rewrite Decode_char by zdm; cbn [length Nat.eqb app]).
    rewrite IH by (cbn in Hl; lia). cbn [mbind res_bind emit app].
    repeat f_equal; apply z2b_mod; zdm.
Qed.

Lemma Decode_Encode bs : DecodeString enc (EncodeToString enc bs) = Ok bs.
Proof. unfold DecodeString, EncodeToString. rewrite s2l_l2s. by eapply Decode_Encode_strong. Qed.
End RoundTrip.

(** Decoding never panics: it returns bytes or an error. *)
Lemma Decode_from_returns enc src : forall acc, is_halt (Decode_from enc acc src) = false.
Proof.
  induction src as [|c src IH]; intros acc.
  - cbn. destruct acc as [|? [|]]; try done. by destruct (padChar enc).
  - cbn. destruct (dec_char enc c) as [v|].
    + destruct (length acc =? 3)%nat; [|done]. specialize (IH []).
      by destruct (Decode_from enc [] src).
    + destruct (is_newline c); [done|]. destruct (padChar enc) as [p|]; [|done].
      destruct (Byte.eqb c p); [|done]. unfold end_padding.
      destruct acc as [|? [|? [|? [|]]]]; try done.
      * destruct (skip_newlines src) as [|d r]; [done|]. destruct (Byte.eqb d p); [|done].
        by destruct (skip_newlines r).
      * by destruct (skip_newlines src).
Qed.
