(* ===== verification/Unicode.v ===== *)
(** * Unicode: Go's [unicode/utf8] and [unicode/utf16]

    A Go string is a sequence of bytes; ranging over it, and converting it to [[]rune], decodes
    UTF-8 and puts the replacement character for every byte that starts no valid sequence. *)

From S2P Require Import Prelude.
#[local] Open Scope Z_scope.

(** ** UTF-8 *)

Definition RuneError : Z := 65533.

(** A rune that has an encoding: a code point that is not a surrogate. *)
Definition valid_rune (r : Z) : bool :=
  ((0 <=? r) && (r <? 55296)) || ((57344 <=? r) && (r <? 1114112)).

(** [utf8.AppendRune], [string(rune)] and [fmt]'s [%c]: the rune in UTF-8, the replacement
    character for an invalid rune. *)
Definition utf8_encode (r : Z) : list byte :=
  if (0 <=? r) && (r <? 128) then [z2b r]
  else if (128 <=? r) && (r <? 2048) then [z2b (192 + r / 64); z2b (128 + r mod 64)]
  else if (2048 <=? r) && (r <? 65536) && negb ((55296 <=? r) && (r <? 57344)) then
    [z2b (224 + r / 4096); z2b (128 + r / 64 mod 64); z2b (128 + r mod 64)]
  else if (65536 <=? r) && (r <? 1114112) then
    [z2b (240 + r / 262144); z2b (128 + r / 4096 mod 64); z2b (128 + r / 64 mod 64);
     z2b (128 + r mod 64)]
  else [z2b 239; z2b 191; z2b 189].

Definition in_range (lo hi : Z) (b : byte) : bool := (lo <=? b2z b) && (b2z b <=? hi).

(** A continuation byte, and its six bits. *)
Definition cont (b : byte) : bool := in_range 128 191 b.
Definition bits6 (b : byte) : Z := b2z b - 128.

(** [utf8.DecodeRune]: the rune and its width.  The ranges of the second byte exclude
    overlong encodings, surrogates and what is above the last code point. *)
Definition DecodeRune (l : list byte) : Z * nat :=
  match l with
  | [] => (RuneError, 0%nat)
  | b0 :: l =>
      let x := b2z b0 in
      if x <? 128 then (x, 1%nat)
      else if (194 <=? x) && (x <=? 223) then
        match l with
        | b1 :: _ => if cont b1 then ((x - 192) * 64 + bits6 b1, 2%nat) else (RuneError, 1%nat)
        | _ => (RuneError, 1%nat)
        end
      else if (224 <=? x) && (x <=? 239) then
        match l with
        | b1 :: b2 :: _ =>
            if in_range (if x =? 224 then 160 else 128) (if x =? 237 then 159 else 191) b1 && cont b2
            then ((x - 224) * 4096 + bits6 b1 * 64 + bits6 b2, 3%nat) else (RuneError, 1%nat)
        | _ => (RuneError, 1%nat)
        end
      else if (240 <=? x) && (x <=? 244) then
        match l with
        | b1 :: b2 :: b3 :: _ =>
            if in_range (if x =? 240 then 144 else 128) (if x =? 244 then 143 else 191) b1
               && cont b2 && cont b3
            then ((x - 240) * 262144 + bits6 b1 * 4096 + bits6 b2 * 64 + bits6 b3, 4%nat)
            else (RuneError, 1%nat)
        | _ => (RuneError, 1%nat)
        end
      else (RuneError, 1%nat)
  end.

(** [[]rune(s)]: every step takes at least one byte, so the length is enough fuel. *)
Fixpoint runes_loop (fuel : nat) (l : list byte) : list Z :=
  match fuel, l with
  | S fuel, _ :: _ => let '(r, n) := DecodeRune l in r :: runes_loop fuel (drop n l)
  | _, _ => []
  end.

Definition runes_bytes (l : list byte) : list Z := runes_loop (length l) l.
Definition runes (s : string) : list Z := runes_bytes (s2l s).

(** [string([]rune)]. *)
Definition encode_runes (rs : list Z) : list byte := rs ≫= utf8_encode.
Definition of_runes (rs : list Z) : string := l2s (encode_runes rs).

(** [utf8.ValidString]: nothing was replaced. *)
Definition ValidString (s : string) : bool := bool_decide (of_runes (runes s) = s).

(** ** UTF-16 *)

(** [utf16.Encode]. *)
Definition utf16_encode_rune (r : Z) : list Z :=
  if valid_rune r then
    if r <? 65536 then [r]
    else let r := r - 65536 in [55296 + r / 1024; 56320 + r mod 1024]
  else [RuneError].

Definition utf16_Encode (rs : list Z) : list Z := rs ≫= utf16_encode_rune.

Definition high_surrogate (u : Z) : bool := (55296 <=? u) && (u <? 56320).
Definition low_surrogate (u : Z) : bool := (56320 <=? u) && (u <? 57344).

(** [utf16.Decode]: a surrogate without its other half is replaced. *)
Fixpoint utf16_Decode (us : list Z) : list Z :=
  match us with
  | [] => []
  | u :: us =>
      if negb (high_surrogate u || low_surrogate u) then u :: utf16_Decode us
      else match us with
           | v :: us' =>
               if high_surrogate u && low_surrogate v
               then (u - 55296) * 1024 + (v - 56320) + 65536 :: utf16_Decode us'
               else RuneError :: utf16_Decode us
           | [] => [RuneError]
           end
  end.

(** ** Lemmas: UTF-8 *)

Lemma b2z_z2b_byte z : 0 <= z < 256 -> b2z (z2b z) = z.
Proof. intros. by apply b2z_z2b_small. Qed.

(** Settle the tests of a decoder on bytes whose values are known. *)
Ltac decide_tests :=
  repeat match goal with
  | |- context [if ?c then _ else _] =>
      first [ replace c with true by (symmetry; blia) | replace c with false by (symmetry; blia) ]
  end.

Lemma utf8_encode_cases r : valid_rune r = true ->
  (0 <= r < 128 /\ utf8_encode r = [z2b r]) \/
  (128 <= r < 2048 /\ utf8_encode r = [z2b (192 + r / 64); z2b (128 + r mod 64)]) \/
  (2048 <= r < 65536 /\ (r < 55296 \/ 57344 <= r) /\
   utf8_encode r = [z2b (224 + r / 4096); z2b (128 + r / 64 mod 64); z2b (128 + r mod 64)]) \/
  (65536 <= r < 1114112 /\
   utf8_encode r = [z2b (240 + r / 262144); z2b (128 + r / 4096 mod 64); z2b (128 + r / 64 mod 64);
                    z2b (128 + r mod 64)]).
Proof.
  intros H. unfold valid_rune in H.
  assert ((0 <= r < 55296) \/ (57344 <= r < 1114112)) as Hr.
  { rewrite orb_true_iff, !andb_true_iff, !Z.leb_le, !Z.ltb_lt in H. lia. }
  unfold utf8_encode.
  destruct (Z.ltb_spec r 128); [left; split; [lia|]; by decide_tests|right].
  destruct (Z.ltb_spec r 2048); [left; split; [lia|]; by decide_tests|right].
  assert ((55296 <=? r) && (r <? 57344) = false) as -> by (apply andb_false_iff; rewrite Z.leb_gt, Z.ltb_ge; lia).
  rewrite andb_true_r. destruct (Z.ltb_spec r 65536); [left|right]; split_and?; try lia; by decide_tests.
Qed.

Lemma in_range_z2b lo hi z : 0 <= z < 256 -> in_range lo hi (z2b z) = (lo <=? z) && (z <=? hi).
Proof. intros H. unfold in_range. by rewrite b2z_z2b_byte. Qed.

(** Decoding inverts encoding, whatever follows. *)
Lemma DecodeRune_encode r rest : valid_rune r = true ->
  DecodeRune (utf8_encode r ++ rest) = (r, length (utf8_encode r)).
Proof.
  intros H. destruct (utf8_encode_cases r H) as [[Hr ->]|[[Hr ->]|[(Hr & Hs & ->)|[Hr ->]]]];
    cbn [app length]; unfold DecodeRune, cont, bits6.
  all: rewrite ?b2z_z2b_byte, ?in_range_z2b by (Z.to_euclidean_division_equations; lia).
  - by decide_tests.
  - assert (2 <= r / 64 < 32 /\ 0 <= (r mod 64) < 64 /\ r = r / 64 * 64 + (r mod 64))
      by (Z.to_euclidean_division_equations; lia).
    decide_tests. f_equal. lia.
  - assert (0 <= r / 4096 < 16 /\ 0 <= ((r / 64) mod 64) < 64 /\ 0 <= (r mod 64) < 64 /\
      r = r / 4096 * 4096 + ((r / 64) mod 64) * 64 + (r mod 64)) by (Z.to_euclidean_division_equations; lia).
    set (q := r / 4096) in *; set (m := ((r / 64) mod 64)) in *; set (n := (r mod 64)) in *.
    destruct (Z.eqb_spec (224 + q) 224); destruct (Z.eqb_spec (224 + q) 237); decide_tests; f_equal; lia.
  - assert (0 <= r / 262144 < 5 /\ 0 <= ((r / 4096) mod 64) < 64 /\ 0 <= ((r / 64) mod 64) < 64 /\
      0 <= (r mod 64) < 64 /\
      r = r / 262144 * 262144 + ((r / 4096) mod 64) * 4096 + ((r / 64) mod 64) * 64 + (r mod 64))
      by (Z.to_euclidean_division_equations; lia).
    set (q := r / 262144) in *; set (k := ((r / 4096) mod 64)) in *; set (m := ((r / 64) mod 64)) in *;
      set (n := (r mod 64)) in *.
    destruct (Z.eqb_spec (240 + q) 240); destruct (Z.eqb_spec (240 + q) 244); decide_tests; f_equal; lia.
Qed.

Lemma utf8_encode_length r : (1 <= length (utf8_encode r) <= 4)%nat.
Proof. unfold utf8_encode. by repeat case_match; cbn; lia. Qed.

(** A rune takes at least one byte of a non-empty string and no more than there are. *)
Lemma DecodeRune_width b l : (1 <= snd (DecodeRune (b :: l)) <= length (b :: l))%nat.
Proof. unfold DecodeRune. by repeat case_match; cbn; lia. Qed.

Lemma runes_loop_encode rs : forall fuel, (length (encode_runes rs) <= fuel)%nat ->
  Forall (fun r => valid_rune r = true) rs -> runes_loop fuel (encode_runes rs) = rs.
Proof.
  induction rs as [|r rs IH]; intros fuel Hf Hv; [by destruct fuel|].
  apply Forall_cons in Hv as [Hr Hv]. unfold encode_runes in *. cbn [mbind list_bind] in *.
  pose proof (utf8_encode_length r) as Hl. rewrite length_app in Hf.
  destruct fuel as [|fuel]; [lia|]. cbn [runes_loop].
  destruct (utf8_encode r ++ rs ≫= utf8_encode) as [|b l] eqn:E.
  { apply (f_equal length) in E. rewrite length_app in E. cbn in E. lia. }
  rewrite <- E, DecodeRune_encode by done. rewrite drop_app_length. f_equal. apply IH; [lia|done].
Qed.

Lemma runes_encode rs : Forall (fun r => valid_rune r = true) rs -> runes (of_runes rs) = rs.
Proof.
  intros H. unfold runes, of_runes, runes_bytes. rewrite s2l_l2s. by apply runes_loop_encode.
Qed.

Lemma DecodeRune_valid l : valid_rune (fst (DecodeRune l)) = true.
Proof.
  assert (forall lo hi b, in_range lo hi b = true -> lo <= b2z b <= hi) as Hin.
  { intros lo hi b. unfold in_range. rewrite andb_true_iff, !Z.leb_le. lia. }
  destruct l as [|b l]; [done|]. pose proof (b2z_range b). unfold DecodeRune, cont, bits6, valid_rune.
  repeat case_match; try done; cbn [fst];
    repeat match goal with H : _ && _ = true |- _ => apply andb_true_iff in H as [? ?] end;
    repeat match goal with H : in_range _ _ _ = true |- _ => apply Hin in H end;
    rewrite ?Z.ltb_lt, ?Z.leb_le, ?Z.eqb_eq, ?Z.eqb_neq, ?Z.ltb_ge in *;
    rewrite orb_true_iff, !andb_true_iff, !Z.leb_le, !Z.ltb_lt; lia.
Qed.

Lemma runes_loop_valid fuel : forall l, Forall (fun r => valid_rune r = true) (runes_loop fuel l).
Proof.
  induction fuel as [|fuel IH]; intros l; [constructor|]. cbn [runes_loop].
  destruct l as [|b l]; [constructor|]. pose proof (DecodeRune_valid (b :: l)).
  destruct (DecodeRune (b :: l)) as [r n]. by constructor.
Qed.

Lemma runes_valid s : Forall (fun r => valid_rune r = true) (runes s).
Proof. apply runes_loop_valid. Qed.

Lemma ValidString_spec s : ValidString s = true <->
  exists rs, Forall (fun r => valid_rune r = true) rs /\ s = of_runes rs.
Proof.
  unfold ValidString. rewrite bool_decide_eq_true. split.
  - intros <-. exists (runes s). split; [apply runes_valid|done].
  - intros (rs & H & ->). by rewrite runes_encode.
Qed.

(** ** Lemmas: UTF-16 *)

Lemma valid_rune_surrogate r : valid_rune r = true -> r < 65536 ->
  high_surrogate r || low_surrogate r = false.
Proof.
  unfold valid_rune, high_surrogate, low_surrogate. intros H Hr.
  apply orb_false_iff. rewrite !andb_false_iff, !Z.leb_gt, !Z.ltb_ge.
  apply orb_true_iff in H. rewrite !andb_true_iff, !Z.leb_le, !Z.ltb_lt in H. lia.
Qed.

Lemma utf16_Decode_encode_rune r rest : valid_rune r = true ->
  utf16_Decode (utf16_encode_rune r ++ rest) = r :: utf16_Decode rest.
Proof.
  intros H. unfold utf16_encode_rune. rewrite H. destruct (Z.ltb_spec r 65536) as [Hlt|Hge].
  - cbn [app utf16_Decode]. by rewrite valid_rune_surrogate by done.
  - assert (0 <= (r - 65536) / 1024 < 1024 /\ 0 <= ((r - 65536) mod 1024) < 1024 /\
      r - 65536 = (r - 65536) / 1024 * 1024 + ((r - 65536) mod 1024)) as Hd.
    { unfold valid_rune in H. rewrite orb_true_iff, !andb_true_iff, !Z.leb_le, !Z.ltb_lt in H.
      Z.to_euclidean_division_equations; lia. }
    cbn [app utf16_Decode].
    set (q := (r - 65536) / 1024) in *; set (m := (r - 65536) mod 1024) in *.
    replace (high_surrogate (55296 + q)) with true by (symmetry; unfold high_surrogate; blia).
    replace (low_surrogate (56320 + m)) with true by (symmetry; unfold low_surrogate; blia).
    cbn [orb negb andb]. f_equal. lia.
Qed.

Lemma utf16_Decode_Encode rs : Forall (fun r => valid_rune r = true) rs ->
  utf16_Decode (utf16_Encode rs) = rs.
Proof.
  induction 1 as [|r rs H Hrs IH]; [done|]. unfold utf16_Encode in *. cbn [mbind list_bind].
  by rewrite utf16_Decode_encode_rune, IH.
Qed.

(** ** Valid sequences of bytes *)

Definition valid_bytes (l : list byte) : Prop :=
  exists rs, Forall (fun r => valid_rune r = true) rs /\ l = encode_runes rs.

Lemma valid_bytes_string l : valid_bytes l -> ValidString (l2s l) = true.
Proof. intros (rs & H & ->). apply ValidString_spec. by exists rs. Qed.

Lemma valid_string_bytes s : ValidString s = true -> valid_bytes (s2l s).
Proof.
  intros H. apply ValidString_spec in H as (rs & V & ->). exists rs. unfold of_runes. by rewrite s2l_l2s.
Qed.

Lemma valid_bytes_app a b : valid_bytes a -> valid_bytes b -> valid_bytes (a ++ b).
Proof.
  intros (ra & Ha & ->) (rb & Hb & ->). exists (ra ++ rb). split; [by apply Forall_app|].
  unfold encode_runes. by rewrite bind_app.
Qed.

Lemma valid_bytes_rune r : valid_rune r = true -> valid_bytes (utf8_encode r).
Proof.
  intros H. exists [r]. split; [by constructor|]. unfold encode_runes. cbn. by rewrite app_nil_r.
Qed.

(** ASCII bytes are runes. *)
Lemma ascii_runes l : Forall (fun b => b2z b < 128) l ->
  Forall (fun r => valid_rune r = true) (map b2z l) /\ encode_runes (map b2z l) = l.
Proof.
  intros H. induction H as [|b l Hb Hl [IHv IHe]]; [by split; [constructor|]|].
  pose proof (b2z_range b). split.
  - constructor; [|done]. unfold valid_rune. blia.
  - change (utf8_encode (b2z b) ++ encode_runes (map b2z l) = b :: l). rewrite IHe. unfold utf8_encode.
    replace ((0 <=? b2z b) && (b2z b <? 128)) with true by (symmetry; blia). by rewrite z2b_b2z.
Qed.

Lemma valid_bytes_ascii l : Forall (fun b => b2z b < 128) l -> valid_bytes l.
Proof. intros H. destruct (ascii_runes l H) as [V E]. by exists (map b2z l). Qed.
