(* ===== verification/Text.v ===== *)
(** * Text: functions of [strings] and [html] on texts *)

From Stdlib Require Import Ascii.
From S2P Require Import Prelude Strconv.
#[local] Open Scope Z_scope.

(** [strings.Contains] *)
Fixpoint StrContains (s sub : string) : bool :=
  HasPrefix s sub || match s with String _ s => StrContains s sub | EmptyString => false end.

(** [strings.TrimPrefix] *)
Definition TrimPrefix (s pre : string) : string := if HasPrefix s pre then str_from (slen pre) s else s.

(** [strings.ReplaceAll] for a text that is not empty; [skip] characters are replaced already. *)
Fixpoint replace_all (old new : string) (skip : nat) (s : string) : string :=
  match s with
  | EmptyString => ""
  | String c rest =>
      match skip with
      | S skip => replace_all old new skip rest
      | O => if HasPrefix s old then (new ++ replace_all old new (String.length old - 1) rest)%string
             else String c (replace_all old new O rest)
      end
  end.

Definition ReplaceAll (s old new : string) : string := replace_all old new 0 s.

(** [html.EscapeString] *)
Definition escape_char (c : ascii) : string :=
  if (c =? "&")%char then "&amp;"
  else if (c =? "<")%char then "&lt;"
  else if (c =? ">")%char then "&gt;"
  else if (c =? "'")%char then "&#39;"
  else if (c =? "034")%char then "&#34;"
  else String c "".

Fixpoint EscapeString (s : string) : string :=
  match s with
  | EmptyString => ""
  | String c s => (escape_char c ++ EscapeString s)%string
  end.

(** The characters of Unicode that are spaces, in UTF-8. *)
Definition spaces : list string :=
  [String "009" ""; String "010" ""; String "011" ""; String "012" ""; String "013" ""; " "%string] ++
  (l2s <$> [[xc2; x85]; [xc2; xa0]; [xe1; x9a; x80];
            [xe2; x80; x80]; [xe2; x80; x81]; [xe2; x80; x82]; [xe2; x80; x83]; [xe2; x80; x84]; [xe2; x80; x85];
            [xe2; x80; x86]; [xe2; x80; x87]; [xe2; x80; x88]; [xe2; x80; x89]; [xe2; x80; x8a];
            [xe2; x80; xa8]; [xe2; x80; xa9]; [xe2; x80; xaf]; [xe2; x81; x9f]; [xe3; x80; x80]]).

Definition HasSuffix (s suf : string) : bool :=
  let n := (String.length s - String.length suf)%nat in
  (String.length suf <=? String.length s)%nat && (String.substring n (String.length suf) s =? suf)%string.

Fixpoint trim_left (fuel : nat) (s : string) : string :=
  match fuel with
  | O => s
  | S fuel =>
      match list_find (fun w => Is_true (HasPrefix s w)) spaces with
      | Some (_, w) => trim_left fuel (str_from (slen w) s)
      | None => s
      end
  end.

Fixpoint trim_right (fuel : nat) (s : string) : string :=
  match fuel with
  | O => s
  | S fuel =>
      match list_find (fun w => Is_true (HasSuffix s w)) spaces with
      | Some (_, w) => trim_right fuel (str_to (slen s - slen w) s)
      | None => s
      end
  end.

(** [strings.TrimSpace]; every round takes a character away, so that the length is enough. *)
Definition TrimSpace (s : string) : string :=
  let s := trim_left (String.length s) s in trim_right (String.length s) s.

Example trim_both : TrimSpace (String "010" " a b " ++ l2s [xc2; xa0])%string = "a b"%string.
Proof. vm_compute. reflexivity. Qed.

(** ** Lemmas *)

Lemma HasPrefix_spec s p : HasPrefix s p = true <-> exists t, s = (p ++ t)%string.
Proof.
  unfold HasPrefix. revert s. induction p as [|c p IH]; intros s; [split; [by exists s|by destruct s]|].
  destruct s as [|c' s]; [split; [done|by intros [t H]]|]. cbn [String.prefix].
  destruct (ascii_dec c c') as [->|Hc].
  - rewrite IH. split; [intros [t ->]; by exists t|intros [t [= ->]]; by exists t].
  - split; [done|]. by intros [t [= -> _]].
Qed.

Lemma HasPrefix_app p t : HasPrefix (p ++ t) p = true.
Proof. apply HasPrefix_spec. by exists t. Qed.

Lemma StrContains_spec s sub : StrContains s sub = true <-> exists a b, s = (a ++ sub ++ b)%string.
Proof.
  induction s as [|c s IH]; cbn [StrContains]; rewrite ?orb_true_iff, HasPrefix_spec, ?IH.
  - split.
    + intros [[t H]|[=]]. by exists ""%string, t.
    + intros (a & b & H). left. destruct a; [by exists b|done].
  - split.
    + intros [[t ->]|(a & b & ->)]; [by exists ""%string, t|by exists (String c a), b].
    + intros (a & b & H). destruct a as [|c' a]; [left; by exists b|right]. injection H as -> ->. by exists a, b.
Qed.

Lemma EscapeString_app a b : EscapeString (a ++ b) = (EscapeString a ++ EscapeString b)%string.
Proof. induction a as [|c a IH]; [done|]. rewrite string_app_cons. cbn [EscapeString]. by rewrite IH, string_app_assoc. Qed.

(** No markup is left of an escaped text. *)
Lemma EscapeString_plain s : has_char "<" (EscapeString s) = false /\ has_char "034" (EscapeString s) = false.
Proof.
  induction s as [|c s [IH1 IH2]]; [done|]. cbn [EscapeString]. rewrite !has_char_app, IH1, IH2, !orb_false_r.
  unfold escape_char. destruct (c =? "&")%char; [done|]. destruct (c =? "<")%char eqn:E1; [done|]. destruct (c =? ">")%char; [done|].
  destruct (c =? "'")%char; [done|]. destruct (c =? "034")%char eqn:E2; [done|]. cbn [has_char]. by rewrite E1, E2.
Qed.
