(* ===== verification/Url.v ===== *)
(** * Url: query strings of Go's [net/url] *)

From Stdlib Require Import Ascii.
From S2P Require Import Prelude Strconv.
#[local] Open Scope Z_scope.

(** [QueryEscape]: a space is a plus sign, everything but letters, digits and four marks is
    written in hexadecimal. *)
Definition unreserved (x : Z) : bool :=
  ((97 <=? x) && (x <=? 122)) || ((65 <=? x) && (x <=? 90)) || ((48 <=? x) && (x <=? 57)) ||
  (x =? 45) || (x =? 46) || (x =? 95) || (x =? 126).

Definition upper_hex (d : Z) : ascii := ascii_of_nat (Z.to_nat (if d <? 10 then 48 + d else 55 + d)).

Definition query_escape_char (c : ascii) : string :=
  let x := Z.of_nat (nat_of_ascii c) in
  if unreserved x then String c ""
  else if x =? 32 then "+"
  else String "%" (String (upper_hex (x / 16)) (String (upper_hex (x mod 16)) "")).

Fixpoint QueryEscape (s : string) : string :=
  match s with
  | EmptyString => ""
  | String c s => (query_escape_char c ++ QueryEscape s)%string
  end.

(** The other direction: [None] where [%] is not followed by two digits. *)
Definition from_hex (c : ascii) : option Z :=
  let x := Z.of_nat (nat_of_ascii c) in
  if (48 <=? x) && (x <=? 57) then Some (x - 48)
  else if (65 <=? x) && (x <=? 70) then Some (x - 55)
  else if (97 <=? x) && (x <=? 102) then Some (x - 87)
  else None.

Fixpoint QueryUnescape (s : string) : option string :=
  match s with
  | EmptyString => Some ""%string
  | String "%" (String a (String b s)) =>
      a ← from_hex a; b ← from_hex b; s ← QueryUnescape s;
      Some (String (ascii_of_nat (Z.to_nat (16 * a + b))) s)
  | String "%" _ => None
  | String c s => s ← QueryUnescape s; Some (String (if (c =? "+")%char then " "%char else c) s)
  end.

(** [Values.Encode] of values with one entry a key: the keys in order. *)
Fixpoint insert_key (kv : string * string) (l : list (string * string)) : list (string * string) :=
  match l with
  | [] => [kv]
  | kv' :: l => if String.ltb kv.1 kv'.1 then kv :: kv' :: l else kv' :: insert_key kv l
  end.

Definition sort_keys (l : list (string * string)) : list (string * string) := foldr insert_key [] l.

Definition Values_Encode (l : list (string * string)) : string :=
  String.concat "&" ((fun kv => QueryEscape kv.1 ++ "=" ++ QueryEscape kv.2)%string <$> sort_keys l).

(** ** Lemmas *)

(** Whatever character is escaped is read back, before any text. *)
Lemma unescape_char c s : QueryUnescape (query_escape_char c ++ s) = t ← QueryUnescape s; Some (String c t).
Proof. destruct c as [[] [] [] [] [] [] [] []]; reflexivity. Qed.

Lemma QueryUnescape_QueryEscape s : QueryUnescape (QueryEscape s) = Some s.
Proof.
  induction s as [|c s IH]; [done|]. cbn [QueryEscape]. by rewrite unescape_char, IH.
Qed.

(** An escaped text separates neither keys nor values. *)
Lemma QueryEscape_plain s : has_char "&" (QueryEscape s) = false /\ has_char "=" (QueryEscape s) = false.
Proof.
  induction s as [|c s [IH1 IH2]]; [done|]. cbn [QueryEscape]. rewrite !has_char_app, IH1, IH2, !orb_false_r.
  by destruct c as [[] [] [] [] [] [] [] []].
Qed.

Example encode_sorted : Values_Encode [("sid", "1"); ("cid", "a b")]%string = "cid=a+b&sid=1"%string.
Proof. reflexivity. Qed.
