(* ===== verification/Json.v ===== *)
(** * Json: Go's [encoding/json] for the documents the client sends

    [Marshal] prints compact JSON, with every [<], [>] and [&] of a string escaped.  The values
    are what the encoder makes of structs: integers, strings, booleans, slices, nested structs
    with the names and options of their field tags.  [Unmarshal] is a reader of such documents,
    the other end of the connection; the two are inverse. *)

From S2P Require Import Prelude Strconv Unicode.
From Stdlib Require Import Ascii.
#[local] Open Scope Z_scope.

(** ** Values *)

Inductive value :=
| Null
| Bool (b : bool)
| Num (z : Z)
| Str (s : string)
| Arr (l : list value)
| Obj (l : list (string * value)).

Fixpoint value_rect' (P : value -> Prop) (Hn : P Null) (Hb : forall b, P (Bool b)) (Hz : forall z, P (Num z))
    (Hs : forall s, P (Str s)) (Ha : forall l, Forall P l -> P (Arr l))
    (Ho : forall l, Forall (fun kv => P kv.2) l -> P (Obj l)) (v : value) : P v :=
  let rec := value_rect' P Hn Hb Hz Hs Ha Ho in
  match v with
  | Null => Hn
  | Bool b => Hb b
  | Num z => Hz z
  | Str s => Hs s
  | Arr l => Ha l ((fix go l : Forall P l :=
      match l with [] => Forall_nil_2 _ | v :: l => Forall_cons_2 _ _ _ (rec v) (go l) end) l)
  | Obj l => Ho l ((fix go l : Forall (fun kv => P kv.2) l :=
      match l with [] => Forall_nil_2 _ | kv :: l => Forall_cons_2 _ _ _ (rec kv.2) (go l) end) l)
  end.

(** The encoding of a Go type: pointers and slices may be nil. *)
Class ToJSON (A : Type) := to_json : A -> value.

#[export] Instance value_json : ToJSON value := fun v => v.
#[export] Instance int_json : ToJSON Z := Num.
#[export] Instance string_json : ToJSON string := Str.
#[export] Instance bool_json : ToJSON bool := Bool.
#[export] Instance list_json `{ToJSON A} : ToJSON (list A) := fun l => Arr (map to_json l).
#[export] Instance pointer_json `{ToJSON A} : ToJSON (option A) :=
  fun o => match o with Some a => to_json a | None => Null end.

(** A struct field, one tagged [omitempty], and one tagged [string]. *)
Definition field `{ToJSON A} (name : string) (a : A) : list (string * value) := [(name, to_json a)].

Definition isEmptyValue (v : value) : bool :=
  match v with
  | Null | Bool false | Arr [] => true
  | Num z => z =? 0
  | Str s => (s =? "")%string
  | _ => false
  end.

Definition omitempty `{ToJSON A} (name : string) (a : A) : list (string * value) :=
  if isEmptyValue (to_json a) then [] else field name a.

Definition quoted (name : string) (z : Z) : list (string * value) := field name (FormatInt 10 z).

Definition struct (fields : list (list (string * value))) : value := Obj (concat fields).

(** ** Printing *)

Definition ch (c : ascii) : byte := byte_of_ascii c.
Definition quote_byte : byte := z2b 34.

Definition hex_digit (d : Z) : byte := z2b (if d <? 10 then 48 + d else 87 + d).

(** The letter of a two-character escape. *)
Definition short_escape (x : Z) : option Z :=
  if (x =? 34) || (x =? 92) then Some x
  else if x =? 8 then Some 98
  else if x =? 12 then Some 102
  else if x =? 10 then Some 110
  else if x =? 13 then Some 114
  else if x =? 9 then Some 116
  else None.

Definition escape_u (r : Z) : list byte :=
  [z2b 92; z2b 117; hex_digit (r / 4096); hex_digit ((r / 256) mod 16); hex_digit ((r / 16) mod 16);
   hex_digit (r mod 16)].

(** [htmlSafeSet] *)
Definition must_escape (x : Z) : bool := (x <? 32) || (x =? 60) || (x =? 62) || (x =? 38).

(** A rune of a string, [raw] its bytes. *)
Definition escape_rune (r : Z) (raw : list byte) : list byte :=
  if r <? 128 then
    match short_escape r with
    | Some e => [z2b 92; z2b e]
    | None => if must_escape r then escape_u r else raw
    end
  else if (r =? RuneError) && (length raw =? 1)%nat then escape_u RuneError
  else if (r =? 8232) || (r =? 8233) then escape_u r
  else raw.

Fixpoint escape_loop (fuel : nat) (l : list byte) : list byte :=
  match fuel, l with
  | S fuel, _ :: _ =>
      let '(r, n) := DecodeRune l in escape_rune r (take n l) ++ escape_loop fuel (drop n l)
  | _, _ => []
  end.

Definition marshal_string (s : string) : list byte :=
  let l := s2l s in quote_byte :: escape_loop (length l) l ++ [quote_byte].

(** The parts of an array or object, with commas between. *)
Fixpoint commas (l : list (list byte)) : list byte :=
  match l with
  | [] => []
  | [x] => x
  | x :: l => x ++ ch "," :: commas l
  end.

Fixpoint marshal (v : value) : list byte :=
  match v with
  | Null => s2l "null"
  | Bool b => s2l (if b then "true" else "false")
  | Num z => s2l (FormatInt 10 z)
  | Str s => marshal_string s
  | Arr l => ch "[" :: commas (map marshal l) ++ [ch "]"]
  | Obj l =>
      ch "{" :: commas (map (fun kv => marshal_string kv.1 ++ ch ":" :: marshal kv.2) l) ++ [ch "}"]
  end.

Definition Marshal `{ToJSON A} (a : A) : string := l2s (marshal (to_json a)).

(** ** Reading *)

Definition hex_value (b : byte) : option Z :=
  let x := b2z b in
  if (48 <=? x) && (x <=? 57) then Some (x - 48)
  else if (97 <=? x) && (x <=? 102) then Some (x - 87)
  else if (65 <=? x) && (x <=? 70) then Some (x - 55)
  else None.

Definition long_escape (x : Z) : option Z :=
  if (x =? 34) || (x =? 92) || (x =? 47) then Some x
  else if x =? 98 then Some 8
  else if x =? 102 then Some 12
  else if x =? 110 then Some 10
  else if x =? 114 then Some 13
  else if x =? 116 then Some 9
  else None.

(** The text of a string behind its opening quote, up to the closing one.  A lone surrogate is
    replaced; pairs of surrogates, which the encoder does not write, are not put together. *)
Fixpoint read_string (l : list byte) : option (list byte * list byte) :=
  match l with
  | [] => None
  | b :: l =>
      let x := b2z b in
      if x =? 34 then Some ([], l)
      else if x =? 92 then
        match l with
        | e :: l =>
            if b2z e =? 117 then
              match l with
              | a :: b :: c :: d :: l =>
                  a ← hex_value a; b ← hex_value b; c ← hex_value c; d ← hex_value d;
                  '(s, rest) ← read_string l;
                  Some (utf8_encode (((a * 16 + b) * 16 + c) * 16 + d) ++ s, rest)
              | _ => None
              end
            else
              c ← long_escape (b2z e);
              '(s, rest) ← read_string l; Some (z2b c :: s, rest)
        | [] => None
        end
      else if x <? 32 then None
      else '(s, rest) ← read_string l; Some (b :: s, rest)
  end.

Definition number_byte (b : byte) : bool := (b2z b =? 45) || ((48 <=? b2z b) && (b2z b <=? 57)).

Fixpoint span (p : byte -> bool) (l : list byte) : list byte * list byte :=
  match l with
  | b :: l' => if p b then let '(x, y) := span p l' in (b :: x, y) else ([], l)
  | [] => ([], [])
  end.

(** An integer of 64 bits; the encoder is given no others. *)
Definition read_number (l : list byte) : option (value * list byte) :=
  let '(d, rest) := span number_byte l in
  match ParseInt 10 (l2s d) with
  | (z, None) => Some (Num z, rest)
  | _ => None
  end.

Definition literal (s : string) (v : value) (l : list byte) : option (value * list byte) :=
  if bool_decide (take (String.length s) l = s2l s) then Some (v, drop (String.length s) l) else None.

Section Lists.
Context {A : Type} (item : list byte -> option (A * list byte)) (close : byte).

(** What follows an opening bracket: nothing, or items separated by commas. *)
Fixpoint read_items (fuel : nat) (l : list byte) : option (list A * list byte) :=
  match fuel with
  | O => None
  | S fuel =>
      '(a, l) ← item l;
      match l with
      | b :: l =>
          if bool_decide (b = close) then Some ([a], l)
          else if bool_decide (b = ch ",") then '(r, l) ← read_items fuel l; Some (a :: r, l)
          else None
      | [] => None
      end
  end.

Definition read_list (fuel : nat) (l : list byte) : option (list A * list byte) :=
  match l with
  | b :: l' => if bool_decide (b = close) then Some ([], l') else read_items fuel l
  | [] => None
  end.
End Lists.

Definition read_member (read : list byte -> option (value * list byte)) (l : list byte)
    : option ((string * value) * list byte) :=
  match l with
  | b :: l =>
      if bool_decide (b = quote_byte) then
        '(k, l) ← read_string l;
        match l with
        | c :: l => if bool_decide (c = ch ":") then '(v, l) ← read l; Some ((l2s k, v), l) else None
        | [] => None
        end
      else None
  | [] => None
  end.

(** A value; the fuel is the nesting of arrays and objects, and the length of each. *)
Fixpoint read_value (fuel : nat) (l : list byte) : option (value * list byte) :=
  match fuel with
  | O => None
  | S fuel =>
      match l with
      | [] => None
      | b :: l' =>
          if bool_decide (b = quote_byte) then '(s, l) ← read_string l'; Some (Str (l2s s), l)
          else if bool_decide (b = ch "[") then
            '(vs, l) ← read_list (read_value fuel) (ch "]") fuel l'; Some (Arr vs, l)
          else if bool_decide (b = ch "{") then
            '(kvs, l) ← read_list (read_member (read_value fuel)) (ch "}") fuel l'; Some (Obj kvs, l)
          else if number_byte b then read_number l
          else if bool_decide (b = ch "n") then literal "null" Null l
          else if bool_decide (b = ch "t") then literal "true" (Bool true) l
          else literal "false" (Bool false) l
      end
  end.

Definition Unmarshal (s : string) : option value :=
  let l := s2l s in
  '(v, rest) ← read_value (S (length l)) l;
  match rest with [] => Some v | _ => None end.

(** ** Well-formed values *)

(** What the encoder is given: integers of 64 bits, strings and keys that are valid UTF-8. *)
Fixpoint well_formed (v : value) : bool :=
  match v with
  | Null | Bool _ => true
  | Num z => (- 2 ^ 63 <=? z) && (z <? 2 ^ 63)
  | Str s => ValidString s
  | Arr l => forallb well_formed l
  | Obj l => forallb (fun kv => ValidString kv.1 && well_formed kv.2) l
  end.

(** The fuel a value needs. *)
Fixpoint size (v : value) : nat :=
  match v with
  | Arr l => S (sum_list_with (fun v => S (size v)) l)
  | Obj l => S (sum_list_with (fun kv => S (size kv.2)) l)
  | _ => 1
  end.

(** ** Strings *)

Definition plain_byte (b : byte) : bool :=
  (32 <=? b2z b) && negb (b2z b =? 34) && negb (b2z b =? 92).

Lemma read_plain bs rest : forallb plain_byte bs = true ->
  read_string (bs ++ rest) = ('(s, t) ← read_string rest; Some (bs ++ s, t)).
Proof.
  induction bs as [|b bs IH]; intros H.
  { cbn [app]. by destruct (read_string rest) as [[s t]|]. }
  cbn [forallb] in H. apply andb_true_iff in H as [Hb H]. unfold plain_byte in Hb.
  rewrite !andb_true_iff, !negb_true_iff in Hb. destruct Hb as [[H1 H2] H3].
  cbn [app read_string]. rewrite H2, H3, (IH H).
  replace (b2z b <? 32) with false by (symmetry; blia).
  by destruct (read_string rest) as [[s t]|].
Qed.

Lemma hex_value_digit d : 0 <= d < 16 -> hex_value (hex_digit d) = Some d.
Proof.
  intros H. apply (bool_decide_eq_true (hex_value (hex_digit d) = Some d)).
  by_enum 16%nat (fun d => bool_decide (hex_value (hex_digit d) = Some d)).
Qed.

Lemma read_escape_u r rest : 0 <= r < 65536 ->
  read_string (escape_u r ++ rest) = ('(s, t) ← read_string rest; Some (utf8_encode r ++ s, t)).
Proof.
  intros H. unfold escape_u. cbn [app read_string].
  rewrite !b2z_z2b_byte by lia. cbn [Z.eqb Pos.eqb].
  rewrite !hex_value_digit by (Z.to_euclidean_division_equations; lia). cbn [mbind option_bind].
  replace (((r / 4096 * 16 + (r / 256) mod 16) * 16 + (r / 16) mod 16) * 16 + r mod 16) with r; [done|].
  Z.to_euclidean_division_equations; lia.
Qed.

(** A short escape stands for its character. *)
Lemma short_escape_spec r e : 0 <= r < 128 -> short_escape r = Some e ->
  0 <= e < 117 /\ long_escape e = Some r.
Proof.
  intros H E.
  assert (match short_escape r with
          | Some e => (0 <=? e) && (e <? 117) && bool_decide (long_escape e = Some r)
          | None => true end = true) as F.
  { by_enum 128%nat (fun r => match short_escape r with
      | Some e => (0 <=? e) && (e <? 117) && bool_decide (long_escape e = Some r) | None => true end). }
  rewrite E, !andb_true_iff, bool_decide_eq_true in F. destruct F as [[? ?] ?]. split; [lia|done].
Qed.

Lemma not_escaped_plain r : 0 <= r < 128 -> short_escape r = None -> must_escape r = false ->
  plain_byte (z2b r) = true.
Proof.
  intros H E M.
  assert (bool_decide (short_escape r = None) && negb (must_escape r) = true ->
    plain_byte (z2b r) = true) as F; [|by apply F; rewrite E, M].
  rewrite <- implb_true_iff.
  by_enum 128%nat (fun r => implb (bool_decide (short_escape r = None) && negb (must_escape r)) (plain_byte (z2b r))).
Qed.

Lemma utf8_high r : valid_rune r = true -> 128 <= r -> forallb plain_byte (utf8_encode r) = true.
Proof.
  intros V H. assert (forall z, 128 <= z < 256 -> plain_byte (z2b z) = true) as P.
  { intros z Hz. unfold plain_byte. rewrite b2z_z2b_byte by lia. blia. }
  destruct (utf8_encode_cases r V) as [[Hr ->]|[[Hr ->]|[(Hr & Hs & ->)|[Hr ->]]]]; [lia|..];
    cbn [forallb]; rewrite !P; try done; Z.to_euclidean_division_equations; lia.
Qed.

Definition escaped (r : Z) : list byte := escape_rune r (utf8_encode r).

Lemma read_escaped r rest : valid_rune r = true ->
  read_string (escaped r ++ rest) = ('(s, t) ← read_string rest; Some (utf8_encode r ++ s, t)).
Proof.
  intros V. unfold escaped, escape_rune. destruct (Z.ltb_spec r 128) as [Hlt|Hge].
  - assert (0 <= r < 128 /\ utf8_encode r = [z2b r]) as [Hr Hu].
    { destruct (utf8_encode_cases r V) as [?|[?|[?|?]]]; [done|lia..]. }
    destruct (short_escape r) as [e|] eqn:E.
    + destruct (short_escape_spec r e Hr E) as [He Hl]. cbn [app read_string].
      rewrite !b2z_z2b_byte by lia. cbn [Z.eqb Pos.eqb]. cond_false. by rewrite Hl, Hu.
    + destruct (must_escape r) eqn:M; [apply read_escape_u; lia|].
      rewrite Hu. apply read_plain. cbn. by rewrite not_escaped_plain.
  - destruct (Z.eqb_spec r RuneError) as [->|Hne]; [by rewrite read_plain|]. cbn [andb].
    destruct ((r =? 8232) || (r =? 8233)) eqn:E; [|by apply read_plain, utf8_high].
    apply read_escape_u. apply orb_true_iff in E. rewrite !Z.eqb_eq in E. lia.
Qed.

Lemma escape_loop_runes rs : forall fuel, (length (encode_runes rs) <= fuel)%nat ->
  Forall (fun r => valid_rune r = true) rs -> escape_loop fuel (encode_runes rs) = rs ≫= escaped.
Proof.
  induction rs as [|r rs IH]; intros fuel Hf V; [by destruct fuel|].
  apply Forall_cons in V as [Vr V]. unfold encode_runes in *. cbn [mbind list_bind] in *.
  pose proof (utf8_encode_length r) as Hl. rewrite length_app in Hf.
  destruct fuel as [|fuel]; [lia|]. cbn [escape_loop].
  destruct (utf8_encode r ++ rs ≫= utf8_encode) as [|b l] eqn:E.
  { apply (f_equal length) in E. rewrite length_app in E. cbn in E. lia. }
  rewrite <- E, DecodeRune_encode by done. rewrite drop_app_length, take_app_length.
  unfold escaped at 1. f_equal. apply IH; [lia|done].
Qed.

Lemma read_runes rs rest : Forall (fun r => valid_rune r = true) rs ->
  read_string ((rs ≫= escaped) ++ quote_byte :: rest) = Some (encode_runes rs, rest).
Proof.
  induction 1 as [|r rs V Vs IH]; [done|]. unfold encode_runes in *. cbn [mbind list_bind].
  rewrite <- app_assoc, read_escaped by done. by rewrite IH.
Qed.

(** What is printed of a string is read back. *)
Lemma read_marshal_string s rest : ValidString s = true ->
  exists l, marshal_string s = quote_byte :: l /\ read_string (l ++ rest) = Some (s2l s, rest).
Proof.
  intros V. apply ValidString_spec in V as (rs & V & ->). eexists. split; [done|].
  rewrite <- app_assoc. unfold of_runes. rewrite s2l_l2s, escape_loop_runes by done.
  by apply read_runes.
Qed.

(** ** Numbers *)

(** What may follow a value: nothing that would continue a number. *)
Definition delimited (l : list byte) : Prop :=
  match l with b :: _ => number_byte b = false | [] => True end.

Lemma span_byte_app p l rest : forallb p l = true ->
  match rest with b :: _ => p b = false | [] => True end -> span p (l ++ rest) = (l, rest).
Proof.
  intros Hl Hr. induction l as [|b l IH].
  - destruct rest as [|b rest]; [done|]. cbn. by rewrite Hr.
  - cbn in Hl |- *. apply andb_true_iff in Hl as [-> Hl]. by rewrite IH.
Qed.

Lemma digit_bytes s : all_chars (fun c => is_digit c || (c =? "-")%char) s = true ->
  forallb number_byte (s2l s) = true.
Proof.
  assert (forall c, (is_digit c || (c =? "-")%char) = true -> number_byte (byte_of_ascii c) = true) as H.
  { intros [[] [] [] [] [] [] [] []]; vm_compute; done. }
  induction s as [|c s IH]; [done|]. cbn. rewrite andb_true_iff. intros [Hc Hs].
  apply andb_true_iff. split; [by apply H|by apply IH].
Qed.

Lemma read_number_marshal z rest : in_int 64 z -> delimited rest ->
  read_number (marshal (Num z) ++ rest) = Some (Num z, rest).
Proof.
  intros Hz Hr. unfold read_number. cbn [marshal].
  rewrite span_byte_app; [|by apply digit_bytes, FormatInt_chars|done].
  by rewrite l2s_s2l, ParseInt_FormatInt.
Qed.

(** ** Lists *)

Section ListLemmas.
Context {A : Type} (item : list byte -> option (A * list byte)) (close : byte) (print : A -> list byte).
Context (Hclose : close <> ch ",").

(** What may follow an item of a list. *)
Definition separated (rest : list byte) : Prop :=
  exists t, rest = close :: t \/ rest = ch "," :: t.

Lemma read_items_commas xs : forall fuel rest, xs <> [] -> (length xs <= fuel)%nat ->
  Forall (fun x => forall rest, separated rest -> item (print x ++ rest) = Some (x, rest)) xs ->
  read_items item close fuel (commas (map print xs) ++ close :: rest) = Some (xs, rest).
Proof.
  induction xs as [|x xs IH]; intros fuel rest Hne Hf H; [done|].
  apply Forall_cons in H as [Hx H]. destruct fuel as [|fuel]; [cbn in Hf; lia|].
  destruct xs as [|y xs].
  - cbn [map commas read_items]. rewrite Hx by (eexists; by left). cbn.
    by rewrite bool_decide_eq_true_2.
  - change (commas (map print (x :: y :: xs))) with (print x ++ ch "," :: commas (map print (y :: xs))).
    cbn [read_items]. rewrite <- app_assoc, <- app_comm_cons.
    rewrite Hx by (eexists; by right). cbn [mbind option_bind].
    rewrite bool_decide_eq_false_2 by done. rewrite bool_decide_eq_true_2 by done.
    rewrite IH; [done|done|cbn in *; lia|done].
Qed.

Lemma read_list_commas xs fuel rest : (length xs <= fuel)%nat ->
  Forall (fun x => exists b l, print x = b :: l /\ b <> close) xs ->
  Forall (fun x => forall rest, separated rest -> item (print x ++ rest) = Some (x, rest)) xs ->
  read_list item close fuel (commas (map print xs) ++ close :: rest) = Some (xs, rest).
Proof.
  intros Hf Hb H. destruct xs as [|x xs]; [cbn; by rewrite bool_decide_eq_true_2|].
  pose proof (read_items_commas (x :: xs) fuel rest ltac:(done) Hf H) as E.
  apply Forall_cons in Hb as [(b & l & Hp & Hne) _].
  assert (exists t, commas (map print (x :: xs)) ++ close :: rest = b :: t) as [t Et].
  { destruct xs; cbn; rewrite Hp; by eexists. }
  rewrite Et in *. cbn [read_list]. by rewrite bool_decide_eq_false_2.
Qed.
End ListLemmas.

(** ** Values *)

(** The first byte of a value tells its kind. *)
Lemma marshal_first v : exists b l, marshal v = b :: l /\ b <> ch "]" /\ b <> ch "}".
Proof.
  destruct v as [|[]|z|s|l|l]; cbn [marshal]; unfold marshal_string; try by do 2 eexists.
  destruct (FormatInt_chars z) as [H Hne]. apply digit_bytes in H.
  destruct (s2l (FormatInt 10 z)) as [|b l] eqn:E.
  { destruct (FormatInt 10 z); [done|discriminate E]. }
  do 2 eexists. split; [done|]. cbn in H. apply andb_true_iff in H as [H _].
  split; intros ->; discriminate H.
Qed.

Lemma separated_delimited close rest : number_byte close = false -> separated close rest -> delimited rest.
Proof. by intros H [t [-> | ->]]. Qed.

Definition reads (v : value) : Prop := forall fuel rest, (size v <= fuel)%nat -> well_formed v = true ->
  delimited rest -> read_value fuel (marshal v ++ rest) = Some (v, rest).

Definition marshal_member (kv : string * value) : list byte :=
  marshal_string kv.1 ++ ch ":" :: marshal kv.2.

Lemma read_member_marshal fuel kv rest : reads kv.2 -> (size kv.2 <= fuel)%nat ->
  ValidString kv.1 = true -> well_formed kv.2 = true -> delimited rest ->
  read_member (read_value fuel) (marshal_member kv ++ rest) = Some (kv, rest).
Proof.
  intros Hr Hf Hk Hv Hd. unfold marshal_member. destruct kv as [k v]. cbn [fst snd] in *.
  destruct (read_marshal_string k (ch ":" :: marshal v ++ rest) Hk) as (l & -> & E).
  unfold read_member. cbn [app fst snd]. rewrite bool_decide_eq_true_2 by done.
  rewrite <- app_assoc, <- app_comm_cons, E. cbn [mbind option_bind].
  rewrite bool_decide_eq_true_2 by done. rewrite Hr by done. cbn. by rewrite l2s_s2l.
Qed.

Lemma sum_size_bounds {A} (f : A -> nat) l n : (sum_list_with (fun x => S (f x)) l <= n)%nat ->
  (length l <= n)%nat /\ Forall (fun x => f x <= n)%nat l.
Proof.
  induction l as [|x l IH] in n |- *; cbn; [split; [lia|done]|]. intros H.
  destruct (IH (n - 1)%nat) as [H1 H2]; [lia|]. split; [lia|]. constructor; [lia|].
  eapply Forall_impl; [done|]. cbn. lia.
Qed.

Lemma marshal_reads v : reads v.
Proof.
  induction v as [|b|z|s|l IH|l IH] using value_rect'; intros [|fuel] rest Hf Hw Hd; cbn in Hf; try lia.
  - done.
  - by destruct b.
  - assert (in_int 64 z) as Hz.
    { cbn [well_formed] in Hw. apply andb_true_iff in Hw. rewrite Z.leb_le, Z.ltb_lt in Hw. unfold in_int. lia. }
    pose proof (read_number_marshal z rest Hz Hd) as E.
    destruct (FormatInt_chars z) as [H Hne]. apply digit_bytes in H. cbn [marshal] in *.
    destruct (s2l (FormatInt 10 z)) as [|b l] eqn:El.
    { destruct (FormatInt 10 z); [done|discriminate El]. }
    cbn in H. apply andb_true_iff in H as [H _]. cbn [app read_value] in *.
    rewrite !bool_decide_eq_false_2 by (intros ->; discriminate H). by rewrite H.
  - destruct (read_marshal_string s rest Hw) as (l & E1 & E2). cbn [marshal read_value].
    rewrite E1. cbn [app]. rewrite bool_decide_eq_true_2 by done. rewrite E2. cbn. by rewrite l2s_s2l.
  - cbn [marshal]. rewrite <- app_comm_cons, <- app_assoc. cbn [app read_value].
    rewrite bool_decide_eq_false_2 by done. rewrite bool_decide_eq_true_2 by done.
    destruct (sum_size_bounds size l fuel) as [Hlen Hsz]; [lia|].
    rewrite read_list_commas; [done|done|lia| |].
    + apply Forall_forall. intros v _. destruct (marshal_first v) as (b & t & E & ? & _). eauto.
    + cbn [well_formed] in Hw. rewrite Forall_forall in *. intros v Hv r Hr.
      apply IH; [done|by apply Hsz| |by apply (separated_delimited (ch "]"))].
      rewrite forallb_forall in Hw. by apply Hw, list_elem_of_In.
  - cbn [marshal]. rewrite <- app_comm_cons, <- app_assoc. cbn [app read_value].
    rewrite !bool_decide_eq_false_2 by done. rewrite bool_decide_eq_true_2 by done.
    destruct (sum_size_bounds (fun kv => size kv.2) l fuel) as [Hlen Hsz]; [lia|].
    change (map _ l) with (map marshal_member l).
    rewrite read_list_commas; [done|done|lia| |].
    + apply Forall_forall. intros kv _. unfold marshal_member, marshal_string. by do 2 eexists.
    + cbn [well_formed] in Hw. rewrite Forall_forall in *. intros kv Hv r Hr.
      rewrite forallb_forall in Hw. specialize (Hw kv ltac:(by apply list_elem_of_In)).
      apply andb_true_iff in Hw as [Hk Hw].
      apply read_member_marshal; [by apply IH|by apply Hsz|done|done|by apply (separated_delimited (ch "}"))].
Qed.

(** *** The fuel is enough *)

Lemma commas_length l : l <> [] ->
  S (length (commas l)) = sum_list_with (fun x => S (length x)) l.
Proof.
  induction l as [|x l IH]; [done|]. intros _. destruct l as [|y l]; [cbn; lia|].
  change (commas (x :: y :: l)) with (x ++ ch "," :: commas (y :: l)). rewrite length_app. cbn [length].
  rewrite IH by done. cbn. lia.
Qed.

Lemma sum_map_le {A} (f : A -> nat) (g : A -> list byte) l : Forall (fun x => f x <= length (g x))%nat l ->
  (S (sum_list_with (fun x => S (f x)) l) <= S (S (length (commas (map g l)))))%nat.
Proof.
  intros H. destruct l as [|x l]; [cbn; lia|].
  apply le_n_S. rewrite commas_length by done.
  induction H as [|y t Hy Ht IH]; [done|]. cbn in *. lia.
Qed.

Lemma size_marshal v : (size v <= length (marshal v))%nat.
Proof.
  induction v as [|b|z|s|l IH|l IH] using value_rect'; cbn [size].
  - cbn. lia.
  - destruct b; cbn; lia.
  - destruct (marshal_first (Num z)) as (b & l & -> & _). cbn. lia.
  - unfold marshal, marshal_string. cbn. lia.
  - cbn [marshal length]. rewrite length_app. cbn [length].
    pose proof (sum_map_le size marshal l IH). lia.
  - cbn [marshal length]. rewrite length_app. cbn [length].
    change (map _ l) with (map marshal_member l).
    assert (Forall (fun kv => size kv.2 <= length (marshal_member kv))%nat l) as H.
    { eapply Forall_impl; [exact IH|]. intros kv H. cbn in H. unfold marshal_member.
      rewrite length_app. cbn [length]. lia. }
    pose proof (sum_map_le _ marshal_member l H). lia.
Qed.

(** What is printed of a well-formed value is read back. *)
Lemma Unmarshal_marshal v : well_formed v = true -> Unmarshal (l2s (marshal v)) = Some v.
Proof.
  intros Hw. unfold Unmarshal. rewrite s2l_l2s. rewrite <- (app_nil_r (marshal v)) at 2.
  rewrite marshal_reads; [done| |done|done].
  pose proof (size_marshal v). lia.
Qed.

(** *** What is printed is valid UTF-8, so that it can be a string of another document *)

Create HintDb valid_utf8.
#[local] Hint Resolve valid_bytes_app valid_bytes_rune : valid_utf8.

(** One ASCII character in front. *)
Lemma valid_bytes_cons b l : b2z b < 128 -> valid_bytes l -> valid_bytes (b :: l).
Proof. intros Hb Hl. apply (valid_bytes_app [b]); [|done]. apply valid_bytes_ascii. by constructor. Qed.

Lemma hex_digit_ascii d : 0 <= d < 16 -> b2z (hex_digit d) < 128.
Proof.
  intros H. apply Z.ltb_lt. by_enum 16%nat (fun d => b2z (hex_digit d) <? 128).
Qed.

Lemma escape_u_valid r : 0 <= r < 65536 -> valid_bytes (escape_u r).
Proof.
  intros H. apply valid_bytes_ascii. unfold escape_u.
  repeat constructor; try done; apply hex_digit_ascii; Z.to_euclidean_division_equations; lia.
Qed.

Lemma escaped_valid r : valid_rune r = true -> valid_bytes (escaped r).
Proof.
  intros V. unfold escaped, escape_rune. assert (0 <= r) as H0.
  { unfold valid_rune in V. rewrite orb_true_iff, !andb_true_iff, !Z.leb_le in V. lia. }
  destruct (Z.ltb_spec r 128) as [Hlt|Hge].
  - destruct (short_escape r) as [e|] eqn:E.
    + destruct (short_escape_spec r e ltac:(lia) E) as [He _]. apply valid_bytes_ascii.
      apply Forall_cons; split; [done|]. apply Forall_cons; split; [|done]. rewrite b2z_z2b_byte by lia. lia.
    + destruct (must_escape r); [apply escape_u_valid; lia|eauto with valid_utf8].
  - destruct ((r =? RuneError) && _); [by apply escape_u_valid|].
    destruct ((r =? 8232) || (r =? 8233)) eqn:E; [|eauto with valid_utf8].
    apply escape_u_valid. rewrite orb_true_iff, !Z.eqb_eq in E. lia.
Qed.

Lemma marshal_string_valid s : ValidString s = true -> valid_bytes (marshal_string s).
Proof.
  intros V. apply ValidString_spec in V as (rs & V & ->). unfold marshal_string, of_runes.
  rewrite s2l_l2s, escape_loop_runes by done. apply valid_bytes_cons; [done|].
  apply valid_bytes_app; [|by apply valid_bytes_ascii; constructor].
  induction V as [|r rs Hr Hrs IH]; [by exists []|]. cbn [mbind list_bind].
  apply valid_bytes_app; [by apply escaped_valid|done].
Qed.

Lemma commas_valid l : Forall valid_bytes l -> valid_bytes (commas l).
Proof.
  induction 1 as [|x l Hx Hl IH]; [by exists []|]. destruct l as [|y l]; [done|].
  change (commas (x :: y :: l)) with (x ++ ch "," :: commas (y :: l)).
  apply valid_bytes_app; [done|]. by apply valid_bytes_cons.
Qed.

Lemma bracket_valid a l b : b2z a < 128 -> b2z b < 128 -> Forall valid_bytes l ->
  valid_bytes (a :: commas l ++ [b]).
Proof.
  intros Ha Hb Hl. apply valid_bytes_cons; [done|]. apply valid_bytes_app; [by apply commas_valid|].
  apply valid_bytes_ascii. by constructor.
Qed.

Lemma FormatInt_valid z : valid_bytes (s2l (FormatInt 10 z)).
Proof.
  apply valid_bytes_ascii. destruct (FormatInt_chars z) as [H _]. apply digit_bytes in H.
  apply Forall_forall. intros b Hb. rewrite forallb_forall in H.
  specialize (H b ltac:(by apply list_elem_of_In)). unfold number_byte in H.
  rewrite orb_true_iff, andb_true_iff, Z.eqb_eq, !Z.leb_le in H. lia.
Qed.

Lemma marshal_valid v : well_formed v = true -> valid_bytes (marshal v).
Proof.
  induction v as [|b|z|s|l IH|l IH] using value_rect'; cbn [marshal well_formed]; intros Hw.
  - apply valid_bytes_ascii. vm_compute. repeat constructor.
  - apply valid_bytes_ascii. destruct b; vm_compute; repeat constructor.
  - apply FormatInt_valid.
  - by apply marshal_string_valid.
  - apply bracket_valid; [done|done|]. apply Forall_map. rewrite Forall_forall in *. intros v Hv.
    apply IH; [done|]. rewrite forallb_forall in Hw. by apply Hw, list_elem_of_In.
  - apply bracket_valid; [done|done|]. apply Forall_map. rewrite Forall_forall in *. intros kv Hv.
    rewrite forallb_forall in Hw. specialize (Hw kv ltac:(by apply list_elem_of_In)).
    apply andb_true_iff in Hw as [Hk Hw]. apply valid_bytes_app; [by apply marshal_string_valid|].
    apply valid_bytes_cons; [done|]. by apply IH.
Qed.

Lemma Marshal_valid `{ToJSON A} (a : A) : well_formed (to_json a) = true -> ValidString (Marshal a) = true.
Proof. intros Hw. by apply valid_bytes_string, marshal_valid. Qed.

Lemma Unmarshal_Marshal `{ToJSON A} (a : A) : well_formed (to_json a) = true ->
  Unmarshal (Marshal a) = Some (to_json a).
Proof. apply Unmarshal_marshal. Qed.

Lemma FormatInt_ValidString z : ValidString (FormatInt 10 z) = true.
Proof. rewrite <- (l2s_s2l (FormatInt 10 z)). apply valid_bytes_string, FormatInt_valid. Qed.
