(* ===== verification/Byter.v ===== *)
(** * Byter: the tag-driven binary codec of [pkg/messagix/byter]

    A [bytes.Buffer] is the list of its unread bytes.  A Go struct seen through [reflect] is
    a list of [StructField]s (name, kind, tags) beside the list of the fields' [Value]s, in
    declaration order.  [WriteFromStruct] and [ReadToStruct] are the two traversals of
    write.go and read.go, [EncodeVLQ] and [DecodeVLQ] the variable-length integers of the
    MQTT remaining length. *)

From S2P Require Import Prelude.

(** ** byter.go *)

(** The two lookup tables for the length prefix of a string ([int8] is mapped to
    [reflect.Uint8], as in the source). *)
Definition stringLengthTags (t : string) : option Kind :=
  match t with
  | "uint8" => Some KUint8
  | "uint16" => Some KUint16
  | "uint32" => Some KUint32
  | "uint64" => Some KUint64
  | "int8" => Some KUint8
  | "byte" => Some KUint8
  | "int16" => Some KInt16
  | "int32" => Some KInt32
  | "int64" => Some KInt64
  | _ => None
  end%string.

Definition stringLengthSizes (t : string) : option nat :=
  match t with
  | "uint8" => Some 1%nat
  | "uint16" => Some 2%nat
  | "uint32" => Some 4%nat
  | "uint64" => Some 8%nat
  | "int8" => Some 1%nat
  | "byte" => Some 1%nat
  | "int16" => Some 2%nat
  | "int32" => Some 4%nat
  | "int64" => Some 8%nat
  | _ => None
  end%string.

Record EndianOps := { Read : list byte -> res Z; Write : Z -> list byte }.

(** [binary.BigEndian.UintN] panics on a slice of fewer than [n] bytes and reads the first
    [n] otherwise; [binary.Write] of a value converted to [n] bytes keeps its low bytes. *)
Definition fixed_ops (decode : list byte -> Z) (encode : nat -> Z -> list byte) (n : nat) : EndianOps :=
  {| Read := fun b => if (length b <? n)%nat then Panic else Ok (decode (take n b));
     Write := encode n |}.

Definition kind_ops (decode : list byte -> Z) (encode : nat -> Z -> list byte) (k : Kind) : option EndianOps :=
  match k with
  | KUint8 => Some (fixed_ops decode encode 1)
  | KUint16 => Some (fixed_ops decode encode 2)
  | KUint32 => Some (fixed_ops decode encode 4)
  | KUint64 => Some (fixed_ops decode encode 8)
  | _ => None
  end.

Definition endianOperations (endian : string) (k : Kind) : option EndianOps :=
  match endian with
  | "big" => kind_ops be_decode be_encode k
  | "little" => kind_ops le_decode le_encode k
  | _ => None
  end%string.

Definition default_endian (endian : string) : string :=
  (if endian =? "" then "big" else endian)%string.

(** ** bytes.Buffer *)

(** [Buffer.Read] of [n] bytes: at the end of the buffer it fails with [io.EOF] (unless
    [n = 0]); with fewer than [n] bytes left it fills a prefix of the destination, whose
    other bytes keep the zeros of [make], and reports no error. *)
Definition buff_Read (n : nat) (buf : list byte) : res (list byte * list byte) :=
  match buf with
  | [] => if (n =? 0)%nat then Ok ([], []) else Err "EOF"
  | _ => Ok (take n buf ++ replicate (n - length buf) x00, drop n buf)
  end.

Definition buff_ReadByte (buf : list byte) : res (byte * list byte) :=
  match buf with
  | [] => Err "EOF"
  | b :: rest => Ok (b, rest)
  end.

(** [Buffer.Next n] returns what there is. *)
Definition buff_Next (n : nat) (buf : list byte) : list byte * list byte :=
  (take n buf, drop n buf).

(** ** Variable-length integers *)

(** The loop of [DecodeVLQ]: [multiplier] and [value] are the Go variables. *)
Fixpoint DecodeVLQ_loop (multiplier value : Z) (buf : list byte) : res (Z * list byte) :=
  match buf with
  | [] => Err "EOF"
  | encodedByte :: rest =>
      let value := value + Z.land (b2z encodedByte) 0x7F * multiplier in
      if multiplier >? 2097152 then Err "malformed vlq encoded data"
      else
        let multiplier := multiplier * 128 in
        if Z.land (b2z encodedByte) 0x80 =? 0 then Ok (value, rest)
        else DecodeVLQ_loop multiplier value rest
  end.

Definition DecodeVLQ (buf : list byte) : res (Z * list byte) := DecodeVLQ_loop 1 0 buf.

(** The loop of [EncodeVLQ]: [value] is a signed 64-bit [int] and [>>=] the arithmetic
    shift, so a negative value never reaches [0]. *)
Fixpoint EncodeVLQ_loop (fuel : nat) (value : Z) : res (list byte) :=
  match fuel with
  | O => Diverge
  | S fuel =>
      let encodedByte := uint8 (Z.land value 0x7F) in
      let value := Z.shiftr value 7 in
      let encodedByte := if value >? 0 then Z.lor encodedByte 0x80 else encodedByte in
      if value =? 0 then Ok [z2b encodedByte]
      else rest ← EncodeVLQ_loop fuel value; Ok (z2b encodedByte :: rest)
  end.

(** Nine groups of seven bits hold any non-negative [int]. *)
Definition EncodeVLQ (value : Z) : res (list byte) := EncodeVLQ_loop 10 value.

(** ** Integers and strings *)

Definition ReadInteger (k : Kind) (size : nat) (endian : string) (buf : list byte)
    : res (Z * list byte) :=
  let endian := default_endian endian in
  '(buffer, buf) ← buff_Read size buf;
  match endianOperations endian k with
  | Some ops => v ← Read ops buffer; Ok (v, buf)
  | None => Err "unsupported kind or endianness"
  end.

Definition writeInteger (value : Z) (k : Kind) (endian : string) : res (list byte) :=
  let endian := default_endian endian in
  match endianOperations endian k with
  | Some ops => Ok (Write ops value)
  | None => Err "unsupported kind or endianness"
  end.

(** [make([]byte, n)] panics when [n] bytes exceed the address space (amd64: 48 bits). *)
Definition max_alloc : Z := 2 ^ 48.

Definition readString (lengthType endianess : string) (buf : list byte) : res (string * list byte) :=
  let endianess := default_endian endianess in
  match stringLengthSizes lengthType with
  | None => Err "invalid lengthType"
  | Some size =>
      match stringLengthTags lengthType with
      | None => Err "invalid lengthType"
      | Some kind =>
          '(strLength, buf) ← ReadInteger kind size endianess buf;
          if strLength >? max_alloc then Panic
          else '(strBytes, buf) ← buff_Read (Z.to_nat strLength) buf;
               Ok (l2s strBytes, buf)
      end
  end.

(** [writeString] ignores the error of its call to [writeInteger]; an unknown length type
    gives the zero [reflect.Kind]. *)
Definition writeString (s : string) (lengthType endianess : string) : list byte :=
  let endianess := default_endian endianess in
  let prefix :=
    if (lengthType =? "")%string then []
    else match writeInteger (uint64 (slen s)) (default KInvalid (stringLengthTags lengthType)) endianess with
         | Ok bs => bs
         | _ => []
         end in
  prefix ++ s2l s.

(** ** Struct fields *)

(** What [reflect] reports of a field: [sf_exported] is [CanSet] and [CanInterface], and
    [sf_enum] says that a pointer to the type implements [EnumMarker]. *)
Record StructField := {
  sf_name : string;
  sf_kind : Kind;
  sf_exported : bool;
  sf_enum : bool;
  sf_tags : list (string * string);
}.

Definition sf_tag (f : StructField) (key : string) : string := tag_get key (sf_tags f).

Definition isEnum (f : StructField) : bool := sf_exported f && sf_enum f.

(** Width of an unsigned kind: [SetUint] keeps that many low bits. *)
Definition uint_bits (k : Kind) : Z :=
  match k with KUint8 => 8 | KUint16 => 16 | KUint32 => 32 | _ => 64 end.

(** The size in bytes, [field.Type().Size()]. *)
Definition uint_size (k : Kind) : nat :=
  match k with KUint8 => 1 | KUint16 => 2 | KUint32 => 4 | _ => 8 end.

Definition is_uint (k : Kind) : bool :=
  match k with KUint8 | KUint16 | KUint32 | KUint64 => true | _ => false end.

(** The value of a field.  [VStruct] holds a struct filled from JSON, whose type is a
    parameter; [VOther] is a value that the codec never looks into. *)
Inductive Value (J : Type) :=
| VBool (b : bool)
| VUint (z : Z)
| VString (s : string)
| VStruct (j : J)
| VOther.

Arguments VBool {J} b.
Arguments VUint {J} z.
Arguments VString {J} s.
Arguments VStruct {J} j.
Arguments VOther {J}.

Definition val_uint {J} (v : Value J) : Z := match v with VUint z => z | _ => 0 end.
Definition val_string {J} (v : Value J) : string := match v with VString s => s | _ => "" end.

(** ** write.go *)

(** One turn of the loop of [WriteFromStruct]: the bytes the field appends. *)
Definition writeField {J} (f : StructField) (v : Value J) : res (list byte) :=
  if (sf_tag f "skip" =? "1")%string then Ok []
  else match sf_kind f with
  | KUint8 | KUint16 | KUint32 | KUint64 =>
      if isEnum f then Ok [z2b (uint8 (val_uint v))]
      else if negb (sf_tag f "vlq" =? "")%string then EncodeVLQ (int64 (val_uint v))
      else writeInteger (val_uint v) (sf_kind f) (sf_tag f "endian")
  | KString => Ok (writeString (val_string v) (sf_tag f "lengthType") (sf_tag f "endian"))
  | _ => Ok []
  end.

(** [WriteFromStruct] on a pointer to a struct: the bytes of the whole buffer. *)
Fixpoint WriteFromStruct {J} (fs : list (StructField * Value J)) : res (list byte) :=
  match fs with
  | [] => Ok []
  | (f, v) :: rest => bs ← writeField f v; tl ← WriteFromStruct rest; Ok (bs ++ tl)
  end.

(** ** read.go *)

Section Read.
  (** [json.Unmarshal] of a byte string into a struct with the given contents. *)
Context {J : Type} (json_Unmarshal : list byte -> J -> res J).

(** One turn of the loop of [ReadToStruct], entered with a non-empty buffer: the field's
    new value and the rest of the buffer. *)
Definition readField (f : StructField) (v : Value J) (buf : list byte) : res (Value J * list byte) :=
  if negb (sf_exported f) then Ok (v, buf)
  else match sf_kind f with
  | KBool =>
      let '(boolByte, buf) := buff_Next 1 buf in
      b ← index boolByte 0; Ok (VBool (negb (b2z b =? 0)), buf)
  | KUint8 | KUint16 | KUint32 | KUint64 =>
      if negb (sf_tag f "vlq" =? "")%string then
        '(u, buf) ← DecodeVLQ buf; Ok (VUint (uintN (uint_bits (sf_kind f)) (uint64 u)), buf)
      else
        '(u, buf) ← ReadInteger (sf_kind f) (uint_size (sf_kind f)) (sf_tag f "endian") buf;
        Ok (VUint (uintN (uint_bits (sf_kind f)) u), buf)
  | KString =>
      '(s, buf) ← readString (sf_tag f "lengthType") (sf_tag f "endian") buf; Ok (VString s, buf)
  | KInterface => Ok (v, buf)
  | KStruct =>
      if negb (sf_tag f "jsonString" =? "")%string then
        let '(jsonData, buf) := buff_Next (length buf) buf in
        match v with
        | VStruct j => j ← json_Unmarshal jsonData j; Ok (VStruct j, buf)
        | _ => Ok (v, buf)
        end
      else Ok (v, buf)
  | _ =>
      (* the warning drains a buffer of fewer than 1024 bytes into the log *)
      Ok (v, if (length buf <? 1024)%nat then [] else buf)
  end.

(** [ReadToStruct] on a pointer to a struct; the loop stops, without an error, at the
    first field it reaches with an empty buffer. *)
Fixpoint ReadToStruct (fs : list (StructField * Value J)) (buf : list byte)
    : res (list (Value J) * list byte) :=
  match fs with
  | [] => Ok ([], buf)
  | (f, v) :: rest =>
      match buf with
      | [] => Ok (v :: (snd <$> rest), [])
      | _ =>
          '(v, buf) ← readField f v buf;
          '(vs, buf) ← ReadToStruct rest buf;
          Ok (v :: vs, buf)
      end
  end.
End Read.

(** ** Variable-length integers: round trip and bounds *)

(** The byte that [EncodeVLQ] emits for the low seven bits of [v]. *)
Lemma EncodeVLQ_loop_S fuel v : 0 <= v ->
  EncodeVLQ_loop (S fuel) v =
    if v <? 128 then Ok [z2b v]
    else rest ← EncodeVLQ_loop fuel (v / 128); Ok (z2b (v mod 128 + 128) :: rest).
Proof.
  intros Hv. cbn [EncodeVLQ_loop]. rewrite land_127, Z.shiftr_div_pow2 by lia.
  change (2 ^ 7) with 128.
  pose proof (Z.mod_pos_bound v 128 ltac:(lia)) as Hm.
  rewrite (uintN_small 8 (v mod 128)) by (unfold in_uint; lia).
  destruct (Z.ltb_spec v 128).
  - rewrite Z.div_small by lia. cbn. by rewrite Z.mod_small by lia.
  - assert (0 < v / 128) by (apply Z.div_str_pos; lia).
    rewrite lor_128 by lia.
    replace (v / 128 >? 0) with true by (symmetry; apply Z.gtb_lt; lia).
    by replace (v / 128 =? 0) with false by (symmetry; blia).
Qed.

(** One step of [DecodeVLQ] on such a byte. *)
Lemma DecodeVLQ_loop_last m acc v rest : 0 <= v < 128 -> m <= 2097152 ->
  DecodeVLQ_loop m acc (z2b v :: rest) = Ok (acc + v * m, rest).
Proof.
  intros Hv Hm. cbn. rewrite b2z_z2b_small by (unfold in_uint; lia).
  rewrite land_127, land_128, Z.mod_small by lia.
  replace (m >? 2097152) with false by (symmetry; apply not_true_is_false; rewrite Z.gtb_lt; lia).
  by replace (v <? 128) with true by (symmetry; blia).
Qed.

Lemma DecodeVLQ_loop_more m acc v rest : 0 <= v < 128 -> m <= 2097152 ->
  DecodeVLQ_loop m acc (z2b (v + 128) :: rest) = DecodeVLQ_loop (m * 128) (acc + v * m) rest.
Proof.
  intros Hv Hm. cbn [DecodeVLQ_loop]. rewrite b2z_z2b_small by (unfold in_uint; lia).
  rewrite land_127, land_128 by lia.
  replace (m >? 2097152) with false by (symmetry; apply not_true_is_false; rewrite Z.gtb_lt; lia).
  replace (v + 128 <? 128) with false by (symmetry; blia).
  replace ((v + 128) mod 128) with v; [done|].
  rewrite <- Zplus_mod_idemp_r, Z_mod_same_full, Z.add_0_r, Z.mod_small; lia.
Qed.

Lemma VLQ_loop_roundtrip fuel : forall k v acc rest,
  (k <= 3)%nat -> (4 - k <= fuel)%nat -> 0 <= v < 128 ^ (4 - Z.of_nat k) ->
  exists bs, EncodeVLQ_loop fuel v = Ok bs /\
    DecodeVLQ_loop (128 ^ Z.of_nat k) acc (bs ++ rest) = Ok (acc + v * 128 ^ Z.of_nat k, rest) /\
    (1 <= length bs <= 4 - k)%nat.
Proof.
  induction fuel as [|fuel IH]; intros k v acc rest Hk Hf Hv; [lia|].
  assert (128 ^ Z.of_nat k <= 2097152).
  { change 2097152 with (128 ^ 3). apply Z.pow_le_mono_r; lia. }
  rewrite EncodeVLQ_loop_S by lia.
  destruct (Z.ltb_spec v 128).
  { exists [z2b v]. split; [done|]. split; [apply DecodeVLQ_loop_last; lia|cbn; lia]. }
  assert (k <> 3)%nat as Hk3 by (intros ->; change (128 ^ (4 - Z.of_nat 3)) with 128 in Hv; lia).
  replace (4 - Z.of_nat k) with (Z.succ (4 - Z.of_nat (S k))) in Hv by lia.
  rewrite Z.pow_succ_r in Hv by lia.
  pose proof (Z.div_mod v 128 ltac:(lia)) as Hdm.
  pose proof (Z.mod_pos_bound v 128 ltac:(lia)).
  destruct (IH (S k) (v / 128) (acc + v mod 128 * 128 ^ Z.of_nat k) rest) as (bs & E & D & L);
    [lia | lia | split; [apply Z.div_pos; lia | apply Z.div_lt_upper_bound; [lia|apply Hv]] |].
  exists (z2b (v mod 128 + 128) :: bs). rewrite E. split; [done|]. split; [|cbn; lia].
  cbn [app]. rewrite DecodeVLQ_loop_more by lia.
  rewrite Nat2Z.inj_succ, Z.pow_succ_r in D by lia.
  rewrite (Z.mul_comm _ 128), D. do 2 f_equal. nia.
Qed.

Lemma VLQ_roundtrip v rest : 0 <= v < 2 ^ 28 ->
  exists bs, EncodeVLQ v = Ok bs /\ DecodeVLQ (bs ++ rest) = Ok (v, rest) /\ (1 <= length bs <= 4)%nat.
Proof.
  intros Hv. destruct (VLQ_loop_roundtrip 10 0 v 0 rest) as (bs & E & D & L); [lia..|].
  exists bs. split; [done|]. split; [|lia]. unfold DecodeVLQ.
  change (128 ^ Z.of_nat 0) with 1 in D. rewrite D. do 2 f_equal. lia.
Qed.

(** [EncodeVLQ] ends on every non-negative [int] and then writes at most nine bytes. *)
Lemma EncodeVLQ_loop_total fuel : forall n v,
  (1 <= n <= fuel)%nat -> 0 <= v < 128 ^ Z.of_nat n ->
  exists bs, EncodeVLQ_loop fuel v = Ok bs /\ (1 <= length bs <= n)%nat.
Proof.
  induction fuel as [|fuel IH]; intros n v Hn Hv; [lia|].
  rewrite EncodeVLQ_loop_S by lia.
  destruct (Z.ltb_spec v 128); [exists [z2b v]; cbn; split; [done|lia]|].
  destruct n as [|[|n]]; [lia | change (128 ^ Z.of_nat 1) with 128 in Hv; lia |].
  rewrite (Nat2Z.inj_succ (S n)), Z.pow_succ_r in Hv by lia.
  destruct (IH (S n) (v / 128)) as (bs & E & L); [lia| |].
  { split; [apply Z.div_pos; lia | apply Z.div_lt_upper_bound; [lia|apply Hv]]. }
  exists (z2b (v mod 128 + 128) :: bs). rewrite E. cbn. split; [done|lia].
Qed.

Lemma EncodeVLQ_loop_negative fuel : forall v, v < 0 -> EncodeVLQ_loop fuel v = Diverge.
Proof.
  induction fuel as [|fuel IH]; intros v Hv; [done|]. cbn [EncodeVLQ_loop].
  rewrite Z.shiftr_div_pow2 by lia. change (2 ^ 7) with 128.
  assert (v / 128 < 0) by (apply Z.div_lt_upper_bound; lia).
  replace (v / 128 =? 0) with false by (symmetry; blia).
  by rewrite IH.
Qed.

(** Past four groups the decoder refuses, whatever follows. *)
Lemma VLQ_loop_malformed fuel : forall k v acc rest bs,
  (k <= 4)%nat -> 0 <= v -> ((k < 4)%nat -> 128 ^ (4 - Z.of_nat k) <= v) ->
  EncodeVLQ_loop fuel v = Ok bs ->
  DecodeVLQ_loop (128 ^ Z.of_nat k) acc (bs ++ rest) = Err "malformed vlq encoded data".
Proof.
  induction fuel as [|fuel IH]; intros k v acc rest bs Hk Hv Hbig E; [done|].
  destruct (decide (k = 4%nat)) as [->|Hk4].
  { cbn in E. destruct bs as [|b bs]; [|done].
    case_match; [done|]. by inv_res E. }
  specialize (Hbig ltac:(lia)).
  assert (128 ^ Z.of_nat k <= 2097152).
  { change 2097152 with (128 ^ 3). apply Z.pow_le_mono_r; lia. }
  replace (4 - Z.of_nat k) with (Z.succ (4 - Z.of_nat (S k))) in Hbig by lia.
  rewrite Z.pow_succ_r in Hbig by lia.
  assert (1 <= 128 ^ (4 - Z.of_nat (S k))).
  { change 1 with (128 ^ 0). apply Z.pow_le_mono_r; lia. }
  rewrite EncodeVLQ_loop_S in E by lia.
  destruct (Z.ltb_spec v 128); [lia|]. inv_res E.
  pose proof (Z.mod_pos_bound v 128 ltac:(lia)).
  cbn [app]. rewrite DecodeVLQ_loop_more by lia.
  replace (128 ^ Z.of_nat k * 128) with (128 ^ Z.of_nat (S k))
    by (rewrite Nat2Z.inj_succ, Z.pow_succ_r; lia).
  eapply (IH (S k) (v / 128)); [lia | apply Z.div_pos; lia | | done].
  intros _. apply Z.div_le_lower_bound; [lia|apply Hbig].
Qed.

(** Whatever the bytes, [DecodeVLQ] returns (a value or an error); a value it returns has at
    most 28 bits and comes from at most four bytes at the front of the buffer. *)
Lemma DecodeVLQ_loop_spec buf : forall k acc,
  match DecodeVLQ_loop (128 ^ Z.of_nat k) acc buf with
  | Ok (v, rest) => acc <= v <= acc + 128 ^ 4 - 128 ^ Z.of_nat k /\
      exists pre, buf = pre ++ rest /\ (1 <= length pre <= 4 - k)%nat
  | Err _ => True
  | Halt _ => False
  end.
Proof.
  induction buf as [|b buf IH]; intros k acc; [done|]. cbn [DecodeVLQ_loop].
  destruct (128 ^ Z.of_nat k >? 2097152) eqn:Em; [done|].
  assert (k <= 3)%nat as Hk.
  { destruct (decide (k <= 3)%nat) as [|Hn]; [done|].
    assert (128 ^ 4 <= 128 ^ Z.of_nat k) by (apply Z.pow_le_mono_r; lia).
    change (128 ^ 4) with 268435456 in *. rewrite Z.gtb_ltb, Z.ltb_ge in Em. lia. }
  rewrite land_127, land_128 by apply b2z_range.
  pose proof (b2z_range b). pose proof (Z.mod_pos_bound (b2z b) 128 ltac:(lia)).
  assert (128 ^ Z.of_nat (S k) = 128 * 128 ^ Z.of_nat k) as ES by
    (rewrite Nat2Z.inj_succ, Z.pow_succ_r; lia).
  assert (0 < 128 ^ Z.of_nat k) by lia.
  assert (128 ^ Z.of_nat (S k) <= 128 ^ 4) by (apply Z.pow_le_mono_r; lia).
  destruct (Z.ltb_spec (b2z b) 128); cbn [Z.eqb].
  - split; [nia|]. exists [b]. split; [done|cbn; lia].
  - specialize (IH (S k) (acc + b2z b mod 128 * 128 ^ Z.of_nat k)).
    rewrite ES, (Z.mul_comm 128) in IH. destruct DecodeVLQ_loop as [[v rest]| |]; [|done..].
    destruct IH as (Hv & pre & -> & Hl). split; [nia|].
    exists (b :: pre). split; [done|]. cbn. lia.
Qed.

Lemma DecodeVLQ_spec buf :
  match DecodeVLQ buf with
  | Ok (v, rest) => 0 <= v < 2 ^ 28 /\ exists pre, buf = pre ++ rest /\ (1 <= length pre <= 4)%nat
  | Err _ => True
  | Halt _ => False
  end.
Proof.
  pose proof (DecodeVLQ_loop_spec buf 0 0) as H. unfold DecodeVLQ.
  change (128 ^ Z.of_nat 0) with 1 in H.
  destruct DecodeVLQ_loop as [[v rest]| |]; [|done..].
  destruct H as (Hv & pre & -> & Hl). split; [lia|]. exists pre. split; [done|lia].
Qed.

(** ** Struct round trip *)

Definition endian_ok (e : string) : bool :=
  ((e =? "") || (e =? "big") || (e =? "little"))%string.

(** The length types under which a string can be written and read back: those whose
    [reflect.Kind] is unsigned. *)
Definition lengthType_ok (t : string) : bool :=
  match stringLengthTags t with Some k => is_uint k | None => false end.

(** [codable f v]: the field has a supported kind with coherent tags and its value fits. *)
Definition codable {J} (f : StructField) (v : Value J) : Prop :=
  sf_exported f = true /\ sf_tag f "skip" <> "1"%string /\
  match v with
  | VUint z =>
      is_uint (sf_kind f) = true /\ in_uint (uint_bits (sf_kind f)) z /\
      if sf_enum f then sf_kind f = KUint8 /\ sf_tag f "vlq" = ""%string /\ endian_ok (sf_tag f "endian") = true
      else if (sf_tag f "vlq" =? "")%string then endian_ok (sf_tag f "endian") = true
      else z < 2 ^ 28
  | VString s =>
      sf_kind f = KString /\ lengthType_ok (sf_tag f "lengthType") = true /\
      endian_ok (sf_tag f "endian") = true /\ slen s <= max_alloc /\
      slen s < 2 ^ (8 * Z.of_nat (default 0%nat (stringLengthSizes (sf_tag f "lengthType"))))
  | _ => False
  end.

Lemma buff_Read_app n bs rest : length bs = n -> buff_Read n (bs ++ rest) = Ok (bs, rest).
Proof.
  intros Hl. unfold buff_Read. destruct (bs ++ rest) as [|b l] eqn:E.
  - apply app_eq_nil in E as [-> ->]. by subst n.
  - rewrite <- E, take_app_length', drop_app_length', length_app by done.
    replace (n - (length bs + length rest))%nat with 0%nat by lia. by rewrite app_nil_r.
Qed.

(** A read past the end pads with zeros instead of failing. *)
Lemma buff_Read_short n bs : bs <> [] -> (length bs <= n)%nat ->
  buff_Read n bs = Ok (bs ++ replicate (n - length bs) x00, []).
Proof.
  intros Hne Hl. unfold buff_Read. destruct bs as [|b bs]; [done|].
  by rewrite take_ge, drop_ge by done.
Qed.

Lemma uint_bits_size k : is_uint k = true -> uint_bits k = 8 * Z.of_nat (uint_size k).
Proof. by destruct k. Qed.

Lemma kind_ops_spec dec enc k :
  (forall n z, dec (enc n z) = uintN (8 * Z.of_nat n) z) -> (forall n z, length (enc n z) = n) ->
  is_uint k = true ->
  exists ops, kind_ops dec enc k = Some ops /\
    forall v, length (Write ops v) = uint_size k /\
      Read ops (Write ops v) = Ok (uintN (uint_bits k) v).
Proof.
  intros Hde Hlen Hk.
  assert (exists n, kind_ops dec enc k = Some (fixed_ops dec enc n) /\ n = uint_size k) as (n & -> & ->)
    by (destruct k; try done; eauto).
  eexists. split; [done|]. intros v. cbn [Read Write fixed_ops]. rewrite Hlen, uint_bits_size by done.
  split; [done|]. rewrite Nat.ltb_irrefl, take_ge by (rewrite Hlen; lia). by rewrite Hde.
Qed.

Lemma endian_ok_cases e : endian_ok e = true -> e = ""%string \/ e = "big"%string \/ e = "little"%string.
Proof. unfold endian_ok. rewrite !orb_true_iff, !String.eqb_eq. tauto. Qed.

Lemma endianOperations_spec e k : endian_ok e = true -> is_uint k = true ->
  exists ops, endianOperations (default_endian e) k = Some ops /\
    forall v, length (Write ops v) = uint_size k /\
      Read ops (Write ops v) = Ok (uintN (uint_bits k) v).
Proof.
  unfold default_endian. intros He Hk.
  apply endian_ok_cases in He as [-> | [-> | ->]].
  all: cbn; apply kind_ops_spec; auto using be_decode_encode, be_encode_length,
    le_decode_encode, le_encode_length.
Qed.

Lemma writeInteger_ReadInteger v k e :
  endian_ok e = true -> is_uint k = true ->
  exists bs, writeInteger v k e = Ok bs /\ length bs = uint_size k /\
    forall rest, ReadInteger k (uint_size k) e (bs ++ rest) = Ok (uintN (uint_bits k) v, rest).
Proof.
  intros He Hk. destruct (endianOperations_spec e k He Hk) as (ops & E & H).
  destruct (H v) as [Hl Hr]. exists (Write ops v). unfold writeInteger, ReadInteger.
  rewrite E. split; [done|]. split; [done|]. intros rest.
  rewrite buff_Read_app by done. cbn. by rewrite Hr.
Qed.

Lemma writeInteger_uint8 z e : endian_ok e = true -> writeInteger z KUint8 e = Ok [z2b z].
Proof. intros [-> | [-> | ->]]%endian_ok_cases; reflexivity. Qed.

Lemma lengthType_ok_spec t : lengthType_ok t = true ->
  exists k, stringLengthTags t = Some k /\ is_uint k = true /\ stringLengthSizes t = Some (uint_size k).
Proof.
  unfold lengthType_ok. destruct (stringLengthTags t) as [k|] eqn:E; [|done]. intros Hk.
  exists k. split; [done|]. split; [done|].
  assert (t ∈ ["uint8"; "uint16"; "uint32"; "uint64"; "int8"; "byte"; "int16"; "int32"; "int64"]%string) as Ht.
  { revert E. unfold stringLengthTags. repeat case_match; try done; subst; set_solver. }
  repeat (apply elem_of_cons in Ht as [->|Ht]; [by cbn in E |- *; injection E as <-|]).
  by apply elem_of_nil in Ht.
Qed.

Lemma uint_size_pos k : (1 <= uint_size k)%nat.
Proof. destruct k; cbn; lia. Qed.

(** [writeString] is the length prefix and the bytes of the string; after the prefix
    [readString] is one [Buffer.Read] of the string's length. *)
Lemma writeString_split s t e :
  lengthType_ok t = true -> endian_ok e = true -> slen s <= max_alloc ->
  slen s < 2 ^ (8 * Z.of_nat (default 0%nat (stringLengthSizes t))) ->
  exists pre, writeString s t e = pre ++ s2l s /\ (1 <= length pre)%nat /\
    forall rest, readString t e (pre ++ rest) =
      '(bs, rest) ← buff_Read (String.length s) rest; Ok (l2s bs, rest).
Proof.
  intros Ht He Hmax Hs. destruct (lengthType_ok_spec t Ht) as (k & Ek & Hk & Es).
  rewrite Es in Hs. cbn in Hs.
  destruct (writeInteger_ReadInteger (uint64 (slen s)) k (default_endian e)) as (bs & Ew & Hl & Hr);
    [|done|].
  { unfold default_endian. by destruct (e =? "")%string. }
  exists bs. unfold writeString, readString; cbv zeta.
  assert ((t =? "")%string = false) as -> by (destruct t; [discriminate Ht|done]).
  rewrite Ek, Es. cbn [default from_option]. change (id k) with k. rewrite Ew.
  split; [done|]. split; [rewrite Hl; apply uint_size_pos|].
  intros rest. rewrite Hr. cbn.
  rewrite (uintN_small 64), (uintN_small (uint_bits k)).
  2: { rewrite uint_bits_size by done. split; lia. }
  2: { unfold max_alloc in *. split; lia. }
  replace (slen s >? max_alloc) with false by (symmetry; apply not_true_is_false; rewrite Z.gtb_lt; lia).
  by rewrite Nat2Z.id.
Qed.

Lemma writeString_readString s t e :
  lengthType_ok t = true -> endian_ok e = true -> slen s <= max_alloc ->
  slen s < 2 ^ (8 * Z.of_nat (default 0%nat (stringLengthSizes t))) ->
  (1 <= length (writeString s t e))%nat /\
  forall rest, readString t e (writeString s t e ++ rest) = Ok (s, rest).
Proof.
  intros Ht He Hmax Hs. destruct (writeString_split s t e Ht He Hmax Hs) as (pre & -> & Hl & Hr).
  split; [rewrite length_app; lia|]. intros rest.
  rewrite <- app_assoc, Hr, buff_Read_app by apply s2l_length. cbn. by rewrite l2s_s2l.
Qed.

Lemma int64_small28 z : 0 <= z < 2 ^ 28 -> int64 z = z.
Proof. intros. apply intN_small; unfold in_int; lia. Qed.

Lemma writeField_readField {J} (ju : list byte -> J -> res J) f (v v0 : Value J) :
  codable f v ->
  exists bs, writeField f v = Ok bs /\ (1 <= length bs)%nat /\
    forall rest, readField ju f v0 (bs ++ rest) = Ok (v, rest).
Proof.
  intros (Hexp & Hskip & Hv). unfold writeField, readField.
  apply String.eqb_neq in Hskip as ->. rewrite Hexp. cbn [negb].
  destruct v as [|z|s| |]; try done.
  - destruct Hv as (Hk & Hz & Henum). unfold isEnum. rewrite Hexp. cbn [andb].
    destruct (sf_enum f).
    + destruct Henum as (E & -> & He). rewrite E in Hz |- *. cbn [String.eqb negb val_uint uint_bits] in *.
      destruct (writeInteger_ReadInteger z KUint8 _ He eq_refl) as (bs & Ew & Hl & Hr).
      exists [z2b (uint8 z)]. split; [done|]. split; [done|]. intros rest.
      rewrite writeInteger_uint8 in Ew by done. injection Ew as <-.
      rewrite (uintN_small 8 z) by done. rewrite Hr. cbn. by rewrite !(uintN_small 8 z) by done.
    + assert (match sf_kind f with KUint8 | KUint16 | KUint32 | KUint64 => True | _ => False end)
        as Hk' by (destruct (sf_kind f); done).
      destruct (sf_tag f "vlq" =? "")%string; cbn [negb val_uint].
      * destruct (writeInteger_ReadInteger z (sf_kind f) _ Henum Hk) as (bs & Ew & Hl & Hr).
        exists bs. pose proof (uint_size_pos (sf_kind f)).
        split; [by destruct (sf_kind f)|]. split; [lia|]. intros rest. rewrite Hr. cbn.
        rewrite !(uintN_small (uint_bits (sf_kind f)) z) by done. by destruct (sf_kind f).
      * assert (0 <= z < 2 ^ 28) as Hz28 by (unfold in_uint in Hz; lia).
        destruct (VLQ_roundtrip z []) as (bs & Ew & _ & Hl); [done|].
        exists bs. rewrite int64_small28 by done. split; [by destruct (sf_kind f)|].
        split; [lia|]. intros rest.
        destruct (VLQ_roundtrip z rest) as (bs' & Ew' & Dr & _); [done|].
        assert (bs' = bs) as -> by congruence. rewrite Dr. cbn.
        rewrite (uintN_small 64) by (unfold in_uint; lia). rewrite uintN_small by done.
        by destruct (sf_kind f).
  - destruct Hv as (-> & Ht & He & Hmax & Hs).
    destruct (writeString_readString s _ _ Ht He Hmax Hs) as [Hl Hr].
    eexists. split; [done|]. split; [done|]. intros rest. cbn. by rewrite Hr.
Qed.

Lemma ReadToStruct_cons {J} (ju : list byte -> J -> res J) f v fs buf : buf <> [] ->
  ReadToStruct ju ((f, v) :: fs) buf =
    '(v, buf) ← readField ju f v buf; '(vs, buf) ← ReadToStruct ju fs buf; Ok (v :: vs, buf).
Proof. by destruct buf. Qed.

(** A codable field that was written is read first, whatever the fields behind it. *)
Lemma ReadToStruct_written {J} (ju : list byte -> J -> res J) f (v v0 : Value J) fs : codable f v ->
  exists bs, writeField f v = Ok bs /\ (1 <= length bs)%nat /\
    forall rest, ReadToStruct ju ((f, v0) :: fs) (bs ++ rest) =
      '(vs, buf) ← ReadToStruct ju fs rest; Ok (v :: vs, buf).
Proof.
  intros Hc. destruct (writeField_readField ju f v v0 Hc) as (bs & W & L & R).
  exists bs. split; [done|]. split; [done|]. intros rest.
  rewrite ReadToStruct_cons, R; [done|]. by destruct bs; [cbn in L; lia|].
Qed.

(** Two field lists describe the same struct type. *)
Definition same_fields {J} (fs gs : list (StructField * Value J)) : Prop :=
  fst <$> fs = fst <$> gs.

Lemma WriteFromStruct_ReadToStruct {J} (ju : list byte -> J -> res J) fs :
  Forall (fun fv => codable (J := J) (fst fv) (snd fv)) fs ->
  exists bs, WriteFromStruct fs = Ok bs /\ (length fs <= length bs)%nat /\
    forall gs rest, same_fields gs fs ->
      ReadToStruct ju gs (bs ++ rest) = Ok (snd <$> fs, rest).
Proof.
  induction fs as [|[f v] fs IH]; intros Hall.
  { exists []. split; [done|]. split; [done|]. intros gs rest Hg.
    by destruct gs. }
  apply Forall_cons in Hall as [Hf Hall]. destruct (IH Hall) as (tl & Etl & Hltl & Hrd).
  destruct (writeField_readField ju f v v Hf) as (bs & Ew & Hl & _).
  exists (bs ++ tl). cbn. rewrite Ew. cbn. rewrite Etl. split; [done|].
  split; [rewrite length_app; lia|].
  intros gs rest Hg. destruct gs as [|[g v0] gs]; [done|].
  unfold same_fields in Hg. cbn in Hg. injection Hg as -> Hg.
  destruct (writeField_readField ju f v v0 Hf) as (bs' & Ew' & _ & Hr).
  assert (bs' = bs) as -> by congruence.
  rewrite <- app_assoc. destruct (bs ++ tl ++ rest) as [|b l] eqn:E.
  { apply app_eq_nil in E as [-> _]. cbn in Hl. lia. }
  cbn. rewrite <- E, Hr. cbn. by rewrite Hrd.
Qed.

(** ** Reading never panics *)

Lemma buff_Read_length n buf bs rest : buff_Read n buf = Ok (bs, rest) -> length bs = n.
Proof.
  unfold buff_Read. destruct buf as [|b buf].
  - destruct (Nat.eqb_spec n 0) as [->|]; [|done]. by intros [= <- <-].
  - intros [= <- _]. rewrite length_app, length_take, length_replicate. cbn [length]. lia.
Qed.

Lemma kind_ops_Read dec enc k ops bs :
  kind_ops dec enc k = Some ops -> length bs = uint_size k -> Read ops bs = Ok (dec bs).
Proof.
  intros Ho Hl.
  assert (ops = fixed_ops dec enc (uint_size k)) as -> by (destruct k; try done; by injection Ho as <-).
  cbn [Read fixed_ops]. by rewrite <- Hl, Nat.ltb_irrefl, firstn_all.
Qed.

Lemma endianOperations_Read e k ops bs :
  endianOperations e k = Some ops -> is_uint k = true -> length bs = uint_size k ->
  exists v, Read ops bs = Ok v /\ in_uint (uint_bits k) v.
Proof.
  intros Ho Hk Hl. rewrite uint_bits_size, <- Hl by done.
  unfold endianOperations in Ho. repeat case_match; try done.
  all: rewrite (kind_ops_Read _ _ _ _ _ Ho Hl); eauto with meta_bytes.
Qed.

Lemma ReadInteger_safe k e buf :
  is_uint k = true ->
  match ReadInteger k (uint_size k) e buf with
  | Ok (v, _) => in_uint (uint_bits k) v
  | Err _ => True
  | Halt _ => False
  end.
Proof.
  intros Hk. unfold ReadInteger. destruct (buff_Read (uint_size k) buf) as [[bs rest]|e'|h] eqn:E; cbn.
  - apply buff_Read_length in E.
    destruct (endianOperations _ _) as [ops|] eqn:Eo; [|done].
    destruct (endianOperations_Read _ _ _ _ Eo Hk E) as (v & -> & Hv). exact Hv.
  - done.
  - unfold buff_Read in E. by repeat case_match.
Qed.

(** A field whose length prefix, if any, has at most 32 bits. *)
Definition alloc_safe (f : StructField) : bool :=
  negb (sf_tag f "lengthType" =? "uint64")%string.

Lemma readString_safe t e buf :
  (t =? "uint64")%string = false -> is_halt (readString t e buf) = false.
Proof.
  intros Ht. unfold readString; cbv zeta.
  destruct (stringLengthSizes t) as [n|] eqn:En; [|done].
  destruct (stringLengthTags t) as [k|] eqn:Ek; [|done].
  destruct (is_uint k) eqn:Hk.
  - assert (lengthType_ok t = true) as Hok by (unfold lengthType_ok; by rewrite Ek).
    destruct (lengthType_ok_spec t Hok) as (k' & Ek' & _ & En').
    assert (k' = k) as -> by congruence. assert (n = uint_size k) as -> by congruence.
    assert (uint_bits k <= 32) as Hb.
    { destruct k; cbn; try done. exfalso. revert Ek Ht. unfold stringLengthTags.
      repeat case_match; try done. }
    pose proof (ReadInteger_safe k (default_endian e) buf Hk) as H.
    destruct (ReadInteger k _ _ buf) as [[v rest]| |]; [|done..]. cbn.
    assert (2 ^ uint_bits k <= 2 ^ 32) by (apply Z.pow_le_mono_r; lia).
    unfold in_uint in H.
    replace (v >? max_alloc) with false
      by (symmetry; apply not_true_is_false; rewrite Z.gtb_lt; unfold max_alloc; lia).
    unfold buff_Read. by repeat case_match.
  - unfold ReadInteger. destruct (buff_Read n buf) as [[bs rest]| |] eqn:Eb; cbn; [|done|].
    + assert (endianOperations (default_endian (default_endian e)) k = None) as ->; [|done].
      unfold endianOperations, kind_ops. by repeat case_match; subst.
    + unfold buff_Read in Eb. by repeat case_match.
Qed.

Lemma readField_safe {J} (ju : list byte -> J -> res J) f v b buf :
  (forall bs j, is_halt (ju bs j) = false) -> alloc_safe f = true ->
  is_halt (readField ju f v (b :: buf)) = false.
Proof.
  intros Hju Hf. unfold readField. destruct (sf_exported f); [|done]. cbn [negb].
  unfold alloc_safe in Hf. apply negb_true_iff in Hf.
  assert (forall k, is_uint k = true ->
    is_halt (if negb (sf_tag f "vlq" =? "")%string
      then '(u, buf0) ← DecodeVLQ (b :: buf); Ok (@VUint J (uintN (uint_bits k) (uint64 u)), buf0)
      else '(u, buf0) ← ReadInteger k (uint_size k) (sf_tag f "endian") (b :: buf);
           Ok (VUint (uintN (uint_bits k) u), buf0)) = false) as Huint.
  { intros k Hk. destruct (negb _).
    - pose proof (DecodeVLQ_spec (b :: buf)). destruct (DecodeVLQ _) as [[u r]| |]; done.
    - pose proof (ReadInteger_safe k (sf_tag f "endian") (b :: buf) Hk).
      destruct (ReadInteger _ _ _ _) as [[u r]| |]; done. }
  destruct (sf_kind f); try done; try by apply (Huint KUint8). 
  - by apply (Huint KUint16).
  - by apply (Huint KUint32).
  - by apply (Huint KUint64).
  - pose proof (readString_safe (sf_tag f "lengthType") (sf_tag f "endian") (b :: buf) Hf).
    destruct (readString _ _ _) as [[s r]| |]; done.
  - clear Huint. destruct (negb _); [|done]. cbn. destruct v; try done.
    pose proof (Hju (take (length (b :: buf)) (b :: buf)) j). cbn in *.
    by destruct (ju _ _).
Qed.

Lemma ReadToStruct_safe {J} (ju : list byte -> J -> res J) fs : forall buf,
  (forall bs j, is_halt (ju bs j) = false) ->
  Forall (fun fv => alloc_safe (fst fv) = true) fs ->
  is_halt (ReadToStruct ju fs buf) = false.
Proof.
  induction fs as [|[f v] fs IH]; intros buf Hju Hall; [done|].
  apply Forall_cons in Hall as [Hf Hall]. cbn [ReadToStruct].
  destruct buf as [|b buf]; [done|].
  pose proof (readField_safe ju f v b buf Hju Hf) as Hs.
  destruct (readField _ _ _ _) as [[v' buf']| |]; [|done..]. cbn.
  specialize (IH buf' Hju Hall).
  by destruct (ReadToStruct _ _ buf') as [[vs buf'']| |].
Qed.

(** ** Properties *)

(** Variable-length integers: on every non-negative [int] the encoder returns one to nine
    bytes; the decoder gives back every value of at most 28 bits and leaves the bytes that
    follow, and rejects the encoding of every larger value as malformed. *)
Theorem vlq_codec v rest : 0 <= v < 2 ^ 63 ->
  exists bs, EncodeVLQ v = Ok bs /\ (1 <= length bs <= 9)%nat /\
    DecodeVLQ (bs ++ rest) =
      if v <? 2 ^ 28 then Ok (v, rest) else Err "malformed vlq encoded data".
Proof.
  intros Hv. destruct (EncodeVLQ_loop_total 10 9 v) as (bs & E & L); [lia..|].
  exists bs. split; [exact E|]. split; [lia|].
  destruct (Z.ltb_spec v (2 ^ 28)) as [Hs|Hb].
  - destruct (VLQ_roundtrip v rest) as (bs' & E' & D & _); [lia|].
    unfold EncodeVLQ in E'. by assert (bs' = bs) as -> by congruence.
  - apply (VLQ_loop_malformed 10 0 v 0 rest bs); [lia|lia| |done]. intros _. exact Hb.
Qed.

Lemma vlq_codec_witness :
  (0 <= 300 < 2 ^ 63) /\
  exists bs, EncodeVLQ 300 = Ok bs /\ (1 <= length bs <= 9)%nat /\
    DecodeVLQ (bs ++ [x07]) = if 300 <? 2 ^ 28 then Ok (300, [x07]) else Err "malformed vlq encoded data".
Proof. split; [lia | apply (vlq_codec 300 [x07]); lia]. Defined.

(** Decoding a variable-length integer is total and bounded: on any bytes [DecodeVLQ]
    returns, and a value it returns has at most 28 bits and used one to four bytes. *)
Theorem vlq_decode_bounds buf :
  match DecodeVLQ buf with
  | Ok (v, rest) => 0 <= v < 2 ^ 28 /\ exists pre, buf = pre ++ rest /\ (1 <= length pre <= 4)%nat
  | Err _ => True
  | Halt _ => False
  end.
Proof. apply DecodeVLQ_spec. Qed.

(** Struct round trip: when every field has a supported kind, coherent tags and a value
    that fits, [WriteFromStruct] succeeds and [ReadToStruct], into any struct of that type
    and with any bytes behind, restores every field and stops where the struct ends. *)
Theorem struct_roundtrip {J} (ju : list byte -> J -> res J) (fs gs : list (StructField * Value J)) rest :
  Forall (fun fv => codable (fst fv) (snd fv)) fs -> same_fields gs fs ->
  exists bs, WriteFromStruct fs = Ok bs /\ ReadToStruct ju gs (bs ++ rest) = Ok (snd <$> fs, rest).
Proof.
  intros Hall Hg. destruct (WriteFromStruct_ReadToStruct ju fs Hall) as (bs & Ew & _ & Hr).
  exists bs. eauto.
Qed.

Definition sample_field (name : string) (k : Kind) (tags : list (string * string)) : StructField :=
  {| sf_name := name; sf_kind := k; sf_exported := true; sf_enum := false; sf_tags := tags |}.

Definition sample_struct : list (StructField * Value unit) :=
  [ (sample_field "Size" KUint32 [("vlq", "true")], VUint 300);
    (sample_field "Topic" KString [("lengthType", "uint16")], VString "/ls_req");
    (sample_field "PacketId" KUint16 [], VUint 7) ]%string.

Lemma struct_roundtrip_witness :
  Forall (fun fv => codable (fst fv) (snd fv)) sample_struct /\
  same_fields sample_struct sample_struct /\
  exists bs, WriteFromStruct sample_struct = Ok bs /\
    ReadToStruct (fun _ j => Ok j) sample_struct (bs ++ [x2a]) = Ok (snd <$> sample_struct, [x2a]).
Proof.
  assert (Forall (fun fv => codable (fst fv) (snd fv)) sample_struct) as H
    by (unfold sample_struct, codable; repeat (apply Forall_cons_2 || apply Forall_nil_2);
        cbn; split_and!; reflexivity || discriminate || (unfold in_uint, max_alloc; cbn; lia)).
  assert (same_fields sample_struct sample_struct) as H' by reflexivity.
  split; [exact H|]. split; [exact H'|].
  apply (struct_roundtrip (fun _ j => Ok j) sample_struct sample_struct [x2a] H H').
Defined.

(** Parsing bytes from the network never panics: if no field has a 64-bit length prefix
    and the JSON decoder returns, [ReadToStruct] returns on every input. *)
Theorem read_never_panics {J} (ju : list byte -> J -> res J) (fs : list (StructField * Value J)) buf :
  (forall bs j, is_halt (ju bs j) = false) ->
  Forall (fun fv => alloc_safe (fst fv) = true) fs ->
  is_halt (ReadToStruct ju fs buf) = false.
Proof. apply ReadToStruct_safe. Qed.

Lemma read_never_panics_witness :
  (forall (bs : list byte) (j : unit), is_halt ((fun _ j => Ok j) bs j) = false) /\
  Forall (fun fv => alloc_safe (fst fv) = true) sample_struct /\
  is_halt (ReadToStruct (fun _ j => Ok j) sample_struct [xff; x01]) = false.
Proof.
  assert (Forall (fun fv => alloc_safe (fst fv) = true) sample_struct) as H by (repeat constructor).
  split; [reflexivity|]. split; [exact H|].
  apply (read_never_panics (fun _ j => Ok j) sample_struct [xff; x01]); [reflexivity|exact H].
Defined.

(** A truncated string is not reported: when the packet ends inside a string, [readString]
    returns no error but a string of the announced length whose missing bytes are zero. *)
Theorem truncated_string_is_padded s t e n :
  lengthType_ok t = true -> endian_ok e = true -> slen s <= max_alloc ->
  slen s < 2 ^ (8 * Z.of_nat (default 0%nat (stringLengthSizes t))) ->
  (0 < n < String.length s)%nat ->
  readString t e (take (length (writeString s t e) - n) (writeString s t e)) =
    Ok (l2s (take (String.length s - n) (s2l s) ++ replicate n x00), []).
Proof.
  intros Ht He Hmax Hs Hn.
  destruct (writeString_split s t e Ht He Hmax Hs) as (pre & Ew & _ & Hrd).
  rewrite Ew, length_app, s2l_length, take_app_ge by lia.
  replace (length pre + String.length s - n - length pre)%nat with (String.length s - n)%nat by lia.
  rewrite Hrd, buff_Read_short.
  - rewrite length_take, s2l_length.
    by replace (String.length s - (String.length s - n) `min` String.length s)%nat with n by lia.
  - intros E%(f_equal length). rewrite length_take, s2l_length in E. cbn in E. lia.
  - rewrite length_take, s2l_length. lia.
Qed.

Lemma truncated_string_is_padded_witness :
  readString "uint16" "" (take (length (writeString "abc" "uint16" "") - 1) (writeString "abc" "uint16" "")) =
    Ok (l2s (take (String.length "abc" - 1) (s2l "abc") ++ replicate 1 x00), []).
Proof. apply (truncated_string_is_padded "abc" "uint16" "" 1); cbn; reflexivity || lia || discriminate. Defined.
