(* ===== verification/Packets.v ===== *)
(** * Packets: the fixed-header byte of MQTT packets, [pkg/messagix/packets]

    Every packet type is a record with the source's fields; [Compress] builds the first byte
    of a packet and [Decompress], which mutates its receiver even when it fails, returns the
    new receiver beside the error. *)

From S2P Require Import Prelude.

(** ** packets.go *)

Definition CONNECT : Z := 1.
Definition CONNACK : Z := 2.
Definition PUBLISH : Z := 3.
Definition PUBACK : Z := 4.
Definition SUBSCRIBE : Z := 8.
Definition SUBACK : Z := 9.
Definition PINGREQ : Z := 12.
Definition PINGRESP : Z := 13.

Definition DUP_FLAG : Z := 0x08.
Definition RETAIN_FLAG : Z := 0x01.

Definition QOS_LEVEL_0 : Z := 0x00.
Definition QOS_LEVEL_1 : Z := 0x01.
Definition QOS_LEVEL_2 : Z := 0x02.

Definition QoS_toByte (q : Z) : Z := uint8 (Z.land q 0x03).

(** ** connect.go *)

Definition ConnectPacket_Compress : Z := uint8 (Z.shiftl CONNECT 4).
Definition ConnACKPacket_Compress : Z := uint8 (Z.shiftl CONNACK 4).

(** [Decompress] of the two connect packets stores the byte and never fails. *)
Definition ConnectPacket_Decompress (packetByte : Z) : Z * option string := (packetByte, None).
Definition ConnACKPacket_Decompress (packetByte : Z) : Z * option string := (packetByte, None).

Record ConnectFlags := {
  Username : bool;
  Password : bool;
  Retain : bool;
  cf_QoS : Z;
  CleanSession : bool;
}.

Definition CreateConnectFlagByte (flags : ConnectFlags) : Z :=
  let b := 0 in
  let b := if Username flags then Z.lor b 0x80 else b in
  let b := if Password flags then Z.lor b 0x40 else b in
  let b := if Retain flags then Z.lor b 0x20 else b in
  let b := Z.lor b (Z.land (uint8 (Z.shiftl (cf_QoS flags) 3)) 0x18) in
  if CleanSession flags then Z.lor b 0x02 else b.

(** ** publish.go *)

Record PublishPacket := {
  packetType : Z;
  DUP : Z;
  QOSLevel : Z;
  RetainFlag : Z;
}.

Definition PublishPacket_Compress (p : PublishPacket) : Z :=
  let result := uint8 (Z.shiftl PUBLISH 4) in
  let result := if DUP p =? 1 then Z.lor result DUP_FLAG else result in
  let result := Z.lor result (uint8 (Z.shiftl (QoS_toByte (QOSLevel p)) 1)) in
  if RetainFlag p =? 1 then Z.lor result RETAIN_FLAG else result.

Definition PublishPacket_Decompress (p : PublishPacket) (packetByte : Z)
    : PublishPacket * option string :=
  let pt := Z.shiftr packetByte 4 in
  if negb (pt =? PUBLISH) then
    ({| packetType := pt; DUP := DUP p; QOSLevel := QOSLevel p; RetainFlag := RetainFlag p |},
     Some "tried to decompress publish packet type but result was not of PUBLISH packet type"%string)
  else
    ({| packetType := pt;
        DUP := if negb (Z.land packetByte 0x08 =? 0) then 1 else 0;
        QOSLevel := Z.shiftr (Z.land packetByte 0x06) 1;
        RetainFlag := if negb (Z.land packetByte 0x01 =? 0) then 1 else 0 |},
     None).

(** ** subscribe.go *)

Definition SubscribePacket_Compress : Z := Z.lor (uint8 (Z.shiftl SUBSCRIBE 4)) 0x02.

Definition SubscribePacket_Decompress (packetByte : Z) : Z * option string :=
  let pt := Z.shiftr packetByte 4 in
  if negb (pt =? SUBSCRIBE) then
    (pt, Some "tried to decompress subscribe packet type but result was not of SUBSCRIBE packet type"%string)
  else
    let flags := Z.land packetByte 0x0F in
    if negb (flags =? 0x02) then (pt, Some "invalid flags for SUBSCRIBE packet"%string)
    else (pt, None).

(** ** Well-formed packets *)

(** A publish packet as [Decompress] produces it and as senders build it. *)
Definition publish_wf (p : PublishPacket) : bool :=
  ((DUP p =? 0) || (DUP p =? 1)) && ((0 <=? QOSLevel p) && (QOSLevel p <? 4)) &&
  ((RetainFlag p =? 0) || (RetainFlag p =? 1)).

#[global] Instance PublishPacket_eq_dec : EqDecision PublishPacket.
Proof. solve_decision. Defined.

(** ** Lemmas *)

Lemma publish_cases p : publish_wf p = true ->
  (DUP p = 0 \/ DUP p = 1) /\ (QOSLevel p = 0 \/ QOSLevel p = 1 \/ QOSLevel p = 2 \/ QOSLevel p = 3) /\
  (RetainFlag p = 0 \/ RetainFlag p = 1).
Proof.
  unfold publish_wf. rewrite !andb_true_iff, !orb_true_iff, !Z.eqb_eq, Z.leb_le, Z.ltb_lt. lia.
Qed.

(** The fields of a decompressed packet, and the byte they recompress to. *)
Definition decompress_compress_ok (p0 : PublishPacket) (b : Z) : bool :=
  let '(p, err) := PublishPacket_Decompress p0 b in
  match err with
  | None => (Z.shiftr b 4 =? PUBLISH) && publish_wf p && (PublishPacket_Compress p =? b)
  | Some _ => negb (Z.shiftr b 4 =? PUBLISH)
  end.

Lemma decompress_irrelevant p0 p1 b :
  decompress_compress_ok p0 b = decompress_compress_ok p1 b.
Proof. unfold decompress_compress_ok, PublishPacket_Decompress. by destruct (negb (Z.shiftr b 4 =? PUBLISH)). Qed.

Lemma decompress_compress p0 b : 0 <= b < 256 -> decompress_compress_ok p0 b = true.
Proof.
  intros Hb. rewrite (decompress_irrelevant p0 {| packetType := 0; DUP := 0; QOSLevel := 0; RetainFlag := 0 |}).
  by_enum 256%nat
    (decompress_compress_ok {| packetType := 0; DUP := 0; QOSLevel := 0; RetainFlag := 0 |}).
Qed.

(** ** Properties *)

(** Fixed-header byte of PUBLISH, both ways: a packet with boolean flags and a two-bit QoS
    survives [Compress] then [Decompress] with its type filled in; and any byte that
    [Decompress] accepts has type 3 in its high nibble and is the byte [Compress] rebuilds. *)
Theorem publish_byte_roundtrip (p p0 : PublishPacket) (b : Z) :
  publish_wf p = true -> 0 <= b < 256 ->
  PublishPacket_Decompress p0 (PublishPacket_Compress p) =
    ({| packetType := PUBLISH; DUP := DUP p; QOSLevel := QOSLevel p; RetainFlag := RetainFlag p |}, None)
  /\ match PublishPacket_Decompress p0 b with
     | (q, None) => Z.shiftr b 4 = PUBLISH /\ publish_wf q = true /\ PublishPacket_Compress q = b
     | (_, Some _) => Z.shiftr b 4 <> PUBLISH
     end.
Proof.
  intros Hp Hb. split.
  - destruct p as [pt d q r]. apply publish_cases in Hp as (Hd & Hq & Hr). cbn in *.
    destruct Hd as [-> | ->]; destruct Hq as [-> | [-> | [-> | ->]]]; destruct Hr as [-> | ->]; reflexivity.
  - pose proof (decompress_compress p0 b Hb) as H. unfold decompress_compress_ok in H.
    destruct (PublishPacket_Decompress p0 b) as [q [e|]].
    + apply negb_true_iff, Z.eqb_neq in H. exact H.
    + rewrite !andb_true_iff, !Z.eqb_eq in H. tauto.
Qed.

Definition sample_publish : PublishPacket :=
  {| packetType := 0; DUP := 1; QOSLevel := 1; RetainFlag := 0 |}.

Lemma publish_byte_roundtrip_witness :
  publish_wf sample_publish = true /\ (0 <= 50 < 256) /\
  PublishPacket_Decompress sample_publish (PublishPacket_Compress sample_publish) =
    ({| packetType := PUBLISH; DUP := 1; QOSLevel := 1; RetainFlag := 0 |}, None)
  /\ match PublishPacket_Decompress sample_publish 50 with
     | (q, None) => Z.shiftr 50 4 = PUBLISH /\ publish_wf q = true /\ PublishPacket_Compress q = 50
     | (_, Some _) => Z.shiftr 50 4 <> PUBLISH
     end.
Proof.
  split; [reflexivity|]. split; [lia|].
  apply (publish_byte_roundtrip sample_publish sample_publish 50); [reflexivity|lia].
Defined.

(** Exactly one byte is a SUBSCRIBE header. *)
Lemma subscribe_accepts b : 0 <= b < 256 ->
  snd (SubscribePacket_Decompress b) = None <-> b = SubscribePacket_Compress.
Proof.
  intros Hb.
  assert (Bool.eqb (match snd (SubscribePacket_Decompress b) with None => true | _ => false end)
            (b =? SubscribePacket_Compress) = true) as H.
  { by_enum 256%nat (fun b => Bool.eqb
      (match snd (SubscribePacket_Decompress b) with None => true | _ => false end)
      (b =? SubscribePacket_Compress)). }
  apply eqb_prop in H. destruct (snd _); [|]; rewrite <- Z.eqb_eq, <- H; split; done.
Qed.

Definition connect_flags_of_byte (b : Z) : ConnectFlags :=
  {| Username := Z.testbit b 7; Password := Z.testbit b 6; Retain := Z.testbit b 5;
     cf_QoS := Z.land (Z.shiftr b 3) 3; CleanSession := Z.testbit b 1 |}.

(** Connect flags are laid out as MQTT numbers them, so they can be read back: for a
    two-bit QoS every flag is recovered from its bit of the byte, and the reserved bit 0 and the
    will flag, bit 2, are clear. *)
Theorem connect_flags_recoverable (fl : ConnectFlags) :
  0 <= cf_QoS fl < 4 ->
  connect_flags_of_byte (CreateConnectFlagByte fl) = fl /\
  0 <= CreateConnectFlagByte fl < 256 /\
  Z.testbit (CreateConnectFlagByte fl) 0 = false /\ Z.testbit (CreateConnectFlagByte fl) 2 = false.
Proof.
  destruct fl as [u p r q c]; cbn. intros Hq.
  assert (q = 0 \/ q = 1 \/ q = 2 \/ q = 3) as [-> | [-> | [-> | ->]]] by lia;
  destruct u, p, r, c; vm_compute; repeat split; discriminate || reflexivity.
Qed.

Lemma connect_flags_recoverable_witness :
  let fl := {| Username := true; Password := false; Retain := false; cf_QoS := 1; CleanSession := true |} in
  (0 <= cf_QoS fl < 4) /\
  (connect_flags_of_byte (CreateConnectFlagByte fl) = fl /\
  0 <= CreateConnectFlagByte fl < 256 /\
  Z.testbit (CreateConnectFlagByte fl) 0 = false /\ Z.testbit (CreateConnectFlagByte fl) 2 = false).
Proof. intros fl. split; [cbn; lia | apply (connect_flags_recoverable fl); cbn; lia]. Defined.
