(* ===== verification/ResponseHandler.v ===== *)
(** * ResponseHandler: matching replies to requests, [pkg/messagix/responsehandler.go]

    The handler keeps two maps from packet ids to one-slot channels.  Channels live in a heap
    [chans] so that a goroutine that looked one up keeps its reference after the entry is
    gone.  The operations are functions on the handler; [Conc] interleaves them at the
    granularity of the Go code, where the lock is released before a channel is used. *)

From S2P Require Import Prelude.

Inductive ChannelType := RequestChannel | PacketChannel.

#[global] Instance ChannelType_eq_dec : EqDecision ChannelType.
Proof. solve_decision. Defined.

#[global] Instance ChannelType_countable : Countable ChannelType.
Proof.
  refine (inj_countable' (fun c => match c with RequestChannel => true | PacketChannel => false end)
    (fun b : bool => if b then RequestChannel else PacketChannel) _).
  by intros [].
Defined.

Definition ErrTimeout : string := "timeout waiting for response".
Definition ErrConnectionClosed : string := "connection closed".
Definition ErrChannelNotFound : string := "channel not found for packet".

Section Handler.
(** The replies that go through a channel. *)
Context {M : Type}.

(** A [chan any] of capacity 1: what it holds and whether it was closed. *)
Record Chan := { ch_buf : option M; ch_closed : bool }.

Record ResponseHandler := {
  requestChannels : gmap Z nat;
  packetChannels : gmap Z nat;
  chans : gmap nat Chan;
  next_chan : nat;
}.

Definition newResponseHandler : ResponseHandler :=
  {| requestChannels := ∅; packetChannels := ∅; chans := ∅; next_chan := 0 |}.

Definition channels (ct : ChannelType) (p : ResponseHandler) : gmap Z nat :=
  match ct with RequestChannel => requestChannels p | PacketChannel => packetChannels p end.

Definition set_channels (ct : ChannelType) (m : gmap Z nat) (p : ResponseHandler) : ResponseHandler :=
  match ct with
  | RequestChannel => {| requestChannels := m; packetChannels := packetChannels p;
                         chans := chans p; next_chan := next_chan p |}
  | PacketChannel => {| requestChannels := requestChannels p; packetChannels := m;
                        chans := chans p; next_chan := next_chan p |}
  end.

Definition set_chans (h : gmap nat Chan) (p : ResponseHandler) : ResponseHandler :=
  {| requestChannels := requestChannels p; packetChannels := packetChannels p;
     chans := h; next_chan := next_chan p |}.

(** [make(chan any, 1)] *)
Definition make_chan (p : ResponseHandler) : nat * ResponseHandler :=
  (next_chan p,
   {| requestChannels := requestChannels p; packetChannels := packetChannels p;
      chans := <[next_chan p := {| ch_buf := None; ch_closed := false |}]> (chans p);
      next_chan := S (next_chan p) |}).

(** [close(ch)] panics on a closed channel. *)
Definition close_chan (c : nat) (h : gmap nat Chan) : res (gmap nat Chan) :=
  match h !! c with
  | Some ch => if ch_closed ch then Panic
               else Ok (<[c := {| ch_buf := ch_buf ch; ch_closed := true |}]> h)
  | None => Panic
  end.

(** [hasPacket] looks at the request channels only. *)
Definition hasPacket (p : ResponseHandler) (packetID : Z) : bool :=
  match requestChannels p !! packetID with Some _ => true | None => false end.

Definition addChannel (ct : ChannelType) (p : ResponseHandler) (packetID : Z) : ResponseHandler :=
  let '(c, p) := make_chan p in
  set_channels ct (<[packetID := c]> (channels ct p)) p.

Definition addPacketChannel := addChannel PacketChannel.
Definition addRequestChannel := addChannel RequestChannel.

Definition getChannel (p : ResponseHandler) (packetID : Z) (ct : ChannelType) : option nat :=
  channels ct p !! packetID.

Definition deleteDetails (p : ResponseHandler) (packetID : Z) (ct : ChannelType) : res ResponseHandler :=
  match channels ct p !! packetID with
  | Some c =>
      h ← close_chan c (chans p);
      Ok (set_channels ct (delete packetID (channels ct p)) (set_chans h p))
  | None => Ok p
  end.

(** The two loops of [CancelAllRequests] close every channel of a map. *)
Fixpoint close_all (cs : list nat) (h : gmap nat Chan) : res (gmap nat Chan) :=
  match cs with
  | [] => Ok h
  | c :: cs => h ← close_chan c h; close_all cs h
  end.

Definition CancelAllRequests (p : ResponseHandler) : res ResponseHandler :=
  h ← close_all ((map_to_list (requestChannels p)).*2 ++ (map_to_list (packetChannels p)).*2) (chans p);
  Ok {| requestChannels := ∅; packetChannels := ∅; chans := h; next_chan := next_chan p |}.

(** A send and a receive on a channel, as far as they can go at once. *)
Inductive SendResult := Sent (h : gmap nat Chan) | SendBlocked | SendPanic.
Inductive RecvResult := Received (m : M) (h : gmap nat Chan) | ReceivedNil | RecvBlocked.

Definition chan_send (c : nat) (m : M) (h : gmap nat Chan) : SendResult :=
  match h !! c with
  | Some ch =>
      if ch_closed ch then SendPanic
      else match ch_buf ch with
           | Some _ => SendBlocked
           | None => Sent (<[c := {| ch_buf := Some m; ch_closed := false |}]> h)
           end
  | None => SendBlocked
  end.

Definition chan_recv (c : nat) (h : gmap nat Chan) : RecvResult :=
  match h !! c with
  | Some ch =>
      match ch_buf ch with
      | Some m => Received m (<[c := {| ch_buf := None; ch_closed := ch_closed ch |}]> h)
      | None => if ch_closed ch then ReceivedNil else RecvBlocked
      end
  | None => RecvBlocked
  end.

(** ** Sequential reading of the waiting functions

    What ends the [select] of [waitForDetails]: a receive on the channel (a reply, or [nil]
    once it is closed), the context, or the timer. *)
Inductive WaitEvent := EvRecv | EvCtxDone (err : string) | EvTimer.

Definition waitForDetails (p : ResponseHandler) (packetID : Z) (ct : ChannelType) (ev : WaitEvent)
    : res (ResponseHandler * (M + string)) :=
  match getChannel p packetID ct with
  | None => Ok (p, inr ErrChannelNotFound)
  | Some c =>
      match ev with
      | EvRecv =>
          match chan_recv c (chans p) with
          | Received m h => p ← deleteDetails (set_chans h p) packetID ct; Ok (p, inl m)
          | ReceivedNil => Ok (p, inr ErrConnectionClosed)
          | RecvBlocked => Diverge
          end
      | EvCtxDone err => p ← deleteDetails p packetID ct; Ok (p, inr err)
      | EvTimer => p ← deleteDetails p packetID ct; Ok (p, inr ErrTimeout)
      end
  end.

(** [updatePacketChannel] and [updateRequestChannel], when nothing runs in between. *)
Definition updateChannel (ct : ChannelType) (p : ResponseHandler) (packetID : Z) (m : M)
    : res (ResponseHandler * bool) :=
  match channels ct p !! packetID with
  | Some c =>
      match chan_send c m (chans p) with
      | Sent h => Ok (set_chans h p, true)
      | SendBlocked => Diverge
      | SendPanic => Panic
      end
  | None => Ok (p, false)
  end.

Definition updatePacketChannel := updateChannel PacketChannel.
Definition updateRequestChannel := updateChannel RequestChannel.
End Handler.

Arguments Chan : clear implicits.
Arguments ResponseHandler : clear implicits.

Create HintDb meta_rh.
Create Rewrite HintDb meta_rh.

(** ** Well-formed handlers

    Every registered channel is open and registered once; ids come from [next_chan]. *)
Section WellFormed.
Context {M : Type}.
Implicit Types (p : ResponseHandler M) (ct : ChannelType) (c : nat).

Definition chan_open (h : gmap nat (Chan M)) (c : nat) : Prop :=
  exists ch, h !! c = Some ch /\ ch_closed ch = false.

Record wf (p : ResponseHandler M) : Prop := {
  wf_open : forall ct id c, channels ct p !! id = Some c -> chan_open (chans p) c;
  wf_once : forall ct id ct' id' c,
    channels ct p !! id = Some c -> channels ct' p !! id' = Some c -> ct = ct' /\ id = id';
  wf_fresh : forall c, is_Some (chans p !! c) -> (c < next_chan p)%nat;
}.

Lemma channels_set ct ct' m p :
  channels ct (set_channels ct' m p) = if decide (ct = ct') then m else channels ct p.
Proof. by destruct ct, ct'. Qed.

Lemma channels_set_chans ct h p : channels ct (set_chans h p) = channels ct p.
Proof. by destruct ct. Qed.

Lemma chans_set_channels ct m p : chans (set_channels ct m p) = chans p.
Proof. by destruct ct. Qed.

Lemma next_set_channels ct m p : next_chan (set_channels ct m p) = next_chan p.
Proof. by destruct ct. Qed.

Lemma channels_make ct p : channels ct (snd (make_chan p)) = channels ct p.
Proof. by destruct ct. Qed.

Hint Rewrite channels_set channels_set_chans chans_set_channels next_set_channels : meta_rh.

Lemma wf_new : wf (newResponseHandler (M := M)).
Proof.
  split; cbn; [intros [] ? ?; cbn; by rewrite lookup_empty
    | intros [] ? [] ? ?; cbn; by rewrite !lookup_empty
    | intros c; rewrite lookup_empty; by intros [? ?]].
Qed.

Lemma wf_not_next ct id p : wf p -> channels ct p !! id <> Some (next_chan p).
Proof.
  intros W E. destruct (wf_open p W _ _ _ E) as (ch & Ec & _).
  pose proof (wf_fresh p W (next_chan p) ltac:(eauto)). lia.
Qed.

(** The entries after [addChannel]. *)
Lemma channels_add ct p id ct' id' :
  channels ct' (addChannel ct p id) !! id' =
    if decide (ct' = ct /\ id' = id) then Some (next_chan p) else channels ct' p !! id'.
Proof.
  unfold addChannel. cbn [make_chan]. rewrite channels_set.
  destruct (decide (ct' = ct)) as [->|Hct].
  - rewrite lookup_insert. destruct (decide (id = id')) as [->|Hid].
    + by rewrite decide_True by done.
    + rewrite decide_False by naive_solver. by destruct ct.
  - rewrite decide_False by naive_solver. by destruct ct'.
Qed.

Lemma chans_add ct p id :
  chans (addChannel ct p id) = <[next_chan p := {| ch_buf := None; ch_closed := false |}]> (chans p).
Proof. unfold addChannel. cbn [make_chan]. by rewrite chans_set_channels. Qed.

Lemma next_add ct p id : next_chan (addChannel ct p id) = S (next_chan p).
Proof. unfold addChannel. cbn [make_chan]. by rewrite next_set_channels. Qed.

Lemma wf_add ct p id : wf p -> wf (addChannel ct p id).
Proof.
  intros W. pose proof (fun ct id => wf_not_next ct id p W) as Hn. split.
  - intros ct' id' c. rewrite channels_add, chans_add. case_decide.
    + intros [= <-]. eexists. by rewrite lookup_insert_eq.
    + intros E. destruct (wf_open p W _ _ _ E) as (ch & Ec & Ho). exists ch.
      rewrite lookup_insert_ne; [done|]. intros <-. by eapply Hn.
  - intros ct1 id1 ct2 id2 c. rewrite !channels_add.
    repeat case_decide; destruct_and?; subst; try done.
    + intros [= <-] E. by apply Hn in E.
    + intros E [= <-]. by apply Hn in E.
    + apply (wf_once p W).
  - intros c. rewrite chans_add, next_add. destruct (decide (c = next_chan p)) as [->|Hne]; [lia|].
    rewrite lookup_insert_ne by done. intros Hc. apply (wf_fresh p W) in Hc. lia.
Qed.

(** A heap update that keeps every open channel open keeps [wf]. *)
Lemma wf_set_chans h p : wf p ->
  (forall c, is_Some (h !! c) -> is_Some (chans p !! c)) ->
  (forall ct id c, channels ct p !! id = Some c -> chan_open h c) ->
  wf (set_chans h p).
Proof.
  intros W Hd Ho. split.
  - intros ct id c. rewrite channels_set_chans. apply Ho.
  - intros ct id ct' id' c. rewrite !channels_set_chans. apply (wf_once p W).
  - cbn. intros c Hc. by apply (wf_fresh p W), Hd.
Qed.

Lemma wf_update_chan c b p : wf p -> chan_open (chans p) c ->
  wf (set_chans (<[c := {| ch_buf := b; ch_closed := false |}]> (chans p)) p).
Proof.
  intros W (ch & Ec & Ho). apply wf_set_chans; [done| |].
  - intros c'. destruct (decide (c' = c)) as [->|]; [by rewrite Ec|by rewrite lookup_insert_ne].
  - intros ct id c' E. destruct (decide (c' = c)) as [->|Hne].
    + eexists. by rewrite lookup_insert_eq.
    + destruct (wf_open p W _ _ _ E) as (ch' & ? & ?). exists ch'. by rewrite lookup_insert_ne.
Qed.

(** [deleteDetails] on a well-formed handler never closes a channel twice. *)
Lemma deleteDetails_spec p id ct : wf p ->
  exists p', deleteDetails p id ct = Ok p' /\ wf p' /\
    (forall ct' id', channels ct' p' !! id' =
       if decide (ct' = ct /\ id' = id) then None else channels ct' p !! id') /\
    (forall c, fmap ch_buf (chans p' !! c) = fmap ch_buf (chans p !! c)) /\
    next_chan p' = next_chan p.
Proof.
  intros W. unfold deleteDetails. destruct (channels ct p !! id) as [c|] eqn:E.
  - destruct (wf_open p W _ _ _ E) as (ch & Ec & Ho). unfold close_chan. rewrite Ec, Ho. cbn.
    set (h := <[c := _]> (chans p)).
    assert (forall ct' id', channels ct' (set_channels ct (delete id (channels ct p)) (set_chans h p)) !! id' =
       if decide (ct' = ct /\ id' = id) then None else channels ct' p !! id') as Hch.
    { intros ct' id'. rewrite channels_set. destruct (decide (ct' = ct)) as [->|].
      - rewrite lookup_delete. destruct (decide (id = id')) as [->|].
        + by rewrite decide_True.
        + by rewrite decide_False by naive_solver.
      - rewrite decide_False by naive_solver. by rewrite channels_set_chans. }
    eexists. split; [done|]. split; [|split; [exact Hch|split]].
    + split.
      * intros ct' id' c'. rewrite Hch. case_decide as Hd; [done|]. intros E'.
        destruct (wf_open p W _ _ _ E') as (ch' & Ec' & Ho').
        exists ch'. rewrite chans_set_channels. cbn. unfold h.
        rewrite lookup_insert_ne; [done|]. intros <-. apply Hd.
        by apply (wf_once p W _ _ _ _ _ E' E).
      * intros ct1 id1 ct2 id2 c'. rewrite !Hch. repeat case_decide; try done. apply (wf_once p W).
      * intros c'. rewrite chans_set_channels, next_set_channels. cbn. unfold h.
        destruct (decide (c' = c)) as [->|]; [|rewrite lookup_insert_ne by done; apply (wf_fresh p W)].
        intros _. apply (wf_fresh p W). eauto.
    + intros c'. rewrite chans_set_channels. cbn. unfold h.
      destruct (decide (c' = c)) as [->|]; [by rewrite lookup_insert_eq, Ec|by rewrite lookup_insert_ne].
    + by rewrite next_set_channels.
  - exists p. split; [done|]. split; [done|]. split; [|done].
    intros ct' id'. case_decide as Hd; [|done]. by destruct Hd as [-> ->].
Qed.
End WellFormed.
#[export] Hint Resolve wf_new wf_add : meta_rh.

Section Cancel.
Context {M : Type}.
Implicit Types (p : ResponseHandler M) (h : gmap nat (Chan M)).

Lemma close_all_spec cs : forall h,
  NoDup cs -> (forall c, c ∈ cs -> chan_open h c) ->
  exists h', close_all cs h = Ok h' /\ (forall c, fmap ch_buf (h' !! c) = fmap ch_buf (h !! c)) /\
    (forall c, c ∈ cs -> exists ch, h' !! c = Some ch /\ ch_closed ch = true).
Proof.
  induction cs as [|c cs IH]; intros h Hnd Ho.
  { exists h. split; [done|]. split; [done|]. intros c Hc. by apply elem_of_nil in Hc. }
  apply NoDup_cons in Hnd as [Hc Hnd].
  destruct (Ho c) as (ch & Ec & Hop); [left|].
  cbn. unfold close_chan at 1. rewrite Ec, Hop. cbn.
  set (h1 := <[c := _]> h).
  assert (forall c', c' <> c -> h1 !! c' = h !! c') as Hh1
    by (intros; unfold h1; by rewrite lookup_insert_ne).
  destruct (IH h1 Hnd) as (h' & E' & Hb & Hcl).
  { intros c' Hc'. destruct (Ho c') as (ch' & ? & ?); [by right|].
    exists ch'. rewrite Hh1; [done|]. by intros ->. }
  exists h'. split; [done|]. split.
  - intros c'. rewrite Hb. destruct (decide (c' = c)) as [->|]; [|by rewrite Hh1].
    unfold h1. by rewrite lookup_insert_eq, Ec.
  - intros c' [->|Hc']%elem_of_cons; [|by apply Hcl].
    (* closing the others leaves [c] as it is *)
    assert (forall cs h h', close_all cs h = Ok h' -> c ∉ cs -> h' !! c = h !! c) as Hkeep.
    { clear. induction cs as [|c0 cs IH]; intros h h' E Hni; cbn in E; [by injection E as <-|].
      apply res_bind_Ok in E as (h1 & E1 & E). unfold close_chan in E1.
      apply not_elem_of_cons in Hni as [Hne Hni]. rewrite (IH _ _ E Hni).
      repeat case_match; try done. injection E1 as <-. by rewrite lookup_insert_ne. }
    rewrite (Hkeep _ _ _ E' Hc). unfold h1. rewrite lookup_insert_eq. eauto.
Qed.

Lemma registered_NoDup p : wf p ->
  NoDup ((map_to_list (requestChannels p)).*2 ++ (map_to_list (packetChannels p)).*2).
Proof.
  intros W.
  assert (forall ct, NoDup (map_to_list (channels ct p)).*2) as Hnd.
  { intros ct. apply NoDup_fmap_2_strong; [|apply NoDup_map_to_list].
    intros [i c] [j c'] Hi%elem_of_map_to_list Hj%elem_of_map_to_list. cbn. intros <-.
    f_equal. apply (wf_once p W _ _ _ _ _ Hi Hj). }
  apply NoDup_app. split; [apply (Hnd RequestChannel)|]. split; [|apply (Hnd PacketChannel)].
  intros c ([i ?] & -> & Hi%elem_of_map_to_list)%list_elem_of_fmap
           ([j ?] & E & Hj%elem_of_map_to_list)%list_elem_of_fmap.
  cbn in E. subst. by destruct (wf_once p W RequestChannel _ PacketChannel _ _ Hi Hj).
Qed.

Lemma CancelAllRequests_spec p : wf p ->
  exists p', CancelAllRequests p = Ok p' /\ wf p' /\
    (forall ct id, channels ct p' !! id = None) /\
    (forall c, fmap ch_buf (chans p' !! c) = fmap ch_buf (chans p !! c)) /\
    (forall ct id c, channels ct p !! id = Some c ->
       exists ch, chans p' !! c = Some ch /\ ch_closed ch = true).
Proof.
  intros W. unfold CancelAllRequests.
  destruct (close_all_spec _ (chans p) (registered_NoDup p W)) as (h & E & Hb & Hcl).
  { intros c [Hc|Hc]%elem_of_app; apply list_elem_of_fmap in Hc as ([i c'] & -> & Hi%elem_of_map_to_list).
    - apply (wf_open p W RequestChannel _ _ Hi).
    - apply (wf_open p W PacketChannel _ _ Hi). }
  rewrite E. cbn. eexists. split; [done|]. split; [split|split; [|split]]; cbn.
  - intros [] ? ?; cbn; by rewrite lookup_empty.
  - intros [] ? [] ? ?; cbn; by rewrite !lookup_empty.
  - intros c Hc. apply (wf_fresh p W). specialize (Hb c).
    destruct (chans p !! c); [eauto|]. destruct Hc as [? Hc]. by rewrite Hc in Hb.
  - intros [] ?; cbn; by rewrite lookup_empty.
  - exact Hb.
  - intros ct id c Hc. apply Hcl, elem_of_app. destruct ct; [left|right];
      apply list_elem_of_fmap; exists (id, c); by rewrite elem_of_map_to_list.
Qed.
End Cancel.

(** ** Interleavings *)
Module Conc.
Section Conc.
Context {M : Type}.

(** A goroutine inside [waitForDetails]: blocked in the [select] on a channel, about to call
    [deleteDetails] with its result in hand, or back with the result. *)
Inductive WaitState :=
| Waiting (c : nat)
| Deleting (r : M + string)
| Done (r : M + string).

(** A goroutine inside [updatePacketChannel] or [updateRequestChannel] that has released the
    lock: the type and id it was called with, the channel it found, and the reply. *)
Record Sender := { s_ct : ChannelType; s_id : Z; s_chan : nat; s_msg : M }.
Record Waiter := { w_ct : ChannelType; w_id : Z; w_state : WaitState }.

(** [log] records every call of an update function that found a channel, for the statements
    below; [owner] the entry each channel was made for.  Neither influences a step. *)
Record Conf := {
  handler : ResponseHandler M;
  senders : list Sender;
  waiters : list Waiter;
  log : list (ChannelType * Z * M);
  owner : gmap nat (ChannelType * Z);
}.

(** The process either runs or was brought down by a panic. *)
Inductive Proc := Running (s : Conf) | Crashed.

Definition init : Proc :=
  Running {| handler := newResponseHandler; senders := []; waiters := []; log := []; owner := ∅ |}.

Definition with_handler (p : ResponseHandler M) (s : Conf) : Conf :=
  {| handler := p; senders := senders s; waiters := waiters s; log := log s; owner := owner s |}.

Definition with_senders (ss : list Sender) (s : Conf) : Conf :=
  {| handler := handler s; senders := ss; waiters := waiters s; log := log s; owner := owner s |}.

Definition with_waiters (ws : list Waiter) (s : Conf) : Conf :=
  {| handler := handler s; senders := senders s; waiters := ws; log := log s; owner := owner s |}.

(** The outcome of an operation that may panic. *)
Definition run (r : res (ResponseHandler M)) (s : Conf) : Proc :=
  match r with Ok p => Running (with_handler p s) | _ => Crashed end.

Inductive step : Proc -> Proc -> Prop :=
| step_add s ct id :
    step (Running s)
      (Running {| handler := addChannel ct (handler s) id; senders := senders s;
                  waiters := waiters s; log := log s;
                  owner := <[next_chan (handler s) := (ct, id)]> (owner s) |})
| step_update s ct id c m :
    getChannel (handler s) id ct = Some c ->
    step (Running s)
      (Running {| handler := handler s;
                  senders := {| s_ct := ct; s_id := id; s_chan := c; s_msg := m |} :: senders s;
                  waiters := waiters s; log := (ct, id, m) :: log s; owner := owner s |})
| step_send s ss1 x ss2 h :
    senders s = ss1 ++ x :: ss2 -> chan_send (s_chan x) (s_msg x) (chans (handler s)) = Sent h ->
    step (Running s)
      (Running (with_senders (ss1 ++ ss2) (with_handler (set_chans h (handler s)) s)))
| step_send_panic s ss1 x ss2 :
    senders s = ss1 ++ x :: ss2 -> chan_send (s_chan x) (s_msg x) (chans (handler s)) = SendPanic ->
    step (Running s) Crashed
| step_wait s ct id c :
    getChannel (handler s) id ct = Some c ->
    step (Running s)
      (Running (with_waiters ({| w_ct := ct; w_id := id; w_state := Waiting c |} :: waiters s) s))
| step_recv s ws1 ct id c ws2 m h :
    waiters s = ws1 ++ {| w_ct := ct; w_id := id; w_state := Waiting c |} :: ws2 ->
    chan_recv c (chans (handler s)) = Received m h ->
    step (Running s)
      (Running (with_waiters (ws1 ++ {| w_ct := ct; w_id := id; w_state := Deleting (inl m) |} :: ws2)
                  (with_handler (set_chans h (handler s)) s)))
| step_recv_nil s ws1 ct id c ws2 :
    waiters s = ws1 ++ {| w_ct := ct; w_id := id; w_state := Waiting c |} :: ws2 ->
    chan_recv c (chans (handler s)) = ReceivedNil ->
    step (Running s)
      (Running (with_waiters
         (ws1 ++ {| w_ct := ct; w_id := id; w_state := Done (inr ErrConnectionClosed) |} :: ws2) s))
| step_give_up s ws1 ct id c ws2 err :
    waiters s = ws1 ++ {| w_ct := ct; w_id := id; w_state := Waiting c |} :: ws2 ->
    step (Running s)
      (Running (with_waiters (ws1 ++ {| w_ct := ct; w_id := id; w_state := Deleting (inr err) |} :: ws2) s))
| step_finish s ws1 ct id r ws2 :
    waiters s = ws1 ++ {| w_ct := ct; w_id := id; w_state := Deleting r |} :: ws2 ->
    step (Running s)
      (run (deleteDetails (handler s) id ct)
         (with_waiters (ws1 ++ {| w_ct := ct; w_id := id; w_state := Done r |} :: ws2) s))
| step_delete s ct id :
    step (Running s) (run (deleteDetails (handler s) id ct) s)
| step_cancel s :
    step (Running s) (run (CancelAllRequests (handler s)) s).

Definition reachable : Proc -> Prop := steps step init.

(** *** Invariant *)

Definition wait_ok (o : gmap nat (ChannelType * Z)) (l : list (ChannelType * Z * M)) (w : Waiter) : Prop :=
  match w_state w with
  | Waiting c => o !! c = Some (w_ct w, w_id w)
  | Deleting (inl m) | Done (inl m) => (w_ct w, w_id w, m) ∈ l
  | _ => True
  end.

Definition send_ok (o : gmap nat (ChannelType * Z)) (l : list (ChannelType * Z * M)) (x : Sender) : Prop :=
  o !! s_chan x = Some (s_ct x, s_id x) /\ (s_ct x, s_id x, s_msg x) ∈ l.

Definition buf_ok (o : gmap nat (ChannelType * Z)) (l : list (ChannelType * Z * M))
    (h : gmap nat (Chan M)) : Prop :=
  forall c m, fmap ch_buf (h !! c) = Some (Some m) ->
    exists ct id, o !! c = Some (ct, id) /\ (ct, id, m) ∈ l.

Record inv (s : Conf) : Prop := {
  inv_wf : wf (handler s);
  inv_owner : forall ct id c, channels ct (handler s) !! id = Some c -> owner s !! c = Some (ct, id);
  inv_dom : forall c, is_Some (owner s !! c) -> (c < next_chan (handler s))%nat;
  inv_buf : buf_ok (owner s) (log s) (chans (handler s));
  inv_send : forall x, x ∈ senders s -> send_ok (owner s) (log s) x;
  inv_wait : forall w, w ∈ waiters s -> wait_ok (owner s) (log s) w;
}.

Definition proc_inv (pr : Proc) : Prop :=
  match pr with Running s => inv s | Crashed => True end.

Lemma inv_init : proc_inv init.
Proof.
  split; cbn.
  - apply wf_new.
  - intros [] ? ?; cbn; by rewrite lookup_empty.
  - intros c. rewrite lookup_empty. by intros [? ?].
  - intros c m. cbn. by rewrite lookup_empty.
  - intros x Hx. by apply elem_of_nil in Hx.
  - intros w Hw. by apply elem_of_nil in Hw.
Qed.

(** Operations that only drop entries keep the invariant. *)
Lemma inv_shrink s p : inv s -> wf p ->
  (forall ct id c, channels ct p !! id = Some c -> channels ct (handler s) !! id = Some c) ->
  (forall c, fmap ch_buf (chans p !! c) = fmap ch_buf (chans (handler s) !! c)) ->
  next_chan p = next_chan (handler s) ->
  inv (with_handler p s).
Proof.
  intros I W Hch Hbuf Hn. split; cbn; try apply I; auto.
  - intros ct id c E. by apply (inv_owner s I), Hch.
  - rewrite Hn. apply I.
  - intros c m. rewrite Hbuf. apply I.
Qed.

(** An update of the heap under well-formedness, with explained buffers. *)
Lemma inv_heap s h : inv s -> wf (set_chans h (handler s)) -> buf_ok (owner s) (log s) h ->
  inv (with_handler (set_chans h (handler s)) s).
Proof.
  intros I W Hb. split; cbn; try apply I; auto. 
Qed.

Lemma inv_delete s ct id : inv s -> exists s', run (deleteDetails (handler s) id ct) s = Running s' /\ inv s'.
Proof.
  intros I. destruct (deleteDetails_spec (handler s) id ct (inv_wf s I)) as (p & E & W & Hch & Hb & Hn).
  rewrite E. eexists. split; [done|]. apply inv_shrink; [done..| |done|done].
  intros ct' id' c. rewrite Hch. by case_decide.
Qed.

Lemma inv_cancel s : inv s -> exists s', run (CancelAllRequests (handler s)) s = Running s' /\ inv s'.
Proof.
  intros I. destruct (CancelAllRequests_spec (handler s) (inv_wf s I)) as (p & E & W & Hch & Hb & Hcl).
  rewrite E. eexists. split; [done|]. apply inv_shrink; [done..| |done|].
  - intros ct' id' c. by rewrite Hch.
  - unfold CancelAllRequests in E. inv_res E. done.
Qed.

Lemma inv_waiters s ws : inv s -> (forall w, w ∈ ws -> wait_ok (owner s) (log s) w) ->
  inv (with_waiters ws s).
Proof. intros I Hw. split; cbn; try apply I; auto. Qed.

(** Replacing one waiter by another that is explained. *)
Lemma inv_waiter s ws1 w w' ws2 : inv s -> waiters s = ws1 ++ w :: ws2 ->
  wait_ok (owner s) (log s) w' -> inv (with_waiters (ws1 ++ w' :: ws2) s).
Proof.
  intros I E Hw. apply inv_waiters; [done|]. intros x Hx.
  apply elem_of_app in Hx as [Hx|[->|Hx]%elem_of_cons]; [|done|];
    apply (inv_wait s I); rewrite E; set_solver.
Qed.

Lemma wait_ok_mem s ws1 w ws2 : inv s -> waiters s = ws1 ++ w :: ws2 -> wait_ok (owner s) (log s) w.
Proof. intros I E. apply (inv_wait s I). rewrite E. set_solver. Qed.

Lemma wait_ok_mono o l x w : wait_ok o l w -> wait_ok o (x :: l) w.
Proof. unfold wait_ok. repeat case_match; set_solver. Qed.

Lemma wait_ok_owner s w ct id : inv s -> w ∈ waiters s ->
  wait_ok (<[next_chan (handler s) := (ct, id)]> (owner s)) (log s) w.
Proof.
  intros I Hw. pose proof (inv_wait s I w Hw) as H. unfold wait_ok in *.
  case_match; [|done..]. rewrite lookup_insert_ne; [done|].
  intros <-. pose proof (inv_dom s I _ (mk_is_Some _ _ H)). lia.
Qed.

Lemma inv_add s ct id : inv s ->
  inv {| handler := addChannel ct (handler s) id; senders := senders s; waiters := waiters s;
         log := log s; owner := <[next_chan (handler s) := (ct, id)]> (owner s) |}.
Proof.
  intros I. pose proof (inv_dom s I) as Hd. split; cbn [handler senders waiters log owner].
  - apply wf_add, I.
  - intros ct' id' c. rewrite channels_add. case_decide as Hc.
    + destruct Hc as [-> ->]. intros [= <-]. apply lookup_insert_eq.
    + intros E%(inv_owner s I). rewrite lookup_insert_ne; [done|]. intros <-.
      specialize (Hd _ (mk_is_Some _ _ E)). lia.
  - intros c. rewrite next_add. destruct (decide (c = next_chan (handler s))) as [->|]; [lia|].
    rewrite lookup_insert_ne by done. intros Hc%Hd. lia.
  - intros c m. rewrite chans_add. destruct (decide (c = next_chan (handler s))) as [->|].
    + by rewrite lookup_insert_eq.
    + rewrite !lookup_insert_ne by done. apply I.
  - intros x Hx. destruct (inv_send s I x Hx) as [Ho Hl]. split; [|done].
    rewrite lookup_insert_ne; [done|]. intros E. rewrite <- E in Ho.
    specialize (Hd _ (mk_is_Some _ _ Ho)). lia.
  - intros w Hw. by apply wait_ok_owner.
Qed.

Lemma inv_send_step s ss1 x ss2 h : inv s -> senders s = ss1 ++ x :: ss2 ->
  chan_send (s_chan x) (s_msg x) (chans (handler s)) = Sent h ->
  inv (with_senders (ss1 ++ ss2) (with_handler (set_chans h (handler s)) s)).
Proof.
  intros I E Hs.
  destruct (inv_send s I x) as [Ho Hl]; [rewrite E; set_solver|].
  unfold chan_send in Hs. destruct (chans (handler s) !! s_chan x) as [ch|] eqn:Ec; [|done].
  destruct (ch_closed ch) eqn:Hcl; [done|]. destruct (ch_buf ch) eqn:Hb; [done|]. injection Hs as <-.
  assert (inv (with_handler (set_chans (<[s_chan x:={| ch_buf := Some (s_msg x); ch_closed := false |}]>
            (chans (handler s))) (handler s)) s)) as I'.
  { apply inv_heap; [done| |].
    - apply wf_update_chan; [apply I|]. by exists ch.
    - intros c m. destruct (decide (c = s_chan x)) as [->|].
      + rewrite lookup_insert_eq. cbn. intros [= <-]. eauto.
      + rewrite lookup_insert_ne by done. apply I. }
  split; cbn; try apply I'. intros y Hy. apply (inv_send s I). rewrite E. set_solver.
Qed.

Lemma inv_recv_step s ws1 ct id c ws2 m h : inv s ->
  waiters s = ws1 ++ {| w_ct := ct; w_id := id; w_state := Waiting c |} :: ws2 ->
  chan_recv c (chans (handler s)) = Received m h ->
  inv (with_waiters (ws1 ++ {| w_ct := ct; w_id := id; w_state := Deleting (inl m) |} :: ws2)
         (with_handler (set_chans h (handler s)) s)).
Proof.
  intros I E Hr. pose proof (wait_ok_mem s _ _ _ I E) as Hw. cbn in Hw.
  unfold chan_recv in Hr. destruct (chans (handler s) !! c) as [ch|] eqn:Ec; [|done].
  destruct (ch_buf ch) as [m'|] eqn:Hb; [|by destruct (ch_closed ch)]. injection Hr as -> <-.
  destruct (inv_buf s I c m) as (ct' & id' & Ho & Hl); [rewrite Ec; cbn; by rewrite Hb|].
  assert ((ct', id') = (ct, id)) as [= -> ->] by congruence.
  eapply inv_waiter; [|exact E|exact Hl].
  apply inv_heap; [done| |].
  - apply wf_set_chans; [apply I| |].
    + intros c'. destruct (decide (c' = c)) as [->|]; [by rewrite Ec|by rewrite lookup_insert_ne].
    + intros ct' id' c' E'. destruct (wf_open _ (inv_wf s I) _ _ _ E') as (ch' & Ec' & Hop).
      destruct (decide (c' = c)) as [->|Hne].
      * eexists. rewrite lookup_insert_eq. split; [done|]. cbn. congruence.
      * exists ch'. by rewrite lookup_insert_ne.
  - intros c' m'. destruct (decide (c' = c)) as [->|].
    + by rewrite lookup_insert_eq.
    + rewrite lookup_insert_ne by done. apply I.
Qed.

Lemma inv_step pr pr' : step pr pr' -> proc_inv pr -> proc_inv pr'.
Proof.
  intros Hs I. destruct Hs; cbn in I |- *; try done.
  - by apply inv_add.
  - split; cbn; try apply I.
    + intros c' m' Hc. destruct (inv_buf s I c' m' Hc) as (? & ? & ? & ?). do 2 eexists.
      split; [done|]. by right.
    + intros x [->|Hx]%elem_of_cons; [split; cbn; [by apply (inv_owner s I)|left]|].
      destruct (inv_send s I x Hx). split; [done|]. by right.
    + intros w Hw. by apply wait_ok_mono, (inv_wait s I).
  - by eapply inv_send_step.
  - apply inv_waiters; [done|]. intros w [->|Hw]%elem_of_cons; [|by apply I].
    by apply (inv_owner s I).
  - by eapply inv_recv_step.
  - by eapply inv_waiter.
  - by eapply inv_waiter.
  - pose proof (wait_ok_mem s _ _ _ I H) as Hw.
    assert (inv (with_waiters (ws1 ++ {| w_ct := ct; w_id := id; w_state := Done r |} :: ws2) s)) as I'
      by (eapply inv_waiter; [done|exact H|by destruct r]).
    destruct (inv_delete _ ct id I') as (s' & E & I''). cbn [handler with_waiters] in E. by rewrite E.
  - by destruct (inv_delete s ct id I) as (s' & -> & ?).
  - by destruct (inv_cancel s I) as (s' & -> & ?).
Qed.

Lemma inv_reachable pr : reachable pr -> proc_inv pr.
Proof.
  intros H. assert (forall a b, steps step a b -> proc_inv a -> proc_inv b) as Hstar.
  { intros a b Hab. induction Hab; [done|]. eauto using inv_step. }
  eapply Hstar; [exact H|apply inv_init].
Qed.

End Conc.
Arguments Conf : clear implicits.
Arguments Proc : clear implicits.
End Conc.

(** ** Properties *)

(** C33. Replies are routed by id: in every interleaving, a goroutine that comes back from
    [waitForDetails] with a reply got one that an update function was called with for the same
    packet id and the same kind of channel. *)
Theorem reply_routing {M : Type} (s : Conc.Conf M) (w : Conc.Waiter) (m : M) :
  Conc.reachable (Conc.Running s) -> w ∈ Conc.waiters s -> Conc.w_state w = Conc.Done (inl m) ->
  (Conc.w_ct w, Conc.w_id w, m) ∈ Conc.log s.
Proof.
  intros Hr Hw Hd. apply Conc.inv_reachable in Hr. pose proof (Conc.inv_wait s Hr w Hw) as H.
  unfold Conc.wait_ok in H. by rewrite Hd in H.
Qed.

(** A request with id 7 whose acknowledgement [true] arrives. *)
Definition sample_state (st : Conc.WaitState (M := bool)) (buf : option bool) (closed : bool)
    (registered : bool) : Conc.Conf bool :=
  {| Conc.handler := {| requestChannels := ∅;
                        packetChannels := if registered then {[7 := 0%nat]} else ∅;
                        chans := {[0%nat := {| ch_buf := buf; ch_closed := closed |}]};
                        next_chan := 1 |};
     Conc.senders := [];
     Conc.waiters := [{| Conc.w_ct := PacketChannel; Conc.w_id := 7; Conc.w_state := st |}];
     Conc.log := [(PacketChannel, 7, true)];
     Conc.owner := {[0%nat := (PacketChannel, 7)]} |}.

Lemma sample_reachable :
  Conc.reachable (Conc.Running (sample_state (Conc.Done (inl true)) None true false)).
Proof.
  eapply rtc_l; [apply (Conc.step_add _ PacketChannel 7)|].
  eapply rtc_l; [apply (Conc.step_wait _ PacketChannel 7 0); reflexivity|].
  eapply rtc_l; [apply (Conc.step_update _ PacketChannel 7 0 true); reflexivity|].
  eapply rtc_l; [eapply (Conc.step_send _ [] _ []); reflexivity|].
  eapply rtc_l; [eapply (Conc.step_recv _ [] PacketChannel 7 0 []); reflexivity|].
  eapply rtc_l; [eapply (Conc.step_finish _ [] PacketChannel 7 _ []); reflexivity|].
  apply rtc_refl.
Qed.

Lemma reply_routing_witness :
  (PacketChannel, 7, true) ∈ Conc.log (sample_state (Conc.Done (inl true)) None true false).
Proof.
  apply (reply_routing (sample_state (Conc.Done (inl true)) None true false)
           {| Conc.w_ct := PacketChannel; Conc.w_id := 7; Conc.w_state := Conc.Done (inl true) |} true).
  - exact sample_reachable.
  - left.
  - reflexivity.
Defined.

(** The registries stay sound under every interleaving: each registered channel is open and
    belongs to one entry, neither [deleteDetails] nor [CancelAllRequests] can close a channel
    twice, and the only step that can bring the process down is a send, by a goroutine that
    looked its channel up before the channel was closed. *)
Theorem registry_sound {M : Type} (s : Conc.Conf M) :
  Conc.reachable (Conc.Running s) ->
  wf (Conc.handler s) /\
  (forall id ct, is_halt (deleteDetails (Conc.handler s) id ct) = false) /\
  is_halt (CancelAllRequests (Conc.handler s)) = false /\
  (Conc.step (Conc.Running s) Conc.Crashed ->
   exists x ch, x ∈ Conc.senders s /\ chans (Conc.handler s) !! Conc.s_chan x = Some ch /\
     ch_closed ch = true).
Proof.
  intros I%Conc.inv_reachable. pose proof (Conc.inv_wf s I) as W. split; [exact W|].
  assert (forall id ct, exists p, deleteDetails (Conc.handler s) id ct = Ok p) as Hd.
  { intros id ct. destruct (deleteDetails_spec (Conc.handler s) id ct W) as (p & -> & _). eauto. }
  destruct (CancelAllRequests_spec (Conc.handler s) W) as (pc & Ec & _).
  split; [intros id ct; by destruct (Hd id ct) as [p ->]|]. split; [by rewrite Ec|].
  intros Hs. inversion Hs as [ | | |? ss1 x ss2 Hss Hsend| | | | |? ? ct id| ? ct id| ]; subst.
  - unfold chan_send in Hsend. destruct (chans (Conc.handler s) !! Conc.s_chan x) as [ch|] eqn:E; [|done].
    exists x, ch. split; [rewrite Hss; set_solver|]. split; [done|].
    destruct (ch_closed ch); [done|]. by destruct (ch_buf ch).
  - destruct (Hd id ct) as [p Ep]. rewrite Ep in *. done.
  - destruct (Hd id ct) as [p Ep]. rewrite Ep in *. done.
  - rewrite Ec in *. done.
Qed.

Lemma registry_sound_witness :
  let s := sample_state (Conc.Done (inl true)) None true false in
  wf (Conc.handler s) /\
  (forall id ct, is_halt (deleteDetails (Conc.handler s) id ct) = false) /\
  is_halt (CancelAllRequests (Conc.handler s)) = false /\
  (Conc.step (Conc.Running s) Conc.Crashed ->
   exists x ch, x ∈ Conc.senders s /\ chans (Conc.handler s) !! Conc.s_chan x = Some ch /\
     ch_closed ch = true).
Proof. intros s. apply (registry_sound s). exact sample_reachable. Defined.

(** That crash does happen: the update functions release the lock before they send, so an
    acknowledgement that arrives while its waiter times out is sent on the channel that
    [deleteDetails] has just closed, and the process panics. *)
Theorem late_ack_panics {M : Type} (m : M) (id : Z) : Conc.reachable (M := M) Conc.Crashed.
Proof.
  eapply rtc_l; [apply (Conc.step_add _ PacketChannel id)|].
  eapply rtc_l; [apply (Conc.step_wait _ PacketChannel id 0); apply lookup_insert_eq|].
  eapply rtc_l; [apply (Conc.step_update _ PacketChannel id 0 m); apply lookup_insert_eq|].
  eapply rtc_l; [eapply (Conc.step_give_up _ [] PacketChannel id 0 [] ErrTimeout); reflexivity|].
  eapply rtc_l; [eapply (Conc.step_finish _ [] PacketChannel id _ []); reflexivity|].
  cbn [Conc.handler Conc.with_waiters]. unfold deleteDetails. cbn. rewrite lookup_insert_eq. cbn.
  apply rtc_once. eapply (Conc.step_send_panic _ [] _ []); reflexivity.
Qed.

(** A request is answered: after registering an id, the reply sent to it is what the waiter
    returns, and then the entry is gone and no other entry has changed. *)
Theorem request_reply {M : Type} (p : ResponseHandler M) (ct : ChannelType) (id : Z) (m : M) :
  wf p ->
  exists p2 p3,
    updateChannel ct (addChannel ct p id) id m = Ok (p2, true) /\
    waitForDetails p2 id ct EvRecv = Ok (p3, inl m) /\ wf p3 /\
    channels ct p3 !! id = None /\
    (forall ct' id', (ct', id') <> (ct, id) -> channels ct' p3 !! id' = channels ct' p !! id').
Proof.
  intros W. pose proof (wf_add ct p id W) as W1. set (p1 := addChannel ct p id) in *.
  set (c := next_chan p).
  assert (channels ct p1 !! id = Some c) as E1
    by (unfold p1; rewrite channels_add, decide_True by done; reflexivity).
  assert (chans p1 !! c = Some {| ch_buf := None; ch_closed := false |}) as Ec
    by (unfold p1; rewrite chans_add; apply lookup_insert_eq).
  assert (chan_open (chans p1) c) as Ho by (eexists; eauto).
  unfold updateChannel. rewrite E1. unfold chan_send. rewrite Ec. cbn.
  set (p2 := set_chans (<[c := {| ch_buf := Some m; ch_closed := false |}]> (chans p1)) p1).
  assert (wf p2) as W2 by (by apply wf_update_chan).
  assert (channels ct p2 !! id = Some c) as E2 by (unfold p2; by rewrite channels_set_chans).
  assert (chans p2 !! c = Some {| ch_buf := Some m; ch_closed := false |}) as Ec2
    by (apply lookup_insert_eq).
  unfold waitForDetails, getChannel.
  assert (wf (set_chans (<[c := {| ch_buf := None; ch_closed := false |}]> (chans p2)) p2)) as W3
    by (apply wf_update_chan; [done|]; eexists; eauto).
  destruct (deleteDetails_spec _ id ct W3) as (p3 & E3 & W3' & Hch & _).
  exists p2, p3. split; [done|]. rewrite E2. unfold chan_recv. rewrite Ec2. cbn [ch_buf ch_closed].
  rewrite E3. split; [done|]. split; [done|].
  split; [by rewrite Hch, decide_True|].
  intros ct' id' Hne. rewrite Hch, decide_False by naive_solver.
  rewrite channels_set_chans. unfold p2. rewrite channels_set_chans. unfold p1.
  by rewrite channels_add, decide_False by naive_solver.
Qed.

Lemma request_reply_witness :
  wf (newResponseHandler (M := bool)) /\
  exists p2 p3,
    updateChannel PacketChannel (addChannel PacketChannel newResponseHandler 7) 7 true = Ok (p2, true) /\
    waitForDetails p2 7 PacketChannel EvRecv = Ok (p3, inl true) /\ wf p3 /\
    channels PacketChannel p3 !! 7 = None /\
    (forall ct' id', (ct', id') <> (PacketChannel, 7) ->
       channels ct' p3 !! id' = channels ct' (newResponseHandler (M := bool)) !! id').
Proof. split; [apply wf_new | apply (request_reply newResponseHandler PacketChannel 7 true), wf_new]. Defined.

(** [waitForDetails] leaves no entry behind, however the wait ends; it only fails to come back
    when it waits for a reply that nobody has sent. *)
Lemma waitForDetails_spec {M : Type} (p : ResponseHandler M) id ct ev : wf p ->
  match waitForDetails p id ct ev with
  | Ok (p', r) => wf p' /\
      forall ct' id', channels ct' p' !! id' =
        if decide (ct' = ct /\ id' = id) then None else channels ct' p !! id'
  | Halt HDiverge => ev = EvRecv
  | _ => False
  end.
Proof.
  intros W. unfold waitForDetails, getChannel. destruct (channels ct p !! id) as [c|] eqn:E.
  2: { split; [done|]. intros ct' id'. case_decide as Hd; [|done]. by destruct Hd as [-> ->]. }
  destruct (deleteDetails_spec p id ct W) as (p' & E' & W' & Hch & _).
  destruct ev; [|rewrite E'; cbn; by split..].
  destruct (wf_open p W _ _ _ E) as (ch & Ec & Ho). unfold chan_recv. rewrite Ec, Ho.
  destruct (ch_buf ch); [|done].
  assert (wf (set_chans (<[c := {| ch_buf := None; ch_closed := false |}]> (chans p)) p)) as W2
    by (apply wf_update_chan; [done|]; eexists; eauto).
  destruct (deleteDetails_spec _ id ct W2) as (p2 & E2 & W2' & Hch2 & _). rewrite E2. cbn.
  split; [done|]. intros ct' id'. by rewrite Hch2, channels_set_chans.
Qed.
