(* ===== verification/Mqtt.v ===== *)
(** * Mqtt: requests and responses on the websocket

    request.go, payload.go, response.go, codes.go, topics.go and the event structs of
    events.go: the structs are lists of [Byter] fields, so that writing and reading them is
    the reflective codec of [Byter]. *)

From S2P Require Import Prelude Byter Packets ResponseHandler.

(** ** topics.go, codes.go *)

Definition Topic := string.
Definition UNKNOWN_TOPIC : Topic := "unknown".
Definition LS_APP_SETTINGS : Topic := "/ls_app_settings".
Definition LS_FOREGROUND_STATE : Topic := "/ls_foreground_state".
Definition LS_REQ : Topic := "/ls_req".
Definition LS_RESP : Topic := "/ls_resp".

Definition CONNECTION_ACCEPTED : Z := 0.
Definition CONNECTION_REFUSED_UNACCEPTABLE_PROTOCOL_VERSION : Z := 1.
Definition CONNECTION_REFUSED_IDENTIFIER_REJECTED : Z := 2.
Definition CONNECTION_REFUSED_SERVER_UNAVAILABLE : Z := 3.
Definition CONNECTION_REFUSED_BAD_USERNAME_OR_PASSWORD : Z := 4.
Definition CONNECTION_REFUSED_UNAUTHORIZED : Z := 5.
Definition CONNECTION_REFUSED_UNKNOWN_24 : Z := 24.

(** ** Structs *)

Definition field (name : string) (k : Kind) (tags : list (string * string)) : StructField :=
  {| sf_name := name; sf_kind := k; sf_exported := true; sf_enum := false; sf_tags := tags |}.

Definition enum_field (name : string) : StructField :=
  {| sf_name := name; sf_kind := KUint8; sf_exported := true; sf_enum := true; sf_tags := [] |}.

Definition hidden_field (name : string) (k : Kind) : StructField :=
  {| sf_name := name; sf_kind := k; sf_exported := false; sf_enum := false; sf_tags := [] |}.

Section Structs.
Context {J : Type}.
Local Open Scope string_scope.
Local Open Scope list_scope.
Local Open Scope Z_scope.
Abbreviation fields := (list (StructField * Value J)).

(** request.go *)
Record Request := { PacketByte : Z; RemainingLength : Z }.

Definition Request_fields (r : Request) : fields :=
  [ (field "PacketByte" KUint8 [], VUint (PacketByte r));
    (field "RemainingLength" KUint32 [("vlq", "true")], VUint (RemainingLength r)) ].

(** payload.go *)
Record ConnectPayload := {
  ProtocolName : string;
  ProtocolLevel : Z;
  cp_ConnectFlags : Z;
  KeepAliveTime : Z;
  ClientId : string;
  cp_JSONData : string;
}.

Definition ConnectPayload_fields (c : ConnectPayload) : fields :=
  [ (field "ProtocolName" KString [("lengthType", "uint16")], VString (ProtocolName c));
    (field "ProtocolLevel" KUint8 [], VUint (ProtocolLevel c));
    (field "ConnectFlags" KUint8 [], VUint (cp_ConnectFlags c));
    (field "KeepAliveTime" KUint16 [], VUint (KeepAliveTime c));
    (field "ClientId" KString [("lengthType", "uint16")], VString (ClientId c));
    (field "JSONData" KString [("lengthType", "uint16")], VString (cp_JSONData c)) ].

Record PublishPayload := { pp_Topic : Topic; pp_PacketId : Z; pp_JSONData : string }.

Definition PublishPayload_fields (p : PublishPayload) : fields :=
  [ (field "Topic" KString [("lengthType", "uint16")], VString (pp_Topic p));
    (field "PacketId" KUint16 [], VUint (pp_PacketId p));
    (field "JSONData" KString [("lengthType", "")], VString (pp_JSONData p)) ].

Record SubscribePayload := { sp_PacketId : Z; sp_Topic : Topic; sp_QoSLevel : Z }.

Definition SubscribePayload_fields (p : SubscribePayload) : fields :=
  [ (field "PacketId" KUint16 [], VUint (sp_PacketId p));
    (field "Topic" KString [("lengthType", "uint16")], VString (sp_Topic p));
    (enum_field "QoSLevel", VUint (sp_QoSLevel p)) ].

(** [Request.Write]: header and payload; the payload's own [Write] is an argument. *)
Definition Request_Write (packetByte : Z) (payload : res (list byte)) : res (list byte) :=
  payloadBytes ← payload;
  header ← WriteFromStruct
    (Request_fields {| PacketByte := packetByte; RemainingLength := uint32 (llen payloadBytes) |});
  Ok (header ++ payloadBytes).

(** socket.go's protocol constants *)
Definition protocolName : string := "MQIsdp".
Definition protocolClientId : string := "mqttwsclient".
Definition protocolLevel : Z := 3.
Definition keepAliveTimeout : Z := 15.

Definition connectPayload (jsonData : string) (connectFlags : Z) : ConnectPayload :=
  {| ProtocolName := protocolName;
     ProtocolLevel := uint8 protocolLevel;
     cp_ConnectFlags := connectFlags;
     KeepAliveTime := uint16 keepAliveTimeout;
     ClientId := protocolClientId;
     cp_JSONData := jsonData |}.

Definition newConnectRequest (jsonData : string) (connectFlags : Z) : res (list byte) :=
  Request_Write ConnectPacket_Compress
    (WriteFromStruct (ConnectPayload_fields (connectPayload jsonData connectFlags))).

(** The two request builders that register the packet id before they write and take the
    registration back when writing fails. *)
Definition newPublishRequest {M} (p : ResponseHandler M) (topic : Topic) (jsonData : string)
    (packetByte packetId : Z) : res (ResponseHandler M * res (list byte * Z)) :=
  let payload := {| pp_Topic := topic; pp_PacketId := packetId; pp_JSONData := jsonData |} in
  let p := addPacketChannel p packetId in
  let p := addRequestChannel p packetId in
  match Request_Write packetByte (WriteFromStruct (PublishPayload_fields payload)) with
  | Ok reqBytes => Ok (p, Ok (reqBytes, packetId))
  | Err e =>
      p ← deleteDetails p packetId PacketChannel;
      p ← deleteDetails p packetId RequestChannel;
      Ok (p, Err e)
  | Halt h => Halt h
  end.

Definition newSubscribeRequest {M} (p : ResponseHandler M) (packetId : Z) (topic : Topic) (qos : Z)
    : res (ResponseHandler M * res (list byte * Z)) :=
  let p := addPacketChannel p packetId in
  let payload := {| sp_PacketId := packetId; sp_Topic := topic; sp_QoSLevel := qos |} in
  match Request_Write SubscribePacket_Compress (WriteFromStruct (SubscribePayload_fields payload)) with
  | Ok reqBytes => Ok (p, Ok (reqBytes, packetId))
  | Err e => p ← deleteDetails p packetId PacketChannel; Ok (p, Err e)
  | Halt h => Halt h
  end.

(** The PUBACK that answers a QoS 1 publish (events.go). *)
Definition pubAckPacket (MessageIdentifier : Z) : list byte :=
  [z2b (Z.shiftl PUBACK 4); z2b 2] ++ be_encode 2 MessageIdentifier.
End Structs.

Arguments Request_fields {J} r.
Arguments ConnectPayload_fields {J} c.

(** ** response.go and the event structs of events.go *)

Section Response.
  (** The contents of [PublishResponseData], its zero value, and [json.Unmarshal] into it. *)
Context {J : Type} (zero_data : J) (json_Unmarshal : list byte -> J -> res J).
Local Open Scope string_scope.
Local Open Scope list_scope.
Local Open Scope Z_scope.

Inductive ResponseData :=
| Event_Ready (IsNewSession : bool) (ConnectionCode : Z)
| Event_PublishACK (PacketID : Z)
| Event_SubscribeACK (PacketID : Z) (QoSLevel : Z)
| Event_PublishResponse (Topic : string) (Data : J) (MessageIdentifier : Z) (QoS : Z)
| Event_PingResp.

Definition responseMap (packetType : Z) : option ResponseData :=
  if packetType =? CONNACK then Some (Event_Ready false 0)
  else if packetType =? PUBACK then Some (Event_PublishACK 0)
  else if packetType =? SUBACK then Some (Event_SubscribeACK 0 0)
  else if packetType =? PUBLISH then Some (Event_PublishResponse "" zero_data 0 0)
  else if packetType =? PINGRESP then Some Event_PingResp
  else None.

Definition SetIdentifier (d : ResponseData) (identifier : Z) : ResponseData :=
  match d with
  | Event_PublishResponse t j _ q => Event_PublishResponse t j identifier q
  | d => d
  end.

Definition event_fields (d : ResponseData) : list (StructField * Value J) :=
  match d with
  | Event_Ready s c =>
      [ (hidden_field "client" KPtr, VOther);
        (field "IsNewSession" KBool [], VBool s);
        (enum_field "ConnectionCode", VUint c) ]
  | Event_PublishACK i => [ (field "PacketID" KUint16 [], VUint i) ]
  | Event_SubscribeACK i q =>
      [ (field "PacketID" KUint16 [], VUint i); (field "QoSLevel" KUint8 [], VUint q) ]
  | Event_PublishResponse t j i q =>
      [ (field "Topic" KString [("lengthType", "uint16"); ("endian", "big")], VString t);
        (field "Data" KStruct [("jsonString", "1")], VStruct j);
        (field "Table" KPtr [], VOther);
        (field "MessageIdentifier" KUint16 [], VUint i);
        (enum_field "QoS", VUint q) ]
  | Event_PingResp => []
  end.

(** The event whose fields hold the given values. *)
Definition event_set (d : ResponseData) (vs : list (Value J)) : ResponseData :=
  match d, vs with
  | Event_Ready _ _, [_; VBool s; VUint c] => Event_Ready s c
  | Event_PublishACK _, [VUint i] => Event_PublishACK i
  | Event_SubscribeACK _ _, [VUint i; VUint q] => Event_SubscribeACK i q
  | Event_PublishResponse _ _ _ _, [VString t; VStruct j; _; VUint i; VUint q] =>
      Event_PublishResponse t j i q
  | d, _ => d
  end.

Record Response := {
  r_PacketByte : Z;
  r_RemainingLength : Z;
  r_ResponseData : ResponseData;
}.

Definition Response_fields : list (StructField * Value J) :=
  [ (field "PacketByte" KUint8 [], VUint 0);
    (field "RemainingLength" KUint32 [("vlq", "true")], VUint 0);
    (field "ResponseData" KInterface [], VOther) ].

Definition Response_QOS (packetByte : Z) : Z := Z.land (Z.shiftr packetByte 1) 0x03.
Definition Response_PacketType (packetByte : Z) : Z := Z.shiftr packetByte 4.

Definition Response_Read (data : list byte) : res Response :=
  '(vs, bufferBytes) ← ReadToStruct json_Unmarshal Response_fields data;
  let packetByte := val_uint (default VOther (vs !! 0%nat)) in
  let remaining := val_uint (default VOther (vs !! 1%nat)) in
  let packetType := Z.shiftr packetByte 4 in
  let qosLevel := Z.land (Z.shiftr packetByte 1) 0x03 in
  match responseMap packetType with
  | None => Err "could not find response func handler for packet type"
  | Some ev =>
      '(ev, bufferBytes) ←
        (if (packetType =? PUBLISH) && (qosLevel =? 1) then
           identifierBytes ← slice bufferBytes 10 12;
           let identifier := be_decode identifierBytes in
           pre ← slice bufferBytes 0 10;
           post ← slice_from bufferBytes 12;
           Ok (SetIdentifier ev identifier, pre ++ post)
         else Ok (ev, bufferBytes));
      '(vs, _) ← ReadToStruct json_Unmarshal (event_fields ev) bufferBytes;
      Ok {| r_PacketByte := packetByte; r_RemainingLength := remaining;
            r_ResponseData := event_set ev vs |}
  end.
End Response.

Arguments ResponseData : clear implicits.
Arguments Response : clear implicits.

(** ** Lemmas *)

Lemma codable_uint {J} name k tags z :
  is_uint k = true -> in_uint (uint_bits k) z -> tag_get "skip" tags <> "1"%string ->
  (if (tag_get "vlq" tags =? "")%string then endian_ok (tag_get "endian" tags) = true else z < 2 ^ 28) ->
  codable (J := J) (field name k tags) (VUint z).
Proof. intros Hk Hz Hs Hv. unfold codable, sf_tag. cbn. split_and!; done. Qed.

Lemma codable_string16 {J} name (s : string) : slen s < 65536 ->
  codable (J := J) (field name KString [("lengthType", "uint16")]%string) (VString s).
Proof.
  intros Hs. unfold codable, sf_tag, max_alloc. cbn. split_and!; try done; lia.
Qed.

Section ResponseLemmas.
Context {J : Type} (zero_data : J) (ju : list byte -> J -> res J).
Implicit Types (rest data : list byte).

(** The first two fields of a response, before any rest. *)
Lemma read_header b n rest : 0 <= b < 256 -> 0 <= n < 2 ^ 28 ->
  exists hdr, WriteFromStruct (Request_fields (J := J) {| PacketByte := b; RemainingLength := n |}) = Ok hdr /\
    ReadToStruct ju Response_fields (hdr ++ rest) = Ok ([VUint b; VUint n; VOther], rest).
Proof.
  intros Hb Hn.
  assert (codable (J := J) (field "PacketByte" KUint8 []) (VUint b)) as C1
    by (apply codable_uint; done).
  assert (codable (J := J) (field "RemainingLength" KUint32 [("vlq", "true")]%string) (VUint n)) as C2.
  { apply codable_uint; cbn; [done| |done|lia]. unfold in_uint. lia. }
  destruct (ReadToStruct_written ju _ _ (VUint 0)
    [(field "RemainingLength" KUint32 [("vlq", "true")]%string, VUint 0);
     (field "ResponseData" KInterface [], VOther)] C1) as (b1 & W1 & _ & R1).
  destruct (ReadToStruct_written ju _ _ (VUint 0)
    [(field "ResponseData" KInterface [], VOther)] C2) as (b2 & W2 & _ & R2).
  exists (b1 ++ b2). unfold Request_fields, Response_fields. cbn [WriteFromStruct PacketByte RemainingLength].
  rewrite W1, W2. cbn [mbind res_bind]. rewrite app_nil_r. split; [done|].
  rewrite <- app_assoc, R1, R2. by destruct rest.
Qed.

(** What [Response_Read] does after the header. *)
Definition read_body (packetByte remaining : Z) (buf : list byte) : res (Response J) :=
  match responseMap zero_data (Z.shiftr packetByte 4) with
  | None => Err "could not find response func handler for packet type"
  | Some ev =>
      '(ev, buf) ←
        (if (Z.shiftr packetByte 4 =? PUBLISH) && (Z.land (Z.shiftr packetByte 1) 0x03 =? 1) then
           identifierBytes ← slice buf 10 12;
           let identifier := be_decode identifierBytes in
           pre ← slice buf 0 10;
           post ← slice_from buf 12;
           Ok (SetIdentifier ev identifier, pre ++ post)
         else Ok (ev, buf));
      '(vs, _) ← ReadToStruct ju (event_fields ev) buf;
      Ok {| r_PacketByte := packetByte; r_RemainingLength := remaining; r_ResponseData := event_set ev vs |}
  end.

Lemma Response_Read_header b n hdr rest :
  ReadToStruct ju Response_fields (hdr ++ rest) = Ok ([VUint b; VUint n; VOther], rest) ->
  Response_Read zero_data ju (hdr ++ rest) = read_body b n rest.
Proof. intros E. unfold Response_Read. by rewrite E. Qed.

Lemma read_body_event b n ev buf :
  responseMap zero_data (Z.shiftr b 4) = Some ev -> Z.shiftr b 4 <> PUBLISH ->
  read_body b n buf =
    '(vs, _) ← ReadToStruct ju (event_fields ev) buf;
    Ok {| r_PacketByte := b; r_RemainingLength := n; r_ResponseData := event_set ev vs |}.
Proof. intros E Hp. unfold read_body. rewrite E. by apply Z.eqb_neq in Hp as ->. Qed.

(** Every event's fields can be read without a panic. *)
Lemma event_fields_safe ev : Forall (fun fv => alloc_safe (fst fv) = true) (event_fields (J := J) ev).
Proof. destruct ev; repeat constructor. Qed.
End ResponseLemmas.

(** ** Properties *)

Lemma Response_Read_halts {J} (zero_data : J) ju data h :
  (forall bs j, is_halt (ju bs j) = false) ->
  Response_Read zero_data ju data = Halt h <->
  h = HPanic /\ exists vs buf, ReadToStruct ju Response_fields data = Ok (vs, buf) /\
    Response_PacketType (val_uint (default VOther (vs !! 0%nat))) = PUBLISH /\
    Response_QOS (val_uint (default VOther (vs !! 0%nat))) = 1 /\ (length buf < 12)%nat.
Proof.
  intros Hju. unfold Response_Read, Response_PacketType, Response_QOS.
  pose proof (ReadToStruct_safe ju Response_fields data Hju ltac:(repeat constructor)) as Hs.
  destruct (ReadToStruct ju Response_fields data) as [[vs buf]|e|h']; [|split; [done|naive_solver]|done].
  cbn [mbind res_bind]. set (b := val_uint (default VOther (vs !! 0%nat))).
  set (q := Z.land (Z.shiftr b 1) 3). set (t := Z.shiftr b 4). clear Hs.
  assert (forall ev buf', ('(vs0, _) ← ReadToStruct ju (event_fields ev) buf';
     Ok {| r_PacketByte := b; r_RemainingLength := val_uint (default VOther (vs !! 1%nat));
           r_ResponseData := event_set ev vs0 |}) <> Halt h) as Hbody.
  { intros ev buf'. pose proof (ReadToStruct_safe ju (event_fields ev) buf' Hju (event_fields_safe ev)).
    destruct (ReadToStruct _ _ buf') as [[? ?]| |]; done. }
  destruct (responseMap zero_data t) as [ev|] eqn:Em.
  2: { split; [done|]. intros (-> & ? & ? & [= <- <-] & Ht & _). fold b t in Ht. by rewrite Ht in Em. }
  destruct ((t =? PUBLISH) && (q =? 1)) eqn:Eq.
  2: { split; [by intros ?%Hbody|]. intros (-> & ? & ? & [= <- <-] & Ht & Hq & _).
       fold b t q in Ht, Hq. by rewrite Ht, Hq in Eq. }
  apply andb_true_iff in Eq as [Ht%Z.eqb_eq Hq%Z.eqb_eq].
  destruct (decide (12 <= length buf)%nat) as [Hl|Hl].
  - rewrite (slice_ok buf 10 12), (slice_ok buf 0 10) by lia. unfold slice_from.
    rewrite slice_ok by lia. cbn [mbind res_bind].
    split; [by intros ?%Hbody|]. intros (_ & ? & ? & [= <- <-] & _ & _ & Hlt). lia.
  - assert (slice buf 10 12 = Panic) as -> by (unfold slice; by cond_false).
    cbn. split; [intros [= <-]|by intros [-> _]]. split; [done|]. exists vs, buf. 
    split_and!; [done..|lia].
Qed.

(** When parsing a packet from the websocket can bring the process down: assuming the JSON
    decoder returns, [Response.Read] panics exactly on a PUBLISH of QoS 1 with fewer than twelve
    bytes after its header (the message id is cut out at fixed offsets without a length test),
    and it never loops or exits. *)
Theorem response_read_panics_iff {J} (zero_data : J) (ju : list byte -> J -> res J) (data : list byte) (h : halt) :
  (forall bs j, is_halt (ju bs j) = false) ->
  Response_Read zero_data ju data = Halt h <->
  h = HPanic /\ exists vs buf, ReadToStruct ju Response_fields data = Ok (vs, buf) /\
    Response_PacketType (val_uint (default VOther (vs !! 0%nat))) = PUBLISH /\
    Response_QOS (val_uint (default VOther (vs !! 0%nat))) = 1 /\ (length buf < 12)%nat.
Proof. apply Response_Read_halts. Qed.

Lemma response_read_panics_iff_witness :
  Response_Read tt (fun _ j => Ok j) [x32; x02; x00; x00] = Halt HPanic <->
  HPanic = HPanic /\ exists vs buf,
    ReadToStruct (fun _ j => Ok j) (Response_fields (J := unit)) [x32; x02; x00; x00] = Ok (vs, buf) /\
    Response_PacketType (val_uint (default VOther (vs !! 0%nat))) = PUBLISH /\
    Response_QOS (val_uint (default VOther (vs !! 0%nat))) = 1 /\ (length buf < 12)%nat.
Proof. apply (response_read_panics_iff tt (fun _ j => Ok j) [x32; x02; x00; x00] HPanic). reflexivity. Defined.

Lemma codable_event_string16 {J} name (s : string) : slen s < 65536 ->
  codable (J := J) (field name KString [("lengthType", "uint16"); ("endian", "big")]%string) (VString s).
Proof.
  intros Hs. unfold codable, sf_tag, max_alloc. cbn. split_and!; try done; lia.
Qed.

(** The fields of a publish event after its topic, on a non-empty JSON text. *)
Lemma read_publish_body {J} (zero_data : J) ju topic i jb :
  slen topic < 65536 -> jb <> [] ->
  ReadToStruct ju (event_fields (Event_PublishResponse "" zero_data i 0))
    (writeString topic "uint16" "big" ++ jb) =
  (j ← ju jb zero_data; Ok ([VString topic; VStruct j; VOther; VUint i; VUint 0], [])).
Proof.
  intros Ht Hjb. cbn [event_fields].
  set (fs := (field "Data" KStruct _, _) :: _).
  destruct (ReadToStruct_written ju _ _ (VString "") fs (codable_event_string16 "Topic" topic Ht))
    as (bs & W & _ & R).
  assert (bs = writeString topic "uint16" "big") as -> by (injection W as <-; reflexivity).
  rewrite R. unfold fs. rewrite ReadToStruct_cons by done.
  unfold readField. cbn [sf_exported field negb sf_kind].
  change (sf_tag (field "Data" KStruct [("jsonString", "1")]%string) "jsonString" =? "")%string with false.
  cbn [negb buff_Next]. unfold buff_Next. rewrite firstn_all, drop_all.
  by destruct (ju jb zero_data).
Qed.

Lemma read_body_publish {J} (zero_data : J) ju b n topic i jb :
  0 <= b < 256 -> Z.shiftr b 4 = PUBLISH -> slen topic < 65536 -> jb <> [] -> in_uint 16 i ->
  Z.land (Z.shiftr b 1) 3 <> 1 \/ String.length topic = 8%nat ->
  read_body zero_data ju b n
    (writeString topic "uint16" "big" ++
     (if Z.land (Z.shiftr b 1) 3 =? 1 then be_encode 2 i else []) ++ jb) =
  (j ← ju jb zero_data;
   Ok {| r_PacketByte := b; r_RemainingLength := n;
         r_ResponseData := Event_PublishResponse topic j (if Z.land (Z.shiftr b 1) 3 =? 1 then i else 0) 0 |}).
Proof.
  intros Hb Ht Hl Hjb Hi Hq. unfold read_body. rewrite Ht. cbn [responseMap].
  change (responseMap zero_data PUBLISH) with (Some (Event_PublishResponse "" zero_data 0 0)).
  cbv iota beta. change (PUBLISH =? PUBLISH) with true. cbn [andb].
  destruct (Z.eqb_spec (Z.land (Z.shiftr b 1) 3) 1) as [E|E].
  - destruct Hq as [Hq|H8]; [done|].
    assert (length (writeString topic "uint16" "big") = 10%nat) as H10.
    { unfold writeString. cbn. rewrite length_app, s2l_length, be_encode_length, H8. done. }
    rewrite (slice_app (writeString topic "uint16" "big") (be_encode 2 i) jb 10 12) by
      (rewrite ?be_encode_length, H10; done).
    rewrite (slice_prefix (writeString topic "uint16" "big")) by (rewrite H10; done).
    rewrite app_assoc, slice_from_app by (rewrite length_app, be_encode_length, H10; done).
    cbn [mbind res_bind SetIdentifier]. rewrite be_decode_encode, uintN_small by done.
    rewrite read_publish_body by done. by destruct (ju jb zero_data).
  - cbn [mbind res_bind app]. rewrite read_publish_body by done. by destruct (ju jb zero_data).
Qed.

(** Publish packets from the server are read back: for a PUBLISH of any QoS but 2 with a
    topic, a message id (QoS 1 only) and a non-empty JSON text, [Response.Read] returns the
    topic, the decoded JSON and the id -- provided, for QoS 1, that the topic has the eight
    bytes of [/ls_resp].  The announced length is not looked at. *)
Theorem publish_read_back {J} (zero_data : J) (ju : list byte -> J -> res J)
    (p : PublishPacket) (n : Z) (topic : string) (i : Z) (jb : list byte) :
  publish_wf p = true -> QOSLevel p <> 2 -> QOSLevel p <> 3 -> 0 <= n < 2 ^ 28 ->
  slen topic < 65536 -> in_uint 16 i -> jb <> [] ->
  (QOSLevel p = 1 -> String.length topic = String.length LS_RESP) ->
  let b := PublishPacket_Compress p in
  exists hdr,
    WriteFromStruct (Request_fields (J := J) {| PacketByte := b; RemainingLength := n |}) = Ok hdr /\
    Response_Read zero_data ju
      (hdr ++ writeString topic "uint16" "big" ++
       (if QOSLevel p =? 1 then be_encode 2 i else []) ++ jb) =
    (j ← ju jb zero_data;
     Ok {| r_PacketByte := b; r_RemainingLength := n;
           r_ResponseData := Event_PublishResponse topic j (if QOSLevel p =? 1 then i else 0) 0 |}).
Proof.
  intros Hp H2 H3 Hn Ht Hi Hjb H8 b.
  assert (0 <= b < 256 /\ Z.shiftr b 4 = PUBLISH /\ Z.land (Z.shiftr b 1) 3 = QOSLevel p) as (Hb & Hs & Hq).
  { destruct p as [pt d q r]. apply publish_cases in Hp as (Hd & Hq & Hr). cbn in *. subst b.
    destruct Hd as [-> | ->]; destruct Hq as [-> | [-> | [-> | ->]]]; destruct Hr as [-> | ->];
      vm_compute; split_and!; congruence. }
  destruct (read_header ju b n
    (writeString topic "uint16" "big" ++ (if QOSLevel p =? 1 then be_encode 2 i else []) ++ jb) Hb Hn)
    as (hdr & W & R).
  exists hdr. split; [exact W|]. rewrite (Response_Read_header _ _ _ _ _ _ R), <- Hq.
  apply read_body_publish; try done.
  destruct (decide (QOSLevel p = 1)) as [E|E]; [right; by rewrite H8|left; by rewrite Hq].
Qed.

(** A JSON decoder for the witnesses: the decoded data is the text itself. *)
Definition text_decoder (bs : list byte) (j : string) : res string := Ok (l2s bs).

Lemma publish_read_back_witness :
  let b := PublishPacket_Compress sample_publish in
  exists hdr,
    WriteFromStruct (Request_fields (J := string) {| PacketByte := b; RemainingLength := 14 |}) = Ok hdr /\
    Response_Read "" text_decoder (hdr ++ writeString LS_RESP "uint16" "big" ++ be_encode 2 513 ++ s2l "{}") =
    (j ← text_decoder (s2l "{}") "";
     Ok {| r_PacketByte := b; r_RemainingLength := 14;
           r_ResponseData := Event_PublishResponse LS_RESP j 513 0 |}).
Proof.
  apply (publish_read_back "" text_decoder sample_publish 14 LS_RESP 513 (s2l "{}"));
    try reflexivity; try discriminate; unfold in_uint; cbn; lia.
Defined.

(** With any other topic length the fixed offsets are wrong: a QoS 1 publish of id 5 on
    /ls_app_settings comes back as id 29541, two letters of the topic, on a topic that lost them
    and took in the two bytes of the id. *)
Theorem publish_read_other_topic :
  exists hdr,
    WriteFromStruct (Request_fields (J := string) {| PacketByte := 50; RemainingLength := 22 |}) = Ok hdr /\
    Response_Read "" text_decoder
      (hdr ++ writeString LS_APP_SETTINGS "uint16" "big" ++ be_encode 2 5 ++ s2l "{}") =
    Ok {| r_PacketByte := 50; r_RemainingLength := 22;
          r_ResponseData := Event_PublishResponse (l2s (s2l "/ls_app_ttings" ++ [x00; x05])) "{}" 29541 0 |}.
Proof. eexists. split; [reflexivity|]. vm_compute. reflexivity. Qed.

(** Acknowledgements round-trip: what the bridge sends to acknowledge a QoS 1 message is what
    [Response.Read] parses as the acknowledgement of that packet id, and a SUBACK with any
    granted QoS is parsed to its id and QoS. *)
Theorem ack_read_back {J} (zero_data : J) (ju : list byte -> J -> res J) (i q : Z) :
  in_uint 16 i -> in_uint 8 q ->
  Response_Read zero_data ju (pubAckPacket i) =
    Ok {| r_PacketByte := 64; r_RemainingLength := 2; r_ResponseData := Event_PublishACK i |} /\
  Response_Read zero_data ju ([z2b 144; z2b 3] ++ be_encode 2 i ++ [z2b q]) =
    Ok {| r_PacketByte := 144; r_RemainingLength := 3; r_ResponseData := Event_SubscribeACK i q |}.
Proof.
  intros Hi Hq.
  assert (codable (J := J) (field "PacketID" KUint16 []) (VUint i)) as Ci by (by apply codable_uint).
  assert (codable (J := J) (field "QoSLevel" KUint8 []) (VUint q)) as Cq by (by apply codable_uint).
  split.
  - destruct (read_header ju 64 2 (be_encode 2 i)) as (hdr & W & R); [lia..|].
    injection W as <-.
    change (pubAckPacket i) with ([z2b 64; z2b 2] ++ be_encode 2 i).
    rewrite (Response_Read_header zero_data ju 64 2 [z2b 64; z2b 2] _ R). rewrite (read_body_event _ _ _ _ (Event_PublishACK 0)) by done.
    cbn [event_fields].
    destruct (ReadToStruct_written ju _ _ (VUint 0) [] Ci) as (bs & Wi & _ & Ri).
    injection Wi as <-. specialize (Ri []). rewrite app_nil_r in Ri. by rewrite Ri.
  - destruct (read_header ju 144 3 (be_encode 2 i ++ [z2b q])) as (hdr & W & R); [lia..|].
    injection W as <-. rewrite (Response_Read_header zero_data ju 144 3 [z2b 144; z2b 3] _ R).
    rewrite (read_body_event _ _ _ _ (Event_SubscribeACK 0 0)) by done.
    cbn [event_fields].
    destruct (ReadToStruct_written ju _ _ (VUint 0) [(field "QoSLevel" KUint8 [], VUint 0)] Ci) as (bs & Wi & _ & Ri).
    destruct (ReadToStruct_written ju _ _ (VUint 0) [] Cq) as (bs' & Wq & _ & Rq).
    injection Wi as <-. injection Wq as <-. rewrite Ri. specialize (Rq []). rewrite app_nil_r in Rq.
    rewrite be_encode_1 in Rq. by rewrite Rq.
Qed.

Lemma ack_read_back_witness :
  in_uint 16 513 /\ in_uint 8 1 /\
  (Response_Read "" text_decoder (pubAckPacket 513) =
    Ok {| r_PacketByte := 64; r_RemainingLength := 2; r_ResponseData := Event_PublishACK 513 |} /\
  Response_Read "" text_decoder ([z2b 144; z2b 3] ++ be_encode 2 513 ++ [z2b 1]) =
    Ok {| r_PacketByte := 144; r_RemainingLength := 3; r_ResponseData := Event_SubscribeACK 513 1 |}).
Proof.
  assert (in_uint 16 513) as H1 by (unfold in_uint; lia). assert (in_uint 8 1) as H2 by (unfold in_uint; lia).
  split; [exact H1|]. split; [exact H2|]. apply (ack_read_back "" text_decoder 513 1 H1 H2).
Defined.

Lemma ConnectPayload_codable {J} json fl : slen json < 65536 -> in_uint 8 fl ->
  Forall (fun fv => codable (J := J) (fst fv) (snd fv)) (ConnectPayload_fields (connectPayload json fl)).
Proof.
  intros Hj Hf.
  repeat (apply Forall_cons_2 || apply Forall_nil_2); cbn [fst snd];
    try (apply codable_string16; cbn; lia); apply codable_uint; done.
Qed.

Lemma ConnectPayload_bytes {J} json fl :
  exists bs, WriteFromStruct (ConnectPayload_fields (J := J) (connectPayload json fl)) = Ok bs /\
    length bs = (28 + String.length json)%nat.
Proof.
  eexists. split; [reflexivity|]. unfold writeString. cbn -[be_encode s2l].
  rewrite !length_app, !be_encode_length, !s2l_length. cbn. lia.
Qed.

(** The CONNECT packet is framed as MQTT frames it: for a JSON text of fewer than 2^16 bytes,
    [newConnectRequest] succeeds, its first byte is the CONNECT type, the remaining length it
    announces is the length of what follows, and that is the payload: reading it as a
    [ConnectPayload] gives back every field. *)
Theorem connect_request_framed {J} (ju : list byte -> J -> res J) (json : string) (fl : Z)
    (c0 : ConnectPayload) :
  slen json < 65536 -> in_uint 8 fl ->
  exists hdr payload,
    newConnectRequest (J := J) json fl = Ok (hdr ++ payload) /\
    ReadToStruct ju (Request_fields {| PacketByte := 0; RemainingLength := 0 |}) (hdr ++ payload) =
      Ok ([VUint (Z.shiftl CONNECT 4); VUint (llen payload)], payload) /\
    ReadToStruct ju (ConnectPayload_fields c0) payload =
      Ok (snd <$> ConnectPayload_fields (connectPayload json fl), []).
Proof.
  intros Hj Hf.
  destruct (WriteFromStruct_ReadToStruct ju _ (ConnectPayload_codable json fl Hj Hf)) as (payload & W & _ & R).
  destruct (ConnectPayload_bytes (J := J) json fl) as (bs & W' & Hl).
  assert (bs = payload) as -> by congruence.
  assert (Forall (fun fv => codable (J := J) (fst fv) (snd fv))
    (Request_fields {| PacketByte := ConnectPacket_Compress; RemainingLength := llen payload |})) as Hc.
  { repeat (apply Forall_cons_2 || apply Forall_nil_2); cbn [fst snd]; apply codable_uint; cbn; try done.
    - unfold in_uint. lia.
    - lia. }
  destruct (WriteFromStruct_ReadToStruct ju _ Hc) as (hdr & Wh & _ & Rh).
  exists hdr, payload. split; [|split].
  - unfold newConnectRequest, Request_Write. rewrite W. cbn [mbind res_bind].
    rewrite (uintN_small 32) by (unfold in_uint; lia). by rewrite Wh.
  - apply Rh. reflexivity.
  - rewrite <- (app_nil_r payload). apply R. reflexivity.
Qed.

Lemma connect_request_framed_witness :
  slen "{}" < 65536 /\ in_uint 8 130 /\
  exists hdr payload,
    newConnectRequest (J := unit) "{}" 130 = Ok (hdr ++ payload) /\
    ReadToStruct (J := unit) (fun _ j => Ok j) (Request_fields {| PacketByte := 0; RemainingLength := 0 |}) (hdr ++ payload) =
      Ok ([VUint (Z.shiftl CONNECT 4); VUint (llen payload)], payload) /\
    ReadToStruct (J := unit) (fun _ j => Ok j) (ConnectPayload_fields (connectPayload "" 0)) payload =
      Ok (snd <$> ConnectPayload_fields (connectPayload "{}" 130), []).
Proof.
  assert (slen "{}" < 65536) as H1 by (cbn; lia). assert (in_uint 8 130) as H2 by (unfold in_uint; lia).
  split; [exact H1|]. split; [exact H2|].
  apply (connect_request_framed (fun _ j => Ok j) "{}" 130 (connectPayload "" 0) H1 H2).
Defined.
