(* ===== verification/Lightspeed.v ===== *)
(** * Lightspeed: the decoder of LightSpeed programs ([lightspeed/decode.go])

    A LightSpeed program is JSON; [Decode] interprets it, and its stored-procedure calls
    append rows to the tables of [LSTable] through reflection over struct tags.  Here a row's
    struct type is a [Schema], values of type [any] are [val]s, maps and slices live in a heap
    (a stored reference and a table row may alias them) and every Go panic is explicit.

    Parameters: [deps], the dependency map; [LSTable], the fields of the table struct with
    their row types; [now], the clock; [slack], the spare capacity the run-time gives a slice
    it reallocates; [fmt_float], the [%v] form of a float. *)

From S2P Require Import Prelude Strconv Base64.
From Stdlib Require Import Ascii SpecFloat.
From stdpp Require Import sorting.
#[local] Open Scope Z_scope.

(** ** Data *)

#[global] Instance spec_float_eq_dec : EqDecision spec_float.
Proof. solve_decision. Defined.

(** What [encoding/json] makes of a document in an [any]. *)
Inductive json :=
| JNull
| JBool (b : bool)
| JNum (f : spec_float)
| JStr (s : string)
| JArr (l : list json)
| JObj (m : list (string * json)).

Definition loc := nat.

(** The dynamic values the decoder produces.  [VInt] is Go's [int], [VSlice a n] a [[]any] of
    length [n] over the backing array [a]. *)
Inductive val :=
| VNil
| VBool (b : bool)
| VInt64 (z : Z)
| VInt (z : Z)
| VFloat (f : spec_float)
| VStr (s : string)
| VBytes (l : list byte)
| VMap (l : loc)
| VSlice (l : loc) (len : nat).

#[global] Instance val_eq_dec : EqDecision val.
Proof. solve_decision. Defined.

Definition is_nil (v : val) : bool := match v with VNil => true | _ => false end.

(** [int(f)] truncates; outside [int64] the value is the one amd64 gives. *)
Definition f64_to_int (f : spec_float) : Z :=
  match f with
  | S754_zero _ => 0
  | S754_finite s m e =>
      let mag := if 0 <=? e then Z.pos m * 2 ^ e else Z.pos m / 2 ^ (- e) in
      let z := if s then - mag else mag in
      if (- 2 ^ 63 <=? z) && (z <? 2 ^ 63) then z else - 2 ^ 63
  | S754_infinity _ | S754_nan => - 2 ^ 63
  end.

Record Field := mkField { fname : string; fkind : Kind; ftags : list (string * string) }.
Record Schema := mkSchema { sname : string; sfields : list Field }.

(** A struct of a row type: the fields' values in order (the entry of an [Unrecognized] field
    is not used) and the [Unrecognized] map, [None] while it is nil. *)
Record Inst := mkInst { ifields : list val; unrec : option (gmap Z val) }.

Record St := mkSt {
  refs : gmap Z val; (** [ls.StatementReferences] *)
  maps : gmap loc (gmap string val);
  arrs : gmap loc (list val);     (** backing arrays, as long as their capacity *)
  next : loc;
  table : gmap string (list Inst); (** the slices of [ls.Table] by field name *)
  tick : nat                      (** calls of [time.Now] so far *)
}.

Definition set_ref (k : Z) (v : val) (s : St) : St :=
  mkSt (<[k := v]> (refs s)) (maps s) (arrs s) (next s) (table s) (tick s).
Definition set_map (l : loc) (m : gmap string val) (s : St) : St :=
  mkSt (refs s) (<[l := m]> (maps s)) (arrs s) (next s) (table s) (tick s).
Definition set_arr (l : loc) (a : list val) (s : St) : St :=
  mkSt (refs s) (maps s) (<[l := a]> (arrs s)) (next s) (table s) (tick s).
Definition bump (s : St) : St :=
  mkSt (refs s) (maps s) (arrs s) (S (next s)) (table s) (tick s).
Definition tock (s : St) : St :=
  mkSt (refs s) (maps s) (arrs s) (next s) (table s) (S (tick s)).
Definition append_row (f : string) (r : Inst) (s : St) : St :=
  mkSt (refs s) (maps s) (arrs s) (next s)
    (<[f := (default [] (table s !! f) ++ [r])%list]> (table s)) (tick s).

(** ** The decoder's monad: state passing over Go's outcomes *)

Definition M (A : Type) : Type := St -> res (A * St).

#[global] Instance M_ret : MRet M := fun A a s => Ok (a, s).
#[global] Instance M_bind : MBind M := fun A B f m s =>
  match m s with
  | Ok (a, s') => f a s'
  | Err e => Err e
  | Halt h => Halt h
  end.

Definition lift {A} (r : res A) : M A := fun s =>
  match r with Ok a => Ok (a, s) | Err e => Err e | Halt h => Halt h end.
Definition modify (f : St -> St) : M () := fun s => Ok ((), f s).
Definition get : M St := fun s => Ok (s, s).
Definition halted {A} (h : halt) : M A := fun _ => Halt h.

(** ** Step types *)

Definition BLOCK : Z := 1.
Definition LOAD : Z := 2.
Definition STORE : Z := 3.
Definition STORE_ARRAY : Z := 4.
Definition CALL_STORED_PROCEDURE : Z := 5.
Definition CALL_NATIVE_OPERATION : Z := 7.
Definition UNDEFINED : Z := 9.
Definition TO_BLOB : Z := 16.
Definition I64_FROM_STRING : Z := 19.
Definition IF : Z := 23.
Definition NOT : Z := 26.
Definition I64_EQUAL : Z := 30.
Definition LOGGER_LOG : Z := 49.
Definition NATIVE_OP_ARRAY_CREATE : Z := 50.
Definition NATIVE_OP_ARRAY_APPEND : Z := 51.
Definition NATIVE_OP_ARRAY_GET_SIZE : Z := 52.
Definition NATIVE_OP_MAP_CREATE : Z := 53.
Definition NATIVE_OP_MAP_SET : Z := 55.
Definition NATIVE_OP_CURRENT_TIME : Z := 60.
Definition I64_ADD : Z := 69.

(** ** Dependencies *)

Record Dependency := mkDependency { Name : string; ReferenceName : string }.

(** [DependencyList.ToMap]: later entries win. *)
Definition ToMap (dl : list Dependency) : gmap string string :=
  foldl (fun m d => <[Name d := ReferenceName d]> m) ∅ dl.

(** ** Reflection over row types *)

Definition zero_val (k : Kind) : val :=
  match k with
  | KBool => VBool false
  | KInt64 => VInt64 0
  | KInt => VInt 0
  | KFloat64 => VFloat (S754_zero false)
  | KString => VStr ""
  | _ => VNil
  end.

Definition reflect_New (s : Schema) : Inst := mkInst (zero_val ∘ fkind <$> sfields s) None.

(** The position of a field by name ([FieldByName]). *)
Fixpoint field_pos (n : string) (fs : list Field) : option nat :=
  match fs with
  | [] => None
  | f :: fs => if (fname f =? n)%string then Some O else S <$> field_pos n fs
  end.

(** [conditionVal.Bool()]: panics unless the field exists and is of kind [Bool]. *)
Definition field_Bool (s : Schema) (n : string) (vals : list val) : res bool :=
  match field_pos n (sfields s) with
  | Some i =>
      match fkind <$> sfields s !! i, vals !! i with
      | Some KBool, Some (VBool b) => Ok b
      | _, _ => Panic
      end
  | None => Panic
  end.

(** conditionVal ? trueIndex : falseIndex *)
Definition parseConditionIndex (v : bool) (choices : string) : res Z :=
  let indexes := Split "," choices in
  choice ← index indexes (if v then 0 else 1);
  match Atoi choice with
  | (i, None) => Ok i
  | (_, Some _) => Err "invalid index"
  end.

(** The argument a field takes its value from. *)
Definition fieldIndex (s : Schema) (f : Field) (vals : list val) : res Z :=
  let conditionField := tag_get "conditionField" (ftags f) in
  if (conditionField =? "")%string then Ok (fst (Atoi (tag_get "index" (ftags f))))
  else
    cond ← field_Bool s conditionField vals;
    parseConditionIndex cond (tag_get "indexes" (ftags f)).

(** The switch on the field's kind: the value is set, or its type is wrong, or the kind is
    one the code does not know (it then drops the argument). *)
Inductive assignment := Assigned | Mismatch | UnknownKind.

Definition assign (k : Kind) (v : val) : assignment :=
  match k with
  | KInt64 => match v with VInt64 _ => Assigned | _ => Mismatch end
  | KString => match v with VStr _ => Assigned | _ => Mismatch end
  | KInterface => Assigned
  | KBool => match v with VBool _ => Assigned | _ => Mismatch end
  | KInt => match v with VInt _ => Assigned | _ => Mismatch end
  | KFloat64 => match v with VFloat _ => Assigned | _ => Mismatch end
  | _ => UnknownKind
  end.

(** The loop over the struct's fields: [vals] are the values set so far, [decoded] is
    [decodedData], whose consumed entries become nil. *)
Fixpoint setFields (s : Schema) (fs : list Field) (i : nat) (vals decoded : list val)
    : res (list val * list val) :=
  match fs with
  | [] => Ok (vals, decoded)
  | f :: fs =>
      if (fname f =? "Unrecognized")%string then setFields s fs (S i) vals decoded
      else
        match fieldIndex s f vals with
        | Halt h => Halt h
        | Err _ => setFields s fs (S i) vals decoded
        | Ok idx =>
            if idx >=? llen decoded then Ok (vals, decoded)
            else
              v ← index decoded idx;
              if is_nil v then setFields s fs (S i) vals decoded
              else match assign (fkind f) v with
                   | Mismatch => setFields s fs (S i) vals decoded
                   | Assigned =>
                       setFields s fs (S i) (<[i := v]> vals) (<[Z.to_nat idx := VNil]> decoded)
                   | UnknownKind => setFields s fs (S i) vals (<[Z.to_nat idx := VNil]> decoded)
                   end
        end
  end.

(** The loop over the arguments that are left, from position [i] on. *)
Fixpoint collectUnrecognized (i : Z) (decoded : list val) (u : option (gmap Z val))
    : option (gmap Z val) :=
  match decoded with
  | [] => u
  | item :: rest =>
      collectUnrecognized (i + 1) rest
        (if is_nil item then u else Some (<[i := item]> (default ∅ u)))
  end.

(** A row from its arguments. *)
Definition makeRow (s : Schema) (decoded : list val) : res Inst :=
  '(vals, left_over) ← setFields s (sfields s) 0 (ifields (reflect_New s)) decoded;
  Ok (mkInst vals
        (match field_pos "Unrecognized" (sfields s) with
         | Some _ => collectUnrecognized 0 left_over None
         | None => None
         end)).

Fixpoint table_type (f : string) (t : list (string * Schema)) : option Schema :=
  match t with
  | [] => None
  | (g, s) :: t => if (g =? f)%string then Some s else table_type f t
  end.

(** ** The decoder *)

Section Decoder.
Context (deps : gmap string string) (LSTable : list (string * Schema)).
Context (now : nat -> Z) (slack : nat -> nat) (fmt_float : spec_float -> string).

Definition alloc_map (m : gmap string val) : M val := fun s =>
  Ok (VMap (next s), bump (set_map (next s) m s)).

Definition alloc_slice (l : list val) (capacity : nat) : M val := fun s =>
  Ok (VSlice (next s) (length l),
      bump (set_arr (next s) (l ++ replicate (capacity - length l) VNil) s)).

(** A JSON value below a JSON object, which the code uses as it was parsed. *)
Fixpoint of_json (j : json) : M val :=
  match j with
  | JNull => mret VNil
  | JBool b => mret (VBool b)
  | JNum f => mret (VFloat f)
  | JStr s => mret (VStr s)
  | JArr l =>
      vs ← (fix go l : M (list val) :=
              match l with
              | [] => mret []
              | j :: l => v ← of_json j; vs ← go l; mret (v :: vs)
              end) l;
      alloc_slice vs (length vs)
  | JObj m =>
      kvs ← (fix go m : M (gmap string val) :=
               match m with
               | [] => mret ∅
               | (k, j) :: m => v ← of_json j; vs ← go m; mret (<[k := default v (vs !! k)]> vs)
               end) m;
      alloc_map kvs
  end.

(** [append(arr, v)]: in place when there is capacity, else into a new backing array. *)
Definition append_slice (l : loc) (len : nat) (v : val) : M val := fun s =>
  let backing := default [] (arrs s !! l) in
  if (len <? length backing)%nat then
    Ok (VSlice l (S len), set_arr l (<[len := v]> backing) s)
  else alloc_slice (take len backing ++ [v]) (S len + slack len) s.

(** [fmt.Sprintf("%v", v)]; a cyclic map overflows the stack, which kills the process. *)
Fixpoint Sprintf_v (fuel : nat) (s : St) (v : val) : res string :=
  match fuel with
  | O => Exit
  | S fuel =>
      match v with
      | VNil => Ok "<nil>"%string
      | VBool b => Ok (if b then "true" else "false")%string
      | VInt64 z | VInt z => Ok (FormatInt 10 z)
      | VFloat f => Ok (fmt_float f)
      | VStr s => Ok s
      | VBytes l => Ok ("[" ++ String.concat " " (FormatInt 10 ∘ b2z <$> l) ++ "]")%string
      | VSlice l n =>
          ss ← (fix go vs : res (list string) :=
                  match vs with
                  | [] => Ok []
                  | v :: vs => x ← Sprintf_v fuel s v; xs ← go vs; Ok (x :: xs)
                  end) (take n (default [] (arrs s !! l)));
          Ok ("[" ++ String.concat " " ss ++ "]")%string
      | VMap l =>
          ss ← (fix go kvs : res (list string) :=
                  match kvs with
                  | [] => Ok []
                  | (k, v) :: kvs =>
                      x ← Sprintf_v fuel s v; xs ← go kvs; Ok ((k ++ ":" ++ x)%string :: xs)
                  end)
                 (merge_sort (fun a b => Is_true (String.leb (fst a) (fst b)))
                    (map_to_list (default ∅ (maps s !! l))));
          Ok ("map[" ++ String.concat " " ss ++ "]")%string
      end
  end.

Fixpoint mapM_list {A B} (f : A -> M B) (l : list A) : M (list B) :=
  match l with
  | [] => mret []
  | x :: l => y ← f x; ys ← mapM_list f l; mret (y :: ys)
  end.

Definition as_float (j : json) : res spec_float :=
  match j with JNum f => Ok f | _ => Panic end.

(** [handleStoredProcedure]: an unknown procedure or table is skipped, otherwise the row is
    appended to the table's slice. *)
Definition handleStoredProcedure (decode : json -> M val) (referenceName : string)
    (data : list json) : M () :=
  match deps !! referenceName with
  | None => mret ()
  | Some depReference =>
      match table_type depReference LSTable with
      | None => mret ()
      | Some schema =>
          decodedData ← mapM_list decode data;
          row ← lift (makeRow schema decodedData);
          modify (append_row depReference row)
      end
  end.

(** The cases of [Decode], in the source's order; [decode] is the recursive call. *)
Definition op_block (decode : json -> M val) (stepData : list json) : M val :=
  _ ← mapM_list (fun b => match b with JArr _ => decode b | _ => mret VNil end) stepData;
  mret VNil.

Definition op_load (stepData : list json) : M val :=
  k ← lift (index stepData 0);
  match k with
  | JNum key => s ← get; mret (default (VInt 0) (refs s !! f64_to_int key))
  | _ => mret (VInt 0)
  end.

Definition op_store (decode : json -> M val) (stepData : list json) : M val :=
  e ← lift (index stepData 1);
  retVal ← decode e;
  k ← lift (index stepData 0);
  key ← lift (as_float k);
  _ ← modify (set_ref (f64_to_int key) retVal);
  mret VNil.

Definition op_store_array (decode : json -> M val) (s stepData : list json) : M val :=
  k ← lift (index stepData 0);
  match k with
  | JNum key =>
      v ← lift (index stepData 1);
      match v with
      | JNum shouldStore =>
          _ ← modify (set_ref (f64_to_int key) (VInt64 (f64_to_int shouldStore)));
          rest ← lift (slice_from s 2);
          _ ← decode (JArr rest);
          mret VNil
      | _ => halted HExit
      end
  | _ => halted HExit
  end.

Definition op_call (decode : json -> M val) (stepData : list json) : M val :=
  n ← lift (index stepData 0);
  match n with
  | JStr referenceName =>
      args ← lift (slice_from stepData 1);
      _ ← handleStoredProcedure decode referenceName args;
      mret VNil
  | _ => mret VNil
  end.

Definition op_i64_from_string (stepData : list json) : M val :=
  n ← lift (index stepData 0);
  match n with
  | JStr strVal =>
      mret (match ParseInt 10 strVal with (i, None) => VInt64 i | (_, Some _) => VInt 0 end)
  | _ => mret VNil
  end.

Definition op_if (decode : json -> M val) (stepData : list json) : M val :=
  statement ← lift (index stepData 0);
  r ← decode statement;
  match r with
  | VInt64 result =>
      if result >? 0 then
        t ← lift (index stepData 1);
        _ ← decode t;
        mret VNil
      else if llen stepData >=? 3 then
        e ← lift (index stepData 2);
        _ ← match e with JNull => mret VNil | _ => decode e end;
        mret VNil
      else mret VNil
  | _ => mret VNil
  end.

Definition op_not (decode : json -> M val) (stepData : list json) : M val :=
  e ← lift (index stepData 0);
  r ← decode e;
  mret (match r with VInt64 z => VInt64 z | _ => VNil end).

Definition op_map_set (decode : json -> M val) (stepData : list json) : M val :=
  e ← lift (index stepData 0);
  m ← decode e;
  match m with
  | VMap l =>
      ek ← lift (index stepData 1);
      mapKey ← decode ek;
      ev ← lift (index stepData 2);
      mapVal ← decode ev;
      s ← get;
      mapKeyStr ← lift (match mapKey with
                        | VStr k => Ok k
                        | _ => Sprintf_v (S (S (next s))) s mapKey
                        end);
      _ ← modify (fun s => set_map l (<[mapKeyStr := mapVal]> (default ∅ (maps s !! l))) s);
      mret VNil
  | _ => mret VNil
  end.

Definition op_array_append (decode : json -> M val) (stepData : list json) : M val :=
  e ← lift (index stepData 0);
  a ← decode e;
  match a with
  | VSlice l n =>
      ev ← lift (index stepData 1);
      v ← decode ev;
      append_slice l n v
  | _ => mret VNil
  end.

Definition op_array_get_size (decode : json -> M val) (stepData : list json) : M val :=
  e ← lift (index stepData 0);
  a ← decode e;
  mret (match a with VSlice _ n => VInt (Z.of_nat n) | _ => VNil end).

(** [I64_ADD] and [I64_EQUAL]: two operands of type [int64]. *)
Definition op_i64_binary (f : Z -> Z -> val) (decode : json -> M val) (stepData : list json)
    : M val :=
  e1 ← lift (index stepData 0);
  r1 ← decode e1;
  match r1 with
  | VInt64 first =>
      e2 ← lift (index stepData 1);
      r2 ← decode e2;
      mret (match r2 with VInt64 second => f first second | _ => VNil end)
  | _ => mret VNil
  end.

Definition i64_add (a b : Z) : val := VInt64 (int64 (a + b)).
Definition i64_equal (a b : Z) : val := VBool (a =? b).

Definition op_to_blob (stepData : list json) : M val :=
  b ← lift (index stepData 0);
  mret (match b with
        | JStr blobBase64 =>
            match DecodeString StdEncoding blobBase64 with Ok blob => VBytes blob | _ => VNil end
        | _ => VNil
        end).

(** The switch on the step type. *)
Definition step (decode : json -> M val) (s stepData : list json) (stepType : Z) : M val :=
  if stepType =? BLOCK then op_block decode stepData
  else if stepType =? LOAD then op_load stepData
  else if stepType =? STORE then op_store decode stepData
  else if stepType =? STORE_ARRAY then op_store_array decode s stepData
  else if stepType =? CALL_STORED_PROCEDURE then op_call decode stepData
  else if stepType =? UNDEFINED then mret VNil
  else if stepType =? I64_FROM_STRING then op_i64_from_string stepData
  else if stepType =? IF then op_if decode stepData
  else if stepType =? NOT then op_not decode stepData
  else if stepType =? NATIVE_OP_CURRENT_TIME then
    s ← get; _ ← modify tock; mret (VInt64 (now (tick s)))
  else if stepType =? CALL_NATIVE_OPERATION then mret VNil
  else if stepType =? NATIVE_OP_MAP_CREATE then alloc_map ∅
  else if stepType =? NATIVE_OP_MAP_SET then op_map_set decode stepData
  else if stepType =? NATIVE_OP_ARRAY_CREATE then alloc_slice [] 0
  else if stepType =? NATIVE_OP_ARRAY_APPEND then op_array_append decode stepData
  else if stepType =? NATIVE_OP_ARRAY_GET_SIZE then op_array_get_size decode stepData
  else if stepType =? LOGGER_LOG then _ ← lift (index stepData 0); mret VNil
  else if stepType =? I64_ADD then op_i64_binary i64_add decode stepData
  else if stepType =? I64_EQUAL then op_i64_binary i64_equal decode stepData
  else if stepType =? TO_BLOB then op_to_blob stepData
  else mret VNil.

(** [Decode]; the fuel bounds the nesting of calls. *)
Fixpoint Decode (fuel : nat) (data : json) : M val :=
  match fuel with
  | O => halted HDiverge
  | S fuel =>
      match data with
      | JArr s =>
          s0 ← lift (index s 0);
          t ← lift (as_float s0);
          stepData ← lift (slice_from s 1);
          step (Decode fuel) s stepData (f64_to_int t)
      | _ => of_json data
      end
  end.

End Decoder.

(** [NewLightSpeedDecoder] over a pointer to the table. *)
Definition NewLightSpeedDecoder (t : gmap string (list Inst)) : St :=
  mkSt ∅ ∅ ∅ 0%nat t 0%nat.

(** ** What a row may hold *)

(** The values a field of a kind can hold; fields of other kinds stay at their zero value. *)
Definition has_kind (k : Kind) (v : val) : bool :=
  match k, v with
  | KInt64, VInt64 _ | KString, VStr _ | KBool, VBool _ | KInt, VInt _ | KFloat64, VFloat _
  | KInterface, _ => true
  | (KInt64 | KString | KBool | KInt | KFloat64), _ => false
  | _, VNil => true
  | _, _ => false
  end.

Definition row_ok (s : Schema) (r : Inst) : Prop :=
  Forall2 (fun f v => has_kind (fkind f) v = true) (sfields s) (ifields r) /\
  (field_pos "Unrecognized" (sfields s) = None -> unrec r = None).

Lemma assign_has_kind k v : assign k v = Assigned -> has_kind k v = true.
Proof. by destruct k, v. Qed.

Lemma zero_has_kind k : has_kind k (zero_val k) = true.
Proof. by destruct k. Qed.

(** *** The field loop *)

Lemma parseConditionIndex_no_diverge v c h : parseConditionIndex v c = Halt h -> h = HPanic.
Proof.
  unfold parseConditionIndex, index. intros H. apply res_bind_Halt in H as [H|(x & _ & H)].
  - case_match; [|congruence]. case_match; congruence.
  - destruct (Atoi x) as [? [|]]; discriminate.
Qed.

Lemma fieldIndex_no_diverge s f vals h : fieldIndex s f vals = Halt h -> h = HPanic.
Proof.
  unfold fieldIndex. destruct (_ =? "")%string; [done|]. intros H.
  apply res_bind_Halt in H as [H|(b & _ & H)]; [|by eapply parseConditionIndex_no_diverge].
  unfold field_Bool in H. repeat case_match; simplify_eq; done.
Qed.

Lemma index_halt {A} (l : list A) i h : index l i = Halt h -> h = HPanic.
Proof. unfold index. intros. repeat case_match; congruence. Qed.

Lemma index_no_err {A} (l : list A) i e : index l i = Err e -> False.
Proof. unfold index. intros. repeat case_match; congruence. Qed.

(** What the field loop guarantees, whatever the schema. *)
Lemma setFields_typed s fs : forall i vals decoded,
  drop i (sfields s) = fs ->
  Forall2 (fun f v => has_kind (fkind f) v = true) (sfields s) vals ->
  match setFields s fs i vals decoded with
  | Ok (vals', decoded') =>
      Forall2 (fun f v => has_kind (fkind f) v = true) (sfields s) vals' /\
      length decoded' = length decoded
  | Err _ => False
  | Halt h => h = HPanic
  end.
Proof.
  induction fs as [|f fs IH]; intros i vals decoded Hd Hv; [done|].
  assert (drop (S i) (sfields s) = fs) as Hd'.
  { replace (S i) with (i + 1)%nat by lia. by rewrite <- drop_drop, Hd. }
  assert (sfields s !! i = Some f) as Hf.
  { pose proof (lookup_drop (sfields s) i 0) as E. by rewrite Hd, Nat.add_0_r in E. }
  cbn [setFields].
  destruct (fname f =? "Unrecognized")%string; [by apply IH|].
  destruct (fieldIndex s f vals) as [idx|e|h] eqn:E;
    [|by apply IH|by eapply fieldIndex_no_diverge].
  destruct (idx >=? llen decoded); [done|].
  destruct (index decoded idx) as [v| |h] eqn:Ev; cbn [mbind res_bind];
    [|by eapply index_no_err|by eapply index_halt].
  destruct (is_nil v); [by apply IH|].
  destruct (assign (fkind f) v) eqn:Ea; [|by apply IH|].
  - specialize (IH (S i) (<[i:=v]> vals) (<[Z.to_nat idx:=VNil]> decoded) Hd').
    rewrite length_insert in IH. apply IH.
    rewrite <- (list_insert_id _ _ _ Hf). apply Forall2_insert; [done|by apply assign_has_kind].
  - specialize (IH (S i) vals (<[Z.to_nat idx:=VNil]> decoded) Hd').
    rewrite length_insert in IH. by apply IH.
Qed.

Lemma makeRow_ok s decoded :
  match makeRow s decoded with
  | Ok r => row_ok s r
  | Err _ => False
  | Halt h => h = HPanic
  end.
Proof.
  unfold makeRow.
  pose proof (setFields_typed s (sfields s) 0 (ifields (reflect_New s)) decoded eq_refl) as H.
  destruct (setFields _ _ _ _ _) as [[vals d]| |h]; cbn [mbind res_bind] in *.
  - assert (Forall2 (fun f v => has_kind (fkind f) v = true) (sfields s)
              (ifields (reflect_New s))) as H0.
    { cbn. apply Forall2_fmap_r, Forall_Forall2_diag, Forall_true. intros. apply zero_has_kind. }
    apply H in H0 as [H0 _]. split; [done|]. cbn. by intros ->.
  - apply H. cbn. apply Forall2_fmap_r, Forall_Forall2_diag, Forall_true. intros.
    apply zero_has_kind.
  - apply H. cbn. apply Forall2_fmap_r, Forall_Forall2_diag, Forall_true. intros.
    apply zero_has_kind.
Qed.

(** ** The decoder as a step relation *)

(** Everything the decoder does to its state is a sequence of these steps. *)
Inductive prim (LSTable : list (string * Schema)) : St -> St -> Prop :=
| prim_ref k v s : prim LSTable s (set_ref k v s)
| prim_map l m s : prim LSTable s (set_map l m s)
| prim_arr l a s : prim LSTable s (set_arr l a s)
| prim_bump s : prim LSTable s (bump s)
| prim_tock s : prim LSTable s (tock s)
| prim_row f sch r s : table_type f LSTable = Some sch -> row_ok sch r ->
    prim LSTable s (append_row f r s).

Create HintDb lightspeed.
#[export] Hint Constructors prim : lightspeed.

(** [runs m]: [m] takes such steps, never fails with an error and never diverges. *)
Definition runs {A} (T : list (string * Schema)) (m : M A) : Prop :=
  forall s, match m s with
            | Ok (_, s') => rtc (prim T) s s'
            | Err _ => False
            | Halt h => h <> HDiverge
            end.

Section Runs.
Context (deps : gmap string string) (T : list (string * Schema)).
Context (now : nat -> Z) (slack : nat -> nat) (fmt_float : spec_float -> string).

Lemma runs_ret {A} (a : A) : runs T (mret a).
Proof. intros s. apply rtc_refl. Qed.

Lemma runs_bind {A B} (m : M A) (f : A -> M B) :
  runs T m -> (forall a, runs T (f a)) -> runs T (m ≫= f).
Proof.
  intros Hm Hf s. unfold mbind, M_bind. specialize (Hm s).
  destruct (m s) as [[a s1]| |]; [|done..]. specialize (Hf a s1).
  destruct (f a s1) as [[b s2]| |]; [|done..]. by etrans.
Qed.

Lemma runs_lift {A} (r : res A) : (forall e, r <> Err e) -> r <> Halt HDiverge ->
  runs T (lift r).
Proof. intros He Hd s. destruct r; cbn; [done|by eapply He|congruence]. Qed.

Lemma runs_index {A} (l : list A) i : runs T (lift (index l i)).
Proof. apply runs_lift; unfold index; intros; repeat case_match; congruence. Qed.

Lemma runs_slice_from {A} (l : list A) i : runs T (lift (slice_from l i)).
Proof. apply runs_lift; unfold slice_from, slice; intros; repeat case_match; congruence. Qed.

Lemma runs_as_float j : runs T (lift (as_float j)).
Proof. by apply runs_lift; destruct j. Qed.

Lemma runs_makeRow sch decoded f : table_type f T = Some sch ->
  runs T (row ← lift (makeRow sch decoded); modify (append_row f row)).
Proof.
  intros Ht s. pose proof (makeRow_ok sch decoded) as H. unfold mbind, M_bind, lift.
  destruct (makeRow sch decoded) as [r| |h]; [|done|by subst].
  apply rtc_once. by eapply prim_row.
Qed.

Lemma runs_modify f : (forall s, prim T s (f s)) -> runs T (modify f).
Proof. intros H s. by apply rtc_once. Qed.

Lemma runs_get : runs T get.
Proof. intros s. apply rtc_refl. Qed.

Lemma runs_halted {A} h : h <> HDiverge -> runs T (halted h : M A).
Proof. intros H s. done. Qed.

Lemma runs_alloc_map m : runs T (alloc_map m).
Proof. intros s. cbn. eauto using rtc_l, rtc_refl with lightspeed. Qed.

Lemma runs_alloc_slice l n : runs T (alloc_slice l n).
Proof. intros s. cbn. eauto using rtc_l, rtc_refl with lightspeed. Qed.

Lemma runs_append_slice l n v : runs T (append_slice slack l n v).
Proof.
  intros s. unfold append_slice. destruct (_ <? _)%nat; [|apply runs_alloc_slice].
  apply rtc_once. constructor.
Qed.

Lemma runs_mapM_list {A B} (f : A -> M B) l : (forall x, x ∈ l -> runs T (f x)) ->
  runs T (mapM_list f l).
Proof.
  induction l as [|x l IH]; intros H; [apply runs_ret|]. cbn.
  apply runs_bind; [apply H; left|]. intros y.
  apply runs_bind; [apply IH; intros; apply H; by right|]. intros. apply runs_ret.
Qed.

Lemma Sprintf_v_exit fuel s : forall v,
  match Sprintf_v fmt_float fuel s v with
  | Ok _ => True | Err _ => False | Halt h => h = HExit end.
Proof.
  induction fuel as [|fuel IH]; intros v; [done|]. destruct v; try done; cbn [Sprintf_v].
  - set (kvs := merge_sort _ _). clearbody kvs.
    match goal with |- context [?F kvs] => is_fix F; set (go := F) end.
    enough (match go kvs with Ok _ => True | Err _ => False | Halt h => h = HExit end) as H
      by (by destruct (go kvs)).
    induction kvs as [|[k v] kvs IH']; [done|]. cbn. specialize (IH v).
    destruct (Sprintf_v _ _ _ v); cbn; try done. by destruct (go kvs).
  - set (vs := take _ _). clearbody vs.
    match goal with |- context [?F vs] => is_fix F; set (go := F) end.
    enough (match go vs with Ok _ => True | Err _ => False | Halt h => h = HExit end) as H
      by (by destruct (go vs)).
    induction vs as [|v vs IH']; [done|]. cbn. specialize (IH v).
    destruct (Sprintf_v _ _ _ v); cbn; try done. by destruct (go vs).
Qed.

Lemma runs_sub {A B} (l : list A) i (f : A -> M B) :
  (forall x, x ∈ l -> runs T (f x)) -> runs T (x ← lift (index l i); f x).
Proof.
  intros H s. pose proof (runs_index l i s) as Hi. unfold mbind, M_bind, lift, index in *.
  destruct (0 <=? i); [|done]. destruct (l !! Z.to_nat i) as [x|] eqn:E; [|done].
  apply (H x). by eapply list_elem_of_lookup_2.
Qed.

Lemma runs_slice {A B} (l : list A) i (f : list A -> M B) :
  (forall r, slice_from l i = Ok r -> runs T (f r)) -> runs T (r ← lift (slice_from l i); f r).
Proof.
  intros H s. pose proof (runs_slice_from l i s) as Hi. unfold mbind, M_bind, lift in *.
  destruct (slice_from l i) as [r| |]; [|done..]. by apply H.
Qed.

Lemma slice_from_elem {A} (l r : list A) i x : slice_from l i = Ok r -> x ∈ r -> x ∈ l.
Proof.
  unfold slice_from, slice. intros E Hx. destruct (_ && _); [|done]. injection E as <-.
  apply list_elem_of_lookup in Hx as [k Hk]. apply lookup_take_Some in Hk as [Hk _].
  rewrite lookup_drop in Hk. by eapply list_elem_of_lookup_2.
Qed.

#[local] Hint Resolve runs_ret runs_get runs_halted runs_index runs_slice_from runs_as_float
  runs_alloc_map runs_alloc_slice runs_append_slice runs_modify : lightspeed.

(** One step of the proof that an operation runs. *)
Ltac run1 :=
  lazymatch goal with
  | |- forall _, runs _ _ => intros
  | |- runs _ (lift (slice_from _ _) ≫= _) => apply runs_slice; intros
  | |- runs _ (_ ≫= _) => apply runs_bind; [|intros]
  | |- runs _ (match ?x with _ => _ end) => destruct x
  | |- runs _ (modify _) => apply runs_modify; intros; constructor
  | |- runs _ (halted _) => apply runs_halted; congruence
  | |- runs _ _ => eauto with lightspeed
  end.
Ltac run := repeat run1.

Section Ops.
Context (decode : json -> M val) (s stepData : list json).
Hypothesis Hdec : forall j, j ∈ stepData -> runs T (decode j).

Lemma runs_args args : (forall j, j ∈ args -> j ∈ stepData) -> runs T (mapM_list decode args).
Proof. intros H. apply runs_mapM_list. auto. Qed.

Lemma runs_handleStoredProcedure name args : (forall j, j ∈ args -> j ∈ stepData) ->
  runs T (handleStoredProcedure deps T decode name args).
Proof.
  intros H. unfold handleStoredProcedure. destruct (deps !! name) as [dep|]; [|run].
  destruct (table_type dep T) as [sch|] eqn:E; [|run].
  apply runs_bind; [by apply runs_args|]. intros. by apply runs_makeRow.
Qed.

Lemma runs_block : runs T (op_block decode stepData).
Proof.
  unfold op_block. apply runs_bind; [|run]. apply runs_mapM_list.
  intros [] Hx; run; auto.
Qed.

Lemma runs_load : runs T (op_load stepData).
Proof. unfold op_load. run. Qed.

Lemma runs_store : runs T (op_store decode stepData).
Proof. unfold op_store. apply runs_sub. intros. run; auto. Qed.

Lemma runs_store_array : (forall rest, slice_from s 2 = Ok rest -> runs T (decode (JArr rest))) ->
  runs T (op_store_array decode s stepData).
Proof.
  intros H. unfold op_store_array. run; auto.
Qed.

Lemma runs_call : runs T (op_call deps T decode stepData).
Proof.
  unfold op_call. run. apply runs_handleStoredProcedure. intros j Hj.
  by eapply slice_from_elem.
Qed.

Lemma runs_if : runs T (op_if decode stepData).
Proof.
  unfold op_if. apply runs_sub. intros e He. apply runs_bind; [auto|]. intros r.
  destruct r; try (run; done). destruct (z >? 0).
  - apply runs_sub. intros. run; auto.
  - destruct (_ >=? _); [|run]. apply runs_sub. intros x Hx.
    apply runs_bind; [destruct x; auto; run|run].
Qed.

Lemma runs_not : runs T (op_not decode stepData).
Proof. unfold op_not. apply runs_sub. intros. run; auto. Qed.

Lemma runs_map_set : runs T (op_map_set fmt_float decode stepData).
Proof.
  unfold op_map_set. apply runs_sub. intros e He. apply runs_bind; [auto|]. intros m.
  destruct m; try (run; done). apply runs_sub. intros ek Hk.
  apply runs_bind; [auto|]. intros mapKey. apply runs_sub. intros ev Hv.
  apply runs_bind; [auto|]. intros mapVal. apply runs_bind; [run|]. intros st.
  apply runs_bind.
  - apply runs_lift; destruct mapKey; try done; intros;
      match goal with |- Sprintf_v ?f ?n ?s ?v <> _ =>
        pose proof (Sprintf_v_exit n s v) as H; destruct (Sprintf_v f n s v) end; congruence.
  - intros. run.
Qed.

Lemma runs_array_append : runs T (op_array_append slack decode stepData).
Proof.
  unfold op_array_append. apply runs_sub. intros e He. apply runs_bind; [auto|]. intros a.
  destruct a; try (run; done). apply runs_sub. intros x Hx. run; auto with lightspeed.
Qed.

Lemma runs_array_get_size : runs T (op_array_get_size decode stepData).
Proof. unfold op_array_get_size. apply runs_sub. intros. run; auto. Qed.

Lemma runs_i64_binary f : runs T (op_i64_binary f decode stepData).
Proof.
  unfold op_i64_binary. apply runs_sub. intros e He. apply runs_bind; [auto|]. intros a.
  destruct a; try (run; done). apply runs_sub. intros x Hx. run; auto.
Qed.

Lemma runs_to_blob : runs T (op_to_blob stepData).
Proof. unfold op_to_blob. run. Qed.

Lemma runs_i64_from_string : runs T (op_i64_from_string stepData).
Proof. unfold op_i64_from_string. run. Qed.

Lemma runs_step t : (forall rest, slice_from s 2 = Ok rest -> runs T (decode (JArr rest))) ->
  runs T (step deps T now slack fmt_float decode s stepData t).
Proof.
  intros H. unfold step. run;
    auto using runs_block, runs_load, runs_store, runs_store_array, runs_call, runs_if,
      runs_not, runs_map_set, runs_array_append, runs_array_get_size, runs_i64_binary,
      runs_to_blob, runs_i64_from_string.
Qed.
End Ops.
End Runs.

(** ** Totality *)

(** The size of a program; the code below a JSON object is never interpreted. *)
Fixpoint jsize (j : json) : nat :=
  match j with
  | JArr l => S (fold_right (fun x n => jsize x + n)%nat 0%nat l)
  | _ => 1%nat
  end.

Lemma jsize_elem l x : x ∈ l -> (jsize x < jsize (JArr l))%nat.
Proof.
  cbn. induction 1 as [x l|x y l _ IH]; cbn; [lia|]. lia.
Qed.

Lemma jsize_drop n l : (jsize (JArr (drop n l)) <= jsize (JArr l))%nat.
Proof. revert l. induction n; intros [|x l]; cbn in *; try lia. specialize (IHn l). lia. Qed.

Lemma jsize_pos j : (0 < jsize j)%nat.
Proof. destruct j; cbn; lia. Qed.

Section Total.
Context (deps : gmap string string) (T : list (string * Schema)).
Context (now : nat -> Z) (slack : nat -> nat) (fmt_float : spec_float -> string).

(** [of_json] only allocates; induction over the nested lists by size of the document. *)
Fixpoint json_depth (j : json) : nat :=
  match j with
  | JArr l => S (fold_right (fun x n => Nat.max (json_depth x) n) 0%nat l)
  | JObj m => S (fold_right (fun x n => Nat.max (json_depth (snd x)) n) 0%nat m)
  | _ => 0%nat
  end.

Lemma runs_of_json_depth n : forall j, (json_depth j <= n)%nat -> runs T (of_json j).
Proof.
  induction n as [|n IH]; intros [] Hn; cbn in Hn; try lia; try apply runs_ret.
  - cbn [of_json]. apply runs_bind; [|intros; apply runs_alloc_slice].
    induction l as [|x l IHl]; [apply runs_ret|]. cbn in Hn.
    apply runs_bind; [apply IH; lia|]. intros v.
    apply runs_bind; [apply IHl; lia|]. intros. apply runs_ret.
  - cbn [of_json]. apply runs_bind; [|intros; apply runs_alloc_map].
    induction m as [|[k x] m IHm]; [apply runs_ret|]. cbn in Hn.
    apply runs_bind; [apply IH; lia|]. intros v.
    apply runs_bind; [apply IHm; lia|]. intros. apply runs_ret.
Qed.

Lemma runs_of_json j : runs T (of_json j).
Proof. by eapply runs_of_json_depth. Qed.

Lemma Decode_runs fuel : forall data, (jsize data <= fuel)%nat ->
  runs T (Decode deps T now slack fmt_float fuel data).
Proof.
  induction fuel as [|fuel IH]; intros data Hf; [pose proof (jsize_pos data); lia|].
  cbn [Decode]. destruct data as [| | | |s|]; try apply runs_of_json.
  apply runs_bind; [apply runs_index|]. intros s0.
  apply runs_bind; [apply runs_as_float|]. intros t.
  apply runs_slice. intros stepData Hs. apply runs_step.
  - intros j Hj. apply IH. apply (slice_from_elem _ _ _ _ Hs), jsize_elem in Hj. lia.
  - intros rest Hr. apply IH. unfold slice_from, slice in Hr. case_match eqn:Hc; [|done].
    injection Hr as <-. rewrite take_ge by (rewrite length_drop; lia).
    destruct s as [|a [|b s]]; try (cbn in Hc; discriminate Hc).
    change (drop (Z.to_nat 2) (a :: b :: s)) with s.
    pose proof (jsize_pos a). cbn in Hf |- *. lia.
Qed.
End Total.

(** ** Properties *)

(** C15. Interpreting a program terminates: with fuel for its size the decoder never runs
    out of it, whatever the dependency map and table types; and it never returns an error. *)
Theorem decode_total deps T now slack fmt_float data s :
  match Decode deps T now slack fmt_float (jsize data) data s with
  | Ok _ => True
  | Err _ => False
  | Halt h => h = HPanic \/ h = HExit
  end.
Proof.
  pose proof (Decode_runs deps T now slack fmt_float (jsize data) data (le_n _) s) as H.
  destruct (Decode _ _ _ _ _ _ _ s) as [[]| |[]]; naive_solver.
Qed.

(** The tables are typed: every row of a table has that table's row type. *)
Definition table_ok (T : list (string * Schema)) (t : gmap string (list Inst)) : Prop :=
  forall f rows, t !! f = Some rows -> exists sch, table_type f T = Some sch /\ Forall (row_ok sch) rows.

Lemma prim_table_ok T s s' : prim T s s' -> table_ok T (table s) -> table_ok T (table s').
Proof.
  destruct 1 as [| | | | |f sch r s Ht Hrow]; intros H; try done.
  intros g rows. unfold append_row. cbn.
  destruct (decide (f = g)) as [->|Hne].
  - rewrite lookup_insert_eq. intros [= <-]. exists sch. split; [done|].
    apply Forall_app. split; [|by constructor].
    destruct (table s !! g) as [old|] eqn:E; [|constructor].
    destruct (H _ _ E) as (sch' & Hs & Hr). by simplify_eq.
  - rewrite lookup_insert_ne by done. apply H.
Qed.

(** Reflection never breaks typing: whatever program is run, every row in the tables
    holds, field by field, a value of the field's declared kind, and an [Unrecognized] map
    only where the struct has that field. *)
Theorem decode_keeps_tables_typed deps T now slack fmt_float fuel data s v s'
    (Hfuel : (jsize data <= fuel)%nat)
    (Hrun : Decode deps T now slack fmt_float fuel data s = Ok (v, s'))
    (Hok : table_ok T (table s)) :
  table_ok T (table s').
Proof.
  pose proof (Decode_runs deps T now slack fmt_float fuel data Hfuel s) as H.
  rewrite Hrun in H. clear Hrun Hfuel. induction H; eauto using prim_table_ok.
Qed.

Lemma prim_table_grows T s s' : prim T s s' ->
  forall f, default [] (table s !! f) `prefix_of` default [] (table s' !! f).
Proof.
  destruct 1 as [| | | | |f sch r s Ht Hrow]; intros g; try done. cbn. destruct (decide (f = g)) as [->|Hne].
  - rewrite lookup_insert_eq. cbn. by eexists.
  - by rewrite lookup_insert_ne.
Qed.

(** Rows are only ever appended: a program extends every table and neither drops, edits
    nor reorders a row that is already there (the rows of an [LSTable] are in program order). *)
Theorem decode_only_appends deps T now slack fmt_float fuel data s v s' f
    (Hfuel : (jsize data <= fuel)%nat)
    (Hrun : Decode deps T now slack fmt_float fuel data s = Ok (v, s')) :
  default [] (table s !! f) `prefix_of` default [] (table s' !! f).
Proof.
  pose proof (Decode_runs deps T now slack fmt_float fuel data Hfuel s) as H.
  rewrite Hrun in H. clear Hrun Hfuel. induction H; [done|].
  etrans; [by eapply prim_table_grows|done].
Qed.

(** ** Rows from arguments *)

(** The kinds the decoder can set. *)
Definition settable (k : Kind) : bool :=
  match k with
  | KInt64 | KString | KBool | KInt | KFloat64 | KInterface => true
  | _ => false
  end.

Definition is_unrecognized (f : Field) : bool := (fname f =? "Unrecognized")%string.

(** A struct tag the decoder can use: an index that is a number, or a condition on a [bool]
    field of the struct with two choices that are numbers. *)
Definition choice_ok (c : string) : bool :=
  match Atoi c with (i, None) => 0 <=? i | _ => false end.

Definition tags_ok (s : Schema) (f : Field) : bool :=
  let c := tag_get "conditionField" (ftags f) in
  if (c =? "")%string then choice_ok (tag_get "index" (ftags f))
  else
    match field_pos c (sfields s) with
    | Some i =>
        match fkind <$> sfields s !! i with
        | Some KBool =>
            match Split "," (tag_get "indexes" (ftags f)) with
            | [a; b] => choice_ok a && choice_ok b
            | _ => false
            end
        | _ => false
        end
    | None => false
    end.

(** A row type the decoder handles: every field can be set and its tags can be used. *)
Definition schema_ok (s : Schema) : bool :=
  forallb (fun f => is_unrecognized f || (settable (fkind f) && tags_ok s f)) (sfields s).

Lemma schema_ok_field s i f : schema_ok s = true -> sfields s !! i = Some f ->
  is_unrecognized f = false -> settable (fkind f) = true /\ tags_ok s f = true.
Proof.
  unfold schema_ok. rewrite forallb_forall. intros H Hi Hu.
  specialize (H f). rewrite Hu in H. cbn in H.
  rewrite andb_true_iff in H. apply H. apply list_elem_of_In. by eapply list_elem_of_lookup_2.
Qed.

Lemma choice_ok_Atoi c : choice_ok c = true -> exists i, Atoi c = (i, None) /\ 0 <= i.
Proof.
  unfold choice_ok. destruct (Atoi c) as [i [|]]; [done|]. intros H%Z.leb_le. by exists i.
Qed.

Lemma field_Bool_typed s n vals i :
  Forall2 (fun f v => has_kind (fkind f) v = true) (sfields s) vals ->
  field_pos n (sfields s) = Some i -> fkind <$> sfields s !! i = Some KBool ->
  exists b, field_Bool s n vals = Ok b.
Proof.
  intros Hv Hp Hk. unfold field_Bool. rewrite Hp, Hk.
  destruct (sfields s !! i) as [f|] eqn:Ef; [|done]. cbn in Hk. injection Hk as Hk.
  destruct (Forall2_lookup_l _ _ _ _ _ Hv Ef) as (v & Ev & Hkv). rewrite Ev.
  rewrite Hk in Hkv. destruct v; try done. by exists b.
Qed.

Lemma fieldIndex_ok s f vals :
  Forall2 (fun f v => has_kind (fkind f) v = true) (sfields s) vals ->
  tags_ok s f = true -> exists i, fieldIndex s f vals = Ok i /\ 0 <= i.
Proof.
  intros Hv Ht. unfold tags_ok in Ht. unfold fieldIndex.
  destruct (tag_get "conditionField" (ftags f) =? "")%string.
  - apply choice_ok_Atoi in Ht as (i & -> & Hi). by exists i.
  - destruct (field_pos _ _) as [k|] eqn:Ep; [|done].
    destruct (fkind <$> sfields s !! k) as [[]|] eqn:Ek; try done.
    destruct (field_Bool_typed s _ vals k Hv Ep Ek) as [b ->]. cbn [mbind res_bind].
    unfold parseConditionIndex.
    destruct (Split "," _) as [|x [|y [|]]]; try done.
    apply andb_true_iff in Ht as [(i & Hx & Hi)%choice_ok_Atoi (j & Hy & Hj)%choice_ok_Atoi].
    destruct b; [exists i|exists j]; (split; [|done]).
    + change (index [x; y] 0) with (Ok x). cbn [mbind res_bind]. by rewrite Hx.
    + change (index [x; y] 1) with (Ok y). cbn [mbind res_bind]. by rewrite Hy.
Qed.

(** What the field loop does for such a type: it comes back; every argument that is not nil
    stays where it was or is the value of a field the loop has set; fields before the loop's
    position keep their value. *)
Definition kept (i : nat) (vals decoded vals' decoded' : list val) : Prop :=
  length vals' = length vals /\
  (forall j, (j < i)%nat -> vals' !! j = vals !! j) /\
  (forall k v, decoded !! k = Some v -> v <> VNil ->
     decoded' !! k = Some v \/ exists j, (i <= j)%nat /\ vals' !! j = Some v).

Lemma kept_skip i vals decoded vals' decoded' :
  kept (S i) vals decoded vals' decoded' -> kept i vals decoded vals' decoded'.
Proof.
  intros (Hl & Hb & Hk). split_and!; [done|intros; apply Hb; lia|].
  intros k v E Hv. destruct (Hk k v E Hv) as [|(j & ? & ?)]; [by left|].
  right. exists j. split; [lia|done].
Qed.

Lemma kept_refl i vals decoded : kept i vals decoded vals decoded.
Proof. split_and!; auto. Qed.

Lemma kept_set i k v vals decoded vals' decoded' : (i < length vals)%nat ->
  decoded !! k = Some v ->
  kept (S i) (<[i:=v]> vals) (<[k:=VNil]> decoded) vals' decoded' ->
  kept i vals decoded vals' decoded'.
Proof.
  intros Hi Ek (Hl & Hb & Hk). split_and!.
  - by rewrite Hl, length_insert.
  - intros j Hj. rewrite Hb, list_lookup_insert_ne by lia. done.
  - intros k' v' E Hv. destruct (decide (k = k')) as [->|Hne].
    + right. exists i. split; [lia|]. rewrite Hb, list_lookup_insert_eq by lia. congruence.
    + destruct (Hk k' v') as [|(j & ? & ?)]; [by rewrite list_lookup_insert_ne|done|by left|].
      right. exists j. split; [lia|done].
Qed.

Lemma settable_assign k v : settable k = true -> assign k v <> UnknownKind.
Proof. by destruct k, v. Qed.

Lemma setFields_total s fs : forall i vals decoded, schema_ok s = true ->
  drop i (sfields s) = fs ->
  Forall2 (fun f v => has_kind (fkind f) v = true) (sfields s) vals ->
  exists vals' decoded', setFields s fs i vals decoded = Ok (vals', decoded') /\
    kept i vals decoded vals' decoded'.
Proof.
  induction fs as [|f fs IH]; intros i vals decoded Hs Hd Hv.
  { do 2 eexists. split; [done|]. apply kept_refl. }
  assert (drop (S i) (sfields s) = fs) as Hd'.
  { replace (S i) with (i + 1)%nat by lia. by rewrite <- drop_drop, Hd. }
  assert (sfields s !! i = Some f) as Hf.
  { pose proof (lookup_drop (sfields s) i 0) as E. by rewrite Hd, Nat.add_0_r in E. }
  assert (i < length vals)%nat as Hi.
  { rewrite <- (Forall2_length _ _ _ Hv). by eapply lookup_lt_Some. }
  assert (forall vals1 decoded1, Forall2 (fun f v => has_kind (fkind f) v = true) (sfields s) vals1 ->
    exists vals' decoded', setFields s fs (S i) vals1 decoded1 = Ok (vals', decoded') /\
      kept (S i) vals1 decoded1 vals' decoded') as IH' by eauto.
  assert (exists vals' decoded', setFields s fs (S i) vals decoded = Ok (vals', decoded') /\
      kept i vals decoded vals' decoded') as Hskip.
  { destruct (IH' vals decoded Hv) as (? & ? & ? & ?). eauto using kept_skip. }
  cbn [setFields]. destruct (fname f =? "Unrecognized")%string eqn:Hu; [done|].
  destruct (schema_ok_field s i f Hs Hf Hu) as [Hset Htags].
  destruct (fieldIndex_ok s f vals Hv Htags) as (idx & -> & Hidx).
  destruct (idx >=? llen decoded) eqn:Eb; [do 2 eexists; split; [done|apply kept_refl]|].
  rewrite Z.geb_leb, Z.leb_gt in Eb.
  destruct (lookup_lt_is_Some_2 decoded (Z.to_nat idx)) as [v Ev]; [lia|].
  rewrite (index_ok _ _ _ Ev) by done. cbn [mbind res_bind].
  destruct (is_nil v); [done|]. destruct (assign (fkind f) v) eqn:Ea; [|done|].
  - destruct (IH' (<[i:=v]> vals) (<[Z.to_nat idx:=VNil]> decoded)) as (vals' & d' & E & Hk).
    { rewrite <- (list_insert_id _ _ _ Hf). apply Forall2_insert; [done|by apply assign_has_kind]. }
    do 2 eexists. split; [done|]. by eapply kept_set.
  - by apply (settable_assign _ v) in Hset.
Qed.

Lemma reflect_New_typed s :
  Forall2 (fun f v => has_kind (fkind f) v = true) (sfields s) (ifields (reflect_New s)).
Proof.
  cbn. apply Forall2_fmap_r, Forall_Forall2_diag, Forall_true. intros. apply zero_has_kind.
Qed.

Lemma collectUnrecognized_lookup decoded : forall i u k v,
  decoded !! k = Some v -> v <> VNil ->
  exists m, collectUnrecognized i decoded u = Some m /\ m !! (i + Z.of_nat k) = Some v.
Proof.
  assert (forall decoded i m, exists m', collectUnrecognized i decoded (Some m) = Some m' /\
    forall j, j < i -> m' !! j = m !! j) as Hlow.
  { clear. induction decoded as [|x d IH]; intros i m; [by exists m|]. cbn.
    destruct (is_nil x).
    - destruct (IH (i + 1) m) as (m' & E & Hm). exists m'. split; [done|].
      intros. apply Hm. lia.
    - destruct (IH (i + 1) (<[i:=x]> m)) as (m' & E & Hm). exists m'. split; [done|].
      intros j Hj. rewrite Hm, lookup_insert_ne by lia. done. }
  induction decoded as [|x d IH]; intros i u k v Hk Hv; [done|]. cbn.
  destruct k as [|k]; cbn in Hk.
  - injection Hk as ->. replace (is_nil v) with false by (by destruct v).
    destruct (Hlow d (i + 1) (<[i:=v]> (default ∅ u))) as (m' & E & Hm).
    exists m'. split; [done|]. rewrite Z.add_0_r, Hm by lia. apply lookup_insert_eq.
  - replace (i + Z.of_nat (S k)) with (i + 1 + Z.of_nat k) by lia. by apply IH.
Qed.

(** Each argument that is not nil is the value of some field of the row or is found in the
    [Unrecognized] map under its own position. *)
Lemma makeRow_keeps_arguments s decoded
    (Hs : schema_ok s = true) (Hu : field_pos "Unrecognized" (sfields s) <> None) :
  exists r, makeRow s decoded = Ok r /\
    forall k v, decoded !! k = Some v -> v <> VNil ->
      (exists j, ifields r !! j = Some v) \/
      (exists m, unrec r = Some m /\ m !! Z.of_nat k = Some v).
Proof.
  destruct (setFields_total s (sfields s) 0 (ifields (reflect_New s)) decoded Hs eq_refl
    (reflect_New_typed s)) as (vals & left_over & E & _ & _ & Hk).
  unfold makeRow. rewrite E. cbn [mbind res_bind]. eexists. split; [done|]. cbn.
  intros k v Hd Hv. destruct (Hk k v Hd Hv) as [Hl|(j & _ & Hj)]; [right|left; eauto].
  destruct (field_pos _ _); [|done]. by apply (collectUnrecognized_lookup left_over 0 None).
Qed.

(** *** Plain row types: the argument of each field is fixed by its tag *)

Definition field_index (f : Field) : Z := fst (Atoi (tag_get "index" (ftags f))).

Definition plain (s : Schema) : bool :=
  forallb (fun f => is_unrecognized f ||
             (tag_get "conditionField" (ftags f) =? "")%string) (sfields s).

(** The indexes of the fields, in order. *)
Definition indexes_of (fs : list Field) : list Z :=
  field_index <$> filter (fun f => is_unrecognized f = false) fs.

(** The value a field gets from the arguments. *)
Definition argument_of (decoded : list val) (f : Field) : val :=
  if is_unrecognized f then zero_val (fkind f)
  else match decoded !! Z.to_nat (field_index f) with
       | Some v =>
           if is_nil v then zero_val (fkind f)
           else match assign (fkind f) v with Assigned => v | _ => zero_val (fkind f) end
       | None => zero_val (fkind f)
       end.

Lemma argument_of_ext d d' f :
  (is_unrecognized f = false -> d' !! Z.to_nat (field_index f) = d !! Z.to_nat (field_index f)) ->
  argument_of d' f = argument_of d f.
Proof. unfold argument_of. destruct (is_unrecognized f); [done|]. by intros ->. Qed.

Lemma setFields_plain s fs : forall i vals decoded,
  schema_ok s = true -> plain s = true -> drop i (sfields s) = fs ->
  NoDup (indexes_of fs) -> Forall (fun x => 0 <= x < llen decoded) (indexes_of fs) ->
  drop i vals = zero_val ∘ fkind <$> fs ->
  exists d, setFields s fs i vals decoded = Ok (take i vals ++ (argument_of decoded <$> fs), d).
Proof.
  induction fs as [|f fs IH]; intros i vals decoded Hs Hp Hd Hn Hr Hz.
  { eexists. cbn. f_equal. f_equal. rewrite app_nil_r. symmetry. apply take_ge.
    apply (f_equal length) in Hz. rewrite length_drop in Hz. cbn in Hz. lia. }
  assert (drop (S i) (sfields s) = fs) as Hd'.
  { replace (S i) with (i + 1)%nat by lia. by rewrite <- drop_drop, Hd. }
  assert (sfields s !! i = Some f) as Hf.
  { pose proof (lookup_drop (sfields s) i 0) as E. by rewrite Hd, Nat.add_0_r in E. }
  assert (vals !! i = Some (zero_val (fkind f)) /\ drop (S i) vals = zero_val ∘ fkind <$> fs)
    as [Hvi Hz'].
  { split.
    - pose proof (lookup_drop vals i 0) as E. by rewrite Hz, Nat.add_0_r in E.
    - replace (S i) with (i + 1)%nat by lia. by rewrite <- drop_drop, Hz. }
  assert (forall v, take (S i) (<[i:=v]> vals) = take i vals ++ [v]) as Htake.
  { intros v. erewrite take_S_r; [by rewrite take_insert_ge by lia|].
    apply list_lookup_insert_eq. by eapply lookup_lt_Some. }
  assert (take (S i) vals = take i vals ++ [zero_val (fkind f)]) as Htake0
    by (by apply take_S_r).
  cbn [setFields fmap list_fmap]. unfold argument_of at 1. unfold indexes_of in Hn, Hr.
  rewrite filter_cons in Hn, Hr.
  change (fname f =? "Unrecognized")%string with (is_unrecognized f).
  destruct (is_unrecognized f) eqn:Hu.
  { rewrite decide_False in Hn, Hr by done.
    destruct (IH (S i) vals decoded) as [d ->]; try done. exists d.
    rewrite Htake0, <- app_assoc. done. }
  rewrite decide_True in Hn, Hr by done. cbn [fmap list_fmap] in Hn, Hr.
  apply NoDup_cons in Hn as [Hnin Hn]. apply Forall_cons in Hr as [Hri Hr].
  assert (fieldIndex s f vals = Ok (field_index f)) as ->.
  { unfold plain in Hp. rewrite forallb_forall in Hp. specialize (Hp f).
    unfold fieldIndex. rewrite Hu in Hp. cbn in Hp. rewrite Hp; [done|].
    apply list_elem_of_In. by eapply list_elem_of_lookup_2. }
  rewrite Z.geb_leb. replace (llen decoded <=? field_index f) with false
    by (symmetry; apply Z.leb_gt; lia).
  destruct (lookup_lt_is_Some_2 decoded (Z.to_nat (field_index f))) as [v Ev]; [lia|].
  rewrite (index_ok _ _ _ Ev) by lia. cbn [mbind res_bind]. rewrite Ev.
  assert (exists d, setFields s fs (S i) vals decoded =
    Ok (take i vals ++ zero_val (fkind f) :: (argument_of decoded <$> fs), d)) as Hskip.
  { destruct (IH (S i) vals decoded) as [d ->]; try done. exists d.
    by rewrite Htake0, <- app_assoc. }
  destruct (is_nil v); [done|].
  destruct (schema_ok_field s i f Hs Hf Hu) as [Hset _].
  destruct (assign (fkind f) v) eqn:Ea; [|done|by apply (settable_assign _ v) in Hset].
  destruct (IH (S i) (<[i:=v]> vals) (<[Z.to_nat (field_index f):=VNil]> decoded)) as [d ->];
    try done.
  { by rewrite length_insert. }
  { rewrite drop_insert_lt by lia. done. }
  exists d. rewrite Htake, <- app_assoc. f_equal. f_equal. f_equal. cbn. f_equal.
  apply list_fmap_ext. intros k g Hg. apply argument_of_ext. intros Hgu.
  apply list_lookup_insert_ne. intros E. apply Hnin.
  assert (field_index g ∈ field_index <$> filter (fun f => is_unrecognized f = false) fs) as Hin.
  { apply list_elem_of_fmap. exists g. split; [done|]. apply list_elem_of_filter.
    split; [done|]. by eapply list_elem_of_lookup_2. }
  rewrite Forall_forall in Hr. specialize (Hr _ Hin).
  replace (field_index f) with (field_index g) by lia. done.
Qed.

(** For a row type without conditions whose field indexes are distinct, and a call with
    enough arguments, the row is the specified one. *)
Lemma makeRow_plain s decoded
    (Hs : schema_ok s = true) (Hp : plain s = true) (Hd : NoDup (indexes_of (sfields s)))
    (Hlen : Forall (fun x => 0 <= x < llen decoded) (indexes_of (sfields s))) :
  ifields <$> makeRow s decoded = Ok (argument_of decoded <$> sfields s).
Proof.
  destruct (setFields_plain s (sfields s) 0 (ifields (reflect_New s)) decoded) as [d E]; try done.
  unfold makeRow. by rewrite E.
Qed.

(** ** Branches on equality *)

(** A whole number as JSON gives it. *)
Definition num (z : Z) : json := JNum (binary_normalize 53 1024 z 0 false).

Lemma Decode_op deps T now slack fmt_float fuel n stepData :
  Decode deps T now slack fmt_float (S fuel) (JArr (num n :: stepData)) =
  step deps T now slack fmt_float (Decode deps T now slack fmt_float fuel)
    (num n :: stepData) stepData (f64_to_int (binary_normalize 53 1024 n 0 false)).
Proof.
  cbn [Decode]. unfold mbind, M_bind, lift, index. cbn [num as_float lookup list_lookup Z.to_nat].
  change (0 <=? 0) with true. cbn iota.
  by rewrite (slice_from_app [num n] stepData).
Qed.

Lemma i64_equal_not_int deps T now slack fmt_float fuel a b s v s' :
  Decode deps T now slack fmt_float fuel (JArr [num 30; a; b]) s = Ok (v, s') ->
  forall z, v <> VInt64 z.
Proof.
  destruct fuel as [|fuel]; [done|]. rewrite Decode_op.
  change (f64_to_int (binary_normalize 53 1024 30 0 false)) with 30.
  change (step ?d ?t ?n ?sl ?f ?dec ?ss ?sd 30) with (op_i64_binary i64_equal dec sd).
  generalize (Decode deps T now slack fmt_float fuel). intros dec.
  change (op_i64_binary i64_equal dec [a; b]) with
    (r1 ← dec a; match r1 with
                 | VInt64 x => r2 ← dec b; mret (match r2 with VInt64 y => i64_equal x y | _ => VNil end)
                 | _ => mret VNil end : M val).
  unfold mbind, M_bind, mret, M_ret. intros H z.
  destruct (dec a s) as [[[] s1]| |]; simplify_eq; try done.
  destruct (dec b s1) as [[[] s2]| |]; simplify_eq; done.
Qed.

(** A branch on an equality test is never taken, and neither is its else branch: the test
    yields a Go [bool], [IF] wants an [int64], so the step does nothing beyond evaluating
    the test's operands. *)
Theorem if_equal_takes_no_branch deps T now slack fmt_float fuel a b branches s :
  let test := JArr [num 30; a; b] in
  Decode deps T now slack fmt_float (S fuel) (JArr (num 23 :: test :: branches)) s =
  match Decode deps T now slack fmt_float fuel test s with
  | Ok (_, s') => Ok (VNil, s')
  | Err e => Err e
  | Halt h => Halt h
  end.
Proof.
  intros test. rewrite Decode_op.
  change (f64_to_int (binary_normalize 53 1024 23 0 false)) with 23.
  change (step ?d ?t ?n ?sl ?f ?dec ?ss ?sd 23) with (op_if dec sd).
  pose proof (i64_equal_not_int deps T now slack fmt_float fuel a b s) as Hn.
  unfold op_if, mbind, M_bind. change (lift (index (test :: branches) 0) s) with (Ok (test, s)).
  cbn iota. destruct (Decode _ _ _ _ _ fuel test s) as [[v s']| |] eqn:E; [|done..].
  specialize (Hn v s' E). destruct v; try done. by destruct (Hn z).
Qed.

(** *** A field whose index an earlier field of its kind has used *)

Definition dead (x : nat) (k : Kind) (decoded : list val) : Prop :=
  forall v, decoded !! x = Some v -> v = VNil \/ assign k v <> Assigned.

Lemma dead_insert x k decoded y : dead x k decoded -> dead x k (<[y:=VNil]> decoded).
Proof.
  intros H v. destruct (decide (x = y)) as [->|Hne]; [|rewrite list_lookup_insert_ne by done; apply H].
  destruct (decide (y < length decoded)%nat).
  - rewrite list_lookup_insert_eq by done. intros [= <-]. by left.
  - rewrite list_insert_ge by lia. apply H.
Qed.

(** A field that names its argument without a condition. *)
Definition names_argument (f : Field) (x : nat) : Prop :=
  is_unrecognized f = false /\ tag_get "conditionField" (ftags f) = ""%string /\
  fst (Atoi (tag_get "index" (ftags f))) = Z.of_nat x.

Lemma setFields_dead s fs j f x : forall i vals decoded vals' decoded',
  drop i (sfields s) = fs -> sfields s !! j = Some f -> names_argument f x ->
  dead x (fkind f) decoded -> setFields s fs i vals decoded = Ok (vals', decoded') ->
  vals' !! j = vals !! j.
Proof.
  induction fs as [|g fs IH]; intros i vals decoded vals' decoded' Hd Hf Hx Hdead;
    [by intros [= -> ->]|].
  assert (drop (S i) (sfields s) = fs) as Hd'.
  { replace (S i) with (i + 1)%nat by lia. by rewrite <- drop_drop, Hd. }
  assert (sfields s !! i = Some g) as Hg.
  { pose proof (lookup_drop (sfields s) i 0) as E. by rewrite Hd, Nat.add_0_r in E. }
  cbn [setFields]. destruct (fname g =? "Unrecognized")%string eqn:Hu; [by apply IH|].
  destruct (fieldIndex s g vals) as [idx|e|h] eqn:Ei; [|by apply IH|done].
  destruct (idx >=? llen decoded); [by intros [= -> ->]|].
  destruct (index decoded idx) as [v| |] eqn:Ev; cbn [mbind res_bind]; [|done..].
  destruct (is_nil v) eqn:Hnil; [by apply IH|].
  destruct (assign (fkind g) v) eqn:Ea; [|by apply IH|].
  - intros H. apply IH in H; [|done..|by apply dead_insert]. rewrite H.
    apply list_lookup_insert_ne. intros ->. destruct Hx as (Hxu & Hxc & Hxi). simplify_eq.
    unfold fieldIndex in Ei. rewrite Hxc in Ei. change ("" =? "")%string with true in Ei.
    cbn iota in Ei. injection Ei as <-. rewrite Hxi in Ev. unfold index in Ev.
    replace (0 <=? Z.of_nat x) with true in Ev by (symmetry; apply Z.leb_le; lia).
    rewrite Nat2Z.id in Ev. destruct (decoded !! x) as [w|] eqn:Ew; [|done].
    injection Ev as ->. destruct (Hdead v Ew) as [->|]; done.
  - apply IH; try done. by apply dead_insert.
Qed.

(** Between two fields of one kind that name the same argument the first one takes it: the
    second stays at its zero value. *)
Lemma setFields_shadowed s fs i j f g x : forall p vals decoded vals' decoded',
  drop p (sfields s) = fs -> (p <= i < j)%nat -> sfields s !! i = Some f ->
  sfields s !! j = Some g -> fkind f = fkind g -> names_argument f x -> names_argument g x ->
  settable (fkind f) = true ->
  setFields s fs p vals decoded = Ok (vals', decoded') -> vals' !! j = vals !! j.
Proof.
  induction fs as [|h fs IH]; intros p vals decoded vals' decoded' Hd Hp Hf Hg Hk Hxf Hxg Hset;
    [by intros [= -> ->]|].
  assert (drop (S p) (sfields s) = fs) as Hd'.
  { replace (S p) with (p + 1)%nat by lia. by rewrite <- drop_drop, Hd. }
  assert (sfields s !! p = Some h) as Hh.
  { pose proof (lookup_drop (sfields s) p 0) as E. by rewrite Hd, Nat.add_0_r in E. }
  destruct (decide (p = i)) as [->|Hne].
  - assert (h = f) as -> by congruence. intros H.
    cbn [setFields] in H. pose proof Hxf as (Hu & Hc & Hi). unfold is_unrecognized in Hu.
    rewrite Hu in H. unfold fieldIndex in H. rewrite Hc in H.
    change ("" =? "")%string with true in H. cbn iota in H. rewrite Hi in H.
    destruct (_ >=? _) eqn:Eb; [by injection H as -> ->|].
    rewrite Z.geb_leb, Z.leb_gt in Eb.
    destruct (lookup_lt_is_Some_2 decoded x) as [v Ev]; [lia|].
    erewrite index_ok in H by (rewrite ?Nat2Z.id; done || lia). cbn [mbind res_bind] in H.
    rewrite Nat2Z.id in H.
    destruct (is_nil v) eqn:Hn.
    { eapply (setFields_dead s fs j g x) in H; eauto. intros w Hw. left.
      assert (w = v) as -> by congruence. by destruct v. }
    destruct (assign (fkind f) v) eqn:Ea.
    + eapply (setFields_dead s fs j g x) in H; eauto; [rewrite H; apply list_lookup_insert_ne; lia|].
      intros w Hw. left. rewrite list_lookup_insert_eq in Hw by (by eapply lookup_lt_Some).
      congruence.
    + eapply (setFields_dead s fs j g x) in H; eauto. intros w Hw. right.
      assert (w = v) as -> by congruence. rewrite <- Hk, Ea. done.
    + by apply (settable_assign _ v) in Hset.
  - cbn [setFields]. destruct (fname h =? "Unrecognized")%string.
    { intros H. eapply IH in H; eauto; lia. }
    destruct (fieldIndex s h vals) as [idx|e|z]; [|intros H; eapply IH in H; eauto; lia|done].
    destruct (idx >=? llen decoded); [by intros [= -> ->]|].
    destruct (index decoded idx) as [v| |]; cbn [mbind res_bind]; [|done..].
    destruct (is_nil v); [intros H; eapply IH in H; eauto; lia|].
    destruct (assign (fkind h) v); intros H; eapply IH in H; eauto; try lia.
    rewrite H. apply list_lookup_insert_ne. lia.
Qed.

(** ** A stored-procedure call *)

Lemma Decode_call deps T now slack fmt_float fuel p args st decoded st1 f s r :
  deps !! p = Some f -> table_type f T = Some s ->
  mapM_list (Decode deps T now slack fmt_float fuel) args st = Ok (decoded, st1) ->
  makeRow s decoded = Ok r ->
  Decode deps T now slack fmt_float (S fuel) (JArr (num 5 :: JStr p :: args)) st =
    Ok (VNil, append_row f r st1).
Proof.
  intros Hp Hf Ha Hr. rewrite Decode_op.
  change (f64_to_int (binary_normalize 53 1024 5 0 false)) with 5.
  change (step ?d ?t ?n ?sl ?f ?dec ?ss ?sd 5) with (op_call d t dec sd).
  unfold op_call, mbind, M_bind.
  change (lift (index (JStr p :: args) 0) st) with (Ok (JStr p, st)). cbn iota.
  change (slice_from (JStr p :: args) 1) with (slice_from ([JStr p] ++ args) 1).
  rewrite (slice_from_app [JStr p] args 1) by done. cbn [lift].
  unfold handleStoredProcedure. rewrite Hp, Hf. unfold mbind, M_bind. rewrite Ha, Hr. done.
Qed.
