(* ===== verification/TableKinds.v ===== *)
(** * TableKinds: the types of the table fields ([table/enums.go]) and the shapes of their tags

    Every enumeration the rows use is a named [int64], which is all the decoder's reflection
    sees of it. *)

From S2P Require Import Prelude Lightspeed.

(** ** Named integer types *)

Definition DisplayedContentTypes : Kind := KInt64.
Definition ContactIDType : Kind := KInt64.
Definition Gender : Kind := KInt64.
Definition ContactViewerRelationship : Kind := KInt64.
Definition ThreadSourceType : Kind := KInt64.
Definition AttachmentType : Kind := KInt64.
Definition SendType : Kind := KInt64.
Definition InitiatingSource : Kind := KInt64.
Definition MessageUnsendabilityStatus : Kind := KInt64.
Definition AppState : Kind := KInt64.
Definition ReactionStyle : Kind := KInt64.
Definition RestrictionType : Kind := KInt64.
Definition SearchType : Kind := KInt64.
Definition ThreadType : Kind := KInt64.
Definition FolderType : Kind := KInt64.
Definition ThreadBumpStatus : Kind := KInt64.
Definition ReplySourceTypeV2 : Kind := KInt64.
Definition EphemeralMediaViewMode : Kind := KInt64.
Definition EphemeralMediaState : Kind := KInt64.

(** ** Fields *)

(** A field with an [index] tag. *)
Definition fld (n : string) (k : Kind) (index : string) : Field :=
  mkField n k [("index", index); ("json", ",omitempty")]%string.

(** A field with a [conditionField] tag. *)
Definition cond (n : string) (k : Kind) (conditionField indexes : string) : Field :=
  mkField n k [("conditionField", conditionField); ("indexes", indexes); ("json", ",omitempty")]%string.

(** The map of arguments no field names. *)
Definition unrecognized : Field := mkField "Unrecognized" KMap [("json", ",omitempty")]%string.
