(* ===== verification/TableThreads.v ===== *)
(** * TableThreads: rows about threads, folders and sync groups

    The struct types of [table/sync_groups.go], [table/threads.go] and [table/folders.go]. *)

From S2P Require Import Prelude Strconv Lightspeed TableKinds.
#[local] Open Scope string_scope.

(** ** Rows of [table/sync_groups.go]: sync groups *)

Definition LSTruncateTablesForSyncGroup : Schema := mkSchema "LSTruncateTablesForSyncGroup"
  [fld "SyncGroup" KInt64 "0";
   unrecognized].

Definition LSTruncateThreadRangeTablesForSyncGroup : Schema := mkSchema "LSTruncateThreadRangeTablesForSyncGroup"
  [fld "ParentThreadKey" KInt64 "0";
   unrecognized].

Definition LSUpsertSyncGroupThreadsRange : Schema := mkSchema "LSUpsertSyncGroupThreadsRange"
  [fld "SyncGroup" KInt64 "0";
   fld "ParentThreadKey" KInt64 "1";
   fld "MinLastActivityTimestampMS" KInt64 "2";
   fld "HasMoreBefore" KBool "3";
   fld "IsLoadingBefore" KBool "4";
   fld "MinThreadKey" KInt64 "5";
   unrecognized].

Definition LSMciTraceLog : Schema := mkSchema "LSMciTraceLog"
  [fld "SomeInt0" KInt64 "0";
   fld "MCITraceUnsampledEventTraceID" KString "1";
   fld "Unknown2" KInterface "2";
   fld "SomeInt3" KInt64 "3";
   fld "Unknown4" KInterface "4";
   fld "DatascriptExecute" KString "5";
   fld "SomeInt6" KInt64 "6";
   unrecognized].

Definition LSExecuteFirstBlockForSyncTransaction : Schema := mkSchema "LSExecuteFirstBlockForSyncTransaction"
  [fld "DatabaseID" KInt64 "0";
   fld "EpochID" KInt64 "1";
   fld "CurrentCursor" KString "2";
   fld "NextCursor" KString "3";
   fld "SyncStatus" KInt64 "4";
   fld "SendSyncParams" KBool "5";
   fld "MinTimeToSyncTimestampMS" KInt64 "6";
   fld "CanIgnoreTimestamp" KBool "7";
   fld "SyncChannel" KInt64 "8";
   unrecognized].

Definition LSExecuteFinallyBlockForSyncTransaction : Schema := mkSchema "LSExecuteFinallyBlockForSyncTransaction"
  [fld "ShouldFlush" KBool "0";
   fld "SyncDatabaseID" KInt64 "1";
   fld "EpochID" KInt64 "2";
   unrecognized].

Definition LSSetHMPSStatus : Schema := mkSchema "LSSetHMPSStatus"
  [fld "AccountId" KInt64 "0";
   fld "Unknown1" KInt64 "1";
   fld "Timestamp" KInt64 "2";
   unrecognized].

Definition LSUpsertSequenceID : Schema := mkSchema "LSUpsertSequenceID"
  [fld "LastAppliedMailboxSequenceId" KInt64 "0";
   unrecognized].

Definition LSSetRegionHint : Schema := mkSchema "LSSetRegionHint"
  [fld "Unknown0" KInt64 "0";
   fld "RegionHint" KString "1";
   unrecognized].

Definition LSUpsertGradientColor : Schema := mkSchema "LSUpsertGradientColor"
  [fld "ThemeFbid" KInt64 "0";
   fld "GradientIndex" KInt64 "1";
   fld "Color" KInt64 "2";
   fld "Type" KInt64 "3";
   unrecognized].

Definition LSUpsertTheme : Schema := mkSchema "LSUpsertTheme"
  [fld "Fbid" KInt64 "0";
   fld "NormalThemeId" KInt64 "0";
   fld "ThemeIdx" KInt64 "1";
   fld "FallbackColor" KInt64 "2";
   fld "ReverseGradiantsForRadial" KBool "3";
   fld "AccessibilityLabel" KString "4";
   fld "IconUrl" KString "5";
   fld "IconUrlFallback" KString "6";
   fld "BackgroundUrl" KString "8";
   fld "IsDeprecated" KBool "11";
   fld "AppColorMode" KInt64 "13";
   fld "TitlebarBackgroundColor" KInt64 "14";
   fld "TitlebarButtonTintColor" KInt64 "15";
   fld "TitlebarTextColor" KInt64 "16";
   fld "ComposerTintColor" KInt64 "17";
   fld "ComposerUnselectedTintColor" KInt64 "18";
   fld "ComposerInputTextPlaceholderColor" KInt64 "19";
   fld "ComposerInputBackgroundColor" KInt64 "20";
   fld "ComposerInputBorderColor" KInt64 "21";
   fld "ComposerInputBorderWidth" KInt64 "22";
   fld "ComposerBackgroundColor" KInt64 "23";
   fld "MessageTextColor" KInt64 "24";
   fld "MessageBorderColor" KInt64 "25";
   fld "MessageBorderWidth" KInt64 "26";
   fld "IncomingMessageTextColor" KInt64 "27";
   fld "IncomingMessageBorderColor" KInt64 "28";
   fld "IncomingMessageBorderWidth" KInt64 "29";
   fld "DeliveryReceiptColor" KInt64 "30";
   fld "TertiaryTextColor" KInt64 "31";
   fld "PrimaryButtonBackgroundColor" KInt64 "32";
   fld "HotLikeColor" KInt64 "33";
   fld "SecondaryTextColor" KInt64 "34";
   fld "QuotedIncomingMessageBubbleColor" KInt64 "35";
   fld "CornerRadius" KInt64 "36";
   fld "BlurredComposerBackgroundColor" KInt64 "37";
   fld "ComposerSecondaryButtonColor" KInt64 "38";
   fld "ComposerPlaceholderTextColor" KInt64 "39";
   unrecognized].

Definition LSAppendDataTraceAddon : Schema := mkSchema "LSAppendDataTraceAddon"
  [fld "TraceId" KString "0";
   fld "CheckPointId" KInt64 "1";
   fld "SyncChannel" KInt64 "2";
   fld "ErrorMessage" KString "3";
   fld "Tags" KString "4";
   unrecognized].

Definition LSTruncatePresenceDatabase : Schema := mkSchema "LSTruncatePresenceDatabase"
  [fld "ShouldTruncate" KBool "0";
   unrecognized].

Definition LSUpdateLastSyncCompletedTimestampMsToNow : Schema := mkSchema "LSUpdateLastSyncCompletedTimestampMsToNow"
  [fld "Unknown0" KInt64 "0";
   unrecognized].

Definition LSStoryContactSyncFromBucket : Schema := mkSchema "LSStoryContactSyncFromBucket"
  [unrecognized].

Definition LSDeleteThenInsertBotProfileInfoCategoryV2 : Schema := mkSchema "LSDeleteThenInsertBotProfileInfoCategoryV2"
  [fld "Category" KString "0";
   fld "BotID" KInt64 "1";
   fld "UnknownFloat2" KFloat64 "2";
   unrecognized].

Definition LSDeleteThenInsertBotProfileInfoV2 : Schema := mkSchema "LSDeleteThenInsertBotProfileInfoV2"
  [fld "BotID" KInt64 "0";
   fld "IsCreatedByViewer" KBool "1";
   fld "TintColor" KInt64 "2";
   fld "ShortDescription" KString "3";
   fld "Description" KString "4";
   unrecognized].

Definition LSHandleSyncFailure : Schema := mkSchema "LSHandleSyncFailure"
  [fld "DatabaseID" KInt64 "0";
   fld "ErrorMessage" KString "1";
   unrecognized].

(** ** Rows of [table/threads.go]: threads *)

Definition LSTruncateMetadataThreads : Schema := mkSchema "LSTruncateMetadataThreads"
  [].

Definition LSUpsertInboxThreadsRange : Schema := mkSchema "LSUpsertInboxThreadsRange"
  [fld "SyncGroup" KInt64 "0";
   fld "MinLastActivityTimestampMs" KInt64 "1";
   fld "HasMoreBefore" KBool "2";
   fld "IsLoadingBefore" KBool "3";
   fld "MinThreadKey" KInt64 "4";
   unrecognized].

Definition LSUpdateThreadsRangesV2 : Schema := mkSchema "LSUpdateThreadsRangesV2"
  [fld "FolderName" KString "0";
   fld "ParentThreadKey" KInt64 "1";
   fld "MinLastActivityTimestampMs" KInt64 "2";
   fld "MinThreadKey" KInt64 "3";
   fld "IsLoadingBefore" KInt64 "4";
   unrecognized].

Definition LSDeleteThenInsertThread : Schema := mkSchema "LSDeleteThenInsertThread"
  [fld "LastActivityTimestampMs" KInt64 "0";
   fld "LastReadWatermarkTimestampMs" KInt64 "1";
   fld "Snippet" KString "2";
   fld "ThreadName" KString "3";
   fld "ThreadPictureUrl" KString "4";
   fld "NeedsAdminApprovalForNewParticipant" KBool "5";
   fld "AuthorityLevel" KInt64 "6";
   fld "ThreadKey" KInt64 "7";
   fld "MailboxType" KInt64 "8";
   fld "ThreadType" ThreadType "9";
   fld "FolderName" KString "10";
   fld "ThreadPictureUrlFallback" KString "11";
   fld "ThreadPictureUrlExpirationTimestampMs" KInt64 "12";
   fld "RemoveWatermarkTimestampMs" KInt64 "13";
   fld "MuteExpireTimeMs" KInt64 "14";
   fld "MuteCallsExpireTimeMs" KInt64 "15";
   fld "GroupNotificationSettings" KInt64 "16";
   fld "IsAdminSnippet" KBool "17";
   fld "SnippetSenderContactId" KInt64 "18";
   fld "SnippetStringHash" KInt64 "21";
   fld "SnippetStringArgument1" KInt64 "22";
   fld "SnippetAttribution" KInt64 "23";
   fld "SnippetAttributionStringHash" KInt64 "24";
   fld "DisappearingSettingTtl" KInt64 "25";
   fld "DisappearingSettingUpdatedTs" KInt64 "26";
   fld "DisappearingSettingUpdatedBy" KInt64 "27";
   fld "OngoingCallState" KInt64 "29";
   fld "CannotReplyReason" KInt64 "30";
   fld "CustomEmoji" KString "31";
   fld "CustomEmojiImageUrl" KString "32";
   fld "OutgoingBubbleColor" KInt64 "33";
   fld "ThemeFbid" KInt64 "34";
   fld "ParentThreadKey" KInt64 "35";
   fld "NullstateDescriptionText1" KString "36";
   fld "NullstateDescriptionType1" KInt64 "37";
   fld "NullstateDescriptionText2" KString "38";
   fld "NullstateDescriptionType2" KInt64 "39";
   fld "NullstateDescriptionText3" KString "40";
   fld "NullstateDescriptionType3" KInt64 "41";
   fld "SnippetHasEmoji" KBool "42";
   fld "HasPersistentMenu" KBool "43";
   fld "DisableComposerInput" KBool "44";
   fld "CannotUnsendReason" KInt64 "45";
   fld "ViewedPluginKey" KInt64 "46";
   fld "ViewedPluginContext" KInt64 "47";
   fld "ClientThreadKey" KInt64 "48";
   fld "Capabilities" KInt64 "49";
   fld "ShouldRoundThreadPicture" KInt64 "50";
   fld "ProactiveWarningDismissTime" KInt64 "51";
   fld "IsCustomThreadPicture" KBool "52";
   fld "OtidOfFirstMessage" KInt64 "53";
   fld "NormalizedSearchTerms" KString "54";
   fld "AdditionalThreadContext" KString "55";
   fld "DisappearingThreadKey" KInt64 "56";
   fld "IsDisappearingMode" KBool "57";
   fld "DisappearingModeInitiator" KInt64 "58";
   fld "UnreadDisappearingMessageCount" KInt64 "59";
   fld "LastMessageCtaId" KInt64 "61";
   fld "LastMessageCtaType" KString "62";
   fld "ConsistentThreadFbid" KInt64 "63";
   fld "ThreadDescription" KString "64";
   fld "UnsendLimitMs" KInt64 "65";
   fld "SyncGroup" KInt64 "66";
   fld "ThreadInvitesEnabled" KInt64 "67";
   fld "ThreadInviteLink" KString "68";
   fld "NumUnreadSubthreads" KInt64 "69";
   fld "SubthreadCount" KInt64 "70";
   fld "ThreadInvitesEnabledV2" KInt64 "71";
   fld "JoinRequestApprovalSetting" KInt64 "72";
   fld "PendingJoinRequestsCount" KInt64 "73";
   fld "EventStartTimestampMs" KInt64 "74";
   fld "EventEndTimestampMs" KInt64 "75";
   fld "TakedownState" KInt64 "76";
   fld "MemberCount" KInt64 "77";
   fld "AdmodCount" KInt64 "78";
   fld "SecondaryParentThreadKey" KInt64 "79";
   fld "IgFolder" KInt64 "80";
   fld "InviterId" KInt64 "81";
   fld "ThreadTags" KInt64 "82";
   fld "ReadReceiptsDisabledV2" KInterface "83";
   fld "ThreadStatus" KInt64 "84";
   fld "ThreadSubtype" KInt64 "85";
   fld "PauseThreadTimestamp" KInt64 "86";
   fld "Metadata" KInterface "87";
   fld "SyncSource" KInterface "88";
   unrecognized].

Definition LSAddParticipantIdToGroupThread : Schema := mkSchema "LSAddParticipantIdToGroupThread"
  [fld "ThreadKey" KInt64 "0";
   fld "ContactId" KInt64 "1";
   fld "ReadWatermarkTimestampMs" KInt64 "2";
   fld "ReadActionTimestampMs" KInt64 "3";
   fld "DeliveredWatermarkTimestampMs" KInt64 "4";
   fld "Nickname" KString "5";
   fld "IsAdmin" KBool "6";
   fld "SubscribeSource" KString "7";
   fld "AuthorityLevel" KInt64 "9";
   fld "NormalizedSearchTerms" KString "10";
   fld "GroupParticipantJoinState" KInt64 "11";
   fld "IsModerator" KBool "12";
   fld "IsSuperAdmin" KBool "13";
   fld "ThreadRoles" KInt64 "14";
   unrecognized].

Definition LSWriteThreadCapabilities : Schema := mkSchema "LSWriteThreadCapabilities"
  [fld "ThreadKey" KInt64 "0";
   fld "Capabilities" KInt64 "1";
   fld "Capabilities2" KInt64 "2";
   fld "Capabilities3" KInt64 "3";
   unrecognized].

Definition LSUpdateReadReceipt : Schema := mkSchema "LSUpdateReadReceipt"
  [fld "ReadWatermarkTimestampMs" KInt64 "0";
   fld "ThreadKey" KInt64 "1";
   fld "ContactId" KInt64 "2";
   fld "ReadActionTimestampMs" KInt64 "3";
   unrecognized].

Definition LSThreadsRangesQuery : Schema := mkSchema "LSThreadsRangesQuery"
  [fld "ParentThreadKey" KInt64 "0";
   fld "Unknown1" KBool "1";
   fld "IsAfter" KBool "2";
   cond "ReferenceThreadKey" KInt64 "IsAfter" "4,3";
   cond "ReferenceActivityTimestamp" KInt64 "IsAfter" "5,6";
   fld "AdditionalPagesToFetch" KInt64 "7";
   fld "Unknown8" KBool "8";
   unrecognized].

Definition LSUpdateTypingIndicator : Schema := mkSchema "LSUpdateTypingIndicator"
  [fld "ThreadKey" KInt64 "0";
   fld "SenderId" KInt64 "1";
   fld "IsTyping" KBool "2";
   unrecognized].

Definition LSMoveThreadToInboxAndUpdateParent : Schema := mkSchema "LSMoveThreadToInboxAndUpdateParent"
  [fld "ThreadKey" KInt64 "0";
   fld "ParentThreadKey" KInt64 "1";
   unrecognized].

Definition LSUpdateThreadSnippet : Schema := mkSchema "LSUpdateThreadSnippet"
  [fld "ThreadKey" KInt64 "0";
   fld "Snippet" KString "1";
   fld "IsAdminSnippet" KBool "2";
   fld "SnippetSenderContactId" KInt64 "3";
   fld "SnippetHasEmoji" KBool "4";
   fld "ViewedPluginKey" KString "5";
   fld "ViewedPluginContext" KString "6";
   unrecognized].

Definition LSVerifyThreadExists : Schema := mkSchema "LSVerifyThreadExists"
  [fld "ThreadKey" KInt64 "0";
   fld "ThreadType" ThreadType "1";
   fld "FolderName" KString "2";
   fld "ParentThreadKey" KInt64 "3";
   fld "AuthorityLevel" KInt64 "4";
   fld "SyncGroup" KInt64 "5";
   unrecognized].

Definition LSBumpThread : Schema := mkSchema "LSBumpThread"
  [fld "LastReadWatermarkTimestampMs" KInt64 "0";
   fld "BumpStatus" ThreadBumpStatus "1";
   fld "ThreadKey" KInt64 "2";
   unrecognized].

Definition LSUpdateThreadSnippetFromLastMessage : Schema := mkSchema "LSUpdateThreadSnippetFromLastMessage"
  [fld "AccountId" KInt64 "0";
   fld "ThreadKey" KInt64 "1";
   fld "Snippet1" KString "2";
   fld "Snippet2" KString "3";
   fld "Snippet3" KString "4";
   fld "Snippet4" KString "5";
   fld "Snippet5" KString "6";
   fld "Snippet6" KString "7";
   fld "Snippet7" KString "8";
   fld "Snippet8" KString "9";
   fld "Snippet9" KString "10";
   fld "IsAdminSnippet" KBool "11";
   unrecognized].

Definition LSUpdateThreadSnippetFromLastMessageV2 : Schema := mkSchema "LSUpdateThreadSnippetFromLastMessageV2"
  [fld "ThreadKey" KInt64 "0";
   unrecognized].

Definition LSDeleteBannersByIds : Schema := mkSchema "LSDeleteBannersByIds"
  [fld "ThreadKey" KInt64 "0";
   unrecognized].

Definition LSUpdateDeliveryReceipt : Schema := mkSchema "LSUpdateDeliveryReceipt"
  [fld "DeliveredWatermarkTimestampMs" KInt64 "0";
   fld "ThreadKey" KInt64 "1";
   fld "ContactId" KInt64 "2";
   unrecognized].

Definition LSUpdateOptimisticContextThreadKeys : Schema := mkSchema "LSUpdateOptimisticContextThreadKeys"
  [fld "ThreadKey1" KInt64 "0";
   fld "ThreadKey2" KInt64 "1";
   unrecognized].

Definition LSReplaceOptimisticThread : Schema := mkSchema "LSReplaceOptimisticThread"
  [fld "ThreadKey1" KInt64 "0";
   fld "ThreadKey2" KInt64 "1";
   unrecognized].

Definition LSApplyNewGroupThread : Schema := mkSchema "LSApplyNewGroupThread"
  [fld "OtidOfFirstMessage" KString "0";
   fld "ThreadKey" KInt64 "1";
   fld "ThreadType" ThreadType "2";
   fld "FolderName" KString "3";
   fld "ParentThreadKey" KInt64 "4";
   fld "ThreadPictureUrlFallback" KString "5";
   fld "LastActivityTimestampMs" KInt64 "6";
   fld "LastReadWatermarkTimestampMs" KInt64 "6";
   fld "NullstateDescriptionText1" KString "8";
   fld "NullstateDescriptionType1" KInt64 "9";
   fld "NullstateDescriptionText2" KString "10";
   fld "NullstateDescriptionType2" KInt64 "11";
   fld "CannotUnsendReason" KInt64 "12";
   fld "Capabilities" KInt64 "13";
   fld "InviterId" KInt64 "14";
   fld "IgFolder" KInt64 "15";
   fld "ThreadSubtype" KInt64 "16";
   unrecognized].

Definition LSRemoveAllParticipantsForThread : Schema := mkSchema "LSRemoveAllParticipantsForThread"
  [fld "ThreadKey" KInt64 "0";
   unrecognized].

Definition LSUpdateThreadInviteLinksInfo : Schema := mkSchema "LSUpdateThreadInviteLinksInfo"
  [fld "ThreadKey" KInt64 "0";
   fld "ThreadInvitesEnabled" KInt64 "1";
   fld "ThreadInviteLink" KString "2";
   unrecognized].

Definition LSUpdateThreadParticipantAdminStatus : Schema := mkSchema "LSUpdateThreadParticipantAdminStatus"
  [fld "ThreadKey" KInt64 "0";
   fld "ContactId" KInt64 "1";
   fld "IsAdmin" KBool "2";
   unrecognized].

Definition LSUpdateParticipantSubscribeSourceText : Schema := mkSchema "LSUpdateParticipantSubscribeSourceText"
  [fld "ThreadKey" KInt64 "0";
   fld "ContactId" KInt64 "1";
   fld "SubscribeSource" KString "2";
   unrecognized].

Definition LSOverwriteAllThreadParticipantsAdminStatus : Schema := mkSchema "LSOverwriteAllThreadParticipantsAdminStatus"
  [fld "ThreadKey" KInt64 "0";
   fld "IsAdmin" KBool "1";
   unrecognized].

Definition LSUpdateParticipantCapabilities : Schema := mkSchema "LSUpdateParticipantCapabilities"
  [fld "ContactId" KInt64 "0";
   fld "ThreadKey" KInt64 "1";
   unrecognized].

Definition LSChangeViewerStatus : Schema := mkSchema "LSChangeViewerStatus"
  [fld "ThreadKey" KInt64 "0";
   fld "CannotReplyReason" KString "1";
   unrecognized].

Definition LSSyncUpdateThreadName : Schema := mkSchema "LSSyncUpdateThreadName"
  [fld "ThreadName" KString "0";
   fld "ThreadKey" KInt64 "1";
   fld "ThreadName1" KString "2";
   unrecognized].

Definition LSSetThreadImageURL : Schema := mkSchema "LSSetThreadImageURL"
  [fld "ThreadKey" KInt64 "0";
   fld "ImageURL" KString "1";
   fld "ImageFallbackURL" KString "2";
   fld "ImageURLExpiryTimeMS" KInt64 "3";
   fld "IsCustomThreadPicture" KBool "4";
   fld "ShouldRoundThreadPicture" KBool "5";
   unrecognized].

Definition LSWriteCTAIdToThreadsTable : Schema := mkSchema "LSWriteCTAIdToThreadsTable"
  [fld "ThreadKey" KInt64 "0";
   fld "LastMessageCtaType" KString "1";
   fld "LastMessageCtaTimestampMs" KInt64 "2";
   unrecognized].

Definition LSQueryAdditionalGroupThreads : Schema := mkSchema "LSQueryAdditionalGroupThreads"
  [fld "NumThreads" KInt64 "0";
   fld "NumMessages" KInt64 "1";
   fld "AdditionalPagesToFetch" KInt64 "2";
   unrecognized].

Definition LSDeleteThenInsertIgThreadInfo : Schema := mkSchema "LSDeleteThenInsertIgThreadInfo"
  [fld "ThreadKey" KInt64 "0";
   fld "IgThreadId" KString "1";
   unrecognized].

Definition LSMarkThreadRead : Schema := mkSchema "LSMarkThreadRead"
  [fld "LastReadWatermarkTimestampMs" KInt64 "0";
   fld "ThreadKey" KInt64 "1";
   unrecognized].

Definition LSMarkThreadReadV2 : Schema := mkSchema "LSMarkThreadReadV2"
  [fld "ThreadKey" KInt64 "0";
   fld "LastReadWatermarkTimestampMs" KInt64 "1";
   unrecognized].

Definition LSUpdateParentFolderReadWatermark : Schema := mkSchema "LSUpdateParentFolderReadWatermark"
  [fld "ThreadKey" KInt64 "0";
   unrecognized].

Definition LSUpdateOrInsertThread : Schema := mkSchema "LSUpdateOrInsertThread"
  [fld "LastActivityTimestampMs" KInt64 "0";
   fld "LastReadWatermarkTimestampMs" KInt64 "1";
   fld "Snippet" KString "2";
   fld "ThreadName" KString "3";
   fld "ThreadPictureUrl" KString "4";
   fld "NeedsAdminApprovalForNewParticipant" KBool "5";
   fld "AuthorityLevel" KInt64 "6";
   fld "ThreadKey" KInt64 "7";
   fld "MailboxType" KInt64 "8";
   fld "ThreadType" ThreadType "9";
   fld "FolderName" KString "10";
   fld "ThreadPictureUrlFallback" KString "11";
   fld "ThreadPictureUrlExpirationTimestampMs" KInt64 "12";
   fld "RemoveWatermarkTimestampMs" KInt64 "13";
   fld "MuteExpireTimeMs" KInt64 "14";
   fld "MuteMentionExpireTimeMs" KInt64 "15";
   fld "MuteCallsExpireTimeMs" KInt64 "16";
   fld "GroupNotificationSettings" KInt64 "19";
   fld "IsAdminSnippet" KBool "20";
   fld "SnippetSenderContactId" KInt64 "21";
   fld "SnippetStringHash" KInt64 "24";
   fld "SnippetStringArgument1" KInt64 "25";
   fld "SnippetAttribution" KInt64 "26";
   fld "SnippetAttributionStringHash" KInt64 "27";
   fld "DisappearingSettingTtl" KInt64 "28";
   fld "DisappearingSettingUpdatedTs" KInt64 "29";
   fld "DisappearingSettingUpdatedBy" KInt64 "30";
   fld "OngoingCallState" KInt64 "32";
   fld "CannotReplyReason" KInt64 "33";
   fld "CustomEmoji" KString "34";
   fld "CustomEmojiImageUrl" KString "35";
   fld "OutgoingBubbleColor" KInt64 "36";
   fld "ThemeFbid" KInt64 "37";
   fld "ParentThreadKey" KInt64 "38";
   fld "NullstateDescriptionText1" KString "39";
   fld "NullstateDescriptionType1" KInt64 "40";
   fld "NullstateDescriptionText2" KString "41";
   fld "NullstateDescriptionType2" KInt64 "42";
   fld "NullstateDescriptionText3" KString "43";
   fld "NullstateDescriptionType3" KInt64 "44";
   fld "SnippetHasEmoji" KBool "45";
   fld "HasPersistentMenu" KBool "46";
   fld "DisableComposerInput" KBool "47";
   fld "CannotUnsendReason" KInt64 "48";
   fld "ViewedPluginKey" KInt64 "49";
   fld "ViewedPluginContext" KInt64 "50";
   fld "ClientThreadKey" KInt64 "51";
   fld "Capabilities" KInt64 "52";
   fld "ShouldRoundThreadPicture" KInt64 "53";
   fld "ProactiveWarningDismissTime" KInt64 "54";
   fld "IsCustomThreadPicture" KBool "55";
   fld "OtidOfFirstMessage" KInt64 "56";
   fld "NormalizedSearchTerms" KString "57";
   fld "AdditionalThreadContext" KString "58";
   fld "DisappearingThreadKey" KInt64 "59";
   fld "IsDisappearingMode" KBool "60";
   fld "DisappearingModeInitiator" KInt64 "61";
   fld "UnreadDisappearingMessageCount" KInt64 "62";
   fld "LastMessageCtaId" KInt64 "64";
   fld "LastMessageCtaType" KString "65";
   fld "LastMessageCtaTimestampMs" KInt64 "66";
   fld "ConsistentThreadFbid" KInt64 "67";
   fld "ThreadDescription" KString "69";
   fld "UnsendLimitMs" KInt64 "70";
   fld "Capabilities2" KInt64 "78";
   fld "Capabilities3" KInt64 "79";
   fld "SyncGroup" KInt64 "82";
   fld "ThreadInvitesEnabled" KInt64 "83";
   fld "ThreadInviteLink" KString "84";
   fld "IsAllUnreadMessageMissedCallXma" KBool "85";
   fld "NumUnreadSubthreads" KInt64 "86";
   fld "SubthreadCount" KInt64 "87";
   fld "LastNonMissedCallXmaMessageTimestampMs" KInt64 "88";
   fld "ThreadInvitesEnabledV2" KInt64 "90";
   fld "JoinRequestApprovalSetting" KInt64 "93";
   fld "HasPendingInvitation" KInt64 "94";
   fld "EventStartTimestampMs" KInt64 "95";
   fld "EventEndTimestampMs" KInt64 "96";
   fld "TakedownState" KInt64 "97";
   fld "SecondaryParentThreadKey" KInt64 "98";
   fld "IgFolder" KInt64 "99";
   fld "InviterId" KInt64 "100";
   fld "ThreadTags" KInt64 "101";
   fld "IsReadReceiptsDisabled" KBool "102";
   fld "ReadReceiptsDisabledV2" KInt64 "103";
   fld "ThreadStatus" KInt64 "104";
   fld "ThreadSubtype" KInt64 "105";
   fld "PauseThreadTimestamp" KInt64 "106";
   fld "Capabilities4" KString "107";
   unrecognized].

Definition LSSetThreadCannotUnsendReason : Schema := mkSchema "LSSetThreadCannotUnsendReason"
  [fld "ThreadKey" KInt64 "0";
   fld "CannotUnsendReason" KInt64 "1";
   unrecognized].

Definition LSClearLocalThreadPictureUrl : Schema := mkSchema "LSClearLocalThreadPictureUrl"
  [fld "ThreadKey" KInt64 "0";
   unrecognized].

Definition LSUpdateInviterId : Schema := mkSchema "LSUpdateInviterId"
  [fld "ThreadKey" KInt64 "0";
   fld "InviterId" KInt64 "1";
   unrecognized].

Definition LSAddToMemberCount : Schema := mkSchema "LSAddToMemberCount"
  [fld "ThreadKey" KInt64 "0";
   fld "IncrementCount" KInt64 "1";
   unrecognized].

Definition LSMoveThreadToArchivedFolder : Schema := mkSchema "LSMoveThreadToArchivedFolder"
  [fld "ThreadKey" KInt64 "0";
   unrecognized].

Definition LSMoveThreadToE2EECutoverFolder : Schema := mkSchema "LSMoveThreadToE2EECutoverFolder"
  [fld "ThreadKey" KInt64 "0";
   unrecognized].

Definition LSRemoveParticipantFromThread : Schema := mkSchema "LSRemoveParticipantFromThread"
  [fld "ThreadKey" KInt64 "0";
   fld "ParticipantId" KInt64 "1";
   unrecognized].

Definition LSDeleteRtcRoomOnThread : Schema := mkSchema "LSDeleteRtcRoomOnThread"
  [fld "ThreadKey" KInt64 "0";
   unrecognized].

Definition LSUpdateThreadTheme : Schema := mkSchema "LSUpdateThreadTheme"
  [fld "ThreadKey" KInt64 "0";
   fld "Unknown1" KInt64 "1";
   fld "Unknown2" KInt64 "2";
   unrecognized].

Definition LSUpdateThreadApprovalMode : Schema := mkSchema "LSUpdateThreadApprovalMode"
  [fld "ThreadKey" KInt64 "0";
   fld "Value" KBool "1";
   unrecognized].

Definition LSRemoveAllRequestsFromAdminApprovalQueue : Schema := mkSchema "LSRemoveAllRequestsFromAdminApprovalQueue"
  [fld "ThreadKey" KInt64 "0";
   unrecognized].

Definition LSDeleteThread : Schema := mkSchema "LSDeleteThread"
  [fld "ThreadKey" KInt64 "0";
   fld "UnknownBool1" KBool "1";
   unrecognized].

Definition LSUpdateThreadMuteSetting : Schema := mkSchema "LSUpdateThreadMuteSetting"
  [fld "ThreadKey" KInt64 "0";
   fld "MuteExpireTimeMS" KInt64 "1";
   unrecognized].

Definition LSVerifyHybridThreadExists : Schema := mkSchema "LSVerifyHybridThreadExists"
  [fld "ThreadKey" KInt64 "0";
   fld "ThreadJID" KInt64 "1";
   fld "ThreadType" ThreadType "2";
   fld "IsGroupThread" KBool "5";
   fld "LastActivityTimestampMS" KInt64 "6";
   fld "LastReadWatermarkTimestampMS" KInt64 "7";
   unrecognized].

Definition LSUpdateThreadAuthorityAndMappingWithOTIDFromJID : Schema := mkSchema "LSUpdateThreadAuthorityAndMappingWithOTIDFromJID"
  [fld "ThreadJID" KInt64 "0";
   fld "ThreadKey" KInt64 "1";
   unrecognized].

(** ** Rows of [table/folders.go]: folders *)

Definition LSUpsertFolder : Schema := mkSchema "LSUpsertFolder"
  [fld "ThreadKey" KInt64 "0";
   fld "ThreadName" KString "1";
   fld "ThreadPictureURL" KString "2";
   fld "LastActivityTimestampMS" KInt64 "3";
   fld "LastReadWatermarkTimestampMS" KInt64 "4";
   unrecognized].

Definition LSUpsertFolderSeenTimestamp : Schema := mkSchema "LSUpsertFolderSeenTimestamp"
  [fld "ParentThreadKey" KInt64 "0";
   fld "LastSeenRequestTimestampMs" KInt64 "1";
   unrecognized].
