(* ===== verification/TableMessages.v ===== *)
(** * TableMessages: rows about messages, attachments, contacts, search and tasks

    The struct types of [table/messages.go], [table/attachments.go], [table/contacts.go],
    [table/search.go] and [table/task.go]. *)

From S2P Require Import Prelude Strconv Lightspeed TableKinds.
#[local] Open Scope string_scope.

(** ** Rows of [table/contacts.go]: contacts *)

Definition LSVerifyContactRowExists : Schema := mkSchema "LSVerifyContactRowExists"
  [fld "ContactId" KInt64 "0";
   fld "ContactIdType" ContactIDType "1";
   fld "ProfilePictureUrl" KString "2";
   fld "Name" KString "3";
   fld "ContactType" KInt64 "4";
   fld "ProfilePictureFallbackUrl" KString "5";
   fld "ProfilePictureUrlExpirationTimestampMs" KInt64 "6";
   fld "UrlExpirationTimestampMs" KInt64 "7";
   fld "NormalizedNameForSearch" KString "8";
   fld "IsMemorialized" KBool "9";
   fld "IsBlocked" KBool "10";
   fld "BlockedByViewerStatus" KInt64 "11";
   fld "CanViewerMessage" KBool "12";
   fld "IsSelf" KBool "13";
   fld "AuthorityLevel" KInt64 "14";
   fld "Capabilities" KInt64 "15";
   fld "Capabilities2" KInt64 "16";
   fld "WorkForeignEntityType" KInt64 "17";
   fld "Gender" Gender "18";
   fld "ContactViewerRelationship" ContactViewerRelationship "19";
   fld "SecondaryName" KString "20";
   fld "FirstName" KString "21";
   unrecognized].

Definition LSDeleteThenInsertContact : Schema := mkSchema "LSDeleteThenInsertContact"
  [fld "Id" KInt64 "0";
   fld "ProfilePictureUrl" KString "2";
   fld "ProfilePictureFallbackUrl" KString "3";
   fld "ProfilePictureUrlExpirationTimestampMs" KInt64 "4";
   fld "ProfilePictureLargeUrl" KString "5";
   fld "ProfilePictureLargeFallbackUrl" KString "6";
   fld "ProfilePictureLargeUrlExpirationTimestampMs" KInt64 "7";
   fld "Name" KString "9";
   fld "NormalizedNameForSearch" KString "10";
   fld "IsMessengerUser" KBool "11";
   fld "IsMemorialized" KBool "12";
   fld "BlockedByViewerStatus" KInt64 "14";
   fld "Rank" KFloat64 "17";
   fld "FirstName" KString "18";
   fld "ContactType" KInt64 "19";
   fld "ContactTypeExact" KInt64 "20";
   fld "AuthorityLevel" KInt64 "21";
   fld "MessengerCallLogThirdPartyId" KString "22";
   fld "ProfileRingColor" KInt64 "23";
   fld "RequiresMultiway" KBool "24";
   fld "BlockedSinceTimestampMs" KInt64 "25";
   fld "CanViewerMessage" KBool "26";
   fld "ProfileRingColorExpirationTimestampMs" KInt64 "27";
   fld "PhoneNumber" KInt64 "28";
   fld "EmailAddress" KString "29";
   fld "WorkCompanyId" KInt64 "30";
   fld "WorkCompanyName" KString "31";
   fld "WorkJobTitle" KString "32";
   fld "NormalizedSearchTerms" KString "33";
   fld "DeviceContactId" KInt64 "34";
   fld "IsManagedByViewer" KBool "35";
   fld "WorkForeignEntityType" KInt64 "36";
   fld "Capabilities" KInt64 "37";
   fld "Capabilities2" KInt64 "38";
   fld "ContactViewerRelationship" ContactViewerRelationship "39";
   fld "Gender" Gender "40";
   fld "SecondaryName" KString "41";
   fld "Username" KString "43";
   fld "ContactReachabilityStatusType" KInt64 "44";
   fld "RestrictionType" KInt64 "45";
   fld "WaConnectStatus" KInt64 "46";
   fld "FbUnblockedSinceTimestampMs" KInt64 "47";
   fld "PageType" KInt64 "48";
   unrecognized].

Definition LSDeleteThenInsertContactPresence : Schema := mkSchema "LSDeleteThenInsertContactPresence"
  [fld "ContactId" KInt64 "0";
   fld "Status" KInt64 "1";
   fld "LastActiveTimestampMs" KInt64 "2";
   fld "ExpirationTimestampMs" KInt64 "3";
   fld "Capabilities" KInt64 "4";
   fld "PublishId" KString "5";
   unrecognized].

Definition LSDeleteThenInsertIGContactInfo : Schema := mkSchema "LSDeleteThenInsertIGContactInfo"
  [fld "ContactId" KInt64 "0";
   fld "IgId" KString "1";
   fld "LinkedFbid" KInt64 "2";
   fld "IgFollowStatus" KInt64 "4";
   fld "VerificationStatus" KInt64 "5";
   fld "E2eeEligibility" KInt64 "6";
   fld "SupportsE2eeSpamdStorage" KBool "7";
   unrecognized].

Definition LSVerifyContactParticipantExist : Schema := mkSchema "LSVerifyContactParticipantExist"
  [fld "ContactID" KInt64 "0";
   fld "ThreadKey" KInt64 "1";
   fld "Name" KString "2";
   unrecognized].

Definition LSVerifyCommunityMemberContextualProfileExists : Schema := mkSchema "LSVerifyCommunityMemberContextualProfileExists"
  [fld "ContactID" KInt64 "0";
   fld "CommunityID" KInt64 "1";
   unrecognized].

Definition LSInsertCommunityMember : Schema := mkSchema "LSInsertCommunityMember"
  [fld "CommunityID" KInt64 "0";
   fld "ContactID" KInt64 "1";
   fld "Name" KString "2";
   fld "ProfilePictureURL" KString "3";
   fld "IsAdmin" KBool "4";
   fld "IsBlocked" KBool "5";
   fld "ProfilePictureURLFallback" KString "6";
   fld "ProfilePictureURLExpirationTimestampMS" KInt64 "7";
   fld "FirstName" KString "8";
   fld "IsModerator" KBool "9";
   fld "IsMuted" KBool "10";
   fld "IsBlockedFromCommunity" KBool "11";
   fld "Source" KInt64 "12";
   fld "Subtitle" KString "13";
   fld "IsEligibleForCMInvite" KBool "14";
   fld "Nickname" KString "15";
   fld "ThreadRole" KInt64 "16";
   fld "ContactCapabilities" KInt64 "17";
   fld "ThreadRoles" KInt64 "18";
   unrecognized].

Definition LSUpdateOrInsertCommunityMember : Schema := mkSchema "LSUpdateOrInsertCommunityMember"
  [fld "CommunityID" KInt64 "0";
   fld "ContactID" KInt64 "1";
   fld "Name" KString "2";
   fld "FirstName" KString "3";
   fld "ProfilePictureURL" KString "4";
   fld "ProfilePictureURLExpirationTimestampMS" KInt64 "5";
   fld "ProfilePictureURLFallback" KString "6";
   fld "IsBlocked" KBool "7";
   fld "IsAdmin" KBool "8";
   fld "IsBlockedFromCommunity" KBool "9";
   fld "IsMuted" KBool "10";
   fld "IsCommunityMember" KBool "11";
   fld "IsModerator" KBool "13";
   fld "FetchingInfoTaskID" KInt64 "14";
   fld "AdminActions" KInt64 "15";
   fld "Source" KInt64 "16";
   fld "Nickname" KString "17";
   fld "ContactCapabilities" KInt64 "18";
   fld "ThreadRoles" KInt64 "19";
   unrecognized].

Definition LSUpsertCommunityMemberRanges : Schema := mkSchema "LSUpsertCommunityMemberRanges"
  [fld "CommunityID" KInt64 "0";
   fld "HasMoreAfter" KBool "3";
   fld "IsLoadingAfter" KBool "4";
   fld "NextPageCursor" KString "5";
   fld "MaxName" KString "6";
   fld "Source" KInt64 "7";
   unrecognized].

(** ** Rows of [table/messages.go]: messages *)

Definition LSClearPinnedMessages : Schema := mkSchema "LSClearPinnedMessages"
  [fld "ThreadKey" KInt64 "0";
   unrecognized].

Definition LSUpsertMessage : Schema := mkSchema "LSUpsertMessage"
  [fld "Text" KString "0";
   fld "SubscriptErrorMessage" KString "1";
   fld "AuthorityLevel" KInt64 "2";
   fld "ThreadKey" KInt64 "3";
   fld "TimestampMs" KInt64 "5";
   fld "PrimarySortKey" KInt64 "6";
   fld "SecondarySortKey" KInt64 "7";
   fld "MessageId" KString "8";
   fld "OfflineThreadingId" KString "9";
   fld "SenderId" KInt64 "10";
   fld "StickerId" KInt64 "11";
   fld "IsAdminMessage" KBool "12";
   fld "MessageRenderingType" KInt64 "13";
   fld "SendStatus" KInt64 "15";
   fld "SendStatusV2" KInt64 "16";
   fld "IsUnsent" KBool "17";
   fld "UnsentTimestampMs" KInt64 "18";
   fld "MentionOffsets" KString "19";
   fld "MentionLengths" KString "20";
   fld "MentionIds" KString "21";
   fld "MentionTypes" KString "22";
   fld "ReplySourceId" KString "23";
   fld "ReplySourceType" KInt64 "24";
   fld "ReplySourceTypeV2" ReplySourceTypeV2 "25";
   fld "ReplyStatus" KInt64 "26";
   fld "ReplySnippet" KString "27";
   fld "ReplyMessageText" KString "28";
   fld "ReplyToUserId" KInt64 "29";
   fld "ReplyMediaExpirationTimestampMs" KInt64 "30";
   fld "ReplyMediaUrl" KString "31";
   fld "ReplyMediaUnknownTimestampS" KInt64 "32";
   fld "ReplyMediaPreviewWidth" KInt64 "33";
   fld "ReplyMediaPreviewHeight" KInt64 "34";
   fld "ReplyMediaUrlMimeType" KString "35";
   fld "ReplyMediaUrlFallback" KString "36";
   fld "ReplyCtaId" KInt64 "37";
   fld "ReplyCtaTitle" KString "38";
   fld "ReplyAttachmentType" AttachmentType "39";
   fld "ReplyAttachmentId" KInt64 "40";
   fld "ReplyAttachmentExtra" KString "41";
   fld "ReplyType" KInt64 "42";
   fld "IsForwarded" KBool "43";
   fld "ForwardScore" KInt64 "44";
   fld "HasQuickReplies" KBool "45";
   fld "AdminMsgCtaId" KInt64 "46";
   fld "AdminMsgCtaTitle" KString "47";
   fld "AdminMsgCtaType" KString "48";
   fld "CannotUnsendReason" MessageUnsendabilityStatus "49";
   fld "TextHasLinks" KBool "50";
   fld "ViewFlags" KInt64 "51";
   fld "DisplayedContentTypes" DisplayedContentTypes "52";
   fld "ViewedPluginKey" KInt64 "53";
   fld "ViewedPluginContext" KInt64 "54";
   fld "QuickReplyType" KInt64 "55";
   fld "HotEmojiSize" KInt64 "56";
   fld "PlatformXmdEncoded" KInterface "57";
   fld "SendAttributionXmd" KInterface "58";
   fld "ReplySourceTimestampMs" KInt64 "59";
   fld "EphemeralDurationInSec" KInt64 "60";
   fld "MsUntilExpirationTs" KInt64 "61";
   fld "EphemeralExpirationTs" KInt64 "62";
   fld "TakedownState" KInterface "63";
   fld "IsCollapsed" KBool "64";
   fld "SubthreadKey" KInt64 "65";
   fld "BotResponseID" KInt64 "66";
   fld "MetadataDataclass" KInterface "67";
   fld "EditCount" KInt64 "68";
   fld "IsPaidPartnership" KInterface "69";
   fld "MessageHiddenState" KInterface "70";
   fld "AdminSignatureName" KInterface "71";
   fld "AdminSignatureProfileURL" KString "72";
   fld "AdminSignatureCreatorType" KInterface "73";
   fld "ReplyMessageHiddenState" KInterface "74";
   fld "TranslatedText" KString "75";
   fld "TextDialect" KInterface "76";
   fld "TranslatedTextDialect" KInterface "77";
   fld "ScheduledTimestamp" KInt64 "78";
   fld "IsVideoQuickSend" KBool "79";
   fld "SubthreadParentMessageID" KString "80";
   fld "IsExclusiveToSubthread" KBool "81";
   unrecognized].

Definition LSDeleteMessage : Schema := mkSchema "LSDeleteMessage"
  [fld "ThreadKey" KInt64 "0";
   fld "MessageId" KString "1"].

Definition LSHandleRepliesOnRemove : Schema := mkSchema "LSHandleRepliesOnRemove"
  [fld "ThreadKey" KInt64 "0";
   fld "MessageId" KString "1"].

Definition LSRefreshLastActivityTimestamp : Schema := mkSchema "LSRefreshLastActivityTimestamp"
  [fld "ThreadKey" KInt64 "0"].

Definition LSSetPinnedMessage : Schema := mkSchema "LSSetPinnedMessage"
  [fld "ThreadKey" KInt64 "0";
   fld "MessageId" KString "1";
   fld "PinnedTimestampMs" KInt64 "2";
   fld "AuthorityLevel" KInt64 "3"].

Definition LSSetForwardScore : Schema := mkSchema "LSSetForwardScore"
  [fld "ThreadKey" KInt64 "0";
   fld "MessageId" KString "1";
   fld "TimestampMs" KInt64 "2";
   fld "ForwardScore" KInt64 "3";
   unrecognized].

Definition LSSetMessageDisplayedContentTypes : Schema := mkSchema "LSSetMessageDisplayedContentTypes"
  [fld "ThreadKey" KInt64 "0";
   fld "MessageId" KString "1";
   fld "TimestampMs" KInt64 "2";
   fld "Text" KString "3";
   fld "Calc1" KBool "4";
   fld "Calc2" KBool "5";
   unrecognized].

Definition LSInsertNewMessageRange : Schema := mkSchema "LSInsertNewMessageRange"
  [fld "ThreadKey" KInt64 "0";
   fld "MinTimestampMsTemplate" KInt64 "1";
   fld "MaxTimestampMsTemplate" KInt64 "2";
   fld "MinMessageId" KString "3";
   fld "MaxMessageId" KString "4";
   fld "MinTimestampMs" KInt64 "5";
   fld "MaxTimestampMs" KInt64 "6";
   fld "HasMoreBefore" KBool "7";
   fld "HasMoreAfter" KBool "8";
   fld "Unknown" KInterface "9";
   unrecognized].

Definition LSUpdateExistingMessageRange : Schema := mkSchema "LSUpdateExistingMessageRange"
  [fld "ThreadKey" KInt64 "0";
   fld "TimestampMS" KInt64 "1";
   fld "UnknownBool2" KBool "2";
   fld "UnknownBool3" KBool "3"].

Definition LSDeleteExistingMessageRanges : Schema := mkSchema "LSDeleteExistingMessageRanges"
  [fld "ConsistentThreadFbid" KInt64 "0";
   unrecognized].

Definition LSCheckAuthoritativeMessageExists : Schema := mkSchema "LSCheckAuthoritativeMessageExists"
  [fld "ThreadKey" KInt64 "0";
   fld "OfflineThreadingId" KString "1";
   unrecognized].

Definition LSUpdateParticipantLastMessageSendTimestamp : Schema := mkSchema "LSUpdateParticipantLastMessageSendTimestamp"
  [fld "ThreadKey" KInt64 "0";
   fld "SenderId" KInt64 "1";
   fld "Timestamp" KInt64 "2";
   unrecognized].

Definition LSInsertMessage : Schema := mkSchema "LSInsertMessage"
  [fld "Text" KString "0";
   fld "SubscriptErrorMessage" KString "1";
   fld "AuthorityLevel" KInt64 "2";
   fld "ThreadKey" KInt64 "3";
   fld "TimestampMs" KInt64 "5";
   fld "PrimarySortKey" KInt64 "6";
   fld "SecondarySortKey" KInt64 "7";
   fld "MessageId" KString "8";
   fld "OfflineThreadingId" KString "9";
   fld "SenderId" KInt64 "10";
   fld "StickerId" KInt64 "11";
   fld "IsAdminMessage" KBool "12";
   fld "MessageRenderingType" KInt64 "13";
   fld "SendStatus" KInt64 "15";
   fld "SendStatusV2" KInt64 "16";
   fld "IsUnsent" KBool "17";
   fld "UnsentTimestampMs" KInt64 "18";
   fld "MentionOffsets" KString "19";
   fld "MentionLengths" KString "20";
   fld "MentionIds" KString "21";
   fld "MentionTypes" KString "22";
   fld "ReplySourceId" KString "23";
   fld "ReplySourceType" KInt64 "24";
   fld "ReplySourceTypeV2" ReplySourceTypeV2 "25";
   fld "ReplyStatus" KInt64 "26";
   fld "ReplySnippet" KString "27";
   fld "ReplyMessageText" KString "28";
   fld "ReplyToUserId" KInt64 "29";
   fld "ReplyMediaExpirationTimestampMs" KInt64 "30";
   fld "ReplyMediaUrl" KString "31";
   fld "ReplyMediaUnknownTimestampS" KInt64 "32";
   fld "ReplyMediaPreviewWidth" KInt64 "33";
   fld "ReplyMediaPreviewHeight" KInt64 "34";
   fld "ReplyMediaUrlMimeType" KString "35";
   fld "ReplyMediaUrlFallback" KString "36";
   fld "ReplyCtaId" KInt64 "37";
   fld "ReplyCtaTitle" KString "38";
   fld "ReplyAttachmentType" AttachmentType "39";
   fld "ReplyAttachmentId" KInt64 "40";
   fld "ReplyAttachmentExtra" KString "41";
   fld "ReplyType" KInterface "42";
   fld "IsForwarded" KBool "43";
   fld "ForwardScore" KInt64 "44";
   fld "HasQuickReplies" KBool "45";
   fld "AdminMsgCtaId" KInt64 "46";
   fld "AdminMsgCtaTitle" KString "47";
   fld "AdminMsgCtaType" KString "48";
   fld "CannotUnsendReason" MessageUnsendabilityStatus "49";
   fld "TextHasLinks" KBool "50";
   fld "ViewFlags" KInt64 "51";
   fld "DisplayedContentTypes" DisplayedContentTypes "52";
   fld "ViewedPluginKey" KInt64 "53";
   fld "ViewedPluginContext" KInt64 "54";
   fld "QuickReplyType" KInt64 "55";
   fld "HotEmojiSize" KInt64 "56";
   fld "PlatformXmdEncoded" KInterface "57";
   fld "SendAttributionXmd" KInterface "58";
   fld "ReplySourceTimestampMs" KInt64 "59";
   fld "EphemeralDurationInSec" KInt64 "60";
   fld "MsUntilExpirationTs" KInt64 "61";
   fld "EphemeralExpirationTs" KInt64 "62";
   fld "TakedownState" KInterface "63";
   fld "IsCollapsed" KBool "64";
   fld "SubthreadKey" KInt64 "65";
   fld "BotResponseID" KInt64 "66";
   fld "MetadataDataclass" KInterface "67";
   fld "EditCount" KInt64 "68";
   fld "IsPaidPartnership" KInterface "69";
   fld "AdminSignatureName" KInterface "70";
   fld "AdminSignatureProfileURL" KString "71";
   fld "AdminSignatureCreatorType" KInterface "72";
   fld "ReplyMessageHiddenState" KInterface "73";
   fld "TranslatedText" KString "74";
   fld "TextDialect" KInterface "75";
   fld "TranslatedTextDialect" KInterface "76";
   fld "ScheduledTimestamp" KInt64 "77";
   fld "IsVideoQuickSend" KBool "78";
   fld "SubthreadParentMessageID" KString "79";
   fld "IsExclusiveToSubthread" KBool "80";
   unrecognized].

Definition LSUpsertReaction : Schema := mkSchema "LSUpsertReaction"
  [fld "ThreadKey" KInt64 "0";
   fld "TimestampMs" KInt64 "1";
   fld "MessageId" KString "2";
   fld "ActorId" KInt64 "3";
   fld "Reaction" KString "4";
   fld "AuthorityLevel" KInt64 "5";
   unrecognized].

Definition LSUpdateOrInsertReactionV2 : Schema := mkSchema "LSUpdateOrInsertReactionV2"
  [fld "ThreadKey" KInt64 "0";
   fld "MessageID" KString "1";
   fld "ReactionFBID" KInt64 "2";
   fld "ReactionLiteral" KString "3";
   fld "Count" KInt64 "4";
   fld "AuthorityLevel" KInt64 "5";
   fld "ViewerIsReactor" KBool "6";
   fld "ViewerReactionTimestampMS" KInt64 "7";
   fld "LastUpdatedTimestampMS" KInt64 "8";
   unrecognized].

Definition LSDeleteReactionV2 : Schema := mkSchema "LSDeleteReactionV2"
  [fld "ThreadKey" KInt64 "0";
   fld "MessageID" KString "1";
   fld "ReactionFBID" KInt64 "2";
   fld "LastUpdatedTimestampMS" KInt64 "3";
   unrecognized].

Definition LSDeleteThenInsertReactionsV2Detail : Schema := mkSchema "LSDeleteThenInsertReactionsV2Detail"
  [fld "ThreadID" KInt64 "0";
   fld "MessageID" KString "1";
   fld "ReactorID" KInt64 "2";
   fld "ReactionFBID" KInt64 "3";
   fld "FullName" KString "4";
   fld "ProfilePictureURL" KString "5";
   fld "ProfilePictureFallbackURL" KString "6";
   fld "ProfilePictureURLExpirationTimestampMS" KInt64 "7";
   fld "TimestampMS" KInt64 "8";
   fld "SecondaryName" KString "9"].

Definition LSDeleteReaction : Schema := mkSchema "LSDeleteReaction"
  [fld "ThreadKey" KInt64 "0";
   fld "MessageId" KString "1";
   fld "ActorId" KInt64 "2";
   unrecognized].

Definition LSHandleRepliesOnUnsend : Schema := mkSchema "LSHandleRepliesOnUnsend"
  [fld "ThreadKey" KInt64 "0";
   fld "MessageId" KString "1";
   unrecognized].

Definition LSHandleRepliesOnMessageEdit : Schema := mkSchema "LSHandleRepliesOnMessageEdit"
  [fld "ThreadKey" KInt64 "0";
   fld "MessageId" KString "1";
   unrecognized].

Definition LSUpdateForRollCallMessageDeleted : Schema := mkSchema "LSUpdateForRollCallMessageDeleted"
  [fld "MessageId" KString "0";
   fld "ContributorId" KInt64 "1";
   unrecognized].

Definition LSUpdateUnsentMessageCollapsedStatus : Schema := mkSchema "LSUpdateUnsentMessageCollapsedStatus"
  [fld "ThreadKey" KInt64 "0";
   fld "MessageId" KString "1";
   fld "TimestampMs" KInt64 "2";
   unrecognized].

Definition LSUpdateOrInsertEditMessageHistory : Schema := mkSchema "LSUpdateOrInsertEditMessageHistory"
  [fld "OriginalMessageID" KString "0";
   fld "ThreadKey" KInt64 "1";
   fld "ServerAdjustedEditTimestampMS" KInt64 "2";
   fld "MessageContent" KString "3";
   fld "SendStatus" KInt64 "4"].

Definition LSDeleteThenInsertMessage : Schema := mkSchema "LSDeleteThenInsertMessage"
  [fld "Text" KString "0";
   fld "SubscriptErrorMessage" KString "1";
   fld "AuthorityLevel" KInt64 "2";
   fld "ThreadKey" KInt64 "3";
   fld "TimestampMs" KInt64 "5";
   fld "PrimarySortKey" KInt64 "6";
   fld "SecondarySortKey" KInt64 "7";
   fld "MessageId" KString "8";
   fld "OfflineThreadingId" KString "9";
   fld "SenderId" KInt64 "10";
   fld "StickerId" KInt64 "11";
   fld "IsAdminMessage" KBool "12";
   fld "MessageRenderingType" KInt64 "13";
   fld "SendStatus" KInt64 "15";
   fld "SendStatusV2" KInt64 "16";
   fld "IsUnsent" KBool "17";
   fld "UnsentTimestampMs" KInt64 "18";
   fld "MentionOffsets" KString "19";
   fld "MentionLengths" KString "20";
   fld "MentionIds" KString "21";
   fld "MentionTypes" KString "22";
   fld "ReplySourceId" KString "23";
   fld "ReplySourceType" KInt64 "24";
   fld "ReplySourceTypeV2" ReplySourceTypeV2 "25";
   fld "ReplyStatus" KInt64 "26";
   fld "ReplySnippet" KString "27";
   fld "ReplyMessageText" KString "28";
   fld "ReplyToUserId" KInt64 "29";
   fld "ReplyMediaExpirationTimestampMs" KInt64 "30";
   fld "ReplyMediaUrl" KString "31";
   fld "ReplyMediaUnknownTimestampS" KInt64 "32";
   fld "ReplyMediaPreviewWidth" KInt64 "33";
   fld "ReplyMediaPreviewHeight" KInt64 "34";
   fld "ReplyMediaUrlMimeType" KString "35";
   fld "ReplyMediaUrlFallback" KString "36";
   fld "ReplyCtaId" KInt64 "37";
   fld "ReplyCtaTitle" KString "38";
   fld "ReplyAttachmentType" AttachmentType "39";
   fld "ReplyAttachmentId" KInt64 "40";
   fld "ReplyAttachmentExtra" KString "41";
   fld "IsForwarded" KBool "42";
   fld "ForwardScore" KInt64 "43";
   fld "HasQuickReplies" KBool "44";
   fld "AdminMsgCtaId" KInt64 "45";
   fld "AdminMsgCtaTitle" KString "46";
   fld "AdminMsgCtaType" KString "47";
   fld "CannotUnsendReason" MessageUnsendabilityStatus "48";
   fld "TextHasLinks" KBool "49";
   fld "ViewFlags" KInt64 "50";
   fld "DisplayedContentTypes" DisplayedContentTypes "51";
   fld "ViewedPluginKey" KInt64 "52";
   fld "ViewedPluginContext" KInt64 "53";
   fld "QuickReplyType" KInt64 "54";
   fld "HotEmojiSize" KInt64 "55";
   fld "PlatformXmdEncoded" KInterface "56";
   fld "SendAttributionXmd" KInterface "57";
   fld "ReplySourceTimestampMs" KInt64 "58";
   fld "EphemeralDurationInSec" KInt64 "59";
   fld "MsUntilExpirationTs" KInt64 "60";
   fld "EphemeralExpirationTs" KInt64 "61";
   fld "TakedownState" KInterface "62";
   fld "IsCollapsed" KBool "63";
   fld "SubthreadKey" KInt64 "64";
   fld "BotResponseID" KInt64 "65";
   fld "MetadataDataclass" KInterface "66";
   fld "EditCount" KInt64 "67";
   fld "IsPaidPartnership" KInterface "68";
   fld "AdminSignatureName" KInterface "69";
   fld "AdminSignatureProfileURL" KString "70";
   fld "AdminSignatureCreatorType" KInterface "71";
   fld "ReplyMessageHiddenState" KInterface "72";
   fld "TranslatedText" KString "73";
   fld "TextDialect" KInterface "74";
   fld "TranslatedTextDialect" KInterface "75";
   fld "ScheduledTimestamp" KInt64 "76";
   fld "IsVideoQuickSend" KBool "77";
   fld "SubthreadParentMessageID" KString "78";
   fld "IsExclusiveToSubthread" KBool "79";
   unrecognized].

Definition LSEditMessage : Schema := mkSchema "LSEditMessage"
  [fld "MessageID" KString "0";
   fld "AuthorityLevel" KInt64 "1";
   fld "Text" KString "2";
   fld "EditCount" KInt64 "3";
   unrecognized].

Definition LSReplaceOptimsiticMessage : Schema := mkSchema "LSReplaceOptimsiticMessage"
  [fld "OfflineThreadingId" KString "0";
   fld "MessageId" KString "1";
   unrecognized].

Definition LSSetMessageTextHasLinks : Schema := mkSchema "LSSetMessageTextHasLinks"
  [fld "ThreadKey" KInt64 "0";
   fld "MessageId" KString "1";
   fld "TimestampMs" KInt64 "2";
   unrecognized].

Definition LSUpdateMessagesOptimisticContext : Schema := mkSchema "LSUpdateMessagesOptimisticContext"
  [unrecognized].

Definition LSReplaceOptimisticReaction : Schema := mkSchema "LSReplaceOptimisticReaction"
  [fld "ThreadKey" KInt64 "0";
   fld "ActorId" KInt64 "1";
   fld "MessageId" KString "2";
   unrecognized].

Definition LSDeleteThenInsertMessageRequest : Schema := mkSchema "LSDeleteThenInsertMessageRequest"
  [fld "ThreadKey" KInt64 "0";
   fld "Unknown" KInt64 "1";
   fld "MessageRequestStatus" KInt64 "2";
   unrecognized].

Definition LSMarkOptimisticMessageFailed : Schema := mkSchema "LSMarkOptimisticMessageFailed"
  [fld "OTID" KString "0";
   fld "Message" KString "1";
   unrecognized].

Definition LSHandleFailedTask : Schema := mkSchema "LSHandleFailedTask"
  [fld "TaskID" KInt64 "0";
   fld "OTID" KString "1";
   fld "Message" KString "2";
   unrecognized].

Definition LSUpdateSubscriptErrorMessage : Schema := mkSchema "LSUpdateSubscriptErrorMessage"
  [fld "ThreadKey" KInt64 "0";
   fld "OTID" KString "1";
   fld "Message" KString "2";
   unrecognized].

Definition LSIssueNewError : Schema := mkSchema "LSIssueNewError"
  [fld "TaskID" KInt64 "0";
   fld "ErrorCode" KInt64 "1";
   fld "ErrorTitle" KString "2";
   fld "ErrorMessage" KString "3";
   unrecognized].

Definition LSRemoveOptimisticGroupThread : Schema := mkSchema "LSRemoveOptimisticGroupThread"
  [fld "ThreadKey" KInt64 "0";
   unrecognized].

Definition LSUpdateSubThreadXMA : Schema := mkSchema "LSUpdateSubThreadXMA"
  [fld "ParentThreadKey" KInt64 "0";
   fld "ThreadKey" KInt64 "1";
   fld "ReplyCount" KInt64 "2"].

Definition LSSetNumUnreadSubthreads : Schema := mkSchema "LSSetNumUnreadSubthreads"
  [fld "ThreadKey" KInt64 "0";
   fld "NumUnread" KInt64 "1"].

(** ** Rows of [table/attachments.go]: attachments *)

Definition LSInsertAttachment : Schema := mkSchema "LSInsertAttachment"
  [fld "Filename" KString "1";
   fld "Filesize" KInt64 "2";
   fld "HasMedia" KBool "3";
   fld "IsSharable" KBool "4";
   fld "PlayableUrl" KString "5";
   fld "PlayableUrlFallback" KString "6";
   fld "PlayableUrlExpirationTimestampMs" KInt64 "7";
   fld "PlayableUrlMimeType" KString "8";
   fld "DashManifest" KInterface "9";
   fld "PreviewUrl" KString "10";
   fld "PreviewUrlFallback" KString "11";
   fld "PreviewUrlExpirationTimestampMs" KInt64 "12";
   fld "PreviewUrlMimeType" KString "13";
   fld "UnknownExpirationTimestamp" KInt64 "14";
   fld "MiniPreview" KInterface "15";
   fld "PreviewWidth" KInt64 "16";
   fld "PreviewHeight" KInt64 "17";
   fld "ImageUrlMimeType" KString "18";
   fld "AttributionAppId" KInt64 "19";
   fld "AttributionAppName" KString "20";
   fld "AttributionAppIcon" KString "21";
   fld "AttributionAppIconFallback" KString "22";
   fld "AttributionAppIconUrlExpirationTimestampMs" KInt64 "23";
   fld "LocalPlayableUrl" KString "24";
   fld "PlayableDurationMs" KInt64 "25";
   fld "AttachmentIndex" KInt64 "26";
   fld "DecryptionKey" KString "27";
   fld "AccessibilitySummaryText" KString "28";
   fld "IsPreviewImage" KBool "29";
   fld "OriginalFileHash" KString "30";
   fld "ShouldRespectServerPreviewSize" KBool "31";
   fld "ThreadKey" KInt64 "32";
   fld "UnknownInt64_33" KInt64 "33";
   fld "AttachmentType" AttachmentType "34";
   fld "AttachmentMimeType" KString "35";
   fld "TimestampMs" KInt64 "36";
   fld "MessageId" KString "37";
   fld "OfflineAttachmentId" KString "38";
   fld "AttachmentFbid" KString "39";
   fld "HasXma" KBool "40";
   fld "XmaLayoutType" KInt64 "41";
   fld "XmasTemplateType" KInt64 "42";
   fld "CollapsibleId" KInt64 "43";
   fld "DefaultCtaId" KInt64 "44";
   fld "DefaultCtaTitle" KString "45";
   fld "DefaultCtaType" KInt64 "46";
   fld "AttachmentCta1Id" KInt64 "48";
   fld "Cta1Title" KString "49";
   fld "Cta1IconType" KInt64 "50";
   fld "Cta1Type" KString "51";
   fld "AttachmentCta2Id" KInt64 "53";
   fld "Cta2Title" KString "54";
   fld "Cta2IconType" KInt64 "55";
   fld "Cta2Type" KString "56";
   fld "AttachmentCta3Id" KInt64 "58";
   fld "Cta3Title" KString "59";
   fld "Cta3IconType" KInt64 "60";
   fld "Cta3Type" KString "61";
   fld "ImageUrl" KString "62";
   fld "ImageUrlFallback" KString "63";
   fld "ImageUrlExpirationTimestampMs" KInt64 "64";
   fld "ActionUrl" KString "65";
   fld "TitleText" KString "66";
   fld "SubtitleText" KString "67";
   fld "MaxTitleNumOfLines" KInt64 "68";
   fld "MaxSubtitleNumOfLines" KInt64 "69";
   fld "DescriptionText" KString "70";
   fld "SourceText" KString "71";
   fld "FaviconUrl" KString "72";
   fld "FaviconUrlFallback" KString "73";
   fld "FaviconUrlExpirationTimestampMs" KInt64 "74";
   fld "OriginalPageSenderId" KInt64 "75";
   fld "UnknownInt64_76" KInt64 "76";
   fld "ListItemsId" KInt64 "77";
   fld "ListItemsDescriptionText" KString "78";
   fld "ListItemsSecondaryDescriptionText" KString "79";
   fld "ListItemId1" KInt64 "80";
   fld "ListItemTitleText1" KString "81";
   fld "ListItemContactUrlList1" KInterface "82";
   fld "ListItemProgressBarFilledPercentage1" KInterface "83";
   fld "ListItemContactUrlExpirationTimestampList1" KInterface "84";
   fld "ListItemContactUrlFallbackList1" KInterface "85";
   fld "ListItemTotalCount1" KInt64 "86";
   fld "ListItemId2" KInt64 "87";
   fld "ListItemTitleText2" KString "88";
   fld "ListItemContactUrlList2" KInterface "89";
   fld "ListItemProgressBarFilledPercentage2" KInterface "90";
   fld "ListItemContactUrlExpirationTimestampList2" KInterface "91";
   fld "ListItemContactUrlFallbackList2" KInterface "92";
   fld "ListItemTotalCount2" KInt64 "93";
   fld "ListItemId3" KInt64 "94";
   fld "ListItemTitleText3" KString "95";
   fld "ListItemContactUrlList3" KInterface "96";
   fld "ListItemProgressBarFilledPercentage3" KInterface "97";
   fld "ListItemContactUrlExpirationTimestampList3" KInterface "98";
   fld "ListItemContactUrlFallbackList3" KInterface "99";
   fld "ListItemTotalCount3" KInt64 "100";
   fld "IsBorderless" KBool "101";
   fld "HeaderImageUrlMimeType" KString "102";
   fld "HeaderTitle" KString "103";
   fld "HeaderSubtitleText" KString "104";
   fld "HeaderImageUrl" KString "105";
   fld "HeaderImageUrlFallback" KString "106";
   fld "HeaderImageUrlExpirationTimestampMs" KInt64 "107";
   fld "PreviewImageDecorationType" KInt64 "108";
   fld "ShouldHighlightHeaderTitleInTitle" KBool "109";
   fld "TargetId" KInt64 "110";
   fld "EphemeralMediaState" EphemeralMediaState "114";
   fld "EphemeralMediaViewMode" EphemeralMediaViewMode "115";
   fld "ViewerSeenTimestampMs" KInt64 "116";
   fld "BodyText" KString "117";
   fld "GatingType" KInt64 "118";
   fld "GatingTitle" KString "119";
   fld "TargetExpiryTimestampMs" KInt64 "120";
   fld "CountdownTimestampMs" KInt64 "121";
   fld "ShouldBlurSubattachments" KBool "122";
   fld "FooterTitle" KString "123";
   fld "VerifiedType" KInt64 "124";
   fld "IgStoryReplyType" KInt64 "125";
   fld "IsAttachmentConsumed" KBool "126";
   fld "PlayableAudioURL" KString "127";
   fld "StickerType" KInterface "128";
   fld "LoggingGenericXMAContentType" KString "129";
   fld "LoggingGenericXMAContentIDV2" KString "130";
   fld "GIFPlayback" KBool "131";
   fld "AuthorityLevel" KInt64 "132";
   unrecognized].

Definition LSUpdateExtraAttachmentColumns : Schema := mkSchema "LSUpdateExtraAttachmentColumns"
  [fld "ThreadKey" KInt64 "0";
   fld "UnknownInt64" KInt64 "1";
   fld "MessageID" KString "2";
   fld "AttachmentFBID" KString "3";
   fld "ListItemAccessibilityText1" KString "4";
   fld "ListItemAccessibilityText2" KString "5";
   fld "ListItemAccessibilityText3" KString "6";
   fld "AvatarViewURLList" KInterface "10";
   fld "AvatarViewURLExpirationTimestampList" KInterface "11";
   fld "AvatarViewURLFallbackList" KInterface "12";
   fld "AvatarViewTitleList" KInterface "13";
   fld "AvatarViewSize" KInt64 "14";
   fld "AvatarCount" KInt64 "15";
   fld "AvatarViewContentText" KString "16";
   fld "SubtitleIconURL" KString "17";
   fld "AttachmentLoggingType" KInt64 "18";
   fld "PreheaderText" KString "19";
   fld "ShouldAutoplayVideo" KBool "20";
   fld "PreviewURLLarge" KString "21";
   fld "PreviewWidthLarge" KInt64 "24";
   fld "PreviewHeightLarge" KInt64 "25";
   unrecognized].

Definition LSInsertStickerAttachment : Schema := mkSchema "LSInsertStickerAttachment"
  [fld "PlayableUrl" KString "0";
   fld "PlayableUrlFallback" KString "1";
   fld "PlayableUrlExpirationTimestampMs" KInt64 "2";
   fld "PlayableUrlMimeType" KString "3";
   fld "PreviewUrl" KString "4";
   fld "PreviewUrlFallback" KString "5";
   fld "PreviewUrlExpirationTimestampMs" KInt64 "6";
   fld "PreviewUrlMimeType" KString "7";
   fld "PreviewWidth" KInt64 "9";
   fld "PreviewHeight" KInt64 "10";
   fld "ImageUrlMimeType" KString "11";
   fld "AttachmentIndex" KInt64 "12";
   fld "AccessibilitySummaryText" KString "13";
   fld "ThreadKey" KInt64 "14";
   fld "TimestampMs" KInt64 "17";
   fld "MessageId" KString "18";
   fld "AttachmentFbid" KString "19";
   fld "ImageUrl" KString "20";
   fld "ImageUrlFallback" KString "21";
   fld "ImageUrlExpirationTimestampMs" KInt64 "22";
   fld "FaviconUrlExpirationTimestampMs" KInt64 "23";
   fld "AvatarViewSize" KInt64 "25";
   fld "AvatarCount" KInt64 "26";
   fld "TargetId" KInt64 "27";
   fld "MustacheText" KString "30";
   fld "AuthorityLevel" KInt64 "31";
   unrecognized].

Definition LSInsertXmaAttachment : Schema := mkSchema "LSInsertXmaAttachment"
  [fld "Filename" KString "1";
   fld "Filesize" KInt64 "2";
   fld "IsSharable" KBool "3";
   fld "PlayableUrl" KString "4";
   fld "PlayableUrlFallback" KString "5";
   fld "PlayableUrlExpirationTimestampMs" KInt64 "6";
   fld "PlayableUrlMimeType" KString "7";
   fld "PreviewUrl" KString "8";
   fld "PreviewUrlFallback" KString "9";
   fld "PreviewUrlExpirationTimestampMs" KInt64 "10";
   fld "PreviewUrlMimeType" KString "11";
   fld "PreviewWidth" KInt64 "13";
   fld "PreviewHeight" KInt64 "14";
   fld "AttributionAppId" KInt64 "15";
   fld "AttributionAppName" KString "16";
   fld "AttributionAppIcon" KInt64 "17";
   fld "AttributionAppIconFallback" KString "18";
   fld "AttributionAppIconUrlExpirationTimestampMs" KInt64 "19";
   fld "AttachmentIndex" KInt64 "20";
   fld "AccessibilitySummaryText" KString "21";
   fld "ShouldRespectServerPreviewSize" KBool "22";
   fld "SubtitleIconUrl" KString "23";
   fld "ShouldAutoplayVideo" KBool "24";
   fld "ThreadKey" KInt64 "25";
   fld "AttachmentType" AttachmentType "27";
   fld "TimestampMs" KInt64 "29";
   fld "MessageId" KString "30";
   fld "OfflineAttachmentId" KInt64 "31";
   fld "AttachmentFbid" KString "32";
   fld "XmaLayoutType" KInt64 "33";
   fld "XmasTemplateType" KInt64 "34";
   fld "CollapsibleId" KInt64 "35";
   fld "DefaultCtaId" KInt64 "36";
   fld "DefaultCtaTitle" KString "37";
   fld "DefaultCtaType" KInt64 "38";
   fld "AttachmentCta1Id" KInt64 "40";
   fld "Cta1Title" KString "41";
   fld "Cta1IconType" KInt64 "42";
   fld "Cta1Type" KString "43";
   fld "AttachmentCta2Id" KInt64 "45";
   fld "Cta2Title" KString "46";
   fld "Cta2IconType" KInt64 "47";
   fld "Cta2Type" KString "48";
   fld "AttachmentCta3Id" KInt64 "50";
   fld "Cta3Title" KString "51";
   fld "Cta3IconType" KInt64 "52";
   fld "Cta3Type" KString "53";
   fld "ImageUrl" KString "54";
   fld "ImageUrlFallback" KString "55";
   fld "ImageUrlExpirationTimestampMs" KInt64 "56";
   fld "ActionUrl" KString "57";
   fld "TitleText" KString "58";
   fld "SubtitleText" KString "59";
   fld "SubtitleDecorationType" KInt64 "60";
   fld "MaxTitleNumOfLines" KInt64 "61";
   fld "MaxSubtitleNumOfLines" KInt64 "62";
   fld "DescriptionText" KString "63";
   fld "SourceText" KString "64";
   fld "FaviconUrl" KString "65";
   fld "FaviconUrlFallback" KString "66";
   fld "FaviconUrlExpirationTimestampMs" KInt64 "67";
   fld "ListItemsId" KInt64 "69";
   fld "ListItemsDescriptionText" KString "70";
   fld "ListItemsDescriptionSubtitleText" KString "71";
   fld "ListItemsSecondaryDescriptionText" KString "72";
   fld "ListItemId1" KInt64 "73";
   fld "ListItemTitleText1" KString "74";
   fld "ListItemContactUrlList1" KString "75";
   fld "ListItemProgressBarFilledPercentage1" KInt64 "76";
   fld "ListItemContactUrlExpirationTimestampList1" KString "77";
   fld "ListItemContactUrlFallbackList1" KString "78";
   fld "ListItemAccessibilityText1" KString "79";
   fld "ListItemTotalCount1" KInt64 "80";
   fld "ListItemId2" KInt64 "81";
   fld "ListItemTitleText2" KString "82";
   fld "ListItemContactUrlList2" KString "83";
   fld "ListItemProgressBarFilledPercentage2" KInt64 "84";
   fld "ListItemContactUrlExpirationTimestampList2" KString "85";
   fld "ListItemContactUrlFallbackList2" KString "86";
   fld "ListItemAccessibilityText2" KString "87";
   fld "ListItemTotalCount2" KInt64 "88";
   fld "ListItemId3" KInt64 "89";
   fld "ListItemTitleText3" KString "90";
   fld "ListItemContactUrlList3" KString "91";
   fld "ListItemProgressBarFilledPercentage3" KInt64 "92";
   fld "ListItemContactUrlExpirationTimestampList3" KString "93";
   fld "ListItemContactUrlFallbackList3" KString "94";
   fld "ListItemAccessibilityText3" KString "95";
   fld "ListItemTotalCount3" KInt64 "96";
   fld "IsBorderless" KBool "100";
   fld "HeaderImageUrlMimeType" KString "101";
   fld "HeaderTitle" KString "102";
   fld "HeaderSubtitleText" KString "103";
   fld "HeaderImageUrl" KString "104";
   fld "HeaderImageUrlFallback" KString "105";
   fld "HeaderImageUrlExpirationTimestampMs" KInt64 "106";
   fld "PreviewImageDecorationType" KInt64 "107";
   fld "ShouldHighlightHeaderTitleInTitle" KBool "108";
   fld "TargetId" KInt64 "109";
   fld "XMATypeOne" KString "110";
   fld "XMATypeTwo" KString "111";
   fld "AttachmentLoggingType" KInt64 "112";
   fld "PreviewUrlLarge" KString "114";
   fld "BodyText" KString "115";
   fld "GatingType" KInt64 "116";
   fld "GatingTitle" KString "117";
   fld "TargetExpiryTimestampMs" KInt64 "118";
   fld "CountdownTimestampMs" KInt64 "119";
   fld "ShouldBlurSubattachments" KInt64 "120";
   fld "FooterTitle" KString "121";
   fld "VerifiedType" KInt64 "122";
   fld "CaptionBodyText" KString "123";
   fld "IsPublicXma" KBool "124";
   fld "ReplyCount" KInt64 "125";
   fld "PlayableAudioURL" KString "126";
   fld "XmaDataclass" KString "127";
   fld "PreviewOverlayCountdownExpiry" KString "128";
   fld "StickerType" KInterface "129";
   fld "LoggingGenericXMAContentType" KString "130";
   fld "LoggingGenericXMAContentIDV2" KString "131";
   fld "AuthorityLevel" KInt64 "132";
   unrecognized].

Definition LSAddPollForThread : Schema := mkSchema "LSAddPollForThread"
  [fld "PollID" KInt64 "0";
   fld "ThreadKey" KInt64 "1";
   fld "LastUpdateMessageID" KString "2";
   fld "LastUpdateMessageTimestampMS" KInt64 "3";
   fld "LastUpdateMessageEventType" KInt64 "4";
   unrecognized].

Definition LSAddPollOption : Schema := mkSchema "LSAddPollOption"
  [fld "OptionID" KInt64 "0";
   fld "PollID" KInt64 "1";
   fld "OptionText" KString "2";
   fld "SortKeyVotingTimestamp" KInt64 "3";
   fld "SortKeyCreationTimestamp" KInt64 "4";
   unrecognized].

Definition LSAddPollVote : Schema := mkSchema "LSAddPollVote"
  [fld "OptionID" KInt64 "0";
   fld "PollID" KInt64 "1";
   fld "ContactID" KInt64 "2";
   fld "TimestampMS" KInt64 "3";
   fld "VoteCount" KInt64 "4";
   fld "ThreadKey" KInt64 "5";
   fld "MessageID" KString "6";
   fld "UnknownInt" KInt64 "7"].

Definition LSInsertBlobAttachment : Schema := mkSchema "LSInsertBlobAttachment"
  [fld "Filename" KString "0";
   fld "Filesize" KInt64 "1";
   fld "HasMedia" KBool "2";
   fld "PlayableUrl" KString "3";
   fld "PlayableUrlFallback" KString "4";
   fld "PlayableUrlExpirationTimestampMs" KInt64 "5";
   fld "PlayableUrlMimeType" KString "6";
   fld "DashManifest" KString "7";
   fld "PreviewUrl" KString "8";
   fld "PreviewUrlFallback" KString "9";
   fld "PreviewUrlExpirationTimestampMs" KInt64 "10";
   fld "PreviewUrlMimeType" KString "11";
   fld "UnknownExpirationTimestamp" KInt64 "12";
   fld "MiniPreview" KInt64 "13";
   fld "PreviewWidth" KInt64 "14";
   fld "PreviewHeight" KInt64 "15";
   fld "AttributionAppId" KInt64 "16";
   fld "AttributionAppName" KString "17";
   fld "AttributionAppIcon" KString "18";
   fld "AttributionAppIconFallback" KInt64 "19";
   fld "AttributionAppIconUrlExpirationTimestampMs" KInt64 "20";
   fld "LocalPlayableUrl" KInt64 "21";
   fld "PlayableDurationMs" KInt64 "22";
   fld "AttachmentIndex" KInt64 "23";
   fld "AccessibilitySummaryText" KInt64 "24";
   fld "IsPreviewImage" KBool "25";
   fld "OriginalFileHash" KString "26";
   fld "ThreadKey" KInt64 "27";
   fld "AttachmentType" AttachmentType "29";
   fld "AttachmentMimeType" KString "30";
   fld "TimestampMs" KInt64 "31";
   fld "MessageId" KString "32";
   fld "OfflineAttachmentId" KString "33";
   fld "AttachmentFbid" KString "34";
   fld "HasXma" KBool "35";
   fld "XmaLayoutType" KInt64 "36";
   fld "XmasTemplateType" KInt64 "37";
   fld "TitleText" KString "38";
   fld "SubtitleText" KString "39";
   fld "DescriptionText" KString "40";
   fld "SourceText" KString "41";
   fld "FaviconUrlExpirationTimestampMs" KInt64 "42";
   fld "IsBorderless" KBool "44";
   fld "PreviewUrlLarge" KString "45";
   fld "SamplingFrequencyHz" KInt64 "46";
   fld "WaveformData" KString "47";
   fld "AuthorityLevel" KInt64 "48";
   unrecognized].

Definition LSInsertAttachmentItem : Schema := mkSchema "LSInsertAttachmentItem"
  [fld "AttachmentFbid" KString "0";
   fld "AttachmentIndex" KInt64 "1";
   fld "ThreadKey" KInt64 "2";
   fld "MessageId" KString "4";
   fld "OriginalPageSenderId" KInt64 "7";
   fld "TitleText" KString "8";
   fld "SubtitleText" KString "9";
   fld "PlayableUrl" KString "13";
   fld "PlayableUrlFallback" KString "14";
   fld "PlayableUrlExpirationTimestampMs" KInt64 "15";
   fld "PlayableUrlMimeType" KString "16";
   fld "DashManifest" KString "17";
   fld "PreviewUrl" KString "18";
   fld "PreviewUrlFallback" KString "19";
   fld "PreviewUrlExpirationTimestampMs" KInt64 "20";
   fld "PreviewUrlMimeType" KString "21";
   fld "PreviewWidth" KInt64 "22";
   fld "PreviewHeight" KInt64 "23";
   fld "ImageUrl" KString "24";
   fld "DefaultCtaId" KInt64 "25";
   fld "DefaultCtaTitle" KString "26";
   fld "DefaultCtaType" KInt64 "27";
   fld "DefaultButtonType" KInt64 "29";
   fld "DefaultActionUrl" KString "30";
   fld "DefaultActionEnableExtensions" KBool "31";
   fld "DefaultWebviewHeightRatio" KInt64 "33";
   fld "AttachmentCta1Id" KInt64 "35";
   fld "Cta1Title" KString "36";
   fld "Cta1IconType" KInt64 "37";
   fld "Cta1Type" KString "38";
   fld "AttachmentCta2Id" KInt64 "40";
   fld "Cta2Title" KString "41";
   fld "Cta2IconType" KInt64 "42";
   fld "Cta2Type" KString "43";
   fld "AttachmentCta3Id" KInt64 "45";
   fld "Cta3Title" KString "46";
   fld "Cta3IconType" KInt64 "47";
   fld "Cta3Type" KString "48";
   fld "FaviconUrl" KString "49";
   fld "FaviconUrlFallback" KString "50";
   fld "FaviconUrlExpirationTimestampMs" KInt64 "51";
   fld "PreviewUrlLarge" KString "52";
   unrecognized].

Definition LSGetFirstAvailableAttachmentCTAID : Schema := mkSchema "LSGetFirstAvailableAttachmentCTAID"
  [unrecognized].

Definition LSInsertAttachmentCta : Schema := mkSchema "LSInsertAttachmentCta"
  [fld "CtaId" KInt64 "0";
   fld "AttachmentFbid" KString "1";
   fld "AttachmentIndex" KInt64 "2";
   fld "ThreadKey" KInt64 "3";
   fld "MessageId" KString "5";
   fld "Title" KString "6";
   fld "Type_" KString "7";
   fld "PlatformToken" KString "8";
   fld "ActionUrl" KString "9";
   fld "NativeUrl" KString "10";
   fld "UrlWebviewType" KInt64 "11";
   fld "ActionContentBlob" KString "12";
   fld "EnableExtensions" KBool "13";
   fld "ExtensionHeightType" KInt64 "14";
   fld "TargetId" KInt64 "15";
   unrecognized].

Definition LSUpdateAttachmentItemCtaAtIndex : Schema := mkSchema "LSUpdateAttachmentItemCtaAtIndex"
  [fld "AttachmentFbid" KString "0";
   fld "Unknown" KInt64 "1";
   fld "AttachmentCtaId" KInt64 "2";
   fld "CtaTitle" KString "3";
   fld "CtaType" KString "4";
   fld "Index" KInt64 "5";
   unrecognized].

Definition LSUpdateAttachmentCtaAtIndexIgnoringAuthority : Schema := mkSchema "LSUpdateAttachmentCtaAtIndexIgnoringAuthority"
  [fld "ThreadKey" KInt64 "0";
   fld "MessageId" KString "1";
   fld "AttachmentFbid" KString "2";
   fld "AttachmentCtaId" KInt64 "3";
   fld "CtaTitle" KString "4";
   fld "CtaType" KString "5";
   fld "Index" KInt64 "6";
   unrecognized].

Definition LSHasMatchingAttachmentCTA : Schema := mkSchema "LSHasMatchingAttachmentCTA"
  [fld "ThreadKey" KInt64 "0";
   fld "AttachmentFbid" KString "1";
   unrecognized].

Definition LSUpsertLiveLocationSharer : Schema := mkSchema "LSUpsertLiveLocationSharer"
  [fld "ThreadKey" KInt64 "0";
   fld "Sender" KInt64 "1";
   fld "Latitude" KFloat64 "2";
   fld "Longitude" KFloat64 "3";
   fld "StartTimestampMS" KInt64 "4";
   fld "EndTimestampMS" KInt64 "5";
   unrecognized].

Definition LSDeleteLiveLocationSharer : Schema := mkSchema "LSDeleteLiveLocationSharer"
  [fld "ThreadKey" KInt64 "0";
   fld "Sender" KInt64 "1";
   unrecognized].

Definition LSUpdateSharedAlbumOnMessageRecall : Schema := mkSchema "LSUpdateSharedAlbumOnMessageRecall"
  [fld "ThreadKey" KInt64 "0";
   fld "MessageId" KString "1";
   unrecognized].

(** ** Rows of [table/search.go]: search *)

Definition LSUpdateSearchQueryStatus : Schema := mkSchema "LSUpdateSearchQueryStatus"
  [fld "Query" KString "0";
   fld "Unknown" KInt64 "1";
   fld "StatusSecondary" KInt64 "2";
   fld "EndTimeMs" KInt64 "3";
   fld "ResultCount" KInt64 "4";
   unrecognized].

Definition LSInsertSearchResult : Schema := mkSchema "LSInsertSearchResult"
  [fld "Query" KString "0";
   fld "ResultId" KString "1";
   fld "GlobalIndex" KInt64 "2";
   fld "Type_" SearchType "3";
   fld "ThreadType" ThreadType "4";
   fld "DisplayName" KString "5";
   fld "ProfilePicUrl" KString "6";
   fld "SecondaryProfilePicUrl" KString "7";
   fld "ContextLine" KString "8";
   fld "MessageId" KString "9";
   fld "MessageTimestampMs" KInt64 "10";
   fld "BlockedByViewerStatus" KInt64 "11";
   fld "IsVerified" KBool "12";
   fld "IsInteropEligible" KBool "13";
   fld "RestrictionType" KInt64 "14";
   fld "IsGroupsXacEligible" KBool "15";
   fld "IsInvitedToCmChannel" KBool "16";
   fld "IsEligibleForCmInvite" KBool "17";
   fld "CanViewerMessage" KBool "18";
   fld "IsWaAddressable" KBool "19";
   fld "WaEligibility" KInt64 "20";
   fld "IsArmadilloTlcEligible" KBool "21";
   fld "CommunityId" KInt64 "22";
   fld "OtherUserId" KInt64 "23";
   fld "ThreadJoinLinkHash" KInt64 "24";
   fld "SupportsE2eeSpamdStorage" KBool "25";
   fld "DefaultE2eeThreads" KBool "26";
   fld "IsRestrictedByViewer" KBool "27";
   fld "DefaultE2eeThreadOneToOne" KBool "28";
   fld "HasCutoverThread" KBool "29";
   fld "IsViewerUnconnected" KBool "30";
   fld "ResultIgid" KString "31";
   fld "SecondaryContextLine" KString "32";
   fld "IsInstamadilloCutover" KBool "33";
   fld "IsDisappearingModeSettingOn" KBool "34";
   unrecognized].

Definition LSInsertSearchSection : Schema := mkSchema "LSInsertSearchSection"
  [fld "Query" KString "0";
   fld "GlobalIndex" KInt64 "1";
   fld "DisplayName" KString "2";
   fld "AnalyticsName" KString "3";
   fld "StartIndex" KInt64 "4";
   fld "EndIndex" KInt64 "5";
   unrecognized].

(** ** Rows of [table/task.go]: tasks *)

Definition LSTaskExists : Schema := mkSchema "LSTaskExists"
  [fld "TaskId" KInt64 "0";
   unrecognized].

Definition LSRemoveTask : Schema := mkSchema "LSRemoveTask"
  [fld "TaskId" KInt64 "0";
   unrecognized].

Definition LSUpdateTaskQueueName : Schema := mkSchema "LSUpdateTaskQueueName"
  [fld "QueueNameTaskId" KString "0";
   fld "QueueName" KString "1";
   unrecognized].

Definition LSUpdateTaskValue : Schema := mkSchema "LSUpdateTaskValue"
  [fld "QueueNameTaskId" KString "0";
   fld "TaskValue1" KString "1";
   fld "TaskValue2" KString "2";
   unrecognized].

Definition LSMailboxTaskCompletionApiOnTaskCompletion : Schema := mkSchema "LSMailboxTaskCompletionApiOnTaskCompletion"
  [fld "TaskId" KInt64 "0";
   fld "Success" KBool "1";
   unrecognized].

Definition LSIssueNewTask : Schema := mkSchema "LSIssueNewTask"
  [fld "QueueName" KString "0";
   fld "Context" KInt64 "1";
   fld "TaskValue" KString "2";
   fld "HttpUrlOverride" KString "3";
   fld "TimeoutTimestampMs" KInt64 "4";
   fld "PluginType" KInt64 "5";
   fld "Priority" KInt64 "6";
   fld "SyncGroupId" KInt64 "7";
   fld "TransportKey" KInt64 "8";
   fld "MinTimeToSyncTimestampMs" KInt64 "9";
   unrecognized].
