(* ===== verification/Tables.v ===== *)
(** * Tables: the table struct, the stored-procedure map and what they make of a program

    [LSTable] lists the fields of [table.LSTable] with their row types and [SPTable] is the map
    from stored procedures to those fields.  The theorems here are about the decoder run on
    the real row types. *)

From S2P Require Import Prelude Strconv Base64 Lightspeed TableKinds TableThreads TableMessages.
From Stdlib Require Import Ascii SpecFloat.
#[local] Open Scope string_scope.
#[local] Open Scope Z_scope.

(** ** The table struct *)

Definition LSTable : list (string * Schema) :=
  [("LSMciTraceLog", LSMciTraceLog);
   ("LSExecuteFirstBlockForSyncTransaction", LSExecuteFirstBlockForSyncTransaction);
   ("LSTruncateMetadataThreads", LSTruncateMetadataThreads);
   ("LSTruncateThreadRangeTablesForSyncGroup", LSTruncateThreadRangeTablesForSyncGroup);
   ("LSUpsertSyncGroupThreadsRange", LSUpsertSyncGroupThreadsRange);
   ("LSUpsertInboxThreadsRange", LSUpsertInboxThreadsRange);
   ("LSUpdateThreadsRangesV2", LSUpdateThreadsRangesV2);
   ("LSUpsertFolder", LSUpsertFolder);
   ("LSUpsertFolderSeenTimestamp", LSUpsertFolderSeenTimestamp);
   ("LSSetHMPSStatus", LSSetHMPSStatus);
   ("LSTruncateTablesForSyncGroup", LSTruncateTablesForSyncGroup);
   ("LSDeleteThenInsertThread", LSDeleteThenInsertThread);
   ("LSAddParticipantIdToGroupThread", LSAddParticipantIdToGroupThread);
   ("LSClearPinnedMessages", LSClearPinnedMessages);
   ("LSWriteThreadCapabilities", LSWriteThreadCapabilities);
   ("LSUpsertMessage", LSUpsertMessage);
   ("LSSetForwardScore", LSSetForwardScore);
   ("LSSetMessageDisplayedContentTypes", LSSetMessageDisplayedContentTypes);
   ("LSUpdateReadReceipt", LSUpdateReadReceipt);
   ("LSInsertNewMessageRange", LSInsertNewMessageRange);
   ("LSUpdateExistingMessageRange", LSUpdateExistingMessageRange);
   ("LSDeleteExistingMessageRanges", LSDeleteExistingMessageRanges);
   ("LSUpsertSequenceId", LSUpsertSequenceID);
   ("LSVerifyContactRowExists", LSVerifyContactRowExists);
   ("LSThreadsRangesQuery", LSThreadsRangesQuery);
   ("LSSetRegionHint", LSSetRegionHint);
   ("LSExecuteFinallyBlockForSyncTransaction", LSExecuteFinallyBlockForSyncTransaction);
   ("LSRemoveTask", LSRemoveTask);
   ("LSTaskExists", LSTaskExists);
   ("LSDeleteThenInsertContact", LSDeleteThenInsertContact);
   ("LSUpdateTypingIndicator", LSUpdateTypingIndicator);
   ("LSCheckAuthoritativeMessageExists", LSCheckAuthoritativeMessageExists);
   ("LSMoveThreadToInboxAndUpdateParent", LSMoveThreadToInboxAndUpdateParent);
   ("LSUpdateThreadSnippet", LSUpdateThreadSnippet);
   ("LSVerifyThreadExists", LSVerifyThreadExists);
   ("LSBumpThread", LSBumpThread);
   ("LSUpdateParticipantLastMessageSendTimestamp", LSUpdateParticipantLastMessageSendTimestamp);
   ("LSInsertMessage", LSInsertMessage);
   ("LSUpsertGradientColor", LSUpsertGradientColor);
   ("LSUpsertTheme", LSUpsertTheme);
   ("LSInsertStickerAttachment", LSInsertStickerAttachment);
   ("LSUpsertReaction", LSUpsertReaction);
   ("LSDeleteReaction", LSDeleteReaction);
   ("LSUpdateOrInsertReactionV2", LSUpdateOrInsertReactionV2);
   ("LSDeleteReactionV2", LSDeleteReactionV2);
   ("LSDeleteThenInsertReactionsV2Detail", LSDeleteThenInsertReactionsV2Detail);
   ("LSHandleRepliesOnUnsend", LSHandleRepliesOnUnsend);
   ("LSInsertXmaAttachment", LSInsertXmaAttachment);
   ("LSUpdateUnsentMessageCollapsedStatus", LSUpdateUnsentMessageCollapsedStatus);
   ("LSDeleteThenInsertMessage", LSDeleteThenInsertMessage);
   ("LSUpdateThreadSnippetFromLastMessage", LSUpdateThreadSnippetFromLastMessage);
   ("LSUpdateForRollCallMessageDeleted", LSUpdateForRollCallMessageDeleted);
   ("LSInsertBlobAttachment", LSInsertBlobAttachment);
   ("LSDeleteBannersByIds", LSDeleteBannersByIds);
   ("LSUpdateDeliveryReceipt", LSUpdateDeliveryReceipt);
   ("LSUpdateTaskQueueName", LSUpdateTaskQueueName);
   ("LSUpdateTaskValue", LSUpdateTaskValue);
   ("LSReplaceOptimsiticMessage", LSReplaceOptimsiticMessage);
   ("LSUpdateOptimisticContextThreadKeys", LSUpdateOptimisticContextThreadKeys);
   ("LSReplaceOptimisticThread", LSReplaceOptimisticThread);
   ("LSApplyNewGroupThread", LSApplyNewGroupThread);
   ("LSRemoveAllParticipantsForThread", LSRemoveAllParticipantsForThread);
   ("LSAppendDataTraceAddon", LSAppendDataTraceAddon);
   ("LSUpdateThreadInviteLinksInfo", LSUpdateThreadInviteLinksInfo);
   ("LSUpdateThreadParticipantAdminStatus", LSUpdateThreadParticipantAdminStatus);
   ("LSUpdateParticipantSubscribeSourceText", LSUpdateParticipantSubscribeSourceText);
   ("LSOverwriteAllThreadParticipantsAdminStatus", LSOverwriteAllThreadParticipantsAdminStatus);
   ("LSUpdateParticipantCapabilities", LSUpdateParticipantCapabilities);
   ("LSChangeViewerStatus", LSChangeViewerStatus);
   ("LSUpdateSearchQueryStatus", LSUpdateSearchQueryStatus);
   ("LSInsertSearchResult", LSInsertSearchResult);
   ("LSInsertSearchSection", LSInsertSearchSection);
   ("LSSyncUpdateThreadName", LSSyncUpdateThreadName);
   ("LSSetThreadImageURL", LSSetThreadImageURL);
   ("LSSetMessageTextHasLinks", LSSetMessageTextHasLinks);
   ("LSUpdateMessagesOptimisticContext", LSUpdateMessagesOptimisticContext);
   ("LSMailboxTaskCompletionApiOnTaskCompletion", LSMailboxTaskCompletionApiOnTaskCompletion);
   ("LSWriteCTAIdToThreadsTable", LSWriteCTAIdToThreadsTable);
   ("LSQueryAdditionalGroupThreads", LSQueryAdditionalGroupThreads);
   ("LSReplaceOptimisticReaction", LSReplaceOptimisticReaction);
   ("LSDeleteThenInsertMessageRequest", LSDeleteThenInsertMessageRequest);
   ("LSDeleteThenInsertIgThreadInfo", LSDeleteThenInsertIgThreadInfo);
   ("LSDeleteThenInsertContactPresence", LSDeleteThenInsertContactPresence);
   ("LSTruncatePresenceDatabase", LSTruncatePresenceDatabase);
   ("LSMarkThreadRead", LSMarkThreadRead);
   ("LSMarkThreadReadV2", LSMarkThreadReadV2);
   ("LSUpdateParentFolderReadWatermark", LSUpdateParentFolderReadWatermark);
   ("LSInsertAttachmentItem", LSInsertAttachmentItem);
   ("LSGetFirstAvailableAttachmentCTAID", LSGetFirstAvailableAttachmentCTAID);
   ("LSInsertAttachmentCta", LSInsertAttachmentCta);
   ("LSUpdateAttachmentItemCtaAtIndex", LSUpdateAttachmentItemCtaAtIndex);
   ("LSUpdateAttachmentCtaAtIndexIgnoringAuthority", LSUpdateAttachmentCtaAtIndexIgnoringAuthority);
   ("LSHasMatchingAttachmentCTA", LSHasMatchingAttachmentCTA);
   ("LSDeleteThenInsertIGContactInfo", LSDeleteThenInsertIGContactInfo);
   ("LSIssueNewTask", LSIssueNewTask);
   ("LSUpdateOrInsertThread", LSUpdateOrInsertThread);
   ("LSSetThreadCannotUnsendReason", LSSetThreadCannotUnsendReason);
   ("LSClearLocalThreadPictureUrl", LSClearLocalThreadPictureUrl);
   ("LSUpdateInviterId", LSUpdateInviterId);
   ("LSAddToMemberCount", LSAddToMemberCount);
   ("LSMoveThreadToArchivedFolder", LSMoveThreadToArchivedFolder);
   ("LSRemoveParticipantFromThread", LSRemoveParticipantFromThread);
   ("LSDeleteRtcRoomOnThread", LSDeleteRtcRoomOnThread);
   ("LSUpdateThreadTheme", LSUpdateThreadTheme);
   ("LSUpdateThreadApprovalMode", LSUpdateThreadApprovalMode);
   ("LSRemoveAllRequestsFromAdminApprovalQueue", LSRemoveAllRequestsFromAdminApprovalQueue);
   ("LSUpdateLastSyncCompletedTimestampMsToNow", LSUpdateLastSyncCompletedTimestampMsToNow);
   ("LSDeleteMessage", LSDeleteMessage);
   ("LSHandleRepliesOnRemove", LSHandleRepliesOnRemove);
   ("LSRefreshLastActivityTimestamp", LSRefreshLastActivityTimestamp);
   ("LSSetPinnedMessage", LSSetPinnedMessage);
   ("LSStoryContactSyncFromBucket", LSStoryContactSyncFromBucket);
   ("LSUpsertLiveLocationSharer", LSUpsertLiveLocationSharer);
   ("LSDeleteLiveLocationSharer", LSDeleteLiveLocationSharer);
   ("LSUpdateSharedAlbumOnMessageRecall", LSUpdateSharedAlbumOnMessageRecall);
   ("LSEditMessage", LSEditMessage);
   ("LSHandleRepliesOnMessageEdit", LSHandleRepliesOnMessageEdit);
   ("LSUpdateThreadSnippetFromLastMessageV2", LSUpdateThreadSnippetFromLastMessageV2);
   ("LSMarkOptimisticMessageFailed", LSMarkOptimisticMessageFailed);
   ("LSUpdateSubscriptErrorMessage", LSUpdateSubscriptErrorMessage);
   ("LSDeleteThenInsertBotProfileInfoCategoryV2", LSDeleteThenInsertBotProfileInfoCategoryV2);
   ("LSDeleteThenInsertBotProfileInfoV2", LSDeleteThenInsertBotProfileInfoV2);
   ("LSHandleSyncFailure", LSHandleSyncFailure);
   ("LSDeleteThread", LSDeleteThread);
   ("LSAddPollForThread", LSAddPollForThread);
   ("LSAddPollOption", LSAddPollOption);
   ("LSAddPollOptionV2", LSAddPollOption);
   ("LSAddPollVote", LSAddPollVote);
   ("LSAddPollVoteV2", LSAddPollVote);
   ("LSUpdateThreadMuteSetting", LSUpdateThreadMuteSetting);
   ("LSInsertAttachment", LSInsertAttachment);
   ("LSUpdateExtraAttachmentColumns", LSUpdateExtraAttachmentColumns);
   ("LSMoveThreadToE2EECutoverFolder", LSMoveThreadToE2EECutoverFolder);
   ("LSHandleFailedTask", LSHandleFailedTask);
   ("LSIssueNewError", LSIssueNewError);
   ("LSRemoveOptimisticGroupThread", LSRemoveOptimisticGroupThread);
   ("LSUpdateOrInsertEditMessageHistory", LSUpdateOrInsertEditMessageHistory);
   ("LSVerifyHybridThreadExists", LSVerifyHybridThreadExists);
   ("LSUpdateThreadAuthorityAndMappingWithOTIDFromJID", LSUpdateThreadAuthorityAndMappingWithOTIDFromJID);
   ("LSVerifyContactParticipantExist", LSVerifyContactParticipantExist);
   ("LSVerifyCommunityMemberContextualProfileExists", LSVerifyCommunityMemberContextualProfileExists);
   ("LSInsertCommunityMember", LSInsertCommunityMember);
   ("LSUpdateOrInsertCommunityMember", LSUpdateOrInsertCommunityMember);
   ("LSUpsertCommunityMemberRanges", LSUpsertCommunityMemberRanges);
   ("LSUpdateSubThreadXMA", LSUpdateSubThreadXMA);
   ("LSSetNumUnreadSubthreads", LSSetNumUnreadSubthreads)].

(** ** The stored procedures *)

Definition SPTable : list (string * string) :=
  [("removeAllRequestsFromAdminApprovalQueue", "LSRemoveAllRequestsFromAdminApprovalQueue");
   ("updateThreadApprovalMode", "LSUpdateThreadApprovalMode");
   ("updateThreadTheme", "LSUpdateThreadTheme");
   ("deleteRtcRoomOnThread", "LSDeleteRtcRoomOnThread");
   ("removeParticipantFromThread", "LSRemoveParticipantFromThread");
   ("moveThreadToArchivedFolder", "LSMoveThreadToArchivedFolder");
   ("setThreadCannotUnsendReason", "LSSetThreadCannotUnsendReason");
   ("clearLocalThreadPictureUrl", "LSClearLocalThreadPictureUrl");
   ("updateInviterId", "LSUpdateInviterId");
   ("addToMemberCount", "LSAddToMemberCount");
   ("updateOrInsertThread", "LSUpdateOrInsertThread");
   ("issueNewTask", "LSIssueNewTask");
   ("deleteThenInsertIGContactInfo", "LSDeleteThenInsertIGContactInfo");
   ("hasMatchingAttachmentCTA", "LSHasMatchingAttachmentCTA");
   ("updateAttachmentCtaAtIndexIgnoringAuthority", "LSUpdateAttachmentCtaAtIndexIgnoringAuthority");
   ("updateAttachmentItemCtaAtIndex", "LSUpdateAttachmentItemCtaAtIndex");
   ("insertAttachmentCta", "LSInsertAttachmentCta");
   ("getFirstAvailableAttachmentCTAID", "LSGetFirstAvailableAttachmentCTAID");
   ("insertAttachmentItem", "LSInsertAttachmentItem");
   ("updateParentFolderReadWatermark", "LSUpdateParentFolderReadWatermark");
   ("markThreadRead", "LSMarkThreadRead");
   ("markThreadReadV2", "LSMarkThreadReadV2");
   ("truncatePresenceDatabase", "LSTruncatePresenceDatabase");
   ("deleteThenInsertContactPresence", "LSDeleteThenInsertContactPresence");
   ("deleteThenInsertIgThreadInfo", "LSDeleteThenInsertIgThreadInfo");
   ("deleteThenInsertMessageRequest", "LSDeleteThenInsertMessageRequest");
   ("replaceOptimisticReaction", "LSReplaceOptimisticReaction");
   ("queryAdditionalGroupThreads", "LSQueryAdditionalGroupThreads");
   ("writeCTAIdToThreadsTable", "LSWriteCTAIdToThreadsTable");
   ("mailboxTaskCompletionApiOnTaskCompletion", "LSMailboxTaskCompletionApiOnTaskCompletion");
   ("updateMessagesOptimisticContext", "LSUpdateMessagesOptimisticContext");
   ("setMessageTextHasLinks", "LSSetMessageTextHasLinks");
   ("syncUpdateThreadName", "LSSyncUpdateThreadName");
   ("setThreadImageURL", "LSSetThreadImageURL");
   ("insertSearchSection", "LSInsertSearchSection");
   ("insertSearchResult", "LSInsertSearchResult");
   ("updateSearchQueryStatus", "LSUpdateSearchQueryStatus");
   ("changeViewerStatus", "LSChangeViewerStatus");
   ("updateParticipantCapabilities", "LSUpdateParticipantCapabilities");
   ("overwriteAllThreadParticipantsAdminStatus", "LSOverwriteAllThreadParticipantsAdminStatus");
   ("updateParticipantSubscribeSourceText", "LSUpdateParticipantSubscribeSourceText");
   ("updateThreadParticipantAdminStatus", "LSUpdateThreadParticipantAdminStatus");
   ("updateThreadInviteLinksInfo", "LSUpdateThreadInviteLinksInfo");
   ("appendDataTraceAddon", "LSAppendDataTraceAddon");
   ("removeAllParticipantsForThread", "LSRemoveAllParticipantsForThread");
   ("applyNewGroupThread", "LSApplyNewGroupThread");
   ("replaceOptimisticThread", "LSReplaceOptimisticThread");
   ("updateOptimisticContextThreadKeys", "LSUpdateOptimisticContextThreadKeys");
   ("replaceOptimsiticMessage", "LSReplaceOptimsiticMessage");
   ("updateTaskQueueName", "LSUpdateTaskQueueName");
   ("updateTaskValue", "LSUpdateTaskValue");
   ("updateDeliveryReceipt", "LSUpdateDeliveryReceipt");
   ("deleteBannersByIds", "LSDeleteBannersByIds");
   ("truncateTablesForSyncGroup", "LSTruncateTablesForSyncGroup");
   ("insertXmaAttachment", "LSInsertXmaAttachment");
   ("insertNewMessageRange", "LSInsertNewMessageRange");
   ("updateExistingMessageRange", "LSUpdateExistingMessageRange");
   ("threadsRangesQuery", "LSThreadsRangesQuery");
   ("updateThreadSnippetFromLastMessage", "LSUpdateThreadSnippetFromLastMessage");
   ("upsertInboxThreadsRange", "LSUpsertInboxThreadsRange");
   ("deleteThenInsertThread", "LSDeleteThenInsertThread");
   ("addParticipantIdToGroupThread", "LSAddParticipantIdToGroupThread");
   ("upsertMessage", "LSUpsertMessage");
   ("clearPinnedMessages", "LSClearPinnedMessages");
   ("mciTraceLog", "LSMciTraceLog");
   ("insertBlobAttachment", "LSInsertBlobAttachment");
   ("updateUnsentMessageCollapsedStatus", "LSUpdateUnsentMessageCollapsedStatus");
   ("executeFirstBlockForSyncTransaction", "LSExecuteFirstBlockForSyncTransaction");
   ("updateThreadsRangesV2", "LSUpdateThreadsRangesV2");
   ("upsertSyncGroupThreadsRange", "LSUpsertSyncGroupThreadsRange");
   ("upsertFolder", "LSUpsertFolder");
   ("upsertFolderSeenTimestamp", "LSUpsertFolderSeenTimestamp");
   ("setHMPSStatus", "LSSetHMPSStatus");
   ("handleRepliesOnUnsend", "LSHandleRepliesOnUnsend");
   ("deleteExistingMessageRanges", "LSDeleteExistingMessageRanges");
   ("writeThreadCapabilities", "LSWriteThreadCapabilities");
   ("upsertSequenceId", "LSUpsertSequenceId");
   ("executeFinallyBlockForSyncTransaction", "LSExecuteFinallyBlockForSyncTransaction");
   ("verifyContactRowExists", "LSVerifyContactRowExists");
   ("taskExists", "LSTaskExists");
   ("removeTask", "LSRemoveTask");
   ("deleteThenInsertMessage", "LSDeleteThenInsertMessage");
   ("deleteThenInsertContact", "LSDeleteThenInsertContact");
   ("updateTypingIndicator", "LSUpdateTypingIndicator");
   ("checkAuthoritativeMessageExists", "LSCheckAuthoritativeMessageExists");
   ("moveThreadToInboxAndUpdateParent", "LSMoveThreadToInboxAndUpdateParent");
   ("updateThreadSnippet", "LSUpdateThreadSnippet");
   ("setMessageDisplayedContentTypes", "LSSetMessageDisplayedContentTypes");
   ("verifyThreadExists", "LSVerifyThreadExists");
   ("updateReadReceipt", "LSUpdateReadReceipt");
   ("setForwardScore", "LSSetForwardScore");
   ("upsertReaction", "LSUpsertReaction");
   ("updateOrInsertReactionV2", "LSUpdateOrInsertReactionV2");
   ("deleteReactionV2", "LSDeleteReactionV2");
   ("deleteThenInsertReactionsV2Detail", "LSDeleteThenInsertReactionsV2Detail");
   ("bumpThread", "LSBumpThread");
   ("updateParticipantLastMessageSendTimestamp", "LSUpdateParticipantLastMessageSendTimestamp");
   ("insertMessage", "LSInsertMessage");
   ("upsertTheme", "LSUpsertTheme");
   ("upsertGradientColor", "LSUpsertGradientColor");
   ("insertStickerAttachment", "LSInsertStickerAttachment");
   ("updateForRollCallMessageDeleted", "LSUpdateForRollCallMessageDeleted");
   ("updateLastSyncCompletedTimestampMsToNow", "LSUpdateLastSyncCompletedTimestampMsToNow");
   ("deleteMessage", "LSDeleteMessage");
   ("handleRepliesOnRemove", "LSHandleRepliesOnRemove");
   ("refreshLastActivityTimestamp", "LSRefreshLastActivityTimestamp");
   ("setPinnedMessage", "LSSetPinnedMessage");
   ("storyContactSyncFromBucket", "LSStoryContactSyncFromBucket");
   ("upsertLiveLocationSharer", "LSUpsertLiveLocationSharer");
   ("deleteLiveLocationSharer", "LSDeleteLiveLocationSharer");
   ("updateSharedAlbumOnMessageRecall", "LSUpdateSharedAlbumOnMessageRecall");
   ("editMessage", "LSEditMessage");
   ("handleRepliesOnMessageEdit", "LSHandleRepliesOnMessageEdit");
   ("updateThreadSnippetFromLastMessageV2", "LSUpdateThreadSnippetFromLastMessageV2");
   ("markOptimisticMessageFailed", "LSMarkOptimisticMessageFailed");
   ("updateSubscriptErrorMessage", "LSUpdateSubscriptErrorMessage");
   ("deleteThenInsertBotProfileInfoCategoryV2", "LSDeleteThenInsertBotProfileInfoCategoryV2");
   ("deleteThenInsertBotProfileInfoV2", "LSDeleteThenInsertBotProfileInfoV2");
   ("handleSyncFailure", "LSHandleSyncFailure");
   ("deleteThread", "LSDeleteThread");
   ("addPollOption", "LSAddPollOption");
   ("addPollOptionV2", "LSAddPollOptionV2");
   ("addPollVote", "LSAddPollVote");
   ("addPollVoteV2", "LSAddPollVoteV2");
   ("addPollForThread", "LSAddPollForThread");
   ("deleteReaction", "LSDeleteReaction");
   ("updateThreadMuteSetting", "LSUpdateThreadMuteSetting");
   ("insertAttachment", "LSInsertAttachment");
   ("updateExtraAttachmentColumns", "LSUpdateExtraAttachmentColumns");
   ("moveThreadToE2EECutoverFolder", "LSMoveThreadToE2EECutoverFolder");
   ("handleFailedTask", "LSHandleFailedTask");
   ("issueNewError", "LSIssueNewError");
   ("removeOptimisticGroupThread", "LSRemoveOptimisticGroupThread");
   ("updateOrInsertEditMessageHistory", "LSUpdateOrInsertEditMessageHistory");
   ("verifyHybridThreadExists", "LSVerifyHybridThreadExists");
   ("updateThreadAuthorityAndMappingWithOTIDFromJID", "LSUpdateThreadAuthorityAndMappingWithOTIDFromJID");
   ("verifyContactParticipantExist", "LSVerifyContactParticipantExist");
   ("verifyCommunityMemberContextualProfileExists", "LSVerifyCommunityMemberContextualProfileExists");
   ("insertCommunityMember", "LSInsertCommunityMember");
   ("updateOrInsertCommunityMember", "LSUpdateOrInsertCommunityMember");
   ("upsertCommunityMemberRanges", "LSUpsertCommunityMemberRanges");
   ("updateSubThreadXMA", "LSUpdateSubThreadXMA");
   ("setNumUnreadSubthreads", "LSSetNumUnreadSubthreads")].

(** [SPToDepMap]: unknown procedures are skipped. *)
Fixpoint sp_lookup (d : string) (t : list (string * string)) : option string :=
  match t with
  | [] => None
  | (k, v) :: t => if (k =? d)%string then Some v else sp_lookup d t
  end.

Definition SPToDepMap (sp : list string) : gmap string string :=
  foldl (fun m d => match sp_lookup d SPTable with
                    | Some depName => <[d := depName]> m
                    | None => m
                    end) ∅ sp.

(** [NonNilFields]: the fields of the table that hold rows, in declaration order. *)
Definition NonNilFields (t : gmap string (list Inst)) : list string :=
  filter (fun f => t !! f <> None) (fst <$> LSTable).

(** ** Reading rows *)

Definition row_field (s : Schema) (n : string) (r : Inst) : option val :=
  i ← field_pos n (sfields s); ifields r !! i.

Definition row_int (s : Schema) (n : string) (r : Inst) : Z :=
  match row_field s n r with Some (VInt64 z) => z | _ => 0 end.
Definition row_str (s : Schema) (n : string) (r : Inst) : string :=
  match row_field s n r with Some (VStr x) => x | _ => "" end.
Definition row_bool (s : Schema) (n : string) (r : Inst) : bool :=
  match row_field s n r with Some (VBool b) => b | _ => false end.

(** ** Thread types ([enums.go]) *)

Definition ONE_TO_ONE : Z := 1.
Definition TINCAN_ONE_TO_ONE : Z := 7.
Definition CARRIER_MESSAGING_ONE_TO_ONE : Z := 10.
Definition TINCAN_ONE_TO_ONE_DISAPPEARING : Z := 13.
Definition ENCRYPTED_OVER_WA_ONE_TO_ONE : Z := 15.
Definition ENCRYPTED_OVER_WA_GROUP : Z := 16.
Definition AI_BOT : Z := 201.

Definition IsOneToOne (tt : Z) : bool :=
  (tt =? ONE_TO_ONE) || (tt =? TINCAN_ONE_TO_ONE) || (tt =? CARRIER_MESSAGING_ONE_TO_ONE) ||
  (tt =? TINCAN_ONE_TO_ONE_DISAPPEARING) || (tt =? ENCRYPTED_OVER_WA_ONE_TO_ONE) || (tt =? AI_BOT).

Definition IsWhatsApp (tt : Z) : bool :=
  (tt =? ENCRYPTED_OVER_WA_GROUP) || (tt =? ENCRYPTED_OVER_WA_ONE_TO_ONE).

(** ** [LSUpsertMessage.ToInsert] *)

(** The composite literal: each field of the new row and the field it is copied from. *)
Definition ToInsert_fields : list (string * string) :=
  [("Text", "Text");
   ("SubscriptErrorMessage", "SubscriptErrorMessage");
   ("AuthorityLevel", "AuthorityLevel");
   ("ThreadKey", "ThreadKey");
   ("TimestampMs", "TimestampMs");
   ("PrimarySortKey", "PrimarySortKey");
   ("SecondarySortKey", "SecondarySortKey");
   ("MessageId", "MessageId");
   ("OfflineThreadingId", "OfflineThreadingId");
   ("SenderId", "SenderId");
   ("StickerId", "StickerId");
   ("IsAdminMessage", "IsAdminMessage");
   ("MessageRenderingType", "MessageRenderingType");
   ("SendStatus", "SendStatus");
   ("SendStatusV2", "SendStatusV2");
   ("IsUnsent", "IsUnsent");
   ("UnsentTimestampMs", "UnsentTimestampMs");
   ("MentionOffsets", "MentionOffsets");
   ("MentionLengths", "MentionLengths");
   ("MentionIds", "MentionIds");
   ("MentionTypes", "MentionTypes");
   ("ReplySourceId", "ReplySourceId");
   ("ReplySourceType", "ReplySourceType");
   ("ReplySourceTypeV2", "ReplySourceTypeV2");
   ("ReplyStatus", "ReplyStatus");
   ("ReplySnippet", "ReplySnippet");
   ("ReplyMessageText", "ReplyMessageText");
   ("ReplyToUserId", "ReplyToUserId");
   ("ReplyMediaExpirationTimestampMs", "ReplyMediaExpirationTimestampMs");
   ("ReplyMediaUrl", "ReplyMediaUrl");
   ("ReplyMediaUnknownTimestampS", "ReplyMediaUnknownTimestampS");
   ("ReplyMediaPreviewWidth", "ReplyMediaPreviewWidth");
   ("ReplyMediaPreviewHeight", "ReplyMediaPreviewHeight");
   ("ReplyMediaUrlMimeType", "ReplyMediaUrlMimeType");
   ("ReplyMediaUrlFallback", "ReplyMediaUrlFallback");
   ("ReplyCtaId", "ReplyCtaId");
   ("ReplyCtaTitle", "ReplyCtaTitle");
   ("ReplyAttachmentType", "ReplyAttachmentType");
   ("ReplyAttachmentId", "ReplyAttachmentId");
   ("ReplyAttachmentExtra", "ReplyAttachmentExtra");
   ("ReplyType", "ReplyType");
   ("IsForwarded", "IsForwarded");
   ("ForwardScore", "ForwardScore");
   ("HasQuickReplies", "HasQuickReplies");
   ("AdminMsgCtaId", "AdminMsgCtaId");
   ("AdminMsgCtaTitle", "AdminMsgCtaTitle");
   ("AdminMsgCtaType", "AdminMsgCtaType");
   ("CannotUnsendReason", "CannotUnsendReason");
   ("TextHasLinks", "TextHasLinks");
   ("ViewFlags", "ViewFlags");
   ("DisplayedContentTypes", "DisplayedContentTypes");
   ("ViewedPluginKey", "ViewedPluginKey");
   ("ViewedPluginContext", "ViewedPluginContext");
   ("QuickReplyType", "QuickReplyType");
   ("HotEmojiSize", "HotEmojiSize");
   ("PlatformXmdEncoded", "PlatformXmdEncoded");
   ("ReplySourceTimestampMs", "ReplySourceTimestampMs");
   ("EphemeralDurationInSec", "EphemeralDurationInSec");
   ("MsUntilExpirationTs", "MsUntilExpirationTs");
   ("EphemeralExpirationTs", "EphemeralExpirationTs");
   ("TakedownState", "TakedownState");
   ("IsCollapsed", "IsCollapsed");
   ("SubthreadKey", "SubthreadKey");
   ("BotResponseID", "BotResponseID");
   ("EditCount", "EditCount");
   ("IsPaidPartnership", "IsPaidPartnership");
   ("AdminSignatureName", "AdminSignatureName");
   ("AdminSignatureProfileURL", "AdminSignatureProfileURL");
   ("AdminSignatureCreatorType", "AdminSignatureCreatorType");
   ("ReplyMessageHiddenState", "ReplyMessageHiddenState");
   ("TranslatedText", "TranslatedText");
   ("TextDialect", "TextDialect");
   ("TranslatedTextDialect", "TranslatedTextDialect");
   ("ScheduledTimestamp", "ScheduledTimestamp");
   ("IsVideoQuickSend", "IsVideoQuickSend");
   ("SubthreadParentMessageID", "SubthreadParentMessageID");
   ("IsExclusiveToSubthread", "IsExclusiveToSubthread")].

Fixpoint assoc (n : string) (l : list (string * string)) : option string :=
  match l with
  | [] => None
  | (k, v) :: l => if (k =? n)%string then Some v else assoc n l
  end.

Definition ToInsert (um : Inst) : Inst :=
  mkInst ((fun f => match src ← assoc (fname f) ToInsert_fields; row_field LSUpsertMessage src um with
                    | Some v => v
                    | None => zero_val (fkind f)
                    end) <$> sfields LSInsertMessage) None.

(** The fields of the table no procedure leads to. *)
Definition unreachable_fields : list string :=
  filter (fun f => Forall (fun kv => snd kv <> f) SPTable) (fst <$> LSTable).

(** ** Lemmas *)

Lemma LSTable_schemas_ok : forallb (schema_ok ∘ snd) LSTable = true.
Proof. vm_compute. reflexivity. Qed.

Lemma table_type_In f t s : table_type f t = Some s -> In (f, s) t.
Proof.
  induction t as [|[g s'] t IH]; [done|]. cbn. destruct (g =? f)%string eqn:E.
  - apply String.eqb_eq in E as ->. intros [= ->]. by left.
  - intros. right. auto.
Qed.

Lemma LSTable_schema_ok f s : table_type f LSTable = Some s -> schema_ok s = true.
Proof.
  intros H%table_type_In. pose proof LSTable_schemas_ok as Ha.
  rewrite forallb_forall in Ha. by apply (Ha (f, s)).
Qed.

Lemma row_kind s n r i f : row_ok s r -> field_pos n (sfields s) = Some i ->
  sfields s !! i = Some f -> exists v, row_field s n r = Some v /\ has_kind (fkind f) v = true.
Proof.
  intros [Hr _] Hp Hf. unfold row_field. rewrite Hp. cbn.
  destruct (Forall2_lookup_l _ _ _ _ _ Hr Hf) as (v & -> & Hv). by exists v.
Qed.

Lemma LSTable_row f s decoded : table_type f LSTable = Some s ->
  exists r, makeRow s decoded = Ok r /\ row_ok s r.
Proof.
  intros Hf. pose proof (LSTable_schema_ok f s Hf) as Hs.
  destruct (setFields_total s (sfields s) 0 (ifields (reflect_New s)) decoded Hs eq_refl
    (reflect_New_typed s)) as (vals & left_over & E & _).
  pose proof (makeRow_ok s decoded) as Hr. unfold makeRow in *. rewrite E in *.
  eexists. by split.
Qed.

Lemma sp_lookup_table p : forall f, sp_lookup p SPTable = Some f ->
  exists s, table_type f LSTable = Some s.
Proof.
  assert (forallb (fun kv => match table_type (snd kv) LSTable with Some _ => true | None => false end)
    SPTable = true) as H by (vm_compute; reflexivity).
  rewrite forallb_forall in H. intros f Hp.
  assert (In (p, f) SPTable) as Hin.
  { clear H. revert Hp. generalize SPTable. intros l.
    induction l as [|[k v] l IH]; [done|]. cbn. destruct (k =? p)%string eqn:E.
    - apply String.eqb_eq in E as ->. intros [= ->]. by left.
    - intros. right. auto. }
  specialize (H _ Hin). change (snd (p, f)) with f in H. destruct (table_type f LSTable) as [s|]; [by exists s|done].
Qed.

(** ** Properties *)

Lemma field_pos_Some n fs i : field_pos n fs = Some i ->
  exists f, fs !! i = Some f /\ fname f = n.
Proof.
  revert i. induction fs as [|f fs IH]; intros i; [done|]. cbn.
  destruct (fname f =? n)%string eqn:E.
  - intros [= <-]. exists f. split; [done|]. by apply String.eqb_eq.
  - intros (j & Hj & ->)%fmap_Some. by apply IH.
Qed.

(** The table fields whose row type is not plain or names an argument twice. *)
Definition irregular_tables : list string :=
  ["LSThreadsRangesQuery"; "LSUpsertTheme"; "LSApplyNewGroupThread"].

Lemma regular_tables : forallb (fun ft =>
    bool_decide (fst ft ∈ irregular_tables) ||
    (plain (snd ft) && bool_decide (NoDup (indexes_of (sfields (snd ft)))) &&
     forallb (fun i => 0 <=? i) (indexes_of (sfields (snd ft))))) LSTable = true.
Proof. vm_compute. reflexivity. Qed.

(** C23. What a row is: for each of the table's fields (but the three whose row type repeats an
    index or chooses it by a condition) and any call with enough arguments, the row is exactly
    the specified one: every column holds the argument its tag names when that has the
    column's type, and the zero value otherwise. *)
Theorem table_row_is_arguments f s decoded (Hf : table_type f LSTable = Some s)
    (Hreg : f ∉ irregular_tables)
    (Hlen : Forall (fun x => x < llen decoded) (indexes_of (sfields s))) :
  ifields <$> makeRow s decoded = Ok (argument_of decoded <$> sfields s).
Proof.
  pose proof regular_tables as H. rewrite forallb_forall in H.
  specialize (H _ (table_type_In _ _ _ Hf)). cbn [fst snd] in H.
  rewrite bool_decide_eq_false_2 in H by done. cbn in H.
  apply andb_true_iff in H as [[Hp Hn]%andb_true_iff Hpos].
  apply bool_decide_eq_true in Hn.
  apply makeRow_plain; [by eapply LSTable_schema_ok|done..|].
  rewrite forallb_forall in Hpos. rewrite Forall_forall in Hlen |- *.
  intros x Hx. split; [|by apply Hlen]. apply Z.leb_le, Hpos. by apply list_elem_of_In.
Qed.

(** No argument of a stored-procedure call is lost: in every table whose rows have an
    [Unrecognized] map, an argument that is not nil is the value of some column or is kept in
    that map under its own position. *)
Theorem no_argument_lost f s decoded r (Hf : table_type f LSTable = Some s)
    (Hu : field_pos "Unrecognized" (sfields s) <> None) (Hr : makeRow s decoded = Ok r) :
  forall k v, decoded !! k = Some v -> v <> VNil ->
    (exists j, ifields r !! j = Some v) \/
    (exists m, unrec r = Some m /\ m !! Z.of_nat k = Some v).
Proof.
  destruct (makeRow_keeps_arguments s decoded (LSTable_schema_ok f s Hf) Hu) as (r' & E & H).
  rewrite Hr in E. injection E as <-. done.
Qed.

Lemma row_int_zero s n j r : field_pos n (sfields s) = Some j ->
  ifields r !! j = Some (VInt64 0) -> row_int s n r = 0.
Proof. intros Hj Hr. unfold row_int, row_field. rewrite Hj. cbn. by rewrite Hr. Qed.

Lemma shadowed_column s n i j f g x decoded r :
  sfields s !! i = Some f -> sfields s !! j = Some g -> (i < j)%nat ->
  fkind f = KInt64 -> fkind g = KInt64 -> names_argument f x -> names_argument g x ->
  field_pos n (sfields s) = Some j -> makeRow s decoded = Ok r -> row_int s n r = 0.
Proof.
  intros Hf Hg Hij Hkf Hkg Hxf Hxg Hn. unfold makeRow.
  destruct (setFields _ _ _ _ _) as [[vals d]| |] eqn:E; cbn [mbind res_bind]; [|done..].
  intros [= <-]. eapply (setFields_shadowed s _ i j f g x) in E; try done; [|lia|congruence|by rewrite Hkf].
  eapply row_int_zero; [done|]. cbn [ifields]. rewrite E. cbn.
  rewrite list_lookup_fmap, Hg. cbn. by rewrite Hkg.
Qed.

(** Two columns are never filled: [LSUpsertTheme.NormalThemeId] and
    [LSApplyNewGroupThread.LastReadWatermarkTimestampMs] repeat the index of the column before
    them, which consumes the argument, so they are 0 in every row, whatever the server sent. *)
Theorem shadowed_columns_stay_zero decoded :
  (forall r, makeRow LSUpsertTheme decoded = Ok r -> row_int LSUpsertTheme "NormalThemeId" r = 0) /\
  (forall r, makeRow LSApplyNewGroupThread decoded = Ok r ->
     row_int LSApplyNewGroupThread "LastReadWatermarkTimestampMs" r = 0).
Proof.
  split; intros r.
  - eapply (shadowed_column LSUpsertTheme "NormalThemeId" 0 1 _ _ 0); try reflexivity; try lia;
      by split_and!.
  - eapply (shadowed_column LSApplyNewGroupThread "LastReadWatermarkTimestampMs" 6 7 _ _ 6);
      try reflexivity; try lia; by split_and!.
Qed.

Lemma SPToDepMap_lookup sp : forall p, SPToDepMap sp !! p =
  if bool_decide (p ∈ sp) then sp_lookup p SPTable else None.
Proof.
  unfold SPToDepMap. intros p.
  enough (forall m : gmap string string,
    foldl (fun m d => match sp_lookup d SPTable with Some n => <[d := n]> m | None => m end) m sp !! p
    = if bool_decide (p ∈ sp) then
        match sp_lookup p SPTable with Some n => Some n | None => m !! p end else m !! p) as H.
  { rewrite H, lookup_empty. case_bool_decide; [|done]. by destruct (sp_lookup p SPTable). }
  induction sp as [|d sp IH]; intros m; [done|]. cbn [foldl]. rewrite IH. clear IH.
  destruct (decide (p = d)) as [->|Hne].
  - rewrite (bool_decide_eq_true_2 (d ∈ d :: sp)) by left.
    destruct (sp_lookup d SPTable) as [n|]; [|by destruct (bool_decide _)].
    rewrite lookup_insert_eq. by destruct (bool_decide _).
  - assert (bool_decide (p ∈ d :: sp) = bool_decide (p ∈ sp)) as ->.
    { apply bool_decide_ext. rewrite elem_of_cons. naive_solver. }
    destruct (sp_lookup d SPTable) as [n|]; [|done]. by rewrite lookup_insert_ne.
Qed.

(** A call of a known procedure that the server's dependency list announces appends one
    row to its table: the decoder, with the map [SPToDepMap] makes of that list, evaluates the
    arguments in order, builds the row and adds it at the end. *)
Theorem known_call_appends_row sp now slack fmt_float fuel p args st decoded st1
    (Hsp : p ∈ sp) (Hp : sp_lookup p SPTable <> None)
    (Hargs : mapM_list (Decode (SPToDepMap sp) LSTable now slack fmt_float fuel) args st
             = Ok (decoded, st1)) :
  exists f s r, sp_lookup p SPTable = Some f /\ table_type f LSTable = Some s /\
    makeRow s decoded = Ok r /\ row_ok s r /\
    Decode (SPToDepMap sp) LSTable now slack fmt_float (S fuel) (JArr (num 5 :: JStr p :: args)) st
    = Ok (VNil, append_row f r st1).
Proof.
  destruct (sp_lookup p SPTable) as [f|] eqn:Ef; [|done].
  destruct (sp_lookup_table p f Ef) as [s Hs].
  destruct (LSTable_row f s decoded Hs) as (r & Hr & Hok).
  exists f, s, r. split_and!; try done.
  eapply Decode_call; try done. rewrite SPToDepMap_lookup.
  by rewrite bool_decide_eq_true_2.
Qed.

(** The columns of [LSInsertMessage] that [ToInsert] does not copy. *)
Definition ToInsert_dropped : list string :=
  ["SendAttributionXmd"; "MetadataDataclass"; "Unrecognized"].

Lemma ToInsert_same_name : forallb (fun f =>
    bool_decide (fname f ∈ ToInsert_dropped) && bool_decide (assoc (fname f) ToInsert_fields = None)
      && bool_decide (zero_val (fkind f) = VNil) ||
    negb (bool_decide (fname f ∈ ToInsert_dropped)) &&
    bool_decide (assoc (fname f) ToInsert_fields = Some (fname f)) &&
      match field_pos (fname f) (sfields LSUpsertMessage) with Some _ => true | None => false end)
  (sfields LSInsertMessage) = true.
Proof. vm_compute. reflexivity. Qed.

(** [ToInsert] turns an upserted message into an inserted one by copying every column of
    the same name, except that [SendAttributionXmd], [MetadataDataclass] and the
    [Unrecognized] arguments, which both row types have, are left at their zero value. *)
Theorem upsert_to_insert um n (Hum : row_ok LSUpsertMessage um)
    (Hn : field_pos n (sfields LSInsertMessage) <> None) :
  row_field LSInsertMessage n (ToInsert um) =
    (if bool_decide (n ∈ ToInsert_dropped) then Some VNil else row_field LSUpsertMessage n um)
  /\ unrec (ToInsert um) = None.
Proof.
  split; [|done]. destruct (field_pos n (sfields LSInsertMessage)) as [i|] eqn:Ei; [|done].
  destruct (field_pos_Some _ _ _ Ei) as (f & Hf & <-).
  pose proof ToInsert_same_name as H. rewrite forallb_forall in H. specialize (H f).
  specialize (H ltac:(apply list_elem_of_In; by eapply list_elem_of_lookup_2)).
  unfold row_field at 1. rewrite Ei. cbn [mbind option_bind ToInsert ifields].
  rewrite list_lookup_fmap, Hf. cbn [fmap option_fmap option_map].
  destruct (bool_decide (fname f ∈ ToInsert_dropped)); cbn [andb orb negb] in H.
  - rewrite orb_false_r in H. apply andb_true_iff in H as [Ha%bool_decide_eq_true Hz%bool_decide_eq_true].
    rewrite Ha. cbn. by rewrite Hz.
  - apply andb_true_iff in H as [Ha%bool_decide_eq_true Hp]. rewrite Ha. cbn [mbind option_bind].
    destruct (field_pos (fname f) (sfields LSUpsertMessage)) as [j|] eqn:Ej; [|done].
    destruct (field_pos_Some _ _ _ Ej) as (g & Hg & _).
    destruct (row_kind LSUpsertMessage _ um _ _ Hum Ej Hg) as (v & -> & _). done.
Qed.

(** ** The theorems at a concrete program *)

(** [upsertFolder(42, "Inbox", undefined, 1700, 1600, 7)] *)
Definition sample_args : list json :=
  [JArr [num 19; JStr "42"]; JStr "Inbox"; JArr [num 9]; JArr [num 19; JStr "1700"];
   JArr [num 19; JStr "1600"]; JArr [num 19; JStr "7"]].

Definition sample_values : list val :=
  [VInt64 42; VStr "Inbox"; VNil; VInt64 1700; VInt64 1600; VInt64 7].

Definition sample_row : Inst :=
  mkInst [VInt64 42; VStr "Inbox"; VStr ""; VInt64 1700; VInt64 1600; VNil] (Some {[5 := VInt64 7]}).

Lemma table_row_is_arguments_witness :
  ifields <$> makeRow LSUpsertFolder sample_values =
  Ok (argument_of sample_values <$> sfields LSUpsertFolder).
Proof.
  apply (table_row_is_arguments "LSUpsertFolder"); [reflexivity|by apply (bool_decide_unpack _)|].
  repeat constructor; cbn; lia.
Defined.

Lemma no_argument_lost_witness :
  (exists j, ifields sample_row !! j = Some (VInt64 7)) \/
  (exists m, unrec sample_row = Some m /\ m !! 5 = Some (VInt64 7)).
Proof.
  by apply (no_argument_lost "LSUpsertFolder" LSUpsertFolder sample_values sample_row) with (k := 5%nat).
Defined.

Lemma known_call_appends_row_witness :
  exists f s r, sp_lookup "upsertFolder" SPTable = Some f /\ table_type f LSTable = Some s /\
    makeRow s sample_values = Ok r /\ row_ok s r /\
    Decode (SPToDepMap ["upsertFolder"]) LSTable (fun _ => 0) (fun n => n) (fun _ => "") 3
      (JArr (num 5 :: JStr "upsertFolder" :: sample_args)) (NewLightSpeedDecoder ∅)
    = Ok (VNil, append_row f r (NewLightSpeedDecoder ∅)).
Proof.
  apply (known_call_appends_row ["upsertFolder"]);
    [by apply (bool_decide_unpack _)|by vm_compute|reflexivity].
Defined.

Lemma upsert_to_insert_witness :
  row_field LSInsertMessage "MessageId" (ToInsert (reflect_New LSUpsertMessage)) =
    row_field LSUpsertMessage "MessageId" (reflect_New LSUpsertMessage)
  /\ unrec (ToInsert (reflect_New LSUpsertMessage)) = None.
Proof.
  apply (upsert_to_insert (reflect_New LSUpsertMessage) "MessageId"); [|done].
  split; [apply reflect_New_typed|done].
Defined.

Lemma decode_keeps_tables_typed_witness :
  table_ok LSTable (table (append_row "LSUpsertFolder" sample_row (NewLightSpeedDecoder ∅))).
Proof.
  apply (decode_keeps_tables_typed (SPToDepMap ["upsertFolder"]) LSTable (fun _ => 0) (fun n => n)
    (fun _ => "") 40 (JArr (num 5 :: JStr "upsertFolder" :: sample_args)) (NewLightSpeedDecoder ∅) VNil);
    [cbn; lia|vm_compute; reflexivity|].
  intros f rows. unfold NewLightSpeedDecoder. cbn. by rewrite lookup_empty.
Defined.

Lemma decode_only_appends_witness :
  let before := append_row "LSUpsertFolder" sample_row (NewLightSpeedDecoder ∅) in
  default [] (table before !! "LSUpsertFolder") `prefix_of`
  default [] (table (append_row "LSUpsertFolder" sample_row before) !! "LSUpsertFolder").
Proof.
  intros before.
  apply (decode_only_appends (SPToDepMap ["upsertFolder"]) LSTable (fun _ => 0) (fun n => n)
    (fun _ => "") 40 (JArr (num 5 :: JStr "upsertFolder" :: sample_args))
    before VNil);
    [cbn; lia|vm_compute; reflexivity].
Defined.
