(* ===== verification/WrapMessages.v ===== *)
(** * WrapMessages: bundling messages with their attachments ([table/wrappedmessage.go])

    Rows arrive in separate tables; [WrapMessages] groups upserted messages by the message
    range of their thread and hangs attachments and reactions on the message they name.  A
    [*WrappedMessage] is shared between the lists it returns and its map by message id, so
    messages live in a list and are referred to by position. *)

From S2P Require Import Prelude Lightspeed TableKinds TableThreads TableMessages Tables.
#[local] Open Scope string_scope.
#[local] Open Scope Z_scope.

(** ** Data *)

Record WrappedXMA := mkWrappedXMA { LSInsertXma : Inst; CTA : option Inst }.

Record WrappedMessage := mkWrappedMessage {
  LSInsert : Inst;
  IsUpsert : bool;
  BlobAttachments : list Inst;
  Attachments : list Inst;
  XMAAttachments : list WrappedXMA;
  Stickers : list Inst;
  Reactions : list Inst;
  ThreadID : string;
  IsSubthreadStart : bool
}.

(** A pointer to a [WrappedMessage]. *)
Abbreviation ptr := nat.

Record UpsertMessages := mkUpsertMessages {
  Range : option Inst;
  Messages : list ptr;
  MarkRead : bool
}.

Definition wrap (msg : Inst) (is_upsert : bool) : WrappedMessage :=
  mkWrappedMessage msg is_upsert [] [] [] [] [] "" false.

Definition add_blob (b : Inst) (w : WrappedMessage) : WrappedMessage :=
  mkWrappedMessage (LSInsert w) (IsUpsert w) (BlobAttachments w ++ [b]) (Attachments w)
    (XMAAttachments w) (Stickers w) (Reactions w) (ThreadID w) (IsSubthreadStart w).
Definition add_attachment (a : Inst) (w : WrappedMessage) : WrappedMessage :=
  mkWrappedMessage (LSInsert w) (IsUpsert w) (BlobAttachments w) (Attachments w ++ [a])
    (XMAAttachments w) (Stickers w) (Reactions w) (ThreadID w) (IsSubthreadStart w).
Definition add_xma (x : WrappedXMA) (w : WrappedMessage) : WrappedMessage :=
  mkWrappedMessage (LSInsert w) (IsUpsert w) (BlobAttachments w) (Attachments w)
    (XMAAttachments w ++ [x]) (Stickers w) (Reactions w) (ThreadID w) (IsSubthreadStart w).
Definition add_sticker (b : Inst) (w : WrappedMessage) : WrappedMessage :=
  mkWrappedMessage (LSInsert w) (IsUpsert w) (BlobAttachments w) (Attachments w)
    (XMAAttachments w) (Stickers w ++ [b]) (Reactions w) (ThreadID w) (IsSubthreadStart w).
(** Only an upserted message takes reactions. *)
Definition add_reaction (r : Inst) (w : WrappedMessage) : WrappedMessage :=
  if IsUpsert w then
    mkWrappedMessage (LSInsert w) (IsUpsert w) (BlobAttachments w) (Attachments w)
      (XMAAttachments w) (Stickers w) (Reactions w ++ [r]) (ThreadID w) (IsSubthreadStart w)
  else w.

(** ** Columns *)

Definition rows (t : gmap string (list Inst)) (f : string) : list Inst := default [] (t !! f).

Definition range_key := row_int LSInsertNewMessageRange "ThreadKey".
Definition range_max := row_int LSInsertNewMessageRange "MaxTimestampMs".
Definition upsert_key := row_int LSUpsertMessage "ThreadKey".
Definition upsert_id := row_str LSUpsertMessage "MessageId".
Definition insert_key := row_int LSInsertMessage "ThreadKey".
Definition insert_id := row_str LSInsertMessage "MessageId".
Definition blob_id := row_str LSInsertBlobAttachment "MessageId".
Definition attachment_id := row_str LSInsertAttachment "MessageId".
Definition xma_id := row_str LSInsertXmaAttachment "MessageId".
Definition xma_fbid := row_str LSInsertXmaAttachment "AttachmentFbid".
Definition cta_fbid := row_str LSInsertAttachmentCta "AttachmentFbid".
Definition sticker_id := row_str LSInsertStickerAttachment "MessageId".
Definition reaction_id := row_str LSUpsertReaction "MessageId".

(** ** WrapMessages *)

Definition new_upserts (t : gmap string (list Inst)) : gmap Z UpsertMessages :=
  foldl (fun m rng => <[range_key rng := mkUpsertMessages (Some rng) [] false]> m) ∅
    (rows t "LSInsertNewMessageRange").

(** One read marker: the chunk of its thread is read if its newest message is. *)
Definition mark_read (key watermark : Inst -> Z) (m : gmap Z UpsertMessages) (read : Inst)
    : res (gmap Z UpsertMessages) :=
  match m !! key read with
  | None => Ok m
  | Some u =>
      match Range u with
      | None => Panic
      | Some rng =>
          Ok (<[key read := mkUpsertMessages (Range u) (Messages u)
                              (range_max rng <=? watermark read)]> m)
      end
  end.

Fixpoint foldM {A S} (f : S -> A -> res S) (s : S) (l : list A) : res S :=
  match l with
  | [] => Ok s
  | x :: l => s' ← f s x; foldM f s' l
  end.

Definition mark_all_read (t : gmap string (list Inst)) (m : gmap Z UpsertMessages)
    : res (gmap Z UpsertMessages) :=
  m ← foldM (mark_read (row_int LSMarkThreadRead "ThreadKey")
               (row_int LSMarkThreadRead "LastReadWatermarkTimestampMs")) m
        (rows t "LSMarkThreadRead");
  m ← foldM (mark_read (row_int LSMarkThreadReadV2 "ThreadKey")
               (row_int LSMarkThreadReadV2 "LastReadWatermarkTimestampMs")) m
        (rows t "LSMarkThreadReadV2");
  foldM (mark_read (row_int LSDeleteThenInsertThread "ThreadKey")
           (row_int LSDeleteThenInsertThread "LastReadWatermarkTimestampMs")) m
    (rows t "LSDeleteThenInsertThread").

Record WrapState := mkWrapState {
  heap : list WrappedMessage;
  messageMap : gmap string ptr;
  upsert : gmap Z UpsertMessages
}.

Definition wrap_upsert (s : WrapState) (msg : Inst) : WrapState :=
  let p := length (heap s) in
  mkWrapState (heap s ++ [wrap (ToInsert msg) true])
    (<[upsert_id msg := p]> (messageMap s))
    (match upsert s !! upsert_key msg with
     | None => upsert s
     | Some u =>
         <[upsert_key msg := mkUpsertMessages (Range u) (Messages u ++ [p]) (MarkRead u)]>
           (upsert s)
     end).

Definition wrap_insert (s : WrapState) (msg : Inst) : WrapState :=
  mkWrapState (heap s ++ [wrap msg false])
    (<[insert_id msg := length (heap s)]> (messageMap s)) (upsert s).

(** Hang each row of a table on the message it names, if there is one. *)
Definition attach (mm : gmap string ptr) (id : Inst -> string)
    (put : Inst -> WrappedMessage -> WrappedMessage) (h : list WrappedMessage) (l : list Inst)
    : list WrappedMessage :=
  foldl (fun h a => match mm !! id a with Some p => alter (put a) p h | None => h end) h l.

Definition cta_map (t : gmap string (list Inst)) : gmap string Inst :=
  foldl (fun m cta => <[cta_fbid cta := cta]> m) ∅ (rows t "LSInsertAttachmentCta").

Definition wrap_xma (t : gmap string (list Inst)) (x : Inst) : WrappedXMA :=
  mkWrappedXMA x (cta_map t !! xma_fbid x).

(** The result: the messages, the chunks by thread and the inserted messages. *)
Definition WrapMessages (t : gmap string (list Inst))
    : res (list WrappedMessage * gmap Z UpsertMessages * list ptr) :=
  ups ← mark_all_read t (new_upserts t);
  let s1 := foldl wrap_upsert (mkWrapState [] ∅ ups) (rows t "LSUpsertMessage") in
  let h1 := attach (messageMap s1) reaction_id add_reaction (heap s1)
              (match rows t "LSUpsertMessage" with
               | [] => []
               | _ => rows t "LSUpsertReaction"
               end) in
  let s2 := foldl wrap_insert (mkWrapState h1 (messageMap s1) (upsert s1)) (rows t "LSInsertMessage") in
  let insert := seq (length h1) (length (rows t "LSInsertMessage")) in
  let mm := messageMap s2 in
  let h2 := attach mm blob_id add_blob (heap s2) (rows t "LSInsertBlobAttachment") in
  let h3 := attach mm attachment_id add_attachment h2 (rows t "LSInsertAttachment") in
  let h4 := attach mm xma_id (fun x => add_xma (wrap_xma t x)) h3 (rows t "LSInsertXmaAttachment") in
  let h5 := attach mm sticker_id add_sticker h4 (rows t "LSInsertStickerAttachment") in
  Ok (h5, upsert s2, insert).

(** ** UpsertMessages.Join and GetThreadKey *)

Definition row_set (s : Schema) (n : string) (v : val) (r : Inst) : Inst :=
  match field_pos n (sfields s) with
  | Some i => mkInst (<[i := v]> (ifields r)) (unrec r)
  | None => r
  end.

Definition copy_field (n : string) (src dst : Inst) : Inst :=
  match row_field LSInsertNewMessageRange n src with
  | Some v => row_set LSInsertNewMessageRange n v dst
  | None => dst
  end.

(** [um.Join(other)]; nil chunks are [None]. *)
Definition Join (um other : option UpsertMessages) : res (option UpsertMessages) :=
  match um, other with
  | None, _ => Ok other
  | _, None => Ok um
  | Some u, Some o =>
      match Range u, Range o with
      | Some ru, Some ro =>
          Ok (Some (mkUpsertMessages
            (Some (copy_field "MinMessageId" ro (copy_field "MinTimestampMs" ro
                    (copy_field "MinTimestampMsTemplate" ro (copy_field "HasMoreBefore" ro ru)))))
            (Messages u ++ Messages o) (MarkRead u)))
      | _, _ => Panic
      end
  end.

Definition UpsertMessages_GetThreadKey (h : list WrappedMessage) (um : UpsertMessages) : Z :=
  match Range um, Messages um with
  | Some rng, _ => range_key rng
  | None, p :: _ => match h !! p with Some w => insert_key (LSInsert w) | None => 0 end
  | None, [] => 0
  end.

(** ** Lemmas: attaching *)

(** What attaching does to any list-valued view of the messages that [put] extends by
    [mk]. *)
Lemma attach_view {B} (view : WrappedMessage -> list B) (mk : Inst -> list B) mm id put l :
  (forall a w, view (put a w) = (view w ++ mk a)%list) ->
  forall h p, view <$> attach mm id put h l !! p =
    (fun w => (view w ++ concat (mk <$> filter (fun a => mm !! id a = Some p) l))%list) <$> h !! p.
Proof.
  intros Hput. unfold attach. induction l as [|a l IH]; intros h p.
  { cbn. destruct (h !! p); [|done]. cbn. by rewrite app_nil_r. }
  cbn [foldl]. rewrite IH, filter_cons. clear IH.
  destruct (mm !! id a) as [q|] eqn:Eq.
  - destruct (decide (p = q)) as [->|Hne].
    + rewrite decide_True, list_lookup_alter_eq by done. destruct (h !! q) as [w|]; cbn; [|done].
      f_equal. by rewrite Hput, app_assoc.
    + by rewrite list_lookup_alter_ne, decide_False by congruence.
  - by rewrite decide_False.
Qed.

(** The same for a view [put] leaves alone. *)
Lemma attach_frame {B} (view : WrappedMessage -> B) mm id put l :
  (forall a w, view (put a w) = view w) ->
  forall h p, view <$> attach mm id put h l !! p = view <$> h !! p.
Proof.
  intros Hput. unfold attach. induction l as [|a l IH]; intros h p; [done|]. cbn [foldl].
  rewrite IH. destruct (mm !! id a) as [q|]; [|done]. destruct (decide (p = q)) as [->|Hne].
  - rewrite list_lookup_alter_eq. destruct (h !! q); [|done]. cbn. by rewrite Hput.
  - by rewrite list_lookup_alter_ne.
Qed.

Lemma attach_length mm id put l h : length (attach mm id put h l) = length h.
Proof.
  unfold attach. revert h. induction l as [|a l IH]; intros h; [done|]. cbn [foldl].
  rewrite IH. destruct (mm !! id a); [|done]. apply length_alter.
Qed.

Lemma add_reaction_frame {B} (view : WrappedMessage -> B) :
  (forall w r, view (mkWrappedMessage (LSInsert w) (IsUpsert w) (BlobAttachments w) (Attachments w)
     (XMAAttachments w) (Stickers w) r (ThreadID w) (IsSubthreadStart w)) = view w) ->
  forall a w, view (add_reaction a w) = view w.
Proof. intros H a w. unfold add_reaction. destruct (IsUpsert w) eqn:E; [rewrite <- E; apply H|done]. Qed.

(** ** Lemmas: messages *)

Lemma wrap_upserts_heap l : forall s,
  heap (foldl wrap_upsert s l) = (heap s ++ ((fun m => wrap (ToInsert m) true) <$> l))%list.
Proof.
  induction l as [|m l IH]; intros s; cbn; [by rewrite app_nil_r|].
  rewrite IH. cbn. by rewrite <- app_assoc.
Qed.

Lemma wrap_inserts_heap l : forall s,
  heap (foldl wrap_insert s l) = (heap s ++ ((fun m => wrap m false) <$> l))%list.
Proof.
  induction l as [|m l IH]; intros s; cbn; [by rewrite app_nil_r|].
  rewrite IH. cbn. by rewrite <- app_assoc.
Qed.

Lemma wrap_inserts_upsert l : forall s, upsert (foldl wrap_insert s l) = upsert s.
Proof. induction l as [|m l IH]; intros s; [done|]. cbn. by rewrite IH. Qed.

(** The last position of an id in a list of ids, counting from [n]. *)
Fixpoint last_pos (i : string) (n : nat) (ids : list string) : option nat :=
  match ids with
  | [] => None
  | x :: ids =>
      match last_pos i (S n) ids with
      | Some p => Some p
      | None => if (x =? i)%string then Some n else None
      end
  end.

Lemma wrap_upserts_map l i : forall s, messageMap (foldl wrap_upsert s l) !! i =
  match last_pos i (length (heap s)) (upsert_id <$> l) with
  | Some p => Some p
  | None => messageMap s !! i
  end.
Proof.
  induction l as [|m l IH]; intros s; [done|]. cbn [foldl fmap list_fmap last_pos]. rewrite IH.
  cbn [wrap_upsert heap messageMap]. rewrite length_app. cbn [length]. rewrite Nat.add_1_r.
  destruct (last_pos i _ _); [done|]. destruct (String.eqb_spec (upsert_id m) i) as [->|Hne].
  - apply lookup_insert_eq.
  - by apply lookup_insert_ne.
Qed.

Lemma wrap_inserts_map l i : forall s, messageMap (foldl wrap_insert s l) !! i =
  match last_pos i (length (heap s)) (insert_id <$> l) with
  | Some p => Some p
  | None => messageMap s !! i
  end.
Proof.
  induction l as [|m l IH]; intros s; [done|]. cbn [foldl fmap list_fmap last_pos]. rewrite IH.
  cbn [wrap_insert heap messageMap]. rewrite length_app. cbn [length]. rewrite Nat.add_1_r.
  destruct (last_pos i _ _); [done|]. destruct (String.eqb_spec (insert_id m) i) as [->|Hne].
  - apply lookup_insert_eq.
  - by apply lookup_insert_ne.
Qed.

Lemma last_pos_app i ids1 ids2 : forall n, last_pos i n (ids1 ++ ids2) =
  match last_pos i (n + length ids1) ids2 with
  | Some p => Some p
  | None => last_pos i n ids1
  end.
Proof.
  induction ids1 as [|x ids1 IH]; intros n; cbn.
  - rewrite Nat.add_0_r. by destruct (last_pos i n ids2).
  - rewrite IH. replace (S n + length ids1)%nat with (n + S (length ids1))%nat by lia.
    by destruct (last_pos i _ ids2).
Qed.

(** ** Lemmas: chunks *)

Definition chunk_ok (m : gmap Z UpsertMessages) : Prop :=
  forall k u, m !! k = Some u -> exists rng, Range u = Some rng /\ range_key rng = k.

Lemma new_upserts_ok t : chunk_ok (new_upserts t).
Proof.
  unfold new_upserts. generalize (rows t "LSInsertNewMessageRange"). intros l.
  enough (forall m, chunk_ok m -> chunk_ok (foldl (fun m rng =>
    <[range_key rng := mkUpsertMessages (Some rng) [] false]> m) m l)) as H by (by apply H).
  induction l as [|r l IH]; intros m Hm; [done|]. apply IH. intros k u.
  destruct (decide (k = range_key r)) as [->|Hne].
  - rewrite lookup_insert_eq. intros [= <-]. by exists r.
  - rewrite lookup_insert_ne by done. apply Hm.
Qed.

(** Read markers never panic, and only set the read flag: the last one for the thread wins. *)
Definition read_flag (max k : Z) (b : bool) (marks : list (Z * Z)) : bool :=
  foldl (fun b m => if fst m =? k then max <=? snd m else b) b marks.

Definition set_read (k : Z) (marks : list (Z * Z)) (u : UpsertMessages) : UpsertMessages :=
  mkUpsertMessages (Range u) (Messages u)
    (match Range u with
     | Some rng => read_flag (range_max rng) k (MarkRead u) marks
     | None => MarkRead u
     end).

Definition marked (marks : list (Z * Z)) (m m' : gmap Z UpsertMessages) : Prop :=
  forall k, m' !! k = set_read k marks <$> m !! k.

Lemma marked_ok marks m m' : marked marks m m' -> chunk_ok m -> chunk_ok m'.
Proof.
  intros Hs Hm k u. rewrite Hs. intros (u0 & E & ->)%fmap_Some. by apply (Hm k u0).
Qed.

Lemma set_read_nil k u : set_read k [] u = u.
Proof. destruct u as [[]]; done. Qed.

Lemma marked_nil m : marked [] m m.
Proof. intros k. destruct (m !! k); cbn; [by rewrite set_read_nil|done]. Qed.

Lemma marked_trans marks marks' m m' m'' :
  marked marks m m' -> marked marks' m' m'' -> marked (marks ++ marks') m m''.
Proof.
  intros H H' k. rewrite H', H. destruct (m !! k) as [[[rng|] ms b]|]; cbn; [|done..].
  unfold set_read, read_flag. cbn. by rewrite foldl_app.
Qed.

Lemma mark_read_ok key wm l : forall m, chunk_ok m ->
  exists m', foldM (mark_read key wm) m l = Ok m' /\
    marked ((fun r => (key r, wm r)) <$> l) m m'.
Proof.
  induction l as [|r l IH]; intros m Hm; [exists m; split; [done|apply marked_nil]|].
  cbn [foldM].
  assert (exists m', mark_read key wm m r = Ok m' /\ marked [(key r, wm r)] m m') as (m1 & -> & Hs).
  { unfold mark_read. destruct (m !! key r) as [u|] eqn:Eu.
    - destruct (Hm _ _ Eu) as (rng & Hr & _). rewrite Hr. eexists. split; [done|].
      intros k. destruct (decide (k = key r)) as [->|Hne].
      + rewrite lookup_insert_eq, Eu. unfold set_read, read_flag. cbn. rewrite Hr. cbn.
        by rewrite Z.eqb_refl.
      + rewrite lookup_insert_ne by done. destruct (m !! k) as [[[] ms b]|]; cbn; [|done..].
        unfold set_read, read_flag. cbn. by replace (key r =? k) with false by (symmetry; apply Z.eqb_neq; congruence).
    - exists m. split; [done|]. intros k. destruct (m !! k) as [[[] ms b]|] eqn:Ek; cbn; [|done..].
      unfold set_read, read_flag. cbn.
      replace (key r =? k) with false; [done|]. symmetry. apply Z.eqb_neq. congruence. }
  destruct (IH m1) as (m' & E & Hs'); [by eapply marked_ok|].
  exists m'. split; [done|]. by apply (marked_trans [_] _ _ m1).
Qed.

(** All read markers, in the order the code goes through them. *)
Definition read_marks (t : gmap string (list Inst)) : list (Z * Z) :=
  ((fun r => (row_int LSMarkThreadRead "ThreadKey" r,
              row_int LSMarkThreadRead "LastReadWatermarkTimestampMs" r)) <$> rows t "LSMarkThreadRead") ++
  ((fun r => (row_int LSMarkThreadReadV2 "ThreadKey" r,
              row_int LSMarkThreadReadV2 "LastReadWatermarkTimestampMs" r)) <$> rows t "LSMarkThreadReadV2") ++
  ((fun r => (row_int LSDeleteThenInsertThread "ThreadKey" r,
              row_int LSDeleteThenInsertThread "LastReadWatermarkTimestampMs" r))
     <$> rows t "LSDeleteThenInsertThread").

Lemma mark_all_read_ok t : exists m,
  mark_all_read t (new_upserts t) = Ok m /\ marked (read_marks t) (new_upserts t) m.
Proof.
  unfold mark_all_read.
  destruct (mark_read_ok (row_int LSMarkThreadRead "ThreadKey")
    (row_int LSMarkThreadRead "LastReadWatermarkTimestampMs") (rows t "LSMarkThreadRead") _
    (new_upserts_ok t)) as (m1 & -> & H1).
  pose proof (marked_ok _ _ _ H1 (new_upserts_ok t)) as Hm1. cbn [mbind res_bind].
  destruct (mark_read_ok (row_int LSMarkThreadReadV2 "ThreadKey")
    (row_int LSMarkThreadReadV2 "LastReadWatermarkTimestampMs") (rows t "LSMarkThreadReadV2") _ Hm1)
    as (m2 & -> & H2).
  pose proof (marked_ok _ _ _ H2 Hm1) as Hm2. cbn [mbind res_bind].
  destruct (mark_read_ok (row_int LSDeleteThenInsertThread "ThreadKey")
    (row_int LSDeleteThenInsertThread "LastReadWatermarkTimestampMs")
    (rows t "LSDeleteThenInsertThread") _ Hm2) as (m3 & -> & H3).
  exists m3. split; [done|]. eapply marked_trans; [done|]. by eapply marked_trans.
Qed.

Lemma new_upserts_lookup t k : new_upserts t !! k =
  (fun rng => mkUpsertMessages (Some rng) [] false) <$>
    last (filter (fun r => range_key r = k) (rows t "LSInsertNewMessageRange")).
Proof.
  unfold new_upserts. generalize (rows t "LSInsertNewMessageRange"). intros l.
  induction l as [|r l IH] using rev_ind; [done|]. rewrite foldl_app, filter_app. cbn [foldl].
  rewrite filter_cons, filter_nil. destruct (decide (range_key r = k)) as [<-|Hne].
  - by rewrite lookup_insert_eq, last_snoc.
  - by rewrite lookup_insert_ne, app_nil_r.
Qed.

(** The positions, from [n] on, of the messages of thread [k]. *)
Fixpoint positions_of (k : Z) (n : nat) (keys : list Z) : list nat :=
  match keys with
  | [] => []
  | x :: keys => if x =? k then n :: positions_of k (S n) keys else positions_of k (S n) keys
  end.

Lemma wrap_upserts_chunks l k : forall s, upsert (foldl wrap_upsert s l) !! k =
  (fun u => mkUpsertMessages (Range u)
     (Messages u ++ positions_of k (length (heap s)) (upsert_key <$> l)) (MarkRead u))
  <$> upsert s !! k.
Proof.
  induction l as [|m l IH]; intros s.
  { cbn. destruct (upsert s !! k) as [[]|]; cbn; [|done]. by rewrite app_nil_r. }
  cbn [foldl fmap list_fmap positions_of]. rewrite IH. clear IH.
  cbn [wrap_upsert heap upsert]. rewrite length_app. cbn [length]. rewrite Nat.add_1_r.
  destruct (Z.eqb_spec (upsert_key m) k) as [->|Hne].
  - destruct (upsert s !! k) as [u|] eqn:Eu; [|by rewrite Eu].
    rewrite lookup_insert_eq. cbn. by rewrite <- app_assoc.
  - destruct (upsert s !! upsert_key m) as [u|]; [by rewrite lookup_insert_ne|done].
Qed.

(** ** Properties *)

(** The ids of all messages, upserted ones first. *)
Definition message_ids (t : gmap string (list Inst)) : list string :=
  (upsert_id <$> rows t "LSUpsertMessage") ++ (insert_id <$> rows t "LSInsertMessage").

(** The rows of a table that name message [p]. *)
Definition naming (t : gmap string (list Inst)) (id : Inst -> string) (p : ptr) (l : list Inst)
    : list Inst :=
  filter (fun a => last_pos (id a) 0 (message_ids t) = Some p) l.

(** The message list: upserted messages, converted, then inserted ones. *)
Definition all_messages (t : gmap string (list Inst)) : list (Inst * bool) :=
  ((fun m => (ToInsert m, true)) <$> rows t "LSUpsertMessage") ++
  ((fun m => (m, false)) <$> rows t "LSInsertMessage").

Lemma attach_reactions_forced mm l h : Forall (fun w => IsUpsert w = true) h ->
  attach mm reaction_id add_reaction h l =
  attach mm reaction_id (fun r w => mkWrappedMessage (LSInsert w) (IsUpsert w) (BlobAttachments w)
    (Attachments w) (XMAAttachments w) (Stickers w) (Reactions w ++ [r]) (ThreadID w)
    (IsSubthreadStart w)) h l.
Proof.
  unfold attach. revert h. induction l as [|r l IH]; intros h Hh; [done|]. cbn [foldl].
  destruct (mm !! reaction_id r) as [p|]; [|by apply IH].
  assert (alter (add_reaction r) p h = alter (fun w => mkWrappedMessage (LSInsert w) (IsUpsert w)
    (BlobAttachments w) (Attachments w) (XMAAttachments w) (Stickers w) (Reactions w ++ [r])
    (ThreadID w) (IsSubthreadStart w)) p h) as ->.
  { apply list_eq. intros q. destruct (decide (p = q)) as [->|Hne].
    - rewrite !list_lookup_alter_eq. destruct (h !! q) as [w|] eqn:Ew; [|done]. cbn.
      unfold add_reaction. by rewrite (Forall_lookup_1 _ _ _ _ Hh Ew).
    - by rewrite !list_lookup_alter_ne. }
  apply IH. apply Forall_lookup. intros q w. destruct (decide (p = q)) as [->|Hne].
  - rewrite list_lookup_alter_eq. intros (w0 & Ew & ->)%fmap_Some.
    exact (Forall_lookup_1 _ _ _ _ Hh Ew).
  - rewrite list_lookup_alter_ne by done. intros Ew. exact (Forall_lookup_1 _ _ _ _ Hh Ew).
Qed.

Lemma concat_singletons {A B} (f : A -> B) l : concat ((fun a => [f a]) <$> l) = f <$> l.
Proof. induction l as [|a l IH]; [done|]. cbn. by rewrite IH. Qed.

(** The stages of [WrapMessages], named. *)
Section Stages.
Context (t : gmap string (list Inst)) (ups : gmap Z UpsertMessages).

Definition upserted : WrapState :=
  foldl wrap_upsert (mkWrapState [] ∅ ups) (rows t "LSUpsertMessage").
Definition reacted : list WrappedMessage :=
  attach (messageMap upserted) reaction_id add_reaction (heap upserted)
    (match rows t "LSUpsertMessage" with [] => [] | _ => rows t "LSUpsertReaction" end).
Definition inserted : WrapState :=
  foldl wrap_insert (mkWrapState reacted (messageMap upserted) (upsert upserted))
    (rows t "LSInsertMessage").

Lemma upserted_heap :
  heap upserted = (fun m => wrap (ToInsert m) true) <$> rows t "LSUpsertMessage".
Proof. unfold upserted. by rewrite wrap_upserts_heap. Qed.

Lemma reacted_length : length reacted = length (rows t "LSUpsertMessage").
Proof.
  unfold reacted. rewrite attach_length, upserted_heap. apply length_fmap.
Qed.

Lemma inserted_map i : messageMap inserted !! i = last_pos i 0 (message_ids t).
Proof.
  unfold inserted. rewrite wrap_inserts_map. cbn [heap messageMap]. rewrite reacted_length.
  unfold upserted. rewrite wrap_upserts_map. cbn [heap messageMap length].
  unfold message_ids. rewrite last_pos_app, length_fmap. cbn. rewrite lookup_empty.
  destruct (last_pos i (length _) _); [done|]. by destruct (last_pos i 0 _).
Qed.

(** A view that reactions do not touch, of the messages before attachments. *)
Lemma inserted_view {B} (view : WrappedMessage -> B) :
  (forall w r, view (mkWrappedMessage (LSInsert w) (IsUpsert w) (BlobAttachments w) (Attachments w)
    (XMAAttachments w) (Stickers w) r (ThreadID w) (IsSubthreadStart w)) = view w) ->
  forall p, view <$> heap inserted !! p = (fun m => view (wrap (fst m) (snd m))) <$> all_messages t !! p.
Proof.
  intros Hv p. unfold inserted, all_messages. rewrite wrap_inserts_heap. cbn [heap].
  rewrite !lookup_app, reacted_length.
  pose proof (attach_frame view (messageMap upserted) reaction_id add_reaction
    (match rows t "LSUpsertMessage" with [] => [] | _ => rows t "LSUpsertReaction" end)
    (add_reaction_frame view Hv) (heap upserted) p) as Hf. fold reacted in Hf.
  rewrite upserted_heap in Hf. rewrite !list_lookup_fmap in Hf |- *. rewrite length_fmap.
  rewrite !list_lookup_fmap.
  destruct (rows t "LSUpsertMessage" !! p) as [m|] eqn:E; cbn in Hf |- *.
  - destruct (reacted !! p) as [w|]; [|done]. cbn in Hf |- *. by injection Hf as ->.
  - destruct (reacted !! p) as [w|] eqn:Ew; [done|].
    by destruct (rows t "LSInsertMessage" !! _).
Qed.

Lemma inserted_reactions p w : heap inserted !! p = Some w ->
  Reactions w = filter (fun r => last_pos (reaction_id r) 0 (upsert_id <$> rows t "LSUpsertMessage")
                                 = Some p) (rows t "LSUpsertReaction").
Proof.
  assert (forall i, messageMap upserted !! i = last_pos i 0 (upsert_id <$> rows t "LSUpsertMessage")) as Hm.
  { intros i. unfold upserted. rewrite wrap_upserts_map. cbn. rewrite lookup_empty.
    by destruct (last_pos _ _ _). }
  unfold inserted. rewrite wrap_inserts_heap. cbn [heap]. intros Hw.
  apply lookup_app_Some in Hw as [Hw|[Hge Hw]].
  - pose proof (attach_view Reactions (fun r => [r]) (messageMap upserted) reaction_id
      (fun r w => mkWrappedMessage (LSInsert w) (IsUpsert w) (BlobAttachments w)
        (Attachments w) (XMAAttachments w) (Stickers w) (Reactions w ++ [r]) (ThreadID w)
        (IsSubthreadStart w)) (rows t "LSUpsertReaction") (fun _ _ => eq_refl) (heap upserted) p) as Hv.
    rewrite <- attach_reactions_forced in Hv.
    2: { rewrite upserted_heap. by apply Forall_fmap, Forall_true. }
    unfold reacted in Hw. pose proof (lookup_lt_Some _ _ _ Hw) as Hlt.
    rewrite attach_length in Hlt.
    pose proof upserted_heap as Hh.
    destruct (rows t "LSUpsertMessage") as [|m ms] eqn:El; [rewrite Hh in Hlt; cbn in Hlt; lia|].
    rewrite Hw in Hv. rewrite Hh, list_lookup_fmap in Hv.
    destruct ((m :: ms) !! p) as [m'|] eqn:Ep; [|done]. cbn [fmap option_fmap option_map] in Hv.
    injection Hv as ->. cbn [wrap Reactions app]. rewrite (concat_singletons id), list_fmap_id.
    apply list_filter_iff. intros r. by rewrite Hm.
  - rewrite list_lookup_fmap in Hw. rewrite reacted_length in Hge.
    apply fmap_Some in Hw as (m & _ & ->). cbn.
    induction (rows t "LSUpsertReaction") as [|r l IH]; [done|]. rewrite filter_cons, <- IH.
    rewrite decide_False; [done|]. intros Hl.
    enough (p < length (upsert_id <$> rows t "LSUpsertMessage"))%nat as Hlt
      by (rewrite length_fmap in Hlt; lia).
    clear - Hl. revert Hl. generalize (upsert_id <$> rows t "LSUpsertMessage").
    intros ids. change p with (0 + p)%nat. intros Hl.
    enough (forall n q, last_pos (reaction_id r) n ids = Some q -> (q < n + length ids)%nat) as H
      by (by apply (H 0%nat)).
    clear. induction ids as [|x ids IH]; intros n q; [done|]. cbn.
    destruct (last_pos _ (S n) ids) eqn:E.
    + intros [= <-]. apply IH in E. lia.
    + destruct (_ =? _)%string; [|done]. intros [= <-]. lia.
Qed.

Lemma inserted_chunks k : upsert inserted !! k =
  (fun u => mkUpsertMessages (Range u)
     (Messages u ++ positions_of k 0 (upsert_key <$> rows t "LSUpsertMessage")) (MarkRead u))
  <$> ups !! k.
Proof.
  unfold inserted. rewrite wrap_inserts_upsert. cbn [upsert]. unfold upserted.
  by rewrite wrap_upserts_chunks.
Qed.
End Stages.

Lemma inserted_upsert_flag t ups p w : heap (inserted t ups) !! p = Some w ->
  all_messages t !! p = Some (LSInsert w, IsUpsert w).
Proof.
  intros Hw. pose proof (inserted_view t ups (fun w => (LSInsert w, IsUpsert w))
    (fun _ _ => eq_refl) p) as H.
  rewrite Hw in H. cbn in H. destruct (all_messages t !! p) as [[m b]|]; [|done]. cbn in H. congruence.
Qed.

Lemma inserted_empty {B} (view : WrappedMessage -> list B) t ups p w :
  (forall w r, view (mkWrappedMessage (LSInsert w) (IsUpsert w) (BlobAttachments w) (Attachments w)
      (XMAAttachments w) (Stickers w) r (ThreadID w) (IsSubthreadStart w)) = view w) ->
  (forall m b, view (wrap m b) = []) -> heap (inserted t ups) !! p = Some w -> view w = [].
Proof.
  intros Hv Hw E. pose proof (inserted_view t ups view Hv p) as H. rewrite E in H. cbn in H.
  destruct (all_messages t !! p) as [[m b]|]; [|done]. cbn in H. rewrite Hw in H. congruence.
Qed.

(** Every attachment list is the list of the rows that name the message. *)
Definition bundled (t : gmap string (list Inst)) (p : ptr) (w : WrappedMessage) : Prop :=
  all_messages t !! p = Some (LSInsert w, IsUpsert w) /\
  BlobAttachments w = naming t blob_id p (rows t "LSInsertBlobAttachment") /\
  Attachments w = naming t attachment_id p (rows t "LSInsertAttachment") /\
  XMAAttachments w = wrap_xma t <$> naming t xma_id p (rows t "LSInsertXmaAttachment") /\
  Stickers w = naming t sticker_id p (rows t "LSInsertStickerAttachment") /\
  Reactions w = filter (fun r => last_pos (reaction_id r) 0 (upsert_id <$> rows t "LSUpsertMessage")
                                 = Some p) (rows t "LSUpsertReaction").

Section Final.
Context (t : gmap string (list Inst)) (ups : gmap Z UpsertMessages).
Let mm := messageMap (inserted t ups).
Let h1 := heap (inserted t ups).
Let h2 := attach mm blob_id add_blob h1 (rows t "LSInsertBlobAttachment").
Let h3 := attach mm attachment_id add_attachment h2 (rows t "LSInsertAttachment").
Let h4 := attach mm xma_id (fun x => add_xma (wrap_xma t x)) h3 (rows t "LSInsertXmaAttachment").
Let h5 := attach mm sticker_id add_sticker h4 (rows t "LSInsertStickerAttachment").

Lemma naming_filter id p l : filter (fun a => mm !! id a = Some p) l = naming t id p l.
Proof. apply list_filter_iff. intros a. unfold mm. by rewrite inserted_map. Qed.

Lemma final_bundled p w : h5 !! p = Some w -> bundled t p w.
Proof.
  intros Hw.
  assert (exists w1, h1 !! p = Some w1) as [w1 Hw1].
  { pose proof (lookup_lt_Some _ _ _ Hw) as Hlt. unfold h5, h4, h3, h2 in Hlt.
    rewrite !attach_length in Hlt. by apply lookup_lt_is_Some_2 in Hlt. }
  pose proof (inserted_upsert_flag t ups p w1 Hw1) as Hall.
  pose proof (inserted_reactions t ups p w1 Hw1) as Hreact.
  assert (forall {B} (v : WrappedMessage -> B),
    (forall a w, v (add_blob a w) = v w) -> v <$> h2 !! p = Some (v w1)) as F2.
  { intros B v Hv. unfold h2. rewrite (attach_frame v) by done. by rewrite Hw1. }
  assert (forall {B} (v : WrappedMessage -> B) x, (forall a w, v (add_attachment a w) = v w) ->
    v <$> h2 !! p = Some x -> v <$> h3 !! p = Some x) as F3.
  { intros B v x Hv. unfold h3. by rewrite (attach_frame v). }
  assert (forall {B} (v : WrappedMessage -> B) x, (forall a w, v (add_xma a w) = v w) ->
    v <$> h3 !! p = Some x -> v <$> h4 !! p = Some x) as F4.
  { intros B v x Hv. unfold h4. by rewrite (attach_frame v). }
  assert (forall {B} (v : WrappedMessage -> B) x, (forall a w, v (add_sticker a w) = v w) ->
    v <$> h4 !! p = Some x -> v w = x) as F5.
  { intros B v x Hv H. rewrite <- (attach_frame v mm sticker_id add_sticker
      (rows t "LSInsertStickerAttachment")) in H by done.
    fold h5 in H. rewrite Hw in H. by injection H. }
  split_and!.
  - rewrite Hall. f_equal. symmetry. by apply (F5 _ (fun w => (LSInsert w, IsUpsert w))),
      (F4 _ (fun w => (LSInsert w, IsUpsert w))), (F3 _ (fun w => (LSInsert w, IsUpsert w))),
      (F2 _ (fun w => (LSInsert w, IsUpsert w))).
  - apply (F5 _ BlobAttachments), (F4 _ BlobAttachments), (F3 _ BlobAttachments); try done.
    unfold h2. rewrite (attach_view BlobAttachments (fun a => [a])) by done.
    rewrite Hw1. cbn. rewrite (inserted_empty BlobAttachments t ups p w1) by done.
    cbn. by rewrite (concat_singletons id), list_fmap_id, naming_filter.
  - apply (F5 _ Attachments), (F4 _ Attachments); try done.
    unfold h3. rewrite (attach_view Attachments (fun a => [a])) by done.
    pose proof (F2 _ Attachments (fun _ _ => eq_refl)) as H2.
    destruct (h2 !! p) as [w2|]; [|done]. cbn in H2 |- *. injection H2 as ->.
    rewrite (inserted_empty Attachments t ups p w1) by done.
    cbn. by rewrite (concat_singletons id), list_fmap_id, naming_filter.
  - apply (F5 _ XMAAttachments); try done.
    unfold h4. rewrite (attach_view XMAAttachments (fun a => [wrap_xma t a])) by done.
    pose proof (F3 _ XMAAttachments _ (fun _ _ => eq_refl) (F2 _ XMAAttachments (fun _ _ => eq_refl))) as H3.
    destruct (h3 !! p) as [w3|]; [|done]. cbn in H3 |- *. injection H3 as ->.
    rewrite (inserted_empty XMAAttachments t ups p w1) by done.
    cbn. by rewrite (concat_singletons (wrap_xma t)), naming_filter.
  - assert (Stickers <$> h5 !! p = Some (naming t sticker_id p (rows t "LSInsertStickerAttachment"))) as H5.
    { unfold h5. rewrite (attach_view Stickers (fun a => [a])) by done.
      pose proof (F4 _ Stickers _ (fun _ _ => eq_refl) (F3 _ Stickers _ (fun _ _ => eq_refl)
        (F2 _ Stickers (fun _ _ => eq_refl)))) as H4.
      destruct (h4 !! p) as [w4|]; [|done]. cbn in H4 |- *. injection H4 as ->.
      rewrite (inserted_empty Stickers t ups p w1) by done.
      cbn. by rewrite (concat_singletons id), list_fmap_id, naming_filter. }
    rewrite Hw in H5. by injection H5.
  - rewrite <- Hreact. by apply (F5 _ Reactions), (F4 _ Reactions), (F3 _ Reactions), (F2 _ Reactions).
Qed.

Lemma final_length : length h5 = length (all_messages t).
Proof.
  unfold h5, h4, h3, h2, h1. rewrite !attach_length. unfold inserted. rewrite wrap_inserts_heap.
  cbn. unfold all_messages. rewrite !length_app, !length_fmap, reacted_length. done.
Qed.
End Final.

Lemma WrapMessages_stages t : exists ups,
  marked (read_marks t) (new_upserts t) ups /\ exists h,
  WrapMessages t = Ok (h, upsert (inserted t ups),
    seq (length (rows t "LSUpsertMessage")) (length (rows t "LSInsertMessage"))) /\
  length h = length (all_messages t) /\ forall p w, h !! p = Some w -> bundled t p w.
Proof.
  destruct (mark_all_read_ok t) as (ups & E & Hm). exists ups. split; [done|].
  unfold WrapMessages. rewrite E. cbn [mbind res_bind]. eexists. split.
  - f_equal. f_equal. f_equal. rewrite attach_length, wrap_upserts_heap. cbn. by rewrite length_fmap.
  - split; [apply final_length|]. intros p w. apply final_bundled.
Qed.

(** [WrapMessages] never panics and bundles exactly: its messages are the upserted rows
    (converted) and the inserted rows in table order, the inserted ones are returned in that
    order, and each message carries, in table order and nothing else, the attachments, XMAs
    and stickers that name its id (the last message of an id gets them) and, when it was
    upserted, its reactions. *)
Theorem wrap_messages_bundles t : exists h ups,
  WrapMessages t = Ok (h, ups,
    seq (length (rows t "LSUpsertMessage")) (length (rows t "LSInsertMessage"))) /\
  length h = length (all_messages t) /\ forall p w, h !! p = Some w -> bundled t p w.
Proof.
  destruct (WrapMessages_stages t) as (ups & _ & h & E & Hl & Hb). by exists h, (upsert (inserted t ups)).
Qed.

Lemma WrapMessages_chunk t h ups ins k : WrapMessages t = Ok (h, ups, ins) ->
  ups !! k =
  (fun rng => mkUpsertMessages (Some rng)
     (positions_of k 0 (upsert_key <$> rows t "LSUpsertMessage"))
     (read_flag (range_max rng) k false (read_marks t)))
  <$> last (filter (fun r => range_key r = k) (rows t "LSInsertNewMessageRange")).
Proof.
  intros Hw. destruct (WrapMessages_stages t) as (ups0 & Hm & h0 & E & _). rewrite Hw in E.
  injection E as _ -> _. rewrite inserted_chunks, Hm, new_upserts_lookup.
  by destruct (last _).
Qed.

(** The chunks: a thread has one exactly if a message range names it; it holds the last
    such range and pointers to all upserted messages of the thread, in table order, and it is
    marked read according to the last read marker of the thread. *)
Theorem wrap_messages_chunks t h ups ins (Hw : WrapMessages t = Ok (h, ups, ins)) k :
  ups !! k =
  (fun rng => mkUpsertMessages (Some rng)
     (positions_of k 0 (upsert_key <$> rows t "LSUpsertMessage"))
     (read_flag (range_max rng) k false (read_marks t)))
  <$> last (filter (fun r => range_key r = k) (rows t "LSInsertNewMessageRange")).
Proof. by eapply WrapMessages_chunk. Qed.

(** A chunk of one message with one sticker. *)
Definition sample_range : Inst :=
  row_set LSInsertNewMessageRange "ThreadKey" (VInt64 7) (reflect_New LSInsertNewMessageRange).
Definition sample_message : Inst :=
  row_set LSUpsertMessage "MessageId" (VStr "m")
    (row_set LSUpsertMessage "ThreadKey" (VInt64 7) (reflect_New LSUpsertMessage)).

Definition sample_tables : gmap string (list Inst) :=
  <["LSInsertNewMessageRange" := [sample_range]]> (<["LSUpsertMessage" := [sample_message]]> ∅).

Lemma wrap_messages_chunks_witness :
  exists h ups ins, WrapMessages sample_tables = Ok (h, ups, ins) /\
    ups !! 7 = Some (mkUpsertMessages (Some sample_range) [0%nat] false).
Proof.
  destruct (WrapMessages sample_tables) as [[[h ups] ins]| |] eqn:E; [|discriminate E..].
  exists h, ups, ins. split; [done|]. apply (wrap_messages_chunks _ _ _ _ E 7).
Defined.
