(* ===== verification/MessageID.v ===== *)
(** * MessageID: message IDs and epoch IDs ([methods/methods.go])

    A Meta message ID is a prefix, a chat-type character and 21 bytes in base64url: chat id,
    milliseconds since the Meta epoch in five bytes, transaction id.  An epoch ID is a
    millisecond timestamp, a counter and a constant packed into an [int64]. *)

From S2P Require Import Prelude Base64 Unicode.
From Stdlib Require Import Ascii Sorting.Sorted.

Definition MetaEpochMS : Z := 1072915200000.

(** [Time] is kept as Unix milliseconds, all that the code uses of it. *)
Record MetaMessageID := mkMetaMessageID { ChatType : Z; ChatID : Z; Time : Z; TxnID : Z }.

(** [copy(body[at:], bs)] and the fixed-width writes into a buffer. *)
Definition put_at (pos : nat) (bs body : list byte) : list byte :=
  take pos body ++ bs ++ drop (pos + length bs) body.

(** The 21 bytes: the timestamp is written as eight bytes first, so the chat id overwrites its
    upper three. *)
Definition message_body (m : MetaMessageID) : list byte :=
  let body := replicate 21 (z2b 0) in
  let body := put_at 5 (be_encode 8 (uint64 (Time m - MetaEpochMS))) body in
  let body := put_at 0 (be_encode 8 (uint64 (ChatID m))) body in
  put_at 13 (be_encode 8 (uint64 (TxnID m))) body.

(** [String]: the empty string for nil. *)
Definition MetaMessageID_String (mmi : option MetaMessageID) : string :=
  match mmi with
  | None => ""
  | Some m => l2s (s2l "mid.$" ++ utf8_encode (ChatType m)
                   ++ s2l (EncodeToString RawURLEncoding (message_body m)))
  end.

Definition ParseMessageIDFull (messageID : string) : res MetaMessageID :=
  if negb (String.prefix "mid.$" messageID) || (slen messageID <? 6)
  then Err "invalid message ID prefix"
  else
    let l := s2l messageID in
    chatType ← index l 5;
    tail ← slice_from l 6;
    payload ← DecodeString RawURLEncoding (l2s tail);
    if negb (llen payload =? 21) then Err "unexpected decoded length"
    else
      chatID ← slice payload 0 8;
      timestampBuf ← slice payload 8 13;
      txnID ← slice payload 13 21;
      Ok (mkMetaMessageID (b2z chatType) (int64 (be_decode chatID))
            (int64 (be_decode (replicate 3 (z2b 0) ++ timestampBuf)) + MetaEpochMS)
            (int64 (be_decode txnID))).

Definition ParseMessageID (messageID : string) : res Z :=
  id ← ParseMessageIDFull messageID; Ok (Time id).

(** ** Epoch IDs *)

Record EpochState := mkEpochState { lastTimestamp : Z; counter : Z }.

(** One call, under the mutex, at the time [now]. *)
Definition GenerateEpochID (s : EpochState) (now : Z) : Z * EpochState :=
  let s' := if now =? lastTimestamp s then mkEpochState (lastTimestamp s) (int64 (counter s + 1))
            else mkEpochState now 0 in
  (Z.lor (Z.lor (int64 (Z.shiftl now 22)) (int64 (Z.shiftl (counter s') 12))) 42, s').

(** Successive calls at the given clock readings. *)
Fixpoint GenerateEpochIDs (s : EpochState) (clock : list Z) : list Z * EpochState :=
  match clock with
  | [] => ([], s)
  | now :: clock =>
      let '(id, s1) := GenerateEpochID s now in
      let '(ids, s2) := GenerateEpochIDs s1 clock in (id :: ids, s2)
  end.

(** ** Session IDs: [r] is what [rand.Int63n] returns. *)
Definition session_min : Z := 2171078810009599.
Definition session_max : Z := 4613554604867583.
Definition GenerateSessionID (r : Z) : Z := r + session_min.

(** ** Lemmas *)

Lemma put_at_app pre old post bs : length old = length bs ->
  put_at (length pre) bs (pre ++ old ++ post) = pre ++ bs ++ post.
Proof.
  intros H. unfold put_at. rewrite take_app_length. rewrite <- H.
  by rewrite <- drop_drop, drop_app_length, drop_app_length.
Qed.

(** The body is the three parts one after another. *)
Lemma message_body_parts m : message_body m =
  be_encode 8 (uint64 (ChatID m)) ++ be_encode 5 (uint64 (Time m - MetaEpochMS))
  ++ be_encode 8 (uint64 (TxnID m)).
Proof. reflexivity. Qed.

Lemma be_decode_zeros n bs : be_decode (replicate n (z2b 0) ++ bs) = be_decode bs.
Proof.
  unfold be_decode, le_decode. rewrite rev_app_distr.
  assert (rev (replicate n (z2b 0)) = repeat Byte.x00 n) as ->; [|apply LittleEndianList.le_combine_app_0].
  induction n as [|n IH]; [done|]. cbn [replicate rev]. rewrite IH. clear.
  induction n as [|n IH]; [done|]. cbn. by rewrite IH.
Qed.

Lemma ascii_chat_type c : 0 <= c < 128 -> utf8_encode c = [z2b c].
Proof.
  intros H. unfold utf8_encode. by replace ((0 <=? c) && (c <? 128)) with true by (symmetry; blia).
Qed.

Lemma prefix_app p s : String.prefix p (p ++ s)%string = true.
Proof.
  induction p as [|c p IH]; [by destruct s|]. change ((String c p ++ s)%string) with (String c (p ++ s)%string).
  cbn [String.prefix]. destruct (ascii_dec c c); [done|congruence].
Qed.

Lemma l2s_cons b l : l2s (b :: l) = String (ascii_of_byte b) (l2s l).
Proof. reflexivity. Qed.

(** What the parser makes of a prefix, a chat type and an encoded payload of the right size. *)
Lemma ParseMessageIDFull_encoded c a t x :
  length a = 8%nat -> length t = 5%nat -> length x = 8%nat ->
  ParseMessageIDFull (l2s (s2l "mid.$" ++ c :: s2l (EncodeToString RawURLEncoding (a ++ t ++ x)))) =
  Ok (mkMetaMessageID (b2z c) (int64 (be_decode a)) (int64 (be_decode t) + MetaEpochMS)
        (int64 (be_decode x))).
Proof.
  intros Ha Ht Hx. set (tail := s2l (EncodeToString RawURLEncoding (a ++ t ++ x))).
  unfold ParseMessageIDFull.
  replace (String.prefix "mid.$" (l2s (s2l "mid.$" ++ c :: tail))) with true by done.
  replace (slen (l2s (s2l "mid.$" ++ c :: tail)) <? 6) with false.
  2: { symmetry. apply Z.ltb_ge. rewrite <- s2l_length, s2l_l2s, length_app. cbn [length]. cbn. lia. }
  cbn [negb orb]. rewrite s2l_l2s.
  rewrite (index_app (s2l "mid.$") tail c 5) by done. cbn [mbind res_bind].
  change (s2l "mid.$" ++ c :: tail) with ((s2l "mid.$" ++ [c]) ++ tail).
  rewrite (slice_from_app (s2l "mid.$" ++ [c]) tail 6) by done. cbn [mbind res_bind].
  unfold tail at 1. rewrite l2s_s2l, (Decode_Encode _ RawURLEncoding_ok). cbn [mbind res_bind].
  replace (llen (a ++ t ++ x) =? 21) with true by (symmetry; apply Z.eqb_eq; rewrite !length_app; lia).
  cbn [negb].
  rewrite slice_prefix by lia. cbn [mbind res_bind].
  rewrite (slice_app a t x 8 13) by lia. cbn [mbind res_bind].
  replace (a ++ t ++ x) with ((a ++ t) ++ x ++ []) by (by rewrite app_nil_r, app_assoc).
  rewrite (slice_app (a ++ t) x [] 13 21) by (rewrite length_app; lia). cbn [mbind res_bind].
  by rewrite be_decode_zeros.
Qed.

(** ** Properties *)

(** A message ID is read back from its string: chat type (an ASCII character), chat id and
    transaction id are recovered exactly, and the time up to multiples of 2^40 ms, the five
    bytes it is stored in. *)
Theorem meta_message_id_roundtrip m (Hc : 0 <= ChatType m < 128) (Hi : in_int 64 (ChatID m))
    (Hx : in_int 64 (TxnID m)) :
  ParseMessageIDFull (MetaMessageID_String (Some m)) =
  Ok (mkMetaMessageID (ChatType m) (ChatID m)
        ((Time m - MetaEpochMS) mod 2 ^ 40 + MetaEpochMS) (TxnID m)).
Proof.
  unfold MetaMessageID_String. rewrite ascii_chat_type, message_body_parts by done.
  change ([z2b (ChatType m)] ++ ?l) with (z2b (ChatType m) :: l).
  rewrite ParseMessageIDFull_encoded by (by rewrite be_encode_length).
  rewrite !be_decode_encode, b2z_z2b_small by (unfold in_uint; lia).
  change (8 * Z.of_nat 8) with 64. change (8 * Z.of_nat 5) with 40.
  rewrite !(uintN_small 64 (uint64 _)) by (apply uintN_range; lia).
  rewrite !intN_uintN by (lia || done).
  replace (uintN 40 (uint64 (Time m - MetaEpochMS))) with ((Time m - MetaEpochMS) mod 2 ^ 40).
  2: { unfold uintN. symmetry. apply Z.mod_mod_divide. by exists (2 ^ 24). }
  rewrite (intN_small 64 (_ mod _)); [done|lia|].
  pose proof (Z.mod_pos_bound (Time m - MetaEpochMS) (2 ^ 40)). unfold in_int. lia.
Qed.

Lemma meta_message_id_roundtrip_witness :
  ParseMessageIDFull (MetaMessageID_String (Some (mkMetaMessageID 99 (-5) (2 ^ 40 + MetaEpochMS + 7) 9)))
  = Ok (mkMetaMessageID 99 (-5) (MetaEpochMS + 7) 9).
Proof.
  apply (meta_message_id_roundtrip (mkMetaMessageID 99 (-5) (2 ^ 40 + MetaEpochMS + 7) 9));
    unfold in_int; cbn; lia.
Defined.

(** Parsing a message ID never panics: it returns the ID or an error, on any string. *)
Theorem parse_message_id_returns s : is_halt (ParseMessageIDFull s) = false.
Proof.
  unfold ParseMessageIDFull. destruct (negb _ || _) eqn:E; [done|].
  apply orb_false_iff in E as [_ Hl]. apply Z.ltb_ge in Hl. rewrite <- s2l_length in Hl.
  destruct (lookup_lt_is_Some_2 (s2l s) 5) as [c Hc]; [lia|].
  rewrite (index_ok _ 5 c Hc) by done. cbn [mbind res_bind].
  unfold slice_from. rewrite slice_ok by lia. cbn [mbind res_bind].
  pose proof (Decode_from_returns RawURLEncoding
    (s2l (l2s (take (Z.to_nat (llen (s2l s) - 6)) (drop (Z.to_nat 6) (s2l s))))) []) as Hd.
  fold (DecodeString RawURLEncoding
    (l2s (take (Z.to_nat (llen (s2l s) - 6)) (drop (Z.to_nat 6) (s2l s))))) in Hd.
  destruct (DecodeString _ _) as [p| |]; cbn [mbind res_bind]; [|done..].
  destruct (llen p =? 21) eqn:Ep; [|done]. apply Z.eqb_eq in Ep. cbn [negb].
  rewrite !slice_ok by lia. done.
Qed.

(** The id of a state, and when the next reading keeps the packing free of overlaps. *)
Definition epoch_id (s : EpochState) : Z := lastTimestamp s * 2 ^ 22 + counter s * 2 ^ 12 + 42.

Definition epoch_ok (s : EpochState) : Prop :=
  0 <= lastTimestamp s < 2 ^ 41 /\ 0 <= counter s < 2 ^ 10.

Lemma GenerateEpochID_spec s now : epoch_ok s -> lastTimestamp s <= now < 2 ^ 41 ->
  (now = lastTimestamp s -> counter s + 1 < 2 ^ 10) ->
  let '(id, s') := GenerateEpochID s now in
  id = epoch_id s' /\ epoch_ok s' /\ epoch_id s < id /\ lastTimestamp s' = now.
Proof.
  intros [Ht Hc] Hn Hcnt. unfold GenerateEpochID.
  set (s' := if now =? lastTimestamp s then _ else _).
  assert (lastTimestamp s' = now /\ epoch_ok s' /\ epoch_id s < epoch_id s') as (E & Hs' & Hlt).
  { unfold s', epoch_id, epoch_ok. destruct (Z.eqb_spec now (lastTimestamp s)) as [->|Hne].
    - cbn. rewrite (intN_small 64 (counter s + 1)) by (unfold in_int; lia).
      specialize (Hcnt eq_refl). lia.
    - cbn. lia. }
  assert (Z.lor (Z.lor (int64 (Z.shiftl now 22)) (int64 (Z.shiftl (counter s') 12))) 42
          = epoch_id s') as Hid.
  { destruct Hs' as [_ Hc']. rewrite !Z.shiftl_mul_pow2 by lia.
    rewrite !intN_small by (unfold in_int; lia).
    rewrite <- (Z.shiftl_mul_pow2 now 22) by lia.
    rewrite lor_shiftl_low by lia.
    replace (now * 2 ^ 22 + counter s' * 2 ^ 12) with (Z.shiftl (now * 2 ^ 10 + counter s') 12)
      by (rewrite Z.shiftl_mul_pow2; lia).
    rewrite lor_shiftl_low by lia. unfold epoch_id. rewrite E. lia. }
  by rewrite Hid.
Qed.

(** The readings of a clock that does not go back, with fewer than 1024 calls in any one
    millisecond ([c] of them already made in the millisecond [t]). *)
Fixpoint clock_ok (t c : Z) (clock : list Z) : Prop :=
  match clock with
  | [] => True
  | now :: clock =>
      t <= now < 2 ^ 41 /\ (now = t -> c + 1 < 2 ^ 10) /\
      clock_ok now (if now =? t then c + 1 else 0) clock
  end.

(** Epoch IDs are distinct and increasing as long as the clock does not go back and is
    read fewer than 1024 times in one millisecond (up to the year 2039). *)
Theorem epoch_ids_increase s clock (Hs : epoch_ok s)
    (Hc : clock_ok (lastTimestamp s) (counter s) clock) :
  let ids := fst (GenerateEpochIDs s clock) in
  StronglySorted Z.lt ids /\ Forall (fun id => epoch_id s < id) ids.
Proof.
  revert s Hs Hc. induction clock as [|now clock IH]; intros s Hs Hc; [by repeat constructor|].
  cbn [GenerateEpochIDs clock_ok] in *. destruct Hc as (Hn & Hcnt & Hc).
  pose proof (GenerateEpochID_spec s now Hs Hn Hcnt) as H.
  destruct (GenerateEpochID s now) as [id s1] eqn:Eg. destruct H as (-> & Hs1 & Hlt & Ht).
  assert (counter s1 = if now =? lastTimestamp s then counter s + 1 else 0) as Ec.
  { unfold GenerateEpochID in Eg. injection Eg as _ <-. destruct (Z.eqb_spec now (lastTimestamp s)); [|done].
    cbn. destruct Hs as [_ ?]. apply intN_small; [lia|]. unfold in_int. lia. }
  rewrite <- Ec in Hc. rewrite <- Ht in Hc.
  destruct (IH s1 Hs1 Hc) as [Hsort Hall]. destruct (GenerateEpochIDs s1 clock) as [ids s2].
  cbn in *. split; [by constructor|]. constructor; [done|].
  eapply Forall_impl; [exact Hall|]. intros x Hx. cbn in Hx. lia.
Qed.

Lemma epoch_ids_increase_witness :
  let ids := fst (GenerateEpochIDs (mkEpochState 0 0) [1700000000000; 1700000000000; 1700000000001]) in
  StronglySorted Z.lt ids /\ Forall (fun id => epoch_id (mkEpochState 0 0) < id) ids.
Proof. apply epoch_ids_increase; [split; cbn; lia|cbn; lia]. Defined.
