(* ===== verification/MetaID.v ===== *)
(** * MetaID: the bridge's network identifiers ([metaid/ids.go], [mediaid.go], [dbmeta.go])

    User, portal and message ids as strings, and the binary media ids of direct media.  A
    WhatsApp JID is a value of a library type: its constructor, accessors, text form and parser
    are parameters. *)

From S2P Require Import Prelude Strconv Tables.
From Stdlib Require Import Ascii.
#[local] Open Scope Z_scope.

(** ** User and portal ids *)

Definition MakeUserID (user : Z) : string := if user =? 0 then "" else FormatInt 10 user.
Definition MakeUserLoginID (user : Z) : string := MakeUserID user.
Definition MakeFBPortalID (portal : Z) : string := FormatInt 10 portal.

(** The parsers ignore the error of [ParseInt] and use the value beside it. *)
Definition ParseUserID (user : string) : Z := fst (ParseInt 10 user).
Definition ParseUserLoginID (user : string) : Z := fst (ParseInt 10 user).
Definition ParseFBPortalID (portal : string) : Z := fst (ParseInt 10 portal).

Definition ParseIDFromString (id : string) : res Z :=
  if HasPrefix id "+" || HasPrefix id "-" then Err "identifier can't have a sign"
  else match ParseInt 10 id with
       | (i, None) => Ok i
       | (_, Some _) => Err "strconv.ParseInt"
       end.

(** [strconv.Itoa]. *)
Definition MakeMessagePartID (i : Z) : string := if i =? 0 then "" else FormatInt 10 i.

(** ** Message ids *)

Definition MessageIDPrefixFB : string := "fb".
Definition MessageIDPrefixWA : string := "wa".

Section MessageIDs.
Context {JID : Type} (JID_String : JID -> string) (ToNonAD : JID -> JID)
  (ParseJID : string -> option JID).

Inductive ParsedMessageID :=
| ParsedWAMessageID (Chat Sender : JID) (ID : string)
| ParsedFBMessageID (ID : string).

Definition sep : string := ":".

Definition MakeWAMessageID (chat sender : JID) (id : string) : string :=
  MessageIDPrefixWA ++ sep ++ JID_String chat ++ sep ++ JID_String (ToNonAD sender) ++ sep ++ id.

Definition MakeFBMessageID (messageID : string) : string :=
  MessageIDPrefixFB ++ sep ++ messageID.

(** The [String] methods, and [MakeMessageID]. *)
Definition MakeMessageID (p : ParsedMessageID) : string :=
  match p with
  | ParsedWAMessageID chat sender id => MakeWAMessageID chat sender id
  | ParsedFBMessageID id => MakeFBMessageID id
  end.

Definition ParseMessageID (messageID : string) : option ParsedMessageID :=
  match SplitN ":" 4 messageID with
  | [p0; p1] => if (p0 =? MessageIDPrefixFB)%string then Some (ParsedFBMessageID p1) else None
  | [p0; p1; p2; p3] =>
      if (p0 =? MessageIDPrefixWA)%string then
        match ParseJID p1 with
        | None => None
        | Some chat =>
            match ParseJID p2 with
            | None => None
            | Some sender => Some (ParsedWAMessageID chat sender p3)
            end
        end
      else None
  | _ => None
  end.

(** ** Portal JIDs ([PortalMetadata.JID]) *)

Context (mkJID : string -> string -> JID) (set_Server : string -> JID -> JID)
  (JID_Server : JID -> string) (GroupServer MessengerServer : string).

Definition ParseWAPortalID (portal server : string) : JID := mkJID portal server.

Definition PortalMetadata_JID (ThreadType : Z) (WhatsAppServer id : string) : JID :=
  let jid := ParseWAPortalID id WhatsAppServer in
  if (JID_Server jid =? "")%string then
    if ThreadType =? ENCRYPTED_OVER_WA_GROUP then set_Server GroupServer jid
    else set_Server MessengerServer jid
  else jid.
End MessageIDs.

Arguments ParsedWAMessageID {JID} Chat Sender ID.
Arguments ParsedFBMessageID {JID} ID.

(** ** Media ids *)

Definition DirectMediaTypeMetaV1 : Z := 2.
Definition DirectMediaTypeWhatsAppV1 : Z := 3.
Definition DirectMediaTypeMetaV2 : Z := 4.
Definition DirectMediaTypeWhatsAppV2 : Z := 5.

Definition isSupported (t : Z) : bool :=
  (t =? DirectMediaTypeMetaV1) || (t =? DirectMediaTypeWhatsAppV1) ||
  (t =? DirectMediaTypeMetaV2) || (t =? DirectMediaTypeWhatsAppV2).

Definition includesPartID (t : Z) : bool :=
  negb ((t =? DirectMediaTypeMetaV1) || (t =? DirectMediaTypeWhatsAppV1)).

Record MediaInfo := mkMediaInfo { Type_ : Z; UserID : string; MessageID : string; PartID : string }.

Definition MakeMediaID (mediaType : Z) (userID messageID partID : string) : list byte :=
  [z2b mediaType] ++ be_encode 8 (uint64 (ParseUserLoginID userID)) ++
  [z2b (slen messageID)] ++ s2l messageID ++
  (if includesPartID mediaType then [z2b (slen partID)] ++ s2l partID else []).

(** The closure [read]: the next [size] bytes, or an error; [ptr] moves past them. *)
Definition read (mediaID : list byte) (size : Z) (ptr : Z) : res (list byte * Z) :=
  if llen mediaID <? ptr + size then Err "media ID too short"
  else b ← slice mediaID ptr (ptr + size); Ok (b, ptr + size).

Definition readOne (mediaID : list byte) (ptr : Z) : res (byte * Z) :=
  '(b, ptr) ← read mediaID 1 ptr; c ← index b 0; Ok (c, ptr).

Definition ParseMediaID (mediaID : list byte) : res MediaInfo :=
  '(c, ptr) ← readOne mediaID 0;
  let t := b2z c in
  if negb (isSupported t) then Err "unrecognized media type"
  else
    '(b, ptr) ← read mediaID 8 ptr;
    let user := MakeUserLoginID (int64 (be_decode b)) in
    '(c, ptr) ← readOne mediaID ptr;
    '(m, ptr) ← read mediaID (b2z c) ptr;
    if includesPartID t then
      '(c, ptr) ← readOne mediaID ptr;
      '(p, ptr) ← read mediaID (b2z c) ptr;
      Ok (mkMediaInfo t user (l2s m) (l2s p))
    else Ok (mkMediaInfo t user (l2s m) "").

(** ** Lemmas: ids *)

Lemma ParseInt_MakeUserID n : in_int 64 n -> fst (ParseInt 10 (MakeUserID n)) = n.
Proof.
  intros Hn. unfold MakeUserID. destruct (Z.eqb_spec n 0) as [->|_]; [done|].
  by rewrite ParseInt_FormatInt.
Qed.

Lemma has_char_sep_app a b : has_char ":" (a ++ sep ++ b) = true.
Proof. rewrite !has_char_app. cbn. by rewrite orb_true_r. Qed.

(** ** Lemmas: the media-id cursor *)

Lemma read_app pre b post n ptr : ptr = llen pre -> n = llen b ->
  read (pre ++ b ++ post) n ptr = Ok (b, llen (pre ++ b)).
Proof.
  intros -> ->. unfold read. rewrite !length_app, !Nat2Z.inj_add.
  replace (_ <? _) with false by (symmetry; apply Z.ltb_ge; lia).
  rewrite (slice_app pre b post) by done. cbn [mbind res_bind]. done.
Qed.

Lemma readOne_app pre c post ptr : ptr = llen pre ->
  readOne (pre ++ c :: post) ptr = Ok (c, llen (pre ++ [c])).
Proof.
  intros Hp. unfold readOne. change (pre ++ c :: post) with (pre ++ [c] ++ post).
  by rewrite read_app.
Qed.

(** Reading moves a cursor over the input. *)
Lemma read_cut l n ptr b ptr' : 0 <= ptr -> 0 <= n -> read l n ptr = Ok (b, ptr') ->
  exists pre post, l = pre ++ b ++ post /\ ptr = llen pre /\ n = llen b /\ ptr' = llen (pre ++ b).
Proof.
  intros Hp Hn. unfold read. destruct (Z.ltb_spec (llen l) (ptr + n)) as [|Hle]; [done|].
  rewrite slice_ok by lia. cbn [mbind res_bind]. intros [= <- <-].
  exists (take (Z.to_nat ptr) l), (drop (Z.to_nat n) (drop (Z.to_nat ptr) l)).
  replace (ptr + n - ptr) with n by lia.
  rewrite (take_drop (Z.to_nat n)), take_drop, length_app, !length_take, length_drop. split; [done|]. lia.
Qed.

Lemma read_total l n ptr : 0 <= ptr -> 0 <= n -> is_halt (read l n ptr) = false.
Proof.
  intros Hp Hn. unfold read. destruct (Z.ltb_spec (llen l) (ptr + n)) as [|Hle]; [done|].
  by rewrite slice_ok by lia.
Qed.

Lemma readOne_cut l ptr c ptr' : 0 <= ptr -> readOne l ptr = Ok (c, ptr') ->
  exists pre post, l = pre ++ [c] ++ post /\ ptr = llen pre /\ ptr' = llen (pre ++ [c]).
Proof.
  unfold readOne. intros Hp H. apply res_bind_Ok in H as ([b p] & E & H).
  apply read_cut in E as (pre & post & -> & -> & Hb & ->); [|done..].
  destruct b as [|x [|]]; try (cbn in Hb; lia). cbn in H. injection H as <- <-.
  by exists pre, post.
Qed.

Lemma readOne_total l ptr : 0 <= ptr -> is_halt (readOne l ptr) = false.
Proof.
  intros Hp. unfold readOne. pose proof (read_total l 1 ptr Hp) as H.
  destruct (read l 1 ptr) as [[b p]| |] eqn:E; cbn in *; [|done|by apply H].
  apply read_cut in E as (pre & post & -> & -> & Hb & ->); [|done..].
  destruct b as [|x [|]]; try (cbn in Hb; lia). done.
Qed.

(** ** Properties *)

(** User, login and portal ids are read back from their strings for every [int64] (the
    user 0 is the empty string), so distinct ids have distinct strings. *)
Theorem ids_roundtrip n (Hn : in_int 64 n) :
  ParseUserID (MakeUserID n) = n /\ ParseUserLoginID (MakeUserLoginID n) = n /\
  ParseFBPortalID (MakeFBPortalID n) = n /\
  (forall m, in_int 64 m -> MakeUserID m = MakeUserID n -> m = n) /\
  (0 <= n -> ParseIDFromString (MakeFBPortalID n) = Ok n).
Proof.
  split_and!.
  - by apply ParseInt_MakeUserID.
  - by apply ParseInt_MakeUserID.
  - unfold ParseFBPortalID, MakeFBPortalID. by rewrite ParseInt_FormatInt.
  - intros m Hm E. rewrite <- (ParseInt_MakeUserID m Hm), E. by apply ParseInt_MakeUserID.
  - intros Hpos. unfold ParseIDFromString, MakeFBPortalID, HasPrefix.
    rewrite ParseInt_FormatInt by done. unfold FormatInt.
    destruct (Z.ltb_spec n 0); [lia|].
    destruct (digits_not_sign 10 63 n "" ltac:(lia) Hpos) as (c & r & -> & Hm & Hp).
    cbn [String.prefix]. destruct (ascii_dec "+" c) as [<-|_]; [done|].
    destruct (ascii_dec "-" c) as [<-|_]; [done|]. done.
Qed.

Lemma ids_roundtrip_witness :
  ParseUserID (MakeUserID (-42)) = -42 /\ ParseUserLoginID (MakeUserLoginID (-42)) = -42 /\
  ParseFBPortalID (MakeFBPortalID (-42)) = -42 /\
  (forall m, in_int 64 m -> MakeUserID m = MakeUserID (-42) -> m = -42) /\
  (0 <= -42 -> ParseIDFromString (MakeFBPortalID (-42)) = Ok (-42)).
Proof. apply ids_roundtrip. unfold in_int. lia. Defined.

(** A Facebook message id is parsed back exactly if it has no colon in it; with a colon it
    is not recognised at all. *)
Theorem fb_message_id_roundtrip {JID} (ParseJID : string -> option JID) id :
  ParseMessageID ParseJID (MakeFBMessageID id) =
  if has_char ":" id then None else Some (ParsedFBMessageID id).
Proof.
  unfold ParseMessageID, MakeFBMessageID.
  change (MessageIDPrefixFB ++ sep ++ id)%string with ("fb" ++ String ":" id)%string.
  rewrite SplitN_cut by done. destruct (has_char ":" id) eqn:E; [|by rewrite SplitN_whole].
  apply has_char_split in E as (a & rest & -> & Ha). rewrite SplitN_cut by done.
  destruct (has_char ":" rest) eqn:E'; [|by rewrite SplitN_whole].
  apply has_char_split in E' as (b & rest' & -> & Hb). by rewrite SplitN_cut.
Qed.

(** A WhatsApp message id is parsed back to its chat, the sender without its device and
    the id, for JIDs whose text form the library parses back and that has no colon in it. *)
Theorem wa_message_id_roundtrip {JID} (JID_String : JID -> string) (ToNonAD : JID -> JID)
    (ParseJID : string -> option JID) chat sender id
    (Hparse : forall j, ParseJID (JID_String (ToNonAD j)) = Some (ToNonAD j))
    (Htext : forall j, has_char ":" (JID_String (ToNonAD j)) = false)
    (Hchat : ToNonAD chat = chat) :
  ParseMessageID ParseJID (MakeWAMessageID JID_String ToNonAD chat sender id) =
  Some (ParsedWAMessageID chat (ToNonAD sender) id).
Proof.
  unfold ParseMessageID, MakeWAMessageID. rewrite <- Hchat.
  change (MessageIDPrefixWA ++ sep ++ ?s)%string with ("wa" ++ String ":" s)%string.
  change (sep ++ ?s)%string with (String ":" s). rewrite !SplitN_cut by done.
  change (sep ++ id)%string with (String ":" id). rewrite SplitN_cut by done.
  change ("wa" =? MessageIDPrefixWA)%string with true. cbn [SplitN]. by rewrite !Hparse.
Qed.

(** JIDs of a user and a server, a device left out of the text form. *)
Lemma wa_message_id_roundtrip_witness :
  ParseMessageID (fun s => match Split "@" s with [u; v] => Some (u, v) | _ => None end)
    (MakeWAMessageID (fun _ => "u@s")%string (fun _ => ("u", "s")%string) ("u", "s")%string
      ("x", "y")%string "a:b")
  = Some (ParsedWAMessageID ("u", "s")%string ("u", "s")%string "a:b").
Proof.
  exact (wa_message_id_roundtrip (fun _ => "u@s")%string (fun _ => ("u", "s")%string)
    (fun s => match Split "@" s with [u; v] => Some (u, v) | _ => None end) ("u", "s")%string
    ("x", "y")%string "a:b" (fun _ => eq_refl) (fun _ => eq_refl) eq_refl).
Defined.

(** A media id is parsed back from its bytes when message and part ids are shorter than
    256 bytes (their lengths are stored in one byte each); the first versions drop the part id. *)
Theorem media_id_roundtrip t user m p (Ht : isSupported t = true) (Hu : in_int 64 user)
    (Hm : slen m < 256) (Hp : slen p < 256) :
  ParseMediaID (MakeMediaID t (MakeUserLoginID user) m p) =
  Ok (mkMediaInfo t (MakeUserLoginID user) m (if includesPartID t then p else "")).
Proof.
  assert (in_uint 8 t) as Htr.
  { unfold isSupported in Ht. unfold in_uint. rewrite !orb_true_iff, !Z.eqb_eq in Ht.
    unfold DirectMediaTypeMetaV1, DirectMediaTypeWhatsAppV1, DirectMediaTypeMetaV2,
      DirectMediaTypeWhatsAppV2 in Ht. lia. }
  unfold MakeMediaID, ParseUserLoginID, MakeUserLoginID at 1. rewrite ParseInt_MakeUserID by done.
  set (ub := be_encode 8 (uint64 user)).
  assert (length ub = 8%nat) as Hub by apply be_encode_length.
  set (tl := if includesPartID t then _ else _).
  unfold ParseMediaID.
  change ([z2b t] ++ ub ++ [z2b (slen m)] ++ s2l m ++ tl) with
    ([] ++ z2b t :: (ub ++ [z2b (slen m)] ++ s2l m ++ tl)).
  rewrite readOne_app by done. cbn [mbind res_bind].
  rewrite b2z_z2b_small by done. rewrite Ht. cbn [negb].
  change ([] ++ z2b t :: (ub ++ [z2b (slen m)] ++ s2l m ++ tl)) with
    ([z2b t] ++ ub ++ ([z2b (slen m)] ++ s2l m ++ tl)).
  rewrite read_app by (rewrite ?Hub; done). cbn [mbind res_bind].
  change ([] ++ [z2b t]) with [z2b t].
  rewrite (app_assoc [z2b t] ub).
  change ([z2b (slen m)] ++ s2l m ++ tl) with (z2b (slen m) :: (s2l m ++ tl)).
  rewrite readOne_app by done. cbn [mbind res_bind].
  rewrite b2z_z2b_small by (unfold in_uint; lia).
  replace (([z2b t] ++ ub) ++ z2b (slen m) :: (s2l m ++ tl)) with
    ((([z2b t] ++ ub) ++ [z2b (slen m)]) ++ s2l m ++ tl) by (by rewrite <- !app_assoc).
  rewrite read_app by (rewrite ?s2l_length; done). cbn [mbind res_bind].
  unfold ub. rewrite be_decode_encode. change (8 * Z.of_nat 8) with 64.
  rewrite (uintN_small 64 (uint64 _)) by (apply uintN_range; lia).
  rewrite intN_uintN, l2s_s2l by (lia || done). fold ub.
  unfold tl. destruct (includesPartID t) eqn:Ei; [|done].
  rewrite (app_assoc _ (s2l m)). change ([z2b (slen p)] ++ s2l p) with (z2b (slen p) :: s2l p).
  rewrite readOne_app by done. cbn [mbind res_bind].
  rewrite b2z_z2b_small by (unfold in_uint; lia).
  set (pre := _ ++ s2l m). replace (pre ++ z2b (slen p) :: s2l p) with
    ((pre ++ [z2b (slen p)]) ++ s2l p ++ []) by (by rewrite app_nil_r, <- app_assoc).
  rewrite read_app by (rewrite ?s2l_length; done). cbn [mbind res_bind]. by rewrite l2s_s2l.
Qed.

Lemma media_id_roundtrip_witness :
  ParseMediaID (MakeMediaID 4 (MakeUserLoginID 100) "fb:m" "1") =
  Ok (mkMediaInfo 4 (MakeUserLoginID 100) "fb:m" "1").
Proof. apply (media_id_roundtrip 4 100 "fb:m" "1"); [done|unfold in_int; lia|cbn; lia|cbn; lia]. Defined.

(** The parser past the type byte, for the two theorems below. *)
Lemma ParseMediaID_inv b i : ParseMediaID b = Ok i ->
  exists c ub cm m tl post, b = [c] ++ ub ++ [cm] ++ m ++ tl ++ post /\ length ub = 8%nat /\
    b2z cm = llen m /\ Type_ i = b2z c /\ UserID i = MakeUserLoginID (int64 (be_decode ub)) /\
    MessageID i = l2s m /\
    (if includesPartID (b2z c) then exists cp p, tl = [cp] ++ p /\ b2z cp = llen p /\ PartID i = l2s p
     else tl = [] /\ PartID i = ""%string).
Proof.
  unfold ParseMediaID. intros H. apply res_bind_Ok in H as ([c p0] & E0 & H).
  apply readOne_cut in E0 as (x0 & y0 & -> & Hx0 & ->); [|done].
  destruct x0; [|cbn in Hx0; lia]. cbn [app] in H.
  destruct (isSupported (b2z c)); cbn [negb] in H; [|done].
  apply res_bind_Ok in H as ([ub p1] & E1 & H).
  apply read_cut in E1 as (x1 & y1 & Ex1 & Hx1 & Hub & ->); [|cbn; lia|done].
  destruct x1 as [|c1 [|]]; try (cbn in Hx1; lia). cbn [app] in Ex1. injection Ex1 as <- ->.
  apply res_bind_Ok in H as ([cm p2] & E2 & H).
  apply readOne_cut in E2 as (x2 & y2 & Ex2 & Hx2 & ->); [|lia].
  change (c :: ub ++ y1) with ((c :: ub) ++ y1) in Ex2.
  change ([c] ++ ub) with (c :: ub) in Hx2.
  apply app_inj_1 in Ex2 as [<- ->]; [|lia].
  apply res_bind_Ok in H as ([m p3] & E3 & H).
  apply read_cut in E3 as (x3 & y3 & Ex3 & Hx3 & Hm & ->); [|lia|apply b2z_range].
  replace (c :: ub ++ [cm] ++ y2) with (((c :: ub) ++ [cm]) ++ y2) in Ex3 by (by rewrite <- app_assoc).
  apply app_inj_1 in Ex3 as [<- ->]; [|lia].
  exists c, ub, cm, m. destruct (includesPartID (b2z c)).
  - apply res_bind_Ok in H as ([cp p4] & E4 & H).
    apply readOne_cut in E4 as (x4 & y4 & Ex4 & Hx4 & ->); [|lia].
    replace (c :: ub ++ [cm] ++ m ++ y3) with ((((c :: ub) ++ [cm]) ++ m) ++ y3) in Ex4
      by (by rewrite <- !app_assoc).
    apply app_inj_1 in Ex4 as [<- ->]; [|lia].
    apply res_bind_Ok in H as ([p p5] & E5 & H).
    apply read_cut in E5 as (x5 & y5 & Ex5 & Hx5 & Hp & ->); [|lia|apply b2z_range].
    replace (c :: ub ++ [cm] ++ m ++ [cp] ++ y4) with (((((c :: ub) ++ [cm]) ++ m) ++ [cp]) ++ y4) in Ex5
      by (by rewrite <- !app_assoc).
    apply app_inj_1 in Ex5 as [<- ->]; [|lia]. injection H as <-.
    exists ([cp] ++ p), y5. split_and!; try done; try lia.
    by exists cp, p.
  - injection H as <-. exists [], y3. split_and!; try done. lia.
Qed.

(** What the media-id parser accepts is a media id of the information it returns, possibly
    followed by bytes it ignores. *)
Theorem media_id_parse_sound b i (H : ParseMediaID b = Ok i) :
  MakeMediaID (Type_ i) (UserID i) (MessageID i) (PartID i) `prefix_of` b.
Proof.
  apply ParseMediaID_inv in H as (c & ub & cm & m & tl & post & -> & Hub & Hm & -> & -> & -> & Hp).
  exists post. unfold MakeMediaID, ParseUserLoginID, MakeUserLoginID.
  rewrite ParseInt_MakeUserID by (apply intN_range; lia).
  rewrite uintN_intN by (lia || (pose proof (be_decode_range ub); rewrite Hub in *; done)).
  rewrite be_encode_decode by done. rewrite <- s2l_length, s2l_l2s, <- Hm, !z2b_b2z.
  destruct (includesPartID (b2z c)).
  - destruct Hp as (cp & p & -> & Hp & ->). rewrite <- s2l_length, s2l_l2s, <- Hp, z2b_b2z.
    by rewrite <- !app_assoc.
  - destruct Hp as [-> _]. by rewrite <- !app_assoc.
Qed.

Lemma media_id_parse_sound_witness :
  MakeMediaID 2 "7" "m" "" `prefix_of` MakeMediaID 2 "7" "m" "" ++ [z2b 1; z2b 2].
Proof.
  apply (media_id_parse_sound (MakeMediaID 2 "7" "m" "" ++ [z2b 1; z2b 2]) (mkMediaInfo 2 "7" "m" "")).
  vm_compute. reflexivity.
Defined.

(** Parsing a media id never panics, on any bytes. *)
Theorem media_id_parse_returns b : is_halt (ParseMediaID b) = false.
Proof.
  unfold ParseMediaID. pose proof (readOne_total b 0 ltac:(lia)) as T0.
  destruct (readOne b 0) as [[c p0]| |] eqn:E0; cbn [mbind res_bind]; [|done|by apply T0].
  apply readOne_cut in E0 as (x0 & y0 & _ & _ & ->); [|done].
  destruct (isSupported (b2z c)); cbn [negb]; [|done].
  pose proof (read_total b 8 (llen (x0 ++ [c])) ltac:(lia) ltac:(lia)) as T1.
  destruct (read b 8 _) as [[ub p1]| |] eqn:E1; cbn [mbind res_bind]; [|done|by apply T1].
  apply read_cut in E1 as (x1 & y1 & _ & _ & _ & ->); [|lia..].
  pose proof (readOne_total b (llen (x1 ++ ub)) ltac:(lia)) as T2.
  destruct (readOne b _) as [[cm p2]| |] eqn:E2; cbn [mbind res_bind]; [|done|by apply T2].
  apply readOne_cut in E2 as (x2 & y2 & _ & _ & ->); [|lia].
  pose proof (read_total b (b2z cm) (llen (x2 ++ [cm])) ltac:(lia) ltac:(apply b2z_range)) as T3.
  destruct (read b (b2z cm) _) as [[m p3]| |] eqn:E3; cbn [mbind res_bind]; [|done|by apply T3].
  apply read_cut in E3 as (x3 & y3 & _ & _ & _ & ->); [|lia|apply b2z_range].
  destruct (includesPartID (b2z c)); [|done].
  pose proof (readOne_total b (llen (x3 ++ m)) ltac:(lia)) as T4.
  destruct (readOne b _) as [[cp p4]| |] eqn:E4; cbn [mbind res_bind]; [|done|by apply T4].
  apply readOne_cut in E4 as (x4 & y4 & _ & _ & ->); [|lia].
  pose proof (read_total b (b2z cp) (llen (x4 ++ [cp])) ltac:(lia) ltac:(apply b2z_range)) as T5.
  by destruct (read b (b2z cp) _) as [[p p5]| |].
Qed.
