(* ===== verification/Cookies.v ===== *)
(** * Cookies: platforms and cookies ([types/client.go], [cookies/cookies.go])

    The platforms with their predicates and their text, the cookies of a login with the missing
    ones, the reading of a response and the JSON they are kept as. *)

From stdpp Require Import gmap sorting.
From Stdlib Require Import Ascii.
From S2P Require Import Prelude Strconv Unicode Json MetaID.
#[local] Open Scope Z_scope.

(** ** Platforms *)

Inductive Platform := Unset | Instagram | Facebook | Messenger | MessengerLite | FacebookTor.

#[global] Instance Platform_eq_dec : EqDecision Platform.
Proof. solve_decision. Defined.

(** The number of the constant. *)
Definition Platform_iota (p : Platform) : Z :=
  match p with Unset => 0 | Instagram => 1 | Facebook => 2 | Messenger => 3 | MessengerLite => 4 | FacebookTor => 5 end.

Definition PlatformFromString (s : string) : Platform :=
  if (s =? "instagram")%string then Instagram
  else if (s =? "facebook")%string then Facebook
  else if (s =? "messenger")%string then Messenger
  else if (s =? "facebook-tor")%string then FacebookTor
  else if (s =? "messenger-lite")%string then MessengerLite
  else Unset.

Definition in_quotes (s : string) : string := String "034" (s ++ String "034" "").

Definition Platform_UnmarshalJSON (data : string) : Platform :=
  if (data =? in_quotes "instagram")%string || (data =? "1")%string then Instagram
  else if (data =? in_quotes "facebook")%string || (data =? "2")%string then Facebook
  else if (data =? in_quotes "messenger")%string || (data =? "3")%string then Messenger
  else if (data =? in_quotes "facebook-tor")%string || (data =? "4")%string then FacebookTor
  else if (data =? in_quotes "messenger-lite")%string || (data =? "5")%string then MessengerLite
  else Unset.

Definition Platform_String (p : Platform) : string :=
  match p with
  | Instagram => "instagram" | Facebook => "facebook" | Messenger => "messenger"
  | FacebookTor => "facebook-tor" | MessengerLite => "messenger-lite" | Unset => ""
  end.

Definition Platform_MarshalJSON (p : Platform) : string := in_quotes (Platform_String p).

Definition IsViaFacebook (p : Platform) : bool := bool_decide (p = Facebook) || bool_decide (p = FacebookTor).
Definition IsViaMessenger (p : Platform) : bool := bool_decide (p = Messenger) || bool_decide (p = MessengerLite).
Definition IsMessenger (p : Platform) : bool :=
  bool_decide (p = Facebook) || bool_decide (p = FacebookTor) || bool_decide (p = Messenger) || bool_decide (p = MessengerLite).
Definition IsInstagram (p : Platform) : bool := bool_decide (p = Instagram).
Definition IsValid (p : Platform) : bool :=
  bool_decide (p = Instagram) || bool_decide (p = Facebook) || bool_decide (p = FacebookTor)
  || bool_decide (p = Messenger) || bool_decide (p = MessengerLite).

(** ** Cookies *)

Definition MetaCookieDatr : string := "datr".
Definition FBCookieXS : string := "xs".
Definition FBCookieCUser : string := "c_user".
Definition FBCookieWindowDimensions : string := "wd".
Definition IGCookieSessionID : string := "sessionid".
Definition IGCookieCSRFToken : string := "csrftoken".
Definition IGCookieDSUserID : string := "ds_user_id".
Definition IGCookieMachineID : string := "mid".
Definition IGCookieDeviceID : string := "ig_did".

Definition FBRequiredCookies : list string := [FBCookieXS; FBCookieCUser; MetaCookieDatr].
Definition IGRequiredCookies : list string :=
  [IGCookieSessionID; IGCookieCSRFToken; IGCookieDSUserID; IGCookieMachineID; IGCookieDeviceID].

(** [values] is a map, nil at first. *)
Record Cookies := mkCookies { Platform_ : Platform; values : option (gmap string string); IGWWWClaim : string }.

Definition set_values (v : option (gmap string string)) (c : Cookies) : Cookies := mkCookies (Platform_ c) v (IGWWWClaim c).
Definition set_claim (s : string) (c : Cookies) : Cookies := mkCookies (Platform_ c) (values c) s.

Definition Get (key : string) (c : Cookies) : string := default "" (v ← values c; v !! key).
Definition GetAll (c : Cookies) : gmap string string := default ∅ (values c).
Definition UpdateValues (newValues : gmap string string) (c : Cookies) : Cookies := set_values (Some newValues) c.

(** [Set]: writing to a nil map panics. *)
Definition SetCookie (key value : string) (c : Cookies) : res Cookies :=
  match values c with None => Panic | Some v => Ok (set_values (Some (<[key := value]> v)) c) end.

Definition DeleteCookie (key : string) (c : Cookies) : Cookies := set_values (delete key <$> values c) c.

Definition GetViewports (c : Cookies) : string * string :=
  match Split "x" (Get FBCookieWindowDimensions c) with
  | [w; h] => (w, h)
  | _ => ("1920", "1003")%string
  end.

Definition required (c : Cookies) : list string := if IsMessenger (Platform_ c) then FBRequiredCookies else IGRequiredCookies.

Definition GetMissingCookieNames (c : Cookies) : list string :=
  List.filter (fun name => negb (negb (Get name c =? "")%string)) (required c).

Definition IsLoggedIn (c : Cookies) : bool :=
  let cookieKey := if IsMessenger (Platform_ c) then FBCookieXS else IGCookieSessionID in
  negb (Get cookieKey c =? "")%string.

Definition GetUserID (c : Cookies) : Z :=
  let cookieKey := if IsMessenger (Platform_ c) then FBCookieCUser else IGCookieDSUserID in
  fst (ParseInt 10 (Get cookieKey c)).

(** A [Set-Cookie] line as the library reads it: [MaxAge] is 0 when the line has none and
    negative when the cookie is to go at once, [Expires] is the year 1 when the line has none. *)
Record HTTPCookie := mkHTTPCookie { ck_Name : string; ck_Value : string; MaxAge : Z; Expires : Z }.

(** The zero time, in seconds. *)
Definition zero_expiry : Z := -62135596800.

(** One line, read at the time [now]. *)
Definition apply_cookie (now : Z) (cookie : HTTPCookie) (c : Cookies) : res Cookies :=
  if (MaxAge cookie =? 0) || (Expires cookie <? now) then Ok (DeleteCookie (ck_Name cookie) c)
  else SetCookie (ck_Name cookie) (ck_Value cookie) c.

Fixpoint apply_cookies (l : list (Z * HTTPCookie)) (c : Cookies) : res Cookies :=
  match l with
  | [] => Ok c
  | (now, cookie) :: l => c ← apply_cookie now cookie c; apply_cookies l c
  end.

(** [UpdateFromResponse]: the lines with the clock at each, and the claim header. *)
Definition UpdateFromResponse (lines : list (Z * HTTPCookie)) (wwwClaim : string) (c : Cookies) : res Cookies :=
  c ← apply_cookies lines c;
  Ok (if negb (wwwClaim =? "")%string then set_claim wwwClaim c else c).

(** The encoder writes the members of a map by key. *)
#[global] Instance string_map_json : ToJSON (gmap string string) := fun v =>
  Obj (map (fun kv => (kv.1, Str kv.2))
         (merge_sort (fun a b : string * string => Is_true (String.leb a.1 b.1)) (map_to_list v))).

Definition Cookies_MarshalJSON (c : Cookies) : string :=
  match values c with None => Marshal Null | Some v => Marshal v end.

(** Members that are no strings are an error; the ones that are go into the map there is. *)
Fixpoint read_members (l : list (string * value)) (v : gmap string string) : res (gmap string string) :=
  match l with
  | [] => Ok v
  | (k, Str x) :: l => read_members l (<[k := x]> v)
  | _ :: _ => Err "json: cannot unmarshal into Go value of type string"
  end.

Definition Cookies_UnmarshalJSON (data : string) (c : Cookies) : res Cookies :=
  match Unmarshal data with
  | Some Null => Ok (set_values None c)
  | Some (Obj l) => v ← read_members l (GetAll c); Ok (set_values (Some v) c)
  | Some _ => Err "json: cannot unmarshal into Go value of type map"
  | None => Err "json: syntax error"
  end.

(** ** Lemmas *)

Lemma read_members_strs l : forall v,
  read_members (map (fun kv => (kv.1, Str kv.2)) l) v = Ok (list_to_map (rev l) ∪ v).
Proof.
  induction l as [|[k x] l IH]; intros v; [by cbn; rewrite (left_id_L ∅ (∪))|]. cbn [map read_members fst snd rev].
  rewrite IH, list_to_map_app. cbn [list_to_map foldr uncurry].
  by rewrite <- (assoc_L (∪)), <- insert_union_l, (left_id_L ∅ (∪)).
Qed.

Lemma NoDup_keys (v : gmap string string) l : l ≡ₚ map_to_list v -> NoDup l.*1.
Proof. intros ->. apply NoDup_fst_map_to_list. Qed.

(** What the last of the lines with a name makes of the cookie. *)
Fixpoint after_lines (lines : list (Z * HTTPCookie)) (name old : string) : string :=
  match lines with
  | [] => old
  | (now, cookie) :: lines =>
      after_lines lines name
        (if (ck_Name cookie =? name)%string
         then if (MaxAge cookie =? 0) || (Expires cookie <? now) then "" else ck_Value cookie
         else old)
  end.

(** ** Properties *)

(** A cookie is missing exactly when it is required and empty, and a login counts as logged
    in exactly when its session cookie is not missing. *)
Theorem missing_cookies c :
  (forall name, name ∈ GetMissingCookieNames c <-> name ∈ required c /\ Get name c = ""%string) /\
  (IsLoggedIn c = true <->
   (if IsMessenger (Platform_ c) then FBCookieXS else IGCookieSessionID) ∉ GetMissingCookieNames c).
Proof.
  assert (forall name, name ∈ GetMissingCookieNames c <-> name ∈ required c /\ Get name c = ""%string) as H.
  { intros name. unfold GetMissingCookieNames. rewrite !list_elem_of_In, filter_In, negb_involutive, String.eqb_eq. done. }
  split; [done|]. rewrite H. unfold IsLoggedIn. rewrite negb_true_iff, String.eqb_neq. unfold required.
  destruct (IsMessenger (Platform_ c)); (split; [intros Hn [_ He]; done|]); intros Hn He; apply Hn; split; try done; by left.
Qed.

(** After a response each cookie is what the last line with its name makes of it: gone when
    the line has no [Max-Age] or lies in the past, and the value of the line otherwise. *)
Theorem response_updates lines claim c v (Hv : values c = Some v) :
  exists c', UpdateFromResponse lines claim c = Ok c' /\
    (forall name, Get name c' = after_lines lines name (Get name c)) /\
    Platform_ c' = Platform_ c /\ IGWWWClaim c' = if (claim =? "")%string then IGWWWClaim c else claim.
Proof.
  assert (forall lines c v, values c = Some v -> exists c', apply_cookies lines c = Ok c' /\
    (forall name, Get name c' = after_lines lines name (Get name c)) /\ Platform_ c' = Platform_ c /\
    IGWWWClaim c' = IGWWWClaim c) as H.
  { clear. induction lines as [|[now k] lines IH]; intros c v Hv; [by exists c|]. cbn [apply_cookies after_lines].
    unfold apply_cookie, SetCookie, DeleteCookie. rewrite Hv. cbn [fmap option_fmap option_map].
    destruct ((MaxAge k =? 0) || (Expires k <? now)); cbn [mbind res_bind].
    - destruct (IH (set_values (Some (delete (ck_Name k) v)) c) _ eq_refl) as (c' & E & Hg & Hp & Hc).
      exists c'. split_and!; [done| |done..]. intros name. rewrite Hg. f_equal. unfold Get. rewrite Hv. cbn.
      destruct (String.eqb_spec (ck_Name k) name) as [<-|Hne]; [by rewrite lookup_delete_eq|by rewrite lookup_delete_ne].
    - destruct (IH (set_values (Some (<[ck_Name k := ck_Value k]> v)) c) _ eq_refl) as (c' & E & Hg & Hp & Hc).
      exists c'. split_and!; [done| |done..]. intros name. rewrite Hg. f_equal. unfold Get. rewrite Hv. cbn.
      destruct (String.eqb_spec (ck_Name k) name) as [<-|Hne]; [by rewrite lookup_insert_eq|by rewrite lookup_insert_ne]. }
  unfold UpdateFromResponse. destruct (H lines c v Hv) as (c' & -> & Hg & Hp & Hc). cbn [mbind res_bind].
  eexists. split; [done|]. destruct (claim =? "")%string; done.
Qed.

(** Cookies and platforms are read back from the JSON they are kept as; cookies go on top
    of those that are there. *)
Theorem cookies_roundtrip c v into (Hv : values c = Some v)
    (Hvalid : map_Forall (fun k x => ValidString k = true /\ ValidString x = true) v) :
  Cookies_UnmarshalJSON (Cookies_MarshalJSON c) into = Ok (set_values (Some (v ∪ GetAll into)) into) /\
  forall p, Platform_UnmarshalJSON (Platform_MarshalJSON p) = p.
Proof.
  split; [|by intros []]. unfold Cookies_MarshalJSON, Cookies_UnmarshalJSON. rewrite Hv.
  set (l := merge_sort (fun a b : string * string => Is_true (String.leb a.1 b.1)) (map_to_list v)).
  assert (l ≡ₚ map_to_list v) as Hp by apply merge_sort_Permutation.
  rewrite Unmarshal_Marshal.
  - cbn [to_json string_map_json]. fold l. rewrite read_members_strs. cbn [mbind res_bind].
    do 3 f_equal. assert (rev l ≡ₚ map_to_list v) as Hr by (by rewrite <- Permutation_rev).
    rewrite (list_to_map_proper _ _ (NoDup_keys _ _ Hr) Hr). by rewrite list_to_map_to_list.
  - cbn. fold l. rewrite forallb_forall. intros kv (x & <- & Hx)%in_map_iff. cbn.
    apply list_elem_of_In in Hx. rewrite Hp in Hx. apply elem_of_map_to_list' in Hx.
    destruct (Hvalid _ _ Hx) as [-> ->]. done.
Qed.

Definition demo_cookies : Cookies := mkCookies Instagram (Some (<["mid" := "m"]> {["sessionid" := "s"]})) "".

(** A cookie for the session only, as the server may set it, deletes the one there is. *)
Lemma response_updates_witness :
  exists c', UpdateFromResponse [(0, mkHTTPCookie "mid" "n" 60 5); (0, mkHTTPCookie "sessionid" "t" 0 zero_expiry)] "" demo_cookies = Ok c' /\
    Get "mid" c' = "n"%string /\ IsLoggedIn c' = false.
Proof.
  destruct (response_updates [(0, mkHTTPCookie "mid" "n" 60 5); (0, mkHTTPCookie "sessionid" "t" 0 zero_expiry)] "" demo_cookies
    (<["mid" := "m"]> {["sessionid" := "s"]}) eq_refl) as (c' & E & Hg & Hp & _).
  exists c'. split; [exact E|]. split; [by rewrite Hg|]. unfold IsLoggedIn. by rewrite Hp, Hg.
Defined.

Lemma cookies_roundtrip_witness :
  Cookies_UnmarshalJSON (Cookies_MarshalJSON demo_cookies) (mkCookies Facebook (Some {["wd" := "1x2"]}) "") =
    Ok (mkCookies Facebook (Some (<["mid" := "m"]> (<["sessionid" := "s"]> {["wd" := "1x2"]}))) "") /\
  Platform_UnmarshalJSON (Platform_MarshalJSON FacebookTor) = FacebookTor.
Proof.
  destruct (cookies_roundtrip demo_cookies (<["mid" := "m"]> {["sessionid" := "s"]})
    (mkCookies Facebook (Some {["wd" := "1x2"]}) "") eq_refl) as [H1 H2].
  - by apply map_Forall_insert_2; [split; by vm_compute|]; apply map_Forall_singleton; split.
  - split; [|exact (H2 FacebookTor)]. rewrite H1. by vm_compute.
Defined.
