(* ===== verification/Endpoints.v ===== *)
(** * Endpoints: the addresses of each platform ([data/endpoints]) *)

From S2P Require Import Prelude Strconv Cookies.
#[local] Open Scope string_scope.

Definition facebookHost : string := "www.facebook.com".
Definition messengerHost : string := "www.messenger.com".
Definition facebookTorHost : string := "www.facebookwkhpilnemxj7asaniu7vnjjbiltxjqhye3mhbshg7kx5tfyd.onion".

Definition of_pairs (l : list (string * string)) : gmap string string := list_to_map l.

Definition makeFacebookEndpoints (host : string) : gmap string string :=
  let baseURL := "https://" ++ host in
  let urls := of_pairs
    [("host", host); ("base_url", baseURL); ("messages", baseURL ++ "/messages"); ("thread", baseURL ++ "/messages/t/");
     ("cookie_consent", baseURL ++ "/cookie/consent/"); ("graphql", baseURL ++ "/api/graphql/");
     ("media_upload", baseURL ++ "/ajax/mercury/upload.php?"); ("web_push", baseURL ++ "/push/register/service_worker/");
     ("e2ee_ws_url", "wss://web-chat-e2ee.facebook.com/ws/chat");
     ("icdc_fetch", "https://reg-e2ee.facebook.com/v2/fb_icdc_fetch");
     ("icdc_register", "https://reg-e2ee.facebook.com/v2/fb_register_v2")] in
  if (host =? messengerHost)%string then <["thread" := baseURL ++ "/t/"]> (<["messages" := baseURL ++ "/"]> urls) else urls.

Definition makeMessengerLiteEndpoints (host : string) : gmap string string :=
  <["icdc_register" := "https://v.whatsapp.net/v2/fb_register_v2"]>
  (<["icdc_fetch" := "https://v.whatsapp.net/v2/fb_icdc_fetch"]>
  (<["cat" := "https://web.facebook.com/messaging/lightspeed/cat"]>
  (<["v2.10" := "https://graph.facebook.com/v2.10"]>
  (<["pwd_key" := "https://graph.facebook.com/pwd_key_fetch"]>
  (<["graph_graphql" := "https://graph.facebook.com/graphql"]> (makeFacebookEndpoints host)))))).

Definition FacebookEndpoints : gmap string string := makeFacebookEndpoints facebookHost.
Definition MessengerEndpoints : gmap string string := makeFacebookEndpoints messengerHost.
Definition FacebookTorEndpoints : gmap string string := makeFacebookEndpoints facebookTorHost.
Definition MessengerLiteEndpoints : gmap string string := makeMessengerLiteEndpoints facebookHost.

Definition instaHost : string := "www.instagram.com".
Definition instaBaseUrl : string := "https://" ++ instaHost.
Definition instaWebApiV1Url : string := instaBaseUrl ++ "/api/v1/web".
Definition instaApiV1Url : string := instaBaseUrl ++ "/api/v1".

Definition InstagramEndpoints : gmap string string := of_pairs
  [("host", instaHost); ("base_url", instaBaseUrl); ("messages", instaBaseUrl ++ "/direct/inbox/");
   ("thread", instaBaseUrl ++ "/direct/t/"); ("graphql", instaBaseUrl ++ "/api/graphql");
   ("cookie_consent", "https://graphql.instagram.com/graphql/"); ("default_graphql", "https://graphql.instagram.com/graphql/");
   ("e2ee_ws_url", "wss://web-chat-e2ee.instagram.com/ws/chat");
   ("icdc_fetch", "https://reg-e2ee.instagram.com/v2/fb_icdc_fetch");
   ("icdc_register", "https://reg-e2ee.instagram.com/v2/fb_register_v2");
   ("media_upload", instaBaseUrl ++ "/ajax/mercury/upload.php?"); ("rupload_ig", "https://rupload.facebook.com/messenger_image/");
   ("i_graphql", "https://i.instagram.com/graphql_www"); ("route_definition", instaBaseUrl ++ "/ajax/route-definition/");
   ("web_profile_info", instaApiV1Url ++ "/users/web_profile_info/?"); ("reels_media", instaApiV1Url ++ "/feed/reels_media/?");
   ("media_info", instaApiV1Url ++ "/media/%s/info/"); ("web_push", instaWebApiV1Url ++ "/push/register/")].

(** The endpoints of a client ([configurePlatformClient]); a client without a platform has none. *)
Definition selectedEndpoints (p : Platform) : gmap string string :=
  match p with
  | Facebook => FacebookEndpoints
  | FacebookTor => FacebookTorEndpoints
  | Messenger => MessengerEndpoints
  | MessengerLite => MessengerLiteEndpoints
  | Instagram => InstagramEndpoints
  | Unset => ∅
  end.

(** The names the client asks for on a platform. *)
Definition names_used (p : Platform) : list string :=
  match p with
  | Unset => []
  | Instagram =>
      ["base_url"; "messages"; "thread"; "graphql"; "e2ee_ws_url"; "icdc_fetch"; "icdc_register"; "media_upload"; "web_push";
       "web_profile_info"; "media_info"; "reels_media"; "route_definition"; "rupload_ig"; "i_graphql"]
  | MessengerLite =>
      ["base_url"; "messages"; "thread"; "graphql"; "e2ee_ws_url"; "icdc_fetch"; "icdc_register"; "media_upload"; "web_push";
       "pwd_key"; "graph_graphql"]
  | _ => ["base_url"; "messages"; "thread"; "graphql"; "e2ee_ws_url"; "icdc_fetch"; "icdc_register"; "media_upload"; "web_push"]
  end.

Lemma endpoints_known p name : name ∈ names_used p -> is_Some (selectedEndpoints p !! name).
Proof.
  assert (forallb (fun n => bool_decide (is_Some (selectedEndpoints p !! n))) (names_used p) = true) as H.
  { destruct p; vm_compute; reflexivity. }
  intros Hn. rewrite forallb_forall in H. specialize (H name (proj1 (list_elem_of_In _ _) Hn)). by apply bool_decide_eq_true in H.
Qed.
