(* ===== verification/Mentions.v ===== *)
(** * Mentions: mentions in messages ([socket/threads.go], [msgconv/mentions.go],
    [msgconv/from-matrix.go])

    Meta sends the mentions of a text as four comma-separated lists.  [Parse] and [ToData] read
    and write them, [MetaToMatrixText] makes HTML with a link per mention of a text that comes
    in, [parseFormattedBody] puts names and mentions in the place of the pills of a text that
    goes out. *)

From S2P Require Import Prelude Strconv Unicode MetaID.
From Stdlib Require Import Sorting.Sorted Ascii.
#[local] Open Scope Z_scope.

(** ** Data *)

Record MentionData := mkMentionData
  { MentionIDs : string; MentionOffsets : string; MentionLengths : string; MentionTypes : string }.

Definition MentionTypePerson : string := "p".
Definition MentionTypeSilent : string := "s".
Definition MentionTypeThread : string := "t".

Record Mention := mkMention { MentionID : Z; Offset : Z; Length : Z; MentionType : string }.

Abbreviation Mentions := (list Mention).

(** [Mentions.Less], on the elements themselves. *)
Definition Less (m n : Mention) : bool := Offset m <? Offset n.

(** ** The four lists *)

Section Parse.
(** [sort.Sort]. *)
Context (Sort : Mentions -> Mentions).

(** The loop of [Parse], at the [i]-th mention. *)
Fixpoint parse_mentions (i : Z) (ids offsets lengths types : list string) : res Mentions :=
  match ids, offsets, lengths, types with
  | id :: ids, offset :: offsets, length :: lengths, ty :: types =>
      match ParseInt 10 id with
      | (_, Some _) => Err ("failed to parse mention #" ++ FormatInt 10 (i + 1) ++ " user ID")
      | (userID, None) =>
          match Atoi offset with
          | (_, Some _) => Err ("failed to parse mention #" ++ FormatInt 10 (i + 1) ++ " offset")
          | (offset, None) =>
              match Atoi length with
              | (_, Some _) => Err ("failed to parse mention #" ++ FormatInt 10 (i + 1) ++ " length")
              | (length, None) =>
                  ms ← parse_mentions (i + 1) ids offsets lengths types;
                  Ok (mkMention userID offset length ty :: ms)
              end
          end
      end
  | _, _, _, _ => Ok []
  end.

(** [Parse]; the empty list is nil. *)
Definition Parse (md : option MentionData) : res Mentions :=
  match md with
  | None => Ok []
  | Some md =>
      if (MentionIDs md =? "")%string then Ok []
      else
        let mentionIDs := Split "," (MentionIDs md) in
        let mentionOffsets := Split "," (MentionOffsets md) in
        let mentionLengths := Split "," (MentionLengths md) in
        let mentionTypes := Split "," (MentionTypes md) in
        if negb (llen mentionIDs =? llen mentionOffsets)
           || negb (llen mentionOffsets =? llen mentionLengths)
           || negb (llen mentionLengths =? llen mentionTypes)
        then Err "mismatching mention data lengths"
        else mentions ← parse_mentions 0 mentionIDs mentionOffsets mentionLengths mentionTypes;
             Ok (Sort mentions)
  end.
End Parse.

(** [strings.Join]. *)
Definition Join (l : list string) : string := String.concat "," l.

Definition ToData (m : Mentions) : MentionData :=
  mkMentionData (Join (map (fun m => FormatInt 10 (MentionID m)) m))
    (Join (map (fun m => FormatInt 10 (Offset m)) m))
    (Join (map (fun m => FormatInt 10 (Length m)) m))
    (Join (map MentionType m)).

(** ** Texts that come in *)

(** A text in UTF-16, which Meta counts in. *)
Definition NewUTF16String (s : string) : list Z := utf16_Encode (runes s).
Definition UTF16String_String (u : list Z) : string := of_runes (utf16_Decode u).

(** What is set of the content of an event.  [Added]: the users added to its mentions, in order
    (the framework keeps each once). *)
Record MessageEventContent := mkContent {
  MsgType : string; Body : string; Format : string; FormattedBody : string; Added : list string
}.

Section Incoming.
Context (Sort : Mentions -> Mentions).
(** The framework: the Matrix id and name of the ghost of a user, the Matrix id of a user who
    is logged in with an account, the URL of an id, a text as HTML. *)
Context (GetGhostByID : string -> res (string * string)).
Context (GetCachedUserLoginByID : string -> option string).
Context (MatrixToURL TextToHTML : string -> string).

Definition getBasicUserInfo (user : string) : res (string * string) :=
  match GetGhostByID user with
  | Err e => Err ("failed to get ghost by ID: " ++ e)
  | Halt h => Halt h
  | Ok (mxid, name) =>
      match GetCachedUserLoginByID user with
      | Some login => Ok (login, name)
      | None => Ok (mxid, name)
      end
  end.

Definition a_open (url : string) : string :=
  "<a href=" ++ String "034" (url ++ String "034" ">").

(** The loop over the mentions of a text. *)
Fixpoint write_mentions (text : list Z) (ms : Mentions) (prevEnd : Z) (output : string)
    (added : list string) : res (Z * string * list string) :=
  match ms with
  | [] => Ok (prevEnd, output, added)
  | m :: ms =>
      if Offset m <? prevEnd then write_mentions text ms prevEnd output added
      else if Offset m >=? llen text then write_mentions text ms prevEnd output added
      else
        let end_ := int64 (Offset m + Length m) in
        let end_ := if end_ >? llen text then llen text else end_ in
        if (MentionType m =? MentionTypePerson)%string then
          match getBasicUserInfo (MakeUserID (MentionID m)) with
          | Halt h => Halt h
          | Err _ => write_mentions text ms prevEnd output added
          | Ok (mxid, _) =>
              let added := added ++ [mxid] in
              let mentionLink := MatrixToURL mxid in
              if (mentionLink =? "")%string then write_mentions text ms prevEnd output added
              else
                plain ← slice text prevEnd (Offset m);
                linked ← slice text (Offset m) end_;
                write_mentions text ms end_
                  (output ++ TextToHTML (UTF16String_String plain) ++ a_open mentionLink
                     ++ TextToHTML (UTF16String_String linked) ++ "</a>") added
          end
        else write_mentions text ms prevEnd output added
  end.

(** A text without mentions, or with mentions that cannot be read, stays plain. *)
Definition MetaToMatrixText (text : string) (rawMentions : option MentionData) : res MessageEventContent :=
  let plain := mkContent "m.text" text "" "" [] in
  match Parse Sort rawMentions with
  | Halt h => Halt h
  | Err _ | Ok [] => Ok plain
  | Ok mentions =>
      let utf16Text := NewUTF16String text in
      '(prevEnd, output, added) ← write_mentions utf16Text mentions 0 "" [];
      tail ← slice_from utf16Text prevEnd;
      Ok (mkContent "m.text" text "org.matrix.custom.html"
            (output ++ TextToHTML (UTF16String_String tail)) added)
  end.
End Incoming.

(** ** Texts that go out *)

Record MetaMention := mkMetaMention { Locator : string; Name : string; UserID : Z }.

Definition mentionLocator : string := "meta_mention_".

(** [random]: sixteen random characters. *)
Definition NewMetaMention (random : string) (userID : Z) (name : string) : MetaMention :=
  mkMetaMention (mentionLocator ++ random) name userID.

(** What the framework knows of a Matrix user: a ghost (its username, name and id) or a user of
    the bridge, with the login it uses in the portal (whether its platform is Messenger, the
    username and name of its profile, its id). *)
Inductive Known :=
| KnownGhost (Username Name_ GhostID : string)
| KnownUser (login : option (bool * string * string * string))
| Unknown.

(** [convertPill]: the text of a pill, and the mention it makes. *)
Definition convertPill (DefaultPillConverter : string -> string -> string)
    (GetUser : string -> res Known) (random : string) (displayname mxid : string)
    : string * option MetaMention :=
  if HasPrefix mxid "@" then
      match GetUser mxid with
      | Ok (KnownGhost username name ghostID) =>
          let m := NewMetaMention random (ParseUserID ghostID)
                     (if (username =? "")%string then name else username) in
          (Locator m, Some m)
      | Ok (KnownUser (Some (isMessenger, username, name, loginID))) =>
          let m := NewMetaMention random (ParseUserLoginID loginID)
                     (if isMessenger || (username =? "")%string then name else username) in
          (Locator m, Some m)
      | _ => (displayname, None)
      end
  else (DefaultPillConverter displayname mxid, None).

(** [strings.Index]. *)
Definition Index (s substr : string) : Z :=
  match String.index 0 substr s with Some n => Z.of_nat n | None => -1 end.

(** The loop of [parseFormattedBody]: the names in the place of the locators. *)
Fixpoint replace_locators (parsed : string) (mentions : list MetaMention) : string * Mentions :=
  match mentions with
  | [] => (parsed, [])
  | mention :: mentions =>
      let mentionIndex := Index parsed (Locator mention) in
      if mentionIndex =? -1 then replace_locators parsed mentions
      else
        let parsed := (str_to mentionIndex parsed ++ "@" ++ Name mention
                        ++ str_from (mentionIndex + slen (Locator mention)) parsed)%string in
        let '(text, ms) := replace_locators parsed mentions in
        (text, mkMention (UserID mention) mentionIndex (slen ("@" ++ Name mention)%string) MentionTypePerson :: ms)
  end.

(** [parseFormattedBody]: [parse] is the HTML parser, which calls [convertPill] for every pill
    and gives the text and the mentions those calls collected. *)
Definition parseFormattedBody (parse : string -> string * list MetaMention) (FormattedBody : string)
    : string * MentionData :=
  let '(parsed, mentions) := parse FormattedBody in
  let '(text, socketMentions) := replace_locators parsed mentions in
  (text, ToData socketMentions).

(** ** Lemmas: the four lists *)

Lemma Split_cons_app sep p rest : has_char sep p = false ->
  Split sep (p ++ String sep rest)%string = p :: Split sep rest.
Proof.
  intros H. induction p as [|c p IH].
  - change (Split sep (String sep rest) = "" :: Split sep rest)%string. cbn. by rewrite Ascii.eqb_refl.
  - cbn [has_char] in H. apply orb_false_iff in H as [Hc Hp]. rewrite string_app_cons. cbn [Split].
    by rewrite Hc, (IH Hp).
Qed.

Lemma Split_one sep p : has_char sep p = false -> Split sep p = [p].
Proof.
  intros H. induction p as [|c p IH]; [done|]. cbn [has_char] in H. apply orb_false_iff in H as [Hc Hp].
  cbn [Split]. by rewrite Hc, (IH Hp).
Qed.

Lemma Split_Join l : l <> [] -> Forall (fun s => has_char "," s = false) l -> Split "," (Join l) = l.
Proof.
  intros Hne H. induction H as [|p l Hp Hl IH]; [done|]. destruct l as [|q l]; [by apply Split_one|].
  change (Join (p :: q :: l)) with (p ++ String "," (Join (q :: l)))%string.
  rewrite Split_cons_app by done. by rewrite IH.
Qed.

Lemma no_char sep (p : ascii -> bool) s : p sep = false -> all_chars p s = true -> has_char sep s = false.
Proof.
  intros Hs. induction s as [|c s IH]; [done|]. cbn. rewrite andb_true_iff. intros [Hc H].
  rewrite IH by done. destruct (Ascii.eqb_spec c sep) as [->|]; [congruence|done].
Qed.

Lemma FormatInt_no_comma z : has_char "," (FormatInt 10 z) = false.
Proof. by eapply no_char; [|apply FormatInt_chars]. Qed.

(** A mention whose numbers are Go's and whose type fits in a list. *)
Definition mention_ok (m : Mention) : Prop :=
  in_int 64 (MentionID m) /\ in_int 64 (Offset m) /\ in_int 64 (Length m) /\
  has_char "," (MentionType m) = false.

Lemma parse_mentions_printed ms : Forall mention_ok ms -> forall i,
  parse_mentions i (map (fun m => FormatInt 10 (MentionID m)) ms) (map (fun m => FormatInt 10 (Offset m)) ms)
    (map (fun m => FormatInt 10 (Length m)) ms) (map MentionType ms) = Ok ms.
Proof.
  induction 1 as [|m ms (H1 & H2 & H3 & _) _ IH]; intros i; [done|]. cbn [map parse_mentions]. unfold Atoi.
  rewrite !ParseInt_FormatInt by (done || lia). rewrite IH. by destruct m.
Qed.

Lemma Parse_ToData Sort ms : ms <> [] -> Forall mention_ok ms ->
  Parse Sort (Some (ToData ms)) = Ok (Sort ms).
Proof.
  intros Hne H. unfold Parse, ToData. cbn [MentionIDs MentionOffsets MentionLengths MentionTypes].
  assert (Forall (fun s => has_char "," s = false) (map MentionType ms)) as Ht.
  { apply Forall_map. eapply Forall_impl; [done|]. by intros m (_ & _ & _ & ?). }
  assert (forall f, Forall (fun s => has_char "," s = false) (map (fun m : Mention => FormatInt 10 (f m)) ms)) as Hf.
  { intros f. apply Forall_map, Forall_true. intros m. apply FormatInt_no_comma. }
  assert (forall (f : Mention -> string), map f ms <> []) as Hm by (intros f; by destruct ms).
  rewrite !Split_Join by done. rewrite !length_map, !Z.eqb_refl. cbn [negb orb].
  rewrite parse_mentions_printed by done. cbn [mbind res_bind].
  destruct (String.eqb_spec (Join (map (fun m => FormatInt 10 (MentionID m)) ms)) "") as [E|]; [|done].
  pose proof (Split_Join _ (Hm _) (Hf MentionID)) as S. rewrite E in S. cbn in S.
  destruct ms as [|m [|]]; [done| |discriminate S]. injection S as S.
  destruct (FormatInt_chars (MentionID m)) as [_ N]. by rewrite <- S in N.
Qed.

Lemma parse_mentions_ok ids : forall i offsets lengths types ms,
  parse_mentions i ids offsets lengths types = Ok ms ->
  Forall (fun m => in_int 64 (Offset m) /\ in_int 64 (Length m)) ms.
Proof.
  induction ids as [|id ids IH]; intros i offsets lengths types ms; [by intros [= <-]|].
  destruct offsets as [|o offsets], lengths as [|l lengths], types as [|t types]; try by intros [= <-].
  cbn [parse_mentions]. unfold Atoi.
  pose proof (ParseInt_range 10 o ltac:(lia)) as Ho. pose proof (ParseInt_range 10 l ltac:(lia)) as Hl.
  destruct (ParseInt 10 id) as [? []]; [done|]. destruct (ParseInt 10 o) as [? []]; [done|].
  destruct (ParseInt 10 l) as [? []]; [done|]. intros H. inv_res H. constructor; [done|]. by eapply IH.
Qed.

(** A sort: a permutation in order.  Nothing is said of elements that are equal in the order. *)
Class Sorts (Sort : Mentions -> Mentions) : Prop := {
  Sort_permutes l : Sort l ≡ₚ l;
  Sort_sorted l : StronglySorted (fun m n => Less n m = false) (Sort l)
}.

Lemma Parse_ok Sort (HS : Sorts Sort) md ms : Parse Sort md = Ok ms ->
  Forall (fun m => in_int 64 (Offset m) /\ in_int 64 (Length m)) ms.
Proof.
  unfold Parse. destruct md as [md|]; [|by intros [= <-]]. destruct (_ =? _)%string; [by intros [= <-]|].
  case_match; [done|]. intros Hp. inv_res Hp. apply parse_mentions_ok in E. by rewrite Sort_permutes.
Qed.

(** What is in strict order already, every sort leaves. *)
Lemma sorted_unique l l' : StronglySorted (fun m n => Less m n = true) l ->
  StronglySorted (fun m n => Less n m = false) l' -> l' ≡ₚ l -> l' = l.
Proof.
  intros H. revert l'. induction H as [|x l Hl IH Hx]; intros l' Hs Hp; [by apply Permutation_nil_r|].
  destruct Hs as [|y l' Hl' Hy]; [by apply Permutation_nil in Hp|].
  assert (y = x) as ->.
  { assert (y ∈ x :: l) as Iy by (rewrite <- Hp; left). assert (x ∈ y :: l') as Ix by (rewrite Hp; left).
    apply elem_of_cons in Iy as [?|Iy]; [done|]. apply elem_of_cons in Ix as [?|Ix]; [done|].
    rewrite Forall_forall in Hx, Hy. specialize (Hx _ Iy). specialize (Hy _ Ix). congruence. }
  f_equal. apply IH; [done|]. by apply Permutation_cons_inv in Hp.
Qed.

(** [sort.Sort] of a short list: an insertion sort. *)
Fixpoint insert_mention (m : Mention) (l : Mentions) : Mentions :=
  match l with
  | [] => [m]
  | n :: l => if Less n m then n :: insert_mention m l else m :: n :: l
  end.
Definition insertion_sort (l : Mentions) : Mentions := foldr insert_mention [] l.

#[export] Instance insertion_sort_sorts : Sorts insertion_sort.
Proof.
  assert (forall m l, insert_mention m l ≡ₚ m :: l) as Hp.
  { intros m l. induction l as [|n l IH]; [done|]. cbn. destruct (Less n m); [|done].
    rewrite IH. apply Permutation_swap. }
  assert (forall l, insertion_sort l ≡ₚ l) as Hs.
  { induction l as [|m l IH]; [done|]. cbn. by rewrite Hp, IH. }
  split; [done|]. induction l as [|m l IH]; [constructor|]. cbn. unfold insertion_sort in IH.
  set (r := foldr insert_mention [] l) in *. clearbody r. induction IH as [|n r Hr IHr Hn]; [by repeat constructor|].
  cbn. destruct (Less n m) eqn:E.
  - constructor; [done|]. rewrite Hp. constructor; [|done]. unfold Less in *. rewrite Z.ltb_lt, Z.ltb_ge in *. lia.
  - constructor; [by constructor|]. constructor; [done|]. eapply Forall_impl; [exact Hn|]. cbn.
    unfold Less in *. intros k Hk. rewrite Z.ltb_ge in *. lia.
Qed.

(** ** Lemmas: texts that come in *)

(** A text cut into plain parts and links. *)
Inductive segment := Plain (us : list Z) | Link (url : string) (us : list Z).

Definition units (segs : list segment) : list Z :=
  segs ≫= fun s => match s with Plain us | Link _ us => us end.

Section IncomingTheorems.
Context (Sort : Mentions -> Mentions) `{HS : !Sorts Sort}.
Context (GetGhostByID : string -> res (string * string)).
Context (GetCachedUserLoginByID : string -> option string).
Context (MatrixToURL TextToHTML : string -> string).

Definition render (s : segment) : string :=
  match s with
  | Plain us => TextToHTML (UTF16String_String us)
  | Link url us => a_open url ++ TextToHTML (UTF16String_String us) ++ "</a>"
  end.

Fixpoint render_all (segs : list segment) : string :=
  match segs with
  | [] => ""
  | s :: segs => render s ++ render_all segs
  end.

Lemma render_all_app a b : render_all (a ++ b) = (render_all a ++ render_all b)%string.
Proof. induction a as [|s a IH]; [done|]. cbn. by rewrite IH, string_app_assoc. Qed.

(** The link of a mention of a person who is known. *)
Definition url_of (m : Mention) : option string :=
  if (MentionType m =? MentionTypePerson)%string then
    match getBasicUserInfo GetGhostByID GetCachedUserLoginByID (MakeUserID (MentionID m)) with
    | Ok (mxid, _) => if (MatrixToURL mxid =? "")%string then None else Some (MatrixToURL mxid)
    | _ => None
    end
  else None.

(** Mention [m] is the link behind the segments [a] of [text]. *)
Definition link_of (text : list Z) (m : Mention) (a : list segment) (url : string) (us : list Z) : Prop :=
  url_of m = Some url /\ Offset m = llen (units a) /\
  us = take (Z.to_nat (Length m)) (drop (Z.to_nat (Offset m)) text).

Definition linked (text : list Z) (m : Mention) (segs : list segment) : Prop :=
  exists a url us b, segs = a ++ Link url us :: b /\ link_of text m a url us.

Lemma linked_app text m segs b : linked text m segs -> linked text m (segs ++ b).
Proof.
  intros (a & url & us & c & -> & H). exists a, url, us, (c ++ b). by rewrite <- app_assoc.
Qed.

(** Why a mention is a link or is not. *)
Definition settled (text : list Z) (ms : Mentions) (segs : list segment) (m : Mention) : Prop :=
  linked text m segs \/ url_of m = None \/ Offset m < 0 \/ llen text <= Offset m \/
  exists m', m' ∈ ms /\ linked text m' segs /\ Offset m < Offset m' + Length m'.

Record written (text : list Z) (ms : Mentions) (segs : list segment) (prevEnd : Z) (output : string) : Prop := {
  w_end : 0 <= prevEnd <= llen text;
  w_units : units segs = take (Z.to_nat prevEnd) text;
  w_output : output = render_all segs;
  w_links a url us b : segs = a ++ Link url us :: b -> exists m, m ∈ ms /\ link_of text m a url us;
  w_last : prevEnd = 0 \/ exists m, m ∈ ms /\ linked text m segs /\ prevEnd <= Offset m + Length m
}.

Lemma last_link segs p url us a url' us' b : segs ++ [Plain p; Link url us] = a ++ Link url' us' :: b ->
  (a = segs ++ [Plain p] /\ url' = url /\ us' = us) \/ exists b', segs = a ++ Link url' us' :: b'.
Proof.
  revert a. induction segs as [|s segs IH]; intros a E.
  - destruct a as [|x [|y a]]; [by injection E|by injection E as <- -> -> <-; left|].
    injection E as _ _ E. by destruct a.
  - destruct a as [|x a]; [injection E as -> _; right; by eexists|]. injection E as <- E.
    destruct (IH a E) as [(-> & -> & ->)|(b' & ->)]; [by left|right; by exists b'].
Qed.

(** A link behind what was written. *)
Lemma written_link text ms segs prevEnd output m url e : written text ms segs prevEnd output -> m ∈ ms ->
  url_of m = Some url -> prevEnd <= Offset m -> Offset m <= e <= llen text ->
  e = Z.min (Offset m + Length m) (llen text) ->
  let plain := take (Z.to_nat (Offset m - prevEnd)) (drop (Z.to_nat prevEnd) text) in
  let us := take (Z.to_nat (e - Offset m)) (drop (Z.to_nat (Offset m)) text) in
  written text ms (segs ++ [Plain plain; Link url us]) e
    (output ++ render (Plain plain) ++ render (Link url us))%string /\
  linked text m (segs ++ [Plain plain; Link url us]).
Proof.
  intros [He Hu Ho Hl Hlast] Hm Hurl Hlo Hhi Hmin plain us.
  assert (units (segs ++ [Plain plain]) = take (Z.to_nat (Offset m)) text) as Hu1.
  { unfold units in *. rewrite bind_app, Hu. cbn. rewrite app_nil_r.
    replace (Z.to_nat (Offset m)) with (Z.to_nat prevEnd + Z.to_nat (Offset m - prevEnd))%nat by lia.
    apply take_take_drop. }
  assert (link_of text m (segs ++ [Plain plain]) url us) as Hlk.
  { split_and!; [done| |].
    - rewrite Hu1, length_take. lia.
    - unfold us. destruct (Z.leb_spec (Offset m + Length m) (llen text)).
      + by replace (e - Offset m) with (Length m) by lia.
      + rewrite !take_ge; [done|rewrite length_drop; lia..]. }
  assert (linked text m (segs ++ [Plain plain; Link url us])) as Hlinked.
  { exists (segs ++ [Plain plain]), url, us, []. by rewrite <- app_assoc. }
  split; [|done]. split; [lia| | | |].
  - change [Plain plain; Link url us] with ([Plain plain] ++ [Link url us]). rewrite app_assoc.
    unfold units in *. rewrite bind_app, Hu1. cbn. rewrite app_nil_r. unfold us.
    replace (Z.to_nat e) with (Z.to_nat (Offset m) + Z.to_nat (e - Offset m))%nat by lia.
    apply take_take_drop.
  - rewrite render_all_app, <- Ho. cbn [render_all]. by rewrite string_app_nil_r.
  - intros a url' us' b E.
    destruct (last_link _ _ _ _ _ _ _ _ E) as [(-> & -> & ->)|(b' & ->)]; [by exists m|].
    by apply (Hl a url' us' b').
  - right. exists m. split_and!; [done|done|]. lia.
Qed.

Lemma settled_app text ms segs b m : settled text ms segs m -> settled text ms (segs ++ b) m.
Proof.
  intros [H|[H|[H|[H|(m' & Hm' & H & Hlt)]]]]; unfold settled.
  - left. by apply linked_app.
  - by right; left.
  - by right; right; left.
  - by right; right; right; left.
  - do 4 right. exists m'. split_and!; [done|by apply linked_app|done].
Qed.

(** A sum of two [int]s that is too large comes out negative. *)
Lemma int64_wrapped x : 2 ^ 63 <= x < 2 ^ 64 -> int64 x = x - 2 ^ 64.
Proof.
  intros H. unfold intN. change (64 - 1) with 63.
  replace (x + 2 ^ 63) with (x - 2 ^ 63 + 1 * 2 ^ 64) by lia.
  rewrite Z_mod_plus_full, Z.mod_small by lia. lia.
Qed.

#[local] Abbreviation write := (write_mentions GetGhostByID GetCachedUserLoginByID MatrixToURL TextToHTML).

(** One round of the loop: the mention is passed over with a reason, or linked, or the slice
    of its text is out of order. *)
Lemma write_mentions_cons text m ms prevEnd output added :
  (exists added', write text (m :: ms) prevEnd output added = write text ms prevEnd output added' /\
    (Offset m < prevEnd \/ llen text <= Offset m \/ url_of m = None)) \/
  (exists h, write text (m :: ms) prevEnd output added = Halt h /\
    GetGhostByID (MakeUserID (MentionID m)) = Halt h) \/
  (exists url added', url_of m = Some url /\ prevEnd <= Offset m < llen text /\
    let e := int64 (Offset m + Length m) in
    let e := if e >? llen text then llen text else e in
    write text (m :: ms) prevEnd output added =
      (plain ← slice text prevEnd (Offset m);
       us ← slice text (Offset m) e;
       write text ms e (output ++ render (Plain plain) ++ render (Link url us)) added')).
Proof.
  cbn [write_mentions]. destruct (Z.ltb_spec (Offset m) prevEnd).
  { left. eexists. split; [done|]. by left. }
  destruct (Z.geb_spec (Offset m) (llen text)).
  { left. eexists. split; [done|]. right. by left. }
  unfold url_of. destruct (MentionType m =? MentionTypePerson)%string.
  2: { left. eexists. split; [done|]. by do 2 right. }
  destruct (getBasicUserInfo _ _ _) as [[mxid name]|err|h] eqn:Eg.
  - cbv zeta. destruct (MatrixToURL mxid =? "")%string.
    { left. eexists. split; [done|]. by do 2 right. }
    right. right. do 2 eexists. split; [done|]. split; [lia|]. reflexivity.
  - left. eexists. split; [done|]. by do 2 right.
  - right. left. exists h. split; [done|]. unfold getBasicUserInfo in Eg.
    destruct (GetGhostByID _) as [[mxid name]|e|h']; [by destruct (GetCachedUserLoginByID _)|done|congruence].
Qed.

Lemma write_mentions_written text ms rest : forall segs prevEnd output added pe out ad,
  Forall (fun m => m ∈ ms /\ in_int 64 (Offset m) /\ in_int 64 (Length m)) rest -> llen text < 2 ^ 63 ->
  written text ms segs prevEnd output -> write text rest prevEnd output added = Ok (pe, out, ad) ->
  exists segs', written text ms (segs ++ segs') pe out /\ Forall (settled text ms (segs ++ segs')) rest.
Proof.
  induction rest as [|m rest IH]; intros segs prevEnd output added pe out ad Hr Ht W H.
  { injection H as <- <- <-. exists []. by rewrite app_nil_r. }
  apply Forall_cons in Hr as [(Hm & Ho & Hl) Hr].
  destruct (write_mentions_cons text m rest prevEnd output added)
    as [(added' & E & Hwhy)|[(h & E & _)|(url & added' & Hurl & Hin & E)]].
  - rewrite E in H. destruct (IH _ _ _ _ _ _ _ Hr Ht W H) as (segs' & W' & Hs).
    exists segs'. split; [done|]. constructor; [|done]. apply settled_app. unfold settled.
    destruct Hwhy as [Hlt|[Hge|Hn]]; [|by right; right; right; left|by right; left].
    destruct (w_last _ _ _ _ _ W) as [->|(m' & Hm' & Hlk & Hle)]; [by right; right; left|].
    do 4 right. exists m'. split_and!; [done|done|lia].
  - by rewrite E in H.
  - rewrite E in H. clear E. cbv zeta in H.
    set (e := if int64 (Offset m + Length m) >? llen text then llen text else int64 (Offset m + Length m)) in H.
    pose proof (w_end _ _ _ _ _ W) as He0. rewrite (slice_ok text prevEnd) in H by lia. cbn [mbind res_bind] in H.
    destruct (Z.leb_spec (Offset m) e) as [Hle|Hgt]; [|by rewrite slice_panic in H by lia].
    assert (Offset m <= e <= llen text /\ e = Z.min (Offset m + Length m) (llen text)) as [Hb Hmin].
    { unfold in_int in Ho, Hl. change (2 ^ (64 - 1)) with (2 ^ 63) in *. revert Hle. unfold e. clear e H.
      destruct (Z.ltb_spec (Offset m + Length m) (2 ^ 63)) as [Hno|Hov].
      - rewrite intN_small by (unfold in_int; lia).
        destruct (Z.gtb_spec (Offset m + Length m) (llen text)); lia.
      - rewrite int64_wrapped by lia.
        destruct (Z.gtb_spec (Offset m + Length m - 2 ^ 64) (llen text)); lia. }
    rewrite slice_ok in H by lia. cbn [mbind res_bind] in H.
    destruct (written_link _ _ _ _ _ m url e W Hm Hurl ltac:(lia) Hb Hmin) as [W' Hlk].
    destruct (IH _ _ _ _ _ _ _ Hr Ht W' H) as (segs' & W'' & Hs).
    rewrite <- app_assoc in W'', Hs. eexists. split; [exact W''|]. constructor; [|exact Hs].
    left. rewrite app_assoc. by apply linked_app.
Qed.

Lemma written_nil text ms : written text ms [] 0 "".
Proof. split; [lia|done|done|by intros []|by left]. Qed.

(** With lengths that are not negative no slice is out of order. *)
Lemma write_mentions_total text rest (Hg : forall user, is_halt (GetGhostByID user) = false) :
  Forall (fun m => 0 <= Length m /\ Offset m + Length m < 2 ^ 63) rest -> forall prevEnd output added,
  0 <= prevEnd <= llen text ->
  exists pe out ad, write text rest prevEnd output added = Ok (pe, out, ad) /\ 0 <= pe <= llen text.
Proof.
  induction 1 as [|m rest [Hl Hs] _ IH]; intros prevEnd output added Hp; [by do 3 eexists|].
  destruct (write_mentions_cons text m rest prevEnd output added)
    as [(added' & -> & _)|[(h & _ & E)|(url & added' & _ & Hin & ->)]]; [by apply IH| |].
  - specialize (Hg (MakeUserID (MentionID m))). by rewrite E in Hg.
  - cbv zeta. rewrite intN_small by (unfold in_int; lia).
    destruct (Z.gtb_spec (Offset m + Length m) (llen text)); rewrite !slice_ok by lia;
      cbn [mbind res_bind]; apply IH; lia.
Qed.

(** ** Properties: texts that come in *)


(** A text whose mentions have no negative lengths, and ends that are [int]s, is always
    converted. *)
Theorem incoming_text_converted text md ms (Hg : forall user, is_halt (GetGhostByID user) = false)
    (Hp : Parse Sort md = Ok ms)
    (Hl : Forall (fun m => 0 <= Length m /\ Offset m + Length m < 2 ^ 63) ms) :
  exists c, MetaToMatrixText Sort GetGhostByID GetCachedUserLoginByID MatrixToURL TextToHTML text md = Ok c.
Proof.
  unfold MetaToMatrixText. rewrite Hp. destruct ms as [|m ms]; [by eexists|].
  destruct (write_mentions_total (NewUTF16String text) (m :: ms) Hg Hl 0 "" []) as (pe & out & ad & -> & Hb); [lia|].
  cbn [mbind res_bind]. unfold slice_from. rewrite slice_ok by lia. by eexists.
Qed.

(** The first mention of a known person inside the text makes the conversion panic when
    its length is negative: the slice of its text ends before it starts. *)
Theorem negative_length_panics text md m ms url (Hp : Parse Sort md = Ok (m :: ms))
    (Hu : url_of m = Some url) (Ho : 0 <= Offset m < llen (NewUTF16String text))
    (Hl : - 2 ^ 63 <= Length m < 0) :
  MetaToMatrixText Sort GetGhostByID GetCachedUserLoginByID MatrixToURL TextToHTML text md = Panic.
Proof.
  unfold MetaToMatrixText. rewrite Hp.
  destruct (write_mentions_cons (NewUTF16String text) m ms 0 "" [])
    as [(added' & _ & Hwhy)|[(h & E & Hh)|(url' & added' & Hu' & Hin & ->)]].
  - destruct Hwhy as [?|[?|?]]; [lia|lia|congruence].
  - exfalso. unfold url_of, getBasicUserInfo in Hu. rewrite Hh in Hu. by destruct (_ =? _)%string.
  - pose proof (Parse_ok _ _ _ _ Hp) as Hr. apply Forall_cons in Hr as [[[_ Hi] _] _].
    change (64 - 1) with 63 in Hi. cbv zeta. rewrite intN_small by (unfold in_int; change (64 - 1) with 63; lia).
    destruct (Z.gtb_spec (Offset m + Length m) (llen (NewUTF16String text))); [lia|].
    rewrite (slice_ok _ 0) by lia. cbn [mbind res_bind]. by rewrite slice_panic by lia.
Qed.
End IncomingTheorems.

(** ** Properties: the four lists *)

(** What [ToData] writes, [Parse] reads: the same mentions, in the order of their offsets,
    and as they were when their offsets increase. *)
Theorem mentions_roundtrip Sort (HS : Sorts Sort) ms (Hne : ms <> []) (Hok : Forall mention_ok ms) :
  exists ms', Parse Sort (Some (ToData ms)) = Ok ms' /\ ms' ≡ₚ ms /\
    StronglySorted (fun m n => Less n m = false) ms' /\
    (StronglySorted (fun m n => Less m n = true) ms -> ms' = ms).
Proof.
  exists (Sort ms). split_and!; [by apply Parse_ToData|apply Sort_permutes|apply Sort_sorted|].
  intros Hs. apply sorted_unique; [done|apply Sort_sorted|apply Sort_permutes].
Qed.

(** ** Lemmas: texts that go out *)

(** A parsed text: pieces, each before the locator of a mention, and what follows the last. *)
Fixpoint template (chunks : list (string * MetaMention)) (tail : string) : string :=
  match chunks with
  | [] => tail
  | (t, m) :: chunks => t ++ Locator m ++ template chunks tail
  end.

(** The text with the names. *)
Fixpoint filled (chunks : list (string * MetaMention)) (tail : string) : string :=
  match chunks with
  | [] => tail
  | (t, m) :: chunks => t ++ ("@" ++ Name m) ++ filled chunks tail
  end.

(** Every locator is found where it was put, when those before it have been replaced. *)
Fixpoint found (before : string) (chunks : list (string * MetaMention)) (tail : string) : Prop :=
  match chunks with
  | [] => True
  | (t, m) :: chunks' =>
      Index (before ++ template chunks tail) (Locator m) = slen (before ++ t)%string /\
      found (before ++ t ++ "@" ++ Name m) chunks' tail
  end.

(** The mentions of a filled text, the first piece at [pos]. *)
Fixpoint mentions_at (pos : Z) (chunks : list (string * MetaMention)) : Mentions :=
  match chunks with
  | [] => []
  | (t, m) :: chunks =>
      let len := slen ("@" ++ Name m)%string in
      mkMention (UserID m) (pos + slen t) len MentionTypePerson :: mentions_at (pos + slen t + len) chunks
  end.

Lemma replace_locators_filled chunks tail : forall before, found before chunks tail ->
  replace_locators (before ++ template chunks tail) (map snd chunks) =
  ((before ++ filled chunks tail)%string, mentions_at (slen before) chunks).
Proof.
  induction chunks as [|[t m] chunks IH]; intros before H; [done|].
  cbn [found map snd replace_locators] in *. destruct H as [E H]. rewrite E.
  destruct (Z.eqb_spec (slen (before ++ t)%string) (-1)); [lia|].
  cbn [template]. rewrite (string_app_assoc before t), str_to_app.
  replace (slen (before ++ t)%string + slen (Locator m)) with (slen ((before ++ t) ++ Locator m)%string)
    by (rewrite (string_app_length (before ++ t)); lia).
  rewrite (string_app_assoc (before ++ t) (Locator m)), str_from_app.
  assert (((before ++ t) ++ "@" ++ Name m ++ template chunks tail)%string =
    ((before ++ t ++ "@" ++ Name m) ++ template chunks tail)%string) as ->.
  { by rewrite !string_app_assoc. }
  rewrite IH by done. cbn [filled mentions_at]. f_equal.
  - by rewrite !string_app_assoc.
  - rewrite !string_app_length. f_equal; f_equal; lia.
Qed.

(** In an ASCII text bytes and UTF-16 units are the same. *)
Definition ascii_string (s : string) : bool := all_chars (fun c => (nat_of_ascii c <? 128)%nat) s.

Lemma ascii_bytes s : ascii_string s = true -> Forall (fun b => b2z b < 128) (s2l s).
Proof.
  assert (forall c, (nat_of_ascii c <? 128)%nat = true -> b2z (byte_of_ascii c) < 128) as H.
  { intros [[] [] [] [] [] [] [] []]; vm_compute; done. }
  unfold ascii_string. induction s as [|c s IH]; [constructor|]. cbn [all_chars]. rewrite andb_true_iff.
  intros [Hc Hs]. constructor; [by apply H|by apply IH].
Qed.

Lemma ascii_units s : ascii_string s = true -> NewUTF16String s = map b2z (s2l s).
Proof.
  intros H. apply ascii_bytes in H.
  destruct (ascii_runes (s2l s) H) as [V E].
  assert (runes s = map b2z (s2l s)) as R.
  { rewrite <- (runes_encode _ V). unfold of_runes. by rewrite E, l2s_s2l. }
  unfold NewUTF16String. rewrite R. clear -H V.
  induction H as [|b l Hb Hl IH]; [done|]. apply Forall_cons in V as [Vb V].
  change (utf16_encode_rune (b2z b) ++ utf16_Encode (map b2z l) = map b2z (b :: l)).
  rewrite IH by done. unfold utf16_encode_rune. rewrite Vb.
  by replace (b2z b <? 65536) with true by (symmetry; blia).
Qed.

Lemma mentions_at_sorted chunks : forall pos,
  StronglySorted (fun m n => Less m n = true) (mentions_at pos chunks) /\
  Forall (fun m => pos <= Offset m) (mentions_at pos chunks).
Proof.
  induction chunks as [|[t m] chunks IH]; intros pos; [by split; constructor|]. cbn [mentions_at].
  set (len := slen ("@" ++ Name m)%string). assert (0 < len) as Hlen.
  { unfold len. rewrite string_app_length. cbn. lia. }
  destruct (IH (pos + slen t + len)) as [Hs Ho]. split.
  - constructor; [done|]. eapply Forall_impl; [exact Ho|]. cbn. intros n Hn. unfold Less. cbn. blia.
  - constructor; [cbn; lia|]. eapply Forall_impl; [exact Ho|]. cbn. lia.
Qed.

Lemma mentions_at_ok chunks tail : forall pos, 0 <= pos -> pos + slen (filled chunks tail) < 2 ^ 63 ->
  Forall (fun c => in_int 64 (UserID c.2)) chunks -> Forall mention_ok (mentions_at pos chunks).
Proof.
  induction chunks as [|[t m] chunks IH]; intros pos Hp Hl H; [constructor|].
  apply Forall_cons in H as [Hm H]. cbn [mentions_at filled] in *. rewrite !string_app_length in Hl.
  constructor.
  - unfold mention_ok, in_int in *. cbn [MentionID Offset Length MentionType snd] in *. rewrite string_app_length.
    change (64 - 1) with 63 in *. split_and!; try done; lia.
  - apply IH; [lia| |done]. rewrite string_app_length. lia.
Qed.

Lemma mentions_at_names chunks tail : forall before, ascii_string (before ++ filled chunks tail) = true ->
  Forall2 (fun c m => MentionID m = UserID c.2 /\ MentionType m = MentionTypePerson /\
    take (Z.to_nat (Length m)) (drop (Z.to_nat (Offset m)) (NewUTF16String (before ++ filled chunks tail))) =
    NewUTF16String ("@" ++ Name c.2)) chunks (mentions_at (slen before) chunks).
Proof.
  induction chunks as [|[t m] chunks IH]; intros before H; [constructor|]. cbn [mentions_at filled] in *.
  constructor.
  - split_and!; [done|done|]. cbn [Length Offset snd].
    rewrite (string_app_assoc before t) in *. set (p := (before ++ t)%string) in *.
    replace (slen before + slen t) with (slen p) by (unfold p; rewrite string_app_length; lia).
    assert (ascii_string ("@" ++ Name m) = true) as Hn.
    { unfold ascii_string in *. rewrite !all_chars_app, !andb_true_iff in H. rewrite all_chars_app, andb_true_iff. tauto. }
    rewrite (ascii_units _ H), (ascii_units _ Hn), !s2l_app, !map_app, !Nat2Z.id.
    rewrite (drop_app_length' (map b2z (s2l p))) by (by rewrite length_map, s2l_length).
    rewrite <- !map_app, <- !s2l_app. rewrite (s2l_app ("@" ++ Name m)), map_app.
    by rewrite take_app_length' by (by rewrite length_map, s2l_length).
  - specialize (IH (before ++ t ++ "@" ++ Name m)%string).
    assert (((before ++ t ++ "@" ++ Name m) ++ filled chunks tail)%string =
      (before ++ t ++ ("@" ++ Name m) ++ filled chunks tail)%string) as E by (by rewrite !string_app_assoc).
    rewrite E in IH. specialize (IH H).
    replace (slen before + slen t + slen ("@" ++ Name m)%string) with (slen (before ++ t ++ "@" ++ Name m)%string)
      by (rewrite !string_app_length; lia). done.
Qed.

(** ** Properties: texts that go out *)

(** Round trip of an ASCII text: the lists that go out are read back as a mention of each
    pill's user, in order, over exactly the name that was put in the pill's place. *)
Theorem outgoing_mentions_read_back Sort (HS : Sorts Sort) parse html chunks tail
    (Hparse : parse html = (template chunks tail, map snd chunks)) (Hne : chunks <> [])
    (Hfound : found "" chunks tail) (Hascii : ascii_string (filled chunks tail) = true)
    (Hids : Forall (fun c => in_int 64 (UserID c.2)) chunks) (Hlen : slen (filled chunks tail) < 2 ^ 63) :
  let '(text, md) := parseFormattedBody parse html in
  text = filled chunks tail /\
  exists ms, Parse Sort (Some md) = Ok ms /\
    Forall2 (fun c m => MentionID m = UserID c.2 /\ MentionType m = MentionTypePerson /\
      take (Z.to_nat (Length m)) (drop (Z.to_nat (Offset m)) (NewUTF16String text)) =
      NewUTF16String ("@" ++ Name c.2)) chunks ms.
Proof.
  unfold parseFormattedBody. rewrite Hparse.
  pose proof (replace_locators_filled chunks tail "" Hfound) as E. cbn [append] in E.
  change ("" ++ template chunks tail)%string with (template chunks tail) in E.
  change ("" ++ filled chunks tail)%string with (filled chunks tail) in E. rewrite E. split; [done|].
  exists (mentions_at 0 chunks). split; [|by apply (mentions_at_names chunks tail "")].
  rewrite Parse_ToData; [|by destruct chunks as [|[] ?]|by apply (mentions_at_ok chunks tail)].
  f_equal. apply sorted_unique; [apply mentions_at_sorted|apply Sort_sorted|apply Sort_permutes].
Qed.

(** The HTML parser on a sample: the pill of Bob (42) behind some text. *)
Definition bob : MetaMention := mkMetaMention "meta_mention_x" "Bob" 42.
Definition sample_parse (before html : string) : string * list MetaMention :=
  ((before ++ Locator bob ++ "!")%string, [bob]).

(** An e with an acute accent, in UTF-8. *)
Definition e_acute : string := of_runes [233].

(** The offset that goes out counts bytes, where Meta counts UTF-16 units: behind a letter
    that takes two bytes the mention of Bob covers another part of the text than his name. *)
Theorem outgoing_offset_counts_bytes :
  let '(text, md) := parseFormattedBody (sample_parse e_acute) "" in
  text = (e_acute ++ "@Bob!")%string /\
  exists m, Parse insertion_sort (Some md) = Ok [m] /\ Offset m = 2 /\
    take (Z.to_nat (Length m)) (drop (Z.to_nat (Offset m)) (NewUTF16String text)) = NewUTF16String "Bob!" /\
    NewUTF16String "Bob!" <> NewUTF16String ("@" ++ Name bob).
Proof.
  vm_compute. split; [done|]. exists (mkMention 42 2 4 "p"). by split_and!.
Qed.

(** ** Witnesses *)

Definition sample_ghost (user : string) : res (string * string) :=
  if (user =? "42")%string then Ok ("@meta_42:example.org", "Bob")%string else Err "no such user".
Definition no_login (user : string) : option string := None.
Definition matrix_to (mxid : string) : string := ("https://matrix.to/" ++ mxid)%string.
Definition same_text (s : string) : string := s.

Definition sample_mentions : MentionData := mkMentionData "7,42,42" "9,6,0" "4,4,2" "p,p,s".
Definition sample_list : Mentions := [mkMention 42 0 2 "s"; mkMention 42 6 4 "p"; mkMention 7 9 4 "p"].

Example sample_html :
  MetaToMatrixText insertion_sort sample_ghost no_login matrix_to same_text "hello @Bob and" (Some sample_mentions)
  = Ok (mkContent "m.text" "hello @Bob and" "org.matrix.custom.html"
          ("hello " ++ a_open "https://matrix.to/@meta_42:example.org" ++ "@Bob</a> and") ["@meta_42:example.org"]%string).
Proof. by vm_compute. Qed.


Lemma incoming_text_converted_witness : exists c,
  MetaToMatrixText insertion_sort sample_ghost no_login matrix_to same_text "hello" (Some sample_mentions) = Ok c.
Proof.
  apply (incoming_text_converted insertion_sort _ _ _ _ _ _ sample_list).
  - intros user. unfold sample_ghost. by destruct (user =? "42")%string.
  - by vm_compute.
  - repeat constructor; cbn; lia.
Defined.

Lemma negative_length_panics_witness :
  MetaToMatrixText insertion_sort sample_ghost no_login matrix_to same_text "hello"
    (Some (mkMentionData "42" "1" "-1" "p")) = Panic.
Proof.
  apply (negative_length_panics insertion_sort _ _ _ _ _ _ (mkMention 42 1 (-1) "p") [] "https://matrix.to/@meta_42:example.org").
  - by vm_compute.
  - by vm_compute.
  - by vm_compute.
  - by vm_compute.
Defined.

Lemma mentions_roundtrip_witness : exists ms',
  Parse insertion_sort (Some (ToData [mkMention 42 6 4 "p"; mkMention 7 0 4 "p"])) = Ok ms' /\
  ms' ≡ₚ [mkMention 42 6 4 "p"; mkMention 7 0 4 "p"] /\
  StronglySorted (fun m n => Less n m = false) ms' /\
  (StronglySorted (fun m n => Less m n = true) [mkMention 42 6 4 "p"; mkMention 7 0 4 "p"] ->
   ms' = [mkMention 42 6 4 "p"; mkMention 7 0 4 "p"]).
Proof.
  apply (mentions_roundtrip insertion_sort _); [done|].
  repeat constructor; unfold in_int; cbn; lia.
Defined.

Lemma outgoing_mentions_read_back_witness :
  let '(text, md) := parseFormattedBody (sample_parse "hi ") "" in
  text = filled [("hi "%string, bob)] "!" /\
  exists ms, Parse insertion_sort (Some md) = Ok ms /\
    Forall2 (fun c m => MentionID m = UserID c.2 /\ MentionType m = MentionTypePerson /\
      take (Z.to_nat (Length m)) (drop (Z.to_nat (Offset m)) (NewUTF16String text)) =
      NewUTF16String ("@" ++ Name c.2)) [("hi "%string, bob)] ms.
Proof.
  apply (outgoing_mentions_read_back insertion_sort _ (sample_parse "hi ") "" [("hi "%string, bob)] "!").
  - done.
  - done.
  - by vm_compute.
  - done.
  - repeat constructor; unfold in_int; cbn; lia.
  - by vm_compute.
Defined.
