(* ===== verification/TaskTypes.v ===== *)
(** * TaskTypes: the tasks of [socket/*.go]

    A task is a struct with a label and a [Create], which gives the payload (the struct itself,
    which it may change first), the name of the queue the server runs it in, if any, and whether
    that name is itself encoded as JSON.  There is a module per task: the record, its encoding
    by the field tags, and its instance of the interface. *)

From stdpp Require Import sorting.
From S2P Require Import Prelude Strconv Json Mentions.
#[local] Open Scope Z_scope.

(** ** [socket/task.go] *)

Definition TaskLabels : list (string * string) := 
  [("UpdatePresence", "3"); ("ThreadMarkRead", "21"); ("AddParticipantsTask", "23");
   ("UpdateAdminTask", "25"); ("SendReactionTask", "29"); ("SearchUserTask", "30");
   ("SearchUserSecondaryTask", "31"); ("RenameThreadTask", "32"); ("DeleteMessageTask", "33");
   ("SetThreadImageTask", "37"); ("SendMessageTask", "46"); ("ReportAppStateTask", "123");
   ("CreateGroupTask", "130"); ("RemoveParticipantTask", "140"); ("MuteThreadTask", "144");
   ("FetchThreadsTask", "145"); ("DeleteThreadTask", "146"); ("DeleteMessageMeOnlyTask", "155");
   ("CreatePollTask", "163"); ("UpdatePollTask", "164"); ("GetContactsFullTask", "207");
   ("CreateThreadTask", "209"); ("FetchMessagesTask", "228");
   ("FetchCommunityMemberList", "355"); ("CreateWhatsAppThreadTask", "388");
   ("GetContactsTask", "452"); ("CommunityThreadHoleDetection", "501");
   ("FetchReactionsV2UserList", "577"); ("SendReactionV2", "604");
   ("DeleteCommunitySubThread", "639"); ("CreateCommunitySubThread", "665");
   ("FetchAdditionalThreadData", "733"); ("EditMessageTask", "742")]%string.

(** [TaskLabels[name]], the empty string for a name that is not there. *)
Fixpoint lookup_label (name : string) (l : list (string * string)) : string :=
  match l with
  | [] => ""
  | (k, v) :: l => if (k =? name)%string then v else lookup_label name l
  end.
Definition label (name : string) : string := lookup_label name TaskLabels.

(** The interface [Task].  [Create now t]: [now] is the clock; the queue name is a value of
    JSON, or nil. *)
Class Task (T : Type) := {
  task_json :: ToJSON T;
  GetLabel : T -> string;
  Create : Z -> T -> T * option value * bool
}.

(** A [map[string]int]: the encoder sorts the keys. *)
#[global] Instance map_json : ToJSON (gmap string Z) := fun m =>
  Obj (map (fun kv => (kv.1, Num kv.2))
         (merge_sort (fun a b : string * Z => Is_true (String.leb a.1 b.1)) (map_to_list m))).

#[global] Instance MentionData_json : ToJSON Mentions.MentionData := fun t => struct
  [field "mention_ids" (MentionIDs t); field "mention_offsets" (MentionOffsets t);
   field "mention_lengths" (MentionLengths t); field "mention_types" (MentionTypes t)].

(** ** The tasks *)

(** *** [socket/threads.go] *)

Module ReplyMetaData.
Record ReplyMetaData := mkReplyMetaData { ReplyMessageId : string; ReplySourceType : Z;
  ReplyType : Z; ReplySender : Z }.
#[global] Instance ReplyMetaData_json : ToJSON ReplyMetaData := fun t => struct
  [field "reply_source_id" (ReplyMessageId t); field "reply_source_type" (ReplySourceType t);
   field "reply_type" (ReplyType t)].
End ReplyMetaData.

Module SendMessageTask.
Record SendMessageTask := mkSendMessageTask { ThreadId : Z; Otid : Z; Source : Z; SendType : Z;
  AttachmentFBIds : option (list Z); SyncGroup : Z;
  ReplyMetaData : option ReplyMetaData.ReplyMetaData; MentionData : option Mentions.MentionData;
  Text : string; HotEmojiSize : Z; StickerId : Z; InitiatingSource : Z; SkipUrlPreviewGen : Z;
  TextHasLinks : Z; StripForwardedMsgCaption : Z; ForwardedMsgId : string; MultiTabEnv : Z;
  Url : string; AttributionAppId : Z }.
#[global] Instance SendMessageTask_json : ToJSON SendMessageTask := fun t => struct
  [field "thread_id" (ThreadId t); quoted "otid" (Otid t); field "source" (Source t);
   field "send_type" (SendType t); omitempty "attachment_fbids" (AttachmentFBIds t);
   field "sync_group" (SyncGroup t); omitempty "reply_metadata" (ReplyMetaData t);
   omitempty "mention_data" (MentionData t); omitempty "text" (Text t);
   omitempty "hot_emoji_size" (HotEmojiSize t); omitempty "sticker_id" (StickerId t);
   omitempty "initiating_source" (InitiatingSource t);
   field "skip_url_preview_gen" (SkipUrlPreviewGen t); field "text_has_links" (TextHasLinks t);
   omitempty "strip_forwarded_msg_caption" (StripForwardedMsgCaption t);
   omitempty "forwarded_msg_id" (ForwardedMsgId t); field "multitab_env" (MultiTabEnv t);
   omitempty "url" (Url t); omitempty "attribution_app_id" (AttributionAppId t)].
#[global] Instance SendMessageTask_task : Task SendMessageTask := {
  GetLabel := fun _ => label "SendMessageTask";
  Create := fun _ t =>
    (t, Some (Str (FormatInt 10 (ThreadId t))), false) }.
End SendMessageTask.

Module CreatePollTask.
Record CreatePollTask := mkCreatePollTask { QuestionText : string; ThreadKey : Z;
  Options : option (list string); SyncGroup : Z }.
#[global] Instance CreatePollTask_json : ToJSON CreatePollTask := fun t => struct
  [field "question_text" (QuestionText t); field "thread_key" (ThreadKey t);
   field "options" (Options t); field "sync_group" (SyncGroup t)].
#[global] Instance CreatePollTask_task : Task CreatePollTask := {
  GetLabel := fun _ => label "CreatePollTask";
  Create := fun _ t =>
    (t, Some (Str "poll_creation"), false) }.
End CreatePollTask.

Module UpdatePollTask.
Record UpdatePollTask := mkUpdatePollTask { ThreadKey : Z; PollID : Z;
  AddedOptions : option (list (gmap string Z)); SelectedOptions : option (list Z); SyncGroup : Z }.
#[global] Instance UpdatePollTask_json : ToJSON UpdatePollTask := fun t => struct
  [field "thread_key" (ThreadKey t); field "poll_id" (PollID t);
   field "added_options" (AddedOptions t); field "selected_options" (SelectedOptions t);
   field "sync_group" (SyncGroup t)].
#[global] Instance UpdatePollTask_task : Task UpdatePollTask := {
  GetLabel := fun _ => label "UpdatePollTask";
  Create := fun _ t =>
    (t, Some (Str "poll_update"), false) }.
End UpdatePollTask.

Module ThreadMarkReadTask.
Record ThreadMarkReadTask := mkThreadMarkReadTask { ThreadId : Z; LastReadWatermarkTs : Z;
  SyncGroup : Z }.
#[global] Instance ThreadMarkReadTask_json : ToJSON ThreadMarkReadTask := fun t => struct
  [field "thread_id" (ThreadId t); field "last_read_watermark_ts" (LastReadWatermarkTs t);
   field "sync_group" (SyncGroup t)].
#[global] Instance ThreadMarkReadTask_task : Task ThreadMarkReadTask := {
  GetLabel := fun _ => label "ThreadMarkRead";
  Create := fun _ t =>
    (t, Some (Str (FormatInt 10 (ThreadId t))), false) }.
End ThreadMarkReadTask.

Module FetchMessagesTask.
Record FetchMessagesTask := mkFetchMessagesTask { ThreadKey : Z; Direction : Z;
  ReferenceTimestampMs : Z; ReferenceMessageId : string; SyncGroup : Z; Cursor : string }.
#[global] Instance FetchMessagesTask_json : ToJSON FetchMessagesTask := fun t => struct
  [field "thread_key" (ThreadKey t); field "direction" (Direction t);
   field "reference_timestamp_ms" (ReferenceTimestampMs t);
   field "reference_message_id" (ReferenceMessageId t); field "sync_group" (SyncGroup t);
   field "cursor" (Cursor t)].
#[global] Instance FetchMessagesTask_task : Task FetchMessagesTask := {
  GetLabel := fun _ => label "FetchMessagesTask";
  Create := fun _ t =>
    (t, Some (Str ("mrq." ++ FormatInt 10 (ThreadKey t))), false) }.
End FetchMessagesTask.

Module MuteThreadTask.
Record MuteThreadTask := mkMuteThreadTask { ThreadKey : Z; MailboxType : Z; MuteExpireTimeMS : Z;
  SyncGroup : Z }.
#[global] Instance MuteThreadTask_json : ToJSON MuteThreadTask := fun t => struct
  [field "thread_key" (ThreadKey t); field "mailbox_type" (MailboxType t);
   field "mute_expire_time_ms" (MuteExpireTimeMS t); field "sync_group" (SyncGroup t)].
#[global] Instance MuteThreadTask_task : Task MuteThreadTask := {
  GetLabel := fun _ => label "MuteThreadTask";
  Create := fun _ t =>
    (t, Some (Str (FormatInt 10 (ThreadKey t))), false) }.
End MuteThreadTask.

Module RenameThreadTask.
Record RenameThreadTask := mkRenameThreadTask { ThreadKey : Z; ThreadName : string; SyncGroup : Z }.
#[global] Instance RenameThreadTask_json : ToJSON RenameThreadTask := fun t => struct
  [field "thread_key" (ThreadKey t); field "thread_name" (ThreadName t);
   field "sync_group" (SyncGroup t)].
#[global] Instance RenameThreadTask_task : Task RenameThreadTask := {
  GetLabel := fun _ => label "RenameThreadTask";
  Create := fun _ t =>
    (t, Some (Str (FormatInt 10 (ThreadKey t))), false) }.
End RenameThreadTask.

Module SetThreadImageTask.
Record SetThreadImageTask := mkSetThreadImageTask { ThreadKey : Z; ImageID : Z; SyncGroup : Z }.
#[global] Instance SetThreadImageTask_json : ToJSON SetThreadImageTask := fun t => struct
  [field "thread_key" (ThreadKey t); field "image_id" (ImageID t);
   field "sync_group" (SyncGroup t)].
#[global] Instance SetThreadImageTask_task : Task SetThreadImageTask := {
  GetLabel := fun _ => label "SetThreadImageTask";
  Create := fun _ t =>
    (t, Some (Str "thread_image"), false) }.
End SetThreadImageTask.

Module EditMessageTask.
Record EditMessageTask := mkEditMessageTask { MessageID : string; Text : string }.
#[global] Instance EditMessageTask_json : ToJSON EditMessageTask := fun t => struct
  [field "message_id" (MessageID t); field "text" (Text t)].
#[global] Instance EditMessageTask_task : Task EditMessageTask := {
  GetLabel := fun _ => label "EditMessageTask";
  Create := fun _ t =>
    (t, Some (Str "edit_message"), false) }.
End EditMessageTask.

Module UpdateAdminTask.
Record UpdateAdminTask := mkUpdateAdminTask { ThreadKey : Z; ContactID : Z; IsAdmin : Z }.
#[global] Instance UpdateAdminTask_json : ToJSON UpdateAdminTask := fun t => struct
  [field "thread_key" (ThreadKey t); field "contact_id" (ContactID t);
   field "is_admin" (IsAdmin t)].
#[global] Instance UpdateAdminTask_task : Task UpdateAdminTask := {
  GetLabel := fun _ => label "UpdateAdminTask";
  Create := fun _ t =>
    (t, Some (Str "admin_status"), false) }.
End UpdateAdminTask.

Module RemoveParticipantTask.
Record RemoveParticipantTask := mkRemoveParticipantTask { ThreadID : Z; ContactID : Z }.
#[global] Instance RemoveParticipantTask_json : ToJSON RemoveParticipantTask := fun t => struct
  [field "thread_id" (ThreadID t); field "contact_id" (ContactID t)].
#[global] Instance RemoveParticipantTask_task : Task RemoveParticipantTask := {
  GetLabel := fun _ => label "RemoveParticipantTask";
  Create := fun _ t =>
    (t, Some (Str "remove_participant_v2"), false) }.
End RemoveParticipantTask.

Module AddParticipantsTask.
Record AddParticipantsTask := mkAddParticipantsTask { ThreadKey : Z;
  ContactIDs : option (list Z); SyncGroup : Z }.
#[global] Instance AddParticipantsTask_json : ToJSON AddParticipantsTask := fun t => struct
  [field "thread_key" (ThreadKey t); field "contact_ids" (ContactIDs t);
   field "sync_group" (SyncGroup t)].
#[global] Instance AddParticipantsTask_task : Task AddParticipantsTask := {
  GetLabel := fun _ => label "AddParticipantsTask";
  Create := fun _ t =>
    (t, Some (Str (FormatInt 10 (ThreadKey t))), false) }.
End AddParticipantsTask.

Module CreateThreadTask.
Record CreateThreadTask := mkCreateThreadTask { ThreadFBID : Z; ForceUpsert : Z;
  UseOpenMessengerTransport : Z; SyncGroup : Z; MetadataOnly : Z; PreviewOnly : Z }.
#[global] Instance CreateThreadTask_json : ToJSON CreateThreadTask := fun t => struct
  [field "thread_fbid" (ThreadFBID t); field "force_upsert" (ForceUpsert t);
   field "use_open_messenger_transport" (UseOpenMessengerTransport t);
   field "sync_group" (SyncGroup t); field "metadata_only" (MetadataOnly t);
   field "preview_only" (PreviewOnly t)].
#[global] Instance CreateThreadTask_task : Task CreateThreadTask := {
  GetLabel := fun _ => label "CreateThreadTask";
  Create := fun _ t =>
    (t, Some (Str (FormatInt 10 (ThreadFBID t))), false) }.
End CreateThreadTask.

Module CreateGroupPayload.
Record CreateGroupPayload := mkCreateGroupPayload { ThreadID : Z; OTID : string; Source : Z;
  SendType : Z }.
#[global] Instance CreateGroupPayload_json : ToJSON CreateGroupPayload := fun t => struct
  [field "thread_id" (ThreadID t); field "otid" (OTID t); field "source" (Source t);
   field "send_type" (SendType t)].
End CreateGroupPayload.

Module CreateGroupTask.
Record CreateGroupTask := mkCreateGroupTask { Participants : option (list Z);
  SendPayload : CreateGroupPayload.CreateGroupPayload }.
#[global] Instance CreateGroupTask_json : ToJSON CreateGroupTask := fun t => struct
  [field "participants" (Participants t); field "send_payload" (SendPayload t)].
#[global] Instance CreateGroupTask_task : Task CreateGroupTask := {
  GetLabel := fun _ => label "CreateGroupTask";
  Create := fun _ t =>
    (t, Some (Str (FormatInt 10 (CreateGroupPayload.ThreadID (SendPayload t)))), false) }.
End CreateGroupTask.

Module DeleteThreadTask.
Record DeleteThreadTask := mkDeleteThreadTask { ThreadKey : Z; RemoveType : Z; SyncGroup : Z }.
#[global] Instance DeleteThreadTask_json : ToJSON DeleteThreadTask := fun t => struct
  [field "thread_key" (ThreadKey t); field "remove_type" (RemoveType t);
   field "sync_group" (SyncGroup t)].
#[global] Instance DeleteThreadTask_task : Task DeleteThreadTask := {
  GetLabel := fun _ => label "DeleteThreadTask";
  Create := fun _ t =>
    (t, Some (Str (FormatInt 10 (ThreadKey t))), false) }.
End DeleteThreadTask.

Module CreateWhatsAppThreadTask.
Record CreateWhatsAppThreadTask := mkCreateWhatsAppThreadTask { WAJID : Z; OfflineThreadKey : Z;
  ThreadType : Z; FolderType : Z; BumpTimestampMS : Z; TAMThreadSubtype : Z }.
#[global] Instance CreateWhatsAppThreadTask_json : ToJSON CreateWhatsAppThreadTask := fun t => struct
  [field "wa_jid" (WAJID t); field "offline_thread_key" (OfflineThreadKey t);
   field "thread_type" (ThreadType t); field "folder_type" (FolderType t);
   field "bump_timestamp_ms" (BumpTimestampMS t); field "tam_thread_subtype" (TAMThreadSubtype t)].
#[global] Instance CreateWhatsAppThreadTask_task : Task CreateWhatsAppThreadTask := {
  GetLabel := fun _ => label "CreateWhatsAppThreadTask";
  Create := fun _ t =>
    (t, Some (Str (FormatInt 10 (OfflineThreadKey t))), false) }.
End CreateWhatsAppThreadTask.

Module FetchCommunityMemberList.
Record FetchCommunityMemberList := mkFetchCommunityMemberList { CommunityID : Z;
  Roles : option (list Z); FetchAdminsOnly : Z; Cursor : string; Source : Z; ThreadKey : Z;
  SearchText : option string; ThreadRoles : option (list Z); GroupThreadID : option Z;
  RequestID : Z }.
#[global] Instance FetchCommunityMemberList_json : ToJSON FetchCommunityMemberList := fun t => struct
  [field "community_id" (CommunityID t); field "roles" (Roles t);
   field "fetch_admins_only" (FetchAdminsOnly t); field "cursor" (Cursor t);
   field "source" (Source t); field "thread_key" (ThreadKey t);
   field "search_text" (SearchText t); field "thread_roles" (ThreadRoles t);
   field "group_thread_id" (GroupThreadID t); field "request_id" (RequestID t)].
#[global] Instance FetchCommunityMemberList_task : Task FetchCommunityMemberList := {
  GetLabel := fun _ => label "FetchCommunityMemberList";
  Create := fun _ t =>
    (t, Some (Str "fetch_community_member_list"), false) }.
End FetchCommunityMemberList.

Module FetchAdditionalThreadData.
Record FetchAdditionalThreadData := mkFetchAdditionalThreadData { ThreadKey : Z }.
#[global] Instance FetchAdditionalThreadData_json : ToJSON FetchAdditionalThreadData := fun t => struct
  [field "thread_key" (ThreadKey t)].
#[global] Instance FetchAdditionalThreadData_task : Task FetchAdditionalThreadData := {
  GetLabel := fun _ => label "FetchAdditionalThreadData";
  Create := fun _ t =>
    (t, Some (Str ("fetch_additional_thread_data_" ++ FormatInt 10 (ThreadKey t))), false) }.
End FetchAdditionalThreadData.

Module CreateCommunitySubThread.
Record CreateCommunitySubThread := mkCreateCommunitySubThread { ClientMutationID : Z;
  CommunityID : Z; ParentMessageID : string; ParentThreadID : Z }.
#[global] Instance CreateCommunitySubThread_json : ToJSON CreateCommunitySubThread := fun t => struct
  [field "client_mutation_id" (ClientMutationID t); field "community_id" (CommunityID t);
   field "parent_message_id" (ParentMessageID t); field "parent_thread_id" (ParentThreadID t)].
#[global] Instance CreateCommunitySubThread_task : Task CreateCommunitySubThread := {
  GetLabel := fun _ => label "CreateCommunitySubThread";
  Create := fun _ t =>
    (t, Some (Str ("create_community_sub_thread_" ++ FormatInt 10 (ParentThreadID t))), false) }.
End CreateCommunitySubThread.

Module DeleteCommunitySubThread.
Record DeleteCommunitySubThread := mkDeleteCommunitySubThread { ThreadKey : Z; ActorID : Z;
  SyncGroup : Z }.
#[global] Instance DeleteCommunitySubThread_json : ToJSON DeleteCommunitySubThread := fun t => struct
  [field "thread_key" (ThreadKey t); field "actor_id" (ActorID t);
   field "sync_group" (SyncGroup t)].
#[global] Instance DeleteCommunitySubThread_task : Task DeleteCommunitySubThread := {
  GetLabel := fun _ => label "DeleteCommunitySubThread";
  Create := fun _ t =>
    (t, Some (Str (FormatInt 10 (ThreadKey t))), false) }.
End DeleteCommunitySubThread.

Module CommunityThreadHoleDetection.
Record CommunityThreadHoleDetection := mkCommunityThreadHoleDetection { ThreadID : Z;
  PreviousTQSeqID : Z; CurrentTQSeqID : Z; DeltaType : Z }.
#[global] Instance CommunityThreadHoleDetection_json : ToJSON CommunityThreadHoleDetection := fun t => struct
  [field "thread_id" (ThreadID t); field "previous_tq_seq_id" (PreviousTQSeqID t);
   field "current_tq_seq_id" (CurrentTQSeqID t); field "delta_type" (DeltaType t)].
#[global] Instance CommunityThreadHoleDetection_task : Task CommunityThreadHoleDetection := {
  GetLabel := fun _ => label "CommunityThreadHoleDetection";
  Create := fun _ t =>
    (t, Some (Str ("cm_thread_hole_detection" ++ FormatInt 10 (ThreadID t))), false) }.
End CommunityThreadHoleDetection.

(** *** [socket/messages.go] *)

Module SendReactionTask.
Record SendReactionTask := mkSendReactionTask { ThreadKey : Z; TimestampMs : Z;
  MessageID : string; ActorID : Z; Reaction : string; ReactionStyle : option value;
  SyncGroup : Z; SendAttribution : Z }.
#[global] Instance SendReactionTask_json : ToJSON SendReactionTask := fun t => struct
  [omitempty "thread_key" (ThreadKey t); field "timestamp_ms" (TimestampMs t);
   field "message_id" (MessageID t); field "actor_id" (ActorID t); field "reaction" (Reaction t);
   field "reaction_style" (ReactionStyle t); field "sync_group" (SyncGroup t);
   field "send_attribution" (SendAttribution t)].
(** The timestamp and sync group of the caller are overwritten. *)
Definition SendReactionTask_stamped (now : Z) (t : SendReactionTask) : SendReactionTask :=
  mkSendReactionTask (ThreadKey t) now (MessageID t) (ActorID t) (Reaction t) (ReactionStyle t) 1 (SendAttribution t).
#[global] Instance SendReactionTask_task : Task SendReactionTask := {
  GetLabel := fun _ => label "SendReactionTask";
  Create := fun now t =>
    (SendReactionTask_stamped now t, Some (Arr [Str "reaction"; Str (MessageID t)]), true) }.
End SendReactionTask.

Module DeleteMessageTask.
Record DeleteMessageTask := mkDeleteMessageTask { MessageId : string }.
#[global] Instance DeleteMessageTask_json : ToJSON DeleteMessageTask := fun t => struct
  [field "message_id" (MessageId t)].
#[global] Instance DeleteMessageTask_task : Task DeleteMessageTask := {
  GetLabel := fun _ => label "DeleteMessageTask";
  Create := fun _ t =>
    (t, Some (Str "unsend_message"), false) }.
End DeleteMessageTask.

Module DeleteMessageMeOnlyTask.
Record DeleteMessageMeOnlyTask := mkDeleteMessageMeOnlyTask { ThreadKey : Z; MessageId : string }.
#[global] Instance DeleteMessageMeOnlyTask_json : ToJSON DeleteMessageMeOnlyTask := fun t => struct
  [omitempty "thread_key" (ThreadKey t); field "message_id" (MessageId t)].
#[global] Instance DeleteMessageMeOnlyTask_task : Task DeleteMessageMeOnlyTask := {
  GetLabel := fun _ => label "DeleteMessageMeOnlyTask";
  Create := fun _ t =>
    (t, Some (Str "155"), false) }.
End DeleteMessageMeOnlyTask.

Module FetchReactionsV2UserList.
Record FetchReactionsV2UserList := mkFetchReactionsV2UserList { ThreadID : Z; MessageID : string;
  ReactionFBID : option Z; Cursor : option string; SyncGroup : Z }.
#[global] Instance FetchReactionsV2UserList_json : ToJSON FetchReactionsV2UserList := fun t => struct
  [field "thread_id" (ThreadID t); field "message_id" (MessageID t);
   field "reaction_fbid" (ReactionFBID t); field "cursor" (Cursor t);
   field "sync_group" (SyncGroup t)].
#[global] Instance FetchReactionsV2UserList_task : Task FetchReactionsV2UserList := {
  GetLabel := fun _ => label "FetchReactionsV2UserList";
  Create := fun _ t =>
    (t, Some (Str "fetch_reactions_v2_details_users_list"), false) }.
End FetchReactionsV2UserList.

Module SendReactionV2Task.
Record SendReactionV2Task := mkSendReactionV2Task { ThreadID : Z; MessageID : string;
  MessageTimestamp : Z; ActorID : Z; ReactionFBID : Z; ReactionStyle : Z; CurrentCount : Z;
  ViewerIsReactor : Z; Operation : Z; ReactionLiteral : string; EntryPoint : option value;
  SyncGroup : Z }.
#[global] Instance SendReactionV2Task_json : ToJSON SendReactionV2Task := fun t => struct
  [field "thread_id" (ThreadID t); field "message_id" (MessageID t);
   field "message_timestamp" (MessageTimestamp t); field "actor_id" (ActorID t);
   field "reaction_fbid" (ReactionFBID t); field "reaction_style" (ReactionStyle t);
   field "current_count" (CurrentCount t); field "viewer_is_reactor" (ViewerIsReactor t);
   field "operation" (Operation t); field "reaction_literal" (ReactionLiteral t);
   field "entry_point" (EntryPoint t); field "sync_group" (SyncGroup t)].
#[global] Instance SendReactionV2Task_task : Task SendReactionV2Task := {
  GetLabel := fun _ => label "SendReactionV2";
  Create := fun _ t =>
    (t, Some (Arr [Str "reaction_v2"; Str (MessageID t)]), true) }.
End SendReactionV2Task.

(** *** [socket/contacts.go] *)

Module GetContactsTask.
Record GetContactsTask := mkGetContactsTask { Limit : Z }.
#[global] Instance GetContactsTask_json : ToJSON GetContactsTask := fun t => struct
  [omitempty "limit" (Limit t)].
#[global] Instance GetContactsTask_task : Task GetContactsTask := {
  GetLabel := fun _ => label "GetContactsTask";
  Create := fun now t =>
    (t, Some (Arr [Str "search_contacts"; Str (FormatInt 10 now)]), false) }.
End GetContactsTask.

Module GetContactsFullTask.
Record GetContactsFullTask := mkGetContactsFullTask { ContactID : Z }.
#[global] Instance GetContactsFullTask_json : ToJSON GetContactsFullTask := fun t => struct
  [field "contact_id" (ContactID t)].
#[global] Instance GetContactsFullTask_task : Task GetContactsFullTask := {
  GetLabel := fun _ => label "GetContactsFullTask";
  Create := fun _ t =>
    (t, Some (Str "cpq_v2"), false) }.
End GetContactsFullTask.

Module SearchUserTask.
Record SearchUserTask := mkSearchUserTask { Query : string; SupportedTypes : option (list Z);
  SessionID : option value; SurfaceType : Z; SelectedParticipants : option (list Z);
  GroupID : option Z; CommunityID : option Z; QueryID : option Z; Secondary : bool }.
#[global] Instance SearchUserTask_json : ToJSON SearchUserTask := fun t => struct
  [field "query" (Query t); field "supported_types" (SupportedTypes t);
   field "session_id" (SessionID t); field "surface_type" (SurfaceType t);
   field "selected_participants" (SelectedParticipants t); field "group_id" (GroupID t);
   field "community_id" (CommunityID t); field "query_id" (QueryID t)].
#[global] Instance SearchUserTask_task : Task SearchUserTask := {
  GetLabel := fun t => if Secondary t then label "SearchUserSecondaryTask" else label "SearchUserTask";
  Create := fun now t =>
    if Secondary t then (t, Some (Str "search_secondary"), false)
    else (t, Some (Arr [Str "search_primary"; Num now]), true) }.
End SearchUserTask.

(** *** [socket/presence.go] *)

Module UpdatePresenceTask.
Record UpdatePresenceTask := mkUpdatePresenceTask { ThreadKey : Z; IsGroupThread : Z;
  IsTyping : Z; Attribution : Z; SyncGroup : Z; ThreadType : Z }.
#[global] Instance UpdatePresenceTask_json : ToJSON UpdatePresenceTask := fun t => struct
  [omitempty "thread_key" (ThreadKey t); field "is_group_thread" (IsGroupThread t);
   field "is_typing" (IsTyping t); field "attribution" (Attribution t);
   field "sync_group" (SyncGroup t); field "thread_type" (ThreadType t)].
#[global] Instance UpdatePresenceTask_task : Task UpdatePresenceTask := {
  GetLabel := fun _ => label "UpdatePresence";
  Create := fun _ t =>
    (t, None, false) }.
End UpdatePresenceTask.

(** *** [socket/database.go] *)

Module FetchThreadsTask.
Record FetchThreadsTask := mkFetchThreadsTask { IsAfter : Z; ParentThreadKey : Z;
  ReferenceThreadKey : Z; ReferenceActivityTimestamp : Z; AdditionalPagesToFetch : Z;
  Cursor : option string; MessagingTag : option value; SyncGroup : Z }.
#[global] Instance FetchThreadsTask_json : ToJSON FetchThreadsTask := fun t => struct
  [field "is_after" (IsAfter t); field "parent_thread_key" (ParentThreadKey t);
   field "reference_thread_key" (ReferenceThreadKey t);
   field "reference_activity_timestamp" (ReferenceActivityTimestamp t);
   field "additional_pages_to_fetch" (AdditionalPagesToFetch t); field "cursor" (Cursor t);
   field "messaging_tag" (MessagingTag t); field "sync_group" (SyncGroup t)].
#[global] Instance FetchThreadsTask_task : Task FetchThreadsTask := {
  GetLabel := fun _ => label "FetchThreadsTask";
  Create := fun _ t =>
    (t, Some (Str "trq"), false) }.
End FetchThreadsTask.

(** *** [socket/user.go] *)

Module ReportAppStateTask.
Record ReportAppStateTask := mkReportAppStateTask { AppState : Z; RequestID : string }.
#[global] Instance ReportAppStateTask_json : ToJSON ReportAppStateTask := fun t => struct
  [field "app_state" (AppState t); field "request_id" (RequestID t)].
#[global] Instance ReportAppStateTask_task : Task ReportAppStateTask := {
  GetLabel := fun _ => label "ReportAppStateTask";
  Create := fun _ t =>
    (t, Some (Str "ls_presence_report_app_state"), false) }.
End ReportAppStateTask.

(** ** The tasks of the program *)

Inductive IsTask : forall T, Task T -> Prop :=
| is_SendMessageTask : IsTask _ SendMessageTask.SendMessageTask_task
| is_CreatePollTask : IsTask _ CreatePollTask.CreatePollTask_task
| is_UpdatePollTask : IsTask _ UpdatePollTask.UpdatePollTask_task
| is_ThreadMarkReadTask : IsTask _ ThreadMarkReadTask.ThreadMarkReadTask_task
| is_FetchMessagesTask : IsTask _ FetchMessagesTask.FetchMessagesTask_task
| is_MuteThreadTask : IsTask _ MuteThreadTask.MuteThreadTask_task
| is_RenameThreadTask : IsTask _ RenameThreadTask.RenameThreadTask_task
| is_SetThreadImageTask : IsTask _ SetThreadImageTask.SetThreadImageTask_task
| is_EditMessageTask : IsTask _ EditMessageTask.EditMessageTask_task
| is_UpdateAdminTask : IsTask _ UpdateAdminTask.UpdateAdminTask_task
| is_RemoveParticipantTask : IsTask _ RemoveParticipantTask.RemoveParticipantTask_task
| is_AddParticipantsTask : IsTask _ AddParticipantsTask.AddParticipantsTask_task
| is_CreateThreadTask : IsTask _ CreateThreadTask.CreateThreadTask_task
| is_CreateGroupTask : IsTask _ CreateGroupTask.CreateGroupTask_task
| is_DeleteThreadTask : IsTask _ DeleteThreadTask.DeleteThreadTask_task
| is_CreateWhatsAppThreadTask : IsTask _ CreateWhatsAppThreadTask.CreateWhatsAppThreadTask_task
| is_FetchCommunityMemberList : IsTask _ FetchCommunityMemberList.FetchCommunityMemberList_task
| is_FetchAdditionalThreadData : IsTask _ FetchAdditionalThreadData.FetchAdditionalThreadData_task
| is_CreateCommunitySubThread : IsTask _ CreateCommunitySubThread.CreateCommunitySubThread_task
| is_DeleteCommunitySubThread : IsTask _ DeleteCommunitySubThread.DeleteCommunitySubThread_task
| is_CommunityThreadHoleDetection : IsTask _ CommunityThreadHoleDetection.CommunityThreadHoleDetection_task
| is_SendReactionTask : IsTask _ SendReactionTask.SendReactionTask_task
| is_DeleteMessageTask : IsTask _ DeleteMessageTask.DeleteMessageTask_task
| is_DeleteMessageMeOnlyTask : IsTask _ DeleteMessageMeOnlyTask.DeleteMessageMeOnlyTask_task
| is_FetchReactionsV2UserList : IsTask _ FetchReactionsV2UserList.FetchReactionsV2UserList_task
| is_SendReactionV2Task : IsTask _ SendReactionV2Task.SendReactionV2Task_task
| is_GetContactsTask : IsTask _ GetContactsTask.GetContactsTask_task
| is_GetContactsFullTask : IsTask _ GetContactsFullTask.GetContactsFullTask_task
| is_SearchUserTask : IsTask _ SearchUserTask.SearchUserTask_task
| is_UpdatePresenceTask : IsTask _ UpdatePresenceTask.UpdatePresenceTask_task
| is_FetchThreadsTask : IsTask _ FetchThreadsTask.FetchThreadsTask_task
| is_ReportAppStateTask : IsTask _ ReportAppStateTask.ReportAppStateTask_task.

(** Every task has a label, which tells its type: two tasks with the same label are of the
    same type.  Only a presence update has no queue. *)
Theorem task_labels T (H : Task T) T' (H' : Task T') (Ht : IsTask T H) (Ht' : IsTask T' H')
    (t : T) (t' : T') (now : Z) :
  GetLabel t <> ""%string /\ (GetLabel t = GetLabel t' -> T = T') /\
  ((Create now t).1.2 = None <-> GetLabel t = "3"%string).
Proof.
  split_and!.
  - destruct Ht; cbn; try done. by destruct (SearchUserTask.Secondary t).
  - destruct Ht, Ht'; try done; cbn;
      repeat match goal with |- context [SearchUserTask.Secondary ?x] => destruct (SearchUserTask.Secondary x) end;
      intros E; discriminate E.
  - destruct Ht; cbn; try (by split); destruct (SearchUserTask.Secondary t); by split.
Qed.

Lemma task_labels_witness :
  let t := DeleteMessageTask.mkDeleteMessageTask "mid.x" in
  GetLabel t <> ""%string /\
  (GetLabel t = GetLabel t -> DeleteMessageTask.DeleteMessageTask = DeleteMessageTask.DeleteMessageTask) /\
  ((Create 0 t).1.2 = None <-> GetLabel t = "3"%string).
Proof. apply (task_labels _ _ _ _ is_DeleteMessageTask is_DeleteMessageTask). Defined.
