(* ===== verification/Events.v ===== *)
(** * Events: the table of a publish response ([events.go])

    [Event_PublishResponse.Finish] parses the LightSpeed payload of a response and runs the
    decoder on it.  The JSON parser for the payload is a parameter: it fails, or gives the
    program of the [LightSpeedData] it made, [None] when it left the pointer nil (the document
    [null]). *)

From S2P Require Import Prelude Lightspeed TableKinds TableThreads TableMessages Tables WrapMessages.
From Stdlib Require Import SpecFloat.
#[local] Open Scope Z_scope.

Record PublishResponseData := mkPublishResponseData {
  RequestID : Z;
  Payload : string;
  Sp : list string;
  Target : Z
}.

Abbreviation tables := (gmap string (list Inst)).

Section Finish.
Context (unmarshal : string -> res (option json)).
Context (now : nat -> Z) (slack : nat -> nat) (fmt_float : spec_float -> string).

(** The table [Finish] leaves in the event: empty when the payload does not parse; a nil
    [lsData] is dereferenced. *)
Definition Finish (d : PublishResponseData) : res tables :=
  match unmarshal (Payload d) with
  | Err _ => Ok ∅
  | Halt h => Halt h
  | Ok None => Panic
  | Ok (Some steps) =>
      '(_, s) ← Decode (SPToDepMap (Sp d)) LSTable now slack fmt_float (jsize steps) steps
                  (NewLightSpeedDecoder ∅);
      Ok (table s)
  end.
End Finish.

(** [methods.NeedUpdateSyncGroups]. *)
Definition NeedUpdateSyncGroups (t : tables) : bool :=
  (0 <? llen (rows t "LSExecuteFirstBlockForSyncTransaction")) ||
  (0 <? llen (rows t "LSUpsertSyncGroupThreadsRange")).

(** ** Properties *)

(** Finishing a response returns a table or the process goes down, it neither fails nor
    loops; the table is typed: every row has the row type of its field. *)
Theorem finish_gives_typed_table unmarshal now slack fmt_float d
    (Hu : is_halt (unmarshal (Payload d)) = false) :
  match Finish unmarshal now slack fmt_float d with
  | Ok t => table_ok LSTable t
  | Err _ => False
  | Halt h => h <> HDiverge
  end.
Proof.
  unfold Finish. destruct (unmarshal (Payload d)) as [[steps|]| |]; [|done| |done].
  - pose proof (Decode_runs (SPToDepMap (Sp d)) LSTable now slack fmt_float (jsize steps) steps
      (le_n _) (NewLightSpeedDecoder ∅)) as H.
    destruct (Decode _ _ _ _ _ _ _ _) as [[v s]| |]; [|done..]. cbn [mbind res_bind].
    remember (NewLightSpeedDecoder ∅) as s0 eqn:E0.
    assert (table_ok LSTable (table s0)) as H0.
    { subst s0. intros f rows. cbn. by rewrite lookup_empty. }
    clear E0. induction H; eauto using prim_table_ok.
  - intros f rows. by rewrite lookup_empty.
Qed.

(** A parser that knows one document. *)
Definition sample_unmarshal (s : string) : res (option json) :=
  if (s =? "null")%string then Ok None
  else if (s =? "call")%string then Ok (Some (JArr [num 5; JStr "upsertFolder"; JArr [num 19; JStr "42"]]))
  else Err "invalid character".

Lemma finish_gives_typed_table_witness :
  match Finish sample_unmarshal (fun _ => 0) (fun n => n) (fun _ => ""%string)
          (mkPublishResponseData 0 "call" ["upsertFolder"] 0) with
  | Ok t => table_ok LSTable t
  | Err _ => False
  | Halt h => h <> HDiverge
  end.
Proof. apply finish_gives_typed_table. reflexivity. Defined.

(** A response whose payload is the document [null] brings the process down: the decoded
    pointer is nil and is dereferenced without a check. *)
Theorem finish_null_payload_panics unmarshal now slack fmt_float d
    (Hnull : unmarshal "null"%string = Ok None) (Hd : Payload d = "null"%string) :
  Finish unmarshal now slack fmt_float d = Panic.
Proof. unfold Finish. by rewrite Hd, Hnull. Qed.

Lemma finish_null_payload_panics_witness :
  Finish sample_unmarshal (fun _ => 0) (fun n => n) (fun _ => ""%string)
    (mkPublishResponseData 0 "null" [] 0) = Panic.
Proof. by apply finish_null_payload_panics. Defined.
