(* ===== verification/SyncManager.v ===== *)
(** * SyncManager: cursors and thread ranges of the synced databases ([syncManager.go])

    The store maps database ids to pointers: the [QueryMetadata] a sync works on is the very
    object that the transactions of a response update.  Requests go to a server, a parameter
    that answers the [n]-th request; the decoder of Events makes tables of its answers. *)

From S2P Require Import Prelude Strconv Lightspeed TableKinds TableThreads TableMessages.
From S2P Require Import Tables WrapMessages MessageID Events.
From Stdlib Require Import Ascii SpecFloat.
#[local] Open Scope Z_scope.

(** ** Data *)

Definition MailBox : Z := 1.
Definition Contact : Z := 2.

Record QueryMetadata := mkQueryMetadata {
  DatabaseId : Z;
  SendSyncParams : bool;
  LastAppliedCursor : option string;
  SyncChannel : Z
}.

Record KeyStoreData := mkKeyStoreData {
  ParentThreadKey : Z;
  MinLastActivityTimestampMs : Z;
  HasMoreBefore : bool;
  MinThreadKey : Z
}.

Record LSPlatformMessengerSyncParams := mkSyncParams { p_Mailbox : string; p_Contact : string; p_E2Ee : string }.

(** A query as it goes over the wire; the fields the code never sets are left out. *)
Record DatabaseQuery := mkDatabaseQuery {
  q_Database : Z;
  q_LastAppliedCursor : option string;
  q_SyncParams : option string;
  q_EpochId : Z;
  q_Version : string
}.

(** [objs] is the heap of [QueryMetadata]; [sent] and [events] are the requests made and the
    responses handed to the event handler, newest last. *)
Record SM := mkSM {
  objs : gmap nat QueryMetadata;
  store : gmap Z nat;
  keyStore : gmap Z KeyStoreData;
  syncParams : LSPlatformMessengerSyncParams;
  epoch : EpochState;
  sent : list (DatabaseQuery * Z);
  events : list tables
}.

Definition set_obj (p : nat) (m : QueryMetadata) (s : SM) : SM :=
  mkSM (<[p := m]> (objs s)) (store s) (keyStore s) (syncParams s) (epoch s) (sent s) (events s).
Definition set_key (k : Z) (d : KeyStoreData) (s : SM) : SM :=
  mkSM (objs s) (store s) (<[k := d]> (keyStore s)) (syncParams s) (epoch s) (sent s) (events s).
Definition set_epoch (e : EpochState) (s : SM) : SM :=
  mkSM (objs s) (store s) (keyStore s) (syncParams s) e (sent s) (events s).
Definition add_sent (q : DatabaseQuery * Z) (s : SM) : SM :=
  mkSM (objs s) (store s) (keyStore s) (syncParams s) (epoch s) (sent s ++ [q]) (events s).
Definition add_event (t : tables) (s : SM) : SM :=
  mkSM (objs s) (store s) (keyStore s) (syncParams s) (epoch s) (sent s) (events s ++ [t]).

(** ** newSyncManager *)

Definition initial_store : list (Z * (bool * Z)) :=
  [(1, (false, MailBox)); (2, (true, Contact)); (5, (true, 0)); (6, (true, 0)); (7, (true, 0));
   (16, (true, 0)); (26, (true, 0)); (28, (true, 0)); (89, (true, 0)); (95, (false, Contact));
   (104, (true, 0)); (120, (true, 0)); (140, (true, 0)); (141, (true, 0)); (142, (true, 0));
   (143, (true, 0)); (145, (true, 0)); (196, (true, 0)); (197, (true, 0)); (198, (true, 0));
   (202, (true, 0))].

Definition initial_key : KeyStoreData := mkKeyStoreData (-1) 9999999999999 false 0.

(** One object per entry, at the position of the entry. *)
Fixpoint new_store (n : nat) (l : list (Z * (bool * Z))) : gmap nat QueryMetadata * gmap Z nat :=
  match l with
  | [] => (∅, ∅)
  | (db, (b, ch)) :: l =>
      let '(os, st) := new_store (S n) l in
      (<[n := mkQueryMetadata 0 b None ch]> os, <[db := n]> st)
  end.

Definition newSyncManager : SM :=
  let '(os, st) := new_store 0 initial_store in
  mkSM os st (<[1 := initial_key]> (<[95 := initial_key]> ∅)) (mkSyncParams "" "" "")
    (mkEpochState 0 0) [] [].

Definition shouldRecurseDatabase (db : Z) : bool :=
  (db =? 1) || (db =? 2) || (db =? 95) || (db =? 104).

(** ** Small operations *)

Definition lookup_db (s : SM) (db : Z) : option (nat * QueryMetadata) :=
  match store s !! db with
  | Some p => match objs s !! p with Some m => Some (p, m) | None => None end
  | None => None
  end.

Definition quote : string := String (ascii_of_nat 34) "".
Definition dbID7Params : string := "{" ++ quote ++ "mnet_rank_types" ++ quote ++ ":[44]}".

Definition getSyncParams (s : SM) (dbID ch : Z) : string :=
  if dbID =? 7 then dbID7Params
  else if ch =? MailBox then p_Mailbox (syncParams s)
  else if ch =? Contact then p_Contact (syncParams s)
  else p_E2Ee (syncParams s).

Definition GetCursor (s : SM) (db : Z) : string :=
  match lookup_db s db with
  | Some (_, m) => default "" (LastAppliedCursor m)
  | None => ""
  end.

Definition getSyncGroupKeyStore (s : SM) (db : Z) : option KeyStoreData := keyStore s !! db.

(** [UpdateDatabaseSyncParams]: stops at the first unknown database. *)
Fixpoint UpdateDatabaseSyncParams (s : SM) (dbs : list QueryMetadata) : SM * option string :=
  match dbs with
  | [] => (s, None)
  | db :: dbs =>
      match lookup_db s (DatabaseId db) with
      | None => (s, Some "failed to update sync params for database")
      | Some (p, m) =>
          UpdateDatabaseSyncParams
            (set_obj p (mkQueryMetadata (DatabaseId m) (SendSyncParams db) (LastAppliedCursor m)
                          (SyncChannel db)) s) dbs
      end
  end.

(** ** Transactions *)

Definition tx_db := row_int LSExecuteFirstBlockForSyncTransaction "DatabaseID".
Definition tx_next := row_str LSExecuteFirstBlockForSyncTransaction "NextCursor".
Definition tx_current := row_str LSExecuteFirstBlockForSyncTransaction "CurrentCursor".
Definition tx_params := row_bool LSExecuteFirstBlockForSyncTransaction "SendSyncParams".
Definition tx_channel := row_int LSExecuteFirstBlockForSyncTransaction "SyncChannel".

(** The three assignments a transaction makes to a database object. *)
Definition apply_tx (tx : Inst) (m : QueryMetadata) : QueryMetadata :=
  mkQueryMetadata (DatabaseId m) (tx_params tx) (Some (tx_next tx)) (tx_channel tx).

Fixpoint SyncTransactions (s : SM) (transactions : list Inst) : SM * option string :=
  match transactions with
  | [] => (s, None)
  | tx :: txs =>
      match lookup_db s (tx_db tx) with
      | None => (s, Some "failed to update database by block transaction")
      | Some (p, m) => SyncTransactions (set_obj p (apply_tx tx m) s) txs
      end
  end.

(** ** Thread ranges *)

Definition rg_group := row_int LSUpsertSyncGroupThreadsRange "SyncGroup".
Definition rg_more := row_bool LSUpsertSyncGroupThreadsRange "HasMoreBefore".
Definition rg_data (r : Inst) : KeyStoreData :=
  mkKeyStoreData (row_int LSUpsertSyncGroupThreadsRange "ParentThreadKey" r)
    (row_int LSUpsertSyncGroupThreadsRange "MinLastActivityTimestampMS" r)
    (rg_more r) (row_int LSUpsertSyncGroupThreadsRange "MinThreadKey" r).

(** The loop of [updateThreadRanges]: a range without more threads before it is skipped, an
    unknown group makes an error but does not stop the loop. *)
Fixpoint updateThreadRanges_from (err : option string) (s : SM) (ranges : list Inst)
    : SM * option string :=
  match ranges with
  | [] => (s, err)
  | r :: rs =>
      if negb (rg_more r) then updateThreadRanges_from err s rs
      else match keyStore s !! rg_group r with
           | None => updateThreadRanges_from (Some "could not find keyStore by database ID"%string) s rs
           | Some _ => updateThreadRanges_from err (set_key (rg_group r) (rg_data r) s) rs
           end
  end.

Definition updateThreadRanges (s : SM) (ranges : list Inst) : SM * option string :=
  updateThreadRanges_from None s ranges.

(** The error of the second half replaces that of the first. *)
Definition updateSyncGroupCursors (s : SM) (t : tables) : SM * option string :=
  let '(s, err) := match rows t "LSUpsertSyncGroupThreadsRange" with
                   | [] => (s, None)
                   | rs => updateThreadRanges s rs
                   end in
  match rows t "LSExecuteFirstBlockForSyncTransaction" with
  | [] => (s, err)
  | txs => SyncTransactions s txs
  end.

(** ** Syncing a database over the socket *)

Section Sync.
Context (VersionID : Z) (clock : nat -> Z).
(** [makeLSRequest]: the answer to a request of the given type, by its number. *)
Context (server : nat -> DatabaseQuery -> Z -> res PublishResponseData).
Context (finish : PublishResponseData -> res tables).

(** The request of one round: type 1 with sync params, type 2 with the cursor. *)
Definition sync_query (s : SM) (databaseID : Z) (db : QueryMetadata) (epoch_id : Z)
    : DatabaseQuery * Z :=
  if SendSyncParams db
  then (mkDatabaseQuery databaseID None (Some (getSyncParams s databaseID (SyncChannel db)))
          epoch_id (FormatInt 10 VersionID), 1)
  else (mkDatabaseQuery databaseID (LastAppliedCursor db) None epoch_id (FormatInt 10 VersionID), 2).

(** When a response ends the recursion. *)
Definition stops (databaseID : Z) (prevCursor : string) (block : Inst) : bool :=
  (tx_next block =? tx_current block)%string || (tx_next block =? prevCursor)%string ||
  (tx_next block =? "dummy_cursor")%string || (tx_next block =? "")%string ||
  negb (shouldRecurseDatabase databaseID).

(** [SyncSocketData], [p] being the pointer [db]. *)
Fixpoint SyncSocketData (fuel : nat) (s : SM) (databaseID : Z) (p : nat) : res (SM * option string) :=
  match fuel with
  | O => Diverge
  | S fuel =>
      match objs s !! p with
      | None => Panic
      | Some db =>
          let '(epoch_id, ep) := GenerateEpochID (epoch s) (clock (length (sent s))) in
          let prevCursor := default "" (LastAppliedCursor db) in
          let '(q, t) := sync_query s databaseID db epoch_id in
          let n := length (sent s) in
          let s1 := add_sent (q, t) (set_epoch ep s) in
          match server n q t with
          | Err e => Ok (s1, Some e)
          | Halt h => Halt h
          | Ok d =>
              tbl ← finish d;
              match rows tbl "LSExecuteFirstBlockForSyncTransaction" with
              | [] => Ok (s1, None)
              | block :: _ =>
                  let s2 := add_event tbl s1 in
                  if stops databaseID prevCursor block then Ok (s2, None)
                  else
                    let '(s3, err) := updateSyncGroupCursors (set_obj p (apply_tx block db) s2) tbl in
                    match err with
                    | Some e => Ok (s3, Some e)
                    | None => SyncSocketData fuel s3 databaseID p
                    end
              end
          end
      end
  end.

(** [syncSocketData]: only the failure of database 1 is reported. *)
Definition syncSocketData (fuel : nat) (s : SM) (db : Z) (outErr : option string)
    : res (SM * option string) :=
  match store s !! db with
  | None => Ok (s, outErr)
  | Some p =>
      '(s', err) ← SyncSocketData fuel s db p;
      Ok (s', match err with
              | Some e => if db =? 1 then Some e else outErr
              | None => outErr
              end)
  end.

(** ** Syncing over GraphQL: the server answers with a table. *)
Context (graphql : Z -> option string -> option string -> res tables).

Fixpoint SyncDataGraphQL_from (s : SM) (dbs : list Z) (tableData : option tables)
    : res (SM * (option tables * option string)) :=
  match dbs with
  | [] => Ok (s, (tableData, None))
  | db :: dbs =>
      match lookup_db s db with
      | None => Ok (s, (None, Some "could not find sync store for database"%string))
      | Some (_, m) =>
          let params := if SendSyncParams m then Some (getSyncParams s db (SyncChannel m)) else None in
          match graphql db (LastAppliedCursor m) params with
          | Err e => Ok (s, (None, Some e))
          | Halt h => Halt h
          | Ok lsTable =>
              let tableData := if db =? 1 then Some lsTable else tableData in
              let '(s, err) := updateSyncGroupCursors s lsTable in
              match err with
              | Some e => Ok (s, (None, Some e))
              | None => SyncDataGraphQL_from s dbs tableData
              end
          end
      end
  end.

Definition SyncDataGraphQL (s : SM) (dbs : list Z) : res (SM * (option tables * option string)) :=
  SyncDataGraphQL_from s dbs None.
End Sync.

(** ** The store *)

(** Every database has an object of its own. *)
Record store_ok (s : SM) : Prop := {
  store_inj : forall a b p, store s !! a = Some p -> store s !! b = Some p -> a = b;
  store_objs : forall a p, store s !! a = Some p -> is_Some (objs s !! p)
}.

(** What a database is at. *)
Definition db_state (s : SM) (db : Z) : option QueryMetadata :=
  match lookup_db s db with Some (_, m) => Some m | None => None end.

Lemma lookup_db_Some s db p m : lookup_db s db = Some (p, m) <->
  store s !! db = Some p /\ objs s !! p = Some m.
Proof.
  unfold lookup_db. destruct (store s !! db) as [q|]; [|naive_solver].
  destruct (objs s !! q) eqn:E; naive_solver.
Qed.

Lemma db_state_Some s db p : store_ok s -> store s !! db = Some p -> db_state s db = objs s !! p.
Proof.
  intros Hs Hp. destruct (store_objs s Hs db p Hp) as [m Hm]. unfold db_state, lookup_db.
  by rewrite Hp, Hm.
Qed.

Lemma set_obj_ok s p m : store_ok s -> is_Some (objs s !! p) -> store_ok (set_obj p m s).
Proof.
  intros [Hi Ho] Hp. split; [done|]. cbn. intros a q Hq. destruct (decide (q = p)) as [->|Hne].
  - rewrite lookup_insert_eq. by eexists.
  - rewrite lookup_insert_ne by done. by eapply Ho.
Qed.

Lemma db_state_set_obj s p m db a : store_ok s -> store s !! a = Some p ->
  db_state (set_obj p m s) db = if decide (db = a) then Some m else db_state s db.
Proof.
  intros Hs Ha. unfold db_state, lookup_db. cbn. destruct (decide (db = a)) as [->|Hne].
  - by rewrite Ha, lookup_insert_eq.
  - destruct (store s !! db) as [q|] eqn:Eq; [|done].
    rewrite lookup_insert_ne; [done|]. intros ->. apply Hne. by eapply store_inj.
Qed.

Lemma new_store_ok n l : NoDup (fst <$> l) ->
  let '(os, st) := new_store n l in
  (forall a p, st !! a = Some p -> (n <= p)%nat /\ is_Some (os !! p) /\ a ∈ fst <$> l) /\
  (forall a b p, st !! a = Some p -> st !! b = Some p -> a = b).
Proof.
  revert n. induction l as [|[db [b ch]] l IH]; intros n Hn; cbn.
  { split; intros *; rewrite lookup_empty; done. }
  cbn in Hn. apply NoDup_cons in Hn as [Hdb Hn]. specialize (IH (S n) Hn).
  destruct (new_store (S n) l) as [os st]. destruct IH as [Hp Hi]. split.
  - intros a p. destruct (decide (a = db)) as [->|Ha].
    + rewrite lookup_insert_eq. intros [= <-]. rewrite lookup_insert_eq. split_and!; [lia|by eexists|by left].
    + rewrite lookup_insert_ne by done. intros H. destruct (Hp _ _ H) as (Hle & Ho & Hin).
      rewrite lookup_insert_ne by lia. split_and!; [lia|done|by right].
  - intros a c p. destruct (decide (a = db)) as [->|Ha], (decide (c = db)) as [->|Hc]; try done.
    + rewrite lookup_insert_eq, lookup_insert_ne by done. intros [= <-] H. apply Hp in H. lia.
    + rewrite lookup_insert_eq, lookup_insert_ne by done. intros H [= <-]. apply Hp in H. lia.
    + rewrite !lookup_insert_ne by done. apply Hi.
Qed.

Lemma newSyncManager_ok : store_ok newSyncManager.
Proof.
  assert (NoDup (fst <$> initial_store)) as Hn by (by apply (bool_decide_unpack _); vm_compute).
  pose proof (new_store_ok 0 initial_store Hn) as H. unfold newSyncManager.
  destruct (new_store 0 initial_store) as [os st]. destruct H as [Hp Hi].
  split; [done|]. intros a p Ha. by apply (Hp a p).
Qed.

(** *** Transactions *)

Lemma SyncTransactions_ok txs : forall s, store_ok s ->
  store_ok (fst (SyncTransactions s txs)) /\ store (fst (SyncTransactions s txs)) = store s /\
  keyStore (fst (SyncTransactions s txs)) = keyStore s.
Proof.
  induction txs as [|tx txs IH]; intros s Hs; [done|]. cbn [SyncTransactions].
  destruct (lookup_db s (tx_db tx)) as [[p m]|] eqn:E; [|done].
  apply lookup_db_Some in E as [Hp Hm].
  apply (IH (set_obj p (apply_tx tx m) s)). apply set_obj_ok; [done|by eexists].
Qed.

(** The last transaction of a list for a database. *)
Definition last_tx (db : Z) (txs : list Inst) : option Inst := last (filter (fun tx => tx_db tx = db) txs).

Definition after_txs (db : Z) (txs : list Inst) (m : QueryMetadata) : QueryMetadata :=
  match last_tx db txs with Some tx => apply_tx tx m | None => m end.

Lemma after_txs_cons db tx txs m :
  after_txs db (tx :: txs) m = after_txs db txs (if decide (tx_db tx = db) then apply_tx tx m else m).
Proof.
  unfold after_txs, last_tx. rewrite filter_cons. destruct (decide (tx_db tx = db)); [|done].
  rewrite last_cons. destruct (last (filter _ txs)); done.
Qed.

Lemma SyncTransactions_applied txs : forall s s', store_ok s -> SyncTransactions s txs = (s', None) ->
  forall db, db_state s' db = after_txs db txs <$> db_state s db.
Proof.
  induction txs as [|tx txs IH]; intros s s' Hs.
  { intros [= <-] db. by destruct (db_state s db). }
  cbn [SyncTransactions]. destruct (lookup_db s (tx_db tx)) as [[p m]|] eqn:E; [|done].
  pose proof E as E'. apply lookup_db_Some in E' as [Hp Hm]. intros H db.
  rewrite (IH _ _ (set_obj_ok _ _ _ Hs ltac:(by eexists)) H db).
  rewrite (db_state_set_obj s p _ db (tx_db tx)) by done.
  destruct (decide (db = tx_db tx)) as [->|Hne].
  - unfold db_state. rewrite E. cbn. rewrite after_txs_cons, decide_True by done. done.
  - destruct (db_state s db); [|done]. cbn. by rewrite after_txs_cons, decide_False by congruence.
Qed.

Lemma SyncTransactions_err txs s : store_ok s ->
  snd (SyncTransactions s txs) = None <-> Forall (fun tx => is_Some (db_state s (tx_db tx))) txs.
Proof.
  destruct (SyncTransactions s txs) as [s' err] eqn:E. cbn [snd]. intros Hs.
  revert s s' err Hs E. induction txs as [|tx txs IH]; intros s s' err Hs; cbn [SyncTransactions].
  { intros [= <- <-]. split; [constructor|done]. }
  destruct (lookup_db s (tx_db tx)) as [[p m]|] eqn:El.
  - pose proof El as El'. apply lookup_db_Some in El' as [Hp Hm]. intros E.
    rewrite (IH _ _ _ (set_obj_ok _ _ _ Hs ltac:(by eexists)) E), Forall_cons.
    assert (is_Some (db_state s (tx_db tx))) as Htx by (unfold db_state; rewrite El; by eexists).
    assert (forall db, is_Some (db_state (set_obj p (apply_tx tx m) s) db) <-> is_Some (db_state s db)) as Hiff.
    { intros db. rewrite (db_state_set_obj s p _ db (tx_db tx)) by done.
      destruct (decide (db = tx_db tx)) as [->|]; [|done]. split; [done|by eexists]. }
    setoid_rewrite Hiff. naive_solver.
  - intros [= <- <-]. split; [done|]. intros [Htx _]%Forall_cons. unfold db_state in Htx.
    rewrite El in Htx. by destruct Htx.
Qed.

(** *** Thread ranges *)

Lemma updateThreadRanges_frame rs : forall err s,
  objs (fst (updateThreadRanges_from err s rs)) = objs s /\
  store (fst (updateThreadRanges_from err s rs)) = store s.
Proof.
  induction rs as [|r rs IH]; intros err s; [done|]. cbn. destruct (negb (rg_more r)); [apply IH|].
  destruct (keyStore s !! rg_group r); [|apply IH]. destruct (IH err (set_key (rg_group r) (rg_data r) s)).
  done.
Qed.

(** The last range of a list that changes a group. *)
Definition last_range (g : Z) (rs : list Inst) : option Inst :=
  last (filter (fun r => rg_more r = true /\ rg_group r = g) rs).

Lemma updateThreadRanges_lookup rs g : forall err s,
  keyStore (fst (updateThreadRanges_from err s rs)) !! g =
  (fun d => match last_range g rs with Some r => rg_data r | None => d end) <$> keyStore s !! g.
Proof.
  unfold last_range. induction rs as [|r rs IH]; intros err s; cbn [updateThreadRanges_from].
  { cbn. by destruct (keyStore s !! g). }
  rewrite filter_cons. destruct (rg_more r) eqn:Em; cbn [negb].
  2: { rewrite decide_False by (by intros []). apply IH. }
  destruct (decide (rg_group r = g)) as [<-|Hne].
  - rewrite decide_True by done. rewrite last_cons.
    destruct (keyStore s !! rg_group r) as [d|] eqn:Ek; rewrite IH; [|by rewrite Ek].
    cbn. rewrite lookup_insert_eq. cbn. by destruct (last _).
  - rewrite decide_False by (by intros []).
    destruct (keyStore s !! rg_group r) as [d|]; rewrite IH; [|done].
    cbn. by rewrite lookup_insert_ne.
Qed.

(** ** Properties *)

(** [SyncTransactions] succeeds exactly if every transaction names a known database; every
    database then is at its last transaction in the list (cursor, sync-params flag and
    channel), all others are as they were. *)
Theorem sync_transactions_last_wins s txs (Hs : store_ok s) :
  let '(s', err) := SyncTransactions s txs in
  (err = None <-> Forall (fun tx => is_Some (db_state s (tx_db tx))) txs) /\
  (err = None -> forall db, db_state s' db = after_txs db txs <$> db_state s db).
Proof.
  destruct (SyncTransactions s txs) as [s' err] eqn:E. split.
  2: { intros ->. by apply SyncTransactions_applied. }
  pose proof (SyncTransactions_err txs s Hs) as H. by rewrite E in H.
Qed.

Lemma sync_transactions_last_wins_witness :
  let '(s', err) := SyncTransactions newSyncManager [] in
  (err = None <-> Forall (fun tx => is_Some (db_state newSyncManager (tx_db tx))) []) /\
  (err = None -> forall db, db_state s' db = after_txs db [] <$> db_state newSyncManager db).
Proof. apply (sync_transactions_last_wins newSyncManager []). apply newSyncManager_ok. Defined.

(** Thread ranges: every group with a key store is at the last range for it that has more
    threads before it; a range without more threads never changes anything. *)
Theorem thread_ranges_last_wins s rs g :
  keyStore (fst (updateThreadRanges s rs)) !! g =
  (fun d => match last_range g rs with Some r => rg_data r | None => d end) <$> keyStore s !! g.
Proof. apply updateThreadRanges_lookup. Qed.

(** [HasMoreBefore] is sticky: once a group's key store says there are more threads, no
    response ever makes it say otherwise, whatever ranges and transactions it carries. *)
Theorem has_more_is_sticky s t g d (Hd : keyStore s !! g = Some d) (Hm : HasMoreBefore d = true) :
  exists d', keyStore (fst (updateSyncGroupCursors s t)) !! g = Some d' /\ HasMoreBefore d' = true.
Proof.
  unfold updateSyncGroupCursors.
  assert (forall s', keyStore (fst (match rows t "LSExecuteFirstBlockForSyncTransaction" with
      | [] => (s', None) | txs => SyncTransactions s' txs end)) = keyStore s') as Hk.
  { intros s'. destruct (rows t _) as [|tx txs]; [done|].
    enough (forall l s0, keyStore (fst (SyncTransactions s0 l)) = keyStore s0) as H by apply H.
    induction l as [|x l IH]; intros s0; [done|]. cbn.
    destruct (lookup_db s0 (tx_db x)) as [[p m]|]; [|done]. by rewrite IH. }
  assert (exists d', keyStore (fst (match rows t "LSUpsertSyncGroupThreadsRange" with
      | [] => (s, None) | rs => updateThreadRanges s rs end)) !! g = Some d' /\
      HasMoreBefore d' = true) as (d' & Hd' & Hm').
  { destruct (rows t "LSUpsertSyncGroupThreadsRange") as [|r rs]; [by exists d|].
    unfold updateThreadRanges. rewrite updateThreadRanges_lookup, Hd. cbn.
    destruct (last_range g (r :: rs)) as [r'|] eqn:El; [|by exists d].
    exists (rg_data r'). split; [done|]. unfold last_range in El. apply last_Some_elem_of in El.
    apply list_elem_of_filter in El as [[Hr _] _]. done. }
  exists d'. split; [|done]. destruct (match rows t "LSUpsertSyncGroupThreadsRange" with
      | [] => (s, None) | rs => updateThreadRanges s rs end) as [s1 err1]. cbn [fst] in Hd'.
  specialize (Hk s1). destruct (rows t "LSExecuteFirstBlockForSyncTransaction"); [done|].
  by rewrite Hk.
Qed.

Definition busy_manager : SM := set_key 1 (mkKeyStoreData (-1) 5 true 7) newSyncManager.

Lemma has_more_is_sticky_witness :
  exists d', keyStore (fst (updateSyncGroupCursors busy_manager
      (<["LSUpsertSyncGroupThreadsRange" := [reflect_New LSUpsertSyncGroupThreadsRange]]> ∅))) !! 1
    = Some d' /\ HasMoreBefore d' = true.
Proof. by apply (has_more_is_sticky busy_manager _ 1 (mkKeyStoreData (-1) 5 true 7)). Defined.

Section SyncTheorems.
Context (VersionID : Z) (clock : nat -> Z).
Context (server : nat -> DatabaseQuery -> Z -> res PublishResponseData).
Context (finish : PublishResponseData -> res tables).

Abbreviation sync := (SyncSocketData VersionID clock server finish).

(** An answer to request [n] that ends the recursion wherever it is given. *)
Definition last_answer (n : nat) : Prop :=
  forall q t d tbl, server n q t = Ok d -> finish d = Ok tbl ->
    match rows tbl "LSExecuteFirstBlockForSyncTransaction" with
    | [] => True
    | block :: _ => tx_next block = tx_current block
    end.

Lemma updateSyncGroupCursors_frame s t :
  sent (fst (updateSyncGroupCursors s t)) = sent s.
Proof.
  assert (forall l s0, sent (fst (SyncTransactions s0 l)) = sent s0) as Ht.
  { induction l as [|x l IH]; intros s0; [done|]. cbn.
    destruct (lookup_db s0 (tx_db x)) as [[p m]|]; [|done]. by rewrite IH. }
  assert (forall l err s0, sent (fst (updateThreadRanges_from err s0 l)) = sent s0) as Hr.
  { induction l as [|x l IH]; intros err s0; [done|]. cbn. destruct (negb (rg_more x)); [apply IH|].
    destruct (keyStore s0 !! rg_group x); [|apply IH]. by rewrite IH. }
  unfold updateSyncGroupCursors.
  destruct (rows t "LSUpsertSyncGroupThreadsRange") as [|r rs].
  - destruct (rows t "LSExecuteFirstBlockForSyncTransaction"); [done|apply Ht].
  - pose proof (Hr (r :: rs) None s) as H. unfold updateThreadRanges.
    destruct (updateThreadRanges_from None s (r :: rs)) as [s1 e]. cbn in H.
    destruct (rows t "LSExecuteFirstBlockForSyncTransaction"); [done|]. by rewrite Ht.
Qed.

(** Syncing a database ends: once the server answers some request with a cursor that does
    not move, or with no transaction, the recursion stops there; [k] further rounds need
    fuel [k + 1]. *)
Theorem sync_terminates k : forall s databaseID p fuel,
  last_answer (length (sent s) + k) -> (k < fuel)%nat ->
  (forall n q t, server n q t <> Diverge) -> (forall d, finish d <> Diverge) ->
  sync fuel s databaseID p <> Diverge.
Proof.
  induction k as [|k IH]; intros s databaseID p fuel Hlast Hfuel Hsrv Hfin;
    (destruct fuel as [|fuel]; [lia|]); cbn [SyncSocketData];
    (destruct (objs s !! p) as [db|]; [|done]);
    (destruct (GenerateEpochID _ _) as [ep_id ep]); (destruct (sync_query _ _ _ _) as [q t]);
    (destruct (server (length (sent s)) q t) as [d|e|h] eqn:Es;
      [|done|specialize (Hsrv (length (sent s)) q t); rewrite Es in Hsrv; congruence]);
    (destruct (finish d) as [tbl|e|h] eqn:Ef; cbn [mbind res_bind];
      [|done|specialize (Hfin d); rewrite Ef in Hfin; congruence]);
    (destruct (rows tbl "LSExecuteFirstBlockForSyncTransaction") as [|block rest] eqn:Er; [done|]);
    destruct (stops databaseID _ block) eqn:Est; try done.
  - exfalso. rewrite Nat.add_0_r in Hlast. specialize (Hlast q t d tbl Es Ef). rewrite Er in Hlast.
    unfold stops in Est. rewrite Hlast, String.eqb_refl in Est. done.
  - match goal with |- context [updateSyncGroupCursors ?x tbl] => set (s2 := x) end.
    pose proof (updateSyncGroupCursors_frame s2 tbl) as Hsent.
    destruct (updateSyncGroupCursors s2 tbl) as [s3 [e|]]; [done|]. cbn [fst] in Hsent.
    apply IH; [|lia|done|done]. rewrite Hsent. unfold s2. cbn. rewrite length_app. cbn [length].
    by replace (length (sent s) + 1 + k)%nat with (length (sent s) + S k)%nat by lia.
Qed.

(** A round whose response moves the cursor is followed by a sync of the same database from
    the state that response leaves: the object holds the cursor, flag and channel of the
    response's last transaction for the database (of its first block when there is none), so
    the next request carries that cursor. *)
Theorem sync_follows_the_cursor s databaseID p db d tbl block rest fuel
    (Hs : store_ok s) (Hp : store s !! databaseID = Some p) (Hdb : objs s !! p = Some db)
    (Hsrv : forall q t, server (length (sent s)) q t = Ok d) (Hfin : finish d = Ok tbl)
    (Hrows : rows tbl "LSExecuteFirstBlockForSyncTransaction" = block :: rest)
    (Hgo : stops databaseID (default "" (LastAppliedCursor db))%string block = false)
    (Hknown : Forall (fun tx => is_Some (db_state s (tx_db tx))) (block :: rest)) :
  exists s', sync (S fuel) s databaseID p = sync fuel s' databaseID p /\ store_ok s' /\
    objs s' !! p = Some (after_txs databaseID (block :: rest) (apply_tx block db)) /\
    length (sent s') = S (length (sent s)).
Proof.
  cbn [SyncSocketData]. rewrite Hdb. destruct (GenerateEpochID _ _) as [ep_id ep].
  destruct (sync_query _ _ _ _) as [q t]. rewrite Hsrv, Hfin. cbn [mbind res_bind].
  rewrite Hrows, Hgo.
  match goal with |- context [updateSyncGroupCursors ?x tbl] => set (s2 := x) end.
  assert (store_ok s2) as Hs2.
  { split; [exact (store_inj s Hs)|]. intros a r Hr. cbn. destruct (decide (r = p)) as [->|Hne].
    - rewrite lookup_insert_eq. by eexists.
    - rewrite lookup_insert_ne by done. by eapply (store_objs s Hs). }
  assert (forall x, store x = store s2 -> objs x = objs s2 -> store_ok x /\
    (forall b, db_state x b = db_state s2 b)) as Hx.
  { intros x E1 E2. split; [by split; rewrite E1; [apply (store_inj s2 Hs2)|rewrite E2; apply (store_objs s2 Hs2)]|].
    intros b. unfold db_state, lookup_db. by rewrite E1, E2. }
  pose proof (updateSyncGroupCursors_frame s2 tbl) as Hsent.
  unfold updateSyncGroupCursors in *. rewrite Hrows in *.
  destruct (match rows tbl "LSUpsertSyncGroupThreadsRange" with
    | [] => (s2, None) | rs => updateThreadRanges s2 rs end) as [s2' e] eqn:Er.
  assert (store s2' = store s2 /\ objs s2' = objs s2) as [E1 E2].
  { destruct (rows tbl "LSUpsertSyncGroupThreadsRange") as [|r rs]; [by injection Er as <- _|].
    pose proof (updateThreadRanges_frame (r :: rs) None s2) as [Ho Hst].
    unfold updateThreadRanges in Er. by rewrite Er in Ho, Hst. }
  destruct (Hx s2' E1 E2) as [Hs2' Hdbs].
  assert (forall b, db_state s2 b = if decide (b = databaseID) then Some (apply_tx block db)
                                    else db_state s b) as Hst.
  { intros b. change (db_state s2 b) with (db_state (set_obj p (apply_tx block db) s) b).
    by apply db_state_set_obj. }
  pose proof (SyncTransactions_err (block :: rest) s2' Hs2') as Herr.
  destruct (SyncTransactions s2' (block :: rest)) as [s3 err] eqn:Et. cbn [snd fst] in *.
  assert (err = None) as ->.
  { apply Herr. eapply Forall_impl; [exact Hknown|]. intros tx Htx. cbn in Htx. rewrite Hdbs, Hst.
    by destruct (decide _). }
  pose proof (SyncTransactions_ok (block :: rest) s2' Hs2') as (Hs3 & Hst3 & _).
  rewrite Et in *. cbn [fst] in *.
  exists s3. split_and!; [done|done| |].
  - rewrite <- (db_state_Some s3 databaseID p) by (rewrite ?Hst3, ?E1; done).
    rewrite (SyncTransactions_applied _ _ _ Hs2' Et), Hdbs, Hst, decide_True by done. done.
  - rewrite Hsent. unfold s2. cbn. rewrite length_app. cbn. lia.
Qed.
End SyncTheorems.

(** A server with one step to offer: cursor [b] after [a], then [b] again. *)
Definition sample_tx (cur nxt : string) : Inst :=
  row_set LSExecuteFirstBlockForSyncTransaction "DatabaseID" (VInt64 1)
    (row_set LSExecuteFirstBlockForSyncTransaction "CurrentCursor" (VStr cur)
      (row_set LSExecuteFirstBlockForSyncTransaction "NextCursor" (VStr nxt)
        (reflect_New LSExecuteFirstBlockForSyncTransaction))).

Definition sample_server (n : nat) (q : DatabaseQuery) (t : Z) : res PublishResponseData :=
  Ok (mkPublishResponseData 0 (match n with O => "first" | _ => "second" end)%string [] 0).

Definition sample_finish (d : PublishResponseData) : res tables :=
  Ok (<["LSExecuteFirstBlockForSyncTransaction"%string :=
        [sample_tx (if (Payload d =? "first")%string then "a" else "b") "b"]]> ∅).

Lemma sync_terminates_witness :
  SyncSocketData 1 (fun _ => 0) sample_server sample_finish 2 newSyncManager 1 0 <> Diverge.
Proof.
  apply (sync_terminates 1 (fun _ => 0) sample_server sample_finish 1); [|lia|done|done].
  intros q t d tbl [= <-] [= <-]. reflexivity.
Defined.

Lemma sync_follows_the_cursor_witness :
  exists s', SyncSocketData 1 (fun _ => 0) sample_server sample_finish 2 newSyncManager 1 0 =
      SyncSocketData 1 (fun _ => 0) sample_server sample_finish 1 s' 1 0 /\ store_ok s' /\
    objs s' !! 0%nat = Some (mkQueryMetadata 0 false (Some "b"%string) 0) /\ length (sent s') = 1%nat.
Proof.
  apply (sync_follows_the_cursor 1 (fun _ => 0) sample_server sample_finish newSyncManager 1 0
    (mkQueryMetadata 0 false None MailBox) (mkPublishResponseData 0 "first" [] 0)
    (<["LSExecuteFirstBlockForSyncTransaction"%string := [sample_tx "a" "b"]]> ∅)
    (sample_tx "a" "b") [] 1); try reflexivity; [apply newSyncManager_ok|].
  repeat constructor. by eexists.
Defined.
