(* ===== verification/Socket.v ===== *)
(** * Socket: requests over the MQTT socket ([socket.go], [events.go])

    Packet ids, the senders that register a reply channel, write and wait, and the handlers
    that the read loop calls for acknowledgements and publish responses.  While a sender
    waits, the read loop runs: what it delivers during each wait, and how the wait ends, is
    the environment of a request. *)

From S2P Require Import Prelude Byter Packets ResponseHandler Mqtt Lightspeed.
From S2P Require Import TableKinds TableThreads TableMessages Tables WrapMessages Events.
#[local] Open Scope Z_scope.

(** ** Data *)

(** What the read loop puts into reply channels. *)
Inductive Ev :=
| EvPubACK (PacketID : Z)
| EvSubACK (PacketID : Z) (QoSLevel : Z)
| EvResponse (Data : PublishResponseData) (Table : tables).

(** [connected]: [s.conn] is not nil. *)
Record Socket := mkSocket {
  connected : bool;
  packetsSent : Z;
  responseHandler : ResponseHandler Ev;
  broker : string
}.

Definition newSocketClient : Socket := mkSocket false 0 newResponseHandler "".

Definition set_handler (p : ResponseHandler Ev) (s : Socket) : Socket :=
  mkSocket (connected s) (packetsSent s) p (broker s).
Definition set_sent (n : Z) (s : Socket) : Socket :=
  mkSocket (connected s) n (responseHandler s) (broker s).

(** [CanConnect], given whether the client has its cookies. *)
Definition CanConnect (s : Socket) (authenticated : bool) : option string :=
  if connected s then Some "messagix-socket: socket is already open"%string
  else if negb authenticated
  then Some "messagix-socket: client has not been authenticated successfully yet"%string
  else if (broker s =? "")%string then Some "broker has not been set in socket struct"%string
  else None.

(** [SafePacketID]: a [uint16] counter that skips 0. *)
Definition next_packet_id (n : Z) : Z :=
  let m := uint16 (n + 1) in if m =? 0 then 1 else m.

Definition SafePacketID (s : Socket) : Z * Socket :=
  let id := next_packet_id (packetsSent s) in (id, set_sent id s).

(** [sendData]: the error of the write, if any, is the network's. *)
Definition sendData (s : Socket) (net : option string) : option string :=
  if connected s then net else Some "not connected"%string.

(** ** What the read loop delivers *)

(** [handleACKEvent]: an acknowledgement nobody waits for is dropped. *)
Definition handleACKEvent (p : ResponseHandler Ev) (ackData : Ev) (packetID : Z)
    : res (ResponseHandler Ev) :=
  '(p, _) ← updatePacketChannel p packetID ackData; Ok p.

Definition is_LS_RESP (topic : string) : bool := (topic =? LS_RESP)%string.

(** What [handlePublishResponseEvent] does besides the handler: ask for the queue, hand the
    event to the client, acknowledge it. *)
Record Effects := mkEffects { addToQueue : bool; handled : bool; puback : option (list byte) }.

Definition ack_for (QoS MessageIdentifier : Z) : option (list byte) :=
  if QoS =? QOS_LEVEL_1 then Some (pubAckPacket MessageIdentifier) else None.

Section Handlers.
Context (finish : PublishResponseData -> res tables).

(** [handlePublishResponseEvent], while the context is not done. *)
Definition handlePublishResponseEvent (p : ResponseHandler Ev) (topic : string)
    (d : PublishResponseData) (MessageIdentifier QoS : Z) (isQueue : bool)
    : res (ResponseHandler Ev * Effects) :=
  let packetID := RequestID d in
  let waiting := hasPacket p (uint16 packetID) in
  let ack := ack_for QoS MessageIdentifier in
  if is_LS_RESP topic then
    t ← finish d;
    if negb isQueue && waiting then
      '(p, _) ← updateRequestChannel p (uint16 packetID) (EvResponse d t);
      Ok (p, mkEffects false false ack)
    else if packetID =? 0 then
      if negb isQueue then Ok (p, mkEffects true false None)
      else Ok (p, mkEffects false true ack)
    else Ok (p, mkEffects false false ack)
  else Ok (p, mkEffects false false ack).

(** A packet the read loop gets off the websocket while a request is under way. *)
Inductive Incoming :=
| InPubACK (PacketID : Z)
| InSubACK (PacketID QoSLevel : Z)
| InPublish (topic : string) (d : PublishResponseData) (MessageIdentifier QoS : Z).

Definition deliver (p : ResponseHandler Ev) (e : Incoming) : res (ResponseHandler Ev) :=
  match e with
  | InPubACK id => handleACKEvent p (EvPubACK id) id
  | InSubACK id q => handleACKEvent p (EvSubACK id q) id
  | InPublish topic d mid qos => '(p, _) ← handlePublishResponseEvent p topic d mid qos false; Ok p
  end.

Definition deliver_all (p : ResponseHandler Ev) (l : list Incoming) : res (ResponseHandler Ev) :=
  foldM deliver p l.

(** ** Waiting: the typed wrappers of [waitForDetails], which panic on a reply of another
    type ([castIfNotNil]). *)

Definition waitForPubACKDetails (p : ResponseHandler Ev) (id : Z) (ev : WaitEvent)
    : res (ResponseHandler Ev * (Z + string)) :=
  '(p, r) ← waitForDetails p id PacketChannel ev;
  match r with
  | inr err => Ok (p, inr err)
  | inl (EvPubACK i) => Ok (p, inl i)
  | inl _ => Panic
  end.

Definition waitForSubACKDetails (p : ResponseHandler Ev) (id : Z) (ev : WaitEvent)
    : res (ResponseHandler Ev * (Z * Z + string)) :=
  '(p, r) ← waitForDetails p id PacketChannel ev;
  match r with
  | inr err => Ok (p, inr err)
  | inl (EvSubACK i q) => Ok (p, inl (i, q))
  | inl _ => Panic
  end.

Definition waitForPubResponseDetails (p : ResponseHandler Ev) (id : Z) (ev : WaitEvent)
    : res (ResponseHandler Ev * (PublishResponseData * tables + string)) :=
  '(p, r) ← waitForDetails p id RequestChannel ev;
  match r with
  | inr err => Ok (p, inr err)
  | inl (EvResponse d t) => Ok (p, inl (d, t))
  | inl _ => Panic
  end.

(** ** Senders *)

(** A wait: what is delivered before it ends, and how it ends. *)
Record Wait := mkWait { before : list Incoming; ending : WaitEvent }.

Definition sendPublishPacket (s : Socket) (topic : Topic) (jsonData : string) (packetByte packetId : Z)
    (net : option string) (w : Wait) : res (Socket * option string) :=
  '(p, r) ← newPublishRequest (J := unit) (responseHandler s) topic jsonData packetByte packetId;
  match r with
  | Err e => Ok (set_handler p s, Some e)
  | Halt h => Halt h
  | Ok _ =>
      match sendData s net with
      | Some err =>
          p ← deleteDetails p packetId PacketChannel;
          p ← deleteDetails p packetId RequestChannel;
          Ok (set_handler p s, Some err)
      | None =>
          p ← deliver_all p (before w);
          '(p, r) ← waitForPubACKDetails p packetId (ending w);
          match r with
          | inr err => p ← deleteDetails p packetId RequestChannel; Ok (set_handler p s, Some err)
          | inl _ => Ok (set_handler p s, None)
          end
      end
  end.

Definition sendSubscribePacket (s : Socket) (topic : Topic) (qos : Z) (wait : bool)
    (net : option string) (w : Wait) : res (Socket * (option (Z * Z) + string)) :=
  let '(packetId, s) := SafePacketID s in
  '(p, r) ← newSubscribeRequest (J := unit) (responseHandler s) packetId topic qos;
  match r with
  | Err e => Ok (set_handler p s, inr e)
  | Halt h => Halt h
  | Ok _ =>
      match sendData s net with
      | Some err => Ok (set_handler p s, inr err)
      | None =>
          if wait then
            p ← deliver_all p (before w);
            '(p, r) ← waitForSubACKDetails p packetId (ending w);
            match r with
            | inr err => Ok (set_handler p s, inr err)
            | inl a => Ok (set_handler p s, inl (Some a))
            end
          else Ok (set_handler p s, inl None)
      end
  end.

(** The JSON of [SocketLSRequestPayload], by the encoder: request id, type and payload. *)
Context (marshal : Z -> Z -> string -> res string).

Definition makeLSRequest (s : Socket) (payload : string) (t : Z) (net : option string) (ack resp : Wait)
    : res (Socket * (option (PublishResponseData * tables) + string)) :=
  let '(packetId, s) := SafePacketID s in
  match marshal packetId t payload with
  | Err e => Ok (s, inr e)
  | Halt h => Halt h
  | Ok jsonPayload =>
      '(s, err) ← sendPublishPacket s LS_REQ jsonPayload
                    (PublishPacket_Compress {| packetType := 0; DUP := 0; QOSLevel := QOS_LEVEL_1; RetainFlag := 0 |}) packetId net ack;
      match err with
      | Some e => Ok (s, inr e)
      | None =>
          if t =? 4 then Ok (s, inl None)
          else
            p ← deliver_all (responseHandler s) (before resp);
            '(p, r) ← waitForPubResponseDetails p packetId (ending resp);
            match r with
            | inr e => Ok (set_handler p s, inr e)
            | inl x => Ok (set_handler p s, inl (Some x))
            end
      end
  end.
End Handlers.

(** ** Lemmas: packet ids *)

Fixpoint packet_ids (k : nat) (n : Z) : list Z :=
  match k with
  | O => []
  | S k => next_packet_id n :: packet_ids k (next_packet_id n)
  end.

Lemma next_packet_id_closed n : 0 <= n < 65536 -> next_packet_id n = n mod 65535 + 1.
Proof.
  intros Hn. unfold next_packet_id, uintN. change (2 ^ 16) with 65536.
  destruct (Z.eq_dec n 65535) as [->|Hne]; [done|].
  rewrite (Z.mod_small (n + 1)) by lia.
  destruct (Z.eqb_spec (n + 1) 0); [lia|]. rewrite Z.mod_small by lia. done.
Qed.

Lemma packet_ids_lookup k : forall n i, 0 <= n < 65536 -> (i < k)%nat ->
  packet_ids k n !! i = Some ((n + Z.of_nat i) mod 65535 + 1).
Proof.
  induction k as [|k IH]; intros n i Hn Hi; [lia|]. cbn [packet_ids]. destruct i as [|i].
  - cbn. rewrite next_packet_id_closed by done. by rewrite Z.add_0_r.
  - cbn. rewrite IH.
    + f_equal. rewrite next_packet_id_closed by done. f_equal.
      rewrite <- Z.add_assoc, Zplus_mod_idemp_l. f_equal. lia.
    + rewrite next_packet_id_closed by done. pose proof (Z.mod_pos_bound n 65535). lia.
    + lia.
Qed.

(** ** Lemmas: delivery keeps the registry *)

Definition same_channels {M} (p p' : ResponseHandler M) : Prop :=
  forall ct id, channels ct p' !! id = channels ct p !! id.

Lemma same_channels_trans {M} (p q r : ResponseHandler M) :
  same_channels p q -> same_channels q r -> same_channels p r.
Proof. intros H1 H2 ct id. by rewrite H2, H1. Qed.

Lemma updateChannel_keeps {M} ct (p : ResponseHandler M) id m p' b :
  wf p -> updateChannel ct p id m = Ok (p', b) -> wf p' /\ same_channels p p'.
Proof.
  intros W. unfold updateChannel. destruct (channels ct p !! id) as [c|] eqn:E; [|by intros [= <- <-]].
  destruct (wf_open p W _ _ _ E) as (ch & Ec & Ho). unfold chan_send. rewrite Ec, Ho.
  destruct (ch_buf ch); [done|]. intros [= <- <-]. split.
  - apply wf_update_chan; [done|]. by exists ch.
  - intros ct' id'. by rewrite channels_set_chans.
Qed.

Section SocketTheorems.
Context (finish : PublishResponseData -> res tables).

Lemma deliver_keeps p e p' : wf p -> deliver finish p e = Ok p' -> wf p' /\ same_channels p p'.
Proof.
  intros W. destruct e as [id|id q|topic d mid qos]; cbn [deliver]; unfold handleACKEvent.
  - intros H. apply res_bind_Ok in H as ([q b] & E & H). injection H as <-.
    by apply updateChannel_keeps in E.
  - intros H. apply res_bind_Ok in H as ([r b] & E & H). injection H as <-.
    by apply updateChannel_keeps in E.
  - intros H. apply res_bind_Ok in H as ([r eff] & E & H). injection H as <-.
    unfold handlePublishResponseEvent in E. destruct (is_LS_RESP topic); [|by injection E as <- _].
    apply res_bind_Ok in E as (t & _ & E). destruct (negb false && _).
    + apply res_bind_Ok in E as ([q b] & E & H). injection H as <- _.
      by apply updateChannel_keeps in E.
    + by destruct (RequestID d =? 0); injection E as <- _.
Qed.

Lemma deliver_all_keeps l : forall p p', wf p -> deliver_all finish p l = Ok p' ->
  wf p' /\ same_channels p p'.
Proof.
  induction l as [|e l IH]; intros p p' W; [by intros [= <-]|]. unfold deliver_all. cbn [foldM].
  intros H. apply res_bind_Ok in H as (q & E & H). destruct (deliver_keeps p e q W E) as [Wq Hq].
  destruct (IH q p' Wq H) as [W' H']. split; [done|]. by eapply same_channels_trans.
Qed.

(** What a wrapper of [waitForDetails] leaves. *)
Definition unregistered (ct : ChannelType) (id : Z) (p p' : ResponseHandler Ev) : Prop :=
  forall ct' id', channels ct' p' !! id' =
    if decide (ct' = ct /\ id' = id) then None else channels ct' p !! id'.

Lemma wait_keeps p id ct ev p' r : wf p -> waitForDetails p id ct ev = Ok (p', r) ->
  wf p' /\ unregistered ct id p p'.
Proof. intros W E. pose proof (waitForDetails_spec p id ct ev W) as H. by rewrite E in H. Qed.

Lemma waitForPubACKDetails_keeps p id ev p' r : wf p -> waitForPubACKDetails p id ev = Ok (p', r) ->
  wf p' /\ unregistered PacketChannel id p p'.
Proof.
  intros W H. apply res_bind_Ok in H as ([q x] & E & H).
  destruct x as [[]|]; simplify_eq; by eapply wait_keeps.
Qed.

Lemma waitForPubResponseDetails_keeps p id ev p' r : wf p ->
  waitForPubResponseDetails p id ev = Ok (p', r) -> wf p' /\ unregistered RequestChannel id p p'.
Proof.
  intros W H. apply res_bind_Ok in H as ([q x] & E & H).
  destruct x as [[]|]; simplify_eq; by eapply wait_keeps.
Qed.

(** The registry after a request for [id]: other entries as before, no packet entry, and a
    request entry only if [left_over]. *)
Definition settled (id : Z) (left_over : bool) (p p' : ResponseHandler Ev) : Prop :=
  wf p' /\ packetChannels p' !! id = None /\
  (left_over = false -> requestChannels p' !! id = None) /\
  (left_over = true -> is_Some (requestChannels p' !! id)) /\
  (forall ct id', id' <> id -> channels ct p' !! id' = channels ct p !! id').

(** The registry between registration and the end of the waits. *)
Definition registered (id : Z) (p p' : ResponseHandler Ev) : Prop :=
  wf p' /\ is_Some (channels RequestChannel p' !! id) /\
  (forall ct id', id' <> id -> channels ct p' !! id' = channels ct p !! id').

(** Take the two apart. *)
Ltac split_settled := unfold settled, registered; split_and!.

Lemma registered_same id p p1 p2 : registered id p p1 -> wf p2 -> same_channels p1 p2 ->
  registered id p p2.
Proof.
  intros (W & Hr & Ho) W2 Hs. split_settled; [done|by rewrite Hs|]. intros. rewrite Hs. by apply Ho.
Qed.

Lemma register_both id p : wf p ->
  registered id p (addRequestChannel (addPacketChannel p id) id).
Proof.
  intros W. split_settled.
  - by apply wf_add, wf_add.
  - unfold addRequestChannel. rewrite channels_add, decide_True by done. by eexists.
  - intros ct id' Hne. unfold addRequestChannel, addPacketChannel.
    by rewrite !channels_add, !decide_False by naive_solver.
Qed.

Lemma delete_both id p p1 : registered id p p1 ->
  exists p2 p3, deleteDetails p1 id PacketChannel = Ok p2 /\ deleteDetails p2 id RequestChannel = Ok p3 /\
    settled id false p p3.
Proof.
  intros (W & _ & Ho). destruct (deleteDetails_spec p1 id PacketChannel W) as (p2 & E2 & W2 & H2 & _).
  destruct (deleteDetails_spec p2 id RequestChannel W2) as (p3 & E3 & W3 & H3 & _).
  exists p2, p3. split_settled; try done.
  - change (packetChannels p3) with (channels PacketChannel p3).
    rewrite H3, decide_False by (by intros []). rewrite H2. by rewrite decide_True.
  - intros _. change (requestChannels p3) with (channels RequestChannel p3).
    by rewrite H3, decide_True.
  - intros ct id' Hne. rewrite H3, H2, !decide_False by naive_solver. by apply Ho.
Qed.

(** After the acknowledgement only the request entry is left. *)
Lemma after_ack id p p1 p2 : registered id p p1 -> wf p2 -> unregistered PacketChannel id p1 p2 ->
  settled id true p p2.
Proof.
  intros (W & Hr & Ho) W2 Hu. split_settled; try done.
  - change (packetChannels p2) with (channels PacketChannel p2). by rewrite Hu, decide_True.
  - intros _. change (requestChannels p2) with (channels RequestChannel p2).
    by rewrite Hu, decide_False by (by intros []).
  - intros ct id' Hne. rewrite Hu, decide_False by naive_solver. by apply Ho.
Qed.

Lemma settled_request id b p p1 p2 : settled id b p p1 -> wf p2 -> unregistered RequestChannel id p1 p2 ->
  settled id false p p2.
Proof.
  intros (W & Hp & _ & _ & Ho) W2 Hu. split_settled; try done.
  - change (packetChannels p2) with (channels PacketChannel p2).
    by rewrite Hu, decide_False by (by intros []).
  - intros _. change (requestChannels p2) with (channels RequestChannel p2). by rewrite Hu, decide_True.
  - intros ct id' Hne. rewrite Hu, decide_False by naive_solver. by apply Ho.
Qed.

Lemma sendPublishPacket_settles s topic json b id net w s' err : wf (responseHandler s) ->
  sendPublishPacket finish s topic json b id net w = Ok (s', err) ->
  settled id (match err with None => true | Some _ => false end) (responseHandler s) (responseHandler s').
Proof.
  intros W H. unfold sendPublishPacket, newPublishRequest in H.
  pose proof (register_both id _ W) as Hreg.
  set (p1 := addRequestChannel (addPacketChannel (responseHandler s) id) id) in *.
  destruct (Request_Write _ _) as [bs|e|h] eqn:Ew; [|cbn [mbind res_bind] in H|done].
  2: { destruct (delete_both id _ p1 Hreg) as (p2 & p3 & E2 & E3 & Hset).
       rewrite E2 in H. cbn in H. rewrite E3 in H. cbn in H. by injection H as <- <-. }
  cbn [mbind res_bind] in H. destruct (sendData s net) as [e|].
  { destruct (delete_both id _ p1 Hreg) as (p2 & p3 & E2 & E3 & Hset).
    rewrite E2 in H. cbn in H. rewrite E3 in H. cbn in H. by injection H as <- <-. }
  apply res_bind_Ok in H as (p2 & Ed & H).
  destruct (deliver_all_keeps _ p1 p2 (proj1 Hreg) Ed) as [W2 H2].
  pose proof (registered_same _ _ _ _ Hreg W2 H2) as Hreg2.
  apply res_bind_Ok in H as ([p3 r] & Ea & H).
  destruct (waitForPubACKDetails_keeps _ _ _ _ _ W2 Ea) as [W3 H3].
  pose proof (after_ack _ _ _ _ Hreg2 W3 H3) as Hack.
  destruct r as [i|e].
  - by injection H as <- <-.
  - destruct (deleteDetails_spec p3 id RequestChannel W3) as (p4 & E4 & W4 & H4 & _).
    rewrite E4 in H. cbn in H. injection H as <- <-. by eapply settled_request.
Qed.

Lemma sendPublishPacket_sent s topic json b id net w s' err :
  sendPublishPacket finish s topic json b id net w = Ok (s', err) -> packetsSent s' = packetsSent s.
Proof.
  unfold sendPublishPacket. intros H. apply res_bind_Ok in H as ([p r0] & _ & H).
  destruct r0; [|by injection H as <- _|done]. destruct (sendData s net).
  - apply res_bind_Ok in H as (q1 & _ & H). apply res_bind_Ok in H as (q2 & _ & H).
    by injection H as <- _.
  - apply res_bind_Ok in H as (q1 & _ & H). apply res_bind_Ok in H as ([q2 [i|e]] & _ & H);
      [by injection H as <- _|].
    apply res_bind_Ok in H as (q3 & _ & H). by injection H as <- _.
Qed.

Lemma makeLSRequest_settles marshal s payload t net ack resp s' r
    (W : wf (responseHandler s))
    (H : makeLSRequest finish marshal s payload t net ack resp = Ok (s', r))
    (Hm : is_halt (marshal (next_packet_id (packetsSent s)) t payload) = false)
    (Hnew : channels RequestChannel (responseHandler s) !! next_packet_id (packetsSent s) = None /\
            channels PacketChannel (responseHandler s) !! next_packet_id (packetsSent s) = None) :
  packetsSent s' = next_packet_id (packetsSent s) /\
  settled (next_packet_id (packetsSent s)) (match r with inl None => true | _ => false end)
    (responseHandler s) (responseHandler s') /\
  (r = inl None -> t = 4).
Proof.
  unfold makeLSRequest in H. cbn [SafePacketID] in H.
  set (id := next_packet_id (packetsSent s)) in *.
  destruct (marshal id t payload) as [json|e|h]; [| |done].
  2: { injection H as <- <-. split_settled; try done; [apply Hnew|intros _; apply Hnew]. }
  apply res_bind_Ok in H as ([s1 err] & Ep & H).
  pose proof Ep as Hset. apply sendPublishPacket_settles in Hset; [|done].
  assert (packetsSent s1 = id) as Hsent.
  { by rewrite (sendPublishPacket_sent _ _ _ _ _ _ _ _ _ Ep). }
  destruct err as [e|]; [by injection H as <- <-|].
  destruct (Z.eqb_spec t 4) as [->|]; [by injection H as <- <-|].
  apply res_bind_Ok in H as (p2 & Ed & H).
  destruct (deliver_all_keeps _ _ _ (proj1 Hset) Ed) as [W2 H2].
  apply res_bind_Ok in H as ([p3 r3] & Ea & H).
  destruct (waitForPubResponseDetails_keeps _ _ _ _ _ W2 Ea) as [W3 H3].
  assert (settled id false (responseHandler s) p3) as Hfin.
  { eapply (settled_request id true _ p2); [|done|done].
    destruct Hset as (_ & Hp & Hn & Hs & Ho). split_settled; try done.
    - change (packetChannels p2) with (channels PacketChannel p2). by rewrite H2.
    - intros _. change (requestChannels p2) with (channels RequestChannel p2). rewrite H2. by apply Hs.
    - intros. rewrite H2. by apply Ho. }
  destruct r3; injection H as <- <-; done.
Qed.

(** ** Properties *)

(** Packet ids are between 1 and 65535, and any 65535 successive ones are distinct: the
    counter wraps around over 0. *)
Theorem packet_ids_distinct n k (Hn : 0 <= n < 65536) (Hk : Z.of_nat k <= 65535) :
  NoDup (packet_ids k n) /\ Forall (fun id => 1 <= id <= 65535) (packet_ids k n).
Proof.
  assert (length (packet_ids k n) = k) as Hl.
  { clear. revert n. induction k as [|k IH]; intros n; [done|]. cbn. by rewrite IH. }
  split.
  - apply NoDup_alt. intros i j x Hi Hj.
    pose proof (lookup_lt_Some _ _ _ Hi). pose proof (lookup_lt_Some _ _ _ Hj).
    rewrite packet_ids_lookup in Hi, Hj by lia. assert ((n + Z.of_nat i) mod 65535 = (n + Z.of_nat j) mod 65535) as E
      by (injection Hi; injection Hj; lia).
    apply Nat2Z.inj. Z.div_mod_to_equations. lia.
  - apply Forall_lookup. intros i x Hi. pose proof (lookup_lt_Some _ _ _ Hi).
    rewrite packet_ids_lookup in Hi by lia. injection Hi as <-.
    pose proof (Z.mod_pos_bound (n + Z.of_nat i) 65535). lia.
Qed.

(** However a request goes (written or not, acknowledged or timed out, answered or
    cancelled), when it comes back its packet id is no longer registered and all other
    entries are as they were; only a successful request of type 4, which expects no
    response, leaves its response channel behind. *)
Theorem request_settles marshal s payload t net ack resp s' r
    (W : wf (responseHandler s))
    (H : makeLSRequest finish marshal s payload t net ack resp = Ok (s', r))
    (Hm : is_halt (marshal (next_packet_id (packetsSent s)) t payload) = false)
    (Hnew : channels RequestChannel (responseHandler s) !! next_packet_id (packetsSent s) = None /\
            channels PacketChannel (responseHandler s) !! next_packet_id (packetsSent s) = None) :
  packetsSent s' = next_packet_id (packetsSent s) /\
  settled (next_packet_id (packetsSent s)) (match r with inl None => true | _ => false end)
    (responseHandler s) (responseHandler s') /\
  (r = inl None -> t = 4).
Proof. by eapply makeLSRequest_settles. Qed.

(** An acknowledgement of the wrong kind is fatal: when the server answers a publish with
    a SUBACK for its packet id, the sender's type assertion panics. *)
Theorem suback_for_publish_panics s topic json b id q net
    (W : wf (responseHandler s)) (Hc : connected s = true) (Hnet : net = None)
    (Hw : exists bs, Request_Write (J := unit) b (WriteFromStruct (PublishPayload_fields (J := unit)
            {| pp_Topic := topic; pp_PacketId := id; pp_JSONData := json |})) = Ok bs) :
  sendPublishPacket finish s topic json b id net (mkWait [InSubACK id q] EvRecv) = Panic.
Proof.
  destruct Hw as [bs Hw]. unfold sendPublishPacket, newPublishRequest. rewrite Hw. cbn [mbind res_bind].
  unfold sendData. rewrite Hc, Hnet. unfold deliver_all. cbn [before foldM deliver ending].
  set (p := responseHandler s) in *. unfold handleACKEvent, updatePacketChannel, updateChannel.
  set (p1 := addRequestChannel (addPacketChannel p id) id).
  assert (channels PacketChannel p1 !! id = Some (next_chan p)) as E1.
  { unfold p1, addRequestChannel, addPacketChannel. rewrite channels_add, decide_False by (by intros []).
    by rewrite channels_add, decide_True. }
  assert (chans p1 !! next_chan p = Some {| ch_buf := None; ch_closed := false |}) as Ec.
  { unfold p1, addRequestChannel. rewrite chans_add, lookup_insert_ne.
    - unfold addPacketChannel. by rewrite chans_add, lookup_insert_eq.
    - unfold addPacketChannel. rewrite next_add. lia. }
  rewrite E1. unfold chan_send. rewrite Ec. cbn [ch_closed ch_buf mbind res_bind].
  set (h := <[next_chan p := _]> (chans p1)).
  assert (wf (set_chans h p1)) as W1.
  { apply wf_update_chan; [by apply wf_add, wf_add|]. by eexists. }
  unfold waitForPubACKDetails, waitForDetails, getChannel.
  change (channels PacketChannel (set_chans h p1)) with (channels PacketChannel p1). rewrite E1.
  unfold chan_recv. cbn [set_chans chans]. unfold h at 1. rewrite lookup_insert_eq. cbn [ch_buf ch_closed].
  match goal with |- context [deleteDetails ?x id PacketChannel] => set (p2 := x) end.
  assert (wf p2) as W2.
  { unfold p2. change (wf (set_chans (<[next_chan p := {| ch_buf := None; ch_closed := false |}]>
      (chans (set_chans h p1))) (set_chans h p1))). apply wf_update_chan; [done|].
    eexists. cbn. unfold h. by rewrite lookup_insert_eq. }
  destruct (deleteDetails_spec p2 id PacketChannel W2) as (p3 & -> & _). done.
Qed.
End SocketTheorems.

Lemma packet_ids_distinct_witness :
  NoDup (packet_ids 3 65534) /\ Forall (fun id => 1 <= id <= 65535) (packet_ids 3 65534).
Proof. apply packet_ids_distinct; [lia|cbn; lia]. Defined.

(** A connected socket, an encoder and a server that acknowledges and answers request 1. *)
Definition open_socket : Socket := mkSocket true 0 newResponseHandler "wss://x"%string.
Definition sample_json (id t : Z) (payload : string) : res string := Ok "{}"%string.
Definition sample_answer : PublishResponseData := mkPublishResponseData 1 ""%string [] 0.
Definition sample_request (t : Z) :=
  makeLSRequest (fun _ => Ok ∅) sample_json open_socket "x" t None
    (mkWait [InPubACK 1] EvRecv) (mkWait [InPublish LS_RESP sample_answer 9 1] EvRecv).

Lemma request_settles_witness : exists s' x,
  sample_request 3 = Ok (s', inl (Some x)) /\
  packetsSent s' = 1 /\ settled 1 false newResponseHandler (responseHandler s') /\
  (inl (Some x) = (inl None : option (PublishResponseData * tables) + string) -> 3 = 4).
Proof.
  destruct (sample_request 3) as [[s' r]| |] eqn:E; [|vm_compute in E; discriminate E..].
  assert (r = inl (Some (sample_answer, ∅))) as -> by (vm_compute in E; by injection E).
  exists s', (sample_answer, ∅). split; [done|].
  refine (request_settles (fun _ => Ok ∅) sample_json open_socket "x" 3 None
    (mkWait [InPubACK 1] EvRecv) (mkWait [InPublish LS_RESP sample_answer 9 1] EvRecv) s'
    (inl (Some (sample_answer, ∅))) wf_new E eq_refl (conj eq_refl eq_refl)).
Defined.

Lemma suback_for_publish_panics_witness :
  sendPublishPacket (fun _ => Ok ∅) open_socket LS_REQ "{}" 50 1 None (mkWait [InSubACK 1 0] EvRecv) = Panic.
Proof.
  apply suback_for_publish_panics; try done; [apply wf_new|].
  destruct (Request_Write (J := unit) 50 _) as [bs| |] eqn:E; [by exists bs|vm_compute in E; discriminate E..].
Defined.
