(* ===== verification/Tasks.v ===== *)
(** * Tasks: running tasks on the server ([taskManager.go], [threads.go])

    The tasks of a call become one request: each payload is printed as JSON and put as a string
    into the task list, which is printed and put as a string into the request of the socket.
    [read_request] is the other end, which takes the three layers apart. *)

From S2P Require Import Prelude Strconv Unicode Byter Packets ResponseHandler Mqtt Lightspeed.
From S2P Require Import TableKinds TableThreads TableMessages Tables WrapMessages Events Socket MessageID.
From S2P Require Import Json Mentions TaskTypes.
#[local] Open Scope Z_scope.

(** ** Data *)

(** A task of any type. *)
Record AnyTask := mkTask { task_type : Type; the_task : task_type; task_class : Task task_type }.
Arguments mkTask {_} _ {_}.
#[global] Existing Instance task_class.

Record TaskData := mkTaskData {
  FailureCount : option Z; Label : string; Payload : value; QueueName : value; TaskId : Z
}.

(** A field of type [any] tagged [omitempty] is left out when it is nil. *)
Definition omit_nil (name : string) (v : value) : list (string * value) :=
  match v with Null => [] | _ => field name v end.

#[global] Instance TaskData_json : ToJSON TaskData := fun t => struct
  [field "failure_count" (FailureCount t); omitempty "label" (Label t); omit_nil "payload" (Payload t);
   omit_nil "queue_name" (QueueName t); field "task_id" (TaskId t)].

Record StatelessTaskData := mkStatelessTaskData { st_Label : string; st_Payload : value; st_Version : string }.

#[global] Instance StatelessTaskData_json : ToJSON StatelessTaskData := fun t => struct
  [omitempty "label" (st_Label t); omit_nil "payload" (st_Payload t); omitempty "version" (st_Version t)].

Record TaskPayload := mkTaskPayload { EpochId : Z; DataTraceId : string; Tasks : list TaskData; VersionId : string }.

#[global] Instance TaskPayload_json : ToJSON TaskPayload := fun t => struct
  [field "epoch_id" (EpochId t); omitempty "data_trace_id" (DataTraceId t); omitempty "tasks" (Tasks t);
   field "version_id" (VersionId t)].

Record SocketLSRequestPayload := mkLSRequest { AppId : string; lr_Payload : string; RequestId : Z; lr_Type : Z }.

#[global] Instance SocketLSRequestPayload_json : ToJSON SocketLSRequestPayload := fun t => struct
  [field "app_id" (AppId t); field "payload" (lr_Payload t); field "request_id" (RequestId t);
   field "type" (lr_Type t)].

(** What the program keeps for tasks in the client: the ids handed out, the version of the
    page, the application, the state of the epoch ids and the socket. *)
Record Client := mkClient {
  activeTasks : list Z; VersionID : Z; AppID : string; epochs : EpochState; socket : Socket
}.

Definition set_active (l : list Z) (c : Client) : Client := mkClient l (VersionID c) (AppID c) (epochs c) (socket c).
Definition set_epochs (e : EpochState) (c : Client) : Client := mkClient (activeTasks c) (VersionID c) (AppID c) e (socket c).
Definition set_socket (s : Socket) (c : Client) : Client := mkClient (activeTasks c) (VersionID c) (AppID c) (epochs c) s.

Record TaskManager := mkTaskManager { currTasks : list TaskData; traceId : string }.

Definition newTaskManager : TaskManager := mkTaskManager [] "".
Definition setTraceId (id : string) (tm : TaskManager) : TaskManager := mkTaskManager (currTasks tm) id.

(** ** Task ids *)

(** The first id from [id] on that is not active; [fuel] is more than the active ones. *)
Fixpoint free_id (fuel : nat) (active : list Z) (id : Z) : Z :=
  match fuel with
  | O => id
  | S fuel => if bool_decide (id ∈ active) then free_id fuel active (id + 1) else id
  end.

(** [getTaskID]: the ids are never given back. *)
Definition getTaskID (c : Client) : Z * Client :=
  let id := free_id (S (length (activeTasks c))) (activeTasks c) 0 in
  (id, set_active (activeTasks c ++ [id]) c).

(** ** Building a request *)

(** [AddNewTask]: a task without a queue is logged and dropped.  The encoder fails on none of
    the payloads. *)
Definition AddNewTask (now : Z) (task : AnyTask) (c : Client) (tm : TaskManager) : Client * TaskManager :=
  let '(payload, queueName, marshalQueueName) := Create now (the_task task) in
  let lb := GetLabel (the_task task) in
  match queueName with
  | None => (c, tm)
  | Some queueName =>
      let payloadMarshalled := Marshal payload in
      let queueName := if marshalQueueName : bool then Str (Marshal queueName) else queueName in
      let '(id, c) := getTaskID c in
      (c, mkTaskManager
            (currTasks tm ++ [mkTaskData None lb (Str payloadMarshalled) queueName id]) (traceId tm))
  end.

(** The tasks of a call, with the clock at each. *)
Fixpoint AddTasks (tasks : list (Z * AnyTask)) (c : Client) (tm : TaskManager) : Client * TaskManager :=
  match tasks with
  | [] => (c, tm)
  | (now, task) :: tasks => let '(c, tm) := AddNewTask now task c tm in AddTasks tasks c tm
  end.

Definition FinalizePayload (now : Z) (c : Client) (tm : TaskManager) : string * Client * TaskManager :=
  let '(id, e) := GenerateEpochID (epochs c) now in
  (Marshal (mkTaskPayload id (traceId tm) (currTasks tm) (FormatInt 10 (VersionID c))),
   set_epochs e c, mkTaskManager [] (traceId tm)).

(** The encoder [makeLSRequest] is given. *)
Definition request_json (app : string) (id t : Z) (payload : string) : res string :=
  Ok (Marshal (mkLSRequest app payload id t)).

(** ** Running *)

(** What happens while a request is under way: the error of the network, and the waits for the
    acknowledgement and the response. *)
Record Weather := mkWeather { net : option string; ack : Wait; resp : Wait }.

Definition ErrClientIsNil : string := "client is nil".

Section Execute.
Context (finish : PublishResponseData -> res tables).

(** [ExecuteTasks], of a client that may be nil; [ctxErr] is the error of the context.  The
    response, which the read loop has decoded already, is decoded again. *)
Definition ExecuteTasks (ctxErr : option string) (client : option Client) (tasks : list (Z * AnyTask))
    (now : Z) (w : Weather) : res (option Client * (tables + string)) :=
  match client with
  | None => Ok (None, inr ErrClientIsNil)
  | Some c =>
      match ctxErr with
      | Some e => Ok (Some c, inr e)
      | None =>
          let '(c, tskm) := AddTasks tasks c newTaskManager in
          let '(payload, c, _) := FinalizePayload now c tskm in
          '(s, r) ← makeLSRequest finish (request_json (AppID c)) (socket c) payload 3 (net w) (ack w) (resp w);
          let c := set_socket s c in
          match r with
          | inr e => Ok (Some c, inr e)
          | inl None => Panic
          | inl (Some (d, _)) => t ← finish d; Ok (Some c, inl t)
          end
      end
  end.

(** [ExecuteStatelessTask] *)
Definition ExecuteStatelessTask (ctxErr : option string) (client : option Client) (now : Z) (task : AnyTask)
    (w : Weather) : res (option Client * option string) :=
  match client with
  | None => Ok (None, Some ErrClientIsNil)
  | Some c =>
      match ctxErr with
      | Some e => Ok (Some c, Some e)
      | None =>
          let '(innerPayload, queueName, _) := Create now (the_task task) in
          let lb := GetLabel (the_task task) in
          match queueName with
          | Some _ => Ok (Some c, Some ("tried to execute stateful task " ++ lb ++ " as stateless")%string)
          | None =>
              let outer := Marshal (mkStatelessTaskData lb (Str (Marshal innerPayload)) (FormatInt 10 (VersionID c))) in
              '(s, r) ← makeLSRequest finish (request_json (AppID c)) (socket c) outer 4 (net w) (ack w) (resp w);
              Ok (Some (set_socket s c), match r with inr e => Some e | inl _ => None end)
          end
      end
  end.
End Execute.

(** ** The other end *)

Record TaskView := mkTaskView { v_label : string; v_payload : value; v_queue : value; v_id : Z }.
Record RequestView := mkRequestView {
  v_app : string; v_request : Z; v_type : Z; v_epoch : Z; v_version : string; v_tasks : list TaskView
}.

(** The member of an object, [Null] when it is not there. *)
Fixpoint member (name : string) (l : list (string * value)) : value :=
  match l with
  | [] => Null
  | (k, v) :: l => if (k =? name)%string then v else member name l
  end.
Definition get (name : string) (v : value) : value := match v with Obj l => member name l | _ => Null end.

Definition get_string (name : string) (v : value) : string := match get name v with Str s => s | _ => "" end.
Definition get_int (name : string) (v : value) : Z := match get name v with Num z => z | _ => 0 end.
Definition get_list (name : string) (v : value) : list value := match get name v with Arr l => l | _ => [] end.

(** The document in a string. *)
Definition get_document (name : string) (v : value) : option value := Unmarshal (get_string name v).

Definition read_task (v : value) : option TaskView :=
  p ← get_document "payload" v;
  Some (mkTaskView (get_string "label" v) p (get "queue_name" v) (get_int "task_id" v)).

Fixpoint read_tasks (l : list value) : option (list TaskView) :=
  match l with
  | [] => Some []
  | v :: l => t ← read_task v; ts ← read_tasks l; Some (t :: ts)
  end.

(** A request: a document whose payload is a document whose tasks have documents for payloads. *)
Definition read_request (s : string) : option RequestView :=
  r ← Unmarshal s;
  p ← get_document "payload" r;
  ts ← read_tasks (get_list "tasks" p);
  Some (mkRequestView (get_string "app_id" r) (get_int "request_id" r) (get_int "type" r)
          (get_int "epoch_id" p) (get_string "version_id" p) ts).

(** ** Lemmas: ids *)

Lemma free_id_spec fuel active : forall id,
  (exists k, (k < fuel)%nat /\ (id + Z.of_nat k) ∉ active) ->
  (free_id fuel active id ∉ active) /\ id <= free_id fuel active id /\
  forall j, id <= j < free_id fuel active id -> j ∈ active.
Proof.
  induction fuel as [|fuel IH]; intros id (k & Hk & Hn); [lia|]. cbn [free_id].
  destruct (bool_decide (id ∈ active)) eqn:E.
  - apply bool_decide_eq_true in E. destruct (IH (id + 1)) as (H1 & H2 & H3).
    { destruct k as [|k]; [by rewrite Z.add_0_r in Hn|]. exists k. split; [lia|].
      by replace (id + 1 + Z.of_nat k) with (id + Z.of_nat (S k)) by lia. }
    split_and!; [done|lia|]. intros j Hj. destruct (Z.eq_dec j id) as [->|]; [done|]. apply H3. lia.
  - apply bool_decide_eq_false in E. split_and!; [done|lia|]. lia.
Qed.

(** More numbers than active ids: one of them is free. *)
Lemma some_free active : exists k, (k < S (length active))%nat /\ (0 + Z.of_nat k) ∉ active.
Proof.
  destruct (decide (Exists (fun k => Z.of_nat k ∉ active) (seq 0 (S (length active))))) as [H|H].
  - apply Exists_exists in H as (k & Hk & Hn). apply elem_of_seq in Hk. exists k. split; [lia|]. done.
  - exfalso. apply not_Exists_Forall in H; [|apply _].
    assert (length (Z.of_nat <$> seq 0 (S (length active))) <= length active)%nat as Hl.
    { apply submseteq_length, NoDup_submseteq.
      - apply NoDup_fmap; [apply _|apply NoDup_seq].
      - intros x Hx. apply list_elem_of_fmap in Hx as (k & -> & Hk).
        rewrite Forall_forall in H. specialize (H k Hk). by apply dec_stable in H. }
    rewrite length_fmap, length_seq in Hl. lia.
Qed.

Lemma getTaskID_fresh c : (fst (getTaskID c) ∉ activeTasks c) /\ 0 <= fst (getTaskID c) /\
  forall j, 0 <= j < fst (getTaskID c) -> j ∈ activeTasks c.
Proof. apply free_id_spec, some_free. Qed.

(** ** Lemmas: building a request *)

(** What a task puts into the request, if it has a queue. *)
Definition queued (t : Z * AnyTask) : option (string * value * value) :=
  let '(payload, queueName, marshalQueueName) := Create t.1 (the_task t.2) in
  match queueName with
  | None => None
  | Some q => Some (GetLabel (the_task t.2), to_json payload,
                if marshalQueueName : bool then Str (Marshal q) else q)
  end.

(** The task has only strings that are UTF-8 and integers of 64 bits. *)
Definition encodable (t : Z * AnyTask) : bool :=
  let '(payload, queueName, marshalQueueName) := Create t.1 (the_task t.2) in
  ValidString (GetLabel (the_task t.2)) && well_formed (to_json payload) &&
  match queueName with None => true | Some q => well_formed q end.

(** The tasks with their ids, from the active ids [active]. *)
Fixpoint with_ids (active : list Z) (l : list (string * value * value)) : list TaskView :=
  match l with
  | [] => []
  | (lb, p, q) :: l =>
      let id := free_id (S (length active)) active 0 in
      mkTaskView lb p q id :: with_ids (active ++ [id]) l
  end.

Definition task_data (v : TaskView) : TaskData :=
  mkTaskData None (v_label v) (Str (l2s (marshal (v_payload v)))) (v_queue v) (v_id v).

Lemma AddTasks_spec tasks : forall c tm,
  AddTasks tasks c tm =
  let views := with_ids (activeTasks c) (omap queued tasks) in
  (set_active (activeTasks c ++ map v_id views) c,
   mkTaskManager (currTasks tm ++ map task_data views) (traceId tm)).
Proof.
  induction tasks as [|[now t] tasks IH]; intros c tm.
  { cbn. rewrite !app_nil_r. by destruct c, tm. }
  cbn [AddTasks]. unfold AddNewTask.
  change (omap queued ((now, t) :: tasks)) with
    (match queued (now, t) with Some y => y :: omap queued tasks | None => omap queued tasks end).
  assert (queued (now, t) = queued (now, t)) as E by done. unfold queued in E at 2. cbn [fst snd] in E.
  destruct (Create now (the_task t)) as [[payload [q|]] b]; rewrite E; [|apply IH].
  cbn [getTaskID]. rewrite IH. cbn [set_active activeTasks currTasks traceId].
  cbn [with_ids map v_id]. cbv zeta. rewrite <- !app_assoc. done.
Qed.

Lemma with_ids_fresh l : forall active, NoDup active ->
  NoDup (active ++ map v_id (with_ids active l)) /\
  map (fun v => (v_label v, v_payload v, v_queue v)) (with_ids active l) = l.
Proof.
  induction l as [|[[lb p] q] l IH]; intros active Ha; [by rewrite app_nil_r|].
  cbn [with_ids map v_id v_label v_payload v_queue].
  set (id := free_id (S (length active)) active 0).
  assert (id ∉ active) as Hid by (apply free_id_spec, some_free).
  destruct (IH (active ++ [id])) as [Hn Hm].
  { apply NoDup_app. split_and!; [done| |apply NoDup_singleton].
    intros x Hx ->%list_elem_of_singleton. done. }
  rewrite <- app_assoc in Hn. split; [done|]. by rewrite Hm.
Qed.

Lemma GenerateEpochID_int s now : in_int 64 (fst (GenerateEpochID s now)).
Proof.
  assert (forall z, in_int 64 z <-> Z.shiftr z 63 = 0 \/ Z.shiftr z 63 = -1) as Hs.
  { intros z. unfold in_int. rewrite Z.shiftr_div_pow2 by lia. change (2 ^ (64 - 1)) with 9223372036854775808.
    change (2 ^ 63) with 9223372036854775808. split; intros H; Z.to_euclidean_division_equations; lia. }
  assert (forall a b, in_int 64 a -> in_int 64 b -> in_int 64 (Z.lor a b)) as Hl.
  { intros a b Ha Hb. rewrite Hs in *. rewrite Z.shiftr_lor.
    destruct Ha as [-> | ->], Hb as [-> | ->]; (by left) || (by right). }
  unfold GenerateEpochID. cbn [fst]. repeat apply Hl; [by apply intN_range..|].
  unfold in_int. lia.
Qed.

(** ** Lemmas: reading a request *)

Lemma get_other name name' v l : (name' =? name)%string = false -> member name ((name', v) :: l) = member name l.
Proof. intros H. cbn. by rewrite H. Qed.

Lemma view_well_formed v : ValidString (v_label v) = true -> well_formed (v_payload v) = true ->
  well_formed (v_queue v) = true -> in_int 64 (v_id v) -> well_formed (to_json (task_data v)) = true.
Proof.
  intros Hl Hp Hq Hi. unfold to_json, TaskData_json, struct. cbn [well_formed].
  assert (ValidString (l2s (marshal (v_payload v))) = true) as Hv by by apply valid_bytes_string, marshal_valid.
  assert ((- 2 ^ 63 <=? v_id v) && (v_id v <? 2 ^ 63) = true) as Hz.
  { unfold in_int in Hi. change (64 - 1) with 63 in Hi. blia. }
  unfold task_data, omitempty, omit_nil, field. cbn [Payload QueueName FailureCount TaskId Label].
  destruct (isEmptyValue _); destruct (v_queue v); cbn in *; rewrite ?Hl, ?Hv, ?Hz, ?Hq; done.
Qed.

Lemma read_task_data v : well_formed (v_payload v) = true ->
  read_task (to_json (task_data v)) = Some v.
Proof.
  destruct v as [lb p q id]. cbn [v_payload]. intros Hp. unfold read_task, get_document, get_string, get_int.
  unfold to_json, TaskData_json, struct, task_data, omitempty, omit_nil, field.
  cbn -[Unmarshal marshal string_of_list_byte].
  destruct (String.eqb_spec lb "") as [->|Hlb], q; cbn -[Unmarshal marshal string_of_list_byte];
    by rewrite Unmarshal_marshal.
Qed.

Lemma read_tasks_data vs : Forall (fun v => well_formed (v_payload v) = true) vs ->
  read_tasks (map to_json (map task_data vs)) = Some vs.
Proof.
  induction 1 as [|v vs Hv _ IH]; [done|]. cbn [map read_tasks]. rewrite read_task_data by done.
  cbn [mbind option_bind]. by rewrite IH.
Qed.

Lemma Num_well_formed z : in_int 64 z -> (- 2 ^ 63 <=? z) && (z <? 2 ^ 63) = true.
Proof. unfold in_int. change (64 - 1) with 63. intros H. blia. Qed.

Lemma payload_well_formed epoch trace version vs : in_int 64 epoch -> ValidString trace = true ->
  ValidString version = true -> Forall (fun v => well_formed (to_json (task_data v)) = true) vs ->
  well_formed (to_json (mkTaskPayload epoch trace (map task_data vs) version)) = true.
Proof.
  intros He Ht Hv H. unfold to_json, TaskPayload_json, struct, omitempty, field.
  cbn [EpochId DataTraceId Tasks VersionId].
  assert (well_formed (to_json (map task_data vs)) = true) as Hl.
  { unfold to_json, list_json. cbn [well_formed]. apply forallb_forall. intros x Hx.
    apply in_map_iff in Hx as (d & <- & Hx). apply in_map_iff in Hx as (v & <- & Hx).
    rewrite Forall_forall in H. by apply H, list_elem_of_In. }
  destruct (isEmptyValue (to_json trace)), (isEmptyValue (to_json (map task_data vs)));
    cbn [concat app well_formed forallb fst snd andb];
    rewrite ?Hl; cbn -[ValidString Z.pow]; rewrite ?Ht, ?Hv, ?(Num_well_formed epoch) by done; done.
Qed.

Lemma get_payload_tasks epoch trace version vs :
  Forall (fun v => well_formed (v_payload v) = true) vs ->
  let P := to_json (mkTaskPayload epoch trace (map task_data vs) version) in
  get_int "epoch_id" P = epoch /\ get_string "version_id" P = version /\
  read_tasks (get_list "tasks" P) = Some vs.
Proof.
  intros H. unfold to_json, TaskPayload_json, struct, omitempty, field, get_int, get_string, get_list.
  cbn [EpochId DataTraceId Tasks VersionId].
  destruct (isEmptyValue (to_json trace)); destruct vs as [|v vs]; try by (split_and!).
  all: cbn -[read_tasks task_data]; split_and!; [done|done|]; by apply (read_tasks_data (v :: vs)).
Qed.

(** The three layers. *)
Lemma read_request_marshal app id t epoch trace version vs :
  let P := mkTaskPayload epoch trace (map task_data vs) version in
  ValidString app = true -> in_int 64 id -> in_int 64 t -> well_formed (to_json P) = true ->
  Forall (fun v => well_formed (v_payload v) = true) vs ->
  read_request (Marshal (mkLSRequest app (Marshal P) id t)) = Some (mkRequestView app id t epoch version vs).
Proof.
  intros P Ha Hi Ht HP Hvs. unfold read_request.
  assert (well_formed (to_json (mkLSRequest app (Marshal P) id t)) = true) as Hw.
  { unfold to_json, SocketLSRequestPayload_json, struct, field. cbn -[ValidString Z.pow Marshal].
    by rewrite Ha, (Num_well_formed id Hi), (Num_well_formed t Ht), (Marshal_valid P HP). }
  rewrite (Unmarshal_Marshal _ Hw). cbn [mbind option_bind].
  unfold get_document.
  change (get_string "payload" (to_json (mkLSRequest app (Marshal P) id t))) with (Marshal P).
  rewrite (Unmarshal_Marshal P HP). cbn [mbind option_bind].
  destruct (get_payload_tasks epoch trace version vs Hvs) as (E1 & E2 & E3). fold P in E1, E2, E3.
  rewrite E3. cbn [mbind option_bind]. by rewrite E1, E2.
Qed.

Lemma with_ids_int l : forall active n, llen active + llen l <= n -> n < 2 ^ 63 ->
  Forall (fun v => in_int 64 (v_id v)) (with_ids active l).
Proof.
  induction l as [|[[lb p] q] l IH]; intros active n Hn H63; [constructor|]. cbn [with_ids length] in *.
  constructor; [|apply (IH _ n); [rewrite length_app; cbn; lia|done]]. cbn [v_id].
  destruct (free_id_spec (S (length active)) active 0 (some_free active)) as (_ & H0 & Hall).
  set (id := free_id (S (length active)) active 0) in *.
  assert (id <= llen active) as Hle.
  { assert (length (Z.of_nat <$> seq 0 (Z.to_nat id)) <= length active)%nat as Hl.
    { apply submseteq_length, NoDup_submseteq.
      - apply NoDup_fmap; [apply _|apply NoDup_seq].
      - intros x Hx. apply list_elem_of_fmap in Hx as (k & -> & Hk). apply elem_of_seq in Hk. apply Hall. lia. }
    rewrite length_fmap, length_seq in Hl. lia. }
  unfold in_int. change (64 - 1) with 63. lia.
Qed.

Lemma queued_encodable tasks : forallb encodable tasks = true ->
  Forall (fun x => ValidString x.1.1 = true /\ well_formed x.1.2 = true /\ well_formed x.2 = true)
    (omap queued tasks).
Proof.
  induction tasks as [|t tasks IH]; [constructor|]. cbn [forallb]. rewrite andb_true_iff. intros [Ht H].
  specialize (IH H). change (omap queued (t :: tasks)) with
    (match queued t with Some y => y :: omap queued tasks | None => omap queued tasks end).
  unfold queued at 1. unfold encodable in Ht.
  destruct (Create t.1 (the_task t.2)) as [[payload [q|]] b]; [|done].
  rewrite !andb_true_iff in Ht. destruct Ht as [[Hl Hp] Hq]. constructor; [|done]. cbn [fst snd].
  split_and!; [done|done|]. destruct b; [|done]. by apply Marshal_valid.
Qed.

(** ** Properties *)

(** C29. The request of a list of tasks is read back, through its three layers of JSON, as
    exactly the tasks that have a queue, in order: the label, the payload and the queue of
    each, under an id that is in no use, with the epoch and the version; tasks without a queue
    are dropped. *)
Theorem tasks_on_the_wire c tasks now packetId (Happ : ValidString (AppID c) = true)
    (Htasks : forallb encodable tasks = true) (Hids : NoDup (activeTasks c))
    (Hpacket : 0 <= packetId < 65536)
    (Hlen : llen (activeTasks c) + llen (omap queued tasks) < 2 ^ 63) :
  let '(c1, tm) := AddTasks tasks c newTaskManager in
  let '(payload, c2, tm2) := FinalizePayload now c1 tm in
  currTasks tm2 = [] /\
  exists s views, request_json (AppID c) packetId 3 payload = Ok s /\
    read_request s = Some (mkRequestView (AppID c) packetId 3 (fst (GenerateEpochID (epochs c) now))
                             (FormatInt 10 (VersionID c)) views) /\
    map (fun v => (v_label v, v_payload v, v_queue v)) views = omap queued tasks /\
    activeTasks c2 = activeTasks c ++ map v_id views /\ NoDup (activeTasks c2).
Proof.
  rewrite AddTasks_spec. cbv zeta. unfold FinalizePayload. cbn [set_active epochs VersionID currTasks traceId newTaskManager app].
  pose proof (GenerateEpochID_int (epochs c) now) as He.
  destruct (GenerateEpochID (epochs c) now) as [epoch e]. cbn [fst] in He.
  set (views := with_ids (activeTasks c) (omap queued tasks)).
  destruct (with_ids_fresh (omap queued tasks) (activeTasks c) Hids) as [Hn Hm]. fold views in Hn, Hm.
  pose proof (with_ids_int (omap queued tasks) (activeTasks c) _ ltac:(reflexivity) Hlen) as Hi. fold views in Hi.
  pose proof (queued_encodable tasks Htasks) as Hq. rewrite <- Hm in Hq. apply Forall_map in Hq. cbn [fst snd] in Hq.
  split; [done|]. do 2 eexists. split; [done|]. split_and!; [|exact Hm|done|done].
  apply read_request_marshal; [done|unfold in_int; change (64 - 1) with 63; lia|by unfold in_int| |].
  - apply payload_well_formed; [done|done|apply FormatInt_ValidString|].
    apply Forall_forall. intros v Hv. rewrite Forall_forall in Hq, Hi. destruct (Hq v Hv) as (? & ? & ?).
    apply view_well_formed; [done..|by apply Hi].
  - eapply Forall_impl; [exact Hq|]. by intros v (_ & ? & _).
Qed.

(** However running tasks goes, when it comes back the packet id of its request is no
    longer registered and all other entries of the registry are as they were, the epoch counter
    is where one id takes it, and every task with a queue has taken an id for good. *)
Theorem execute_tasks_settles finish c tasks now w c' r
    (H : ExecuteTasks finish None (Some c) tasks now w = Ok (c', r))
    (W : wf (responseHandler (socket c)))
    (Hnew : channels RequestChannel (responseHandler (socket c)) !! next_packet_id (packetsSent (socket c)) = None /\
            channels PacketChannel (responseHandler (socket c)) !! next_packet_id (packetsSent (socket c)) = None) :
  exists c1, c' = Some c1 /\
    Socket.settled (next_packet_id (packetsSent (socket c))) false (responseHandler (socket c)) (responseHandler (socket c1)) /\
    packetsSent (socket c1) = next_packet_id (packetsSent (socket c)) /\
    epochs c1 = snd (GenerateEpochID (epochs c) now) /\
    exists ids, activeTasks c1 = activeTasks c ++ ids /\ length ids = length (omap queued tasks).
Proof.
  unfold ExecuteTasks in H. rewrite AddTasks_spec in H. cbv zeta in H. unfold FinalizePayload in H.
  cbn [set_active epochs VersionID currTasks traceId newTaskManager app] in H.
  destruct (GenerateEpochID (epochs c) now) as [epoch e] eqn:Ee. cbn [set_epochs socket AppID set_active] in H.
  set (views := with_ids (activeTasks c) (omap queued tasks)) in H.
  apply res_bind_Ok in H as ([s1 r1] & Hm & H).
  pose proof (makeLSRequest_settles _ _ _ _ _ _ _ _ _ _ W Hm eq_refl Hnew) as (Hsent & Hset & H4).
  assert (exists c1, c' = Some c1 /\ socket c1 = s1 /\ epochs c1 = e /\
    activeTasks c1 = activeTasks c ++ map v_id views) as (c1 & -> & <- & He & Ha).
  { destruct r1 as [[[d t]|]|err]; [|discriminate H|by injection H as <- _; eexists].
    apply res_bind_Ok in H as (t' & _ & H). injection H as <- _. by eexists. }
  exists c1. split; [done|]. split.
  { destruct r1 as [[?|]|?]; [exact Hset|by specialize (H4 eq_refl)|exact Hset]. }
  split; [done|]. split; [done|]. eexists. split; [done|].
  rewrite length_map, <- (length_map (fun v => (v_label v, v_payload v, v_queue v))).
  assert (forall l active, length (map (fun v => (v_label v, v_payload v, v_queue v)) (with_ids active l)) = length l) as Hl.
  { induction l as [|[[lb p] q] l IH]; intros active; [done|]. cbn. f_equal. apply IH. }
  apply Hl.
Qed.

(** ** Witnesses *)

Definition sample_client : Client :=
  mkClient [0] 7 "app" (mkEpochState 0 0) (set_handler newResponseHandler open_socket).

Definition sample_typing : AnyTask := mkTask (UpdatePresenceTask.mkUpdatePresenceTask 1 0 1 0 1 1).
Definition sample_delete : AnyTask := mkTask (DeleteMessageTask.mkDeleteMessageTask "mid.$<a>").
Definition sample_reaction : AnyTask :=
  mkTask (SendReactionTask.mkSendReactionTask 5 0 "mid.x" 9 "" None 0 65537).
Definition sample_tasks : list (Z * AnyTask) := [(1700000000000, sample_reaction); (1700000000001, sample_typing); (1700000000002, sample_delete)].

Example sample_views : omap queued sample_tasks =
  [("29", to_json (SendReactionTask.mkSendReactionTask 5 1700000000000 "mid.x" 9 "" None 1 65537),
    Str (Marshal (Arr [Str "reaction"; Str "mid.x"])));
   ("33", to_json (DeleteMessageTask.mkDeleteMessageTask "mid.$<a>"), Str "unsend_message")]%string.
Proof. reflexivity. Qed.

Lemma tasks_on_the_wire_witness :
  let c := sample_client in
  let '(c1, tm) := AddTasks sample_tasks c newTaskManager in
  let '(payload, c2, tm2) := FinalizePayload 1700000000003 c1 tm in
  currTasks tm2 = [] /\
  exists s views, request_json (AppID c) 12 3 payload = Ok s /\
    read_request s = Some (mkRequestView (AppID c) 12 3 (fst (GenerateEpochID (epochs c) 1700000000003))
                             (FormatInt 10 (VersionID c)) views) /\
    map (fun v => (v_label v, v_payload v, v_queue v)) views = omap queued sample_tasks /\
    activeTasks c2 = activeTasks c ++ map v_id views /\ NoDup (activeTasks c2).
Proof.
  apply (tasks_on_the_wire sample_client sample_tasks 1700000000003 12).
  - reflexivity.
  - reflexivity.
  - apply NoDup_singleton.
  - lia.
  - reflexivity.
Defined.

Definition sample_weather : Weather :=
  mkWeather None (mkWait [InPubACK 1] EvRecv) (mkWait [InPublish LS_RESP sample_answer 9 1] EvRecv).

Lemma execute_tasks_settles_witness : exists c' r c1,
  ExecuteTasks (fun _ => Ok ∅) None (Some sample_client) [(0, sample_delete)] 1700000000003 sample_weather = Ok (c', r) /\
  c' = Some c1 /\
  Socket.settled 1 false (responseHandler (socket sample_client)) (responseHandler (socket c1)) /\
  packetsSent (socket c1) = 1 /\
  epochs c1 = snd (GenerateEpochID (epochs sample_client) 1700000000003) /\
  exists ids, activeTasks c1 = activeTasks sample_client ++ ids /\
    length ids = length (omap queued [(0, sample_delete)]).
Proof.
  destruct (ExecuteTasks (fun _ => Ok ∅) None (Some sample_client) [(0, sample_delete)] 1700000000003 sample_weather)
    as [[c' r]| |] eqn:E; [|vm_compute in E; discriminate E..].
  destruct (execute_tasks_settles (fun _ => Ok ∅) sample_client [(0, sample_delete)] 1700000000003 sample_weather c' r
    E wf_new (conj eq_refl eq_refl)) as (c1 & H).
  exists c', r, c1. exact (conj eq_refl H).
Defined.
