(* ===== verification/Interaction.v ===== *)
(** * Interaction: handlers as trees of requests

    A handler of the connector asks its environment (the server, the framework, the clock) and
    goes on with the answers.  It is a tree: a result, or a request with a subtree per answer.
    The runs of a handler are the sequences of requests and answers along its branches, so that
    what holds of every run holds whatever the environment does. *)

From S2P Require Import Prelude.

Section Interaction.
Context {Q : Type} {answer : Q -> Type}.

(** ** Trees *)

Inductive prog (A : Type) : Type :=
| Ret (a : A)
| Ask (q : Q) (k : answer q -> prog A).
Arguments Ret {A} a.
Arguments Ask {A} q k.

Fixpoint prog_bind {A B} (p : prog A) (f : A -> prog B) : prog B :=
  match p with
  | Ret a => f a
  | Ask q k => Ask q (fun x => prog_bind (k x) f)
  end.

(** ** Runs *)

Record event := Event { asked : Q; answered : answer asked }.

Fixpoint runs {A} (p : prog A) (tr : list event) (a : A) : Prop :=
  match p with
  | Ret a' => tr = [] /\ a = a'
  | Ask q k => exists x tr', tr = Event q x :: tr' /\ runs (k x) tr' a
  end.

(** An environment with a state answers every request: the result, the run and the state. *)
Fixpoint play {S A} (env : forall q, S -> answer q * S) (p : prog A) (s : S) : A * list event * S :=
  match p with
  | Ret a => (a, [], s)
  | Ask q k =>
      let '(x, s) := env q s in
      let '(a, tr, s) := play env (k x) s in (a, Event q x :: tr, s)
  end.

Lemma play_runs {S A} (env : forall q, S -> answer q * S) (p : prog A) s :
  runs p (play env p s).1.2 (play env p s).1.1.
Proof.
  revert s. induction p as [a|q k IH]; intros s; [done|]. cbn. destruct (env q s) as [x s'].
  specialize (IH x s'). destruct (play env (k x) s') as [[a tr] s'']. by eexists _, _.
Qed.

Lemma runs_prog_bind {A B} (p : prog A) (f : A -> prog B) tr b :
  runs (prog_bind p f) tr b <-> exists a t1 t2, tr = t1 ++ t2 /\ runs p t1 a /\ runs (f a) t2 b.
Proof.
  revert tr. induction p as [a|q k IH]; intros tr; cbn; split.
  - intros H. by exists a, [], tr.
  - by intros (a' & t1 & t2 & -> & [-> ->] & H).
  - intros (x & tr' & -> & H). apply IH in H as (a & t1 & t2 & -> & H1 & H2).
    exists a, (Event q x :: t1), t2. split; [done|]. split; [by exists x, t1|done].
  - intros (a & t1 & t2 & -> & (x & t' & -> & H1) & H2). exists x, (t' ++ t2). split; [done|].
    apply IH. by exists a, t', t2.
Qed.

(** ** Handlers that fail *)

(** A Go function with an error: what it returns is an outcome. *)
Definition M (A : Type) : Type := prog (res A).

#[global] Instance M_ret : MRet M := fun A a => Ret (Ok a).
#[global] Instance M_bind : MBind M := fun A B f m =>
  prog_bind m (fun r => match r with Ok a => f a | Err e => Ret (Err e) | Halt h => Ret (Halt h) end).

Definition throw {A} (e : string) : M A := Ret (Err e).
Definition panic {A} : M A := Ret Panic.
Definition of_res {A} (r : res A) : M A := Ret r.

(** A request whose answer is a value. *)
Definition ask (q : Q) : M (answer q) := Ask q (fun x => Ret (Ok x)).

(** The error of a call, as a value. *)
Definition attempt {A} (m : M A) : M (res A) :=
  prog_bind m (fun r => match r with Halt h => Ret (Halt h) | r => Ret (Ok r) end).

Lemma run_ret {A} (a : A) tr r : runs (mret a : M A) tr r <-> tr = [] /\ r = Ok a.
Proof. done. Qed.

Lemma run_throw {A} e tr r : runs (throw e : M A) tr r <-> tr = [] /\ r = Err e.
Proof. done. Qed.

Lemma run_ask q tr r : runs (ask q) tr r <-> exists x, tr = [Event q x] /\ r = Ok x.
Proof. split; [intros (x & ? & -> & -> & ->); by exists x|intros (x & -> & ->); by exists x, []]. Qed.

Lemma run_bind {A B} (m : M A) (f : A -> M B) tr r :
  runs (m ≫= f) tr r <->
  exists r1 t1 t2, tr = t1 ++ t2 /\ runs m t1 r1 /\
    match r1 with
    | Ok a => runs (f a) t2 r
    | Err e => t2 = [] /\ r = Err e
    | Halt h => t2 = [] /\ r = Halt h
    end.
Proof.
  unfold mbind, M_bind. rewrite runs_prog_bind. split; intros (r1 & t1 & t2 & H1 & H2 & H3);
    exists r1, t1, t2; (split; [done|]; split; [done|]); by destruct r1.
Qed.

Lemma run_attempt {A} (m : M A) tr r :
  runs (attempt m) tr r <->
  exists r1, runs m tr r1 /\ r = match r1 with Halt h => Halt h | r1 => Ok r1 end.
Proof.
  unfold attempt. rewrite runs_prog_bind. split.
  - intros (r1 & t1 & t2 & -> & H1 & H2). exists r1. by destruct r1, H2 as [-> ->]; rewrite app_nil_r.
  - intros (r1 & H & ->). exists r1, tr, []. rewrite app_nil_r. split; [done|]. split; [done|]. by destruct r1.
Qed.

(** A successful run of a sequence. *)
Lemma run_bind_Ok {A B} (m : M A) (f : A -> M B) tr b :
  runs (m ≫= f) tr (Ok b) <->
  exists a t1 t2, tr = t1 ++ t2 /\ runs m t1 (Ok a) /\ runs (f a) t2 (Ok b).
Proof.
  rewrite run_bind. split.
  - intros (r1 & t1 & t2 & -> & H1 & H2). destruct r1 as [a|e|h]; [|by destruct H2|by destruct H2].
    by exists a, t1, t2.
  - intros (a & t1 & t2 & -> & H1 & H2). by exists (Ok a), t1, t2.
Qed.
(** ** Which requests a handler makes *)

Definition asks_only {A} (P : Q -> Prop) (p : prog A) : Prop :=
  forall tr a, runs p tr a -> Forall (fun e => P (asked e)) tr.

Lemma asks_Ret {A} P (a : A) : asks_only P (Ret a).
Proof. intros tr b [-> _]. constructor. Qed.

Lemma asks_Ask {A} (P : Q -> Prop) q (k : answer q -> prog A) : P q -> (forall x, asks_only P (k x)) -> asks_only P (Ask q k).
Proof. intros Hq Hk tr a (x & tr' & -> & H). constructor; [done|by eapply Hk]. Qed.

Lemma asks_prog_bind {A B} P (p : prog A) (f : A -> prog B) :
  asks_only P p -> (forall a, asks_only P (f a)) -> asks_only P (prog_bind p f).
Proof.
  intros Hp Hf tr b (a & t1 & t2 & -> & H1 & H2)%runs_prog_bind. apply Forall_app. split; [by eapply Hp|by eapply Hf].
Qed.

Lemma asks_bind {A B} P (m : M A) (f : A -> M B) :
  asks_only P m -> (forall a, asks_only P (f a)) -> asks_only P (m ≫= f).
Proof. intros Hm Hf. apply asks_prog_bind; [done|]. intros [a|e|h]; [apply Hf|apply asks_Ret..]. Qed.

Lemma asks_ask (P : Q -> Prop) q : P q -> asks_only P (ask q).
Proof. intros H. apply asks_Ask; [done|]. intros x. apply asks_Ret. Qed.

Lemma asks_attempt {A} P (m : M A) : asks_only P m -> asks_only P (attempt m).
Proof. intros H. apply asks_prog_bind; [done|]. intros [a|e|h]; apply asks_Ret. Qed.

Lemma asks_weaken {A} (P P' : Q -> Prop) (p : prog A) : (forall q, P q -> P' q) -> asks_only P p -> asks_only P' p.
Proof. intros H Hp tr a Hr. eapply Forall_impl; [by eapply Hp|]. intros e. apply H. Qed.
End Interaction.

Arguments prog {Q} answer A.
Arguments event {Q} answer.
Arguments M {Q} answer A.
Arguments Ret {Q answer A} a.
Arguments Ask {Q answer A} q k.
Arguments Event {Q answer} asked answered.

(** Two outcomes are the same: of two values, theirs are. *)
Ltac res_eq E :=
  lazymatch type of E with
  | Ok _ = Ok _ => injection E; clear E; intros; try subst
  | Err _ = Err _ => injection E; clear E; intros; try subst
  | Ok _ = _ => first [discriminate E | idtac]
  | Err _ = _ => first [discriminate E | idtac]
  | Halt _ = _ => first [discriminate E | idtac]
  | ?r = _ => first [subst r | idtac]
  end.

(** Take a run of a handler apart, one request or test at a time. *)
Ltac run_step H :=
  lazymatch type of H with
  | runs ?p ?tr ?r =>
      lazymatch p with
      | _ ≫= _ =>
          lazymatch r with
          | Ok _ =>
              let a := fresh "a" in let t1 := fresh "t" in let t2 := fresh "t" in let H1 := fresh "H" in
              apply run_bind_Ok in H as (a & t1 & t2 & -> & H1 & H); run_step H1
          | _ =>
              let r1 := fresh "r" in let t1 := fresh "t" in let t2 := fresh "t" in let H1 := fresh "H" in
              apply run_bind in H as (r1 & t1 & t2 & -> & H1 & H); run_step H1
          end
      | ask ?q =>
          let x := fresh "x" in let E := fresh "E" in
          destruct (proj1 (run_ask q tr r) H) as (x & -> & E); clear H; res_eq E
      | mret _ => let E := fresh "E" in destruct (proj1 (run_ret _ _ _) H) as [-> E]; clear H; res_eq E
      | throw _ => let E := fresh "E" in destruct (proj1 (run_throw _ _ _) H) as [-> E]; clear H; res_eq E
      | panic => let E := fresh "E" in destruct H as [-> E]; res_eq E
      | of_res _ => let E := fresh "E" in destruct H as [-> E]; res_eq E
      | attempt _ =>
          let r1 := fresh "r" in let H1 := fresh "H" in apply run_attempt in H as (r1 & H1 & H)
      | _ => idtac
      end
  end.

(** A handler makes only the requests it is known to make: go through its text. *)
Ltac asks_step :=
  lazymatch goal with
  | |- asks_only _ ?p =>
      lazymatch p with
      | Interaction.Ret _ => apply asks_Ret
      | mret _ => apply asks_Ret
      | throw _ => apply asks_Ret
      | panic => apply asks_Ret
      | of_res _ => apply asks_Ret
      | _ ≫= _ => apply asks_bind; [|intros ?]
      | ask ?q => refine (asks_ask _ q _); try exact I
      | attempt _ => apply asks_attempt
      | prog_bind _ _ => apply asks_prog_bind; [|intros ?]
      | match ?x with _ => _ end => destruct x
      | let _ := _ in _ => cbv zeta
      end
  end.
Create HintDb asks.
Ltac asks_tac := repeat asks_step; eauto with asks.
