(* ===== verification/Stateful.v ===== *)
(** * Stateful: handlers that share an object

    Several goroutines work on one object.  A handler is a tree of requests ([Interaction])
    over the state of the object: a request carries the state in which it is made, and its
    answer the state in which the handler goes on.  A request that returns at once leaves the
    state alone; while one that blocks is waited for, the other goroutines run, and the state
    it leaves is any. *)

From S2P Require Import Prelude.
From S2P Require Import Interaction.

Section Stateful.
Context {S Q : Type} {answer : Q -> Type}.

(** ** Handlers *)

Definition reply (q : Q * S) : Type := answer q.1 * S.

Definition SM (A : Type) : Type := S -> prog reply (res A * S).

#[global] Instance SM_ret : MRet SM := fun A a s => Ret (Ok a, s).
#[global] Instance SM_bind : MBind SM := fun A B f m s =>
  prog_bind (m s) (fun x => match x with
                            | (Ok a, s) => f a s
                            | (Err e, s) => Ret (Err e, s)
                            | (Halt h, s) => Ret (Halt h, s)
                            end).

Definition gets {A} (f : S -> A) : SM A := fun s => Ret (Ok (f s), s).
Definition modify (f : S -> S) : SM unit := fun s => Ret (Ok (), f s).
Definition state {A} (f : S -> A * S) : SM A := fun s => Ret (Ok (f s).1, (f s).2).
Definition sthrow {A} (e : string) : SM A := fun s => Ret (Err e, s).
Definition spanic {A} : SM A := fun s => Ret (Panic, s).
Definition spin {A} : SM A := fun s => Ret (Diverge, s).

(** A request that returns at once, and one that blocks. *)
Definition tell (q : Q) : SM (answer q) := fun s => Ask (q, s) (fun x => Ret (Ok x.1, s)).
Definition block (q : Q) : SM (answer q) := fun s => Ask (q, s) (fun x => Ret (Ok x.1, x.2)).

(** The error of a call, as a value. *)
Definition sattempt {A} (m : SM A) : SM (res A) := fun s =>
  prog_bind (m s) (fun x => match x with
                            | (Halt h, s) => Ret (Halt h, s)
                            | (r, s) => Ret (Ok r, s)
                            end).

Definition when (b : bool) (m : SM unit) : SM unit := if b then m else mret ().

(** ** Runs *)

(** From state [s] the handler makes the requests of [tr], ends as [r] and leaves [s']. *)
Definition sruns {A} (m : SM A) (s : S) (tr : list (event reply)) (r : res A) (s' : S) : Prop :=
  runs (m s) tr (r, s').

Lemma sruns_ret {A} (a : A) s tr r s' : sruns (mret a) s tr r s' <-> tr = [] /\ r = Ok a /\ s' = s.
Proof. unfold sruns. cbn. split; [intros [-> [= -> ->]]|intros (-> & -> & ->)]; by auto. Qed.

Lemma sruns_gets {A} (f : S -> A) s tr r s' : sruns (gets f) s tr r s' <-> tr = [] /\ r = Ok (f s) /\ s' = s.
Proof. apply (sruns_ret (f s)). Qed.

Lemma sruns_modify f s tr r s' : sruns (modify f) s tr r s' <-> tr = [] /\ r = Ok () /\ s' = f s.
Proof. apply (sruns_ret ()). Qed.

Lemma sruns_state {A} (f : S -> A * S) s tr r s' :
  sruns (state f) s tr r s' <-> tr = [] /\ r = Ok (f s).1 /\ s' = (f s).2.
Proof. apply (sruns_ret (f s).1). Qed.

Lemma sruns_end {A} (x : res A) s tr r s' :
  runs (Ret (x, s) : prog reply (res A * S)) tr (r, s') <-> tr = [] /\ r = x /\ s' = s.
Proof. cbn. split; [intros [-> [= -> ->]]|intros (-> & -> & ->)]; by auto. Qed.

Lemma sruns_throw {A} e s tr (r : res A) s' : sruns (sthrow e) s tr r s' <-> tr = [] /\ r = Err e /\ s' = s.
Proof. apply sruns_end. Qed.

Lemma sruns_panic {A} s tr (r : res A) s' : sruns spanic s tr r s' <-> tr = [] /\ r = Panic /\ s' = s.
Proof. apply sruns_end. Qed.

Lemma sruns_tell q s tr r s' :
  sruns (tell q) s tr r s' <->
  exists x s1, tr = [Event (answer := reply) (q, s) (x, s1)] /\ r = Ok x /\ s' = s.
Proof.
  unfold sruns, tell. cbn. split.
  - intros ([x s1] & tr' & -> & -> & [= -> ->]). by exists x, s1.
  - intros (x & s1 & -> & -> & ->). by exists (x, s1), [].
Qed.

Lemma sruns_block q s tr r s' :
  sruns (block q) s tr r s' <-> exists x, tr = [Event (answer := reply) (q, s) (x, s')] /\ r = Ok x.
Proof.
  unfold sruns, block. cbn. split.
  - intros ([x s1] & tr' & -> & -> & [= -> ->]). by exists x.
  - intros (x & -> & ->). by exists (x, s'), [].
Qed.

Lemma sruns_bind {A B} (m : SM A) (f : A -> SM B) s tr r s' :
  sruns (m ≫= f) s tr r s' <->
  exists r1 s1 t1 t2, tr = t1 ++ t2 /\ sruns m s t1 r1 s1 /\
    match r1 with
    | Ok a => sruns (f a) s1 t2 r s'
    | Err e => t2 = [] /\ r = Err e /\ s' = s1
    | Halt h => t2 = [] /\ r = Halt h /\ s' = s1
    end.
Proof.
  unfold sruns, mbind, SM_bind. rewrite runs_prog_bind. split.
  - intros ([r1 s1] & t1 & t2 & -> & H1 & H2). exists r1, s1, t1, t2. split; [done|]. split; [done|].
    by destruct r1; [|apply sruns_end..].
  - intros (r1 & s1 & t1 & t2 & -> & H1 & H2). exists (r1, s1), t1, t2. split; [done|]. split; [done|].
    by destruct r1; [|apply sruns_end..].
Qed.

Lemma sruns_attempt {A} (m : SM A) s tr r s' :
  sruns (sattempt m) s tr r s' <->
  exists r1, sruns m s tr r1 s' /\ r = match r1 with Halt h => Halt h | r1 => Ok r1 end.
Proof.
  unfold sruns, sattempt. rewrite runs_prog_bind. split.
  - intros ([r1 s1] & t1 & t2 & -> & H1 & H2).
    destruct r1; apply sruns_end in H2 as (-> & -> & ->); rewrite app_nil_r; by eexists.
  - intros (r1 & H1 & ->). exists (r1, s'), tr, []. rewrite app_nil_r. split; [done|]. split; [done|]. by destruct r1.
Qed.

Lemma sruns_when_true m s tr r s' : sruns (when true m) s tr r s' -> sruns m s tr r s'.
Proof. done. Qed.

Lemma sruns_when_false m s tr r s' : sruns (when false m) s tr r s' -> tr = [] /\ r = Ok () /\ s' = s.
Proof. apply sruns_ret. Qed.

(** A run in which an environment answers. *)
Lemma play_sruns {A X} (env : forall q, X -> reply q * X) (m : SM A) s x :
  sruns m s (play env (m s) x).1.2 (play env (m s) x).1.1.1 (play env (m s) x).1.1.2.
Proof. unfold sruns. rewrite <- surjective_pairing. apply play_runs. Qed.

(** ** Judgements over all runs *)

(** However the handler ends, its trace, result and state satisfy [P]. *)
Definition ensures {A} (m : SM A) (s : S) (P : list (event reply) -> res A -> S -> Prop) : Prop :=
  forall tr r s', sruns m s tr r s' -> P tr r s'.

(** It makes only requests of a kind, in any state. *)
Definition only {A} (P : Q -> Prop) (m : SM A) : Prop :=
  forall s tr r s', sruns m s tr r s' -> Forall (fun e => P (asked e).1) tr.

Lemma only_ret {A} P (a : A) : only P (mret a).
Proof. intros s tr r s' (-> & _)%sruns_ret. constructor. Qed.

Lemma only_gets {A} P (f : S -> A) : only P (gets f).
Proof. intros s tr r s' (-> & _)%sruns_gets. constructor. Qed.

Lemma only_modify P f : only P (modify f).
Proof. intros s tr r s' (-> & _)%sruns_modify. constructor. Qed.

Lemma only_state {A} P (f : S -> A * S) : only P (state f).
Proof. intros s tr r s' (-> & _)%sruns_state. constructor. Qed.

Lemma only_throw {A} P e : only P (sthrow (A := A) e).
Proof. intros s tr r s' (-> & _)%sruns_throw. constructor. Qed.

Lemma only_panic {A} P : only P (spanic (A := A)).
Proof. intros s tr r s' (-> & _)%sruns_panic. constructor. Qed.

Lemma only_tell (P : Q -> Prop) q : P q -> only P (tell q).
Proof. intros H s tr r s' (x & s1 & -> & _)%sruns_tell. by repeat constructor. Qed.

Lemma only_block (P : Q -> Prop) q : P q -> only P (block q).
Proof. intros H s tr r s' (x & -> & _)%sruns_block. by repeat constructor. Qed.

Lemma only_bind {A B} P (m : SM A) (f : A -> SM B) : only P m -> (forall a, only P (f a)) -> only P (m ≫= f).
Proof.
  intros Hm Hf s tr r s' (r1 & s1 & t1 & t2 & -> & H1 & H2)%sruns_bind. apply Forall_app. split; [by eapply Hm|].
  destruct r1; [by eapply Hf|by destruct H2 as [-> _]..].
Qed.

Lemma only_attempt {A} P (m : SM A) : only P m -> only P (sattempt m).
Proof. intros Hm s tr r s' (r1 & H & _)%sruns_attempt. by eapply Hm. Qed.

Lemma only_when P b (m : SM unit) : only P m -> only P (when b m).
Proof. by destruct b; [|intros _; apply only_ret]. Qed.

Lemma only_weaken {A} (P P' : Q -> Prop) (m : SM A) : (forall q, P q -> P' q) -> only P m -> only P' m.
Proof. intros HP Hm s tr r s' H. eapply Forall_impl; [by eapply Hm|]. intros e. apply HP. Qed.
End Stateful.

Arguments reply {S Q} answer q.
Arguments SM S {Q} answer A.

(** The type of an answer, and the only answer of a call without one. *)
Ltac sanswer x :=
  let T := type of x in let T' := eval hnf in T in change T' in (type of x);
  lazymatch T' with unit => destruct x | _ => idtac end.

(** Take a run of a handler apart, one operation or test at a time. *)
Ltac srun H :=
  lazymatch type of H with
  | sruns ?m ?s ?tr ?r ?s' =>
      lazymatch m with
      | _ ≫= _ =>
          let r1 := fresh "r" in let s1 := fresh "s" in let t1 := fresh "t" in let t2 := fresh "t" in
          let H1 := fresh "H" in
          apply sruns_bind in H as (r1 & s1 & t1 & t2 & -> & H1 & H); srun H1
      | mret _ => let E := fresh "E" in apply sruns_ret in H as (-> & E & ->); sres E
      | gets _ => let E := fresh "E" in apply sruns_gets in H as (-> & E & ->); sres E
      | modify _ => let E := fresh "E" in apply sruns_modify in H as (-> & E & ->); sres E
      | state _ => let E := fresh "E" in apply sruns_state in H as (-> & E & ->); sres E
      | sthrow _ => let E := fresh "E" in apply sruns_throw in H as (-> & E & ->); sres E
      | spanic => let E := fresh "E" in apply sruns_panic in H as (-> & E & ->); sres E
      | tell ?q => let x := fresh "x" in let s1 := fresh "s" in let E := fresh "E" in let E' := fresh "E" in
                   destruct (proj1 (sruns_tell q s tr r s') H) as (x & s1 & -> & E & E'); clear H; subst s'; sanswer x; sres E
      | block ?q => let x := fresh "x" in let E := fresh "E" in
                    destruct (proj1 (sruns_block q s tr r s') H) as (x & -> & E); clear H; sanswer x; sres E
      | when true _ => apply sruns_when_true in H; srun H
      | when false _ => let E := fresh "E" in apply sruns_when_false in H as (-> & E & ->); sres E
      | _ => idtac
      end
  | _ /\ _ => let E1 := fresh "E" in let E2 := fresh "E" in destruct H as (E1 & E2 & ->); try subst
  | _ => idtac
  end
with sres E :=
  lazymatch type of E with
  | ?r = _ => first [subst r | is_var r; idtac | discriminate E | injection E; clear E; intros; try subst]
  end.

(** A handler makes only the requests it is known to make: go through its text. *)
Ltac only_step :=
  lazymatch goal with
  | |- only _ ?m =>
      lazymatch m with
      | mret _ => apply only_ret
      | gets _ => apply only_gets
      | modify _ => apply only_modify
      | state _ => apply only_state
      | sthrow _ => apply only_throw
      | spanic => apply only_panic
      | _ ≫= _ => apply only_bind; [|intros ?]
      | tell ?q => refine (only_tell _ q _); try exact I
      | block ?q => refine (only_block _ q _); try exact I
      | sattempt _ => apply only_attempt
      | when _ _ => apply only_when
      | match ?x with _ => _ end => destruct x
      | let _ := _ in _ => cbv zeta
      end
  end.
Create HintDb only.
Ltac only_tac := repeat only_step; eauto with only.
