(* ===== verification/Errors.v ===== *)
(** * Errors: Go errors as values ([messagix/http.go], [codes.go], [types/error.go])

    An error is told apart by what it wraps.  [errors.Is] and [errors.As] walk the chain of
    wrapped errors; the sentinels of the repository are compared by identity, connection codes
    by value, and [ErrorResponse]s by their code, through the [Is] method. *)

From S2P Require Import Prelude Strconv.
#[local] Open Scope Z_scope.

(** ** Errors *)

Variant Sentinel :=
| ErrTokenInvalidated | ErrTokenInvalidatedRedirect | ErrUserIDIsZero
| ErrChallengeRequired | ErrCheckpointRequired | ErrConsentRequired | ErrAccountSuspended
| ErrRequestFailed | ErrResponseReadFailed | ErrServerError | ErrMaxRetriesReached
| ErrTooManyRedirects | ErrVersionIDNotFound
| ErrClientIsNil | ErrCachedStateTooOld
| ErrSocketClosed | ErrSocketAlreadyOpen | ErrNotAuthenticated | ErrDial | ErrSendConnect | ErrInReadLoop.

#[global] Instance Sentinel_eq_dec : EqDecision Sentinel.
Proof. solve_decision. Defined.

Definition sentinel_text (s : Sentinel) : string :=
  match s with
  | ErrTokenInvalidated => "access token is no longer valid"
  | ErrTokenInvalidatedRedirect => "access token is no longer valid: redirected"
  | ErrUserIDIsZero => "access token is no longer valid: user id in initial data is zero"
  | ErrChallengeRequired => "challenge required"
  | ErrCheckpointRequired => "checkpoint required"
  | ErrConsentRequired => "consent required"
  | ErrAccountSuspended => "account suspended"
  | ErrRequestFailed => "failed to send request"
  | ErrResponseReadFailed => "failed to read response body"
  | ErrServerError => "server returned 5xx error"
  | ErrMaxRetriesReached => "maximum retries reached"
  | ErrTooManyRedirects => "too many redirects"
  | ErrVersionIDNotFound => "version ID not found"
  | ErrClientIsNil => "client is nil"
  | ErrCachedStateTooOld => "cached state is too old"
  | ErrSocketClosed => "messagix-socket: socket is closed"
  | ErrSocketAlreadyOpen => "messagix-socket: socket is already open"
  | ErrNotAuthenticated => "messagix-socket: client has not been authenticated successfully yet"
  | ErrDial => "failed to dial socket"
  | ErrSendConnect => "failed to send connect packet"
  | ErrInReadLoop => "error in read loop"
  end.

(** The sentinels made with [%w]. *)
Definition sentinel_unwrap (s : Sentinel) : option Sentinel :=
  match s with
  | ErrTokenInvalidatedRedirect | ErrUserIDIsZero => Some ErrTokenInvalidated
  | _ => None
  end.

(** [ConnectionCode] ([codes.go]) *)
Definition CONNECTION_ACCEPTED : Z := 0.
Definition CONNECTION_REFUSED_UNACCEPTABLE_PROTOCOL_VERSION : Z := 1.
Definition CONNECTION_REFUSED_IDENTIFIER_REJECTED : Z := 2.
Definition CONNECTION_REFUSED_SERVER_UNAVAILABLE : Z := 3.
Definition CONNECTION_REFUSED_BAD_USERNAME_OR_PASSWORD : Z := 4.
Definition CONNECTION_REFUSED_UNAUTHORIZED : Z := 5.
Definition CONNECTION_REFUSED_UNKNOWN_24 : Z := 24.

Definition connectionCodesDescription : list (Z * string) :=
  [(CONNECTION_ACCEPTED, "accepted");
   (CONNECTION_REFUSED_UNACCEPTABLE_PROTOCOL_VERSION, "unacceptable protocol version");
   (CONNECTION_REFUSED_IDENTIFIER_REJECTED, "identifier rejected");
   (CONNECTION_REFUSED_SERVER_UNAVAILABLE, "server unavailable");
   (CONNECTION_REFUSED_BAD_USERNAME_OR_PASSWORD, "bad username or password");
   (CONNECTION_REFUSED_UNAUTHORIZED, "unauthorized");
   (CONNECTION_REFUSED_UNKNOWN_24, "unknown connection code 24")]%string.

Definition ConnectionCode_Error (c : Z) : string :=
  match list_find (fun x => x.1 = c) connectionCodesDescription with
  | Some (_, (_, name)) => name
  | None => "ConnectionCode(" ++ FormatInt 10 c ++ ")"
  end.

(** [types.ErrorResponse], as far as it is looked at. *)
Record ErrorResponse := mkErrorResponse { ErrorCode : Z; ErrorDescription : string }.

Inductive error :=
| OtherError (text : string)
| SentinelError (s : Sentinel)
| CodeError (c : Z)
| ResponseError (r : ErrorResponse)
| GraphQLError (message : string) (path : list string)
| Wrap (text : string) (e : error)          (** a text, then [%w] *)
| WrapSuffix (e : error) (text : string)    (** [%w], then a text *)
| WrapBoth (e1 e2 : error).                 (** [%w: %w] *)

Definition ErrorResponse_Error (r : ErrorResponse) : string :=
  FormatInt 10 (ErrorCode r) ++ ": " ++ ErrorDescription r.

Definition GraphQLError_Error (message : string) (path : list string) : string :=
  "graphql error at " ++ String.concat "." path ++ ": " ++ message.

Fixpoint error_text (e : error) : string :=
  match e with
  | OtherError t => t
  | SentinelError s => sentinel_text s
  | CodeError c => ConnectionCode_Error c
  | ResponseError r => ErrorResponse_Error r
  | GraphQLError m p => GraphQLError_Error m p
  | Wrap t e => t ++ error_text e
  | WrapSuffix e t => error_text e ++ t
  | WrapBoth e1 e2 => error_text e1 ++ ": " ++ error_text e2
  end.

(** ** [errors.Is] and [errors.As] *)

Variant Target := TheSentinel (s : Sentinel) | TheCode (c : Z) | TheResponse (code : Z).

Definition ErrPleaseReloadPage : Target := TheResponse 1357004.

Fixpoint errors_Is (e : error) (t : Target) : bool :=
  match e with
  | OtherError _ | GraphQLError _ _ => false
  | SentinelError s =>
      match t with
      | TheSentinel s' => bool_decide (s = s') || bool_decide (sentinel_unwrap s = Some s')
      | _ => false
      end
  | CodeError c => match t with TheCode c' => c =? c' | _ => false end
  | ResponseError r => match t with TheResponse code => ErrorCode r =? code | _ => false end
  | Wrap _ e | WrapSuffix e _ => errors_Is e t
  | WrapBoth e1 e2 => errors_Is e1 t || errors_Is e2 t
  end.

Abbreviation err_is e s := (errors_Is e (TheSentinel s)).

Fixpoint errors_As_Response (e : error) : option ErrorResponse :=
  match e with
  | ResponseError r => Some r
  | Wrap _ e | WrapSuffix e _ => errors_As_Response e
  | WrapBoth e1 e2 => match errors_As_Response e1 with Some r => Some r | None => errors_As_Response e2 end
  | _ => None
  end.

Fixpoint errors_As_GraphQL (e : error) : option string :=
  match e with
  | GraphQLError m _ => Some m
  | Wrap _ e | WrapSuffix e _ => errors_As_GraphQL e
  | WrapBoth e1 e2 => match errors_As_GraphQL e1 with Some r => Some r | None => errors_As_GraphQL e2 end
  | _ => None
  end.

(** An invalid token comes in three kinds. *)
Lemma token_errors e :
  err_is e ErrTokenInvalidatedRedirect = true \/ err_is e ErrUserIDIsZero = true -> err_is e ErrTokenInvalidated = true.
Proof.
  induction e as [| | | | |? e IH|e IH ?|e1 IH1 e2 IH2]; cbn; try (by intros [|]); try done.
  - destruct s; vm_compute; naive_solver.
  - rewrite !orb_true_iff. naive_solver.
Qed.

(** ** Requests over HTTP: which errors are final *)

Definition isPermanentRequestError (e : error) : bool :=
  err_is e ErrTokenInvalidated || err_is e ErrChallengeRequired || err_is e ErrCheckpointRequired ||
  err_is e ErrConsentRequired || err_is e ErrAccountSuspended || err_is e ErrTooManyRedirects.

(** What hides an error does not make it retryable. *)
Lemma permanent_wrapped e1 e2 : isPermanentRequestError e2 = true -> isPermanentRequestError (WrapBoth e1 e2) = true.
Proof.
  unfold isPermanentRequestError. cbn. rewrite !orb_true_iff. naive_solver.
Qed.
