(* ===== verification/ReadLoop.v ===== *)
(** * ReadLoop: the read loop of the MQTT socket ([socket.go])

    Three goroutines work on a connection: the reader takes packets off the websocket, a worker
    handles what the reader queues, a pinger sends pings and waits for their answers.  The first
    error is kept and becomes that of the loop.  A state of the loop is what the three share
    beside where each of them is; an action is a step of one of them, or of their environment
    (the server, the goroutine that disconnects, those that wait for replies).  A plan is a
    sequence of actions, any interleaving of the goroutines. *)

From S2P Require Import Prelude Strconv Byter Packets ResponseHandler Mqtt Lightspeed Tables Events Socket Errors.
#[local] Open Scope Z_scope.

(** ** Data *)

(** What is queued for the worker: a CONNACK, or a publish with the event's fields. *)
Inductive Item :=
| ItReady (IsNewSession : bool)
| ItPublish (topic : string) (d : PublishResponseData) (MessageIdentifier QoS : Z).

Inductive MessageType := TextMessage | BinaryMessage.

(** The reader: between two packets, about to send to the queue, about to send a reply on the
    channel [c] of the request it answers, which has no room, asleep before it returns, waiting
    for the worker with its result, done; or the process is down. *)
Inductive Reader :=
| Reading
| Sending (i : Item)
| Replying (c : nat) (m : Ev)
| Stopping
| Draining (e : error)
| Finished (e : error)
| Crashed (h : halt).

Inductive Worker := WIdle | WBusy (i : Item) | WEnded.

(** [queued] and [handled] are what went into the queue and what the worker has dealt with, in
    order, [refused] the code of the last CONNACK that refused the connection. *)
Record Loop := mkLoop {
  reader : Reader; worker : Worker; pinging : bool;
  wsQueue : list Item; closeErr : option error; closedCleanly : bool; closed : bool;
  cancelled : bool; conn : bool; registry : ResponseHandler Ev;
  queued : list Item; handled : list Item; refused : option Z
}.

Definition set_reader (r : Reader) (s : Loop) : Loop :=
  mkLoop r (worker s) (pinging s) (wsQueue s) (closeErr s) (closedCleanly s) (closed s) (cancelled s) (conn s) (registry s) (queued s) (handled s) (refused s).
Definition set_worker (w : Worker) (s : Loop) : Loop :=
  mkLoop (reader s) w (pinging s) (wsQueue s) (closeErr s) (closedCleanly s) (closed s) (cancelled s) (conn s) (registry s) (queued s) (handled s) (refused s).
Definition set_queue (q : list Item) (s : Loop) : Loop :=
  mkLoop (reader s) (worker s) (pinging s) q (closeErr s) (closedCleanly s) (closed s) (cancelled s) (conn s) (registry s) (queued s) (handled s) (refused s).
Definition set_closeErr (e : option error) (s : Loop) : Loop :=
  mkLoop (reader s) (worker s) (pinging s) (wsQueue s) e (closedCleanly s) (closed s) (cancelled s) (conn s) (registry s) (queued s) (handled s) (refused s).
Definition set_clean (s : Loop) : Loop :=
  mkLoop (reader s) (worker s) (pinging s) (wsQueue s) (closeErr s) true (closed s) (cancelled s) (conn s) (registry s) (queued s) (handled s) (refused s).
Definition set_closed (s : Loop) : Loop :=
  mkLoop (reader s) (worker s) (pinging s) (wsQueue s) (closeErr s) (closedCleanly s) true (cancelled s) (conn s) (registry s) (queued s) (handled s) (refused s).
Definition stop_pinging (s : Loop) : Loop :=
  mkLoop (reader s) (worker s) false (wsQueue s) (closeErr s) (closedCleanly s) (closed s) (cancelled s) (conn s) (registry s) (queued s) (handled s) (refused s).
Definition set_cancelled (s : Loop) : Loop :=
  mkLoop (reader s) (worker s) (pinging s) (wsQueue s) (closeErr s) (closedCleanly s) (closed s) true (conn s) (registry s) (queued s) (handled s) (refused s).
Definition drop_conn (s : Loop) : Loop :=
  mkLoop (reader s) (worker s) (pinging s) (wsQueue s) (closeErr s) (closedCleanly s) (closed s) (cancelled s) false (registry s) (queued s) (handled s) (refused s).
Definition set_registry (p : ResponseHandler Ev) (s : Loop) : Loop :=
  mkLoop (reader s) (worker s) (pinging s) (wsQueue s) (closeErr s) (closedCleanly s) (closed s) (cancelled s) (conn s) p (queued s) (handled s) (refused s).
Definition note_queued (i : Item) (s : Loop) : Loop :=
  mkLoop (reader s) (worker s) (pinging s) (wsQueue s ++ [i]) (closeErr s) (closedCleanly s) (closed s) (cancelled s) (conn s) (registry s) (queued s ++ [i]) (handled s) (refused s).
Definition note_handled (i : Item) (s : Loop) : Loop :=
  mkLoop (reader s) (worker s) (pinging s) (wsQueue s) (closeErr s) (closedCleanly s) (closed s) (cancelled s) (conn s) (registry s) (queued s) (handled s ++ [i]) (refused s).
Definition set_refused (c : Z) (s : Loop) : Loop :=
  mkLoop (reader s) (worker s) (pinging s) (wsQueue s) (closeErr s) (closedCleanly s) (closed s) (cancelled s) (conn s) (registry s) (queued s) (handled s) (Some c).

(** The loop starts with an open connection. *)
Definition started (p : ResponseHandler Ev) : Loop :=
  mkLoop Reading WIdle true [] None false false false true p [] [] None.

Definition queue_size : Z := 32.

(** [closeErr.CompareAndSwap(nil, ...)]: the first error is kept. *)
Definition keep_first (e : error) (s : Loop) : Loop :=
  match closeErr s with None => set_closeErr (Some e) s | Some _ => s end.

Definition closeDueToError (s : Loop) : Loop := set_closed s.

Definition crash (h : halt) (s : Loop) : Loop := set_reader (Crashed h) s.

Definition refusal (c : Z) : error := Wrap "connection refused: " (CodeError c).

(** ** What each goroutine does *)

Section ReadLoop.
Context (finish : PublishResponseData -> res tables).
Context (zero_data : PublishResponseData) (unmarshal : list byte -> PublishResponseData -> res PublishResponseData).

(** A reply for a channel that still holds an earlier one: the reader waits.  On a channel
    that is closed the process goes down. *)
Definition reply_blocked (ct : ChannelType) (packetID : Z) (m : Ev) (h : halt) (s : Loop) : Loop :=
  match getChannel (registry s) packetID ct with
  | Some c => match chan_send c m (chans (registry s)) with SendBlocked => set_reader (Replying c m) s | _ => crash h s end
  | None => crash h s
  end.

(** A publish: it answers a request, or is queued. *)
Definition read_publish (topic : string) (d : PublishResponseData) (MessageIdentifier QoS : Z) (s : Loop) : Loop :=
  match handlePublishResponseEvent finish (registry s) topic d MessageIdentifier QoS false with
  | Halt h =>
      match finish d with
      | Ok t => reply_blocked RequestChannel (uint16 (RequestID d)) (EvResponse d t) h s
      | _ => crash h s
      end
  | Err _ => s
  | Ok (p, eff) =>
      let s := set_registry p s in
      if addToQueue eff then set_reader (Sending (ItPublish topic d MessageIdentifier QoS)) s else s
  end.

Definition read_ack (ackData : Ev) (packetID : Z) (s : Loop) : Loop :=
  match handleACKEvent (registry s) ackData packetID with
  | Halt h => reply_blocked PacketChannel packetID ackData h s
  | Err _ => s
  | Ok p => set_registry p s
  end.

Definition handleBinaryMessage (data : list byte) (s : Loop) : Loop :=
  match Response_Read zero_data unmarshal data with
  | Halt h => crash h s
  | Err e => closeDueToError (keep_first (Wrap "failed to parse websocket data: " (OtherError e)) s)
  | Ok resp =>
      match r_ResponseData resp with
      | Event_PingResp => s
      | Event_PublishResponse topic d mid _ => read_publish topic d mid (Response_QOS (r_PacketByte resp)) s
      | Event_PublishACK id => read_ack (EvPubACK id) id s
      | Event_SubscribeACK id q => read_ack (EvSubACK id q) id s
      | Event_Ready new code =>
          if negb (code =? CONNECTION_ACCEPTED) then
            closeDueToError (set_refused code (set_closeErr (Some (refusal code)) s))
          else set_reader (Sending (ItReady new)) s
      end
  end.

(** The worker is done with an item: a publish is decoded again and handed to the client, a
    CONNACK has run the handler of a new connection, which may fail. *)
Definition worker_done (i : Item) (err : option error) (s : Loop) : Loop :=
  match i with
  | ItPublish topic d mid qos =>
      match handlePublishResponseEvent finish (registry s) topic d mid qos true with
      | Halt h => crash h s
      | _ => set_worker WIdle (note_handled i s)
      end
  | ItReady _ =>
      let s := set_worker WIdle (note_handled i s) in
      match err with
      | None => s
      | Some e => closeDueToError (keep_first (Wrap "failed to handle connect ack: " e) s)
      end
  end.

Definition queue_closed (s : Loop) : bool := match reader s with Draining _ | Finished _ => true | _ => false end.

(** ** Actions *)

Inductive ReaderAction :=
| RRead (mt : MessageType) (data : list byte)
| RServerClose (code : Z) (text : string)       (* the handler of a close frame *)
| RError (e : string)
| RSent
| RReplied
| RReturn
| RJoined.

Inductive WorkerAction := WTake | WDone (err : option error) | WEnd.

Inductive OtherAction :=
| OPing (err : option string)
| OPongTimeout
| OPingerEnd
| ODisconnect
| OCancel
| ORegistry (p : ResponseHandler Ev).

Inductive Action := ByReader (a : ReaderAction) | ByWorker (a : WorkerAction) | ByOther (a : OtherAction).

(** The step of an action, if it can be taken. *)
Definition reader_act (a : ReaderAction) (s : Loop) : option Loop :=
  match reader s, a with
  | Reading, RRead TextMessage _ => Some s
  | Reading, RRead BinaryMessage data => Some (handleBinaryMessage data s)
  | Reading, RServerClose code text =>
      Some (set_clean (keep_first (OtherError ("closed by server: " ++ FormatInt 10 code ++ " " ++ text)) s))
  | Reading, RError e =>
      let s := keep_first (Wrap "failed to read message: " (OtherError e)) s in
      Some (set_reader Stopping (if closedCleanly s then s else closeDueToError s))
  | Sending i, RSent => if llen (wsQueue s) <? queue_size then Some (set_reader Reading (note_queued i s)) else None
  | Replying c m, RReplied =>
      match chan_send c m (chans (registry s)) with
      | Sent h => Some (set_reader Reading (set_registry (set_chans h (registry s)) s))
      | SendBlocked => None
      | SendPanic => Some (crash HPanic s)
      end
  | Stopping, RReturn => Some (match closeErr s with Some e => set_reader (Draining e) s | None => crash HPanic s end)
  | Draining e, RJoined => match worker s with WEnded => Some (set_reader (Finished e) (drop_conn s)) | _ => None end
  | _, _ => None
  end.

Definition worker_act (a : WorkerAction) (s : Loop) : option Loop :=
  match worker s, a with
  | WIdle, WTake =>
      match wsQueue s with
      | i :: q => Some (set_queue q (set_worker (if cancelled s then WEnded else WBusy i) s))
      | [] => None
      end
  | WIdle, WEnd => match wsQueue s with [] => if queue_closed s then Some (set_worker WEnded s) else None | _ => None end
  | WBusy i, WDone err => Some (worker_done i err s)
  | _, _ => None
  end.

Definition other_act (a : OtherAction) (s : Loop) : option Loop :=
  match a with
  | OPing err =>
      if pinging s then
        Some (match err with
              | None => s
              | Some e => stop_pinging (closeDueToError (keep_first (Wrap "failed to send ping: " (OtherError e)) s))
              end)
      else None
  | OPongTimeout =>
      (* the timer is stopped when the loop returns *)
      if pinging s && match reader s with Finished _ => false | _ => true end
      then Some (stop_pinging (closeDueToError (keep_first (OtherError "pong timeout") s))) else None
  | OPingerEnd => if pinging s && cancelled s then Some (stop_pinging s) else None
  | ODisconnect => Some (set_closed (set_clean (keep_first (OtherError "closed cleanly") s)))
  | OCancel => Some (set_cancelled s)
  | ORegistry p => Some (set_registry p s)
  end.

Definition is_down (s : Loop) : bool := match reader s with Crashed _ => true | _ => false end.

Definition act (a : Action) (s : Loop) : option Loop :=
  if is_down s then None
  else match a with ByReader a => reader_act a s | ByWorker a => worker_act a s | ByOther a => other_act a s end.

Fixpoint run (l : list Action) (s : Loop) : option Loop :=
  match l with
  | [] => Some s
  | a :: l => match act a s with Some s => run l s | None => None end
  end.

Definition reachable (s : Loop) : Prop := exists p l, run l (started p) = Some s.

(** A reader that waits for room in a queue nobody empties. *)
Definition jammed (s : Loop) : Prop := (exists i, reader s = Sending i) /\ worker s = WEnded /\ queue_size <= llen (wsQueue s).

(** A reader with a reply for a channel that has no room, or that was closed meanwhile. *)
Definition waits_to_reply (s : Loop) : Prop :=
  exists c m, reader s = Replying c m /\ forall h, chan_send c m (chans (registry s)) <> Sent h.

(** ** The invariant *)

(** What is queued: CONNACKs, and publishes that answer no request, and decode. *)
Definition item_ok (i : Item) : Prop :=
  match i with
  | ItReady _ => True
  | ItPublish topic d _ _ => is_LS_RESP topic = true /\ RequestID d = 0 /\ exists t, finish d = Ok t
  end.

Definition busy (s : Loop) : list Item := match worker s with WBusy i => [i] | _ => [] end.

Record inv (s : Loop) : Prop := {
  inv_room : llen (wsQueue s) <= queue_size;
  inv_error : match reader s with
              | Stopping => is_Some (closeErr s)
              | Draining e | Finished e => closeErr s = Some e
              | _ => True
              end;
  inv_refused : forall c, refused s = Some c -> closeErr s = Some (refusal c);
  inv_order : exists dropped, queued s = handled s ++ busy s ++ dropped ++ wsQueue s /\
                (dropped <> [] -> worker s = WEnded /\ cancelled s = true);
  inv_ended : worker s = WEnded -> cancelled s = true \/ queue_closed s = true /\ wsQueue s = [];
  inv_items : Forall item_ok (wsQueue s ++ busy s) /\ match reader s with Sending i => item_ok i | _ => True end;
  inv_conn : match reader s with Finished _ => worker s = WEnded /\ conn s = false | _ => True end
}.

Lemma inv_started p : inv (started p).
Proof. split; cbn; try done; by exists []. Qed.

(** Steps that change none of what the invariant is about. *)
Definition same_core (s s' : Loop) : Prop :=
  reader s' = reader s /\ worker s' = worker s /\ wsQueue s' = wsQueue s /\ closeErr s' = closeErr s /\
  cancelled s' = cancelled s /\ conn s' = conn s /\ queued s' = queued s /\ handled s' = handled s /\ refused s' = refused s.

Lemma inv_same s s' : same_core s s' -> inv s -> inv s'.
Proof.
  intros (E1 & E2 & E3 & E4 & E5 & E6 & E7 & E8 & E9) [H1 H2 H3 H4 H5 H6 H7].
  split; unfold busy, queue_closed in *; rewrite ?E1, ?E2, ?E3, ?E4, ?E5, ?E6, ?E7, ?E8, ?E9; auto.
Qed.

(** The first error is kept, and no refusal is forgotten. *)
Lemma inv_keep_first e s : inv s -> inv (keep_first e s).
Proof.
  unfold keep_first. destruct (closeErr s) eqn:E; [done|]. intros [H1 H2 H3 H4 H5 H6 H7]. split; cbn; try done.
  - destruct (reader s); try done; congruence.
  - intros c Hc. specialize (H3 c Hc). congruence.
Qed.

Lemma reader_keep_first e s : reader (keep_first e s) = reader s.
Proof. unfold keep_first. by destruct (closeErr s). Qed.

Lemma error_keep_first e s : is_Some (closeErr (keep_first e s)).
Proof. unfold keep_first. destruct (closeErr s) eqn:E; cbn; rewrite ?E; by eexists. Qed.


Definition down (s : Loop) : Prop := exists h, reader s = Crashed h.

Lemma down_crash h s : down (crash h s).
Proof. by exists h. Qed.

(** The reader goes on. *)
Lemma inv_set_reader r s : inv s -> queue_closed s = false \/ queue_closed (set_reader r s) = true ->
  match r with
  | Stopping => is_Some (closeErr s)
  | Draining e => closeErr s = Some e
  | Finished e => closeErr s = Some e /\ worker s = WEnded /\ conn s = false
  | Sending i => item_ok i
  | _ => True
  end -> inv (set_reader r s).
Proof.
  intros [H1 H2 H3 H4 H5 H6 H7] Hq Hr. split; cbn; try done.
  - destruct r; naive_solver.
  - intros Hw. destruct (H5 Hw) as [?|[Hc ?]]; [by left|]. destruct Hq as [Hq|Hq]; [congruence|by right].
  - destruct H6 as [H6 _]. split; [done|]. by destruct r.
  - destruct r; try done. by destruct Hr as (_ & ? & ?).
Qed.

Lemma inv_reply_blocked ct id m h s : inv s -> reader s = Reading -> down (reply_blocked ct id m h s) \/ inv (reply_blocked ct id m h s).
Proof.
  intros H Hr. unfold reply_blocked. repeat case_match; try (left; apply down_crash).
  right. apply inv_set_reader; [done|left; unfold queue_closed; by rewrite Hr|done].
Qed.

Lemma inv_read_publish topic d mid qos s : inv s -> reader s = Reading -> down (read_publish topic d mid qos s) \/ inv (read_publish topic d mid qos s).
Proof.
  intros H Hr. unfold read_publish, handlePublishResponseEvent.
  assert (forall p, inv (set_registry p s)) as Hs by (intros p; by eapply inv_same; [|exact H]).
  destruct (is_LS_RESP topic) eqn:Ht; [|right; apply Hs].
  destruct (finish d) as [t|e|h] eqn:Ef; cbn [mbind res_bind]; [|by right|left; apply down_crash].
  destruct (negb false && _).
  - destruct (updateRequestChannel _ _ _) as [[p b]|e|h]; cbn [mbind res_bind]; [right; apply Hs|by right|by apply inv_reply_blocked].
  - destruct (Z.eqb_spec (RequestID d) 0) as [Hd|Hd]; [|right; apply Hs]. right. apply inv_set_reader; [apply Hs|left; unfold queue_closed; cbn; by rewrite Hr|].
    cbn. split_and!; [done..|]. by eexists.
Qed.

Lemma inv_refuse c s : inv s -> reader s = Reading -> inv (closeDueToError (set_refused c (set_closeErr (Some (refusal c)) s))).
Proof.
  intros [H1 H2 H3 H4 H5 H6 H7] Hr. split; cbn; try done; try (by rewrite Hr).
  intros c' [= ->]. done.
Qed.

Lemma inv_binary data s : inv s -> reader s = Reading ->
  let s' := handleBinaryMessage data s in down s' \/ inv s'.
Proof.
  intros H Hr. cbv zeta. unfold handleBinaryMessage.
  assert (forall e p, let s' := read_ack e p s in down s' \/ inv s') as Hack.
  { intros e p. cbv zeta. unfold read_ack. destruct (handleACKEvent _ _ _) as [q|e'|h]; [right|by right|by apply inv_reply_blocked].
    by eapply inv_same; [|exact H]. }
  destruct (Response_Read _ _ _) as [resp|e|h].
  - destruct (r_ResponseData resp) as [new code| | | |]; try by apply Hack.
    + destruct (negb _); right; [by apply inv_refuse|]. apply inv_set_reader; [done|left; unfold queue_closed; by rewrite Hr|done].
    + by apply inv_read_publish.
    + by right.
  - right. eapply inv_same; [|apply inv_keep_first, H]. done.
  - left. apply down_crash.
Qed.

Lemma inv_worker_done i err s : inv s -> worker s = WBusy i ->
  let s' := worker_done i err s in down s' \/ inv s'.
Proof.
  intros H Hw. cbv zeta.
  assert (inv (set_worker WIdle (note_handled i s))) as Hd.
  { destruct H as [H1 H2 H3 (d & H4 & Hd) H5 H6 H7]. split; cbn; try done.
    - exists d. unfold busy in *. rewrite Hw in H4. cbn in *. rewrite H4, <- !app_assoc. split; [done|]. intros Hne.
      destruct (Hd Hne) as [E _]. congruence.
    - rewrite app_nil_r. destruct H6 as [H6 H6']. split; [|done]. unfold busy in H6. rewrite Hw in H6. by apply Forall_app in H6 as [? _].
    - destruct (reader s); try done. destruct H7. congruence. }
  destruct i as [new|topic d mid qos]; cbn [worker_done].
  - right. destruct err as [e|]; [|done]. eapply inv_same; [|apply inv_keep_first, Hd]. done.
  - destruct (handlePublishResponseEvent _ _ _ _ _ _ _) as [x|e|h]; [by right..|left; apply down_crash].
Qed.

Lemma reader_act_inv a s s' : inv s -> reader_act a s = Some s' -> down s' \/ inv s'.
Proof.
  intros H E. unfold reader_act in E. destruct (reader s) as [|i|c m| |e0|e0|h] eqn:Hr, a as [[] data|code text|e| | | |]; try done; simplify_eq.
  - by right.
  - by apply inv_binary.
  - right. eapply inv_same; [|apply inv_keep_first, H]. done.
  - right. pose proof (inv_keep_first (Wrap "failed to read message: " (OtherError e)) s H) as K.
    apply inv_set_reader; [by destruct (closedCleanly _); [|eapply inv_same; [|exact K]]| |].
    + left. unfold queue_closed. destruct (closedCleanly _); cbn; by rewrite reader_keep_first, Hr.
    + destruct (closedCleanly _); apply error_keep_first.
  - destruct (_ <? _) eqn:Hl; [|done]. injection E as <-. right. destruct H as [H1 H2 H3 (d & H4 & Hd) H5 H6 H7].
    rewrite Hr in *. split; cbn; try done.
    + rewrite length_app. cbn. lia.
    + exists d. rewrite H4, <- !app_assoc. done.
    + intros Hw. destruct (H5 Hw) as [?|[Hc _]]; [by left|]. unfold queue_closed in Hc. by rewrite Hr in Hc.
    + destruct H6 as [H6 Hi]. split; [|done]. apply Forall_app in H6 as [? ?]. rewrite !Forall_app. by repeat constructor.
  - destruct (chan_send _ _ _) eqn:Ec; [|done|]; injection E as <-; [right|left; apply down_crash].
    apply inv_set_reader; [by eapply inv_same; [|exact H]|left; unfold queue_closed; cbn; by rewrite Hr|done].
  - pose proof (inv_error s H) as He. rewrite Hr in He. destruct He as [e He]. rewrite He. right.
    apply inv_set_reader; [done|by right|done].
  - destruct (worker s) eqn:Hw; try done. injection E as <-. right. pose proof (inv_error s H) as He. rewrite Hr in He.
    apply inv_set_reader; [|by right|done]. destruct H as [H1 H2 H3 H4 H5 H6 H7]. split; cbn; try done. by rewrite Hr.
Qed.

Lemma worker_act_inv a s s' : inv s -> worker_act a s = Some s' -> down s' \/ inv s'.
Proof.
  intros H E. unfold worker_act in E. destruct (worker s) as [|i|] eqn:Hw, a as [|err|]; try done.
  - destruct (wsQueue s) as [|i q] eqn:Hq; [done|]. injection E as <-. right.
    destruct H as [H1 H2 H3 (d & H4 & Hd) H5 [H6 H6'] H7]. unfold busy in *. rewrite Hw, Hq in *. cbn in H4, H6, H1.
    apply Forall_cons in H6 as [Hi H6]. rewrite app_nil_r in H6.
    assert (d = []) as -> by (destruct d; [done|by destruct Hd]).
    split; unfold busy; cbn; try done.
    + lia.
    + destruct (cancelled s); [by exists [i]|exists []]. by rewrite H4.
    + destruct (cancelled s); [by left|done].
    + split; [|done]. apply Forall_app. split; [done|]. destruct (cancelled s); by repeat constructor.
    + destruct (reader s); try done. by destruct H7.
  - destruct (wsQueue s) eqn:Hq; [|done]. destruct (queue_closed s) eqn:Hc; [|done]. injection E as <-. right.
    destruct H as [H1 H2 H3 (d & H4 & Hd) H5 H6 H7]. unfold busy in *. rewrite Hw, Hq in *.
    split; unfold busy; cbn; rewrite ?Hq; try done.
    + exists d. split; [done|]. intros Hne. by destruct (Hd Hne).
    + by right.
    + destruct (reader s); try done. by destruct H7.
  - injection E as <-. by apply inv_worker_done.
Qed.

Lemma other_act_inv a s s' : inv s -> other_act a s = Some s' -> inv s'.
Proof.
  intros H E. destruct a as [err| | | | |p]; cbn [other_act] in E; try (case_match; [|done]); simplify_eq.
  - destruct err; [|done]. eapply inv_same; [|apply inv_keep_first, H]. done.
  - eapply inv_same; [|apply inv_keep_first, H]. done.
  - by eapply inv_same; [|exact H].
  - eapply inv_same; [|apply inv_keep_first, H]. done.
  - destruct H as [H1 H2 H3 (d & H4 & Hd) H5 H6 H7]. split; cbn; try done; [|by left].
    exists d. split; [done|]. intros Hne. by destruct (Hd Hne).
  - by eapply inv_same; [|exact H].
Qed.

Lemma run_inv l : forall s s', inv s -> run l s = Some s' -> down s' \/ inv s'.
Proof.
  induction l as [|a l IH]; intros s s' H E; cbn [run] in E; [injection E as <-; by right|].
  destruct (act a s) as [s1|] eqn:Ea; [|done]. unfold act in Ea. destruct (is_down s); [done|].
  assert (down s1 \/ inv s1) as [[h Hd]|H1].
  { destruct a as [a|a|a]; [by eapply reader_act_inv|by eapply worker_act_inv|right; by eapply other_act_inv]. }
  - destruct l as [|a' l]; cbn [run] in E; [injection E as <-; by left; exists h|]. unfold act, is_down in E. by rewrite Hd in E.
  - by apply (IH s1).
Qed.

Lemma reachable_inv s : reachable s -> down s \/ inv s.
Proof. intros (p & l & E). eapply run_inv; [apply inv_started|exact E]. Qed.
(** ** Ending *)

(** What the goroutines of the connection do, and whoever disconnects or cancels it; not what
    happens to the channels of those that wait for replies. *)
Definition own (a : Action) : bool := match a with ByOther (ORegistry _) => false | _ => true end.

(** The loop can come to its end, though nobody takes a reply meanwhile. *)
Definition ends_alone (s : Loop) : Prop :=
  exists l s' e, Forall (fun a => own a = true) l /\ run l s = Some s' /\ reader s' = Finished e.

Definition own_step (a : Action) (s s' : Loop) : Prop := own a = true /\ act a s = Some s'.

Lemma ends_step a s s' : own_step a s s' -> ends_alone s' -> ends_alone s.
Proof.
  intros [Hown Ha] (l & s2 & e & Ho & Hl & He). exists (a :: l), s2, e. cbn [run]. rewrite Ha. by split_and!; [constructor|..].
Qed.

(** What was queued is handled without going down. *)
Lemma worker_done_ok i s : item_ok i -> worker_done i None s = set_worker WIdle (note_handled i s).
Proof.
  destruct i as [new|topic d mid qos]; [done|]. intros (Ht & Hd & t & Ef). cbn [worker_done].
  unfold handlePublishResponseEvent. rewrite Ht, Ef. cbn. by rewrite Hd.
Qed.

Lemma worker_step a s s' : is_down s = false -> worker_act a s = Some s' -> own_step (ByWorker a) s s'.
Proof. intros Hd Ha. split; [done|]. unfold act. by rewrite Hd. Qed.

Lemma reader_step a s s' : is_down s = false -> reader_act a s = Some s' -> own_step (ByReader a) s s'.
Proof. intros Hd Ha. split; [done|]. unfold act. by rewrite Hd. Qed.

(** The worker comes back from what it is doing. *)
Lemma worker_comes_back s : inv s -> is_down s = false -> worker s <> WEnded ->
  exists s', (s' = s \/ own_step (ByWorker (WDone None)) s s') /\ inv s' /\ reader s' = reader s /\
    wsQueue s' = wsQueue s /\ worker s' = WIdle.
Proof.
  intros H Hd Hw. destruct (worker s) as [|i|] eqn:E; [|clear Hw|done].
  - exists s. split; [by left|]. by split_and!.
  - assert (item_ok i) as Hi.
    { destruct H as [_ _ _ _ _ [H _] _]. unfold busy in H. rewrite E in H. by apply Forall_app in H as [_ [? _]%Forall_cons]. }
    exists (set_worker WIdle (note_handled i s)).
    assert (worker_act (WDone None) s = Some (set_worker WIdle (note_handled i s))) as Ha.
    { unfold worker_act. by rewrite E, worker_done_ok. }
    split; [right; by apply worker_step|]. split_and!; try done.
    destruct (worker_act_inv _ _ _ H Ha) as [[h Hh]|?]; [|done]. cbn in Hh. unfold is_down in Hd. by rewrite Hh in Hd.
Qed.

Lemma ends_drained e s : inv s -> reader s = Draining e -> worker s = WEnded -> ends_alone s.
Proof.
  intros H Hr Hw. exists [ByReader RJoined], (set_reader (Finished e) (drop_conn s)), e. split; [by repeat constructor|]. split; [|done].
  cbn [run]. unfold act, is_down, reader_act. by rewrite Hr, Hw.
Qed.

Lemma ended_or_not s : worker s = WEnded \/ worker s <> WEnded.
Proof. destruct (worker s); [by right..|by left]. Qed.

Lemma ends_draining e n : forall s, length (wsQueue s) = n -> inv s -> reader s = Draining e -> ends_alone s.
Proof.
  induction n as [|n IH]; intros s Hn H Hr.
  all: assert (is_down s = false) as Hd by (unfold is_down; by rewrite Hr).
  all: destruct (ended_or_not s) as [Hw|Hw]; [by eapply ends_drained|].
  all: destruct (worker_comes_back s H Hd Hw) as (s1 & Hs1 & H1 & R1 & Q1 & W1).
  all: assert (ends_alone s1) as He; [|by destruct Hs1 as [->|Hs1]; [|eapply ends_step]].
  all: assert (is_down s1 = false) as Hd1 by (unfold is_down; by rewrite R1, Hr).
  - rewrite <- Q1 in Hn. destruct (wsQueue s1) eqn:Eq; [|done].
    assert (worker_act WEnd s1 = Some (set_worker WEnded s1)) as Ha.
    { unfold worker_act, queue_closed. by rewrite W1, Eq, R1, Hr. }
    eapply ends_step; [by apply worker_step|].
    destruct (worker_act_inv _ _ _ H1 Ha) as [[h Hh]|H2]; [cbn in Hh; congruence|].
    eapply ends_drained; [done|by cbn; rewrite R1|done].
  - rewrite <- Q1 in Hn. destruct (wsQueue s1) as [|i q] eqn:Eq; [done|].
    eassert (worker_act WTake s1 = Some _) as Ha by (unfold worker_act; rewrite W1, Eq; reflexivity).
    eapply ends_step; [by apply worker_step|].
    destruct (worker_act_inv _ _ _ H1 Ha) as [[h Hh]|H2]; [cbn in Hh; congruence|].
    apply IH; [by injection Hn|done|by cbn; rewrite R1].
Qed.

Lemma ends_stopping s : inv s -> reader s = Stopping -> ends_alone s.
Proof.
  intros H Hr. pose proof (inv_error s H) as He. rewrite Hr in He. destruct He as [e He].
  assert (reader_act RReturn s = Some (set_reader (Draining e) s)) as Ha by (unfold reader_act; by rewrite Hr, He).
  eapply ends_step; [apply reader_step; [unfold is_down; by rewrite Hr|exact Ha]|].
  destruct (reader_act_inv _ _ _ H Ha) as [[h Hh]|H2]; [done|]. by eapply ends_draining.
Qed.

Lemma ends_reading s : inv s -> reader s = Reading -> ends_alone s.
Proof.
  intros H Hr. eassert (reader_act (RError "EOF") s = Some _) as Ha by (unfold reader_act; rewrite Hr; reflexivity).
  eapply ends_step; [apply reader_step; [unfold is_down; by rewrite Hr|exact Ha]|].
  destruct (reader_act_inv _ _ _ H Ha) as [[h Hh]|H2]; [done|]. by apply ends_stopping.
Qed.

Lemma ends_sending i s : inv s -> reader s = Sending i -> llen (wsQueue s) < queue_size -> ends_alone s.
Proof.
  intros H Hr Hl. assert (reader_act RSent s = Some (set_reader Reading (note_queued i s))) as Ha.
  { unfold reader_act. rewrite Hr. by destruct (Z.ltb_spec (llen (wsQueue s)) queue_size); [|lia]. }
  eapply ends_step; [apply reader_step; [unfold is_down; by rewrite Hr|exact Ha]|].
  destruct (reader_act_inv _ _ _ H Ha) as [[h Hh]|H2]; [done|]. by apply ends_reading.
Qed.

Lemma ends_replying c m h s : inv s -> reader s = Replying c m -> chan_send c m (chans (registry s)) = Sent h -> ends_alone s.
Proof.
  intros H Hr Hc. eassert (reader_act RReplied s = Some _) as Ha by (unfold reader_act; rewrite Hr, Hc; reflexivity).
  eapply ends_step; [apply reader_step; [unfold is_down; by rewrite Hr|exact Ha]|].
  destruct (reader_act_inv _ _ _ H Ha) as [[h' Hh]|H2]; [done|]. by apply ends_reading.
Qed.

Lemma ends_sending_or_jammed i s : inv s -> reader s = Sending i -> ~ jammed s -> ends_alone s.
Proof.
  intros H Hr Hst. assert (is_down s = false) as Hd by (unfold is_down; by rewrite Hr).
  destruct (Z.lt_ge_cases (llen (wsQueue s)) queue_size) as [Hl|Hl]; [by eapply ends_sending|].
  assert (worker s <> WEnded) as Hw by (intros Hw; apply Hst; unfold jammed; eauto).
  destruct (worker_comes_back s H Hd Hw) as (s1 & Hs1 & H1 & R1 & Q1 & W1).
  assert (ends_alone s1) as He; [|by destruct Hs1 as [->|Hs1]; [|eapply ends_step]].
  rewrite <- Q1 in Hl. destruct (wsQueue s1) as [|j q] eqn:Eq; [done|].
  eassert (worker_act WTake s1 = Some _) as Ha by (unfold worker_act; rewrite W1, Eq; reflexivity).
  eapply ends_step; [apply worker_step; [unfold is_down; by rewrite R1, Hr|exact Ha]|].
  destruct (worker_act_inv _ _ _ H1 Ha) as [[h Hh]|H2]; [cbn in Hh; congruence|].
  eapply (ends_sending i); [done|by cbn; rewrite R1|]. cbn.
  pose proof (inv_room s1 H1) as Hroom. rewrite Eq in Hroom. cbn in Hroom. lia.
Qed.

(** Nothing moves a reader that waits for an ended worker, and only its channel one that waits
    to reply. *)
Lemma jammed_stays a s s' : jammed s -> act a s = Some s' -> jammed s'.
Proof.
  intros ((i & Hr) & Hw & Hq) Ha. unfold act, is_down in Ha. rewrite Hr in Ha. destruct a as [a|a|a].
  - unfold reader_act in Ha. rewrite Hr in Ha. destruct a as [[]| | | | | |]; try done.
    destruct (Z.ltb_spec (llen (wsQueue s)) queue_size); [lia|done].
  - unfold worker_act in Ha. by rewrite Hw in Ha.
  - unfold jammed. destruct a as [err| | | | |p]; cbn [other_act] in Ha; try (case_match; [|done]); simplify_eq; cbn;
      try (destruct err; cbn); unfold keep_first; try (destruct (closeErr s); cbn); split; eauto.
Qed.

Lemma jammed_run l : forall s s', jammed s -> run l s = Some s' -> jammed s'.
Proof.
  induction l as [|a l IH]; intros s s' H E; cbn [run] in E; [by injection E as <-|].
  destruct (act a s) as [s1|] eqn:Ea; [|done]. eapply IH; [by eapply jammed_stays|done].
Qed.

Lemma keep_first_same e s : reader (keep_first e s) = reader s /\ registry (keep_first e s) = registry s.
Proof. unfold keep_first. by destruct (closeErr s). Qed.

Lemma worker_keeps a s s' : worker_act a s = Some s' -> down s' \/ reader s' = reader s /\ registry s' = registry s.
Proof.
  unfold worker_act. intros Ha. destruct (worker s) as [|i|], a as [|err|]; try done.
  - destruct (wsQueue s); [done|]. simplify_eq. by right.
  - destruct (wsQueue s); [|done]. destruct (queue_closed s); [|done]. simplify_eq. by right.
  - injection Ha as <-. destruct i as [new|]; cbn [worker_done].
    + right. destruct err as [e|]; [|done]. apply (keep_first_same _ (set_worker WIdle (note_handled (ItReady new) s))).
    + destruct (handlePublishResponseEvent _ _ _ _ _ _ _); [by right..|left; apply down_crash].
Qed.

Lemma other_keeps a s s' : own (ByOther a) = true -> other_act a s = Some s' -> reader s' = reader s /\ registry s' = registry s.
Proof.
  intros Hown Ha. destruct a as [err| | | | |p]; [..|done]; cbn [other_act] in Ha; try (case_match; [|done]); simplify_eq;
    try destruct err; try done; apply keep_first_same.
Qed.

Lemma waits_stays a s s' : waits_to_reply s -> own_step a s s' -> waits_to_reply s' \/ down s'.
Proof.
  intros (c & m & Hr & Hc) [Hown Ha]. unfold act, is_down in Ha. rewrite Hr in Ha.
  assert (forall s1, reader s1 = reader s -> registry s1 = registry s -> waits_to_reply s1 \/ down s1) as Hsame.
  { intros s1 E1 E2. left. exists c, m. rewrite E1, E2. by split. }
  destruct a as [a|a|a].
  - unfold reader_act in Ha. rewrite Hr in Ha. destruct a as [[]| | | | | |]; try done.
    destruct (chan_send _ _ _) eqn:E; [by destruct (Hc h)|done|]. injection Ha as <-. right. apply down_crash.
  - destruct (worker_keeps a s s' Ha) as [|[E1 E2]]; [by right|by apply Hsame].
  - destruct (other_keeps a s s' Hown Ha) as [E1 E2]. by apply Hsame.
Qed.

Lemma waits_run l : forall s s', waits_to_reply s -> Forall (fun a => own a = true) l -> run l s = Some s' ->
  waits_to_reply s' \/ down s'.
Proof.
  induction l as [|a l IH]; intros s s' H Ho E; cbn [run] in E; [injection E as <-; by left|].
  apply Forall_cons in Ho as [Ha Ho]. destruct (act a s) as [s1|] eqn:Ea; [|done].
  destruct (waits_stays a s s1 H) as [H1|[h Hd]]; [by split|by eapply IH|].
  destruct l as [|a' l]; cbn [run] in E; [injection E as <-; right; by exists h|].
  unfold act, is_down in E. by rewrite Hd in E.
Qed.

(** ** What goes wrong, in the order it does *)

(** The error an action brings up, whether it is kept or not. *)
Definition error_of (a : Action) (s : Loop) : option error :=
  match a with
  | ByReader (RServerClose code text) => Some (OtherError ("closed by server: " ++ FormatInt 10 code ++ " " ++ text))
  | ByReader (RError e) => Some (Wrap "failed to read message: " (OtherError e))
  | ByReader (RRead BinaryMessage data) =>
      match Response_Read zero_data unmarshal data with
      | Err e => Some (Wrap "failed to parse websocket data: " (OtherError e))
      | _ => None
      end
  | ByWorker (WDone (Some e)) =>
      match worker s with WBusy (ItReady _) => Some (Wrap "failed to handle connect ack: " e) | _ => None end
  | ByOther (OPing (Some e)) => Some (Wrap "failed to send ping: " (OtherError e))
  | ByOther OPongTimeout => Some (OtherError "pong timeout")
  | ByOther ODisconnect => Some (OtherError "closed cleanly")
  | _ => None
  end.

(** A CONNACK that refuses the connection, with its code. *)
Definition refusal_of (a : Action) : option Z :=
  match a with
  | ByReader (RRead BinaryMessage data) =>
      match Response_Read zero_data unmarshal data with
      | Ok resp => match r_ResponseData resp with
                   | Event_Ready _ code => if code =? CONNECTION_ACCEPTED then None else Some code
                   | _ => None
                   end
      | _ => None
      end
  | _ => None
  end.

(** The errors of a plan from a state, and the refusals of a plan. *)
Fixpoint errors_of (l : list Action) (s : Loop) : list error :=
  match l with
  | [] => []
  | a :: l => option_list (error_of a s) ++ match act a s with Some s' => errors_of l s' | None => [] end
  end.
Definition refusals_of (l : list Action) : list Z := omap refusal_of l.

(** What the errors leave in [closeErr], if there was something in it before. *)
Definition kept (before : option error) (refusals : list Z) (errors : list error) : option error :=
  match last refusals with
  | Some c => Some (refusal c)
  | None => match before with Some e => Some e | None => head errors end
  end.

Lemma error_keep e s : closeErr (keep_first e s) = kept (closeErr s) [] [e].
Proof. unfold keep_first, kept. by destruct (closeErr s) eqn:E. Qed.

Lemma error_reply_blocked ct id m h s : closeErr (reply_blocked ct id m h s) = closeErr s.
Proof. unfold reply_blocked. by repeat case_match. Qed.

Lemma error_read_publish topic d mid qos s : closeErr (read_publish topic d mid qos s) = closeErr s.
Proof.
  unfold read_publish. repeat case_match; simplify_eq; try done; apply error_reply_blocked.
Qed.

Lemma error_read_ack e id s : closeErr (read_ack e id s) = closeErr s.
Proof. unfold read_ack. repeat case_match; simplify_eq; try done. apply error_reply_blocked. Qed.

Lemma error_binary data s :
  closeErr (handleBinaryMessage data s) =
    kept (closeErr s) (option_list (refusal_of (ByReader (RRead BinaryMessage data))))
      (option_list (error_of (ByReader (RRead BinaryMessage data)) s)).
Proof.
  unfold handleBinaryMessage, refusal_of, error_of.
  assert (closeErr s = kept (closeErr s) [] []) as E0 by (unfold kept; cbn; by destruct (closeErr s)).
  destruct (Response_Read _ _ _) as [resp|e|h]; [|apply error_keep|exact E0].
  destruct (r_ResponseData resp); rewrite ?error_read_publish, ?error_read_ack; try exact E0.
  destruct (_ =? _); [exact E0|done].
Qed.

Lemma kept_none before : kept before [] [] = before.
Proof. by destruct before. Qed.

Lemma error_worker_act a s s' : worker_act a s = Some s' -> closeErr s' = kept (closeErr s) [] (option_list (error_of (ByWorker a) s)).
Proof.
  unfold worker_act. intros Ha. destruct (worker s) as [|i|] eqn:Hw, a as [|err|]; try done.
  - destruct (wsQueue s); [done|]. simplify_eq. symmetry. apply kept_none.
  - destruct (wsQueue s); [|done]. destruct (queue_closed s); [|done]. simplify_eq. symmetry. apply kept_none.
  - injection Ha as <-. cbn [error_of]. rewrite Hw. destruct i as [new|topic d mid qos]; cbn [worker_done].
    + destruct err as [e|]; [exact (error_keep _ (set_worker WIdle (note_handled (ItReady new) s)))|]. symmetry. apply kept_none.
    + transitivity (closeErr s); [by destruct (handlePublishResponseEvent _ _ _ _ _ _ _)|].
      symmetry. destruct err; apply kept_none.
Qed.

(** A step changes [closeErr] by the error it brings up. *)
Lemma act_error a s s' : act a s = Some s' ->
  closeErr s' = kept (closeErr s) (option_list (refusal_of a)) (option_list (error_of a s)).
Proof.
  pose proof (kept_none (closeErr s)) as E0. symmetry in E0.
  unfold act. destruct (is_down s); [done|]. intros Ha. destruct a as [a|a|a].
  - unfold reader_act in Ha. destruct (reader s), a as [[]| | | | | |]; try done.
    + by simplify_eq.
    + injection Ha as <-. apply error_binary.
    + injection Ha as <-. apply error_keep.
    + injection Ha as <-. destruct (closedCleanly _); apply error_keep.
    + destruct (_ <? _); [|done]. by injection Ha as <-.
    + destruct (chan_send _ _ _); by simplify_eq.
    + injection Ha as <-. transitivity (closeErr s); [|done]. by destruct (closeErr s) eqn:E.
    + destruct (worker s); by simplify_eq.
  - by apply error_worker_act.
  - destruct a as [[]| | | | |]; cbn [other_act] in Ha; try (destruct (_ : bool); [|done]); injection Ha as <-; try exact E0; apply error_keep.
Qed.

Lemma kept_app before r1 e1 r2 e2 : kept before (r1 ++ r2) (e1 ++ e2) = kept (kept before r1 e1) r2 e2.
Proof.
  unfold kept. rewrite last_app. destruct (last r2); [done|]. destruct (last r1); [done|]. destruct before; [done|]. by destruct e1.
Qed.

Lemma refusals_cons a l : refusals_of (a :: l) = option_list (refusal_of a) ++ refusals_of l.
Proof. unfold refusals_of. cbn. by destruct (refusal_of a). Qed.

Lemma run_error l : forall s s', run l s = Some s' -> closeErr s' = kept (closeErr s) (refusals_of l) (errors_of l s).
Proof.
  induction l as [|a l IH]; intros s s' E; cbn [run] in E.
  - injection E as <-. unfold kept. cbn. by destruct (closeErr s).
  - destruct (act a s) as [s1|] eqn:Ea; [|done]. cbn [errors_of]. rewrite Ea, refusals_cons, kept_app.
    rewrite <- (act_error a s s1 Ea). by apply IH.
Qed.

(** * Properties *)

(** C19. A read loop that ends returns the first error that came up on its connection, or, if
    the server refused the connection, the refusal (the last one), whatever else went wrong
    before or after.  The worker has ended by then, and the socket has no connection. *)
Theorem loop_returns_first_error p l s e (Hl : run l (started p) = Some s) (Hr : reader s = Finished e) :
  match last (refusals_of l) with
  | Some c => e = refusal c /\ errors_Is e (TheCode c) = true
  | None => head (errors_of l (started p)) = Some e
  end /\
  closeErr s = Some e /\ worker s = WEnded /\ conn s = false /\
  (forall c, refused s = Some c -> e = refusal c /\ errors_Is e (TheCode c) = true).
Proof.
  assert (reachable s) as Hs by (by exists p, l). pose proof (run_error l _ _ Hl) as He.
  destruct (reachable_inv s Hs) as [[h Hh]|[H1 H2 H3 H4 H5 H6 H7]]; [congruence|]. rewrite Hr in *.
  assert (forall c, e = refusal c -> e = refusal c /\ errors_Is e (TheCode c) = true) as Hrefusal
    by (intros c ->; split; [done|cbn; apply Z.eqb_refl]).
  destruct H7 as [Hw Hc]. split_and!; [|done..|].
  - rewrite H2 in He. unfold kept in He. destruct (last _) as [c|]; [apply Hrefusal; congruence|done].
  - intros c Hf. specialize (H3 c Hf). apply Hrefusal. congruence.
Qed.

(** C27. The worker handles what was queued in the order it came, and all of it by the time the
    loop returns, as long as nobody cancelled it. *)
Theorem queue_is_handled_in_order s (Hs : reachable s) (Hd : is_down s = false) :
  handled s `prefix_of` queued s /\ llen (wsQueue s) <= queue_size /\
  (forall e, reader s = Finished e -> cancelled s = false -> handled s = queued s).
Proof.
  destruct (reachable_inv s Hs) as [[h Hh]|[H1 H2 H3 (d & H4 & H4') H5 H6 H7]]; [unfold is_down in Hd; by rewrite Hh in Hd|].
  split_and!; [by eexists|done|]. intros e Hr Hc. rewrite Hr in H7. destruct H7 as [Hw _].
  destruct (H5 Hw) as [?|[_ Hq]]; [congruence|]. unfold busy in H4. rewrite Hw, Hq in H4.
  assert (d = []) as -> by (destruct d; [done|]; destruct (H4' ltac:(done)); congruence). by rewrite app_nil_r in H4.
Qed.

(** C5. From every state the loop can come to its end by what its own goroutines do, unless its
    reader waits in one of two places: for room in the full queue of a worker that has ended,
    then it waits for ever, whatever happens; or for room in the channel of a request that
    already holds a reply, then it goes on as soon as somebody takes that reply, and if the
    channel is closed instead, because whoever waited for the reply gave up, the process goes
    down. *)
Theorem loop_ends_unless_stuck s (Hs : reachable s) (Hd : is_down s = false) :
  (ends_alone s <-> ~ jammed s /\ ~ waits_to_reply s) /\
  (forall l s', jammed s -> run l s = Some s' -> jammed s') /\
  (forall c m ch, reader s = Replying c m -> chans (registry s) !! c = Some ch ->
     if ch_closed ch then exists s', act (ByReader RReplied) s = Some s' /\ down s'
     else ends_alone (set_registry (set_chans (<[c := {| ch_buf := None; ch_closed := false |}]> (chans (registry s))) (registry s)) s)).
Proof.
  destruct (reachable_inv s Hs) as [[h Hh]|H]; [unfold is_down in Hd; by rewrite Hh in Hd|]. split; [split|split].
  - intros (l & s' & e & Ho & Hl & He). split; intros Hst.
    + destruct (jammed_run l s s' Hst Hl) as [(i & Hi) _]. congruence.
    + destruct (waits_run l s s' Hst Ho Hl) as [(c & m & Hi & _)|[h Hh]]; congruence.
  - intros [Hj Hw]. destruct (reader s) as [|i|c m| |e|e|h] eqn:Hr.
    + by apply ends_reading.
    + by eapply ends_sending_or_jammed.
    + destruct (chan_send c m (chans (registry s))) as [h| |] eqn:E; [by eapply ends_replying|..];
        destruct Hw; exists c, m; split; try done; congruence.
    + by apply ends_stopping.
    + by eapply ends_draining.
    + by exists [], s, e.
    + unfold is_down in Hd. by rewrite Hr in Hd.
  - intros l s' Hj. by apply jammed_run.
  - intros c m ch Hr Hc. destruct (ch_closed ch) eqn:Hcl.
    + exists (crash HPanic s). split; [|apply down_crash]. unfold act. rewrite Hd. unfold reader_act, chan_send. by rewrite Hr, Hc, Hcl.
    + eapply (ends_replying c m); [by eapply inv_same; [|exact H]|done|].
      unfold chan_send. cbn. by rewrite lookup_insert_eq.
Qed.
End ReadLoop.

(** * Examples *)

Definition demo_zero : PublishResponseData := mkPublishResponseData 0 "" [] 0.
Definition demo_finish (d : PublishResponseData) : res tables := Ok ∅.
Definition demo_unmarshal (_ : list byte) (d : PublishResponseData) : res PublishResponseData := Ok d.
Abbreviation demo_run := (run demo_finish demo_zero demo_unmarshal).

Definition connack (code : Z) : list byte := [z2b (Z.shiftl CONNACK 4); z2b 2; z2b 0; z2b code].
Definition demo_start : Loop := started newResponseHandler.

(** A connection that is accepted, handled, and later closed by the server. *)
Definition demo_life : list Action :=
  [ByReader (RRead BinaryMessage (connack 0)); ByReader RSent; ByWorker WTake; ByOther (OPing None); ByWorker (WDone None);
   ByReader (RServerClose 1000 "bye"); ByReader (RError "EOF"); ByReader RReturn; ByWorker WEnd; ByReader RJoined].
Definition demo_end : Loop := default demo_start (demo_run demo_life demo_start).

Example demo_end_error : reader demo_end = Finished (OtherError "closed by server: 1000 bye").
Proof. vm_compute. reflexivity. Qed.

(** The loop returns while the pinger goes on: nothing but a failing ping or the end of the
    client's context stops it, so it pings over the next connection. *)
Example pinger_outlives_loop : pinging demo_end = true /\ cancelled demo_end = false /\
  (demo_run (replicate 5 (ByOther (OPing None))) demo_end = Some demo_end).
Proof. vm_compute. split_and!; reflexivity. Qed.

(** A connection the server refuses. *)
Definition demo_refused : list Action :=
  [ByReader (RRead BinaryMessage (connack CONNECTION_REFUSED_UNAUTHORIZED)); ByReader (RError "use of closed network connection");
   ByReader RReturn; ByWorker WEnd; ByReader RJoined].
Definition demo_refused_end : Loop := default demo_start (demo_run demo_refused demo_start).

Lemma demo_refused_runs : demo_run demo_refused demo_start = Some demo_refused_end.
Proof. vm_compute. reflexivity. Qed.

Lemma demo_refused_reachable : reachable demo_finish demo_zero demo_unmarshal demo_refused_end.
Proof. exists newResponseHandler, demo_refused. exact demo_refused_runs. Qed.

Lemma loop_returns_first_error_witness :
  match last (refusals_of demo_zero demo_unmarshal demo_refused) with
  | Some c => refusal 5 = refusal c /\ errors_Is (refusal 5) (TheCode c) = true
  | None => head (errors_of demo_finish demo_zero demo_unmarshal demo_refused demo_start) = Some (refusal 5)
  end /\
  closeErr demo_refused_end = Some (refusal 5) /\ worker demo_refused_end = WEnded /\ conn demo_refused_end = false /\
  (forall c, refused demo_refused_end = Some c -> refusal 5 = refusal c /\ errors_Is (refusal 5) (TheCode c) = true).
Proof.
  apply (loop_returns_first_error demo_finish demo_zero demo_unmarshal newResponseHandler demo_refused demo_refused_end (refusal 5)).
  - exact demo_refused_runs.
  - vm_compute. reflexivity.
Defined.

Lemma queue_is_handled_in_order_witness :
  handled demo_end `prefix_of` queued demo_end /\ llen (wsQueue demo_end) <= queue_size /\
  (forall e, reader demo_end = Finished e -> cancelled demo_end = false -> handled demo_end = queued demo_end).
Proof.
  apply (queue_is_handled_in_order demo_finish demo_zero demo_unmarshal).
  - exists newResponseHandler, demo_life. vm_compute. reflexivity.
  - vm_compute. reflexivity.
Defined.

(** The client gives the connection up while packets keep coming: the worker ends, the queue
    fills, and the reader waits for ever. *)
Definition queue_one : list Action := [ByReader (RRead BinaryMessage (connack 0)); ByReader RSent].
Definition demo_jam : list Action :=
  ByOther OCancel :: queue_one ++ [ByWorker WTake] ++ concat (replicate 32 queue_one) ++ [ByReader (RRead BinaryMessage (connack 0))].
Definition demo_jammed : Loop := default demo_start (demo_run demo_jam demo_start).

Lemma demo_jammed_stuck : jammed demo_jammed.
Proof. split; [by eexists|]. vm_compute. done. Qed.

(** The server answers the same request twice: the reader waits with the second reply until the
    first is taken. *)
Definition demo_puback : list byte := [z2b (Z.shiftl PUBACK 4); z2b 2; z2b 0; z2b 7].
Definition demo_twice : list Action := replicate 2 (ByReader (RRead BinaryMessage demo_puback)).
Definition demo_waiting : Loop := default demo_start (demo_run demo_twice (started (addPacketChannel newResponseHandler 7))).

Example demo_waiting_reader : reader demo_waiting = Replying 0 (EvPubACK 7).
Proof. vm_compute. reflexivity. Qed.

(** Whoever asked takes the first reply and leaves: the channel is closed under the reader. *)
Example demo_reply_crash :
  is_down <$> demo_run [ByOther (ORegistry (default newResponseHandler
    match waitForDetails (registry demo_waiting) 7 PacketChannel EvRecv with Ok (p, _) => Some p | _ => None end));
    ByReader RReplied] demo_waiting = Some true.
Proof. vm_compute. reflexivity. Qed.

Lemma loop_ends_unless_stuck_witness :
  (ends_alone demo_finish demo_zero demo_unmarshal demo_jammed <-> ~ jammed demo_jammed /\ ~ waits_to_reply demo_jammed) /\ jammed demo_jammed.
Proof.
  split; [|exact demo_jammed_stuck]. apply (loop_ends_unless_stuck demo_finish demo_zero demo_unmarshal).
  - exists newResponseHandler, demo_jam. vm_compute. reflexivity.
  - vm_compute. reflexivity.
Defined.
