(* ===== verification/ClientState.v ===== *)
(** * ClientState: the client of Meta's protocol ([messagix/client.go], [configs.go], [json.go])

    What a [Client] is made of, and the operations on it that do not run a connection: its
    configuration after a page was loaded, the state that is saved and restored, proxies, the
    documents of the CONNECT packet, and what it does when a connection is ready.  The
    connection loops are in [ClientLoop]. *)

From S2P Require Import Prelude Strconv Url Bitmap Packets Mqtt Lightspeed TableKinds TableThreads TableMessages Tables WrapMessages Events.
From S2P Require Import Unicode Json SyncManager.
From S2P Require Import Cookies Errors Endpoints.
From S2P Require TaskTypes Tasks.
From S2P Require Import Interaction Stateful.
#[local] Open Scope Z_scope.

(** ** Data *)

(** [MqttWebConfig] *)
Record MqttWebConfig := mkMqttWebConfig {
  mq_AppID : Z; Capabilities : Z; ChatVisibility : bool; ClientCapabilities : Z; Endpoint : string; HostNameOverride : string;
  SubscribedTopics : option (list string)
}.

(** [Configs] with the parts of its [BrowserConfigTable] that are used: the account of a
    Messenger page, the viewer of an Instagram page, the ids and parameters of the connection.
    [has_client] is whether the pointer to the client is set. *)
Record Configs := mkConfigs {
  has_client : bool; AccountID : string; ViewerID : string; ClientID : string; mqtt : MqttWebConfig; InitAppID : Z;
  PageSyncParams : LSPlatformMessengerSyncParams; LSDToken : string; cf_LSDToken : string; VersionID : Z; WebSessionID : string;
  cf_Bitmap : Bitmap; CSRBitmap : Bitmap; ParentThreadKeys : list Z
}.

Definition empty_mqtt : MqttWebConfig := mkMqttWebConfig 0 0 false 0 "" "" None.
Definition new_configs : Configs :=
  mkConfigs true "" "" "" empty_mqtt 0 (mkSyncParams "" "" "") "" "" 0 "" NewBitmap NewBitmap [].

Definition eta_Configs (c : Configs) : Configs :=
  mkConfigs (has_client c) (AccountID c) (ViewerID c) (ClientID c) (mqtt c) (InitAppID c) (PageSyncParams c) (LSDToken c) (cf_LSDToken c)
    (VersionID c) (WebSessionID c) (cf_Bitmap c) (CSRBitmap c) (ParentThreadKeys c).

(** The record with one field changed. *)
Ltac set_configs t f x :=
  let t := eval cbv beta delta [eta_Configs] in t in
  lazymatch eval pattern f in t with ?g _ => let r := eval cbv beta in (g x) in exact r end.

Definition set_has_client (x : bool) (c : Configs) : Configs := ltac:(set_configs (eta_Configs c) (has_client c) x).
Definition set_mqtt (x : MqttWebConfig) (c : Configs) : Configs := ltac:(set_configs (eta_Configs c) (mqtt c) x).
Definition set_LSDToken (x : string) (c : Configs) : Configs := ltac:(set_configs (eta_Configs c) (cf_LSDToken c) x).
Definition set_WebSessionID (x : string) (c : Configs) : Configs := ltac:(set_configs (eta_Configs c) (WebSessionID c) x).
Definition set_Bitmap (x : Bitmap) (c : Configs) : Configs := ltac:(set_configs (eta_Configs c) (cf_Bitmap c) x).
Definition set_CSRBitmap (x : Bitmap) (c : Configs) : Configs := ltac:(set_configs (eta_Configs c) (CSRBitmap c) x).
Definition set_ParentThreadKeys (x : list Z) (c : Configs) : Configs := ltac:(set_configs (eta_Configs c) (ParentThreadKeys c) x).
Definition set_AppID (x : Z) (c : Configs) : Configs :=
  let m := mqtt c in
  set_mqtt (mkMqttWebConfig x (Capabilities m) (ChatVisibility m) (ClientCapabilities m) (Endpoint m) (HostNameOverride m) (SubscribedTopics m)) c.

(** A proxy: its scheme and its address. *)
Record ParsedURL := mkURL { Scheme : string; Host : string }.

(** [Client]: [conn] is whether the socket has a connection, [dgw] the same of its second
    socket, once it has one; a goroutine's context is a number; an event that is set is
    [true]. *)
Record Client := mkClient {
  platform : Platform; cookies : Cookies; configs : option Configs; syncManager : option SyncManager.SM; endpoints : gmap string string;
  isInstagram : bool; isFacebook : bool; isLite : bool;
  conn : bool; packetsSent : Z; sessionID : Z; broker : string; previouslyConnected : bool;
  dgw : option bool; mayConnectToDGW : bool;
  proxyAddr : string; httpProxy : option string; socksProxy : option string; hasProxyGetter : bool; httpSettingsProxy : string;
  eventHandler : bool;
  stopCurrentConnections : option nat; connectionLoopStopped : bool; canSendMessages : bool
}.

Definition eta_Client (s : Client) : Client :=
  mkClient (platform s) (cookies s) (configs s) (syncManager s) (endpoints s) (isInstagram s) (isFacebook s) (isLite s)
    (conn s) (packetsSent s) (sessionID s) (broker s) (previouslyConnected s) (dgw s) (mayConnectToDGW s)
    (proxyAddr s) (httpProxy s) (socksProxy s) (hasProxyGetter s) (httpSettingsProxy s) (eventHandler s)
    (stopCurrentConnections s) (connectionLoopStopped s) (canSendMessages s).

Ltac set_client t f x :=
  let t := eval cbv beta delta [eta_Client] in t in
  lazymatch eval pattern f in t with ?g _ => let r := eval cbv beta in (g x) in exact r end.

Definition set_configs_ (x : option Configs) (s : Client) : Client := ltac:(set_client (eta_Client s) (configs s) x).
Definition set_syncManager (x : option SyncManager.SM) (s : Client) : Client := ltac:(set_client (eta_Client s) (syncManager s) x).
Definition set_conn (x : bool) (s : Client) : Client := ltac:(set_client (eta_Client s) (conn s) x).
Definition set_packetsSent (x : Z) (s : Client) : Client := ltac:(set_client (eta_Client s) (packetsSent s) x).
Definition set_sessionID (x : Z) (s : Client) : Client := ltac:(set_client (eta_Client s) (sessionID s) x).
Definition set_broker (x : string) (s : Client) : Client := ltac:(set_client (eta_Client s) (broker s) x).
Definition set_previouslyConnected (x : bool) (s : Client) : Client := ltac:(set_client (eta_Client s) (previouslyConnected s) x).
Definition set_dgw (x : option bool) (s : Client) : Client := ltac:(set_client (eta_Client s) (dgw s) x).
Definition set_proxyAddr (x : string) (s : Client) : Client := ltac:(set_client (eta_Client s) (proxyAddr s) x).
Definition set_httpProxy (x : option string) (s : Client) : Client := ltac:(set_client (eta_Client s) (httpProxy s) x).
Definition set_socksProxy (x : option string) (s : Client) : Client := ltac:(set_client (eta_Client s) (socksProxy s) x).
Definition set_httpSettingsProxy (x : string) (s : Client) : Client := ltac:(set_client (eta_Client s) (httpSettingsProxy s) x).
Definition set_eventHandler (x : bool) (s : Client) : Client := ltac:(set_client (eta_Client s) (eventHandler s) x).
Definition set_stopCurrent (x : option nat) (s : Client) : Client := ltac:(set_client (eta_Client s) (stopCurrentConnections s) x).
Definition set_loopStopped (x : bool) (s : Client) : Client := ltac:(set_client (eta_Client s) (connectionLoopStopped s) x).
Definition set_canSend (x : bool) (s : Client) : Client := ltac:(set_client (eta_Client s) (canSendMessages s) x).

(** ** Small operations *)

(** A client is made for cookies with a platform; [r] is the random session id. *)
Definition NewClient (cookies : Cookies) (mayConnectToDGW : bool) (sessionID : Z) : res Client :=
  let p := Platform_ cookies in
  match p with
  | Unset => Panic
  | _ =>
      Ok (mkClient p cookies (Some new_configs) None (selectedEndpoints p)
            (bool_decide (p = Instagram)) (negb (bool_decide (p = Instagram))) (bool_decide (p = MessengerLite))
            false 0 sessionID "" false None mayConnectToDGW "" None None false "" false None true false)
  end.

Definition GetPlatform (c : option Client) : Platform := match c with Some c => platform c | None => Unset end.

Definition GetEndpoint (name : string) (c : Client) : res string :=
  match endpoints c !! name with Some e => Ok e | None => Panic end.

Definition getEndpointForThreadID (threadID : Z) (c : Client) : res string :=
  e ← GetEndpoint "thread" c; Ok (e ++ FormatInt 10 threadID ++ "/")%string.

(** Of a client that may be nil; one whose configs are gone panics. *)
Definition IsAuthenticated (c : option Client) : res bool :=
  match c with
  | None => Ok false
  | Some c =>
      match configs c with
      | None => Panic
      | Some cf => Ok (if IsMessenger (platform c) then negb (AccountID cf =? "0")%string else negb (ViewerID cf =? "")%string)
      end
  end.

Definition IsAuthenticatedAndLoaded (c : option Client) : res bool :=
  b ← IsAuthenticated c; Ok (b && match c with Some c => bool_decide (is_Some (fmap (fun _ => ()) (syncManager c))) | None => false end).

Definition IsConnected (c : option Client) : bool := match c with Some c => conn c | None => false end.

(** ** Proxies *)

Section Proxy.
Context (Parse : string -> ParsedURL + error) (FromURL : ParsedURL -> option error).

(** [SetHTTP]: the HTTP client is built again, with the proxy there is. *)
Definition SetHTTP (c : Client) : Client :=
  if negb (proxyAddr c =? "")%string then set_httpSettingsProxy (proxyAddr c) c else c.

Definition SetProxy (addr : string) (c : option Client) : option Client * option error :=
  match c with
  | None => (None, Some (SentinelError ErrClientIsNil))
  | Some c =>
      match Parse addr with
      | inr e => (Some c, Some e)
      | inl u =>
          if (Scheme u =? "http")%string || (Scheme u =? "https")%string
          then (Some (SetHTTP (set_proxyAddr addr (set_httpProxy (Some addr) c))), None)
          else if (Scheme u =? "socks5")%string then
            match FromURL u with
            | Some e => (Some (set_socksProxy None c), Some e)
            | None => (Some (SetHTTP (set_proxyAddr addr (set_socksProxy (Some addr) c))), None)
            end
          else (Some (SetHTTP c), None)
      end
  end.

(** [GetDialer]: the proxy of a websocket. *)
Variant Dialer := ViaHTTP (addr : string) | ViaSocks (addr : string) | Direct.

Definition GetDialer (c : Client) : Dialer :=
  match httpProxy c, socksProxy c with
  | Some a, _ => ViaHTTP a
  | None, Some a => ViaSocks a
  | None, None => Direct
  end.
End Proxy.

(** ** Saving and restoring *)

Record dumpedState := mkDumped { d_Configs : option Configs; d_SyncStore : gmap Z QueryMetadata; d_PacketsSent : Z; d_SessionID : Z; d_Timestamp : Z }.

(** The store as a map of objects: JSON writes what its pointers point to. *)
Definition store_of (s : SyncManager.SM) : gmap Z QueryMetadata := omap (fun p => objs s !! p) (store s).

(** [DumpState]: nothing before the first packet and the first connection. *)
Definition DumpState (now : Z) (c : option Client) : option dumpedState :=
  match c with
  | None => None
  | Some c =>
      match configs c, syncManager c with
      | Some cf, Some sm =>
          if (packetsSent c =? 0) || negb (previouslyConnected c) then None
          else Some (mkDumped (Some cf) (store_of sm) (packetsSent c) (sessionID c) now)
      | _, _ => None
      end
  end.

(** The store that is read back: an object for every entry. *)
Definition load_store (l : list (Z * QueryMetadata)) : gmap nat QueryMetadata * gmap Z nat :=
  foldr (fun kv '(os, st) => let p := fresh (dom os) in (<[p := kv.2]> os, <[kv.1 := p]> st)) (∅, ∅) l.

Definition with_store (m : gmap Z QueryMetadata) (s : SyncManager.SM) : SyncManager.SM :=
  let '(os, st) := load_store (map_to_list m) in
  mkSM os st (keyStore s) (syncParams s) (epoch s) (sent s) (events s).

Definition MaxCachedStateAge : Z := 24 * 60 * 60 * 1000000000.
Definition zero_time : Z := -62135596800 * 1000000000.

(** [LoadState], given the document or the error of reading it.  A document without configs
    makes the rest panic, but for Instagram. *)
Definition LoadState (now : Z) (dumped : dumpedState + error) (c : option Client) : res (option Client * option error) :=
  match c with
  | None => Ok (None, Some (SentinelError ErrClientIsNil))
  | Some c =>
      match dumped with
      | inr e => Ok (Some c, Some e)
      | inl d =>
          if negb (d_Timestamp d =? zero_time) && (Z.min (2 ^ 63 - 1) (now - d_Timestamp d) >? MaxCachedStateAge)
          then Ok (Some c, Some (WrapSuffix (SentinelError ErrCachedStateTooOld) " (created at ...)"))
          else
            let c := set_configs_ (d_Configs d) c in
            let c := set_syncManager (Some (with_store (d_SyncStore d) newSyncManager)) c in
            let c := set_sessionID (d_SessionID d) (set_packetsSent (d_PacketsSent d) c) in
            b ← (if bool_decide (platform c = Instagram) then Ok "wss://edge-chat.instagram.com/chat?"%string
                 else match d_Configs d with Some cf => Ok (Endpoint (mqtt cf)) | None => Panic end);
            Ok (Some (set_previouslyConnected true (set_broker b c)), None)
      end
  end.

(** What is read back of a text that was written as JSON: bytes that are no UTF-8 are replaced. *)
Definition json_text (s : string) : string := of_runes (runes s).

(** What a document keeps.  Of a bitmap only its compressed string is written, the list of its
    indices is not; a list of topics that is empty is left out, and read back as none. *)
Definition written_bitmap (b : Bitmap) : Bitmap := mkBitmap [] (json_text (CompressedStr b)).
Definition written_mqtt (m : MqttWebConfig) : MqttWebConfig :=
  mkMqttWebConfig (mq_AppID m) (Capabilities m) (ChatVisibility m) (ClientCapabilities m) (json_text (Endpoint m)) (json_text (HostNameOverride m))
    match SubscribedTopics m with Some (t :: ts) => Some (json_text <$> (t :: ts)) | _ => None end.
Definition written_params (p : LSPlatformMessengerSyncParams) : LSPlatformMessengerSyncParams :=
  mkSyncParams (json_text (p_Mailbox p)) (json_text (p_Contact p)) (json_text (p_E2Ee p)).

(** The pointer to the client is not written. *)
Definition written_configs (c : Configs) : Configs :=
  mkConfigs false (json_text (AccountID c)) (json_text (ViewerID c)) (json_text (ClientID c)) (written_mqtt (mqtt c)) (InitAppID c)
    (written_params (PageSyncParams c)) (json_text (LSDToken c)) (json_text (cf_LSDToken c)) (VersionID c) (json_text (WebSessionID c))
    (written_bitmap (cf_Bitmap c)) (written_bitmap (CSRBitmap c)) (ParentThreadKeys c).
Definition written_query (q : QueryMetadata) : QueryMetadata :=
  mkQueryMetadata (DatabaseId q) (SendSyncParams q) (json_text <$> LastAppliedCursor q) (SyncChannel q).
Definition written (d : dumpedState) : dumpedState :=
  mkDumped (written_configs <$> d_Configs d) (written_query <$> d_SyncStore d) (d_PacketsSent d) (d_SessionID d) (d_Timestamp d).

(** ** Requests *)

Variant ClientEvent :=
| Event_Reconnected
| ReadyEvent (IsNewSession : bool)
| Event_SocketError (Err : option error) (ConnectionAttempts : Z)
| Event_PermanentError (Err : error).

Variant CReq :=
| QNow
| QWebSessionID (loggedIn : bool)                (* random *)
| QUUID
| QLoadModules (url : string)                    (* loads a page and fills the configs *)
| QPublishSettings (json : string)
| QSubscribe (topic : Topic)
| QLSRequest (tasks : list Tasks.AnyTask)
| QExecuteTasks (tasks : list Tasks.AnyTask)
| QEnsureSynced (dbs : list Z)
| QEvent (e : ClientEvent)                       (* the event handler *)
| QGetNewProxy (reason : string)
(** connections *)
| QCtxDone (ctx : nat) | QNewContext | QCancel (ctx : nat)
| QPause (ctx : nat) (ns : Z)                    (* until the time has passed, or the context ends ([false]) *)
| QGoConnectionLoop (ctx : nat) | QGoDGW (ctx : nat)
| QDial (url : string) | QSendConnect (packet : list byte) | QReadLoop | QCancelAllRequests
| QDGWConnect
| QSocketDisconnect | QDGWDisconnect
| QWaitLoopStopped (ns : Z)
| QWaitCanSend (ns : Z).

Definition canswer (q : CReq) : Type :=
  match q with
  | QNow => Z
  | QWebSessionID _ | QUUID => string
  | QLoadModules _ => tables + error
  | QPublishSettings _ | QSubscribe _ | QExecuteTasks _ | QEnsureSynced _ => option error
  | QLSRequest _ => tables + error
  | QEvent _ | QCancel _ | QGoConnectionLoop _ | QGoDGW _ | QCancelAllRequests | QSocketDisconnect | QDGWDisconnect => unit
  | QGetNewProxy _ => string + error
  | QCtxDone _ | QPause _ _ | QWaitLoopStopped _ => bool
  | QNewContext => nat
  | QDial _ | QSendConnect _ | QDGWConnect => option error
  | QReadLoop => error                             (* a read loop always ends with an error *)
  | QWaitCanSend _ => option error
  end.

Abbreviation CM := (SM Client canswer).
Abbreviation ctell q := (Stateful.tell (S := Client) (answer := canswer) q).
Abbreviation cblock q := (Stateful.block (S := Client) (answer := canswer) q).

Definition of_result {A} (r : res A) : CM A :=
  match r with
  | Ok a => mret a
  | Err e => sthrow e
  | Halt HDiverge => spin
  | Halt _ => spanic
  end.

(** A pointer that must not be nil. *)
Definition deref {A} (f : Client -> option A) : CM A := x ← gets f; match x with Some a => mret a | None => spanic end.

(** ** Loading a page *)

Section Loading.
Context (graphql : Z -> option string -> option string -> res tables).

Definition synced_databases : list QueryMetadata :=
  [mkQueryMetadata 1 true None MailBox; mkQueryMetadata 2 true None Contact; mkQueryMetadata 95 true None Contact].

(** The error of an operation on the sync manager, which is changed. *)
Definition on_sync (f : SyncManager.SM -> SyncManager.SM * option string) : CM (option error) :=
  sm ← deref syncManager;
  let '(sm, e) := f sm in
  modify (set_syncManager (Some sm));;
  mret (OtherError <$> e).

(** The page had no synced data: it is fetched. *)
Definition fetch_initial : CM (option tables * option error) :=
  e ← on_sync (fun sm => UpdateDatabaseSyncParams sm synced_databases);
  match e with
  | Some e => mret (None, Some (Wrap "failed to update sync params for databases: 1, 2, 95: " e))
  | None =>
      sm ← deref syncManager;
      r ← of_result (SyncDataGraphQL graphql sm [1; 2; 95]);
      let '(sm, (ls, e)) := r in
      modify (set_syncManager (Some sm));;
      mret match e, ls with
           | Some e, _ => (ls, Some (Wrap "failed to sync data via graphql for databases: 1, 2, 95: " (OtherError e)))
           | None, None => (None, Some (OtherError "sync data via graphql returned nil LSTable"))
           | None, Some ls => (Some ls, None)
           end
  end.

(** The page came with its data. *)
Definition apply_initial (ls : tables) : CM (option error) :=
  e ← match rows ls "LSUpsertSyncGroupThreadsRange" with
      | [] => mret None
      | rs => on_sync (fun sm => updateThreadRanges sm rs)
      end;
  match e with
  | Some e => mret (Some (Wrap "failed to update thread ranges from js module data: " e))
  | None =>
      e ← on_sync (fun sm => SyncTransactions sm (rows ls "LSExecuteFirstBlockForSyncTransaction"));
      mret (Wrap "failed to sync transactions from js module data with syncManager: " <$> e)
  end.

(** The address of the broker, and the parameters of syncs. *)
Definition setup_connection : CM (option error) :=
  p ← gets platform;
  cf ← deref configs;
  e ← (if bool_decide (p = Instagram) then
         modify (set_broker "wss://edge-chat.instagram.com/chat?");;
         modify (set_configs_ (Some (set_AppID (InitAppID cf) cf)));;
         mret None
       else if (Endpoint (mqtt cf) =? "")%string
       then mret (Some (OtherError "MQTT broker endpoint not found in page response (MqttWebConfig.Endpoint is empty)"))
       else modify (set_broker (Endpoint (mqtt cf)));; mret None);
  match e with
  | Some e => mret (Some e)
  | None =>
      sm ← deref syncManager;
      modify (set_syncManager (Some (mkSM (objs sm) (store sm) (keyStore sm) (PageSyncParams cf) (epoch sm) (sent sm) (events sm))));;
      mret None
  end.

(** The session id, the token and the bitmaps of a page. *)
Definition setup_session : CM bool :=
  modify (set_previouslyConnected false);;
  c ← gets id;
  authenticated ← of_result (IsAuthenticated (Some c));
  s ← ctell (QWebSessionID authenticated);
  cf ← deref configs;
  b ← of_result (LoadBitmap (BMap (cf_Bitmap cf)));
  cb ← of_result (LoadBitmap (BMap (CSRBitmap cf)));
  modify (set_configs_ (Some (set_CSRBitmap cb (set_Bitmap b (set_LSDToken (LSDToken cf) (set_WebSessionID s cf))))));;
  mret authenticated.

(** [Configs.SetupConfigs] of the client's configs; the tables may be nil when it fails. *)
Definition SetupConfigs (ls : tables) : CM (option tables * option error) :=
  cf ← deref configs;
  if negb (has_client cf) then spanic else
  authenticated ← setup_session;
  if negb authenticated then mret (Some ls, None) else
  e ← setup_connection;
  match e with
  | Some e => mret (Some ls, Some e)
  | None =>
      r ← (if llen (rows ls "LSExecuteFinallyBlockForSyncTransaction") =? 0 then fetch_initial
           else e ← apply_initial ls; mret (Some ls, e));
      match r with
      | (Some ls, None) =>
          cf ← deref configs;
          modify (set_configs_ (Some (set_ParentThreadKeys (row_int LSThreadsRangesQuery "ParentThreadKey" <$> rows ls "LSThreadsRangesQuery") cf)));;
          mret (Some ls, None)
      | r => mret r
      end
  end.

(** Which user a page is for. *)
Variant PageUser := CurrentUserInitialData | PolarisViewer.

Definition current_user (p : Platform) : PageUser := if IsMessenger p then CurrentUserInitialData else PolarisViewer.

Definition LoadMessagesPage : CM (PageUser * tables + error) :=
  c ← gets id;
  if negb (IsLoggedIn (cookies c)) then mret (inr (SentinelError ErrTokenInvalidated)) else
  url ← of_result (GetEndpoint "messages" c);
  r ← cblock (QLoadModules url);
  match r with
  | inr e => mret (inr (Wrap "failed to load inbox: " e))
  | inl ls =>
      modify (set_syncManager (Some newSyncManager));;
      r ← SetupConfigs ls;
      p ← gets platform;
      mret match r with
           | (_, Some e) => inr e
           | (Some ls, None) => inl (current_user p, ls)
           | (None, None) => inl (current_user p, ∅)
           end
  end.

Definition GetCurrentAccount (c : option Client) : res (PageUser + error) :=
  match c with
  | None => Ok (inr (SentinelError ErrClientIsNil))
  | Some c =>
      b ← IsAuthenticated (Some c);
      Ok (if b : bool then inl (current_user (platform c)) else inr (OtherError "messagix-client: not yet authenticated"))
  end.

(** ** Events of the socket *)

Definition postHandlePublishResponse (t : tables) : CM unit :=
  if NeedUpdateSyncGroups t then _ ← on_sync (fun sm => updateSyncGroupCursors sm t); mret () else mret ().

(** ** The documents of the CONNECT packet ([json.go]) *)

Definition getConnectionType (p : Platform) : string := if IsInstagram p then "cookie_auth" else "websocket".

Definition app_settings (versionId : Z) : value := struct [field "ls_fdid" ""%string; field "ls_sv" (FormatInt 10 versionId)].
Definition newAppSettingsPublishJSON (versionId : Z) : string := l2s (marshal (app_settings versionId)).

Definition post_message (versionId : Z) : value :=
  struct [field "isBase64Publish" false; field "messageId" 65536; field "payload" (newAppSettingsPublishJSON versionId);
          field "qos" 1; field "topic" LS_APP_SETTINGS].

(** The topics of a connection that was there before are subscribed with the CONNECT. *)
Definition add_topic (topic : Topic) (l : option (list string)) : option (list string) :=
  if bool_decide (topic ∈ default [] l) then l else Some (default [] l ++ [topic]).

Definition connect_topics (again : bool) (l : option (list string)) : option (list string) :=
  if again then add_topic LS_RESP (add_topic LS_FOREGROUND_STATE l) else l.

Definition connect_document (UserAgent : string) (c : Client) (cf : Configs) : value :=
  let m := mqtt cf in
  struct [field "u" (AccountID cf); field "s" (sessionID c); field "cp" (ClientCapabilities m); field "ecp" (Capabilities m);
          field "chat_on" (ChatVisibility m); field "fg" false; field "d" (ClientID cf); field "ct" (getConnectionType (platform c));
          field "mqtt_sid" ""%string; field "aid" (mq_AppID m); field "st" (connect_topics (previouslyConnected c) (SubscribedTopics m));
          field "pm" (if previouslyConnected c then [post_message (VersionID cf)] else []); field "dc" ""%string; field "no_auto_fg" true;
          field "gas" Null; field "pack" (Arr []); field "php_override" (HostNameOverride m); field "p" Null; field "a" UserAgent;
          field "aids" Null].

Definition newConnectJSON (UserAgent : string) (c : Client) : res string :=
  match configs c with
  | Some cf => Ok (l2s (marshal (connect_document UserAgent c cf)))
  | None => Panic
  end.

(** ** A connection is ready ([handleReadyEvent] of [events.go]) *)

Definition minimalReconnectSync : list Z := [1; 2].
Definition minimalInitialSync : list Z := [1].
Definition minimalFBInitialSync : list Z := [1; 104].
Definition minimalFBReconnectSync : list Z := [1; 2; 104].

Definition threads_task (parent ref ts : Z) (cursor : option string) (group : Z) : Tasks.AnyTask :=
  Tasks.mkTask (TaskTypes.FetchThreadsTask.mkFetchThreadsTask 0 parent ref ts 0 cursor None group).

(** The parent keys that are fetched: those of the page, and always -1. *)
Definition parent_keys (l : list Z) : list Z := if bool_decide ((-1) ∈ l) then l else l ++ [-1].

Definition key_tasks (cursor : string) (tk : Z) : list Tasks.AnyTask :=
  [threads_task tk 0 9999999999999 (Some cursor) 1; threads_task tk 0 9999999999999 None 95].

Definition range_tasks (cursor : string) (k : option KeyStoreData) : list Tasks.AnyTask :=
  match k with
  | None => []
  | Some k =>
      [threads_task (ParentThreadKey k) (MinThreadKey k) (MinLastActivityTimestampMs k) (Some cursor) 1;
       threads_task (ParentThreadKey k) (MinThreadKey k) (MinLastActivityTimestampMs k) None 95]
  end.

Definition initial_tasks (sm : SyncManager.SM) (ptks : list Z) : list Tasks.AnyTask :=
  let cursor := GetCursor sm 1 in
  (parent_keys ptks ≫= key_tasks cursor) ++ range_tasks cursor (getSyncGroupKeyStore sm 1).

(** The steps of a new connection, each with the text of its failure. *)
Definition step (text : string) (m : CM (option error)) (next : CM (option error)) : CM (option error) :=
  e ← m; match e with Some e => mret (Some (Wrap text e)) | None => next end.

Definition request (tasks : list Tasks.AnyTask) : CM (option error) :=
  r ← cblock (QLSRequest tasks); mret match r with inr e => Some e | inl _ => None end.

Definition FOREGROUND : Z := 1.

Definition handleReadyEvent (IsNewSession : bool) : CM (option error) :=
  again ← gets previouslyConnected;
  p ← gets platform;
  if again : bool then
    modify (set_canSend true);;
    step "failed to sync after reconnect: " (cblock (QEnsureSynced (if IsInstagram p then minimalReconnectSync else minimalFBReconnectSync)))
      (cblock (QEvent Event_Reconnected);; mret None)
  else
    cf ← deref configs;
    step "failed to send app settings packet: " (cblock (QPublishSettings (newAppSettingsPublishJSON (VersionID cf))))
      (step "failed to subscribe to /ls_foreground_state: " (cblock (QSubscribe LS_FOREGROUND_STATE))
        (step "failed to subscribe to /ls_resp: " (cblock (QSubscribe LS_RESP))
          (modify (set_canSend true);;
           cf ← deref configs;
           sm ← deref syncManager;
           step "failed to send sync tasks: " (request (initial_tasks sm (ParentThreadKeys cf)))
             (uuid ← ctell QUUID;
              step "failed to report app state: "
                (cblock (QExecuteTasks [Tasks.mkTask (TaskTypes.ReportAppStateTask.mkReportAppStateTask FOREGROUND uuid)]))
                (step "failed to ensure db 1 is synced: " (cblock (QEnsureSynced (if IsInstagram p then minimalInitialSync else minimalFBInitialSync)))
                  (cblock (QEvent (ReadyEvent IsNewSession));;
                   modify (set_previouslyConnected true);;
                   mret None)))))).

(** ** More threads *)

Definition FetchMoreThreads (syncGroup : Z) : CM (option (KeyStoreData * tables) + error) :=
  sm ← deref syncManager;
  match getSyncGroupKeyStore sm syncGroup with
  | None => mret (inl None)
  | Some k =>
      if negb (HasMoreBefore k) then mret (inl None)
      else
        r ← cblock (QLSRequest [threads_task (ParentThreadKey k) (MinThreadKey k) (MinLastActivityTimestampMs k)
                                  (Some (GetCursor sm syncGroup)) syncGroup]);
        match r with
        | inr e => mret (inr e)
        | inl t =>
            (* the object that is returned is the one that is updated *)
            postHandlePublishResponse t;;
            sm ← deref syncManager;
            mret (inl (Some (default k (getSyncGroupKeyStore sm syncGroup), t)))
        end
  end.

Definition WaitUntilCanSendMessages (timeout : Z) : CM (option error) := cblock (QWaitCanSend timeout).
End Loading.

(** * Properties *)

(** ** A new connection *)

Abbreviation ctrace := (list (event (reply (S := Client) canswer))).
Definition asks (tr : ctrace) : list CReq := (fun e => (asked e).1) <$> tr.

(** The error a request was answered with. *)
Definition answer_error (ev : event (reply (S := Client) canswer)) : option error :=
  match ev with
  | Event q x =>
      match q.1 as q0 return canswer q0 -> option error with
      | QPublishSettings _ | QSubscribe _ | QExecuteTasks _ | QEnsureSynced _ => fun e => e
      | QLSRequest _ => fun r => match r with inr e => Some e | inl _ => None end
      | _ => fun _ => None
      end x.1
  end.
Definition well (ev : event (reply (S := Client) canswer)) : Prop := answer_error ev = None.

(** A run goes through a sequence of requests, each made only after the one before was answered
    without an error: through all of it exactly if it succeeds, and otherwise up to the request
    whose error it returns. *)
Definition goes_through (l : list CReq) (tr : ctrace) (r : res (option error)) : Prop :=
  match r with
  | Ok None => asks tr = l /\ Forall well tr
  | Ok (Some e) => exists before failed e0 text l', tr = before ++ [failed] /\ Forall well before /\ answer_error failed = Some e0 /\
      e = Wrap text e0 /\ l' <> [] /\ asks tr ++ l' = l
  | _ => asks tr `prefix_of` l /\ Forall well tr
  end.

Lemma asks_app t1 t2 : asks (t1 ++ t2) = asks t1 ++ asks t2.
Proof. apply fmap_app. Qed.

Lemma goes_app l1 l2 t1 t2 r : asks t1 = l1 -> Forall well t1 -> goes_through l2 t2 r -> goes_through (l1 ++ l2) (t1 ++ t2) r.
Proof.
  intros H1 W H2. destruct r as [[e|]|e|h]; cbn in *; rewrite asks_app, H1.
  - destruct H2 as (before & failed & e0 & text & l' & -> & W2 & He & -> & Hne & H2). exists (t1 ++ before), failed, e0, text, l'.
    split; [by rewrite app_assoc|]. split; [by apply Forall_app|]. split_and!; [done..|]. by rewrite <- app_assoc, H2.
  - destruct H2 as [-> W2]. split; [done|by apply Forall_app].
  - destruct H2 as [H2 W2]. split; [by apply prefix_app|by apply Forall_app].
  - destruct H2 as [H2 W2]. split; [by apply prefix_app|by apply Forall_app].
Qed.

(** A panic before the sequence. *)
Lemma goes_nowhere l : goes_through l [] Panic.
Proof. split; [apply prefix_nil|constructor]. Qed.

(** A request of which the error is returned. *)
Definition asks_one (q : CReq) (m : CM (option error)) : Prop :=
  forall s tr r s', sruns m s tr r s' -> exists ev, tr = [ev] /\ (asked ev).1 = q /\ r = Ok (answer_error ev).

(** One step: a request that may fail, then the rest, of which not everything is known before. *)
Lemma step_through {X} (x0 : X) text q (m next : CM (option error)) (l : X -> list CReq) s tr r s' :
  asks_one q m -> (forall x, l x <> []) ->
  (forall s tr r s', sruns next s tr r s' -> exists x, goes_through (l x) tr r) ->
  sruns (step text m next) s tr r s' -> exists x, goes_through (q :: l x) tr r.
Proof.
  intros Hm Hl Hn H. unfold step in H. apply sruns_bind in H as (r1 & s1 & t1 & t2 & -> & H1 & H2).
  destruct (Hm _ _ _ _ H1) as (ev & -> & <- & ->). destruct (answer_error ev) as [e|] eqn:E.
  - apply sruns_ret in H2 as (-> & -> & ->). exists x0, [], ev, e, text, (l x0). split; [done|]. by split_and!.
  - destruct (Hn _ _ _ _ H2) as [x Hx]. exists x. apply (goes_app [(asked ev).1] (l x) [ev]); [done|by repeat constructor|done].
Qed.

Ltac blocks :=
  lazymatch goal with
  | |- asks_one ?q (Stateful.block ?q') =>
      let H := fresh in let x := fresh in
      intros ? ? ? ? H; destruct (proj1 (sruns_block (answer := canswer) q' _ _ _ _) H) as (x & -> & ->); eexists; split_and!; reflexivity
  end.

Lemma request_through tasks : asks_one (QLSRequest tasks) (request tasks).
Proof.
  intros s tr r s'. unfold request. intros (r1 & s1 & t1 & t2 & -> & H1 & H2)%sruns_bind.
  destruct (proj1 (sruns_block (answer := canswer) (QLSRequest tasks) _ _ _ _) H1) as (x & -> & ->).
  apply sruns_ret in H2 as (-> & -> & ->). eexists. split_and!; [reflexivity..|]. by destruct x.
Qed.

(** The end of a sequence: an event is handled. *)
Lemma event_through e (m : CM (option error)) s tr r s' :
  (forall s tr r s', sruns m s tr r s' -> tr = [] /\ r = Ok None) ->
  sruns (cblock (QEvent e);; m) s tr r s' -> goes_through [QEvent e] tr r.
Proof.
  intros Hm (r1 & s1 & t1 & t2 & -> & H1 & H2)%sruns_bind.
  destruct (proj1 (sruns_block (answer := canswer) (QEvent e) _ _ _ _) H1) as (x & -> & ->).
  apply Hm in H2 as [-> ->]. split; [done|]. by repeat constructor.
Qed.

Lemma sruns_deref {A} (f : Client -> option A) s tr r s' :
  sruns (deref f) s tr r s' -> tr = [] /\ s' = s /\ r = match f s with Some a => Ok a | None => Panic end.
Proof.
  unfold deref. intros (r1 & s1 & t1 & t2 & -> & (-> & -> & ->)%sruns_gets & H)%sruns_bind.
  destruct (f s); [by apply sruns_ret in H as (-> & -> & ->)|by apply sruns_panic in H as (-> & -> & ->)].
Qed.

(** What a run does after an operation on the state alone. *)
Lemma deref_bind {A B} (f : Client -> option A) (k : A -> CM B) s tr r s' :
  sruns (deref f ≫= k) s tr r s' -> (exists a, f s = Some a /\ sruns (k a) s tr r s') \/ tr = [] /\ r = Panic.
Proof.
  intros (r1 & s1 & t1 & t2 & -> & H1 & H2)%sruns_bind. apply sruns_deref in H1 as (-> & -> & ->).
  destruct (f s) as [a|]; [left; by exists a|right; by destruct H2 as (-> & -> & _)].
Qed.

(** The tasks of a new connection, with the UUID of the report that follows. *)
Definition planned : Type := SyncManager.SM * list Z * string.
Definition fetch_sequence (p : Platform) (new : bool) (x : planned) : list CReq :=
  [QLSRequest (initial_tasks x.1.1 x.1.2); QUUID; QExecuteTasks [Tasks.mkTask (TaskTypes.ReportAppStateTask.mkReportAppStateTask FOREGROUND x.2)];
   QEnsureSynced (if IsInstagram p then minimalInitialSync else minimalFBInitialSync); QEvent (ReadyEvent new)].

(** What [handleReadyEvent] asks for, in order: when the connection was there before, and when
    it is new. *)
Definition reconnect_sequence (p : Platform) : list CReq :=
  [QEnsureSynced (if IsInstagram p then minimalReconnectSync else minimalFBReconnectSync); QEvent Event_Reconnected].
Definition ready_sequence (p : Platform) (new : bool) (version : Z) (x : planned) : list CReq :=
  QPublishSettings (newAppSettingsPublishJSON version) :: QSubscribe LS_FOREGROUND_STATE :: QSubscribe LS_RESP :: fetch_sequence p new x.

Lemma after_fetch p new s tr r s' uuid :
  sruns (step "failed to report app state: "
           (cblock (QExecuteTasks [Tasks.mkTask (TaskTypes.ReportAppStateTask.mkReportAppStateTask FOREGROUND uuid)]))
           (step "failed to ensure db 1 is synced: " (cblock (QEnsureSynced (if IsInstagram p then minimalInitialSync else minimalFBInitialSync)))
              (cblock (QEvent (ReadyEvent new));; modify (set_previouslyConnected true);; mret None))) s tr r s' ->
  exists _ : unit, goes_through
    [QExecuteTasks [Tasks.mkTask (TaskTypes.ReportAppStateTask.mkReportAppStateTask FOREGROUND uuid)];
     QEnsureSynced (if IsInstagram p then minimalInitialSync else minimalFBInitialSync); QEvent (ReadyEvent new)] tr r.
Proof.
  apply (step_through tt); [blocks|done|]. clear. intros s tr r s'.
  apply (step_through tt); [blocks|done|]. clear. intros s tr r s' H. exists tt.
  apply event_through in H; [done|]. clear. intros s tr r s' (r1 & s1 & t1 & t2 & -> & (-> & -> & ->)%sruns_modify & H)%sruns_bind.
  by apply sruns_ret in H as (-> & -> & ->).
Qed.

Lemma after_subscribed p new s tr r s' :
  sruns (modify (set_canSend true);;
         cf ← deref configs;
         sm ← deref syncManager;
         step "failed to send sync tasks: " (request (initial_tasks sm (ParentThreadKeys cf)))
           (uuid ← ctell QUUID;
            step "failed to report app state: "
              (cblock (QExecuteTasks [Tasks.mkTask (TaskTypes.ReportAppStateTask.mkReportAppStateTask FOREGROUND uuid)]))
              (step "failed to ensure db 1 is synced: " (cblock (QEnsureSynced (if IsInstagram p then minimalInitialSync else minimalFBInitialSync)))
                (cblock (QEvent (ReadyEvent new));; modify (set_previouslyConnected true);; mret None)))) s tr r s' ->
  exists x, goes_through (fetch_sequence p new x) tr r.
Proof.
  intros (r1 & s1 & t1 & t2 & -> & (-> & -> & ->)%sruns_modify & H)%sruns_bind. cbn [app].
  apply deref_bind in H as [(cf & _ & H)|[-> ->]]; [|exists (newSyncManager, [], ""%string); apply goes_nowhere].
  apply deref_bind in H as [(sm & _ & H)|[-> ->]]; [|exists (newSyncManager, [], ""%string); apply goes_nowhere].
  apply (step_through ""%string _ (QLSRequest (initial_tasks sm (ParentThreadKeys cf))) _ _
    (fun uuid => tail (fetch_sequence p new (sm, ParentThreadKeys cf, uuid)))) in H as [uuid H];
    [by exists (sm, ParentThreadKeys cf, uuid)|apply request_through|done|].
  clear. intros s tr r s' (r1 & s1 & t1 & t2 & -> & H1 & H)%sruns_bind.
  destruct (proj1 (sruns_tell (answer := canswer) QUUID _ _ _ _) H1) as (uuid & s2 & -> & -> & ->).
  exists uuid. apply after_fetch in H as [_ H]. apply (goes_app [QUUID]); [done|by repeat constructor|exact H].
Qed.

(** C14. A connection is set up in order: the topics are subscribed before anything is fetched,
    the threads under every parent key are fetched before the state is reported and the
    databases are synced, and the client is told last.  Each step is taken only after the one
    before was answered without an error: it succeeds exactly when all of them were, and where
    one fails that error is returned and none of those that follow is done.  A connection that
    was there before is only synced. *)
Theorem ready_in_order new s tr r s' (H : sruns (handleReadyEvent new) s tr r s') :
  (previouslyConnected s = true -> goes_through (reconnect_sequence (platform s)) tr r) /\
  (previouslyConnected s = false -> forall cf, configs s = Some cf ->
     exists x, goes_through (ready_sequence (platform s) new (VersionID cf) x) tr r).
Proof.
  unfold handleReadyEvent in H.
  apply sruns_bind in H as (r1 & s1 & t1 & t2 & -> & (-> & -> & ->)%sruns_gets & H). cbn [app].
  apply sruns_bind in H as (r1 & s1 & t1 & t3 & -> & (-> & -> & ->)%sruns_gets & H). cbn [app].
  destruct (previouslyConnected s); (split; [|try done]); try done; intros _; revert H; generalize (platform s); intros p H.
  - apply sruns_bind in H as (r1 & s1 & t1 & t2 & -> & (-> & -> & ->)%sruns_modify & H). cbn [app].
    cut (exists _ : unit, goes_through (reconnect_sequence p) ([] ++ [] ++ [] ++ t2) r); [by intros [_ ?]|]. revert H. cbn [app].
    apply (step_through tt); [blocks|done|].
    clear. intros s tr r s' H. exists tt. apply event_through in H; [done|]. clear. intros s tr r s'. by intros (-> & -> & ->)%sruns_ret.
  - intros cf Hcf. apply deref_bind in H as [(cf' & Hcf' & H)|[-> ->]]; [|exists (newSyncManager, [], ""%string); apply goes_nowhere].
    rewrite Hcf in Hcf'. injection Hcf' as <-. revert H. apply (step_through (newSyncManager, [], ""%string)); [blocks|done|].
    clear. intros s tr r s'. apply (step_through (newSyncManager, [], ""%string)); [blocks|done|].
    clear. intros s tr r s'. apply (step_through (newSyncManager, [], ""%string)); [blocks|done|].
    clear. intros s tr r s'. apply after_subscribed.
Qed.

(** Every parent key of the page is fetched in both groups, and so is -1. *)
Lemma initial_tasks_cover sm ptks tk : tk ∈ ptks \/ tk = -1 ->
  threads_task tk 0 9999999999999 (Some (GetCursor sm 1)) 1 ∈ initial_tasks sm ptks /\
  threads_task tk 0 9999999999999 None 95 ∈ initial_tasks sm ptks.
Proof.
  intros H. assert (tk ∈ parent_keys ptks) as Hk.
  { unfold parent_keys. case_bool_decide; [by destruct H as [?| ->]|]. apply elem_of_app. destruct H as [?| ->]; [by left|right; left]. }
  unfold initial_tasks. rewrite !elem_of_app. split; left; apply list_elem_of_bind; exists tk; (split; [|done]); cbn; [left|right; left].
Qed.

(** ** Saving and restoring *)

Lemma load_store_spec l : NoDup l.*1 ->
  let '(os, st) := load_store l in omap (fun p => os !! p) st = list_to_map l /\ (forall k p, st !! k = Some p -> p ∈ dom os).
Proof.
  induction l as [|[k v] l IH]; [split; [done|set_solver]|]. cbn [fmap list_fmap fst]. intros [Hk Hl]%NoDup_cons.
  specialize (IH Hl). unfold load_store in *. cbn [foldr fst snd]. destruct (foldr _ _ l) as [os st]. destruct IH as [IH Hd].
  set (p := fresh (dom os)). assert (p ∉ dom os) as Hp by apply is_fresh. split.
  - cbn [list_to_map foldr]. rewrite (omap_insert_Some _ _ _ p v) by apply lookup_insert_eq. cbn. f_equal. rewrite <- IH.
    apply map_eq. intros j. rewrite !lookup_omap. destruct (st !! j) as [q|] eqn:E; [|done]. cbn.
    apply lookup_insert_ne. intros ->. by apply Hp, (Hd j).
  - intros j q. rewrite dom_insert. destruct (decide (j = k)) as [->|Hne]; [rewrite lookup_insert_eq; intros [= <-]; set_solver|].
    rewrite lookup_insert_ne by done. intros E. apply Hd in E. set_solver.
Qed.

Lemma store_restored m s : store_of (with_store m s) = m.
Proof.
  unfold with_store, store_of. pose proof (load_store_spec (map_to_list m) (NoDup_fst_map_to_list m)) as H.
  destruct (load_store _) as [os st]. cbn. destruct H as [-> _]. apply list_to_map_to_list.
Qed.

(** Texts that are written as they are. *)
Definition readable (l : list string) : Prop := Forall (fun s => ValidString s = true) l.

Lemma json_text_valid s : ValidString s = true -> json_text s = s.
Proof. unfold ValidString. by rewrite bool_decide_eq_true. Qed.

Lemma json_texts_valid l : readable l -> json_text <$> l = l.
Proof. induction 1 as [|s l Hs _ IH]; [done|]. cbn. by rewrite json_text_valid, IH. Qed.

#[local] Opaque json_text.

Definition config_texts (c : Configs) : list string :=
  [AccountID c; ViewerID c; ClientID c; Endpoint (mqtt c); HostNameOverride (mqtt c); p_Mailbox (PageSyncParams c); p_Contact (PageSyncParams c);
   p_E2Ee (PageSyncParams c); LSDToken c; cf_LSDToken c; WebSessionID c; CompressedStr (cf_Bitmap c); CompressedStr (CSRBitmap c)] ++
  default [] (SubscribedTopics (mqtt c)).
Definition cursors (m : gmap Z QueryMetadata) : list string := omap (fun kv => LastAppliedCursor kv.2) (map_to_list m).

(** What is missing from configs that were saved: the client, the indices of the bitmaps, and
    an empty list of topics, which becomes none. *)
Definition some_topics (m : MqttWebConfig) : MqttWebConfig :=
  mkMqttWebConfig (mq_AppID m) (Capabilities m) (ChatVisibility m) (ClientCapabilities m) (Endpoint m) (HostNameOverride m)
    (if bool_decide (SubscribedTopics m = Some []) then None else SubscribedTopics m).
Definition without_indices (b : Bitmap) : Bitmap := mkBitmap [] (CompressedStr b).
Definition saved_configs (c : Configs) : Configs :=
  set_has_client false (set_mqtt (some_topics (mqtt c)) (set_Bitmap (without_indices (cf_Bitmap c)) (set_CSRBitmap (without_indices (CSRBitmap c)) c))).

Lemma written_configs_spec c : readable (config_texts c) -> written_configs c = saved_configs c.
Proof.
  intros H. apply Forall_app in H as [H Ht]. unfold written_configs, saved_configs, written_bitmap, written_params.
  repeat (apply Forall_cons in H as [?%json_text_valid H]).
  destruct c as [hc a v ci m i [mb ct e2] l1 l2 ver w b1 b2 ks]. cbn in *.
  assert (written_mqtt m = some_topics m) as ->; [|unfold set_has_client, set_mqtt, set_Bitmap, set_CSRBitmap, without_indices; cbn; congruence].
  unfold written_mqtt, some_topics. destruct m as [ap ca cv cc ep ho st]. cbn in *. f_equal; [assumption..|].
  destruct st as [[|t ts]|]; [done| |done]. cbn [default] in Ht. rewrite bool_decide_false by done.
  f_equal. exact (json_texts_valid _ Ht).
Qed.

Lemma written_store_spec m : readable (cursors m) -> written_query <$> m = m.
Proof.
  intros H. apply map_eq. intros k. rewrite lookup_fmap. destruct (m !! k) as [q|] eqn:E; [|done]. cbn. f_equal.
  destruct q as [d p [cu|] ch]; [|done]. unfold written_query. cbn. do 2 f_equal. apply json_text_valid.
  unfold readable in H. rewrite Forall_forall in H. apply H. apply list_elem_of_omap. exists (k, mkQueryMetadata d p (Some cu) ch).
  split; [by apply elem_of_map_to_list|done].
Qed.

(** C30. A connection that is saved is restored, within a day, by a client of the same platform:
    its configs, the cursors of its databases, its packet ids and its session; the broker is
    found again.  Not restored are the pointer from the configs to their client, the indices of
    the two bitmaps, of which only the compressed strings are kept, the difference between no
    topics and an empty list of them, the parameters of syncs and the ranges of threads.  The
    texts of the configs and the cursors are valid UTF-8, as those of a page are. *)
Theorem saved_connection_is_restored c cf sm c0 t0 t d (Hd : DumpState t0 (Some c) = Some d) (Hp : platform c0 = platform c)
    (Ht : t0 <= t <= t0 + MaxCachedStateAge) (Hcf : configs c = Some cf) (Hsm : syncManager c = Some sm)
    (Htexts : readable (config_texts cf ++ cursors (store_of sm)))
    (Hb : broker c = match platform c with
                     | Instagram => "wss://edge-chat.instagram.com/chat?"%string
                     | _ => Endpoint (mqtt cf)
                     end) :
  exists c' sm', LoadState t (inl (written d)) (Some c0) = Ok (Some c', None) /\
    configs c' = Some (saved_configs cf) /\ syncManager c' = Some sm' /\ store_of sm' = store_of sm /\
    packetsSent c' = packetsSent c /\ sessionID c' = sessionID c /\ broker c' = broker c /\ previouslyConnected c' = true /\
    syncParams sm' = mkSyncParams "" "" "" /\ keyStore sm' = keyStore newSyncManager.
Proof.
  cbn [DumpState] in Hd. rewrite Hcf, Hsm in Hd.
  destruct ((packetsSent c =? 0) || negb (previouslyConnected c)); [done|]. injection Hd as <-.
  apply Forall_app in Htexts as [Hv1 Hv2]. apply written_configs_spec in Hv1. apply written_store_spec in Hv2.
  exists (set_previouslyConnected true (set_broker (broker c) (set_sessionID (sessionID c) (set_packetsSent (packetsSent c)
    (set_syncManager (Some (with_store (store_of sm) newSyncManager)) (set_configs_ (Some (saved_configs cf)) c0)))))),
    (with_store (store_of sm) newSyncManager).
  split.
  - unfold written. cbn [LoadState d_Timestamp d_Configs d_SyncStore d_PacketsSent d_SessionID fmap option_fmap option_map]. rewrite Hv1, Hv2.
    assert ((Z.min (2 ^ 63 - 1) (t - t0) >? MaxCachedStateAge) = false) as -> by (unfold MaxCachedStateAge in *; lia).
    rewrite andb_false_r. change (platform (set_sessionID _ _)) with (platform c0). rewrite Hp, Hb. by destruct (platform c).
  - split_and!; try done; [apply store_restored|..]; unfold with_store; by destruct (load_store _).
Qed.

(** ** Proxies *)

(** A client that had an HTTP proxy keeps it for its websockets when it is given a SOCKS
    proxy: its HTTP requests go through the new one, its connections through the old one. *)
Theorem socks_does_not_replace_http Parse FromURL http socks u1 u2 c c1 c2
    (H1 : Parse http = inl u1) (E1 : Scheme u1 = "http"%string) (H2 : Parse socks = inl u2) (E2 : Scheme u2 = "socks5"%string)
    (R1 : SetProxy Parse FromURL http (Some c) = (Some c1, None)) (R2 : SetProxy Parse FromURL socks (Some c1) = (Some c2, None))
    (Hs : socks <> ""%string) :
  GetDialer c2 = ViaHTTP http /\ httpSettingsProxy c2 = socks.
Proof.
  cbn [SetProxy] in *. rewrite H1, E1 in R1. injection R1 as <-. rewrite H2, E2 in R2. cbn in R2.
  destruct (FromURL u2); [done|]. injection R2 as <-. unfold SetHTTP. cbn.
  destruct (String.eqb_spec http ""), (String.eqb_spec socks ""); done.
Qed.

(** A new client of a Messenger platform counts as authenticated before it has loaded
    anything: its account id is empty, and only "0" means that there is none. *)
Theorem new_messenger_is_authenticated ck may sid c (Hp : IsMessenger (Platform_ ck) = true) (Hc : NewClient ck may sid = Ok c) :
  IsAuthenticated (Some c) = Ok true.
Proof. unfold NewClient in Hc. destruct (Platform_ ck); try done; injection Hc as <-; reflexivity. Qed.

(** ** The documents *)

(** The topics of a renewed connection: the two the client needs, and no other is lost. *)
Lemma connect_topics_spec l t :
  t ∈ default [] (connect_topics true l) <-> t ∈ default [] l \/ t = LS_FOREGROUND_STATE \/ t = LS_RESP.
Proof.
  assert (forall topic l, t ∈ default [] (add_topic topic l) <-> t ∈ default [] l \/ t = topic) as H.
  { intros topic l0. unfold add_topic. case_bool_decide as E; [|cbn; rewrite elem_of_app, list_elem_of_singleton; done].
    split; [by left|]. by intros [?| ->]. }
  unfold connect_topics. rewrite !H. tauto.
Qed.

(** * Examples *)

Definition demo_mqtt : MqttWebConfig := mkMqttWebConfig 219994525426954 10 true 3 "wss://edge-chat.facebook.com/chat?region=eag" "" (Some []).
Definition demo_configs : Configs :=
  mkConfigs true "100" "" "3b7a" demo_mqtt 0 (mkSyncParams "{}" "{}" "") "lsd" "lsd" 7 "a:b:c" NewBitmap NewBitmap [-1; 5].
Definition demo_cookies : Cookies := mkCookies Facebook (Some ∅) "".
Definition demo_client : Client :=
  mkClient Facebook demo_cookies (Some demo_configs) (Some newSyncManager) FacebookEndpoints false true false
    true 3 77 "wss://edge-chat.facebook.com/chat?region=eag" true None false "" None None false "" true None true false.

Definition calm (q : CReq) : canswer q :=
  match q with
  | QNow => 0
  | QWebSessionID _ => "a:b:c"
  | QUUID => "00000000-0000-4000-8000-000000000000"
  | QLoadModules _ => inl ∅
  | QPublishSettings _ | QSubscribe _ | QExecuteTasks _ | QEnsureSynced _ => None
  | QLSRequest _ => inl ∅
  | QEvent _ | QCancel _ | QGoConnectionLoop _ | QGoDGW _ | QCancelAllRequests | QSocketDisconnect | QDGWDisconnect => tt
  | QGetNewProxy _ => inl "socks5://127.0.0.1:9050"
  | QCtxDone _ => false
  | QPause _ _ | QWaitLoopStopped _ => true
  | QNewContext => 0%nat
  | QDial _ | QSendConnect _ | QDGWConnect => None
  | QReadLoop => OtherError "closed cleanly"
  | QWaitCanSend _ => None
  end%string.

Definition calm_env (q : CReq * Client) (x : unit) : (canswer q.1 * Client) * unit := ((calm q.1, q.2), x).

Definition fresh_connection : Client := set_previouslyConnected false demo_client.
Definition demo_ready := play calm_env (handleReadyEvent true fresh_connection) ().

Example demo_ready_asks : length (asks demo_ready.1.2) = 8%nat /\ demo_ready.1.1.1 = Ok None /\ canSendMessages demo_ready.1.1.2 = true.
Proof. vm_compute. split_and!; reflexivity. Qed.

Lemma ready_in_order_witness :
  (previouslyConnected fresh_connection = true -> goes_through (reconnect_sequence Facebook) demo_ready.1.2 demo_ready.1.1.1) /\
  (previouslyConnected fresh_connection = false -> forall cf, configs fresh_connection = Some cf ->
     exists x, goes_through (ready_sequence Facebook true (VersionID cf) x) demo_ready.1.2 demo_ready.1.1.1).
Proof. exact (ready_in_order true fresh_connection _ _ _ (play_sruns calm_env (handleReadyEvent true) fresh_connection ())). Defined.

Definition demo_dump : dumpedState := mkDumped (Some demo_configs) (store_of newSyncManager) 3 77 1000.
Definition blank_client : Client :=
  mkClient Facebook demo_cookies (Some new_configs) None FacebookEndpoints false true false
    false 0 5 "" false None false "" None None false "" true None true false.

(** The cached indices of a bitmap and an empty list of topics do not come back. *)
Example saved_without_indices :
  cf_Bitmap (saved_configs (set_Bitmap (mkBitmap [0; 1] "2") demo_configs)) = mkBitmap [] "2" /\ SubscribedTopics (mqtt (saved_configs demo_configs)) = None.
Proof. by vm_compute. Qed.

Lemma saved_connection_is_restored_witness :
  exists c' sm', LoadState 2000 (inl (written demo_dump)) (Some blank_client) = Ok (Some c', None) /\
    configs c' = Some (saved_configs demo_configs) /\ syncManager c' = Some sm' /\ store_of sm' = store_of newSyncManager /\
    packetsSent c' = packetsSent demo_client /\ sessionID c' = sessionID demo_client /\ broker c' = broker demo_client /\ previouslyConnected c' = true /\
    syncParams sm' = mkSyncParams "" "" "" /\ keyStore sm' = keyStore newSyncManager.
Proof.
  apply (saved_connection_is_restored demo_client demo_configs newSyncManager blank_client 1000 2000 demo_dump); [reflexivity..| |reflexivity|reflexivity| |reflexivity].
  - unfold MaxCachedStateAge. lia.
  - apply Forall_forall. intros x Hx. assert (forallb ValidString (config_texts demo_configs ++ cursors (store_of newSyncManager)) = true) as H by (vm_compute; reflexivity).
    rewrite forallb_forall in H. by apply H, list_elem_of_In.
Defined.

Definition demo_parse (s : string) : ParsedURL + error :=
  if HasPrefix s "http://" then inl (mkURL "http" "proxy.example") else inl (mkURL "socks5" "127.0.0.1:9050").
Definition demo_from (u : ParsedURL) : option error := None.
Definition proxied (a : string) (c : Client) : Client := default c (SetProxy demo_parse demo_from a (Some c)).1.

Lemma socks_does_not_replace_http_witness :
  GetDialer (proxied "socks5://127.0.0.1:9050" (proxied "http://proxy.example" blank_client)) = ViaHTTP "http://proxy.example" /\
  httpSettingsProxy (proxied "socks5://127.0.0.1:9050" (proxied "http://proxy.example" blank_client)) = "socks5://127.0.0.1:9050"%string.
Proof.
  apply (socks_does_not_replace_http demo_parse demo_from "http://proxy.example" "socks5://127.0.0.1:9050" (mkURL "http" "proxy.example")
    (mkURL "socks5" "127.0.0.1:9050") blank_client (proxied "http://proxy.example" blank_client)); try reflexivity. done.
Defined.

Lemma new_messenger_is_authenticated_witness : IsAuthenticated (Some (set_sessionID 9 (set_syncManager None
    (mkClient Facebook demo_cookies (Some new_configs) None FacebookEndpoints false true false
    false 0 5 "" false None false "" None None false "" false None true false)))) = Ok true.
Proof. apply (new_messenger_is_authenticated demo_cookies false 9); reflexivity. Defined.
