(* ===== verification/Http.v ===== *)
(** * Http: redirects and retries ([messagix/http.go])

    Every page and request goes through [MakeRequest]: it repeats a request that failed, unless
    the error is final.  The errors that say what happened to the account come from the check
    of redirects, which the HTTP library calls.  The library, the clock and the proxies are the
    environment of a tree of requests ([Interaction]). *)

From S2P Require Import Prelude Strconv Cookies.
From S2P Require Import Errors Interaction.
#[local] Open Scope Z_scope.

Definition MaxHTTPRetries : Z := 5.

(** ** Redirects *)

(** The request a redirect leads to, and the cookies of the response that redirects. *)
Record Redirect := mkRedirect {
  Hostname : string; URL_Path : string; URL_String : string; resp_Cookies : option (list HTTPCookie)
}.

Definition token_cookie_deleted (cookie : HTTPCookie) : bool :=
  ((ck_Name cookie =? "xs")%string || (ck_Name cookie =? "sessionid")%string) && (MaxAge cookie <? 0).

(** [via] is the number of requests made before. *)
Definition checkHTTPRedirect (req : Redirect) (via : Z) : option error :=
  match resp_Cookies req with
  | None => None
  | Some respCookies =>
      let to s := WrapSuffix (SentinelError s) (": redirected to " ++ URL_String req) in
      if via >? 5 then Some (SentinelError ErrTooManyRedirects)
      else if (URL_Path req =? "/challenge/")%string then Some (to ErrChallengeRequired)
      else if (URL_Path req =? "/accounts/suspended/")%string then Some (to ErrAccountSuspended)
      else if (URL_Path req =? "/consent/")%string || HasPrefix (URL_Path req) "/privacy/consent/"
      then Some (to ErrConsentRequired)
      else if HasPrefix (URL_Path req) "/checkpoint/" then Some (to ErrCheckpointRequired)
      else match list_find token_cookie_deleted respCookies with
           | Some (_, cookie) =>
               Some (WrapSuffix (SentinelError ErrTokenInvalidated) (": " ++ ck_Name cookie ++ " cookie was deleted"))
           | None =>
               if (URL_Path req =? "/login.php")%string
               then Some (WrapSuffix (SentinelError ErrTokenInvalidatedRedirect) (" to " ++ URL_String req))
               else None
           end
  end.

(** ** Requests *)

(** A response: its status, and its body unless reading it fails. *)
Record HTTPResponse := mkHTTPResponse { StatusCode : Z; Body : string + error }.

(** What [MakeRequest] is given. *)
Record Request := mkRequest {
  url : string; method : string; headers : gmap string string; payload : string; contentType : string
}.

Definition with_content_type (rq : Request) : Request :=
  if (contentType rq =? "")%string then rq
  else mkRequest (url rq) (method rq) (<["content-type" := contentType rq]> (headers rq)) (payload rq) (contentType rq).

Variant HReq :=
| HNewRequest (rq : Request)
| HDo (rq : Request)
| HUpdateProxy (reason : string)
| HSleep (ns : Z)
| HCtxErr.

Definition hanswer (q : HReq) : Type :=
  match q with
  | HNewRequest _ => option error
  | HDo _ => HTTPResponse + error
  | HUpdateProxy _ => bool
  | HSleep _ => unit
  | HCtxErr => bool
  end.

Abbreviation HP A := (prog hanswer A).

#[local] Notation "x ⇐ p ; q" := (prog_bind p (fun x => q)) (at level 20, p at level 100, q at level 200).

Definition hask (q : HReq) : HP (hanswer q) := Ask q Ret.

Definition makeRequestDirect (rq : Request) : HP ((HTTPResponse * string) + error) :=
  err ⇐ hask (HNewRequest rq);
  match err with
  | Some e => Ret (inr e)
  | None =>
      r ⇐ hask (HDo (with_content_type rq));
      match r with
      | inr e =>
          _ ⇐ hask (HUpdateProxy ("http request error: " ++ error_text e));
          Ret (inr (WrapBoth (SentinelError ErrRequestFailed) e))
      | inl response =>
          match Body response with
          | inr e => Ret (inr (WrapBoth (SentinelError ErrResponseReadFailed) e))
          | inl responseBody =>
              if StatusCode response >=? 500
              then Ret (inr (WrapSuffix (SentinelError ErrServerError) (": " ++ FormatInt 10 (StatusCode response))))
              else Ret (inl (response, responseBody))
          end
      end
  end.

Definition Second : Z := 1000000000.

(** The loop of [MakeRequest]; [n] bounds its rounds, of which [attempts] are behind it. *)
Fixpoint request_loop (n : nat) (attempts : Z) (rq : Request)
    : HP (option ((HTTPResponse * string) + error)) :=
  match n with
  | O => Ret None
  | S n =>
      let attempts := attempts + 1 in
      r ⇐ makeRequestDirect rq;
      match r with
      | inl x => Ret (Some (inl x))
      | inr err =>
          if attempts >? MaxHTTPRetries
          then Ret (Some (inr (WrapBoth (SentinelError ErrMaxRetriesReached) err)))
          else
            let again : HP _ := _ ⇐ hask (HSleep (attempts * 3 * Second)); request_loop n attempts rq in
            if isPermanentRequestError err then Ret (Some (inr err))
            else c ⇐ hask HCtxErr; if c : bool then Ret (Some (inr err)) else again
      end
  end.

Definition MakeRequest (rq : Request) : HP (option ((HTTPResponse * string) + error)) :=
  request_loop 6 0 rq.

(** ** Runs *)

Definition done_by (e : event hanswer) : option (HTTPResponse + error) :=
  match e with
  | Event q x => match q return hanswer q -> option (HTTPResponse + error) with
                 | HDo _ => fun x => Some x
                 | _ => fun _ => None
                 end x
  end.
(** The answers of the server, in order, and the times waited between them. *)
Definition tries (tr : list (event hanswer)) : list (HTTPResponse + error) := omap done_by tr.
Definition waited (tr : list (event hanswer)) : list Z :=
  omap (fun e => match asked e with HSleep ns => Some ns | _ => None end) tr.

Lemma tries_app a b : tries (a ++ b) = tries a ++ tries b.
Proof. apply omap_app. Qed.
Lemma waited_app a b : waited (a ++ b) = waited a ++ waited b.
Proof. apply omap_app. Qed.

Lemma runs_hask q tr a : runs (hask q) tr a <-> tr = [Event q a].
Proof. cbn. split; [intros (x & t & -> & -> & ->)|intros ->; exists a, []]; done. Qed.

(** One try: it asks the server at most once, waits for nothing, and its error wraps that of the
    server. *)
Lemma direct_try rq tr r : runs (makeRequestDirect rq) tr r ->
  waited tr = [] /\ (length (tries tr) <= 1)%nat /\
  (forall e, tries tr = [inr e] -> r = inr (WrapBoth (SentinelError ErrRequestFailed) e)) /\
  (forall x, r = inl x -> tries tr = [inl x.1]).
Proof.
  unfold makeRequestDirect. intros (e0 & t1 & t2 & -> & ->%runs_hask & H)%runs_prog_bind.
  destruct e0 as [e0|].
  { destruct H as [-> ->]. cbn. split; [done|]. split; [lia|]. by split. }
  apply runs_prog_bind in H as (x & t3 & t4 & -> & ->%runs_hask & H). destruct x as [resp|e].
  - destruct (Body resp) as [b|e]; [|destruct H as [-> ->]; cbn; split; [done|]; split; [lia|]; by split].
    destruct (StatusCode resp >=? 500); destruct H as [-> ->]; cbn;
      (split; [done|]); (split; [lia|]); split; try done. by intros x [= <-].
  - apply runs_prog_bind in H as (y & t5 & t6 & -> & ->%runs_hask & [-> ->]). cbn.
    split; [done|]. split; [lia|]. split; [by intros ? [= ->]|done].
Qed.

Lemma request_loop_run n a rq tr r :
  runs (request_loop n a rq) tr r -> a + Z.of_nat n = 6 -> 0 <= a -> (0 < n)%nat ->
  (exists out, r = Some out) /\
  (length (tries tr) <= n)%nat /\
  (exists k, waited tr = take k ((fun i => (a + 1 + Z.of_nat i) * 3 * Second) <$> seq 0 (n - 1))).
Proof.
  revert a tr. induction n as [|n IH]; intros a tr H Ha H0 Hn; [lia|]. cbn [request_loop] in H.
  apply runs_prog_bind in H as (x & t1 & t2 & -> & H1 & H).
  destruct (direct_try _ _ _ H1) as (Hw & Hl & _).
  rewrite tries_app, waited_app, length_app, Hw. cbn [app].
  destruct x as [x|e].
  { destruct H as [-> ->]. split; [by eexists|]. split; [cbn; lia|]. by exists O. }
  destruct (a + 1 >? MaxHTTPRetries) eqn:E.
  { destruct H as [-> ->]. split; [by eexists|]. split; [cbn; lia|]. by exists O. }
  destruct (isPermanentRequestError e).
  { destruct H as [-> ->]. split; [by eexists|]. split; [cbn; lia|]. by exists O. }
  apply runs_prog_bind in H as (c & t3 & t4 & -> & ->%runs_hask & H). destruct c.
  { destruct H as [-> ->]. split; [by eexists|]. split; [cbn; lia|]. by exists O. }
  apply runs_prog_bind in H as (u & t5 & t6 & -> & ->%runs_hask & H).
  unfold MaxHTTPRetries in E.
  destruct n as [|n]; [lia|].
  destruct (IH (a + 1) t6 H) as (Ho & Hlen & k & Hk); [lia..|].
  split; [done|]. split; [rewrite !tries_app, !length_app; cbn [tries omap list_omap done_by length]; lia|].
  exists (S k). rewrite (Nat.sub_succ (S n) 0), Nat.sub_0_r, !waited_app, Hk, Nat.sub_succ, Nat.sub_0_r.
  cbn [seq fmap list_fmap take waited omap list_omap asked app].
  replace (a + 1 + Z.of_nat 0) with (a + 1) by lia. f_equal.
  rewrite <- fmap_S_seq, <- list_fmap_compose. f_equal. apply list_fmap_ext. intros i x _. cbn. lia.
Qed.

(** Errors are told apart through what wraps them. *)
Definition wraps (e' e : error) : Prop := forall t, errors_Is e t = true -> errors_Is e' t = true.

Lemma wraps_refl e : wraps e e.
Proof. by intros t. Qed.
Lemma wraps_Both e1 e2 e : wraps e2 e -> wraps (WrapBoth e1 e2) e.
Proof. intros H t Ht. cbn. by rewrite (H t Ht), orb_true_r. Qed.
Lemma wraps_Wrap s e' e : wraps e' e -> wraps (Wrap s e') e.
Proof. intros H t Ht. by apply H. Qed.

Lemma wraps_permanent e' e : wraps e' e -> isPermanentRequestError e = true -> isPermanentRequestError e' = true.
Proof. intros H. unfold isPermanentRequestError. rewrite !orb_true_iff. intros Hp. repeat destruct Hp as [Hp|Hp]; naive_solver. Qed.

(** A final error ends the loop, and its caller sees it. *)
Lemma final_error_ends n : forall a rq tr r l1 e l2,
  runs (request_loop n a rq) tr r -> tries tr = l1 ++ inr e :: l2 ->
  isPermanentRequestError e = true -> l2 = [] /\ exists e', r = Some (inr e') /\ wraps e' e.
Proof.
  induction n as [|n IH]; intros a rq tr r l1 e l2 H Ht He; cbn [request_loop] in H.
  { destruct H as [-> _]. by destruct l1. }
  apply runs_prog_bind in H as (x & t1 & t2 & -> & H1 & H).
  destruct (direct_try _ _ _ H1) as (_ & Hl & Herr & Hok). rewrite tries_app in Ht.
  destruct x as [x|err].
  { destruct H as [-> ->]. rewrite (Hok x) in Ht by done. by destruct l1 as [|? []]. }
  (* either the error is that of this try, or of a later one *)
  assert (tries t1 = [inr e] /\ l1 = [] /\ tries t2 = l2 \/ exists l1', tries t2 = l1' ++ inr e :: l2) as [(E1 & -> & E2)|(l1' & E2)].
  { destruct (tries t1) as [|y [|]]; cbn in Hl; [right; by exists l1| |lia].
    cbn in Ht. destruct l1 as [|z l1]; injection Ht as -> E; [by left|right; by exists l1]. }
  - injection (Herr e E1) as ->.
    assert (wraps (WrapBoth (SentinelError ErrRequestFailed) e) e) as Hw by apply wraps_Both, wraps_refl.
    destruct (a + 1 >? MaxHTTPRetries).
    + destruct H as [-> ->]. split; [done|]. eexists. split; [done|]. by apply wraps_Both.
    + rewrite (wraps_permanent _ _ Hw He) in H. destruct H as [-> ->]. split; [done|]. by eexists.
  - destruct (a + 1 >? MaxHTTPRetries); [destruct H as [-> ->]; by destruct l1'|].
    destruct (isPermanentRequestError err); [destruct H as [-> ->]; by destruct l1'|].
    apply runs_prog_bind in H as (c & t3 & t4 & -> & ->%runs_hask & H).
    destruct c; [destruct H as [-> ->]; by destruct l1'|].
    apply runs_prog_bind in H as (u & t5 & t6 & -> & ->%runs_hask & H). by eapply IH.
Qed.

Lemma redirect_error_is_final req via e : checkHTTPRedirect req via = Some e -> isPermanentRequestError e = true.
Proof.
  unfold checkHTTPRedirect. destruct (resp_Cookies req); [|done]. intros H.
  repeat match type of H with context [if ?c then _ else _] => destruct c end;
    try destruct (list_find _ _) as [[i c]|];
    repeat match type of H with context [if ?c then _ else _] => destruct c end;
    try done; by injection H as <-.
Qed.

(** * Properties *)

(** A request is made at most six times, after pauses of 3, 6, 9, 12 and 15 seconds, and
    [MakeRequest] returns: with the response of the last try or an error. *)
Theorem requests_are_bounded rq tr r (H : runs (MakeRequest rq) tr r) :
  (exists out, r = Some out) /\ (length (tries tr) <= 6)%nat /\
  exists k, waited tr = take k ((fun s => s * Second) <$> [3; 6; 9; 12; 15]).
Proof. destruct (request_loop_run 6 0 _ _ _ H) as (Ho & Hl & k & Hk); [done..|lia|]. split; [done|]. split; [done|]. by exists k. Qed.

(** When the server redirects to a page that means the account needs attention (a
    challenge, a checkpoint, consent, a suspended account, the login page, a deleted session
    cookie), the request is not repeated, and whatever wraps the error, the caller of
    [MakeRequest] finds it with [errors.Is]. *)
Theorem refused_redirect_is_reported rq tr r l1 l2 text req via e
    (H : runs (MakeRequest rq) tr r)
    (Hredirect : checkHTTPRedirect req via = Some e)
    (Htry : tries tr = l1 ++ inr (Wrap text e) :: l2) :
  l2 = [] /\ exists e', r = Some (inr e') /\ forall t, errors_Is e t = true -> errors_Is e' t = true.
Proof.
  pose proof (wraps_Wrap text e e (wraps_refl e)) as Hw.
  destruct (final_error_ends _ _ _ _ _ _ _ _ H Htry) as (-> & e' & -> & He').
  { eapply wraps_permanent; [exact Hw|]. by eapply redirect_error_is_final. }
  split; [done|]. exists e'. split; [done|]. intros t Ht. by apply He'.
Qed.

(** * Witnesses *)

Definition to_challenge : Redirect := mkRedirect "www.instagram.com" "/challenge/" "https://www.instagram.com/challenge/" (Some []).
Definition redirect_error : error := Wrap "Get: " (WrapSuffix (SentinelError ErrChallengeRequired) ": redirected to https://www.instagram.com/challenge/").

Definition demo_request : Request := mkRequest "https://www.instagram.com/direct/" "GET" ∅ "" "".

(** A server that fails once and then redirects. *)
Definition flaky (q : HReq) (n : nat) : hanswer q * nat :=
  match q with
  | HNewRequest _ => (None, n)
  | HDo _ => match n with O => (inl (mkHTTPResponse 503 (inl "")), 1%nat) | _ => (inr redirect_error, 2%nat) end
  | HUpdateProxy _ => (true, n)
  | HSleep _ => ((), n)
  | HCtxErr => (false, n)
  end.

Definition flaky_run := play flaky (MakeRequest demo_request) 0%nat.

Lemma requests_are_bounded_witness :
  (exists out, flaky_run.1.1 = Some out) /\ (length (tries flaky_run.1.2) <= 6)%nat /\
  exists k, waited flaky_run.1.2 = take k ((fun s => s * Second) <$> [3; 6; 9; 12; 15]).
Proof. apply (requests_are_bounded demo_request). apply play_runs. Defined.

Lemma refused_redirect_is_reported_witness :
  checkHTTPRedirect to_challenge 1 = Some (WrapSuffix (SentinelError ErrChallengeRequired) ": redirected to https://www.instagram.com/challenge/") /\
  exists e', flaky_run.1.1 = Some (inr e') /\ err_is e' ErrChallengeRequired = true.
Proof.
  split; [reflexivity|].
  destruct (refused_redirect_is_reported demo_request flaky_run.1.2 flaky_run.1.1
    [inl (mkHTTPResponse 503 (inl ""))] [] "Get: " to_challenge 1 _ (play_runs _ _ _) eq_refl eq_refl)
    as (_ & e' & He & Hi).
  exists e'. split; [exact He|]. by apply Hi.
Defined.
