(* ===== verification/Media.v ===== *)
(** * Media: downloads ([msgconv/media.go])

    The download of a media file with its limit of size, and of a video in chunks, read as one
    file.  The HTTP client and the bodies of its responses are the environment. *)

From Stdlib Require Import Ascii.
From S2P Require Import Prelude Strconv Text Interaction.
#[local] Open Scope Z_scope.

(** ** Requests *)

Record MediaRequest := mkMediaRequest { m_method : string; m_url : string; m_headers : gmap string string }.

(** A response: its status, the length it announces (-1: none), the host and text of the
    location it redirects to, [Accept-Ranges], and its body. *)
Record MediaResponse := mkMediaResponse {
  m_Status : Z; ContentLength : Z; Location : option (string * string); AcceptRanges : string; m_Body : nat
}.

(** Errors; [errors.Is] looks through what wraps them. *)
Inductive MediaError :=
| ErrTooLargeFile (size : Z)
| ErrForbidden
| MUnknown (status : Z)
| MediaText (s : string)
| MediaWrap (s : string) (e : MediaError).

Fixpoint is_too_large (e : MediaError) : bool :=
  match e with ErrTooLargeFile _ => true | MediaWrap _ e => is_too_large e | _ => false end.
Fixpoint is_forbidden (e : MediaError) : bool :=
  match e with ErrForbidden => true | MediaWrap _ e => is_forbidden e | _ => false end.

(** How a read ends, when it does not just return bytes. *)
Variant ReadError := EOF | ReadFailed (e : MediaError).

Variant MediaReq :=
| QNewMediaRequest (rq : MediaRequest)
| QDoMedia (rq : MediaRequest)
| QReadBody (b : nat) (n : Z)             (** at most [n] bytes *)
| QCloseBody (b : nat).

Definition media_answer (q : MediaReq) : Type :=
  match q with
  | QNewMediaRequest _ => option string
  | QDoMedia _ => MediaResponse + string
  | QReadBody _ _ => list byte * option ReadError
  | QCloseBody _ => unit
  end.

Abbreviation MP A := (prog media_answer A).
Abbreviation mtrace := (list (event media_answer)).

#[local] Notation "x ⇐ p ; q" := (prog_bind p (fun x => q)) (at level 20, p at level 100, q at level 200).

Definition mask (q : MediaReq) : MP (media_answer q) := Ask q Ret.

(** ** The requests of a download *)

Definition UserAgent : string :=
  "Mozilla/5.0 (X11; Linux x86_64) AppleWebKit/537.36 (KHTML, like Gecko) Chrome/138.0.0.0 Safari/537.36".
Definition quoted (s : string) : string := String "034" (s ++ String "034" "").
Definition SecCHUserAgent : string :=
  (quoted "Chromium" ++ ";v=" ++ quoted "138" ++ ", " ++ quoted "Google Chrome" ++ ";v=" ++ quoted "138" ++ ", "
   ++ quoted "Not-A.Brand" ++ ";v=" ++ quoted "99")%string.
Definition SecCHPlatform : string := quoted "Linux".

(** [strings.Split(mime, "/")[0]] *)
Definition main_type (mime : string) : string := hd ""%string (Split "/" mime).

(** The headers, under the names HTTP gives them. *)
Definition addDownloadHeaders (mime : string) (hdr : gmap string string) : gmap string string :=
  let hdr := <["Accept" := "*/*"]> hdr in
  let t := main_type mime in
  let hdr := if (t =? "image")%string then <["Sec-Fetch-Dest" := "image"]> (<["Accept" := "image/avif,image/webp,*/*"]> hdr)
             else if (t =? "video")%string then <["Sec-Fetch-Dest" := "video"]> hdr
             else if (t =? "audio")%string then <["Sec-Fetch-Dest" := "audio"]> hdr
             else <["Sec-Fetch-Dest" := "empty"]> hdr in
  <["Sec-Ch-Ua-Platform" := SecCHPlatform]> (<["Sec-Ch-Ua" := SecCHUserAgent]> (<["User-Agent" := UserAgent]>
    (<["Sec-Fetch-Site" := "cross-site"]> (<["Sec-Fetch-Mode" := "no-cors"]> hdr)))).

Definition onion_host : string := "facebookcooa4ldbat4g7iacswl3p2zrf5nuylvnhxn6kqolvojixwid.onion".

Definition byte_range (offset end_ : Z) : string :=
  ("bytes=" ++ FormatInt 10 offset ++ "-" ++ FormatInt 10 end_)%string.

Section Media.
(** The global [BypassOnionForMedia]. *)
Context (BypassOnionForMedia : bool).

(** [CheckRedirect] of the client: the redirect to this host is handed to the caller. *)
Definition video_host : string := "video.xx.fbcdn.net".
Definition use_last_response (hostname : string) : bool := (hostname =? video_host)%string.

(** [downloadMedia].  What it makes of the body of a response is [body]; [switchToChunked]: what
    it does instead with the address of a video, when it may. *)
Definition downloadMedia {X} (body : nat -> X) (switchToChunked : option (string -> MP (Z * (X + MediaError))))
    (mime url : string) (maxSize : Z) (byteRange : string) : MP (Z * (X + MediaError)) :=
  let url := if BypassOnionForMedia then ReplaceAll url onion_host "fbcdn.net" else url in
  let headers := addDownloadHeaders mime ∅ in
  let headers := if negb (byteRange =? "")%string then <["Range" := byteRange]> headers else headers in
  let rq := mkMediaRequest "GET" url headers in
  err ⇐ mask (QNewMediaRequest (mkMediaRequest "GET" url ∅));
  match err with
  | Some e => Ret (0, inr (MediaWrap "failed to prepare request: " (MediaText e)))
  | None =>
      r ⇐ mask (QDoMedia rq);
      match r with
      | inr e => Ret (0, inr (MediaWrap "failed to send request: " (MediaText e)))
      | inl resp =>
          if (m_Status resp >=? 300) || (m_Status resp <? 200) then
            _ ⇐ mask (QCloseBody (m_Body resp));
            let refused := if m_Status resp =? 403 then Ret (0, inr ErrForbidden) else Ret (0, inr (MUnknown (m_Status resp))) in
            match switchToChunked with
            | Some go =>
                if m_Status resp =? 302 then
                  match Location resp with
                  | Some (host, loc) => if (host =? video_host)%string then go loc else refused
                  | None => refused
                  end
                else refused
            | None => refused
            end
          else if ContentLength resp >? maxSize then
            _ ⇐ mask (QCloseBody (m_Body resp));
            Ret (ContentLength resp, inr (ErrTooLargeFile (ContentLength resp)))
          else Ret (ContentLength resp, inl (body (m_Body resp)))
      end
  end.

(** ** Videos in chunks *)

Record chunkedVideoDownloader := mkChunked {
  cvd_mime : string; cvd_url : string; offset : Z; totalSize : Z; inFlightRequest : option nat
}.

Definition set_inFlight (o : Z) (b : option nat) (d : chunkedVideoDownloader) : chunkedVideoDownloader :=
  mkChunked (cvd_mime d) (cvd_url d) o (totalSize d) b.

Definition chunkSize : Z := 1 * 1024 * 1024.

(** The last byte of the next chunk. *)
Definition chunk_end (d : chunkedVideoDownloader) : Z :=
  let end_ := int64 (offset d + chunkSize - 1) in
  if end_ >? totalSize d then totalSize d - 1 else end_.

(** A read from the chunk that is open. *)
Definition read_chunk (d : chunkedVideoDownloader) (b : nat) (n : Z)
    : MP (list byte * option ReadError * chunkedVideoDownloader) :=
  r ⇐ mask (QReadBody b n);
  match r.2 with
  | Some EOF =>
      _ ⇐ mask (QCloseBody b);
      let d := set_inFlight (offset d) None d in
      Ret (r.1, if offset d <? totalSize d then None else Some EOF, d)
  | err => Ret (r.1, err, d)
  end.

(** [Read]: an open chunk is read on, otherwise the next one is asked for first. *)
Definition Read (d : chunkedVideoDownloader) (n : Z) : MP (list byte * option ReadError * chunkedVideoDownloader) :=
  match inFlightRequest d with
  | Some b => read_chunk d b n
  | None =>
      let end_ := chunk_end d in
      r ⇐ downloadMedia id None (cvd_mime d) (cvd_url d) (totalSize d) (byte_range (offset d) end_);
      match r.2 with
      | inr e =>
          Ret ([], Some (ReadFailed (MediaWrap ("failed to start download for chunk " ++ FormatInt 10 (offset d)
                                                ++ "-" ++ FormatInt 10 end_ ++ ": ") e)), d)
      | inl b => read_chunk (set_inFlight (int64 (end_ + 1)) (Some b) d) b n
      end
  end.

Definition Close (d : chunkedVideoDownloader) : MP unit :=
  match inFlightRequest d with Some b => mask (QCloseBody b) | None => Ret () end.

(** What a download gives: the body of a response, or a video in chunks. *)
Variant ReadCloser := ResponseBody (b : nat) | ChunkedVideo (d : chunkedVideoDownloader).

Definition downloadChunkedVideo (mime url : string) (maxSize : Z) : MP (Z * (ReadCloser + MediaError)) :=
  err ⇐ mask (QNewMediaRequest (mkMediaRequest "HEAD" url ∅));
  match err with
  | Some e => Ret (0, inr (MediaWrap "failed to prepare request: " (MediaText e)))
  | None =>
      r ⇐ mask (QDoMedia (mkMediaRequest "HEAD" url (addDownloadHeaders mime ∅)));
      match r with
      | inr e => Ret (0, inr (MediaWrap "failed to send HEAD request: " (MediaText e)))
      | inl resp =>
          if negb (m_Status resp =? 200) then
            Ret (0, inr (MediaText ("unexpected status code " ++ FormatInt 10 (m_Status resp) ++ " for HEAD request")))
          else if negb (AcceptRanges resp =? "bytes")%string then
            Ret (0, inr (MediaText "server does not support byte range requests"))
          else if ContentLength resp <=? 0 then Ret (0, inr (MediaText "server didn't return media size"))
          else if ContentLength resp >? maxSize then Ret (ContentLength resp, inr (ErrTooLargeFile (ContentLength resp)))
          else Ret (ContentLength resp, inl (ChunkedVideo (mkChunked mime url 0 (ContentLength resp) None)))
      end
  end.

Definition DownloadMedia (mime url : string) (maxSize : Z) : MP (Z * (ReadCloser + MediaError)) :=
  downloadMedia ResponseBody (Some (fun loc => downloadChunkedVideo mime loc maxSize)) mime url maxSize "".

(** ** Reading to the end *)

Definition read_some (r : ReadCloser) (n : Z) : MP (list byte * option ReadError * ReadCloser) :=
  match r with
  | ResponseBody b => x ⇐ mask (QReadBody b n); Ret (x, r)
  | ChunkedVideo d => x ⇐ Read d n; Ret (x.1, ChunkedVideo x.2)
  end.

(** [io.ReadAll] and [io.Copy], with buffers of [n] bytes: what was read, and the error that
    ended it, if it was not the end of the file.  ([None]: [fuel] reads were not enough.) *)
Fixpoint read_all (fuel : nat) (n : Z) (r : ReadCloser) (acc : list byte) : MP (option (list byte * option MediaError)) :=
  match fuel with
  | O => Ret None
  | S fuel =>
      x ⇐ read_some r n;
      let acc := acc ++ x.1.1 in
      match x.1.2 with
      | None => read_all fuel n x.2 acc
      | Some EOF => Ret (Some (acc, None))
      | Some (ReadFailed e) => Ret (Some (acc, Some e))
      end
  end.

Definition DownloadAvatar (fuel : nat) (n : Z) (url : string) : MP (option (list byte + MediaError)) :=
  r ⇐ downloadMedia ResponseBody None "image/*" url (5 * 1024 * 1024) "";
  match r.2 with
  | inr e => Ret (Some (inr e))
  | inl resp =>
      x ⇐ read_all fuel n resp [];
      Ret (match x with
           | None => None
           | Some (data, None) => Some (inl data)
           | Some (_, Some e) => Some (inr e)
           end)
  end.
End Media.

(** * A server that has the file *)

(** What a server reads from the header of a request for a part of a file. *)
Definition parse_range (s : string) : option (Z * Z) :=
  if HasPrefix s "bytes=" then
    match SplitN "-" 2 (str_from 6 s) with
    | [a; b] =>
        match ParseInt 10 a, ParseInt 10 b with
        | (a, None), (b, None) => Some (a, b)
        | _, _ => None
        end
    | _ => None
    end
  else None.

(** Bytes [a] to [b] of a file, as far as it has them. *)
Definition part (data : list byte) (a b : Z) : list byte := take (Z.to_nat (b - a + 1)) (drop (Z.to_nat a) data).

(** The bodies the server has open, with what is left of each. *)
Abbreviation bodies := (gmap nat (list byte)).

(** One answer of a server that has the file [data] and sends what it is asked for: a new body
    with the part in question, which is read in pieces of any length. *)
Definition served_event (data : list byte) (s : bodies) (e : event media_answer) (s' : bodies) : Prop :=
  match e with
  | Event q x =>
      match q return media_answer q -> Prop with
      | QNewMediaRequest _ => fun x => x = None /\ s' = s
      | QDoMedia rq => fun x =>
          exists a b h, m_headers rq !! "Range"%string ≫= parse_range = Some (a, b) /\ s !! h = None /\
            x = inl (mkMediaResponse 206 (llen (part data a b)) None "" h) /\ s' = <[h := part data a b]> s
      | QReadBody h _ => fun x =>
          exists rest k, s !! h = Some rest /\ x.1 = take k rest /\ s' = <[h := drop k rest]> s /\
            match x.2 with
            | None => (0 < k <= length rest)%nat
            | Some EOF => drop k rest = []
            | Some (ReadFailed _) => False
            end
      | QCloseBody h => fun _ => s' = s
      end x
  end.

Fixpoint served (data : list byte) (s : bodies) (tr : mtrace) (s' : bodies) : Prop :=
  match tr with
  | [] => s' = s
  | e :: tr => exists s1, served_event data s e s1 /\ served data s1 tr s'
  end.

Lemma served_app data s t1 t2 s' : served data s (t1 ++ t2) s' <-> exists s1, served data s t1 s1 /\ served data s1 t2 s'.
Proof.
  revert s. induction t1 as [|e t1 IH]; intros s; cbn.
  - split; [intros H; by exists s|by intros (s1 & -> & H)].
  - split.
    + intros (s1 & He & (s2 & H1 & H2)%IH). exists s2. split; [by exists s1|done].
    + intros (s2 & (s1 & He & H1) & H2). exists s1. split; [done|]. apply IH. by exists s2.
Qed.

(** The ranges asked for. *)
Definition ranges (tr : mtrace) : list (Z * Z) :=
  omap (fun e => match asked e with QDoMedia rq => m_headers rq !! "Range"%string ≫= parse_range | _ => None end) tr.

Lemma ranges_app a b : ranges (a ++ b) = ranges a ++ ranges b.
Proof. apply omap_app. Qed.

(** ** The header of a range *)

Lemma FormatInt_no_minus n : 0 <= n -> has_char "-" (FormatInt 10 n) = false.
Proof.
  intros H. unfold FormatInt. destruct (Z.ltb_spec n 0); [lia|].
  pose proof (digits_all 64 n "" H eq_refl) as Hd. revert Hd. generalize (digits 10 64 n ""). intros s.
  induction s as [|c s IH]; [done|]. cbn. intros [Hc Hs]%andb_prop. rewrite (IH Hs), orb_false_r.
  destruct (Ascii.eqb_spec c "-"); [by subst|done].
Qed.

Lemma parse_byte_range a b : 0 <= a -> 0 <= b -> in_int 64 a -> in_int 64 b -> parse_range (byte_range a b) = Some (a, b).
Proof.
  intros Ha Hb Ia Ib. unfold parse_range, byte_range.
  rewrite (str_from_app "bytes=" _ : str_from 6 _ = _).
  assert (forall t, HasPrefix ("bytes=" ++ t) "bytes=" = true) as -> by (intros [|]; reflexivity).
  change ("-" ++ FormatInt 10 b)%string with (String "-" (FormatInt 10 b)).
  rewrite SplitN_cut by by apply FormatInt_no_minus. cbn [SplitN].
  rewrite !ParseInt_FormatInt by (lia || done). done.
Qed.

Lemma runs_mask q tr a : runs (mask q) tr a <-> tr = [Event q a].
Proof. cbn. split; [intros (x & t & -> & -> & ->)|intros ->; exists a, []]; done. Qed.

(** * The video is whole *)

Section Whole.
Context (bypass : bool) (data : list byte).
Context (Hdata : llen data + chunkSize < 2 ^ 62).

(** What is still to come of the file. *)
Definition rest_of (d : chunkedVideoDownloader) (s : bodies) : list byte :=
  match inFlightRequest d with Some b => default [] (s !! b) | None => [] end ++ drop (Z.to_nat (offset d)) data.

(** The state after [k] chunks were asked for. *)
Record good (k : Z) (d : chunkedVideoDownloader) (s : bodies) : Prop := {
  good_k : 0 <= k;
  good_total : totalSize d = llen data;
  good_offset : 0 <= offset d <= k * chunkSize;
  good_chunks : offset d = k * chunkSize \/ llen data <= offset d;
  good_last : k = 0 \/ (k - 1) * chunkSize < llen data;
  good_next : inFlightRequest d = None -> offset d < llen data;
  good_open : forall b, inFlightRequest d = Some b -> is_Some (s !! b)
}.

(** The range of the chunk after [k] others. *)
Definition chunk_range (k : Z) : Z * Z :=
  let e := k * chunkSize + chunkSize - 1 in
  (k * chunkSize, if e >? llen data then llen data - 1 else e).

(** A read: the bytes it returns are the next ones, and it goes on or ends well. *)
Definition read_result (k : Z) (d : chunkedVideoDownloader) (rest : list byte) (open : nat)
    (x : list byte * option ReadError * chunkedVideoDownloader) (s' : bodies) : Prop :=
  rest = x.1.1 ++ rest_of x.2 s' /\
  match x.1.2 with
  | None => good k x.2 s' /\
            (2 * length (rest_of x.2 s') + match inFlightRequest x.2 with Some _ => 1 | None => 0 end < 2 * length rest + open)%nat
  | Some EOF => rest_of x.2 s' = [] /\ llen data <= k * chunkSize /\ (k = 0 \/ (k - 1) * chunkSize < llen data)
  | Some (ReadFailed _) => False
  end.

Lemma read_chunk_served k d s b n tr x s' open :
  good k d s -> inFlightRequest d = Some b -> (open = 1%nat \/ default [] (s !! b) <> []) ->
  runs (read_chunk d b n) tr x -> served data s tr s' ->
  read_result k d (rest_of d s) open x s' /\ ranges tr = [].
Proof.
  intros [G0 G1 G2 G3 G4 G5 G6] Hb Hopen H Hs. unfold read_chunk in H.
  apply runs_prog_bind in H as ([p e] & t1 & t2 & -> & ->%runs_mask & H).
  cbn [app served] in Hs. destruct Hs as (s1 & (rest & i & E1 & E2 & -> & E4) & Hs). cbn [fst snd] in E2, E4, H. subst p.
  unfold read_result, rest_of. rewrite Hb, E1 in *. cbn [default] in *.
  destruct e as [[|e]|]; [|done|].
  - apply runs_prog_bind in H as ([] & t3 & t4 & -> & ->%runs_mask & [-> ->]).
    cbn [app served served_event] in Hs. destruct Hs as (s2 & -> & ->). cbn [fst snd set_inFlight inFlightRequest offset totalSize].
    assert (take i rest = rest) as -> by (apply take_ge; apply (f_equal length) in E4; rewrite length_drop in E4; cbn in E4; lia).
    split; [|done]. split; [done|]. rewrite G1. destruct (Z.ltb_spec (offset d) (llen data)).
    + split; [split; cbn; try done; by intros|]. cbn [app]. rewrite length_app.
      destruct Hopen as [->|Hne]; [lia|]. destruct rest; [done|]. unfold id in *. cbn [length]. lia.
    + cbn [app]. split; [apply drop_ge; lia|split; [lia|done]].
  - destruct H as [-> ->]. cbn [app served] in Hs. subst s'. cbn [fst snd]. rewrite Hb, lookup_insert_eq. cbn [default].
    split; [|done]. unfold id. split; [by rewrite app_assoc, take_drop|]. split.
    + split; rewrite ?Hb; try done. intros b' [= <-]. rewrite lookup_insert_eq. by eexists.
    + rewrite !length_app, length_drop. lia.
Qed.


Lemma chunk_end_range k d s : good k d s -> inFlightRequest d = None ->
  (offset d, chunk_end d) = chunk_range k /\ 0 <= offset d <= chunk_end d /\ chunk_end d <= llen data /\
  (chunk_end d + 1 = (k + 1) * chunkSize \/ llen data <= chunk_end d + 1) /\ chunk_end d + 1 <= (k + 1) * chunkSize.
Proof.
  intros [G0 G1 G2 G3 G4 G5 G6] Hn. specialize (G5 Hn). destruct G3 as [G3|G3]; [|lia].
  unfold chunk_end, chunk_range. rewrite G1, G3.
  assert (int64 (k * chunkSize + chunkSize - 1) = k * chunkSize + chunkSize - 1) as ->.
  { apply intN_small; [lia|]. unfold in_int. unfold chunkSize in *. lia. }
  rewrite Z.gtb_ltb. destruct (Z.ltb_spec (llen data) (k * chunkSize + chunkSize - 1));
    (split; [done|]); unfold chunkSize in *; lia.
Qed.

(** The answer of the server to a request for a part. *)
Lemma part_served k d s tr x s' :
  good k d s -> inFlightRequest d = None ->
  runs (downloadMedia bypass id None (cvd_mime d) (cvd_url d) (totalSize d) (byte_range (offset d) (chunk_end d))) tr x ->
  served data s tr s' ->
  exists h n, x = (n, inl h) /\ s !! h = None /\ s' = <[h := part data (offset d) (chunk_end d)]> s /\ ranges tr = [chunk_range k].
Proof.
  intros G Hn H Hs. destruct (chunk_end_range k d s G Hn) as (R1 & R2 & R3 & _).
  assert (parse_range (byte_range (offset d) (chunk_end d)) = Some (offset d, chunk_end d)) as Hp
    by (apply parse_byte_range; unfold in_int; unfold chunkSize in *; lia).
  assert (String.eqb (byte_range (offset d) (chunk_end d)) "" = false) as Hr by done.
  unfold downloadMedia in H. rewrite Hr in H. cbn [negb] in H.
  apply runs_prog_bind in H as (e0 & t1 & t2 & -> & ->%runs_mask & H).
  cbn [app served] in Hs. destruct Hs as (s1 & (-> & ->) & Hs).
  apply runs_prog_bind in H as (r & t3 & t4 & -> & ->%runs_mask & H).
  cbn [app served served_event m_headers] in Hs. rewrite lookup_insert_eq in Hs. cbn [mbind option_bind] in Hs. rewrite Hp in Hs.
  destruct Hs as (s2 & (a & b & h & [= <- <-] & Hh & -> & ->) & Hs). cbn [m_Status ContentLength m_Body orb Z.geb Z.ltb Z.compare] in H.
  change ((206 >=? 300) || (206 <? 200)) with false in H. cbv iota in H.
  assert ((llen (part data (offset d) (chunk_end d)) >? totalSize d) = false) as Hl.
  { rewrite (good_total k d s G), Z.gtb_ltb. apply Z.ltb_ge. unfold part. rewrite length_take, length_drop. lia. }
  rewrite Hl in H. destruct H as [-> ->]. cbn [served] in Hs. subst s'.
  exists h, (llen (part data (offset d) (chunk_end d))). split; [done|]. split; [done|]. split; [done|].
  cbn [app ranges omap list_omap asked m_headers]. rewrite lookup_insert_eq. cbn [mbind option_bind]. by rewrite Hp, R1.
Qed.

Lemma Read_served k d s n tr x s' : good k d s -> runs (Read bypass d n) tr x -> served data s tr s' ->
  exists k', (k' = k /\ ranges tr = [] \/ k' = k + 1 /\ ranges tr = [chunk_range k]) /\
    read_result k' d (rest_of d s) (match inFlightRequest d with Some _ => 1 | None => 0 end) x s'.
Proof.
  intros G H Hs. unfold Read in H. destruct (inFlightRequest d) as [b|] eqn:Eb.
  - exists k. destruct (read_chunk_served k d s b n tr x s' 1 G Eb (or_introl eq_refl) H Hs) as [H1 H2]. split; [by left|done].
  - apply runs_prog_bind in H as (y & t1 & t2 & -> & H1 & H). apply served_app in Hs as (s1 & Hs1 & Hs).
    destruct (part_served _ _ _ _ _ _ G Eb H1 Hs1) as (h & l & -> & Hh & -> & R). cbn [snd] in H.
    destruct (chunk_end_range k d s G Eb) as (R1 & R2 & R3 & R4 & R5). destruct G as [G0 G1 G2 G3 G4 G5 G6]. specialize (G5 Eb).
    assert (int64 (chunk_end d + 1) = chunk_end d + 1) as Ei by (apply intN_small; [lia|]; unfold in_int; unfold chunkSize in *; lia).
    rewrite Ei in H. set (d1 := set_inFlight (chunk_end d + 1) (Some h) d) in *.
    assert (rest_of d s = rest_of d1 (<[h:=part data (offset d) (chunk_end d)]> s)) as Hrest.
    { unfold rest_of. rewrite Eb. cbn [set_inFlight d1 inFlightRequest offset app]. rewrite lookup_insert_eq. cbn [default from_option]. unfold id, part.
      replace (Z.to_nat (chunk_end d + 1)) with (Z.to_nat (offset d) + Z.to_nat (chunk_end d - offset d + 1))%nat by lia.
      by rewrite <- drop_drop, take_drop. }
    exists (k + 1). rewrite ranges_app, R, Hrest.
    edestruct (read_chunk_served (k + 1) d1 (<[h:=part data (offset d) (chunk_end d)]> s) h n t2 x s' 0) as [H2 H3]; [|done| |done|done|].
    + split; cbn [set_inFlight d1 offset totalSize inFlightRequest]; try done; [lia|lia| |].
      * right. destruct G3 as [G3|]; [|lia]. replace (k + 1 - 1) with k by lia. lia.
      * intros b [= <-]. rewrite lookup_insert_eq. by eexists.
    + right. rewrite lookup_insert_eq. cbn [default from_option]. unfold id, part. intros E. apply (f_equal length) in E.
      rewrite length_take, length_drop in E. cbn in E. lia.
    + rewrite H3. split; [by right|exact H2].
Qed.
End Whole.

Lemma read_all_served bypass data (Hdata : llen data + chunkSize < 2 ^ 62) fuel : forall k d s n acc tr r s',
  good data k d s -> acc ++ rest_of data d s = data ->
  runs (read_all bypass fuel n (ChunkedVideo d) acc) tr r -> served data s tr s' ->
  (2 * length (rest_of data d s) + match inFlightRequest d with Some _ => 1 | None => 0 end < fuel)%nat ->
  r = Some (data, None) /\
  exists j, 0 <= j /\ ranges tr = chunk_range data <$> seqZ k j /\ llen data <= (k + j) * chunkSize /\
    (k + j = 0 \/ (k + j - 1) * chunkSize < llen data).
Proof.
  induction fuel as [|fuel IH]; intros k d s n acc tr r s' G Hacc H Hs Hf; [lia|]. cbn [read_all] in H.
  apply runs_prog_bind in H as (x & t1 & t2 & -> & H1 & H). apply served_app in Hs as (s1 & Hs1 & Hs).
  cbn [read_some] in H1. apply runs_prog_bind in H1 as (y & t3 & t4 & -> & H1 & [-> ->]). rewrite app_nil_r in Hs1 |- *.
  cbn [fst snd] in H. destruct (Read_served bypass data Hdata k d s n t3 y s1 G H1 Hs1) as (k' & Hk & Hrest & Hy).
  destruct y as [[p e] d']. cbn [fst snd] in *. rewrite Hrest, app_assoc in Hacc.
  destruct e as [[|]|]; [|done|].
  - destruct H as [-> ->]. destruct Hy as (E1 & E2 & E3). rewrite E1, app_nil_r in Hacc. split; [by rewrite Hacc|].
    rewrite app_nil_r. destruct Hk as [[-> ->]|[-> ->]].
    + exists 0. rewrite !Z.add_0_r. done.
    + by exists 1.
  - destruct Hy as [G' Hm]. destruct (IH k' d' s1 n (acc ++ p) t2 r s' G' Hacc H Hs) as (-> & j & J1 & J2 & J3 & J4); [lia|].
    split; [done|]. rewrite ranges_app, J2. destruct Hk as [[-> ->]|[-> ->]].
    + by exists j.
    + exists (1 + j). split; [lia|]. replace (k + (1 + j)) with (k + 1 + j) by lia. split; [|done].
      rewrite seqZ_app by lia. by rewrite fmap_app.
Qed.

(** Whatever way a file is downloaded, its announced size is within the limit. *)
Lemma download_bounded bypass mime url maxSize tr size rc :
  runs (DownloadMedia bypass mime url maxSize) tr (size, inl rc) -> size <= maxSize.
Proof.
  unfold DownloadMedia, downloadMedia. intros (e & t1 & t2 & -> & _ & H)%runs_prog_bind.
  destruct e; [by destruct H|]. apply runs_prog_bind in H as (r & t3 & t4 & -> & _ & H). destruct r as [resp|]; [|by destruct H].
  destruct (_ || _).
  - apply runs_prog_bind in H as ([] & t5 & t6 & -> & _ & H).
    destruct (m_Status resp =? 302); [|by destruct (_ =? _), H].
    destruct (Location resp) as [[host loc]|]; [|by destruct (_ =? _), H].
    destruct (host =? video_host)%string; [|by destruct (_ =? _), H].
    unfold downloadChunkedVideo in H. apply runs_prog_bind in H as (e & t7 & t8 & -> & _ & H).
    destruct e; [by destruct H|]. apply runs_prog_bind in H as (r & t9 & t10 & -> & _ & H). destruct r as [head|]; [|by destruct H].
    destruct (negb _); [by destruct H|]. destruct (negb _); [by destruct H|]. destruct (_ <=? 0); [by destruct H|].
    rewrite Z.gtb_ltb in H. destruct (Z.ltb_spec maxSize (ContentLength head)); destruct H as [_ [=]]; subst; lia.
  - rewrite Z.gtb_ltb in H. destruct (Z.ltb_spec maxSize (ContentLength resp)); [|destruct H as [_ [=]]; subst; lia].
    by apply runs_prog_bind in H as ([] & t5 & t6 & -> & _ & [_ [=]]).
Qed.

Lemma chunked_of_download bypass mime url maxSize tr size d :
  runs (DownloadMedia bypass mime url maxSize) tr (size, inl (ChunkedVideo d)) ->
  exists loc, d = mkChunked mime loc 0 size None /\ 0 < size <= maxSize.
Proof.
  unfold DownloadMedia, downloadMedia. intros (e & t1 & t2 & -> & _ & H)%runs_prog_bind.
  destruct e; [by destruct H|]. apply runs_prog_bind in H as (r & t3 & t4 & -> & _ & H). destruct r as [resp|]; [|by destruct H].
  destruct (_ || _).
  - apply runs_prog_bind in H as ([] & t5 & t6 & -> & _ & H).
    destruct (m_Status resp =? 302); [|by destruct (_ =? _), H].
    destruct (Location resp) as [[host loc]|]; [|by destruct (_ =? _), H].
    destruct (host =? video_host)%string; [|by destruct (_ =? _), H].
    exists loc. unfold downloadChunkedVideo in H. apply runs_prog_bind in H as (e & t7 & t8 & -> & _ & H).
    destruct e; [by destruct H|]. apply runs_prog_bind in H as (r & t9 & t10 & -> & _ & H). destruct r as [head|]; [|by destruct H].
    destruct (negb _); [by destruct H|]. destruct (negb _); [by destruct H|].
    destruct (Z.leb_spec (ContentLength head) 0); [by destruct H|]. rewrite Z.gtb_ltb in H.
    destruct (Z.ltb_spec maxSize (ContentLength head)); destruct H as [_ [=]]; subst; split; [done|lia].
  - destruct (_ >? _); [|by destruct H]. by apply runs_prog_bind in H as ([] & t5 & t6 & -> & _ & [_ [=]]).
Qed.

(** * Properties *)

(** C22. A video that is downloaded in chunks is read whole: whatever the sizes in which the server
    sends the bytes, as many reads as twice its length give exactly the file and its end, and
    the chunks of one mebibyte are asked for one after the other, each once (the last range may
    name one byte past the end). *)
Theorem chunked_video_is_whole bypass data mime url maxSize n fuel tr0 size d tr r s'
    (Hlen : llen data + chunkSize < 2 ^ 62) (Hfuel : (2 * length data < fuel)%nat)
    (Hdownload : runs (DownloadMedia bypass mime url maxSize) tr0 (size, inl (ChunkedVideo d))) (Hsize : size = llen data)
    (H : runs (read_all bypass fuel n (ChunkedVideo d) []) tr r) (Hserved : served data ∅ tr s') :
  r = Some (data, None) /\ size <= maxSize /\
  ranges tr = chunk_range data <$> seqZ 0 ((llen data + chunkSize - 1) / chunkSize).
Proof.
  destruct (chunked_of_download _ _ _ _ _ _ _ Hdownload) as (loc & -> & Hs). subst size.
  destruct (read_all_served bypass data Hlen fuel 0 (mkChunked mime loc 0 (llen data) None) ∅ n [] tr r s') as (-> & j & J1 & -> & J3 & J4); try done.
  - split; cbn [offset totalSize inFlightRequest]; try done; try lia; by left.
  - unfold rest_of. cbn [inFlightRequest offset app]. rewrite drop_0. lia.
  - split; [done|]. split; [lia|]. f_equal. f_equal. unfold chunkSize in *.
    apply Z.div_unique_pos with (r := llen data + (1 * 1024 * 1024) - 1 - (1 * 1024 * 1024) * j); lia.
Qed.

(** * Witnesses *)

(** A server with a file: it redirects the first request, and sends three bytes at a time. *)
Definition demo_server (data : list byte) (q : MediaReq) (st : bool * (nat * bodies)) : media_answer q * (bool * (nat * bodies)) :=
  let '(redirected, (next, s)) := st in
  match q with
  | QNewMediaRequest _ => (None, st)
  | QDoMedia rq =>
      if (m_method rq =? "HEAD")%string then
        (inl (mkMediaResponse 200 (llen data) None "bytes" next), (redirected, (S next, <[next := []]> s)))
      else match m_headers rq !! "Range"%string ≫= parse_range with
           | Some (a, b) =>
               (inl (mkMediaResponse 206 (llen (part data a b)) None "" next), (redirected, (S next, <[next := part data a b]> s)))
           | None =>
               (inl (mkMediaResponse 302 0 (Some (video_host, "https://video.xx.fbcdn.net/v.mp4"%string)) "" next),
                (true, (S next, <[next := []]> s)))
           end
  | QReadBody h _ =>
      match s !! h with
      | Some ((_ :: _) as rest) => ((take 3 rest, None), (redirected, (next, <[h := drop 3 rest]> s)))
      | _ => (([], Some EOF), (redirected, (next, <[h := []]> s)))
      end
  | QCloseBody _ => ((), st)
  end.

Definition demo_file : list byte := [x01; x02; x03; x04; x05; x06; x07; x08].

Definition download_run := play (demo_server demo_file) (DownloadMedia false "video/mp4" "https://video.example/v.mp4" 100) (false, (O, ∅)).
Definition demo_video : chunkedVideoDownloader := mkChunked "video/mp4" "https://video.xx.fbcdn.net/v.mp4" 0 8 None.
Definition read_run := play (demo_server demo_file) (read_all false 17 512 (ChunkedVideo demo_video) []) (false, (O, ∅)).

Lemma chunked_video_is_whole_witness : read_run.1.1 = Some (demo_file, None).
Proof.
  eapply (chunked_video_is_whole false demo_file "video/mp4" "https://video.example/v.mp4" 100 512 17 download_run.1.2 8 demo_video
    read_run.1.2 read_run.1.1).
  - vm_compute. reflexivity.
  - cbn. lia.
  - exact (play_runs (demo_server demo_file) (DownloadMedia false "video/mp4" "https://video.example/v.mp4" 100) (false, (O, ∅))).
  - reflexivity.
  - apply play_runs.
  - eexists. split; [by split|].
    eexists. split; [exists 0, 7, O; split; [vm_compute; reflexivity|]; split; [vm_compute; reflexivity|]; split; [vm_compute; reflexivity|reflexivity]|].
    eexists. split; [eexists _, 3%nat; split; [vm_compute; reflexivity|]; split; [vm_compute; reflexivity|]; split; [reflexivity|]; vm_compute; lia|].
    eexists. split; [eexists _, 3%nat; split; [vm_compute; reflexivity|]; split; [vm_compute; reflexivity|]; split; [reflexivity|]; vm_compute; lia|].
    eexists. split; [eexists _, 2%nat; split; [vm_compute; reflexivity|]; split; [vm_compute; reflexivity|]; split; [reflexivity|]; vm_compute; lia|].
    eexists. split; [eexists _, O; split; [vm_compute; reflexivity|]; split; [vm_compute; reflexivity|]; split; [reflexivity|]; vm_compute; reflexivity|].
    eexists. split; reflexivity.
Defined.
