(* ===== verification/ClientLoop.v ===== *)
(** * ClientLoop: connecting, and connecting again ([messagix/client.go], [socket.go])

    A client runs a loop that connects its socket, reads until the connection ends, tells the
    event handler and waits, each time longer, before it connects again; Instagram has a second
    loop for its second socket.  What happens while a call blocks is up to the environment; the
    connection of the socket is only written by the loop. *)

From S2P Require Import Prelude Strconv Text Url Packets Mqtt.
From S2P Require Import Cookies Errors Media.
From S2P Require ReadLoop.
From S2P Require Import Interaction Stateful ClientState.
#[local] Open Scope Z_scope.

Definition Second : Z := 1000000000.
Definition Minute : Z := 60 * Second.
Definition MaxConnectBackoff : Z := 5 * Minute.

(** ** Connecting the socket *)

Definition CanConnect : CM (option error) :=
  c ← gets id;
  if conn c then mret (Some (SentinelError ErrSocketAlreadyOpen))
  else
    authenticated ← of_result (IsAuthenticated (Some c));
    mret (if negb authenticated then Some (SentinelError ErrNotAuthenticated)
          else if (broker c =? "")%string then Some (OtherError "broker has not been set in socket struct (broker=)")
          else None).

Definition BuildBrokerURL (c : Client) : res string :=
  match configs c with
  | None => Panic
  | Some cf =>
      let encodedQuery := Values_Encode [("sid", FormatInt 10 (sessionID c)); ("cid", ClientID cf)]%string in
      Ok (broker c ++ (if HasSuffix (broker c) "?" then "" else "&") ++ encodedQuery)%string
  end.

(** The headers of the handshake. *)
Definition getConnHeaders (cookie : string) (c : Client) : res (list (string * string)) :=
  origin ← GetEndpoint "base_url" c;
  Ok [("cookie", cookie); ("user-agent", UserAgent); ("origin", origin)]%string.

Definition connect_flags : ConnectFlags :=
  {| Username := true; Password := false; Retain := false; cf_QoS := 0; CleanSession := true |}.

Definition connect_packet (c : Client) : res (list byte) :=
  json ← newConnectJSON UserAgent c;
  newConnectRequest (J := unit) json (CreateConnectFlagByte connect_flags).

Definition sendConnectPacket : CM (option error) :=
  c ← gets id;
  match connect_packet c with
  | Err e => mret (Some (OtherError e))
  | Halt h => of_result (Halt h)
  | Ok packet => cblock (QSendConnect packet)
  end.

(** [Socket.Connect]: the read loop clears the connection when it ends; a CONNECT that cannot be
    sent leaves it. *)
Definition Socket_Connect : CM (option error) :=
  e ← CanConnect;
  match e with
  | Some e => mret (Some e)
  | None =>
      c ← gets id;
      _ ← of_result (getConnHeaders "" c);
      url ← of_result (BuildBrokerURL c);
      e ← cblock (QDial url);
      match e with
      | Some e => mret (Some (WrapBoth (SentinelError ErrDial) e))
      | None =>
          modify (set_conn true);;
          e ← sendConnectPacket;
          match e with
          | Some e => mret (Some (WrapBoth (SentinelError ErrSendConnect) e))
          | None =>
              e ← cblock QReadLoop;
              modify (set_conn false);;
              ctell QCancelAllRequests;;
              mret (Some (WrapBoth (SentinelError ErrInReadLoop) e))
          end
      end
  end.

(** ** The connection loop *)

Variant LoopEnd := EndCancelled | EndPermanent (e : error).

(** Which errors end the loop: three refusals at once, the fourth when it keeps coming. *)
Definition refused_for_good (e : error) : bool :=
  errors_Is e (TheCode CONNECTION_REFUSED_UNAUTHORIZED) || errors_Is e (TheCode CONNECTION_REFUSED_SERVER_UNAVAILABLE) ||
  errors_Is e (TheCode CONNECTION_REFUSED_UNKNOWN_24).

Definition bad_password (e : error) : bool := errors_Is e (TheCode CONNECTION_REFUSED_BAD_USERNAME_OR_PASSWORD).

Definition is_permanent (err : option error) (connectionAttempts : Z) : option error :=
  match err with
  | Some e => if refused_for_good e || (bad_password e && (connectionAttempts >? 5)) then Some e else None
  | None => None
  end.

(** The next wait, and the next number of attempts. *)
Definition was_long (lasted : Z) (err : option error) : bool :=
  (lasted >? 2 * Minute) && match err with Some e => err_is e ErrInReadLoop | None => true end.

Definition backoff (long : bool) (reconnectIn connectionAttempts : Z) : Z * Z :=
  if long then (0, 0)
  else
    let reconnectIn := if reconnectIn =? 0 then 1 * Second else reconnectIn in
    (Z.min (reconnectIn * 2) MaxConnectBackoff, connectionAttempts + 1).

Section Loops.
Context (Parse : string -> ParsedURL + error) (FromURL : ParsedURL -> option error).

Definition UpdateProxy (reason : string) : CM bool :=
  has ← gets hasProxyGetter;
  if negb has then mret true
  else
    r ← cblock (QGetNewProxy reason);
    match r with
    | inr _ => mret false
    | inl addr =>
        c ← gets id;
        let '(c', err) := SetProxy Parse FromURL addr (Some c) in
        modify (fun c => default c c');;
        mret (match err with None => true | Some _ => false end)
    end.

Fixpoint connection_loop (fuel : nat) (ctx : nat) (connectionAttempts reconnectIn : Z) : CM LoopEnd :=
  match fuel with
  | O => spin
  | S fuel =>
      modify (set_canSend false);;
      connectStart ← ctell QNow;
      err ← Socket_Connect;
      modify (set_canSend false);;
      cancelled ← ctell (QCtxDone ctx);
      if cancelled : bool then mret EndCancelled
      else
        match is_permanent err connectionAttempts with
        | Some e => cblock (QEvent (Event_PermanentError e));; mret (EndPermanent e)
        | None =>
            cblock (QEvent (Event_SocketError err connectionAttempts));;
            now ← ctell QNow;
            let '(reconnectIn, connectionAttempts) := backoff (was_long (int64 (now - connectStart)) err) reconnectIn connectionAttempts in
            go_on ← cblock (QPause ctx reconnectIn);
            if negb go_on then mret EndCancelled
            else _ ← UpdateProxy "reconnect"; connection_loop fuel ctx connectionAttempts reconnectIn
        end
  end.

(** The goroutine: the last one of the client says that it has stopped. *)
Definition run_connection_loop (fuel : nat) (ctx : nat) : CM LoopEnd :=
  r ← connection_loop fuel ctx 1 0;
  current ← gets stopCurrentConnections;
  when (bool_decide (current = Some ctx)) (modify (set_loopStopped true));;
  mret r.

Definition connectDGWOnce : CM (option error) :=
  modify (set_dgw (Some false));;
  c ← gets id;
  authenticated ← of_result (IsAuthenticated (Some c));
  if negb authenticated then mret (Some (Wrap "DGW: " (SentinelError ErrNotAuthenticated)))
  else cblock QDGWConnect.

Definition dgw_backoff (long : bool) (reconnectIn : Z) : Z :=
  if long then 2 * Second else Z.min (reconnectIn * 2) MaxConnectBackoff.

Fixpoint connectDGW (fuel : nat) (ctx : nat) (reconnectIn : Z) : CM unit :=
  match fuel with
  | O => spin
  | S fuel =>
      connectStart ← ctell QNow;
      _ ← connectDGWOnce;
      cancelled ← ctell (QCtxDone ctx);
      if cancelled : bool then mret ()
      else
        now ← ctell QNow;
        let reconnectIn := dgw_backoff (int64 (now - connectStart) >? 2 * Minute) reconnectIn in
        go_on ← cblock (QPause ctx reconnectIn);
        if negb go_on then mret () else connectDGW fuel ctx reconnectIn
  end.

(** ** The methods of the client *)

Definition Connect : CM (option error) :=
  e ← CanConnect;
  match e with
  | Some e => mret (Some e)
  | None =>
      ctx ← ctell QNewContext;
      oldCancel ← gets stopCurrentConnections;
      modify (set_stopCurrent (Some ctx));;
      match oldCancel with Some c => ctell (QCancel c) | None => mret () end;;
      modify (set_loopStopped false);;
      ctell (QGoConnectionLoop ctx);;
      c ← gets id;
      when (bool_decide (platform c = Instagram) && mayConnectToDGW c) (ctell (QGoDGW ctx));;
      mret None
  end.

Definition Disconnect : CM unit :=
  stop ← gets stopCurrentConnections;
  match stop with Some c => ctell (QCancel c) | None => mret () end;;
  cblock QSocketDisconnect;;
  d ← gets dgw;
  match d with Some _ => cblock QDGWDisconnect | None => mret () end;;
  _ ← cblock (QWaitLoopStopped (5 * Second));
  mret ().

Definition ForceReconnect : CM unit := cblock QSocketDisconnect;; cblock QDGWDisconnect.
End Loops.

(** ** Runs of the loop *)

(** What the event handler is told, and how long the loop waits. *)
Definition told (tr : ctrace) : list ClientEvent := omap (fun q => match q with QEvent e => Some e | _ => None end) (asks tr).
Definition pauses (tr : ctrace) : list Z := omap (fun q => match q with QPause _ ns => Some ns | _ => None end) (asks tr).

Lemma told_app t1 t2 : told (t1 ++ t2) = told t1 ++ told t2.
Proof. unfold told. by rewrite asks_app, omap_app. Qed.
Lemma loop_pauses_app t1 t2 : pauses (t1 ++ t2) = pauses t1 ++ pauses t2.
Proof. unfold pauses. by rewrite asks_app, omap_app. Qed.

Definition quiet (q : CReq) : Prop := match q with QEvent _ | QPause _ _ => False | _ => True end.

Lemma quiet_told tr : Forall (fun e => quiet (asked e).1) tr -> told tr = [] /\ pauses tr = [].
Proof.
  induction 1 as [|e tr He _ [IH1 IH2]]; [done|]. unfold told, pauses, asks in *. cbn. destruct (asked e).1; by try destruct He.
Qed.

Lemma only_of_result {A} P (r : res A) : only P (of_result r : CM A).
Proof.
  destruct r as [a|e|[]]; cbn; [apply only_ret|apply only_throw|apply only_panic..|].
  intros s tr r s' H. apply sruns_end in H as (-> & _). constructor.
Qed.
#[local] Hint Resolve only_of_result : only.

Lemma quiet_CanConnect : only quiet CanConnect.
Proof. unfold CanConnect. only_tac. Qed.
#[local] Hint Resolve quiet_CanConnect : only.

Lemma quiet_sendConnect : only quiet sendConnectPacket.
Proof. unfold sendConnectPacket. only_tac. Qed.
#[local] Hint Resolve quiet_sendConnect : only.

Lemma quiet_Connect : only quiet Socket_Connect.
Proof. unfold Socket_Connect. only_tac. Qed.

(** What the clock said. *)
Definition clock_of (ev : event (reply (S := Client) canswer)) : option Z :=
  match ev with
  | Event q x => match q.1 as q0 return canswer q0 -> option Z with QNow => fun t => Some t | _ => fun _ => None end x.1
  end.
Definition clocks (tr : ctrace) : list Z := omap clock_of tr.

(** What an observer sees of the loop: that a dial, a CONNECT or a read loop failed, whether the
    context was done when the loop looked, and what the handler is told. *)
Variant Obs := Failed (e : error) | Looked (cancelled : bool) | Told (e : ClientEvent).

Definition obs_of (ev : event (reply (S := Client) canswer)) : option Obs :=
  match ev with
  | Event q x =>
      match q.1 as q0 return canswer q0 -> option Obs with
      | QDial _ => fun e => (fun e => Failed (WrapBoth (SentinelError ErrDial) e)) <$> e
      | QSendConnect _ => fun e => (fun e => Failed (WrapBoth (SentinelError ErrSendConnect) e)) <$> e
      | QReadLoop => fun e => Some (Failed (WrapBoth (SentinelError ErrInReadLoop) e))
      | QCtxDone _ => fun c => Some (Looked c)
      | QEvent e => fun _ => Some (Told e)
      | _ => fun _ => None
      end x.1
  end.
Definition log (tr : ctrace) : list Obs := omap obs_of tr.

Lemma clocks_app t1 t2 : clocks (t1 ++ t2) = clocks t1 ++ clocks t2.
Proof. apply omap_app. Qed.
Lemma log_app t1 t2 : log (t1 ++ t2) = log t1 ++ log t2.
Proof. apply omap_app. Qed.
Lemma clocks_cons e t : clocks (e :: t) = option_list (clock_of e) ++ clocks t.
Proof. unfold clocks. cbn. by destruct (clock_of e). Qed.
Lemma log_cons e t : log (e :: t) = option_list (obs_of e) ++ log t.
Proof. unfold log. cbn. by destruct (obs_of e). Qed.

(** Requests that leave nothing in the log, and those that do not read the clock. *)
Definition mute (q : CReq) : Prop :=
  match q with QDial _ | QSendConnect _ | QReadLoop | QCtxDone _ | QEvent _ => False | _ => True end.
Definition timeless (q : CReq) : Prop := match q with QNow => False | _ => True end.

Lemma mute_log tr : Forall (fun e => mute (asked e).1) tr -> log tr = [].
Proof. induction 1 as [|[[q s] x] tr He _ IH]; [done|]. rewrite log_cons, IH. by destruct q. Qed.
Lemma timeless_clocks tr : Forall (fun e => timeless (asked e).1) tr -> clocks tr = [].
Proof. induction 1 as [|[[q s] x] tr He _ IH]; [done|]. rewrite clocks_cons, IH. by destruct q. Qed.

Lemma mute_CanConnect : only mute CanConnect.
Proof. unfold CanConnect. only_tac. Qed.
Lemma timeless_CanConnect : only timeless CanConnect.
Proof. unfold CanConnect. only_tac. Qed.
#[local] Hint Resolve timeless_CanConnect : only.
Lemma timeless_sendConnect : only timeless sendConnectPacket.
Proof. unfold sendConnectPacket. only_tac. Qed.
#[local] Hint Resolve timeless_sendConnect : only.
Lemma timeless_Connect : only timeless Socket_Connect.
Proof. unfold Socket_Connect. only_tac. Qed.

Section LoopProofs.
Context (Parse : string -> ParsedURL + error) (FromURL : ParsedURL -> option error).
Abbreviation loop := (connection_loop Parse FromURL).

Lemma quiet_UpdateProxy reason : only quiet (UpdateProxy Parse FromURL reason).
Proof. unfold UpdateProxy. only_tac. Qed.

Lemma mute_UpdateProxy reason : only mute (UpdateProxy Parse FromURL reason).
Proof. unfold UpdateProxy. only_tac. Qed.
Lemma timeless_UpdateProxy reason : only timeless (UpdateProxy Parse FromURL reason).
Proof. unfold UpdateProxy. only_tac. Qed.

(** The state an event leaves. *)
Definition left_by (e : event (reply (S := Client) canswer)) : Client := (answered e).2.

Definition not_ok {A} (r : res A) : Prop := match r with Ok _ => False | _ => True end.

(** What follows a failure the loop goes on from: the handler is told, the loop waits, and
    starts again. *)
Definition goes_on (fuel ctx : nat) (start n ri : Z) (err : option error) (s : Client) (t : ctrace) (r : res LoopEnd) (s' : Client) : Prop :=
  exists long ev1 ev2 ev3 t3,
    t = ev1 :: ev2 :: ev3 :: t3 /\ (exists now, clock_of ev2 = Some now /\ long = was_long (int64 (now - start)) err) /\ asked ev1 = (QEvent (Event_SocketError err n), s) /\ asked ev2 = (QNow, left_by ev1) /\
    asked ev3 = (QPause ctx (backoff long ri n).1, left_by ev1) /\
    (t3 = [] /\ r = Ok EndCancelled \/
     exists t4 t5 r4 s4, t3 = t4 ++ t5 /\ sruns (UpdateProxy Parse FromURL "reconnect") (left_by ev3) t4 r4 s4 /\
       match r4 with
       | Ok _ => sruns (loop fuel ctx (backoff long ri n).2 (backoff long ri n).1) s4 t5 r s'
       | _ => t5 = [] /\ not_ok r
       end).

(** One round. *)
Definition round (fuel ctx : nat) (n ri : Z) (s : Client) (tr : ctrace) (r : res LoopEnd) (s' : Client) : Prop :=
  exists ev0 start t1 r1 s1, asked ev0 = (QNow, set_canSend false s) /\ clock_of ev0 = Some start /\ sruns Socket_Connect (set_canSend false s) t1 r1 s1 /\
    match r1 with
    | Ok err => exists evc c t2, tr = ev0 :: t1 ++ evc :: t2 /\ (asked evc).1 = QCtxDone ctx /\ obs_of evc = Some (Looked c) /\
        (c = true /\ t2 = [] /\ r = Ok EndCancelled \/
         c = false /\ (exists e ev, is_permanent err n = Some e /\ t2 = [ev] /\ (asked ev).1 = QEvent (Event_PermanentError e) /\ r = Ok (EndPermanent e)) \/
         c = false /\ is_permanent err n = None /\ goes_on fuel ctx start n ri err (set_canSend false s1) t2 r s')
    | _ => tr = ev0 :: t1 /\ not_ok r
    end.

Lemma crun_tell q s tr r s' : sruns (ctell q) s tr r s' -> exists x s1, tr = [Event (answer := reply canswer) (q, s) (x, s1)] /\ r = Ok x /\ s' = s.
Proof. intros H. apply (proj1 (sruns_tell (answer := canswer) q _ _ _ _) H). Qed.
Lemma crun_block q s tr r s' : sruns (cblock q) s tr r s' -> exists x, tr = [Event (answer := reply canswer) (q, s) (x, s')] /\ r = Ok x.
Proof. intros H. apply (proj1 (sruns_block (answer := canswer) q _ _ _ _) H). Qed.

Lemma loop_round fuel ctx n ri s tr r s' : sruns (loop (S fuel) ctx n ri) s tr r s' -> round fuel ctx n ri s tr r s'.
Proof.
  cbn [connection_loop]. intros (r0 & s0 & t0 & t & -> & (-> & -> & ->)%sruns_modify & H)%sruns_bind. cbn [app].
  apply sruns_bind in H as (r0 & s0 & t0 & t' & -> & (now & s9 & -> & -> & ->)%(crun_tell QNow) & H). cbn [app].
  apply sruns_bind in H as (r1 & s1 & t1 & t & -> & H1 & H). exists (Event (answer := reply canswer) (QNow, set_canSend false s) (now, s9)), now, t1, r1, s1.
  split; [done|]. split; [done|]. split; [exact H1|].
  destruct r1 as [err|e|h]; [|destruct H as (-> & -> & ->); rewrite app_nil_r; split; [reflexivity|exact I]..].
  apply sruns_bind in H as (r0 & s0 & t0 & t'' & -> & (-> & -> & ->)%sruns_modify & H). cbn [app].
  apply sruns_bind in H as (r0 & s0 & t0 & t2 & -> & (c & s8 & -> & -> & ->)%(crun_tell (QCtxDone ctx)) & H). cbn [app].
  do 2 eexists. exists t2. split; [reflexivity|]. split; [done|]. split; [reflexivity|]. cbn in c. destruct c; [left; by apply sruns_ret in H as (-> & -> & ->)|right].
  destruct (is_permanent err n) as [e|].
  - left. split; [done|]. apply sruns_bind in H as (r0 & s0 & t0 & t3 & -> & (x & -> & ->)%(crun_block (QEvent _)) & H).
    apply sruns_ret in H as (-> & -> & ->). by do 2 eexists.
  - right. split; [done|]. split; [done|].
    apply sruns_bind in H as (r0 & s2 & t0 & t3 & -> & (x & -> & ->)%(crun_block (QEvent _)) & H). cbn [app].
    apply sruns_bind in H as (r0 & s3 & t0 & t4 & -> & (now' & s7 & -> & -> & ->)%(crun_tell QNow) & H). cbn [app].
    set (long := was_long _ err) in H. exists long.
    destruct (backoff long ri n) as [ri' n'] eqn:Eb.
    apply sruns_bind in H as (r0 & s4 & t0 & t5 & -> & (go & -> & ->)%(crun_block (QPause ctx ri')) & H). cbn [app].
    do 4 eexists. split; [reflexivity|]. split; [exists now'; split; reflexivity|]. do 3 (split; [done|]). cbn in go. destruct go; cbn [negb] in H.
    + right. apply sruns_bind in H as (r4 & s5 & t0 & t6 & -> & H4 & H). do 4 eexists. split; [reflexivity|]. split; [exact H4|].
      destruct r4 as [a|e|h]; [exact H|by destruct H as (-> & -> & ->)..].
    + left. by apply sruns_ret in H as (-> & -> & ->).
Qed.

(** The projections of a round: nothing before the outcome of connecting. *)
Lemma round_quiet s t1 r1 s1 ev0 s0 : sruns Socket_Connect s t1 r1 s1 -> asked ev0 = (QNow, s0) ->
  told (ev0 :: t1) = [] /\ pauses (ev0 :: t1) = [].
Proof.
  intros H E. apply quiet_told. constructor; [by rewrite E|]. by eapply quiet_Connect.
Qed.

Lemma told_cons e t : told (e :: t) = match (asked e).1 with QEvent x => [x] | _ => [] end ++ told t.
Proof. unfold told, asks. cbn. by destruct (asked e).1. Qed.
Lemma pauses_cons e t : pauses (e :: t) = match (asked e).1 with QPause _ x => [x] | _ => [] end ++ pauses t.
Proof. unfold pauses, asks. cbn. by destruct (asked e).1. Qed.

(** What connecting leaves in the log: at most its failure. *)
Definition at_most (err : option error) (o : list Obs) : Prop := o = [] \/ exists e, err = Some e /\ o = [Failed e].

Lemma connect_log s tr r s' : sruns Socket_Connect s tr r s' -> at_most (match r with Ok err => err | _ => None end) (log tr).
Proof.
  unfold Socket_Connect. intros (r0 & s0 & t0 & t1 & -> & H0 & H)%sruns_bind.
  rewrite log_app, (mute_log t0) by (by eapply mute_CanConnect). cbn [app].
  destruct r0 as [[e0|]|e0|h]; [apply sruns_ret in H as (-> & -> & ->); by left| |by destruct H as (-> & -> & ->); left..].
  apply sruns_bind in H as (r1 & s1 & t2 & t3 & -> & (-> & -> & ->)%sruns_gets & H). cbn [app id] in *.
  apply sruns_bind in H as (r1 & s1 & t2 & t4 & -> & H1 & H).
  rewrite log_app, (mute_log t2) by (by eapply only_of_result). cbn [app].
  destruct r1; [|by destruct H as (-> & -> & ->); left..].
  apply sruns_bind in H as (r1 & s2 & t2' & t5 & -> & H2 & H).
  rewrite log_app, (mute_log t2') by (by eapply only_of_result). cbn [app].
  destruct r1; [|by destruct H as (-> & -> & ->); left..].
  apply sruns_bind in H as (r1 & s3 & t6 & t7 & -> & (x & -> & ->)%(crun_block (QDial _)) & H). cbn in x.
  destruct x as [e1|]; [apply sruns_ret in H as (-> & -> & ->); right; by eexists|]. cbn [app].
  apply sruns_bind in H as (r1 & s4 & t6 & t8 & -> & (-> & -> & ->)%sruns_modify & H). cbn [app] in *. rewrite log_cons. cbn [option_list obs_of fst app].
  apply sruns_bind in H as (r1 & s5 & t6 & t9 & -> & H5 & H). rewrite log_app. unfold sendConnectPacket in H5.
  apply sruns_bind in H5 as (r2 & s6 & t10 & t11 & -> & (-> & -> & ->)%sruns_gets & H5). cbn [app id] in *.
  destruct (connect_packet _) as [packet|e2|h2].
  - apply (crun_block (QSendConnect packet)) in H5 as (x & -> & ->). cbn in x. destruct x as [e1|].
    + apply sruns_ret in H as (-> & -> & ->). right. by eexists.
    + apply sruns_bind in H as (r1 & s7 & t10 & t12 & -> & (x & -> & ->)%(crun_block QReadLoop) & H).
      apply sruns_bind in H as (r1 & s8 & t13 & t14 & -> & (-> & -> & ->)%sruns_modify & H).
      apply sruns_bind in H as (r1 & s9 & t15 & t16 & -> & (y & s10 & -> & -> & ->)%(crun_tell QCancelAllRequests) & H).
      apply sruns_ret in H as (-> & -> & ->). right. by eexists.
  - apply sruns_ret in H5 as (-> & -> & ->). apply sruns_ret in H as (-> & -> & ->). by left.
  - rewrite (mute_log t11) by (by eapply (only_of_result mute (Halt h2))). cbn [app].
    assert (not_ok r1) as Hn by (destruct h2; [apply sruns_panic in H5 as (_ & -> & _)..|apply sruns_end in H5 as (_ & -> & _)]; done).
    destruct r1; [done|by destruct H as (-> & -> & ->); left..].
Qed.

(** The wait after a failure. *)
Definition long_round (start now : Z) (err : option error) : bool :=
  bool_decide (2 * Minute < int64 (now - start)) && match err with Some e => err_is e ErrInReadLoop | None => true end.

Lemma was_long_spec start now err : was_long (int64 (now - start)) err = long_round start now err.
Proof.
  unfold was_long, long_round. f_equal. destruct (Z.gtb_spec (int64 (now - start)) (2 * Minute)); [by rewrite bool_decide_true|].
  rewrite bool_decide_false; [done|lia].
Qed.

(** A round as what is told, what is waited, what the clock said, and the rest of the loop. *)
Lemma round_shape fuel ctx n ri s tr r s' : round fuel ctx n ri s tr r s' -> exists err o, at_most err o /\
  ((told tr = [] /\ pauses tr = [] /\ (log tr = [] /\ not_ok r \/ log tr = o ++ [Looked true] /\ r = Ok EndCancelled)) \/
   (exists e, is_permanent (Some e) n = Some e /\ err = Some e /\ told tr = [Event_PermanentError e] /\ pauses tr = [] /\ r = Ok (EndPermanent e) /\
      log tr = o ++ [Looked false; Told (Event_PermanentError e)]) \/
   (exists start now, is_permanent err n = None /\ let b := backoff (long_round start now err) ri n in
      (told tr = [Event_SocketError err n] /\ pauses tr = [b.1] /\ clocks tr = [start; now] /\ (not_ok r \/ r = Ok EndCancelled) /\
        log tr = o ++ [Looked false; Told (Event_SocketError err n)]) \/
      (exists t5 s4, sruns (loop fuel ctx b.2 b.1) s4 t5 r s' /\ told tr = Event_SocketError err n :: told t5 /\ pauses tr = b.1 :: pauses t5 /\
        clocks tr = start :: now :: clocks t5 /\ log tr = o ++ Looked false :: Told (Event_SocketError err n) :: log t5))).
Proof.
  intros (ev0 & start & t1 & r1 & s1 & E0 & C0 & H1 & H). destruct (round_quiet _ _ _ _ _ _ H1 E0) as [T0 P0].
  exists (match r1 with Ok err => err | _ => None end), (log t1). split; [by eapply connect_log|].
  assert (obs_of ev0 = None) as O0 by (destruct ev0 as [[q0 s0] x0]; by injection E0 as -> ->).
  assert (forall x, at_most None x -> x = []) as Hnone by (by intros x [?|(e & [=] & _)]).
  destruct r1 as [err|e|h]; [|destruct H as [-> Hr]; left; rewrite log_cons, O0, (Hnone (log t1)) by (apply connect_log in H1; exact H1); auto..].
  destruct H as (evc & c & t2 & -> & Ec & Oc & H).
  assert (told (ev0 :: t1 ++ evc :: t2) = told t2 /\ pauses (ev0 :: t1 ++ evc :: t2) = pauses t2) as [-> ->].
  { rewrite app_comm_cons, told_app, loop_pauses_app, T0, P0, told_cons, pauses_cons, Ec. by split. }
  assert (log (ev0 :: t1 ++ evc :: t2) = log t1 ++ Looked c :: log t2) as ->.
  { by rewrite log_cons, log_app, log_cons, O0, Oc. }
  assert (clocks (ev0 :: t1 ++ evc :: t2) = start :: clocks t2) as ->.
  { rewrite clocks_cons, clocks_app, clocks_cons, C0, (timeless_clocks t1) by (by eapply timeless_Connect).
    destruct evc as [[qc sc] xc]. cbn in Ec. by subst qc. }
  destruct H as [(-> & -> & ->)|[(-> & e & ev & Hp & -> & Ee & ->)|(-> & Hp & long & ev1 & ev2 & ev3 & t3 & -> & (now & C2 & ->) & E1 & E2 & E3 & H)]].
  - left. auto.
  - right. left. exists e. rewrite told_cons, pauses_cons, Ee. destruct err as [e'|]; [|done]. cbn in Hp.
    destruct (refused_for_good e' || _) eqn:Eb; [|done]. injection Hp as <-. split; [cbn; by rewrite Eb|]. do 4 (split; [done|]).
    rewrite log_cons. destruct ev as [[q0 s0] x0]. cbn in Ee. by subst q0.
  - right. right. exists start, now. split; [done|]. rewrite was_long_spec in *. cbv zeta.
    assert (forall t, told (ev1 :: ev2 :: ev3 :: t) = Event_SocketError err n :: told t /\
                      pauses (ev1 :: ev2 :: ev3 :: t) = (backoff (long_round start now err) ri n).1 :: pauses t /\
                      clocks (ev1 :: ev2 :: ev3 :: t) = now :: clocks t /\
                      log (ev1 :: ev2 :: ev3 :: t) = Told (Event_SocketError err n) :: log t) as Ht.
    { intros t. rewrite !told_cons, !pauses_cons, !clocks_cons, !log_cons, E1, E2, E3, C2.
      destruct ev1 as [[q1 s11] x1], ev2 as [[q2 s12] x2], ev3 as [[q3 s13] x3]. injection E1 as -> ->. injection E2 as -> ->. by injection E3 as -> ->. }
    destruct (Ht t3) as (-> & -> & -> & ->). destruct H as [[-> ->]|(t4 & t5 & r4 & s4 & -> & H4 & H)]; [left; split_and!; auto|].
    destruct (quiet_told t4) as [T4 P4]; [by eapply quiet_UpdateProxy|].
    rewrite told_app, loop_pauses_app, clocks_app, log_app, T4, P4, (timeless_clocks t4), (mute_log t4) by (first [by eapply timeless_UpdateProxy|by eapply mute_UpdateProxy]).
    destruct r4 as [a|e|h]; [right; by exists t5, s4|left; destruct H as [-> Hr]; split_and!; auto..].
Qed.

(** ** What the handler is told *)

Definition passes (e : ClientEvent) : Prop :=
  match e with
  | Event_SocketError None _ => True
  | Event_SocketError (Some e) n => refused_for_good e = false /\ (bad_password e = true -> n <= 5)
  | _ => False
  end.

Definition last_word (r : res LoopEnd) : list ClientEvent :=
  match r with Ok (EndPermanent e) => [Event_PermanentError e] | _ => [] end.

Lemma not_permanent err n : is_permanent err n = None -> passes (Event_SocketError err n).
Proof.
  destruct err as [e|]; [|done]. cbn. destruct (refused_for_good e); [done|]. cbn. destruct (bad_password e); [|by split].
  cbn. destruct (Z.gtb_spec n 5); [done|]. by split.
Qed.

Lemma last_word_none r : not_ok r \/ r = Ok EndCancelled -> last_word r = [].
Proof. by destruct r as [[]|e|h]; intros [?|[=]]. Qed.

(** The errors the handler is told of failed connections. *)
Definition error_told (e : ClientEvent) : option error :=
  match e with Event_SocketError err _ => err | Event_PermanentError e => Some e | _ => None end.

(** Every failure is accounted for: after it the loop looks at its context and either it was
    cancelled, and that is the end of it, or the next thing it does is to tell the handler that
    very error.  Whatever became of connecting, the handler is told when the loop goes on. *)
Fixpoint accounted (r : res LoopEnd) (o : list Obs) : Prop :=
  match o with
  | [] => True
  | Failed e :: o' =>
      match o' with
      | [Looked true] => True
      | Looked false :: Told x :: _ => error_told x = Some e
      | _ => False
      end /\ accounted r o'
  | Looked true :: o' => o' = [] /\ r = Ok EndCancelled
  | Looked false :: o' => match o' with Told _ :: _ => True | _ => False end /\ accounted r o'
  | Told _ :: o' => accounted r o'
  end.

Lemma accounted_told r err o x l : at_most err o -> error_told x = err -> accounted r l -> accounted r (o ++ Looked false :: Told x :: l).
Proof. intros [->|(e & -> & ->)] Hx Hl; cbn; split; [done|done|done|by split]. Qed.

Lemma loop_accounted fuel ctx : forall n ri s tr r s', sruns (loop fuel ctx n ri) s tr r s' -> accounted r (log tr).
Proof.
  induction fuel as [|fuel IH]; intros n ri s tr r s' H; [by apply sruns_end in H as (-> & -> & ->)|].
  apply loop_round, round_shape in H as (err & o & Ho & [(_ & _ & Hr)|[(e & _ & -> & _ & _ & -> & ->)|(start & now & _ & Hr)]]).
  - destruct Hr as [[Hl Hn]|[-> ->]].
    + by rewrite Hl.
    + destruct Ho as [->|(e & _ & ->)]; by cbn.
  - by eapply accounted_told.
  - cbv zeta in Hr. destruct Hr as [(_ & _ & _ & _ & ->)|(t5 & s4 & H5 & _ & _ & _ & ->)]; eapply accounted_told; try done. by eapply IH.
Qed.

Lemma loop_last_word fuel ctx : forall n ri s tr r s', sruns (loop fuel ctx n ri) s tr r s' ->
  exists l, told tr = l ++ last_word r /\ Forall passes l /\
    (forall e, r = Ok (EndPermanent e) -> refused_for_good e = true \/ bad_password e = true).
Proof.
  induction fuel as [|fuel IH]; intros n ri s tr r s' H; [apply sruns_end in H as (-> & -> & ->); by exists []|].
  apply loop_round, round_shape in H as (err & o & _ & [(-> & _ & Hr)|[(e & Hp & -> & -> & _ & -> & _)|(start & now & Hp & H)]]).
  - assert (not_ok r \/ r = Ok EndCancelled) as Hr' by naive_solver.
    exists []. rewrite last_word_none by done. split; [done|]. split; [constructor|]. intros e ->. by destruct Hr'.
  - exists []. split; [done|]. split; [constructor|]. intros e' [= <-]. cbn in Hp. destruct (refused_for_good e); [by left|right].
    by destruct (bad_password e).
  - cbv zeta in H. destruct H as [(-> & _ & _ & Hr & _)|(t5 & s4 & H & -> & _)].
    + exists [Event_SocketError err n]. rewrite last_word_none by done. split; [done|]. split; [repeat constructor; by apply not_permanent|].
      intros e ->. by destruct Hr.
    + destruct (IH _ _ _ _ _ _ H) as (l & -> & Hl & He). exists (Event_SocketError err n :: l). split; [done|].
      split; [constructor; [by apply not_permanent|done]|done].
Qed.

(** C10. The event handler is told of every failed connection: each dial, CONNECT and read loop
    that fails is followed, as soon as the loop has looked at its context, by the very error
    being told, unless the loop was cancelled, which ends it.  It is told of a permanent error
    exactly once and last, when the loop ends with it; every other error it is told is one that
    can pass: no final refusal, and a wrong password only for the first five attempts. *)
Theorem loop_tells_errors fuel ctx n ri s tr r s' (H : sruns (loop fuel ctx n ri) s tr r s') :
  accounted r (log tr) /\
  exists l, told tr = l ++ last_word r /\ Forall passes l /\
    (forall e, r = Ok (EndPermanent e) -> refused_for_good e = true \/ bad_password e = true).
Proof. split; [by eapply loop_accounted|by eapply loop_last_word]. Qed.

(** ** How long it waits *)

(** The rounds that came to a wait: whether each was long, by the clock and the error told. *)
Fixpoint longs (clock : list Z) (told : list ClientEvent) : list bool :=
  match clock, told with
  | start :: now :: clock, Event_SocketError err _ :: told => long_round start now err :: longs clock told
  | _, _ => []
  end.

(** After a long connection the loop connects again at once; after the [k]-th short one in a row
    it waits 2^k seconds, at most five minutes. *)
Fixpoint waits (k : Z) (l : list bool) : list Z :=
  match l with
  | [] => []
  | true :: l => 0 :: waits 0 l
  | false :: l => Z.min (2 ^ (k + 1)) 300 * Second :: waits (k + 1) l
  end.

(** The wait the loop has in hand after [k] short connections in a row. *)
Definition in_hand (k : Z) : Z := if k =? 0 then 0 else Z.min (2 ^ k) 300 * Second.

Lemma backoff_in_hand long k n : 0 <= k ->
  (backoff long (in_hand k) n).1 = if long then 0 else Z.min (2 ^ (k + 1)) 300 * Second.
Proof.
  intros Hk. unfold backoff. destruct long; [done|]. cbn [fst]. unfold in_hand, MaxConnectBackoff, Minute.
  destruct (Z.eqb_spec k 0) as [->|Hne]; [done|]. rewrite Z.pow_add_r by lia.
  pose proof (Z.pow_pos_nonneg 2 k ltac:(lia) ltac:(lia)). unfold Second.
  destruct (Z.eqb_spec (Z.min (2 ^ k) 300 * 1000000000) 0); lia.
Qed.

Lemma loop_waits fuel ctx : forall k n s tr r s', 0 <= k -> sruns (loop fuel ctx n (in_hand k)) s tr r s' ->
  pauses tr = waits k (longs (clocks tr) (told tr)).
Proof.
  induction fuel as [|fuel IH]; intros k n s tr r s' Hk H; [by apply sruns_end in H as (-> & -> & ->)|].
  apply loop_round, round_shape in H as (err & o & _ & [(-> & -> & _)|[(e & _ & _ & -> & -> & _)|(start & now & _ & H)]]).
  - by destruct (clocks tr) as [|? []].
  - by destruct (clocks tr) as [|? []].
  - cbv zeta in H. rewrite backoff_in_hand in H by done.
    destruct H as [(-> & -> & -> & _)|(t5 & s4 & H & -> & -> & -> & _)]; cbn [longs waits]; destruct (long_round start now err) eqn:El; try done.
    + f_equal. change 0 with (in_hand 0) in H. by eapply IH.
    + f_equal. assert (Z.min (2 ^ (k + 1)) 300 * Second = in_hand (k + 1)) as Ek by (unfold in_hand; destruct (Z.eqb_spec (k + 1) 0); [lia|done]).
      rewrite Ek in H. eapply IH; [lia|exact H].
Qed.

(** C24. The waits of the loop are those of its rounds: none after a connection that lasted more
    than two minutes and whose read loop ended it, and otherwise 2, 4, 8, ... seconds, up to
    five minutes, as the short connections since the last long one go on. *)
Theorem loop_waits_bounded fuel ctx n s tr r s' (H : sruns (loop fuel ctx n 0) s tr r s') :
  pauses tr = waits 0 (longs (clocks tr) (told tr)).
Proof. by apply (loop_waits fuel ctx 0 n s tr r s'). Qed.

(** ** A CONNECT that cannot be sent *)

(** A blocked call keeps the connection: only the loop writes it. *)
Definition keeps_conn (e : event (reply (S := Client) canswer)) : Prop := conn (left_by e) = conn (asked e).2.

Lemma Socket_Connect_open s tr r s' : conn s = true -> sruns Socket_Connect s tr r s' ->
  tr = [] /\ r = Ok (Some (SentinelError ErrSocketAlreadyOpen)) /\ s' = s.
Proof.
  intros Hc. unfold Socket_Connect, CanConnect.
  intros (r0 & s0 & t0 & t1 & -> & (r1 & s1 & t2 & t3 & -> & (-> & -> & ->)%sruns_gets & H0)%sruns_bind & H)%sruns_bind.
  cbn [id] in H0. rewrite Hc in H0. apply sruns_ret in H0 as (-> & -> & ->). by apply sruns_ret in H as (-> & -> & ->).
Qed.

Lemma conn_SetProxy addr c c' e : SetProxy Parse FromURL addr (Some c) = (Some c', e) -> conn c' = conn c.
Proof.
  cbn. destruct (Parse addr) as [u|]; [|by intros [= <- _]].
  destruct (_ || _); [|destruct (_ =? _)%string; [destruct (FromURL u)|]]; intros [= <- _]; unfold SetHTTP; repeat case_match; done.
Qed.

Lemma UpdateProxy_keeps reason s tr r s' : sruns (UpdateProxy Parse FromURL reason) s tr r s' -> Forall keeps_conn tr ->
  conn s' = conn s /\ Forall (fun q => exists reason, q = QGetNewProxy reason) (asks tr).
Proof.
  unfold UpdateProxy. intros (r0 & s0 & t0 & t1 & -> & (-> & -> & ->)%sruns_gets & H)%sruns_bind Hk. cbn [app] in *.
  destruct (negb (hasProxyGetter s)); [by apply sruns_ret in H as (-> & _ & ->)|].
  apply sruns_bind in H as (r0 & s0 & t0 & t2 & -> & (x & -> & ->)%(crun_block (QGetNewProxy reason)) & H).
  apply Forall_app in Hk as [Hk1 Hk2]. apply Forall_cons in Hk1 as [Hk1 _]. unfold keeps_conn, left_by in Hk1. cbn in Hk1.
  assert (t2 = [] /\ conn s' = conn s0) as [-> Hc].
  { destruct x as [addr|e]; [|by apply sruns_ret in H as (-> & _ & ->)].
    apply sruns_bind in H as (r0 & s1 & t0 & t3 & -> & (-> & -> & ->)%sruns_gets & H). cbn [app id] in H.
    destruct (SetProxy _ _ _ _) as [c' err] eqn:E.
    apply sruns_bind in H as (r0 & s2 & t0 & t4 & -> & (-> & -> & ->)%sruns_modify & H). apply sruns_ret in H as (-> & _ & ->).
    split; [done|]. destruct c' as [c'|]; [by eapply conn_SetProxy|done]. }
  split; [by rewrite Hc, Hk1|]. repeat constructor. by exists reason.
Qed.

Definition dials (q : CReq) : Prop := match q with QDial _ => True | _ => False end.

Lemma loop_never_dials fuel ctx : forall n ri s tr r s', conn s = true -> sruns (loop fuel ctx n ri) s tr r s' -> Forall keeps_conn tr ->
  Forall (fun q => ~ dials q) (asks tr) /\
  Forall (fun e => exists n, e = Event_SocketError (Some (SentinelError ErrSocketAlreadyOpen)) n) (told tr).
Proof.
  induction fuel as [|fuel IH]; intros n ri s tr r s' Hc H Hk; [apply sruns_end in H as (-> & _); by split|].
  apply loop_round in H as (ev0 & start & t1 & r1 & s1 & E0 & _ & H1 & H).
  apply Socket_Connect_open in H1 as (-> & -> & ->); [|done]. destruct H as (evc & c & t2 & -> & Ec & _ & H). cbn [app] in *.
  apply Forall_cons in Hk as [_ Hk]. apply Forall_cons in Hk as [_ Hk].
  assert (forall t, told (ev0 :: evc :: t) = told t) as Ht by (intros t; by rewrite !told_cons, E0, Ec). rewrite Ht.
  assert (forall t, Forall (fun q => ~ dials q) (asks t) -> Forall (fun q => ~ dials q) (asks (ev0 :: evc :: t))) as Ha.
  { intros t Hf. unfold asks. cbn. rewrite E0, Ec. repeat constructor; [by intros []..|done]. }
  destruct H as [(_ & -> & _)|[(_ & e & ev & Hp & _)|(_ & _ & long & ev1 & ev2 & ev3 & t3 & -> & _ & E1 & E2 & E3 & H)]]; [split; [apply Ha|]; constructor|done|].
  apply Forall_cons in Hk as [K1 Hk]. apply Forall_cons in Hk as [_ Hk]. apply Forall_cons in Hk as [K3 Hk].
  assert (conn (left_by ev3) = true) as C3 by (rewrite K3, E3; cbn; by rewrite K1, E1).
  rewrite !told_cons, E1, E2, E3. cbn [fst app].
  assert (forall t, Forall (fun q => ~ dials q) (asks t) -> Forall (fun q => ~ dials q) (asks (ev0 :: evc :: ev1 :: ev2 :: ev3 :: t))) as Ha'.
  { intros t Hf. apply Ha. unfold asks. cbn. rewrite E1, E2, E3. repeat constructor; [by intros []..|done]. }
  destruct H as [[-> _]|(t4 & t5 & r4 & s4 & -> & H4 & H)]; [split; [apply Ha'; constructor|repeat constructor; by eexists]|].
  apply Forall_app in Hk as [K4 K5]. destruct (UpdateProxy_keeps _ _ _ _ _ H4 K4) as [C4 A4].
  assert (Forall (fun q => ~ dials q) (asks t4)) as D4 by (eapply Forall_impl; [exact A4|]; intros q (? & ->) []).
  assert (told t4 = []) as T4 by (apply quiet_told; by eapply quiet_UpdateProxy).
  rewrite told_app, T4. cbn [app]. destruct r4 as [a|e|h].
  - destruct (IH _ _ _ _ _ _ (eq_trans C4 C3) H K5) as [I1 I2]. split; [apply Ha'; rewrite asks_app; by apply Forall_app|].
    constructor; [by eexists|done].
  - destruct H as [-> _]. rewrite app_nil_r. split; [by apply Ha'|repeat constructor; by eexists].
  - destruct H as [-> _]. rewrite app_nil_r. split; [by apply Ha'|repeat constructor; by eexists].
Qed.

Lemma failed_send_leaves_conn s tr r s' e : sruns Socket_Connect s tr r s' -> Forall keeps_conn tr ->
  r = Ok (Some (WrapBoth (SentinelError ErrSendConnect) e)) -> conn s' = true.
Proof.
  unfold Socket_Connect. intros (r0 & s0 & t0 & t1 & -> & H0 & H)%sruns_bind Hk ->.
  destruct r0 as [[e0|]|e0|h]; [|..].
  - apply sruns_ret in H as (-> & [= <-] & ->). exfalso. unfold CanConnect in H0.
    apply sruns_bind in H0 as (r1 & s1 & t2 & t3 & _ & (-> & -> & ->)%sruns_gets & H0). cbn [id] in H0.
    destruct (conn s); [by apply sruns_ret in H0 as (_ & [=] & _)|].
    apply sruns_bind in H0 as (r1 & s1 & t2' & t3' & _ & _ & H0). destruct r1; [|by destruct H0 as (_ & [=] & _)..].
    apply sruns_ret in H0 as (_ & E & _). destruct (negb a), (broker s =? "")%string; discriminate E.
  - apply Forall_app in Hk as [_ Hk].
    apply sruns_bind in H as (r1 & s1 & t2 & t3 & -> & (-> & -> & ->)%sruns_gets & H). cbn [app id] in *.
    apply sruns_bind in H as (r1 & s1 & t2 & t4 & -> & H1 & H). destruct r1; [|by destruct H as (_ & [=] & _)..].
    apply Forall_app in Hk as [_ Hk].
    apply sruns_bind in H as (r1 & s2 & t2' & t5 & -> & H2 & H). destruct r1; [|by destruct H as (_ & [=] & _)..].
    apply Forall_app in Hk as [_ Hk].
    apply sruns_bind in H as (r1 & s3 & t6 & t7 & -> & (x & -> & ->)%(crun_block (QDial _)) & H). cbn in x.
    destruct x as [e1|]; [by apply sruns_ret in H as (_ & [=] & _)|]. apply Forall_app in Hk as [_ Hk].
    apply sruns_bind in H as (r1 & s4 & t6 & t8 & -> & (-> & -> & ->)%sruns_modify & H). cbn [app] in *.
    apply sruns_bind in H as (r1 & s5 & t6 & t9 & -> & H5 & H). apply Forall_app in Hk as [Hk _].
    destruct r1 as [[e1|]| |]; [| |by destruct H as (_ & [=] & _)..].
    + apply sruns_ret in H as (-> & [= <-] & ->). unfold sendConnectPacket in H5.
      apply sruns_bind in H5 as (r1 & s6 & t10 & t11 & -> & (-> & -> & ->)%sruns_gets & H5). cbn [app id] in *.
      destruct (connect_packet _) as [packet|e2|[]]; [|by apply sruns_ret in H5 as (_ & _ & ->)|..].
      * apply (crun_block (QSendConnect packet)) in H5 as (x & -> & _). apply Forall_cons in Hk as [Hk _]. unfold keeps_conn, left_by in Hk. cbn in Hk. by rewrite Hk.
      * by apply sruns_panic in H5 as (_ & [=] & _).
      * by apply sruns_panic in H5 as (_ & [=] & _).
      * by apply sruns_end in H5 as (_ & [=] & _).
    + exfalso. apply sruns_bind in H as (r1 & s6 & t10 & t11 & -> & (x & -> & ->)%(crun_block QReadLoop) & H).
      apply sruns_bind in H as (r1 & s7 & t12 & t13 & -> & (-> & -> & ->)%sruns_modify & H).
      apply sruns_bind in H as (r1 & s8 & t14 & t15 & -> & (y & s9 & -> & -> & ->)%(crun_tell QCancelAllRequests) & H).
      by apply sruns_ret in H as (_ & [=] & _).
  - by destruct H as (_ & [=] & _).
  - by destruct H as (_ & [=] & _).
Qed.

(** C39. A CONNECT that cannot be sent is the end of connecting: the connection stays set, and
    from then on the loop never dials again, it is only told, each time, that the socket is
    already open. *)
Theorem failed_connect_sticks s t1 r1 s1 e fuel ctx n ri s2 tr r s'
    (H1 : sruns Socket_Connect s t1 r1 s1) (K1 : Forall keeps_conn t1) (Hr : r1 = Ok (Some (WrapBoth (SentinelError ErrSendConnect) e)))
    (Hs : conn s2 = conn s1) (H2 : sruns (loop fuel ctx n ri) s2 tr r s') (K2 : Forall keeps_conn tr) :
  Forall (fun q => ~ dials q) (asks tr) /\
  Forall (fun e => exists n, e = Event_SocketError (Some (SentinelError ErrSocketAlreadyOpen)) n) (told tr).
Proof.
  eapply loop_never_dials; [|exact H2|exact K2]. rewrite Hs. by eapply failed_send_leaves_conn.
Qed.

(** ** A connection the server refuses *)

(** The error a read loop came back with. *)
Definition loop_error (ev : event (reply (S := Client) canswer)) : option error :=
  match ev with
  | Event q x => match q.1 as q0 return canswer q0 -> option error with QReadLoop => fun e => Some e | _ => fun _ => None end x.1
  end.

Lemma loop_error_asked ev e : loop_error ev = Some e -> (asked ev).1 = QReadLoop.
Proof. destruct ev as [[q s] [x s']]. by destruct q. Qed.

Definition no_read (q : CReq) : Prop := q <> QReadLoop.

Lemma no_read_CanConnect : only no_read CanConnect.
Proof. unfold CanConnect. only_tac. Qed.

Lemma no_read_send : only no_read sendConnectPacket.
Proof. unfold sendConnectPacket. only_tac. done. Qed.

Lemma no_read_proxy reason : only no_read (UpdateProxy Parse FromURL reason).
Proof. unfold UpdateProxy. only_tac. done. Qed.

Lemma no_read_in {A} (m : CM A) s tr r s' ev e : only no_read m -> sruns m s tr r s' -> ev ∈ tr -> loop_error ev = Some e -> False.
Proof.
  intros Hm H Hin He. specialize (Hm _ _ _ _ H). rewrite Forall_forall in Hm. by apply (Hm ev Hin), (loop_error_asked ev e).
Qed.

Lemma Socket_Connect_read s tr r s' ev e : sruns Socket_Connect s tr r s' -> ev ∈ tr -> loop_error ev = Some e ->
  r = Ok (Some (WrapBoth (SentinelError ErrInReadLoop) e)).
Proof.
  unfold Socket_Connect. intros (r0 & s0 & t0 & t1 & -> & H0 & H)%sruns_bind Hin He.
  apply elem_of_app in Hin as [Hin|Hin]; [by destruct (no_read_in _ _ _ _ _ _ _ no_read_CanConnect H0 Hin He)|].
  destruct r0 as [[e0|]|e0|h]; [|..]; [by apply sruns_ret in H as (-> & _); apply not_elem_of_nil in Hin| |by destruct H as (-> & _); apply not_elem_of_nil in Hin..].
  apply sruns_bind in H as (r1 & s1 & t2 & t3 & -> & (-> & -> & ->)%sruns_gets & H). cbn [app id] in *.
  apply sruns_bind in H as (r1 & s1 & t2 & t4 & -> & H1 & H).
  apply elem_of_app in Hin as [Hin|Hin]; [by destruct (no_read_in _ _ _ _ _ _ _ (only_of_result no_read _) H1 Hin He)|].
  destruct r1; [|by destruct H as (-> & _); apply not_elem_of_nil in Hin..].
  apply sruns_bind in H as (r1 & s2 & t2' & t5 & -> & H2 & H).
  apply elem_of_app in Hin as [Hin|Hin]; [by destruct (no_read_in _ _ _ _ _ _ _ (only_of_result no_read _) H2 Hin He)|].
  destruct r1; [|by destruct H as (-> & _); apply not_elem_of_nil in Hin..].
  apply sruns_bind in H as (r1 & s3 & t6 & t7 & -> & (x & -> & ->)%(crun_block (QDial _)) & H). cbn in x.
  apply elem_of_app in Hin as [Hin%list_elem_of_singleton|Hin]; [by subst ev|].
  destruct x as [e1|]; [by apply sruns_ret in H as (-> & _); apply not_elem_of_nil in Hin|].
  apply sruns_bind in H as (r1 & s4 & t6 & t8 & -> & (-> & -> & ->)%sruns_modify & H). cbn [app] in *.
  apply sruns_bind in H as (r1 & s5 & t6 & t9 & -> & H5 & H).
  apply elem_of_app in Hin as [Hin|Hin]; [by destruct (no_read_in _ _ _ _ _ _ _ no_read_send H5 Hin He)|].
  destruct r1 as [[e1|]| |]; [by apply sruns_ret in H as (-> & _); apply not_elem_of_nil in Hin| |by destruct H as (-> & _); apply not_elem_of_nil in Hin..].
  apply sruns_bind in H as (r1 & s6 & t10 & t11 & -> & (x & -> & ->)%(crun_block QReadLoop) & H).
  apply sruns_bind in H as (r1 & s7 & t12 & t13 & -> & (-> & -> & ->)%sruns_modify & H).
  apply sruns_bind in H as (r1 & s8 & t14 & t15 & -> & (y & s9 & -> & -> & ->)%(crun_tell QCancelAllRequests) & H).
  apply sruns_ret in H as (-> & -> & ->). cbn in Hin. apply elem_of_cons in Hin as [->|Hin%list_elem_of_singleton]; [|by subst ev].
  by injection He as ->.
Qed.

Lemma refused_run fuel ctx e : refused_for_good e = true -> forall n ri s tr r s' ev, sruns (loop fuel ctx n ri) s tr r s' ->
  ev ∈ tr -> loop_error ev = Some e -> r = Ok EndCancelled \/ r = Ok (EndPermanent (WrapBoth (SentinelError ErrInReadLoop) e)).
Proof.
  intros Hf. induction fuel as [|fuel IH]; intros n ri s tr r s' ev H Hin He; [apply sruns_end in H as (-> & _); by apply not_elem_of_nil in Hin|].
  apply loop_round in H as (ev0 & start & t1 & r1 & s1 & E0 & _ & H1 & H).
  assert (forall q s0, asked ev = (q, s0) -> q = QReadLoop) as Hq by (intros q s0 E; apply loop_error_asked in He; by rewrite E in He).
  destruct r1 as [err|e1|h]; [|destruct H as [-> _]..].
  2,3: apply elem_of_cons in Hin as [->|Hin]; [by specialize (Hq _ _ E0)|pose proof (Socket_Connect_read _ _ _ _ _ _ H1 Hin He); discriminate].
  destruct H as (evc & c & t2 & -> & Ec & _ & H).
  apply elem_of_cons in Hin as [->|Hin]; [by specialize (Hq _ _ E0)|]. apply elem_of_app in Hin as [Hin|Hin].
  - pose proof (Socket_Connect_read _ _ _ _ _ _ H1 Hin He) as [= ->].
    assert (is_permanent (Some (WrapBoth (SentinelError ErrInReadLoop) e)) n = Some (WrapBoth (SentinelError ErrInReadLoop) e)) as Hp.
    { cbn. unfold refused_for_good in *. cbn. by rewrite Hf. }
    destruct H as [(_ & _ & ->)|[(_ & e' & ev' & Hp' & _ & _ & ->)|(_ & Hp' & _)]]; [by left| |congruence]. right. congruence.
  - apply elem_of_cons in Hin as [->|Hin]; [apply loop_error_asked in He; congruence|].
    destruct H as [(_ & -> & ->)|[(_ & e' & ev' & _ & -> & Ee & _)|(_ & _ & long & ev1 & ev2 & ev3 & t3 & -> & _ & E1 & E2 & E3 & H)]]; [by left|..].
    + apply list_elem_of_singleton in Hin as ->. apply loop_error_asked in He. congruence.
    + repeat (apply elem_of_cons in Hin as [->|Hin]; [apply loop_error_asked in He; rewrite ?E1, ?E2, ?E3 in He; discriminate He|]).
      destruct H as [[-> ->]|(t4 & t5 & r4 & s4 & -> & H4 & H)]; [by left|].
      apply elem_of_app in Hin as [Hin|Hin]; [by destruct (no_read_in _ _ _ _ _ _ _ (no_read_proxy _) H4 Hin He)|].
      destruct r4 as [a|e4|h4]; [by eapply IH|by destruct H as [-> _]; apply not_elem_of_nil in Hin..].
Qed.

(** C6. A connection that is refused for good ends the client's loop: if the read loop of a
    connection, whatever its goroutines did, was refused with one of the three codes, then the
    loop that started it ends with that error and never connects again, unless it was cancelled. *)
Theorem refused_client_gives_up finish zero unmarshal st e c fuel ctx n ri s tr r s' ev
    (Hst : ReadLoop.reachable finish zero unmarshal st) (Hend : ReadLoop.reader st = ReadLoop.Finished e) (Hc : ReadLoop.refused st = Some c)
    (Hcode : c ∈ [CONNECTION_REFUSED_UNAUTHORIZED; CONNECTION_REFUSED_SERVER_UNAVAILABLE; CONNECTION_REFUSED_UNKNOWN_24])
    (H : sruns (loop fuel ctx n ri) s tr r s') (Hin : ev ∈ tr) (He : loop_error ev = Some e) :
  r = Ok EndCancelled \/ r = Ok (EndPermanent (WrapBoth (SentinelError ErrInReadLoop) e)).
Proof.
  apply (refused_run fuel ctx e) with n ri s tr s' ev; try done.
  destruct (ReadLoop.reachable_inv _ _ _ st Hst) as [[h Hh]|Hi]; [congruence|].
  pose proof (ReadLoop.inv_error _ _ Hi) as Hx. rewrite Hend in Hx. rewrite (ReadLoop.inv_refused _ _ Hi c Hc) in Hx. injection Hx as <-.
  unfold refused_for_good. cbn. repeat (apply elem_of_cons in Hcode as [->|Hcode]; [done|]). by apply not_elem_of_nil in Hcode.
Qed.
End LoopProofs.

(** * Examples *)

Definition no_url (_ : string) : ParsedURL + error := inr (OtherError "invalid proxy").
Definition no_dialer (_ : ParsedURL) : option error := Some (OtherError "invalid proxy").

(** An environment whose read loops end, one after the other, with the errors of a list, and
    whose CONNECT is sent while the list is not empty. *)
Definition reads_env (q : CReq * Client) (l : list error) : (canswer q.1 * Client) * list error :=
  match q.1 as q0 return (canswer q0 * Client) * list error with
  | QReadLoop => ((match l with e :: _ => e | [] => OtherError "EOF" end, q.2), tail l)
  | QSendConnect _ => ((match l with _ :: _ => None | [] => Some (OtherError "write: broken pipe") end, q.2), l)
  | QDial url => ((None, q.2), l)
  | q0 => ((calm q0, q.2), l)
  end%string.

Definition offline : Client := set_conn false demo_client.
Definition demo_loop (l : list error) := play reads_env (connection_loop no_url no_dialer 6 0 1 0 offline) l.

(** Closed once, then refused: the loop waits two seconds, is refused, and ends. *)
Definition demo_refusal := demo_loop [OtherError "closed"; ReadLoop.refusal 5].

Example demo_refusal_told : length (told demo_refusal.1.2) = 2%nat /\ pauses demo_refusal.1.2 = [2 * Second] /\
  match demo_refusal.1.1.1 with Ok (EndPermanent _) => true | _ => false end = true.
Proof. vm_compute. split_and!; reflexivity. Qed.

Lemma demo_refusal_runs : sruns (connection_loop no_url no_dialer 6 0 1 0) offline demo_refusal.1.2 demo_refusal.1.1.1 demo_refusal.1.1.2.
Proof. apply play_sruns. Qed.

Example demo_refusal_log : match log demo_refusal.1.2 with
  | [Failed e1; Looked false; Told x1; Failed e2; Looked false; Told (Event_PermanentError e3)] => error_told x1 = Some e1 /\ e3 = e2
  | _ => False
  end.
Proof. vm_compute. split; reflexivity. Qed.

Lemma loop_tells_errors_witness : accounted demo_refusal.1.1.1 (log demo_refusal.1.2) /\
  exists l, told demo_refusal.1.2 = l ++ last_word demo_refusal.1.1.1 /\ Forall passes l /\
  (forall e, demo_refusal.1.1.1 = Ok (EndPermanent e) -> refused_for_good e = true \/ bad_password e = true).
Proof. exact (loop_tells_errors no_url no_dialer 6 0 1 0 offline _ _ _ demo_refusal_runs). Defined.

Lemma loop_waits_bounded_witness : pauses demo_refusal.1.2 = waits 0 (longs (clocks demo_refusal.1.2) (told demo_refusal.1.2)).
Proof. exact (loop_waits_bounded no_url no_dialer 6 0 1 offline _ _ _ demo_refusal_runs). Defined.

Lemma refused_client_gives_up_witness :
  demo_refusal.1.1.1 = Ok EndCancelled \/ demo_refusal.1.1.1 = Ok (EndPermanent (WrapBoth (SentinelError ErrInReadLoop) (ReadLoop.refusal 5))).
Proof.
  assert (exists ev, ev ∈ demo_refusal.1.2 /\ loop_error ev = Some (ReadLoop.refusal 5)) as (ev & Hin & He).
  { pose (l := filter (fun ev => match loop_error ev with Some (Wrap _ _) => true | _ => false end = true) demo_refusal.1.2).
    destruct l as [|ev []] eqn:E; [by vm_compute in E| |by vm_compute in E]. exists ev. split.
    - assert (ev ∈ l) as H by (rewrite E; constructor). by apply list_elem_of_filter in H as [_ H].
    - vm_compute in E. injection E as <-. reflexivity. }
  refine (refused_client_gives_up no_url no_dialer ReadLoop.demo_finish ReadLoop.demo_zero ReadLoop.demo_unmarshal
    ReadLoop.demo_refused_end (ReadLoop.refusal 5) 5 6 0 1 0 offline _ _ _ ev _ _ _ _
    (play_sruns reads_env (connection_loop no_url no_dialer 6 0 1 0) offline [OtherError "closed"; ReadLoop.refusal 5]) Hin He).
  - exact ReadLoop.demo_refused_reachable.
  - vm_compute. reflexivity.
  - vm_compute. reflexivity.
  - repeat constructor.
Defined.

(** A CONNECT that could not be sent, and five rounds after it. *)
Definition demo_broken := play reads_env (Socket_Connect offline) [].
Definition demo_stuck := play reads_env (connection_loop no_url no_dialer 5 0 1 0 demo_broken.1.1.2) [].

Example demo_stuck_told : length (told demo_stuck.1.2) = 5%nat /\ pauses demo_stuck.1.2 = [2 * Second; 4 * Second; 8 * Second; 16 * Second; 32 * Second].
Proof. vm_compute. split_and!; reflexivity. Qed.

Lemma keeps_conn_check tr : forallb (fun e => eqb (conn (left_by e)) (conn (asked e).2)) tr = true -> Forall keeps_conn tr.
Proof. rewrite forallb_forall, Forall_forall. intros H e He. by apply eqb_prop, H, list_elem_of_In. Qed.

Lemma failed_connect_sticks_witness : Forall (fun q => ~ dials q) (asks demo_stuck.1.2) /\
  Forall (fun e => exists n, e = Event_SocketError (Some (SentinelError ErrSocketAlreadyOpen)) n) (told demo_stuck.1.2).
Proof.
  refine (failed_connect_sticks no_url no_dialer offline demo_broken.1.2 demo_broken.1.1.1 demo_broken.1.1.2 (OtherError "write: broken pipe")
    5 0 1 0 demo_broken.1.1.2 demo_stuck.1.2 demo_stuck.1.1.1 demo_stuck.1.1.2
    (play_sruns reads_env Socket_Connect offline []) _ _ eq_refl (play_sruns reads_env (connection_loop no_url no_dialer 5 0 1 0) demo_broken.1.1.2 []) _).
  - apply keeps_conn_check. vm_compute. reflexivity.
  - vm_compute. reflexivity.
  - apply keeps_conn_check. vm_compute. reflexivity.
Defined.
