(* ===== verification/Parts.v ===== *)
(** * Parts: what an incoming message is converted to

    The parts of a converted message, as [msgconv/from-meta.go] and [msgconv/from-whatsapp.go]
    fill them, the requests both conversions make, and what they share.  A part is changed in
    place by the code that holds it, and never shared. *)

From S2P Require Import Prelude Strconv Text Interaction Media.
#[local] Open Scope Z_scope.

(** ** Errors *)

(** The errors of a conversion; [userVisibleError]: one whose text is shown. *)
Inductive ConvError :=
| ErrURLNotFound
| ConvMedia (e : MediaError)
| userVisibleError (Message : string)
| ConvText (s : string)
| ConvWrap (s : string) (e : ConvError).

Fixpoint is_url_not_found (e : ConvError) : bool :=
  match e with ErrURLNotFound => true | ConvWrap _ e => is_url_not_found e | _ => false end.
Fixpoint conv_too_large (e : ConvError) : bool :=
  match e with ConvMedia e => is_too_large e | ConvWrap _ e => conv_too_large e | _ => false end.

Definition ErrMediaDownloadFailed : string := "failed to download media".
Definition ErrMediaConvertFailed : string := "failed to convert media".
Definition ErrMediaReuploadFailed : string := "failed to reupload media".

(** ** Parts *)

(** What refreshes a media file whose address has expired ([MediaRefreshMeta]). *)
Record MediaRefreshMeta := mkRefresh {
  ExpiresAt : Z; AttachmentFbid : string; PartIndex : Z; XMATargetID : Z; XMAShortcode : string;
  StoryMediaID : string; StoryReelID : string
}.

(** What is kept of a file that is not copied: the address of one of Meta's files with its
    refresh, or the keys of an encrypted one. *)
Inductive DirectMediaMeta :=
| DirectMedia (MimeType URL : string) (refresh : option MediaRefreshMeta)
| DirectMediaWhatsApp (Key MediaType SHA256 EncSHA256 DirectPath : string).

Record InfoBase := mkInfo { MimeType : string; Size : Z; Duration : Z; Width : Z; Height : Z }.

(** The info of a file, and its thumbnail: info, address, keys. *)
Record FileInfo := mkFileInfo { base : InfoBase; Thumbnail : option (option InfoBase * string * option string) }.

Definition no_info : FileInfo := mkFileInfo (mkInfo "" 0 0 0 0) None.

Record BeeperLinkPreview := mkPreview {
  CanonicalURL : string; Title : string; Description : string;
  ImageEncryption : option string; ImageURL : string; ImageWidth : Z; ImageHeight : Z; ImageSize : Z
}.

(** The users mentioned, and whether the whole room is. *)
Record MentionsOf := mkMentions { UserIDs : list string; Room : bool }.

(** [event.MessageEventContent]; the keys of an encrypted file are a value of the framework.
    [Voice]: the duration in the marks of a voice message. *)
Record Content := mkContent {
  MsgType : string; Body : string; Format : string; FormattedBody : string; FileName : string;
  GeoURI : string; URL : string; File : option string; Info : option FileInfo; Voice : option Z;
  Mentioned : option MentionsOf; LinkPreviews : list BeeperLinkPreview
}.

Definition empty_content : Content := mkContent "" "" "" "" "" "" "" None None None None [].
Definition notice (body : string) : Content := mkContent "m.notice" body "" "" "" "" "" None None None None [].
Definition text_content (body : string) : Content := mkContent "m.text" body "" "" "" "" "" None None None None [].

(** The record with one field changed. *)
Definition eta_Content (c : Content) : Content :=
  mkContent (MsgType c) (Body c) (Format c) (FormattedBody c) (FileName c) (GeoURI c) (URL c) (File c) (Info c) (Voice c)
    (Mentioned c) (LinkPreviews c).

Ltac set_content t f x :=
  let t := eval cbv beta delta [eta_Content] in t in
  lazymatch eval pattern f in t with ?g _ => let r := eval cbv beta in (g x) in exact r end.

Definition set_MsgType (x : string) (c : Content) : Content := ltac:(set_content (eta_Content c) (MsgType c) x).
Definition set_Body (x : string) (c : Content) : Content := ltac:(set_content (eta_Content c) (Body c) x).
Definition set_Format (x : string) (c : Content) : Content := ltac:(set_content (eta_Content c) (Format c) x).
Definition set_FormattedBody (x : string) (c : Content) : Content := ltac:(set_content (eta_Content c) (FormattedBody c) x).
Definition set_FileName (x : string) (c : Content) : Content := ltac:(set_content (eta_Content c) (FileName c) x).
Definition set_GeoURI (x : string) (c : Content) : Content := ltac:(set_content (eta_Content c) (GeoURI c) x).
Definition set_URL (x : string) (c : Content) : Content := ltac:(set_content (eta_Content c) (URL c) x).
Definition set_File (x : option string) (c : Content) : Content := ltac:(set_content (eta_Content c) (File c) x).
Definition set_Info (x : option FileInfo) (c : Content) : Content := ltac:(set_content (eta_Content c) (Info c) x).
Definition set_Voice (x : option Z) (c : Content) : Content := ltac:(set_content (eta_Content c) (Voice c) x).
Definition set_Mentioned (x : option MentionsOf) (c : Content) : Content := ltac:(set_content (eta_Content c) (Mentioned c) x).
Definition set_LinkPreviews (x : list BeeperLinkPreview) (c : Content) : Content := ltac:(set_content (eta_Content c) (LinkPreviews c) x).

(** A value of the extra fields of an event: a text, a truth value, the marks of a GIF, or the
    change of a disappearing timer. *)
Inductive Extra := XStr (s : string) | XBool (b : bool) | XGif | XTimer (milliseconds : Z) (type : string).

Variant PartType := EventMessage | EventSticker.

(** [bridgev2.ConvertedMessagePart].  [PartExtra]: a map, or nil. *)
Record Part := mkPart {
  PartID : string; PartKind : PartType; PartContent : Content; PartExtra : option (gmap string Extra);
  DirectMeta : option DirectMediaMeta; DontBridge : bool
}.

Definition message_part (c : Content) : Part := mkPart "" EventMessage c None None false.
Definition extra_part (c : Content) (x : gmap string Extra) : Part := mkPart "" EventMessage c (Some x) None false.

Definition set_PartID (i : string) (p : Part) : Part :=
  mkPart i (PartKind p) (PartContent p) (PartExtra p) (DirectMeta p) (DontBridge p).
Definition set_PartKind (k : PartType) (p : Part) : Part :=
  mkPart (PartID p) k (PartContent p) (PartExtra p) (DirectMeta p) (DontBridge p).
Definition map_content (f : Content -> Content) (p : Part) : Part :=
  mkPart (PartID p) (PartKind p) (f (PartContent p)) (PartExtra p) (DirectMeta p) (DontBridge p).

(** The value of an extra field; a nil map has none. *)
Definition extra_of (k : string) (p : Part) : option Extra := x ← PartExtra p; x !! k.

(** A file's info with its base changed, where there is one. *)
Definition map_info (f : InfoBase -> InfoBase) (c : Content) : Content :=
  set_Info ((fun i => mkFileInfo (f (base i)) (Thumbnail i)) <$> Info c) c.

(** [bridgev2.ConvertedMessage] *)
Record ConvertedMessage := mkConverted {
  ConvParts : list Part; ReplyTo : option string; ThreadRoot : option string
}.

(** Every part gets a list of mentions. *)
Definition with_mentions (p : Part) : Part :=
  map_content (fun c => match Mentioned c with Some _ => c | None => set_Mentioned (Some (mkMentions [] false)) c end) p.

(** ** Media of Instagram *)

Record Version := mkVersion { ver_Width : Z; ver_Height : Z; ver_URL : string }.

(** An item of a response: its versions, the duration in milliseconds, its user; the items of a
    carousel may be null. *)
Inductive Item := mkItem (ID : string) (Pk : string) (VideoVersions Candidates : list Version) (Milliseconds : Z)
  (Username : string) (CarouselMedia : option (list (option Item))).

Definition item_ID (i : Item) : string := let 'mkItem x _ _ _ _ _ _ := i in x.
Definition item_Pk (i : Item) : string := let 'mkItem _ x _ _ _ _ _ := i in x.
Definition VideoVersions (i : Item) : list Version := let 'mkItem _ _ x _ _ _ _ := i in x.
Definition Candidates (i : Item) : list Version := let 'mkItem _ _ _ x _ _ _ := i in x.
Definition Milliseconds (i : Item) : Z := let 'mkItem _ _ _ _ x _ _ := i in x.
Definition Username (i : Item) : string := let 'mkItem _ _ _ _ _ x _ := i in x.
Definition CarouselMedia (i : Item) : option (list (option Item)) := let 'mkItem _ _ _ _ _ _ x := i in x.

Record Reel := mkReel { reel_User : option string; reel_Items : list (option Item) }.

(** ** Requests *)

(** An encrypted file: its keys, hashes and path, for the library that downloads it. *)
Record Integral := mkIntegral { MediaKey : string; FileSHA256 : string; FileEncSHA256 : string; DirectPath : option string }.

Variant ConvReq :=
| QMedia (q : MediaReq)
| QGenerateContentURI (mediaID : list byte)
(** the stream of an upload: opened by the framework, filled by the callback, and closed with
    what the callback returned (a replacement, a file name, a type) or its error *)
| QOpenUpload (room : string) (size : Z) (requireFile : bool)
| QCopy (r : ReadCloser) | QSeek | QDetectMime | QRename (extension : string) | QConvertPath | QDecodeConfig
| QFinishUpload (result : (string * string * string) + ConvError)
(** Instagram *)
| QFetchMedia (mediaID shortcode : string)
| QFetchReel (reelID mediaID : string)
(** encrypted files *)
| QDownloadFB (t : option Integral) (type : string)
| QConvertBytes (data mime : string)
| QUploadMedia (room data fileName mime : string)
(** the disappearing timer of a portal (in nanoseconds, and its type) *)
| QUpdateDisappearing (timer : Z) (type : string) (implicit sendNotice : bool).

Definition conv_answer (q : ConvReq) : Type :=
  match q with
  | QMedia q => media_answer q
  | QGenerateContentURI _ => string + string
  | QOpenUpload _ _ _ => option ConvError
  | QCopy _ | QSeek | QRename _ => option string
  | QDetectMime => string + string
  | QConvertPath => string + string
  | QDecodeConfig => option (Z * Z)
  | QFinishUpload _ => (string * option string) + ConvError
  | QFetchMedia _ _ => option (list (option Item)) + string       (* None: a null response *)
  | QFetchReel _ _ => option (gmap string Reel) + string
  | QDownloadFB _ _ => string + string
  | QConvertBytes _ _ => string + string
  | QUploadMedia _ _ _ _ => (string * option string) + string
  | QUpdateDisappearing _ _ _ _ => Z * string                     (* the setting of the portal afterwards *)
  end.

Abbreviation CM := (M conv_answer).
Abbreviation cask q := (Interaction.ask (answer := conv_answer) q).
Abbreviation ctrace := (list (event conv_answer)).

(** The downloads of [Media] make their requests here. *)
Fixpoint embed_media {A} (p : prog media_answer A) : CM A :=
  match p with
  | Ret a => Ret (Ok a)
  | Ask q k => Ask (answer := conv_answer) (QMedia q) (fun x => embed_media (k x))
  end.

(** A write to a map, which panics when it is nil. *)
Definition put_extra (k : string) (v : Extra) (p : Part) : CM Part :=
  match PartExtra p with
  | Some x => mret (mkPart (PartID p) (PartKind p) (PartContent p) (Some (<[k := v]> x)) (DirectMeta p) (DontBridge p))
  | None => panic
  end.

(** * What a handler does when its answers are sound *)

Section Ensures.
Context {Q : Type} {answer : Q -> Type} (N : event answer -> Prop).

(** The handler returns, with a value in [P], whenever every answer it gets is in [N]. *)
Definition ensures {A} (m : M answer A) (P : A -> Prop) : Prop :=
  forall tr r, runs m tr r -> Forall N tr -> exists a, r = Ok a /\ P a.

Lemma ens_ret {A} (a : A) (P : A -> Prop) : P a -> ensures (mret a) P.
Proof. intros H tr r [-> ->] _. by exists a. Qed.

Lemma ens_res {A} (r : res A) (P : A -> Prop) : (exists a, r = Ok a /\ P a) -> ensures (of_res r) P.
Proof. intros (a & -> & H) tr r' [-> ->] _. by exists a. Qed.

Lemma ens_ask q (P : answer q -> Prop) : (forall x, N (Event q x) -> P x) -> ensures (Interaction.ask q) P.
Proof. intros H tr r (x & -> & ->)%run_ask HN. exists x. split; [done|]. apply H. by apply Forall_cons in HN as [HN _]. Qed.

Lemma ens_bind {A B} (m : M answer A) (f : A -> M answer B) (P : A -> Prop) (R : B -> Prop) :
  ensures m P -> (forall a, P a -> ensures (f a) R) -> ensures (m ≫= f) R.
Proof.
  intros Hm Hf tr r (r1 & t1 & t2 & -> & H1 & H2)%run_bind HN. apply Forall_app in HN as [N1 N2].
  destruct (Hm _ _ H1 N1) as (a & -> & Ha). by eapply Hf.
Qed.

Lemma ens_mono {A} (m : M answer A) (P P' : A -> Prop) : ensures m P -> (forall a, P a -> P' a) -> ensures m P'.
Proof. intros H HP tr r Hr HN. destruct (H tr r Hr HN) as (a & -> & Ha). exists a. split; [done|by apply HP]. Qed.

Lemma ens_ask_N q : ensures (Interaction.ask q) (fun x => N (Event q x)).
Proof. by apply ens_ask. Qed.

(** Requests of which only the fact of an answer matters. *)
Lemma ens_ask_any q : ensures (Interaction.ask q) (fun _ => True).
Proof. by apply ens_ask. Qed.
End Ensures.

(** Go through the text of a handler; calls are left to the database [ens]. *)
Create HintDb ens.
Ltac ens_step :=
  lazymatch goal with
  | |- ensures _ ?m _ =>
      lazymatch m with
      | mret _ => apply ens_ret
      | Interaction.ask ?q ≫= ?f => refine (ens_bind _ (Interaction.ask q) f (fun _ => True) _ (ens_ask_any _ q) _); intros ? _
      | _ ≫= _ => eapply ens_bind; [by eauto with ens|intros ? ?]
      | match ?x with _ => _ end => destruct x eqn:?
      | let _ := _ in _ => cbv zeta
      end
  end.

(** A request whose answer is known to be sound. *)
Ltac ens_asked :=
  lazymatch goal with
  | |- ensures ?N (Interaction.ask ?q ≫= ?f) _ =>
      refine (ens_bind _ (Interaction.ask q) f (fun x => N (Event q x)) _ (ens_ask_N N q) _)
  end.

(** The write, where there is a map. *)
Definition upd (k : string) (v : Extra) (p : Part) : Part :=
  mkPart (PartID p) (PartKind p) (PartContent p) (insert k v <$> PartExtra p) (DirectMeta p) (DontBridge p).

Lemma ens_put_extra N k v p : is_Some (PartExtra p) -> ensures N (put_extra k v p) (fun p' => p' = upd k v p).
Proof. intros [x Hx]. unfold put_extra, upd. rewrite Hx. by apply ens_ret. Qed.

Lemma extra_of_upd k k' v p : is_Some (PartExtra p) -> extra_of k (upd k' v p) = if decide (k = k') then Some v else extra_of k p.
Proof.
  intros [x Hx]. unfold extra_of, upd. cbn [PartExtra]. rewrite Hx. cbn.
  case_decide as E; [subst k'; by rewrite lookup_insert_eq|by rewrite lookup_insert_ne].
Qed.

Lemma embed_media_runs {A} (p : prog media_answer A) tr r : runs (embed_media p) tr r -> exists a tr', r = Ok a /\ runs p tr' a.
Proof.
  revert tr. induction p as [a|q k IH]; intros tr; cbn.
  - intros [-> ->]. by exists a, [].
  - intros (x & t & -> & H). destruct (IH x t H) as (a & t' & -> & H'). exists a, (Event q x :: t'). split; [done|]. by exists x, t'.
Qed.

Lemma ens_embed_media N {A} (p : prog media_answer A) : ensures N (embed_media p) (fun _ => True).
Proof. intros tr r H _. destruct (embed_media_runs _ _ _ H) as (a & _ & -> & _). by exists a. Qed.
#[export] Hint Resolve ens_embed_media : ens.

(** ** Requests of a kind *)

(** A step of a handler may use what the steps before it answered. *)
Lemma asks_bind_runs {A B} P (m : CM A) (f : A -> CM B) :
  asks_only P m -> (forall a tr, runs m tr (Ok a) -> asks_only P (f a)) -> asks_only P (m ≫= f).
Proof.
  intros Hm Hf tr r (r1 & t1 & t2 & -> & H1 & H2)%run_bind. apply Forall_app. split; [by eapply Hm|].
  destruct r1 as [a|e|h]; [by eapply Hf|by destruct H2 as [-> _]|by destruct H2 as [-> _]].
Qed.

Lemma asks_embed_media {A} (P : ConvReq -> Prop) (p : prog media_answer A) : (forall q, P (QMedia q)) -> asks_only P (embed_media p).
Proof. intros H. induction p as [a|q k IH]; [apply asks_Ret|]. by apply asks_Ask. Qed.

(** What a world answers soundly, it answers soundly in every run. *)
Lemma play_sound {S A} (N : event conv_answer -> Prop) (env : forall q, S -> conv_answer q * S) (p : prog conv_answer A) s :
  (forall q s, N (Event q (env q s).1)) -> Forall N (play env p s).1.2.
Proof.
  intros H. revert s. induction p as [a|q k IH]; intros s; cbn; [constructor|]. pose proof (H q s) as Hq.
  destruct (env q s) as [x s']. specialize (IH x s'). destruct (play env (k x) s') as [[a tr] s'']. by constructor.
Qed.
