(* ===== verification/FromMeta.v ===== *)
(** * FromMeta: messages that come in ([msgconv/from-meta.go])

    The conversion of a message with its attachments, stickers, shared posts and link previews
    to the parts of a Matrix message.  It reads the rows of [TableMessages], and makes the
    requests of [Parts]. *)

From Stdlib Require Import Ascii Sorted.
From S2P Require Import Prelude Strconv Text Unicode Lightspeed TableKinds TableThreads TableMessages Tables.
From S2P Require Import WrapMessages MetaID Cookies.
From S2P Require Mentions.
From S2P Require Import Media Interaction Parts.
#[local] Open Scope Z_scope.

(** ** Constants of [table/enums.go] *)

Definition AttachmentTypeNone : Z := 0.
Definition AttachmentTypeSticker : Z := 1.
Definition AttachmentTypeImage : Z := 2.
Definition AttachmentTypeAnimatedImage : Z := 3.
Definition AttachmentTypeVideo : Z := 4.
Definition AttachmentTypeAudio : Z := 5.
Definition AttachmentTypeFile : Z := 6.
Definition AttachmentTypeEphemeralImage : Z := 8.
Definition AttachmentTypeEphemeralVideo : Z := 9.
Definition EphemeralMediaViewOnce : Z := 0.
Definition EphemeralMediaReplayable : Z := 1.
Definition ReplySourceTypeIGStoryShare : Z := 5.

(** ** Regular expressions *)

Definition is_digit_rune (r : Z) : bool := (48 <=? r) && (r <=? 57).
Definition rune_in (a b : Z) (r : Z) : bool := (a <=? r) && (r <=? b).

(** [[a-z0-9.-_]]: the dot and the underscore are the ends of a range. *)
Definition username_rune (r : Z) : bool := rune_in 97 122 r || rune_in 48 57 r || rune_in 46 95 r.
(** [[a-z0-9._]] *)
Definition profile_rune (r : Z) : bool := rune_in 97 122 r || rune_in 48 57 r || (r =? 46) || (r =? 95).

Definition all_runes (p : Z -> bool) (lo hi : Z) (l : list Z) : bool := (lo <=? llen l) && (llen l <=? hi) && forallb p l.

(** The longest prefix in [p], and the rest. *)
Fixpoint span_runes (p : Z -> bool) (l : list Z) : list Z * list Z :=
  match l with
  | r :: l' => if p r then let '(a, b) := span_runes p l' in (r :: a, b) else ([], l)
  | [] => ([], [])
  end.

(** [^/stories/direct/(\d+)_(\d+)$] *)
Definition reelActionURLRegex (s : string) : option (string * string) :=
  if HasPrefix s "/stories/direct/" then
    let '(a, rest) := span_runes is_digit_rune (runes (str_from 16 s)) in
    match a, rest with
    | _ :: _, 95 :: b => if all_runes is_digit_rune 1 (llen b) b then Some (of_runes a, of_runes b) else None
    | _, _ => None
    end
  else None.

(** Cut at the last slash. *)
Fixpoint last_slash (l : list Z) : option (list Z * list Z) :=
  match l with
  | [] => None
  | r :: l =>
      match last_slash l with
      | Some (a, b) => Some (r :: a, b)
      | None => if r =? 47 then Some ([], l) else None
      end
  end.

(** [^https://instagram\.com/stories/([a-z0-9.-_]{3,32})/(\d+)$] *)
Definition reelActionURLRegex2 (s : string) : option (string * string) :=
  if HasPrefix s "https://instagram.com/stories/" then
    match last_slash (runes (str_from 30 s)) with
    | Some (a, b) =>
        if all_runes username_rune 3 32 a && all_runes is_digit_rune 1 (llen b) b then Some (of_runes a, of_runes b) else None
    | None => None
    end
  else None.

(** [^[a-z0-9.-_]{3,32}$] *)
Definition usernameRegex (s : string) : bool := all_runes username_rune 3 32 (runes s).

(** A text, in which a dot stands for any character but a new line. *)
Fixpoint match_dots (pattern : list Z) (l : list Z) : option (list Z) :=
  match pattern, l with
  | [], _ => Some l
  | p :: pattern, r :: l => if (if p =? 46 then negb (r =? 10) else p =? r) then match_dots pattern l else None
  | _ :: _, [] => None
  end.

(** [^https://www.instagram.com/([a-z0-9._]{1,30})$] *)
Definition instagramProfileURLRegex (s : string) : option string :=
  match match_dots (runes "https://www.instagram.com/") (runes s) with
  | Some l => if all_runes profile_rune 1 30 l then Some (of_runes l) else None
  | None => None
  end.

(** ** Columns *)

Definition blob_str := row_str LSInsertBlobAttachment.
Definition blob_int := row_int LSInsertBlobAttachment.
Definition att_str := row_str LSInsertAttachment.
Definition att_int := row_int LSInsertAttachment.
Definition sticker_str := row_str LSInsertStickerAttachment.
Definition xma_str (n : string) (x : WrappedXMA) : string := row_str LSInsertXmaAttachment n (LSInsertXma x).
Definition xma_int (n : string) (x : WrappedXMA) : Z := row_int LSInsertXmaAttachment n (LSInsertXma x).
Definition xma_bool (n : string) (x : WrappedXMA) : bool := row_bool LSInsertXmaAttachment n (LSInsertXma x).
Definition cta_str := row_str LSInsertAttachmentCta.
Definition cta_int := row_int LSInsertAttachmentCta.
Definition msg_str (n : string) (w : WrappedMessage) : string := row_str LSInsertMessage n (LSInsert w).
Definition msg_int (n : string) (w : WrappedMessage) : Z := row_int LSInsertMessage n (LSInsert w).
Definition msg_bool (n : string) (w : WrappedMessage) : bool := row_bool LSInsertMessage n (LSInsert w).

(** ** Plain functions *)

Definition isProbablyURLPreview (xma : WrappedXMA) : bool :=
  match CTA xma with
  | None => false
  | Some c =>
      (cta_str "Type_" c =? "xma_web_url")%string && (cta_int "TargetId" c =? 0) && (cta_str "NativeUrl" c =? "")%string
      && StrContains (cta_str "ActionUrl" c) "/l.php?"
  end.

Definition facebookThumbsUpSmallStickerID : Z := 369239263222822.
Definition facebookThumbsUpMediumStickerID : Z := 369239343222814.
Definition facebookThumbsUpLargeStickerID : Z := 369239383222810.

Definition errorToNotice (err : ConvError) (attachmentContainerType : string) : Part :=
  let errMsg :=
    if is_url_not_found err then ("Unrecognized " ++ attachmentContainerType ++ " attachment type")%string
    else if conv_too_large err then "Too large attachment"%string
    else "Failed to transfer attachment"%string in
  extra_part (notice errMsg) {["fi.mau.unsupported"%string := XBool true]}.

Definition stickerSize : Z := 96.

(** The largest of some versions, after [best]. *)
Definition better_version (best : (string * Z * Z) * bool) (ver : Version) : (string * Z * Z) * bool :=
  let '((_, width, height), _) := best in
  if int64 (ver_Width ver * ver_Height ver) >? int64 (width * height)
  then ((ver_URL ver, ver_Width ver, ver_Height ver), true) else best.

Definition best_version (videos images : list Version) : string * Z * Z :=
  let '(best, found) := foldl better_version (("", 0, 0)%string, false) videos in
  if found : bool then best else (foldl better_version (best, false) images).1.

(** The thumb of the three stickers. *)
Definition thumbs_up : string := of_runes [128077].

Definition is_thumbs_up (id : Z) : bool :=
  (id =? facebookThumbsUpLargeStickerID) || (id =? facebookThumbsUpMediumStickerID) || (id =? facebookThumbsUpSmallStickerID).

Section FromMeta.
(** The converter and the login: the limit of file sizes, the two modes, the platform, whether
    the client has its part for Instagram. *)
Context (BypassOnionForMedia : bool) (MaxFileSize : Z) (DisableViewOnce DirectMedia : bool) (platform : Platform) (has_instagram : bool).
(** The portal (its id, receiver and room), the message, and whether shared posts are fetched. *)
Context (portal_ID portal_Receiver portal_MXID messageID : string) (ShouldFetchXMA : bool).
(** Functions of libraries: whether there is a converter of media; the file extension of a type;
    the path and the query of an address; a text as HTML beside the plain one; the merging of a
    caption with the file before it. *)
Context (ffmpeg_Supported : bool) (ExtensionFromMimetype : string -> string).
Context (url_Parse : string -> option (string * (string -> string))).
Context (EnsureHasHTML : Content -> Content) (MergeCaption : list Part -> option (list Part)).
(** Those of texts with mentions. *)
Context (Sort : Mentions.Mentions -> Mentions.Mentions) (GetGhostByID : string -> res (string * string))
  (GetCachedUserLoginByID : string -> option string) (MatrixToURL TextToHTML : string -> string).

Definition removeLPHP (addr : string) : string :=
  match url_Parse addr with
  | Some (path, query) => if (path =? "/l.php")%string then query "u" else addr
  | None => addr
  end.

Definition a_href (url text : string) : string := Mentions.a_open url ++ text ++ "</a>".

Definition addExternalURLCaption (externalURL : string) (content : Content) : Content :=
  if (FileName content =? "")%string then
    set_FormattedBody (a_href externalURL externalURL)
      (set_Format "org.matrix.custom.html" (set_Body externalURL (set_FileName (Body content) content)))
  else
    let content := EnsureHasHTML content in
    let content := set_Body (Body content ++ String "010" (String "010" externalURL)) content in
    set_FormattedBody (FormattedBody content ++ "<br><br>" ++ a_href externalURL externalURL) content.

Definition appName : string := if IsInstagram platform then "Instagram app" else "Messenger app".

Definition makeViewOnceError (mediaType viewed : string) : Part :=
  message_part (notice ("This " ++ mediaType ++ " can only be " ++ viewed ++ " once. Use the " ++ appName ++ " to view.")).

(** ** Files *)

(** The kind of message a file becomes. *)
Definition file_type (attachmentType : Z) (mimeType : string) : string :=
  if (attachmentType =? AttachmentTypeImage) || (attachmentType =? AttachmentTypeEphemeralImage) then "m.image"
  else if (attachmentType =? AttachmentTypeVideo) || (attachmentType =? AttachmentTypeEphemeralVideo) then "m.video"
  else if attachmentType =? AttachmentTypeFile then "m.file"
  else if attachmentType =? AttachmentTypeAudio then "m.audio"
  else
    let t := main_type mimeType in
    if (t =? "image")%string then "m.image"
    else if (t =? "video")%string then "m.video"
    else if (t =? "audio")%string then "m.audio"
    else "m.file".

(** The closure [fillMetadata]: the kind of the event, and its content. *)
Definition fillMetadata (attachmentType : Z) (fileName mimeType : string) (duration width height : Z) (content : Content)
    : PartType * Content :=
  let sticker := attachmentType =? AttachmentTypeSticker in
  let content := if sticker then content else set_MsgType (file_type attachmentType mimeType) content in
  let content := if attachmentType =? AttachmentTypeAudio then set_Voice (Some duration) content else content in
  let content := set_Body fileName content in
  let content := map_info (fun i => mkInfo mimeType (Size i) duration width height) content in
  let content :=
    if (Body content =? "")%string then set_Body (TrimPrefix (MsgType content) "m." ++ ExtensionFromMimetype mimeType) content
    else if negb (MsgType content =? "")%string && negb (has_char "." (Body content))
    then set_Body (Body content ++ ExtensionFromMimetype mimeType) content
    else content in
  (if sticker then EventSticker else EventMessage, content).

Definition file_part (partID : string) (k : PartType * Content) (extra : gmap string Extra) (meta : option DirectMediaMeta) : Part :=
  mkPart partID k.1 k.2 (Some extra) meta false.

(** What the callback of an upload returns, and what it leaves in the variables it shares with
    [fillMetadata]: the file name, the type, width and height. *)
Definition callback_result : Type := ((string * string * string) + ConvError) * (string * string * Z * Z).

(** The errors of the seeks and reads in the callback are returned as they are. *)
Definition failed_callback (e : string) (vars : string * string * Z * Z) : callback_result := (inr (ConvText e), vars).

(** The type is detected when it is not known. *)
Definition detect_mime (needMime : bool) (mimeType : string) : CM (string + string) :=
  if needMime then
    e ← cask QSeek;
    match e with Some e => mret (inr e) | None => cask QDetectMime end
  else mret (inl mimeType).

Definition convert_voice (fileName mimeType : string) (width height : Z) : CM callback_result :=
  let vars := (fileName, mimeType, width, height) in
  e ← cask QSeek;
  match e with
  | Some e => mret (failed_callback e vars)
  | None =>
      e ← cask (QRename (ExtensionFromMimetype mimeType));
      match e with
      | Some e => mret (failed_callback e vars)
      | None =>
          r ← cask QConvertPath;
          match r with
          | inr e => mret (inr (ConvWrap (ErrMediaConvertFailed ++ " (audio to ogg/opus): ") (ConvText e)), vars)
          | inl replPath =>
              let fileName := (fileName ++ ".ogg")%string in
              mret (inl (replPath, fileName, "audio/ogg"%string), (fileName, "audio/ogg"%string, width, height))
          end
      end
  end.

Definition image_size (fileName mimeType : string) (width height : Z) : CM callback_result :=
  e ← cask QSeek;
  match e with
  | Some e => mret (failed_callback e (fileName, mimeType, width, height))
  | None =>
      r ← cask QDecodeConfig;
      let '(width, height) := match r with Some wh => wh | None => (width, height) end in
      mret (inl (""%string, fileName, mimeType), (fileName, mimeType, width, height))
  end.

(** The callback of the upload. *)
Definition fill_upload (reader : ReadCloser) (needVoiceConvert needMime needImageSize : bool) (fileName mimeType : string)
    (width height : Z) : CM callback_result :=
  e ← cask (QCopy reader);
  match e with
  | Some e => mret (failed_callback e (fileName, mimeType, width, height))
  | None =>
      m ← detect_mime needMime mimeType;
      match m with
      | inr e => mret (failed_callback e (fileName, mimeType, width, height))
      | inl mimeType =>
          if needVoiceConvert then convert_voice fileName mimeType width height
          else if needImageSize then image_size fileName mimeType width height
          else mret (inl (""%string, fileName, mimeType), (fileName, mimeType, width, height))
      end
  end.

Definition gif_extra (attachmentType : Z) (mimeType : string) : gmap string Extra :=
  if (attachmentType =? AttachmentTypeAnimatedImage) && (mimeType =? "video/mp4")%string then {["info"%string := XGif]} else ∅.

(** A file stays where it is, and the message keeps how to find it. *)
Definition direct_attachment (partID : string) (attachmentType : Z) (url fileName mimeType : string)
    (fileSize width height duration : Z) (refreshMeta : option MediaRefreshMeta) : CM (Part + ConvError) :=
  u ← cask (QGenerateContentURI (MakeMediaID DirectMediaTypeMetaV2 portal_Receiver messageID partID));
  match u with
  | inr e => mret (inr (ConvText e))
  | inl uri =>
      let content := map_info (fun i => mkInfo (MimeType i) fileSize (Duration i) (Width i) (Height i))
                       (set_URL uri (set_Info (Some no_info) empty_content)) in
      mret (inl (file_part partID (fillMetadata attachmentType fileName mimeType duration width height content)
                   (gif_extra attachmentType mimeType) (Some (Parts.DirectMedia mimeType url refreshMeta))))
  end.

(** A file is downloaded and uploaded. *)
Definition copied_attachment (attachmentType : Z) (url fileName mimeType : string) (width height duration : Z)
    : CM (Part + ConvError) :=
  d ← embed_media (DownloadMedia BypassOnionForMedia mimeType url MaxFileSize);
  match d.2 with
  | inr e => mret (inr (if is_too_large e then ConvMedia e else ConvWrap (ErrMediaDownloadFailed ++ ": ") (ConvMedia e)))
  | inl reader =>
      let needVoiceConvert := (attachmentType =? AttachmentTypeAudio) && ffmpeg_Supported in
      let needMime := (mimeType =? "")%string in
      let needImageSize := ((attachmentType =? AttachmentTypeImage) || (attachmentType =? AttachmentTypeEphemeralImage))
                           && ((width =? 0) || (height =? 0)) in
      o ← cask (QOpenUpload portal_MXID d.1 (needVoiceConvert || needMime || needImageSize));
      match o with
      | Some e => mret (inr e)
      | None =>
          r ← fill_upload reader needVoiceConvert needMime needImageSize fileName mimeType width height;
          let '(result, (fileName', mimeType', width, height)) := r in
          u ← cask (QFinishUpload result);
          match u with
          | inr e => mret (inr e)
          | inl (uri, file) =>
              let content := map_info (fun i => mkInfo (MimeType i) d.1 (Duration i) (Width i) (Height i))
                               (set_File file (set_URL uri (set_Info (Some no_info) empty_content))) in
              mret (inl (file_part "" (fillMetadata attachmentType fileName' mimeType' duration width height content)
                           (gif_extra attachmentType mimeType) None))
          end
      end
  end.

Definition reuploadAttachment (partID : string) (attachmentType : Z) (url fileName mimeType : string)
    (fileSize width height duration : Z) (refreshMeta : option MediaRefreshMeta) : CM (Part + ConvError) :=
  if (url =? "")%string then mret (inr ErrURLNotFound)
  else if DirectMedia then direct_attachment partID attachmentType url fileName mimeType fileSize width height duration refreshMeta
  else copied_attachment attachmentType url fileName mimeType width height duration.

(** A file, or the notice that it could not be transferred. *)
Definition or_notice (container : string) (r : Part + ConvError) : Part :=
  match r with inl p => p | inr e => errorToNotice e container end.

(** ** Attachments *)

(** The address, type and size of a file: of the file itself, or of its preview. *)
Definition blobAttachmentToMatrix (partID : string) (att : Inst) (partIndex : Z) : CM Part :=
  let url := blob_str "PlayableUrl" att in
  let mime := if (blob_str "PlayableUrlMimeType" att =? "")%string then blob_str "AttachmentMimeType" att
              else blob_str "PlayableUrlMimeType" att in
  let '(url, mime, width, height, expiresAt) :=
    if (url =? "")%string
    then (blob_str "PreviewUrl" att, blob_str "PreviewUrlMimeType" att, blob_int "PreviewWidth" att, blob_int "PreviewHeight" att,
          blob_int "PreviewUrlExpirationTimestampMs" att)
    else (url, mime, 0, 0, blob_int "PlayableUrlExpirationTimestampMs" att) in
  r ← reuploadAttachment partID (blob_int "AttachmentType" att) url (blob_str "Filename" att) mime (blob_int "Filesize" att)
        width height (blob_int "PlayableDurationMs" att)
        (Some (mkRefresh expiresAt (blob_str "AttachmentFbid" att) partIndex 0 "" "" ""));
  mret (or_notice "blob" r).

Definition legacyAttachmentToMatrix (partID : string) (att : Inst) (partIndex : Z) : CM Part :=
  let mode := att_int "EphemeralMediaViewMode" att in
  if DisableViewOnce && ((mode =? EphemeralMediaViewOnce) || (mode =? EphemeralMediaReplayable)) then
    mret (makeViewOnceError (if att_int "AttachmentType" att =? AttachmentTypeEphemeralVideo then "video" else "photo")
            (if mode =? EphemeralMediaReplayable then "replayed" else "viewed"))
  else
    let url := att_str "PlayableUrl" att in
    let mime := if (att_str "PlayableUrlMimeType" att =? "")%string then att_str "AttachmentMimeType" att
                else att_str "PlayableUrlMimeType" att in
    let '(url, mime, width, height, expiresAt) :=
      if (url =? "")%string
      then (att_str "PreviewUrl" att, att_str "PreviewUrlMimeType" att, att_int "PreviewWidth" att, att_int "PreviewHeight" att,
            att_int "PreviewUrlExpirationTimestampMs" att)
      else (url, mime, 0, 0, att_int "PlayableUrlExpirationTimestampMs" att) in
    r ← reuploadAttachment partID (att_int "AttachmentType" att) url (att_str "Filename" att) mime (att_int "Filesize" att)
          width height (att_int "PlayableDurationMs" att)
          (Some (mkRefresh expiresAt (att_str "AttachmentFbid" att) partIndex 0 "" "" ""));
    mret (or_notice "generic" r).

Definition stickerToMatrix (partID : string) (att : Inst) : CM Part :=
  let url := sticker_str "PlayableUrl" att in
  let '(url, mime) := if (url =? "")%string then (sticker_str "PreviewUrl" att, sticker_str "PreviewUrlMimeType" att)
                      else (url, sticker_str "PlayableUrlMimeType" att) in
  r ← reuploadAttachment partID AttachmentTypeSticker url (sticker_str "AccessibilitySummaryText" att) mime 0 stickerSize stickerSize 0 None;
  mret (or_notice "sticker" r).

(** ** Shared posts *)

Definition instagramFetchedMediaToMatrix (partID : string) (att : WrappedXMA) (resp : Item) (xmaRefresh : MediaRefreshMeta)
    : CM (Part + ConvError) :=
  let mime := if (xma_str "PlayableUrlMimeType" att =? "")%string then xma_str "PreviewUrlMimeType" att
              else xma_str "PlayableUrlMimeType" att in
  let '(url, width, height) := best_version (VideoVersions resp) (Candidates resp) in
  reuploadAttachment partID (xma_int "AttachmentType" att) url (xma_str "Filename" att) mime (xma_int "Filesize" att)
    width height (Milliseconds resp) (Some xmaRefresh).

Definition xmaLocationToMatrix (att : WrappedXMA) (cta : Inst) : Part :=
  let body := (xma_str "TitleText" att ++ String "010" (xma_str "SubtitleText" att))%string in
  if (cta_str "NativeUrl" cta =? "")%string then message_part (notice body)
  else message_part (set_GeoURI ("geo:" ++ cta_str "NativeUrl" cta) (set_Body body (set_MsgType "m.location" empty_content))).

Definition fetch_status (status : string) (p : Part) : CM Part := put_extra "fi.mau.meta.xma_fetch_status" (XStr status) p.
Definition set_external_url (url : string) (p : Part) : CM Part := put_extra "external_url" (XStr url) p.
Definition captioned (url : string) (p : Part) : Part := map_content (addExternalURLCaption url) p.

(** The preview of a post becomes the thumbnail of its file. *)
Definition with_thumbnail (minimal second : Part) : CM Part :=
  if DirectMedia then mret second
  else
    match Info (PartContent second) with
    | None => panic
    | Some i =>
        let c := PartContent minimal in
        mret (map_content (set_Info (Some (mkFileInfo (base i) (Some (base <$> Info c, URL c, File c))))) second)
    end.

(** The end of the three ways to fetch a post: its file, with the address and user of the post,
    or the preview when that fails. *)
Definition fetched_post (partID : string) (att : WrappedXMA) (minimalConverted : Part) (item : Item) (xmaRefresh : MediaRefreshMeta)
    (user externalURL : string) : CM Part :=
  r ← instagramFetchedMediaToMatrix partID att item xmaRefresh;
  match r with
  | inr _ => fetch_status "reupload fail" minimalConverted
  | inl second =>
      second ← with_thumbnail minimalConverted second;
      second ← put_extra "com.beeper.instagram_item_username" (XStr user) second;
      second ← (if negb (externalURL =? "")%string then
                  second ← set_external_url externalURL second;
                  mret (captioned externalURL second)
                else mret second);
      fetch_status "success" second
  end.

(** The item of a carousel that was shared; a null item panics. *)
Fixpoint find_subitem (id : string) (l : list (option Item)) : res (option Item) :=
  match l with
  | [] => Ok None
  | None :: _ => Panic
  | Some i :: l => if (item_ID i =? id)%string then Ok (Some i) else find_subitem id l
  end.

Definition target_item (item : Item) (carouselChildMediaID : string) : res Item :=
  match CarouselMedia item with
  | Some l => if negb (carouselChildMediaID =? "")%string then
                r ← find_subitem carouselChildMediaID l; Ok (default item r)
              else Ok item
  | None => Ok item
  end.

(** A post, by its short code. *)
Definition fetch_post (partID : string) (att : WrappedXMA) (cta : Inst) (minimalConverted : Part) : CM Part :=
  let carouselChildMediaID := match url_Parse (removeLPHP (cta_str "ActionUrl" cta)) with
                              | Some (_, query) => query "carousel_share_child_media_id"%string
                              | None => ""%string
                              end in
  let mediaShortcode := TrimPrefix (TrimPrefix (cta_str "NativeUrl" cta) "instagram://media/?shortcode=")
                          "instagram://reels_share/?shortcode=" in
  let externalURL := ("https://www.instagram.com/p/" ++ mediaShortcode ++ "/")%string in
  minimalConverted ← set_external_url externalURL minimalConverted;
  let minimalConverted := captioned externalURL minimalConverted in
  if negb ShouldFetchXMA then fetch_status "skip" minimalConverted
  else
    r ← cask (QFetchMedia (FormatInt 10 (cta_int "TargetId" cta)) mediaShortcode);
    match r with
    | inr _ => fetch_status "fetch fail" minimalConverted
    | inl None => panic
    | inl (Some []) => fetch_status "empty response" minimalConverted
    | inl (Some (None :: _)) => panic
    | inl (Some (Some item :: _)) =>
        targetItem ← of_res (target_item item carouselChildMediaID);
        fetched_post partID att minimalConverted targetItem
          (mkRefresh 0 "" 0 (cta_int "TargetId" cta) mediaShortcode "" "") (Username targetItem) externalURL
    end.

(** The last item with an id, of those of a reel; a null item panics. *)
Fixpoint last_item (pk : string) (l : list (option Item)) (found : option Item) : res (option Item) :=
  match l with
  | [] => Ok found
  | None :: _ => Panic
  | Some i :: l => last_item pk l (if (item_Pk i =? pk)%string then Some i else found)
  end.

Definition story_url (user media : string) : string := "https://www.instagram.com/stories/" ++ user ++ "/" ++ media ++ "/".

(** A story, by the ids of its reel and of the story. *)
Definition fetch_story (partID : string) (att : WrappedXMA) (cta : Inst) (minimalConverted : Part) : CM Part :=
  let ActionUrl := cta_str "ActionUrl" cta in
  let match_ := reelActionURLRegex ActionUrl in
  let externalURL := match match_ with
                     | Some (media, _) => if usernameRegex (xma_str "HeaderTitle" att) then story_url (xma_str "HeaderTitle" att) media
                                          else ("https://www.instagram.com" ++ ActionUrl)%string
                     | None => ("https://www.instagram.com" ++ ActionUrl)%string
                     end in
  minimalConverted ← set_external_url externalURL minimalConverted;
  let leave status := p ← fetch_status status minimalConverted; mret (captioned externalURL p) in
  if negb ShouldFetchXMA then leave "skip"%string
  else
    match match_ with
    | None => leave "parse fail"%string
    | Some (media, reelID) =>
        r ← cask (QFetchReel reelID media);
        match r with
        | inr _ => leave "fetch fail"%string
        | inl None => panic
        | inl (Some reels) =>
            match reels !! reelID with
            | None => leave "empty response"%string
            | Some reel =>
                match reel_User reel with
                | None => panic
                | Some user =>
                    minimalConverted ← put_extra "com.beeper.instagram_item_username" (XStr user) minimalConverted;
                    let externalURL := story_url user media in
                    minimalConverted ← set_external_url externalURL minimalConverted;
                    let minimalConverted := captioned externalURL minimalConverted in
                    relevantItem ← of_res (last_item media (reel_Items reel) None);
                    match relevantItem with
                    | None => fetch_status "item not found in response" minimalConverted
                    | Some item =>
                        fetched_post partID att minimalConverted item (mkRefresh 0 "" 0 0 "" media reelID) user externalURL
                    end
                end
            end
        end
    end.

(** A story with an address of the second kind. *)
Definition fetch_story2 (partID : string) (att : WrappedXMA) (cta : Inst) (minimalConverted : Part) : CM Part :=
  let externalURL := cta_str "ActionUrl" cta in
  minimalConverted ← set_external_url externalURL minimalConverted;
  let minimalConverted := captioned externalURL minimalConverted in
  if negb ShouldFetchXMA then fetch_status "skip" minimalConverted
  else
    match reelActionURLRegex2 externalURL with
    | None => fetch_status "parse fail" minimalConverted
    | Some (_, id) =>
        r ← cask (QFetchMedia id "");
        match r with
        | inr _ => fetch_status "fetch fail" minimalConverted
        | inl None => panic
        | inl (Some []) => fetch_status "empty response" minimalConverted
        | inl (Some (None :: _)) => panic
        | inl (Some (Some item :: _)) =>
            minimalConverted ← put_extra "com.beeper.instagram_item_username" (XStr (Username item)) minimalConverted;
            fetched_post partID att minimalConverted item (mkRefresh 0 "" 0 0 "" id "") (Username item) externalURL
        end
    end.

Definition fetchFullXMA (partID : string) (att : WrappedXMA) (minimalConverted : Part) : CM Part :=
  match CTA att with
  | None => fetch_status "unsupported" minimalConverted
  | Some cta =>
      if negb has_instagram then fetch_status "unsupported" minimalConverted
      else
        let NativeUrl := cta_str "NativeUrl" cta in
        if HasPrefix NativeUrl "instagram://media/?shortcode=" || HasPrefix NativeUrl "instagram://reels_share/?shortcode="
        then fetch_post partID att cta minimalConverted
        else if HasPrefix (cta_str "ActionUrl" cta) "/stories/direct/" then fetch_story partID att cta minimalConverted
        else if HasPrefix (cta_str "ActionUrl" cta) "https://instagram.com/stories/" then fetch_story2 partID att cta minimalConverted
        else fetch_status "unrecognized" minimalConverted
  end.

Definition xmaProfileShareToMatrix (att : WrappedXMA) : option Part :=
  match CTA att with
  | None => None
  | Some cta =>
      let subtitle := xma_str "HeaderSubtitleText" att in
      if (subtitle =? "")%string || (xma_str "HeaderImageUrl" att =? "")%string || negb (xma_str "PlayableUrl" att =? "")%string
      then None
      else
        let NativeUrl := cta_str "NativeUrl" cta in
        match instagramProfileURLRegex NativeUrl with
        | None => None
        | Some user =>
            if negb (user =? xma_str "HeaderTitle" att)%string then None
            else Some (extra_part
              (set_FormattedBody ("Shared " ++ subtitle ++ "'s profile: " ++ a_href NativeUrl ("@" ++ user))
                (set_Format "org.matrix.custom.html" (text_content ("Shared " ++ subtitle ++ "'s profile: " ++ NativeUrl))))
              {["external_url"%string := XStr NativeUrl]})
        end
  end.

Definition urlPreviewToBeeper (partID : string) (att : WrappedXMA) : CM BeeperLinkPreview :=
  match CTA att with
  | None => panic
  | Some cta =>
      let url := removeLPHP (cta_str "ActionUrl" cta) in
      let preview file uri w h size := mkPreview url (xma_str "TitleText" att) (xma_str "SubtitleText" att) file uri w h size in
      if negb (xma_str "PreviewUrl" att =? "")%string then
        r ← reuploadAttachment partID (xma_int "AttachmentType" att) (xma_str "PreviewUrl" att) "preview" (xma_str "PreviewUrlMimeType" att)
              0 (xma_int "PreviewWidth" att) (xma_int "PreviewHeight" att) 0 None;
        match r with
        | inr _ => mret (preview None ""%string 0 0 0)
        | inl converted =>
            let c := PartContent converted in
            match Info c with
            | None => panic
            | Some i => mret (preview (File c) (URL c) (Width (base i)) (Height (base i)) (Size (base i)))
            end
        end
      else mret (preview None ""%string 0 0 0)
  end.

(** A post that is not fetched in full keeps its address. *)
Definition caption_action (att : WrappedXMA) (converted : Part) : CM Part :=
  match extra_of "external_url" converted, CTA att with
  | None, Some cta =>
      if negb (cta_str "ActionUrl" cta =? "")%string then
        let externalURL := removeLPHP (cta_str "ActionUrl" cta) in
        converted ← set_external_url externalURL converted;
        mret (captioned externalURL converted)
      else mret converted
  | _, _ => mret converted
  end.

Definition post_texts (att : WrappedXMA) (converted : Part) : CM Part :=
  if negb (xma_str "TitleText" att =? "")%string || negb (xma_str "CaptionBodyText" att =? "")%string then
    converted ← put_extra "com.beeper.meta.full_post_title" (XStr (xma_str "TitleText" att)) converted;
    put_extra "com.beeper.meta.caption_body_text" (XStr (xma_str "CaptionBodyText" att)) converted
  else mret converted.

(** The flag of a video that plays by itself makes it a GIF. *)
Definition autoplay (att : WrappedXMA) : WrappedXMA :=
  if xma_bool "ShouldAutoplayVideo" att
  then mkWrappedXMA (row_set LSInsertXmaAttachment "AttachmentType" (VInt64 AttachmentTypeAnimatedImage) (LSInsertXma att)) (CTA att)
  else att.

Definition xmaFileToMatrix (partID : string) (att : WrappedXMA) : CM Part :=
  let url := xma_str "PlayableUrl" att in
  let '(url, mime, width, height) :=
    if (url =? "")%string
    then (xma_str "PreviewUrl" att, xma_str "PreviewUrlMimeType" att, xma_int "PreviewWidth" att, xma_int "PreviewHeight" att)
    else (url, xma_str "PlayableUrlMimeType" att, 0, 0) in
  let att := autoplay att in
  r ← reuploadAttachment partID (xma_int "AttachmentType" att) url (xma_str "Filename" att) mime (xma_int "Filesize" att) width height 0 None;
  match r with
  | inr ErrURLNotFound =>
      if negb (xma_str "TitleText" att =? "")%string then mret (message_part (text_content (xma_str "TitleText" att)))
      else p ← caption_action att (errorToNotice ErrURLNotFound "XMA"); post_texts att p
  | inr err => p ← caption_action att (errorToNotice err "XMA"); post_texts att p
  | inl converted => p ← fetchFullXMA partID att converted; p ← caption_action att p; post_texts att p
  end.

Definition xmaAttachmentToMatrix (partID : string) (att : WrappedXMA) : CM Part :=
  match CTA att with
  | Some cta =>
      if (cta_str "Type_" cta =? "xma_live_location_sharing")%string then mret (xmaLocationToMatrix att cta)
      else match xmaProfileShareToMatrix att with Some p => mret p | None => xmaFileToMatrix partID att end
  | None => xmaFileToMatrix partID att
  end.

(** ** Messages *)

(** The thumb is a text in an encrypted chat, and so it is here: the message is changed. *)
Definition thumbs_up_text (w : WrappedMessage) : WrappedMessage :=
  if is_thumbs_up (msg_int "StickerId" w) && (length (Stickers w) =? 1)%nat then
    mkWrappedMessage (row_set LSInsertMessage "Text" (VStr thumbs_up) (LSInsert w)) (IsUpsert w) (BlobAttachments w)
      (Attachments w) (XMAAttachments w) [] (Reactions w) (ThreadID w) (IsSubthreadStart w)
  else w.

(** The attachments, from the [i]-th on, that are not copies of one seen before; their parts and
    the ids they go by. *)
Fixpoint blob_parts (i : Z) (seen : list string) (l : list Inst) : CM (list Part * list string) :=
  match l with
  | [] => mret ([], [])
  | b :: l =>
      let fbid := blob_str "AttachmentFbid" b in
      if negb (fbid =? "")%string && existsb (String.eqb fbid) seen then blob_parts (i + 1) seen l
      else
        let partID := ("blob_attachment_" ++ FormatInt 10 i)%string in
        p ← blobAttachmentToMatrix partID b i;
        r ← blob_parts (i + 1) (fbid :: seen) l;
        mret (p :: r.1, partID :: r.2)
  end.

Fixpoint legacy_parts (i : Z) (l : list Inst) : CM (list Part * list string) :=
  match l with
  | [] => mret ([], [])
  | a :: l =>
      let partID := ("attachment_" ++ FormatInt 10 i)%string in
      p ← legacyAttachmentToMatrix partID a i;
      r ← legacy_parts (i + 1) l;
      mret (p :: r.1, partID :: r.2)
  end.

(** A poll is not converted. *)
Definition is_poll (x : WrappedXMA) : bool :=
  match CTA x with Some c => HasPrefix (cta_str "Type_" c) "xma_poll_" | None => false end.

Fixpoint xma_parts (i : Z) (l : list WrappedXMA) : CM (list Part * list string) :=
  match l with
  | [] => mret ([], [])
  | x :: l =>
      if isProbablyURLPreview x || is_poll x then xma_parts (i + 1) l
      else
        let partID := ("xma_attachment_" ++ FormatInt 10 i)%string in
        p ← xmaAttachmentToMatrix partID x;
        r ← xma_parts (i + 1) l;
        mret (p :: r.1, partID :: r.2)
  end.

Fixpoint sticker_parts (i : Z) (l : list Inst) : CM (list Part * list string) :=
  match l with
  | [] => mret ([], [])
  | s :: l =>
      let partID := ("sticker_" ++ FormatInt 10 i)%string in
      p ← stickerToMatrix partID s;
      r ← sticker_parts (i + 1) l;
      mret (p :: r.1, partID :: r.2)
  end.

Fixpoint link_previews (i : Z) (l : list WrappedXMA) : CM (list BeeperLinkPreview) :=
  match l with
  | [] => mret []
  | x :: l =>
      p ← urlPreviewToBeeper ("beeper_link_preview_" ++ FormatInt 10 i) x;
      r ← link_previews (i + 1) l;
      mret (p :: r)
  end.

Definition newline : string := String "010" "".

(** The text of a message as [MetaToMatrixText] converts it. *)
Definition message_text (w : WrappedMessage) : res Content :=
  c ← Mentions.MetaToMatrixText Sort GetGhostByID GetCachedUserLoginByID MatrixToURL TextToHTML (msg_str "Text" w)
        (Some (Mentions.mkMentionData (msg_str "MentionIds" w) (msg_str "MentionOffsets" w) (msg_str "MentionLengths" w)
                 (msg_str "MentionTypes" w)));
  Ok (mkContent (Mentions.MsgType c) (Mentions.Body c) (Mentions.Format c) (Mentions.FormattedBody c) "" "" "" None None None
        (Some (mkMentions (Mentions.Added c) false)) []).

(** The snippet of what a message is about goes before its text. *)
Definition with_snippet (w : WrappedMessage) (content : Content) (extra : gmap string Extra) : Content * gmap string Extra :=
  let snippet := msg_str "ReplySnippet" w in
  let isReaction := StrContains snippet "Reacted" in
  let extra := <["com.beeper.relation_snippet"%string := XStr snippet]> extra in
  let extra := if isReaction then <["com.beeper.raw_reaction"%string := XStr (Body content)]> extra
               else if negb (msg_str "Text" w =? "")%string then <["com.beeper.raw_reply_text"%string := XStr (Body content)]> extra
               else extra in
  let content := set_Body (TrimSpace (snippet ++ newline ++ newline ++ Body content)) content in
  let content := if negb (FormattedBody content =? "")%string
                 then set_FormattedBody (TrimSpace (EscapeString snippet ++ newline ++ newline ++ FormattedBody content)) content
                 else content in
  let extra := if msg_int "ReplySourceTypeV2" w =? ReplySourceTypeIGStoryShare then
                 <["com.beeper.relation_preview_type"%string :=
                     XStr (if isReaction then "story_reaction"
                           else if negb (msg_str "Text" w =? "")%string then "story_reply" else "story")]> extra
               else extra in
  (content, extra).

Definition text_part (w : WrappedMessage) (urlPreviews : list WrappedXMA) (hasRelationSnippet : bool) : CM Part :=
  content ← of_res (message_text w);
  let content := if msg_bool "IsAdminMessage" w then set_MsgType "m.notice" content else content in
  previews ← link_previews 0 urlPreviews;
  let content := match urlPreviews with
                 | [] => content
                 | _ =>
                     let content := set_LinkPreviews previews content in
                     if (Body content =? "")%string then set_Body (String.concat newline (CanonicalURL <$> previews)) content else content
                 end in
  let '(content, extra) := if hasRelationSnippet then with_snippet w content ∅ else (content, ∅) in
  mret (mkPart "" EventMessage content (Some extra) None (msg_bool "IsAdminMessage" w)).

Definition unsupported_part : Part := extra_part (notice "Unsupported message") {["fi.mau.unsupported"%string := XBool true]}.

Definition reply_of (w : WrappedMessage) : option string * option string :=
  let source := msg_str "ReplySourceId" w in
  let '(reply, root) :=
    if negb (source =? "")%string then
      if IsSubthreadStart w then (None, Some (MakeFBMessageID source)) else (Some (MakeFBMessageID source), None)
    else (None, None) in
  (reply, if negb (ThreadID w =? "")%string then Some (MakeFBMessageID (ThreadID w)) else root).

(** Where the thread is on the website. *)
Definition thread_url : option (string * string) :=
  if IsInstagram platform then Some ("https://www.instagram.com/direct/t/" ++ portal_ID ++ "/", "Instagram")%string
  else if IsViaFacebook platform then Some ("https://www.facebook.com/messages/t/" ++ portal_ID ++ "/", "Facebook")%string
  else if IsViaMessenger platform then Some ("https://www.messenger.com/t/" ++ portal_ID ++ "/", "Messenger")%string
  else None.

Definition open_link (p : Part) : Part :=
  match extra_of "fi.mau.unsupported" p, extra_of "external_url" p, thread_url with
  | Some (XBool true), None, Some (threadURL, protocolName) =>
      map_content (fun c =>
        set_FormattedBody (FormattedBody c ++ "<br><br>" ++ a_href threadURL ("Click here to open in " ++ protocolName))
          (set_Body (Body c ++ newline ++ newline ++ "Open in " ++ protocolName ++ ": " ++ threadURL) c)) p
  | _, _, _ => p
  end.

(** Parts without an id are numbered, notices of what is not supported point to the website. *)
Definition finish_part (i : nat) (p : Part) : Part :=
  let p := if (PartID p =? "")%string then set_PartID (MakeMessagePartID (Z.of_nat i)) p else p in
  with_mentions (open_link p).

(** A merged caption and file go by the id of the file. *)
Definition merge_caption (parts : list Part) (importantPartIDs : list string) : res (list Part) :=
  match MergeCaption parts with
  | None => Ok parts
  | Some [] => Panic
  | Some (p :: rest) =>
      match importantPartIDs with
      | [] => Panic
      | i :: _ => Ok (set_PartID i p :: rest)
      end
  end.

(** The parts of a message before they are numbered, and the ids of those that have one. *)
Definition message_parts (msg : WrappedMessage) : CM (list Part * list string) :=
  blobs ← blob_parts 0 [] (BlobAttachments msg);
  legacy ← legacy_parts 0 (Attachments msg);
  xmas ← xma_parts 0 (XMAAttachments msg);
  stickers ← sticker_parts 0 (Stickers msg);
  let urlPreviews := filter (fun x => Is_true (isProbablyURLPreview x)) (XMAAttachments msg) in
  let hasRelationSnippet := negb (msg_str "ReplySnippet" msg =? "")%string && negb (length (XMAAttachments msg) =? 0)%nat
                            && negb (length (XMAAttachments msg) =? length urlPreviews)%nat in
  text ← (if negb (msg_str "Text" msg =? "")%string || hasRelationSnippet || negb (length urlPreviews =? 0)%nat
          then p ← text_part msg urlPreviews hasRelationSnippet; mret [p]
          else mret []);
  let parts := blobs.1 ++ legacy.1 ++ xmas.1 ++ stickers.1 ++ text in
  let previewIDs := imap (fun i _ => "beeper_link_preview_" ++ FormatInt 10 (Z.of_nat i))%string urlPreviews in
  mret (match parts with [] => [unsupported_part] | _ => parts end,
        blobs.2 ++ legacy.2 ++ xmas.2 ++ stickers.2 ++ previewIDs).

(** [ToMatrix]: the converted message, and the message itself, which is changed. *)
Definition ToMatrix (msg : WrappedMessage) : CM (ConvertedMessage * WrappedMessage) :=
  if msg_bool "IsUnsent" msg then mret (mkConverted [] None None, msg)
  else
    let msg := thumbs_up_text msg in
    r ← message_parts msg;
    let '(reply, root) := reply_of msg in
    parts ← of_res (merge_caption (imap finish_part r.1) r.2);
    mret (mkConverted parts reply root, msg).
End FromMeta.

(** * What conversions make *)

Section Proofs.
Context (BypassOnionForMedia : bool) (MaxFileSize : Z) (DisableViewOnce DirectMedia : bool) (platform : Platform) (has_instagram : bool).
Context (portal_ID portal_Receiver portal_MXID messageID : string) (ShouldFetchXMA : bool).
Context (ffmpeg_Supported : bool) (ExtensionFromMimetype : string -> string).
Context (url_Parse : string -> option (string * (string -> string))).
Context (EnsureHasHTML : Content -> Content) (MergeCaption : list Part -> option (list Part)).
Context (Sort : Mentions.Mentions -> Mentions.Mentions) (GetGhostByID : string -> res (string * string))
  (GetCachedUserLoginByID : string -> option string) (MatrixToURL TextToHTML : string -> string).

#[local] Abbreviation reupload := (reuploadAttachment BypassOnionForMedia MaxFileSize DirectMedia portal_Receiver portal_MXID messageID
  ffmpeg_Supported ExtensionFromMimetype).

(** Answers without null where the code takes an object. *)
Definition whole_item (i : option Item) : Prop :=
  match i with
  | Some i => match CarouselMedia i with Some l => Forall (fun i => is_Some i) l | None => True end
  | None => False
  end.

Definition no_null (e : event conv_answer) : Prop :=
  match e with
  | Event q x =>
      match q return conv_answer q -> Prop with
      | QFetchMedia _ _ => fun x =>
          match x with inl None => False | inl (Some l) => Forall whole_item l | inr _ => True end
      | QFetchReel _ _ => fun x =>
          match x with
          | inl None => False
          | inl (Some m) => map_Forall (fun _ r => is_Some (reel_User r) /\ Forall whole_item (reel_Items r)) m
          | inr _ => True
          end
      | _ => fun _ => True
      end x
  end.

(** A part goes by the id it was given, or by none. *)
Definition named (id : string) (p : Part) : Prop := PartID p = ""%string \/ PartID p = id.

(** The part keeps an address, and has it in its text. *)
Definition keeps_address (p : Part) : Prop :=
  exists u, extra_of "external_url" p = Some (XStr u) /\ StrContains (Body (PartContent p)) u = true.

(** A part whose extra fields can be written to, with its address, if any, in its text. *)
Record post_ok (id : string) (p : Part) : Prop := {
  post_extra : is_Some (PartExtra p);
  post_named : named id p;
  post_address : extra_of "external_url" p = None \/ keeps_address p
}.

(** A part with a file. *)
Record file_ok (id : string) (p : Part) : Prop := {
  file_extra : is_Some (PartExtra p);
  file_info : is_Some (Info (PartContent p));
  file_named : named id p
}.

Lemma map_info_some f c : is_Some (Info c) -> is_Some (Info (map_info f c)).
Proof. intros [i Hi]. unfold map_info. rewrite Hi. by eexists. Qed.

Lemma fillMetadata_info t n m d w h c : is_Some (Info c) -> is_Some (Info (fillMetadata ExtensionFromMimetype t n m d w h c).2).
Proof.
  intros Hc. unfold fillMetadata. cbn [snd].
  assert (forall c', is_Some (Info c') -> is_Some (Info (map_info (fun i => mkInfo m (Size i) d w h) (set_Body n c')))) as H
    by (intros c' H; apply map_info_some; exact H).
  set (c1 := if t =? AttachmentTypeAudio then _ else _).
  assert (is_Some (Info c1)) as H1 by (subst c1; destruct (t =? AttachmentTypeAudio), (t =? AttachmentTypeSticker); exact Hc).
  specialize (H c1 H1). revert H. set (c2 := map_info _ _). intros H.
  destruct (Body c2 =? "")%string; [exact H|]. by destruct (_ && _).
Qed.

Lemma file_part_ok id id' t n m d w h c x meta : is_Some (Info c) -> id' = ""%string \/ id' = id ->
  file_ok id (file_part id' (fillMetadata ExtensionFromMimetype t n m d w h c) x meta).
Proof. intros Hc Hid. split; [by eexists|by apply fillMetadata_info|exact Hid]. Qed.

Lemma gif_extra_external t m : gif_extra t m !! "external_url"%string = None.
Proof. unfold gif_extra. by destruct (_ && _). Qed.

(** What a transfer gives: a part with a file and no address yet, or an error. *)
Definition transferred (id : string) (r : Part + ConvError) : Prop :=
  match r with inl p => file_ok id p /\ extra_of "external_url" p = None | inr _ => True end.

Lemma ens_detect N b m : ensures N (detect_mime b m) (fun _ => True).
Proof. unfold detect_mime. destruct b; [|by apply ens_ret]. ens_step. destruct a; [by apply ens_ret|exact (ens_ask_any (answer := conv_answer) N QDetectMime)]. Qed.

Lemma ens_fill_upload N r b1 b2 b3 n m w h : ensures N (fill_upload ExtensionFromMimetype r b1 b2 b3 n m w h) (fun _ => True).
Proof.
  unfold fill_upload. ens_step. destruct a; [by apply ens_ret|]. eapply ens_bind; [apply ens_detect|]. intros [m'|e] _; [|by apply ens_ret].
  destruct b1.
  - unfold convert_voice. ens_step. destruct a; [by apply ens_ret|]. ens_step. destruct a; [by apply ens_ret|]. ens_step.
    destruct a; by apply ens_ret.
  - destruct b3; [|by apply ens_ret]. unfold image_size. ens_step. destruct a; [by apply ens_ret|]. ens_step.
    destruct a as [[w' h']|]; by apply ens_ret.
Qed.

Lemma ens_reupload id t url n m s w h d refresh :
  ensures no_null (reupload id t url n m s w h d refresh) (transferred id).
Proof.
  unfold reuploadAttachment. destruct (url =? "")%string; [by apply ens_ret|]. destruct DirectMedia.
  - unfold direct_attachment. ens_step. destruct a as [uri|e]; [|by apply ens_ret]. apply ens_ret. split.
    + apply file_part_ok; [by apply map_info_some; eexists|by right].
    + unfold extra_of. cbn [file_part PartExtra mbind option_bind]. apply gif_extra_external.
  - unfold copied_attachment. eapply ens_bind; [apply ens_embed_media|]. intros [size [r|e]] _; [|by apply ens_ret].
    cbn [fst snd]. ens_step. destruct a; [by apply ens_ret|]. eapply ens_bind; [apply ens_fill_upload|].
    intros [result [[[n' m'] w'] h']] _. ens_step. destruct a as [[uri f]|e]; [|by apply ens_ret]. apply ens_ret. split.
    + apply file_part_ok; [by apply map_info_some; eexists|by left].
    + unfold extra_of. cbn [file_part PartExtra mbind option_bind]. apply gif_extra_external.
Qed.

Lemma transferred_post id p : transferred id (inl p) -> post_ok id p.
Proof. intros [[H1 H2 H3] H4]. split; [done|done|by left]. Qed.

Lemma notice_post id e c : post_ok id (errorToNotice e c).
Proof. split; [by eexists|by left|left]. unfold extra_of, errorToNotice. cbn. by rewrite lookup_singleton_ne. Qed.

Lemma ens_or_notice id c (m : CM (Part + ConvError)) :
  ensures no_null m (transferred id) -> ensures no_null (r ← m; mret (or_notice c r)) (post_ok id).
Proof.
  intros H. eapply ens_bind; [exact H|]. intros [p|e] Hr; apply ens_ret; [by apply transferred_post|apply notice_post].
Qed.

Lemma post_upd id k v p : k <> "external_url"%string -> post_ok id p -> post_ok id (upd k v p).
Proof.
  intros Hk [H1 H2 H3]. split; [by destruct H1 as [x Hx]; cbn; rewrite Hx; eexists|exact H2|].
  unfold keeps_address. rewrite extra_of_upd by done. by rewrite decide_False by congruence.
Qed.

Lemma caption_has url c : StrContains (Body (addExternalURLCaption EnsureHasHTML url c)) url = true.
Proof.
  unfold addExternalURLCaption. destruct (FileName c =? "")%string; cbn [Body set_Body set_FormattedBody set_Format set_FileName].
  - apply StrContains_spec. exists ""%string, ""%string. by rewrite string_app_nil_r.
  - apply StrContains_spec. exists (Body (EnsureHasHTML c) ++ String "010" (String "010" ""))%string, ""%string.
    rewrite string_app_nil_r. by rewrite <- string_app_assoc.
Qed.

#[local] Abbreviation captioned' := (captioned EnsureHasHTML).

Lemma captioned_post id url p : is_Some (PartExtra p) -> named id p -> extra_of "external_url" p = Some (XStr url) ->
  post_ok id (captioned' url p) /\ keeps_address (captioned' url p).
Proof. intros H1 H2 H3. assert (keeps_address (captioned' url p)); [|by split; [split; [..|right]|]]. exists url. split; [exact H3|apply caption_has]. Qed.

Lemma address_post id url p : is_Some (PartExtra p) -> named id p ->
  post_ok id (captioned' url (upd "external_url" (XStr url) p)) /\ keeps_address (captioned' url (upd "external_url" (XStr url) p)).
Proof.
  intros H1 H2. apply captioned_post; [by destruct H1 as [x Hx]; cbn; rewrite Hx; eexists|exact H2|].
  rewrite extra_of_upd by done. by rewrite decide_True.
Qed.

#[local] Abbreviation fetched_post' := (fetched_post BypassOnionForMedia MaxFileSize DirectMedia portal_Receiver portal_MXID messageID
  ffmpeg_Supported ExtensionFromMimetype EnsureHasHTML).
#[local] Abbreviation fetch_post' := (fetch_post BypassOnionForMedia MaxFileSize DirectMedia portal_Receiver portal_MXID messageID
  ShouldFetchXMA ffmpeg_Supported ExtensionFromMimetype url_Parse EnsureHasHTML).
#[local] Abbreviation fetch_story' := (fetch_story BypassOnionForMedia MaxFileSize DirectMedia portal_Receiver portal_MXID messageID
  ShouldFetchXMA ffmpeg_Supported ExtensionFromMimetype EnsureHasHTML).
#[local] Abbreviation fetch_story2' := (fetch_story2 BypassOnionForMedia MaxFileSize DirectMedia portal_Receiver portal_MXID messageID
  ShouldFetchXMA ffmpeg_Supported ExtensionFromMimetype EnsureHasHTML).

Lemma ens_upd N id k v p : k <> "external_url"%string -> post_ok id p -> ensures N (put_extra k v p) (post_ok id).
Proof. intros Hk H. eapply ens_mono; [by apply ens_put_extra; destruct H|]. intros p' ->. by apply post_upd. Qed.

Lemma ens_fetched_post id att minimal item refresh user url : post_ok id minimal ->
  ensures no_null (fetched_post' id att minimal item refresh user url) (post_ok id).
Proof.
  intros Hm. unfold fetched_post, instagramFetchedMediaToMatrix. destruct (best_version _ _) as [[u w] h].
  eapply ens_bind; [apply ens_reupload|]. intros [p|e] Hp; [|by apply ens_upd].
  eapply (ens_bind _ _ _ (post_ok id)).
  { unfold with_thumbnail. destruct Hp as [[H1 H2 H3] H4]. destruct DirectMedia; [by apply ens_ret; split; [..|left]|].
    destruct H2 as [i Hi]. rewrite Hi. apply ens_ret. by split; [..|left]. }
  intros p1 H1. eapply ens_bind; [by apply ens_upd, H1|]. intros p2 H2.
  eapply (ens_bind _ _ _ (post_ok id)).
  { destruct (url =? "")%string; [by apply ens_ret|]. cbn [negb].
    eapply ens_bind; [by apply ens_put_extra; destruct H2|]. intros p3 ->. apply ens_ret. by apply address_post; destruct H2. }
  intros p3 H3. by apply ens_upd.
Qed.

Lemma find_subitem_ok id l : Forall (fun i => is_Some i) l -> exists r, find_subitem id l = Ok r.
Proof. induction 1 as [|i l [j ->] _ [r IH]]; [by eexists|]. cbn. rewrite IH. destruct (_ =? _)%string; by eexists. Qed.

Lemma target_item_ok i id : whole_item (Some i) -> exists r, target_item i id = Ok r.
Proof.
  cbn. unfold target_item. destruct (CarouselMedia i) as [l|]; [|by eexists]. intros H. destruct (negb _); [|by eexists].
  destruct (find_subitem_ok id l H) as [r ->]. by eexists.
Qed.

Lemma last_item_ok pk l found : Forall whole_item l -> exists r, last_item pk l found = Ok r.
Proof. intros H. revert found. induction H as [|[i|] l Hi _ IH]; intros found; [by eexists|apply IH|done]. Qed.

Lemma ens_res_some (N : event conv_answer -> Prop) {A} (r : res A) : (exists a, r = Ok a) -> ensures N (of_res r) (fun _ => True).
Proof. intros [a ->]. apply ens_res. by exists a. Qed.

Lemma ens_fetch_post id att cta p : post_ok id p -> ensures no_null (fetch_post' id att cta p) (post_ok id).
Proof.
  intros Hp. unfold fetch_post. cbv zeta. eapply ens_bind; [by apply ens_put_extra; destruct Hp|]. intros p1 ->.
  match goal with |- context [captioned _ ?u _] => destruct (address_post id u p) as [H1 _]; [by apply Hp..|] end. destruct ShouldFetchXMA; cbn [negb]; [|by apply ens_upd].
  ens_asked. intros [[[|[i|] l]|]|e] HN; [by apply ens_upd| | |done|by apply ens_upd].
  - apply Forall_cons in HN as [Hi _]. eapply ens_bind; [by apply ens_res_some, target_item_ok|]. intros t _. by apply ens_fetched_post.
  - by apply Forall_cons in HN as [[] _].
Qed.

Lemma ens_fetch_story2 id att cta p : post_ok id p -> ensures no_null (fetch_story2' id att cta p) (post_ok id).
Proof.
  intros Hp. unfold fetch_story2. cbv zeta. eapply ens_bind; [by apply ens_put_extra; destruct Hp|]. intros p1 ->.
  match goal with |- context [captioned _ ?u _] => destruct (address_post id u p) as [H1 _]; [by apply Hp..|] end. destruct ShouldFetchXMA; cbn [negb]; [|by apply ens_upd].
  destruct (reelActionURLRegex2 _) as [[u sid]|]; [|by apply ens_upd].
  ens_asked. intros [[[|[i|] l]|]|e] HN; [by apply ens_upd| | |done|by apply ens_upd].
  - eapply ens_bind; [by apply ens_upd, H1|]. intros p2 H2. by apply ens_fetched_post.
  - by apply Forall_cons in HN as [[] _].
Qed.

Lemma ens_fetch_story id att cta p : post_ok id p -> ensures no_null (fetch_story' id att cta p) (post_ok id).
Proof.
  intros Hp. unfold fetch_story. cbv zeta.
  match goal with |- context [set_external_url ?u p] => set (url := u) end.
  eapply ens_bind; [by apply ens_put_extra; destruct Hp|]. intros p1 ->.
  set (p1 := upd _ _ p).
  assert (is_Some (PartExtra p1) /\ named id p1 /\ extra_of "external_url" p1 = Some (XStr url)) as (E1 & N1 & X1).
  { split; [subst p1; by destruct (post_extra _ _ Hp) as [x Hx]; cbn; rewrite Hx; eexists|]. split; [apply Hp|].
    subst p1. rewrite extra_of_upd by apply Hp. by rewrite decide_True. }
  assert (forall status, ensures no_null (p2 ← fetch_status status p1; mret (captioned' url p2)) (post_ok id)) as Hgive.
  { intros status. eapply ens_bind; [by apply ens_put_extra|]. intros p2 ->. apply ens_ret. apply captioned_post; [|exact N1|].
    - by destruct E1 as [x Hx]; cbn [upd PartExtra]; rewrite Hx; eexists.
    - rewrite extra_of_upd by done. by rewrite decide_False. }
  destruct ShouldFetchXMA; cbn [negb]; [|apply Hgive]. destruct (reelActionURLRegex _) as [[media reel]|]; [|apply Hgive].
  ens_asked. intros [[m|]|e] HN; [|done|apply Hgive].
  destruct (m !! reel) as [r|] eqn:Er; [|apply Hgive]. destruct (HN _ _ Er) as [[user Hu] Hi]. rewrite Hu.
  eapply ens_bind; [by apply ens_put_extra|]. intros p2 ->.
  eapply ens_bind; [apply ens_put_extra; by destruct E1 as [x Hx]; cbn [upd PartExtra]; rewrite Hx; eexists|]. intros p3 ->.
  destruct (address_post id (story_url user media) (upd "com.beeper.instagram_item_username" (XStr user) p1)) as [H3 _];
    [by destruct E1 as [x Hx]; cbn [upd PartExtra]; rewrite Hx; eexists|exact N1|].
  eapply ens_bind; [by apply ens_res_some, last_item_ok|]. intros [i|] _; [by apply ens_fetched_post|by apply ens_upd].
Qed.

#[local] Abbreviation fetchFullXMA' := (fetchFullXMA BypassOnionForMedia MaxFileSize DirectMedia has_instagram portal_Receiver portal_MXID
  messageID ShouldFetchXMA ffmpeg_Supported ExtensionFromMimetype url_Parse EnsureHasHTML).
#[local] Abbreviation xmaFileToMatrix' := (xmaFileToMatrix BypassOnionForMedia MaxFileSize DirectMedia has_instagram portal_Receiver portal_MXID
  messageID ShouldFetchXMA ffmpeg_Supported ExtensionFromMimetype url_Parse EnsureHasHTML).
#[local] Abbreviation caption_action' := (caption_action url_Parse EnsureHasHTML).

Lemma ens_fetchFullXMA id att p : post_ok id p -> ensures no_null (fetchFullXMA' id att p) (post_ok id).
Proof.
  intros Hp. unfold fetchFullXMA. destruct (CTA att) as [cta|]; [|by apply ens_upd]. destruct has_instagram; [|by apply ens_upd].
  cbn [negb]. destruct (_ || _); [by apply ens_fetch_post|]. destruct (HasPrefix _ _); [by apply ens_fetch_story|].
  destruct (HasPrefix _ _); [by apply ens_fetch_story2|by apply ens_upd].
Qed.

(** What a shared post is bound to be: with the address of its action, if it has one. *)
Definition posted (id : string) (att : WrappedXMA) (p : Part) : Prop :=
  post_ok id p /\ forall cta, CTA att = Some cta -> cta_str "ActionUrl" cta <> ""%string -> keeps_address p.

Lemma ens_caption_action N id att p : post_ok id p -> ensures N (caption_action' att p) (posted id att).
Proof.
  intros Hp. unfold caption_action. destruct (post_address _ _ Hp) as [Hx|Hk].
  - rewrite Hx. destruct (CTA att) as [cta|] eqn:Hc; [|apply ens_ret; split; [done|congruence]].
    destruct (cta_str "ActionUrl" cta =? "")%string eqn:Ha; cbn [negb].
    { apply ens_ret. split; [done|]. intros cta' E Hn. assert (cta' = cta) as -> by congruence. by apply String.eqb_eq in Ha. }
    eapply ens_bind; [by apply ens_put_extra; destruct Hp|]. intros p1 ->. apply ens_ret.
    split; [by apply address_post; destruct Hp|]. intros cta' _ _. by apply (address_post id); destruct Hp.
  - assert (extra_of "external_url" p <> None) as Hn by (by destruct Hk as (u & -> & _)).
    destruct (extra_of "external_url" p); [|done]. apply ens_ret. by split.
Qed.

Lemma posted_upd id att k v p : k <> "external_url"%string -> posted id att p -> posted id att (upd k v p).
Proof.
  intros Hk [Hp Hc]. split; [by apply post_upd|]. intros cta E Hn. destruct (Hc cta E Hn) as (u & Hu & Hb). exists u.
  split; [|exact Hb]. rewrite extra_of_upd by apply Hp. by rewrite decide_False by congruence.
Qed.

Lemma ens_post_texts N id att p : posted id att p -> ensures N (post_texts att p) (posted id att).
Proof.
  intros Hp. unfold post_texts. destruct (_ || _); [|by apply ens_ret].
  eapply ens_bind; [apply ens_put_extra, Hp|]. intros p1 ->.
  eapply ens_mono; [apply ens_put_extra|]; [by apply (post_upd id), Hp|]. intros p2 ->. by repeat apply posted_upd.
Qed.

(** The action of a post survives the change of its type. *)
Lemma posted_autoplay id att p : posted id (autoplay att) p -> posted id att p.
Proof. unfold autoplay. by destruct (xma_bool _ _). Qed.

Lemma row_field_set_other s n n' v r : field_pos n (sfields s) <> field_pos n' (sfields s) ->
  row_field s n' (row_set s n v r) = row_field s n' r.
Proof.
  intros Hn. unfold row_field, row_set. destruct (field_pos n (sfields s)) as [i|] eqn:Hi; [|done].
  destruct (field_pos n' (sfields s)) as [i'|]; [|done]. cbn. rewrite list_lookup_insert_ne by congruence. done.
Qed.

Lemma autoplay_title att : xma_str "TitleText" (autoplay att) = xma_str "TitleText" att.
Proof.
  unfold autoplay. destruct (xma_bool _ _) eqn:Ea; [|done]. unfold xma_str. cbn [LSInsertXma]. unfold row_str. by rewrite row_field_set_other.
Qed.

(** What a post becomes once its file was transferred, or was not. *)
Lemma ens_xma_rest id att r : transferred id r -> ensures no_null
  (match r with
   | inr ErrURLNotFound =>
       if negb (xma_str "TitleText" (autoplay att) =? "")%string then mret (message_part (text_content (xma_str "TitleText" (autoplay att))))
       else p ← caption_action' (autoplay att) (errorToNotice ErrURLNotFound "XMA"); post_texts (autoplay att) p
   | inr err => p ← caption_action' (autoplay att) (errorToNotice err "XMA"); post_texts (autoplay att) p
   | inl converted => p ← fetchFullXMA' id (autoplay att) converted; p ← caption_action' (autoplay att) p; post_texts (autoplay att) p
   end)
  (fun p => posted id att p \/
     r = inr ErrURLNotFound /\ xma_str "TitleText" att <> ""%string /\ p = message_part (text_content (xma_str "TitleText" att))).
Proof.
  intros Hr. set (P := fun p : Part => posted id att p \/ _).
  assert (forall p, post_ok id p -> ensures no_null (p ← caption_action' (autoplay att) p; post_texts (autoplay att) p) P) as Hend.
  { intros p Hp. eapply ens_bind; [by eapply ens_caption_action|]. intros p1 H1. eapply ens_mono; [by eapply ens_post_texts|].
    intros p2 H2. left. by apply posted_autoplay. }
  destruct r as [p|e]; [eapply ens_bind; [by eapply ens_fetchFullXMA, transferred_post|]; exact Hend|].
  assert (ensures no_null (p ← caption_action' (autoplay att) (errorToNotice e "XMA"); post_texts (autoplay att) p) P) as He by apply Hend, notice_post.
  destruct e; try exact He.
  rewrite autoplay_title. destruct (String.eqb_spec (xma_str "TitleText" att) ""); cbn [negb]; [exact He|]. apply ens_ret. right. by split.
Qed.

Lemma ens_xmaFile id att : ensures no_null (xmaFileToMatrix' id att)
  (fun p => posted id att p \/ p = message_part (text_content (xma_str "TitleText" att))).
Proof.
  unfold xmaFileToMatrix. cbv zeta. destruct (if (_ =? _)%string then _ else _) as [[[url mime] w] h].
  eapply ens_bind; [apply ens_reupload|]. intros r Hr. eapply ens_mono; [by apply ens_xma_rest|]. intros p [H|(_ & _ & H)]; auto.
Qed.

(** The framework has errors of its own when it uploads: none is that of a file without an
    address. *)
Definition upload_errors (e : event conv_answer) : Prop :=
  match e with
  | Event q x =>
      match q return conv_answer q -> Prop with
      | QOpenUpload _ _ _ => fun x => x <> Some ErrURLNotFound
      | QFinishUpload _ => fun x => x <> inr ErrURLNotFound
      | _ => fun _ => True
      end x
  end.
Definition well_answered (e : event conv_answer) : Prop := no_null e /\ upload_errors e.

Lemma ens_weaken (N N' : event conv_answer -> Prop) {A} (m : CM A) P : (forall e, N' e -> N e) -> ensures N m P -> ensures N' m P.
Proof. intros HN H tr r Hr Ht. apply (H tr r Hr). eapply Forall_impl; [exact Ht|exact HN]. Qed.

(** Only a file without an address is not found. *)
Lemma ens_not_found id t url n m s w h d refresh :
  ensures well_answered (reupload id t url n m s w h d refresh) (fun r => transferred id r /\ (r = inr ErrURLNotFound -> url = ""%string)).
Proof.
  assert (ensures well_answered (reupload id t url n m s w h d refresh) (fun r => r = inr ErrURLNotFound -> url = ""%string)) as H.
  { unfold reuploadAttachment. destruct (String.eqb_spec url ""); [by apply ens_ret|]. destruct DirectMedia.
    - unfold direct_attachment. ens_step. by destruct a; apply ens_ret.
    - unfold copied_attachment. eapply ens_bind; [apply ens_embed_media|]. intros [size [r|e]] _; cbn [fst snd]; [|apply ens_ret; by destruct (is_too_large e)].
      ens_asked. intros [eo|] [_ He0]; cbn in He0; [apply ens_ret; congruence|]. eapply ens_bind; [apply ens_fill_upload|].
      intros [result [[[n' m'] w'] h']] _. ens_asked. intros [[uri f]|e] [_ He]; cbn in He; apply ens_ret; congruence. }
  intros tr r Hr Ht. destruct (H tr r Hr Ht) as (a & -> & Ha).
  destruct (ens_reupload id t url n m s w h d refresh tr _ Hr) as (a' & [= ->] & Ha').
  - eapply Forall_impl; [exact Ht|]. by intros e [? _].
  - exists a'. by split.
Qed.

(** A part of a message: without an id, or with the one that is kept for it. *)
Lemma ens_blob id att i : ensures no_null (blobAttachmentToMatrix BypassOnionForMedia MaxFileSize DirectMedia portal_Receiver portal_MXID messageID
  ffmpeg_Supported ExtensionFromMimetype id att i) (named id).
Proof.
  unfold blobAttachmentToMatrix. cbv zeta. destruct (if (_ =? _)%string then _ else _) as [[[[u m] w] h] e].
  eapply ens_mono; [apply ens_or_notice, ens_reupload|]. by intros p [].
Qed.

Lemma ens_legacy id att i : ensures no_null (legacyAttachmentToMatrix BypassOnionForMedia MaxFileSize DisableViewOnce DirectMedia platform portal_Receiver
  portal_MXID messageID ffmpeg_Supported ExtensionFromMimetype id att i) (named id).
Proof.
  unfold legacyAttachmentToMatrix. cbv zeta. destruct (DisableViewOnce && _); [apply ens_ret; by left|].
  destruct (if (_ =? _)%string then _ else _) as [[[[u m] w] h] e].
  eapply ens_mono; [apply ens_or_notice, ens_reupload|]. by intros p [].
Qed.

Lemma ens_sticker id att : ensures no_null (stickerToMatrix BypassOnionForMedia MaxFileSize DirectMedia portal_Receiver portal_MXID messageID
  ffmpeg_Supported ExtensionFromMimetype id att) (named id).
Proof.
  unfold stickerToMatrix. cbv zeta. destruct (if (_ =? _)%string then _ else _) as [u m].
  eapply ens_mono; [apply ens_or_notice, ens_reupload|]. by intros p [].
Qed.

Lemma ens_xma id att : ensures no_null (xmaAttachmentToMatrix BypassOnionForMedia MaxFileSize DirectMedia has_instagram portal_Receiver portal_MXID
  messageID ShouldFetchXMA ffmpeg_Supported ExtensionFromMimetype url_Parse EnsureHasHTML id att) (named id).
Proof.
  assert (ensures no_null (xmaFileToMatrix' id att) (named id)) as Hf.
  { eapply ens_mono; [apply ens_xmaFile|]. intros p [[[] _]| ->]; [done|by left]. }
  unfold xmaAttachmentToMatrix. destruct (CTA att) as [cta|] eqn:Hc; [|exact Hf].
  destruct (_ =? _)%string; [apply ens_ret; left; unfold xmaLocationToMatrix; by destruct (_ =? _)%string|].
  destruct (xmaProfileShareToMatrix att) as [p|] eqn:Hp; [|exact Hf]. apply ens_ret. left. unfold xmaProfileShareToMatrix in Hp.
  rewrite Hc in Hp. destruct (_ || _); [done|]. destruct (instagramProfileURLRegex _); [|done].
  destruct (negb _); [done|]. by injection Hp as <-.
Qed.

Lemma ens_preview id att : isProbablyURLPreview att = true ->
  ensures no_null (urlPreviewToBeeper BypassOnionForMedia MaxFileSize DirectMedia portal_Receiver portal_MXID
    messageID ffmpeg_Supported ExtensionFromMimetype url_Parse id att) (fun _ => True).
Proof.
  unfold isProbablyURLPreview, urlPreviewToBeeper. destruct (CTA att) as [cta|]; [|done]. intros _. cbv zeta.
  destruct (negb _); [|by apply ens_ret]. eapply ens_bind; [apply ens_reupload|].
  intros [p|e] Hr; [|by apply ens_ret]. destruct Hr as [[_ [i Hi] _] _]. rewrite Hi. by apply ens_ret.
Qed.

(** ** The ids of parts *)

(** Ids that count on from [i]: the names of some of [l]. *)
Definition numbered {A} (prefix : string) (i : Z) (l : list A) (ids : list string) : Prop :=
  exists ks, ids = map (fun k => prefix ++ FormatInt 10 k)%string ks /\ StronglySorted Z.lt ks
    /\ Forall (fun k => i <= k < i + llen l) ks.

Lemma numbered_nil {A} prefix i (l : list A) : numbered prefix i l [].
Proof. exists []. by repeat constructor. Qed.

Lemma numbered_skip {A} prefix i (x : A) l ids : numbered prefix (i + 1) l ids -> numbered prefix i (x :: l) ids.
Proof.
  intros (ks & -> & H1 & H2). exists ks. split_and!; [done..|]. eapply Forall_impl; [exact H2|]. intros k Hk.
  cbn beta in Hk. cbn [length]. lia.
Qed.

Lemma numbered_cons {A} prefix i (x : A) l ids : numbered prefix (i + 1) l ids ->
  numbered prefix i (x :: l) ((prefix ++ FormatInt 10 i)%string :: ids).
Proof.
  intros (ks & -> & H1 & H2). exists (i :: ks). split_and!; [done|constructor; [done|]|constructor].
  - eapply Forall_impl; [exact H2|]. intros k Hk. cbn beta in Hk. lia.
  - cbn [length]. lia.
  - eapply Forall_impl; [exact H2|]. intros k Hk. cbn beta in Hk. cbn [length]. lia.
Qed.

Lemma string_app_inj a b c : (a ++ b = a ++ c)%string -> b = c.
Proof. induction a as [|x a IH]; [done|]. rewrite !string_app_cons. intros H. injection H. exact IH. Qed.

Lemma numbered_NoDup {A} prefix i (l : list A) ids : 0 <= i -> i + llen l < 2 ^ 63 -> numbered prefix i l ids -> NoDup ids.
Proof.
  intros Hi Hl (ks & -> & H1 & H2). induction H1 as [|k ks _ IH Hk]; cbn [map]; constructor.
  - intros (k' & E & Hin)%list_elem_of_fmap. apply string_app_inj in E. apply Forall_cons in H2 as [Hb H2].
    rewrite Forall_forall in H2, Hk. specialize (H2 _ Hin). specialize (Hk _ Hin). cbn beta in *.
    apply FormatInt_inj in E; unfold in_int; change (64 - 1) with 63; lia.
  - apply IH. by apply Forall_cons in H2 as [_ H2].
Qed.

(** Names start with a letter, that tells the kinds apart. *)
Definition starts (c : ascii) (s : string) : Prop := exists t, s = String c t.

Lemma numbered_starts {A} c prefix i (l : list A) ids : numbered (String c prefix) i l ids -> Forall (starts c) ids.
Proof. intros (ks & -> & _). apply Forall_map, Forall_true. intros k. by eexists. Qed.

Lemma NoDup_app_starts c (P : ascii -> Prop) l1 l2 : NoDup l1 -> NoDup l2 -> Forall (starts c) l1 ->
  Forall (fun s => exists c', P c' /\ starts c' s) l2 -> ~ P c -> NoDup (l1 ++ l2).
Proof.
  intros H1 H2 S1 S2 Hc. apply NoDup_app. split_and!; [done| |done]. intros s Hs1 Hs2.
  rewrite Forall_forall in S1, S2. destruct (S1 _ Hs1) as [t ->]. destruct (S2 _ Hs2) as (c' & Hc' & t' & [= <- _]). done.
Qed.

(** An id that is given is no number. *)
Definition lettered (s : string) : Prop := exists c, (is_digit c || (c =? "-")%char) = false /\ starts c s.

Lemma lettered_not_number s n : lettered s -> s <> MakeMessagePartID n.
Proof.
  intros (c & Hc & t & ->). unfold MakeMessagePartID. destruct (n =? 0); [done|]. intros E.
  pose proof (proj1 (FormatInt_chars n)) as H. rewrite <- E in H. cbn [all_chars] in H. rewrite Hc in H. done.
Qed.

Lemma finish_part_id i p : PartID (finish_part platform portal_ID i p)
  = if (PartID p =? "")%string then MakeMessagePartID (Z.of_nat i) else PartID p.
Proof.
  unfold finish_part, with_mentions. cbn [map_content PartID]. unfold open_link.
  destruct (PartID p =? "")%string; by repeat case_match.
Qed.

Lemma finished_NoDup gids parts : Forall2 named gids parts -> NoDup gids -> Forall lettered gids -> llen parts < 2 ^ 63 ->
  NoDup (PartID <$> imap (finish_part platform portal_ID) parts).
Proof.
  intros Hn Hd Hl Hs. apply NoDup_alt. intros i j x Hi Hj. rewrite list_lookup_fmap, list_lookup_imap in Hi, Hj.
  destruct (parts !! i) as [p|] eqn:Ep; [|done]. destruct (parts !! j) as [q|] eqn:Eq; [|done].
  apply (inj Some) in Hi as <-. apply (inj Some) in Hj. rewrite !finish_part_id in Hj.
  destruct (Forall2_lookup_r _ _ _ _ _ Hn Ep) as (gp & Gp & Np). destruct (Forall2_lookup_r _ _ _ _ _ Hn Eq) as (gq & Gq & Nq).
  pose proof (Forall_lookup_1 _ _ _ _ Hl Gp) as Lp. pose proof (Forall_lookup_1 _ _ _ _ Hl Gq) as Lq.
  apply lookup_lt_Some in Ep, Eq. unfold named in *. revert Hj.
  destruct (String.eqb_spec (PartID p) "") as [Zp|Zp], (String.eqb_spec (PartID q) "") as [Zq|Zq].
  - unfold MakeMessagePartID. intros E. destruct (Z.eqb_spec (Z.of_nat j) 0), (Z.eqb_spec (Z.of_nat i) 0); [lia| | |].
    + by pose proof (proj2 (FormatInt_chars (Z.of_nat i))).
    + by pose proof (proj2 (FormatInt_chars (Z.of_nat j))).
    + apply FormatInt_inj in E; unfold in_int; change (64 - 1) with 63; lia.
  - destruct Nq as [?|Nq]; [done|]. rewrite Nq. intros E. by apply lettered_not_number in E.
  - destruct Np as [?|Np]; [done|]. rewrite Np. intros E. symmetry in E. by apply lettered_not_number in E.
  - destruct Np as [?|Np], Nq as [?|Nq]; try done. rewrite Np, Nq. intros ->. rewrite NoDup_alt in Hd. by eapply Hd.
Qed.

(** ** Lists of attachments *)

#[local] Abbreviation blob_parts' := (blob_parts BypassOnionForMedia MaxFileSize DirectMedia portal_Receiver portal_MXID messageID
  ffmpeg_Supported ExtensionFromMimetype).
#[local] Abbreviation legacy_parts' := (legacy_parts BypassOnionForMedia MaxFileSize DisableViewOnce DirectMedia platform portal_Receiver
  portal_MXID messageID ffmpeg_Supported ExtensionFromMimetype).
#[local] Abbreviation xma_parts' := (xma_parts BypassOnionForMedia MaxFileSize DirectMedia has_instagram portal_Receiver portal_MXID
  messageID ShouldFetchXMA ffmpeg_Supported ExtensionFromMimetype url_Parse EnsureHasHTML).
#[local] Abbreviation sticker_parts' := (sticker_parts BypassOnionForMedia MaxFileSize DirectMedia portal_Receiver portal_MXID messageID
  ffmpeg_Supported ExtensionFromMimetype).

(** A list of parts, each with an id it may have. *)
Definition listed {A} (prefix : string) (i : Z) (l : list A) (r : list Part * list string) : Prop :=
  Forall2 named r.2 r.1 /\ numbered prefix i l r.2.

Lemma ens_list_cons {A} prefix i (x : A) l (m : CM Part) (rest : CM (list Part * list string)) :
  let id := (prefix ++ FormatInt 10 i)%string in
  ensures no_null m (named id) -> ensures no_null rest (listed prefix (i + 1) l) ->
  ensures no_null (p ← m; r ← rest; mret (p :: r.1, id :: r.2)) (listed prefix i (x :: l)).
Proof.
  intros id Hm Hr. eapply ens_bind; [exact Hm|]. intros p Hp. eapply ens_bind; [exact Hr|]. intros [ps ids] [H1 H2].
  apply ens_ret. split; [by constructor|by apply numbered_cons].
Qed.

Lemma ens_list_nil {A} prefix i (l : list A) : ensures no_null (mret ([], [])) (listed prefix i l).
Proof. apply ens_ret. split; [constructor|apply numbered_nil]. Qed.

Lemma ens_list_skip {A} prefix i (x : A) l m : ensures no_null m (listed prefix (i + 1) l) -> ensures no_null m (listed prefix i (x :: l)).
Proof. intros H. eapply ens_mono; [exact H|]. intros r [H1 H2]. split; [done|by apply numbered_skip]. Qed.

Lemma ens_blob_parts i seen l : ensures no_null (blob_parts' i seen l) (listed "blob_attachment_" i l).
Proof.
  revert i seen. induction l as [|b l IH]; intros i seen; cbn [blob_parts]; [apply ens_list_nil|].
  destruct (_ && _); [apply ens_list_skip, IH|]. apply ens_list_cons; [apply ens_blob|apply IH].
Qed.

Lemma ens_legacy_parts i l : ensures no_null (legacy_parts' i l) (listed "attachment_" i l).
Proof.
  revert i. induction l as [|b l IH]; intros i; cbn [legacy_parts]; [apply ens_list_nil|].
  apply ens_list_cons; [apply ens_legacy|apply IH].
Qed.

Lemma ens_xma_parts i l : ensures no_null (xma_parts' i l) (listed "xma_attachment_" i l).
Proof.
  revert i. induction l as [|b l IH]; intros i; cbn [xma_parts]; [apply ens_list_nil|].
  destruct (_ || _); [apply ens_list_skip, IH|]. apply ens_list_cons; [apply ens_xma|apply IH].
Qed.

Lemma ens_sticker_parts i l : ensures no_null (sticker_parts' i l) (listed "sticker_" i l).
Proof.
  revert i. induction l as [|b l IH]; intros i; cbn [sticker_parts]; [apply ens_list_nil|].
  apply ens_list_cons; [apply ens_sticker|apply IH].
Qed.

#[local] Abbreviation link_previews' := (link_previews BypassOnionForMedia MaxFileSize DirectMedia portal_Receiver portal_MXID
  messageID ffmpeg_Supported ExtensionFromMimetype url_Parse).

Lemma ens_link_previews i l : Forall (fun x => isProbablyURLPreview x = true) l -> ensures no_null (link_previews' i l) (fun _ => True).
Proof.
  intros H. revert i. induction H as [|x l Hx _ IH]; intros i; cbn [link_previews]; [by apply ens_ret|].
  eapply ens_bind; [by apply ens_preview|]. intros p _. eapply ens_bind; [apply IH|]. intros r _. by apply ens_ret.
Qed.

(** ** Texts *)

Lemma parse_mentions_returns i ids os ls ts : is_halt (Mentions.parse_mentions i ids os ls ts) = false.
Proof.
  revert i os ls ts. induction ids as [|id ids IH]; intros i [|o os] [|l ls] [|t ts]; try done. cbn.
  destruct (ParseInt 10 id) as [u [e|]]; [done|]. destruct (Atoi o) as [o' [e|]]; [done|]. destruct (Atoi l) as [l' [e|]]; [done|].
  specialize (IH (i + 1) os ls ts). by destruct (Mentions.parse_mentions _ _ _ _ _).
Qed.

Lemma Parse_returns md : is_halt (Mentions.Parse Sort md) = false.
Proof.
  unfold Mentions.Parse. destruct md as [md|]; [|done]. destruct (_ =? _)%string; [done|]. destruct (_ || _); [done|].
  pose proof (parse_mentions_returns 0 (Split "," (Mentions.MentionIDs md)) (Split "," (Mentions.MentionOffsets md))
    (Split "," (Mentions.MentionLengths md)) (Split "," (Mentions.MentionTypes md))) as H.
  by destruct (Mentions.parse_mentions _ _ _ _ _).
Qed.

(** The lists of mentions of a message. *)
Definition mention_data (w : WrappedMessage) : Mentions.MentionData :=
  Mentions.mkMentionData (msg_str "MentionIds" w) (msg_str "MentionOffsets" w) (msg_str "MentionLengths" w) (msg_str "MentionTypes" w).

(** No mention of the message has a negative length or an end that is no [int]. *)
Definition mentions_fit (w : WrappedMessage) : Prop :=
  forall ms, Mentions.Parse Sort (Some (mention_data w)) = Ok ms ->
    Forall (fun m => 0 <= Mentions.Length m /\ Mentions.Offset m + Mentions.Length m < 2 ^ 63) ms.

Lemma message_text_total w (Hg : forall user, is_halt (GetGhostByID user) = false) : mentions_fit w ->
  exists c, message_text Sort GetGhostByID GetCachedUserLoginByID MatrixToURL TextToHTML w = Ok c.
Proof.
  intros Hf. unfold message_text. fold (mention_data w).
  assert (exists c, Mentions.MetaToMatrixText Sort GetGhostByID GetCachedUserLoginByID MatrixToURL TextToHTML (msg_str "Text" w)
    (Some (mention_data w)) = Ok c) as [c ->]; [|by eexists].
  pose proof (Parse_returns (Some (mention_data w))) as Hp.
  destruct (Mentions.Parse Sort (Some (mention_data w))) as [ms|e|h] eqn:E; [|by eexists; unfold Mentions.MetaToMatrixText; rewrite E|done].
  apply (Mentions.incoming_text_converted Sort _ _ _ _ _ _ ms Hg E). by apply Hf.
Qed.

#[local] Abbreviation text_part' := (text_part BypassOnionForMedia MaxFileSize DirectMedia portal_Receiver portal_MXID
  messageID ffmpeg_Supported ExtensionFromMimetype url_Parse Sort GetGhostByID GetCachedUserLoginByID MatrixToURL TextToHTML).

Lemma ens_text_part w previews snippet (Hg : forall user, is_halt (GetGhostByID user) = false) : mentions_fit w ->
  Forall (fun x => isProbablyURLPreview x = true) previews -> ensures no_null (text_part' w previews snippet) (named "text").
Proof.
  intros Hf Hp. unfold text_part. destruct (message_text_total w Hg Hf) as [c Hc].
  eapply ens_bind; [by apply ens_res_some; eexists|]. intros c' _. cbv zeta.
  eapply ens_bind; [by apply ens_link_previews|]. intros ps _.
  destruct (if snippet : bool then _ else _) as [c2 x]. apply ens_ret. by left.
Qed.

(** ** Messages *)

(** The sizes of the lists are those of slices. *)
Definition fits (w : WrappedMessage) : Prop :=
  llen (BlobAttachments w) + llen (Attachments w) + llen (XMAAttachments w) + llen (Stickers w) < 2 ^ 63 - 1.

(** What is known of the parts before they are numbered: every part has an id it may go by,
    those ids differ, and two parts have one that is kept. *)
Record raw_ok (r : list Part * list string) : Prop := {
  raw_some : r.1 <> [];
  raw_ids : exists gids, Forall2 named gids r.1 /\ NoDup gids /\ Forall lettered gids;
  raw_size : llen r.1 < 2 ^ 63;
  raw_two : length r.1 = 2%nat -> r.2 <> []
}.

Lemma numbered_length {A} prefix i (l : list A) ids : 0 <= i -> i + llen l < 2 ^ 63 -> numbered prefix i l ids -> llen ids <= llen l.
Proof.
  intros Hi Hl Hn. destruct Hn as (ks & -> & H1 & H2). rewrite length_map.
  clear Hi Hl. revert i l H2. induction H1 as [|k ks _ IH Hk]; intros i l H2; [cbn; lia|].
  apply Forall_cons in H2 as [Hb H2].
  assert (Forall (fun j => k + 1 <= j < k + 1 + (i + llen l - k - 1)) ks) as Hr.
  { rewrite Forall_forall in Hk, H2 |- *. intros j Hj. specialize (Hk _ Hj). specialize (H2 _ Hj). cbn beta in *. lia. }
  destruct l as [|x l]; [cbn in Hb; lia|].
  specialize (IH (k + 1) (take (Z.to_nat (i + llen (x :: l) - k - 1)) (x :: l))).
  rewrite length_take_le in IH by lia. cbn [length] in *. rewrite Z2Nat.id in IH by lia. specialize (IH Hr). lia.
Qed.

Lemma starts_lettered c l : (is_digit c || (c =? "-")%char) = false -> Forall (starts c) l -> Forall lettered l.
Proof. intros Hc H. eapply Forall_impl; [exact H|]. intros s Hs. by exists c. Qed.

(** The four lists one after the other, and an id for the text. *)
Lemma all_ids_ok w b l x s : fits w -> numbered "blob_attachment_" 0 (BlobAttachments w) b -> numbered "attachment_" 0 (Attachments w) l ->
  numbered "xma_attachment_" 0 (XMAAttachments w) x -> numbered "sticker_" 0 (Stickers w) s ->
  NoDup (b ++ l ++ x ++ s ++ ["text"%string]) /\ Forall lettered (b ++ l ++ x ++ s ++ ["text"%string]).
Proof.
  unfold fits. intros Hf Hb Hl Hx Hs.
  assert (NoDup b /\ NoDup l /\ NoDup x /\ NoDup s) as (Nb & Nl & Nx & Ns) by (split_and!; eapply numbered_NoDup; try eassumption; lia).
  apply numbered_starts in Hb, Hl, Hx, Hs.
  assert (Forall (starts "t") ["text"%string]) as Ht by (constructor; [by eexists|done]).
  split; [|repeat rewrite Forall_app; split_and!; (eapply starts_lettered; [|eassumption]; done)].
  assert (forall c (P : ascii -> Prop) r, P c -> Forall (starts c) r -> Forall (fun s => exists c', P c' /\ starts c' s) r) as Hw.
  { intros c P r Hc H. eapply Forall_impl; [exact H|]. intros z Hz. by exists c. }
  apply (NoDup_app_starts "b" (fun c => c ∈ ["a"; "x"; "s"; "t"]%char)); [done| |done|..].
  - apply (NoDup_app_starts "a" (fun c => c ∈ ["x"; "s"; "t"]%char)); [done| |done|..].
    + apply (NoDup_app_starts "x" (fun c => c ∈ ["s"; "t"]%char)); [done| |done|..].
      * apply (NoDup_app_starts "s" (fun c => c ∈ ["t"]%char)); [done|apply NoDup_singleton|done|..]; [|set_solver].
        eapply Hw; [|exact Ht]. set_solver.
      * repeat rewrite Forall_app. split; [eapply Hw; [|exact Hs]|eapply Hw; [|exact Ht]]; set_solver.
      * set_solver.
    + repeat rewrite Forall_app. split_and!; [eapply Hw; [|exact Hx]|eapply Hw; [|exact Hs]|eapply Hw; [|exact Ht]]; set_solver.
    + set_solver.
  - repeat rewrite Forall_app.
    split_and!; [eapply Hw; [|exact Hl]|eapply Hw; [|exact Hx]|eapply Hw; [|exact Hs]|eapply Hw; [|exact Ht]]; set_solver.
  - set_solver.
Qed.

#[local] Abbreviation message_parts' := (message_parts BypassOnionForMedia MaxFileSize DisableViewOnce DirectMedia platform has_instagram
  portal_Receiver portal_MXID messageID ShouldFetchXMA ffmpeg_Supported ExtensionFromMimetype url_Parse EnsureHasHTML
  Sort GetGhostByID GetCachedUserLoginByID MatrixToURL TextToHTML).
#[local] Abbreviation ToMatrix' := (ToMatrix BypassOnionForMedia MaxFileSize DisableViewOnce DirectMedia platform has_instagram
  portal_ID portal_Receiver portal_MXID messageID ShouldFetchXMA ffmpeg_Supported ExtensionFromMimetype url_Parse EnsureHasHTML
  MergeCaption Sort GetGhostByID GetCachedUserLoginByID MatrixToURL TextToHTML).

Lemma ens_message_parts w (Hg : forall user, is_halt (GetGhostByID user) = false) : fits w -> mentions_fit w ->
  ensures no_null (message_parts' w) raw_ok.
Proof.
  intros Hf Hm. unfold message_parts. eapply ens_bind; [apply ens_blob_parts|]. intros [bp b] [Fb Nb].
  eapply ens_bind; [apply ens_legacy_parts|]. intros [lp l] [Fl Nl]. eapply ens_bind; [apply ens_xma_parts|]. intros [xp x] [Fx Nx].
  eapply ens_bind; [apply ens_sticker_parts|]. intros [sp s] [Fs Ns]. cbv zeta. cbn [fst snd] in *.
  set (previews := filter _ (XMAAttachments w)).
  assert (Forall (fun x => isProbablyURLPreview x = true) previews) as Hp.
  { apply Forall_forall. intros y [Hy _]%list_elem_of_filter. by apply Is_true_eq_true. }
  destruct (all_ids_ok w b l x s Hf Nb Nl Nx Ns) as [Hd Hl].
  assert (llen b + llen l + llen x + llen s < 2 ^ 63 - 1) as Hsize.
  { unfold fits in Hf. apply numbered_length in Nb, Nl, Nx, Ns; lia. }
  eapply (ens_bind _ _ _ (fun t => t = [] \/ exists p, t = [p] /\ named "text" p)).
  { destruct (_ || _); [|apply ens_ret; by left]. eapply ens_bind; [by apply ens_text_part|]. intros p Hnp. apply ens_ret.
    right. by exists p. }
  intros t Ht. apply ens_ret.
  pose proof (Forall2_length _ _ _ Fb) as Lb. pose proof (Forall2_length _ _ _ Fl) as Ll.
  pose proof (Forall2_length _ _ _ Fx) as Lx. pose proof (Forall2_length _ _ _ Fs) as Ls.
  assert (exists gids, Forall2 named gids (bp ++ lp ++ xp ++ sp ++ t) /\ NoDup gids /\ Forall lettered gids) as Hids.
  { destruct Ht as [->|(p & -> & Hnp)].
    - exists (b ++ l ++ x ++ s). rewrite app_nil_r. split; [by repeat apply Forall2_app|].
      rewrite !app_assoc in Hd, Hl. apply NoDup_app in Hd as (Hd & _ & _). apply Forall_app in Hl as [Hl _]. by rewrite <- !app_assoc in Hd, Hl.
    - exists (b ++ l ++ x ++ s ++ ["text"%string]). split; [|done]. repeat apply Forall2_app; try done. by constructor. }
  assert (length t <= 1)%nat as Lt by (destruct Ht as [->|(p & -> & _)]; cbn; lia).
  destruct (bp ++ lp ++ xp ++ sp ++ t) as [|p ps] eqn:E; cbn [fst snd].
  - split; [done| |cbn; lia|done]. exists ["text"%string]. split; [constructor; [by left|constructor]|].
    split; [apply NoDup_singleton|constructor; [exists "t"%char; split; [done|by eexists]|constructor]].
  - assert (length (p :: ps) = length bp + length lp + length xp + length sp + length t)%nat as Le by (rewrite <- E, !length_app; lia).
    split; [done|done|cbn [fst]; lia|]. intros H2 Hnil. cbn [fst snd] in *.
    apply app_eq_nil in Hnil as [-> Hnil]. apply app_eq_nil in Hnil as [-> Hnil]. apply app_eq_nil in Hnil as [-> Hnil].
    apply app_eq_nil in Hnil as [-> _]. cbn in *. lia.
Qed.

(** C3. A message that comes in is converted, whatever becomes of its files and of the posts it
    shares: to no part at all when it was unsent, and else to at least one part, with ids that
    all differ.  This holds where the server's data is as the code expects it: no answer of
    Instagram is null where the code takes an object, no mention has a negative length or an end
    that is no [int], and the attachments are fewer than 2^63; and where the bridge's own
    functions behave: looking up a ghost does not panic, and merging a caption makes one part of
    two.  Where an answer is null or a mention has a negative length the code panics instead,
    and there is no message. *)
Theorem message_is_converted w tr r (Hg : forall user, is_halt (GetGhostByID user) = false)
    (Hm : forall ps l, MergeCaption ps = Some l -> length ps = 2%nat /\ exists p, l = [p])
    (Hsize : fits w) (Hfit : mentions_fit (thumbs_up_text w)) (Hnull : Forall no_null tr) (Hr : runs (ToMatrix' w) tr r) :
  exists cm w', r = Ok (cm, w') /\ NoDup (PartID <$> ConvParts cm)
    /\ (ConvParts cm = [] <-> msg_bool "IsUnsent" w = true).
Proof.
  revert tr r Hr Hnull. cut (ensures no_null (ToMatrix' w) (fun r => NoDup (PartID <$> ConvParts r.1)
    /\ (ConvParts r.1 = [] <-> msg_bool "IsUnsent" w = true))).
  { intros H tr r Hr Hn. destruct (H tr r Hr Hn) as ([cm w'] & -> & H'). by exists cm, w'. }
  unfold ToMatrix. destruct (msg_bool "IsUnsent" w); [apply ens_ret; split; [constructor|done]|]. cbv zeta.
  assert (fits (thumbs_up_text w)) as Hs by (unfold thumbs_up_text, fits in *; destruct (_ && _); cbn; lia).
  eapply ens_bind; [by apply ens_message_parts|]. intros r [H1 (gids & G1 & G2 & G3) H3 H4].
  destruct (reply_of _) as [reply root]. unfold merge_caption.
  pose proof (finished_NoDup _ _ G1 G2 G3 H3) as Hd.
  destruct (MergeCaption _) as [ps|] eqn:Em.
  - destruct (Hm _ _ Em) as [L2 [p ->]]. rewrite length_imap in L2. destruct r.2 as [|i ids] eqn:Ei; [by destruct (H4 L2)|].
    apply ens_ret. cbn. split; [apply NoDup_singleton|by split].
  - apply ens_ret. cbn. split; [exact Hd|]. split; [|done]. intros E. by destruct r.1.
Qed.

(** ** What is uploaded *)

(** The stream of an upload is only opened for a file within the limit, and only when files are
    copied. *)
Definition small_upload (q : ConvReq) : Prop :=
  match q with QOpenUpload room size _ => room = portal_MXID /\ size <= MaxFileSize /\ DirectMedia = false | _ => True end.

Ltac small := repeat (asks_step; try exact I); auto with asks.

Lemma small_put k v p : asks_only small_upload (put_extra k v p).
Proof. unfold put_extra. small. Qed.
#[local] Hint Resolve small_put : asks.

Lemma small_fill r b1 b2 b3 n m w h : asks_only small_upload (fill_upload ExtensionFromMimetype r b1 b2 b3 n m w h).
Proof. unfold fill_upload, detect_mime, convert_voice, image_size. small. Qed.

Lemma small_reupload id t url n m s w h d refresh : asks_only small_upload (reupload id t url n m s w h d refresh).
Proof.
  unfold reuploadAttachment. destruct (url =? "")%string; [small|]. destruct DirectMedia eqn:Ed; [unfold direct_attachment; small|].
  unfold copied_attachment. apply asks_bind_runs; [by apply asks_embed_media|]. intros [size [rc|e]] tr Hd; cbn [fst snd]; [|small].
  destruct (embed_media_runs _ _ _ Hd) as (x & tr' & E & Hr). injection E as <-. apply download_bounded in Hr.
  apply asks_bind; [by refine (asks_ask _ (QOpenUpload _ _ _) _)|]. intros [e|]; [small|]. apply asks_bind; [apply small_fill|]. intros [res [[[n' m'] w'] h']]. small.
Qed.
#[local] Hint Resolve small_reupload : asks.

Lemma small_fetched_post id att minimal item refresh user url : asks_only small_upload (fetched_post' id att minimal item refresh user url).
Proof. unfold fetched_post, instagramFetchedMediaToMatrix, with_thumbnail, fetch_status, set_external_url. small. Qed.
#[local] Hint Resolve small_fetched_post : asks.

Lemma small_fetchFullXMA id att p : asks_only small_upload (fetchFullXMA' id att p).
Proof. unfold fetchFullXMA, fetch_post, fetch_story, fetch_story2, fetch_status, set_external_url. small. Qed.
#[local] Hint Resolve small_fetchFullXMA : asks.

Lemma small_blob_parts i seen l : asks_only small_upload (blob_parts' i seen l).
Proof. revert i seen. induction l as [|b l IH]; intros i seen; cbn [blob_parts]; unfold blobAttachmentToMatrix; small. Qed.

Lemma small_legacy_parts i l : asks_only small_upload (legacy_parts' i l).
Proof. revert i. induction l as [|b l IH]; intros i; cbn [legacy_parts]; unfold legacyAttachmentToMatrix; small. Qed.

Lemma small_sticker_parts i l : asks_only small_upload (sticker_parts' i l).
Proof. revert i. induction l as [|b l IH]; intros i; cbn [sticker_parts]; unfold stickerToMatrix; small. Qed.

Lemma small_post_texts att p : asks_only small_upload (post_texts att p).
Proof. unfold post_texts. small. Qed.
Lemma small_caption_action att p : asks_only small_upload (caption_action' att p).
Proof. unfold caption_action, set_external_url. small. Qed.
#[local] Hint Resolve small_blob_parts small_legacy_parts small_sticker_parts small_post_texts small_caption_action : asks.

Lemma small_xma_parts i l : asks_only small_upload (xma_parts' i l).
Proof.
  revert i. induction l as [|b l IH]; intros i; cbn [xma_parts]; unfold xmaAttachmentToMatrix, xmaFileToMatrix; small.
Qed.

Lemma small_link_previews i l : asks_only small_upload (link_previews' i l).
Proof. revert i. induction l as [|b l IH]; intros i; cbn [link_previews]; unfold urlPreviewToBeeper; small. Qed.
#[local] Hint Resolve small_xma_parts small_link_previews : asks.

(** No message makes the bridge upload a file over the limit: a file whose size the server
    announces to be larger is never offered to the homeserver, whatever attachment, sticker,
    post or preview it belongs to; and nothing at all is uploaded when files stay where they
    are. *)
Theorem large_files_stay w tr r : runs (ToMatrix' w) tr r -> Forall (fun e => small_upload (asked e)) tr.
Proof. revert tr r. change (asks_only small_upload (ToMatrix' w)). unfold ToMatrix, message_parts, text_part. small. Qed.

(** ** Copies of an attachment *)

(** The numbers of the attachments that are bridged: those without an id, and the first of those
    with the same. *)
Definition kept (l : list Inst) (k : nat) : Prop :=
  exists b, l !! k = Some b /\ (blob_str "AttachmentFbid" b = ""%string \/
    forall j b', (j < k)%nat -> l !! j = Some b' -> blob_str "AttachmentFbid" b' <> blob_str "AttachmentFbid" b).

(** Which of [l] are bridged, after those with the ids [seen]. *)
Fixpoint kept_from (i : Z) (seen : list string) (l : list Inst) : list Z :=
  match l with
  | [] => []
  | b :: l =>
      let fbid := blob_str "AttachmentFbid" b in
      if negb (fbid =? "")%string && existsb (String.eqb fbid) seen then kept_from (i + 1) seen l
      else i :: kept_from (i + 1) (fbid :: seen) l
  end.

Lemma blob_parts_ids i seen l : ensures no_null (blob_parts' i seen l) (fun r =>
  r.2 = map (fun k => "blob_attachment_" ++ FormatInt 10 k)%string (kept_from i seen l) /\ length r.1 = length r.2).
Proof.
  revert i seen. induction l as [|b l IH]; intros i seen; cbn [blob_parts kept_from]; [by apply ens_ret|].
  destruct (_ && _); [apply IH|]. eapply ens_bind; [apply ens_blob|]. intros p _. eapply ens_bind; [apply IH|].
  intros [ps ids] [H1 H2]. apply ens_ret. cbn in *. split; [by rewrite H1|by rewrite H2].
Qed.

Lemma elem_kept_from l i seen k : (k ∈ kept_from i seen l) <-> exists n b, k = i + Z.of_nat n /\ l !! n = Some b /\
  (blob_str "AttachmentFbid" b = ""%string \/ (blob_str "AttachmentFbid" b ∉ seen) /\
    forall j b', (j < n)%nat -> l !! j = Some b' -> blob_str "AttachmentFbid" b' <> blob_str "AttachmentFbid" b).
Proof.
  revert i seen. induction l as [|b l IH]; intros i seen; cbn [kept_from].
  { split; [by intros ?%not_elem_of_nil|by intros (n & b & _ & ? & _)]. }
  set (fbid := blob_str "AttachmentFbid" b).
  assert (existsb (String.eqb fbid) seen = true <-> fbid ∈ seen) as Hseen.
  { rewrite existsb_exists. setoid_rewrite <- list_elem_of_In. split; [intros (y & Hy & ->%String.eqb_eq); done|intros H; exists fbid; by rewrite String.eqb_refl]. }
  destruct (negb (fbid =? "")%string && existsb (String.eqb fbid) seen) eqn:E.
  - apply andb_prop in E as [E1 E2%Hseen]. apply negb_true_iff, String.eqb_neq in E1. rewrite IH. split.
    + intros (n & c & -> & Hn & H). exists (S n), c. split; [lia|]. split; [done|]. destruct H as [H|[H1 H2]]; [by left|right].
      split; [done|]. intros [|j] b' Hj Hb'; [injection Hb' as <-; fold fbid; congruence|]. by apply (H2 j); [lia|].
    + intros ([|n] & c & -> & Hn & H).
      { injection Hn as <-. fold fbid in H. by destruct H as [H|[H _]]. }
      exists n, c. split; [lia|]. split; [done|]. destruct H as [H|[H1 H2]]; [by left|right].
      split; [done|]. intros j b' Hj Hb'. by apply (H2 (S j)); [lia|].
  - assert (fbid = ""%string \/ fbid ∉ seen) as Hb.
    { apply andb_false_iff in E as [E|E]; [left; by apply negb_false_iff, String.eqb_eq in E|right]. intros H%Hseen. congruence. }
    rewrite elem_of_cons, IH. split.
    + intros [->|(n & c & -> & Hn & H)].
      { exists 0%nat, b. split; [lia|]. split; [done|]. fold fbid. destruct Hb; [by left|right]. split; [done|]. intros j b' Hj. lia. }
      exists (S n), c. split; [lia|]. split; [done|]. destruct H as [H|[H1 H2]]; [by left|right].
      apply not_elem_of_cons in H1 as [H0 H1]. split; [done|].
      intros [|j] b' Hj Hb'; [injection Hb' as <-; fold fbid; congruence|]. by apply (H2 j); [lia|].
    + intros ([|n] & c & -> & Hn & H); [left; lia|right]. exists n, c. split; [lia|]. split; [done|].
      destruct H as [H|[H1 H2]]; [by left|right]. split.
      * apply not_elem_of_cons. split; [|done]. intros E'. by apply (H2 0%nat b); [lia|..].
      * intros j b' Hj Hb'. by apply (H2 (S j)); [lia|].
Qed.

(** An attachment of which the server sends several copies, with the same id, becomes one
    part, and every attachment without an id, or with one of its own, becomes one as well: the
    parts are those of the first copies, under the names of their places. *)
Theorem copies_bridged_once l tr r (Hsize : llen l < 2 ^ 63) (Hnull : Forall no_null tr) (Hr : runs (blob_parts' 0 [] l) tr r) :
  exists ps ids, r = Ok (ps, ids) /\ length ps = length ids /\
    forall k, (k < length l)%nat -> (("blob_attachment_" ++ FormatInt 10 (Z.of_nat k))%string ∈ ids <-> kept l k).
Proof.
  destruct (blob_parts_ids 0 [] l tr r Hr Hnull) as ([ps ids] & -> & Hids & Hlen). cbn [fst snd] in *.
  exists ps, ids. split; [done|]. split; [done|]. intros k Hk. rewrite Hids. unfold kept. split.
  - intros (z & E & Hz)%list_elem_of_fmap. apply string_app_inj in E. apply elem_kept_from in Hz as (n & b & -> & Hn & H).
    pose proof (lookup_lt_Some _ _ _ Hn) as Hnl.
    apply FormatInt_inj in E; [|unfold in_int; change (64 - 1) with 63; lia..]. assert (n = k) as -> by lia.
    exists b. split; [done|]. destruct H as [H|[_ H]]; [by left|by right].
  - intros (b & Hb & H). apply list_elem_of_fmap. exists (Z.of_nat k). split; [done|]. apply elem_kept_from. exists k, b.
    split; [lia|]. split; [done|]. destruct H as [H|H]; [by left|right]. split; [apply not_elem_of_nil|done].
Qed.

(** C13. A shared post whose action has an address keeps one: whatever becomes of its file and of
    the attempt to fetch it in full, the part has an address and shows it in its text, except
    for a post with a title that has no file at all, neither a playable one nor a preview: that
    one becomes its bare title.  No answer of the server is null where the code does not expect
    it, and the upload fails with errors of its own. *)
Theorem shared_post_keeps_address id att cta tr r (Hcta : CTA att = Some cta) (Hurl : cta_str "ActionUrl" cta <> ""%string)
    (Hnull : Forall well_answered tr) (Hr : runs (xmaFileToMatrix' id att) tr r) :
  exists p, r = Ok p /\
    if (xma_str "PlayableUrl" att =? "")%string && (xma_str "PreviewUrl" att =? "")%string && negb (xma_str "TitleText" att =? "")%string
    then p = message_part (text_content (xma_str "TitleText" att))
    else keeps_address p.
Proof.
  unfold xmaFileToMatrix in Hr. cbv zeta in Hr.
  set (has_none := (xma_str "PlayableUrl" att =? "")%string && (xma_str "PreviewUrl" att =? "")%string).
  destruct (if (_ =? _)%string then _ else _) as [[[url mime] w] h] eqn:Eu.
  assert (url = ""%string <-> has_none = true) as Hurl0.
  { unfold has_none. destruct (String.eqb_spec (xma_str "PlayableUrl" att) ""); injection Eu as <- _ _ _; cbn [andb]; [by rewrite String.eqb_eq|by split]. }
  apply run_bind in Hr as (r1 & t1 & t2 & -> & H1 & H2). apply Forall_app in Hnull as [N1 N2].
  assert (Forall no_null t2) as N2' by (eapply Forall_impl; [exact N2|]; by intros e [? _]).
  destruct (ens_not_found _ _ _ _ _ _ _ _ _ _ _ _ H1 N1) as (a & -> & Ha & Hf).
  destruct (ens_xma_rest id att a Ha t2 r H2 N2') as (p & -> & H). exists p. split; [done|].
  destruct (has_none && negb (xma_str "TitleText" att =? "")%string) eqn:Ec.
  - apply andb_prop in Ec as [Ec1 Ec2]. apply Hurl0 in Ec1. subst url. unfold reuploadAttachment in H1. cbn [String.eqb] in H1. apply run_ret in H1 as [-> [= ->]].
    rewrite autoplay_title, Ec2 in H2. apply run_ret in H2 as [_ [= <-]]. done.
  - destruct H as [[_ H]|(-> & Ht & _)]; [by eapply H|]. exfalso. apply andb_false_iff in Ec as [Ec|Ec].
    + specialize (Hf eq_refl). apply Hurl0 in Hf. congruence.
    + by apply negb_false_iff, String.eqb_eq in Ec.
Qed.
End Proofs.

(** ** The best version *)

Definition area (v : Version) : Z := ver_Width v * ver_Height v.
Definition area_ok (v : Version) : Prop := 0 <= area v < 2 ^ 63.

(** [best] is no smaller than the versions so far, and one of them once one was found. *)
Record best_of (seen : list Version) (best : (string * Z * Z) * bool) : Prop := {
  best_bounded : forall v, v ∈ seen -> area v <= best.1.1.2 * best.1.2;
  best_range : 0 <= best.1.1.2 * best.1.2 < 2 ^ 63;
  best_found : if best.2 then exists v, v ∈ seen /\ best.1 = (ver_URL v, ver_Width v, ver_Height v) /\ 0 < area v
               else best.1 = (""%string, 0, 0)
}.

Lemma better_version_best seen best v : best_of seen best -> area_ok v -> best_of (seen ++ [v]) (better_version best v).
Proof.
  intros [H1 H2 H3] Hv. destruct best as [[[url w] h] found]. unfold area_ok, area in *. cbn [fst snd] in *.
  unfold better_version. rewrite !intN_small by (unfold in_int; change (64 - 1) with 63; lia). rewrite Z.gtb_ltb.
  destruct (Z.ltb_spec (w * h) (ver_Width v * ver_Height v)) as [Hlt|Hge].
  - split; cbn [fst snd]; [|lia|].
    + intros v' [Hin| ->%list_elem_of_singleton]%elem_of_app; [|done]. specialize (H1 _ Hin). unfold area in *. lia.
    + exists v. unfold area. split; [apply elem_of_app; right; by apply list_elem_of_singleton|]. split; [done|lia].
  - split; cbn [fst snd]; [|lia|].
    + intros v' [Hin| ->%list_elem_of_singleton]%elem_of_app; [by apply H1|done].
    + destruct found; [|done]. destruct H3 as (v' & Hin & E & Hp). exists v'. split; [apply elem_of_app; by left|done].
Qed.

Lemma best_versions vs : Forall area_ok vs -> forall seen best, best_of seen best -> best_of (seen ++ vs) (foldl better_version best vs).
Proof.
  induction 1 as [|v vs Hv _ IH]; intros seen best Hb; [by rewrite app_nil_r|].
  rewrite cons_middle, app_assoc. apply IH. by apply better_version_best.
Qed.

(** The file of a post is the largest of its videos, or of its images when no video has a
    size: one of them, and none of them larger. *)
Theorem best_version_largest videos images (Hv : Forall area_ok videos) (Hi : Forall area_ok images)
    (Hpos : exists v, v ∈ videos ++ images /\ 0 < area v) :
  let from := if existsb (fun v => 0 <? area v) videos then videos else images in
  exists v, v ∈ from /\ best_version videos images = (ver_URL v, ver_Width v, ver_Height v) /\ forall v', v' ∈ from -> area v' <= area v.
Proof.
  assert (best_of [] (""%string, 0, 0, false)) as H0 by (split; cbn; [by intros v ?%not_elem_of_nil|lia|done]).
  pose proof (best_versions _ Hv [] _ H0) as Hb. cbn [app] in Hb. unfold best_version.
  destruct (foldl better_version _ videos) as [best found]. destruct Hb as [B1 B2 B3]. cbn [fst snd] in *.
  destruct found.
  - destruct B3 as (v & Hin & -> & Hp). cbn [fst snd] in *.
    assert (existsb (fun v => 0 <? area v) videos = true) as ->.
    { apply existsb_exists. exists v. split; [by apply list_elem_of_In|by apply Z.ltb_lt]. }
    exists v. split; [done|]. split; [done|]. exact B1.
  - subst best. cbn [fst snd] in *.
    assert (existsb (fun v => 0 <? area v) videos = false) as ->.
    { apply not_true_is_false. intros (v & Hin%list_elem_of_In & Hp%Z.ltb_lt)%existsb_exists. specialize (B1 _ Hin). lia. }
    pose proof (best_versions _ Hi [] _ H0) as Hb. cbn [app] in Hb.
    destruct (foldl better_version _ images) as [best found]. destruct Hb as [C1 C2 C3]. cbn [fst snd] in *.
    destruct found; [destruct C3 as (v & Hin & -> & Hp); by exists v|]. subst best. cbn [fst snd] in *.
    destruct Hpos as (v & [Hin|Hin]%elem_of_app & Hp); [specialize (B1 _ Hin)|specialize (C1 _ Hin)]; lia.
Qed.

(** * Examples *)

(** A world in which requests for files fail, those for posts are answered with one post, and
    everything else works. *)
Definition demo_item : Item := mkItem "1" "1" [mkVersion 10 20 "https://v.example/1.mp4"] [] 3000 "someone" None.

Definition demo_env (q : ConvReq) (s : unit) : conv_answer q * unit :=
  (match q return conv_answer q with
   | QMedia m => match m return media_answer m with
                 | QNewMediaRequest _ => None
                 | QDoMedia _ => inl (mkMediaResponse 200 100 None "" 0%nat)
                 | QReadBody _ _ => ([], Some EOF)
                 | QCloseBody _ => tt
                 end
   | QGenerateContentURI _ => inl "mxc://uri"%string
   | QOpenUpload _ _ _ => None
   | QCopy _ | QSeek | QRename _ => None
   | QDetectMime => inl "image/png"%string
   | QConvertPath => inl "path"%string
   | QDecodeConfig => Some (3, 4)
   | QFinishUpload _ => inl ("mxc://uri"%string, None)
   | QFetchMedia _ _ => inl (Some [Some demo_item])
   | QFetchReel _ _ => inl (Some ∅)
   | QDownloadFB _ _ => inl "data"%string
   | QConvertBytes _ _ => inl "data"%string
   | QUploadMedia _ _ _ _ => inl ("mxc://uri"%string, None)
   | QUpdateDisappearing _ _ _ _ => (0, ""%string)
   end, s).

Lemma demo_sound q s : no_null (Event q (demo_env q s).1).
Proof. destruct q; try exact I; cbn; [by repeat constructor|by intros ? ? ?%lookup_empty_Some]. Qed.

Lemma demo_well_answered q s : well_answered (Event q (demo_env q s).1).
Proof. split; [apply demo_sound|]. by destruct q. Qed.

Definition demo_url (url : string) : option (string * (string -> string)) := Some ("/"%string, fun _ => ""%string).
Definition no_merge (l : list Part) : option (list Part) := None.
Definition demo_blob : Inst :=
  row_set LSInsertBlobAttachment "AttachmentFbid" (VStr "7")
    (row_set LSInsertBlobAttachment "PlayableUrl" (VStr "https://v.example/7.png") (reflect_New LSInsertBlobAttachment)).
Definition demo_cta : Inst :=
  row_set LSInsertAttachmentCta "ActionUrl" (VStr "https://www.instagram.com/p/abc/")
    (row_set LSInsertAttachmentCta "NativeUrl" (VStr "instagram://media/?shortcode=abc") (reflect_New LSInsertAttachmentCta)).
Definition demo_post : WrappedXMA :=
  mkWrappedXMA (row_set LSInsertXmaAttachment "PreviewUrl" (VStr "https://v.example/1.jpg") (reflect_New LSInsertXmaAttachment)) (Some demo_cta).
Definition demo_message : WrappedMessage :=
  mkWrappedMessage (row_set LSInsertMessage "Text" (VStr "hello") (reflect_New LSInsertMessage)) true [demo_blob; demo_blob] [] [demo_post] [] [] "" false.

Definition demo_ToMatrix : CM (ConvertedMessage * WrappedMessage) :=
  ToMatrix false 1000 false false Instagram true "1" "1" "!room" "fb:mid.1" true false (fun _ => "")%string demo_url (fun c => c)
    no_merge (fun l => l) (fun _ => Err "none") (fun _ => None) (fun s => s) (fun s => s) demo_message.

(** The copy of the picture is left out; the post is fetched in full. *)
Example demo_ids : (fun r => map (fun p => (PartID p, extra_of "fi.mau.meta.xma_fetch_status" p)) (ConvParts r.1)) <$>
    match (play demo_env demo_ToMatrix tt).1.1 with Ok r => Some r | _ => None end
  = Some [("", None); ("1", Some (XStr "success")); ("2", None)]%string.
Proof. vm_compute. reflexivity. Qed.

Lemma message_is_converted_witness : exists cm w', (play demo_env demo_ToMatrix tt).1.1 = Ok (cm, w')
  /\ NoDup (PartID <$> ConvParts cm) /\ (ConvParts cm = [] <-> msg_bool "IsUnsent" demo_message = true).
Proof.
  eapply (message_is_converted false 1000 false false Instagram true "1" "1" "!room" "fb:mid.1" true false (fun _ => "")%string demo_url
    (fun c => c) no_merge (fun l => l) (fun _ => Err "none"%string) (fun _ => None) (fun s => s) (fun s => s) demo_message
    (play demo_env demo_ToMatrix tt).1.2).
  - done.
  - done.
  - vm_compute. done.
  - intros ms H. vm_compute in H. injection H as <-. constructor.
  - apply play_sound, demo_sound.
  - apply play_runs.
Defined.

Definition count_uploads (tr : ctrace) : nat :=
  length (List.filter (fun e => match asked e with QOpenUpload _ _ _ => true | _ => false end) tr).

Lemma large_files_stay_witness :
  Forall (fun e => small_upload 1000 false "!room" (asked e)) (play demo_env demo_ToMatrix tt).1.2
  /\ count_uploads (play demo_env demo_ToMatrix tt).1.2 = 3%nat.
Proof.
  split; [|vm_compute; reflexivity].
  apply (large_files_stay false 1000 false false Instagram true "1" "1" "!room" "fb:mid.1" true false (fun _ => "")%string demo_url
    (fun c => c) no_merge (fun l => l) (fun _ => Err "none"%string) (fun _ => None) (fun s => s) (fun s => s) demo_message _ _
    (play_runs demo_env demo_ToMatrix tt)).
Defined.

Definition demo_blobs : CM (list Part * list string) :=
  blob_parts false 1000 false "1" "!room" "fb:mid.1" false (fun _ => "")%string 0 [] [demo_blob; demo_blob].

Lemma copies_bridged_once_witness : exists ps ids, (play demo_env demo_blobs tt).1.1 = Ok (ps, ids) /\ length ps = length ids /\
  forall k, (k < 2)%nat -> (("blob_attachment_" ++ FormatInt 10 (Z.of_nat k))%string ∈ ids <-> kept [demo_blob; demo_blob] k).
Proof.
  eapply (copies_bridged_once false 1000 false "1" "!room" "fb:mid.1" false (fun _ => "")%string [demo_blob; demo_blob]
    (play demo_env demo_blobs tt).1.2).
  - done.
  - apply play_sound, demo_sound.
  - apply play_runs.
Defined.

Definition demo_fetch : CM Part :=
  xmaFileToMatrix false 1000 false true "1" "!room" "fb:mid.1" true false (fun _ => "")%string demo_url (fun c => c) "xma_attachment_0" demo_post.

Lemma shared_post_keeps_address_witness : exists p, (play demo_env demo_fetch tt).1.1 = Ok p /\
  if (xma_str "PlayableUrl" demo_post =? "")%string && (xma_str "PreviewUrl" demo_post =? "")%string && negb (xma_str "TitleText" demo_post =? "")%string
  then p = message_part (text_content (xma_str "TitleText" demo_post))
  else keeps_address p.
Proof.
  eapply (shared_post_keeps_address false 1000 false true "1" "!room" "fb:mid.1" true false (fun _ => "")%string demo_url (fun c => c)
    "xma_attachment_0" demo_post demo_cta (play demo_env demo_fetch tt).1.2).
  - done.
  - done.
  - apply play_sound, demo_well_answered.
  - apply play_runs.
Defined.

Lemma best_version_largest_witness : exists v, v ∈ [mkVersion 10 20 "a"; mkVersion 30 20 "b"] /\
  best_version [mkVersion 10 20 "a"; mkVersion 30 20 "b"] [mkVersion 100 200 "c"] = (ver_URL v, ver_Width v, ver_Height v) /\
  forall v', v' ∈ [mkVersion 10 20 "a"; mkVersion 30 20 "b"] -> area v' <= area v.
Proof.
  apply (best_version_largest [mkVersion 10 20 "a"; mkVersion 30 20 "b"] [mkVersion 100 200 "c"]).
  - repeat (constructor; [by vm_compute|]). constructor.
  - repeat (constructor; [by vm_compute|]). constructor.
  - exists (mkVersion 10 20 "a"). split; [left|done].
Defined.
