(* ===== verification/FromWhatsApp.v ===== *)
(** * FromWhatsApp: encrypted messages that come in ([msgconv/from-whatsapp.go])

    The conversion of a decrypted message to the parts of a Matrix message.  The messages are
    those of the WhatsApp library, as far as the code reads them: an accessor gives the zero
    value for what is missing, and so does a field here; what the code dereferences itself is an
    [option]. *)

From S2P Require Import Prelude Strconv Text MetaID Cookies.
From S2P Require Mentions.
From S2P Require Import Media Interaction Parts FromMeta.
#[local] Open Scope Z_scope.

(** ** Messages *)

Variant Command := Command_SILENT | Command_EVERYONE | Command_AI.

Record MessageText := mkText { Text : string; Commands : list Command; MentionedJID : list string }.

(** A file of a message: where it is, its type and size ([GetTransport]). *)
Record Transport := mkTransport { tr_Integral : option Integral; tr_Mimetype : string; tr_FileLength : Z }.

(** What is known of a file beside ([Ancillary]). *)
Record Ancillary := mkAncillary { an_Width : Z; an_Height : Z; an_Seconds : Z; GifPlayback : bool; ReceiverFetchID : string }.

(** A decoded file, and its caption, where the kind of message has one. *)
Record Attachment := mkAttachment {
  Decode : (Transport * option Ancillary) + string; Caption : MessageText
}.

(** [ConsumerApplication_Content]; coordinates are as they are printed, the type of anything else
    as well. *)
Variant ViewOnce := ViewOnceImage (m : Attachment) | ViewOnceVideo (m : Attachment) | ViewOnceOther (type : string).

Inductive ConsumerContent :=
| CMessageText (t : option MessageText)
| CExtendedText (t : option MessageText)
| CImage (m : Attachment)
| CSticker (m : Attachment)
| CViewOnce (m : ViewOnce)
| CDocument (m : Attachment) (FileName : string)
| CAudio (m : Attachment)
| CVideo (m : Attachment)
| CLocation (Name Address latitude longitude : string)
| CLiveLocation (latitude longitude : string)
| CContact
| CContactsArray
| COther (type : string).

(** [ExtendedContentMessage] *)
Record ExtendedContent := mkExtended {
  ec_MessageText : string; Ctas : list string; FB_STORY_REPLY : bool; AssociatedMessage : string;
  ec_TitleText : string; ec_SubtitleText : string
}.

Variant EphemeralType := VIEW_ONCE | ALLOW_REPLAY | OtherEphemeral.

Variant RavenContent :=
| RavenImage (m : (Transport * option Ancillary) + string)
| RavenVideo (m : (Transport * option Ancillary) + string)
| RavenOther (type : string).

(** [Armadillo_Content] *)
Inductive ArmadilloContent :=
| AExtended (m : ExtendedContent)
| ABump (Participant : option string)             (* the key of the message, if there is one *)
| ARaven (type : EphemeralType) (m : RavenContent)
| ARavenMsgr (type : EphemeralType) (m : RavenContent)
| AGallery (Decode : list (Transport * option Ancillary) + string)
| AOther (type : string).

Variant WAMessage :=
| Consumer (c : ConsumerContent)
| Armadillo (c : ArmadilloContent)
| Instamadillo (EphemeralDurationSec : option Z)
| NoMessage
| OtherMessage.

(** The disappearing timer of a portal: a duration in nanoseconds, and its type. *)
Definition DisappearingSetting : Type := Z * string.
Definition DisappearingTypeNone : string := "".
Definition DisappearingTypeAfterRead : string := "after_read".
Definition DisappearingTypeAfterSend : string := "after_send".
Definition Second : Z := 1000000000.

Variant EphemeralityType := SEEN_BASED_WITH_TIMER | SEND_BASED_WITH_TIMER | EPHEMERALITY_UNKNOWN | SEEN_ONCE | OtherEphemerality.
Record EphemeralSetting := mkEphemeral {
  EphemeralExpiration : Z; EphemeralityTypeOf : EphemeralityType; EphemeralSettingTimestamp : option Z
}.

(** [events.FBMessage]: the message, what quotes another and the timer of the chat, the
    timestamp in seconds. *)
Record FBMessage := mkFBMessage {
  Message : WAMessage; ChatEphemeralSetting : option EphemeralSetting; QuotedMessage : option (string * string); Timestamp : Z
}.

(** An address as [url.Parse] reads it: its scheme and host, its text and query. *)
Record ParsedURL := mkURL { Scheme : string; Host : string; url_String : string; Query : string -> string }.

Variant MediaType := MediaImage | MediaVideo | MediaAudio | MediaDocument.
Definition media_type_name (t : MediaType) : string :=
  match t with
  | MediaImage => "WhatsApp Image Keys" | MediaVideo => "WhatsApp Video Keys"
  | MediaAudio => "WhatsApp Audio Keys" | MediaDocument => "WhatsApp Document Keys"
  end.

Definition wrapError (errmsg : string) (err : ConvError) : Part :=
  message_part (notice (match err with userVisibleError m => m | _ => errmsg end)).

Section FromWhatsApp.
Context {JID : Type} (JID_String : JID -> string) (ToNonAD : JID -> JID) (UserInt : JID -> Z).
(** [ParseJID]: what it gives with an error is used as well. *)
Context (ParseJID : string -> JID * option string).
Context (DisableViewOnce DirectMedia : bool) (platform : Platform).
Context (portal_Receiver portal_MXID messageID : string) (portal_Disappear : DisappearingSetting) (chat : JID).
Context (GetGhostByID : string -> res (string * string)) (GetCachedUserLoginByID : string -> option string)
  (MatrixToURL TextToHTML : string -> string) (EnsureHasHTML : Content -> Content)
  (ExtensionFromMimetype : string -> string) (url_Parse : string -> option ParsedURL)
  (DisappearingMessageNotice : Z -> Content)
  (UnmarshalAssociated : string -> option string + string) (UnmarshalConsumer : option string -> ConsumerContent + string).

(** [MakeWAUserID] *)
Definition MakeWAUserID (jid : JID) : string := FormatInt 10 (UserInt jid).

(** ** Texts *)

(** The commands, in order: whether the message is silent, and whether it mentions the room. *)
Definition step_command (sr : bool * bool) (c : Command) : bool * bool :=
  match c with
  | Command_SILENT => (true, false)
  | Command_EVERYONE => if sr.1 then sr else (sr.1, true)
  | Command_AI => sr
  end.

(** A mention by id: it is named, and linked in the HTML; one that is not known stays. *)
Definition step_mention (silent : bool) (c : Content * list string) (jid : string) : res (Content * list string) :=
  match ParseJID jid with
  | (_, Some _) => Ok c
  | (parsed, None) =>
      match Mentions.getBasicUserInfo GetGhostByID GetCachedUserLoginByID (MakeWAUserID parsed) with
      | Halt h => Halt h
      | Err _ => Ok c
      | Ok (mxid, displayname) =>
          let '(content, users) := c in
          let mentionText := ("@" ++ jid)%string in
          let content := set_Body (ReplaceAll (Body content) mentionText displayname) content in
          let content := set_FormattedBody (ReplaceAll (FormattedBody content) mentionText
                           (a_href (MatrixToURL mxid) (TextToHTML displayname))) content in
          Ok (content, if silent then users else users ++ [mxid])
      end
  end.

Fixpoint step_mentions (silent : bool) (jids : list string) (c : Content * list string) : res (Content * list string) :=
  match jids with
  | [] => Ok c
  | j :: jids => c ← step_mention silent c j; step_mentions silent jids c
  end.

Definition WhatsAppTextToMatrix (text : option MessageText) : CM Part :=
  match text with
  | None => panic
  | Some text =>
      let content := text_content (Text text) in
      let '(silent, room) := foldl step_command (false, false) (Commands text) in
      r ← of_res (match MentionedJID text with
                  | [] => Ok (content, [])
                  | jids => step_mentions silent jids
                              (set_FormattedBody (TextToHTML (Body content)) (set_Format "org.matrix.custom.html" content), [])
                  end);
      mret (message_part (set_Mentioned (Some (mkMentions r.2 room)) r.1))
  end.

(** ** Files *)

(** What becomes of the data of a file: data, type and name. *)
Definition convertFunc : Type := string -> string -> CM ((string * string * string) + ConvError).

Definition named_convert (name : string) : convertFunc := fun data mime =>
  mret (inl (data, mime, (name ++ ExtensionFromMimetype mime)%string)).

Definition file_content (body uri : string) (file : option string) (mime : string) (size : Z) : Content :=
  set_File file (set_URL uri (set_Body body (set_Info (Some (mkFileInfo (mkInfo mime size 0 0 0) None)) empty_content))).

Definition reuploadWhatsAppAttachment (transport : Transport) (mediaType : MediaType) (convert : option convertFunc)
    : CM (Part + ConvError) :=
  if DirectMedia then
    u ← cask (QGenerateContentURI (MakeMediaID DirectMediaTypeWhatsAppV2 portal_Receiver messageID ""));
    match u with
    | inr e => mret (inr (ConvText e))
    | inl uri =>
        match tr_Integral transport with
        | None => panic
        | Some i =>
            match DirectPath i with
            | None => panic
            | Some path =>
                mret (inl (mkPart "" EventMessage (file_content "" uri None (tr_Mimetype transport) (int64 (tr_FileLength transport)))
                             (Some ∅) (Some (DirectMediaWhatsApp (MediaKey i) (media_type_name mediaType) (FileSHA256 i) (FileEncSHA256 i) path))
                             false))
            end
        end
    end
  else
    d ← cask (QDownloadFB (tr_Integral transport) (media_type_name mediaType));
    match d with
    | inr e => mret (inr (ConvWrap (ErrMediaDownloadFailed ++ ": ") (ConvText e)))
    | inl data =>
        c ← (match convert with
             | Some convert => convert data (tr_Mimetype transport)
             | None => mret (inl (data, tr_Mimetype transport, ""%string))
             end);
        match c with
        | inr e => mret (inr e)
        | inl (data, mimeType, fileName) =>
            u ← cask (QUploadMedia portal_MXID data fileName mimeType);
            match u with
            | inr e => mret (inr (ConvWrap (ErrMediaReuploadFailed ++ ": ") (ConvText e)))
            | inl (mxc, file) =>
                mret (inl (mkPart "" EventMessage (file_content fileName mxc file mimeType (slen data)) (Some ∅) None false))
            end
        end
    end.

(** What the conversion of a file gives: what is known of it, its part or an error, its caption. *)
Definition converted_file : Type := option Ancillary * (Part + ConvError) * option Part.

Definition convertWhatsAppAttachment (sticker : bool) (msg : Attachment) (mediaType : MediaType) (convert : option convertFunc)
    : CM converted_file :=
  match Decode msg with
  | inr e => mret (None, inr (ConvText e), None)
  | inl (transport, metadata) =>
      if sticker && negb (match metadata with Some m => ReceiverFetchID m | None => "" end =? "")%string
      then mret (None, inr (userVisibleError "Unsupported sticker, view in Messenger"), None)
      else
        caption ← (if negb (Text (Caption msg) =? "")%string
                   then p ← WhatsAppTextToMatrix (Some (Caption msg)); mret (Some (map_content (set_MsgType "m.text") p))
                   else mret None);
        media ← reuploadWhatsAppAttachment transport mediaType convert;
        mret (metadata, media, caption)
  end.

(** The part of a file with what is known of it; nothing is known of a file without metadata. *)
Definition with_metadata (f : Part -> Ancillary -> Part) (metadata : option Ancillary) (p : Part) : Part :=
  match metadata with Some m => f p m | None => p end.

Definition set_size (w h : Z) : Content -> Content := map_info (fun i => mkInfo (MimeType i) (Size i) (Duration i) w h).
Definition set_duration (d : Z) : Content -> Content := map_info (fun i => mkInfo (MimeType i) (Size i) d (Width i) (Height i)).

Definition addImageMetadata (p : Part) (m : Ancillary) : Part :=
  map_content (fun c => set_size (an_Width m) (an_Height m) (set_MsgType "m.image" c)) p.

Definition addStickerMetadata (p : Part) (m : Ancillary) : Part :=
  set_PartKind EventSticker (map_content (set_size (an_Width m) (an_Height m)) p).

(** Seconds are 32 bits, and stay so when they become milliseconds. *)
Definition milliseconds (seconds : Z) : Z := uint32 (seconds * 1000).

Definition mime_of (p : Part) : string := match Info (PartContent p) with Some i => MimeType (base i) | None => "" end.

Definition addVideoMetadata (p : Part) (m : Ancillary) : Part :=
  let p := map_content (fun c => set_duration (milliseconds (an_Seconds m)) (set_size (an_Width m) (an_Height m) (set_MsgType "m.video" c))) p in
  if HasPrefix (mime_of p) "image/" then map_content (set_MsgType "m.image") p
  else if GifPlayback m then mkPart (PartID p) (PartKind p) (PartContent p) (insert "info"%string XGif <$> PartExtra p) (DirectMeta p) (DontBridge p)
  else p.

(** The conversion of a kind of file: its part, or the error, and its caption. *)
Definition convert_kind (sticker : bool) (m : Attachment) (t : MediaType) (convert : convertFunc) (f : option Ancillary -> Part -> Part)
    : CM ((Part + ConvError) * option Part) :=
  r ← convertWhatsAppAttachment sticker m t (Some convert);
  mret (match r.1.2 with inl p => inl (f r.1.1 p) | inr e => inr e end, r.2).

Definition convertWhatsAppImage (m : Attachment) := convert_kind false m MediaImage (named_convert "image") (with_metadata addImageMetadata).
Definition convertWhatsAppSticker (m : Attachment) := convert_kind true m MediaImage (named_convert "sticker") (with_metadata addStickerMetadata).
Definition convertWhatsAppVideo (m : Attachment) := convert_kind false m MediaVideo (named_convert "video") (with_metadata addVideoMetadata).

Definition convertWhatsAppDocument (m : Attachment) (FileName : string) :=
  convert_kind false m MediaDocument
    (fun data mime => mret (inl (data, mime, if (FileName =? "")%string then ("file" ++ ExtensionFromMimetype mime)%string else FileName)))
    (fun _ => map_content (set_MsgType "m.file")).

(** Every audio file is a voice message. *)
Definition convert_audio : convertFunc := fun data mime =>
  let fileName := ("audio" ++ ExtensionFromMimetype mime)%string in
  if negb (HasPrefix mime "audio/ogg") then
    r ← cask (QConvertBytes data mime);
    match r with
    | inr e => mret (inr (ConvWrap (ErrMediaConvertFailed ++ " audio to ogg/opus: ") (ConvText e)))
    | inl data => mret (inl (data, "audio/ogg"%string, (fileName ++ ".ogg")%string))
    end
  else mret (inl (data, mime, fileName)).

Definition convertWhatsAppAudio (m : Attachment) :=
  convert_kind false m MediaAudio convert_audio (fun metadata p =>
    let d := milliseconds (match metadata with Some m => an_Seconds m | None => 0 end) in
    map_content (fun c => set_Voice (Some d) (set_duration d (set_MsgType "m.audio" c))) p).

Definition convertWhatsAppMedia (rawContent : ConsumerContent) : CM ((Part + ConvError) * option Part) :=
  match rawContent with
  | CImage m => convertWhatsAppImage m
  | CSticker m => convertWhatsAppSticker m
  | CViewOnce (ViewOnceImage m) => convertWhatsAppImage m
  | CViewOnce (ViewOnceVideo m) => convertWhatsAppVideo m
  | CViewOnce (ViewOnceOther t) => mret (inr (ConvText ("unrecognized view once message type " ++ t)), None)
  | CDocument m name => convertWhatsAppDocument m name
  | CAudio m => convertWhatsAppAudio m
  | CVideo m => convertWhatsAppVideo m
  | _ => mret (inr (ConvText "unrecognized media message type"), None)
  end.

(** ** Messages *)

Definition open_in (what : string) : string :=
  what ++ newline ++ newline ++ "Please open in the " ++ appName platform.

Definition location (body lat long : string) : Part :=
  message_part (set_GeoURI ("geo:" ++ lat ++ "," ++ long) (set_Body body (set_MsgType "m.location" empty_content))).

Definition waConsumerToMatrix (rawContent : ConsumerContent) : CM (list Part) :=
  match rawContent with
  | CMessageText t | CExtendedText t => p ← WhatsAppTextToMatrix t; mret [p]
  | CImage _ | CSticker _ | CViewOnce _ | CDocument _ _ | CAudio _ | CVideo _ =>
      r ← convertWhatsAppMedia rawContent;
      let converted := match r.1 with inl p => p | inr e => wrapError "Failed to transfer media" e end in
      mret (converted :: match r.2 with Some caption => [caption] | None => [] end)
  | CLocation name address lat long => mret [location (name ++ newline ++ address) lat long]
  | CLiveLocation lat long =>
      mret [location ("Live location sharing started" ++ newline ++ newline ++ "You can see the location in the " ++ appName platform) lat long]
  | CContact => mret [message_part (notice (open_in "Unsupported message (contact)"))]
  | CContactsArray => mret [message_part (notice (open_in "Unsupported message (contacts array)"))]
  | COther t => mret [message_part (notice (open_in ("Unsupported message (" ++ t ++ ")")))]
  end.

Definition waLocationMessageToMatrix (content : ExtendedContent) (parsedURL : ParsedURL) : list Part :=
  [location (ec_TitleText content ++ newline ++ ec_SubtitleText content) (Query parsedURL "lat") (Query parsedURL "long")].

Definition waStoryReplyMessageToMatrix (content : ExtendedContent) : CM (list Part + string) :=
  match UnmarshalAssociated (AssociatedMessage content) with
  | inr e => mret (inr e)
  | inl assoc =>
      match UnmarshalConsumer assoc with
      | inr e => mret (inr e)
      | inl c => parts ← waConsumerToMatrix c; mret (inl parts)
      end
  end.

(** The addresses of the actions, in order: a location that is shared, or the last address and
    the text with the addresses it lacks. *)
Fixpoint read_ctas (ctas : list string) (nativeURL body : string) : ParsedURL + (string * string) :=
  match ctas with
  | [] => inr (nativeURL, body)
  | u :: ctas =>
      match url_Parse u with
      | None => read_ctas ctas nativeURL body
      | Some parsed =>
          if (Scheme parsed =? "messenger")%string && (Host parsed =? "location_share")%string then inl parsed
          else
            let body := if (Scheme parsed =? "https")%string && negb (StrContains body u)
                        then if (body =? "")%string then u else (body ++ newline ++ newline ++ u)%string
                        else body in
            read_ctas ctas (url_String parsed) body
      end
  end.

Definition quote_story (nativeURL : string) (p : Part) : Part :=
  map_content (fun c =>
    let c := EnsureHasHTML c in
    set_FormattedBody
      (if negb (nativeURL =? "")%string
       then "<blockquote>Reply to " ++ a_href nativeURL "Facebook story" ++ ":</blockquote><p>" ++ FormattedBody c ++ "</p>"
       else "<blockquote>Reply to Facebook story:</blockquote><p>" ++ FormattedBody c ++ "</p>") c) p.

Definition waExtendedContentMessageToMatrix (content : ExtendedContent) : CM (list Part) :=
  match read_ctas (Ctas content) "" (ec_MessageText content) with
  | inl parsedURL => mret (waLocationMessageToMatrix content parsedURL)
  | inr (nativeURL, body) =>
      let plain :=
        extra_part (if (body =? "")%string then notice (open_in "Unsupported message") else text_content body)
          {["fi.mau.meta.temporary_unsupported_type"%string := XStr "Armadillo ExtendedContentMessage"]} in
      if FB_STORY_REPLY content then
        r ← waStoryReplyMessageToMatrix content;
        match r with
        | inr _ => mret [plain]
        | inl parts => mret (map (quote_story nativeURL) parts)
        end
      else mret [plain]
  end.

(** A file with its metadata. *)
Definition raven_file (what : string) (m : (Transport * option Ancillary) + string) (t : MediaType) (name : string)
    (f : Part -> Ancillary -> Part) : CM (Part + ConvError) :=
  match m with
  | inr e => mret (inr (ConvWrap ("failed to decode raven " ++ what ++ " message: ") (ConvText e)))
  | inl (transport, metadata) =>
      r ← reuploadWhatsAppAttachment transport t (Some (named_convert name));
      mret (match r with inl p => inl (with_metadata f metadata p) | inr e => inr e end)
  end.

Definition waRavenMessageToMatrix (type : EphemeralType) (m : RavenContent) : CM (Part + ConvError) :=
  if DisableViewOnce && (match type with OtherEphemeral => false | _ => true end) then
    mret (inl (makeViewOnceError platform (match m with RavenVideo _ => "video" | _ => "photo" end)
                 (match type with ALLOW_REPLAY => "replayed" | _ => "viewed" end)))
  else
    match m with
    | RavenImage m => raven_file "image" m MediaImage "image" addImageMetadata
    | RavenVideo m => raven_file "video" m MediaVideo "video" addVideoMetadata
    | RavenOther t => mret (inl (message_part (notice (open_in ("Unsupported message (" ++ t ++ ")")))))
    end.

Fixpoint gallery_parts (images : list (Transport * option Ancillary)) : CM (list Part) :=
  match images with
  | [] => mret []
  | (transport, metadata) :: images =>
      r ← reuploadWhatsAppAttachment transport MediaImage (Some (named_convert "image"));
      rest ← gallery_parts images;
      mret (match r with
            | inl p => with_metadata addImageMetadata metadata p
            | inr e => wrapError "Failed to transfer media" e
            end :: rest)
  end.

Definition waArmadilloGalleryToMatrix (images : list (Transport * option Ancillary) + string) : CM (list Part) :=
  match images with
  | inr e => mret [wrapError "Failed to decode media message" (ConvText e)]
  | inl images => gallery_parts images
  end.

(** The parts, and the participant of the message that is answered instead of a quoted one. *)
Definition waArmadilloToMatrix (rawContent : ArmadilloContent) : CM (list Part * option string) :=
  match rawContent with
  | AExtended m => p ← waExtendedContentMessageToMatrix m; mret (p, None)
  | ABump key => mret ([message_part (text_content "Bumped a message")], key)
  | ARaven t m | ARavenMsgr t m =>
      r ← waRavenMessageToMatrix t m;
      mret ([match r with inl p => p | inr e => wrapError "Failed to transfer media" e end], None)
  | AGallery images => p ← waArmadilloGalleryToMatrix images; mret (p, None)
  | AOther t => mret ([message_part (notice (open_in ("Unsupported message (" ++ t ++ ")")))], None)
  end.

Definition instamadilloToMatrix : list Part * option string :=
  ([message_part (notice "Unsupported encrypted Instagram message")], None).

(** ** The timer *)

Definition setting_of (d : EphemeralSetting) : DisappearingSetting :=
  let timer := EphemeralExpiration d * Second in
  let '(timer, type) :=
    match EphemeralityTypeOf d with
    | SEEN_BASED_WITH_TIMER => (timer, DisappearingTypeAfterRead)
    | SEND_BASED_WITH_TIMER | EPHEMERALITY_UNKNOWN => (timer, DisappearingTypeAfterSend)
    | SEEN_ONCE => (5 * 60 * Second, DisappearingTypeAfterRead)
    | OtherEphemerality => (timer, ""%string)
    end in
  (timer, if timer =? 0 then DisappearingTypeNone else type).

(** What the conversion gives beside: the timer of the message and the portal's timestamp of its
    timer, where it is set. *)
Record WAConverted := mkWAConverted {
  wa_message : ConvertedMessage; wa_Disappear : DisappearingSetting; wa_EphemeralSettingTimestamp : option Z
}.

Definition set_eqb (a b : DisappearingSetting) : bool := (a.1 =? b.1) && (a.2 =? b.2)%string.

(** The timer of a message, which becomes that of its portal, and the timestamp that is set. *)
Definition chat_timer (evt : FBMessage) : CM (DisappearingSetting * option Z) :=
  match ChatEphemeralSetting evt with
  | None => mret ((0, ""%string), None)
  | Some d =>
      let disappear := setting_of d in
      match Message evt, EphemeralSettingTimestamp d with
      | NoMessage, _ | _, None => mret (disappear, None)
      | _, Some ts =>
          if negb (set_eqb disappear portal_Disappear) then
            _ ← cask (QUpdateDisappearing disappear.1 disappear.2 true true);
            mret (disappear, Some ts)
          else mret (disappear, None)
      end
  end.

Definition timer_notice (disappear portal : DisappearingSetting) : Part :=
  mkPart "" EventMessage (DisappearingMessageNotice disappear.1)
    (Some {["com.beeper.action_message"%string := XTimer (disappear.1 ÷ 1000000) disappear.2]}) None (set_eqb disappear portal).

(** The parts of a message, the participant of the message it answers, and the timer and
    timestamp. *)
Definition wa_parts (evt : FBMessage) (disappear : DisappearingSetting) (ts : option Z)
    : CM (list Part * option string * DisappearingSetting * option Z) :=
  match Message evt with
  | Consumer c => p ← waConsumerToMatrix c; mret (p, None, disappear, ts)
  | Armadillo c => r ← waArmadilloToMatrix c; mret (r, disappear, ts)
  | Instamadillo d =>
      mret (instamadilloToMatrix, match d with Some sec => (sec * Second, DisappearingTypeAfterSend) | None => disappear end, ts)
  | NoMessage =>
      match ChatEphemeralSetting evt with
      | Some _ =>
          s ← cask (QUpdateDisappearing disappear.1 disappear.2 false false);
          mret ([timer_notice disappear s], None, disappear, Some (Timestamp evt))
      | None => mret ([message_part (notice "Unsupported message content type")], None, disappear, ts)
      end
  | OtherMessage => mret ([message_part (notice "Unsupported message content type")], None, disappear, ts)
  end.

(** The message that is answered; of a bumped message only the participant is taken. *)
Definition wa_reply (evt : FBMessage) (replyOverride : option string) : option string :=
  match QuotedMessage evt, replyOverride with
  | Some (participant, stanza), _ => Some (MakeWAMessageID JID_String ToNonAD chat (ParseJID participant).1 stanza)
  | None, Some participant => Some (MakeWAMessageID JID_String ToNonAD chat (ParseJID participant).1 "")
  | None, None => None
  end.

Definition number_part (i : nat) (p : Part) : Part := with_mentions (set_PartID (MakeMessagePartID (Z.of_nat i)) p).

Definition WhatsAppToMatrix (evt : FBMessage) : CM WAConverted :=
  d ← chat_timer evt;
  let '(disappear, ts) := d in
  r ← wa_parts evt disappear ts;
  let '(parts, override, disappear, ts) := r in
  mret (mkWAConverted (mkConverted (imap number_part parts) (wa_reply evt override) None) disappear ts).
End FromWhatsApp.

(** * Properties *)

Section WAProofs.
Context {JID : Type} (JID_String : JID -> string) (ToNonAD : JID -> JID) (UserInt : JID -> Z).
Context (ParseJID : string -> JID * option string).
Context (DisableViewOnce DirectMedia : bool) (platform : Platform).
Context (portal_Receiver portal_MXID messageID : string) (portal_Disappear : DisappearingSetting) (chat : JID).
Context (GetGhostByID : string -> res (string * string)) (GetCachedUserLoginByID : string -> option string)
  (MatrixToURL TextToHTML : string -> string) (EnsureHasHTML : Content -> Content)
  (ExtensionFromMimetype : string -> string) (url_Parse : string -> option ParsedURL)
  (DisappearingMessageNotice : Z -> Content)
  (UnmarshalAssociated : string -> option string + string) (UnmarshalConsumer : option string -> ConsumerContent + string).
(** The framework knows a ghost of a user, or says why not. *)
Context (Hg : forall user, is_halt (GetGhostByID user) = false).

#[local] Abbreviation step_mention' := (step_mention UserInt ParseJID GetGhostByID GetCachedUserLoginByID MatrixToURL TextToHTML).
#[local] Abbreviation step_mentions' := (step_mentions UserInt ParseJID GetGhostByID GetCachedUserLoginByID MatrixToURL TextToHTML).
#[local] Abbreviation text' := (WhatsAppTextToMatrix UserInt ParseJID GetGhostByID GetCachedUserLoginByID MatrixToURL TextToHTML).
#[local] Abbreviation reuploadWA := (reuploadWhatsAppAttachment DirectMedia portal_Receiver portal_MXID messageID).
#[local] Abbreviation consumer' := (waConsumerToMatrix UserInt ParseJID DirectMedia platform portal_Receiver portal_MXID messageID
  GetGhostByID GetCachedUserLoginByID MatrixToURL TextToHTML ExtensionFromMimetype).
#[local] Abbreviation armadillo' := (waArmadilloToMatrix UserInt ParseJID DisableViewOnce DirectMedia platform portal_Receiver portal_MXID messageID
  GetGhostByID GetCachedUserLoginByID MatrixToURL TextToHTML EnsureHasHTML ExtensionFromMimetype url_Parse UnmarshalAssociated UnmarshalConsumer).
#[local] Abbreviation gallery' := (gallery_parts DirectMedia portal_Receiver portal_MXID messageID ExtensionFromMimetype).
#[local] Abbreviation WhatsAppToMatrix' := (WhatsAppToMatrix JID_String ToNonAD UserInt ParseJID DisableViewOnce DirectMedia platform
  portal_Receiver portal_MXID messageID portal_Disappear chat GetGhostByID GetCachedUserLoginByID MatrixToURL TextToHTML EnsureHasHTML
  ExtensionFromMimetype url_Parse DisappearingMessageNotice UnmarshalAssociated UnmarshalConsumer).

(** ** Texts *)

Lemma step_commands_silent cs : forall s r,
  let sr := foldl step_command (s, r) cs in
  sr.1 = s || existsb (fun c => match c with Command_SILENT => true | _ => false end) cs /\
  (s = true -> r = false -> sr.2 = false) /\
  (sr.1 = true -> s = false -> sr.2 = false) /\
  (sr.1 = false -> sr.2 = r || existsb (fun c => match c with Command_EVERYONE => true | _ => false end) cs).
Proof.
  induction cs as [|c cs IH]; intros s r; cbn [foldl existsb].
  - cbn. rewrite !orb_false_r. split_and!; congruence.
  - destruct c; cbn [step_command fst snd].
    + specialize (IH true false). cbv zeta in *. destruct IH as (I1 & I2 & I3 & I4). rewrite orb_true_r. cbn in I1.
      split_and!; [done|by intros _ _; apply I2|by intros _ _; apply I2|congruence].
    + destruct s.
      * specialize (IH true r). cbv zeta in *. destruct IH as (I1 & I2 & I3 & I4). cbn in I1 |- *. split_and!; [done|done|done|congruence].
      * specialize (IH false true). cbv zeta in *. destruct IH as (I1 & I2 & I3 & I4). split_and!; [done|done|done|].
        intros H. rewrite (I4 H). by rewrite orb_true_r.
    + exact (IH s r).
Qed.

Lemma step_mention_ok silent jid c : exists c', step_mention' silent c jid = Ok c' /\ (silent = true -> c'.2 = c.2).
Proof.
  unfold step_mention. destruct (ParseJID jid) as [parsed [e|]]; [by exists c|]. unfold Mentions.getBasicUserInfo.
  specialize (Hg (MakeWAUserID UserInt parsed)). destruct (GetGhostByID _) as [[mxid name]|e|h]; [|by exists c|done].
  destruct c as [c users]. destruct (GetCachedUserLoginByID _) as [login|]; (eexists; split; [reflexivity|by intros ->]).
Qed.

Lemma step_mentions_ok silent jids : forall c, exists c', step_mentions' silent jids c = Ok c' /\ (silent = true -> c'.2 = c.2).
Proof.
  induction jids as [|j jids IH]; intros c; [by exists c|]. cbn [step_mentions].
  destruct (step_mention_ok silent j c) as (c1 & -> & H1). cbn. destruct (IH c1) as (c2 & -> & H2). exists c2. split; [done|].
  intros Hs. by rewrite H2, H1.
Qed.

(** Whether a message says to be silent, or names everyone. *)
Definition is_silent (t : MessageText) : bool := existsb (fun c => match c with Command_SILENT => true | _ => false end) (Commands t).
Definition names_everyone (t : MessageText) : bool := existsb (fun c => match c with Command_EVERYONE => true | _ => false end) (Commands t).

(** What is in the mentions of a text. *)
Definition mentions_of (t : MessageText) (p : Part) : Prop :=
  exists users room, Mentioned (PartContent p) = Some (mkMentions users room) /\
    if is_silent t then users = [] /\ room = false else room = names_everyone t.

Lemma ens_text N t : ensures N (text' (Some t)) (mentions_of t).
Proof.
  unfold WhatsAppTextToMatrix. destruct (step_commands_silent (Commands t) false false) as (S1 & _ & S3 & S4).
  destruct (foldl step_command _ _) as [silent room] eqn:E. cbn [fst snd orb] in *.
  assert (exists c, (match MentionedJID t with
    | [] => Ok (text_content (Text t), [])
    | _ => step_mentions' silent (MentionedJID t) (set_FormattedBody (TextToHTML (Body (text_content (Text t)))) (set_Format "org.matrix.custom.html" (text_content (Text t))), [])
    end) = Ok c /\ (silent = true -> c.2 = [])) as (c & Hc & Hs).
  { destruct (MentionedJID t) as [|j js]; [by eexists|].
    destruct (step_mentions_ok silent (j :: js) (set_FormattedBody (TextToHTML (Body (text_content (Text t)))) (set_Format "org.matrix.custom.html" (text_content (Text t))), []))
      as (c & -> & H). by exists c. }
  eapply (ens_bind _ _ _ (fun r => r = c)); [apply ens_res; exists c; split; [|done]; by destruct (MentionedJID t)|].
  intros c' ->. apply ens_ret. exists c.2, room. split; [done|]. unfold is_silent, names_everyone. rewrite <- S1.
  destruct silent; [split; [by apply Hs|by apply S3]|by rewrite S4].
Qed.

(** An encrypted text that says to be silent mentions nobody and not the room, whatever else
    it says and in whatever order; any other one mentions the room exactly if it says so. *)
Theorem silent_text_pings_nobody t tr r (Hr : runs (text' (Some t)) tr r) : exists p, r = Ok p /\ mentions_of t p.
Proof. exact (ens_text (fun _ => True) t tr r Hr (Forall_true _ _ (fun _ => I))). Qed.

(** ** Files *)

(** A file that can stay where it is. *)
Definition transport_ok (t : Transport) : Prop :=
  DirectMedia = true -> exists i path, tr_Integral t = Some i /\ DirectPath i = Some path.
Definition decoded_ok (d : (Transport * option Ancillary) + string) : Prop :=
  match d with inl (t, _) => transport_ok t | inr _ => True end.

#[local] Abbreviation any := (fun _ => True).

(** A conversion of the data of a file that returns. *)
Definition converts (f : convertFunc) : Prop := forall N data mime, ensures N (f data mime) any.

Lemma converts_named name : converts (named_convert ExtensionFromMimetype name).
Proof. intros N data mime. by apply ens_ret. Qed.

Lemma converts_audio : converts (convert_audio ExtensionFromMimetype).
Proof.
  intros N data mime. unfold convert_audio. destruct (negb _); [|by apply ens_ret]. ens_step. destruct a; by apply ens_ret.
Qed.

Lemma ens_reuploadWA N t k f : transport_ok t -> converts f -> ensures N (reuploadWA t k (Some f)) any.
Proof.
  intros Ht Hf. unfold reuploadWhatsAppAttachment. unfold transport_ok in Ht. destruct DirectMedia.
  - ens_step. destruct a; [|by apply ens_ret]. destruct (Ht eq_refl) as (i & path & -> & ->). by apply ens_ret.
  - ens_step. destruct a as [data|e]; [|by apply ens_ret]. eapply ens_bind; [apply Hf|]. intros [[[d m] n]|e] _; [|by apply ens_ret].
    ens_step. destruct a as [[u file]|e]; by apply ens_ret.
Qed.

#[local] Abbreviation convert_kind' := (convert_kind UserInt ParseJID DirectMedia portal_Receiver portal_MXID messageID GetGhostByID
  GetCachedUserLoginByID MatrixToURL TextToHTML).

Lemma ens_convert_kind N sticker m t f g : decoded_ok (Decode m) -> converts f -> ensures N (convert_kind' sticker m t f g) any.
Proof.
  intros Hd Hf. unfold convert_kind. eapply (ens_bind _ _ _ any); [|intros r _; by apply ens_ret].
  unfold convertWhatsAppAttachment. destruct (Decode m) as [[tr meta]|e]; [|by apply ens_ret].
  destruct (_ && _); [by apply ens_ret|].
  eapply (ens_bind _ _ _ any).
  { destruct (negb _); [|by apply ens_ret]. eapply ens_bind; [apply ens_text|]. intros p _. by apply ens_ret. }
  intros c _. eapply ens_bind; [by apply ens_reuploadWA|]. intros media _. by apply ens_ret.
Qed.

(** ** Messages *)

(** A message that has what the code dereferences: its text, and the paths of its files when they
    stay where they are. *)
Definition content_ok (c : ConsumerContent) : Prop :=
  match c with
  | CMessageText t | CExtendedText t => is_Some t
  | CImage m | CSticker m | CViewOnce (ViewOnceImage m | ViewOnceVideo m) | CDocument m _ | CAudio m | CVideo m => decoded_ok (Decode m)
  | _ => True
  end.

Definition some_parts (l : list Part) : Prop := l <> [].

Lemma ens_consumer N c : content_ok c -> ensures N (consumer' c) some_parts.
Proof.
  assert (forall m : CM ((Part + ConvError) * option Part), ensures N m any -> ensures N (r ← m;
      mret ((match r.1 with inl p => p | inr e => wrapError "Failed to transfer media" e end)
            :: match r.2 with Some caption => [caption] | None => [] end)) some_parts) as Hmedia.
  { intros m Hm. eapply ens_bind; [exact Hm|]. intros r _. by apply ens_ret. }
  intros Hc. destruct c as [t|t|m|m|[m|m|t]|m n|m|m|n a x y|x y| | |t]; cbn [content_ok waConsumerToMatrix] in *;
    try (by apply ens_ret); try (destruct Hc as [t' ->]; eapply ens_bind; [apply ens_text|]; intros p _; by apply ens_ret);
    apply Hmedia; cbn [convertWhatsAppMedia]; try (by apply ens_ret);
    try (apply ens_convert_kind; [exact Hc|apply converts_named]).
  - apply ens_convert_kind; [exact Hc|]. intros N' data mime. by apply ens_ret.
  - apply ens_convert_kind; [exact Hc|apply converts_audio].
Qed.

Lemma ens_gallery N images : Forall (fun i => transport_ok i.1) images -> ensures N (gallery' images) (fun l => length l = length images).
Proof.
  induction 1 as [|[t meta] images Ht _ IH]; cbn [gallery_parts]; [by apply ens_ret|].
  eapply ens_bind; [by apply ens_reuploadWA, converts_named|]. intros r _. eapply ens_bind; [exact IH|]. intros l Hl.
  apply ens_ret. cbn. by rewrite Hl.
Qed.

Lemma ens_raven N type m : match m with RavenImage d | RavenVideo d => decoded_ok d | RavenOther _ => True end ->
  ensures N (waRavenMessageToMatrix DisableViewOnce DirectMedia platform portal_Receiver portal_MXID messageID ExtensionFromMimetype type m) any.
Proof.
  intros Hm. unfold waRavenMessageToMatrix. destruct (_ && _); [by apply ens_ret|].
  destruct m as [d|d|t]; [| |by apply ens_ret]; unfold raven_file; (destruct d as [[tr meta]|e]; [|by apply ens_ret]);
    (eapply ens_bind; [apply ens_reuploadWA; [exact Hm|apply converts_named]|intros r _; by apply ens_ret]).
Qed.

Definition armadillo_ok (c : ArmadilloContent) : Prop :=
  match c with
  | AExtended m => forall a c, UnmarshalAssociated (AssociatedMessage m) = inl a -> UnmarshalConsumer a = inl c -> content_ok c
  | ARaven _ m | ARavenMsgr _ m => match m with RavenImage d | RavenVideo d => decoded_ok d | RavenOther _ => True end
  | AGallery (inl images) => images <> [] /\ Forall (fun i => transport_ok i.1) images
  | _ => True
  end.

Lemma ens_armadillo N c : armadillo_ok c -> ensures N (armadillo' c) (fun r => some_parts r.1).
Proof.
  intros Hc. destruct c as [m|key|t m|t m|[images|e]|t]; cbn [waArmadilloToMatrix armadillo_ok] in *; try (by apply ens_ret);
    try (eapply ens_bind; [by apply ens_raven|]; intros r _; by apply ens_ret).
  - eapply (ens_bind _ _ _ some_parts); [|intros p Hp; by apply ens_ret]. unfold waExtendedContentMessageToMatrix.
    destruct (read_ctas _ _ _) as [u|[native body]]; [by apply ens_ret|]. cbv zeta. destruct (FB_STORY_REPLY m); [|by apply ens_ret].
    eapply (ens_bind _ _ _ (fun r => match r with inl l => some_parts l | inr _ => True end)).
    { unfold waStoryReplyMessageToMatrix. destruct (UnmarshalAssociated _) as [a|e] eqn:Ea; [|by apply ens_ret].
      destruct (UnmarshalConsumer a) as [c|e] eqn:Ec; [|by apply ens_ret].
      eapply ens_bind; [eapply ens_consumer; by eapply Hc|]. intros l Hl. by apply ens_ret. }
    intros [l|e] Hl; [|by apply ens_ret]. apply ens_ret. unfold some_parts in *. by destruct l.
  - destruct Hc as [Hne Hi]. eapply (ens_bind _ _ _ some_parts); [|intros p Hp; by apply ens_ret].
    cbn [waArmadilloGalleryToMatrix]. eapply ens_mono; [by apply ens_gallery|]. intros l Hl. destruct l, images; try done.
Qed.

Definition message_ok (m : WAMessage) : Prop :=
  match m with Consumer c => content_ok c | Armadillo c => armadillo_ok c | _ => True end.

Lemma ens_wa_parts N evt disappear ts : message_ok (Message evt) ->
  ensures N (wa_parts UserInt ParseJID DisableViewOnce DirectMedia platform portal_Receiver portal_MXID messageID GetGhostByID GetCachedUserLoginByID
    MatrixToURL TextToHTML EnsureHasHTML ExtensionFromMimetype url_Parse DisappearingMessageNotice UnmarshalAssociated UnmarshalConsumer evt disappear ts)
    (fun r => some_parts r.1.1.1).
Proof.
  intros Hm. unfold wa_parts. destruct (Message evt) as [c|c|d| |]; cbn [message_ok] in Hm.
  - eapply ens_bind; [by apply ens_consumer|]. intros l Hl. by apply ens_ret.
  - eapply ens_bind; [by apply ens_armadillo|]. intros r Hl. by apply ens_ret.
  - by apply ens_ret.
  - destruct (ChatEphemeralSetting evt); [|by apply ens_ret]. ens_step. by apply ens_ret.
  - by apply ens_ret.
Qed.

(** C7. An encrypted message that has what the code dereferences is converted, whatever becomes of
    its files: to at least one part, the parts numbered in order, each with its mentions.  What
    the code dereferences is ([message_ok]): the text of a text message, which must not be nil,
    that of the message a story is answered with as well; when files stay where they are, the
    transport and the path of every file that could be decoded; and the images of a gallery, of
    which there is one at least.  A message without a text or a path makes the code panic, and a
    gallery without images has no part. *)
Theorem encrypted_message_is_converted evt tr r (Hm : message_ok (Message evt)) (Hr : runs (WhatsAppToMatrix' evt) tr r) :
  exists c, r = Ok c /\ ConvParts (wa_message c) <> [] /\
    PartID <$> ConvParts (wa_message c) = map (fun i => MakeMessagePartID (Z.of_nat i)) (seq 0 (length (ConvParts (wa_message c)))) /\
    Forall (fun p => is_Some (Mentioned (PartContent p))) (ConvParts (wa_message c)).
Proof.
  revert tr r Hr. cut (ensures (fun _ => True) (WhatsAppToMatrix' evt) (fun c => ConvParts (wa_message c) <> [] /\
    PartID <$> ConvParts (wa_message c) = map (fun i => MakeMessagePartID (Z.of_nat i)) (seq 0 (length (ConvParts (wa_message c)))) /\
    Forall (fun p => is_Some (Mentioned (PartContent p))) (ConvParts (wa_message c)))).
  { intros H tr r Hr. by apply (H tr r Hr), Forall_true. }
  unfold WhatsAppToMatrix. eapply (ens_bind _ _ _ any).
  { unfold chat_timer. destruct (ChatEphemeralSetting evt) as [d|]; [|by apply ens_ret]. cbv zeta.
    destruct (Message evt), (EphemeralSettingTimestamp d); try (by apply ens_ret); (destruct (negb _); [|by apply ens_ret]);
      ens_step; by apply ens_ret. }
  intros [disappear ts] _. eapply ens_bind; [by apply ens_wa_parts|]. intros [[[parts override] d'] ts'] Hp. cbn [fst snd] in Hp.
  apply ens_ret. cbn [wa_message ConvParts]. split; [by destruct parts|]. rewrite length_imap. split.
  - clear Hp. apply list_eq. intros i. rewrite list_lookup_fmap, list_lookup_imap, list_lookup_fmap.
    destruct (parts !! i) as [p|] eqn:Ei.
    + pose proof (lookup_lt_Some _ _ _ Ei). by rewrite lookup_seq_lt by done.
    + apply lookup_ge_None in Ei. by rewrite lookup_seq_ge by lia.
  - apply Forall_forall. intros p Hin. apply list_elem_of_lookup in Hin as [i Hi]. rewrite list_lookup_imap in Hi.
    destruct (parts !! i); [|done]. injection Hi as <-. unfold number_part, with_mentions. cbn.
    destruct (Mentioned (PartContent p0)) eqn:Em; [by rewrite Em; eexists|by eexists].
Qed.

(** ** Files that stay where they are *)

Definition generated (e : event conv_answer) : option (list byte) :=
  match asked e with QGenerateContentURI id => Some id | _ => None end.

(** When files stay where they are, all images of a gallery get one and the same id, that of
    the first part of their message. *)
Theorem gallery_images_share_an_id images tr r (Hd : DirectMedia = true) (Hi : Forall (fun i => transport_ok i.1) images)
    (Hr : runs (gallery' images) tr r) :
  omap generated tr = replicate (length images) (MakeMediaID DirectMediaTypeWhatsAppV2 portal_Receiver messageID "").
Proof.
  revert tr r Hr. induction Hi as [|[t meta] images Ht Hi IH]; intros tr r Hr; cbn [gallery_parts] in Hr; [by destruct Hr as [-> _]|].
  apply run_bind in Hr as (r1 & t1 & t2 & -> & H1 & H2). unfold reuploadWhatsAppAttachment in H1. rewrite Hd in H1.
  apply run_bind in H1 as (u & t3 & t4 & -> & H0 & H1). destruct (proj1 (run_ask (answer := conv_answer) (QGenerateContentURI _) _ _) H0) as (x & -> & ->).
  assert (t4 = [] /\ exists p, r1 = Ok p) as [-> [p ->]].
  { destruct x as [uri|e]; [|by destruct H1 as [-> ->]; split; [|eexists]].
    destruct (Ht Hd) as (i & path & Ei & Ep). cbn [fst] in Ei. rewrite Ei, Ep in H1. destruct H1 as [-> ->]. by split; [|eexists]. }
  apply run_bind in H2 as (r2 & t5 & t6 & -> & H2 & H3). cbn [app omap list_omap generated asked length replicate]. f_equal.
  assert (t6 = []) as -> by (destruct r2; by destruct H3 as [-> _]). rewrite app_nil_r. by eapply IH.
Qed.

(** The notice that somebody changed the timer of an encrypted chat is never bridged: its
    timer is compared with that of the portal after the portal has taken it. *)
Theorem timer_notice_not_bridged evt d tr r (Hmsg : Message evt = NoMessage) (Hd : ChatEphemeralSetting evt = Some d)
    (Htakes : Forall (fun e => match e with
       | Event q x => match q return conv_answer q -> Prop with QUpdateDisappearing t k _ _ => fun x => x = (t, k) | _ => fun _ => True end x
       end) tr)
    (Hr : runs (WhatsAppToMatrix' evt) tr r) :
  exists c p, r = Ok c /\ ConvParts (wa_message c) = [p] /\ DontBridge p = true.
Proof.
  unfold WhatsAppToMatrix, chat_timer, wa_parts in Hr. rewrite Hmsg, Hd in Hr.
  apply run_bind in Hr as (r1 & t1 & t2 & -> & [-> ->] & Hr). cbv zeta in Hr.
  apply run_bind in Hr as (r2 & t3 & t4 & -> & Hr & H2).
  apply run_bind in Hr as (r3 & t5 & t6 & -> & H0 & H1). destruct (proj1 (run_ask (answer := conv_answer) (QUpdateDisappearing _ _ _ _) _ _) H0) as (x & -> & ->).
  destruct H1 as [-> ->]. cbn [fst snd] in H2. destruct H2 as [-> ->].
  cbn [app] in Htakes. apply Forall_cons in Htakes as [Hx _]. cbn in Hx. subst x. eexists _, _. split; [reflexivity|].
  split; [reflexivity|]. unfold number_part, timer_notice, with_mentions. cbn. unfold set_eqb. cbn.
  by rewrite Z.eqb_refl, String.eqb_refl.
Qed.
End WAProofs.

(** * Examples *)

Definition demo_jid (s : string) : string * option string := (s, None).
Definition demo_ghost (user : string) : res (string * string) := Ok ("@ghost"%string, "Someone"%string).
Definition demo_text : MessageText := mkText "hey @5" [Command_EVERYONE; Command_SILENT] ["5"%string].
Definition demo_file : Transport := mkTransport (Some (mkIntegral "k" "h" "e" (Some "/path"%string))) "image/png" 10.
Definition demo_gallery : list (Transport * option Ancillary) := [(demo_file, Some (mkAncillary 3 4 0 false "")); (demo_file, None)].

Definition demo_text_prog : CM Part :=
  WhatsAppTextToMatrix (fun _ => 5) demo_jid demo_ghost (fun _ => None) (fun s => s) (fun s => s) (Some demo_text).

Definition demo_setting : EphemeralSetting := mkEphemeral 60 SEND_BASED_WITH_TIMER (Some 7).

Definition demo_WhatsAppToMatrix (direct : bool) (evt : FBMessage) : CM WAConverted :=
  WhatsAppToMatrix (fun j => j) (fun j => j) (fun _ => 5) demo_jid false direct Messenger "1" "!room" "fb:mid.1" (0, ""%string) "1"%string
    demo_ghost (fun _ => None) (fun s => s) (fun s => s) (fun c => c) (fun _ => ".png"%string) (fun _ => None) (fun _ => notice "timer")
    (fun _ => inr "no"%string) (fun _ => inr "no"%string) evt.

(** A world where the portal takes the timers it is asked to take. *)
Definition taking_env (q : ConvReq) (s : unit) : conv_answer q * unit :=
  (match q return conv_answer q with
   | QUpdateDisappearing t k a b => (t, k)
   | q => (demo_env q s).1
   end, s).

Lemma silent_text_pings_nobody_witness : exists p, (play demo_env demo_text_prog tt).1.1 = Ok p /\ mentions_of demo_text p
  /\ Body (PartContent p) = "hey Someone"%string.
Proof.
  destruct (silent_text_pings_nobody (fun _ => 5) demo_jid demo_ghost (fun _ => None) (fun s => s) (fun s => s) (fun _ => eq_refl) demo_text
    (play demo_env demo_text_prog tt).1.2 (play demo_env demo_text_prog tt).1.1 (play_runs _ _ _)) as (p & E & H).
  exists p. split; [exact E|]. split; [exact H|]. vm_compute in E. injection E as <-. reflexivity.
Defined.

Definition demo_event : FBMessage := mkFBMessage (Armadillo (AGallery (inl demo_gallery))) None None 100.

Lemma encrypted_message_is_converted_witness : exists c, (play demo_env (demo_WhatsAppToMatrix true demo_event) tt).1.1 = Ok c /\
  ConvParts (wa_message c) <> [] /\
  PartID <$> ConvParts (wa_message c) = map (fun i => MakeMessagePartID (Z.of_nat i)) (seq 0 (length (ConvParts (wa_message c)))) /\
  Forall (fun p => is_Some (Mentioned (PartContent p))) (ConvParts (wa_message c)).
Proof.
  eapply (encrypted_message_is_converted (fun j => j) (fun j => j) (fun _ => 5) demo_jid false true Messenger "1" "!room" "fb:mid.1" (0, ""%string) "1"%string
    demo_ghost (fun _ => None) (fun s => s) (fun s => s) (fun c => c) (fun _ => ".png"%string) (fun _ => None) (fun _ => notice "timer")
    (fun _ => inr "no"%string) (fun _ => inr "no"%string) (fun _ => eq_refl) demo_event _ _).
  - split; [done|]. repeat constructor; intros _; by eexists _, _.
  - apply play_runs.
Defined.

Definition demo_gallery_prog : CM (list Part) :=
  gallery_parts true "1" "!room" "fb:mid.1" (fun _ => ".png"%string) demo_gallery.

Lemma gallery_images_share_an_id_witness :
  omap generated (play demo_env demo_gallery_prog tt).1.2 = replicate 2 (MakeMediaID DirectMediaTypeWhatsAppV2 "1" "fb:mid.1" "").
Proof.
  eapply (gallery_images_share_an_id true "1" "!room" "fb:mid.1" (fun _ => ".png"%string) demo_gallery).
  - done.
  - repeat constructor; intros _; by eexists _, _.
  - apply play_runs.
Defined.

Definition demo_timer_event : FBMessage := mkFBMessage NoMessage (Some demo_setting) None 100.

Lemma timer_notice_not_bridged_witness : exists c p, (play taking_env (demo_WhatsAppToMatrix false demo_timer_event) tt).1.1 = Ok c /\
  ConvParts (wa_message c) = [p] /\ DontBridge p = true.
Proof.
  eapply (timer_notice_not_bridged (fun j => j) (fun j => j) (fun _ => 5) demo_jid false false Messenger "1" "!room" "fb:mid.1" (0, ""%string) "1"%string
    demo_ghost (fun _ => None) (fun s => s) (fun s => s) (fun c => c) (fun _ => ".png"%string) (fun _ => None) (fun _ => notice "timer")
    (fun _ => inr "no"%string) (fun _ => inr "no"%string) demo_timer_event demo_setting (play taking_env (demo_WhatsAppToMatrix false demo_timer_event) tt).1.2).
  - done.
  - done.
  - apply play_sound. by intros [].
  - apply play_runs.
Defined.
