(* ===== verification/DirectMedia.v ===== *)
(** * DirectMedia: files that stay where they are ([connector/directmedia.go])

    With direct media a file is downloaded when a Matrix client asks for it, by an id that names
    a message and its part; the row of that part in the database says where the file is.
    Addresses expire, and are fetched again from Instagram or with the messages around the
    file's. *)

From S2P Require Import Prelude Strconv Lightspeed TableKinds TableThreads TableMessages Tables WrapMessages MetaID Events.
From S2P Require TaskTypes Tasks.
From S2P Require Import Media Interaction Parts FromMeta.
#[local] Open Scope Z_scope.

(** ** Data *)

(** [DirectMediaMeta]: the type and address of a file, and how to find it again. *)
Record DMeta := mkDMeta { dm_MimeType : string; dm_URL : string; dm_Refresh : MediaRefreshMeta }.

Definition set_address (url : string) (expiresAt : Z) (d : DMeta) : DMeta :=
  let r := dm_Refresh d in
  mkDMeta (dm_MimeType d) url
    (mkRefresh expiresAt (AttachmentFbid r) (PartIndex r) (XMATargetID r) (XMAShortcode r) (StoryMediaID r) (StoryReelID r)).

(** A part of a message in the framework's database: its ids, its time in milliseconds, and what
    is stored of its file, as JSON. *)
Record DBPart := mkDBPart {
  db_MessageID : string; db_PartID : string; db_RoomID : string; db_Receiver : string; db_TimestampMs : Z; db_Direct : option string
}.

Definition set_direct (s : string) (p : DBPart) : DBPart :=
  mkDBPart (db_MessageID p) (db_PartID p) (db_RoomID p) (db_Receiver p) (db_TimestampMs p) (Some s).

Inductive DError := DText (s : string) | DMediaError (e : MediaError) | DWrap (s : string) (e : DError).

(** What the proxy of media is given: a stream with its type and length, or a callback that
    writes an encrypted file. *)
Variant MediaResponseData :=
| ResponseData (r : ReadCloser) (contentType : string) (contentLength : Z)
| ResponseFile (info : option string).

(** ** Requests *)

Variant DReq :=
| QDMedia (q : MediaReq)
| QGetFirstPart (user message : string)
| QGetPart (user message part : string)
| QGetAllParts (receiver message : string)
| QUpdatePart (p : DBPart)
| QLoginReady (user : string)        (* the login is in the cache and logged in *)
| QClient                            (* None: the client was dropped meanwhile; whether it has its part for Instagram *)
| QNowMs
| QCursor
| QDFetchMedia (mediaID shortcode : string)
| QDFetchReel (reelID mediaID : string)
| QFetchMessages (t : TaskTypes.FetchMessagesTask.FetchMessagesTask).

Definition direct_answer (q : DReq) : Type :=
  match q with
  | QDMedia q => media_answer q
  | QGetFirstPart _ _ | QGetPart _ _ _ => option DBPart + string
  | QGetAllParts _ _ => list DBPart + string
  | QUpdatePart _ => option string
  | QLoginReady _ => bool
  | QClient => option bool
  | QNowMs => Z
  | QCursor => string
  | QDFetchMedia _ _ => option (list (option Item)) + string
  | QDFetchReel _ _ => option (gmap string Reel) + string
  | QFetchMessages _ => tables + string
  end.

Abbreviation DM := (M direct_answer).
Abbreviation dask q := (Interaction.ask (answer := direct_answer) q).

Fixpoint embed_direct {A} (p : prog media_answer A) : DM A :=
  match p with
  | Ret a => Ret (Ok a)
  | Ask q k => Ask (answer := direct_answer) (QDMedia q) (fun x => embed_direct (k x))
  end.

(** ** The best version of a post *)

Definition step_best (best : string * Z) (ver : Version) : string * Z :=
  let res := int64 (ver_Width ver * ver_Height ver) in
  if res >? best.2 then (ver_URL ver, res) else best.

Definition extractBestURL (item : Item) : string + DError :=
  let best := foldl step_best (""%string, 0) (VideoVersions item) in
  let best := if (best.1 =? "")%string then foldl step_best best (Candidates item) else best in
  if (best.1 =? "")%string then inr (DText "no URL found in response") else inl best.1.

(** The fresh addresses of the attachments of a message, by their ids: the address and when it
    expires; a later attachment wins. *)
Definition add_fresh (fbid playable preview : string) (playableExpiry previewExpiry : Z) (m : gmap string (string * Z))
    : gmap string (string * Z) :=
  if (fbid =? "")%string then m
  else
    let '(url, expiry) := if (playable =? "")%string then (preview, previewExpiry) else (playable, playableExpiry) in
    if (url =? "")%string then m else <[fbid := (url, expiry)]> m.

Definition add_blob_url (m : gmap string (string * Z)) (att : Inst) : gmap string (string * Z) :=
  add_fresh (blob_str "AttachmentFbid" att) (blob_str "PlayableUrl" att) (blob_str "PreviewUrl" att)
    (blob_int "PlayableUrlExpirationTimestampMs" att) (blob_int "PreviewUrlExpirationTimestampMs" att) m.
Definition add_legacy_url (m : gmap string (string * Z)) (att : Inst) : gmap string (string * Z) :=
  add_fresh (att_str "AttachmentFbid" att) (att_str "PlayableUrl" att) (att_str "PreviewUrl" att)
    (att_int "PlayableUrlExpirationTimestampMs" att) (att_int "PreviewUrlExpirationTimestampMs" att) m.

Definition fresh_urls (w : WrappedMessage) : gmap string (string * Z) :=
  foldl add_legacy_url (foldl add_blob_url ∅ (BlobAttachments w)) (Attachments w).

(** The address of the attachment at a place. *)
Definition url_at (index : Z) (w : WrappedMessage) : string :=
  if (0 <=? index) && (index <? llen (BlobAttachments w)) then
    match BlobAttachments w !! Z.to_nat index with
    | Some att => if (blob_str "PlayableUrl" att =? "")%string then blob_str "PreviewUrl" att else blob_str "PlayableUrl" att
    | None => ""
    end
  else "".

Section DirectMedia.
Context {JID : Type} (ParseJID : string -> option JID).
Context (BypassOnionForMedia : bool) (MaxFileSize : Z).
(** The JSON of a [DirectMediaMeta], which may be null, and of a [DirectMediaWhatsApp]. *)
Context (UnmarshalMeta : string -> option DMeta + string) (MarshalMeta : DMeta -> string)
  (UnmarshalWhatsApp : string -> option string + string).

(** ** Posts of Instagram *)

Definition first_of (items : list (option Item)) : DM (string + DError) :=
  match items with
  | [] => mret (inr (DText "empty response from FetchMedia"))
  | None :: _ => panic
  | Some item :: _ => mret (extractBestURL item)
  end.

Definition fetch_first (mediaID shortcode : string) : DM (string + DError) :=
  r ← dask (QDFetchMedia mediaID shortcode);
  match r with
  | inr e => mret (inr (DWrap "failed to fetch media: " (DText e)))
  | inl None => panic
  | inl (Some items) => first_of items
  end.

(** The first item with an id; a null item panics. *)
Fixpoint item_with (pk : string) (l : list (option Item)) : res (option Item) :=
  match l with
  | [] => Ok None
  | None :: _ => Panic
  | Some i :: l => if (item_Pk i =? pk)%string then Ok (Some i) else item_with pk l
  end.

Definition refreshXMAMedia (info : DMeta) : DM (string + DError) :=
  c ← dask QClient;
  match c with
  | None => panic
  | Some false => mret (inr (DText "instagram client not available"))
  | Some true =>
      let r := dm_Refresh info in
      if negb (StoryMediaID r =? "")%string && negb (StoryReelID r =? "")%string then
        x ← dask (QDFetchReel (StoryReelID r) (StoryMediaID r));
        match x with
        | inr e => mret (inr (DWrap "failed to fetch reel: " (DText e)))
        | inl None => panic
        | inl (Some reels) =>
            match reels !! StoryReelID r with
            | None => mret (inr (DText "reel not found in response"))
            | Some reel =>
                match reel_Items reel with
                | [] => mret (inr (DText "reel not found in response"))
                | items =>
                    i ← of_res (item_with (StoryMediaID r) items);
                    match i with
                    | Some item => mret (extractBestURL item)
                    | None => first_of items
                    end
                end
            end
        end
      else if negb (StoryMediaID r =? "")%string then fetch_first (StoryMediaID r) ""
      else if negb (XMATargetID r =? 0) || negb (XMAShortcode r =? "")%string
      then fetch_first (FormatInt 10 (XMATargetID r)) (XMAShortcode r)
      else mret (inr (DText "no XMA identifiers available for refresh"))
  end.

(** ** Attachments of messages *)

(** One stored part of a message: it gets the fresh address of its attachment.  The answer is
    whether it did, with which address. *)
Definition refresh_part (urls : gmap string (string * Z)) (p : DBPart) : DM (option (DMeta * string)) :=
  match db_Direct p with
  | None => mret None
  | Some s =>
      match UnmarshalMeta s with
      | inr _ => mret None
      | inl d =>
          (* null leaves the zero struct, whose id is empty *)
          match d with
          | None => mret None
          | Some d =>
              let fbid := AttachmentFbid (dm_Refresh d) in
              if (fbid =? "")%string then mret None
              else match urls !! fbid with
                   | None => mret None
                   | Some (freshURL, freshExpiry) =>
                       if (freshURL =? dm_URL d)%string then mret None
                       else
                         let d' := set_address freshURL freshExpiry d in
                         e ← dask (QUpdatePart (set_direct (MarshalMeta d') p));
                         match e with Some _ => mret None | None => mret (Some (d', freshURL)) end
                   end
          end
      end
  end.

(** The stored parts of a message; the address of the attachment that is looked for. *)
Fixpoint refresh_parts (urls : gmap string (string * Z)) (isTarget : bool) (fbid : string) (parts : list DBPart) (resultURL : string) : DM string :=
  match parts with
  | [] => mret resultURL
  | p :: parts =>
      r ← refresh_part urls p;
      refresh_parts urls isTarget fbid parts
        (match r with
         | Some (d, url) => if isTarget && (AttachmentFbid (dm_Refresh d) =? fbid)%string then url else resultURL
         | None => resultURL
         end)
  end.

Definition refresh_message (receiver target : string) (info : DMeta) (w : WrappedMessage) (resultURL : string) : DM string :=
  let urls := fresh_urls w in
  let isTarget := (msg_str "MessageId" w =? target)%string in
  if (size urls =? 0)%nat then mret resultURL
  else
    parts ← dask (QGetAllParts receiver (MakeFBMessageID (msg_str "MessageId" w)));
    match parts with
    | inr _ => mret resultURL
    | inl parts =>
        resultURL ← refresh_parts urls isTarget (AttachmentFbid (dm_Refresh info)) parts resultURL;
        mret (if isTarget && (resultURL =? "")%string then url_at (PartIndex (dm_Refresh info)) w else resultURL)
    end.

Fixpoint refresh_messages (receiver target : string) (info : DMeta) (l : list WrappedMessage) (resultURL : string) : DM string :=
  match l with
  | [] => mret resultURL
  | w :: l => url ← refresh_message receiver target info w resultURL; refresh_messages receiver target info l url
  end.

(** The messages of a response, those of the chunks first. *)
Definition all_fetched (t : tables) : res (list WrappedMessage) :=
  '(h, upserts, inserts) ← WrapMessages t;
  Ok (omap (fun p => h !! p) (concat (Messages <$> (map_to_list upserts).*2) ++ inserts)).

Definition refreshBlobMedia (msg : DBPart) (info : DMeta) : DM (string + DError) :=
  let threadKey := ParseFBPortalID (db_RoomID msg) in
  if threadKey =? 0 then mret (inr (DText "invalid thread key"))
  else
    match ParseMessageID ParseJID (db_MessageID msg) with
    | Some (ParsedFBMessageID id) =>
        cursor ← dask QCursor;
        resp ← dask (QFetchMessages (TaskTypes.FetchMessagesTask.mkFetchMessagesTask threadKey 0 (db_TimestampMs msg) id 1 cursor));
        match resp with
        | inr e => mret (inr (DWrap "failed to fetch messages: " (DText e)))
        | inl t =>
            l ← of_res (all_fetched t);
            resultURL ← refresh_messages (db_Receiver msg) id info l "";
            mret (if (resultURL =? "")%string then inr (DText "target attachment not found in re-fetched messages") else inl resultURL)
        end
    | _ => mret (inr (DText ("not a FB message ID: " ++ db_MessageID msg)))
    end.

Definition refreshMediaURL (user : string) (msg : DBPart) (info : DMeta) : DM (string + DError) :=
  ready ← dask (QLoginReady user);
  if negb ready then mret (inr (DText "no logged in user found for refresh"))
  else
    let r := dm_Refresh info in
    if negb (XMATargetID r =? 0) || negb (XMAShortcode r =? "")%string || negb (StoryMediaID r =? "")%string then refreshXMAMedia info
    else if negb (AttachmentFbid r =? "")%string then refreshBlobMedia msg info
    else mret (inr (DText "no refresh identifiers available")).

(** ** Download *)

Definition download (mime url : string) : DM (Z * (ReadCloser + MediaError)) :=
  embed_direct (Media.DownloadMedia BypassOnionForMedia mime url MaxFileSize).

Definition response (info : DMeta) (d : Z * (ReadCloser + MediaError)) : MediaResponseData + DError :=
  match d.2 with
  | inl r => inl (ResponseData r (dm_MimeType info) d.1)
  | inr e => inr (DMediaError e)
  end.

Definition download_meta (user : string) (msg : DBPart) (info : DMeta) : DM (MediaResponseData + DError) :=
  now ← dask QNowMs;
  let expires := ExpiresAt (dm_Refresh info) in
  let needsRefresh := (expires >? 0) && (now >? int64 (expires - 5 * 60 * 1000)) in
  d ← download (dm_MimeType info) (dm_URL info);
  match d.2 with
  | inr e =>
      if is_forbidden e || needsRefresh then
        u ← refreshMediaURL user msg info;
        match u with
        | inr _ => mret (inr (DMediaError e))
        | inl url => d ← download (dm_MimeType info) url; mret (response info d)
        end
      else mret (inr (DMediaError e))
  | inl _ => mret (response info d)
  end.

Definition Download (mediaID : list byte) : DM (MediaResponseData + DError) :=
  match ParseMediaID mediaID with
  | Halt h => of_res (Halt h)
  | Err e => mret (inr (DText e))
  | Ok i =>
      m ← ((if (MetaID.PartID i =? "")%string then dask (QGetFirstPart (MetaID.UserID i) (MetaID.MessageID i))
            else dask (QGetPart (MetaID.UserID i) (MetaID.MessageID i) (MetaID.PartID i))) : DM (option DBPart + string));
      match m with
      | inr e => mret (inr (DText e))
      | inl None => mret (inr (DText "message not found"))
      | inl (Some msg) =>
          match db_Direct msg with
          | None => mret (inr (DText "message does not have direct media metadata"))
          | Some dmm =>
              let t := MetaID.Type_ i in
              if (t =? DirectMediaTypeMetaV1) || (t =? DirectMediaTypeMetaV2) then
                match UnmarshalMeta dmm with
                | inr e => mret (inr (DText e))
                | inl None => panic
                | inl (Some info) => download_meta (MetaID.UserID i) msg info
                end
              else if (t =? DirectMediaTypeWhatsAppV1) || (t =? DirectMediaTypeWhatsAppV2) then
                match UnmarshalWhatsApp dmm with
                | inr e => mret (inr (DText e))
                | inl info =>
                    ready ← dask (QLoginReady (MetaID.UserID i));
                    if negb ready then mret (inr (DText "no logged in user found")) else mret (inl (ResponseFile info))
                end
              else mret (inr (DText ("unknown media type: " ++ FormatInt 10 t)))
          end
      end
  end.
End DirectMedia.

(** * Properties *)

Section DirectProofs.
Context {JID : Type} (ParseJID : string -> option JID).
Context (BypassOnionForMedia : bool) (MaxFileSize : Z).
Context (UnmarshalMeta : string -> option DMeta + string) (MarshalMeta : DMeta -> string).

(** ** Fresh addresses *)

(** An attachment of a message: its id, and the address it is played from. *)
Definition attached (w : WrappedMessage) (fbid url : string) : Prop :=
  (exists att, att ∈ BlobAttachments w /\ blob_str "AttachmentFbid" att = fbid /\
     url = (if (blob_str "PlayableUrl" att =? "")%string then blob_str "PreviewUrl" att else blob_str "PlayableUrl" att)) \/
  (exists att, att ∈ Attachments w /\ att_str "AttachmentFbid" att = fbid /\
     url = (if (att_str "PlayableUrl" att =? "")%string then att_str "PreviewUrl" att else att_str "PlayableUrl" att)).

Lemma add_fresh_lookup fbid playable preview e1 e2 m id url e :
  add_fresh fbid playable preview e1 e2 m !! id = Some (url, e) ->
  m !! id = Some (url, e) \/ fbid = id /\ url = (if (playable =? "")%string then preview else playable).
Proof.
  unfold add_fresh. destruct (fbid =? "")%string; [by left|].
  destruct (playable =? "")%string; [destruct (preview =? "")%string|destruct (playable =? "")%string]; try (by left);
    (destruct (decide (fbid = id)) as [->|Hne]; [rewrite lookup_insert_eq; intros [= <- <-]; by right|rewrite lookup_insert_ne by done; by left]).
Qed.

(** Adding the addresses of a list of rows. *)
Lemma foldl_fresh (f : gmap string (string * Z) -> Inst -> gmap string (string * Z)) (P : Inst -> string -> string -> Prop)
    (Hf : forall m att id url e, f m att !! id = Some (url, e) -> m !! id = Some (url, e) \/ P att id url) l :
  forall m id url e, foldl f m l !! id = Some (url, e) -> m !! id = Some (url, e) \/ exists att, att ∈ l /\ P att id url.
Proof.
  induction l as [|x l IH]; intros m id url e H; [by left|]. destruct (IH _ _ _ _ H) as [H'|(att & Hin & HP)].
  - destruct (Hf _ _ _ _ _ H') as [?|?]; [by left|right]. exists x. split; [left|done].
  - right. exists att. split; [by right|done].
Qed.

Lemma fresh_urls_attached w id url e : fresh_urls w !! id = Some (url, e) -> attached w id url.
Proof.
  unfold fresh_urls. intros H. apply (foldl_fresh _ (fun att id url => att_str "AttachmentFbid" att = id /\
    url = (if (att_str "PlayableUrl" att =? "")%string then att_str "PreviewUrl" att else att_str "PlayableUrl" att))) in H.
  2: { intros m att i u e' H'. by apply add_fresh_lookup in H'. }
  destruct H as [H|(att & H1 & H2 & H3)]; [|right; by exists att]. left.
  apply (foldl_fresh _ (fun att id url => blob_str "AttachmentFbid" att = id /\
    url = (if (blob_str "PlayableUrl" att =? "")%string then blob_str "PreviewUrl" att else blob_str "PlayableUrl" att))) in H.
  2: { intros m att i u e' H'. by apply add_fresh_lookup in H'. }
  destruct H as [H|(att & H1 & H2 & H3)]; [by rewrite lookup_empty in H|]. by exists att.
Qed.

(** ** What is found *)

(** The address of the attachment with an id, or else at a place, in a message with an id. *)
Definition found_in (target fbid : string) (index : Z) (l : list WrappedMessage) (url : string) : Prop :=
  exists w, w ∈ l /\ msg_str "MessageId" w = target /\ (attached w fbid url \/ url = url_at index w).

#[local] Abbreviation refresh_part' := (refresh_part UnmarshalMeta MarshalMeta).
#[local] Abbreviation refresh_parts' := (refresh_parts UnmarshalMeta MarshalMeta).
#[local] Abbreviation refresh_message' := (refresh_message UnmarshalMeta MarshalMeta).
#[local] Abbreviation refresh_messages' := (refresh_messages UnmarshalMeta MarshalMeta).

Lemma refresh_part_ok urls p tr r : runs (refresh_part' urls p) tr r ->
  exists x, r = Ok x /\ match x with Some (d, url) => exists e, urls !! AttachmentFbid (dm_Refresh d) = Some (url, e) | None => True end.
Proof.
  unfold refresh_part. destruct (db_Direct p) as [s|]; [|by intros [-> ->]; exists None].
  destruct (UnmarshalMeta s) as [[d|]|e]; [|by intros [-> ->]; exists None..].
  destruct (_ =? _)%string; [by intros [-> ->]; exists None|].
  destruct (urls !! _) as [[u e]|] eqn:Hu; [|by intros [-> ->]; exists None].
  destruct (_ =? _)%string; [by intros [-> ->]; exists None|].
  intros (r1 & t1 & t2 & -> & H1 & H2)%run_bind.
  destruct (proj1 (run_ask (answer := direct_answer) (QUpdatePart _) _ _) H1) as (x & -> & ->).
  destruct x; destruct H2 as [-> ->]; [by exists None|]. eexists (Some (_, _)). split; [reflexivity|]. cbn. by exists e.
Qed.

Lemma refresh_parts_ok w isTarget fbid parts : forall result tr r, runs (refresh_parts' (fresh_urls w) isTarget fbid parts result) tr r ->
  exists url, r = Ok url /\ (url = result \/ isTarget = true /\ attached w fbid url).
Proof.
  induction parts as [|p parts IH]; intros result tr r H; cbn [refresh_parts] in H; [destruct H as [-> ->]; exists result; split; [done|by left]|].
  apply run_bind in H as (r1 & t1 & t2 & -> & H1 & H2). destruct (refresh_part_ok _ _ _ _ H1) as (x & -> & Hx).
  destruct (IH _ _ _ H2) as (url & -> & [->|H]); [|exists url; split; [done|by right]].
  destruct x as [[d u]|]; [|eexists; split; [done|by left]]. destruct Hx as [e Hx].
  destruct isTarget; [|eexists; split; [done|by left]]. cbn [andb]. destruct (String.eqb_spec (AttachmentFbid (dm_Refresh d)) fbid) as [<-|];
    [|eexists; split; [done|by left]]. eexists. split; [done|]. right. split; [done|by eapply fresh_urls_attached].
Qed.

Lemma refresh_message_ok receiver target info w result tr r : runs (refresh_message' receiver target info w result) tr r ->
  exists url, r = Ok url /\ (url = result \/ msg_str "MessageId" w = target /\
    (attached w (AttachmentFbid (dm_Refresh info)) url \/ url = url_at (PartIndex (dm_Refresh info)) w)).
Proof.
  unfold refresh_message. destruct (_ =? _)%nat; [intros [-> ->]; eexists; split; [done|by left]|].
  intros (r1 & t1 & t2 & -> & H1 & H2)%run_bind.
  destruct (proj1 (run_ask (answer := direct_answer) (QGetAllParts _ _) _ _) H1) as (x & -> & ->).
  destruct x as [parts|e]; [|destruct H2 as [-> ->]; eexists; split; [done|by left]].
  apply run_bind in H2 as (r2 & t3 & t4 & -> & H2 & H3). destruct (refresh_parts_ok _ _ _ _ _ _ _ H2) as (url & -> & Hu).
  destruct H3 as [-> ->]. eexists. split; [done|]. destruct (String.eqb_spec (msg_str "MessageId" w) target) as [Ht|Ht]; cbn [andb].
  - destruct (url =? "")%string; [right; split; [done|by right]|]. destruct Hu as [->|[_ Hu]]; [by left|right]. split; [done|by left].
  - destruct Hu as [->|[? _]]; [by left|done].
Qed.

Lemma refresh_messages_ok receiver target info l : forall result tr r, runs (refresh_messages' receiver target info l result) tr r ->
  exists url, r = Ok url /\ (url = result \/ found_in target (AttachmentFbid (dm_Refresh info)) (PartIndex (dm_Refresh info)) l url).
Proof.
  induction l as [|w l IH]; intros result tr r H; cbn [refresh_messages] in H; [destruct H as [-> ->]; eexists; split; [done|by left]|].
  apply run_bind in H as (r1 & t1 & t2 & -> & H1 & H2). destruct (refresh_message_ok _ _ _ _ _ _ _ H1) as (u & -> & Hu).
  destruct (IH _ _ _ H2) as (url & -> & [->|(w' & Hin & H)]).
  - eexists. split; [done|]. destruct Hu as [->|Hu]; [by left|right]. exists w. split; [left|done].
  - eexists. split; [done|]. right. exists w'. split; [by right|done].
Qed.

(** The answers with messages. *)
Definition fetched_tables (e : event direct_answer) : option (tables + string) :=
  match e with
  | Event q x => match q return direct_answer q -> option (tables + string) with QFetchMessages _ => fun x => Some x | _ => fun _ => None end x
  end.

(** The fresh address of an attachment is one the server gave for an attachment with its id, or at
    the index stored with it, in the message it was in, as the server sent it again.  The index is
    looked up among the attachments that are blobs, for one of the older kind as well, whose place
    among those of its kind it is not. *)
Theorem refreshed_address_is_its_own msg info tr url
    (Hr : runs (refreshBlobMedia ParseJID UnmarshalMeta MarshalMeta msg info) tr (Ok (inl url))) :
  exists id t l, ParseMessageID ParseJID (db_MessageID msg) = Some (ParsedFBMessageID id) /\ inl t ∈ omap fetched_tables tr /\
    all_fetched t = Ok l /\ found_in id (AttachmentFbid (dm_Refresh info)) (PartIndex (dm_Refresh info)) l url /\ url <> ""%string.
Proof.
  unfold refreshBlobMedia in Hr. destruct (_ =? 0); [by destruct Hr as [_ [=]]|].
  destruct (ParseMessageID ParseJID (db_MessageID msg)) as [[chat sender id|id]|]; [by destruct Hr as [_ [=]]| |by destruct Hr as [_ [=]]].
  apply run_bind_Ok in Hr as (cursor & t1 & t2 & -> & _ & Hr). apply run_bind in Hr as (r & t3 & t4 & -> & H1 & Hr).
  destruct (proj1 (run_ask (answer := direct_answer) (QFetchMessages _) _ _) H1) as (x & -> & ->).
  destruct x as [t|e]; [|by destruct Hr as [_ [=]]].
  apply run_bind_Ok in Hr as (l & t5 & t6 & -> & [-> Hl] & Hr). apply run_bind_Ok in Hr as (u & t7 & t8 & -> & H2 & [-> Hu]).
  destruct (refresh_messages_ok _ _ _ _ _ _ _ H2) as (u' & [= <-] & Hf).
  destruct (String.eqb_spec u "") as [->|Hne]; [done|]. injection Hu as ->. exists id, t, l. split; [done|]. split; [|split; [done|]].
  - rewrite omap_app. apply elem_of_app. right. left.
  - destruct Hf as [->|Hf]; [done|]. by split.
Qed.

(** ** What is stored *)

(** An update of a part stores the address its attachment has in the messages, and nothing else. *)
Definition fresh_update (l : list WrappedMessage) (q : DReq) : Prop :=
  match q with
  | QUpdatePart p => exists w p0 s d url e, w ∈ l /\ attached w (AttachmentFbid (dm_Refresh d)) url /\ db_Direct p0 = Some s /\
      UnmarshalMeta s = inl (Some d) /\ p = set_direct (MarshalMeta (set_address url e d)) p0
  | _ => True
  end.

Lemma fresh_part l w p : w ∈ l -> asks_only (fresh_update l) (refresh_part' (fresh_urls w) p).
Proof.
  intros Hw. unfold refresh_part. destruct (db_Direct p) as [s|] eqn:Hs; [|apply asks_Ret].
  destruct (UnmarshalMeta s) as [[d|]|e] eqn:Hd; [|apply asks_Ret..]. destruct (_ =? _)%string; [apply asks_Ret|].
  destruct (fresh_urls w !! _) as [[u e]|] eqn:Hu; [|apply asks_Ret]. destruct (_ =? _)%string; [apply asks_Ret|].
  apply asks_bind; [|intros []; apply asks_Ret]. refine (asks_ask _ (QUpdatePart _) _). exists w, p, s, d, u, e.
  split_and!; [done|by eapply fresh_urls_attached|done|done|done].
Qed.

Lemma fresh_parts l w isTarget fbid parts : w ∈ l -> forall result, asks_only (fresh_update l) (refresh_parts' (fresh_urls w) isTarget fbid parts result).
Proof.
  intros Hw. induction parts as [|p parts IH]; intros result; [apply asks_Ret|]. cbn [refresh_parts].
  apply asks_bind; [by apply fresh_part|]. intros r. apply IH.
Qed.

Lemma fresh_messages receiver target info all l : (forall w, w ∈ l -> w ∈ all) -> forall result,
  asks_only (fresh_update all) (refresh_messages' receiver target info l result).
Proof.
  induction l as [|w l IH]; intros Hall result; [apply asks_Ret|]. cbn [refresh_messages]. apply asks_bind.
  - unfold refresh_message. destruct (_ =? _)%nat; [apply asks_Ret|]. apply asks_bind; [by refine (asks_ask _ (QGetAllParts _ _) _)|].
    intros [parts|e]; [|apply asks_Ret]. apply asks_bind; [|intros u; apply asks_Ret]. apply fresh_parts, Hall. left.
  - intros u. apply IH. intros w' Hin. apply Hall. by right.
Qed.

(** Refreshing an attachment changes stored parts only as the server says: a part gets the
    address of an attachment with its own id, in a message that was sent again, and keeps
    everything else. *)
Theorem refresh_stores_fresh_addresses receiver target info l result tr r
    (Hr : runs (refresh_messages' receiver target info l result) tr r) : Forall (fun e => fresh_update l (asked e)) tr.
Proof. exact (fresh_messages receiver target info l l (fun _ H => H) result tr r Hr). Qed.
End DirectProofs.

(** ** The best version *)

(** The two loops agree as long as every version has an address. *)
Lemma better_step vs : Forall (fun v => ver_URL v <> ""%string) vs -> forall best best' : _,
  (best.1.1.1 = best'.1 /\ best'.2 = int64 (best.1.1.2 * best.1.2) /\ (best.2 = false <-> best.1.1.1 = ""%string)) ->
  let b := foldl better_version best vs in let b' := foldl step_best best' vs in
  b.1.1.1 = b'.1 /\ b'.2 = int64 (b.1.1.2 * b.1.2) /\ (b.2 = false <-> b.1.1.1 = ""%string).
Proof.
  induction 1 as [|v vs Hv _ IH]; intros best best' H; [exact H|]. cbn [foldl]. apply IH.
  destruct best as [[[u w] h] found], best' as [u' res]. cbn [fst snd] in *. destruct H as (-> & -> & H).
  unfold better_version, step_best. cbn [fst snd]. destruct (_ >? _); cbn [fst snd]; [|done]. split; [done|]. split; [done|]. by split.
Qed.

(** The address that is fetched again for a post is that of the version that was bridged, as
    long as every version has an address. *)
Theorem refresh_finds_same_version item
    (Hv : Forall (fun v => ver_URL v <> ""%string) (VideoVersions item)) (Hi : Forall (fun v => ver_URL v <> ""%string) (Candidates item)) :
  extractBestURL item = match (best_version (VideoVersions item) (Candidates item)).1.1 with
                        | ""%string => inr (DText "no URL found in response")
                        | url => inl url
                        end.
Proof.
  destruct (better_step _ Hv (""%string, 0, 0, false) (""%string, 0)) as (E1 & E2 & E3); [done|].
  unfold extractBestURL, best_version.
  destruct (foldl better_version _ (VideoVersions item)) as [best found]. destruct (foldl step_best _ (VideoVersions item)) as [u res].
  cbn [fst snd] in *. subst u. destruct (String.eqb_spec best.1.1 "") as [Hb|Hb].
  - assert (found = false) as -> by by apply E3.
    destruct (better_step _ Hi (best, false) (best.1.1, res)) as (F1 & F2 & F3); [done|]. cbn [fst snd] in *. rewrite <- F1.
    by destruct (foldl better_version _ (Candidates item)).1.1.1.
  - assert (found = true) as -> by (destruct found; [done|by destruct Hb; apply E3]). cbn [fst].
    destruct (String.eqb_spec best.1.1 ""); [done|]. by destruct best.1.1.
Qed.

(** * Examples *)

Definition demo_refresh : MediaRefreshMeta := mkRefresh 1 "7" 0 0 "" "" "".
Definition demo_meta : DMeta := mkDMeta "image/png" "https://old.example/7" demo_refresh.
Definition demo_unmarshal (s : string) : option DMeta + string := inl (Some demo_meta).
Definition demo_marshal (d : DMeta) : string := dm_URL d.
Definition demo_part : DBPart := mkDBPart "fb:mid.1" "" "5" "1" 1000 (Some "stored"%string).

Definition sent_again : tables :=
  <["LSInsertMessage"%string := [row_set LSInsertMessage "MessageId" (VStr "mid.1") (row_set LSInsertMessage "ThreadKey" (VInt64 5) (reflect_New LSInsertMessage))]]>
    (<["LSInsertBlobAttachment"%string := [row_set LSInsertBlobAttachment "MessageId" (VStr "mid.1") demo_blob]]> ∅).

Definition direct_env (q : DReq) (s : unit) : direct_answer q * unit :=
  (match q return direct_answer q with
   | QDMedia m => match m return media_answer m with
                  | QNewMediaRequest _ => None
                  | QDoMedia _ => inl (mkMediaResponse 200 100 None "" 0%nat)
                  | QReadBody _ _ => ([], Some EOF)
                  | QCloseBody _ => tt
                  end
   | QGetFirstPart _ _ | QGetPart _ _ _ => inl (Some demo_part)
   | QGetAllParts _ _ => inl [demo_part]
   | QUpdatePart _ => None
   | QLoginReady _ => true
   | QClient => Some true
   | QNowMs => 10
   | QCursor => ""%string
   | QDFetchMedia _ _ => inl (Some [Some demo_item])
   | QDFetchReel _ _ => inl (Some ∅)
   | QFetchMessages _ => inl sent_again
   end, s).

Definition no_jid (s : string) : option string := None.
Definition demo_refreshed : DM (string + DError) := refreshBlobMedia no_jid demo_unmarshal demo_marshal demo_part demo_meta.

Example demo_refreshed_url : (play direct_env demo_refreshed tt).1.1 = Ok (inl "https://v.example/7.png"%string).
Proof. vm_compute. reflexivity. Qed.

Lemma refreshed_address_is_its_own_witness : exists id t l, ParseMessageID no_jid (db_MessageID demo_part) = Some (ParsedFBMessageID id) /\
  inl t ∈ omap fetched_tables (play direct_env demo_refreshed tt).1.2 /\ all_fetched t = Ok l /\
  found_in id "7" 0 l "https://v.example/7.png" /\ "https://v.example/7.png"%string <> ""%string.
Proof.
  apply (refreshed_address_is_its_own no_jid demo_unmarshal demo_marshal demo_part demo_meta _ "https://v.example/7.png").
  rewrite <- demo_refreshed_url. apply play_runs.
Defined.

Definition demo_messages : list WrappedMessage := [mkWrappedMessage (reflect_New LSInsertMessage) false [demo_blob] [] [] [] [] "" false].
Definition demo_stored : DM string := refresh_messages demo_unmarshal demo_marshal "1" "mid.1" demo_meta demo_messages "".

Definition updates (tr : list (event direct_answer)) : list (option string) :=
  omap (fun e => match asked e with QUpdatePart p => Some (db_Direct p) | _ => None end) tr.

Lemma refresh_stores_fresh_addresses_witness :
  Forall (fun e => fresh_update demo_unmarshal demo_marshal demo_messages (asked e)) (play direct_env demo_stored tt).1.2
  /\ updates (play direct_env demo_stored tt).1.2 = [Some "https://v.example/7.png"%string].
Proof.
  split; [|vm_compute; reflexivity].
  exact (refresh_stores_fresh_addresses demo_unmarshal demo_marshal "1" "mid.1" demo_meta demo_messages "" _ _ (play_runs direct_env demo_stored tt)).
Defined.

Lemma refresh_finds_same_version_witness : extractBestURL demo_item = inl "https://v.example/1.mp4"%string.
Proof. apply (refresh_finds_same_version demo_item); repeat constructor; discriminate. Defined.
