(* ===== verification/Connection.v ===== *)
(** * Connection: the life of a connection ([connector/client.go])

    A [MetaClient] keeps two connections, one to Meta and one for encrypted chats, each with a
    bridge state, and merges the states into the one the user is told.  Its operations run in
    several goroutines on the same object: they are handlers over a shared state ([Stateful]),
    and what other goroutines do while a call blocks is up to the environment.

    A messagix client, a client for encrypted chats and a function that cancels a context are
    numbers; what they do is requests.  Maps of a bridge state's [Info] are shared, so they live
    in a heap. *)

From S2P Require Import Prelude Strconv Lightspeed Tables Events Cookies MetaID.
From S2P Require Import Errors Interaction Stateful Http.
#[local] Open Scope Z_scope.

(** ** Bridge states *)

Variant BridgeStateEvent :=
| StateUnset | StateConnecting | StateConnected | StateTransientDisconnect
| StateBadCredentials | StateUnknownError
| StateOther (name : string).

#[global] Instance BridgeStateEvent_eq_dec : EqDecision BridgeStateEvent.
Proof. solve_decision. Defined.

(** [Info] is the address of a map. *)
Record BridgeState := mkBridgeState {
  StateEvent : BridgeStateEvent; StateError : string; StateMessage : string; UserAction : string; Info : option nat
}.

Definition UserActionRestart : string := "RESTART".

Definition no_state : BridgeState := mkBridgeState StateUnset "" "" "" None.
Definition just (e : BridgeStateEvent) : BridgeState := mkBridgeState e "" "" "" None.
Definition failed (e : BridgeStateEvent) (code : string) : BridgeState := mkBridgeState e code "" "" None.

Definition MetaCookieRemoved : string := "meta-cookie-removed".
Definition MetaUserIDIsZero : string := "meta-user-id-is-zero".
Definition MetaRedirectedToLoginPage : string := "meta-redirected-to-login".
Definition MetaNotLoggedIn : string := "meta-not-logged-in".
Definition MetaConnectError : string := "meta-connect-error".
Definition MetaGraphQLError : string := "meta-graphql-error".
Definition IGChallengeRequired : string := "ig-challenge-required".
Definition IGAccountSuspended : string := "ig-account-suspended".
Definition IGConsentRequired : string := "ig-consent-required".
Definition FBConsentRequired : string := "fb-consent-required".
Definition FBCheckpointRequired : string := "fb-checkpoint-required".
Definition MetaProxyUpdateFail : string := "meta-proxy-update-fail".
Definition WAConnectError : string := "wa-unknown-connect-error".

(** ** The client *)

(** A device of the encrypted chats: its id, once it is registered, and the UUID Meta suggests. *)
Record Device := mkDevice { dev : nat; DeviceID : option (string * Z); FacebookUUID : string }.

Record Profile := mkProfile { ProfileName : string; ProfileUsername : string; ProfileAvatar : string }.

(** [MetaClient] with what it uses of its login and of the login's metadata.  Times are in
    nanoseconds; an event that is set is [true]. *)
Record Conn := mkConn {
  cli : option nat; LoginCookies : option Cookies; platform : Platform; LoginUA : string;
  WADeviceID : Z; BackfillCompleted : bool; ghost : option string; RemoteName : string;
  RemoteProfile : Profile; stopHandlingTables : option nat; stopPeriodicReconnect : option nat;
  stopConnectAttempt : option nat; initialTable : option tables; initialTableHandled : bool;
  lastFullReconnect : Z; lastStateSave : Z; connectWaiter : bool; e2eeConnectWaiter : bool;
  firstE2EEConnectDone : bool; connecting : bool; E2EE : option nat; WADevice : option Device;
  metaState : BridgeState; waState : BridgeState; infos : gmap nat (gmap string string);
  waOfflineSync : bool; waEventCount : Z
}.

Definition eta_Conn (s : Conn) : Conn :=
  mkConn (cli s) (LoginCookies s) (platform s) (LoginUA s) (WADeviceID s) (BackfillCompleted s)
  (ghost s) (RemoteName s) (RemoteProfile s) (stopHandlingTables s) (stopPeriodicReconnect s)
  (stopConnectAttempt s) (initialTable s) (initialTableHandled s) (lastFullReconnect s)
  (lastStateSave s) (connectWaiter s) (e2eeConnectWaiter s) (firstE2EEConnectDone s)
  (connecting s) (E2EE s) (WADevice s) (metaState s) (waState s) (infos s) (waOfflineSync s)
  (waEventCount s).

(** The record with one field changed. *)
Ltac set_field t f x :=
  let t := eval cbv beta delta [eta_Conn] in t in
  lazymatch eval pattern f in t with ?g _ => let r := eval cbv beta in (g x) in exact r end.

Definition set_cli (x : option nat) (s : Conn) : Conn := ltac:(set_field (eta_Conn s) (cli s) x).
Definition set_LoginCookies (x : option Cookies) (s : Conn) : Conn := ltac:(set_field (eta_Conn s) (LoginCookies s) x).
Definition set_platform (x : Platform) (s : Conn) : Conn := ltac:(set_field (eta_Conn s) (platform s) x).
Definition set_LoginUA (x : string) (s : Conn) : Conn := ltac:(set_field (eta_Conn s) (LoginUA s) x).
Definition set_WADeviceID (x : Z) (s : Conn) : Conn := ltac:(set_field (eta_Conn s) (WADeviceID s) x).
Definition set_BackfillCompleted (x : bool) (s : Conn) : Conn := ltac:(set_field (eta_Conn s) (BackfillCompleted s) x).
Definition set_ghost (x : option string) (s : Conn) : Conn := ltac:(set_field (eta_Conn s) (ghost s) x).
Definition set_RemoteName (x : string) (s : Conn) : Conn := ltac:(set_field (eta_Conn s) (RemoteName s) x).
Definition set_RemoteProfile (x : Profile) (s : Conn) : Conn := ltac:(set_field (eta_Conn s) (RemoteProfile s) x).
Definition set_stopHandlingTables (x : option nat) (s : Conn) : Conn := ltac:(set_field (eta_Conn s) (stopHandlingTables s) x).
Definition set_stopPeriodicReconnect (x : option nat) (s : Conn) : Conn := ltac:(set_field (eta_Conn s) (stopPeriodicReconnect s) x).
Definition set_stopConnectAttempt (x : option nat) (s : Conn) : Conn := ltac:(set_field (eta_Conn s) (stopConnectAttempt s) x).
Definition set_initialTable (x : option tables) (s : Conn) : Conn := ltac:(set_field (eta_Conn s) (initialTable s) x).
Definition set_initialTableHandled (x : bool) (s : Conn) : Conn := ltac:(set_field (eta_Conn s) (initialTableHandled s) x).
Definition set_lastFullReconnect (x : Z) (s : Conn) : Conn := ltac:(set_field (eta_Conn s) (lastFullReconnect s) x).
Definition set_lastStateSave (x : Z) (s : Conn) : Conn := ltac:(set_field (eta_Conn s) (lastStateSave s) x).
Definition set_connectWaiter (x : bool) (s : Conn) : Conn := ltac:(set_field (eta_Conn s) (connectWaiter s) x).
Definition set_e2eeConnectWaiter (x : bool) (s : Conn) : Conn := ltac:(set_field (eta_Conn s) (e2eeConnectWaiter s) x).
Definition set_firstE2EEConnectDone (x : bool) (s : Conn) : Conn := ltac:(set_field (eta_Conn s) (firstE2EEConnectDone s) x).
Definition set_connecting (x : bool) (s : Conn) : Conn := ltac:(set_field (eta_Conn s) (connecting s) x).
Definition set_E2EE (x : option nat) (s : Conn) : Conn := ltac:(set_field (eta_Conn s) (E2EE s) x).
Definition set_WADevice (x : option Device) (s : Conn) : Conn := ltac:(set_field (eta_Conn s) (WADevice s) x).
Definition set_metaState (x : BridgeState) (s : Conn) : Conn := ltac:(set_field (eta_Conn s) (metaState s) x).
Definition set_waState (x : BridgeState) (s : Conn) : Conn := ltac:(set_field (eta_Conn s) (waState s) x).
Definition set_infos (x : gmap nat (gmap string string)) (s : Conn) : Conn := ltac:(set_field (eta_Conn s) (infos s) x).
Definition set_waOfflineSync (x : bool) (s : Conn) : Conn := ltac:(set_field (eta_Conn s) (waOfflineSync s) x).
Definition set_waEventCount (x : Z) (s : Conn) : Conn := ltac:(set_field (eta_Conn s) (waEventCount s) x).

Record Config := mkConfig {
  Proxy : string; GetProxyFrom : string; ProxyE2EE : bool; CacheConnectionState : bool;
  MinFullReconnectIntervalSeconds : Z; ForceRefreshIntervalSeconds : Z; Mode : Platform;
  BatchCount : Z; BatchDelay : Z; PortalEventBuffer : Z
}.

(** What [GetName] and [GetUsername] give of the user a page is loaded for. *)
Record UserInfo := mkUserInfo { GetName : string; GetUsername : string }.

Definition Minute : Z := 60 * Second.
Definition MaxConnectRetries : Z := 10.
(** The zero [time.Time], and [time.Time.Sub], which saturates. *)
Definition zero_time : Z := -62135596800 * Second.
Definition Sub (t u : Z) : Z := Z.max (- 2 ^ 63) (Z.min (2 ^ 63 - 1) (t - u)).

(** ** Requests *)

Variant Goroutine := HandleTableLoop | PeriodicReconnect | TryConnectE2EE (fromConnectFailure : bool) | DoFullReconnect | ThreadBackfill.

Variant Req :=
| QSend (st : BridgeState)                      (** [BridgeState.Send] *)
| QGo (g : Goroutine)
| QNow
| QNewContext | QCancel (ctx : nat) | QCtxDone (ctx : nat)
| QSleep (ctx : nat) (ns : Z)                   (** until the time has passed or the context ends *)
| QUntilDone (ctx : nat)
(** the messagix client *)
| QNewClient (cookies : Cookies) | QSetEventHandler (c : nat) (set : bool)
| QLoadState (c : nat) (data : string) | QDumpState (c : nat)
| QUpdateProxy (c : nat) (reason : string)
| QLoadMessagesPage (c : nat)
| QClientConnect (c : nat) | QClientDisconnect (c : nat)
(** the database *)
| QGetReconnectionState | QPutReconnectionState (data : string) | QDeleteReconnectionState
| QGetGhost | QSaveLogin
(** encrypted chats *)
| QLockE2EE | QUnlockE2EE
| QGetDevice (id : Z) | QNewDevice | QSaveDevice (d : Device) | QDeleteDevice (d : Device)
| QSuggestedDeviceID (c : nat) | QSetDevice (c : nat) (d : option Device)
| QRegisterE2EE (c : nat) (fbid : Z) | QPrepareE2EEClient (c : nat)
| QSetProxyAddress (e : nat) (proxy : string) | QSynchronousAck (e : nat) | QAddEventHandler (e : nat)
| QE2EEConnect (e : nat) | QE2EEDisconnect (e : nat).

Definition answer (q : Req) : Type :=
  match q with
  | QSend _ | QGo _ | QCancel _ | QUntilDone _ | QSetEventHandler _ _ | QClientDisconnect _ => unit
  | QLockE2EE | QUnlockE2EE | QSetDevice _ _ | QSetProxyAddress _ _ | QSynchronousAck _ | QAddEventHandler _ | QE2EEDisconnect _ => unit
  | QNow => Z
  | QNewContext | QNewClient _ => nat
  | QCtxDone _ | QSleep _ _ | QUpdateProxy _ _ => bool
  | QLoadState _ _ | QClientConnect _ => option error
  | QDumpState _ => option string + error
  | QLoadMessagesPage _ => (UserInfo * tables) + error
  | QGetReconnectionState => option string + error
  | QPutReconnectionState _ | QDeleteReconnectionState | QSaveLogin | QSaveDevice _ | QDeleteDevice _ => option error
  | QGetGhost => string + error
  | QGetDevice _ => option Device + error
  | QNewDevice => Device
  | QSuggestedDeviceID _ => option string
  | QRegisterE2EE _ _ | QE2EEConnect _ => option error
  | QPrepareE2EEClient _ => nat + error
  end.

Abbreviation HM := (SM Conn answer).
Abbreviation tell q := (Stateful.tell (S := Conn) (answer := answer) q).
Abbreviation block q := (Stateful.block (S := Conn) (answer := answer) q).
Abbreviation trace := (list (event (reply (S := Conn) answer))).

Abbreviation Send st := (tell (QSend st)).

(** A new map with one entry, and its address. *)
Definition new_info (m : gmap string string) : HM nat :=
  state (fun s => let a := fresh (dom (infos s)) in (a, set_infos (<[a := m]> (infos s)) s)).

(** [Swap] on one of the stored cancel functions, and the call of the one that was there. *)
Definition swap_cancel (get : Conn -> option nat) (set : option nat -> Conn -> Conn) (c : option nat) : HM unit :=
  old ← gets get;
  modify (set c);;
  match old with Some c => tell (QCancel c) | None => mret () end.

(** ** Merging states *)

Definition worst_first : list BridgeStateEvent :=
  [StateBadCredentials; StateUnknownError; StateTransientDisconnect; StateConnecting].

Definition pickWorstCaseBridgeState (st : BridgeState) (s : Conn) : option BridgeState :=
  if bool_decide (StateEvent st = StateEvent (waState s)) && bool_decide (StateEvent st = StateEvent (metaState s))
  then None
  else
    (fix pick (l : list BridgeStateEvent) : option BridgeState :=
       match l with
       | [] => None
       | status :: l =>
           if bool_decide (StateEvent st = status) then None
           else if bool_decide (StateEvent (waState s) = status) then Some (waState s)
           else if bool_decide (StateEvent (metaState s) = status) then Some (metaState s)
           else pick l
       end) worst_first.

(** [FillBridgeState]: the state, and the client, whose maps it may change. *)
Definition FillBridgeState (st : BridgeState) (s : Conn) : BridgeState * Conn :=
  let st := match pickWorstCaseBridgeState st s with
            | Some from => mkBridgeState (StateEvent from) (StateError from) (StateMessage from) (UserAction st) (Info from)
            | None => st
            end in
  let a := match Info st with Some a => a | None => fresh (dom (infos s)) end in
  let info := match Info st with Some a => default ∅ (infos s !! a) | None => ∅ end in
  let info := <["mode" := Platform_String (platform s)]> info in
  let info := if (LoginUA s =? "")%string then info else <["login_user_agent" := LoginUA s]> info in
  (mkBridgeState (StateEvent st) (StateError st) (StateMessage st) (UserAction st) (Some a),
   set_infos (<[a := info]> (infos s)) s).

Section Connection.
Context (cfg : Config) (UserLoginID : string).

(** ** Connecting *)

Definition ensureMessagixClient : HM unit :=
  cookies ← gets LoginCookies;
  c ← gets cli;
  match cookies, c with
  | Some cookies, None =>
      p ← gets platform;
      let cookies := mkCookies p (values cookies) (IGWWWClaim cookies) in
      modify (set_LoginCookies (Some cookies));;
      c ← tell (QNewClient cookies);
      modify (set_cli (Some c));;
      tell (QSetEventHandler c true)
  | _, _ => mret ()
  end.

(** [m.Client.Connect], which a nil client refuses. *)
Definition Client_Connect : HM (option error) :=
  c ← gets cli;
  match c with Some c => tell (QClientConnect c) | None => mret (Some (SentinelError ErrClientIsNil)) end.

(** The common end of [connectWithTable] and [connectWithCache]. *)
Definition connect_client : HM unit :=
  err ← Client_Connect;
  match err with
  | Some _ => Send (failed StateUnknownError MetaConnectError)
  | None => tell (QGo PeriodicReconnect)
  end.

Definition connectWithTable (table : tables) (currentUser : UserInfo) : HM unit :=
  tell (QGo HandleTableLoop);;
  r ← block QGetGhost;
  match r with
  | inr _ => modify (set_ghost None);; Send (failed StateUnknownError MetaConnectError)
  | inl avatar =>
      modify (set_ghost (Some avatar));;
      p ← gets platform;
      prof ← gets RemoteProfile;
      let name := GetName currentUser in
      let username := if IsMessenger p then ProfileUsername prof else GetUsername currentUser in
      modify (set_RemoteName (if negb (IsMessenger p) && (name =? "")%string then GetUsername currentUser else name));;
      modify (set_RemoteProfile (mkProfile name username avatar));;
      modify (set_initialTable (Some table));;
      connect_client
  end.

Definition connectWithCache : HM unit :=
  tell (QGo HandleTableLoop);;
  modify (set_initialTableHandled true);;
  connect_client.

(** The first attempt may restore a saved state; it is done then ([false]). *)
Definition restore_state (c : nat) : HM bool :=
  r ← block QGetReconnectionState;
  match r with
  | inr _ | inl None => mret true
  | inl (Some data) =>
      if negb (CacheConnectionState cfg) then mret true
      else
        err ← tell (QLoadState c data);
        match err with Some _ => mret true | None => connectWithCache;; mret false end
  end.

(** The pause before an attempt ([false]: the connection was cancelled meanwhile). *)
Definition retry_pause (retryCtx : nat) (attempts : Z) : HM bool :=
  block (QSleep retryCtx (int64 (Z.shiftl 1 attempts * Second))).

Definition update_proxy (c : nat) : HM bool :=
  if negb (GetProxyFrom cfg =? "")%string || negb (Proxy cfg =? "")%string then
    ok ← block (QUpdateProxy c "connect");
    when (negb ok) (Send (failed StateUnknownError MetaProxyUpdateFail));;
    mret ok
  else mret true.

Definition stop_periodic_reconnect : HM unit := swap_cancel stopPeriodicReconnect set_stopPeriodicReconnect None.

Definition restart (code : string) : BridgeState := mkBridgeState StateBadCredentials code "" UserActionRestart None.

(** What [connectWithRetry] makes of the failure to load the page; [again] is the next attempt. *)
Definition page_failed (again : HM unit) (attempts : Z) (err : error) : HM unit :=
  if err_is err ErrTokenInvalidated then
    Send (failed StateBadCredentials
            (if err_is err ErrTokenInvalidatedRedirect then MetaRedirectedToLoginPage
             else if err_is err ErrUserIDIsZero then MetaUserIDIsZero else MetaCookieRemoved));;
    modify (set_cli None);;
    modify (set_LoginCookies None);;
    _ ← block QSaveLogin;
    mret ()
  else if err_is err ErrChallengeRequired then Send (restart IGChallengeRequired)
  else if err_is err ErrAccountSuspended then Send (failed StateBadCredentials IGAccountSuspended)
  else if err_is err ErrCheckpointRequired then Send (restart FBCheckpointRequired)
  else if err_is err ErrConsentRequired then
    p ← gets platform;
    Send (restart (if IsMessenger p then FBConsentRequired else IGConsentRequired))
  else match errors_As_Response err with
       | Some lsErr =>
           let stateEvt := if ErrorCode lsErr =? 1357053 then StateBadCredentials
                           else if attempts <? MaxConnectRetries then StateTransientDisconnect
                           else StateUnknownError in
           Send (mkBridgeState stateEvt ("meta-lserror-" ++ FormatInt 10 (ErrorCode lsErr)) (ErrorResponse_Error lsErr) "" None);;
           when (bool_decide (stateEvt = StateTransientDisconnect)) again
       | None =>
           match errors_As_GraphQL err with
           | Some message => Send (mkBridgeState StateUnknownError MetaGraphQLError message "" None)
           | None =>
               if (attempts <? MaxConnectRetries) && negb (err_is err ErrVersionIDNotFound) then
                 Send (failed StateTransientDisconnect MetaConnectError);; again
               else
                 a ← new_info {["go_error" := error_text err]};
                 Send (mkBridgeState StateUnknownError MetaConnectError "" "" (Some a))
           end
       end.

(** The page is loaded, and the client connected with its table. *)
Definition load_page (again : HM unit) (retryCtx : nat) (attempts : Z) (c : nat) : HM unit :=
  modify (set_initialTableHandled false);;
  r ← block (QLoadMessagesPage c);
  match r with
  | inr err => stop_periodic_reconnect;; page_failed again attempts err
  | inl (currentUser, table) =>
      cancelled ← tell (QCtxDone retryCtx);
      when (negb cancelled) (connectWithTable table currentUser)
  end.

Fixpoint connectWithRetry (fuel : nat) (retryCtx : nat) (attempts : Z) : HM unit :=
  match fuel with
  | O => spin
  | S fuel =>
      ensureMessagixClient;;
      c ← gets cli;
      match c with
      | None => Send (failed StateBadCredentials MetaNotLoggedIn)
      | Some c =>
          go_on ← (if attempts >? 0 then retry_pause retryCtx attempts else restore_state c);
          when go_on (
            ok ← update_proxy c;
            when ok (load_page (connectWithRetry fuel retryCtx (attempts + 1)) retryCtx attempts c))
      end
  end.

(** The attempts of one connection. *)
Definition connect_fuel : nat := 11.

Definition start_connecting : HM unit :=
  s ← gets id;
  when (bool_decide (StateEvent (metaState s) = StateUnset) && bool_decide (StateEvent (waState s) = StateUnset)) (
    modify (set_metaState (mkBridgeState StateConnecting (StateError (metaState s)) (StateMessage (metaState s))
                             (UserAction (metaState s)) (Info (metaState s))));;
    when (IsMessenger (platform s))
      (modify (set_waState (mkBridgeState StateConnecting (StateError (waState s)) (StateMessage (waState s))
                              (UserAction (waState s)) (Info (waState s)))));;
    Send (just StateConnecting)).

Definition Connect : HM unit :=
  busy ← gets connecting;
  if (busy : bool) then mret () else
  modify (set_connecting true);;
  start_connecting;;
  retryCtx ← tell QNewContext;
  swap_cancel stopConnectAttempt set_stopConnectAttempt (Some retryCtx);;
  connectWithRetry connect_fuel retryCtx 0;;
  tell (QCancel retryCtx);;
  modify (set_connecting false).

(** ** Encrypted chats *)

Definition e2ee_failed (text : string) (err : error) : option error := Some (Wrap text err).

(** The device: the stored one, or a new one ([true]). *)
Definition find_device : HM (bool + error) :=
  d ← gets WADevice;
  id ← gets WADeviceID;
  r ← (if bool_decide (d = None) && negb (id =? 0) then
         r ← block (QGetDevice id);
         match r with
         | inr err => modify (set_WADevice None);; mret (Some (Wrap "failed to get whatsmeow device: " err))
         | inl d => modify (set_WADevice d);; mret None
         end
       else mret None);
  match r with
  | Some err => mret (inr err)
  | None =>
      d ← gets WADevice;
      match d with
      | Some _ => mret (inl false)
      | None => d ← tell QNewDevice; modify (set_WADevice (Some d));; mret (inl true)
      end
  end.

(** A new device is registered and its id saved. *)
Definition register_device : HM (option error) :=
  c ← gets cli;
  err ← match c with
        | Some c => block (QRegisterE2EE c (ParseUserLoginID UserLoginID))
        | None => mret (Some (SentinelError ErrClientIsNil))
        end;
  match err with
  | Some err => mret (e2ee_failed "failed to register e2ee device: " err)
  | None =>
      d ← gets WADevice;
      match d with
      | Some d =>
          match DeviceID d with
          | None => spanic
          | Some (_, id) =>
              modify (set_WADeviceID id);;
              err ← block (QSaveDevice d);
              match err with
              | Some err => mret (e2ee_failed "failed to save whatsmeow device store: " err)
              | None =>
                  err ← block QSaveLogin;
                  mret (match err with
                        | Some err => e2ee_failed "failed to save device ID to user login: " err
                        | None => None
                        end)
              end
          end
      | None => spanic
      end
  end.

(** The client for encrypted chats is made and connected. *)
Definition open_e2ee : HM (option error) :=
  c ← gets cli;
  r ← match c with
      | Some c => tell (QPrepareE2EEClient c)
      | None => mret (inr (SentinelError ErrClientIsNil))
      end;
  match r with
  | inr err => modify (set_E2EE None);; mret (e2ee_failed "failed to prepare e2ee client: " err)
  | inl e =>
      modify (set_E2EE (Some e));;
      when (ProxyE2EE cfg && negb (Proxy cfg =? "")%string) (tell (QSetProxyAddress e (Proxy cfg)));;
      when (PortalEventBuffer cfg =? 0) (tell (QSynchronousAck e));;
      tell (QAddEventHandler e);;
      err ← block (QE2EEConnect e);
      mret (match err with Some err => e2ee_failed "failed to connect to e2ee socket: " err | None => None end)
  end.

(** [connectE2EE] under its lock. *)
Definition connectE2EE_locked : HM (option error) :=
  e ← gets E2EE;
  match e with
  | Some _ => mret (Some (OtherError "already connected to e2ee"))
  | None =>
      r ← find_device;
      match r with
      | inr err => mret (Some err)
      | inl isNew =>
          c ← gets cli;
          match c with
          | None => spanic                                   (* [m.Client.MessengerLite] *)
          | Some c =>
              suggested ← tell (QSuggestedDeviceID c);
              d ← gets WADevice;
              match suggested, d with
              | Some _, None => spanic
              | Some u, Some d => modify (set_WADevice (Some (mkDevice (dev d) (DeviceID d) u)))
              | None, _ => mret ()
              end;;
              d ← gets WADevice;
              tell (QSetDevice c d);;
              err ← (if (isNew : bool) then register_device else mret None);
              match err with
              | Some err => mret (Some err)
              | None => open_e2ee
              end
          end
      end
  end.

Definition connectE2EE : HM (option error) :=
  block QLockE2EE;;
  r ← connectE2EE_locked;
  tell QUnlockE2EE;;
  mret r.

Definition tryConnectE2EE (fromConnectFailure : bool) : HM unit :=
  err ← connectE2EE;
  match err with
  | None => mret ()
  | Some err =>
      st ← gets (fun s => StateEvent (waState s));
      when (negb (bool_decide (st = StateBadCredentials)) && negb (bool_decide (st = StateUnknownError))) (
        a ← new_info {["go_error" := error_text err]};
        let st := mkBridgeState StateUnknownError WAConnectError "" "" (Some a) in
        modify (set_waState st);;
        Send st)
  end.

(** ** Saving the state of a connection *)

Definition dump_state : HM (option string) :=
  c ← gets cli;
  match c with
  | None => mret None
  | Some c => r ← tell (QDumpState c); mret (match r with inl data => data | inr _ => None end)
  end.

Definition saveConnectionState (data : option string) : HM unit :=
  when (CacheConnectionState cfg) (
    now ← tell QNow;
    last ← gets lastStateSave;
    let ratelimited := Sub now last <? Minute in
    when (negb ratelimited) (now ← tell QNow; modify (set_lastStateSave now));;
    data ← match data with
           | Some data => mret (Some data)
           | None => if negb ratelimited then mret None else dump_state
           end;
    match data with
    | None => mret ()
    | Some data => _ ← block (QPutReconnectionState data); mret ()
    end).

(** ** Disconnecting *)

Definition disconnect (dumpState : bool) : HM (option string) :=
  swap_cancel stopConnectAttempt set_stopConnectAttempt None;;
  c ← gets cli;
  data ← match c with
         | None => mret None
         | Some c =>
             tell (QSetEventHandler c false);;
             block (QClientDisconnect c);;
             data ← (if dumpState && CacheConnectionState cfg
                     then r ← tell (QDumpState c); mret (match r with inl data => data | inr _ => None end)
                     else mret None);
             modify (set_cli None);;
             mret data
         end;
  e ← gets E2EE;
  match e with
  | None => mret ()
  | Some e => block (QE2EEDisconnect e);; modify (set_E2EE None)
  end;;
  swap_cancel stopHandlingTables set_stopHandlingTables None;;
  stop_periodic_reconnect;;
  mret data.

Definition forget_states : HM unit := modify (set_metaState no_state);; modify (set_waState no_state).

Definition Disconnect : HM unit :=
  data ← disconnect true;
  handled ← gets initialTableHandled;
  match data with
  | Some data => when handled (saveConnectionState (Some data))
  | None => mret ()
  end;;
  forget_states.

Definition resetWADevice : HM unit := modify (set_WADevice None);; modify (set_WADeviceID 0).

Definition LogoutRemote : HM unit :=
  _ ← disconnect false;
  d ← gets WADevice;
  match d with
  | Some d => _ ← block (QDeleteDevice d); mret ()
  | None => mret ()
  end;;
  resetWADevice;;
  forget_states;;
  modify (set_LoginCookies None);;
  modify (set_lastFullReconnect zero_time).

Definition canReconnect : HM bool :=
  now ← tell QNow;
  s ← gets id;
  mret ((Sub now (lastFullReconnect s) >? int64 (MinFullReconnectIntervalSeconds cfg * Second))
        && bool_decide (is_Some (LoginCookies s))).

Definition FullReconnect : HM unit :=
  cookies ← gets LoginCookies;
  match cookies with
  | None => mret ()
  | Some _ =>
      modify (set_connectWaiter false);;
      modify (set_e2eeConnectWaiter false);;
      _ ← disconnect false;
      _ ← block QDeleteReconnectionState;
      Connect;;
      now ← tell QNow;
      modify (set_lastFullReconnect now)
  end.

(** The goroutine of [periodicReconnect]: its timer fires once. *)
Definition periodicReconnect : HM unit :=
  if ForceRefreshIntervalSeconds cfg <=? 0 then mret () else
  ctx ← tell QNewContext;
  swap_cancel stopPeriodicReconnect set_stopPeriodicReconnect (Some ctx);;
  fired ← block (QSleep ctx (int64 (ForceRefreshIntervalSeconds cfg * Second)));
  when fired (FullReconnect;; block (QUntilDone ctx));;
  tell (QCancel ctx).

Definition IsThisUser (userID : string) : bool := (userID =? UserLoginID)%string.

(** A login as [LoadUserLogin] makes it, of its metadata. *)
Definition LoadUserLogin (p : Platform) (cookies : option Cookies) (ua : string) (device : Z) (backfilled : bool)
    (name : string) (profile : Profile) : Conn :=
  mkConn None cookies p ua device backfilled None name profile None None None None false
    zero_time zero_time false false false false None None no_state no_state ∅ false 0.
End Connection.

(** * Merged states *)

(** How bad a state is. *)
Definition severity (e : BridgeStateEvent) : nat :=
  match e with
  | StateBadCredentials => 4
  | StateUnknownError => 3
  | StateTransientDisconnect => 2
  | StateConnecting => 1
  | _ => 0
  end.

(** What is told of a state. *)
Definition told (st : BridgeState) : BridgeStateEvent * string * string := (StateEvent st, StateError st, StateMessage st).

(** The worst of three states: the given one if it is as bad as the others, else that of the
    encrypted chats if it is as bad as that of Meta. *)
Definition worst (st wa meta : BridgeState) : BridgeState :=
  if (severity (StateEvent wa) <=? severity (StateEvent st))%nat && (severity (StateEvent meta) <=? severity (StateEvent st))%nat then st
  else if (severity (StateEvent meta) <=? severity (StateEvent wa))%nat then wa
  else meta.

Lemma pick_worst st s : default st (pickWorstCaseBridgeState st s) = worst st (waState s) (metaState s).
Proof.
  unfold pickWorstCaseBridgeState, worst. generalize (waState s) (metaState s). intros wa meta.
  destruct st as [e e1 e2 e3 e4], wa as [w w1 w2 w3 w4], meta as [m m1 m2 m3 m4]. cbn [StateEvent]. destruct (decide (e = w)) as [E1|E1], (decide (e = m)) as [E2|E2]; subst.
  - rewrite bool_decide_true, Nat.leb_refl by done. done.
  - rewrite bool_decide_true, bool_decide_false by done. destruct w, m; vm_compute; congruence.
  - rewrite bool_decide_false by done. destruct w, m; vm_compute; congruence.
  - rewrite bool_decide_false by done. destruct e, w, m; vm_compute; congruence.
Qed.

(** What [FillBridgeState] puts into [Info]. *)
Definition info_of (r : BridgeState * Conn) : gmap string string :=
  match Info r.1 with Some a => default ∅ (infos r.2 !! a) | None => ∅ end.

Lemma fill_spec st s :
  told (FillBridgeState st s).1 = told (worst st (waState s) (metaState s)) /\
  UserAction (FillBridgeState st s).1 = UserAction st /\
  info_of (FillBridgeState st s) !! "mode"%string = Some (Platform_String (platform s)) /\
  (LoginUA s <> ""%string -> info_of (FillBridgeState st s) !! "login_user_agent"%string = Some (LoginUA s)).
Proof.
  rewrite <- pick_worst. unfold FillBridgeState.
  set (from := pickWorstCaseBridgeState st s). split; [by destruct from|]. split; [by destruct from|].
  unfold info_of. cbn [fst snd Info infos set_infos]. rewrite lookup_insert_eq. cbn [default from_option id].
  destruct (String.eqb_spec (LoginUA s) "") as [E|E]; split.
  - by rewrite lookup_insert_eq.
  - done.
  - by rewrite lookup_insert_ne, lookup_insert_eq.
  - intros _. by rewrite lookup_insert_eq.
Qed.

Lemma worst_severity st wa meta :
  severity (StateEvent (worst st wa meta)) =
  max (severity (StateEvent st)) (max (severity (StateEvent wa)) (severity (StateEvent meta))).
Proof.
  unfold worst. destruct (Nat.leb_spec (severity (StateEvent wa)) (severity (StateEvent st))),
    (Nat.leb_spec (severity (StateEvent meta)) (severity (StateEvent st))),
    (Nat.leb_spec (severity (StateEvent meta)) (severity (StateEvent wa))); cbn; lia.
Qed.

(** * What a run did *)

(** The states sent, the pauses and the pages loaded. *)
Definition sends (tr : trace) : list BridgeState :=
  omap (fun e => match (asked e).1 with QSend st => Some st | _ => None end) tr.
Definition pauses (tr : trace) : list Z :=
  omap (fun e => match (asked e).1 with QSleep _ ns => Some ns | _ => None end) tr.
Definition page_of (e : event (reply (S := Conn) answer)) : option ((UserInfo * tables) + error) :=
  match e with
  | Event q x =>
      match q.1 as q0 return answer q0 * Conn -> option ((UserInfo * tables) + error) with
      | QLoadMessagesPage _ => fun x => Some x.1
      | _ => fun _ => None
      end x
  end.
Definition pages (tr : trace) : list ((UserInfo * tables) + error) := omap page_of tr.
Definition cancelled_by (e : event (reply (S := Conn) answer)) : bool :=
  match e with
  | Event q x =>
      match q.1 as q0 return answer q0 * Conn -> bool with
      | QSleep _ _ => fun x => negb x.1
      | QCtxDone _ => fun x => x.1
      | _ => fun _ => false
      end x
  end.
(** The attempt was cancelled; the client was connected. *)
Definition cancelled (tr : trace) : Prop := Exists (fun e => cancelled_by e = true) tr.
Definition started (tr : trace) : Prop := Exists (fun e => (asked e).1 = QGo PeriodicReconnect) tr.

(** The pauses, with their lengths, and the loads of the page, in the order they come. *)
Definition beat_of (e : event (reply (S := Conn) answer)) : option (option Z) :=
  match (asked e).1 with QSleep _ ns => Some (Some ns) | QLoadMessagesPage _ => Some None | _ => None end.
Definition rhythm (tr : trace) : list (option Z) := omap beat_of tr.

Lemma rhythm_app a b : rhythm (a ++ b) = rhythm a ++ rhythm b.
Proof. apply omap_app. Qed.
Lemma rhythm_of_pauses tr : pages tr = [] -> rhythm tr = Some <$> pauses tr.
Proof.
  induction tr as [|[[q s] x] tr IH]; [done|]. destruct q; try exact IH; [|done].
  intros H. change (Some ns :: rhythm tr = Some ns :: (Some <$> pauses tr)). f_equal. by apply IH.
Qed.
Lemma rhythm_of_pages tr : pauses tr = [] -> rhythm tr = const None <$> pages tr.
Proof.
  induction tr as [|[[q s] x] tr IH]; [done|]. destruct q; try exact IH; [done|].
  intros H. change (None :: rhythm tr = None :: (const None <$> pages tr)). f_equal. by apply IH.
Qed.

Lemma sends_app a b : sends (a ++ b) = sends a ++ sends b.
Proof. apply omap_app. Qed.
Lemma pauses_app a b : pauses (a ++ b) = pauses a ++ pauses b.
Proof. apply omap_app. Qed.
Lemma pages_app a b : pages (a ++ b) = pages a ++ pages b.
Proof. apply omap_app. Qed.
Lemma cancelled_app a b : cancelled (a ++ b) <-> cancelled a \/ cancelled b.
Proof. apply Exists_app. Qed.
Lemma started_app a b : started (a ++ b) <-> started a \/ started b.
Proof. apply Exists_app. Qed.

(** An error has been reported last. *)
Definition gave_up (tr : trace) : Prop := exists st, last (sends tr) = Some st /\ (3 <= severity (StateEvent st))%nat.
Definition settled (tr : trace) : Prop := cancelled tr \/ started tr \/ gave_up tr.

Lemma gave_up_app a b : gave_up b -> gave_up (a ++ b).
Proof. intros (st & H & ?). exists st. split; [|done]. by rewrite sends_app, last_app, H. Qed.
Lemma quiet_settled_app a b : settled b -> settled (a ++ b).
Proof.
  intros [H|[H|H]]; [left|right; left|right; right].
  - apply cancelled_app. by right.
  - apply started_app. by right.
  - by apply gave_up_app.
Qed.
(** What does not send keeps what was reported. *)
Lemma gave_up_app_l a b : sends b = [] -> gave_up a -> gave_up (a ++ b).
Proof. intros Hb (st & H & ?). exists st. split; [|done]. by rewrite sends_app, Hb, app_nil_r. Qed.
Lemma quiet_settled_app_l a b : sends b = [] -> settled a -> settled (a ++ b).
Proof.
  intros Hb [H|[H|H]]; [left|right; left|right; right].
  - apply cancelled_app. by left.
  - apply started_app. by left.
  - by apply gave_up_app_l.
Qed.

(** A part of a handler that makes none of these requests. *)
Definition quiet (q : Req) : Prop :=
  match q with QSend _ | QSleep _ _ | QLoadMessagesPage _ | QCtxDone _ => False | _ => True end.
Definition quiet_trace (tr : trace) : Prop := sends tr = [] /\ pauses tr = [] /\ pages tr = [] .

Lemma only_quiet (tr : trace) : Forall (fun e => quiet (asked e).1) tr -> quiet_trace tr.
Proof.
  induction 1 as [|[[q s] x] tr Hq _ (E1 & E2 & E3)]; [done|].
  unfold quiet_trace, sends, pauses, pages in *. cbn in *. destruct q; by rewrite ?E1, ?E2, ?E3.
Qed.

Lemma swap_cancel_run get set c s tr r s' : sruns (swap_cancel get set c) s tr r s' ->
  quiet_trace tr /\ r = Ok () /\ s' = set c s.
Proof.
  unfold swap_cancel. intros H. srun H. srun H. destruct (get s); srun H; by split_and!.
Qed.

Section Runs.
Context (cfg : Config) (UserLoginID : string).

Lemma ensure_run s tr r s' : sruns ensureMessagixClient s tr r s' -> quiet_trace tr /\ r = Ok ().
Proof.
  unfold ensureMessagixClient. intros H. srun H. srun H.
  destruct (LoginCookies s) as [ck|], (cli s); repeat srun H; by split_and!.
Qed.

(** A part of the connection that pauses for nothing and loads no page; what [ok] says of its
    result, it says of a run that has settled. *)
Definition part {A} (m : HM A) (goes_on : A -> Prop) : Prop :=
  forall s tr r s', sruns m s tr r s' ->
  pauses tr = [] /\ pages tr = [] /\ exists a, r = Ok a /\ (goes_on a \/ settled tr).

Lemma sent_failed (tr : trace) st : sends tr = [st] -> (3 <= severity (StateEvent st))%nat -> settled tr.
Proof. intros H Hs. right; right. exists st. by rewrite H. Qed.

Lemma sent_started (a b : trace) s x : settled (a ++ Event (answer := reply answer) (QGo PeriodicReconnect, s) x :: b).
Proof. right; left. apply Exists_app. right. by constructor. Qed.

#[local] Ltac part_end := split; [done|]; split; [done|]; eexists; split; [done|].

Lemma connect_client_part : part connect_client (fun _ => False).
Proof.
  unfold connect_client, Client_Connect. intros s tr r s' H. srun H. srun H0.
  destruct (cli s) as [c|].
  - srun H0. destruct x; srun H; part_end; right.
    + by eapply sent_failed.
    + apply sent_started.
  - srun H0. srun H. part_end; right. by eapply sent_failed.
Qed.

(** What comes before a part. *)
Lemma part_after {A} (m : HM A) G t0 s tr r s' : part m G -> pauses t0 = [] -> pages t0 = [] -> sruns m s tr r s' ->
  pauses (t0 ++ tr) = [] /\ pages (t0 ++ tr) = [] /\ exists a, r = Ok a /\ (G a \/ settled (t0 ++ tr)).
Proof.
  intros Hm H1 H2 Hr. destruct (Hm _ _ _ _ Hr) as (H3 & H4 & a & -> & HG).
  rewrite pauses_app, pages_app, H1, H2, H3, H4. split; [done|]. split; [done|]. exists a. split; [done|].
  destruct HG as [HG|HG]; [by left|right; by apply quiet_settled_app].
Qed.

Lemma connectWithTable_part t u : part (connectWithTable t u) (fun _ => False).
Proof.
  unfold connectWithTable. intros s tr r s' H. srun H. srun H. destruct x as [av|e].
  - srun H. srun H. srun H. srun H. srun H. srun H. rewrite !app_assoc.
    by eapply part_after; [apply connect_client_part|..].
  - srun H. srun H. part_end. right. by eapply sent_failed.
Qed.

Lemma connectWithCache_part : part connectWithCache (fun _ => False).
Proof.
  unfold connectWithCache. intros s tr r s' H. srun H. srun H. rewrite !app_assoc.
  by eapply part_after; [apply connect_client_part|..].
Qed.

Lemma restore_state_part c : part (restore_state cfg c) (fun go => go = true).
Proof.
  unfold restore_state. intros s tr r s' H. srun H. destruct x as [[data|]|e]; [|srun H; part_end; by left..].
  destruct (CacheConnectionState cfg); cbn [negb] in H; [|srun H; part_end; by left].
  srun H. destruct x; [srun H; part_end; by left|]. srun H.
  destruct (connectWithCache_part _ _ _ _ H0) as (H1 & H2 & [] & -> & [[]|H3]). srun H.
  rewrite !pauses_app, !pages_app, H1, H2. part_end. right.
  rewrite !app_assoc, app_nil_r. by apply quiet_settled_app.
Qed.

Lemma update_proxy_part c : part (update_proxy cfg c) (fun ok => ok = true).
Proof.
  unfold update_proxy. intros s tr r s' H. destruct (negb _ || negb _); [|srun H; part_end; by left].
  srun H. srun H. destruct x; cbn [negb] in H0.
  - srun H0. srun H. part_end. by left.
  - srun H0. srun H. part_end. right. by eapply sent_failed.
Qed.

(** The pause before attempt [a]. *)
Definition pause (a : Z) : Z := int64 (Z.shiftl 1 a * Second).

Lemma page_failed_run again a err s tr r s' : sruns (page_failed again a err) s tr r s' ->
  (pauses tr = [] /\ pages tr = [] /\ r = Ok () /\ settled tr) \/
  (a < MaxConnectRetries /\ exists t1 t2 s1, tr = t1 ++ t2 /\ pauses t1 = [] /\ pages t1 = [] /\ sruns again s1 t2 r s').
Proof.
  unfold page_failed, new_info. intros H.
  repeat match type of H with sruns (if ?c then _ else _) _ _ _ _ => destruct c end.
  1-5: left; repeat srun H; split_and!; try done; right; right; eexists; split; [reflexivity|cbn; lia].
  destruct (errors_As_Response err) as [e|].
  - srun H. destruct (ErrorCode e =? 1357053); [|destruct (Z.ltb_spec a MaxConnectRetries)].
    + left. rewrite bool_decide_eq_false_2 in H by done. srun H. split_and!; try done. eapply sent_failed; [reflexivity|cbn; lia].
    + right. split; [done|]. rewrite bool_decide_eq_true_2 in H by done. apply sruns_when_true in H.
      eexists _, _, _. by split_and!; [reflexivity|..|exact H].
    + left. rewrite bool_decide_eq_false_2 in H by done. srun H. split_and!; try done. eapply sent_failed; [reflexivity|cbn; lia].
  - destruct (errors_As_GraphQL err) as [msg|].
    { left. srun H. split_and!; try done. eapply sent_failed; [reflexivity|cbn; lia]. }
    destruct (Z.ltb_spec a MaxConnectRetries), (err_is err ErrVersionIDNotFound); cbn [andb negb] in H; srun H.
    2: { right. split; [done|]. eexists _, _, _. by split_and!; [reflexivity|..|exact H]. }
    all: left; srun H; split_and!; try done; eapply sent_failed; [reflexivity|cbn; lia].
Qed.

(** The first pause of an attempt, and those of the attempts that may follow. *)
Definition first_pause (a : Z) : list Z := if a >? 0 then [pause a] else [].
Definition schedule (a : Z) (fuel : nat) : list Z :=
  first_pause a ++ ((fun i => pause (a + 1 + Z.of_nat i)) <$> seq 0 (fuel - 1)).

Lemma schedule_S a fuel : 0 <= a -> schedule a (S (S fuel)) = first_pause a ++ schedule (a + 1) (S fuel).
Proof.
  intros Ha. unfold schedule at 1. f_equal. rewrite Nat.sub_succ, Nat.sub_0_r. unfold schedule, first_pause.
  cond_true. rewrite Nat.sub_succ, Nat.sub_0_r. cbn [seq fmap list_fmap app]. f_equal; [f_equal; lia|].
  rewrite <- fmap_S_seq, <- list_fmap_compose. apply list_fmap_ext. intros i x _. cbn. f_equal. lia.
Qed.

Lemma begin_attempt a retryCtx c s tr r s' :
  sruns (if a >? 0 then retry_pause retryCtx a else restore_state cfg c) s tr r s' ->
  pauses tr = first_pause a /\ pages tr = [] /\ exists b, r = Ok b /\ (b = true \/ settled tr).
Proof.
  unfold first_pause. destruct (a >? 0).
  - unfold retry_pause. intros H. srun H. split; [done|]. split; [done|]. eexists. split; [done|].
    destruct x; [by left|]. right; left. by constructor.
  - apply restore_state_part.
Qed.

Lemma load_page_run again retryCtx a c s tr r s' : sruns (load_page again retryCtx a c) s tr r s' ->
  (pauses tr = [] /\ (length (pages tr) <= 1)%nat /\ r = Ok () /\ settled tr) \/
  (a < MaxConnectRetries /\ exists t1 t2 s1, tr = t1 ++ t2 /\ pauses t1 = [] /\ length (pages t1) = 1%nat /\ sruns again s1 t2 r s').
Proof.
  unfold load_page. intros H. srun H. srun H. destruct x as [[u t]|err].
  - left. srun H. destruct x; cbn [negb] in H; srun H.
    + split; [done|]. split; [cbn; lia|]. split; [done|]. left. apply Exists_app. right. apply Exists_app. right. by constructor.
    + destruct (connectWithTable_part _ _ _ _ _ _ H) as (H1 & H2 & [] & -> & [[]|H3]).
      rewrite !pauses_app, !pages_app, H1, H2. split; [done|]. split; [cbn; lia|]. split; [done|].
      rewrite !app_assoc. by apply quiet_settled_app.
  - srun H. unfold stop_periodic_reconnect in H0. apply swap_cancel_run in H0 as ((E1 & E2 & E3) & -> & ->).
    apply page_failed_run in H as [(H1 & H2 & -> & H3)|(Ha & t2 & t3 & s3 & -> & H1 & H2 & H3)].
    + left. rewrite !pauses_app, !pages_app, E2, E3, H1, H2. split; [done|]. split; [cbn; lia|]. split; [done|].
      rewrite !app_assoc. by apply quiet_settled_app.
    + right. split; [done|]. eexists _, t3, s3. split; [by rewrite !app_assoc|].
      rewrite !pauses_app, !pages_app, E2, E3, H1, H2. by split_and!.
Qed.

(** The rhythm of connecting from attempt [a]: a pause before each load but the first. *)
Fixpoint beats (fuel : nat) (a : Z) : list (option Z) :=
  match fuel with O => [] | S fuel => (Some <$> first_pause a) ++ None :: beats fuel (a + 1) end.

#[local] Ltac settled_tac := rewrite ?app_nil_r; repeat first [assumption | apply quiet_settled_app].

Lemma retry_run fuel : forall a retryCtx s tr r s', sruns (connectWithRetry cfg fuel retryCtx a) s tr r s' ->
  a + Z.of_nat fuel = 11 -> 0 <= a -> (0 < fuel)%nat ->
  r = Ok () /\ settled tr /\ (length (pages tr) <= fuel)%nat /\ exists k, pauses tr = take k (schedule a fuel).
Proof.
  induction fuel as [|fuel IH]; intros a retryCtx s tr r s' H Ha H0 Hf; [lia|]. cbn [connectWithRetry] in H.
  srun H. destruct (ensure_run _ _ _ _ H1) as ((E1 & E2 & E3) & ->). srun H. destruct (cli s0) as [c|].
  2: { srun H. split; [done|]. split; [apply quiet_settled_app; by eapply sent_failed; [reflexivity|cbn; lia]|].
       rewrite !pages_app, !pauses_app, E2, E3. split; [cbn; lia|]. by exists O. }
  srun H. apply begin_attempt in H2 as (P1 & P2 & b & -> & Hb).
  destruct b; [|destruct Hb as [|Hb]; [done|]; srun H; split; [done|]; split; [settled_tac|];
    rewrite !pages_app, !pauses_app, E2, E3, P1, P2; split; [cbn; lia|];
    exists (length (first_pause a)); unfold schedule; by rewrite app_nil_r, take_app_length].
  apply sruns_when_true in H. srun H. apply update_proxy_part in H2 as (Q1 & Q2 & ok & -> & Hok).
  destruct ok; [|destruct Hok as [|Hok]; [done|]; srun H; split; [done|]; split; [settled_tac|];
    rewrite !pages_app, !pauses_app, E2, E3, P1, P2, Q1, Q2; split; [cbn; lia|];
    exists (length (first_pause a)); unfold schedule; by rewrite !app_nil_r, take_app_length].
  apply sruns_when_true in H. apply load_page_run in H as [(L1 & L2 & -> & L3)|(La & u1 & u2 & s4 & -> & L1 & L2 & L3)].
  - split; [done|]. split; [settled_tac|]. rewrite !pages_app, !pauses_app, E2, E3, P1, P2, Q1, Q2, L1.
    split; [cbn; lia|]. exists (length (first_pause a)). unfold schedule. by rewrite app_nil_r, take_app_length.
  - unfold MaxConnectRetries in La. destruct fuel as [|fuel]; [lia|].
    destruct (IH _ _ _ _ _ _ L3) as (-> & S1 & S2 & k & S3); [lia..|]. split; [done|].
    split; [settled_tac|]. rewrite !pages_app, !pauses_app, !length_app, E2, E3, P1, P2, Q1, Q2, L1, S3.
    change (pages []) with (@nil ((UserInfo * tables) + error)). change (pauses []) with (@nil Z).
    split; [cbn [length app]; lia|]. rewrite schedule_S by done.
    exists (length (first_pause a) + k)%nat. by rewrite take_app_add.
Qed.

(** What the parts around a load do to the rhythm. *)
Lemma no_beats tr : pauses tr = [] -> pages tr = [] -> rhythm tr = [].
Proof. intros H1 H2. by rewrite rhythm_of_pauses, H1. Qed.
Lemma at_most_one_beat tr : pauses tr = [] -> (length (pages tr) <= 1)%nat -> rhythm tr `prefix_of` [None].
Proof.
  intros H1 H2. rewrite rhythm_of_pages by done. destruct (pages tr) as [|x [|]]; cbn in *; [apply prefix_nil|done|lia].
Qed.
Lemma first_beat tr a : pauses tr = first_pause a -> pages tr = [] -> rhythm tr = Some <$> first_pause a.
Proof. intros H1 H2. by rewrite rhythm_of_pauses, H1. Qed.
Lemma one_beat tr : pauses tr = [] -> length (pages tr) = 1%nat -> rhythm tr = [None].
Proof. intros H1 H2. rewrite rhythm_of_pages by done. destruct (pages tr) as [|x [|]]; [done..|]. by cbn in H2. Qed.

Lemma retry_rhythm fuel : forall a retryCtx s tr r s', sruns (connectWithRetry cfg fuel retryCtx a) s tr r s' ->
  a + Z.of_nat fuel = 11 -> (0 < fuel)%nat -> rhythm tr `prefix_of` beats fuel a.
Proof.
  induction fuel as [|fuel IH]; intros a retryCtx s tr r s' H Ha Hf; [lia|]. cbn [connectWithRetry] in H.
  srun H. destruct (ensure_run _ _ _ _ H0) as ((E1 & E2 & E3) & ->). srun H.
  rewrite !rhythm_app, (no_beats t) by done. change (rhythm []) with (@nil (option Z)). destruct (cli s0) as [c|]; [|srun H; apply prefix_nil].
  srun H. apply begin_attempt in H1 as (P1 & P2 & b & -> & _).
  match type of P1 with pauses ?u = _ => rewrite !rhythm_app, (first_beat u a) by done end. cbn [beats app]. apply prefix_app.
  destruct b; [|srun H; apply prefix_nil]. apply sruns_when_true in H. srun H.
  apply update_proxy_part in H1 as (Q1 & Q2 & ok & -> & _). match type of Q1 with pauses ?u = _ => rewrite !rhythm_app, (no_beats u) by done end. cbn [app].
  destruct ok; [|srun H; apply prefix_nil]. apply sruns_when_true in H.
  apply load_page_run in H as [(L1 & L2 & _)|(La & u1 & u2 & s4 & -> & L1 & L2 & L3)].
  - etransitivity; [by apply at_most_one_beat|]. apply (prefix_app [None]), prefix_nil.
  - unfold MaxConnectRetries in La. rewrite !rhythm_app, (one_beat u1) by done.
    apply (prefix_app [None]), (IH _ _ _ _ _ _ L3); lia.
Qed.

Lemma start_run s tr r s' : sruns start_connecting s tr r s' -> pauses tr = [] /\ pages tr = [] /\ r = Ok ().
Proof.
  unfold start_connecting. intros H. srun H. cbn [id] in H. destruct (_ && _); srun H; [|done].
  srun H. destruct (IsMessenger _); [apply sruns_when_true in H0|apply sruns_when_false in H0 as (-> & -> & ->)].
  - srun H0. by srun H.
  - by srun H.
Qed.
End Runs.

(** While no other goroutine touches the client. *)
Definition calm (tr : trace) : Prop := Forall (fun e => (answered e).2 = (asked e).2) tr.

Lemma calm_app a b : calm (a ++ b) <-> calm a /\ calm b.
Proof. apply Forall_app. Qed.

Lemma calm_one q s x s1 : calm [Event (answer := reply answer) (q, s) (x, s1)] -> s1 = s.
Proof. by inversion 1. Qed.

(** What was cancelled, disconnected, dumped and stored. *)
Definition cancels (tr : trace) : list nat :=
  omap (fun e => match (asked e).1 with QCancel c => Some c | _ => None end) tr.
Definition disconnects (tr : trace) : list nat :=
  omap (fun e => match (asked e).1 with QClientDisconnect c | QE2EEDisconnect c => Some c | _ => None end) tr.
Definition stored (tr : trace) : list string :=
  omap (fun e => match (asked e).1 with QPutReconnectionState d => Some d | _ => None end) tr.
Definition dump_of (e : event (reply (S := Conn) answer)) : option string :=
  match e with
  | Event q x =>
      match q.1 as q0 return answer q0 * Conn -> option string with
      | QDumpState _ => fun x => match x.1 with inl d => d | inr _ => None end
      | _ => fun _ => None
      end x
  end.
Definition dumped (tr : trace) : list string := omap dump_of tr.

Lemma cancels_app a b : cancels (a ++ b) = cancels a ++ cancels b.
Proof. apply omap_app. Qed.
Lemma disconnects_app a b : disconnects (a ++ b) = disconnects a ++ disconnects b.
Proof. apply omap_app. Qed.
Lemma stored_app a b : stored (a ++ b) = stored a ++ stored b.
Proof. apply omap_app. Qed.
Lemma dumped_app a b : dumped (a ++ b) = dumped a ++ dumped b.
Proof. apply omap_app. Qed.

Lemma swap_cancel_effects get set c s tr r s' : sruns (swap_cancel get set c) s tr r s' ->
  cancels tr = option_list (get s) /\ disconnects tr = [] /\ stored tr = [] /\ dumped tr = [] /\ r = Ok () /\ s' = set c s.
Proof.
  unfold swap_cancel. intros H. srun H. srun H. destruct (get s); srun H; by split_and!.
Qed.

(** The state with everything that runs stopped. *)
Definition stopped (s s' : Conn) : Prop :=
  cli s' = None /\ E2EE s' = None /\ stopConnectAttempt s' = None /\ stopHandlingTables s' = None /\
  stopPeriodicReconnect s' = None /\ initialTableHandled s' = initialTableHandled s /\ lastStateSave s' = lastStateSave s.

Lemma disconnect_calm cfg b s tr r s' : sruns (disconnect cfg b) s tr r s' -> calm tr ->
  stopped s s' /\
  cancels tr = option_list (stopConnectAttempt s) ++ option_list (stopHandlingTables s) ++ option_list (stopPeriodicReconnect s) /\
  disconnects tr = option_list (cli s) ++ option_list (E2EE s) /\
  stored tr = [] /\ exists d, r = Ok d /\ option_list d = dumped tr.
Proof.
  unfold disconnect, stop_periodic_reconnect. intros H Hc. srun H. apply swap_cancel_effects in H0 as (A1 & A2 & A3 & A4 & -> & ->).
  srun H. srun H. rewrite !calm_app in Hc. destruct Hc as (_ & _ & Hc1 & Hc2).
  set (s1 := set_stopConnectAttempt None s) in *.
  assert (exists d, r0 = Ok d /\ cancels t0 = [] /\ stored t0 = [] /\ disconnects t0 = option_list (cli s) /\
            option_list d = dumped t0 /\ s0 = set_cli None s1) as (d & -> & B1 & B2 & B3 & B4 & ->).
  { change (cli s1) with (cli s) in H0. destruct (cli s) as [c|] eqn:Ec.
    - srun H0. srun H0. srun H0. rewrite !calm_app in Hc1. destruct Hc1 as (_ & Hx & Hc1).
      apply calm_one in Hx. subst.
      destruct (b && CacheConnectionState cfg).
      + srun H1. srun H1. srun H0. srun H0. eexists. split; [done|]. by split_and!.
      + srun H1. srun H0. srun H0. eexists. split; [done|]. by cbn.
    - srun H0. eexists. split; [done|]. cbn. split_and!; try done. unfold s1, set_cli, set_stopConnectAttempt. cbn.
      by rewrite Ec. }
  clear H0. srun H. srun H. rewrite !calm_app in Hc2. destruct Hc2 as (_ & Hc2 & Hc3).
  assert (r0 = Ok () /\ cancels t1 = [] /\ stored t1 = [] /\ disconnects t1 = option_list (E2EE s) /\ dumped t1 = [] /\
            s0 = set_E2EE None (set_cli None s1)) as (-> & C1 & C2 & C3 & C4 & ->).
  { change (E2EE (set_cli None s1)) with (E2EE s) in H0. destruct (E2EE s) as [e|] eqn:Ee.
    - srun H0. srun H0. rewrite calm_app in Hc2. destruct Hc2 as [Hx _]. apply calm_one in Hx. by subst.
    - srun H0. split_and!; try done. unfold s1, set_cli, set_stopConnectAttempt, set_E2EE. cbn. by rewrite Ee. }
  clear H0. srun H. apply swap_cancel_effects in H0 as (D1 & D2 & D3 & D4 & -> & ->).
  srun H. apply swap_cancel_effects in H0 as (E1 & E2 & E3 & E4 & -> & ->). srun H.
  rewrite !cancels_app, !disconnects_app, !stored_app, !dumped_app, A1, A2, A3, A4, B1, B2, B3, C1, C2, C3, C4, D1, D2, D3, D4, E1, E2, E3, E4.
  cbn [cancels disconnects stored dumped omap list_omap app]. rewrite !app_nil_r.
  split; [by split_and!|]. split; [done|]. split; [done|]. split; [done|]. exists d. split; [done|]. by rewrite B4.
Qed.

(** * Properties *)

(** C18. The state the user is told is the worst of the given one and the two the client keeps,
    where bad credentials are worse than an unknown error, that worse than a passing
    disconnection and that worse than connecting; of equally bad states the given one is
    told, then that of the encrypted chats.  Error and message go with the chosen state, but
    the action the user should take is that of the given state. *)
Theorem told_state_is_worst st s :
  let r := (FillBridgeState st s).1 in
  told r = told (worst st (waState s) (metaState s)) /\
  severity (StateEvent r) = max (severity (StateEvent st)) (max (severity (StateEvent (waState s))) (severity (StateEvent (metaState s)))) /\
  UserAction r = UserAction st /\
  info_of (FillBridgeState st s) !! "mode"%string = Some (Platform_String (platform s)).
Proof.
  destruct (fill_spec st s) as (H1 & H2 & H3 & _). split_and!; try done.
  rewrite <- worst_severity. exact (f_equal (fun x => severity x.1.1) H1).
Qed.

(** C4. Connecting always ends: the page is loaded at most eleven times, at once the first time
    and each further time only after a pause, the pauses being 2, 4, ..., 1024 seconds in this
    order, and at the end the connection was cancelled, or the client runs, or the last thing
    the user is told is an error that needs them (never that the bridge is still connecting). *)
Theorem connecting_ends cfg s tr r s' (Hidle : connecting s = false) (H : sruns (Connect cfg) s tr r s') :
  r = Ok () /\ settled tr /\ (length (pages tr) <= 11)%nat /\
  (exists k, pauses tr = take k ((fun s => s * Second) <$> [2; 4; 8; 16; 32; 64; 128; 256; 512; 1024])) /\
  rhythm tr `prefix_of` None :: mjoin ((fun s => [Some (s * Second); None]) <$> [2; 4; 8; 16; 32; 64; 128; 256; 512; 1024]).
Proof.
  unfold Connect in H. srun H. rewrite Hidle in H. srun H. srun H. apply start_run in H0 as (A1 & A2 & ->).
  srun H. srun H. apply swap_cancel_run in H0 as ((B1 & B2 & B3) & -> & ->). srun H.
  pose proof H0 as R. apply retry_rhythm in R; [|done|unfold connect_fuel; lia].
  apply retry_run in H0 as (-> & C1 & C2 & k & C3); [|done..|unfold connect_fuel; lia]. srun H. srun H.
  split; [done|]. split; [|split; [|split]].
  - rewrite !app_assoc. apply quiet_settled_app_l; [done|]. rewrite app_nil_r. apply quiet_settled_app_l; [done|].
    rewrite <- !app_assoc. rewrite !app_assoc. by apply quiet_settled_app.
  - rewrite !pages_app, A2, B3. cbn [pages omap list_omap page_of app]. by rewrite app_nil_r.
  - rewrite !pauses_app, A1, B2, C3. exists k. cbn [pauses omap list_omap asked fst app]. rewrite !app_nil_r. done.
  - match type of A1 with pauses ?u = _ => match type of B2 with pauses ?v = _ => rewrite !rhythm_app, (no_beats u), (no_beats v) by done end end.
    cbn [rhythm omap list_omap beat_of asked fst app]. rewrite !app_nil_r. exact R.
Qed.

(** C26. When the page says that the login is no longer valid, the user is told so, the client
    and the cookies are dropped and the login saved without them, and nothing is retried;
    whoever connects afterwards is told that they are not logged in, without another request. *)
Theorem expired_login_is_forgotten cfg again retryCtx attempts c s tr r s' e l
    (H : sruns (load_page again retryCtx attempts c) s tr r s')
    (Hpage : pages tr = inr e :: l) (He : err_is e ErrTokenInvalidated = true) :
  r = Ok () /\ l = [] /\
  (exists st, sends tr = [st] /\ StateEvent st = StateBadCredentials) /\
  Exists (fun ev => (asked ev).1 = QSaveLogin /\ cli (asked ev).2 = None /\ LoginCookies (asked ev).2 = None) tr /\
  forall fuel ctx a s1 tr1 r1 s2, cli s1 = None -> LoginCookies s1 = None ->
    sruns (connectWithRetry cfg (S fuel) ctx a) s1 tr1 r1 s2 ->
    r1 = Ok () /\ (asked <$> tr1) = [(QSend (failed StateBadCredentials MetaNotLoggedIn), s1)].
Proof.
  unfold load_page in H. srun H. srun H. destruct x as [[u t]|err].
  { cbn in Hpage. discriminate Hpage. }
  srun H. unfold stop_periodic_reconnect in H0. pose proof (swap_cancel_run _ _ _ _ _ _ _ H0) as ((A1 & A2 & A3) & -> & ->).
  rewrite !pages_app, A3 in Hpage. cbn [pages omap list_omap page_of app] in Hpage. injection Hpage as -> Hl.
  unfold page_failed in H. rewrite He in H. srun H. srun H. srun H. srun H. srun H.
  split; [done|]. split; [by rewrite <- Hl|]. split.
  { eexists. rewrite !sends_app, A1. split; [reflexivity|done]. }
  split.
  { rewrite !Exists_app. do 6 right. left. by constructor. }
  clear. intros fuel ctx a u tr1 r1 u' Hc Hk H. cbn [connectWithRetry] in H. srun H. unfold ensureMessagixClient in H0.
  srun H0. srun H0. rewrite Hc, Hk in H0. srun H0. srun H. rewrite Hc in H. srun H. done.
Qed.

(** The error with which [LoadMessagesPage] reports that a redirect was refused. *)
Definition inbox_error (text : string) (e : error) : error :=
  Wrap "failed to load inbox: " (WrapBoth (SentinelError ErrRequestFailed) (Wrap text e)).

(** What the user should be told of a redirect. *)
Definition account_code (p : Platform) (req : Redirect) (cookies : list HTTPCookie) : string :=
  if (URL_Path req =? "/challenge/")%string then IGChallengeRequired
  else if (URL_Path req =? "/accounts/suspended/")%string then IGAccountSuspended
  else if (URL_Path req =? "/consent/")%string || HasPrefix (URL_Path req) "/privacy/consent/" then
    if IsMessenger p then FBConsentRequired else IGConsentRequired
  else if HasPrefix (URL_Path req) "/checkpoint/" then FBCheckpointRequired
  else match list_find token_cookie_deleted cookies with Some _ => MetaCookieRemoved | None => MetaRedirectedToLoginPage end.

Lemma page_failed_is again a err s tr r s' (what : Sentinel) code :
  sruns (page_failed again a err) s tr r s' ->
  (forall t, err_is err t = bool_decide (t = ErrRequestFailed) || (bool_decide (t = what) || bool_decide (sentinel_unwrap what = Some t))) ->
  match what with
  | ErrTokenInvalidated => code = MetaCookieRemoved
  | ErrTokenInvalidatedRedirect => code = MetaRedirectedToLoginPage
  | ErrChallengeRequired => code = IGChallengeRequired
  | ErrAccountSuspended => code = IGAccountSuspended
  | ErrCheckpointRequired => code = FBCheckpointRequired
  | ErrConsentRequired => code = (if IsMessenger (platform s) then FBConsentRequired else IGConsentRequired)
  | _ => False
  end ->
  r = Ok () /\ pages tr = [] /\ exists st, sends tr = [st] /\ StateEvent st = StateBadCredentials /\ StateError st = code.
Proof.
  intros H Herr Hwhat. unfold page_failed in H. rewrite !Herr in H.
  destruct what; try (by destruct Hwhat); subst code;
    repeat match type of H with context [bool_decide ?P] =>
      let b := eval vm_compute in (bool_decide P) in change (bool_decide P) with b in H end;
    cbn [orb] in H; repeat srun H; (split; [done|]; split; [done|]);
    eexists; (split; [reflexivity|done]).
Qed.

Lemma is_wrapped_redirect text s t u :
  err_is (inbox_error text (WrapSuffix (SentinelError s) u)) t =
  bool_decide (t = ErrRequestFailed) || (bool_decide (t = s) || bool_decide (sentinel_unwrap s = Some t)).
Proof.
  unfold inbox_error. cbn. f_equal; [|f_equal].
  - rewrite orb_false_r. by apply bool_decide_ext.
  - by apply bool_decide_ext.
Qed.

(** When loading the page ends at a redirect that means the account needs attention, the
    user is told that their credentials do not work, with the reason the redirect gave, and no
    further attempt is made. *)
Theorem redirects_reach_the_user again a text req cookies via e s tr r s'
    (Hresp : resp_Cookies req = Some cookies) (Hvia : via <= 5)
    (He : checkHTTPRedirect req via = Some e) (H : sruns (page_failed again a (inbox_error text e)) s tr r s') :
  r = Ok () /\ pages tr = [] /\
  exists st, sends tr = [st] /\ StateEvent st = StateBadCredentials /\ StateError st = account_code (platform s) req cookies.
Proof.
  unfold checkHTTPRedirect in He. rewrite Hresp in He. unfold account_code.
  destruct (Z.gtb_spec via 5); [lia|].
  destruct (URL_Path req =? "/challenge/")%string; [injection He as <-; eapply page_failed_is; [exact H|intros t; apply is_wrapped_redirect|done]|].
  destruct (URL_Path req =? "/accounts/suspended/")%string; [injection He as <-; eapply page_failed_is; [exact H|intros t; apply is_wrapped_redirect|done]|].
  destruct (_ || _); [injection He as <-; eapply page_failed_is; [exact H|intros t; apply is_wrapped_redirect|done]|].
  destruct (HasPrefix _ _); [injection He as <-; eapply page_failed_is; [exact H|intros t; apply is_wrapped_redirect|done]|].
  destruct (list_find _ _) as [[i c]|]; [injection He as <-; eapply page_failed_is; [exact H|intros t; apply is_wrapped_redirect|done]|].
  destruct (URL_Path req =? "/login.php")%string; [injection He as <-; eapply page_failed_is; [exact H|intros t; apply is_wrapped_redirect|done]|done].
Qed.

(** The answers of the clock. *)
Definition time_of (e : event (reply (S := Conn) answer)) : option Z :=
  match e with
  | Event q x =>
      match q.1 as q0 return answer q0 * Conn -> option Z with
      | QNow => fun x => Some x.1
      | _ => fun _ => None
      end x
  end.
Definition times (tr : trace) : list Z := omap time_of tr.

(** The state of the connection that the table loop saves after a table: nothing is saved
    when the last save was a minute ago or more (only the time of the save is noted), and the
    state is dumped, and stored if there is one, when it was less than a minute ago. *)
Theorem state_saved_only_when_recent cfg s tr r s' now l (Hcache : CacheConnectionState cfg = true)
    (H : sruns (saveConnectionState cfg None) s tr r s') (Hnow : times tr = now :: l) :
  r = Ok () /\
  (Minute <= Sub now (lastStateSave s) -> dumped tr = [] /\ stored tr = []) /\
  (Sub now (lastStateSave s) < Minute -> stored tr = dumped tr).
Proof.
  unfold saveConnectionState in H. rewrite Hcache in H. apply sruns_when_true in H. srun H. srun H.
  cbn in Hnow. injection Hnow as -> _.
  destruct (Z.ltb_spec (Sub now (lastStateSave s)) Minute) as [Hlt|Hge]; cbn [negb] in H.
  - srun H. srun H. unfold dump_state in H0. srun H0. destruct (cli s) as [c|].
    + srun H0. srun H0. destruct x as [[d|]|e]; [srun H; srun H| srun H|srun H];
        (split; [done|]); (split; [lia|done]).
    + srun H0. srun H. split; [done|]. split; [lia|done].
  - srun H. srun H0. srun H. srun H. split; [done|]. split; [done|lia].
Qed.

Lemma save_some_calm cfg d s tr r s' : sruns (saveConnectionState cfg (Some d)) s tr r s' -> calm tr ->
  r = Ok () /\ (exists t, s' = set_lastStateSave t s) /\ cancels tr = [] /\ disconnects tr = [] /\ dumped tr = [] /\
  stored tr = if CacheConnectionState cfg then [d] else [].
Proof.
  unfold saveConnectionState. intros H Hc. destruct (CacheConnectionState cfg).
  2: { srun H. split_and!; try done. exists (lastStateSave s). by destruct s. }
  apply sruns_when_true in H. srun H. srun H.
  destruct (Sub x (lastStateSave s) <? Minute); cbn [negb] in H.
  - srun H. srun H. srun H. srun H. rewrite !calm_app in Hc. destruct Hc as (_ & _ & _ & _ & Hc & _).
    apply calm_one in Hc. subst. split_and!; try done. exists (lastStateSave s). by destruct s.
  - srun H. srun H0. srun H. srun H. srun H. rewrite !calm_app in Hc. destruct Hc as (_ & _ & _ & _ & Hc & _).
    apply calm_one in Hc. subst. split_and!; try done. by eexists.
Qed.

(** C32. [Disconnect], as long as no other goroutine touches the client while it runs (each of its
    calls leaves the client as it found it, [calm]; a running attempt to connect could make a
    client anew while the encrypted one is being disconnected): both clients are disconnected and
    dropped, every context that ran is cancelled once, both states are forgotten, and the dumped
    state of the connection is stored exactly when the initial table had been handled and the
    configuration says so. *)
Theorem disconnect_stops_everything cfg s tr r s' (H : sruns (Disconnect cfg) s tr r s') (Hcalm : calm tr) :
  r = Ok () /\ cli s' = None /\ E2EE s' = None /\
  stopConnectAttempt s' = None /\ stopHandlingTables s' = None /\ stopPeriodicReconnect s' = None /\
  metaState s' = no_state /\ waState s' = no_state /\
  cancels tr = option_list (stopConnectAttempt s) ++ option_list (stopHandlingTables s) ++ option_list (stopPeriodicReconnect s) /\
  disconnects tr = option_list (cli s) ++ option_list (E2EE s) /\
  stored tr = if initialTableHandled s && CacheConnectionState cfg then dumped tr else [].
Proof.
  unfold Disconnect, forget_states in H. srun H. rewrite calm_app in Hcalm. destruct Hcalm as [Hc1 Hc].
  apply disconnect_calm in H0 as ((A1 & A2 & A3 & A4 & A5 & A6 & A7) & B1 & B2 & B3 & d & -> & B4); [|done].
  srun H. srun H. rewrite !calm_app in Hc. destruct Hc as (_ & Hc & _).
  assert (r0 = Ok () /\ (exists t, s1 = set_lastStateSave t s0) /\ cancels t0 = [] /\ disconnects t0 = [] /\ dumped t0 = [] /\
            stored t0 = (if initialTableHandled s && CacheConnectionState cfg then option_list d else [])) as (-> & (t' & ->) & C1 & C2 & C4 & C3).
  { destruct d as [d|]; [rewrite A6 in H0; destruct (initialTableHandled s)|].
    - apply sruns_when_true in H0. by apply save_some_calm in H0.
    - srun H0. split_and!; try done. exists (lastStateSave s0). by destruct s0.
    - srun H0. destruct (_ && _); split_and!; try done; exists (lastStateSave s0); by destruct s0. }
  srun H. srun H. rewrite !cancels_app, !disconnects_app, !stored_app, !dumped_app, B1, B2, B3, C1, C2, C3, C4, <- B4.
  cbn [cancels disconnects stored dumped omap list_omap app]. rewrite !app_nil_r.
  by split_and!.
Qed.

(** Connecting to the encrypted chats crashes the bridge when the client of Meta is gone by
    then: the goroutine that does it was started while it was there. *)
Theorem e2ee_without_client_crashes cfg UserLoginID d s tr r s' (Hcli : cli s = None) (He2ee : E2EE s = None)
    (Hdev : WADevice s = Some d) (H : sruns (connectE2EE_locked cfg UserLoginID) s tr r s') : r = Panic.
Proof.
  unfold connectE2EE_locked, find_device in H. srun H. rewrite He2ee in H. srun H. srun H0. rewrite Hdev in H0.
  rewrite bool_decide_eq_false_2 in H0 by done. cbn [andb] in H0. srun H0. srun H0. rewrite Hdev in H0. srun H0.
  srun H. rewrite Hcli in H. by srun H.
Qed.

(** * Witnesses *)

(** An environment that does not interfere: pages fail [n] times with a network error, then
    with [last] or not at all; every other call succeeds. *)
Definition demo_env (last : option error) (q : Req * Conn) (n : nat) : reply answer q * nat :=
  let same {X} (x : X) (m : nat) : (X * Conn) * nat := ((x, q.2), m) in
  match q.1 as q0 return (answer q0 * Conn) * nat with
  | QSend _ | QGo _ | QCancel _ | QUntilDone _ | QSetEventHandler _ _ | QClientDisconnect _ => same () n
  | QLockE2EE | QUnlockE2EE | QSetDevice _ _ | QSetProxyAddress _ _ | QSynchronousAck _ | QAddEventHandler _ | QE2EEDisconnect _ => same () n
  | QNow => same (1000 * Second) n
  | QNewContext | QNewClient _ => same 7%nat n
  | QCtxDone _ => same false n
  | QSleep _ _ | QUpdateProxy _ _ => same true n
  | QLoadState _ _ | QClientConnect _ => same None n
  | QDumpState _ => same (inl (Some "state"%string)) n
  | QLoadMessagesPage _ =>
      match n with
      | O => same (match last with Some e => inr e | None => inl (mkUserInfo "A" "a", ∅) end) O
      | S n => same (inr (OtherError "connection reset")) n
      end
  | QGetReconnectionState => same (inl None) n
  | QPutReconnectionState _ | QDeleteReconnectionState | QSaveLogin | QSaveDevice _ | QDeleteDevice _ => same None n
  | QGetGhost => same (inl ""%string) n
  | QGetDevice _ => same (inl None) n
  | QNewDevice => same (mkDevice 1 None "") n
  | QSuggestedDeviceID _ => same None n
  | QRegisterE2EE _ _ | QE2EEConnect _ => same None n
  | QPrepareE2EEClient _ => same (inl 9%nat) n
  end.

Definition demo_config : Config := mkConfig "" "" false true 3600 0 Messenger 0 0 64.
Definition demo_login : Conn :=
  LoadUserLogin Messenger (Some (mkCookies Messenger (Some ∅) "")) "" 0 false "" (mkProfile "" "" "").
(** Connected, with both clients and everything running. *)
Definition demo_connected : Conn :=
  set_cli (Some 7%nat) (set_E2EE (Some 9%nat) (set_stopHandlingTables (Some 1%nat) (set_stopPeriodicReconnect (Some 2%nat)
    (set_initialTableHandled true (set_metaState (just StateConnected) demo_login))))).

Definition retried := play (demo_env None) (Connect demo_config demo_login) 2%nat.

Example retried_ends : retried.1.1.1 = Ok () /\ pauses retried.1.2 = [2 * Second; 4 * Second] /\
  length (pages retried.1.2) = 3%nat /\
  (StateEvent <$> sends retried.1.2) = [StateConnecting; StateTransientDisconnect; StateTransientDisconnect].
Proof. by vm_compute. Qed.

Lemma retried_runs : sruns (Connect demo_config) demo_login retried.1.2 retried.1.1.1 retried.1.1.2.
Proof. apply play_sruns. Qed.

Lemma connecting_ends_witness :
  retried.1.1.1 = Ok () /\ settled retried.1.2 /\ (length (pages retried.1.2) <= 11)%nat /\
  (exists k, pauses retried.1.2 = take k ((fun s => s * Second) <$> [2; 4; 8; 16; 32; 64; 128; 256; 512; 1024])) /\
  rhythm retried.1.2 `prefix_of` None :: mjoin ((fun s => [Some (s * Second); None]) <$> [2; 4; 8; 16; 32; 64; 128; 256; 512; 1024]).
Proof. exact (connecting_ends demo_config demo_login retried.1.2 retried.1.1.1 retried.1.1.2 eq_refl retried_runs). Defined.

Definition logged_out_page := play (demo_env (Some (SentinelError ErrUserIDIsZero)))
  (load_page (connectWithRetry demo_config 10 3 1) 3 0 7 demo_connected) 0%nat.

Lemma expired_login_is_forgotten_witness :
  logged_out_page.1.1.1 = Ok () /\ exists st, sends logged_out_page.1.2 = [st] /\ StateEvent st = StateBadCredentials.
Proof.
  destruct (expired_login_is_forgotten demo_config _ 3 0 7 demo_connected logged_out_page.1.2 logged_out_page.1.1.1 logged_out_page.1.1.2
    (SentinelError ErrUserIDIsZero) [] (play_sruns _ _ _ _) eq_refl eq_refl)
    as (H1 & _ & H2 & _).
  split; [exact H1|exact H2].
Defined.

Definition challenge_error : error :=
  WrapSuffix (SentinelError ErrChallengeRequired) ": redirected to https://www.instagram.com/challenge/".
Definition challenged := play (demo_env None)
  (page_failed (mret ()) 0 (inbox_error "Get: " challenge_error) demo_connected) 0%nat.

Lemma redirects_reach_the_user_witness :
  checkHTTPRedirect to_challenge 1 = Some challenge_error /\
  exists st, sends challenged.1.2 = [st] /\ StateEvent st = StateBadCredentials /\ StateError st = IGChallengeRequired.
Proof.
  split; [reflexivity|].
  destruct (redirects_reach_the_user (mret ()) 0 "Get: " to_challenge [] 1 challenge_error demo_connected
    challenged.1.2 challenged.1.1.1 challenged.1.1.2 eq_refl ltac:(lia) eq_refl (play_sruns _ _ _ _)) as (_ & _ & H).
  exact H.
Defined.

(** The last save was long ago: the state of a working connection is not saved. *)
Definition not_saved := play (demo_env None) (saveConnectionState demo_config None demo_connected) 0%nat.

Lemma state_saved_only_when_recent_witness : not_saved.1.1.1 = Ok () /\ dumped not_saved.1.2 = [].
Proof.
  destruct (state_saved_only_when_recent demo_config demo_connected not_saved.1.2 not_saved.1.1.1 not_saved.1.1.2
    (1000 * Second) [1000 * Second] eq_refl (play_sruns _ _ _ _) eq_refl) as (H1 & H2 & _).
  split; [exact H1|]. exact (proj1 (H2 ltac:(vm_compute; congruence))).
Defined.

Definition disconnected := play (demo_env None) (Disconnect demo_config demo_connected) 0%nat.

Lemma disconnected_calm : calm disconnected.1.2.
Proof. vm_compute. repeat constructor. Qed.

Lemma disconnect_stops_everything_witness :
  cancels disconnected.1.2 = [1%nat; 2%nat] /\ disconnects disconnected.1.2 = [7%nat; 9%nat] /\
  stored disconnected.1.2 = ["state"%string].
Proof.
  destruct (disconnect_stops_everything demo_config demo_connected disconnected.1.2 disconnected.1.1.1 disconnected.1.1.2
    (play_sruns _ _ _ _) disconnected_calm) as (_ & _ & _ & _ & _ & _ & _ & _ & H1 & H2 & H3).
  split; [exact H1|]. split; [exact H2|exact H3].
Defined.

Definition crashed := play (demo_env None)
  (connectE2EE_locked demo_config "1" (set_WADevice (Some (mkDevice 1 None "")) demo_login)) 0%nat.

Lemma e2ee_without_client_crashes_witness : crashed.1.1.1 = Panic.
Proof.
  apply (e2ee_without_client_crashes demo_config "1" (mkDevice 1 None "") (set_WADevice (Some (mkDevice 1 None "")) demo_login)
    crashed.1.2 crashed.1.1.1 crashed.1.1.2 eq_refl eq_refl eq_refl).
  apply play_sruns.
Defined.
