(* ===== verification/Requests.v ===== *)
(** * Requests: what the handlers of local events ask of their environment

    The handlers of [connector/handlematrix.go] and the conversions of [msgconv/from-matrix.go]
    and [to-whatsapp.go] are trees of requests ([Interaction]).  A request is a call that leaves
    the program or depends on what runs beside it: the server, the framework and its database,
    the library for encrypted chats, the clock, the shared counter of epoch ids.  A call that
    fails answers with its error; an error is the text of its message. *)

From S2P Require Import Prelude Lightspeed Events Json Mentions TaskTypes Tasks.
From S2P Require Import Interaction.
#[local] Open Scope Z_scope.

(** ** Data of the framework *)

(** A message in the framework's database; the time in nanoseconds since the Unix epoch. *)
Record DBMessage := mkDBMessage { msg_ID : string; msg_Sender : string; msg_Timestamp : Z }.

(** The zero [time.Time], of the year 1. *)
Definition zero_time : Z := -62135596800000000000.
(** [UnixMilli], which rounds down. *)
Definition UnixMilli (t : Z) : Z := t / 1000000.
Definition from_millis (ms : Z) : Z := ms * 1000000.
Definition Second : Z := 1000000000.
Definition Hour : Z := 3600 * Second.

(** ** Data of the library for encrypted chats *)

Variant MediaType := MediaImage | MediaVideo | MediaAudio | MediaDocument.

(** What an upload gives: the hashes and keys, which are only passed on, as one text. *)
Record Uploaded := mkUploaded { UploadKeys : string; ObjectID : string }.

(** [WAMediaTransport]: the upload with the time of its key in seconds, and what describes the
    file. *)
Record MediaTransport := mkTransport {
  Integral : Uploaded; MediaKeyTimestamp : Z; FileLength : Z; Mimetype : string;
  ThumbnailWidth : Z; ThumbnailHeight : Z
}.

(** A quoted message, and the setting of a disappearing message: the timer in seconds, the time
    of the setting. *)
Record WAMetadata := mkWAMetadata {
  Quoted : option (string * string); Ephemeral : option (Z * option Z)
}.

(** How the wait of an edit ends. *)
Variant EditEnd := TimedOut | Cancelled (err : string).

(** The calls of the Instagram API. *)
Variant InstagramCall :=
| DeleteThread (id : string)
| EditGroupTitle (id title : string)
| RemoveGroupAvatar (id : string)
| EditGroupAvatar (id data : string).

(** ** Requests *)

Section Requests.
Context {JID : Type}.
(** Outgoing messages of encrypted chats. *)
Context {WAOut : Type}.

Inductive Req :=
(** connections *)
| QConnected | QE2EEConnected | QCtxErr | QLastReconnect | QFullReconnect | QGoFullReconnect
| QBridgeState (code : string)
(** the clock, and the shared counter of epoch ids *)
| QNow | QEpochID
(** the server *)
| QCanSend (milliseconds : Z)
| QExecuteTasks (tasks : list AnyTask)
| QExecuteStateless (task : AnyTask)
| QMercuryUpload (threadID : Z) (filename mime data : string) (voice : bool)
| QRUpload (uploadID : string) (mime data : string)
| QInstagram (c : InstagramCall)
(** the framework *)
| QDownload (url : string)
| QParseHTML (formatted : string)
| QThreadByMessage (id : string)
| QMessagesBetween (from to : Z)
(** edits that arrive beside their response *)
| QRegisterEdits (id : string) | QUnregisterEdits (id : string) | QExtraEdits (id : string)
(** encrypted chats *)
| QSendFBMessage (chat : JID) (message : WAOut) (meta : option WAMetadata) (id : string)
| QWAUpload (data : string) (type : MediaType)
| QConvertVoice (data mime : string)
| QMarkRead (ids : list string) (timestamp : Z) (chat sender : JID)
| QSendPresence (available : bool)
| QSendChatPresence (chat : JID) (composing audio : bool)
| QGroupParticipants (chat target : JID) (add : bool).

Definition answer (q : Req) : Type :=
  match q with
  | QConnected | QE2EEConnected => bool
  | QCtxErr | QCanSend _ | QExecuteStateless _ | QInstagram _ => option string
  | QFullReconnect | QGoFullReconnect | QBridgeState _ | QRegisterEdits _ | QUnregisterEdits _ => unit
  | QLastReconnect | QNow | QEpochID => Z
  | QExecuteTasks _ => tables + string
  | QMercuryUpload _ _ _ _ _ => Z + string          (* the id of the file, zero when absent *)
  | QRUpload _ _ _ => (Z * option Z) + string       (* the status, the id in the body if it parses *)
  | QDownload _ | QConvertVoice _ _ => string + string
  | QParseHTML _ => string * list MetaMention
  | QThreadByMessage _ => Z + string
  | QMessagesBetween _ _ => list DBMessage + string
  | QExtraEdits _ => list Inst * EditEnd            (* the edits that come before the wait ends *)
  | QSendFBMessage _ _ _ _ => Z + string            (* the time of the server *)
  | QWAUpload _ _ => Uploaded + string
  | QMarkRead _ _ _ _ | QSendPresence _ | QSendChatPresence _ _ _ => option string
  | QGroupParticipants _ _ _ => list (Z * JID) + string
  end.

(** A call with a result or an error, and one with an error only. *)
Definition lift {A} (x : A + string) : M answer A :=
  match x with inl a => mret a | inr e => throw e end.
Definition call_error (x : option string) : M answer unit :=
  match x with None => mret () | Some e => throw e end.

Lemma run_lift {A} (x : A + string) tr r :
  runs (lift x) tr r <-> tr = [] /\ r = match x with inl a => Ok a | inr e => Err e end.
Proof. by destruct x. Qed.

Lemma runs_call_error x tr r :
  runs (call_error x) tr r <-> tr = [] /\ r = match x with None => Ok () | Some e => Err e end.
Proof. by destruct x. Qed.

(** ** What a run sent *)

(** The task lists that were run, with the answers. *)
Definition executed_by (e : event answer) : option (list AnyTask * (tables + string)) :=
  match e with
  | Event q x =>
      match q return answer q -> option (list AnyTask * (tables + string)) with
      | QExecuteTasks tasks => fun x => Some (tasks, x)
      | _ => fun _ => None
      end x
  end.
Definition executed (tr : list (event answer)) : list (list AnyTask * (tables + string)) := omap executed_by tr.

(** The messages that were sent to encrypted chats. *)
Definition sent_by (e : event answer) : option (JID * WAOut * string) :=
  match asked e with QSendFBMessage chat msg _ id => Some (chat, msg, id) | _ => None end.
Definition sent (tr : list (event answer)) : list (JID * WAOut * string) := omap sent_by tr.

(** The channels of edits that were registered and removed. *)
Definition channel_by (e : event answer) : option (bool * string) :=
  match asked e with QRegisterEdits id => Some (true, id) | QUnregisterEdits id => Some (false, id) | _ => None end.
Definition channels (tr : list (event answer)) : list (bool * string) := omap channel_by tr.

(** The messages of the database that were looked up, and the encrypted ones marked as read. *)
Definition fetched_by (e : event answer) : option (list DBMessage + string) :=
  match e with
  | Event q x =>
      match q return answer q -> option (list DBMessage + string) with
      | QMessagesBetween _ _ => fun x => Some x
      | _ => fun _ => None
      end x
  end.
Definition fetched (tr : list (event answer)) : list (list DBMessage + string) := omap fetched_by tr.

Definition marked_by (e : event answer) : option (JID * list string) :=
  match asked e with QMarkRead ids _ _ sender => Some (sender, ids) | _ => None end.
Definition marked (tr : list (event answer)) : list (JID * list string) := omap marked_by tr.

(** The requests that neither run tasks, send or mark messages, nor touch the channels. *)
Definition silent (q : Req) : Prop :=
  match q with
  | QExecuteTasks _ | QSendFBMessage _ _ _ _ | QRegisterEdits _ | QUnregisterEdits _
  | QMarkRead _ _ _ _ | QMessagesBetween _ _ => False
  | _ => True
  end.

Lemma executed_app a b : executed (a ++ b) = executed a ++ executed b.
Proof. apply omap_app. Qed.

Lemma sent_app a b : sent (a ++ b) = sent a ++ sent b.
Proof. apply omap_app. Qed.

Lemma silent_nothing tr : Forall (fun e => silent (asked e)) tr -> executed tr = [] /\ sent tr = [].
Proof.
  induction 1 as [|[q x] tr Hq _ [IH1 IH2]]; [done|]. unfold executed, sent. cbn.
  destruct q; cbn in *; try done; by destruct Hq.
Qed.

Lemma channels_app a b : channels (a ++ b) = channels a ++ channels b.
Proof. apply omap_app. Qed.

Lemma silent_channels tr : Forall (fun e => silent (asked e)) tr -> channels tr = [].
Proof.
  induction 1 as [|[q x] tr Hq _ IH]; [done|]. unfold channels in *. cbn. rewrite IH.
  destruct q; cbn in *; try done; by destruct Hq.
Qed.

Lemma silent_reads tr : Forall (fun e => silent (asked e)) tr -> fetched tr = [] /\ marked tr = [].
Proof.
  induction 1 as [|[q x] tr Hq _ [IH1 IH2]]; [done|]. unfold fetched, marked in *. cbn. rewrite IH1, IH2.
  destruct q; cbn in *; try done; by destruct Hq.
Qed.

(** An environment in which everything works, for examples: [reply] is the answer to tasks, the
    clock stands at [now]. *)
Definition calm (reply : tables) (now : Z) (q : Req) (s : unit) : answer q * unit :=
  (match q return answer q with
   | QConnected | QE2EEConnected => true
   | QCtxErr | QCanSend _ | QExecuteStateless _ | QInstagram _ => None
   | QFullReconnect | QGoFullReconnect | QBridgeState _ | QRegisterEdits _ | QUnregisterEdits _ => tt
   | QNow => now
   | QLastReconnect | QEpochID => 42
   | QExecuteTasks _ => inl reply
   | QMercuryUpload _ _ _ _ _ => inl 7
   | QRUpload _ _ _ => inl (200, Some 7)
   | QDownload _ | QConvertVoice _ _ => inl "data"%string
   | QParseHTML body => (body, [])
   | QThreadByMessage _ => inl 0
   | QMessagesBetween _ _ => inl []
   | QExtraEdits _ => ([], TimedOut)
   | QSendFBMessage _ _ _ _ => inl now
   | QWAUpload _ _ => inl (mkUploaded "keys" "object")
   | QMarkRead _ _ _ _ | QSendPresence _ | QSendChatPresence _ _ _ => None
   | QGroupParticipants _ _ _ => inl []
   end, s).

Lemma asks_lift {A} P (x : A + string) : asks_only P (lift x).
Proof. destruct x; apply asks_Ret. Qed.
Lemma asks_call_error P x : asks_only P (call_error x).
Proof. destruct x; apply asks_Ret. Qed.
End Requests.

#[export] Hint Resolve asks_lift asks_call_error : asks.
Arguments Req : clear implicits.

Arguments answer {JID WAOut} q.
