(* ===== verification/DGW.v ===== *)
(** * DGW: the realtime gateway of Instagram ([dgw/frames.go], [dgw/dgwsocket.go])

    Frames with their [Marshal] and [Unmarshal] methods, the splitting of a websocket message
    into frames, and what the socket does with each frame.  The JSON codecs of the open
    parameters, of the realtime event and of the activity indicator are parameters. *)

From S2P Require Import Prelude Strconv.
From Stdlib Require Import Ascii.

(** ** frames.go: constants and data *)

Definition FrameType_DRAIN : Z := 3.
Definition FrameType_PING : Z := 9.
Definition FrameType_PONG : Z := 10.
Definition FrameType_ACK : Z := 12.
Definition FrameType_DATA : Z := 13.
Definition FrameType_CLOSE : Z := 14.
Definition FrameType_OPEN : Z := 15.

Definition Stream_FALCO : Z := 0.
Definition Stream_TYPING : Z := 1.
Definition Stream_PRESENCE : Z := 2.

Record OpenFrameParams := mkOpenFrameParams {
  XRSSMethod : string;
  XRSSDocID : string;
  XRSSRoutingHint : string;
  XRSBody : string;
  XRSAcceptAck : string;
  XRSSReferer : string;
  StatusCode : Z
}.

Definition zero_params : OpenFrameParams := mkOpenFrameParams "" "" "" "" "" "" 0.

(** The [Frame] interface.  The close and drain frames have no methods and are never made. *)
Inductive Frame :=
| UnsupportedFrame (Raw : list byte)
| PingFrame
| PongFrame
| DataFrame (StreamID : Z) (Payload : list byte) (RequiresAck : bool) (AckID : Z)
| AckFrame (StreamID AckID : Z)
| OpenFrame (StreamID : Z) (Parameters : OpenFrameParams) (Raw : list byte).

(** The frame types [CheckFrameType] tells apart. *)
Inductive FrameClass := ClsPing | ClsPong | ClsAck | ClsData | ClsOpen | ClsUnsupported.

Definition CheckFrameType (b : list byte) : res FrameClass :=
  t ← index b 0;
  Ok (if b2z t =? FrameType_PING then ClsPing
      else if b2z t =? FrameType_PONG then ClsPong
      else if b2z t =? FrameType_ACK then ClsAck
      else if b2z t =? FrameType_DATA then ClsData
      else if b2z t =? FrameType_OPEN then ClsOpen
      else ClsUnsupported).

Definition frame_byte (t : Z) : list byte := [z2b t].

(** [binary.LittleEndian.AppendUint16] and [Uint16(b[lo:lo+2])]. *)
Definition AppendUint16 (b : list byte) (v : Z) : list byte := b ++ le_encode 2 v.
Definition Uint16_at (b : list byte) (lo : Z) : res Z :=
  s ← slice b lo (lo + 2); Ok (le_decode s).

Section Frames.
Context (json_Marshal : OpenFrameParams -> res (list byte)).
Context (json_Unmarshal : list byte -> OpenFrameParams -> res OpenFrameParams).

(** ** Marshal *)

(** The acknowledgement id with its top bit replaced by the request for one. *)
Definition ack_field (RequiresAck : bool) (AckID : Z) : list byte :=
  match le_encode 2 AckID with
  | [lo; hi] =>
      let hi := Z.land (b2z hi) 0x7F in
      [lo; z2b (if RequiresAck then Z.lor hi 0x80 else hi)]
  | b => b
  end.

Definition DataFrame_Marshal (StreamID : Z) (Payload : list byte) (RequiresAck : bool) (AckID : Z)
    : list byte :=
  let b := frame_byte FrameType_DATA in
  let b := AppendUint16 b (uint16 StreamID) in
  let b := AppendUint16 b (uint16 (llen Payload + 2)) in
  let b := b ++ [x00] in
  b ++ ack_field RequiresAck AckID ++ Payload.

Definition AckFrame_Marshal (StreamID AckID : Z) : list byte :=
  let b := frame_byte FrameType_ACK in
  let b := AppendUint16 b (uint16 StreamID) in
  let b := AppendUint16 b 2 in
  let b := b ++ [x00] in
  AppendUint16 b AckID.

Definition OpenFrame_Marshal (StreamID : Z) (Parameters : OpenFrameParams) : res (list byte) :=
  let b := frame_byte FrameType_OPEN in
  let b := AppendUint16 b (uint16 StreamID) in
  payload ← json_Marshal Parameters;
  let b := AppendUint16 b (uint16 (llen payload)) in
  Ok (b ++ [x00] ++ payload).

Definition Marshal (f : Frame) : res (list byte) :=
  match f with
  | UnsupportedFrame Raw => Ok Raw
  | PingFrame => Ok (frame_byte FrameType_PING)
  | PongFrame => Ok (frame_byte FrameType_PONG)
  | DataFrame s p r a => Ok (DataFrame_Marshal s p r a)
  | AckFrame s a => Ok (AckFrame_Marshal s a)
  | OpenFrame s p _ => OpenFrame_Marshal s p
  end.

(** ** Unmarshal: the bytes that are left (nil is the empty slice), beside the frame or an
    error.  Lengths are [uint16] and so are their sums. *)

Definition DataFrame_Unmarshal (b : list byte) : res (list byte * (Frame + string)) :=
  if llen b <? 8 then Ok ([], inr "too short for DataFrame"%string)
  else
    streamID ← Uint16_at b 1;
    l ← Uint16_at b 3;
    let payloadLength := uint16 (l - 2) in
    a ← Uint16_at b 6;
    h ← index b 7;
    if llen b <? uint16 (8 + payloadLength) then Ok ([], inr "too short for DataFrame payload"%string)
    else
      payload ← slice b 8 (uint16 (8 + payloadLength));
      rest ← slice_from b (uint16 (8 + payloadLength));
      Ok (rest, inl (DataFrame streamID payload (Z.land (b2z h) 0x80 >? 0) (Z.land a 0x7FFF))).

Definition AckFrame_Unmarshal (b : list byte) : res (list byte * (Frame + string)) :=
  if llen b <? 8 then Ok ([], inr "too short for AckFrame"%string)
  else
    streamID ← Uint16_at b 1;
    payloadLength ← Uint16_at b 3;
    if negb (payloadLength =? 2) then Ok ([], inr "unnatural ack frame"%string)
    else
      a ← Uint16_at b 6;
      rest ← slice_from b (uint16 (6 + payloadLength));
      Ok (rest, inl (AckFrame streamID a)).

Definition OpenFrame_Unmarshal (b : list byte) : res (list byte * (Frame + string)) :=
  if llen b <? 6 then Ok ([], inr "too short for OpenFrame"%string)
  else
    streamID ← Uint16_at b 1;
    payloadLength ← Uint16_at b 3;
    if llen b <? uint16 (6 + payloadLength) then Ok ([], inr "too short for OpenFrame payload"%string)
    else
      j ← slice b 6 (uint16 (6 + payloadLength));
      match json_Unmarshal j zero_params with
      | Halt h => Halt h
      | Err e => Ok (b, inr e)
      | Ok p => rest ← slice_from b (uint16 (6 + payloadLength)); Ok (rest, inl (OpenFrame streamID p b))
      end.

Definition Unmarshal (c : FrameClass) (b : list byte) : res (list byte * (Frame + string)) :=
  match c with
  | ClsPing => rest ← slice_from b 1; Ok (rest, inl PingFrame)
  | ClsPong => rest ← slice_from b 1; Ok (rest, inl PongFrame)
  | ClsAck => AckFrame_Unmarshal b
  | ClsData => DataFrame_Unmarshal b
  | ClsOpen => OpenFrame_Unmarshal b
  | ClsUnsupported => Ok ([], inl (UnsupportedFrame b))
  end.

(** ** The reader of [readLoop], on one websocket message

    The frames that go to the channel, and how the loop over the message ends. *)

Inductive MessageType := TextMessage | BinaryMessage.

Fixpoint read_message (fuel : nat) (msgtype : MessageType) (data : list byte)
    : list Frame * res () :=
  match data with
  | [] => ([], Ok ())
  | _ =>
      match fuel with
      | O => ([], Diverge)
      | S fuel =>
          match msgtype with
          | TextMessage => read_message fuel msgtype data
          | BinaryMessage =>
              match c ← CheckFrameType data; Unmarshal c data with
              | Ok (data, inl frame) =>
                  let '(fs, r) := read_message fuel msgtype data in (frame :: fs, r)
              | Ok (data, inr _) => read_message fuel msgtype data
              | Err e => ([], Err e)
              | Halt h => ([], Halt h)
              end
          end
      end
  end.
End Frames.

(** ** dgwsocket.go: what a frame does *)

Record ActivityIndicator := mkActivityIndicator {
  TimestampNano : Z;
  SenderID : Z;
  ActivityStatus : Z
}.

(** An operation of an [xdt_direct_realtime_event]; only the fields the code reads. *)
Record XDTOp := mkXDTOp { Path : string; Value : string }.

(** [Timestamp] in microseconds. *)
Record DGWTypingActivityIndicator := mkTyping {
  InstagramThreadID : string;
  InstagramUserID : Z;
  IsTyping : bool;
  Timestamp : Z
}.

(** What the frame loop leaves behind: the two handshake events, the frames it sent, the
    events it handed to the client, the pong timer's resets and the first fatal error. *)
Record LoopState := mkLoopState {
  ackSubscription : bool;
  ackParameters : bool;
  outgoing : list Frame;
  handled : list DGWTypingActivityIndicator;
  pongs : nat;
  fatal : option string
}.

Definition initial_loop : LoopState := mkLoopState false false [] [] 0 None.

Definition set_subscription (s : LoopState) : LoopState :=
  mkLoopState true (ackParameters s) (outgoing s) (handled s) (pongs s) (fatal s).
Definition set_parameters (s : LoopState) : LoopState :=
  mkLoopState (ackSubscription s) true (outgoing s) (handled s) (pongs s) (fatal s).
Definition send (f : Frame) (s : LoopState) : LoopState :=
  mkLoopState (ackSubscription s) (ackParameters s) (outgoing s ++ [f]) (handled s) (pongs s) (fatal s).
Definition HandleEvent (e : DGWTypingActivityIndicator) (s : LoopState) : LoopState :=
  mkLoopState (ackSubscription s) (ackParameters s) (outgoing s) (handled s ++ [e]) (pongs s) (fatal s).
Definition pong (s : LoopState) : LoopState :=
  mkLoopState (ackSubscription s) (ackParameters s) (outgoing s) (handled s) (S (pongs s)) (fatal s).
(** [fatalError] keeps the first error. *)
Definition fatalError (e : string) (s : LoopState) : LoopState :=
  mkLoopState (ackSubscription s) (ackParameters s) (outgoing s) (handled s) (pongs s)
    (match fatal s with None => Some e | Some _ => fatal s end).

(** ** The path of an operation: the regular expression
    [^/direct_v2/threads/([0-9]+)/activity_indicator_id/([0-9a-f-]+)$] *)

Definition is_hex_dash (c : ascii) : bool :=
  is_digit c || ((97 <=? nat_of_ascii c)%nat && (nat_of_ascii c <=? 102)%nat) || (nat_of_ascii c =? 45)%nat.

(** The longest prefix of characters that satisfy [p], and what follows. *)
Fixpoint span (p : ascii -> bool) (s : string) : string * string :=
  match s with
  | EmptyString => (EmptyString, EmptyString)
  | String c r => if p c then let '(a, b) := span p r in (String c a, b) else (EmptyString, s)
  end.

(** [strings.CutPrefix]. *)
Fixpoint cut_prefix (pre s : string) : option string :=
  match pre, s with
  | EmptyString, _ => Some s
  | String a pre, String b s => if Ascii.eqb a b then cut_prefix pre s else None
  | _, _ => None
  end.

Definition path_head : string := "/direct_v2/threads/".
Definition path_middle : string := "/activity_indicator_id/".

(** The first submatch. *)
Definition match_activity_path (path : string) : option string :=
  match cut_prefix path_head path with
  | None => None
  | Some r =>
      let '(threadID, r) := span is_digit r in
      if (threadID =? "")%string then None
      else match cut_prefix path_middle r with
           | None => None
           | Some i => if negb (i =? "")%string && all_chars is_hex_dash i then Some threadID else None
           end
  end.

(** [bytes.Contains], [IndexByte] and [LastIndexByte]. *)
Fixpoint Contains (b sub : list byte) : bool :=
  bool_decide (take (length sub) b = sub) ||
  match b with [] => false | _ :: b => Contains b sub end.

Fixpoint IndexByte_from (i : Z) (b : list byte) (c : byte) : Z :=
  match b with
  | [] => -1
  | x :: b => if decide (x = c) then i else IndexByte_from (i + 1) b c
  end.
Definition IndexByte (b : list byte) (c : byte) : Z := IndexByte_from 0 b c.

Fixpoint LastIndexByte_from (i last : Z) (b : list byte) (c : byte) : Z :=
  match b with
  | [] => last
  | x :: b => LastIndexByte_from (i + 1) (if decide (x = c) then i else last) b c
  end.
Definition LastIndexByte (b : list byte) (c : byte) : Z := LastIndexByte_from 0 (-1) b c.

Definition open_brace : byte := x7b.
Definition close_brace : byte := x7d.
Definition activity_marker : list byte := s2l "activity_indicator_id".

Section Loop.
Context (parse_event : list byte -> res (list XDTOp)).
Context (parse_indicator : string -> res ActivityIndicator).

(** One operation: a bad value or path is dropped. *)
Definition handle_op (s : LoopState) (ev : XDTOp) : res LoopState :=
  match parse_indicator (Value ev) with
  | Halt h => Halt h
  | Err _ => Ok s
  | Ok ind =>
      match match_activity_path (Path ev) with
      | None => Ok s
      | Some threadID =>
          Ok (HandleEvent (mkTyping threadID (SenderID ind) (ActivityStatus ind >? 0)
                             (Z.quot (TimestampNano ind) 1000)) s)
      end
  end.

Fixpoint handle_ops (s : LoopState) (evs : list XDTOp) : res LoopState :=
  match evs with
  | [] => Ok s
  | ev :: evs => s ← handle_op s ev; handle_ops s evs
  end.

Definition handle_frame (s : LoopState) (f : Frame) : res LoopState :=
  match f with
  | PongFrame => Ok (pong s)
  | OpenFrame streamID p _ =>
      if negb (streamID =? Stream_TYPING) then Ok s
      else if StatusCode p =? 0 then Ok s
      else if negb (StatusCode p =? 200) then Ok (fatalError ("error " ++ FormatInt 10 (StatusCode p) ++ " from EstabStream response") s)
      else Ok (set_subscription s)
  | DataFrame streamID payload requiresAck ackID =>
      let s := if requiresAck then send (AckFrame streamID ackID) s else s in
      if Contains payload activity_marker then
        let msgStart := IndexByte payload open_brace in
        let msgEnd := LastIndexByte payload close_brace + 1 in
        j ← slice payload msgStart msgEnd;
        match parse_event j with
        | Halt h => Halt h
        | Err _ => Ok s
        | Ok evs => handle_ops s evs
        end
      else Ok s
  | AckFrame streamID ackID =>
      if negb (streamID =? Stream_TYPING) then Ok s
      else if negb (ackID =? 0) then Ok s
      else Ok (set_parameters s)
  | UnsupportedFrame _ | PingFrame => Ok s
  end.

Fixpoint handle_frames (s : LoopState) (fs : list Frame) : res LoopState :=
  match fs with
  | [] => Ok s
  | f :: fs => s ← handle_frame s f; handle_frames s fs
  end.
End Loop.

(** ** The handshake frames *)

Definition getTypingIndicatorSubscriptionFrame : Frame :=
  OpenFrame Stream_TYPING
    (mkOpenFrameParams "FBGQLS:XDT_DIRECT_REALTIME_EVENT" "9712315318850438"
       "useIGDTypingIndicatorSubscription" "true" "RSAck" "https://www.instagram.com/direct/" 0) [].

(** [json_payload]: the JSON of the parameters for a user. *)
Definition getTypingIndicatorParametersFrame (json_payload : string -> res (list byte)) (userID : string)
    : res Frame :=
  jsonPayload ← json_payload userID;
  Ok (DataFrame Stream_TYPING ([x2c; x18; x78] ++ jsonPayload ++ [x00; x00]) true 0).

(** ** Lemmas: bytes *)

Lemma Uint16_at_app pre n v post :
  llen pre = n -> Uint16_at (pre ++ le_encode 2 v ++ post) n = Ok (uint16 v).
Proof.
  intros <-. unfold Uint16_at. rewrite (slice_app pre (le_encode 2 v) post).
  - cbn [mbind res_bind]. by rewrite le_decode_encode.
  - done.
  - by rewrite le_encode_length.
Qed.

Lemma le_decode_2 lo hi : le_decode [lo; hi] = b2z lo + 256 * b2z hi.
Proof.
  change (Z.lor (b2z lo) (Z.shiftl (le_decode [hi]) 8) = b2z lo + 256 * b2z hi).
  rewrite le_decode_1, Z.lor_comm, lor_shiftl_low by (change (2 ^ 8) with 256; pose proof (b2z_range lo); lia).
  lia.
Qed.

Lemma le_encode_2 v : exists lo hi, le_encode 2 v = [lo; hi] /\
  b2z lo = uint16 v mod 256 /\ b2z hi = uint16 v / 256.
Proof.
  pose proof (le_encode_length 2 v) as Hl. pose proof (le_decode_encode 2 v) as Hd.
  destruct (le_encode 2 v) as [|lo [|hi [|]]]; try discriminate Hl.
  exists lo, hi. split; [done|]. change (8 * Z.of_nat 2) with 16 in Hd. rewrite <- Hd.
  rewrite le_decode_2. pose proof (b2z_range lo). pose proof (b2z_range hi).
  rewrite (Z.add_comm (b2z lo)), (Z.mul_comm 256), Z.div_add_l by lia.
  rewrite (Z.add_comm (_ * 256)), Z.mod_add by lia.
  rewrite Z.mod_small, Z.div_small by lia. lia.
Qed.

(** The acknowledgement field holds the low fifteen bits of the id under the request bit. *)
Lemma ack_field_spec r a : in_uint 15 a -> exists lo hi,
  ack_field r a = [lo; hi] /\ Z.land (le_decode [lo; hi]) 0x7FFF = a /\
  (Z.land (b2z hi) 0x80 >? 0) = r.
Proof.
  intros Ha. unfold in_uint in Ha. unfold ack_field.
  destruct (le_encode_2 a) as (lo & hi & -> & Hlo & Hhi).
  rewrite uintN_small in Hlo, Hhi by (unfold in_uint; lia).
  assert (0 <= b2z hi < 128) as Hh by (rewrite Hhi; split; [apply Z.div_pos; lia|apply Z.div_lt_upper_bound; lia]).
  rewrite land_127, Z.mod_small by lia. eexists lo, _. split; [done|].
  change (0x7FFF) with (Z.ones 15). rewrite Z.land_ones by lia.
  assert (forall h, 0 <= h < 256 -> le_decode [lo; z2b h] = b2z lo + 256 * h) as Hdec.
  { intros h Hr. rewrite le_decode_2, b2z_z2b_small by (unfold in_uint; lia). done. }
  assert (a = b2z lo + 256 * b2z hi) as Ea by (rewrite Hlo, Hhi; pose proof (Z.div_mod a 256); lia).
  destruct r.
  - rewrite lor_128 by lia. rewrite b2z_z2b_small by (unfold in_uint; lia). split.
    + rewrite Hdec by lia. replace (_ + 256 * (b2z hi + 128)) with (a + 1 * 2 ^ 15) by lia.
      rewrite Z.mod_add by lia. by apply Z.mod_small.
    + rewrite land_128 by lia. by destruct (Z.ltb_spec (b2z hi + 128) 128); [lia|].
  - rewrite z2b_b2z. split.
    + pose proof (Hdec (b2z hi)) as H. rewrite z2b_b2z in H. rewrite H, <- Ea by lia.
      by apply Z.mod_small.
    + rewrite land_128 by lia. by destruct (Z.ltb_spec (b2z hi) 128); [|lia].
Qed.

(** ** Lemmas: each frame is read back *)

Section Roundtrip.
Context (json_Marshal : OpenFrameParams -> res (list byte)).
Context (json_Unmarshal : list byte -> OpenFrameParams -> res OpenFrameParams).

(** Frames that fit their fields, with parameters that survive their JSON. *)
Definition frame_ok (f : Frame) : Prop :=
  match f with
  | UnsupportedFrame _ => False
  | PingFrame | PongFrame => True
  | DataFrame s p _ a => in_uint 16 s /\ llen p <= 65527 /\ in_uint 15 a
  | AckFrame s a => in_uint 16 s /\ in_uint 16 a
  | OpenFrame s p _ => in_uint 16 s /\
      exists j, json_Marshal p = Ok j /\ llen j <= 65529 /\ json_Unmarshal j zero_params = Ok p
  end.

(** A frame without the raw bytes [OpenFrame] keeps for logging. *)
Definition strip (f : Frame) : Frame :=
  match f with OpenFrame s p _ => OpenFrame s p [] | _ => f end.

Lemma frame_class f bs rest : frame_ok f -> Marshal json_Marshal f = Ok bs ->
  exists c, CheckFrameType (bs ++ rest) = Ok c /\
    match f with
    | UnsupportedFrame _ => False
    | PingFrame => c = ClsPing
    | PongFrame => c = ClsPong
    | DataFrame _ _ _ _ => c = ClsData
    | AckFrame _ _ => c = ClsAck
    | OpenFrame _ _ _ => c = ClsOpen
    end.
Proof.
  intros Hok Hm. destruct f; cbn in Hok, Hm; try done; try (injection Hm as <-; by eexists).
  destruct Hok as (_ & j & Hj & _). unfold OpenFrame_Marshal in Hm. rewrite Hj in Hm.
  injection Hm as <-. by eexists.
Qed.

Lemma DataFrame_roundtrip s p r a rest : frame_ok (DataFrame s p r a) ->
  DataFrame_Unmarshal (DataFrame_Marshal s p r a ++ rest) = Ok (rest, inl (DataFrame s p r a)).
Proof.
  intros (Hs & Hp & Ha). destruct (ack_field_spec r a Ha) as (lo & hi & Hf & Ha' & Hr).
  unfold DataFrame_Marshal, AppendUint16. rewrite Hf.
  set (l := uint16 (llen p + 2)).
  assert (l = llen p + 2) as El by (apply uintN_small; unfold in_uint; lia).
  assert (length (le_encode 2 (uint16 s)) = 2%nat) as L1 by apply le_encode_length.
  assert (length (le_encode 2 l) = 2%nat) as L2 by apply le_encode_length.
  set (b := (_ ++ rest)%list).
  assert (b = [z2b FrameType_DATA] ++ le_encode 2 (uint16 s) ++
              (le_encode 2 l ++ [x00] ++ [lo; hi] ++ p ++ rest)) as E1.
  { unfold b, frame_byte. by rewrite <- !app_assoc. }
  assert (b = ([z2b FrameType_DATA] ++ le_encode 2 (uint16 s)) ++ le_encode 2 l ++
              ([x00] ++ [lo; hi] ++ p ++ rest)) as E2 by (rewrite E1; by rewrite <- !app_assoc).
  assert (b = ([z2b FrameType_DATA] ++ le_encode 2 (uint16 s) ++ le_encode 2 l ++ [x00]) ++
              [lo; hi] ++ (p ++ rest)) as E3 by (rewrite E1; by rewrite <- !app_assoc).
  assert (b = ([z2b FrameType_DATA] ++ le_encode 2 (uint16 s) ++ le_encode 2 l ++ [x00] ++ [lo; hi]) ++
              p ++ rest) as E4 by (rewrite E1; by rewrite <- !app_assoc).
  assert (llen b = 8 + llen p + llen rest) as Lb.
  { rewrite E4. rewrite !length_app, L1, L2. cbn [length]. lia. }
  clearbody b. unfold DataFrame_Unmarshal. cond_false.
  rewrite E1 at 1. rewrite Uint16_at_app by done. cbn [mbind res_bind].
  rewrite E2 at 1. rewrite Uint16_at_app by (rewrite length_app, L1; done). cbn [mbind res_bind].
  unfold Uint16_at at 1. rewrite E3 at 1.
  rewrite slice_app by (rewrite !length_app, L1, L2; cbn [length]; lia). cbn [mbind res_bind].
  assert (index b 7 = Ok hi) as ->.
  { apply index_ok; [|lia]. rewrite E3, lookup_app_r by (rewrite !length_app, L1, L2; cbn [length]; lia).
    by rewrite !length_app, L1, L2. }
  cbn [mbind res_bind].
  assert (uint16 (8 + uint16 (uint16 l - 2)) = 8 + llen p) as El'.
  { rewrite (uintN_small 16 l) by (unfold in_uint; lia).
    rewrite (uintN_small 16 (l - 2)) by (unfold in_uint; lia).
    rewrite uintN_small by (unfold in_uint; lia). lia. }
  rewrite El', (uintN_small 16 s) by done. cond_false.
  rewrite E4 at 1. rewrite slice_app by (rewrite !length_app, L1, L2; cbn [length]; lia).
  cbn [mbind res_bind]. rewrite E4, app_assoc.
  rewrite slice_from_app by (rewrite !length_app, L1, L2; cbn [length]; lia).
  cbn [mbind res_bind]. rewrite Ha', Hr. by rewrite ?(uintN_small 16 s) by done.
Qed.

Lemma AckFrame_roundtrip s a rest : frame_ok (AckFrame s a) ->
  AckFrame_Unmarshal (AckFrame_Marshal s a ++ rest) = Ok (rest, inl (AckFrame s a)).
Proof.
  intros (Hs & Ha). unfold AckFrame_Marshal, AppendUint16.
  assert (forall v, length (le_encode 2 v) = 2%nat) as L by (intros; apply le_encode_length).
  set (b := (_ ++ rest)%list).
  assert (b = [z2b FrameType_ACK] ++ le_encode 2 (uint16 s) ++
              (le_encode 2 2 ++ [x00] ++ le_encode 2 a ++ rest)) as E1.
  { unfold b, frame_byte. by rewrite <- !app_assoc. }
  assert (b = ([z2b FrameType_ACK] ++ le_encode 2 (uint16 s)) ++ le_encode 2 2 ++
              ([x00] ++ le_encode 2 a ++ rest)) as E2 by (rewrite E1; by rewrite <- !app_assoc).
  assert (b = ([z2b FrameType_ACK] ++ le_encode 2 (uint16 s) ++ le_encode 2 2 ++ [x00]) ++
              le_encode 2 a ++ rest) as E3 by (rewrite E1; by rewrite <- !app_assoc).
  assert (llen b = 8 + llen rest) as Lb.
  { rewrite E3. rewrite !length_app, !L. cbn [length]. lia. }
  clearbody b. unfold AckFrame_Unmarshal. cond_false.
  rewrite E1 at 1. rewrite Uint16_at_app by done. cbn [mbind res_bind].
  rewrite E2 at 1. rewrite Uint16_at_app by (rewrite length_app, L; done). cbn [mbind res_bind].
  change (negb (uint16 2 =? 2)) with false. cbn iota.
  rewrite E3 at 1. rewrite Uint16_at_app by (rewrite !length_app, !L; done). cbn [mbind res_bind].
  rewrite E3, app_assoc. rewrite slice_from_app by (rewrite !length_app, !L; done).
  cbn [mbind res_bind]. by rewrite !(uintN_small 16) by (done || apply uintN_range; lia).
Qed.

Lemma OpenFrame_roundtrip s p raw bs rest : frame_ok (OpenFrame s p raw) ->
  OpenFrame_Marshal json_Marshal s p = Ok bs ->
  OpenFrame_Unmarshal json_Unmarshal (bs ++ rest) = Ok (rest, inl (OpenFrame s p (bs ++ rest))).
Proof.
  intros (Hs & j & Hj & Hl & Hu) Hm. unfold OpenFrame_Marshal in Hm. rewrite Hj in Hm.
  injection Hm as <-. unfold AppendUint16.
  assert (forall v, length (le_encode 2 v) = 2%nat) as L by (intros; apply le_encode_length).
  set (l := uint16 (llen j)).
  assert (l = llen j) as El by (apply uintN_small; unfold in_uint; lia).
  set (b := (_ ++ rest)%list).
  assert (b = [z2b FrameType_OPEN] ++ le_encode 2 (uint16 s) ++
              (le_encode 2 l ++ [x00] ++ j ++ rest)) as E1.
  { reflexivity. }
  assert (b = ([z2b FrameType_OPEN] ++ le_encode 2 (uint16 s)) ++ le_encode 2 l ++
              ([x00] ++ j ++ rest)) as E2 by (rewrite E1; by rewrite <- !app_assoc).
  assert (b = ([z2b FrameType_OPEN] ++ le_encode 2 (uint16 s) ++ le_encode 2 l ++ [x00]) ++
              j ++ rest) as E3 by (rewrite E1; by rewrite <- !app_assoc).
  assert (llen b = 6 + llen j + llen rest) as Lb.
  { rewrite E3. rewrite !length_app, !L. cbn [length]. lia. }
  clearbody b. unfold OpenFrame_Unmarshal. cond_false.
  rewrite E1 at 1. rewrite Uint16_at_app by done. cbn [mbind res_bind].
  rewrite E2 at 1. rewrite Uint16_at_app by (rewrite length_app, L; done). cbn [mbind res_bind].
  assert (uint16 (6 + uint16 l) = 6 + llen j) as ->.
  { rewrite (uintN_small 16 l) by (unfold in_uint; lia).
    rewrite uintN_small by (unfold in_uint; lia). lia. }
  cond_false.
  rewrite E3 at 1. rewrite slice_app by (rewrite !length_app, !L; cbn [length]; lia).
  cbn [mbind res_bind]. rewrite Hu.
  assert (slice_from b (6 + llen j) = Ok rest) as ->.
  { rewrite E3, app_assoc. apply slice_from_app. rewrite !length_app, !L. cbn [length]. lia. }
  cbn [mbind res_bind]. by rewrite ?(uintN_small 16 s) by done.
Qed.

Lemma Unmarshal_roundtrip f bs rest c : frame_ok f -> Marshal json_Marshal f = Ok bs ->
  CheckFrameType (bs ++ rest) = Ok c ->
  exists f', Unmarshal json_Unmarshal c (bs ++ rest) = Ok (rest, inl f') /\ strip f' = strip f.
Proof.
  intros Hok Hm Hc. destruct (frame_class f bs rest Hok Hm) as (c' & Hc' & Hf).
  rewrite Hc in Hc'. injection Hc' as <-.
  destruct f; try done; subst c; cbn [Unmarshal]; cbn [Marshal] in Hm.
  1,2: injection Hm as <-; rewrite (slice_from_app (frame_byte _)) by done; by eexists.
  - replace bs with (DataFrame_Marshal StreamID Payload RequiresAck AckID) by congruence.
    rewrite DataFrame_roundtrip by done. by eexists.
  - replace bs with (AckFrame_Marshal StreamID AckID) by congruence.
    rewrite AckFrame_roundtrip by done. by eexists.
  - erewrite OpenFrame_roundtrip by done. by eexists.
Qed.

Fixpoint marshal_all (fs : list Frame) : res (list byte) :=
  match fs with
  | [] => Ok []
  | f :: fs => b ← Marshal json_Marshal f; bs ← marshal_all fs; Ok (b ++ bs)
  end.

End Roundtrip.

(** ** Lemmas: how [Unmarshal] ends *)

Lemma slice_halts {A} (l : list A) lo hi : 0 <= lo <= hi -> hi <= llen l -> exists s, slice l lo hi = Ok s.
Proof. intros. rewrite slice_ok by done. by eexists. Qed.

Lemma index_in {A} (l : list A) i : 0 <= i < llen l -> exists x, index l i = Ok x.
Proof.
  intros H. destruct (lookup_lt_is_Some_2 l (Z.to_nat i)) as [x Hx]; [lia|].
  exists x. apply index_ok; [done|lia].
Qed.

Lemma Uint16_at_ok b lo : 0 <= lo -> lo + 2 <= llen b -> exists v, Uint16_at b lo = Ok v /\ 0 <= v < 65536.
Proof.
  intros H1 H2. unfold Uint16_at. rewrite slice_ok by lia. cbn [mbind res_bind].
  eexists. split; [done|].
  match goal with |- context [le_decode ?s] => pose proof (le_decode_range s) as H; set (x := s) in * end.
  assert (length x = 2%nat) as L by (unfold x; rewrite length_take, length_drop; lia).
  rewrite L in H. exact H.
Qed.

(** The wire length of a data frame for which the sums of [uint16] wrap around. *)
Definition bad_length (l : Z) : Prop := l < 2 \/ 65530 <= l.

Lemma data_end l : 0 <= l < 65536 -> uint16 (8 + uint16 (l - 2)) < 8 <-> bad_length l.
Proof.
  intros Hl. unfold bad_length, uintN. change (2 ^ 16) with 65536.
  pose proof (Z.mod_pos_bound (l - 2) 65536). pose proof (Z.div_mod (l - 2) 65536).
  pose proof (Z.mod_pos_bound (8 + (l - 2) mod 65536) 65536).
  pose proof (Z.div_mod (8 + (l - 2) mod 65536) 65536). lia.
Qed.

(** A frame of the server can kill the client: unmarshalling a data frame panics exactly
    when the frame is long enough for its header and its length field is below 2 or at least
    65530, where the 16-bit arithmetic on the payload length wraps around. *)
Theorem dgw_data_panics_iff b :
  DataFrame_Unmarshal b = Panic <-> exists l, 8 <= llen b /\ Uint16_at b 3 = Ok l /\ bad_length l.
Proof.
  unfold DataFrame_Unmarshal. destruct (Z.ltb_spec (llen b) 8) as [Hs|Hs].
  { split; [done|]. intros (l & ? & _). lia. }
  destruct (Uint16_at_ok b 1) as (s & -> & _); [lia..|].
  destruct (Uint16_at_ok b 3) as (l & -> & Hl); [lia..|].
  destruct (Uint16_at_ok b 6) as (a & -> & _); [lia..|]. cbn [mbind res_bind].
  destruct (index_in b 7) as [h ->]; [lia|].
  cbn [mbind res_bind]. pose proof (data_end l Hl) as Hb.
  pose proof (uintN_range 16 (8 + uint16 (l - 2))) as Hr. unfold in_uint in Hr.
  set (e := uint16 (8 + uint16 (l - 2))) in *.
  destruct (Z.ltb_spec (llen b) e) as [He|He].
  { split; [done|]. intros (l' & _ & [= <-] & Hbad). apply Hb in Hbad. lia. }
  destruct (Z.lt_ge_cases e 8) as [H8|H8].
  - rewrite slice_panic by done. cbn. split; [|done]. intros _. exists l. split_and!; [lia|done|by apply Hb].
  - rewrite slice_ok by lia. cbn [mbind res_bind]. unfold slice_from. rewrite slice_ok by lia.
    split; [done|]. intros (l' & _ & [= <-] & Hbad). apply Hb in Hbad. lia.
Qed.

(** ** Lemmas: the reader makes progress *)

Lemma slice_cases {A} (l : list A) lo hi : slice l lo hi = Panic \/ exists s, slice l lo hi = Ok s.
Proof. unfold slice. case_match; eauto. Qed.

Lemma Uint16_at_cases b lo : Uint16_at b lo = Panic \/ exists v, Uint16_at b lo = Ok v.
Proof. unfold Uint16_at. destruct (slice_cases b lo (lo + 2)) as [->|[s ->]]; cbn; eauto. Qed.

Lemma index_cases {A} (l : list A) i : index l i = Panic \/ exists x, index l i = Ok x.
Proof. unfold index. repeat case_match; eauto. Qed.

(** A step of the reader comes back with fewer bytes, or panics. *)
Definition progress (b : list byte) (m : res (list byte * (Frame + string))) : Prop :=
  m = Panic \/ exists rest r, m = Ok (rest, r) /\ (length rest < length b)%nat.

Lemma slice_from_progress b lo (f : list byte -> Frame + string) : 0 < lo -> b <> [] ->
  progress b (rest ← slice_from b lo; Ok (rest, f rest)).
Proof.
  intros Hlo Hne. destruct (slice_cases b lo (llen b)) as [E|[s E]];
    unfold slice_from; rewrite E; cbn [mbind res_bind]; [by left|].
  right. exists s, (f s). split; [done|]. apply slice_Ok_length in E. destruct b; [done|].
  cbn [length] in *. lia.
Qed.

Lemma error_progress (b : list byte) e : b <> [] -> progress b (Ok ([], inr e)).
Proof. intros Hne. right. eexists _, _. split; [done|]. destruct b; [done|cbn; lia]. Qed.

Create HintDb meta_dgw.
#[export] Hint Resolve slice_from_progress error_progress : meta_dgw.

(** Go through the reads of an [Unmarshal]; each panics or gives its value. *)
Ltac reads :=
  repeat (match goal with
  | |- progress _ (Uint16_at ?b ?i ≫= _) => destruct (Uint16_at_cases b i) as [->|[? ->]]
  | |- progress _ (index ?b ?i ≫= _) => destruct (index_cases b i) as [->|[? ->]]
  | |- progress _ (slice ?b ?i ?j ≫= _) => destruct (slice_cases b i j) as [->|[? ->]]
  end; cbn [mbind res_bind]; [by left|]).

Section Reader.
Context (json_Unmarshal : list byte -> OpenFrameParams -> res OpenFrameParams).

Lemma DataFrame_progress b : b <> [] -> progress b (DataFrame_Unmarshal b).
Proof.
  intros Hne. unfold DataFrame_Unmarshal. case_match; [auto with meta_dgw|]. reads.
  case_match; [auto with meta_dgw|]. destruct (Z.lt_ge_cases 0 (uint16 (8 + uint16 (x0 - 2)))) as [Hp|Hp].
  - reads. apply (slice_from_progress b _ (fun _ => _)); done.
  - rewrite slice_panic by lia. by left.
Qed.

Lemma AckFrame_progress b : b <> [] -> progress b (AckFrame_Unmarshal b).
Proof.
  intros Hne. unfold AckFrame_Unmarshal. case_match; [auto with meta_dgw|]. reads.
  destruct (Z.eqb_spec x0 2) as [->|]; cbn [negb]; [|auto with meta_dgw]. reads.
  apply (slice_from_progress b _ (fun _ => _)); done.
Qed.

Lemma OpenFrame_progress b : b <> [] -> (forall j, exists p, json_Unmarshal j zero_params = Ok p) ->
  progress b (OpenFrame_Unmarshal json_Unmarshal b).
Proof.
  intros Hne Hj. unfold OpenFrame_Unmarshal. case_match; [auto with meta_dgw|]. reads.
  case_match; [auto with meta_dgw|]. destruct (Z.lt_ge_cases 0 (uint16 (6 + x0))) as [Hp|Hp].
  - reads. destruct (Hj x1) as [p ->]. apply (slice_from_progress b _ (fun _ => _)); done.
  - rewrite slice_panic by lia. by left.
Qed.

Lemma Unmarshal_progress c b : b <> [] -> (forall j, exists p, json_Unmarshal j zero_params = Ok p) ->
  progress b (Unmarshal json_Unmarshal c b).
Proof.
  intros Hne Hj. destruct c; cbn [Unmarshal].
  - apply (slice_from_progress b 1 (fun _ => _)); [lia|done].
  - apply (slice_from_progress b 1 (fun _ => _)); [lia|done].
  - by apply AckFrame_progress.
  - by apply DataFrame_progress.
  - by apply OpenFrame_progress.
  - right. eexists _, _. split; [done|]. destruct b; [done|cbn; lia].
Qed.

(** The reader gets through every binary message: with an open frame's JSON always
    parsing, as many rounds as the message has bytes are enough for it to end, in frames or in
    the panic of a bad length. *)
Theorem dgw_reader_ends data fuel (Hj : forall j, exists p, json_Unmarshal j zero_params = Ok p)
    (Hfuel : (length data <= fuel)%nat) :
  snd (read_message json_Unmarshal fuel BinaryMessage data) = Ok () \/
  snd (read_message json_Unmarshal fuel BinaryMessage data) = Panic.
Proof.
  revert data Hfuel. induction fuel as [|fuel IH]; intros [|x l] Hfuel; try (by left).
  { cbn in Hfuel. lia. }
  set (data := x :: l) in *. assert (data <> []) as Hne by done.
  change (read_message json_Unmarshal (S fuel) BinaryMessage data) with
    (match c ← CheckFrameType data; Unmarshal json_Unmarshal c data with
     | Ok (data, inl frame) =>
         let '(fs, r) := read_message json_Unmarshal fuel BinaryMessage data in (frame :: fs, r)
     | Ok (data, inr _) => read_message json_Unmarshal fuel BinaryMessage data
     | Err e => ([], Err e)
     | Halt h => ([], Halt h)
     end).
  destruct (CheckFrameType data) as [c| |] eqn:Ec; [|done..]. cbn [mbind res_bind].
  destruct (Unmarshal_progress c data Hne Hj) as [->|(rest & r & -> & Hlt)]; [by right|].
  specialize (IH rest ltac:(lia)). destruct r as [f|e]; [|done].
  by destruct (read_message json_Unmarshal fuel BinaryMessage rest) as [fs r'].
Qed.

(** The reader can spin for ever: on a text message, and on a binary one that starts with an
    open frame whose JSON does not parse, no number of rounds is enough. *)
Theorem dgw_reader_spins :
  (forall data fuel, data <> [] ->
    read_message json_Unmarshal fuel TextMessage data = ([], Diverge)) /\
  (forall data e fuel, CheckFrameType data = Ok ClsOpen ->
    OpenFrame_Unmarshal json_Unmarshal data = Ok (data, inr e) ->
    read_message json_Unmarshal fuel BinaryMessage data = ([], Diverge)).
Proof.
  split.
  - intros [|x l] fuel Hne; [done|]. induction fuel as [|fuel IH]; [done|]. exact IH.
  - intros [|x l] e fuel Hc Hu; [done|]. induction fuel as [|fuel IH]; [done|].
    cbn [read_message]. rewrite Hc. cbn [mbind res_bind Unmarshal]. by rewrite Hu.
Qed.
End Reader.

(** ** Lemmas: the path of an operation *)

Lemma cut_prefix_spec pre : forall s r, cut_prefix pre s = Some r <-> s = (pre ++ r)%string.
Proof.
  induction pre as [|a pre IH]; intros s r; [cbn; split; [by intros [= ->]|by intros ->]|].
  destruct s as [|b s]; [cbn; split; [done|by rewrite string_app_cons]|].
  cbn [cut_prefix]. rewrite string_app_cons. destruct (Ascii.eqb_spec a b) as [->|Hne].
  - rewrite IH. split; [by intros ->|by intros [= ->]].
  - split; [done|]. by intros [= ? ->].
Qed.

Lemma span_spec p s a b : span p s = (a, b) <->
  s = (a ++ b)%string /\ all_chars p a = true /\
  match b with String c _ => p c = false | EmptyString => True end.
Proof.
  revert a b. induction s as [|c s IH]; intros a b; cbn [span].
  { split; [by intros [= <- <-]|]. intros (E & _ & _). destruct a; [|by rewrite string_app_cons in E].
    change ("" = b)%string in E. by subst b. }
  destruct (p c) eqn:Hp.
  - destruct (span p s) as [x y] eqn:Es. destruct (proj1 (IH x y) eq_refl) as (E & Ha & Hb). split.
    + intros [= <- <-]. cbn. rewrite Hp, Ha, string_app_cons. by rewrite E.
    + intros (E' & Ha' & Hb'). destruct a as [|c' a].
      * change (String c s = b) in E'. subst b. congruence.
      * rewrite string_app_cons in E'. injection E' as <- E'. cbn in Ha'.
        apply andb_true_iff in Ha' as [_ Ha'].
        assert ((x, y) = (a, b)) as [= -> ->]; [by apply IH|done].
  - split.
    + by intros [= <- <-].
    + intros (E' & Ha' & Hb'). destruct a as [|c' a]; [change (String c s = b) in E'; by subst b|].
      rewrite string_app_cons in E'. injection E' as <- E'. cbn in Ha'. by rewrite Hp in Ha'.
Qed.

(** The path matcher accepts exactly the paths of an activity indicator, digits for the
    thread and hexadecimal digits and dashes for the indicator, and gives the thread. *)
Theorem dgw_path_spec path t :
  match_activity_path path = Some t <->
  exists i, path = (path_head ++ t ++ path_middle ++ i)%string /\
    t <> ""%string /\ all_chars is_digit t = true /\ i <> ""%string /\ all_chars is_hex_dash i = true.
Proof.
  unfold match_activity_path. split.
  - destruct (cut_prefix path_head path) as [r|] eqn:E1; [|done]. apply cut_prefix_spec in E1.
    destruct (span is_digit r) as [t' r'] eqn:E2. apply span_spec in E2 as (E2 & Ht & _).
    destruct (String.eqb_spec t' "") as [|Hne]; [done|].
    destruct (cut_prefix path_middle r') as [i|] eqn:E3; [|done]. apply cut_prefix_spec in E3.
    destruct (String.eqb_spec i "") as [|Hi]; [done|]. cbn [negb andb].
    destruct (all_chars is_hex_dash i) eqn:Ea; [|done]. intros [= <-].
    exists i. subst. split_and!; done.
  - intros (i & -> & Ht & Hd & Hi & Hh).
    rewrite (proj2 (cut_prefix_spec path_head _ _) eq_refl).
    assert (span is_digit (t ++ path_middle ++ i) = (t, path_middle ++ i)%string) as ->.
    { apply span_spec. split_and!; [done..|]. unfold path_middle. by rewrite string_app_cons. }
    destruct (String.eqb_spec t "") as [|_]; [done|].
    rewrite (proj2 (cut_prefix_spec path_middle _ _) eq_refl), Hh.
    by destruct (String.eqb_spec i "").
Qed.

(** ** What a run of frames leaves behind *)

(** The acknowledgements a frame asks for. *)
Definition acks (f : Frame) : list Frame :=
  match f with DataFrame s _ true a => [AckFrame s a] | _ => [] end.

(** The open frame and the acknowledgement the handshake waits for. *)
Definition accepts (f : Frame) : bool :=
  match f with OpenFrame s p _ => (s =? Stream_TYPING) && (StatusCode p =? 200) | _ => false end.
Definition confirms (f : Frame) : bool :=
  match f with AckFrame s a => (s =? Stream_TYPING) && (a =? 0) | _ => false end.
Definition refuses (f : Frame) : bool :=
  match f with
  | OpenFrame s p _ => (s =? Stream_TYPING) && negb (StatusCode p =? 0) && negb (StatusCode p =? 200)
  | _ => false
  end.

Section Effects.
Context (parse_event : list byte -> res (list XDTOp)).
Context (parse_indicator : string -> res ActivityIndicator).

(** Two states that differ in the events handed to the client only. *)
Definition same_but_events (s s' : LoopState) : Prop :=
  ackSubscription s' = ackSubscription s /\ ackParameters s' = ackParameters s /\
  outgoing s' = outgoing s /\ pongs s' = pongs s /\ fatal s' = fatal s.

Lemma handle_ops_same evs : forall s s', handle_ops parse_indicator s evs = Ok s' -> same_but_events s s'.
Proof.
  induction evs as [|ev evs IH]; intros s s' H; [injection H as <-; by split_and!|].
  cbn in H. apply res_bind_Ok in H as (s1 & H1 & H2). apply IH in H2.
  enough (same_but_events s s1) by (unfold same_but_events in *; naive_solver congruence).
  unfold handle_op in H1. destruct (parse_indicator (Value ev)); [|by injection H1 as <-|done].
  destruct (match_activity_path (Path ev)); injection H1 as <-; by split_and!.
Qed.

Lemma handle_frame_effect s f s' : handle_frame parse_event parse_indicator s f = Ok s' ->
  outgoing s' = outgoing s ++ acks f /\
  ackSubscription s' = ackSubscription s || accepts f /\
  ackParameters s' = ackParameters s || confirms f /\
  (fatal s' = None <-> fatal s = None /\ refuses f = false).
Proof.
  intros H. destruct f as [raw| | |sid payload ra aid|sid aid|sid p raw]; cbn [handle_frame] in H;
    cbn [acks accepts confirms refuses]; rewrite ?orb_false_r.
  1,2,3: injection H as <-; cbn; rewrite app_nil_r; naive_solver.
  - set (s1 := if ra then send (AckFrame sid aid) s else s) in *.
    assert (same_but_events s1 s') as (-> & -> & -> & _ & ->).
    { destruct (Contains payload activity_marker); [|by injection H as <-].
      apply res_bind_Ok in H as (j & _ & H). destruct (parse_event j); [|by injection H as <-|done].
      by eapply handle_ops_same. }
    unfold s1. destruct ra; cbn; rewrite ?app_nil_r; naive_solver.
  - rewrite app_nil_r. destruct (sid =? Stream_TYPING); cbn in *; [|injection H as <-; rewrite orb_false_r; naive_solver].
    destruct (aid =? 0); injection H as <-; cbn; rewrite ?orb_true_r, ?orb_false_r; naive_solver.
  - rewrite app_nil_r. destruct (sid =? Stream_TYPING); cbn in *; [|injection H as <-; rewrite orb_false_r; naive_solver].
    destruct (Z.eqb_spec (StatusCode p) 0) as [->|H0]; [injection H as <-; cbn; rewrite orb_false_r; naive_solver|].
    destruct (StatusCode p =? 200); injection H as <-; cbn; rewrite ?orb_true_r, ?orb_false_r; [naive_solver|].
    split_and!; [done..|]. destruct (fatal s); naive_solver.
Qed.

(** Every data frame that asks for it is acknowledged, once, on its stream and with its id, in
    the order of arrival; the handshake completes exactly on an accepting open frame and on an
    acknowledgement of the first frame of the typing stream; a connection without a refused
    subscription stays without a fatal error. *)
Theorem dgw_frames_effect fs s s'
    (H : handle_frames parse_event parse_indicator s fs = Ok s') :
  outgoing s' = outgoing s ++ (fs ≫= acks) /\
  ackSubscription s' = ackSubscription s || existsb accepts fs /\
  ackParameters s' = ackParameters s || existsb confirms fs /\
  (fatal s' = None <-> fatal s = None /\ existsb refuses fs = false).
Proof.
  revert s H. induction fs as [|f fs IH]; intros s H.
  - injection H as <-. cbn. rewrite app_nil_r, !orb_false_r. naive_solver.
  - cbn in H. apply res_bind_Ok in H as (s1 & H1 & H2).
    apply handle_frame_effect in H1 as (O1 & A1 & P1 & F1). apply IH in H2 as (O2 & A2 & P2 & F2).
    cbn [existsb]. rewrite bind_cons, O2, A2, P2, F2, O1, A1, P1, F1, orb_false_iff, <- app_assoc, <- !orb_assoc.
    naive_solver.
Qed.
End Effects.

(** ** Witnesses *)

(** A codec that knows one set of parameters. *)
Definition sample_params : OpenFrameParams := mkOpenFrameParams "" "" "" "" "" "" 200.
Definition sample_marshal (p : OpenFrameParams) : res (list byte) :=
  if StatusCode p =? 200 then Ok (s2l "{200}") else Err "unknown".
Definition sample_unmarshal (j : list byte) (p : OpenFrameParams) : res OpenFrameParams := Ok sample_params.

Definition sample_frames : list Frame :=
  [OpenFrame 1 sample_params []; DataFrame 1 (s2l "hello") true 5; PingFrame; AckFrame 1 0].

Definition sample_bytes : list byte :=
  match marshal_all sample_marshal sample_frames with Ok b => b | _ => [] end.


Lemma dgw_reader_ends_witness :
  snd (read_message sample_unmarshal 3 BinaryMessage [x09; x0a; x09]) = Ok () \/
  snd (read_message sample_unmarshal 3 BinaryMessage [x09; x0a; x09]) = Panic.
Proof. apply dgw_reader_ends; [intros j; by exists sample_params|cbn; lia]. Defined.

Definition no_event (_ : list byte) : res (list XDTOp) := Ok [].
Definition no_indicator (_ : string) : res ActivityIndicator := Err "none".

Lemma dgw_frames_effect_witness : exists s',
  handle_frames no_event no_indicator initial_loop sample_frames = Ok s' /\
  outgoing s' = outgoing initial_loop ++ (sample_frames ≫= acks) /\
  ackSubscription s' = ackSubscription initial_loop || existsb accepts sample_frames /\
  ackParameters s' = ackParameters initial_loop || existsb confirms sample_frames /\
  (fatal s' = None <-> fatal initial_loop = None /\ existsb refuses sample_frames = false).
Proof.
  eexists. split; [reflexivity|].
  exact (dgw_frames_effect no_event no_indicator sample_frames initial_loop _ eq_refl).
Defined.
