(* ===== verification/MetaDB.v ===== *)
(** * MetaDB: the bridge's own tables ([metadb/database.go])

    The statements of the queries over the tables of [00-latest-schema.sql].  A table with a
    primary key and a second unique column is a [UniqueTable]; inserting into it with
    [ON CONFLICT DO NOTHING] leaves it alone when either is taken.  The driver's own failures
    (connection, context) are an argument of the callers. *)

From S2P Require Import Prelude.

(** ** Tables with two unique columns *)

Section UniqueTable.
Context {K V U : Type} `{Countable K} `{EqDecision U} (uniq : V -> U).
Implicit Types (t : gmap K V).

(** The key of the row whose unique column is [u]. *)
Definition find_unique (u : U) t : option K :=
  fst <$> head (filter (fun kv => uniq kv.2 = u) (map_to_list t)).

(** [INSERT ... ON CONFLICT DO NOTHING] *)
Definition insert_ignore (k : K) (v : V) t : gmap K V :=
  match t !! k, find_unique (uniq v) t with
  | None, None => <[k := v]> t
  | _, _ => t
  end.

Definition unique_ok t : Prop :=
  forall k k' v v', t !! k = Some v -> t !! k' = Some v' -> uniq v = uniq v' -> k = k'.

Lemma find_unique_Some t u k : find_unique u t = Some k -> exists v, t !! k = Some v /\ uniq v = u.
Proof.
  unfold find_unique. destruct (filter _ _) as [|[k' v] l] eqn:E; [done|]. intros [= <-].
  assert ((k', v) ∈ filter (fun kv : K * V => uniq kv.2 = u) (map_to_list t)) as Hin by (rewrite E; left).
  apply list_elem_of_filter in Hin as [Hu Hin]. apply elem_of_map_to_list in Hin. by exists v.
Qed.

Lemma find_unique_None t u : find_unique u t = None <-> forall k v, t !! k = Some v -> uniq v <> u.
Proof.
  unfold find_unique. split.
  - destruct (filter _ _) as [|[k' v'] l] eqn:E; [|done]. intros _ k v Hk Hu.
    assert ((k, v) ∈ filter (fun kv : K * V => uniq kv.2 = u) (map_to_list t)) as Hin.
    { apply list_elem_of_filter. split; [done|]. by apply elem_of_map_to_list. }
    rewrite E in Hin. set_solver.
  - intros Hno. destruct (filter _ _) as [|[k v] l] eqn:E; [done|].
    assert ((k, v) ∈ filter (fun kv : K * V => uniq kv.2 = u) (map_to_list t)) as Hin by (rewrite E; left).
    apply list_elem_of_filter in Hin as [Hu Hin]. apply elem_of_map_to_list in Hin. by destruct (Hno k v).
Qed.

Lemma find_unique_lookup t k v : unique_ok t -> t !! k = Some v -> find_unique (uniq v) t = Some k.
Proof.
  intros Hok Hk. destruct (find_unique (uniq v) t) as [k'|] eqn:E.
  - apply find_unique_Some in E as (v' & Hk' & Hu). f_equal. by eapply Hok.
  - exfalso. rewrite find_unique_None in E. by eapply E.
Qed.

Lemma insert_ignore_ok k v t : unique_ok t -> unique_ok (insert_ignore k v t).
Proof.
  intros Hok. unfold insert_ignore. destruct (t !! k) eqn:Ek; [done|].
  destruct (find_unique (uniq v) t) eqn:Eu; [done|]. rewrite find_unique_None in Eu.
  intros a b va vb Ha Hb Hu. destruct (decide (a = k)) as [->|Hak], (decide (b = k)) as [->|Hbk]; [done|..].
  - rewrite lookup_insert_eq in Ha. rewrite lookup_insert_ne in Hb by done. injection Ha as <-.
    by destruct (Eu b vb Hb).
  - rewrite lookup_insert_eq in Hb. rewrite lookup_insert_ne in Ha by done. injection Hb as <-.
    by destruct (Eu a va Ha).
  - rewrite lookup_insert_ne in Ha, Hb by done. by eapply Hok.
Qed.

(** Rows stay as they are once inserted. *)
Lemma insert_ignore_mono k v t a w : t !! a = Some w -> insert_ignore k v t !! a = Some w.
Proof.
  intros Ha. unfold insert_ignore. destruct (t !! k) eqn:Ek; [done|].
  destruct (find_unique _ _); [done|]. rewrite lookup_insert_ne by congruence. done.
Qed.

Lemma insert_ignore_fresh k v t : t !! k = None -> find_unique (uniq v) t = None ->
  insert_ignore k v t = <[k := v]> t.
Proof. intros H1 H2. unfold insert_ignore. by rewrite H1, H2. Qed.
End UniqueTable.

(** ** The database

    [meta_thread] by thread key (parent key and message id), the two Instagram tables by
    Instagram id, and the reconnection states of this bridge by login, with their last use. *)
Record MetaDB := mkMetaDB {
  meta_thread : gmap Z (Z * string);
  meta_instagram_user_id : gmap string Z;
  meta_instagram_thread_id : gmap string Z;
  meta_reconnection_state : gmap string (string * option Z)
}.

Definition emptyDB : MetaDB := mkMetaDB ∅ ∅ ∅ ∅.

Definition set_thread (t : gmap Z (Z * string)) (db : MetaDB) : MetaDB :=
  mkMetaDB t (meta_instagram_user_id db) (meta_instagram_thread_id db) (meta_reconnection_state db).
Definition set_ig_user (t : gmap string Z) (db : MetaDB) : MetaDB :=
  mkMetaDB (meta_thread db) t (meta_instagram_thread_id db) (meta_reconnection_state db).
Definition set_ig_thread (t : gmap string Z) (db : MetaDB) : MetaDB :=
  mkMetaDB (meta_thread db) (meta_instagram_user_id db) t (meta_reconnection_state db).
Definition set_states (t : gmap string (string * option Z)) (db : MetaDB) : MetaDB :=
  mkMetaDB (meta_thread db) (meta_instagram_user_id db) (meta_instagram_thread_id db) t.

Definition PutThread (parentKey threadKey : Z) (messageID : string) (db : MetaDB) : MetaDB :=
  set_thread (insert_ignore snd threadKey (parentKey, messageID) (meta_thread db)) db.

(** Without a row the results keep their zero values. *)
Definition GetThreadByKey (threadKey : Z) (db : MetaDB) : Z * string :=
  default (0, ""%string) (meta_thread db !! threadKey).

Definition GetThreadByMessage (messageID : string) (db : MetaDB) : Z :=
  default 0 (find_unique snd messageID (meta_thread db)).

(** The foreign key wants the login to exist; an update clears the time of the last use. *)
Definition PutReconnectionState (logins : gset string) (loginID state : string) (db : MetaDB)
    : MetaDB * option string :=
  if decide (loginID ∈ logins)
  then (set_states (<[loginID := (state, None)]> (meta_reconnection_state db)) db, None)
  else (db, Some "FOREIGN KEY constraint failed"%string).

Definition DeleteReconnectionState (loginID : string) (db : MetaDB) : MetaDB :=
  set_states (delete loginID (meta_reconnection_state db)) db.

(** The state and, unless it is null or 0, the time it was last used; using it sets that. *)
Definition GetReconnectionState (now : Z) (loginID : string) (db : MetaDB)
    : MetaDB * (option string * option Z) :=
  match meta_reconnection_state db !! loginID with
  | None => (db, (None, None))
  | Some (state, lastUsed) =>
      (set_states (<[loginID := (state, Some now)]> (meta_reconnection_state db)) db,
       (Some state, match lastUsed with Some 0 => None | _ => lastUsed end))
  end.

Definition GetFBIDForIGUser (igid : string) (db : MetaDB) : Z :=
  default 0 (meta_instagram_user_id db !! igid).
Definition GetIGUserForFBID (fbid : Z) (db : MetaDB) : string :=
  default ""%string (find_unique id fbid (meta_instagram_user_id db)).
Definition GetFBIDForIGThread (igid : string) (db : MetaDB) : Z :=
  default 0 (meta_instagram_thread_id db !! igid).
Definition PutFBIDForIGUser (igid : string) (fbid : Z) (db : MetaDB) : MetaDB :=
  set_ig_user (insert_ignore id igid fbid (meta_instagram_user_id db)) db.
Definition PutFBIDForIGThread (igid : string) (fbid : Z) (db : MetaDB) : MetaDB :=
  set_ig_thread (insert_ignore id igid fbid (meta_instagram_thread_id db)) db.

(** ** The operations that write, as a step relation *)

Inductive db_step : MetaDB -> MetaDB -> Prop :=
| step_put_thread p k m db : db_step db (PutThread p k m db)
| step_put_state logins l s db : db_step db (fst (PutReconnectionState logins l s db))
| step_delete_state l db : db_step db (DeleteReconnectionState l db)
| step_get_state now l db : db_step db (fst (GetReconnectionState now l db))
| step_put_ig_user i f db : db_step db (PutFBIDForIGUser i f db)
| step_put_ig_thread i f db : db_step db (PutFBIDForIGThread i f db).

(** The unique constraints hold. *)
Record db_ok (db : MetaDB) : Prop := {
  threads_unique : unique_ok snd (meta_thread db);
  users_unique : unique_ok id (meta_instagram_user_id db);
  ig_threads_unique : unique_ok id (meta_instagram_thread_id db)
}.

(** Rows are never changed. *)
Record db_le (db db' : MetaDB) : Prop := {
  le_threads : forall k v, meta_thread db !! k = Some v -> meta_thread db' !! k = Some v;
  le_users : forall k v, meta_instagram_user_id db !! k = Some v -> meta_instagram_user_id db' !! k = Some v;
  le_ig_threads : forall k v,
    meta_instagram_thread_id db !! k = Some v -> meta_instagram_thread_id db' !! k = Some v
}.

Lemma db_ok_empty : db_ok emptyDB.
Proof. split; intros k k' v v' Hk; cbn in Hk; by rewrite lookup_empty in Hk. Qed.

Lemma db_step_ok db db' : db_step db db' -> db_ok db -> db_ok db' /\ db_le db db'.
Proof.
  intros Hs [H1 H2 H3].
  assert (forall t, db_ok (set_states t db) /\ db_le db (set_states t db)) as Hst by (intros; split; by split).
  destruct Hs; try apply Hst.
  - split; split; try done; [by apply insert_ignore_ok|intros; by apply insert_ignore_mono].
  - unfold PutReconnectionState. case_decide; [apply Hst|]. split; by split.
  - unfold GetReconnectionState. destruct (_ !! _) as [[]|]; [apply Hst|]. split; by split.
  - split; split; try done; [by apply insert_ignore_ok|intros; by apply insert_ignore_mono].
  - split; split; try done; [by apply insert_ignore_ok|intros; by apply insert_ignore_mono].
Qed.

Lemma db_steps_ok db db' : rtc db_step db db' -> db_ok db -> db_ok db' /\ db_le db db'.
Proof.
  intros Hs. induction Hs as [db|db db1 db2 H _ IH]; intros Hok; [split; [done|by split]|].
  destruct (db_step_ok _ _ H Hok) as [Hok1 [L1 L2 L3]]. destruct (IH Hok1) as [Hok2 [M1 M2 M3]].
  split; [done|]. split; eauto.
Qed.

(** The subthread table is a stable bijection: after any sequence of operations, a thread
    that was put under a fresh key with a fresh message is found by its key and by its message,
    and no operation later changes either answer. *)
Theorem threads_stay db db' p k m (Hdb : rtc db_step emptyDB db)
    (Hkey : meta_thread db !! k = None) (Hmsg : GetThreadByMessage m db = 0)
    (Hnz : forall v, meta_thread db !! 0 <> Some v) (Hs : rtc db_step (PutThread p k m db) db') :
  GetThreadByKey k db' = (p, m) /\ GetThreadByMessage m db' = k.
Proof.
  destruct (db_steps_ok _ _ Hdb db_ok_empty) as [Hok _].
  destruct (db_step_ok _ _ (step_put_thread p k m db) Hok) as [Hok1 _].
  destruct (db_steps_ok _ _ Hs Hok1) as [Hok2 Hle].
  assert (find_unique snd m (meta_thread db) = None) as Hno.
  { destruct (find_unique snd m (meta_thread db)) as [k'|] eqn:E; [|done].
    unfold GetThreadByMessage in Hmsg. rewrite E in Hmsg. cbn in Hmsg. subst k'.
    apply find_unique_Some in E as (v & Hv & _). by destruct (Hnz v). }
  assert (meta_thread db' !! k = Some (p, m)) as Hk.
  { apply (le_threads _ _ Hle). cbn. rewrite insert_ignore_fresh by done. apply lookup_insert_eq. }
  unfold GetThreadByKey, GetThreadByMessage. rewrite Hk.
  by rewrite (find_unique_lookup snd _ k (p, m) (threads_unique _ Hok2) Hk).
Qed.

Lemma threads_stay_witness :
  let db' := PutFBIDForIGUser "7" 9 (PutThread 1 6 "mid.b" (PutThread 1 5 "mid.a" emptyDB)) in
  GetThreadByKey 5 db' = (1, "mid.a"%string) /\ GetThreadByMessage "mid.a" db' = 5.
Proof.
  cbn zeta. apply (threads_stay emptyDB _ 1 5 "mid.a"); try done.
  eapply rtc_l; [apply (step_put_thread 1 6 "mid.b")|]. apply rtc_once, step_put_ig_user.
Defined.
