(* ===== verification/ChatInfo.v ===== *)
(** * ChatInfo: portals, members and chat info ([connector/ids.go], [connector/chatinfo.go])

    What the connector tells the bridge framework about a Messenger or Instagram thread.  The
    records are those of the framework, with the fields the code sets; updates of a portal's
    metadata, closures in the source, are the values of [ExtraUpdater] and [apply_update]. *)

From S2P Require Import Prelude Strconv Lightspeed TableKinds TableThreads TableMessages Tables.
From S2P Require Import WrapMessages MetaID.
#[local] Open Scope Z_scope.

(** ** Thread types ([table/enums.go]) *)

Definition UNKNOWN_THREAD_TYPE : Z := 0.
Definition GROUP_THREAD : Z := 2.
Definition MARKETPLACE : Z := 5.
Definition FOLDER : Z := 6.

Definition folderPending : string := "pending".
Definition folderSpam : string := "spam".
Definition folderE2EECutover : string := "e2ee_cutover".

(** ** Data of the framework *)

Record EventSender := mkEventSender { IsFromMe : bool; Sender : string; SenderLogin : string }.
Record PortalKey := mkPortalKey { PortalID : string; Receiver : string }.

#[global] Instance PortalKey_eq_dec : EqDecision PortalKey.
Proof. solve_decision. Defined.
#[global] Instance EventSender_eq_dec : EqDecision EventSender.
Proof. solve_decision. Defined.

Inductive Membership := MembershipUnset | MembershipJoin | MembershipLeave.

Record ChatMember := mkChatMember {
  member_sender : EventSender;
  Nickname : option string;
  member_membership : Membership;
  PrevMembership : Membership;
  PowerLevel : option Z
}.

(** A member with nothing but its sender and membership. *)
Definition plain_member (s : EventSender) (m : Membership) : ChatMember :=
  mkChatMember s None m MembershipUnset None.

Record ChatMemberList := mkChatMemberList {
  IsFull : bool;
  TotalMemberCount : Z;
  OtherUserID : string;
  MemberMap : gmap string ChatMember
}.

Inductive RoomType := RoomTypeDefault | RoomTypeDM | RoomTypeSpace.

#[global] Instance RoomType_eq_dec : EqDecision RoomType.
Proof. solve_decision. Defined.

(** An avatar to remove, or one with its id and address. *)
Inductive Avatar := AvatarRemove | AvatarAt (ID url : string).

Inductive MutedUntil := MutedForever | MutedUntilMs (ms : Z).

(** [ExtraUpdates]: the closures of [makeMinimalChatInfo] and [markPortalAsEncrypted]; merged
    updaters run one after the other. *)
Inductive ExtraUpdater := UpdateThreadType (threadType : Z) | MarkPortalAsEncrypted.

Record ChatInfo := mkChatInfo {
  Name : option string;
  info_avatar : option Avatar;
  Members : ChatMemberList;
  Type_ : RoomType;
  CanBackfill : bool;
  ParentID : option string;
  UserLocal : bool;               (** [UserLocal] is not nil *)
  Muted : option MutedUntil;      (** [UserLocal.MutedUntil] *)
  ExtraUpdates : list ExtraUpdater
}.

(** What one updater makes of the thread type in the portal's metadata. *)
Definition apply_update (u : ExtraUpdater) (meta : Z) : Z :=
  match u with
  | UpdateThreadType threadType =>
      if (threadType =? GROUP_THREAD) && (meta >? 15) then meta
      else if negb (meta =? threadType) && negb (IsWhatsApp meta) then threadType
      else meta
  | MarkPortalAsEncrypted => if meta =? ONE_TO_ONE then ENCRYPTED_OVER_WA_ONE_TO_ONE else meta
  end.

Definition apply_updates (us : list ExtraUpdater) (meta : Z) : Z := foldl (fun m u => apply_update u m) meta us.

(** ** Ids *)

(** The login and the configuration the handlers read. *)
Record Login := mkLogin {
  LoginID : string;
  SplitPortals : bool;
  PrivateChatPortalMeta : bool;
  MarketplaceSpace : bool
}.

Section Client.
Context (m : Login).
(** [path.Base] of a URL's path, [None] when the URL does not parse. *)
Context (avatar_id : string -> option string).

Definition selfEventSender : EventSender := mkEventSender true (LoginID m) (LoginID m).

Definition makeEventSender (id : Z) : EventSender :=
  mkEventSender (MakeUserLoginID id =? LoginID m)%string (MakeUserID id) (MakeUserLoginID id).

Definition makeFBPortalKey (threadID threadType : Z) : PortalKey :=
  mkPortalKey (MakeFBPortalID threadID)
    (if SplitPortals m || (threadType =? UNKNOWN_THREAD_TYPE) || IsOneToOne threadType
     then LoginID m else "").

(** ** Chat info *)

(** [wrapAvatar] uses the parsed URL without looking at the error. *)
Definition wrapAvatar (avatarURL : string) : res Avatar :=
  if (avatarURL =? "")%string then Ok AvatarRemove
  else match avatar_id avatarURL with
       | Some i => Ok (AvatarAt i avatarURL)
       | None => Panic
       end.

Definition makeNoteToSelfMembers (otherUserID : string) : gmap string ChatMember :=
  <[otherUserID := plain_member (mkEventSender false otherUserID "") MembershipUnset]>
    (<["" := plain_member (mkEventSender true "" "") MembershipUnset]> ∅).

Definition self_member : gmap string ChatMember :=
  <[LoginID m := plain_member selfEventSender MembershipJoin]> ∅.

Definition makeMinimalChatInfo (threadID threadType parentThreadKey : Z) : ChatInfo :=
  let members :=
    if threadType =? FOLDER then mkChatMemberList false 0 "" self_member
    else if IsOneToOne threadType then
      let other := MakeUserID threadID in
      mkChatMemberList true 0 other
        (if (MakeUserLoginID threadID =? LoginID m)%string then makeNoteToSelfMembers other
         else <[other := plain_member (makeEventSender threadID) MembershipJoin]> self_member)
    else mkChatMemberList false 0 "" self_member in
  let roomType := if threadType =? FOLDER then RoomTypeSpace
                  else if IsOneToOne threadType then RoomTypeDM else RoomTypeDefault in
  mkChatInfo None None members roomType (negb (IsWhatsApp threadType))
    (if negb (parentThreadKey =? -1) && negb (parentThreadKey =? 0) && (threadType =? MARKETPLACE)
        && MarketplaceSpace m
     then Some (MakeFBPortalID parentThreadKey) else None)
    false None [UpdateThreadType threadType].

Definition set_name_avatar (n : option string) (a : option Avatar) (c : ChatInfo) : ChatInfo :=
  mkChatInfo n a (Members c) (Type_ c) (CanBackfill c) (ParentID c) (UserLocal c) (Muted c) (ExtraUpdates c).
Definition set_members (ml : ChatMemberList) (c : ChatInfo) : ChatInfo :=
  mkChatInfo (Name c) (info_avatar c) ml (Type_ c) (CanBackfill c) (ParentID c) (UserLocal c) (Muted c)
    (ExtraUpdates c).
Definition set_muted (mu : option MutedUntil) (c : ChatInfo) : ChatInfo :=
  mkChatInfo (Name c) (info_avatar c) (Members c) (Type_ c) (CanBackfill c) (ParentID c) true mu
    (ExtraUpdates c).
Definition add_updater (u : ExtraUpdater) (c : ChatInfo) : ChatInfo :=
  mkChatInfo (Name c) (info_avatar c) (Members c) (Type_ c) (CanBackfill c) (ParentID c) (UserLocal c)
    (Muted c) (ExtraUpdates c ++ [u]).

Definition wrapFolderInfo (folder : Inst) : res ChatInfo :=
  a ← wrapAvatar (row_str LSUpsertFolder "ThreadPictureURL" folder);
  Ok (set_name_avatar (Some (row_str LSUpsertFolder "ThreadName" folder)) (Some a)
        (makeMinimalChatInfo (row_int LSUpsertFolder "ThreadKey" folder) FOLDER (-1))).

(** [wrapChatInfo] of a row of [LSDeleteThenInsertThread]. *)
Definition thread_int := row_int LSDeleteThenInsertThread.
Definition thread_str := row_str LSDeleteThenInsertThread.

Definition wrapChatInfo (t : Inst) : res ChatInfo :=
  let c := makeMinimalChatInfo (thread_int "ThreadKey" t) (thread_int "ThreadType" t)
             (thread_int "ParentThreadKey" t) in
  c ← (if decide (Type_ c = RoomTypeDM) then Ok c
       else
         let name := if (thread_str "ThreadName" t =? "")%string then Name c
                     else Some (thread_str "ThreadName" t) in
         if (thread_str "ThreadPictureUrl" t =? "")%string then Ok (set_name_avatar name (info_avatar c) c)
         else a ← wrapAvatar (thread_str "ThreadPictureUrl" t); Ok (set_name_avatar name (Some a) c));
  let c := set_muted (Muted c) c in
  let c := if (thread_str "FolderName" t =? folderE2EECutover)%string
           then add_updater MarkPortalAsEncrypted c else c in
  let ml := Members c in
  let c := set_members (mkChatMemberList (IsFull ml) (thread_int "MemberCount" t) (OtherUserID ml)
                          (MemberMap ml)) c in
  let mute := thread_int "MuteExpireTimeMs" t in
  Ok (if mute <? 0 then set_muted (Some MutedForever) c
      else if mute >? 0 then set_muted (Some (MutedUntilMs mute)) c
      else c).

Definition wrapChatMember (p : Inst) : ChatMember :=
  let get := row_bool LSAddParticipantIdToGroupThread in
  let power := if get "IsSuperAdmin" p then 95
               else if get "IsAdmin" p then 75
               else if get "IsModerator" p then 50 else 0 in
  mkChatMember (makeEventSender (row_int LSAddParticipantIdToGroupThread "ContactId" p))
    (Some (row_str LSAddParticipantIdToGroupThread "Nickname" p)) MembershipJoin MembershipUnset (Some power).
End Client.
