(* ===== verification/StartChat.v ===== *)
(** * StartChat: finding users and starting chats ([connector/startchat.go], [userinfo.go], [commands.go])

    The ids of Instagram users with their caches over the bridge's tables, the user information
    the framework is given, and the handlers that resolve identifiers, create groups and search
    users.  They are handlers over the caches and the database ([Stateful]); a query of the
    database first asks whether the driver fails. *)

From S2P Require Import Prelude Strconv TableKinds TableMessages TableThreads Tables Lightspeed WrapMessages Events MetaID MetaDB Cookies ChatInfo.
From S2P Require Import Json TaskTypes Tasks.
From S2P Require Import Errors Interaction Stateful.
#[local] Open Scope Z_scope.

(** ** State and requests *)

Record Ids := mkIds {
  igUserIDs : gmap string Z; igUserIDsReverse : gmap Z string; igThreadIDs : gmap string Z; db : MetaDB
}.

Definition set_users (u : gmap string Z) (r : gmap Z string) (s : Ids) : Ids := mkIds u r (igThreadIDs s) (db s).
Definition set_threads (t : gmap string Z) (s : Ids) : Ids := mkIds (igUserIDs s) (igUserIDsReverse s) t (db s).
Definition set_db (d : MetaDB) (s : Ids) : Ids := mkIds (igUserIDs s) (igUserIDsReverse s) (igThreadIDs s) d.

(** A task the server asks for ([LSIssueNewTask]): its label, document and queue. *)
Record IssuedTask := mkIssuedTask { it_Label : string; it_Payload : string; it_Queue : string }.

Definition issued_task (r : Inst) : IssuedTask :=
  mkIssuedTask (FormatInt 10 (row_int LSIssueNewTask "Context" r)) (row_str LSIssueNewTask "TaskValue" r) (row_str LSIssueNewTask "QueueName" r).

Definition Second : Z := 1000000000.

(** A portal of the framework is its key, a ghost an object. *)
Variant Req :=
| QDatabase                                           (* the driver's failure, if any *)
| QConnected                                          (* the wait for the connection *)
| QExecute (tasks : list AnyTask) | QExecuteIssued (tasks : list IssuedTask)
| QGoExecute (ns : Z) (tasks : list AnyTask)          (* by a goroutine, after a while *)
| QEpochID | QNow
| QGhost (id : string)
| QPortalByKey (key : PortalKey) | QUpdateRoom (key : PortalKey) (room : string) | QRoomCreated (key : PortalKey) (ns : Z)
| QFindLogin | QReply (text : string) | QSavePortal.

Definition answer (q : Req) : Type :=
  match q with
  | QDatabase | QRoomCreated _ _ | QUpdateRoom _ _ | QFindLogin | QSavePortal => option error
  | QConnected => bool
  | QExecute _ | QExecuteIssued _ => tables + error
  | QGoExecute _ _ | QReply _ => unit
  | QEpochID | QNow => Z
  | QGhost _ => option nat
  | QPortalByKey _ => option error
  end.

Abbreviation IM := (SM Ids answer).
Abbreviation tell q := (Stateful.tell (S := Ids) (answer := answer) q).
Abbreviation block q := (Stateful.block (S := Ids) (answer := answer) q).
Abbreviation trace := (list (event (reply (S := Ids) answer))).

Definition execute {T} {C : Task T} (t : T) : IM (tables + error) := block (QExecute [mkTask t]).

(** ** The ids of Instagram users and threads ([userinfo.go]) *)

Definition getFBIDForIGUser (igid : string) : IM (Z + error) :=
  cached ← gets (fun s => default 0 (igUserIDs s !! igid));
  if negb (cached =? 0) then mret (inl cached)
  else
    e ← block QDatabase;
    match e with
    | Some e => mret (inr e)
    | None =>
        fbid ← gets (fun s => GetFBIDForIGUser igid (db s));
        modify (fun s => set_users (<[igid := fbid]> (igUserIDs s)) (<[fbid := igid]> (igUserIDsReverse s)) s);;
        mret (inl fbid)
    end.

Definition getIGUserForFBID (fbid : Z) : IM (string + error) :=
  cached ← gets (fun s => default ""%string (igUserIDsReverse s !! fbid));
  if negb (cached =? "")%string then mret (inl cached)
  else
    e ← block QDatabase;
    match e with
    | Some e => mret (inr e)
    | None =>
        igid ← gets (fun s => GetIGUserForFBID fbid (db s));
        modify (fun s => set_users (<[igid := fbid]> (igUserIDs s)) (<[fbid := igid]> (igUserIDsReverse s)) s);;
        mret (inl igid)
    end.

Definition getFBIDForIGThread (igid : string) : IM (Z + error) :=
  cached ← gets (fun s => default 0 (igThreadIDs s !! igid));
  if negb (cached =? 0) then mret (inl cached)
  else
    e ← block QDatabase;
    match e with
    | Some e => mret (inr e)
    | None =>
        fbid ← gets (fun s => GetFBIDForIGThread igid (db s));
        modify (fun s => set_threads (<[igid := fbid]> (igThreadIDs s)) s);;
        mret (inl fbid)
    end.

Definition putFBIDForIGUser (igid : string) (fbid : Z) : IM (option error) :=
  cached ← gets (fun s => default 0 (igUserIDs s !! igid));
  if cached =? fbid then mret None
  else
    modify (fun s => set_users (<[igid := fbid]> (igUserIDs s)) (<[fbid := igid]> (igUserIDsReverse s)) s);;
    e ← block QDatabase;
    match e with
    | Some e => mret (Some e)
    | None => modify (fun s => set_db (PutFBIDForIGUser igid fbid (db s)) s);; mret None
    end.

Definition putFBIDForIGThread (igid : string) (fbid : Z) : IM (option error) :=
  cached ← gets (fun s => default 0 (igThreadIDs s !! igid));
  if cached =? fbid then mret None
  else
    modify (fun s => set_threads (<[igid := fbid]> (igThreadIDs s)) s);;
    e ← block QDatabase;
    match e with
    | Some e => mret (Some e)
    | None => modify (fun s => set_db (PutFBIDForIGThread igid fbid (db s)) s);; mret None
    end.

(** ** User information *)

(** The interface [types.UserInfo], and the rows that implement it. *)
Record UserInfo := mkUserInfo { GetUsername : string; GetName : string; GetAvatarURL : string; GetFBID : Z }.

Definition search_int := row_int LSInsertSearchResult.
Definition search_str := row_str LSInsertSearchResult.

Definition search_FBID (r : Inst) : Z := if search_int "ThreadType" r =? ONE_TO_ONE then fst (ParseInt 10 (search_str "ResultId" r)) else 0.
Definition search_info (r : Inst) : UserInfo := mkUserInfo "" (search_str "DisplayName" r) (search_str "ProfilePicUrl" r) (search_FBID r).

Definition contact_str := row_str LSDeleteThenInsertContact.
Definition contact_avatar (r : Inst) : string :=
  if negb (contact_str "ProfilePictureLargeUrl" r =? "")%string then contact_str "ProfilePictureLargeUrl" r else contact_str "ProfilePictureUrl" r.
Definition contact_info (r : Inst) : UserInfo :=
  mkUserInfo (contact_str "SecondaryName" r) (contact_str "Name" r) (contact_avatar r) (row_int LSDeleteThenInsertContact "Id" r).

Definition verify_info (r : Inst) : UserInfo :=
  mkUserInfo (row_str LSVerifyContactRowExists "SecondaryName" r) (row_str LSVerifyContactRowExists "Name" r)
    (row_str LSVerifyContactRowExists "ProfilePictureUrl" r) (row_int LSVerifyContactRowExists "ContactId" r).

Definition MetaAIInstagramID : Z := 656175869434325.
Definition MetaAIMessengerID : Z := 156025504001094.

Record BridgeUserInfo := mkBridgeUserInfo { Identifiers : list string; ui_Name : string; ui_Avatar : Avatar; IsBot : bool }.

(** What the update of a ghost does to its username, and whether it changed. *)
Definition ghost_update (p : Platform) (info : UserInfo) (Username : string) : string * bool :=
  if bool_decide (p = Instagram) && negb (Username =? GetUsername info)%string then (GetUsername info, true) else (Username, false).

Definition of_res {A} (r : res A) : IM A :=
  match r with Ok a => mret a | Err e => sthrow e | Halt HDiverge => spin | Halt _ => spanic end.

Definition ErrNotLoggedIn : error := OtherError "not logged in".
Definition ErrNotConnected : error := OtherError "not connected".

(** A group that cannot be made: the server's refusal ([M_FORBIDDEN]), or another error. *)
Variant GroupError := Forbidden (message : string) | GroupFailed (e : error).

Record GroupCreateParams := mkGroupCreateParams { gp_Participants : list string; RoomID : string }.
Record CreateChatResponse := mkCreateChat { cc_PortalKey : PortalKey; PortalInfo : option ChatInfo }.
Record ResolveResponse := mkResolve { rr_UserID : string; rr_Ghost : option nat; rr_UserInfo : option BridgeUserInfo; rr_Chat : option CreateChatResponse }.

Definition SearchTypeContact : Z := 1.
Definition SearchTypeNonContact : Z := 2.
Definition SearchTypeGroup : Z := 3.
Definition SearchTypePage : Z := 4.
Definition SearchTypeIGContactFollowing : Z := 6.
Definition SearchTypeIGContactNonFollowing : Z := 7.
Definition SearchTypeIGNonContactFollowing : Z := 8.
Definition SearchTypeIGNonContactNonFollowing : Z := 9.
Definition SearchTypeCommunityMessagingThread : Z := 13.
Definition INBOX : Z := 0.

Definition ValidateUserID (id : string) : bool := ParseUserID id >? 0.

Section Handlers.
Context (m : Login) (has_cookies : bool) (platform : Platform).
(** [path.Base] of the path of a URL, [None] when it does not parse; the template of names. *)
Context (avatar_id : string -> option string) (FormatDisplayname : string -> string -> Z -> string).

Definition wrapUserInfo (info : UserInfo) : res BridgeUserInfo :=
  a ← wrapAvatar avatar_id (GetAvatarURL info);
  Ok (mkBridgeUserInfo (if bool_decide (platform = Instagram) then ["instagram:" ++ GetUsername info]%string else [])
        (FormatDisplayname (GetName info) (GetUsername info) (GetFBID info)) a
        ((GetFBID info =? MetaAIInstagramID) || (GetFBID info =? MetaAIMessengerID))).

(** The ids that come with a contact are saved; what fails is logged. *)
Fixpoint save_ids (l : list Inst) : IM unit :=
  match l with
  | [] => mret ()
  | r :: l =>
      _ ← putFBIDForIGUser (row_str LSDeleteThenInsertIGContactInfo "IgId" r) (row_int LSDeleteThenInsertIGContactInfo "ContactId" r);
      save_ids l
  end.

(** [GetUserInfo] of a ghost, by its id and name. *)
Definition GetUserInfo (ghost_ID ghost_Name : string) : IM (option BridgeUserInfo + error) :=
  if negb (ghost_Name =? "")%string then mret (inl None)
  else
    r ← execute (GetContactsFullTask.mkGetContactsFullTask (ParseUserID ghost_ID));
    match r with
    | inr e => mret (inr e)
    | inl resp =>
        save_ids (rows resp "LSDeleteThenInsertIGContactInfo");;
        match rows resp "LSDeleteThenInsertContact" with
        | c :: _ => i ← of_res (wrapUserInfo (contact_info c)); mret (inl (Some i))
        | [] => mret (inr (OtherError "user info not found via GetContactsFullTask"))
        end
    end.

(** ** Starting chats ([startchat.go]) *)

Definition CreateWhatsAppDM (threadID : Z) : IM (option error) :=
  key ← tell QEpochID;
  now ← tell QNow;
  r ← execute (CreateWhatsAppThreadTask.mkCreateWhatsAppThreadTask threadID key ENCRYPTED_OVER_WA_ONE_TO_ONE INBOX (now / 1000000) 0);
  match r with
  | inr e => mret (Some e)
  | inl resp =>
      match rows resp "LSIssueNewTask" with
      | [] => mret None
      | l =>
          r ← block (QExecuteIssued (issued_task <$> l));
          mret (match r with inr e => Some (Wrap "failed to run WhatsApp thread create subtasks: " e) | inl _ => None end)
      end
  end.

Definition ready : IM (option error) :=
  if negb has_cookies then mret (Some ErrNotLoggedIn)
  else c ← block QConnected; mret (if c : bool then None else Some ErrNotConnected).

(** The chat of a user: what becomes of the requests that make it does not matter. *)
Definition create_chat (id : Z) : IM CreateChatResponse :=
  _ ← execute (CreateThreadTask.mkCreateThreadTask id 0 0 1 0 0);
  let tableType := if IsMessenger platform then ENCRYPTED_OVER_WA_ONE_TO_ONE else ONE_TO_ONE in
  _ ← (if IsMessenger platform then CreateWhatsAppDM id else mret None);
  mret (mkCreateChat (makeFBPortalKey m id tableType) (Some (makeMinimalChatInfo m id tableType 0))).

Definition ResolveIdentifier (identifier : string) (createChat : bool) : IM (ResolveResponse + error) :=
  e ← ready;
  match e with
  | Some e => mret (inr e)
  | None =>
      match ParseIDFromString identifier with
      | Err e => mret (inr (Wrap "failed to parse identifier: " (OtherError e)))
      | Halt h => of_res (Halt h)
      | Ok id =>
          chat ← (if createChat then c ← create_chat id; mret (Some c) else mret None);
          ghost ← block (QGhost (MakeUserID id));
          mret (inl (mkResolve (MakeUserID id) ghost None chat))
      end
  end.

Definition issue_message (e : Inst) : string :=
  let msg := row_str LSIssueNewError "ErrorMessage" e in
  let msg := if (msg =? "")%string then row_str LSIssueNewError "ErrorTitle" e else msg in
  if (msg =? "")%string then "unknown error creating group" else msg.

(** The thread a response gives the group that was asked for. *)
Definition real_thread (threadID : Z) (resp : tables) : Z + GroupError :=
  match rows resp "LSIssueNewError" with
  | e :: _ => inr (Forbidden (issue_message e))
  | [] =>
      match rows resp "LSReplaceOptimisticThread" with
      | [] => inr (GroupFailed (OtherError "no optimistic replace thread in response"))
      | repl :: _ =>
          let k1 := row_int LSReplaceOptimisticThread "ThreadKey1" repl in
          if negb (k1 =? threadID)
          then inr (GroupFailed (OtherError ("unexpected thread key in response: " ++ FormatInt 10 k1 ++ " != " ++ FormatInt 10 threadID)))
          else inl (row_int LSReplaceOptimisticThread "ThreadKey2" repl)
      end
  end.

Definition group_members (participants : list Z) : gmap string ChatMember :=
  let add s (l : gmap string ChatMember) := <[Sender s := plain_member s MembershipUnset]> l in
  add (selfEventSender m) (foldl (fun l p => add (makeEventSender m p) l) ∅ participants).

(** The info of a group whose room did not appear by itself. *)
Definition group_info (thread : Z) (participants : list Z) : ChatInfo :=
  set_members (mkChatMemberList false 0 "" (group_members participants)) (makeMinimalChatInfo m thread GROUP_THREAD 0).

(** The room of the new group: the given one, or the one the server's update makes. *)
Definition group_room (key : PortalKey) (room : string) (thread : Z) (participants : list Z) : IM (CreateChatResponse + GroupError) :=
  if negb (room =? "")%string then
    e ← block (QUpdateRoom key room);
    mret (match e with
          | Some e => inr (GroupFailed (Wrap "failed to update room ID after creating group: " e))
          | None => inl (mkCreateChat key None)
          end)
  else
    e ← block (QRoomCreated key (5 * Second));
    mret (inl (mkCreateChat key (match e with Some _ => Some (group_info thread participants) | None => None end))).

Definition group_task (threadID otid : Z) (participants : list Z) : CreateGroupTask.CreateGroupTask :=
  CreateGroupTask.mkCreateGroupTask (Some participants) (CreateGroupPayload.mkCreateGroupPayload threadID (FormatInt 10 otid) 0 8).

Definition CreateGroup (params : GroupCreateParams) : IM (CreateChatResponse + GroupError) :=
  threadID ← tell QEpochID;
  otid ← tell QEpochID;
  let participants := ParseUserID <$> gp_Participants params in
  r ← execute (group_task threadID otid participants);
  match r with
  | inr e => mret (inr (GroupFailed e))
  | inl resp =>
      match real_thread threadID resp with
      | inr e => mret (inr e)
      | inl thread =>
          let key := makeFBPortalKey m thread GROUP_THREAD in
          e ← block (QPortalByKey key);
          match e with
          | Some e => mret (inr (GroupFailed (Wrap "failed to get portal: " e)))
          | None => group_room key (RoomID params) thread participants
          end
      end
  end.

Definition search_types : list Z :=
  [SearchTypeContact; SearchTypeGroup; SearchTypePage; SearchTypeNonContact; SearchTypeIGContactFollowing;
   SearchTypeIGContactNonFollowing; SearchTypeIGNonContactFollowing; SearchTypeIGNonContactNonFollowing].

Definition search_task (search : string) (secondary : bool) : SearchUserTask.SearchUserTask :=
  let t := if IsMessenger platform then search_types ++ [SearchTypeCommunityMessagingThread] else search_types in
  SearchUserTask.mkSearchUserTask search (Some t) None (if IsMessenger platform then 5 else 15) None None None None secondary.

(** Whether a result is a user one can chat with. *)
Definition is_chat (r : Inst) : bool :=
  (search_int "ThreadType" r =? ONE_TO_ONE) && row_bool LSInsertSearchResult "CanViewerMessage" r && negb (search_FBID r =? 0).

Fixpoint found_users (l : list Inst) : IM (list ResolveResponse) :=
  match l with
  | [] => mret []
  | r :: l =>
      if is_chat r then
        let id := MakeUserID (search_FBID r) in
        ghost ← block (QGhost id);
        i ← of_res (wrapUserInfo (search_info r));
        us ← found_users l;
        mret (mkResolve id ghost (Some i) None :: us)
      else found_users l
  end.

Definition SearchUsers (search : string) : IM (list ResolveResponse + error) :=
  e ← ready;
  match e with
  | Some e => mret (inr e)
  | None =>
      tell (QGoExecute 10000000 [mkTask (search_task search true)]);;
      r ← execute (search_task search false);
      match r with
      | inr e => mret (inr (Wrap "failed to search for user: " e))
      | inl resp => us ← found_users (rows resp "LSInsertSearchResult"); mret (inl us)
      end
  end.

(** ** The command that turns encryption on and off ([commands.go]) *)

Definition on_unencrypted : string := "Messages in this room will now be sent unencrypted over Messenger".
Definition on_encrypted : string := "Messages in this room will now be sent encrypted over WhatsApp".

(** The type of the thread that is kept; [Mode] is that of the configuration. *)
Definition fnToggleEncryption (Mode : Platform) (room : RoomType) (args : list string) (portalID : string) (meta : Z) : IM Z :=
  if negb (IsMessenger Mode) then tell (QReply "Instagram does not support encryption");; mret meta
  else if negb (bool_decide (room = RoomTypeDM))
  then tell (QReply "Only private chats can be toggled between encrypted and unencrypted");; mret meta
  else
    e ← block QFindLogin;
    match e with
    | Some _ => tell (QReply "Failed to find login for room");; mret meta
    | None =>
        meta ← (if IsWhatsApp meta then tell (QReply on_unencrypted);; mret ONE_TO_ONE
                else
                  (if bool_decide (head args = Some "--force"%string) then mret ()
                   else
                     e ← CreateWhatsAppDM (ParseFBPortalID portalID);
                     when (bool_decide (is_Some (const () <$> e))) (tell (QReply "Failed to create WhatsApp thread")));;
                  tell (QReply on_encrypted);; mret ENCRYPTED_OVER_WA_ONE_TO_ONE);
        _ ← block QSavePortal;
        mret meta
    end.
End Handlers.

(** * Properties *)

Lemma srun_tell q s tr r s' : sruns (tell q) s tr r s' -> exists x s1, tr = [Event (answer := reply answer) (q, s) (x, s1)] /\ r = Ok x /\ s' = s.
Proof. intros H. apply (proj1 (sruns_tell (answer := answer) q _ _ _ _) H). Qed.
Lemma srun_block q s tr r s' : sruns (block q) s tr r s' -> exists x, tr = [Event (answer := reply answer) (q, s) (x, s')] /\ r = Ok x.
Proof. intros H. apply (proj1 (sruns_block (answer := answer) q _ _ _ _) H). Qed.

Definition left_by (e : event (reply (S := Ids) answer)) : Ids := (answered e).2.

(** ** Ids *)

Variant IdOp := OGetFBID (igid : string) | OGetIG (fbid : Z) | OGetThread (igid : string) | OPutUser (igid : string) (fbid : Z) | OPutThread (igid : string) (fbid : Z).
Variant IdAnswer := AInt (x : Z + error) | AString (x : string + error) | AError (x : option error).

Definition run_op (o : IdOp) : IM IdAnswer :=
  match o with
  | OGetFBID i => x ← getFBIDForIGUser i; mret (AInt x)
  | OGetIG f => x ← getIGUserForFBID f; mret (AString x)
  | OGetThread i => x ← getFBIDForIGThread i; mret (AInt x)
  | OPutUser i f => x ← putFBIDForIGUser i f; mret (AError x)
  | OPutThread i f => x ← putFBIDForIGThread i f; mret (AError x)
  end.

Fixpoint run_ops (l : list IdOp) : IM (list IdAnswer) :=
  match l with [] => mret [] | o :: l => a ← run_op o; l ← run_ops l; mret (a :: l) end.

Section Truth.
(** The ids of users and threads: one for each, as the source expects. *)
Context (user thread : string -> Z).

Record ids_ok (s : Ids) : Prop := {
  ok_users : forall i f, igUserIDs s !! i = Some f -> f <> 0 -> i <> ""%string -> f = user i;
  ok_reverse : forall i f, igUserIDsReverse s !! f = Some i -> f <> 0 -> i <> ""%string -> f = user i;
  ok_threads : forall i f, igThreadIDs s !! i = Some f -> f <> 0 -> f = thread i;
  ok_db_users : forall i f, meta_instagram_user_id (db s) !! i = Some f -> f = user i;
  ok_db_threads : forall i f, meta_instagram_thread_id (db s) !! i = Some f -> f = thread i
}.

Definition truthful (o : IdOp) : Prop :=
  match o with OPutUser i f => f = user i | OPutThread i f => f = thread i | _ => True end.

(** An answer is right, or says that the id is not known. *)
Definition right (o : IdOp) (a : IdAnswer) : Prop :=
  match o, a with
  | OGetFBID i, AInt (inl f) => i = ""%string \/ f = 0 \/ f = user i
  | OGetIG f, AString (inl i) => f = 0 \/ i = ""%string \/ f = user i
  | OGetThread i, AInt (inl f) => f = 0 \/ f = thread i
  | _, _ => True
  end.

Definition env_ok (tr : trace) : Prop := Forall (fun e => ids_ok (asked e).2 -> ids_ok (left_by e)) tr.

Definition keeps {A} (m : IM A) (P : A -> Prop) : Prop :=
  forall s tr r s', sruns m s tr r s' -> ids_ok s -> env_ok tr -> ids_ok s' /\ (forall a, r = Ok a -> P a).

Lemma keeps_ret {A} (a : A) (P : A -> Prop) : P a -> keeps (mret a) P.
Proof. intros Ha s tr r s' (-> & -> & ->)%sruns_ret Hs _. split; [done|]. by intros ? [= <-]. Qed.

Lemma keeps_bind {A B} (m : IM A) (f : A -> IM B) P Q : keeps m P -> (forall a, P a -> keeps (f a) Q) -> keeps (m ≫= f) Q.
Proof.
  intros Hm Hf s tr r s' (r1 & s1 & t1 & t2 & -> & H1 & H2)%sruns_bind Hs [E1 E2]%Forall_app.
  destruct (Hm _ _ _ _ H1 Hs E1) as [Hs1 HP]. destruct r1 as [a|e|h]; [by eapply Hf; eauto|by destruct H2 as (-> & -> & ->)..].
Qed.

Lemma keeps_read {A B} (g : Ids -> A) (f : A -> IM B) Q : (forall s, ids_ok s -> keeps (f (g s)) Q) -> keeps (x ← gets g; f x) Q.
Proof.
  intros Hf s tr r s' (r1 & s1 & t1 & t2 & -> & (-> & -> & ->)%sruns_gets & H2)%sruns_bind Hs E. by eapply Hf.
Qed.

Lemma keeps_modify {B} g (f : unit -> IM B) Q : (forall s, ids_ok s -> ids_ok (g s)) -> keeps (f ()) Q -> keeps (x ← modify g; f x) Q.
Proof.
  intros Hg Hf s tr r s' (r1 & s1 & t1 & t2 & -> & (-> & -> & ->)%sruns_modify & H2)%sruns_bind Hs E. eapply Hf; eauto.
Qed.

Lemma keeps_database {B} (f : option error -> IM B) Q : (forall e, keeps (f e) Q) -> keeps (x ← block QDatabase; f x) Q.
Proof.
  intros Hf s tr r s' (r1 & s1 & t1 & t2 & -> & (x & -> & ->)%(srun_block QDatabase) & H2)%sruns_bind Hs [E1 E2]%Forall_app.
  apply Forall_cons in E1 as [E1 _]. eapply Hf; eauto.
Qed.

(** A pair of ids that is right, or one of the two that say nothing. *)
Definition says (i : string) (f : Z) : Prop := f = 0 \/ i = ""%string \/ f = user i.

Lemma ok_set_users i f s : ids_ok s -> says i f -> ids_ok (set_users (<[i := f]> (igUserIDs s)) (<[f := i]> (igUserIDsReverse s)) s).
Proof.
  intros [H1 H2 H3 H4 H5] Hf. split; cbn; [..|done|done|done].
  - intros i' f'. rewrite lookup_insert. case_decide; [|apply H1]. subst. intros [= <-] ? ?. by destruct Hf as [?|[?|?]].
  - intros i' f'. rewrite lookup_insert. case_decide; [|apply H2]. subst. intros [= <-] ? ?. by destruct Hf as [?|[?|?]].
Qed.

Lemma ok_set_threads i f s : ids_ok s -> f = 0 \/ f = thread i -> ids_ok (set_threads (<[i := f]> (igThreadIDs s)) s).
Proof.
  intros [H1 H2 H3 H4 H5] Hf. split; cbn; [done|done| |done|done]. intros i' f'. rewrite lookup_insert. case_decide; [|apply H3]. subst.
  intros [= <-] ?. by destruct Hf.
Qed.

Lemma insert_ignore_lookup (t : gmap string Z) i f j g : insert_ignore id i f t !! j = Some g -> (i = j /\ f = g) \/ t !! j = Some g.
Proof.
  unfold insert_ignore. destruct (t !! i); [by right|]. case_match; [by right|]. rewrite lookup_insert. case_decide; [left|by right]. by simplify_eq.
Qed.

Lemma ok_put_user i f s : ids_ok s -> f = user i -> ids_ok (set_db (PutFBIDForIGUser i f (db s)) s).
Proof.
  intros [H1 H2 H3 H4 H5] Hf. split; cbn; try done. intros j g [[<- <-]|H]%insert_ignore_lookup; [done|by apply H4].
Qed.

Lemma ok_put_thread i f s : ids_ok s -> f = thread i -> ids_ok (set_db (PutFBIDForIGThread i f (db s)) s).
Proof.
  intros [H1 H2 H3 H4 H5] Hf. split; cbn; try done. intros j g [[<- <-]|H]%insert_ignore_lookup; [done|by apply H5].
Qed.

Lemma keeps_getFBID i : keeps (getFBIDForIGUser i) (fun x => match x with inl f => i = ""%string \/ f = 0 \/ f = user i | _ => True end).
Proof.
  apply keeps_read. intros s Hs. destruct (Z.eqb_spec (default 0 (igUserIDs s !! i)) 0) as [E|E]; cbn [negb].
  - apply keeps_database. intros [e|]; [by apply keeps_ret|]. apply keeps_read. intros s2 Hs2.
    assert (says i (GetFBIDForIGUser i (db s2))) as Hsay.
    { unfold says, GetFBIDForIGUser. destruct (meta_instagram_user_id (db s2) !! i) eqn:El; [|by left]. right. right. by apply (ok_db_users _ Hs2). }
    apply keeps_modify; [intros s3 Hs3; by apply ok_set_users|]. apply keeps_ret. unfold says in Hsay. tauto.
  - apply keeps_ret. destruct (igUserIDs s !! i) as [f|] eqn:El; [|by right; left]. destruct (decide (i = ""%string)); [by left|]. right. right. by apply (ok_users _ Hs).
Qed.

Lemma keeps_getIG f : keeps (getIGUserForFBID f) (fun x => match x with inl i => says i f | _ => True end).
Proof.
  apply keeps_read. intros s Hs. destruct (String.eqb_spec (default ""%string (igUserIDsReverse s !! f)) "") as [E|E]; cbn [negb].
  - apply keeps_database. intros [e|]; [by apply keeps_ret|]. apply keeps_read. intros s2 Hs2.
    assert (says (GetIGUserForFBID f (db s2)) f) as Hsay.
    { unfold says, GetIGUserForFBID. destruct (find_unique id f _) as [i|] eqn:El; [|by right; left].
      apply find_unique_Some in El as (v & Hv & <-). right. right. by apply (ok_db_users _ Hs2). }
    apply keeps_modify; [intros s3 Hs3; by apply ok_set_users|]. by apply keeps_ret.
  - apply keeps_ret. destruct (igUserIDsReverse s !! f) as [i|] eqn:El; [|done]. cbn in *. unfold says. destruct (decide (f = 0)); [by left|].
    right. right. by apply (ok_reverse _ Hs).
Qed.

Lemma keeps_getThread i : keeps (getFBIDForIGThread i) (fun x => match x with inl f => f = 0 \/ f = thread i | _ => True end).
Proof.
  apply keeps_read. intros s Hs. destruct (Z.eqb_spec (default 0 (igThreadIDs s !! i)) 0) as [E|E]; cbn [negb].
  - apply keeps_database. intros [e|]; [by apply keeps_ret|]. apply keeps_read. intros s2 Hs2.
    assert (GetFBIDForIGThread i (db s2) = 0 \/ GetFBIDForIGThread i (db s2) = thread i) as Hsay.
    { unfold GetFBIDForIGThread. destruct (meta_instagram_thread_id (db s2) !! i) eqn:El; [|by left]. right. by apply (ok_db_threads _ Hs2). }
    apply keeps_modify; [intros s3 Hs3; by apply ok_set_threads|]. by apply keeps_ret.
  - apply keeps_ret. destruct (igThreadIDs s !! i) as [f|] eqn:El; [|by left]. right. by apply (ok_threads _ Hs).
Qed.

Lemma keeps_putUser i f : f = user i -> keeps (putFBIDForIGUser i f) (fun _ => True).
Proof.
  intros Hf. apply keeps_read. intros s Hs. destruct (_ =? f); [by apply keeps_ret|].
  apply keeps_modify; [intros s2 Hs2; apply ok_set_users; [done|by right; right]|].
  apply keeps_database. intros [e|]; [by apply keeps_ret|]. apply keeps_modify; [intros s3 Hs3; by apply ok_put_user|by apply keeps_ret].
Qed.

Lemma keeps_putThread i f : f = thread i -> keeps (putFBIDForIGThread i f) (fun _ => True).
Proof.
  intros Hf. apply keeps_read. intros s Hs. destruct (_ =? f); [by apply keeps_ret|].
  apply keeps_modify; [intros s2 Hs2; apply ok_set_threads; [done|by right]|].
  apply keeps_database. intros [e|]; [by apply keeps_ret|]. apply keeps_modify; [intros s3 Hs3; by apply ok_put_thread|by apply keeps_ret].
Qed.

Lemma keeps_op o : truthful o -> keeps (run_op o) (right o).
Proof.
  destruct o as [i|f|i|i f|i f]; cbn; intros Ht; (eapply keeps_bind; [eauto using keeps_getFBID, keeps_getIG, keeps_getThread, keeps_putUser, keeps_putThread|]);
    intros x Hx; by apply keeps_ret.
Qed.

(** C17. The caches agree with the database and with the truth: as long as ids do not change,
    whatever is looked up and saved by several goroutines, every id that is found is the right
    one; a user without an id, and the id zero, are the only ones that may be confused. *)
Theorem ids_agree l s tr r s' (Hl : Forall truthful l) (Hs : ids_ok s) (H : sruns (run_ops l) s tr r s') (He : env_ok tr) :
  ids_ok s' /\ (forall answers, r = Ok answers -> Forall2 right l answers).
Proof.
  revert s tr r s' Hs H He. enough (keeps (run_ops l) (Forall2 right l)) as Hk by (intros s tr r s' Hs H He; by eapply Hk).
  induction Hl as [|o l Ho Hl IH]; [by apply keeps_ret|]. cbn [run_ops]. eapply keeps_bind; [by apply keeps_op|]. intros a Ha.
  eapply keeps_bind; [exact IH|]. intros l' Hl'. apply keeps_ret. by constructor.
Qed.
End Truth.

(** The framework's calls do not change what the handler works on. *)
Definition alone (tr : trace) : Prop := Forall (fun e => left_by e = (asked e).2) tr.

(** C40. An id whose saving failed is never saved: the cache already says it is, so the second
    attempt reports success without asking the database. *)
Theorem failed_save_is_not_retried igid fbid s tr e again s' (Ha : alone tr)
    (H : sruns (e1 ← putFBIDForIGUser igid fbid; e2 ← putFBIDForIGUser igid fbid; mret (e1, e2)) s tr (Ok (Some e, again)) s') :
  again = None /\ db s' = db s /\ length tr = 1%nat.
Proof.
  apply sruns_bind in H as (r1 & s1 & t1 & t2 & -> & H1 & H). destruct r1 as [e1| |]; [|by destruct H as (_ & [=] & _)..].
  apply sruns_bind in H as (r2 & s2 & t3 & t4 & -> & H2 & H). destruct r2 as [e2| |]; [|by destruct H as (_ & [=] & _)..].
  apply sruns_ret in H as (-> & [= <- <-] & ->). unfold putFBIDForIGUser in H1.
  apply sruns_bind in H1 as (r & s3 & t5 & t6 & -> & (-> & -> & ->)%sruns_gets & H1).
  destruct (_ =? fbid) eqn:Ec; [by apply sruns_ret in H1 as (_ & [=] & _)|].
  apply sruns_bind in H1 as (r & s4 & t7 & t8 & -> & (-> & -> & ->)%sruns_modify & H1).
  apply sruns_bind in H1 as (r & s5 & t9 & t10 & -> & (x & -> & ->)%(srun_block QDatabase) & H1). cbn [app] in *. cbn in x.
  destruct x as [e'|]; [|apply sruns_bind in H1 as (r & s6 & t11 & t12 & _ & (_ & -> & _)%sruns_modify & H1); by apply sruns_ret in H1 as (_ & [=] & _)].
  apply sruns_ret in H1 as (-> & [= ->] & ->). apply Forall_cons in Ha as [Ha _]. unfold left_by in Ha. cbn in Ha. subst s5.
  unfold putFBIDForIGUser in H2. apply sruns_bind in H2 as (r & s3 & t5 & t6 & -> & (-> & -> & ->)%sruns_gets & H2).
  cbn [igUserIDs set_users] in H2. rewrite lookup_insert_eq in H2. cbn [default] in H2. rewrite Z.eqb_refl in H2.
  by apply sruns_ret in H2 as (-> & [= ->] & ->).
Qed.

(** ** Groups *)

Section Groups.
Context (m : Login).

Lemma group_members_dom ps : dom (group_members m ps) = {[LoginID m]} ∪ list_to_set ((fun p => MakeUserID p) <$> ps).
Proof.
  unfold group_members. cbn zeta. rewrite dom_insert_L. f_equal.
  enough (forall l, dom (foldl (fun l p => <[Sender (makeEventSender m p) := plain_member (makeEventSender m p) MembershipUnset]> l) l ps) =
            dom l ∪ list_to_set ((fun p => MakeUserID p) <$> ps)) as -> by set_solver.
  induction ps as [|p ps IH]; intros l; cbn [foldl fmap list_fmap list_to_set]; [set_solver|]. rewrite IH, dom_insert_L. cbn [Sender makeEventSender]. set_solver.
Qed.

Lemma real_thread_spec threadID resp thread : real_thread threadID resp = inl thread ->
  rows resp "LSIssueNewError" = [] /\
  exists repl, head (rows resp "LSReplaceOptimisticThread") = Some repl /\ row_int LSReplaceOptimisticThread "ThreadKey1" repl = threadID /\
    row_int LSReplaceOptimisticThread "ThreadKey2" repl = thread.
Proof.
  unfold real_thread. destruct (rows resp "LSIssueNewError"); [|done]. destruct (rows resp "LSReplaceOptimisticThread") as [|repl l]; [done|].
  cbv zeta. destruct (Z.eqb_spec (row_int LSReplaceOptimisticThread "ThreadKey1" repl) threadID) as [E|]; cbn [negb]; [|done]. intros [= <-].
  split; [done|]. by exists repl.
Qed.

Definition room_request (key : PortalKey) (room : string) : Req :=
  if (room =? "")%string then QRoomCreated key (5 * Second) else QUpdateRoom key room.

Lemma group_room_spec key room thread ps s tr c s' : sruns (group_room m key room thread ps) s tr (Ok (inl c)) s' ->
  (exists ev, tr = [ev] /\ asked ev = (room_request key room, s)) /\ cc_PortalKey c = key /\
  (forall info, PortalInfo c = Some info -> room = ""%string /\ info = group_info m thread ps).
Proof.
  unfold group_room, room_request. destruct (String.eqb_spec room "") as [->|Hr]; cbn [negb].
  - intros (r & s1 & t1 & t2 & -> & (x & -> & ->)%(srun_block (QRoomCreated _ _)) & H)%sruns_bind. cbn in x. apply sruns_ret in H as (-> & [= ->] & ->).
    split; [by eexists|]. split; [done|]. destruct x; cbn; intros info; [|done]. by intros [= <-].
  - intros (r & s1 & t1 & t2 & -> & (x & -> & ->)%(srun_block (QUpdateRoom _ _)) & H)%sruns_bind. cbn in x. apply sruns_ret in H as (-> & E & ->).
    destruct x; [discriminate E|]. injection E as ->. split; [by eexists|]. by split.
Qed.

(** C16. A group is the one that was asked for: it is created only when the server refuses
    nothing and answers for the very id that was sent, the portal is that of the real thread,
    and the info that is given when no room appears has the participants and the user. *)
Theorem group_is_the_one_created params s tr c s' (H : sruns (CreateGroup m params) s tr (Ok (inl c)) s') :
  exists threadID otid resp repl s1 s2 s3 s4 ev,
    let ps := ParseUserID <$> gp_Participants params in
    let key := makeFBPortalKey m (row_int LSReplaceOptimisticThread "ThreadKey2" repl) GROUP_THREAD in
    tr = [Event (answer := reply answer) (QEpochID, s) (threadID, s1); Event (answer := reply answer) (QEpochID, s) (otid, s2);
          Event (answer := reply answer) (QExecute [mkTask (group_task threadID otid ps)], s) (inl resp, s3);
          Event (answer := reply answer) (QPortalByKey key, s3) (None, s4); ev] /\
    asked ev = (room_request key (RoomID params), s4) /\
    rows resp "LSIssueNewError" = [] /\ head (rows resp "LSReplaceOptimisticThread") = Some repl /\
    row_int LSReplaceOptimisticThread "ThreadKey1" repl = threadID /\ cc_PortalKey c = key /\
    (forall info, PortalInfo c = Some info -> RoomID params = ""%string /\
       dom (MemberMap (Members info)) = {[LoginID m]} ∪ list_to_set ((fun p => MakeUserID p) <$> ps)).
Proof.
  unfold CreateGroup in H.
  apply sruns_bind in H as (r & s0 & t1 & t2 & -> & (threadID & s1 & -> & -> & ->)%(srun_tell QEpochID) & H). cbn [app].
  apply sruns_bind in H as (r & s0 & t1 & t3 & -> & (otid & s2 & -> & -> & ->)%(srun_tell QEpochID) & H). cbn [app].
  apply sruns_bind in H as (r & s3 & t1 & t4 & -> & (x & -> & ->)%(srun_block (QExecute _)) & H). cbn in x. cbn [app].
  destruct x as [resp|e]; [|by apply sruns_ret in H as (_ & [=] & _)].
  destruct (real_thread threadID resp) as [thread|e] eqn:Er; [|by apply sruns_ret in H as (_ & [=] & _)].
  apply real_thread_spec in Er as (Ee & repl & Eh & E1 & <-). cbv zeta in H.
  apply sruns_bind in H as (r & s4 & t1 & t5 & -> & (x & -> & ->)%(srun_block (QPortalByKey _)) & H). cbn in x. cbn [app].
  destruct x as [e|]; [by apply sruns_ret in H as (_ & [=] & _)|]. apply group_room_spec in H as ((ev & -> & Eev) & Ek & Ei).
  do 9 eexists. cbv zeta. split; [reflexivity|]. split; [exact Eev|]. split; [done|]. split; [exact Eh|]. split; [done|]. split; [done|].
  intros info Hinfo. apply Ei in Hinfo as [-> ->]. split; [done|]. apply group_members_dom.
Qed.

End Groups.

(** ** Searching *)

Section Searching.
Context (has_cookies : bool) (platform : Platform) (avatar_id : string -> option string) (FormatDisplayname : string -> string -> Z -> string).

Definition is_user_of (r : Inst) (u : ResolveResponse) : Prop :=
  rr_UserID u = MakeUserID (search_FBID r) /\ rr_Chat u = None /\
  exists i, wrapUserInfo platform avatar_id FormatDisplayname (search_info r) = Ok i /\ rr_UserInfo u = Some i.

Lemma of_res_Ok {A} (r : res A) s tr a s' : sruns (of_res r) s tr (Ok a) s' -> tr = [] /\ r = Ok a /\ s' = s.
Proof. destruct r as [b|e|[]]; cbn; intros H; [apply sruns_ret in H|apply sruns_throw in H|apply sruns_panic in H..|apply sruns_end in H]; destruct H as (-> & [=] & ->); by subst. Qed.

Lemma found_users_spec l : forall s tr us s', sruns (found_users platform avatar_id FormatDisplayname l) s tr (Ok us) s' ->
  Forall2 is_user_of (List.filter is_chat l) us /\ (fun e => (asked e).1) <$> tr = (fun r => QGhost (MakeUserID (search_FBID r))) <$> List.filter is_chat l.
Proof.
  induction l as [|r l IH]; intros s tr us s'; [by intros (-> & [= ->] & ->)%sruns_ret|]. cbn [found_users List.filter]. destruct (is_chat r); [|apply IH].
  intros (r1 & s1 & t1 & t2 & -> & (g & -> & ->)%(srun_block (QGhost _)) & H)%sruns_bind.
  apply sruns_bind in H as (r2 & s2 & t3 & t4 & -> & H2 & H). destruct r2 as [i| |]; [|by destruct H as (_ & [=] & _)..].
  apply of_res_Ok in H2 as (-> & Ei & ->).
  apply sruns_bind in H as (r3 & s3 & t5 & t6 & -> & H3 & H). destruct r3 as [us'| |]; [|by destruct H as (_ & [=] & _)..].
  apply sruns_ret in H as (-> & [= ->] & ->). apply IH in H3 as [I1 I2]. split; [constructor; [|done]; split_and!; try done; by exists i|].
  rewrite app_nil_r. cbn [app fmap list_fmap]. by rewrite <- I2.
Qed.

(** A search finds the users one can chat with: those of the first answer, in its order,
    with their information; the second search is only sent, and nothing else is asked. *)
Theorem search_finds_chats search s tr us s' (H : sruns (SearchUsers has_cookies platform avatar_id FormatDisplayname search) s tr (Ok (inl us)) s') :
  exists resp s1 s2, let l := List.filter is_chat (rows resp "LSInsertSearchResult") in
    has_cookies = true /\ Forall2 is_user_of l us /\
    (fun e => (asked e).1) <$> tr =
      [QConnected; QGoExecute 10000000 [mkTask (search_task platform search true)]; QExecute [mkTask (search_task platform search false)]] ++
      ((fun r => QGhost (MakeUserID (search_FBID r))) <$> l) /\
    Event (answer := reply answer) (QExecute [mkTask (search_task platform search false)], s1) (inl resp, s2) ∈ tr.
Proof.
  unfold SearchUsers, ready in H. destruct has_cookies; cbn [negb] in H.
  2:{ apply sruns_bind in H as (r & s0 & t1 & t2 & -> & (-> & -> & ->)%sruns_ret & H). by apply sruns_ret in H as (_ & [=] & _). }
  apply sruns_bind in H as (r & s0 & t1 & t2 & -> & H0 & H).
  apply sruns_bind in H0 as (r0 & s1 & t3 & t4 & -> & (c & -> & ->)%(srun_block QConnected) & (-> & -> & ->)%sruns_ret). cbn in c.
  destruct c; [|by apply sruns_ret in H as (_ & [=] & _)].
  apply sruns_bind in H as (r & s2 & t3 & t4 & -> & (u & s3 & -> & -> & ->)%(srun_tell (QGoExecute _ _)) & H).
  apply sruns_bind in H as (r & s4 & t3 & t5 & -> & (x & -> & ->)%(srun_block (QExecute _)) & H). cbn in x.
  destruct x as [resp|e]; [|by apply sruns_ret in H as (_ & [=] & _)].
  apply sruns_bind in H as (r & s5 & t3 & t6 & -> & H5 & H). destruct r as [us'| |]; [|by destruct H as (_ & [=] & _)..].
  apply sruns_ret in H as (-> & [= ->] & ->). apply found_users_spec in H5 as [I1 I2].
  do 3 eexists. cbv zeta. split; [done|]. split; [exact I1|]. split.
  - cbn [app fmap list_fmap asked fst]. by rewrite app_nil_r, <- I2.
  - cbn [app]. right. right. left.
Qed.
End Searching.

(** ** The command *)

Definition replies (tr : trace) : list string := omap (fun e => match (asked e).1 with QReply t => Some t | _ => None end) tr.
Definition saves (tr : trace) : list Req := filter (fun q => match q with QSavePortal => true | _ => false end = true) ((fun e => (asked e).1) <$> tr).

Lemma replies_app t1 t2 : replies (t1 ++ t2) = replies t1 ++ replies t2.
Proof. apply omap_app. Qed.

Definition state_text (meta : Z) : string := if IsWhatsApp meta then on_encrypted else on_unencrypted.

(** The command says what it does: either it refuses, once, and nothing changes and nothing
    is saved, or the chat changes from one kind to the other, the last thing the user is told
    is the kind it now has, and the portal is saved. *)
Theorem toggle_says_what_it_does Mode room args portalID meta s tr meta' s'
    (H : sruns (fnToggleEncryption Mode room args portalID meta) s tr (Ok meta') s') :
  (meta' = meta /\ length (replies tr) = 1%nat /\ saves tr = []) \/
  (IsMessenger Mode = true /\ room = RoomTypeDM /\ IsWhatsApp meta' = negb (IsWhatsApp meta) /\
   last (replies tr) = Some (state_text meta') /\ (fun e => (asked e).1) <$> last tr = Some QSavePortal).
Proof.
  unfold fnToggleEncryption in H. destruct (IsMessenger Mode); cbn [negb] in H.
  2:{ left. apply sruns_bind in H as (r & s0 & t1 & t2 & -> & (x & s1 & -> & -> & ->)%(srun_tell (QReply _)) & (-> & [= ->] & ->)%sruns_ret). done. }
  case_bool_decide as Er; cbn [negb] in H.
  2:{ left. apply sruns_bind in H as (r & s0 & t1 & t2 & -> & (x & s1 & -> & -> & ->)%(srun_tell (QReply _)) & (-> & [= ->] & ->)%sruns_ret). done. }
  apply sruns_bind in H as (r & s0 & t1 & t2 & -> & (e & -> & ->)%(srun_block QFindLogin) & H). cbn in e. destruct e as [e|].
  { left. apply sruns_bind in H as (r & s1 & t1 & t3 & -> & (x & s2 & -> & -> & ->)%(srun_tell (QReply _)) & (-> & [= ->] & ->)%sruns_ret). done. }
  right. apply sruns_bind in H as (r & s1 & t1 & t3 & -> & H1 & H). destruct r as [m1| |]; [|by destruct H as (_ & [=] & _)..].
  apply sruns_bind in H as (r & s2 & t4 & t5 & -> & (x & -> & ->)%(srun_block QSavePortal) & (-> & [= <-] & ->)%sruns_ret).
  split; [done|]. split; [done|].
  enough (IsWhatsApp meta' = negb (IsWhatsApp meta) /\ last (replies t1) = Some (state_text meta')) as [E1 E2].
  { split; [done|]. rewrite app_nil_r. split; [|by rewrite app_assoc, last_snoc]. rewrite !replies_app. cbn [replies omap list_omap asked fst app].
    by rewrite app_nil_r. }
  destruct (IsWhatsApp meta) eqn:Ew.
  - apply sruns_bind in H1 as (r & s4 & t5 & t6 & -> & (x' & s3 & -> & -> & ->)%(srun_tell (QReply _)) & (-> & [= ->] & ->)%sruns_ret). done.
  - apply sruns_bind in H1 as (r & s4 & t5 & t6 & -> & _ & H1). destruct r as [[]| |]; [|by destruct H1 as (_ & [=] & _)..].
    apply sruns_bind in H1 as (r & s5 & t7 & t8 & -> & (x' & s3 & -> & -> & ->)%(srun_tell (QReply _)) & (-> & [= ->] & ->)%sruns_ret).
    split; [done|]. rewrite replies_app. cbn [replies omap list_omap asked fst app]. by rewrite last_snoc.
Qed.

(** * Examples *)

Definition no_ids : Ids := mkIds ∅ ∅ ∅ emptyDB.

(** The server makes every group, as thread 77, and finds one user; ids count up. *)
Definition demo_replaced (threadID : Z) : tables :=
  {["LSReplaceOptimisticThread" := [row_set LSReplaceOptimisticThread "ThreadKey2" (VInt64 77)
     (row_set LSReplaceOptimisticThread "ThreadKey1" (VInt64 threadID) (reflect_New LSReplaceOptimisticThread))]]}.
Definition demo_result (type : Z) (id : string) : Inst :=
  row_set LSInsertSearchResult "ResultId" (VStr id) (row_set LSInsertSearchResult "ThreadType" (VInt64 type)
    (row_set LSInsertSearchResult "CanViewerMessage" (VBool true) (reflect_New LSInsertSearchResult))).
Definition demo_found : tables :=
  {["LSInsertSearchResult" := [demo_result 1 "5"; demo_result 2 "6"; demo_result 1 "x"]]}.

Definition server (found : bool) (fails : bool) (q : Req * Ids) (n : Z) : (answer q.1 * Ids) * Z :=
  match q.1 as q0 return (answer q0 * Ids) * Z with
  | QDatabase => ((if fails then Some (OtherError "database is locked") else None, q.2), n)
  | QConnected => ((true, q.2), n)
  | QExecute _ => ((inl (if found then demo_found else demo_replaced (n - 2)), q.2), n)
  | QExecuteIssued _ => ((inl ∅, q.2), n)
  | QGoExecute _ _ | QReply _ => ((tt, q.2), n)
  | QEpochID => ((n, q.2), n + 1)
  | QNow => ((0, q.2), n)
  | QGhost _ => ((None, q.2), n)
  | QPortalByKey _ => ((None, q.2), n)
  | QUpdateRoom _ _ | QFindLogin | QSavePortal => ((None, q.2), n)
  | QRoomCreated _ _ => ((Some (OtherError "timeout"), q.2), n)
  end%string.

Definition demo_login : Login := mkLogin "9" false false false.

Definition demo_ops : list IdOp := [OPutUser "a" 1; OGetFBID "a"; OGetIG 1; OGetFBID "b"; OPutUser "b" 2; OGetIG 2; OPutThread "t" 8; OGetThread "t"].
Definition demo_user (i : string) : Z := if (i =? "a")%string then 1 else 2.
Definition demo_ids := play (server false false) (run_ops demo_ops no_ids) 0.

Example demo_ids_answers : demo_ids.1.1.1 =
  Ok [AError None; AInt (inl 1); AString (inl "a"%string); AInt (inl 0); AError None; AString (inl "b"%string); AError None; AInt (inl 8)].
Proof. vm_compute. reflexivity. Qed.

Lemma env_ok_alone user thread tr : alone tr -> env_ok user thread tr.
Proof. intros H. eapply Forall_impl; [exact H|]. by intros e ->. Qed.

Lemma no_ids_ok user thread : ids_ok user thread no_ids.
Proof. split; intros i f; cbn; by rewrite lookup_empty. Qed.

Lemma ids_agree_witness : ids_ok demo_user (const 8) demo_ids.1.1.2 /\
  (forall answers, demo_ids.1.1.1 = Ok answers -> Forall2 (right demo_user (const 8)) demo_ops answers).
Proof.
  refine (ids_agree demo_user (const 8) demo_ops no_ids _ _ _ _ _ (play_sruns (server false false) (run_ops demo_ops) no_ids 0) _).
  - repeat constructor.
  - apply no_ids_ok.
  - apply env_ok_alone. vm_compute. repeat constructor.
Defined.

(** A user that is not known leaves the caches with the empty id, which is then found. *)
Example unknown_user_is_cached :
  (play (server false false) (run_ops [OGetIG 7; OGetFBID ""] no_ids) 0).1.1.1 = Ok [AString (inl ""%string); AInt (inl 7)].
Proof. vm_compute. reflexivity. Qed.

Definition twice : IM (option error * option error) := e1 ← putFBIDForIGUser "a" 1; e2 ← putFBIDForIGUser "a" 1; mret (e1, e2).

Lemma failed_save_is_not_retried_witness :
  @None error = None /\ db (play (server false true) (twice no_ids) 0).1.1.2 = emptyDB /\ length (play (server false true) (twice no_ids) 0).1.2 = 1%nat.
Proof.
  refine (failed_save_is_not_retried "a" 1 no_ids _ (OtherError "database is locked") None _ _ (play_sruns (server false true) twice no_ids 0)).
  vm_compute. repeat constructor.
Defined.

Definition demo_group := play (server false false) (CreateGroup demo_login (mkGroupCreateParams ["5"; "6"] "") no_ids) 100.

Example demo_group_members : match demo_group.1.1.1 with
  | Ok (inl c) => option_map (fun i => elements (dom (MemberMap (Members i)))) (PortalInfo c) | _ => None end = Some ["5"; "9"; "6"]%string.
Proof. vm_compute. reflexivity. Qed.

Lemma group_is_the_one_created_witness : exists c, demo_group.1.1.1 = Ok (inl c) /\ cc_PortalKey c = mkPortalKey "77" "".
Proof.
  assert (sruns (CreateGroup demo_login (mkGroupCreateParams ["5"; "6"]%string "")) no_ids demo_group.1.2 demo_group.1.1.1 demo_group.1.1.2) as H
    by exact (play_sruns (server false false) (CreateGroup demo_login (mkGroupCreateParams ["5"; "6"]%string "")) no_ids 100).
  destruct demo_group.1.1.1 as [[c|]| |] eqn:E; [|vm_compute in E; discriminate E..].
  try rewrite E in H. edestruct group_is_the_one_created as (threadID & otid & resp & repl & s1 & s2 & s3 & s4 & ev & _ & _ & _ & _ & _ & Hk & _); [exact H|].
  exists c. split; [done|]. vm_compute in E. injection E as <-. reflexivity.
Defined.

Definition no_avatar (_ : string) : option string := None.
Definition plain_name (name username : string) (id : Z) : string := name.
Definition demo_search := play (server true false) (SearchUsers true Facebook no_avatar plain_name "five" no_ids) 0.

Lemma search_finds_chats_witness : exists us, demo_search.1.1.1 = Ok (inl us) /\ length us = 1%nat /\
  exists resp s1 s2, Event (answer := reply answer) (QExecute [mkTask (search_task Facebook "five" false)], s1) (inl resp, s2) ∈ demo_search.1.2.
Proof.
  assert (sruns (SearchUsers true Facebook no_avatar plain_name "five") no_ids demo_search.1.2 demo_search.1.1.1 demo_search.1.1.2) as H
    by exact (play_sruns (server true false) (SearchUsers true Facebook no_avatar plain_name "five") no_ids 0).
  destruct demo_search.1.1.1 as [[us|]| |] eqn:E; [|vm_compute in E; discriminate E..].
  try rewrite E in H. edestruct search_finds_chats as (resp & s1 & s2 & _ & _ & _ & Hin); [exact H|]. exists us. split; [done|].
  split; [vm_compute in E; injection E as <-; reflexivity|]. by exists resp, s1, s2.
Defined.

Definition demo_toggle := play (server false false) (fnToggleEncryption Messenger RoomTypeDM [] "5" ONE_TO_ONE no_ids) 0.

Lemma toggle_says_what_it_does_witness :
  (ENCRYPTED_OVER_WA_ONE_TO_ONE = ONE_TO_ONE /\ length (replies demo_toggle.1.2) = 1%nat /\ saves demo_toggle.1.2 = []) \/
  (IsMessenger Messenger = true /\ RoomTypeDM = RoomTypeDM /\ IsWhatsApp ENCRYPTED_OVER_WA_ONE_TO_ONE = negb (IsWhatsApp ONE_TO_ONE) /\
   last (replies demo_toggle.1.2) = Some (state_text ENCRYPTED_OVER_WA_ONE_TO_ONE) /\ (fun e => (asked e).1) <$> last demo_toggle.1.2 = Some QSavePortal).
Proof.
  exact (toggle_says_what_it_does Messenger RoomTypeDM [] "5" ONE_TO_ONE no_ids demo_toggle.1.2 ENCRYPTED_OVER_WA_ONE_TO_ONE demo_toggle.1.1.2
    (play_sruns (server false false) (fnToggleEncryption Messenger RoomTypeDM [] "5" ONE_TO_ONE) no_ids 0)).
Defined.

(** With several networks in one bridge no mode is set, and the command refuses every room. *)
Example toggle_without_mode : replies (play (server false false) (fnToggleEncryption Unset RoomTypeDM [] "5" ONE_TO_ONE no_ids) 0).1.2 =
  ["Instagram does not support encryption"%string].
Proof. vm_compute. reflexivity. Qed.
