(* ===== verification/Login.v ===== *)
(** * Login: configuration and login flows ([connector/login.go], [config.go], [connector.go])

    Which login flows a configuration offers, the cookies a flow asks for, and how a login is
    recorded: from cookies, or from the native login of Messenger.  A messagix client is a
    number; what it does is requests. *)

From S2P Require Import Prelude Strconv TableKinds TableMessages Tables Lightspeed WrapMessages Events MetaID Cookies.
From S2P Require Import Errors StartChat.
From S2P Require Import Interaction.
#[local] Open Scope Z_scope.

(** ** Configuration ([config.go]) *)

Record Config := mkConfig {
  RawMode : string; Mode : Platform; RawAllowedModes : list string; AllowedModes : list Platform;
  AllowMessengerComOnFB : bool; Proxy : string; GetProxyFrom : string; DisplaynameTemplate : string
}.

Definition set_modes (mode : Platform) (allowed : list Platform) (c : Config) : Config :=
  mkConfig (RawMode c) mode (RawAllowedModes c) allowed (AllowMessengerComOnFB c) (Proxy c) (GetProxyFrom c) (DisplaynameTemplate c).

Fixpoint allowed_modes (l : list string) : res (list Platform) :=
  match l with
  | [] => Ok []
  | rawMode :: l =>
      let mode := PlatformFromString rawMode in
      if negb (IsValid mode) then Err ("unknown mode in allowed_modes: " ++ in_quotes rawMode)
      else if bool_decide (mode = FacebookTor) then Err "cannot use facebook-tor in allowed_modes, set mode instead"
      else l ← allowed_modes l; Ok (mode :: l)
  end.

(** [template_error] is the error of parsing the template of names. *)
Definition PostProcess (template_error : string -> option string) (c : Config) : res Config :=
  allowed ← allowed_modes (RawAllowedModes c);
  match template_error (DisplaynameTemplate c) with
  | Some e => Err e
  | None => Ok (set_modes (PlatformFromString (RawMode c)) allowed c)
  end.

Definition ValidateConfig (c : Config) : res unit :=
  if bool_decide (Mode c = Unset) && negb (RawMode c =? "")%string then Err ("invalid mode " ++ in_quotes (RawMode c)) else Ok ().

Record BridgeName := mkBridgeName { DisplayName : string; NetworkURL : string; NetworkIcon : string; NetworkID : string; BeeperBridgeType : string }.

(** [GetName] ([connector.go]) *)
Definition GetName (c : Config) : BridgeName :=
  if IsMessenger (Mode c)
  then mkBridgeName "Facebook Messenger" "https://www.facebook.com/messenger" "mxc://maunium.net/ygtkteZsXnGJLJHRchUwYWak" "facebook" "facebookgo"
  else if IsInstagram (Mode c)
  then mkBridgeName "Instagram" "https://instagram.com" "mxc://maunium.net/JxjlbZUlCPULEeHZSwleUXQv" "instagram" "instagramgo"
  else mkBridgeName "Meta" "https://meta.com" "mxc://maunium.net/DxpVrwwzPUwaUSazpsjXgcKB" "meta" "meta".

(** ** Flows ([login.go]) *)

Definition FlowIDFacebookCookies : string := "facebook".
Definition FlowIDMessengerCookies : string := "messenger".
Definition FlowIDInstagramCookies : string := "instagram".
Definition FlowIDMessengerLite : string := "messenger-lite".

Record LoginFlow := mkLoginFlow { flow_Name : string; Description : string; flow_ID : string }.

Definition loginFlowFacebook : LoginFlow := mkLoginFlow "facebook.com" "Login using cookies from facebook.com" FlowIDFacebookCookies.
Definition loginFlowMessenger : LoginFlow := mkLoginFlow "messenger.com" "Login using cookies from messenger.com" FlowIDMessengerCookies.
Definition loginFlowInstagram : LoginFlow := mkLoginFlow "instagram.com" "Login using cookies from instagram.com" FlowIDInstagramCookies.
Definition loginFlowMessengerLite : LoginFlow := mkLoginFlow "Messenger iOS" "Login in using Messenger mobile API" FlowIDMessengerLite.

Definition allowed_flow (mode : Platform) : res LoginFlow :=
  match mode with
  | Facebook => Ok loginFlowFacebook
  | Messenger => Ok loginFlowMessenger
  | Instagram => Ok loginFlowInstagram
  | MessengerLite => Ok loginFlowMessengerLite
  | _ => Panic
  end.

Fixpoint allowed_flows (l : list Platform) : res (list LoginFlow) :=
  match l with [] => Ok [] | mode :: l => f ← allowed_flow mode; fs ← allowed_flows l; Ok (f :: fs) end.

Definition GetLoginFlows (c : Config) : res (list LoginFlow) :=
  match AllowedModes c with
  | _ :: _ => allowed_flows (AllowedModes c)
  | [] =>
      Ok match Mode c with
         | Unset => [loginFlowFacebook; loginFlowMessenger; loginFlowInstagram; loginFlowMessengerLite]
         | Facebook => if AllowMessengerComOnFB c then [loginFlowMessenger; loginFlowFacebook] else [loginFlowFacebook]
         | FacebookTor => [loginFlowFacebook]
         | Messenger => [loginFlowMessenger]
         | Instagram => [loginFlowInstagram]
         | MessengerLite => [loginFlowMessengerLite]
         end
  end.

(** A login in progress: of [MetaCookieLogin] or [MetaNativeLogin]. *)
Variant LoginProcess := CookieLogin (mode : Platform) | NativeLogin (mode : Platform).

Definition CreateLogin (c : Config) (flowID : string) : res LoginProcess :=
  if (flowID =? FlowIDFacebookCookies)%string then Ok (CookieLogin (if bool_decide (Mode c = FacebookTor) then FacebookTor else Facebook))
  else if (flowID =? FlowIDMessengerCookies)%string then Ok (CookieLogin Messenger)
  else if (flowID =? FlowIDInstagramCookies)%string then Ok (CookieLogin Instagram)
  else if (flowID =? FlowIDMessengerLite)%string then Ok (NativeLogin MessengerLite)
  else Err "invalid login flow ID".

Record CookieField := mkCookieField { field_ID : string; Required : bool; CookieDomain : string }.
Record CookieStep := mkCookieStep { URL : string; Fields : list CookieField; WaitForURLPattern : string }.

Definition cookieListToFields (cookies : list string) (domain : string) : list CookieField := (fun c => mkCookieField c true domain) <$> cookies.

Definition Start (mode : Platform) : res CookieStep :=
  match mode with
  | Facebook | FacebookTor =>
      Ok (mkCookieStep "https://www.facebook.com/" (cookieListToFields FBRequiredCookies "facebook.com")
            "^https://www\.facebook\.com/(?:messages/(?:e2ee/)?(?:t/[0-9]+/?)?)?(?:\?.*)?$")
  | Messenger =>
      Ok (mkCookieStep "https://www.messenger.com/?no_redirect=true" (cookieListToFields FBRequiredCookies "messenger.com")
            "^https://www\.messenger\.com/(?:e2ee/)?(?:t/[0-9]+/?)?(?:\?.*)?$")
  | Instagram =>
      Ok (mkCookieStep "https://www.instagram.com/" (cookieListToFields IGRequiredCookies "instagram.com")
            "^https://www\.instagram\.com/(?:direct/(?:inbox/|t/[0-9]+/)?)?(?:\?.*)?$")
  | _ => Err ("unknown mode " ++ Platform_String mode)
  end.

(** ** Users of a page ([types/account.go]) *)

Record CurrentUserInitialData := mkCurrentUser { AccountID : string; cu_Name : string; ShortName : string; NonFacebookUserID : string; IGUserEIMU : string }.
Record PolarisViewer := mkViewer { Fbid : string; FullName : string; Username : string; ProfilePicURL : string; ProfilePicURLHd : string }.

Definition current_user_info (u : CurrentUserInitialData) : UserInfo := mkUserInfo (ShortName u) (cu_Name u) "" (fst (ParseInt 10 (AccountID u))).
Definition viewer_avatar (v : PolarisViewer) : string := if negb (ProfilePicURLHd v =? "")%string then ProfilePicURLHd v else ProfilePicURL v.
Definition viewer_info (v : PolarisViewer) : UserInfo := mkUserInfo (Username v) (FullName v) (viewer_avatar v) (fst (ParseInt 10 (Fbid v))).

(** [ExtractFBID] ([instagram.go]): the last own contact of the table, or the id of the user. *)
Definition verify_int := row_int LSVerifyContactRowExists.
Definition own_contact (id : Z) (r : Inst) : Z :=
  if row_bool LSVerifyContactRowExists "IsSelf" r && negb (verify_int "ContactId" r =? id) then verify_int "ContactId" r else id.

Definition ExtractFBID (user : UserInfo) (cuid : CurrentUserInitialData) (tbl : tables) : res Z :=
  let newFBID := foldl own_contact 0 (rows tbl "LSVerifyContactRowExists") in
  let newFBID :=
    if newFBID =? 0 then
      let id := GetFBID user in
      if (FormatInt 10 id =? NonFacebookUserID cuid)%string && negb (IGUserEIMU cuid =? "")%string then fst (ParseInt 10 (IGUserEIMU cuid)) else id
    else newFBID in
  if newFBID =? 0 then Err "failed to extract fbid" else Ok newFBID.

(** ** Requests *)

(** What the responses to a client's requests do to its cookies: the cookies each sets, with the
    time it came, and its claim. *)
Definition SeenResponse : Type := list (Z * HTTPCookie) * string.
Fixpoint apply_responses (l : list SeenResponse) (c : Cookies) : res Cookies :=
  match l with
  | [] => Ok c
  | (lines, claim) :: l => c ← UpdateFromResponse lines claim c; apply_responses l c
  end.

Record NewLoginData := mkNewLogin { nl_ID : string; nl_RemoteName : string; nl_Platform : Platform; nl_Cookies : Cookies; nl_LoginUA : string }.

Section Flows.
(** A step of the native login that is shown to the user. *)
Context {Step : Type}.
Context (cfg : Config) (provision_UA : string).

Variant LReq :=
| LNewClient (cookies : Cookies)
| LUpdateProxy (c : nat) (reason : string)
| LLoadMessagesPage (c : nat)                        (* the user and the data of a Messenger page, and the responses it took *)
| LNewLogin (l : NewLoginData)
| LTakeClient (c : nat)                              (* the client of the new login, with its handler *)
| LSendConnecting
| LGoConnectWithTable (table : tables) (user : UserInfo)
| LDoLoginSteps (c : nat) (input : option (gmap string string))
| LUpdateCookies (c : nat) (values : gmap string string).

Definition lanswer (q : LReq) : Type :=
  match q with
  | LNewClient _ => nat
  | LUpdateProxy _ _ => bool
  | LLoadMessagesPage _ => ((UserInfo * CurrentUserInitialData * tables) + error) * list SeenResponse
  | LNewLogin _ => option error
  | LTakeClient _ | LSendConnecting | LGoConnectWithTable _ _ | LUpdateCookies _ _ => unit
  | LDoLoginSteps _ _ => (Step + list (string * string)) + (bool * error)   (* whether it is a checkpoint *)
  end.

Abbreviation LM := (M lanswer).
Abbreviation ask q := (Interaction.ask (answer := lanswer) q).

(** What the user is told of a login that failed. *)
Variant LoginError :=
| ErrLoginMissingCookies (names : list string) | ErrLoginChallenge | ErrLoginConsent | ErrLoginCheckpoint | ErrLoginTokenInvalidated
| ErrLoginUnknown (e : error) | LoginFailed (e : error).

Definition page_error (err : error) : LoginError :=
  if err_is err ErrChallengeRequired then ErrLoginChallenge
  else if err_is err ErrCheckpointRequired then ErrLoginCheckpoint
  else if err_is err ErrConsentRequired then ErrLoginConsent
  else if err_is err ErrTokenInvalidated then ErrLoginTokenInvalidated
  else ErrLoginUnknown err.

Record CompleteStep := mkComplete { UserLoginID : string; Instructions : string }.

Definition getMessagixClient (c : Cookies) : LM (nat + LoginError) :=
  client ← ask (LNewClient c);
  if negb (GetProxyFrom cfg =? "")%string || negb (Proxy cfg =? "")%string then
    ok ← ask (LUpdateProxy client "login");
    mret (if ok : bool then inl client else inr (LoginFailed (OtherError "failed to update proxy")))
  else mret (inl client).

(** The id of the user: for Instagram it is extracted. *)
Definition login_id (p : Platform) (user : UserInfo) (cuid : CurrentUserInitialData) (tbl : tables) : res Z :=
  if bool_decide (p = Instagram) then ExtractFBID user cuid tbl else Ok (GetFBID user).

(** [p] is the platform of the client.  The cookies of a cookie login are those of its client
    ([shared]): what the page's responses set is in them when they are recorded.  Those of a
    native login are a copy. *)
Definition loginWithCookies (p : Platform) (client : nat) (shared : bool) (c : Cookies) : LM (CompleteStep + LoginError) :=
  page ← ask (LLoadMessagesPage client);
  let '(r, seen) := page in
  c ← of_res (if shared then apply_responses seen c else Ok c);
  match r with
  | inr err => mret (inr (page_error err))
  | inl (user, cuid, tbl) =>
      match login_id p user cuid tbl with
      | Err e => mret (inr (LoginFailed (Wrap "failed to fetch FBID: " (OtherError e))))
      | Halt h => of_res (Halt h)
      | Ok id =>
          let loginID := MakeUserLoginID id in
          e ← ask (LNewLogin (mkNewLogin loginID (StartChat.GetName user) (Platform_ c) c provision_UA));
          match e with
          | Some e => mret (inr (LoginFailed (Wrap "failed to save new login: " e)))
          | None =>
              _ ← ask (LTakeClient client);
              _ ← ask LSendConnecting;
              _ ← ask (LGoConnectWithTable tbl user);
              mret (inl (mkComplete loginID ("Logged in as " ++ StartChat.GetName user ++ " (" ++ FormatInt 10 id ++ ")")))
          end
      end
  end.

Definition submitted (mode : Platform) (strCookies : gmap string string) : Cookies :=
  UpdateValues strCookies (mkCookies mode None "").

Definition SubmitCookies (mode : Platform) (strCookies : gmap string string) : LM (CompleteStep + LoginError) :=
  let c := submitted mode strCookies in
  match GetMissingCookieNames c with
  | _ :: _ => mret (inr (ErrLoginMissingCookies (GetMissingCookieNames c)))
  | [] =>
      r ← getMessagixClient c;
      match r with
      | inr e => mret (inr e)
      | inl client => loginWithCookies (Platform_ c) client true c
      end
  end.

(** [CreateUserLoginFromCredentials], for credentials that are strings. *)
Definition CreateUserLoginFromCredentials (creds : gmap string string) : LM (option LoginError) :=
  match CreateLogin cfg FlowIDFacebookCookies with
  | Ok (CookieLogin mode) => r ← SubmitCookies mode creds; mret (match r with inr e => Some e | inl _ => None end)
  | Ok (NativeLogin _) => panic
  | Err e => mret (Some (LoginFailed (OtherError e)))
  | Halt h => of_res (Halt h)
  end.

(** ** The native login *)

(** [convertCookies] ([messengerlite.go]) of the names and values of the session cookies. *)
Definition convertCookies (l : list (string * string)) : Cookies :=
  UpdateValues (foldl (fun v kv => <[kv.1 := kv.2]> v) ∅ l) (mkCookies MessengerLite None "").

Variant NativeStep := NShow (s : Step) | NComplete (s : CompleteStep).

Definition proceed (client : nat) (mode : Platform) (input : option (gmap string string)) : LM (NativeStep + LoginError) :=
  r ← ask (LDoLoginSteps client input);
  match r with
  | inr (checkpoint, err) => mret (inr (if checkpoint : bool then ErrLoginCheckpoint else LoginFailed err))
  | inl (inl step) => mret (inl (NShow step))
  | inl (inr session) =>
      let newCookies := convertCookies session in
      _ ← ask (LUpdateCookies client (GetAll newCookies));
      r ← loginWithCookies mode client false newCookies;
      mret (match r with inl s => inl (NComplete s) | inr e => inr e end)
  end.

(** [Start] of a native login: the client is kept for the next steps. *)
Definition native_Start (mode : Platform) : LM ((nat * (NativeStep + LoginError)) + LoginError) :=
  r ← getMessagixClient (mkCookies mode None "");
  match r with
  | inr e => mret (inr e)
  | inl client => r ← proceed client mode None; mret (inl (client, r))
  end.

(** [SubmitUserInput] and [Wait]: without a client they dereference nil. *)
Definition native_continue (mode : Platform) (saved : option nat) (input : option (gmap string string)) : LM (NativeStep + LoginError) :=
  match saved with None => panic | Some client => proceed client mode input end.
End Flows.

(** * Properties *)

(** ** What is offered *)

Definition offered (p : Platform) : Prop := p = Facebook \/ p = Messenger \/ p = Instagram \/ p = MessengerLite.

Lemma allowed_modes_offered l modes : allowed_modes l = Ok modes -> Forall offered modes.
Proof.
  revert modes. induction l as [|r l IH]; intros modes; [intros [= <-]; constructor|]. cbn. unfold IsValid.
  destruct (PlatformFromString r); cbn; try done; destruct (allowed_modes l); cbn; intros [= <-];
    (constructor; [unfold offered; tauto|by apply IH]).
Qed.

Lemma allowed_flows_spec l : Forall offered l -> exists fs, allowed_flows l = Ok fs /\ Forall2 (fun p f => allowed_flow p = Ok f) l fs.
Proof.
  induction 1 as [|p l Hp _ (fs & E & IH)]; [by exists []|]. cbn. rewrite E.
  destruct Hp as [-> | [-> | [-> | -> ] ] ]; cbn; eexists; (split; [reflexivity|constructor; done]).
Qed.

(** A flow that can be started, and what it starts. *)
Definition startable (c : Config) (f : LoginFlow) : Prop :=
  CreateLogin c (flow_ID f) = Ok (NativeLogin MessengerLite) \/
  exists mode step, CreateLogin c (flow_ID f) = Ok (CookieLogin mode) /\ Start mode = Ok step /\
    field_ID <$> Fields step = required (mkCookies mode None "") /\ Forall (fun f => Required f = true) (Fields step) /\
    (mode = FacebookTor <-> Mode c = FacebookTor /\ f = loginFlowFacebook).

Lemma offered_startable c f : f ∈ [loginFlowFacebook; loginFlowMessenger; loginFlowInstagram; loginFlowMessengerLite] -> startable c f.
Proof.
  intros Hf. repeat (apply elem_of_cons in Hf as [->|Hf]); [| | | |by apply not_elem_of_nil in Hf]; unfold startable.
  - right. exists (if bool_decide (Mode c = FacebookTor) then FacebookTor else Facebook). cbn. case_bool_decide as E.
    + eexists. split; [reflexivity|]. split; [reflexivity|]. split; [reflexivity|]. split; [repeat constructor|]. by split.
    + eexists. split; [reflexivity|]. split; [reflexivity|]. split; [reflexivity|]. split; [repeat constructor|]. split; [done|]. by intros [? _].
  - right. exists Messenger. eexists. split; [reflexivity|]. split; [reflexivity|]. split; [reflexivity|]. split; [repeat constructor|].
    split; [done|]. intros [_ E]. discriminate E.
  - right. exists Instagram. eexists. split; [reflexivity|]. split; [reflexivity|]. split; [reflexivity|]. split; [repeat constructor|].
    split; [done|]. intros [_ E]. discriminate E.
  - by left.
Qed.

(** A configuration that is read offers flows without panicking, at least one unless none
    is possible, and every flow it offers can be created and started: it asks for exactly the
    cookies its platform needs, and goes over Tor if and only if the configuration says so. *)
Theorem offered_flows_start template_error raw c (Hc : PostProcess template_error raw = Ok c) :
  exists flows, GetLoginFlows c = Ok flows /\ flows <> [] /\ Forall (startable c) flows.
Proof.
  unfold PostProcess in Hc. destruct (allowed_modes (RawAllowedModes raw)) as [modes| |] eqn:Em; [|done..]. cbn in Hc.
  destruct (template_error _); [done|]. injection Hc as <-. apply allowed_modes_offered in Em.
  unfold GetLoginFlows. cbn [AllowedModes set_modes]. destruct modes as [|p modes].
  - eexists. split; [reflexivity|]. cbn [Mode set_modes]. destruct (PlatformFromString _); cbn; try destruct (AllowMessengerComOnFB raw);
      (split; [done|]); repeat (apply List.Forall_cons); try apply List.Forall_nil; apply offered_startable; repeat constructor; set_solver.
  - destruct (allowed_flows_spec _ Em) as (fs & E & F). exists fs. split; [exact E|]. split; [by destruct fs; [apply Forall2_cons_nil_inv in F|]|].
    clear E. induction F as [|q f l fs Hq F IH]; constructor.
    + apply Forall_cons in Em as [Hp _]. apply offered_startable. destruct Hp as [-> | [-> | [-> | -> ] ] ]; injection Hq as <-; repeat constructor; set_solver.
    + apply Forall_cons in Em as [_ Em]. destruct F; [constructor|]. by apply IH.
Qed.

(** ** What is recorded *)

Section FlowProofs.
Context {Step : Type} (cfg : Config) (provision_UA : string).
Abbreviation LQ := LReq.
Abbreviation ltrace := (list (event (lanswer (Step := Step)))).

Definition logins (tr : ltrace) : list NewLoginData := omap (fun e => match asked e with LNewLogin l => Some l | _ => None end) tr.

(** The login of a page that was loaded. *)
Definition recorded_for (p : Platform) (c : Cookies) (user : UserInfo) (cuid : CurrentUserInitialData) (tbl : tables) (l : NewLoginData) : Prop :=
  exists id, login_id p user cuid tbl = Ok id /\ l = mkNewLogin (MakeUserLoginID id) (StartChat.GetName user) (Platform_ c) c provision_UA.

Lemma run_ask_any q tr (r : res (lanswer (Step := Step) q)) : runs (Interaction.ask q) tr r -> exists x, tr = [Event (answer := lanswer) q x] /\ r = Ok x.
Proof. apply (proj1 (run_ask (answer := lanswer (Step := Step)) q tr r)). Qed.

(** A run of [loginWithCookies]: it fails before it saves, or it saves a login, and only when
    that succeeds does it go on with the client that loaded the page. *)
Lemma login_run p client shared c tr r : runs (loginWithCookies (Step := Step) provision_UA p client shared c) tr r ->
  (exists ev, tr = [ev] /\ asked ev = LLoadMessagesPage client /\ forall s, r <> Ok (inl s)) \/
  exists user cuid tbl seen c' l e t,
    tr = Event (answer := lanswer) (LLoadMessagesPage client) (inl (user, cuid, tbl), seen) :: Event (answer := lanswer) (LNewLogin l) e :: t /\
    (if shared then apply_responses seen c else Ok c) = Ok c' /\ recorded_for p c' user cuid tbl l /\
    match e with
    | Some err => t = [] /\ r = Ok (inr (LoginFailed (Wrap "failed to save new login: " err)))
    | None => asked <$> t = [LTakeClient client; LSendConnecting; LGoConnectWithTable tbl user] /\
              exists s, r = Ok (inl s) /\ UserLoginID s = nl_ID l
    end.
Proof.
  unfold loginWithCookies. intros (r1 & t1 & t2 & -> & (x & -> & ->)%run_ask_any & H)%run_bind. cbn in x.
  destruct x as [x seen]. apply run_bind in H as (r0 & ta & tb & -> & [-> ->] & H). cbn [app].
  destruct (if shared then _ else _) as [c'|e|h] eqn:Ec; [|destruct H as [-> ->]; left; by eexists..].
  destruct x as [[[user cuid] tbl]|err]; [|apply run_ret in H as [-> ->]; left; by eexists].
  destruct (login_id p user cuid tbl) as [id|e|h] eqn:Ei.
  - right. apply run_bind in H as (r2 & t3 & t4 & -> & (e & -> & ->)%run_ask_any & H). cbn in e.
    do 8 eexists. split; [reflexivity|]. split; [exact Ec|]. split; [by exists id|]. destruct e as [err|]; [by apply run_ret in H as [-> ->]|].
    apply run_bind in H as (r3 & t5 & t6 & -> & (u1 & -> & ->)%run_ask_any & H).
    apply run_bind in H as (r4 & t7 & t8 & -> & (u2 & -> & ->)%run_ask_any & H).
    apply run_bind in H as (r5 & t9 & t10 & -> & (u3 & -> & ->)%run_ask_any & H). apply run_ret in H as [-> ->].
    split; [done|]. by eexists.
  - apply run_ret in H as [-> ->]. left. by eexists.
  - destruct H as [-> ->]. left. by eexists.
Qed.

Lemma client_run c tr r : runs (getMessagixClient (Step := Step) cfg c) tr r -> logins tr = [] /\ exists x, r = Ok x.
Proof.
  unfold getMessagixClient. intros (r1 & t1 & t2 & -> & (client & -> & ->)%run_ask_any & H)%run_bind.
  destruct (_ || _); [|by apply run_ret in H as [-> ->]; split; [|eexists]].
  apply run_bind in H as (r2 & t3 & t4 & -> & (ok & -> & ->)%run_ask_any & H). apply run_ret in H as [-> ->]. by split; [|eexists].
Qed.

Lemma logins_app t1 t2 : logins (t1 ++ t2) = logins t1 ++ logins t2.
Proof. apply omap_app. Qed.

Lemma apply_responses_platform l : forall c c', apply_responses l c = Ok c' -> Platform_ c' = Platform_ c.
Proof.
  assert (forall lines c c', apply_cookies lines c = Ok c' -> Platform_ c' = Platform_ c) as Hl.
  { induction lines as [|[now k] lines IH]; intros c c' H; cbn [apply_cookies] in H; [by injection H as <-|].
    apply res_bind_Ok in H as (c1 & H1 & H2). rewrite (IH _ _ H2). unfold apply_cookie, SetCookie, DeleteCookie in H1.
    destruct (_ || _); [|destruct (values c); [|done]]; by injection H1 as <-. }
  induction l as [|[lines claim] l IH]; intros c c' H; cbn [apply_responses] in H; [by injection H as <-|].
  apply res_bind_Ok in H as (c1 & H1 & H2). rewrite (IH _ _ H2). unfold UpdateFromResponse in H1.
  apply res_bind_Ok in H1 as (c2 & H1 & H3). rewrite <- (Hl _ _ _ H1). injection H3 as <-. by destruct (negb _).
Qed.

(** C11. A login from cookies is recorded at most once, and only when every cookie its platform
    needs was given, after a page was loaded with them: under the id of that page's user, with
    the platform it was started for, and with the cookies that were given as the responses of
    that load changed them. *)
Theorem cookie_login_is_recorded mode strCookies tr r (H : runs (SubmitCookies (Step := Step) cfg provision_UA mode strCookies) tr r) :
  logins tr = [] \/
  exists l client user cuid tbl seen c, logins tr = [l] /\
    Event (answer := lanswer (Step := Step)) (LLoadMessagesPage client) (inl (user, cuid, tbl), seen) ∈ tr /\
    apply_responses seen (submitted mode strCookies) = Ok c /\ Platform_ c = mode /\
    recorded_for mode c user cuid tbl l /\
    Forall (fun name => default "" (strCookies !! name) <> ""%string) (required (submitted mode strCookies)).
Proof.
  unfold SubmitCookies in H. destruct (GetMissingCookieNames _) as [|n ns] eqn:Em; [|by apply run_ret in H as [-> _]; left].
  apply run_bind in H as (r1 & t1 & t2 & -> & H1 & H). destruct (client_run _ _ _ H1) as [El [x ->]].
  destruct x as [client|e]; [|apply run_ret in H as [-> _]; left; by rewrite app_nil_r].
  apply login_run in H as [(ev & -> & Ea & _)|(user & cuid & tbl & seen & c & l & e & t & -> & Hc & Hl & Hr)].
  - left. rewrite logins_app, El. unfold logins. cbn. by rewrite Ea.
  - right. exists l, client, user, cuid, tbl, seen, c. rewrite logins_app, El. split.
    + unfold logins. cbn. f_equal. destruct e; [by destruct Hr as [-> _]|]. destruct Hr as [Ht _].
      destruct t as [|e1 [|e2 [|e3 [|]]]]; try discriminate Ht. injection Ht as E1 E2 E3. cbn. by rewrite E1, E2, E3.
    + split; [apply elem_of_app; right; left|]. split; [exact Hc|]. split; [exact (apply_responses_platform _ _ _ Hc)|]. split; [exact Hl|]. apply List.Forall_forall. intros name Hn Hv.
      assert (List.In name (GetMissingCookieNames (submitted mode strCookies))) as Hin; [|by rewrite Em in Hin].
      unfold GetMissingCookieNames. apply List.filter_In. split; [done|]. unfold Get. cbn. by rewrite Hv.
Qed.
End FlowProofs.

(** ** Ids *)

(** The id of an Instagram user is one of the page: an own contact of its table when there
    is one with an id, else what the page says of its user; it is never zero. *)
Theorem extracted_id_is_own user cuid tbl id (H : ExtractFBID user cuid tbl = Ok id) :
  id <> 0 /\
  ((exists r, r ∈ rows tbl "LSVerifyContactRowExists" /\ row_bool LSVerifyContactRowExists "IsSelf" r = true /\ verify_int "ContactId" r = id) \/
   ((forall r, r ∈ rows tbl "LSVerifyContactRowExists" -> row_bool LSVerifyContactRowExists "IsSelf" r = true -> last (rows tbl "LSVerifyContactRowExists") = Some r -> verify_int "ContactId" r = 0) /\
    (id = GetFBID user \/ id = fst (ParseInt 10 (IGUserEIMU cuid))))).
Proof.
  unfold ExtractFBID in H. set (l := rows tbl _) in *. cbv zeta in H.
  assert (forall l0 a, foldl own_contact a l0 = a \/ exists r, r ∈ l0 /\ row_bool LSVerifyContactRowExists "IsSelf" r = true /\ verify_int "ContactId" r = foldl own_contact a l0) as Hfold.
  { induction l0 as [|r l0 IH]; intros a; [by left|]. cbn [foldl]. destruct (IH (own_contact a r)) as [E|(r' & Hr' & Hs)].
    - rewrite E. unfold own_contact. destruct (row_bool _ _ r) eqn:Eb; cbn [andb]; [|by left]. destruct (_ =? a); cbn [negb]; [by left|].
      right. exists r. split; [left|done].
    - right. exists r'. split; [by right|done]. }
  destruct (Z.eqb_spec (foldl own_contact 0 l) 0) as [E0|E0].
  - match type of H with (if ?x =? 0 then _ else _) = _ => destruct (Z.eqb_spec x 0) as [E|E]; [done|]; injection H as H end.
    rewrite H in E. split; [done|]. right. split; [|destruct (_ && _) in H; auto].
    intros r _ Hs Hl. apply last_Some in Hl as [l' El]. rewrite El, foldl_app in E0. cbn [foldl] in E0. unfold own_contact in E0 at 1. rewrite Hs in E0.
    cbn [andb] in E0. destruct (Z.eqb_spec (verify_int "ContactId" r) (foldl own_contact 0 l')) as [E1|E1]; cbn [negb] in E0; congruence.
  - destruct (Z.eqb_spec (foldl own_contact 0 l) 0); [done|]. injection H as <-. split; [done|]. left. by destruct (Hfold l 0).
Qed.

(** * Examples *)

Definition raw_config : Config := mkConfig "" Unset ["instagram"; "messenger-lite"]%string [] false "" "" "{{.DisplayName}}".
Definition demo_config : Config := set_modes Unset [Instagram; MessengerLite] raw_config.

Lemma offered_flows_start_witness : exists flows, GetLoginFlows demo_config = Ok flows /\ flows <> [] /\ Forall (startable demo_config) flows.
Proof. apply (offered_flows_start (const None) raw_config demo_config). reflexivity. Defined.

(** A page whose user has the id [id]; everything succeeds. *)
Definition demo_page (account : string) : UserInfo * CurrentUserInitialData * tables :=
  let u := mkCurrentUser account "Someone" "some" "" "" in (current_user_info u, u, ∅).
Definition demo_cookies : list (Z * HTTPCookie) := [(0, mkHTTPCookie "xs" "renewed" 1 1)].
Definition page_env (account : string) (q : LReq) (x : unit) : lanswer (Step := unit) q * unit :=
  match q as q0 return lanswer q0 * unit with
  | LNewClient _ => (0%nat, x)
  | LUpdateProxy _ _ => (true, x)
  | LLoadMessagesPage _ => ((inl (demo_page account), [(demo_cookies, ""%string)]), x)
  | LNewLogin _ => (None, x)
  | LTakeClient _ | LSendConnecting | LGoConnectWithTable _ _ | LUpdateCookies _ _ => (tt, x)
  | LDoLoginSteps _ _ => (inl (inl tt), x)
  end.

Definition demo_values : gmap string string := {["xs" := "1"; "c_user" := "100"; "datr" := "2"]}.
Definition demo_submit (account : string) := play (page_env account) (SubmitCookies (Step := unit) demo_config "UA" Facebook demo_values) ().

Example demo_submit_login : nl_ID <$> logins (demo_submit "100").1.2 = ["100"%string].
Proof. vm_compute. reflexivity. Qed.

Lemma demo_submit_runs : runs (SubmitCookies (Step := unit) demo_config "UA" Facebook demo_values) (demo_submit "100").1.2 (demo_submit "100").1.1.
Proof. apply play_runs. Qed.

(** The page renews one of the cookies; what is recorded is the new one. *)
Example renewed_cookie : (fun l => values (nl_Cookies l)) <$> logins (demo_submit "100").1.2 = [Some {["xs" := "renewed"; "c_user" := "100"; "datr" := "2"]}].
Proof. vm_compute. reflexivity. Qed.

Lemma cookie_login_is_recorded_witness : exists l client user cuid tbl seen c,
  logins (demo_submit "100").1.2 = [l] /\
  Event (answer := lanswer (Step := unit)) (LLoadMessagesPage client) (inl (user, cuid, tbl), seen) ∈ (demo_submit "100").1.2 /\
  apply_responses seen (submitted Facebook demo_values) = Ok c /\ recorded_for "UA" Facebook c user cuid tbl l.
Proof.
  destruct (cookie_login_is_recorded demo_config "UA" Facebook demo_values _ _ demo_submit_runs)
    as [E|(l & client & user & cuid & tbl & seen & c & E & Hin & Hc & _ & Hl & _)].
  - exfalso. vm_compute in E. discriminate E.
  - by exists l, client, user, cuid, tbl, seen, c.
Defined.

(** A page without the user's data counts as one that is logged in; its login has no id. *)
Example login_without_id : nl_ID <$> logins (demo_submit "").1.2 = [""%string].
Proof. vm_compute. reflexivity. Qed.

Definition own_row : Inst :=
  row_set LSVerifyContactRowExists "IsSelf" (VBool true) (row_set LSVerifyContactRowExists "ContactId" (VInt64 17) (reflect_New LSVerifyContactRowExists)).
Definition own_table : tables := {["LSVerifyContactRowExists" := [own_row]]}.
Definition no_user : CurrentUserInitialData := mkCurrentUser "" "" "" "" "".

Lemma extracted_id_is_own_witness : 17 <> 0 /\
  ((exists r, r ∈ rows own_table "LSVerifyContactRowExists" /\ row_bool LSVerifyContactRowExists "IsSelf" r = true /\ verify_int "ContactId" r = 17) \/
   ((forall r, r ∈ rows own_table "LSVerifyContactRowExists" -> row_bool LSVerifyContactRowExists "IsSelf" r = true -> last (rows own_table "LSVerifyContactRowExists") = Some r -> verify_int "ContactId" r = 0) /\
    (17 = GetFBID (current_user_info no_user) \/ 17 = fst (ParseInt 10 (IGUserEIMU no_user))))).
Proof. apply (extracted_id_is_own (current_user_info no_user) no_user own_table 17). vm_compute. reflexivity. Defined.
