(* ===== verification/PageModules.v ===== *)
(** * PageModules: what is read from a page ([messagix/js_module_parser.go], [modules.go])

    A page of Meta is HTML whose scripts carry JSON documents.  Loading one fills the client's
    configuration: a table of documents by name, the bitmaps of resources, the version of the
    LightSpeed procedures, and the initial tables.  The HTML parser, the JSON decoder and
    regular expressions are parameters: a decoder for a Go type gives the parts of the document
    that are used, a nil pointer is [None], and documents that are kept raw are strings.
    Fetching is a request ([Stateful]). *)

From Stdlib Require Import Ascii SpecFloat.
From S2P Require Import Prelude Strconv Text Lightspeed TableKinds TableThreads TableMessages Tables WrapMessages Events Cookies.
From S2P Require Bitmap.
From S2P Require Import Errors Interaction Stateful.
#[local] Open Scope Z_scope.

(** ** Strings *)

(** [strings.Split] by a separator that is not empty: the first piece and the others. *)
Fixpoint split_str (sep : string) (skip : nat) (s : string) : string * list string :=
  match s with
  | "" => (""%string, [])
  | String c r =>
      match skip with
      | S k => split_str sep k r
      | O => if HasPrefix s sep then let '(p, l) := split_str sep (String.length sep - 1) r in (""%string, p :: l)
             else let '(p, l) := split_str sep 0 r in (String c p, l)
      end
  end.

Definition strings_Split (s sep : string) : list string := let '(p, l) := split_str sep 0 s in p :: l.

(** The n-th piece; the source indexes without a check. *)
Definition nth_piece (n : Z) (l : list string) : res string := index l n.

(** [s[n:]] and [s[:len(s)-n]]. *)
Definition drop_str (n : Z) (s : string) : res string := if slen s <? n then Panic else Ok (str_from n s).
Definition chop_str (n : Z) (s : string) : res string := if slen s <? n then Panic else Ok (str_to (slen s - n) s).

(** ** HTML *)

Inductive Node := mkNode { is_element : bool; Data : string; Attr : list (string * string); children : list Node }.

(** The elements with a tag, in the order of the document. *)
Fixpoint findTags (tag : string) (n : Node) : list Node :=
  (if is_element n && (Data n =? tag)%string then [n] else []) ++
  (fix go (l : list Node) : list Node := match l with [] => [] | c :: l => findTags tag c ++ go l end) (children n).

(** The attributes as a map, where the last of a name wins. *)
Definition AttributeMap (n : Node) : gmap string string := foldl (fun m kv => <[kv.1 := kv.2]> m) ∅ (Attr n).

Record ScriptTag := mkScriptTag { Attributes : gmap string string; Content : string }.

Definition script_tag (n : Node) : ScriptTag :=
  let content := match children n with c :: _ => Data c | [] => ""%string end in
  mkScriptTag (AttributeMap n) (ReplaceAll content ",BootloaderConfig" ",").

Definition findScriptTags (n : Node) : list ScriptTag := script_tag <$> findTags "script" n.
Definition findLinkTags (n : Node) : list (gmap string string) := AttributeMap <$> findTags "link" n.

Definition attribute (name : string) (m : gmap string string) : string := default "" (m !! name).

(** ** Documents *)

(** An entry of [require] or [define]: a name and raw documents. *)
Record ModuleEntry := mkEntry { Name : string; entry_Data : list string }.

(** A [BBox] before its entries are decoded: [None] is [null]. *)
Record RawBBox := mkRawBBox { raw_Require : list (option string); raw_Define : list (option string) }.
Record BBox := mkBBox { Require_ : list (option ModuleEntry); Define_ : list (option ModuleEntry) }.

(** The program of a LightSpeed payload and the names of its procedures. *)
Record LightspeedWebRequest := mkWebRequest { Dependencies : list Dependency; ls_Payload : string }.
Record LSQuery := mkLSQuery { ForIG : option LightspeedWebRequest; ForViewer : option LightspeedWebRequest }.

(** What a bootloader payload adds to the bitmap of resources; the resources of a map come in
    any order. *)
Record HandlePayload := mkHandlePayload { CsrUpgrade : string; RsrcMap : list (Z * string) }.

(** A preloader of [CometPlatformRootClient]: its id and its variables. *)
Record Preloader := mkPreloader { PreloaderID : string; Variables : string }.

(** ** State and requests *)

Section Modules.
(** The value of a field of the configuration table. *)
Context {F : Type}.

Record Page := mkPage {
  VersionID : Z; RoutingNamespace : string; Jazoest : string; CometReq : string;
  BMap : list Z; CSRMap : list Z; configs : gmap string F; LS : tables; JSDatr : string
}.

Definition set_VersionID (x : Z) (p : Page) : Page := mkPage x (RoutingNamespace p) (Jazoest p) (CometReq p) (BMap p) (CSRMap p) (configs p) (LS p) (JSDatr p).
Definition set_Routing (x : string) (p : Page) : Page := mkPage (VersionID p) x (Jazoest p) (CometReq p) (BMap p) (CSRMap p) (configs p) (LS p) (JSDatr p).
Definition set_Ajax (x y : string) (p : Page) : Page := mkPage (VersionID p) (RoutingNamespace p) x y (BMap p) (CSRMap p) (configs p) (LS p) (JSDatr p).
Definition add_BMap (x : Z) (p : Page) : Page := mkPage (VersionID p) (RoutingNamespace p) (Jazoest p) (CometReq p) (BMap p ++ [x]) (CSRMap p) (configs p) (LS p) (JSDatr p).
Definition add_CSR (l : list Z) (p : Page) : Page := mkPage (VersionID p) (RoutingNamespace p) (Jazoest p) (CometReq p) (BMap p) (CSRMap p ++ l) (configs p) (LS p) (JSDatr p).
Definition set_config (n : string) (x : F) (p : Page) : Page := mkPage (VersionID p) (RoutingNamespace p) (Jazoest p) (CometReq p) (BMap p) (CSRMap p) (<[n := x]> (configs p)) (LS p) (JSDatr p).
Definition set_LS (x : tables) (p : Page) : Page := mkPage (VersionID p) (RoutingNamespace p) (Jazoest p) (CometReq p) (BMap p) (CSRMap p) (configs p) x (JSDatr p).
Definition set_JSDatr (x : string) (p : Page) : Page := mkPage (VersionID p) (RoutingNamespace p) (Jazoest p) (CometReq p) (BMap p) (CSRMap p) (configs p) (LS p) x.

Variant PReq := QFetchPage (url : string) | QFetchScript (url : string).
Definition panswer (q : PReq) : Type := (string + error)%type.

Abbreviation PM := (SM Page panswer).

Definition of_res {A} (r : res A) : PM A :=
  match r with Ok a => mret a | Err e => sthrow e | Halt HDiverge => spin | Halt _ => spanic end.

(** Go's [if err != nil { return err }], and the same with a text. *)
Definition next (m k : PM (option error)) : PM (option error) := e ← m; match e with Some e => mret (Some e) | None => k end.
Definition wrap (text : string) (m : PM (option error)) : PM (option error) := e ← m; mret (Wrap text <$> e).
Definition paren (text : string) (e : error) : error := WrapSuffix (Wrap text e) ")".
Definition ok : PM (option error) := mret None.
Definition fail (e : error) : PM (option error) := mret (Some e).

Fixpoint each {A} (f : A -> PM (option error)) (l : list A) : PM (option error) :=
  match l with [] => ok | x :: l => next (f x) (each f l) end.

(** Decoders of the library, for the types they are used at. *)
Context (U_raws : string -> list string + string)              (* []json.RawMessage *)
        (U_string : string -> string + string) (U_int : string -> Z + string)
        (U_names : string -> list string + string)             (* []string *)
        (U_entries : string -> list (option string) + string)  (* []*ModuleEntry *)
        (U_bbox : string -> option RawBBox + string)           (* *BBox *)
        (U_container : string -> option RawBBox + string)      (* BBoxContainer.__bbox *)
        (U_bigpipe : string -> option (option RawBBox) + string)
        (U_envjson : string -> string + string)                (* EnvJSON.routing_namespace *)
        (U_eqmc : string -> string + string)                   (* Eqmc.u *)
        (U_preloaders : string -> list (option Preloader) + string)
        (U_variables : string -> string + string)              (* Variables.requestPayload *)
        (U_lsversion : string -> option Z + string)            (* *LSPlatformGraphQLLightspeedVariables *)
        (U_rpsc : string -> option (option string) + string)   (* RPSCBBoxContainer.__bbox.result *)
        (U_lsquery : string -> option (option LSQuery) + string)
        (U_lightspeed : string -> json + string)               (* LightSpeedData.step *)
        (U_payloads : string -> list (option HandlePayload) + string).
(** A query string of a URL; a path of gjson in a document; a JavaScript object as JSON;
    regular expressions. *)
Context (ajax_query : string -> (string -> string) + string) (gjson_preloaders : string -> option string) (PreprocessJSObject : string -> string)
        (find_js_datr : string -> option string) (find_version : string -> option string).
(** Decoding into a field of the configuration table, whose value it changes even if it fails;
    what the table says of the resources and of the user. *)
Context (decode_field : string -> F -> string -> F * option string) (PhdOn authenticated : gmap string F -> bool).
Context (html_Parse : string -> Node + string).
Context (now : nat -> Z) (slack : nat -> nat) (fmt_float : spec_float -> string).
Context (platform : Platform) (has_cookies : bool).

(** ** Entries *)

Definition ModuleEntry_UnmarshalJSON (data : string) : res ModuleEntry :=
  match U_raws data with
  | inr e => Err e
  | inl [] => Panic
  | inl (n :: rest) =>
      match U_string n with
      | inr e => Err ("failed to unmarshal ssjs entry name: " ++ e)
      | inl name => Ok (mkEntry name rest)
      end
  end.

(** The decoder goes on after an entry that fails, and reports the first failure. *)
Fixpoint decode_entries (l : list (option string)) : res (list (option ModuleEntry)) :=
  match l with
  | [] => Ok []
  | None :: l => r ← decode_entries l; Ok (None :: r)
  | Some d :: l =>
      match ModuleEntry_UnmarshalJSON d, decode_entries l with
      | Halt h, _ | _, Halt h => Halt h
      | Err e, _ | _, Err e => Err e
      | Ok e, Ok r => Ok (Some e :: r)
      end
  end.

Definition decode_bbox (b : RawBBox) : res BBox :=
  match decode_entries (raw_Require b), decode_entries (raw_Define b) with
  | Halt h, _ | _, Halt h => Halt h
  | Err e, _ | _, Err e => Err e
  | Ok r, Ok d => Ok (mkBBox r d)
  end.

(** A document decoded by [u], then its entries. *)
Definition unmarshal_bbox (u : option RawBBox + string) : res (option BBox) :=
  match u with
  | inr e => Err e
  | inl None => Ok None
  | inl (Some b) => b ← decode_bbox b; Ok (Some b)
  end.

(** The error of a decoder, as a value. *)
Definition try {A} (r : res A) : PM (A + string) :=
  match r with Ok a => mret (inl a) | Err e => mret (inr e) | Halt HDiverge => spin | Halt _ => spanic end.

(** A pointer to an entry, which must not be nil. *)
Definition entry (e : option ModuleEntry) : PM ModuleEntry := match e with Some e => mret e | None => spanic end.

(** ** Configuration ([modules.go]) *)

Definition handleConfigData (configData : option ModuleEntry) : PM (option error) :=
  c ← entry configData;
  match entry_Data c with
  | _ :: d1 :: d2 :: _ =>
      match U_int d2 with
      | inr e => fail (Wrap ("failed to parse config id from config data " ++ Name c ++ ": ") (OtherError e))
      | inl configID =>
          if configID <=? 0 then ok
          else
            modify (add_BMap configID);;
            t ← gets configs;
            match t !! Name c with
            | None => ok
            | Some old =>
                let '(x, e) := decode_field (Name c) old d1 in
                modify (set_config (Name c) x);;
                match e with
                | Some e => fail (Wrap ("failed to parse config data " ++ Name c ++ ": ") (OtherError e))
                | None => ok
                end
            end
      end
  | _ => ok
  end.

Definition HandleRawJSON (data id : string) : PM (option error) :=
  if (id =? "envjson")%string then
    match U_envjson data with
    | inr e => fail (Wrap "failed to parse data from types.EnvJSON: " (OtherError e))
    | inl r => modify (set_Routing r);; ok
    end
  else if (id =? "__eqmc")%string then
    match U_eqmc data with
    | inr e => fail (Wrap "failed to parse data from types.Eqmc: " (OtherError e))
    | inl u =>
        match ajax_query u with
        | inr e => fail (Wrap "failed to parse ajax url data from types.Eqmc: " (OtherError e))
        | inl q => modify (set_Ajax (q "jazoest") (q "__comet_req"))%string;; ok
        end
    end
  else ok.

Definition parseGraphMethodName (name : string) : res string := nth_piece 0 (strings_Split (ReplaceAll name "adp_" "") "RelayPreloader_").

(** The program of a page is run on its tables. *)
Definition run_lightspeed (r : LightspeedWebRequest) : PM (option error) :=
  if (ls_Payload r =? "")%string then ok
  else
    match U_lightspeed (ls_Payload r) with
    | inr e => fail (Wrap "messagix-moduleparser: failed to marshal lsPayloadStr into LightSpeedData: " (OtherError e))
    | inl steps =>
        t ← gets LS;
        x ← of_res (Decode (ToMap (Dependencies r)) LSTable now slack fmt_float (jsize steps) steps (NewLightSpeedDecoder t));
        modify (set_LS (table x.2));;
        ok
    end.

(** A query's answer: the pointers to the document and to its data are not checked. *)
Definition ls_answer (text data : string) (get : LSQuery -> option LightspeedWebRequest) : PM (option error) :=
  match U_lsquery data with
  | inr e => fail (Wrap text (OtherError e))
  | inl (Some (Some q)) => match get q with None => ok | Some r => run_lightspeed r end
  | inl _ => spanic
  end.

Definition handleLightSpeedQLRequest (data parserFunc : string) : PM (option error) :=
  if (parserFunc =? "LSPlatformGraphQLLightspeedRequestForIGDQuery")%string then
    ls_answer "messagix-moduleparser: failed to parse LightSpeedQLRequest data from html (INSTAGRAM): " data ForIG
  else if (parserFunc =? "LSPlatformGraphQLLightspeedRequestQuery")%string then
    ls_answer "messagix-moduleparser: failed to parse LightSpeedQLRequest data from html (FACEBOOK): " data ForViewer
  else ok.

(** The version is that of the first request for LightSpeed data. *)
Fixpoint preloaded_version (l : list (option Preloader)) : PM (option error) :=
  match l with
  | [] => ok
  | None :: _ => spanic
  | Some r :: l =>
      if negb (HasPrefix (PreloaderID r) "adp_LSPlatformGraphQLLightspeedRequest") then preloaded_version l
      else
        match U_variables (Variables r) with
        | inr e => fail (Wrap "failed to parse graphql lightspeed preload request variables: " (OtherError e))
        | inl payload =>
            match U_lsversion payload with
            | inr e => fail (Wrap "failed to parse graphql lightspeed preload request payload: " (OtherError e))
            | inl None => spanic
            | inl (Some v) => modify (set_VersionID v);; ok
            end
        end
  end.

(** The requests a [CometPlatformRootClient] expects, [None] when it is of an unknown kind. *)
Definition expected_preloaders (d : list string) : PM (option string + error) :=
  d0 ← of_res (index d 0);
  match U_string d0 with
  | inr e => mret (inr (Wrap "failed to parse comet type from CometPlatformRootClient: " (OtherError e)))
  | inl cometType =>
      d2 ← of_res (index d 2);
      if (cometType =? "init")%string then
        mret match U_raws d2 with
             | inr e => inr (Wrap "failed to parse inner array from CometPlatformRootClient: " (OtherError e))
             | inl inner => match inner !! 4%nat with
                            | Some x => inl (Some x)
                            | None => inr (OtherError "inner array from CometPlatformRootClient init has less than 5 elements")
                            end
             end
      else if (cometType =? "initialize")%string then mret (inl (gjson_preloaders d2))
      else mret (inl None)
  end.

Definition handleRequire (data : option ModuleEntry) : PM (option error) :=
  c ← entry data;
  let name := if HasPrefix (Name c) "CometPlatformRootClient@" then "CometPlatformRootClient"%string else Name c in
  if (name =? "CometPlatformRootClient")%string then
    r ← expected_preloaders (entry_Data c);
    match r with
    | inr e => fail e
    | inl None => ok
    | inl (Some x) =>
        match U_preloaders x with
        | inr e => fail (Wrap "failed to parse graphql preload requests from CometPlatformRootClient: " (OtherError e))
        | inl l => preloaded_version l
        end
    end
  else if (name =? "RelayPrefetchedStreamCache")%string then
    match entry_Data c with
    | _ :: _ :: d2 :: _ =>
        match U_raws d2 with
        | inr e => fail (Wrap "failed to unmarshal RelayPrefetchedStreamCache array: " (OtherError e))
        | inl (id :: bbox :: _) =>
            match U_string id, U_rpsc bbox with
            | inr e, _ => fail (Wrap "failed to unmarshal PreloadID for RelayPrefetchedStreamCache: " (OtherError e))
            | _, inr e => fail (Wrap "failed to unmarshal BBox for RelayPrefetchedStreamCache: " (OtherError e))
            | inl id, inl (Some (Some result)) =>
                f ← of_res (parseGraphMethodName id);
                handleLightSpeedQLRequest result f
            | inl _, inl _ => spanic
            end
        | inl _ => fail (OtherError "RelayPrefetchedStreamCache array has less than 2 elements")
        end
    | _ => ok
    end
  else ok.

(** A document of the page: a list of definitions, or a box; [data[0]] of an empty one. *)
Definition SSJSHandle (data : string) : PM (option error) :=
  match data with
  | "" => spanic
  | String "[" rest =>
      r ← try (match U_entries data with inr e => Err e | inl l => decode_entries l end);
      match r with
      | inr e =>
          match rest with
          | "" => spanic
          | String c _ => if bool_decide (c = "034"%char) then ok
                          else fail (Wrap "failed to unmarshal ssjs data into default_define module entries: " (OtherError e))
          end
      | inl entries => each (fun e => wrap "error handling ssjs default define: " (handleConfigData e)) entries
      end
  | _ =>
      r ← try (unmarshal_bbox (U_container data));
      match r with
      | inr e => fail (Wrap "failed to unmarshal ssjs data into bbox container: " (OtherError e))
      | inl None => ok
      | inl (Some b) =>
          next (each (fun e => wrap "error handling ssjs require: " (handleRequire e)) (Require_ b))
               (each (fun e => wrap "error handling ssjs define: " (handleConfigData e)) (Define_ b))
      end
  end.

(** The numbers of [":1,2,3"], without zeros. *)
Definition csr_error (b : string) (e : NumError) : string :=
  "messagix-moduleparser: failed to parse csrbit: strconv.ParseInt: parsing " ++ in_quotes b ++ ": " ++
  match e with ErrSyntax => "invalid syntax" | ErrRange => "value out of range" end.

Fixpoint csr_bits (l : list string) : res (list Z) :=
  match l with
  | [] => Ok []
  | b :: l =>
      match ParseInt 10 b with
      | (n, None) => if (n <? - 2 ^ 31) || (n >=? 2 ^ 31) then Err (csr_error b ErrRange)
                     else r ← csr_bits l; Ok (if n =? 0 then r else n :: r)
      | (_, Some e) => Err (csr_error b e)
      end
  end.

Definition parseCSRBit (s : string) : res (list Z) := s ← drop_str 1 s; csr_bits (Split "," s).

Definition add_bits (s : string) : PM (option error) :=
  r ← try (parseCSRBit s);
  match r with inr e => fail (OtherError e) | inl l => modify (add_CSR l);; ok end.

Definition wanted (phd : bool) (C : Z) : bool := if phd then C =? 2 else negb (C =? 0).

Definition handle_payload (data : option HandlePayload) : PM (option error) :=
  match data with
  | None => spanic
  | Some d =>
      phd ← gets (PhdOn ∘ configs);
      next (if negb (CsrUpgrade d =? "")%string then add_bits (CsrUpgrade d) else ok)
        (each (fun v => if wanted phd v.1 then add_bits v.2 else ok) (RsrcMap d))
  end.

Definition HandleBootloaderPayload (payload : string) : PM (option error) :=
  match U_payloads payload with inr e => fail (OtherError e) | inl l => each handle_payload l end.

(** ** Scripts ([js_module_parser.go]) *)

Definition handleModule (data : option ModuleEntry) : PM (option error) :=
  c ← entry data;
  match entry_Data c with
  | d0 :: _ :: d2 :: _ =>
      if (Name c =? "ScheduledServerJS")%string || (Name c =? "ScheduledServerJSWithCSS")%string then
        if negb (d0 =? in_quotes "handle")%string then fail (OtherError ("unexpected SSJS command " ++ d0))
        else match U_raws d2 with
             | inr e => fail (Wrap "failed to unmarshal ssjs list: " (OtherError e))
             | inl datas => each (fun d => wrap "failed to handle serverjs module: " (SSJSHandle d)) datas
             end
      else if (Name c =? "Bootloader")%string then
        if negb (d0 =? in_quotes "handlePayload")%string then fail (OtherError ("unexpected Bootloader command " ++ d0))
        else wrap "failed to handle bootloader payload: " (HandleBootloaderPayload d2)
      else ok
  | _ => fail (OtherError ("module " ++ Name c ++ " has less than 3 data elements"))
  end.

(** The third document of a definition. *)
Definition handle_define (text : string) (d : option ModuleEntry) : PM (option error) :=
  c ← entry d;
  d2 ← of_res (index (entry_Data c) 2);
  e ← SSJSHandle d2;
  mret (paren text <$> e).

Definition define_all (text : string) (b : option BBox) : PM (option error) :=
  match b with None => spanic | Some b => each (handle_define text) (Define_ b) end.

(** What stands between two texts of a script. *)
Definition between (data sep : string) (n : Z) : res string :=
  x ← nth_piece n (strings_Split data sep);
  nth_piece 0 (strings_Split x ");requireLazy").

Definition haste_error : string := "messagix-moduleparser: failed to handle hastesupportdata module (".
Definition server_error : string := "messagix-moduleparser: failed to handle serverjs module (".

Definition lazy_bigpipe (data : string) : PM (option error) :=
  if slen data <? 5000 then ok
  else
    x ← of_res (between data "bigPipe.onPageletArrive(" 1);
    x ← of_res (chop_str 6 x);
    let handleData := PreprocessJSObject x in
    match U_bigpipe handleData with
    | inr e => fail (paren "messagix-moduleparser: failed to unmarshal BigPipe data (" (OtherError e))
    | inl None => spanic
    | inl (Some mods) =>
        r ← try (unmarshal_bbox (inl mods));
        match r with
        | inr e => fail (paren "messagix-moduleparser: failed to unmarshal BigPipe data (" (OtherError e))
        | inl b =>
            next (define_all server_error b)
              (if has_cookies then ok
               else match find_js_datr handleData with Some m => modify (set_JSDatr m);; ok | None => ok end)
        end
    end.

Definition lazy_handle (text : string) (x : string) : PM (option error) :=
  r ← try (unmarshal_bbox (U_bbox x));
  match r with
  | inr e => fail (paren "messagix-moduleparser: failed to unmarshal handleData[0] into struct *ModuleData (" (OtherError e))
  | inl b => define_all text b
  end.

Definition lazy_module (data mName : string) : PM (option error) :=
  if (mName =? "__bigPipe")%string then lazy_bigpipe data
  else if (mName =? "ServerJS")%string then
    x ← of_res (between data ".handle({" 1);
    lazy_handle server_error ("{" ++ x)
  else if (mName =? "HasteSupportData")%string then
    if llen (strings_Split data ".handle({") <=? 2 then ok
    else
      x ← of_res (between data ".handle({" 2);
      x ← of_res (chop_str 5 ("{" ++ x));
      lazy_handle haste_error x
  else ok.

Definition requireLazyModule (data : string) : PM (option error) :=
  x ← of_res (drop_str 12 data);
  x ← of_res (nth_piece 0 (strings_Split x "],"));
  match U_names (x ++ "]") with
  | inr e => fail (paren "messagix-moduleparser: failed to get module names from requireLazy module (" (OtherError e))
  | inl names => each (lazy_module data) names
  end.

Definition handle_script (tag : ScriptTag) : PM (option error) :=
  let id := attribute "id" (Attributes tag) in
  if (id =? "envjson")%string || (id =? "__eqmc")%string then wrap "failed to handle raw JSON: " (HandleRawJSON (Content tag) id)
  else if (Content tag =? "")%string then ok
  else
    r ← try (unmarshal_bbox (U_bbox (Content tag)));
    match r with
    | inr _ => if HasPrefix (Content tag) "requireLazy" then requireLazyModule (Content tag) else ok
    | inl None => spanic
    | inl (Some b) => each handleModule (Require_ b)
    end.

(** ** Loading *)

Definition fetch_page (url : string) : PM (string + error) := Stateful.block (QFetchPage url : PReq).
Definition fetch_script (url : string) : PM (string + error) := Stateful.block (QFetchScript url : PReq).

Definition crawlJavascriptFile (href : string) : PM (bool + error) :=
  r ← fetch_script href;
  match r with
  | inr e => mret (inr e)
  | inl js =>
      match find_version js with
      | None => mret (inl false)
      | Some v =>
          match ParseInt 10 v with
          | (n, None) => modify (set_VersionID n);; mret (inl true)
          | (_, Some _) => mret (inr (OtherError ("strconv.ParseInt: parsing " ++ in_quotes v ++ ": value out of range")))
          end
      end
  end.

(** Scripts are fetched until one has the version. *)
Fixpoint crawl (l : list string) : PM (bool + error) :=
  match l with
  | [] => mret (inl false)
  | href :: l =>
      r ← crawlJavascriptFile href;
      match r with
      | inr e => mret (inr (paren ("messagix-moduleparser: failed to crawl js file " ++ href ++ " (") e))
      | inl true => mret (inl true)
      | inl false => crawl l
      end
  end.

Definition linked_scripts (l : list (gmap string string)) : list string :=
  omap (fun a => if (attribute "as" a =? "script")%string && negb (attribute "href" a =? "")%string then Some (attribute "href" a) else None) l.
Definition script_sources (l : list ScriptTag) : list string :=
  omap (fun t => let href := attribute "src" (Attributes t) in
                 if negb (href =? "")%string && HasPrefix href "https://" then Some href else None) l.

Definition find_missing_version (doc : Node) (tags : list ScriptTag) : PM (option error) :=
  r ← crawl (linked_scripts (findLinkTags doc));
  match r with
  | inr e => fail e
  | inl true => ok
  | inl false =>
      r ← crawl (script_sources tags);
      match r with
      | inr e => fail e
      | inl true => ok
      | inl false => fail (SentinelError ErrVersionIDNotFound)
      end
  end.

Definition zero_user : string := in_quotes "USER_ID" ++ ":" ++ in_quotes "0".

Definition Load (page : string) : PM (option error) :=
  r ← fetch_page page;
  match r with
  | inr e => fail e
  | inl htmlData =>
      if IsMessenger platform && negb (StrContains page "login") && StrContains htmlData zero_user then fail (SentinelError ErrUserIDIsZero)
      else
        match html_Parse htmlData with
        | inr e => fail (Wrap "messagix-moduleparser: failed to parse doc string: " (OtherError e))
        | inl doc =>
            let tags := findScriptTags doc in
            next (each handle_script tags)
              (p ← gets id;
               if (VersionID p =? 0) && authenticated (configs p) then find_missing_version doc tags else ok)
        end
  end.

(** * Properties *)

(** ** What loading a page changes *)

Definition csr_ok (z : Z) : Prop := z <> 0 /\ - 2 ^ 31 <= z < 2 ^ 31.

(** A page adds ids of modules, which are positive, and bits of resources; it changes the
    fields of the configuration there are; it adds rows to the tables, of their types. *)
Record grows (p p' : Page) : Prop := {
  grow_BMap : exists l, BMap p' = BMap p ++ l /\ Forall (fun z => 0 < z) l;
  grow_CSR : exists l, CSRMap p' = CSRMap p ++ l /\ Forall csr_ok l;
  grow_configs : dom (configs p') = dom (configs p);
  grow_typed : table_ok LSTable (LS p) -> table_ok LSTable (LS p');
  grow_rows : forall f, default [] (LS p !! f) `prefix_of` default [] (LS p' !! f)
}.

Lemma grows_refl p : grows p p.
Proof. split; [exists []; by rewrite app_nil_r|exists []; by rewrite app_nil_r|done|done|done]. Qed.

Lemma grows_trans p1 p2 p3 : grows p1 p2 -> grows p2 p3 -> grows p1 p3.
Proof.
  intros [(l & E1 & F1) (c & E2 & F2) H3 H4 H5] [(l' & E1' & F1') (c' & E2' & F2') H3' H4' H5'].
  split; [exists (l ++ l')|exists (c ++ c')|congruence|auto|intros f; etrans; [apply H5|apply H5']].
  - split; [by rewrite E1', E1, app_assoc|by apply Forall_app].
  - split; [by rewrite E2', E2, app_assoc|by apply Forall_app].
Qed.

(** The same but for fields a page may set to anything. *)
Lemma grows_same p p' : BMap p' = BMap p -> CSRMap p' = CSRMap p -> configs p' = configs p -> LS p' = LS p -> grows p p'.
Proof. intros E1 E2 E3 E4. split; rewrite ?E1, ?E2, ?E3, ?E4; [exists []; by rewrite app_nil_r|exists []; by rewrite app_nil_r|done..]. Qed.

Abbreviation ptrace := (list (event (reply (S := Page) panswer))).
Definition calm (tr : ptrace) : Prop := Forall (fun e => grows (asked e).2 (answered e).2) tr.

Definition keeps {A} (m : PM A) : Prop := forall s tr r s', sruns m s tr r s' -> calm tr -> grows s s'.

Lemma page_keeps_ret {A} (a : A) : keeps (mret a).
Proof. intros s tr r s' (_ & _ & ->)%sruns_ret _. apply grows_refl. Qed.
Lemma page_keeps_gets {A} (f : Page -> A) : keeps (gets f).
Proof. intros s tr r s' (_ & _ & ->)%sruns_gets _. apply grows_refl. Qed.
Lemma page_keeps_modify f : (forall s, grows s (f s)) -> keeps (modify f).
Proof. intros H s tr r s' (_ & _ & ->)%sruns_modify _. apply H. Qed.
Lemma page_keeps_panic {A} : keeps (spanic (A := A)).
Proof. intros s tr r s' (_ & _ & ->)%sruns_panic _. apply grows_refl. Qed.
Lemma page_keeps_block q : keeps (Stateful.block q).
Proof. intros s tr r s' (x & -> & _)%sruns_block H. by apply Forall_cons in H as [H _]. Qed.

Lemma page_keeps_of_res {A} (r : res A) : keeps (of_res r).
Proof.
  destruct r as [a|e|[]]; intros s tr x s' H _; cbn in H;
    first [apply sruns_ret in H|apply sruns_throw in H|apply sruns_panic in H|apply sruns_end in H]; destruct H as (_ & _ & ->); apply grows_refl.
Qed.
Lemma page_keeps_try {A} (r : res A) : keeps (try r).
Proof.
  destruct r as [a|e|[]]; intros s tr x s' H _; cbn in H;
    first [apply sruns_ret in H|apply sruns_panic in H|apply sruns_end in H]; destruct H as (_ & _ & ->); apply grows_refl.
Qed.

Lemma page_keeps_bind {A B} (m : PM A) (f : A -> PM B) : keeps m -> (forall a, keeps (f a)) -> keeps (m ≫= f).
Proof.
  intros Hm Hf s tr r s' (r1 & s1 & t1 & t2 & -> & H1 & H2)%sruns_bind [C1 C2]%Forall_app.
  destruct r1; [eapply grows_trans; [by eapply Hm|by eapply Hf]|destruct H2 as (_ & _ & ->); by eapply Hm..].
Qed.

Lemma page_keeps_try_bind {A B} (r : res A) (f : A + string -> PM B) :
  (forall a, r = Ok a -> keeps (f (inl a))) -> (forall e, keeps (f (inr e))) -> keeps (try r ≫= f).
Proof.
  intros Ha He. destruct r as [a|e|h].
  - intros s tr x s' (r1 & s1 & t1 & t2 & -> & (-> & -> & ->)%sruns_ret & H2)%sruns_bind Hc. by eapply Ha.
  - intros s tr x s' (r1 & s1 & t1 & t2 & -> & (-> & -> & ->)%sruns_ret & H2)%sruns_bind Hc. by eapply He.
  - destruct h; intros s tr x s' (r1 & s1 & t1 & t2 & -> & H1 & H2)%sruns_bind Hc; cbn in H1;
      first [apply sruns_panic in H1|apply sruns_end in H1]; destruct H1 as (_ & -> & ->); destruct H2 as (_ & _ & ->); apply grows_refl.
Qed.

Lemma page_keeps_next m k : keeps m -> keeps k -> keeps (next m k).
Proof. intros Hm Hk. apply page_keeps_bind; [done|]. intros [e|]; [apply page_keeps_ret|done]. Qed.
Lemma page_keeps_wrap text m : keeps m -> keeps (wrap text m).
Proof. intros Hm. apply page_keeps_bind; [done|]. intros e. apply page_keeps_ret. Qed.
Lemma page_keeps_ok : keeps ok. Proof. apply page_keeps_ret. Qed.
Lemma page_keeps_fail e : keeps (fail e). Proof. apply page_keeps_ret. Qed.
Lemma page_keeps_each {A} (f : A -> PM (option error)) l : (forall x, keeps (f x)) -> keeps (each f l).
Proof. intros Hf. induction l as [|x l IH]; [apply page_keeps_ok|]. by apply page_keeps_next. Qed.
Lemma page_keeps_entry e : keeps (entry e).
Proof. destruct e; [apply page_keeps_ret|apply page_keeps_panic]. Qed.

Create HintDb keeps.
#[local] Hint Resolve page_keeps_ret page_keeps_gets page_keeps_panic page_keeps_of_res page_keeps_try page_keeps_ok page_keeps_fail page_keeps_entry : keeps.

Ltac page_keeps_step :=
  lazymatch goal with
  | |- keeps ?m =>
      lazymatch m with
      | _ ≫= _ => apply page_keeps_bind; [|intros ?]
      | next _ _ => apply page_keeps_next
      | wrap _ _ => apply page_keeps_wrap
      | each _ _ => apply page_keeps_each; intros ?
      | modify _ => apply page_keeps_modify; intros ?; try (by apply grows_same)
      | match ?x with _ => _ end => destruct x
      | let _ := _ in _ => cbv zeta
      end
  end.
Ltac page_keeps_tac := repeat page_keeps_step; eauto with keeps.

Lemma grows_BMap x p : 0 < x -> grows p (add_BMap x p).
Proof.
  intros Hx. split; cbn; [exists [x]; by repeat constructor|exists []; by rewrite app_nil_r|done..].
Qed.

Lemma grows_config n old x p : configs p !! n = Some old -> grows p (set_config n x p).
Proof.
  intros Hn. split; cbn; [exists []; by rewrite app_nil_r|exists []; by rewrite app_nil_r| |done..].
  rewrite dom_insert_L. apply elem_of_dom_2 in Hn. set_solver.
Qed.

Lemma page_keeps_handleConfigData c : keeps (handleConfigData c).
Proof.
  unfold handleConfigData. apply page_keeps_bind; [apply page_keeps_entry|]. intros e.
  destruct (entry_Data e) as [|d0 [|d1 [|d2 ds]]]; eauto with keeps. destruct (U_int d2) as [i|]; eauto with keeps.
  destruct (Z.leb_spec i 0); eauto with keeps. apply page_keeps_bind; [apply page_keeps_modify; intros s; by apply grows_BMap|]. intros _.
  intros s tr r s' (r1 & s1 & t1 & t2 & -> & (-> & -> & ->)%sruns_gets & H2)%sruns_bind Hc. cbn [app] in *.
  destruct (configs s !! Name e) as [old|] eqn:El; [|by eapply page_keeps_ok].
  destruct (decode_field (Name e) old d1) as [x e'].
  apply sruns_bind in H2 as (r2 & s2 & t3 & t4 & -> & (-> & -> & ->)%sruns_modify & H2).
  eapply grows_trans; [by eapply grows_config|]. destruct e'; apply sruns_ret in H2 as (_ & _ & ->); apply grows_refl.
Qed.
#[local] Hint Resolve page_keeps_handleConfigData : keeps.

Lemma page_keeps_HandleRawJSON data id : keeps (HandleRawJSON data id).
Proof. unfold HandleRawJSON. page_keeps_tac. Qed.

Lemma page_keeps_preloaded_version l : keeps (preloaded_version l).
Proof. induction l as [|[r|] l IH]; cbn [preloaded_version]; page_keeps_tac. Qed.
#[local] Hint Resolve page_keeps_preloaded_version page_keeps_HandleRawJSON : keeps.

Lemma page_keeps_run_lightspeed q : keeps (run_lightspeed q).
Proof.
  unfold run_lightspeed. destruct (_ =? _)%string; eauto with keeps. destruct (U_lightspeed _) as [steps|]; eauto with keeps.
  intros s tr r s' (r1 & s1 & t1 & t2 & -> & (-> & -> & ->)%sruns_gets & H2)%sruns_bind Hc.
  apply sruns_bind in H2 as (r2 & s2 & t3 & t4 & -> & H3 & H2).
  destruct (Decode _ _ _ _ _ _ _ _) as [[v d]|e|h] eqn:Ed.
  - apply sruns_ret in H3 as (-> & -> & ->). apply sruns_bind in H2 as (r3 & s3 & t5 & t6 & -> & (-> & -> & ->)%sruns_modify & (-> & -> & ->)%sruns_ret).
    pose proof (Decode_runs (ToMap (Dependencies q)) LSTable now slack fmt_float (jsize steps) steps (le_n _) (NewLightSpeedDecoder (LS s))) as H.
    rewrite Ed in H. split; cbn; [exists []; by rewrite app_nil_r|exists []; by rewrite app_nil_r|done| |].
    + change (LS s) with (table (NewLightSpeedDecoder (LS s))) at 1. clear Ed. induction H; eauto using prim_table_ok.
    + intros f. change (LS s) with (table (NewLightSpeedDecoder (LS s))) at 1. clear Ed. induction H; [done|].
      etrans; [by eapply prim_table_grows|done].
  - apply sruns_throw in H3 as (_ & -> & ->). destruct H2 as (_ & _ & ->). apply grows_refl.
  - destruct h; cbn in H3; first [apply sruns_panic in H3|apply sruns_end in H3]; destruct H3 as (_ & -> & ->); destruct H2 as (_ & _ & ->); apply grows_refl.
Qed.
#[local] Hint Resolve page_keeps_run_lightspeed : keeps.

Lemma page_keeps_handleLightSpeedQLRequest data f : keeps (handleLightSpeedQLRequest data f).
Proof. unfold handleLightSpeedQLRequest, ls_answer. page_keeps_tac. Qed.
#[local] Hint Resolve page_keeps_handleLightSpeedQLRequest : keeps.

Lemma page_keeps_expected d : keeps (expected_preloaders d).
Proof. unfold expected_preloaders. page_keeps_tac. Qed.
#[local] Hint Resolve page_keeps_expected : keeps.

Lemma page_keeps_handleRequire c : keeps (handleRequire c).
Proof. unfold handleRequire. page_keeps_tac. Qed.
#[local] Hint Resolve page_keeps_handleRequire : keeps.

Lemma page_keeps_SSJSHandle d : keeps (SSJSHandle d).
Proof. unfold SSJSHandle. page_keeps_tac. Qed.
#[local] Hint Resolve page_keeps_SSJSHandle : keeps.

Lemma csr_bits_ok l bits : csr_bits l = Ok bits -> Forall csr_ok bits.
Proof.
  revert bits. induction l as [|b l IH]; intros bits; [intros [= <-]; constructor|]. cbn [csr_bits]. destruct (ParseInt 10 b) as [n [e|]]; [done|].
  destruct (_ || _) eqn:Er; [done|]. destruct (csr_bits l) as [r| |]; [|done..]. cbn. destruct (Z.eqb_spec n 0); intros [= <-]; [by apply IH|].
  constructor; [|by apply IH]. apply orb_false_iff in Er as [E1 E2]. unfold csr_ok. lia.
Qed.

Lemma page_keeps_add_bits s0 : keeps (add_bits s0).
Proof.
  apply page_keeps_try_bind; [|intros e; apply page_keeps_fail]. intros l E.
  assert (Forall csr_ok l) as Hl by (unfold parseCSRBit in E; destruct (drop_str 1 s0); [by eapply csr_bits_ok|done..]).
  apply page_keeps_bind; [|intros _; apply page_keeps_ok]. apply page_keeps_modify. intros s.
  split; cbn; [exists []; by rewrite app_nil_r|by exists l|done..].
Qed.
#[local] Hint Resolve page_keeps_add_bits : keeps.

Lemma page_keeps_bootloader d : keeps (HandleBootloaderPayload d).
Proof. unfold HandleBootloaderPayload, handle_payload. page_keeps_tac. Qed.
#[local] Hint Resolve page_keeps_bootloader : keeps.

Lemma page_keeps_handleModule d : keeps (handleModule d).
Proof. unfold handleModule. page_keeps_tac. Qed.
#[local] Hint Resolve page_keeps_handleModule : keeps.

Lemma page_keeps_requireLazy d : keeps (requireLazyModule d).
Proof. unfold requireLazyModule, lazy_module, lazy_bigpipe, lazy_handle, define_all, handle_define. page_keeps_tac. Qed.
#[local] Hint Resolve page_keeps_requireLazy : keeps.

Lemma page_keeps_script t : keeps (handle_script t).
Proof. unfold handle_script. page_keeps_tac. Qed.
#[local] Hint Resolve page_keeps_script : keeps.

Lemma page_keeps_crawl l : keeps (crawl l).
Proof.
  induction l as [|h l IH]; cbn [crawl]; [apply page_keeps_ret|]. apply page_keeps_bind; [|intros [[]|]; eauto with keeps].
  unfold crawlJavascriptFile, fetch_script. apply page_keeps_bind; [apply page_keeps_block|]. intros r. page_keeps_tac.
Qed.
#[local] Hint Resolve page_keeps_crawl : keeps.


(** C36. Loading a page only adds: whatever the page holds, and whether or not loading it
    succeeds, the tables keep their rows and get rows of their types, the configuration has the
    same fields, the new ids of modules are positive and the new bits of resources are not zero. *)
Theorem page_only_adds page s tr r s' (H : sruns (Load page) s tr r s') (Hc : calm tr) : grows s s'.
Proof.
  revert s tr r s' H Hc. change (keeps (Load page)). unfold Load. apply page_keeps_bind; [apply page_keeps_block|]. intros x.
  destruct x as [data|e]; [|apply page_keeps_fail]. destruct (_ && _); [apply page_keeps_fail|]. destruct (html_Parse data) as [doc|]; [|apply page_keeps_fail].
  cbv zeta. apply page_keeps_next; [apply page_keeps_each; intros t; apply page_keeps_script|]. unfold find_missing_version. page_keeps_tac.
Qed.
End Modules.


(** * Examples *)

(** Decoders for a few documents; the page has one script. *)
Definition demo_raws (s : string) : list string + string :=
  if (s =? "entry")%string then inl ["name"; in_quotes "handle"; "null"; "list"]%string
  else if (s =? "list")%string then inl ["[defs"]%string
  else if (s =? "def")%string then inl ["theme"; "null"; "value"; "7"]%string
  else if (s =? "short")%string then inl ["theme"]%string
  else inr "unexpected end of JSON input"%string.
Definition demo_string (s : string) : string + string :=
  if (s =? "name")%string then inl "ScheduledServerJS"%string else if (s =? "theme")%string then inl "Theme"%string else inr "not a string"%string.
Definition demo_bbox (s : string) : option RawBBox + string :=
  if (s =? "good")%string then inl (Some (mkRawBBox [Some "entry"%string] []))
  else if (s =? "missing")%string then inl (Some (mkRawBBox [Some "entry"%string; Some "short"%string] []))
  else if (s =? "null")%string then inl None else inr "invalid character"%string.

Definition demo_load (content : string) : SM (Page (F := string)) panswer (option error) :=
  Load demo_raws demo_string (fun s => if (s =? "7")%string then inl 7 else inr "not a number"%string) (fun _ => inl ["ServerJS"]%string)
    (fun s => if (s =? "[defs")%string then inl [Some "def"%string; Some "short"%string] else inr "no list"%string)
    demo_bbox (fun _ => inl None) (fun _ => inl None) (fun _ => inl ""%string) (fun _ => inl ""%string) (fun _ => inl []) (fun _ => inl ""%string)
    (fun _ => inl None) (fun _ => inl None) (fun _ => inl None) (fun _ => inr "no payload"%string) (fun _ => inl []) (fun _ => inl id) (fun _ => None) id
    (fun _ => None) (fun s => if (s =? "with the version")%string then Some "77"%string else None) (fun _ _ d => (d, None)) (const false) (const true)
    (fun _ => inl (mkNode true "html" []
      [mkNode true "link" [("as", "script"); ("href", "https://static/a.js")]%string []; mkNode true "script" [] [mkNode false content [] []]]))
    (const 0) (const 0%nat) (const ""%string) Facebook true "https://www.facebook.com/messages/".

Definition demo_state : Page := mkPage 0 "" "" "" [] [] {["Theme" := "old"]}%string ∅ "".
Definition demo_env (js : string) (q : PReq * Page (F := string)) (x : unit) : reply (S := Page (F := string)) panswer q * unit :=
  ((inl match q.1 with QFetchPage _ => "<html>" | QFetchScript _ => js end%string, q.2), x).

Definition demo_run (js content : string) := play (demo_env js) (demo_load content demo_state) ().

(** The value of a field and the ids of the modules the page defines, the version its script has. *)
Example demo_run_loads : let '(r, s, _, _) := demo_run "with the version" "good" in
  r = Ok None /\ BMap s = [7] /\ configs s !! "Theme"%string = Some "value"%string /\ VersionID s = 77.
Proof. vm_compute. auto. Qed.

(** Without the version the page is of no use. *)
Example version_is_missing : (demo_run "" "good").1.1.1 = Ok (Some (SentinelError ErrVersionIDNotFound)).
Proof. vm_compute. reflexivity. Qed.

(** Documents of another form than the program expects make it panic: a script that is [null],
    a script without the text its pieces are looked for at, a definition of a list of no
    elements, a set of bits that is only their separator. *)
Example null_script_panics : (demo_run "" "null").1.1.1 = Panic.
Proof. vm_compute. reflexivity. Qed.
Example short_script_panics : (demo_run "" "requireLazy([").1.1.1 = Panic.
Proof. vm_compute. reflexivity. Qed.
Example empty_entry_panics : ModuleEntry_UnmarshalJSON (const (inl [])) demo_string "[]" = Panic.
Proof. reflexivity. Qed.

(** Bits may be negative: they are kept, and panic when the bitmap is made. *)
Example negative_bit : parseCSRBit ":-5" = Ok [-5] /\ Bitmap.LoadBitmap [-5] = Panic.
Proof. split; [vm_compute|vm_compute]; reflexivity. Qed.

(** The ids of a page are collected in the field that then holds the bits: after a second page
    the bits of the first count as ids. *)
Example second_page_mixes : exists b b1 b2, Bitmap.LoadBitmap [5] = Ok b /\ Bitmap.LoadBitmap (Bitmap.BMap b ++ [5]) = Ok b1 /\
  Bitmap.LoadBitmap [5] = Ok b2 /\ Bitmap.CompressedStr b1 <> Bitmap.CompressedStr b2.
Proof. eexists _, _, _. split_and!; [vm_compute; reflexivity..|vm_compute; congruence]. Qed.

Lemma calm_alone (tr : list (event (reply (S := Page (F := string)) panswer))) :
  Forall (fun e => (answered e).2 = (asked e).2) tr -> calm tr.
Proof. intros H. eapply Forall_impl; [exact H|]. intros e ->. apply grows_refl. Qed.

Lemma page_only_adds_witness : grows demo_state (demo_run "with the version" "good").1.1.2 /\ BMap (demo_run "with the version" "good").1.1.2 = [7].
Proof.
  split; [|vm_compute; reflexivity].
  unfold demo_run, demo_load.
  match goal with |- grows _ (play ?env (?m ?s) ?x).1.1.2 => pose proof (play_sruns env m s x) as H end.
  refine (page_only_adds _ _ _ _ _ _ _ _ _ _ _ _ _ _ _ _ _ _ _ _ _ _ _ _ _ _ _ _ _ _ _ _ _ _ _ _ H _).
  apply calm_alone. vm_compute. repeat constructor.
Defined.
