(* ===== verification/Backfill.v ===== *)
(** * Backfill: collecting and ordering history ([connector/backfill.go])

    A backfill of a thread registers a collector; upserts of the thread's messages are joined
    to it until it is full, and the goroutine that waits for it then gets its messages in order.
    The collectors live in a map of the client; a collector that is done is handed to its
    waiter.  [slices.SortFunc] is a parameter: it permutes its argument into a list its
    comparison finds sorted.  So are the message converter and the intent lookup. *)

From stdpp Require Import sorting.
From S2P Require Import Prelude Strconv Lightspeed TableKinds TableThreads TableMessages Tables.
From S2P Require Import WrapMessages MetaID MetaDB ChatInfo.
From Stdlib Require Import Sorting.Sorted.
#[local] Open Scope Z_scope.

(** ** Collectors *)

(** A message of the bridge's database: its id and time, in milliseconds. *)
Record Anchor := mkAnchor { anchor_id : string; anchor_ts : Z }.

(** [c_id] is the identity of the collector object. *)
Record BackfillCollector := mkCollector {
  c_id : nat;
  collected : UpsertMessages;
  MaxMessages : Z;
  Forward : bool;
  c_anchor : option Anchor
}.

Definition range_int := row_int LSInsertNewMessageRange.
Definition range_str := row_str LSInsertNewMessageRange.
Definition range_bool := row_bool LSInsertNewMessageRange.

(** A further fetch of a thread's history: thread, reference time and message. *)
Record HistoryRequest := mkHistoryRequest { h_thread : Z; h_ts : Z; h_id : string }.

(** [backfillCollectors], the collectors handed to their waiters, the requests for more
    history and the global upsert counter. *)
Record BackfillState := mkBackfillState {
  backfillCollectors : gmap Z BackfillCollector;
  finished : list (Z * BackfillCollector);
  requested : list HistoryRequest;
  globalUpsertCounter : Z
}.

Definition put_collector (k : Z) (c : BackfillCollector) (s : BackfillState) : BackfillState :=
  mkBackfillState (<[k := c]> (backfillCollectors s)) (finished s) (requested s) (globalUpsertCounter s).
(** [Done()] and the removal from the map. *)
Definition finish_collector (k : Z) (c : BackfillCollector) (s : BackfillState) : BackfillState :=
  mkBackfillState (delete k (backfillCollectors s)) (finished s ++ [(k, c)]) (requested s)
    (globalUpsertCounter s).
Definition requestMoreHistory (r : HistoryRequest) (s : BackfillState) : BackfillState :=
  mkBackfillState (backfillCollectors s) (finished s) (requested s ++ [r]) (globalUpsertCounter s).
Definition next_upsert (s : BackfillState) : BackfillState :=
  mkBackfillState (backfillCollectors s) (finished s) (requested s) (globalUpsertCounter s + 1).

Definition addBackfillCollector (k : Z) (c : BackfillCollector) (s : BackfillState) : BackfillState * bool :=
  match backfillCollectors s !! k with
  | Some _ => (s, false)
  | None => (put_collector k c s, true)
  end.

Definition removeBackfillCollector (k : Z) (c : BackfillCollector) (s : BackfillState) : BackfillState :=
  match backfillCollectors s !! k with
  | Some c' => if decide (c_id c' = c_id c)
               then mkBackfillState (delete k (backfillCollectors s)) (finished s) (requested s)
                      (globalUpsertCounter s)
               else s
  | None => s
  end.

(** ** An upsert while a collector is registered *)

(** The room that is left: 0 and negative limits stay as they are. *)
Definition room (MaxMessages : Z) (n : nat) : Z :=
  if MaxMessages >? 0 then Z.max (MaxMessages - Z.of_nat n) 0 else MaxMessages.

Inductive Collected :=
| Unexpected                                  (** the upsert is newer than the collection: ignored *)
| NeedsMore (c : BackfillCollector) (r : HistoryRequest)
| Complete (c : BackfillCollector).

(** [collector] of thread [k] receives [upsert]. *)
Definition collect (k : Z) (collector : BackfillCollector) (upsert : UpsertMessages) : res Collected :=
  match Range upsert, Range (collected collector) with
  | Some rng, Some crng =>
      if range_int "MaxTimestampMsTemplate" rng >? range_int "MinTimestampMs" crng then Ok Unexpected
      else
        let maxMessages := room (MaxMessages collector) (length (Messages upsert)) in
        joined ← Join (Some (collected collector)) (Some upsert);
        match joined with
        | Some joined =>
            let c := mkCollector (c_id collector) joined maxMessages (Forward collector) (c_anchor collector) in
            let messageLimitReached := maxMessages =? 0 in
            let endOfChatReached := negb (range_bool "HasMoreBefore" rng) in
            let existingMessagesReached :=
              Forward collector &&
              match c_anchor collector, Range joined with
              | Some a, Some jr => range_int "MinTimestampMs" jr <=? anchor_ts a
              | _, _ => false
              end in
            if negb messageLimitReached && negb endOfChatReached && negb existingMessagesReached
            then Ok (NeedsMore c (mkHistoryRequest k (range_int "MinTimestampMs" rng)
                                    (range_str "MinMessageId" rng)))
            else Ok (Complete c)
        | None => Panic
        end
  | _, _ => Panic
  end.

(** The first branch of [handleUpsertMessages]. *)
Definition collect_upsert (k : Z) (c : BackfillCollector) (upsert : UpsertMessages) (s : BackfillState)
    : res BackfillState :=
  r ← collect k c upsert;
  match r with
  | Unexpected => Ok s
  | NeedsMore c r => Ok (requestMoreHistory r (put_collector k c s))
  | Complete c => Ok (finish_collector k c s)
  end.

Definition set_range_bool (n : string) (b : bool) (u : UpsertMessages) : UpsertMessages :=
  mkUpsertMessages (row_set LSInsertNewMessageRange n (VBool b) <$> Range u) (Messages u) (MarkRead u).

(** [handleUpdateExistingMessageRange]: the server has nothing more for the collected range. *)
Definition handleUpdateExistingMessageRange (k : Z) (rng : Inst) (s : BackfillState) : res BackfillState :=
  let s := next_upsert s in
  match backfillCollectors s !! k with
  | None => Ok s
  | Some c =>
      match Range (collected c) with
      | None => Panic
      | Some crng =>
          if negb (range_int "MinTimestampMs" crng =? row_int LSUpdateExistingMessageRange "TimestampMS" rng)
          then Ok s
          else
            let before := match Messages (collected c) with
                          | [] => true
                          | _ => row_bool LSUpdateExistingMessageRange "UnknownBool2" rng &&
                                 negb (row_bool LSUpdateExistingMessageRange "UnknownBool3" rng)
                          end in
            let u := set_range_bool (if before then "HasMoreBefore" else "HasMoreAfter") false (collected c) in
            Ok (finish_collector k (mkCollector (c_id c) u (MaxMessages c) (Forward c) (c_anchor c)) s)
      end
  end.

(** ** Messages *)

Definition msg_int (n : string) (w : WrappedMessage) : Z := row_int LSInsertMessage n (LSInsert w).
Definition msg_str (n : string) (w : WrappedMessage) : string := row_str LSInsertMessage n (LSInsert w).
Definition MessageId := msg_str "MessageId".
Definition TimestampMs := msg_int "TimestampMs".
Definition PrimarySortKey := msg_int "PrimarySortKey".
Definition SecondarySortKey := msg_int "SecondarySortKey".

Definition set_text (s : string) (w : WrappedMessage) : WrappedMessage :=
  mkWrappedMessage (row_set LSInsertMessage "Text" (VStr s) (LSInsert w)) (IsUpsert w) (BlobAttachments w)
    (Attachments w) (XMAAttachments w) (Stickers w) (Reactions w) (ThreadID w) (IsSubthreadStart w).
Definition subthread_start (w : WrappedMessage) : WrappedMessage :=
  mkWrappedMessage (LSInsert w) (IsUpsert w) (BlobAttachments w) (Attachments w) [] (Stickers w)
    (Reactions w) (ThreadID w) true.

Definition xma_str (n : string) (x : WrappedXMA) : string := row_str LSInsertXmaAttachment n (LSInsertXma x).
Definition xma_int (n : string) (x : WrappedXMA) : Z := row_int LSInsertXmaAttachment n (LSInsertXma x).

Section Subthreads.
(** The scheme and host of a URL, [None] when it does not parse. *)
Context (parse_url : string -> option (string * string)).

Definition is_subthread_url (u : string) : bool :=
  match parse_url u with
  | Some (scheme, host) => (scheme =? "fb-messenger")%string && (host =? "community_subthread")%string
  | None => false
  end.

(** [handleSubthread] (handlemeta.go): a message of a subthread, or the start of one, is
    recorded; the start loses the attachment that marks it. *)
Definition handleSubthread (db : MetaDB) (w : WrappedMessage) : MetaDB * WrappedMessage :=
  if negb (msg_int "SubthreadKey" w =? 0) then
    (PutThread (msg_int "ThreadKey" w) (msg_int "SubthreadKey" w) (MessageId w) db, w)
  else match XMAAttachments w with
       | [x] =>
           if is_subthread_url (xma_str "ActionUrl" x) then
             (PutThread (msg_int "ThreadKey" w) (xma_int "TargetId" x) (msg_str "ReplySourceId" w) db,
              set_text (xma_str "TitleText" x) (subthread_start w))
           else (db, w)
       | _ => (db, w)
       end.
End Subthreads.

(** ** wrapBackfillEvents *)

(** The comparison of the two sort keys. *)
Definition sort_cmp (a b : WrappedMessage) : comparison :=
  match PrimarySortKey a ?= PrimarySortKey b with
  | Eq => SecondarySortKey a ?= SecondarySortKey b
  | c => c
  end.
Definition sort_le (a b : WrappedMessage) : Prop := sort_cmp a b <> Gt.

(** [slices.CompactFunc]: of every run of messages with the same id the first is kept. *)
Fixpoint compact_from (last : string) (l : list WrappedMessage) : list WrappedMessage :=
  match l with
  | [] => []
  | w :: l => if (MessageId w =? last)%string then compact_from last l else w :: compact_from (MessageId w) l
  end.
Definition compact (l : list WrappedMessage) : list WrappedMessage :=
  match l with [] => [] | w :: l => w :: compact_from (MessageId w) l end.

(** On the side of the anchor the backfill asks for. *)
Definition beyond_anchor (anchor : option Anchor) (forward : bool) (w : WrappedMessage) : bool :=
  match anchor with
  | None => true
  | Some a => if forward then negb (TimestampMs w <=? anchor_ts a) else negb (TimestampMs w >=? anchor_ts a)
  end.

Record BackfillReaction := mkBackfillReaction { r_timestamp : Z; r_sender : EventSender; Emoji : string }.

(** [Body] is what the converter makes of a message. *)
Record BackfillMessage (Body : Type) := mkBackfillMessage {
  body : Body;
  b_sender : EventSender;
  b_id : string;
  b_timestamp : Z;
  b_reactions : list BackfillReaction;
  StreamOrder : Z
}.
Arguments mkBackfillMessage {Body}.
Arguments body {Body}.
Arguments b_sender {Body}.
Arguments b_id {Body}.
Arguments b_timestamp {Body}.
Arguments b_reactions {Body}.
Arguments StreamOrder {Body}.

(** A slot of the message slice stays nil when there is no intent for the sender. *)
Record FetchMessagesResponse (Body : Type) := mkFetchMessagesResponse {
  resp_messages : list (option (BackfillMessage Body));
  HasMore : bool;
  resp_mark_read : bool
}.
Arguments mkFetchMessagesResponse {Body}.
Arguments resp_messages {Body}.
Arguments HasMore {Body}.
Arguments resp_mark_read {Body}.

Section WrapBackfill.
Context (m : Login) (parse_url : string -> option (string * string)).
Context (SortFunc : list WrappedMessage -> list WrappedMessage).
Context {Body : Type} (ToMatrix : string -> WrappedMessage -> Body) (GetIntentFor : EventSender -> bool).

Definition reaction_int := row_int LSUpsertReaction.

Definition wrap_reaction (r : Inst) : BackfillReaction :=
  mkBackfillReaction (reaction_int "TimestampMs" r) (makeEventSender m (reaction_int "ActorId" r))
    (row_str LSUpsertReaction "Reaction" r).

(** Reversed, sorted, compacted, and cut at the anchor. *)
Definition backfill_order (anchor : option Anchor) (forward : bool) (l : list WrappedMessage)
    : list WrappedMessage :=
  filter (fun w => beyond_anchor anchor forward w = true) (compact (SortFunc (rev l))).

Definition wrap_message (w : WrappedMessage) : option (BackfillMessage Body) :=
  let sender := makeEventSender m (msg_int "SenderId" w) in
  if GetIntentFor sender then
    let msgID := MakeFBMessageID (MessageId w) in
    Some (mkBackfillMessage (ToMatrix msgID w) sender msgID (TimestampMs w) (wrap_reaction <$> Reactions w)
            (TimestampMs w))
  else None.

Fixpoint wrap_messages (db : MetaDB) (l : list WrappedMessage)
    : MetaDB * list (option (BackfillMessage Body)) :=
  match l with
  | [] => (db, [])
  | w :: l =>
      let '(db, w) := handleSubthread parse_url db w in
      let '(db, l') := wrap_messages db l in
      (db, wrap_message w :: l')
  end.

(** [h] holds the messages the upsert points to. *)
Definition wrapBackfillEvents (h : list WrappedMessage) (db : MetaDB) (upsert : UpsertMessages)
    (anchor : option Anchor) (forward : bool) : res (MetaDB * FetchMessagesResponse Body) :=
  let '(db, msgs) := wrap_messages db (backfill_order anchor forward (omap (fun p => h !! p) (Messages upsert))) in
  match Range upsert with
  | Some rng => Ok (db, mkFetchMessagesResponse msgs (range_bool "HasMoreBefore" rng) (MarkRead upsert))
  | None => Panic
  end.
End WrapBackfill.

(** ** FetchMessages *)

(** [BundledData] is an [any]: nil, or a pointer that may be nil. *)
Record FetchParams := mkFetchParams {
  f_threadType : Z;
  f_portalID : string;
  f_forward : bool;
  f_bundled : option (option UpsertMessages);
  f_count : Z;
  f_anchor : option Anchor
}.

Inductive FetchPlan :=
| FetchNothing
| FetchWrap (u : UpsertMessages)
| FetchCollect (threadID : Z) (start : UpsertMessages) (oldestMessageTS : Z) (oldestMessageID : string).

(** The empty range that starts a backfill at an anchor. *)
Definition anchor_range (threadID ts : Z) (mid : string) : Inst :=
  mkInst [VInt64 threadID; VInt64 ts; VInt64 ts; VStr mid; VStr mid; VInt64 ts; VInt64 ts; VBool true;
          VBool true; VNil; VNil] None.

Section Fetch.
Context {JID : Type} (ParseJID : string -> option JID).

(** Without a bundled upsert the collection starts at the anchor. *)
Definition plan_from_anchor (threadID : Z) (anchor : option Anchor) : FetchPlan :=
  match anchor with
  | None => FetchNothing
  | Some a =>
      match ParseMessageID ParseJID (anchor_id a) with
      | Some (ParsedFBMessageID i) =>
          FetchCollect threadID (mkUpsertMessages (Some (anchor_range threadID (anchor_ts a) i)) [] false)
            (anchor_ts a) i
      | _ => FetchNothing
      end
  end.

(** [FetchMessages] of a client that is logged in, up to the wait. *)
Definition FetchMessages_plan (p : FetchParams) : res FetchPlan :=
  if f_threadType p =? ENCRYPTED_OVER_WA_GROUP then Ok FetchNothing
  else
    let threadID := ParseFBPortalID (f_portalID p) in
    if threadID =? 0 then Err "invalid thread ID"
    else match f_bundled p with
    | None => if f_forward p then Ok FetchNothing else
        Ok (plan_from_anchor threadID (f_anchor p))
    | Some None =>
        (* the pointer is nil: its range is read when there is an anchor to compare with *)
        match f_forward p, f_anchor p with
        | true, Some _ => Panic
        | _, anchor => Ok (plan_from_anchor threadID anchor)
        end
    | Some (Some u) =>
        if negb (llen (Messages u) <? f_count p) then Ok (FetchWrap u)
        else match Range u with
        | None => Panic
        | Some rng =>
            let collect := Ok (FetchCollect threadID u (range_int "MinTimestampMs" rng)
                                 (range_str "MinMessageId" rng)) in
            match f_forward p, f_anchor p with
            | true, Some a => if range_int "MinTimestampMs" rng <=? anchor_ts a then Ok (FetchWrap u) else collect
            | _, _ => collect
            end
        end
    end.

(** What wakes the waiting goroutine: the collector is done, a tick (is the time over, does a
    further request go out), or the context; with what is collected by then. *)
Inductive Wake :=
| WakeDone (u : UpsertMessages)
| WakeTick (u : UpsertMessages) (timed_out request_ok : bool)
| WakeCtx (err : string).

Definition MaxBackfillReRequests : Z := 1.

(** The select loop, over the wake-ups to come. *)
Fixpoint fetch_wait (forward : bool) (oldestMessageTS timeouts : Z) (wakes : list Wake) : res UpsertMessages :=
  match wakes with
  | [] => Diverge
  | WakeDone u :: _ => Ok u
  | WakeCtx err :: _ => Err err
  | WakeTick u timed_out request_ok :: wakes =>
      match Range u with
      | None => Panic
      | Some rng =>
          if forward && (range_int "MinTimestampMs" rng >=? oldestMessageTS) then Ok u
          else if timed_out then Err "failed to backfill history"
          else if (timeouts <? MaxBackfillReRequests) && negb request_ok
          then Err "failed to request more history for thread"
          else fetch_wait forward oldestMessageTS (timeouts + 1) wakes
      end
  end.
End Fetch.

(** [FBChatResync.CheckNeedsBackfill] (events.go), of a resync with the given bundle and thread
    row, and what the framework passes on as bundled data. *)
Definition CheckNeedsBackfill (Backfill : option UpsertMessages) (Raw : option Inst)
    (lastMessage : option Anchor) : res bool :=
  match Backfill with
  | None =>
      match Raw, lastMessage with
      | Some raw, Some last => Ok (thread_int "LastActivityTimestampMs" raw >? anchor_ts last)
      | _, _ => Ok false
      end
  | Some u =>
      match lastMessage with
      | None => Ok true
      | Some last =>
          match Range u with
          | None => Panic
          | Some rng =>
              if (MakeFBMessageID (range_str "MaxMessageId" rng) =? anchor_id last)%string then Ok false
              else Ok (range_int "MaxTimestampMs" rng >? anchor_ts last)
          end
      end
  end.

Definition GetBundledBackfillData (Backfill : option UpsertMessages) : option (option UpsertMessages) :=
  Some Backfill.

(** ** Lemmas: ranges *)

Lemma row_field_set s n n' v r i i' : field_pos n (sfields s) = Some i -> field_pos n' (sfields s) = Some i' ->
  (i < length (ifields r))%nat ->
  row_field s n' (row_set s n v r) = if decide (i = i') then Some v else row_field s n' r.
Proof.
  intros Hi Hi' Hl. unfold row_field, row_set. rewrite Hi, Hi'. cbn.
  destruct (decide (i = i')) as [<-|Hne]; [by rewrite list_lookup_insert_eq|].
  by rewrite list_lookup_insert_ne.
Qed.

Lemma row_set_length s n v r : length (ifields (row_set s n v r)) = length (ifields r).
Proof. unfold row_set. destruct (field_pos _ _); [|done]. cbn. apply length_insert. Qed.

Lemma copy_field_length n src dst : length (ifields (copy_field n src dst)) = length (ifields dst).
Proof. unfold copy_field. destruct (row_field _ _ _); [apply row_set_length|done]. Qed.

Lemma copy_field_field n n' src dst i i' :
  length (ifields src) = 11%nat -> length (ifields dst) = 11%nat ->
  field_pos n (sfields LSInsertNewMessageRange) = Some i ->
  field_pos n' (sfields LSInsertNewMessageRange) = Some i' -> (i < 11)%nat ->
  row_field LSInsertNewMessageRange n' (copy_field n src dst) =
    row_field LSInsertNewMessageRange n' (if decide (i = i') then src else dst).
Proof.
  intros Hs Hd Hi Hi' Hl. unfold copy_field.
  destruct (lookup_lt_is_Some_2 (ifields src) i) as [v Hv]; [lia|].
  assert (row_field LSInsertNewMessageRange n src = Some v) as E.
  { unfold row_field. rewrite Hi. exact Hv. }
  rewrite E, (row_field_set _ n n' v dst i i') by (done || lia).
  destruct (decide (i = i')) as [<-|]; [|done]. unfold row_field. rewrite Hi'. cbn. by rewrite Hv.
Qed.

(** The columns a join takes from the older range. *)
Definition joined_columns : list string := ["HasMoreBefore"; "MinTimestampMsTemplate"; "MinTimestampMs"; "MinMessageId"].

Lemma Join_range u o ru ro : Range u = Some ru -> Range o = Some ro ->
  length (ifields ru) = 11%nat -> length (ifields ro) = 11%nat ->
  exists rj, Join (Some u) (Some o) = Ok (Some (mkUpsertMessages (Some rj) (Messages u ++ Messages o) (MarkRead u))) /\
    length (ifields rj) = 11%nat /\
    range_int "MinTimestampMs" rj = range_int "MinTimestampMs" ro /\
    range_str "MinMessageId" rj = range_str "MinMessageId" ro /\
    range_bool "HasMoreBefore" rj = range_bool "HasMoreBefore" ro /\
    range_int "MaxTimestampMs" rj = range_int "MaxTimestampMs" ru.
Proof.
  intros Hu Ho Lu Lo. unfold Join. rewrite Hu, Ho. eexists. split; [done|].
  set (r1 := copy_field "HasMoreBefore" ro ru).
  set (r2 := copy_field "MinTimestampMsTemplate" ro r1). set (r3 := copy_field "MinTimestampMs" ro r2).
  assert (length (ifields r1) = 11%nat) as L1 by (unfold r1; by rewrite copy_field_length).
  assert (length (ifields r2) = 11%nat) as L2 by (unfold r2; by rewrite copy_field_length).
  assert (length (ifields r3) = 11%nat) as L3 by (unfold r3; by rewrite copy_field_length).
  split; [by rewrite copy_field_length|].
  assert (forall n i, field_pos n (sfields LSInsertNewMessageRange) = Some i ->
    row_field LSInsertNewMessageRange n (copy_field "MinMessageId" ro r3) =
    row_field LSInsertNewMessageRange n (if decide (i ∈ [3; 5; 1; 7]%nat) then ro else ru)) as Hf.
  { intros n i Hn. rewrite (copy_field_field "MinMessageId" n ro r3 3 i) by (done || lia).
    destruct (decide (3%nat = i)) as [<-|]; [done|].
    unfold r3. rewrite (copy_field_field "MinTimestampMs" n ro r2 5 i) by (done || lia).
    destruct (decide (5%nat = i)) as [<-|]; [done|].
    unfold r2. rewrite (copy_field_field "MinTimestampMsTemplate" n ro r1 1 i) by (done || lia).
    destruct (decide (1%nat = i)) as [<-|]; [done|].
    unfold r1. rewrite (copy_field_field "HasMoreBefore" n ro ru 7 i) by (done || lia).
    destruct (decide (7%nat = i)) as [<-|]; [done|]. rewrite decide_False; [done|]. set_solver. }
  unfold range_int, range_str, range_bool, row_int, row_str, row_bool.
  rewrite (Hf "MinTimestampMs"%string 5%nat), (Hf "MinMessageId"%string 3%nat),
    (Hf "HasMoreBefore"%string 7%nat), (Hf "MaxTimestampMs"%string 6%nat) by reflexivity.
  done.
Qed.

(** ** Collecting *)

(** A range row with all its columns. *)
Definition range_row (u : UpsertMessages) (r : Inst) : Prop := Range u = Some r /\ length (ifields r) = 11%nat.

(** The room left after an upsert, and whether it ends the collection. *)
Definition completes (c : BackfillCollector) (u : UpsertMessages) (rng : Inst) : bool :=
  (room (MaxMessages c) (length (Messages u)) =? 0) || negb (range_bool "HasMoreBefore" rng) ||
  (Forward c && match c_anchor c with
                | Some a => range_int "MinTimestampMs" rng <=? anchor_ts a
                | None => false
                end).

Lemma collect_accepts k c u crng rng : range_row (collected c) crng -> range_row u rng ->
  range_int "MaxTimestampMsTemplate" rng <= range_int "MinTimestampMs" crng ->
  exists c' rj, range_row (collected c') rj /\ c_id c' = c_id c /\
    Messages (collected c') = Messages (collected c) ++ Messages u /\
    range_int "MinTimestampMs" rj = range_int "MinTimestampMs" rng /\
    range_bool "HasMoreBefore" rj = range_bool "HasMoreBefore" rng /\
    MaxMessages c' = room (MaxMessages c) (length (Messages u)) /\
    Forward c' = Forward c /\ c_anchor c' = c_anchor c /\
    collect k c u = Ok (if completes c u rng then Complete c'
                        else NeedsMore c' (mkHistoryRequest k (range_int "MinTimestampMs" rng)
                                             (range_str "MinMessageId" rng))).
Proof.
  intros [Hc Lc] [Hu Lu] Hle. unfold collect. rewrite Hc, Hu.
  replace (_ >? _) with false by (symmetry; rewrite Z.gtb_ltb; apply Z.ltb_ge; lia).
  destruct (Join_range (collected c) u crng rng Hc Hu Lc Lu) as (rj & -> & Lj & Hmin & _ & Hmore & _).
  cbn [mbind res_bind Range].
  exists (mkCollector (c_id c)
    (mkUpsertMessages (Some rj) (Messages (collected c) ++ Messages u) (MarkRead (collected c)))
    (room (MaxMessages c) (length (Messages u))) (Forward c) (c_anchor c)), rj. split; [split; [reflexivity|done]|]. cbn.
  split_and!; [reflexivity..|done|done|reflexivity|reflexivity|reflexivity|].
  rewrite Hmin. unfold completes.
  destruct (room _ _ =? 0), (range_bool "HasMoreBefore" rng), (Forward c), (c_anchor c) as [a|]; cbn; try done;
    by destruct (range_int "MinTimestampMs" rng <=? anchor_ts a).
Qed.

(** What a collector does with an upsert.  One that starts after the collected messages is
    ignored.  Any other is appended, the collection then starts where the upsert does, and it is
    handed over exactly when the room is used up, when nothing comes before, or when a forward
    backfill has reached its anchor; otherwise the history before the upsert is requested. *)
Theorem collector_step k c u crng rng (Hc : range_row (collected c) crng) (Hu : range_row u rng) :
  (range_int "MaxTimestampMsTemplate" rng > range_int "MinTimestampMs" crng ->
     collect k c u = Ok Unexpected) /\
  (range_int "MaxTimestampMsTemplate" rng <= range_int "MinTimestampMs" crng ->
     exists c', Messages (collected c') = Messages (collected c) ++ Messages u /\
       range_int "MinTimestampMs" <$> Range (collected c') = Some (range_int "MinTimestampMs" rng) /\
       MaxMessages c' = room (MaxMessages c) (length (Messages u)) /\
       collect k c u = Ok (if completes c u rng then Complete c'
                           else NeedsMore c' (mkHistoryRequest k (range_int "MinTimestampMs" rng)
                                                (range_str "MinMessageId" rng)))).
Proof.
  split.
  - intros Hgt. unfold collect. destruct Hc as [-> _], Hu as [-> _].
    by replace (_ >? _) with true by (symmetry; rewrite Z.gtb_ltb; apply Z.ltb_lt; lia).
  - intros Hle. destruct (collect_accepts k c u crng rng Hc Hu Hle)
      as (c' & rj & [Hj _] & _ & Hm & Hmin & _ & Hroom & _ & _ & Hcol).
    exists c'. split_and!; [done|by rewrite Hj; cbn; rewrite Hmin|done|done].
Qed.

(** Upserts that come in order: each ends where the collection starts. *)
Fixpoint in_order (min : Z) (us : list UpsertMessages) : Prop :=
  match us with
  | [] => True
  | u :: us => exists rng, range_row u rng /\ range_int "MaxTimestampMsTemplate" rng <= min /\
                 Messages u <> [] /\ in_order (range_int "MinTimestampMs" rng) us
  end.

Fixpoint collect_all (k : Z) (c : BackfillCollector) (us : list UpsertMessages) : res Collected :=
  match us with
  | [] => Ok (NeedsMore c (mkHistoryRequest k 0 ""))
  | u :: us =>
      r ← collect k c u;
      match r with
      | NeedsMore c' _ => collect_all k c' us
      | _ => Ok r
      end
  end.

(** A collection with a limit ends: however many messages the server has, as many non-empty
    upserts in order as the limit allows complete the collector, and what is collected is exactly
    the messages of the upserts up to the last one taken. *)
Theorem collection_ends us : forall k c crng,
  range_row (collected c) crng -> in_order (range_int "MinTimestampMs" crng) us ->
  0 < MaxMessages c <= llen us ->
  exists c' n, (0 < n)%nat /\ collect_all k c us = Ok (Complete c') /\
    Messages (collected c') = Messages (collected c) ++ (take n us ≫= Messages).
Proof.
  induction us as [|u us IH]; intros k c crng Hc Hord Hmax; [cbn in Hmax; lia|].
  destruct Hord as (rng & Hu & Hle & Hne & Hord).
  destruct (collect_accepts k c u crng rng Hc Hu Hle)
    as (c' & rj & Hj & _ & Hm & Hmin & _ & Hroom & _ & _ & Hcol).
  cbn [collect_all]. rewrite Hcol. cbn [mbind res_bind].
  destruct (completes c u rng) eqn:Ec.
  - exists c', 1%nat. split_and!; [lia|done|]. cbn. by rewrite app_nil_r.
  - unfold completes in Ec. rewrite !orb_false_iff in Ec. destruct Ec as [[Ec _] _].
    apply Z.eqb_neq in Ec. unfold room in *.
    replace (MaxMessages c >? 0) with true in * by (symmetry; rewrite Z.gtb_ltb; apply Z.ltb_lt; lia).
    destruct (IH k c' rj Hj) as (c'' & n & Hn & Hall & Hmsgs).
    + by rewrite Hmin.
    + rewrite Hroom. destruct (Messages u); [done|]. cbn [length] in *. lia.
    + exists c'', (S n). split_and!; [lia|done|]. cbn. by rewrite Hmsgs, Hm, app_assoc.
Qed.

(** ** Ordering *)

Lemma compact_from_sublist l : forall last, compact_from last l `sublist_of` l.
Proof.
  induction l as [|w l IH]; intros last; cbn; [done|].
  destruct (MessageId w =? last)%string; [by apply sublist_cons|by apply sublist_skip].
Qed.

Lemma compact_sublist l : compact l `sublist_of` l.
Proof. destruct l; [done|]. apply sublist_skip, compact_from_sublist. Qed.

(** Every id is kept. *)
Lemma compact_from_ids l : forall last w, w ∈ l ->
  MessageId w = last \/ exists w', w' ∈ compact_from last l /\ MessageId w' = MessageId w.
Proof.
  induction l as [|x l IH]; intros last w Hw; [by apply not_elem_of_nil in Hw|]. cbn.
  destruct (String.eqb_spec (MessageId x) last) as [Hx|Hx].
  - apply elem_of_cons in Hw as [->|Hw]; [by left|by apply IH].
  - right. apply elem_of_cons in Hw as [->|Hw]; [exists x; split; [left|done]|].
    destruct (IH (MessageId x) w Hw) as [E|(w' & Hw' & E)]; [exists x; split; [left|done]|].
    exists w'. split; [by right|done].
Qed.

Lemma compact_ids l w : w ∈ l -> exists w', w' ∈ compact l /\ MessageId w' = MessageId w.
Proof.
  destruct l as [|x l]; intros Hw; [by apply not_elem_of_nil in Hw|]. cbn.
  apply elem_of_cons in Hw as [->|Hw]; [exists x; split; [left|done]|].
  destruct (compact_from_ids l (MessageId x) w Hw) as [E|(w' & Hw' & E)]; [exists x; split; [left|done]|].
  exists w'. split; [by right|done].
Qed.

Lemma fmap_sublist {A B} (f : A -> B) k l : k `sublist_of` l -> f <$> k `sublist_of` f <$> l.
Proof. induction 1; cbn; by constructor. Qed.

Lemma sorted_sublist {A} (R : A -> A -> Prop) l k : k `sublist_of` l -> StronglySorted R l -> StronglySorted R k.
Proof.
  intros Hs. induction Hs as [|x k l Hs IH|x k l Hs IH]; intros Hl; [done|..]; inversion Hl as [|? ? Hl1 Hl2]; subst.
  - constructor; [by apply IH|]. rewrite List.Forall_forall in *. intros y Hy. apply Hl2.
    apply list_elem_of_In. apply list_elem_of_In in Hy. by eapply elem_of_sublist.
  - by apply IH.
Qed.

(** In a list where equal ids go with equal keys, sorted messages of one id are neighbours. *)
Definition keyed (l : list WrappedMessage) : Prop :=
  forall a b, a ∈ l -> b ∈ l -> MessageId a = MessageId b <-> sort_cmp a b = Eq.

Lemma sort_le_trans a b c : sort_le a b -> sort_le b c -> sort_le a c.
Proof.
  unfold sort_le, sort_cmp. intros H1 H2.
  destruct (Z.compare_spec (PrimarySortKey a) (PrimarySortKey b)) as [E1|L1|G1]; [| |done];
    destruct (Z.compare_spec (PrimarySortKey b) (PrimarySortKey c)) as [E2|L2|G2]; try done;
    destruct (Z.compare_spec (PrimarySortKey a) (PrimarySortKey c)); try lia; try done.
  destruct (Z.compare_spec (SecondarySortKey a) (SecondarySortKey b)); [| |done];
    destruct (Z.compare_spec (SecondarySortKey b) (SecondarySortKey c)); try done;
    destruct (Z.compare_spec (SecondarySortKey a) (SecondarySortKey c)); try lia; done.
Qed.

Lemma sort_cmp_flip a b : sort_cmp a b = Eq -> sort_cmp b a = Eq.
Proof.
  unfold sort_cmp. rewrite (Z.compare_antisym (PrimarySortKey a)), (Z.compare_antisym (SecondarySortKey a)).
  by destruct (PrimarySortKey a ?= _), (SecondarySortKey a ?= _).
Qed.

Lemma sort_le_antisym a b : sort_le a b -> sort_le b a -> sort_cmp a b = Eq.
Proof.
  unfold sort_le, sort_cmp. rewrite (Z.compare_antisym (PrimarySortKey a)), (Z.compare_antisym (SecondarySortKey a)).
  by destruct (PrimarySortKey a ?= _), (SecondarySortKey a ?= _).
Qed.

Lemma compact_from_NoDup l : forall last prev, MessageId prev = last ->
  keyed (prev :: l) -> StronglySorted sort_le (prev :: l) ->
  NoDup (last :: (MessageId <$> compact_from last l)).
Proof.
  induction l as [|w l IH]; intros last prev Hp Hk Hs; [cbn; apply NoDup_singleton|]. cbn.
  inversion Hs as [|? ? Hs1 Hs2]; subst.
  assert (keyed (w :: l)) as Hk' by (intros a b Ha Hb; apply Hk; by right).
  destruct (String.eqb_spec (MessageId w) (MessageId prev)) as [E|Hne].
  - rewrite <- E. by apply (IH _ w).
  - specialize (IH (MessageId w) w eq_refl Hk' Hs1). cbn. apply NoDup_cons. split; [|exact IH].
    rewrite elem_of_cons. intros [E|Hin]; [by rewrite E in Hne|].
    apply list_elem_of_fmap in Hin as (x & Ex & Hx).
    assert (x ∈ l) as Hxl by (eapply elem_of_sublist; [exact Hx|apply compact_from_sublist]).
    rewrite List.Forall_forall in Hs2. inversion Hs1 as [|? ? _ Hw]; subst.
    rewrite List.Forall_forall in Hw. apply Hne. apply Hk; [right; left|left|].
    apply sort_cmp_flip. apply sort_le_antisym; [apply Hs2; by left|].
    eapply sort_le_trans; [apply Hw; by apply list_elem_of_In|].
    unfold sort_le. rewrite (sort_cmp_flip prev x); [done|]. apply Hk; [left|right; by right|done].
Qed.

Lemma compact_NoDup l : keyed l -> StronglySorted sort_le l -> NoDup (MessageId <$> compact l).
Proof.
  destruct l as [|w l]; intros Hk Hs; [constructor|]. cbn. by apply (compact_from_NoDup l _ w).
Qed.

Section Order.
Context (SortFunc : list WrappedMessage -> list WrappedMessage).
Context (SortFunc_perm : forall l, SortFunc l ≡ₚ l).
Context (SortFunc_sorted : forall l, StronglySorted sort_le (SortFunc l)).

(** The messages of a backfill are in the order of their sort keys, all come from the batch and
    lie beyond the anchor; a message of the batch is missing only if its id is there already or
    some copy of it is not beyond the anchor; and no id comes twice when ids and sort keys
    determine each other. *)
Theorem backfill_ordered anchor forward l :
  let out := backfill_order SortFunc anchor forward l in
  StronglySorted sort_le out /\
  (forall w, w ∈ out -> w ∈ l /\ beyond_anchor anchor forward w = true) /\
  (forall w, w ∈ l ->
     (exists w', w' ∈ out /\ MessageId w' = MessageId w) \/
     (exists w', w' ∈ l /\ MessageId w' = MessageId w /\ beyond_anchor anchor forward w' = false)) /\
  (keyed l -> NoDup (MessageId <$> out)).
Proof.
  cbn zeta. unfold backfill_order. set (s := SortFunc (rev l)).
  assert (s ≡ₚ l) as Hp by (unfold s; by rewrite SortFunc_perm, <- Permutation_rev).
  assert (forall w, w ∈ compact s -> w ∈ l) as Hin.
  { intros w Hw. rewrite <- Hp. eapply elem_of_sublist; [exact Hw|apply compact_sublist]. }
  pose proof (SortFunc_sorted (rev l)) as Hs. fold s in Hs.
  split_and!.
  - eapply sorted_sublist; [apply sublist_filter|]. eapply sorted_sublist; [apply compact_sublist|done].
  - intros w Hw. apply list_elem_of_filter in Hw as [Hb Hw]. split; [by apply Hin|done].
  - intros w Hw. assert (w ∈ s) as Hws by by rewrite Hp.
    destruct (compact_ids s w Hws) as (w' & Hw' & E).
    destruct (beyond_anchor anchor forward w') eqn:Eb; [left|right]; exists w'.
    + split; [|done]. apply list_elem_of_filter. done.
    + split_and!; [by apply Hin|done|done].
  - intros Hk. eapply sublist_NoDup; [apply (compact_NoDup s); [|done]|].
    2: { apply fmap_sublist, sublist_filter. }
    intros a b Ha Hb. rewrite Hp in Ha, Hb. by apply Hk.
Qed.
End Order.

(** A gap is never filled: when a thread's row shows activity after the last known message and
    no messages came with it, the resync asks for a forward backfill, and that dereferences the
    nil bundle it passes on (every thread but an encrypted group, and any anchor). *)
Theorem gap_backfill_panics {JID : Type} (ParseJID : string -> option JID) raw last tt portal count
    (Hnew : thread_int "LastActivityTimestampMs" raw > anchor_ts last)
    (Htype : tt <> ENCRYPTED_OVER_WA_GROUP) (Hid : ParseFBPortalID portal <> 0) :
  CheckNeedsBackfill None (Some raw) (Some last) = Ok true /\
  FetchMessages_plan ParseJID (mkFetchParams tt portal true (GetBundledBackfillData None) count (Some last)) = Panic.
Proof.
  split.
  - cbn. f_equal. rewrite Z.gtb_ltb. apply Z.ltb_lt. lia.
  - unfold FetchMessages_plan. cbn [f_threadType f_portalID f_forward f_bundled f_anchor].
    destruct (Z.eqb_spec tt ENCRYPTED_OVER_WA_GROUP); [done|].
    by destruct (Z.eqb_spec (ParseFBPortalID portal) 0).
Qed.

(** ** Witnesses *)

#[global] Instance sort_le_dec a b : Decision (sort_le a b).
Proof. unfold sort_le. destruct (sort_cmp a b); (by left) || (by right; intros H; apply H). Defined.

#[global] Instance sort_le_total : Total sort_le.
Proof.
  intros a b. unfold sort_le, sort_cmp.
  rewrite (Z.compare_antisym (PrimarySortKey a)), (Z.compare_antisym (SecondarySortKey a)).
  destruct (PrimarySortKey a ?= _), (SecondarySortKey a ?= _); cbn; auto.
Qed.

#[global] Instance sort_le_transitive : Transitive sort_le.
Proof. intros a b c. apply sort_le_trans. Qed.

Definition sample_sort (l : list WrappedMessage) : list WrappedMessage := merge_sort sort_le l.

Definition sample_message (i : string) (ts : Z) : WrappedMessage :=
  wrap (row_set LSInsertMessage "MessageId" (VStr i)
         (row_set LSInsertMessage "TimestampMs" (VInt64 ts)
           (row_set LSInsertMessage "PrimarySortKey" (VInt64 ts) (reflect_New LSInsertMessage)))) true.
(** Newest first, one message twice, and one that the anchor excludes. *)
Definition sample_batch : list WrappedMessage :=
  [sample_message "c" 30; sample_message "b" 20; sample_message "b" 20; sample_message "a" 10].
Definition sample_anchor : option Anchor := Some (mkAnchor "fb:a" 10).

Lemma backfill_ordered_witness :
  let out := backfill_order sample_sort sample_anchor true sample_batch in
  (MessageId <$> out) = ["b"%string; "c"%string] /\
  StronglySorted sort_le out /\
  (forall w, w ∈ out -> w ∈ sample_batch /\ beyond_anchor sample_anchor true w = true) /\
  (forall w, w ∈ sample_batch ->
     (exists w', w' ∈ out /\ MessageId w' = MessageId w) \/
     (exists w', w' ∈ sample_batch /\ MessageId w' = MessageId w /\
                 beyond_anchor sample_anchor true w' = false)) /\
  (keyed sample_batch -> NoDup (MessageId <$> out)).
Proof.
  cbn zeta. split; [vm_compute; reflexivity|]. apply (backfill_ordered sample_sort).
  - intros l. apply merge_sort_Permutation.
  - intros l. apply StronglySorted_merge_sort; apply _.
Defined.

(** A range from [min] to [max] and an upsert of one message. *)
Definition sample_range (min max : Z) (more : bool) : Inst :=
  mkInst [VInt64 5; VInt64 min; VInt64 max; VStr "mid.a"; VStr "mid.b"; VInt64 min; VInt64 max; VBool more;
          VBool true; VNil; VNil] None.
Definition sample_upsert (min max : Z) (p : nat) : UpsertMessages :=
  mkUpsertMessages (Some (sample_range min max true)) [p] false.
Definition sample_collector (n : Z) : BackfillCollector :=
  mkCollector 0 (mkUpsertMessages (Some (sample_range 100 100 true)) [] false) n false None.

Lemma collector_step_witness :
  (range_int "MaxTimestampMsTemplate" (sample_range 50 90 true) > range_int "MinTimestampMs" (sample_range 100 100 true) ->
     collect 5 (sample_collector 9) (sample_upsert 50 90 0) = Ok Unexpected) /\
  (range_int "MaxTimestampMsTemplate" (sample_range 50 90 true) <= range_int "MinTimestampMs" (sample_range 100 100 true) ->
     exists c', Messages (collected c') = [] ++ [0%nat] /\
       range_int "MinTimestampMs" <$> Range (collected c') = Some (range_int "MinTimestampMs" (sample_range 50 90 true)) /\
       MaxMessages c' = room 9 1 /\
       collect 5 (sample_collector 9) (sample_upsert 50 90 0) =
         Ok (if completes (sample_collector 9) (sample_upsert 50 90 0) (sample_range 50 90 true) then Complete c'
             else NeedsMore c' (mkHistoryRequest 5 (range_int "MinTimestampMs" (sample_range 50 90 true))
                                  (range_str "MinMessageId" (sample_range 50 90 true))))).
Proof.
  exact (collector_step 5 (sample_collector 9) (sample_upsert 50 90 0) (sample_range 100 100 true)
    (sample_range 50 90 true) (conj eq_refl eq_refl) (conj eq_refl eq_refl)).
Defined.

Lemma collection_ends_witness :
  exists c' n, (0 < n)%nat /\
    collect_all 5 (sample_collector 2) [sample_upsert 50 90 0; sample_upsert 20 40 1] = Ok (Complete c') /\
    Messages (collected c') = [] ++ (take n [sample_upsert 50 90 0; sample_upsert 20 40 1] ≫= Messages).
Proof.
  apply (collection_ends [sample_upsert 50 90 0; sample_upsert 20 40 1] 5 (sample_collector 2)
           (sample_range 100 100 true)).
  - split; reflexivity.
  - exists (sample_range 50 90 true). split_and!; [split; reflexivity|vm_compute; discriminate|done|].
    exists (sample_range 20 40 true). split_and!; [split; reflexivity|vm_compute; discriminate|done|exact I].
  - cbn. lia.
Defined.

Definition sample_thread (activity : Z) : Inst :=
  row_set LSDeleteThenInsertThread "LastActivityTimestampMs" (VInt64 activity) (reflect_New LSDeleteThenInsertThread).

Lemma gap_backfill_panics_witness :
  CheckNeedsBackfill None (Some (sample_thread 20)) (Some (mkAnchor "fb:mid.x" 10)) = Ok true /\
  FetchMessages_plan (fun _ => None : option unit)
    (mkFetchParams ONE_TO_ONE "77" true (GetBundledBackfillData None) 5 (Some (mkAnchor "fb:mid.x" 10))) = Panic.
Proof.
  apply gap_backfill_panics; [vm_compute; reflexivity|discriminate|vm_compute; discriminate].
Defined.
