(* ===== verification/RemoteEvents.v ===== *)
(** * RemoteEvents: from a table to events of the bridge ([connector/handlemeta.go])

    [parseTable] turns the rows of a table into the events the framework handles, in an order
    that matters: deletions first, changes of a thread folded into its resync, the resyncs
    before the messages.  The handlers share maps (threads the table verifies, threads it
    resyncs), the backfill collectors and the database; these are the fields of the state they
    pass on.  Parameters: the URL parser, the order in which Go ranges over a map, the lookup
    of an edited message in the framework's database, and which reads of the bridge's database
    fail. *)

From S2P Require Import Prelude Strconv Lightspeed TableKinds TableThreads TableMessages Tables.
From S2P Require Import WrapMessages MetaID MetaDB ChatInfo Backfill.
#[local] Open Scope Z_scope.

(** ** Events *)

(** [FBChatResync]; without a thread row it only carries messages. *)
Record FBChatResync := mkFBChatResync {
  Raw : option Inst;
  r_portal : PortalKey;
  Info : option ChatInfo;
  r_members : gmap Z ChatMember;
  r_backfill : option UpsertMessages;
  UpsertID : Z;
  UncertainReceiver : bool
}.

Inductive ChatInfoChange :=
| ChangeName (n : string)
| ChangeAvatar (a : Avatar)
| ChangeMuted (u : MutedUntil)
| ChangeMembers (l : list ChatMember)
| ChangeUpdates (us : list ExtraUpdater).

(** The message an edit targets, from the framework's database: its room and sender. *)
Record OrigMessage := mkOrigMessage { Room : PortalKey; SenderID : string }.

(** Times are in milliseconds; [None] is the zero time. *)
Inductive RemoteEvent :=
| FBFolderResync (k : PortalKey) (folder : Inst)
| VerifyThreadExistsEvent (vte : Inst)
| ChatResync (r : FBChatResync)
| ChatDelete (k : PortalKey) (uncertain onlyForMe : bool)
| ChatInfoChangeEvent (k : PortalKey) (uncertain : bool) (c : ChatInfoChange)
| FBMessageEvent (k : PortalKey) (uncertain : bool) (msg : ptr)
| FBEditEvent (edit : Inst) (orig : OrigMessage)
| Receipt (k : PortalKey) (uncertain : bool) (sender : EventSender) (timestamp : option Z) (readUpTo : Z)
| Typing (k : PortalKey) (uncertain : bool) (sender : EventSender) (timeout_s : Z)
| MessageRemove (k : PortalKey) (uncertain : bool) (target : string)
| Reaction (k : PortalKey) (uncertain : bool) (sender : EventSender) (target emoji : string) (remove : bool).

(** ** State *)

(** [edits]: the channels of edits under way, with what they hold (at most five). *)
Record PS := mkPS {
  msgs : list WrappedMessage;
  vtes : gmap Z Inst;
  syncs : gmap Z FBChatResync;
  bf : BackfillState;
  db : MetaDB;
  igThreadIDs : gmap string Z;
  editChannels : gmap string (list Inst);
  queue : list RemoteEvent
}.

Definition set_msgs (x : list WrappedMessage) (s : PS) : PS :=
  mkPS x (vtes s) (syncs s) (bf s) (db s) (igThreadIDs s) (editChannels s) (queue s).
Definition set_vtes (x : gmap Z Inst) (s : PS) : PS :=
  mkPS (msgs s) x (syncs s) (bf s) (db s) (igThreadIDs s) (editChannels s) (queue s).
Definition set_syncs (x : gmap Z FBChatResync) (s : PS) : PS :=
  mkPS (msgs s) (vtes s) x (bf s) (db s) (igThreadIDs s) (editChannels s) (queue s).
Definition set_bf (x : BackfillState) (s : PS) : PS :=
  mkPS (msgs s) (vtes s) (syncs s) x (db s) (igThreadIDs s) (editChannels s) (queue s).
Definition set_db (x : MetaDB) (s : PS) : PS :=
  mkPS (msgs s) (vtes s) (syncs s) (bf s) x (igThreadIDs s) (editChannels s) (queue s).
Definition set_ig (x : gmap string Z) (s : PS) : PS :=
  mkPS (msgs s) (vtes s) (syncs s) (bf s) (db s) x (editChannels s) (queue s).
Definition set_edits (x : gmap string (list Inst)) (s : PS) : PS :=
  mkPS (msgs s) (vtes s) (syncs s) (bf s) (db s) (igThreadIDs s) x (queue s).
Definition enqueue (l : list RemoteEvent) (s : PS) : PS :=
  mkPS (msgs s) (vtes s) (syncs s) (bf s) (db s) (igThreadIDs s) (editChannels s) (queue s ++ l).

(** What a handler returns: an event or nil, and the state. *)
Abbreviation Handler A := (A -> PS -> res (option RemoteEvent * PS)).

(** [handlerParams].  [SyncKey] is the row's own thread key, under which its resync is found:
    a subthread's row goes to the portal of the parent, [ID]. *)
Record handlerParams := mkHandlerParams {
  ID : Z;
  Type_ : Z;
  Portal : PortalKey;
  SyncKey : Z;
  ThreadMsgID : string
}.

Definition IsUncertainReceiver (tk : handlerParams) : bool := Type_ tk =? UNKNOWN_THREAD_TYPE.

(** [tk.Sync]. *)
Definition Sync (tk : handlerParams) (s : PS) : option FBChatResync := syncs s !! SyncKey tk.

Definition set_sync (tk : handlerParams) (r : FBChatResync) (s : PS) : PS :=
  set_syncs (<[SyncKey tk := r]> (syncs s)) s.
Definition with_info (f : ChatInfo -> ChatInfo) (r : FBChatResync) : FBChatResync :=
  mkFBChatResync (Raw r) (r_portal r) (f <$> Info r) (r_members r) (r_backfill r) (UpsertID r)
    (UncertainReceiver r).
Definition with_member (i : Z) (cm : ChatMember) (r : FBChatResync) : FBChatResync :=
  mkFBChatResync (Raw r) (r_portal r) (Info r) (<[i := cm]> (r_members r)) (r_backfill r) (UpsertID r)
    (UncertainReceiver r).
Definition with_backfill (u : UpsertMessages) (i : Z) (r : FBChatResync) : FBChatResync :=
  mkFBChatResync (Raw r) (r_portal r) (Info r) (r_members r) (Some u) i (UncertainReceiver r).

Section Handlers.
Context (m : Login) (avatar_id : string -> option string).
Context (parse_url : string -> option (string * string)).

Definition wrapChatInfoChange (threadKey threadType : Z) (c : ChatInfoChange) : RemoteEvent :=
  ChatInfoChangeEvent (makeFBPortalKey m threadKey threadType) (threadType =? UNKNOWN_THREAD_TYPE) c.

(** ** Threads *)

(** [handleDeleteThreadKey]: [active] are the threads with rows of their own in the table. *)
Definition handleDeleteThreadKey (active : gset Z) (tk : handlerParams) (threadKey : Z) (onlyForMe : bool)
    (s : PS) : res (option RemoteEvent * PS) :=
  if decide (threadKey ∈ active) then Ok (None, s)
  else Ok (Some (ChatDelete (Portal tk) (IsUncertainReceiver tk) onlyForMe),
           set_vtes (delete threadKey (vtes s)) s).

Definition handleDeleteThread (active : gset Z) (tk : handlerParams) : Handler Inst := fun row s =>
  handleDeleteThreadKey active tk (row_int LSDeleteThread "ThreadKey" row) false s.

Definition participant_key := row_int LSRemoveParticipantFromThread "ThreadKey".
Definition participant_id := row_int LSRemoveParticipantFromThread "ParticipantId".

Definition handleSelfLeaveThread (active : gset Z) (tk : handlerParams) : Handler Inst := fun row s =>
  if negb (MakeUserLoginID (participant_id row) =? LoginID m)%string then Ok (None, s)
  else handleDeleteThreadKey active tk (participant_key row) true s.

Definition handleRemoveParticipant (tk : handlerParams) : Handler Inst := fun row s =>
  Ok (Some (wrapChatInfoChange (participant_key row) (Type_ tk)
        (ChangeMembers [mkChatMember (makeEventSender m (participant_id row)) None MembershipLeave
                          MembershipJoin None])), s).

Definition handleAddParticipant (tk : handlerParams) : Handler Inst := fun row s =>
  let contact := row_int LSAddParticipantIdToGroupThread "ContactId" row in
  match Sync tk s with
  | Some r => Ok (None, set_sync tk (with_member contact (wrapChatMember m row) r) s)
  | None => Ok (Some (wrapChatInfoChange (row_int LSAddParticipantIdToGroupThread "ThreadKey" row) (Type_ tk)
                        (ChangeMembers [wrapChatMember m row])), s)
  end.

Definition handleUpdateMuteSetting (tk : handlerParams) : Handler Inst := fun row s =>
  let ms := row_int LSUpdateThreadMuteSetting "MuteExpireTimeMS" row in
  let mutedUntil := if ms <? 0 then MutedForever else MutedUntilMs ms in
  match Sync tk s with
  | Some r => Ok (None, set_sync tk (with_info (set_muted (Some mutedUntil)) r) s)
  | None => Ok (Some (wrapChatInfoChange (ID tk) (Type_ tk) (ChangeMuted mutedUntil)), s)
  end.

Definition handleMoveThreadToE2EE (tk : handlerParams) : Handler Inst := fun _ s =>
  match Sync tk s with
  | Some r => Ok (None, set_sync tk (with_info (add_updater MarkPortalAsEncrypted) r) s)
  | None => Ok (Some (wrapChatInfoChange (ID tk) (Type_ tk) (ChangeUpdates [MarkPortalAsEncrypted])), s)
  end.

Definition handleUpdateThreadName (tk : handlerParams) : Handler Inst := fun row s =>
  if IsOneToOne (Type_ tk) && negb (PrivateChatPortalMeta m) then Ok (None, s)
  else Ok (Some (wrapChatInfoChange (ID tk) (Type_ tk)
                   (ChangeName (row_str LSSyncUpdateThreadName "ThreadName" row))), s).

Definition handleSetThreadImage (tk : handlerParams) : Handler Inst := fun row s =>
  if IsOneToOne (Type_ tk) && negb (PrivateChatPortalMeta m) then Ok (None, s)
  else a ← wrapAvatar avatar_id (row_str LSSetThreadImageURL "ImageURL" row);
       Ok (Some (wrapChatInfoChange (ID tk) (Type_ tk) (ChangeAvatar a)), s).

(** ** Receipts, typing, deletions, reactions *)

Definition handleMarkThreadRead (tk : handlerParams) : Handler Inst := fun row s =>
  Ok (Some (Receipt (Portal tk) (IsUncertainReceiver tk) (selfEventSender m) None
              (row_int LSMarkThreadReadV2 "LastReadWatermarkTimestampMs" row)), s).

Definition handleUpdateReadReceipt (tk : handlerParams) : Handler Inst := fun row s =>
  let get := row_int LSUpdateReadReceipt in
  let ts := get "ReadActionTimestampMs" row in
  Ok (Some (Receipt (Portal tk) (IsUncertainReceiver tk) (makeEventSender m (get "ContactId" row))
              (if ts >? 0 then Some ts else None) (get "ReadWatermarkTimestampMs" row)), s).

Definition handleTypingIndicator (tk : handlerParams) : Handler Inst := fun row s =>
  Ok (Some (Typing (Portal tk) (IsUncertainReceiver tk)
              (makeEventSender m (row_int LSUpdateTypingIndicator "SenderId" row))
              (if row_bool LSUpdateTypingIndicator "IsTyping" row then 5 else 0)), s).

Definition wrapMessageDelete (tk : handlerParams) (messageID : string) : RemoteEvent :=
  MessageRemove (Portal tk) (IsUncertainReceiver tk) (MakeFBMessageID messageID).

Definition handleDeleteMessage (tk : handlerParams) : Handler Inst := fun row s =>
  Ok (Some (wrapMessageDelete tk (row_str LSDeleteMessage "MessageId" row)), s).

Definition handleDeleteThenInsertMessage (tk : handlerParams) : Handler Inst := fun row s =>
  if negb (row_bool LSDeleteThenInsertMessage "IsUnsent" row) then Ok (None, s)
  else Ok (Some (wrapMessageDelete tk (row_str LSDeleteThenInsertMessage "MessageId" row)), s).

Definition wrapReaction (tk : handlerParams) (sender : Z) (messageID emoji : string) : RemoteEvent :=
  Reaction (Portal tk) (IsUncertainReceiver tk) (makeEventSender m sender) (MakeFBMessageID messageID) emoji
    (emoji =? "")%string.

Definition handleUpsertReaction (tk : handlerParams) : Handler Inst := fun row s =>
  Ok (Some (wrapReaction tk (row_int LSUpsertReaction "ActorId" row) (row_str LSUpsertReaction "MessageId" row)
              (row_str LSUpsertReaction "Reaction" row)), s).

Definition handleDeleteReaction (tk : handlerParams) : Handler Inst := fun row s =>
  Ok (Some (wrapReaction tk (row_int LSDeleteReaction "ActorId" row) (row_str LSDeleteReaction "MessageId" row)
              ""), s).

(** ** Messages *)

Definition set_thread_id (i : string) (w : WrappedMessage) : WrappedMessage :=
  mkWrappedMessage (LSInsert w) (IsUpsert w) (BlobAttachments w) (Attachments w) (XMAAttachments w)
    (Stickers w) (Reactions w) i (IsSubthreadStart w).

Definition handleMessageInsert (tk : handlerParams) : Handler ptr := fun p s =>
  match msgs s !! p with
  | None => Panic
  | Some w =>
      let '(d, w) := handleSubthread parse_url (db s) w in
      Ok (Some (FBMessageEvent (Portal tk) (IsUncertainReceiver tk) p),
          set_msgs (<[p := set_thread_id (ThreadMsgID tk) w]> (msgs s)) (set_db d s))
  end.

(** [handleUpsertMessages] (backfill.go): a collector takes the messages, or the thread's resync,
    or an event of their own. *)
Definition handleUpsertMessages (tk : handlerParams) : Handler UpsertMessages := fun u s =>
  let b := next_upsert (bf s) in
  match Range u with
  | None => Panic
  | Some _ =>
      match backfillCollectors b !! ID tk with
      | Some c => b ← collect_upsert (ID tk) c u b; Ok (None, set_bf b s)
      | None =>
          match Sync tk s with
          | Some r => Ok (None, set_sync tk (with_backfill u (globalUpsertCounter b) r) (set_bf b s))
          | None => Ok (Some (ChatResync (mkFBChatResync None (Portal tk) None ∅ (Some u) (globalUpsertCounter b)
                                            (IsUncertainReceiver tk))), set_bf b s)
          end
      end
  end.

Definition handleExistingRange (tk : handlerParams) : Handler Inst := fun row s =>
  b ← handleUpdateExistingMessageRange (ID tk) row (bf s); Ok (None, set_bf b s).

(** [handleEdit]: the channel of an edit under way gets a copy while it has room. *)
Definition handleEdit (orig_message : string -> res (option OrigMessage)) (s : PS) (edit : Inst) : res PS :=
  let mid := row_str LSEditMessage "MessageID" edit in
  match orig_message (MakeFBMessageID mid) with
  | Halt h => Halt h
  | Err _ | Ok None => Ok s
  | Ok (Some orig) =>
      let s := enqueue [FBEditEvent edit orig] s in
      match editChannels s !! mid with
      | Some l => if (length l <? 5)%nat then Ok (set_edits (<[mid := l ++ [edit]]> (editChannels s)) s) else Ok s
      | None => Ok s
      end
  end.

(** ** collectPortalEvents *)

Section Collect.
Context (db_err : Z -> bool).

(** The parameters of a handler for a row of the given thread: the thread's type comes from the
    verified threads, else from the resync; a subthread goes to its parent. *)
Definition handler_params (threadKey : Z) (s : PS) : handlerParams :=
  let threadType :=
    match vtes s !! threadKey, syncs s !! threadKey with
    | Some v, _ => row_int LSVerifyThreadExists "ThreadType" v
    | None, Some r => match Raw r with Some raw => thread_int "ThreadType" raw | None => UNKNOWN_THREAD_TYPE end
    | None, None => UNKNOWN_THREAD_TYPE
    end in
  let '(parentKey, threadMsgID) := if db_err threadKey then (0, ""%string) else GetThreadByKey threadKey (db s) in
  if (threadMsgID =? "")%string
  then mkHandlerParams threadKey threadType (makeFBPortalKey m threadKey threadType) threadKey ""
  else mkHandlerParams parentKey UNKNOWN_THREAD_TYPE (makeFBPortalKey m parentKey UNKNOWN_THREAD_TYPE) threadKey
         threadMsgID.

Fixpoint collectPortalEvents {A} (GetThreadKey : PS -> A -> Z) (fn : handlerParams -> Handler A) (l : list A)
    (s : PS) : res PS :=
  match l with
  | [] => Ok s
  | x :: l =>
      '(evt, s) ← fn (handler_params (GetThreadKey s x) s) x s;
      collectPortalEvents GetThreadKey fn l
        (match evt with Some e => enqueue [e] s | None => s end)
  end.

(** ** parseTable

    [values] lists a map's values in the order Go happens to visit them. *)

Section ParseTable.
Context (values : forall V : Type, gmap Z V -> list V).
Context (orig_message : string -> res (option OrigMessage)).
Context (t : gmap string (list Inst)).

Definition key_of (s : Schema) : Inst -> Z := row_int s "ThreadKey".

(** The threads the table writes to. *)
Definition activeThreads : gset Z :=
  list_to_set ((key_of LSVerifyThreadExists <$> rows t "LSVerifyThreadExists")
               ++ (key_of LSUpdateOrInsertThread <$> rows t "LSUpdateOrInsertThread")
               ++ (range_key <$> rows t "LSInsertNewMessageRange")
               ++ (key_of LSDeleteThenInsertThread <$> rows t "LSDeleteThenInsertThread")).

(** A map by thread key: of several rows of a thread the last stays. *)
Definition by_key {V} (key : V -> Z) (l : list V) : gmap Z V := foldl (fun m x => <[key x := x]> m) ∅ l.

Definition threadExists : gmap Z Inst := by_key (key_of LSVerifyThreadExists) (rows t "LSVerifyThreadExists").
Definition folderResyncs : gset Z := list_to_set (key_of LSUpsertFolder <$> rows t "LSUpsertFolder").

Definition new_resync (syncs : gmap Z FBChatResync) (thread : Inst) : res (gmap Z FBChatResync) :=
  let threadType := thread_int "ThreadType" thread in
  info ← wrapChatInfo m avatar_id thread;
  Ok (<[thread_int "ThreadKey" thread :=
         mkFBChatResync (Some thread) (makeFBPortalKey m (thread_int "ThreadKey" thread) threadType) (Some info)
           ∅ None 0 (threadType =? UNKNOWN_THREAD_TYPE)]> syncs).

Definition threadResyncs : res (gmap Z FBChatResync) := foldM new_resync ∅ (rows t "LSDeleteThenInsertThread").

Definition folder_events : list RemoteEvent :=
  (fun f => FBFolderResync (makeFBPortalKey m (key_of LSUpsertFolder f) FOLDER) f) <$> rows t "LSUpsertFolder".

(** [collectPortalEvents] of the rows of one table. *)
Definition collect_rows (sch : Schema) (fn : handlerParams -> Handler Inst) : PS -> res PS :=
  collectPortalEvents (fun _ => key_of sch) fn (rows t (sname sch)).

Definition verify_events (s : PS) : list RemoteEvent :=
  VerifyThreadExistsEvent <$>
    filter (fun v => syncs s !! key_of LSVerifyThreadExists v = None /\
                     key_of LSVerifyThreadExists v ∉ folderResyncs) (values Inst (vtes s)).

(** Deletions come first, since they cancel what follows them. *)
Definition parse_deletions (s : PS) : res PS :=
  s ← collect_rows LSDeleteThread (handleDeleteThread activeThreads) s;
  collect_rows LSRemoveParticipantFromThread (handleSelfLeaveThread activeThreads) s.

(** What is merged into the resyncs before they are queued. *)
Definition parse_merged (upserts : list UpsertMessages) (s : PS) : res PS :=
  s ← collect_rows LSAddParticipantIdToGroupThread handleAddParticipant s;
  s ← collect_rows LSUpdateThreadMuteSetting handleUpdateMuteSetting s;
  s ← collect_rows LSMoveThreadToE2EECutoverFolder handleMoveThreadToE2EE s;
  s ← collectPortalEvents (fun s => UpsertMessages_GetThreadKey (msgs s)) handleUpsertMessages upserts s;
  collect_rows LSUpdateExistingMessageRange handleExistingRange s.

Definition message_key (s : PS) (p : ptr) : Z :=
  match msgs s !! p with Some w => insert_key (LSInsert w) | None => 0 end.

(** Messages and what refers to them. *)
Definition parse_rest (insert : list ptr) (s : PS) : res PS :=
  s ← collectPortalEvents message_key handleMessageInsert insert s;
  s ← foldM (handleEdit orig_message) s (rows t "LSEditMessage");
  s ← collect_rows LSSyncUpdateThreadName handleUpdateThreadName s;
  s ← collect_rows LSSetThreadImageURL handleSetThreadImage s;
  s ← collect_rows LSUpdateReadReceipt handleUpdateReadReceipt s;
  s ← collect_rows LSMarkThreadReadV2 handleMarkThreadRead s;
  s ← collect_rows LSUpdateTypingIndicator handleTypingIndicator s;
  s ← collect_rows LSDeleteMessage handleDeleteMessage s;
  s ← collect_rows LSDeleteThenInsertMessage handleDeleteThenInsertMessage s;
  s ← collect_rows LSUpsertReaction handleUpsertReaction s;
  s ← collect_rows LSDeleteReaction handleDeleteReaction s;
  collect_rows LSRemoveParticipantFromThread handleRemoveParticipant s.

(** [putFBIDForIGThread]: an id the cache holds with this key is not written again. *)
Definition putFBIDForIGThread (igid : string) (fbid : Z) (s : PS) : PS :=
  if default 0 (igThreadIDs s !! igid) =? fbid then s
  else set_ig (<[igid := fbid]> (igThreadIDs s)) (set_db (PutFBIDForIGThread igid fbid (db s)) s).

Definition put_ig_thread (s : PS) (i : Inst) : PS :=
  putFBIDForIGThread (row_str LSDeleteThenInsertIgThreadInfo "IgThreadId" i)
    (key_of LSDeleteThenInsertIgThreadInfo i) s.

Definition parseTable (b : BackfillState) (d : MetaDB) (ig : gmap string Z) (edits : gmap string (list Inst))
    : res PS :=
  resyncs ← threadResyncs;
  s ← parse_deletions (mkPS [] threadExists resyncs b d ig edits folder_events);
  '(h, upsert, insert) ← WrapMessages t;
  s ← parse_merged (values UpsertMessages upsert) (set_msgs h (enqueue (verify_events s) s));
  s ← parse_rest insert (enqueue (ChatResync <$> values FBChatResync (syncs s)) s);
  Ok (foldl put_ig_thread s (rows t "LSDeleteThenInsertIgThreadInfo")).
End ParseTable.
End Collect.
End Handlers.
