(* ===== verification/EventMethods.v ===== *)
(** * EventMethods: what the framework asks of an event ([connector/events.go])

    The methods of the event types: which portal, sender, message and time an event is about,
    whether it creates a portal, what chat info a resync carries, how an edit is applied.  With
    them, the WhatsApp side of [ids.go] and [chatinfo.go], and the translation between message
    ids and the keys of WhatsApp messages.  A JID is a value of a library type, which the class
    [WhatsAppJID] stands for. *)

From S2P Require Import Prelude Strconv Lightspeed TableKinds TableThreads TableMessages Tables.
From S2P Require Import WrapMessages MessageID MetaID ChatInfo Backfill RemoteEvents Mentions TaskTypes.
#[local] Open Scope Z_scope.

(** ** JIDs *)

Class WhatsAppJID (JID : Type) := {
  JID_String : JID -> string;
  ToNonAD : JID -> JID;
  ParseJID : string -> option JID;
  JID_User : JID -> string;
  JID_Server : JID -> string;
  JID_UserInt : JID -> Z;
  set_Server : string -> JID -> JID;
  NewJID : string -> string -> JID
}.

(** The servers, constants of the library. *)
Definition DefaultUserServer : string := "s.whatsapp.net".
Definition GroupServer : string := "g.us".
Definition LegacyUserServer : string := "c.us".
Definition MessengerServer : string := "msgr".

Definition IsEmpty `{WhatsAppJID JID} (j : JID) : bool := (JID_Server j =? "")%string.

(** What is documented of them: a JID without a device is parsed back from its text, and
    [ToNonAD] drops the device only. *)
Class WhatsAppJIDLaws (JID : Type) `{WhatsAppJID JID} : Prop := {
  ParseJID_String j : ToNonAD j = j -> IsEmpty j = false -> ParseJID (JID_String j) = Some j;
  ParseJID_Server j j' : ParseJID (JID_String j) = Some j' -> JID_Server j' = JID_Server j;
  ToNonAD_idem j : ToNonAD (ToNonAD j) = ToNonAD j;
  ToNonAD_User j : JID_User (ToNonAD j) = JID_User j;
  ToNonAD_Server j : JID_Server (ToNonAD j) = JID_Server j;
  JID_String_not_empty j : IsEmpty j = false -> JID_String j <> ""%string
}.

(** ** Messages of the library *)

(** [waCommon.MessageKey]: the fields are optional, a getter gives the zero value of an absent
    one. *)
Record MessageKey := mkMessageKey {
  RemoteJID : option string; FromMe : option bool; KeyID : option string; Participant : option string
}.

Definition GetFromMe (k : option MessageKey) : bool := match k with Some k => default false (FromMe k) | None => false end.
Definition GetParticipant (k : option MessageKey) : string := match k with Some k => default "" (Participant k) | None => "" end.
Definition GetRemoteJID (k : option MessageKey) : string := match k with Some k => default "" (RemoteJID k) | None => "" end.
Definition GetKeyID (k : option MessageKey) : string := match k with Some k => default "" (KeyID k) | None => "" end.

(** The payload of a [ConsumerApplication], as far as the connector looks. *)
Inductive ConsumerContent :=
| EditMessage (key : option MessageKey) (timestampMS : Z) (message : string)
| ReactionMessage (key : option MessageKey) (text : string) (senderTimestampMS : Z)
| OtherContent.

Inductive ConsumerPayload :=
| PayloadContent (c : ConsumerContent)
| PayloadRevoke (key : option MessageKey)
| PayloadOtherApplicationData
| PayloadSignal
| PayloadSubProtocol
| PayloadNone.

Inductive SupplementContent :=
| SupplementReaction (emoji : string)
| SupplementMediaReaction (emoji : string)
| SupplementEditText (newContent : string) (editCount : Z)
| SupplementOther.

(** The dynamic types of [FBMessage.Message]. *)
Inductive WAMessage :=
| ConsumerApplication (p : ConsumerPayload)
| Armadillo (has_content : bool)
| SupplementMessagePayload (c : SupplementContent)
| AddMessagePayload
| DeleteMessagePayload
| OtherMessage
| NilMessage.

Inductive RemoteEventType :=
| RemoteEventUnknown | RemoteEventMessage | RemoteEventEdit | RemoteEventReaction
| RemoteEventReactionRemove | RemoteEventMessageRemove | RemoteEventChatResync.

#[global] Instance RemoteEventType_eq_dec : EqDecision RemoteEventType.
Proof. solve_decision. Defined.

Section Methods.
Context {JID : Type} `{WJ : !WhatsAppJID JID}.
Context (m : Login).

(** ** Ids *)

Definition MakeWAUserID (jid : JID) : string := FormatInt 10 (JID_UserInt jid).
Definition MakeWAPortalID (jid : JID) : string := JID_User jid.

Definition makeWAEventSender (sender : JID) : EventSender := makeEventSender m (int64 (JID_UserInt sender)).

Definition makeWAPortalKey (chatJID : JID) : PortalKey :=
  mkPortalKey (MakeWAPortalID chatJID)
    (if SplitPortals m || (JID_Server chatJID =? MessengerServer)%string
        || (JID_Server chatJID =? DefaultUserServer)%string then LoginID m else "").

(** ** Keys *)

Definition messageIDToWAKey (Chat Sender : JID) (ID : string) : MessageKey :=
  mkMessageKey (Some (JID_String Chat))
    (if (JID_User Sender =? LoginID m)%string then Some true else None)
    (Some ID)
    (if negb (JID_Server Chat =? MessengerServer)%string && negb (JID_Server Chat =? DefaultUserServer)%string
     then Some (JID_String Sender) else None).

(** Who sent the message a key names: [sender] sent the event in [chat], [own] is the device. *)
Definition key_sender (own chat sender : JID) (key : option MessageKey) : option JID :=
  let sender := ToNonAD sender in
  if GetFromMe key then Some sender
  else if negb (GetParticipant key =? "")%string then
    s ← ParseJID (GetParticipant key);
    Some (if (JID_Server s =? LegacyUserServer)%string then set_Server DefaultUserServer s else s)
  else if (JID_Server chat =? DefaultUserServer)%string || (JID_Server chat =? MessengerServer)%string then
    let ownID := ToNonAD own in
    Some (if (JID_User sender =? JID_User ownID)%string then chat else ownID)
  else None.

Definition waKeyToMessageID (own chat sender : JID) (key : option MessageKey) : string :=
  match key_sender own chat sender key with
  | None => ""
  | Some sender =>
      let chat :=
        match ParseJID (GetRemoteJID key) with
        | Some remoteJID =>
            if negb (IsEmpty remoteJID) && (JID_Server remoteJID =? GroupServer)%string then remoteJID else chat
        | None => chat
        end in
      MakeWAMessageID JID_String ToNonAD chat sender (GetKeyID key)
  end.

(** ** [WAMessageEvent] *)

(** [Timestamp] in Unix milliseconds. *)
Record WAMessageEvent := mkWAMessageEvent {
  Chat : JID; Sender_ : JID; MsgID : string; Timestamp : Z;
  Message : WAMessage; has_ephemeral_setting : bool
}.

Definition WA_GetTargetMessage (own : JID) (evt : WAMessageEvent) : string :=
  match Message evt with
  | ConsumerApplication (PayloadContent (EditMessage key _ _))
  | ConsumerApplication (PayloadContent (ReactionMessage key _ _))
  | ConsumerApplication (PayloadRevoke key) => waKeyToMessageID own (Chat evt) (Sender_ evt) key
  | _ => ""
  end.

Definition WA_GetReactionEmoji (evt : WAMessageEvent) : string :=
  match Message evt with
  | ConsumerApplication (PayloadContent (ReactionMessage _ text _)) => text
  | SupplementMessagePayload (SupplementReaction emoji)
  | SupplementMessagePayload (SupplementMediaReaction emoji) => emoji
  | _ => ""
  end.

Definition WA_GetType (evt : WAMessageEvent) : RemoteEventType :=
  match Message evt with
  | ConsumerApplication (PayloadContent (EditMessage _ _ _)) => RemoteEventEdit
  | ConsumerApplication (PayloadContent (ReactionMessage _ text _)) =>
      if (text =? "")%string then RemoteEventReactionRemove else RemoteEventReaction
  | ConsumerApplication (PayloadContent OtherContent) => RemoteEventMessage
  | ConsumerApplication (PayloadRevoke _) => RemoteEventMessageRemove
  | ConsumerApplication _ => RemoteEventUnknown
  | Armadillo has_content => if has_content then RemoteEventMessage else RemoteEventUnknown
  | SupplementMessagePayload (SupplementReaction _) => RemoteEventReaction
  | SupplementMessagePayload (SupplementMediaReaction _) => RemoteEventReaction
  | SupplementMessagePayload (SupplementEditText _ _) => RemoteEventEdit
  | SupplementMessagePayload SupplementOther => RemoteEventUnknown
  | AddMessagePayload => RemoteEventMessage
  | DeleteMessagePayload => RemoteEventMessageRemove
  | OtherMessage => RemoteEventUnknown
  | NilMessage => if has_ephemeral_setting evt then RemoteEventMessage else RemoteEventUnknown
  end.

Definition WA_GetPortalKey (evt : WAMessageEvent) : PortalKey := makeWAPortalKey (Chat evt).
Definition WA_GetSender (evt : WAMessageEvent) : EventSender := makeWAEventSender (Sender_ evt).
Definition WA_GetID (evt : WAMessageEvent) : string :=
  MakeWAMessageID JID_String ToNonAD (Chat evt) (Sender_ evt) (MsgID evt).

Definition WA_GetTimestamp (evt : WAMessageEvent) : Z :=
  match Message evt with
  | ConsumerApplication (PayloadContent (ReactionMessage _ _ ts)) => if negb (ts =? 0) then ts else Timestamp evt
  | ConsumerApplication (PayloadContent (EditMessage _ ts _)) => if negb (ts =? 0) then ts else Timestamp evt
  | _ => Timestamp evt
  end.

Definition WA_GetStreamOrder (evt : WAMessageEvent) : Z := WA_GetTimestamp evt.

(** A part of a message in the framework's database: what edits look at. *)
Record DBPart := mkDBPart { PartBody : string; EditTimestamp : Z; EditCount : Z }.

(** [ConvertEdit]: the first part, with its new text and the mark of the edit.  [convert] makes
    the text of a WhatsApp message a Matrix body. *)
Definition WA_ConvertEdit (convert : string -> string) (evt : WAMessageEvent) (existing : list DBPart)
    : res DBPart :=
  match Message evt with
  | ConsumerApplication p =>
      let '(ts, message) := match p with PayloadContent (EditMessage _ ts msg) => (ts, msg) | _ => (0, ""%string) end in
      part ← index existing 0;
      if EditTimestamp part >=? ts then Err "ignoring remote event: duplicate edit"
      else Ok (mkDBPart (convert message) ts (EditCount part))
  | SupplementMessagePayload c =>
      let '(text, count) := match c with SupplementEditText text count => (text, count) | _ => (""%string, 0) end in
      part ← index existing 0;
      if EditCount part >=? count then Err "ignoring remote event: duplicate edit"
      else Ok (mkDBPart text (EditTimestamp part) count)
  | _ => Err "unsupported message type for edit conversion"
  end.

(** ** Chat info of encrypted chats ([chatinfo.go]) *)

Record GroupParticipant := mkGroupParticipant { p_JID : JID; p_IsAdmin : bool; p_IsSuperAdmin : bool }.
Record GroupInfo := mkGroupInfo {
  g_JID : JID; GroupName : string; GroupTopic : string; IsLocked : bool; IsAnnounce : bool;
  IsEphemeral : bool; DisappearingTimer : Z; Participants : list GroupParticipant
}.

Definition powerDefault : Z := 0.
Definition powerAdmin : Z := 50.
Definition powerSuperAdmin : Z := 75.

(** The levels the info overrides; [None] leaves the framework's own. *)
Record PowerLevelOverrides := mkLevels {
  lv_name : Z; lv_avatar : Z; lv_topic : Z; lv_timer : Z; lv_reaction : option Z; lv_redaction : option Z;
  EventsDefault : option Z; StateDefault : option Z
}.

(** [updateServerAndThreadType] on the server and thread type of a portal's metadata. *)
Definition updateServerAndThreadType (jid : JID) (threadType : Z) (meta : string * Z) : (string * Z) * bool :=
  ((JID_Server jid, threadType),
   negb (meta.1 =? JID_Server jid)%string || negb (meta.2 =? threadType)).

(** What the code sets of the info of an encrypted chat; [wa_update] is the closure over the
    metadata; a disappearing setting is a timer in seconds. *)
Record WAChatInfo := mkWAChatInfo {
  wa_Name : option string; wa_Topic : option string; wa_Members : option ChatMemberList;
  wa_Levels : option PowerLevelOverrides; wa_Type : RoomType; wa_Disappear : option (option Z);
  wa_thread_type : Z; wa_jid : JID
}.

Definition wrapWAMember (p : GroupParticipant) : ChatMember :=
  mkChatMember (makeWAEventSender (p_JID p)) None MembershipJoin MembershipUnset
    (Some (if p_IsSuperAdmin p then powerSuperAdmin else if p_IsAdmin p then powerAdmin else powerDefault)).

Definition add_member (mm : gmap string ChatMember) (p : GroupParticipant) : gmap string ChatMember :=
  <[Sender (makeWAEventSender (p_JID p)) := wrapWAMember p]> mm.

Definition wrapWAGroupInfo (g : GroupInfo) : WAChatInfo :=
  let lock := if IsLocked g then powerAdmin else powerDefault in
  mkWAChatInfo (Some (GroupName g)) (Some (GroupTopic g))
    (Some (mkChatMemberList true (llen (Participants g)) "" (foldl add_member ∅ (Participants g))))
    (Some (mkLevels lock lock lock lock (Some powerDefault) (Some powerDefault)
             (Some (if IsAnnounce g then powerAdmin else powerDefault)) (Some powerAdmin)))
    RoomTypeDefault (Some (if IsEphemeral g then Some (DisappearingTimer g) else None))
    ENCRYPTED_OVER_WA_GROUP (g_JID g).

(** A member of a direct chat: nothing but its sender. *)
Definition sender_member (s : EventSender) : ChatMember := plain_member s MembershipUnset.

Definition makeWADirectChatInfo (recipient : JID) : WAChatInfo :=
  let other := MakeWAUserID recipient in
  let members :=
    if negb (JID_User recipient =? LoginID m)%string then
      <[other := sender_member (makeWAEventSender recipient)]>
        (<[Sender (selfEventSender m) := sender_member (selfEventSender m)]> ∅)
    else makeNoteToSelfMembers other in
  mkWAChatInfo None None (Some (mkChatMemberList true 0 other members))
    (Some (mkLevels 0 0 0 0 None None None None)) RoomTypeDM None ENCRYPTED_OVER_WA_ONE_TO_ONE recipient.

(** The group as the server describes it. *)
Context (GetGroupInfo : JID -> res GroupInfo).

(** [MetaClient.GetChatInfo]: [None] is the nil info beside no error.  [hasE2EE]: there is an
    encrypted client. *)
Definition GetChatInfo (hasE2EE : bool) (threadType : Z) (jid : JID) : res (option WAChatInfo) :=
  if negb (IsWhatsApp threadType) then Err "getting chat info for non-whatsapp threads is not supported"
  else if (JID_Server jid =? GroupServer)%string then
    if negb hasE2EE then Err "not connected"
    else match GetGroupInfo jid with
         | Ok g => Ok (Some (wrapWAGroupInfo g))
         | Err _ => Ok None
         | Halt h => Halt h
         end
  else if (JID_Server jid =? MessengerServer)%string || (JID_Server jid =? DefaultUserServer)%string
  then Ok (Some (makeWADirectChatInfo jid))
  else Err "unknown WhatsApp server".

(** [EnsureWAChatStateEvent.GetChatInfo]: of a portal that has a room only type and metadata
    are set. *)
Definition ensure_info (t : RoomType) (threadType : Z) (jid : JID) : WAChatInfo :=
  mkWAChatInfo None None None None t None threadType jid.

Definition EnsureWAChatState_GetChatInfo (has_room : bool) (jid : JID) : res WAChatInfo :=
  if (JID_Server jid =? GroupServer)%string then
    if has_room then Ok (ensure_info RoomTypeDefault ENCRYPTED_OVER_WA_GROUP jid)
    else g ← GetGroupInfo jid; Ok (wrapWAGroupInfo g)
  else if (JID_Server jid =? MessengerServer)%string || (JID_Server jid =? DefaultUserServer)%string then
    if has_room then Ok (ensure_info RoomTypeDM ENCRYPTED_OVER_WA_ONE_TO_ONE jid)
    else Ok (makeWADirectChatInfo jid)
  else Err "unknown WhatsApp server".

Definition EnsureWAChatState_GetPortalKey (jid : JID) : PortalKey := makeWAPortalKey jid.
End Methods.

(** ** Events of the table *)

Section FBMethods.
Context (m : Login).

(** [VerifyThreadExistsEvent], of its row. *)
Definition vte_int := row_int LSVerifyThreadExists.
Definition vte_str := row_str LSVerifyThreadExists.

Definition VTE_ShouldCreatePortal (vte : Inst) : bool :=
  negb (vte_str "FolderName" vte =? folderPending)%string && negb (vte_str "FolderName" vte =? folderSpam)%string.
Definition VTE_GetPortalKey (vte : Inst) : PortalKey := makeFBPortalKey m (vte_int "ThreadKey" vte) (vte_int "ThreadType" vte).
Definition VTE_PortalReceiverIsUncertain (vte : Inst) : bool := vte_int "ThreadType" vte =? UNKNOWN_THREAD_TYPE.

(** [GetChatInfo]: a thread without a room is requested once; [attempted] is the flag of the
    portal, which is set by the request.  The flag, the task that runs, whose outcome is only
    logged, and the info. *)
Definition VTE_GetChatInfo (has_room attempted : bool) (vte : Inst)
    : bool * option CreateThreadTask.CreateThreadTask * res ChatInfo :=
  let key := vte_int "ThreadKey" vte in
  let ty := vte_int "ThreadType" vte in
  let info := Ok (makeMinimalChatInfo m key ty (vte_int "ParentThreadKey" vte)) in
  if negb has_room && negb (ty =? FOLDER) then
    if attempted then (true, None, Err "thread resync was already requested")
    else (true, Some (CreateThreadTask.mkCreateThreadTask key 0 0 1 0 0), info)
  else (attempted, None, info).

(** [FBMessageEvent], of its message. *)
Definition FBMessage_GetSender (w : WrappedMessage) : EventSender := makeEventSender m (row_int LSInsertMessage "SenderId" (LSInsert w)).
Definition FBMessage_GetID (w : WrappedMessage) : string := MakeFBMessageID (row_str LSInsertMessage "MessageId" (LSInsert w)).
Definition FBMessage_GetTimestamp (w : WrappedMessage) : Z := row_int LSInsertMessage "TimestampMs" (LSInsert w).

(** A difference to the timestamp in the message id is only logged. *)
Definition FBMessage_GetStreamOrder (w : WrappedMessage) : Z := FBMessage_GetTimestamp w.

(** [FBEditEvent] *)
Definition FBEdit_GetPortalKey (orig : OrigMessage) : PortalKey := Room orig.
Definition FBEdit_GetSender (orig : OrigMessage) : EventSender :=
  mkEventSender (SenderID orig =? LoginID m)%string (SenderID orig) (SenderID orig).
Definition FBEdit_GetTargetMessage (edit : Inst) : string := MakeFBMessageID (row_str LSEditMessage "MessageID" edit).

(** [ConvertEdit]: the first part of the message, with the new text. *)
Definition FBEdit_ConvertEdit {Part} (text_to_matrix : string -> res MessageEventContent) (edit : Inst)
    (existing : list Part) : res (Part * MessageEventContent) :=
  part ← index existing 0;
  content ← text_to_matrix (row_str LSEditMessage "Text" edit);
  Ok (part, content).

(** [FBChatResync] *)
Definition FBChatResync_GetPortalKey (r : FBChatResync) : PortalKey := r_portal r.

Definition FBChatResync_ShouldCreatePortal (r : FBChatResync) : bool :=
  match Raw r with
  | None => false
  | Some raw => negb (thread_str "FolderName" raw =? folderPending)%string
                && negb (thread_str "FolderName" raw =? folderSpam)%string
  end.

Definition set_info (i : ChatInfo) (r : FBChatResync) : FBChatResync :=
  mkFBChatResync (Raw r) (r_portal r) (Some i) (r_members r) (r_backfill r) (UpsertID r) (UncertainReceiver r).

(** The members of a resync by user id; the ids of members are [int64]s. *)
Definition members_by_id (l : gmap Z ChatMember) : gmap string ChatMember :=
  map_fold (fun id member mm => <[MakeUserID id := member]> mm) ∅ l.

(** The members a resync was given replace those of the minimal info, the user of the login
    stays; a chat with oneself gets its two members back.  [other] and [receiver] are those of
    the portal. *)
Definition fill_members (other receiver : string) (r : FBChatResync) (ml : ChatMemberList) : ChatMemberList :=
  let self := MemberMap ml !! LoginID m in
  let mm := members_by_id (r_members r) in
  let full := if TotalMemberCount ml >? 0
              then Z.of_nat (size (r_members r)) =? TotalMemberCount ml else IsFull ml in
  let hasSelf := bool_decide (map_Exists (fun _ cm => IsFromMe (member_sender cm) = true) (r_members r)) in
  let mm := match self with
            | Some s => if negb hasSelf && IsFromMe (member_sender s) then <[Sender (member_sender s) := s]> mm else mm
            | None => mm
            end in
  let mm := if (size mm =? 1)%nat && negb (other =? "")%string && (other =? receiver)%string
            then makeNoteToSelfMembers other else mm in
  mkChatMemberList full (TotalMemberCount ml) (OtherUserID ml) mm.

(** [GetChatInfo]; [filled] is the flag of the event, the result with the event and its flag. *)
Definition FBChatResync_GetChatInfo (other receiver : string) (r : FBChatResync) (filled : bool)
    : res (option ChatInfo * FBChatResync * bool) :=
  match Raw r with
  | None => Ok (None, r, filled)
  | Some _ =>
      if (0 <? size (r_members r))%nat && negb filled then
        match Info r with
        | None => Panic
        | Some info =>
            let info := set_members (fill_members other receiver r (Members info)) info in
            Ok (Some info, set_info info r, true)
        end
      else Ok (Info r, r, filled)
  end.

Definition FBFolder_GetChatInfo (avatar_id : string -> option string) (folder : Inst) : res ChatInfo :=
  wrapFolderInfo m avatar_id folder.
End FBMethods.

(** ** Lemmas *)

Section KeyTheorems.
Context {JID : Type} `{WJ : !WhatsAppJID JID} `{WL : !WhatsAppJIDLaws JID}.
Context (m : Login).

(** A message id survives the key of a WhatsApp message: when the user refers to message
    [i] of sender [s] in chat [c], whose key is sent by [e], a device of the user, every other
    device of the user finds the same id in it.  In a direct chat the sender is the user or
    the other side, which the chat is named after. *)
Lemma wa_key_roundtrip own e c s i
    (Hown : JID_User own = LoginID m) (He : JID_User e = LoginID m)
    (Hself : JID_User s = LoginID m -> ToNonAD e = ToNonAD s)
    (Hs : ToNonAD s = s) (Hserver : IsEmpty s = false) (Hlegacy : JID_Server s <> LegacyUserServer)
    (Hgroup : JID_Server c = GroupServer -> ToNonAD c = c)
    (Hdirect : JID_Server c = MessengerServer \/ JID_Server c = DefaultUserServer ->
               JID_User s <> LoginID m -> s = c) :
  waKeyToMessageID own c e (Some (messageIDToWAKey m c s i)) = MakeWAMessageID JID_String ToNonAD c s i.
Proof.
  assert (key_sender own c e (Some (messageIDToWAKey m c s i)) = Some s) as Hk.
  { unfold key_sender, messageIDToWAKey, GetFromMe, GetParticipant. cbn [FromMe Participant].
    destruct (String.eqb_spec (JID_User s) (LoginID m)) as [Hu|Hu]; cbn [default id].
    { by rewrite (Hself Hu), Hs. }
    destruct (negb (JID_Server c =? MessengerServer)%string && negb (JID_Server c =? DefaultUserServer)%string) eqn:E;
      cbn [default id].
    - destruct (String.eqb_spec (JID_String s) "") as [E0|_]; [by apply JID_String_not_empty in E0|].
      cbn [negb]. rewrite ParseJID_String by done. cbn [mbind option_bind].
      by destruct (String.eqb_spec (JID_Server s) LegacyUserServer).
    - cbn [negb String.eqb]. apply andb_false_iff in E. rewrite !negb_false_iff, !String.eqb_eq in E.
      rewrite ToNonAD_User, He, ToNonAD_User, Hown, String.eqb_refl.
      rewrite (Hdirect E Hu). by destruct E as [-> | ->]. }
  unfold waKeyToMessageID. rewrite Hk. unfold GetRemoteJID, GetKeyID. cbn [messageIDToWAKey RemoteJID KeyID default id].
  destruct (String.eqb_spec (JID_Server c) GroupServer) as [Hg|Hg].
  - rewrite ParseJID_String; [|by apply Hgroup|unfold IsEmpty; by rewrite Hg].
    by destruct (_ && _).
  - destruct (ParseJID (JID_String c)) as [r|] eqn:Ep; [|done].
    destruct (negb (IsEmpty r) && (JID_Server r =? GroupServer)%string) eqn:Er; [|done].
    apply andb_true_iff in Er as [_ Er%String.eqb_eq]. by rewrite (ParseJID_Server _ _ Ep) in Er.
Qed.
End KeyTheorems.

(** The JIDs of a conversation: the user, a device of the user, a friend and a group. *)
Variant demo_jid := Me | MyPhone | Friend | FriendsGroup | NoJID.

#[export] Instance demo_jids : WhatsAppJID demo_jid := {|
  JID_String j := match j with
                  | Me => "100@msgr" | MyPhone => "100:2@msgr" | Friend => "200@msgr"
                  | FriendsGroup => "7@g.us" | NoJID => ""
                  end%string;
  ToNonAD j := match j with MyPhone => Me | _ => j end;
  ParseJID s := if (s =? "100@msgr")%string then Some Me
                else if (s =? "100:2@msgr")%string then Some MyPhone
                else if (s =? "200@msgr")%string then Some Friend
                else if (s =? "7@g.us")%string then Some FriendsGroup
                else if (s =? "")%string then Some NoJID else None;
  JID_User j := match j with Me | MyPhone => "100" | Friend => "200" | FriendsGroup => "7" | NoJID => "" end%string;
  JID_Server j := match j with Me | MyPhone | Friend => MessengerServer | FriendsGroup => GroupServer | NoJID => "" end%string;
  JID_UserInt j := match j with Me | MyPhone => 100 | Friend => 200 | FriendsGroup => 7 | NoJID => 0 end;
  set_Server _ j := j;
  NewJID u _ := if (u =? "7")%string then FriendsGroup else NoJID
|}.

#[export] Instance demo_jids_laws : WhatsAppJIDLaws demo_jid.
Proof.
  split; try by intros [].
  intros j j'. destruct j; vm_compute; by intros [= <-].
Qed.

Definition demo_user : Login := mkLogin "100" false false false.

Example wa_key_example :
  waKeyToMessageID Me FriendsGroup MyPhone (Some (messageIDToWAKey demo_user FriendsGroup Friend "AB")) =
  MakeWAMessageID JID_String ToNonAD FriendsGroup Friend "AB" /\
  waKeyToMessageID Me FriendsGroup MyPhone (Some (messageIDToWAKey demo_user FriendsGroup Friend "AB")) =
  "wa:7@g.us:200@msgr:AB"%string.
Proof.
  split; [|by vm_compute].
  apply wa_key_roundtrip; try done. by intros [].
Qed.

(** ** Edits *)

Section Edits.
Context {JID : Type} (convert : string -> string).

(** An edit of a consumer message, and its effect on the part it edits when its outcome is
    stored (one that fails changes nothing). *)
Definition edit_event (chat sender : JID) (key : option MessageKey) (e : Z * string) : WAMessageEvent :=
  mkWAMessageEvent chat sender "" 0 (ConsumerApplication (PayloadContent (EditMessage key e.1 e.2))) false.

Definition apply_edit (evt : WAMessageEvent) (part : DBPart) : DBPart :=
  match WA_ConvertEdit (JID := JID) convert evt [part] with Ok p => p | _ => part end.

Definition newer (e : Z * string) (part : DBPart) : DBPart :=
  if EditTimestamp part >=? e.1 then part else mkDBPart (convert e.2) e.1 (EditCount part).

Lemma apply_edit_newer chat sender key e part : apply_edit (edit_event chat sender key e) part = newer e part.
Proof. unfold apply_edit, newer, WA_ConvertEdit. cbn [Message edit_event]. rewrite (index_ok _ _ part) by done.
  cbn [mbind res_bind]. by destruct (EditTimestamp part >=? e.1).
Qed.

(** The part after some edits: as it was, or made by an edit that is newer. *)
Lemma newer_fold l part : let p := foldr newer part l in
  Forall (fun e => e.1 <= EditTimestamp p) l /\
  (p = part \/ EditTimestamp part < EditTimestamp p /\
   exists e, e ∈ l /\ p = mkDBPart (convert e.2) e.1 (EditCount part)).
Proof.
  induction l as [|e l IH]; [by split; [constructor|left]|]. cbn [foldr].
  set (q := foldr newer part l) in *. destruct IH as [Hle Hq]. unfold newer at 1 2 3 4.
  destruct (Z.geb_spec (EditTimestamp q) e.1) as [Hge|Hlt]; cbn [EditTimestamp].
  - split; [by constructor; [lia|]|]. destruct Hq as [->|(Hlt & e' & He' & ->)]; [by left|].
    right. split; [done|]. exists e'. by split; [right|].
  - split; [constructor; [done|]; eapply Forall_impl; [exact Hle|]; cbn; lia|]. right.
    destruct Hq as [->|(Hlt' & e' & He' & ->)].
    + split; [lia|]. exists e. by split; [left|].
    + cbn in *. split; [lia|]. exists e. by split; [left|].
Qed.

(** The edits of a message converge: in whatever order they arrive, and however often one
    is delivered again, the part ends up with the text of the newest one. *)
Theorem edits_converge chat sender key (edits edits' : list (Z * string)) part
    (Hset : forall e, e ∈ edits <-> e ∈ edits') (Htimes : NoDup (edits.*1)) :
  let apply := foldr (fun e p => apply_edit (edit_event chat sender key e) p) part in
  apply edits' = apply edits /\
  Forall (fun e => e.1 <= EditTimestamp (apply edits)) edits /\
  (EditTimestamp part < EditTimestamp (apply edits) ->
   exists e, e ∈ edits /\ EditTimestamp (apply edits) = e.1 /\ PartBody (apply edits) = convert e.2).
Proof.
  cbv zeta.
  assert (forall l, foldr (fun e p => apply_edit (edit_event chat sender key e) p) part l = foldr newer part l) as E.
  { induction l as [|e l IH]; [done|]. cbn. by rewrite IH, apply_edit_newer. }
  rewrite !E. destruct (newer_fold edits part) as [Hle Hp]. destruct (newer_fold edits' part) as [Hle' Hp'].
  split; [|split; [done|]].
  - rewrite Forall_forall in Hle, Hle'.
    destruct Hp as [Ep|(Hlt & e & He & Ep)], Hp' as [Ep'|(Hlt' & e' & He' & Ep')]; [congruence| | |].
    + specialize (Hle e' ltac:(by apply Hset)). rewrite Ep in Hle. rewrite Ep' in Hlt'. cbn in Hlt'. lia.
    + specialize (Hle' e ltac:(by apply Hset)). rewrite Ep' in Hle'. rewrite Ep in Hlt. cbn in Hlt. lia.
    + specialize (Hle e' ltac:(by apply Hset)). specialize (Hle' e ltac:(by apply Hset)).
      rewrite Ep in Hle |- *. rewrite Ep' in Hle' |- *. cbn in Hle, Hle'.
      assert (e = e') as ->; [|done]. apply Hset in He'.
      apply list_elem_of_lookup in He as [i Hi]. apply list_elem_of_lookup in He' as [j Hj].
      assert (i = j) as ->; [|congruence].
      eapply (NoDup_lookup _ _ _ e.1 Htimes); rewrite list_lookup_fmap, ?Hi, ?Hj; cbn; [done|]. f_equal. lia.
  - intros Hlt. destruct Hp as [Ep|(_ & e & He & Ep)]; [rewrite Ep in Hlt; lia|].
    exists e. by rewrite Ep.
Qed.
End Edits.

(** An edit, a later one, and the first one delivered again. *)
Lemma edits_converge_witness :
  let apply := foldr (fun e p => apply_edit id (edit_event 0%nat 0%nat None e) p) (mkDBPart "hi" 0 0) in
  apply [(2, "hey"); (1, "ho"); (2, "hey")]%string = apply [(1, "ho"); (2, "hey")]%string /\
  apply [(2, "hey"); (1, "ho"); (2, "hey")]%string = mkDBPart "hey" 2 0.
Proof.
  split; [|by vm_compute].
  apply (edits_converge id 0%nat 0%nat None [(1, "ho"); (2, "hey")]%string).
  - intros e. rewrite !elem_of_cons. naive_solver.
  - apply NoDup_cons_2; [set_solver|]. apply NoDup_singleton.
Defined.

(** ** Members of a resync *)

Lemma MakeUserID_inj a b : in_int 64 a -> in_int 64 b -> MakeUserID a = MakeUserID b -> a = b.
Proof.
  intros Ha Hb E. rewrite <- (ParseInt_MakeUserID a Ha), <- (ParseInt_MakeUserID b Hb). by rewrite E.
Qed.

Definition int64_keys {A} (l : gmap Z A) : Prop := map_Forall (fun i _ => in_int 64 i) l.

Lemma members_by_id_lookup l : int64_keys l -> forall k cm,
  members_by_id l !! k = Some cm <-> exists i, l !! i = Some cm /\ MakeUserID i = k.
Proof.
  unfold members_by_id. revert l.
  apply (map_fold_weak_ind (fun mm l => int64_keys l -> forall k cm,
    mm !! k = Some cm <-> exists i, l !! i = Some cm /\ MakeUserID i = k)).
  - intros _ k cm. rewrite lookup_empty. split; [done|]. intros (i & H & _). by rewrite lookup_empty in H.
  - intros i x l mm Hi IH Hk k cm. apply map_Forall_insert in Hk as [Hir Hk]; [|done]. specialize (IH Hk).
    destruct (decide (MakeUserID i = k)) as [<-|Hne].
    + rewrite lookup_insert_eq. split; [intros [= <-]; exists i; by rewrite lookup_insert_eq|].
      intros (j & Hj & Ej). destruct (decide (i = j)) as [<-|Hij]; [by rewrite lookup_insert_eq in Hj|].
      rewrite lookup_insert_ne in Hj by done. exfalso. apply Hij. symmetry.
      apply MakeUserID_inj; [|done|done]. by apply (Hk j cm).
    + rewrite lookup_insert_ne by done. rewrite IH. split; intros (j & Hj & Ej); exists j.
      * rewrite lookup_insert_ne; [done|]. intros ->. congruence.
      * rewrite lookup_insert_ne in Hj; [done|]. intros ->. congruence.
Qed.

(** The first time the info of a resync is asked for, the members that came with it become
    exactly the members of the info, beside the user of the login, who stays when none of them
    is the user; asked again, the event gives the same info. *)
Theorem resync_members m other receiver r raw info (Hraw : Raw r = Some raw) (Hinfo : Info r = Some info)
    (Hne : r_members r <> ∅) (Hkeys : int64_keys (r_members r)) (Hnote : other <> receiver \/ other = ""%string) :
  exists info', FBChatResync_GetChatInfo m other receiver r false = Ok (Some info', set_info info' r, true) /\
    FBChatResync_GetChatInfo m other receiver (set_info info' r) true = Ok (Some info', set_info info' r, true) /\
    (forall k cm, MemberMap (Members info') !! k = Some cm ->
       (exists i, r_members r !! i = Some cm /\ MakeUserID i = k) \/
       (MemberMap (Members info) !! LoginID m = Some cm /\ Sender (member_sender cm) = k)) /\
    (forall i cm, r_members r !! i = Some cm ->
       (forall s, MemberMap (Members info) !! LoginID m = Some s -> Sender (member_sender s) <> MakeUserID i) ->
       MemberMap (Members info') !! MakeUserID i = Some cm) /\
    (forall s, MemberMap (Members info) !! LoginID m = Some s -> IsFromMe (member_sender s) = true ->
       map_Forall (fun _ cm => IsFromMe (member_sender cm) = false) (r_members r) ->
       MemberMap (Members info') !! Sender (member_sender s) = Some s).
Proof.
  unfold FBChatResync_GetChatInfo. cbn [Raw Info r_members set_info]. rewrite Hraw, Hinfo.
  assert ((0 <? size (r_members r))%nat = true) as ->.
  { apply Nat.ltb_lt. destruct (size (r_members r)) eqn:E; [|lia]. by apply map_size_empty_iff in E. }
  cbn [negb andb]. eexists. split; [done|]. split; [done|].
  cbn [Members set_members fill_members MemberMap].
  set (mm := members_by_id (r_members r)).
  set (hasSelf := bool_decide _).
  assert (forall g : gmap string ChatMember, (size g =? 1)%nat && negb (other =? "")%string && (other =? receiver)%string = false) as Hnn.
  { intros g. destruct Hnote as [Hne'| ->]; [|by rewrite andb_false_r].
    by rewrite (proj2 (String.eqb_neq other receiver) Hne'), andb_false_r. }
  rewrite !Hnn. split_and!.
  - intros k cm. destruct (MemberMap (Members info) !! LoginID m) as [s|] eqn:Es.
    + destruct (negb hasSelf && IsFromMe (member_sender s)).
      * destruct (decide (Sender (member_sender s) = k)) as [<-|Hk].
        -- rewrite lookup_insert_eq. intros [= <-]. by right.
        -- rewrite lookup_insert_ne by done. intros H. left. by apply members_by_id_lookup.
      * intros H. left. by apply members_by_id_lookup.
    + intros H. left. by apply members_by_id_lookup.
  - intros i cm Hi Hs. assert (mm !! MakeUserID i = Some cm) as Hm by (apply members_by_id_lookup; eauto).
    destruct (MemberMap (Members info) !! LoginID m) as [s|]; [|done].
    destruct (negb hasSelf && _); [|done]. rewrite lookup_insert_ne; [done|]. by apply Hs.
  - intros s -> Hme Hno. rewrite Hme.
    assert (hasSelf = false) as ->.
    { apply bool_decide_eq_false. intros (i & cm & Hi & Hc). by rewrite (Hno i cm Hi) in Hc. }
    cbn [negb andb]. by rewrite lookup_insert_eq.
Qed.

(** A resync of a group that came with two members. *)
Definition demo_member (id : string) (me : bool) : ChatMember :=
  plain_member (mkEventSender me id id) MembershipJoin.
Definition demo_resync : FBChatResync :=
  mkFBChatResync (Some (mkInst [] None)) (mkPortalKey "7" "") (Some (makeMinimalChatInfo demo_user 7 2 0))
    {[ 100 := demo_member "100" true; 200 := demo_member "200" false ]} None 0 false.

Lemma resync_members_witness :
  exists info', FBChatResync_GetChatInfo demo_user "" "" demo_resync false =
      Ok (Some info', set_info info' demo_resync, true) /\
    MemberMap (Members info') !! "200"%string = Some (demo_member "200" false).
Proof.
  destruct (resync_members demo_user "" "" demo_resync (mkInst [] None) (makeMinimalChatInfo demo_user 7 2 0)
              eq_refl eq_refl) as (info' & H & _ & _ & Hm & _).
  - done.
  - by apply map_Forall_insert_2; [split; by vm_compute|]; apply map_Forall_singleton; split.
  - by right.
  - exists info'. split; [exact H|]. apply (Hm 200); [done|].
    intros s. vm_compute. intros [= <-]. done.
Defined.

(** Edits and reactions that come as a supplement message, and deletions that come as a
    message of their own, are events without a target: what they edit, react to or delete is
    not found; of a consumer message every such event has the target its key names. *)
Theorem targets_of_events {JID} `{WJ : !WhatsAppJID JID} own (evt : WAMessageEvent (JID := JID))
    (Ht : WA_GetType evt = RemoteEventEdit \/ WA_GetType evt = RemoteEventReaction \/
          WA_GetType evt = RemoteEventReactionRemove \/ WA_GetType evt = RemoteEventMessageRemove) :
  match Message evt with
  | ConsumerApplication _ => exists key, WA_GetTargetMessage own evt = waKeyToMessageID own (Chat evt) (Sender_ evt) key
  | _ => WA_GetTargetMessage own evt = ""%string
  end.
Proof.
  unfold WA_GetType in Ht. unfold WA_GetTargetMessage.
  destruct (Message evt) as [[[]| | | | |]| | | | | |]; try done; try (by eexists);
    naive_solver.
Qed.

(** A reaction of a supplement message has nowhere to go. *)
Lemma targets_of_events_witness :
  let evt := mkWAMessageEvent Friend Friend "m" 0 (SupplementMessagePayload (SupplementReaction "+1")) false in
  WA_GetType evt = RemoteEventReaction /\ WA_GetTargetMessage Me evt = ""%string.
Proof.
  split; [done|]. refine (targets_of_events Me (mkWAMessageEvent Friend Friend "m" 0
    (SupplementMessagePayload (SupplementReaction "+1")) false) _). right. by left.
Defined.
