(* ===== verification/ConnectionEvents.v ===== *)
(** * ConnectionEvents: what happens to a connection ([connector/handlemeta.go],
    [handlewhatsapp.go], [threadbackfill.go], [push.go])

    The handlers of the events of both connections, the queue of parsed tables and the loop
    that empties it, the backfill of threads, and connections in the background.  They work on
    the client of [Connection], and make its requests and more. *)

From S2P Require Import Prelude Strconv Text Lightspeed TableKinds TableThreads TableMessages Tables.
From S2P Require Import WrapMessages MessageID MetaID ChatInfo Backfill RemoteEvents Events Cookies.
From S2P Require Import TaskTypes Tasks EventMethods SyncManager.
From S2P Require Import Errors Interaction Stateful Http Connection.
#[local] Open Scope Z_scope.

Definition WADisconnected : string := "wa-transient-disconnect".
Definition WAPermanentError : string := "wa-unknown-permanent-error".
Definition WACATError : string := "wa-cat-refresh-error".
Definition MetaConnectionUnauthorized : string := "meta-connection-unauthorized".
Definition MetaPermanentError : string := "meta-unknown-permanent-error".
Definition MetaTransientDisconnect : string := "meta-transient-disconnect".
Definition IGChallengeRequiredMaybe : string := "ig-challenge-required-maybe".
Definition MetaServerUnavailable : string := "meta-server-unavailable".
Definition MetaConnectError24 : string := "meta-connect-error-24".

(** What a rich client shows for a code. *)
Definition BridgeStateHumanErrors (code : string) : option string :=
  let logged_out := "Logged out, please relogin to continue"%string in
  if (code =? WADisconnected)%string then Some "Disconnected from encrypted chat server. Trying to reconnect."%string
  else if (code =? MetaTransientDisconnect)%string then Some "Disconnected from server, trying to reconnect"%string
  else if existsb (String.eqb code) [MetaConnectionUnauthorized; MetaCookieRemoved; MetaUserIDIsZero; MetaRedirectedToLoginPage; MetaNotLoggedIn]
  then Some logged_out
  else if (code =? IGAccountSuspended)%string then Some "Logged out, please check the Instagram website to continue"%string
  else if (code =? IGChallengeRequired)%string then Some "Challenge required, please check the Instagram website to continue"%string
  else if (code =? IGChallengeRequiredMaybe)%string then Some "Connection refused, please check the Instagram website to continue"%string
  else if (code =? IGConsentRequired)%string then Some "Consent required, please check the Instagram website to continue"%string
  else if (code =? FBConsentRequired)%string then Some "Consent required, please check the Facebook website to continue"%string
  else if (code =? FBCheckpointRequired)%string then Some "Checkpoint required, please check the Facebook website to continue"%string
  else if (code =? MetaServerUnavailable)%string then Some "Connection refused by server"%string
  else if (code =? MetaConnectError)%string then Some "Unknown connection error"%string
  else if (code =? MetaProxyUpdateFail)%string then Some "Failed to update proxy"%string
  else if (code =? MetaConnectError24)%string then Some "Unknown connection error 24"%string
  else None.

Section Events.
Context {JID : Type} `{WJ : !WhatsAppJID JID}.

(** ** Events *)

Variant MetaEvent :=
| Event_PublishResponse (table : tables)
| Event_Ready
| Event_SocketError (err : option error)
| Event_Reconnected
| Event_PermanentError (err : error)
| DGWTyping (thread : string) (user : Z) (typing : bool) (timestamp : Z)
| DGWOther
| UnknownMetaEvent.

Variant ReceiptType := ReceiptTypeRead | ReceiptTypeReadSelf | ReceiptTypeDelivered | ReceiptTypeSender | ReceiptTypeOther.
Variant FailureReason := ConnectFailureLoggedOut | ConnectFailureNotFound | ConnectFailureClientUnknown | ConnectFailureOther.

(** The events of the library for encrypted chats; the permanent disconnections carry their
    description. *)
Variant WAEvent :=
| FBMessage (evt : WAMessageEvent (JID := JID))
| ChatPresence (chat sender : JID) (paused audio : bool)
| WAReceipt (type : ReceiptType) (chat sender messageSender : JID) (ids : list string) (timestamp : Z)
| OfflineSyncPreview (messages : Z)
| OfflineSyncCompleted (count : Z)
| Connected
| Disconnected
| CATRefreshError (err : error) (description : string)
| LoggedOut (reason : FailureReason) (onConnect : bool) (description : string)
| ConnectFailure (reason : FailureReason) (description : string)
| OtherPermanentDisconnect (description : string)
| GroupInfo (chat : JID) (sender : option JID) (join leave : list JID) (timestamp : Z)
| UnknownWAEvent.

(** What is handed to the framework. *)
Variant OutEvent :=
| OutRemote (e : RemoteEvent)
| OutEnsureWAChatState (chat : JID)
| OutWAMessage (evt : WAMessageEvent (JID := JID))
| OutReceipt (read : bool) (portal : PortalKey) (sender : EventSender) (timestamp : Z) (targets : list string)
| OutTyping (portal : PortalKey) (uncertain : bool) (sender : EventSender) (timestamp timeout : Z) (recording : bool)
| OutMembers (portal : PortalKey) (sender : option EventSender) (timestamp : Z) (members : gmap string ChatMember)
| OutResync (portal : PortalKey) (latest : Z).

(** ** Requests *)

(** What the push loop waits for. *)
Variant BackgroundEvent := TimerFired | BackgroundCancelled | WASyncDone | TableNotice (processing : bool).

(** A queued table. *)
Record parsedTable := mkParsedTable { Table : tables; Events_ : list RemoteEvent; IsInitial : bool }.

Variant EReq :=
| QConn (q : Req)
| QCtxErr                                        (** [ctx.Err() != nil] *)
| QParseTable (t : tables)                       (** [parseTable] *)
| QTryEnqueue (p : parsedTable)                  (** to the channel of tables, if there is room *)
| QEnqueue (p : parsedTable)                     (** or else waiting for room or the end of the context *)
| QDequeue (ctx : nat)                           (** from that channel, or the end of the context *)
| QNotify (processing : bool)                    (** to the background connection, if it listens *)
| QQueueRemoteEvent (e : OutEvent)
| QSyncGhost (fbid : Z)
| QGetPlatform (c : nat)
| QGetIGUserForFBID (fbid : Z) | QPutFBIDForIGUser (igid : string) (fbid : Z)
| QGetFBIDForIGThread (igid : string) | QGetFBIDForIGUser (igid : string)
| QGoFetchContacts (fbids : list Z)
| QExecuteTasks (c : nat) (tasks : list AnyTask)
| QPostHandlePublishResponse (c : nat) (t : tables)
| QFetchMoreThreads (c : nat) (syncGroup : Z)
| QDelay (ns : Z)
| QGoConnect
| QTimer (ns : Z)
| QBackground
| QFirstPart (id : string).

Definition eanswer (q : EReq) : Type :=
  match q with
  | QConn q => answer q
  | QCtxErr | QTryEnqueue _ | QEnqueue _ => bool
  | QParseTable _ => list RemoteEvent
  | QDequeue _ => option parsedTable
  | QNotify _ | QSyncGhost _ | QGoFetchContacts _ | QPostHandlePublishResponse _ _ | QGoConnect | QTimer _ => unit
  | QQueueRemoteEvent _ => bool
  | QGetPlatform _ => Platform
  | QGetIGUserForFBID _ => string + error
  | QPutFBIDForIGUser _ _ => option error
  | QGetFBIDForIGThread _ | QGetFBIDForIGUser _ => Z + error
  | QExecuteTasks _ _ => tables + error
  | QFetchMoreThreads _ _ => (option KeyStoreData * option tables) + error
  | QDelay _ => bool                              (* false: the context ended first *)
  | QBackground => BackgroundEvent
  | QFirstPart _ => bool + error                  (* whether the message is in the database *)
  end.

Abbreviation EM := (SM Conn eanswer).
Abbreviation etell q := (Stateful.tell (S := Conn) (answer := eanswer) q).
Abbreviation eblock q := (Stateful.block (S := Conn) (answer := eanswer) q).
Abbreviation etrace := (list (event (reply (S := Conn) eanswer))).
Abbreviation ESend st := (etell (QConn (QSend st))).

(** The handlers of [Connection] make their requests here. *)
Fixpoint embed_prog {A} (p : prog (reply (S := Conn) answer) A) : prog (reply (S := Conn) eanswer) A :=
  match p with
  | Ret a => Ret a
  | Ask (q, s) k => Ask (answer := reply eanswer) (QConn q, s) (fun x => embed_prog (k x))
  end.
Definition embed {A} (m : SM Conn answer A) : EM A := fun s => embed_prog (m s).

Section Handlers.
Context (cfg : Config) (m : Login).
(** The id of a device as a JID; [AddTime]: the clock of the library. *)
Context (device_jid : string * Z -> JID).

(** ** The connection to Meta *)

Definition canReconnect_ : EM bool := embed (canReconnect cfg).

(** [parseAndQueueTable]: a table is dropped only when the context ends while the queue is
    full. *)
Definition parseAndQueueTable (tbl : tables) (isInitial : bool) : EM unit :=
  evts ← etell (QParseTable tbl);
  let wrapped := mkParsedTable tbl evts isInitial in
  sent ← etell (QTryEnqueue wrapped);
  if sent : bool then mret () else _ ← eblock (QEnqueue wrapped); mret ().

Definition typing_indicator (thread : string) (user : Z) (typing : bool) (timestamp : Z) : EM unit :=
  k ← eblock (QGetFBIDForIGThread thread);
  match k with
  | inr _ => mret ()
  | inl threadKey =>
      if threadKey =? 0 then mret ()
      else
        u ← eblock (QGetFBIDForIGUser (FormatInt 10 user));
        match u with
        | inr _ => mret ()
        | inl userID =>
            if userID =? 0 then mret ()
            else
              _ ← eblock (QQueueRemoteEvent
                    (OutTyping (makeFBPortalKey m threadKey UNKNOWN_THREAD_TYPE) true (makeEventSender m userID) timestamp
                       (if typing then 6 * Second else 0) false));
              mret ()
        end
  end.

Definition set_meta (st : BridgeState) : EM unit := modify (set_metaState st).

Definition reconnect_if_possible : EM unit :=
  b ← canReconnect_;
  when b (etell (QConn (QGo DoFullReconnect))).

Definition first_e2ee : EM unit :=
  modify (set_firstE2EEConnectDone true);;
  etell (QConn (QGo (TryConnectE2EE false))).

Definition permanent_error (err : error) : EM unit :=
  (if errors_Is err (TheCode CONNECTION_REFUSED_UNAUTHORIZED) then
     set_meta (failed StateBadCredentials MetaConnectionUnauthorized)
   else if errors_Is err (TheCode CONNECTION_REFUSED_SERVER_UNAVAILABLE) then
     set_meta (failed StateUnknownError MetaServerUnavailable);;
     b ← canReconnect_;
     if b : bool then etell (QConn (QGo DoFullReconnect))
     else when (negb (IsMessenger (Mode cfg))) (set_meta (restart IGChallengeRequiredMaybe))
   else if errors_Is err (TheCode CONNECTION_REFUSED_UNKNOWN_24) then
     set_meta (failed StateUnknownError MetaConnectError24);;
     reconnect_if_possible
   else set_meta (mkBridgeState StateUnknownError MetaPermanentError (error_text err) "" None));;
  st ← gets metaState;
  ESend st;;
  embed stop_periodic_reconnect.

Definition handleMetaEvent (evt : MetaEvent) : EM unit :=
  match evt with
  | Event_PublishResponse tbl => parseAndQueueTable tbl false
  | Event_Ready =>
      modify (set_connectWaiter true);;
      p ← gets platform;
      when (IsMessenger p) first_e2ee;;
      set_meta (just StateConnected);;
      st ← gets metaState;
      ESend st;;
      tbl ← state (fun s => (initialTable s, set_initialTable None s));
      match tbl with Some tbl => parseAndQueueTable tbl true | None => mret () end;;
      etell (QConn (QGo ThreadBackfill))
  | Event_SocketError _ =>
      modify (set_connectWaiter false);;
      set_meta (failed StateTransientDisconnect MetaTransientDisconnect);;
      st ← gets metaState;
      ESend st
  | Event_Reconnected =>
      s ← gets id;
      when (negb (firstE2EEConnectDone s) && IsMessenger (platform s)) first_e2ee;;
      modify (set_connectWaiter true);;
      set_meta (just StateConnected);;
      st ← gets metaState;
      ESend st
  | Event_PermanentError err => permanent_error err
  | DGWTyping thread user typing timestamp => typing_indicator thread user typing timestamp
  | DGWOther | UnknownMetaEvent => mret ()
  end.

(** ** Tables *)

(** Contacts whose Instagram id is unknown are fetched in groups of five ([fuel] rounds). *)
Fixpoint fetch_contacts (fuel : nat) (contacts : list Z) : EM unit :=
  match fuel, contacts with
  | _, [] => mret ()
  | O, _ => spin
  | S fuel, _ =>
      let batchSize := Z.to_nat (Z.min 5 (llen contacts)) in
      let batch := take batchSize contacts in
      c ← gets cli;
      resp ← match c with
             | Some c => eblock (QExecuteTasks c ((fun i => mkTask (GetContactsFullTask.mkGetContactsFullTask i)) <$> batch))
             | None => mret (inr (SentinelError ErrClientIsNil))
             end;
      match resp with
      | inr _ => mret ()
      | inl tbl =>
          ok ← (fix put (rows : list Inst) : EM bool :=
                  match rows with
                  | [] => mret true
                  | info :: rows =>
                      err ← eblock (QPutFBIDForIGUser (row_str LSDeleteThenInsertIGContactInfo "IgId" info)
                                      (row_int LSDeleteThenInsertIGContactInfo "ContactId" info));
                      match err with Some _ => mret false | None => put rows end
                  end) (rows tbl "LSDeleteThenInsertIGContactInfo");
          if negb ok || (length contacts <=? batchSize)%nat then mret ()
          else fetch_contacts fuel (drop batchSize contacts)
      end
  end.

(** A loop over rows that stops when the context is cancelled ([false]). *)
Fixpoint while_alive {A} (f : A -> EM unit) (l : list A) : EM bool :=
  match l with
  | [] => mret true
  | x :: l =>
      done ← etell QCtxErr;
      if done : bool then mret false else f x;; while_alive f l
  end.

Fixpoint unknown_contacts (l : list Inst) (acc : list Z) : EM (option (list Z)) :=
  match l with
  | [] => mret (Some acc)
  | contact :: l =>
      done ← etell QCtxErr;
      if done : bool then mret None else
      let fbid := row_int LSVerifyContactRowExists "ContactId" contact in
      igid ← eblock (QGetIGUserForFBID fbid);
      match igid with
      | inr _ => unknown_contacts l acc
      | inl igid => unknown_contacts l (if (igid =? "")%string then acc ++ [fbid] else acc)
      end
  end.

(** The events go to the framework one by one, until it refuses one or the context ends
    ([false]). *)
Fixpoint queue_all (events : list RemoteEvent) : EM bool :=
  match events with
  | [] => mret true
  | evt :: events =>
      done ← etell QCtxErr;
      if done : bool then mret false else
      ok ← eblock (QQueueRemoteEvent (OutRemote evt));
      if ok : bool then queue_all events else mret false
  end.

Definition instagram_contacts (tbl : tables) : EM bool :=
  c ← gets cli;
  p ← match c with Some c => etell (QGetPlatform c) | None => mret Unset end;
  if bool_decide (p = Instagram) then
    unknown ← unknown_contacts (rows tbl "LSVerifyContactRowExists") [];
    match unknown with
    | None => mret false
    | Some unknown =>
        etell (QGoFetchContacts unknown);;
        (fix put (rows : list Inst) : EM unit :=
           match rows with
           | [] => mret ()
           | info :: rows =>
               _ ← eblock (QPutFBIDForIGUser (row_str LSDeleteThenInsertIGContactInfo "IgId" info)
                             (row_int LSDeleteThenInsertIGContactInfo "ContactId" info));
               put rows
           end) (rows tbl "LSDeleteThenInsertIGContactInfo");;
        mret true
    end
  else mret true.

(** What follows when every event was queued. *)
Definition table_handled (isInitial : bool) (tbl : tables) : EM unit :=
  done ← etell QCtxErr;
  when (negb done) (
    if isInitial then modify (set_initialTableHandled true)
    else
      c ← gets cli;
      match c with Some c => eblock (QPostHandlePublishResponse c tbl) | None => mret () end).

Definition handleParsedTable (isInitial : bool) (tbl : tables) (innerQueue : list RemoteEvent) : EM unit :=
  alive ← while_alive (fun r => eblock (QSyncGhost (row_int LSDeleteThenInsertContact "Id" r))) (rows tbl "LSDeleteThenInsertContact");
  when alive (
    alive ← while_alive (fun r => eblock (QSyncGhost (row_int LSVerifyContactRowExists "ContactId" r))) (rows tbl "LSVerifyContactRowExists");
    when alive (
      done ← etell QCtxErr;
      when (negb done) (
        alive ← instagram_contacts tbl;
        when alive (
          queued ← queue_all innerQueue;
          when queued (table_handled isInitial tbl))))).

(** One table of the loop. *)
Definition handle_queued (p : parsedTable) : EM unit :=
  etell (QNotify true);;
  handleParsedTable (IsInitial p) (Table p) (Events_ p);;
  embed (saveConnectionState cfg None);;
  etell (QNotify false).

Fixpoint table_loop (fuel : nat) (ctx : nat) : EM unit :=
  match fuel with
  | O => spin
  | S fuel =>
      p ← eblock (QDequeue ctx);
      match p with
      | None => etell (QConn (QCancel ctx))
      | Some p => handle_queued p;; table_loop fuel ctx
      end
  end.

(** [handleTableLoop], for as many tables as [fuel]. *)
Definition handleTableLoop (fuel : nat) : EM unit :=
  ctx ← etell (QConn QNewContext);
  embed (swap_cancel stopHandlingTables set_stopHandlingTables (Some ctx));;
  table_loop fuel ctx.

(** ** Encrypted chats *)

Definition set_wa (st : BridgeState) : EM unit := modify (set_waState st);; ESend st.

Definition handleWAChatPresence (chat sender : JID) (paused audio : bool) : EM unit :=
  now ← etell (QConn QNow);
  _ ← eblock (QQueueRemoteEvent
        (OutTyping (makeWAPortalKey m chat) false (makeWAEventSender m sender) now (if paused then 0 else 5 * Second) audio));
  mret ().

Definition reset_device : EM unit := embed resetWADevice.

(** A client whose device the server does not know: both are dropped. *)
Definition drop_device : EM unit :=
  e ← gets E2EE;
  match e with
  | None => mret ()
  | Some e =>
      eblock (QConn (QE2EEDisconnect e));;
      d ← gets WADevice;
      match d with
      | None => spanic
      | Some d => _ ← eblock (QConn (QDeleteDevice d)); mret ()
      end;;
      reset_device;;
      modify (set_E2EE None)
  end.

Definition permanent_disconnect (evt : WAEvent) : EM unit :=
  match evt with
  | LoggedOut reason onConnect _ =>
      match reason, onConnect with
      | ConnectFailureLoggedOut, false =>
          b ← canReconnect_;
          when b (reset_device;; etell (QConn (QGo DoFullReconnect)))
      | _, _ => mret ()
      end
  | ConnectFailure ConnectFailureNotFound _ => drop_device;; etell (QConn (QGo (TryConnectE2EE true)))
  | ConnectFailure ConnectFailureClientUnknown _ => reset_device;; etell (QConn (QGo DoFullReconnect))
  | _ => mret ()
  end.

Definition wa_permanent (description : string) : BridgeState :=
  mkBridgeState StateUnknownError WAPermanentError description "" None.

(** The members a change of a group brings and takes. *)
Definition group_members (join leave : list JID) : gmap string ChatMember :=
  let sender j := makeWAEventSender m j in
  let joined := foldl (fun mp j => <[Sender (sender j) := plain_member (sender j) MembershipJoin]> mp) ∅ join in
  foldl (fun mp j => <[Sender (sender j) := mkChatMember (sender j) None MembershipLeave MembershipJoin None]> mp) joined leave.

Definition e2eeEventHandler (evt : WAEvent) : EM bool :=
  e ← gets E2EE;
  match e with
  | None => mret false
  | Some _ =>
      match evt with
      | FBMessage msg =>
          _ ← eblock (QQueueRemoteEvent (OutEnsureWAChatState (Chat msg)));
          eblock (QQueueRemoteEvent (OutWAMessage msg))
      | ChatPresence chat sender paused audio => handleWAChatPresence chat sender paused audio;; mret true
      | WAReceipt type chat sender messageSender ids timestamp =>
          match type with
          | ReceiptTypeSender | ReceiptTypeOther => mret true
          | _ =>
              d ← gets WADevice;
              match d ≫= DeviceID with
              | None => spanic
              | Some own =>
                  let from := if IsEmpty messageSender then device_jid own else messageSender in
                  eblock (QQueueRemoteEvent
                    (OutReceipt (match type with ReceiptTypeDelivered => false | _ => true end)
                       (makeWAPortalKey m chat) (makeWAEventSender m sender) timestamp
                       (MakeWAMessageID JID_String ToNonAD chat from <$> ids)))
              end
          end
      | OfflineSyncPreview messages => modify (set_waEventCount (uint32 messages));; mret true
      | OfflineSyncCompleted _ => modify (set_waOfflineSync true);; mret true
      | Connected =>
          modify (set_e2eeConnectWaiter true);;
          set_wa (just StateConnected);;
          mret true
      | Disconnected =>
          modify (set_e2eeConnectWaiter false);;
          set_wa (failed StateTransientDisconnect WADisconnected);;
          mret true
      | CATRefreshError err description =>
          b ← (if errors_Is err ErrPleaseReloadPage then canReconnect_ else mret false);
          if b : bool then etell (QConn (QGo DoFullReconnect));; mret true
          else
            set_wa (mkBridgeState StateUnknownError WACATError description "" None);;
            reconnect_if_possible;;
            mret true
      | LoggedOut _ _ description | ConnectFailure _ description | OtherPermanentDisconnect description =>
          permanent_disconnect evt;;
          set_wa (wa_permanent description);;
          mret true
      | GroupInfo chat sender join leave timestamp =>
          let members := group_members join leave in
          (if decide (members = ∅) then mret ()
           else
             _ ← eblock (QQueueRemoteEvent (OutMembers (makeWAPortalKey m chat) (makeWAEventSender m <$> sender) timestamp members));
             mret ());;
          mret true
      | UnknownWAEvent => mret true
      end
  end.

(** ** Backfill of threads *)

Definition markBackfillComplete : EM unit :=
  modify (set_BackfillCompleted true);;
  _ ← eblock (QConn QSaveLogin);
  mret ().

Definition context_canceled : string := "context canceled".

(** The loop of [runThreadBackfill]: [n] batches are behind it, [prev] is the key the last one
    ended at. *)
Fixpoint backfill_loop (fuel : nat) (n prev : Z) : EM unit :=
  match fuel with
  | O => spin
  | S fuel =>
      done ← etell QCtxErr;
      if done : bool then sthrow context_canceled else
      c ← gets cli;
      r ← match c with
          | Some c => eblock (QFetchMoreThreads c 1)
          | None => mret (inr (SentinelError ErrClientIsNil))
          end;
      match r with
      | inr err => sthrow (error_text err)
      | inl (_, None) => markBackfillComplete
      | inl (keyStore, Some tbl) =>
          let n := n + 1 in
          parseAndQueueTable tbl false;;
          match keyStore with
          | None => markBackfillComplete
          | Some k =>
              if negb (HasMoreBefore k) then markBackfillComplete
              else if MinThreadKey k =? prev then markBackfillComplete
              else if (BatchCount cfg >? 0) && (n >=? BatchCount cfg) then markBackfillComplete
              else if BatchDelay cfg >? 0 then
                go_on ← eblock (QDelay (BatchDelay cfg));
                if go_on : bool then backfill_loop fuel n (MinThreadKey k) else sthrow context_canceled
              else backfill_loop fuel n (MinThreadKey k)
          end
      end
  end.

Definition runThreadBackfill (fuel : nat) : EM unit := backfill_loop fuel 0 0.

Definition StartThreadBackfill (fuel : nat) : EM unit :=
  if BatchCount cfg =? 0 then mret () else
  completed ← gets BackfillCompleted;
  if completed : bool then mret () else runThreadBackfill fuel.

(** ** Connections in the background *)

(** The decrypted notification: the message id and the parameters. *)
Record decryptedPushData := mkPush { MessageID_ : string; Params : gmap string string }.

Definition param (pd : decryptedPushData) (k : string) : string := default "" (Params pd !! k).

Definition char_c : Z := 99.
Definition char_g : Z := 103.

Definition parse_param (pd : decryptedPushData) (k : string) : res Z :=
  match ParseInt 10 (param pd k) with
  | (v, None) => Ok v
  | (_, Some _) => Err ("failed to parse " ++ k ++ " param")
  end.

Definition igPushToMessageID (pd : decryptedPushData) : res MetaMessageID :=
  ts ← parse_param pd "ts";
  cc ← parse_param pd "cc";
  chatID ← parse_param pd "f";
  let isGroup := negb (param pd "aud_gn" =? "")%string || StrContains (param pd "network_classification") "group" in
  Ok (if isGroup then mkMetaMessageID char_g chatID ts cc
      else mkMetaMessageID char_c (Z.lxor chatID (ParseUserLoginID (LoginID m))) ts cc).

(** The portal a notification is about: its chat id and thread type. *)
Definition push_chat (parsed : MetaMessageID) : Z * Z :=
  if ChatType parsed =? char_g then (ChatID parsed, GROUP_THREAD)
  else if ChatType parsed =? char_c then (Z.lxor (ChatID parsed) (ParseUserLoginID (LoginID m)), ONE_TO_ONE)
  else (ChatID parsed, ONE_TO_ONE).

Definition ensurePushMessageReceived (pd : option decryptedPushData) (parsed : option MetaMessageID) : EM unit :=
  match pd, parsed with
  | Some _, Some parsed =>
      let id := MakeFBMessageID (MetaMessageID_String (Some parsed)) in
      part ← eblock (QFirstPart id);
      match part with
      | inr _ | inl true => mret ()
      | inl false =>
          let '(chatID, threadType) := push_chat parsed in
          _ ← eblock (QQueueRemoteEvent (OutResync (makeFBPortalKey m chatID threadType) (Time parsed)));
          _ ← eblock (QFirstPart id);
          mret ()
      end
  | _, _ => mret ()
  end.

Record Background := mkBackground { anythingReceived : bool; isProcessing : bool; waCount : Z; waDone : bool }.

(** What an event of the loop does: the state, and the time the timer is set to. *)
Definition background_step (waEvents : Z) (evt : BackgroundEvent) (b : Background) : Background * option Z :=
  match evt with
  | WASyncDone =>
      let b := mkBackground (anythingReceived b) (isProcessing b) waEvents true in
      (b, if (anythingReceived b || (waCount b >? 0)) && negb (isProcessing b) then Some (1 * Second) else None)
  | TableNotice true => (mkBackground true true (waCount b) (waDone b), Some (10 * Second))
  | TableNotice false =>
      (mkBackground true false (waCount b) (waDone b), Some (if waDone b then 2 * Second else 10 * Second))
  | TimerFired | BackgroundCancelled => (b, None)
  end.

Fixpoint background_loop (fuel : nat) (pd : option decryptedPushData) (parsed : option MetaMessageID) (b : Background)
    : EM unit :=
  match fuel with
  | O => spin
  | S fuel =>
      evt ← eblock QBackground;
      match evt with
      | TimerFired => ensurePushMessageReceived pd parsed
      | BackgroundCancelled => mret ()
      | _ =>
          waEvents ← gets waEventCount;
          let '(b, timer) := background_step waEvents evt b in
          match timer with Some ns => etell (QTimer ns) | None => mret () end;;
          background_loop fuel pd parsed b
      end
  end.

(** [ConnectBackground], once the notification is decrypted. *)
Definition ConnectBackground (fuel : nat) (data : option decryptedPushData) : EM unit :=
  let parsed := match data with
                | None => None
                | Some pd =>
                    match (if HasPrefix (MessageID_ pd) "mid." then ParseMessageIDFull (MessageID_ pd) else igPushToMessageID pd) with
                    | Ok id => Some id
                    | _ => None
                    end
                end in
  modify (set_waOfflineSync false);;
  etell QGoConnect;;
  etell (QTimer (10 * Second));;
  background_loop fuel data parsed (mkBackground false false 0 false);;
  embed (Disconnect cfg).
End Handlers.
End Events.

(** * Runs *)

Section Facts.
Context {JID : Type} `{WJ : !WhatsAppJID JID}.
Abbreviation EM := (SM Conn (eanswer (JID := JID))).
Abbreviation etrace := (list (event (reply (S := Conn) (eanswer (JID := JID))))).

Definition embed_event (e : event (reply (S := Conn) answer)) : event (reply (S := Conn) (eanswer (JID := JID))) :=
  match e with Event (q, s) x => Event (answer := reply eanswer) (QConn q, s) x end.

Lemma sruns_embed {A} (mm : SM Conn answer A) s tr r s' :
  sruns (embed mm : EM A) s tr r s' <-> exists tr0, tr = embed_event <$> tr0 /\ sruns mm s tr0 r s'.
Proof.
  unfold sruns, embed. generalize (mm s). intros p. revert tr. induction p as [a|[q t] k IH]; intros tr; cbn; split.
  - intros [-> ->]. by exists [].
  - by intros (tr0 & -> & -> & ->).
  - intros (x & tr' & -> & (tr0 & -> & H)%IH). exists (Event (answer := reply answer) (q, t) x :: tr0).
    split; [done|]. by exists x, tr0.
  - intros (tr0 & -> & x & tr' & -> & H). exists x, (embed_event <$> tr'). split; [done|]. apply IH. by exists tr'.
Qed.

(** The states sent, with the client as it was. *)
Definition esends (tr : etrace) : list (BridgeState * Conn) :=
  omap (fun e => match asked e with (QConn (QSend st), s) => Some (st, s) | _ => None end) tr.

Lemma esends_app a b : esends (a ++ b) = esends a ++ esends b.
Proof. apply omap_app. Qed.

Lemma canReconnect_run cfg s tr r s' : sruns (canReconnect_ cfg : EM bool) s tr r s' ->
  esends tr = [] /\ s' = s /\ exists b, r = Ok b.
Proof.
  intros (tr0 & -> & H)%sruns_embed. unfold canReconnect in H. srun H. srun H. srun H. split; [done|]. split; [done|]. by eexists.
Qed.

Lemma reconnect_run cfg s tr r s' : sruns (reconnect_if_possible cfg : EM unit) s tr r s' -> esends tr = [] /\ r = Ok ().
Proof.
  unfold reconnect_if_possible. intros H. srun H. apply canReconnect_run in H0 as (E & -> & b & ->).
  rewrite esends_app, E. destruct b; by srun H.
Qed.

Lemma stop_periodic_run s tr r s' : sruns (embed stop_periodic_reconnect : EM unit) s tr r s' ->
  esends tr = [] /\ r = Ok () /\ s' = set_stopPeriodicReconnect None s.
Proof.
  intros (tr0 & -> & H)%sruns_embed. unfold stop_periodic_reconnect, swap_cancel in H. srun H. srun H.
  destruct (stopPeriodicReconnect s); srun H; done.
Qed.

Lemma queue_table_run t b s tr r s' : sruns (parseAndQueueTable t b : EM unit) s tr r s' -> esends tr = [] /\ r = Ok ().
Proof.
  unfold parseAndQueueTable. intros H. srun H. srun H. destruct x0; [by srun H|]. srun H. by srun H.
Qed.

(** The bridge state a handler of the connection to Meta sends is the one the client keeps. *)
Definition reports (get : Conn -> BridgeState) (tr : etrace) : Prop := Forall (fun x => get x.2 = x.1) (esends tr).

Lemma reports_quiet get tr : esends tr = [] -> reports get tr.
Proof. unfold reports. intros ->. constructor. Qed.
Lemma reports_app get a b : reports get a -> reports get b -> reports get (a ++ b).
Proof. unfold reports. rewrite esends_app. intros ??. by apply Forall_app. Qed.

(** The events after which the state of the connection is new. *)
Definition changes_state (evt : MetaEvent) : bool :=
  match evt with Event_Ready | Event_SocketError _ | Event_Reconnected | Event_PermanentError _ => true | _ => false end.

Lemma permanent_error_run cfg err s tr r s' : sruns (permanent_error cfg err : EM unit) s tr r s' ->
  r = Ok () /\ exists s1, esends tr = [(metaState s1, s1)] /\ s' = set_stopPeriodicReconnect None s1.
Proof.
  unfold permanent_error. intros H. srun H.
  assert (r0 = Ok () /\ esends t = []) as (-> & Ht).
  { clear H. unfold set_meta, reconnect_if_possible in H0.
    repeat match type of H0 with sruns (if ?c then _ else _) _ _ _ _ => destruct c end.
    - by srun H0.
    - srun H0. srun H0. destruct (canReconnect_run _ _ _ _ _ H) as (E & -> & b & ->). rewrite esends_app, esends_app, E.
      destruct b; [by srun H0|]. destruct (negb (IsMessenger (Mode cfg))); by srun H0.
    - srun H0. srun H0. destruct (canReconnect_run _ _ _ _ _ H) as (E & -> & b & ->). rewrite esends_app, esends_app, E.
      destruct b; by srun H0.
    - by srun H0. }
  srun H. srun H. apply stop_periodic_run in H as (E & -> & ->). split; [done|]. exists s0.
  rewrite !esends_app, Ht, E. by split.
Qed.

#[local] Ltac quiet_end := split; [done|]; split; [by apply reports_quiet|done].

Lemma meta_event_run cfg mm evt s tr r s' : sruns (handleMetaEvent cfg mm evt : EM unit) s tr r s' ->
  r = Ok () /\ reports metaState tr /\ length (esends tr) = (if changes_state evt then 1 else 0)%nat.
Proof.
  destruct evt; cbn [handleMetaEvent changes_state]; intros H.
  - apply queue_table_run in H as [E ->]. split; [done|]. split; [by apply reports_quiet|by rewrite E].
  - srun H. srun H. srun H.
    assert (r0 = Ok () /\ esends t = [] ) as (-> & Et).
    { destruct (IsMessenger _); [|by srun H0]. unfold first_e2ee in H0. apply sruns_when_true in H0. srun H0. by srun H0. }
    unfold set_meta in H. srun H. srun H. srun H. srun H. srun H.
    assert (r0 = Ok () /\ esends t0 = []) as (-> & Et0).
    { cbn [fst snd] in H1. destruct (initialTable _); [by apply queue_table_run in H1 as [? ->]|by srun H1]. }
    srun H. split; [done|]. unfold reports. rewrite !esends_app, Et, Et0. split; [by repeat constructor|done].
  - unfold set_meta in H. srun H. srun H. srun H. srun H. split; [done|]. split; [by repeat constructor|done].
  - srun H. srun H.
    assert (r0 = Ok () /\ esends t = [] ) as (-> & Et).
    { destruct (_ && _); [|by srun H0]. unfold first_e2ee in H0. apply sruns_when_true in H0. srun H0. by srun H0. }
    unfold set_meta in H. srun H. srun H. srun H. srun H.
    split; [done|]. unfold reports. rewrite !esends_app, Et. split; [by repeat constructor|done].
  - apply permanent_error_run in H as (-> & s1 & E & _). split; [done|]. unfold reports. rewrite E. split; [by repeat constructor|done].
  - unfold typing_indicator in H. srun H. destruct x as [k|e]; [|srun H; quiet_end]. destruct (k =? 0); [srun H; quiet_end|].
    srun H. destruct x as [u|e]; [|srun H; quiet_end]. destruct (u =? 0); [srun H; quiet_end|]. srun H. srun H. quiet_end.
  - srun H. quiet_end.
  - srun H. quiet_end.
Qed.

(** The same of the encrypted chats. *)
Definition wa_state_event (evt : WAEvent (JID := JID)) : bool :=
  match evt with
  | Connected | Disconnected | LoggedOut _ _ _ | ConnectFailure _ _ | OtherPermanentDisconnect _ => true
  | _ => false
  end.

Lemma embedded_quiet {A} (mm : SM Conn answer A) s tr r s' : sruns (embed mm : EM A) s tr r s' ->
  (forall s0 tr0 r0 s0', sruns mm s0 tr0 r0 s0' -> sends tr0 = []) -> esends tr = [].
Proof.
  intros (tr0 & -> & H)%sruns_embed Hq. apply Hq in H. clear Hq. unfold sends in H. unfold esends.
  induction tr0 as [|[[q t] x] tr0 IH]; [done|]. cbn in *. destruct q; cbn in *; try done; by apply IH.
Qed.

Lemma reset_device_run s tr r s' : sruns (reset_device : EM unit) s tr r s' ->
  tr = [] /\ r = Ok () /\ s' = set_WADeviceID 0 (set_WADevice None s).
Proof. intros (tr0 & -> & H)%sruns_embed. unfold resetWADevice in H. srun H. by srun H. Qed.

Lemma drop_device_run s tr r s' : sruns (drop_device : EM unit) s tr r s' -> esends tr = [] /\ (r = Ok () \/ r = Panic).
Proof.
  unfold drop_device. intros H. srun H. destruct (E2EE s) as [e|]; [|srun H; by split; [|left]].
  srun H. srun H. srun H. destruct (WADevice s0) as [d|].
  - srun H0. srun H0. srun H. apply reset_device_run in H0 as (-> & -> & ->). srun H. by split; [|left].
  - srun H0. srun H. by split; [|right].
Qed.

Lemma permanent_disconnect_run cfg evt s tr r s' : sruns (permanent_disconnect cfg evt : EM unit) s tr r s' ->
  esends tr = [] /\ (r = Ok () \/ r = Panic).
Proof.
  unfold permanent_disconnect. intros H. destruct evt; try (srun H; by split; [|left]).
  - destruct reason, onConnect; try (srun H; by split; [|left]). srun H.
    apply canReconnect_run in H0 as (E & -> & b & ->). rewrite esends_app, E. destruct b; [|srun H; by split; [|left]].
    apply sruns_when_true in H. srun H. apply reset_device_run in H0 as (-> & -> & ->). srun H. by split; [|left].
  - destruct reason; try (srun H; by split; [|left]).
    + srun H. apply drop_device_run in H0 as [E [-> | ->]]; rewrite esends_app, E; srun H; [by split; [|left]|by split; [|right]].
    + srun H. apply reset_device_run in H0 as (-> & -> & ->). srun H. by split; [|left].
Qed.

Lemma wa_event_run cfg mm dj evt s tr r s' : sruns (e2eeEventHandler cfg mm dj evt : EM bool) s tr r s' ->
  reports waState tr /\ (length (esends tr) <= 1)%nat /\
  (r = Ok true -> is_Some (E2EE s) -> wa_state_event evt = true -> length (esends tr) = 1%nat).
Proof.
  unfold e2eeEventHandler. intros H. srun H. destruct (E2EE s) as [e|]; [|srun H; split; [by apply reports_quiet|]; split; [cbn; lia|by intros _ [? [=]]]].
  destruct evt; unfold set_wa in H.
  - srun H. srun H. by split; [apply reports_quiet|]; split; [cbn; lia|].
  - srun H. unfold handleWAChatPresence in H0. srun H0. srun H0. srun H0. srun H.
    by split; [apply reports_quiet|]; split; [cbn; lia|].
  - destruct type; try (srun H; by split; [apply reports_quiet|]; split; [cbn; lia|]);
      (srun H; destruct (WADevice s ≫= DeviceID); srun H; by split; [apply reports_quiet|]; split; [cbn; lia|]).
  - srun H. srun H. by split; [apply reports_quiet|]; split; [cbn; lia|].
  - srun H. srun H. by split; [apply reports_quiet|]; split; [cbn; lia|].
  - srun H. srun H. srun H0. srun H. split; [by repeat constructor|]. by split; [cbn; lia|].
  - srun H. srun H. srun H0. srun H. split; [by repeat constructor|]. by split; [cbn; lia|].
  - srun H.
    assert (esends t = [] /\ s0 = s /\ exists b, r0 = Ok b) as (E & -> & b & ->).
    { destruct (errors_Is err ErrPleaseReloadPage); [by apply canReconnect_run in H0|]. srun H0. split; [done|]. split; [done|]. by eexists. }
    clear H0. destruct b.
    + srun H. srun H. by split; [apply reports_quiet; rewrite !esends_app, E|]; split; [rewrite !esends_app, E; cbn; lia|].
    + srun H. srun H0. srun H. apply reconnect_run in H0 as [E' ->]. srun H. unfold reports. rewrite !esends_app, E, E'.
      split; [by repeat constructor|]. by split; [cbn; lia|].
  - srun H. apply permanent_disconnect_run in H0 as [E [-> | ->]]; [|srun H; split; [apply reports_quiet; by rewrite !esends_app, E|];
      by split; [rewrite !esends_app, E; cbn; lia|]].
    srun H. srun H0. srun H. unfold reports. rewrite !esends_app, E.
    split; [by repeat constructor|]. by split; [cbn; lia|].
  - srun H. apply permanent_disconnect_run in H0 as [E [-> | ->]]; [|srun H; split; [apply reports_quiet; by rewrite !esends_app, E|];
      by split; [rewrite !esends_app, E; cbn; lia|]].
    srun H. srun H0. srun H. unfold reports. rewrite !esends_app, E.
    split; [by repeat constructor|]. by split; [cbn; lia|].
  - srun H. apply permanent_disconnect_run in H0 as [E [-> | ->]]; [|srun H; split; [apply reports_quiet; by rewrite !esends_app, E|];
      by split; [rewrite !esends_app, E; cbn; lia|]].
    srun H. srun H0. srun H. unfold reports. rewrite !esends_app, E.
    split; [by repeat constructor|]. by split; [cbn; lia|].
  - srun H. destruct (decide _).
    + srun H0. srun H. by split; [apply reports_quiet|]; split; [cbn; lia|].
    + srun H0. srun H0. srun H. by split; [apply reports_quiet|]; split; [cbn; lia|].
  - srun H. by split; [apply reports_quiet|]; split; [cbn; lia|].
Qed.
End Facts.

(** * Tables *)

Section Tables.
Context {JID : Type} `{WJ : !WhatsAppJID JID}.
Abbreviation EM := (SM Conn (eanswer (JID := JID))).
Abbreviation etrace := (list (event (reply (S := Conn) (eanswer (JID := JID))))).
Abbreviation EReq_ := (EReq (JID := JID)).

(** The events handed to the framework, with whether it took them. *)
Definition offered_by (e : event (reply (S := Conn) (eanswer (JID := JID)))) : option (OutEvent (JID := JID) * bool) :=
  match e with
  | Event q x =>
      match q.1 as q0 return eanswer q0 * Conn -> option (OutEvent * bool) with
      | QQueueRemoteEvent ev => fun x => Some (ev, x.1)
      | _ => fun _ => None
      end x
  end.
Definition offered (tr : etrace) : list (OutEvent * bool) := omap offered_by tr.
Lemma offered_app a b : offered (a ++ b) = offered a ++ offered b.
Proof. apply omap_app. Qed.

(** The tables by which the sync cursors were moved on. *)
Definition moved (tr : etrace) : list tables :=
  omap (fun e => match (asked e).1 with QPostHandlePublishResponse _ t => Some t | _ => None end) tr.
Lemma moved_app a b : moved (a ++ b) = moved a ++ moved b.
Proof. apply omap_app. Qed.

Definition plain (q : EReq_) : Prop :=
  match q with QQueueRemoteEvent _ | QPostHandlePublishResponse _ _ => False | _ => True end.

Lemma plain_trace (tr : etrace) : Forall (fun e => plain (asked e).1) tr -> offered tr = [] /\ moved tr = [].
Proof.
  induction 1 as [|[[q s] x] tr Hq _ [IH1 IH2]]; [done|]. unfold offered, moved in *. cbn in *. by destruct q.
Qed.

Lemma while_alive_plain {A} (f : A -> EM unit) l : (forall x, only plain (f x)) -> only plain (while_alive f l).
Proof. intros Hf. induction l as [|x l IH]; cbn; only_tac. Qed.

Lemma unknown_contacts_plain l : forall acc, only plain (unknown_contacts l acc : EM _).
Proof. induction l as [|x l IH]; intros acc; cbn; only_tac. Qed.

Lemma instagram_contacts_plain tbl : only plain (instagram_contacts tbl : EM bool).
Proof.
  unfold instagram_contacts. pose proof unknown_contacts_plain. only_tac.
  - induction (rows tbl "LSDeleteThenInsertIGContactInfo") as [|info infos IH]; cbn; only_tac.
Qed.

Lemma queue_all_run l : forall s (tr : etrace) r s', sruns (queue_all l) s tr r s' ->
  moved tr = [] /\ exists b, r = Ok b /\
  if b : bool then offered tr = (fun e => (OutRemote e, true)) <$> l
  else exists k, (fst <$> offered tr) = OutRemote <$> take k l.
Proof.
  induction l as [|e l IH]; intros s tr r s' H; cbn [queue_all] in H.
  - srun H. split; [done|]. by eexists.
  - srun H. destruct x.
    { srun H. split; [done|]. eexists. split; [done|]. by exists O. }
    srun H. destruct x.
    + apply IH in H as (Hc & b & -> & Hb). rewrite !moved_app, Hc. split; [done|].
      exists b. split; [done|]. rewrite !offered_app. destruct b; cbn.
      * by rewrite Hb.
      * destruct Hb as [k Hb]. exists (S k). cbn. by rewrite Hb.
    + srun H. split; [done|]. eexists. split; [done|]. by exists 1%nat.
Qed.

Lemma only_plain {A} (m : EM A) s tr r s' : only plain m -> sruns m s tr r s' -> offered tr = [] /\ moved tr = [].
Proof. intros Hm H. apply plain_trace. by eapply Hm. Qed.

Lemma table_handled_run b tbl s (tr : etrace) r s' : sruns (table_handled b tbl) s tr r s' ->
  offered tr = [] /\ (moved tr = [] \/ b = false /\ moved tr = [tbl]).
Proof.
  unfold table_handled. intros H. srun H. destruct x; cbn [negb] in H; [srun H; by auto|].
  apply sruns_when_true in H. destruct b; [srun H; by auto|]. srun H. destruct (cli s); srun H; auto.
Qed.

(** What a table does: its events are offered in order, and the cursors are moved on only after
    the framework took every one. *)
Definition table_done (b : bool) (tbl : tables) (q : list RemoteEvent) (tr : etrace) : Prop :=
  (offered tr = (fun e => (OutRemote e, true)) <$> q /\ (moved tr = [] \/ b = false /\ moved tr = [tbl])) \/
  (moved tr = [] /\ exists k, (fst <$> offered tr) = OutRemote <$> take k q).

Lemma table_done_nil b tbl q tr : offered tr = [] -> moved tr = [] -> table_done b tbl q tr.
Proof. intros E1 E2. right. split; [done|]. exists O. by rewrite E1. Qed.

Lemma table_done_app b tbl q t1 t2 : offered t1 = [] -> moved t1 = [] -> table_done b tbl q t2 -> table_done b tbl q (t1 ++ t2).
Proof. intros E1 E2. unfold table_done. by rewrite offered_app, moved_app, E1, E2. Qed.

(** A step that hands nothing over comes before the rest. *)
Lemma plain_step b tbl q {A} (m : EM A) (f : A -> EM unit) :
  only plain m -> (forall a s tr r s', sruns (f a) s tr r s' -> table_done b tbl q tr) ->
  forall s tr r s', sruns (m ≫= f) s tr r s' -> table_done b tbl q tr.
Proof.
  intros Hm Hf s tr r s' (r1 & s1 & t1 & t2 & -> & H1 & H2)%sruns_bind. apply only_plain in H1 as [E1 E2]; [|done].
  apply table_done_app; [done..|]. destruct r1; [by eapply Hf|by destruct H2 as [-> _]; apply table_done_nil..].
Qed.

Lemma stop_step b tbl q (c : bool) (m : EM unit) :
  (forall s tr r s', sruns m s tr r s' -> table_done b tbl q tr) ->
  forall s tr r s', sruns (when c m) s tr r s' -> table_done b tbl q tr.
Proof. intros Hm s tr r s' H. destruct c; [by eapply Hm|]. srun H. by apply table_done_nil. Qed.

Lemma handle_table_run b tbl q : forall s (tr : etrace) r s', sruns (handleParsedTable b tbl q) s tr r s' -> table_done b tbl q tr.
Proof.
  unfold handleParsedTable.
  apply plain_step; [apply while_alive_plain; intros; only_tac|]. intros alive. apply stop_step.
  apply plain_step; [apply while_alive_plain; intros; only_tac|]. intros alive'. apply stop_step.
  apply plain_step; [only_tac|]. intros done'. apply stop_step.
  apply plain_step; [apply instagram_contacts_plain|]. intros alive''. apply stop_step.
  intros s tr r s' H. srun H. apply queue_all_run in H0 as (E & ok & -> & Hok). destruct ok.
  - apply sruns_when_true, table_handled_run in H as [E1 E2]. left. by rewrite offered_app, moved_app, E, E1, app_nil_r.
  - srun H. right. rewrite app_nil_r. by split.
Qed.
End Tables.

(** * Backfill of threads *)

Section ThreadBackfill.
Context {JID : Type} `{WJ : !WhatsAppJID JID}.
Abbreviation EM := (SM Conn (eanswer (JID := JID))).
Abbreviation etrace := (list (event (reply (S := Conn) (eanswer (JID := JID))))).

(** The batches fetched, the tables queued, and the logins saved. *)
Definition fetch_of (e : event (reply (S := Conn) (eanswer (JID := JID)))) : option ((option KeyStoreData * option tables) + error) :=
  match e with
  | Event q x =>
      match q.1 as q0 return eanswer q0 * Conn -> option ((option KeyStoreData * option tables) + error) with
      | QFetchMoreThreads _ _ => fun x => Some x.1
      | _ => fun _ => None
      end x
  end.
Definition fetches (tr : etrace) : list ((option KeyStoreData * option tables) + error) := omap fetch_of tr.
Definition fetched_tables (tr : etrace) : list tables :=
  omap (fun x => match x with inl (_, t) => t | inr _ => None end) (fetches tr).
Definition queued_tables (tr : etrace) : list tables :=
  omap (fun e => match (asked e).1 with QTryEnqueue p => Some (Table p) | _ => None end) tr.
Definition saved_logins (tr : etrace) : list bool :=
  omap (fun e => match asked e with (QConn QSaveLogin, s) => Some (BackfillCompleted s) | _ => None end) tr.

Lemma fetches_app a b : fetches (a ++ b) = fetches a ++ fetches b.
Proof. apply omap_app. Qed.
Lemma queued_app a b : queued_tables (a ++ b) = queued_tables a ++ queued_tables b.
Proof. apply omap_app. Qed.
Lemma saved_app a b : saved_logins (a ++ b) = saved_logins a ++ saved_logins b.
Proof. apply omap_app. Qed.
Lemma fetched_app a b : fetched_tables (a ++ b) = fetched_tables a ++ fetched_tables b.
Proof. unfold fetched_tables. by rewrite fetches_app, omap_app. Qed.

Lemma complete_run s (tr : etrace) r s' : sruns markBackfillComplete s tr r s' ->
  fetches tr = [] /\ queued_tables tr = [] /\ saved_logins tr = [true] /\ r = Ok ().
Proof. unfold markBackfillComplete. intros H. srun H. srun H. by srun H. Qed.

Lemma enqueue_run t b s (tr : etrace) r s' : sruns (parseAndQueueTable t b) s tr r s' ->
  fetches tr = [] /\ queued_tables tr = [t] /\ saved_logins tr = [] /\ r = Ok ().
Proof. unfold parseAndQueueTable. intros H. srun H. srun H. destruct x0; [by srun H|]. srun H. by srun H. Qed.

(** How a run of the loop ends: completed and saved, or with an error. *)
Definition backfill_result (tr : etrace) (r : res unit) : Prop :=
  r = Ok () /\ saved_logins tr = [true] \/ (exists e, r = Err e) /\ saved_logins tr = [].

Lemma backfill_result_app a b r : saved_logins a = [] -> backfill_result b r -> backfill_result (a ++ b) r.
Proof. unfold backfill_result. rewrite saved_app. by intros ->. Qed.

Lemma backfill_loop_run cfg fuel : forall n prev s (tr : etrace) r s',
  sruns (backfill_loop cfg fuel n prev) s tr r s' ->
  0 <= n < BatchCount cfg -> BatchCount cfg - n <= Z.of_nat fuel ->
  backfill_result tr r /\ llen (fetches tr) <= BatchCount cfg - n /\ queued_tables tr = fetched_tables tr.
Proof.
  induction fuel as [|fuel IH]; intros n prev s tr r s' H Hn Hf; [lia|]. cbn [backfill_loop] in H.
  srun H. destruct x; [srun H; split; [right; split; [by eexists|done]|split; [cbn; lia|done]]|].
  srun H. srun H.
  assert (exists x, r0 = Ok x /\ saved_logins t = [] /\ queued_tables t = [] /\ llen (fetches t) <= 1 /\
            fetched_tables t = match x with inl (_, Some tbl) => [tbl] | _ => [] end) as (x & -> & F1 & F2 & F3 & F4).
  { destruct (cli s); srun H0.
    - eexists. split; [done|]. cbn. split_and!; try done; try lia. by destruct x as [[k [t|]]|e].
    - eexists. split; [done|]. cbn. by split_and!. }
  clear H0.
  assert (backfill_result t0 r /\ llen (fetches t0) <= BatchCount cfg - n - 1 /\
          queued_tables t0 = fetched_tables t ++ fetched_tables t0) as (G1 & G2 & G3).
  2: { split; [by apply (backfill_result_app [_]); [|apply (backfill_result_app []), backfill_result_app]|].
       set (e0 := [Event _ _]). assert (fetches e0 = []) as Z1 by done. assert (queued_tables e0 = []) as Z2 by done.
       assert (fetched_tables e0 = []) as Z3 by done.
       rewrite !fetches_app, !queued_app, !fetched_app, !length_app, F2, G3, Z1, Z2, Z3. split; [|done].
       change (fetches []) with (@nil ((option KeyStoreData * option tables) + error)). cbn [length]. lia. }
  rewrite F4. destruct x as [[k [tbl|]]|e]; cycle 1.
  - apply complete_run in H as (E1 & E2 & E3 & ->). unfold fetched_tables. rewrite E1, E2. split; [by left|]. split; [cbn; lia|done].
  - srun H. split; [right; split; [by eexists|done]|]. split; [cbn; lia|done].
  - srun H. apply enqueue_run in H0 as (E1 & E2 & E3 & ->).
    assert (backfill_result t2 r /\ llen (fetches t2) <= BatchCount cfg - n - 1 /\ queued_tables t2 = fetched_tables t2) as (G1 & G2 & G3).
    2: { assert (fetched_tables t1 = []) as E4 by (unfold fetched_tables; by rewrite E1).
         rewrite (fetches_app t1 t2), (queued_app t1 t2), (fetched_app t1 t2), E1, E2, E4, G3.
         split; [by apply backfill_result_app|done]. }
    clear E1 E2 E3 F1 F2 F3 F4 t t1.
    assert (sruns markBackfillComplete s2 t2 r s' \/
            n + 1 < BatchCount cfg /\ exists k s5 t5 t6, t2 = t5 ++ t6 /\ fetches t5 = [] /\ queued_tables t5 = [] /\ saved_logins t5 = [] /\
              (sruns (backfill_loop cfg fuel (n + 1) k) s5 t6 r s' \/ t6 = [] /\ exists e, r = Err e)) as [C|(Hn1 & k' & s5 & t5 & t6 & -> & E1 & E2 & E3 & C)].
    { destruct k as [k|]; [|by left]. destruct (negb (HasMoreBefore k)); [by left|]. destruct (MinThreadKey k =? prev); [by left|].
      destruct (Z.gtb_spec (BatchCount cfg) 0); [|lia]. destruct (Z.geb_spec (n + 1) (BatchCount cfg)); cbn [andb] in H; [by left|].
      right. split; [lia|]. exists (MinThreadKey k). destruct (BatchDelay cfg >? 0).
      - srun H. destruct x.
        + eexists _, [_], _. split; [reflexivity|]. by split_and!; [..|left].
        + srun H. eexists s1, [_], []. split; [reflexivity|]. split_and!; [done..|]. right. split; [done|]. by eexists.
      - eexists s2, [], t2. by split_and!; [..|left]. }
    + apply complete_run in C as (E1 & E2 & E3 & ->). unfold fetched_tables. rewrite E1, E2. split; [by left|]. split; [cbn; lia|done].
    + unfold fetched_tables. rewrite !fetches_app, !queued_app, E1, E2. destruct C as [C|(-> & e & ->)].
      * apply IH in C as (G1 & G2 & G3); [|lia..]. split; [by apply backfill_result_app|]. split; [cbn; lia|exact G3].
      * split; [apply backfill_result_app; [done|right; split; [by eexists|done]]|]. split; [cbn; lia|done].
Qed.

(** The backfill of threads ends however the server answers, once the number of batches is
    limited: it fetches at most that many, queues the table of every batch it fetched, in
    order, and either marks the login as backfilled and saves it, or returns an error and
    leaves it unmarked. *)
Theorem thread_backfill_ends cfg fuel s (tr : etrace) r s' (Hlimit : 0 < BatchCount cfg) (Hfuel : BatchCount cfg <= Z.of_nat fuel)
    (H : sruns (runThreadBackfill cfg fuel) s tr r s') :
  (r = Ok () /\ saved_logins tr = [true] \/ (exists e, r = Err e) /\ saved_logins tr = []) /\
  llen (fetches tr) <= BatchCount cfg /\ queued_tables tr = fetched_tables tr.
Proof. destruct (backfill_loop_run cfg fuel 0 0 _ _ _ _ H) as (H1 & H2 & H3); [lia..|]. split; [exact H1|]. split; [lia|done]. Qed.
End ThreadBackfill.

(** * Properties *)

Section Properties.
Context {JID : Type} `{WJ : !WhatsAppJID JID}.
Abbreviation EM := (SM Conn (eanswer (JID := JID))).
Abbreviation etrace := (list (event (reply (S := Conn) (eanswer (JID := JID))))).

(** An event of the connection to Meta after which its state is new makes the client send
    exactly one bridge state, the one it now keeps; what the user is then told is as bad as the
    worse of the states of the two connections.  Other events send none.  No such event makes
    the handler fail. *)
Theorem connection_events_are_reported cfg mm evt s (tr : etrace) r s'
    (H : sruns (handleMetaEvent cfg mm evt) s tr r s') :
  r = Ok () /\
  if changes_state evt then
    exists s1, esends tr = [(metaState s1, s1)] /\
      severity (StateEvent (FillBridgeState (metaState s1) s1).1) =
      max (severity (StateEvent (metaState s1))) (severity (StateEvent (waState s1)))
  else esends tr = [].
Proof.
  apply meta_event_run in H as (-> & H1 & H2). split; [done|]. unfold reports in H1.
  destruct (changes_state evt); [|by destruct (esends tr)].
  destruct (esends tr) as [|[st s1] [|]]; [done| |done]. assert (metaState s1 = st) as <- by (by inversion_clear H1).
  exists s1. split; [done|]. destruct (fill_spec (metaState s1) s1) as (E & _).
  pose proof (f_equal (fun x => severity x.1.1) E) as E'. cbn [fst told] in E'. rewrite E', worst_severity. lia.
Qed.

(** The events of the encrypted chats send at most one state, that of their connection as
    the client keeps it, and those that connect, disconnect or end the connection send one. *)
Theorem encrypted_events_are_reported cfg mm dj evt s (tr : etrace) r s'
    (H : sruns (e2eeEventHandler cfg mm dj evt) s tr r s') :
  Forall (fun x => x.1 = waState x.2) (esends tr) /\ (length (esends tr) <= 1)%nat /\
  (r = Ok true -> is_Some (E2EE s) -> wa_state_event evt = true -> length (esends tr) = 1%nat).
Proof.
  apply wa_event_run in H as (H1 & H2 & H3). split; [|done]. eapply Forall_impl; [exact H1|]. by intros x.
Qed.

(** C8. A queued table: its events are offered to the framework in order, and the cursors from
    which syncing continues are moved on only after the framework took every one of them; when
    one is refused or the context ends, the events after it are not offered and the cursors
    stay. *)
Theorem cursor_moves_after_events b tbl q s (tr : etrace) r s' (H : sruns (handleParsedTable b tbl q) s tr r s') :
  (exists k, (fst <$> offered tr) = OutRemote <$> take k q) /\
  (moved tr <> [] -> b = false /\ moved tr = [tbl] /\ offered tr = (fun e => (OutRemote e, true)) <$> q).
Proof.
  apply handle_table_run in H as [[H1 H2]|[H1 H2]].
  - split; [|by intros Hm; destruct H2 as [H2|[-> H2]]]. exists (length q). rewrite firstn_all, H1, <- list_fmap_compose. done.
  - by rewrite H1.
Qed.

(** What the server's final refusal makes of the connection: the state, and whether everything
    is reconnected from the start. *)
Definition refusal (cfg : Config) (err : error) (reconnect : bool) : BridgeState * bool :=
  if errors_Is err (TheCode CONNECTION_REFUSED_UNAUTHORIZED) then (failed StateBadCredentials MetaConnectionUnauthorized, false)
  else if errors_Is err (TheCode CONNECTION_REFUSED_SERVER_UNAVAILABLE) then
    if reconnect then (failed StateUnknownError MetaServerUnavailable, true)
    else if IsMessenger (Mode cfg) then (failed StateUnknownError MetaServerUnavailable, false)
    else (restart IGChallengeRequiredMaybe, false)
  else if errors_Is err (TheCode CONNECTION_REFUSED_UNKNOWN_24) then (failed StateUnknownError MetaConnectError24, reconnect)
  else (mkBridgeState StateUnknownError MetaPermanentError (error_text err) "" None, false).

(** Full reconnects started. *)
Definition reconnects (tr : etrace) : bool :=
  existsb (fun e => match (asked e).1 with QConn (QGo DoFullReconnect) => true | _ => false end) tr.

Definition reconnect_allowed (cfg : Config) (s : Conn) (now : Z) : bool :=
  (Sub now (lastFullReconnect s) >? int64 (MinFullReconnectIntervalSeconds cfg * Second)) && bool_decide (is_Some (LoginCookies s)).

Definition etimes (tr : etrace) : list Z :=
  omap (fun e => match e with
                 | Event q x => match q.1 as q0 return eanswer q0 * Conn -> option Z with
                                | QConn QNow => fun x => Some x.1
                                | _ => fun _ => None
                                end x
                 end) tr.

Lemma canReconnect_times cfg s (tr : etrace) r s' : sruns (canReconnect_ cfg) s tr r s' ->
  exists now, etimes tr = [now] /\ r = Ok (reconnect_allowed cfg s now) /\ s' = s /\ reconnects tr = false /\ esends tr = [].
Proof. intros (tr0 & -> & H)%sruns_embed. unfold canReconnect in H. srun H. srun H. srun H. by exists x. Qed.

Lemma reconnects_app a b : reconnects (a ++ b) = reconnects a || reconnects b.
Proof. apply existsb_app. Qed.
Lemma etimes_app a b : etimes (a ++ b) = etimes a ++ etimes b.
Proof. apply omap_app. Qed.

Lemma stop_periodic_quiet s (tr : etrace) r s' : sruns (embed stop_periodic_reconnect) s tr r s' ->
  esends tr = [] /\ etimes tr = [] /\ reconnects tr = false /\ r = Ok () /\ s' = set_stopPeriodicReconnect None s.
Proof.
  intros (tr0 & -> & H)%sruns_embed. unfold stop_periodic_reconnect, swap_cancel in H. srun H. srun H.
  destruct (stopPeriodicReconnect s); srun H; done.
Qed.

(** A final refusal of the connection: the state sent and kept is that of the error, the whole
    connection is made anew only for two of the codes and when that was not done lately, and
    the periodic reconnect stops.  Whether the login is told to look at the Instagram website
    depends on the platform the bridge is configured for, not on that of the login. *)
Theorem final_refusals cfg mm err s (tr : etrace) r s' (H : sruns (handleMetaEvent cfg mm (Event_PermanentError err)) s tr r s') :
  exists st go, refusal cfg err (match etimes tr with now :: _ => reconnect_allowed cfg s now | [] => false end) = (st, go) /\
  r = Ok () /\ (fst <$> esends tr) = [st] /\ metaState s' = st /\ reconnects tr = go /\ stopPeriodicReconnect s' = None.
Proof.
  cbn [handleMetaEvent] in H. unfold permanent_error, refusal in *. srun H.
  assert (exists st go, r0 = Ok () /\ esends t = [] /\ reconnects t = go /\ metaState s0 = st /\
            refusal cfg err (match etimes t with now :: _ => reconnect_allowed cfg s now | [] => false end) = (st, go))
    as (st & go & -> & E1 & E2 & E3 & E4).
  { clear H. unfold refusal, set_meta, reconnect_if_possible in *.
    destruct (errors_Is err (TheCode CONNECTION_REFUSED_UNAUTHORIZED)); [srun H0; eexists _, _; split_and!; reflexivity|].
    destruct (errors_Is err (TheCode CONNECTION_REFUSED_SERVER_UNAVAILABLE)).
    { srun H0. srun H0. apply canReconnect_times in H as (now & T1 & -> & -> & T2 & T3).
      change (reconnect_allowed cfg (set_metaState _ s) now) with (reconnect_allowed cfg s now) in H0.
      destruct (reconnect_allowed cfg s now) eqn:Ea.
      - srun H0. eexists _, _. split; [done|]. rewrite !esends_app, !reconnects_app, !etimes_app, T1, T2, T3. cbn. rewrite Ea. split_and!; reflexivity.
      - destruct (IsMessenger (Mode cfg)); cbn [negb] in H0; srun H0; eexists _, _; (split; [done|]);
          rewrite !esends_app, !reconnects_app, !etimes_app, T1, T2, T3; cbn; rewrite Ea; split_and!; reflexivity. }
    destruct (errors_Is err (TheCode CONNECTION_REFUSED_UNKNOWN_24)); [|srun H0; eexists _, _; split_and!; reflexivity].
    srun H0. srun H0. apply canReconnect_times in H as (now & T1 & -> & -> & T2 & T3).
    change (reconnect_allowed cfg (set_metaState _ s) now) with (reconnect_allowed cfg s now) in H0.
    destruct (reconnect_allowed cfg s now) eqn:Ea; srun H0; eexists _, _; (split; [done|]);
      rewrite !esends_app, !reconnects_app, !etimes_app, T1, T2, T3; cbn; rewrite Ea; split_and!; reflexivity. }
  clear H0. srun H. srun H. apply stop_periodic_quiet in H as (F1 & F2 & F3 & -> & ->).
  exists st, go. rewrite !etimes_app, !esends_app, !reconnects_app, F1, F2, F3, E1, E2. cbn [etimes esends reconnects omap list_omap asked existsb fst app orb].
  rewrite !app_nil_r, orb_false_r. split; [exact E4|]. cbn. by rewrite E3.
Qed.

Lemma no_device_panics cfg mm dj s chat sender from ids t (tr : etrace) r s' :
  is_Some (E2EE s) -> WADevice s = None ->
  sruns (e2eeEventHandler cfg mm dj (WAReceipt ReceiptTypeRead chat sender from ids t)) s tr r s' -> r = Panic.
Proof.
  intros [e He] Hd H. unfold e2eeEventHandler in H. srun H. rewrite He in H. srun H. rewrite Hd in H. cbn [mbind option_bind] in H. by srun H.
Qed.

(** After the server ended a session of the encrypted chats, and a full reconnect was
    started for that, the device is gone while the client is still there: a read receipt that
    is handled before the reconnect gets that far crashes the bridge. *)
Theorem receipt_after_logout_crashes cfg mm dj descr s (tr : etrace) r s' chat sender from ids t (tr2 : etrace) r2 s2 now l
    (He : is_Some (E2EE s))
    (H1 : sruns (e2eeEventHandler cfg mm dj (LoggedOut ConnectFailureLoggedOut false descr)) s tr r s')
    (Hnow : etimes tr = now :: l) (Hallowed : reconnect_allowed cfg s now = true)
    (H2 : sruns (e2eeEventHandler cfg mm dj (WAReceipt ReceiptTypeRead chat sender from ids t)) s' tr2 r2 s2) :
  r = Ok true /\ r2 = Panic.
Proof.
  destruct He as [e He].
  assert (r = Ok true /\ E2EE s' = Some e /\ WADevice s' = None) as (-> & He' & Hd).
  { unfold e2eeEventHandler, set_wa in H1. srun H1. rewrite He in H1. srun H1. rename H into H0. cbn [permanent_disconnect] in H0. srun H0.
    apply canReconnect_times in H as (now' & T1 & -> & -> & T2 & T3).
    rewrite !etimes_app, T1 in Hnow. cbn in Hnow. injection Hnow as -> _. rewrite Hallowed in H0.
    apply sruns_when_true in H0. srun H0. apply reset_device_run in H as (-> & -> & ->). srun H0.
    srun H1. srun H. srun H1. by cbn. }
  split; [done|]. eapply no_device_panics; [|done|exact H2]. by rewrite He'.
Qed.

(** A notification about a message of a conversation between two names the portal by the
    chat parameter of the notification, and one about a group by the same: the two exclusive
    ors with the login's id cancel. *)
Theorem push_names_the_chat mm pd id (H : igPushToMessageID mm pd = Ok id) :
  exists f, ParseInt 10 (param pd "f") = (f, None) /\
  (push_chat mm id = (f, ONE_TO_ONE) \/ push_chat mm id = (f, GROUP_THREAD)).
Proof.
  unfold igPushToMessageID, parse_param in H. inv_res H.
  destruct (ParseInt 10 (param pd "f")) as [f [e|]] eqn:Ef; [discriminate|]. injection E1 as <-.
  exists f. split; [done|]. unfold push_chat. destruct (_ || _); cbn [ChatType ChatID]; [by right|left].
  unfold char_c, char_g. cbn. by rewrite Z.lxor_assoc, Z.lxor_nilpotent, Z.lxor_0_r.
Qed.
End Properties.

(** * Witnesses *)

(** An environment that does not interfere; [m] is how many batches of threads there are. *)
Definition demo_events (q : EReq (JID := demo_jid) * Conn) (m : nat) : reply eanswer q * nat :=
  let same {X} (x : X) : (X * Conn) * nat := ((x, q.2), m) in
  match q.1 as q0 return (eanswer q0 * Conn) * nat with
  | QConn q' => let '((x, s), n) := demo_env None (q', q.2) 0%nat in ((x, s), m)
  | QCtxErr => same false
  | QTryEnqueue _ | QEnqueue _ => same true
  | QParseTable _ => same []
  | QDequeue _ => same None
  | QNotify _ | QSyncGhost _ | QGoFetchContacts _ | QPostHandlePublishResponse _ _ | QGoConnect | QTimer _ => same ()
  | QQueueRemoteEvent _ => same true
  | QGetPlatform _ => same Messenger
  | QGetIGUserForFBID _ => same (inl ""%string)
  | QPutFBIDForIGUser _ _ => same None
  | QGetFBIDForIGThread _ | QGetFBIDForIGUser _ => same (inl 0)
  | QExecuteTasks _ _ => same (inl ∅)
  | QFetchMoreThreads _ _ =>
      match m with
      | O => ((inl (None, None), q.2), O)
      | S m' => ((inl (Some (mkKeyStoreData (-1) 0 true (Z.of_nat m)), Some ∅), q.2), m')
      end
  | QDelay _ => same true
  | QBackground => same TimerFired
  | QFirstPart _ => same (inl true)
  end.

Definition no_jid (d : string * Z) : demo_jid := NoJID.

Definition refused_run := play demo_events
  (handleMetaEvent (mkConfig "" "" false true 3600 0 Unset 0 0 64) demo_user
     (Event_PermanentError (WrapBoth (SentinelError ErrInReadLoop) (Wrap "connection refused: " (CodeError 3))))
     (set_lastFullReconnect (900 * Second) demo_connected)) 0%nat.

(** A Messenger login, in a bridge for any platform, that reconnected lately. *)
Lemma final_refusals_witness : metaState refused_run.1.1.2 = restart IGChallengeRequiredMaybe /\ platform demo_connected = Messenger.
Proof.
  destruct (final_refusals _ _ _ _ refused_run.1.2 refused_run.1.1.1 refused_run.1.1.2 (play_sruns demo_events _ _ 0%nat))
    as (st & go & H1 & _ & _ & H2 & _).
  split; [|reflexivity]. rewrite H2. vm_compute in H1. by injection H1 as <- _.
Defined.

Definition ready_run := play demo_events (handleMetaEvent demo_config demo_user Event_Ready demo_connected) 0%nat.

Lemma connection_events_are_reported_witness : ready_run.1.1.1 = Ok () /\
  exists s1, esends ready_run.1.2 = [(metaState s1, s1)].
Proof.
  destruct (connection_events_are_reported _ _ _ _ ready_run.1.2 ready_run.1.1.1 ready_run.1.1.2 (play_sruns demo_events _ _ 0%nat))
    as (H1 & s1 & H2 & _).
  split; [exact H1|]. by exists s1.
Defined.

Definition offline_run := play demo_events (e2eeEventHandler demo_config demo_user no_jid Disconnected demo_connected) 0%nat.

Lemma encrypted_events_are_reported_witness : length (esends offline_run.1.2) = 1%nat.
Proof.
  destruct (encrypted_events_are_reported _ _ _ _ _ offline_run.1.2 offline_run.1.1.1 offline_run.1.1.2 (play_sruns demo_events _ _ 0%nat))
    as (_ & _ & H). by apply H.
Defined.

Definition two_events : list RemoteEvent := [ChatDelete (mkPortalKey "1" "") false false; ChatDelete (mkPortalKey "2" "") false true].
Definition table_run := play demo_events (handleParsedTable false ∅ two_events demo_connected) 0%nat.

Lemma cursor_moves_after_events_witness : offered table_run.1.2 = (fun e => (OutRemote e, true)) <$> two_events.
Proof.
  destruct (cursor_moves_after_events _ _ _ _ table_run.1.2 table_run.1.1.1 table_run.1.1.2 (play_sruns demo_events _ _ 0%nat)) as [_ H].
  apply H. vm_compute. discriminate.
Defined.

Definition limited_config : Config := mkConfig "" "" false true 3600 0 Messenger 3 0 64.
Definition backfill_run := play demo_events (runThreadBackfill limited_config 3 demo_connected) 10%nat.

Lemma thread_backfill_ends_witness : saved_logins backfill_run.1.2 = [true] /\ llen (fetches backfill_run.1.2) <= 3.
Proof.
  destruct (thread_backfill_ends limited_config 3 demo_connected backfill_run.1.2 backfill_run.1.1.1 backfill_run.1.1.2 eq_refl
    ltac:(by vm_compute) (play_sruns demo_events _ _ 10%nat)) as (H1 & H2 & _).
  split; [|exact H2]. destruct H1 as [[_ H1]|[[e H1] _]]; [exact H1|]. vm_compute in H1. discriminate H1.
Defined.

Definition ended_run := play demo_events
  (e2eeEventHandler demo_config demo_user no_jid (LoggedOut ConnectFailureLoggedOut false "401") (set_lastFullReconnect zero_time demo_connected)) 0%nat.
Definition receipt_run := play demo_events
  (e2eeEventHandler demo_config demo_user no_jid (WAReceipt ReceiptTypeRead Friend Friend NoJID ["AB"%string] 0) ended_run.1.1.2) 0%nat.

Lemma receipt_after_logout_crashes_witness : ended_run.1.1.1 = Ok true /\ receipt_run.1.1.1 = Panic.
Proof.
  apply (receipt_after_logout_crashes demo_config demo_user no_jid "401" (set_lastFullReconnect zero_time demo_connected)
    ended_run.1.2 ended_run.1.1.1 ended_run.1.1.2 Friend Friend NoJID ["AB"%string] 0 receipt_run.1.2 receipt_run.1.1.1 receipt_run.1.1.2
    (1000 * Second) []); [by eexists|apply play_sruns|reflexivity|reflexivity|apply play_sruns].
Defined.

Definition demo_push : decryptedPushData :=
  mkPush "" (<["ts" := "1700000000000"%string]> (<["cc" := "5"%string]> {["f" := "12345"%string]})).

Lemma push_names_the_chat_witness : push_chat demo_user (mkMetaMessageID char_c 12381 1700000000000 5) = (12345, ONE_TO_ONE).
Proof.
  destruct (push_names_the_chat demo_user demo_push (mkMetaMessageID char_c 12381 1700000000000 5)) as (f & H1 & [H2|H2]);
    [by vm_compute|rewrite H2; vm_compute in H1; by injection H1 as <-|vm_compute in H2; discriminate H2].
Defined.
