(* ===== verification/Outgoing.v ===== *)
(** * Outgoing: messages from Matrix ([msgconv/from-matrix.go], [msgconv/to-whatsapp.go])

    The conversion of a Matrix message to the tasks that send it, and to a message of an
    encrypted chat, with the transfer of media. *)

From Stdlib Require Import Ascii.
From S2P Require Import Prelude Strconv TableKinds Tables Lightspeed MetaID ChatInfo.
From S2P Require Import Json Mentions TaskTypes Tasks EventMethods Interaction Requests.
#[local] Open Scope Z_scope.

(** ** Constants of [table/enums.go] *)

Definition MESSENGER_INBOX_IN_THREAD : Z := 65537.
Definition FACEBOOK_INBOX : Z := 1.
Definition TEXT : Z := 1.
Definition MEDIA : Z := 3.
Definition COMMUNITY_GROUP : Z := 18.

(** ** Messages *)

Variant MessageType :=
| MsgText | MsgNotice | MsgEmote | MsgImage | MsgVideo | MsgAudio | MsgFile | MsgLocation
| MsgSticker | MsgOther (name : string).

#[global] Instance MessageType_eq_dec : EqDecision MessageType.
Proof. solve_decision. Defined.

Record FileInfo := mkFileInfo { MimeType : string; Width : Z; Height : Z; Duration : Z; MauGIF : bool }.

(** The content of a Matrix message.  [Info] may be missing; [Voice]: the mark of a voice
    message; the timer of a disappearing message in nanoseconds. *)
Record MatrixContent := mkMatrix {
  MsgType : MessageType; mx_Body : string; mx_HTML : bool; mx_FormattedBody : string;
  FileName : string; URL : string; Info : option FileInfo; Voice : bool; GeoURI : string;
  BeeperTimer : option Z
}.

Definition set_type (t : MessageType) (c : MatrixContent) : MatrixContent :=
  mkMatrix t (mx_Body c) (mx_HTML c) (mx_FormattedBody c) (FileName c) (URL c) (Info c) (Voice c) (GeoURI c) (BeeperTimer c).
Definition set_bodies (b f : string) (c : MatrixContent) : MatrixContent :=
  mkMatrix (MsgType c) b (mx_HTML c) f (FileName c) (URL c) (Info c) (Voice c) (GeoURI c) (BeeperTimer c).

(** The event around it: a sticker or a message, its time in milliseconds, the raw mark of a
    voice message. *)
Record MatrixEvent := mkMatrixEvent { is_sticker : bool; evt_Timestamp : Z; raw_voice : bool }.

(** What the code reads of a portal and its metadata. *)
Record Portal := mkPortal {
  portal_ID : string; portal_Receiver : string; ThreadType : Z; WhatsAppServer : string;
  RoomType_ : RoomType; DisappearTimer : Z; EphemeralSettingTimestamp : Z
}.

(** ** Messages of encrypted chats *)

Inductive MediaMessage :=
| OutText (text : string)
| OutImage (t : MediaTransport) (caption : option string) (height width : Z)
| OutSticker (t : MediaTransport) (height width : Z)
| OutVideo (t : MediaTransport) (caption : option string) (height width : Z) (seconds : option Z) (gif : option bool)
| OutAudio (t : MediaTransport) (ptt : bool) (seconds : Z)
| OutDocument (t : MediaTransport) (fileName : string)
| OutLocation (nativeURL : string)
| OutNothing.

(** What is sent to an encrypted chat: new content, or a payload that refers to a message. *)
Inductive OutMessage := OutContent (c : MediaMessage) | OutConsumer (p : ConsumerPayload).

(** ** Plain functions *)

(** [clampTo400] *)
Definition clampTo400 (w h : Z) : Z * Z :=
  let '(w, h) := if w >? 400 then (400, Z.quot (int64 (h * 400)) w) else (w, h) in
  if h >? 400 then (Z.quot (int64 (w * 400)) h, 400) else (w, h).

Definition msgToMediaType (t : MessageType) : MediaType :=
  match t with
  | MsgImage | MsgSticker => MediaImage
  | MsgVideo => MediaVideo
  | MsgAudio => MediaAudio
  | _ => MediaDocument
  end.

(** The changes both conversions make to the content first; they stay when the conversion
    fails. *)
Definition emote_prefix (relaybotFormatted : bool) (c : MatrixContent) : MatrixContent :=
  if bool_decide (MsgType c = MsgEmote) && negb relaybotFormatted then
    set_bodies ("/me " ++ mx_Body c)
      (if negb (mx_FormattedBody c =? "")%string then "/me " ++ mx_FormattedBody c else mx_FormattedBody c) c
  else c.

Definition prepare (sticker : MessageType) (evt : MatrixEvent) (relaybotFormatted : bool) (c : MatrixContent) : MatrixContent :=
  emote_prefix relaybotFormatted (if is_sticker evt then set_type sticker c else c).

Definition ErrMediaDownloadFailed : string := "failed to download media".
Definition ErrMediaConvertFailed : string := "failed to convert media".
Definition ErrMediaReuploadFailed : string := "failed to reupload media".
Definition ErrUnsupportedMessageType : string := "unsupported message type".

Section Outgoing.
Context {JID : Type} `{WJ : !WhatsAppJID JID}.
(** Functions of libraries: the type of a file by its content; whether there is a converter of
    media; the size of an image, and for PNG whether the colours are the plain ones; encoding
    a PNG again; numbers with a point. *)
Context (DetectContentType : string -> string) (ffmpeg_Supported : bool).
Context (png_config : string -> option (Z * Z * bool)) (image_config : string -> Z * Z)
  (png_reencode : string -> option string).
Context {F : Type} (ParseFloat : string -> option F) (Format6 : F -> string).
(** The login is one of Instagram. *)
Context (is_instagram : bool).

Abbreviation H := (M (answer (JID := JID) (WAOut := OutMessage))).
Abbreviation ask q := (Interaction.ask (answer := answer (JID := JID) (WAOut := OutMessage)) q).

Definition parse_id : string -> option (ParsedMessageID (JID := JID)) := ParseMessageID ParseJID.

(** The id of a message that is not encrypted, the empty one otherwise. *)
Definition fb_id (id : string) : string :=
  match parse_id id with Some (ParsedFBMessageID id) => id | _ => "" end.

(** ** [from-matrix.go] *)

(** [reuploadVideoToMetaFallback]: the headers, which repeat what the client and the request
    hold, are left out. *)
Definition reuploadVideoToMetaFallback (random : string) (data mime : string) : H Z :=
  now ← ask QNow;
  now' ← ask QNow;
  let uploadID := (random ++ "-0-" ++ FormatInt 10 (slen data) ++ "-" ++
                   FormatInt 10 (UnixMilli now / 1000 * 1000) ++ "-" ++ FormatInt 10 (UnixMilli now'))%string in
  r ← ask (QRUpload uploadID mime data);
  '(status, id) ← lift r;
  if negb (status =? 200) then throw ("bad status: " ++ FormatInt 10 status)
  else match id with None => throw "json" | Some id => mret id end.

(** Download a file; a voice message is converted. *)
Definition download_media (content : MatrixContent) (mime fileName : string) : H (string * string * string) :=
  d ← ask (QDownload (URL content));
  match d with
  | inr e => throw (ErrMediaDownloadFailed ++ ": " ++ e)
  | inl data =>
      let mime := if (mime =? "")%string then DetectContentType data else mime in
      if Voice content && ffmpeg_Supported then
        c ← ask (QConvertVoice data mime);
        match c with
        | inr e => throw (ErrMediaConvertFailed ++ ": " ++ e)
        | inl data => mret (data, "audio/mp4"%string, (fileName ++ ".m4a")%string)
        end
      else mret (data, mime, fileName)
  end.

(** [reuploadFileToMeta]: without info the program panics. *)
Definition reuploadFileToMeta (random : string) (portal : Portal) (content : MatrixContent) : H Z :=
  let threadID := ParseFBPortalID (portal_ID portal) in
  match Info content with
  | None => panic
  | Some info =>
      let fileName := if negb (FileName content =? "")%string then FileName content else mx_Body content in
      '(data, mime, fileName) ← download_media content (MimeType info) fileName;
      u ← ask (QMercuryUpload threadID fileName mime data (Voice content));
      match u with
      | inr e => throw (ErrMediaReuploadFailed ++ ": " ++ e)
      | inl attachmentID =>
          attachmentID ←
            (if (attachmentID =? 0) && bool_decide (MsgType content = MsgVideo) && is_instagram then
               f ← attempt (reuploadVideoToMetaFallback random data mime);
               match f with
               | Ok id => mret id
               | Err e => throw (ErrMediaReuploadFailed ++ ": fallback upload failed: " ++ e)
               | Halt h => of_res (Halt h)
               end
             else mret attachmentID);
          if attachmentID =? 0 then throw (ErrMediaReuploadFailed ++ ": fbid not received")
          else mret attachmentID
      end
  end.

(** The reply, if it is to a message that is not encrypted. *)
Definition reply_metadata (replyTo : option DBMessage) : option ReplyMetaData.ReplyMetaData :=
  match replyTo with
  | Some r =>
      match parse_id (msg_ID r) with
      | Some (ParsedFBMessageID id) =>
          Some (ReplyMetaData.mkReplyMetaData id 1 0 (ParseUserID (msg_Sender r)))
      | _ => None
      end
  | None => None
  end.

(** The thread a message goes to, a subthread of a community when its root is known. *)
Definition target_thread (portal : Portal) (threadRoot : option DBMessage) : H Z :=
  let threadID := ParseFBPortalID (portal_ID portal) in
  match threadRoot with
  | Some root =>
      if ThreadType portal =? COMMUNITY_GROUP then
        t ← ask (QThreadByMessage (fb_id (msg_ID root)));
        mret match t with inl thread => if thread =? 0 then threadID else thread | inr _ => threadID end
      else mret threadID
  | None => mret threadID
  end.

Definition send_task (thread otid type sync : Z) (attachments : option (list Z))
    (reply : option ReplyMetaData.ReplyMetaData) (mentions : option MentionData) (text : string)
    : SendMessageTask.SendMessageTask :=
  SendMessageTask.mkSendMessageTask thread otid MESSENGER_INBOX_IN_THREAD type attachments sync reply
    mentions text 0 0 FACEBOOK_INBOX 0 0 0 "" 0 "" 0.

(** [ToMeta]: the message and the mark that its thread is read.  The content is [prepare]d. *)
Definition ToMeta (random : string) (evt : MatrixEvent) (content : MatrixContent)
    (replyTo threadRoot : option DBMessage) (otid : Z) (relaybotFormatted : bool) (portal : Portal)
    : H (SendMessageTask.SendMessageTask * ThreadMarkReadTask.ThreadMarkReadTask) :=
  let content := prepare MsgImage evt relaybotFormatted content in
  thread ← target_thread portal threadRoot;
  let sync := if ThreadType portal =? COMMUNITY_GROUP then 104 else 1 in
  let reply := reply_metadata replyTo in
  task ←
    match MsgType content with
    | MsgText | MsgNotice | MsgEmote =>
        if mx_HTML content then
          p ← ask (QParseHTML (mx_FormattedBody content));
          let '(text, mentions) := parseFormattedBody (fun _ => p) (mx_FormattedBody content) in
          mret (send_task thread otid TEXT sync None reply (Some mentions) text)
        else mret (send_task thread otid TEXT sync None reply None (mx_Body content))
    | MsgImage | MsgVideo | MsgAudio | MsgFile =>
        id ← reuploadFileToMeta random portal content;
        let text := if negb (FileName content =? "")%string && negb (mx_Body content =? FileName content)%string
                    then mx_Body content else "" in
        mret (send_task thread otid MEDIA sync (Some [id]) reply None text)
    | _ => throw ErrUnsupportedMessageType
    end;
  now ← ask QNow;
  mret (task, ThreadMarkReadTask.mkThreadMarkReadTask (SendMessageTask.ThreadId task) (UnixMilli now) 1).
(** ** [to-whatsapp.go] *)

Definition TextToWhatsApp (content : MatrixContent) : string := mx_Body content.

(** [parseGeoURI]: exactly two numbers. *)
Definition parseGeoURI (uri : string) : res (F * F) :=
  if negb (HasPrefix uri "geo:") then Err "uri doesn't have geo: prefix"
  else
    let coordinates := default ""%string (head (Split ";"%char (str_from 4 uri))) in
    match Split ","%char coordinates with
    | [a; b] =>
        match ParseFloat a with
        | None => Err "latitude is not a number"
        | Some lat => match ParseFloat b with None => Err "longitude is not a number" | Some long => Ok (lat, long) end
        end
    | _ => Err "didn't find exactly two numbers separated by a comma"
    end.

Definition set_size (w h : Z) (i : FileInfo) : FileInfo := mkFileInfo (MimeType i) w h (Duration i) (MauGIF i).
Definition set_gif (i : FileInfo) : FileInfo := mkFileInfo (MimeType i) (Width i) (Height i) (Duration i) true.
Definition set_info (i : FileInfo) (c : MatrixContent) : MatrixContent :=
  mkMatrix (MsgType c) (mx_Body c) (mx_HTML c) (mx_FormattedBody c) (FileName c) (URL c) (Some i) (Voice c) (GeoURI c) (BeeperTimer c).

(** What is done to an image before the upload: a PNG with other colours is encoded again, and
    a missing size is read from the file.  The size of a PNG that is not read is (0, 0). *)
Definition image_fixes (is_image : bool) (mime data : string) (info : FileInfo) : string * FileInfo :=
  let '(data, info) :=
    if is_image && (mime =? "image/png")%string then
      let cfg := png_config data in
      let data := match cfg with
                  | Some (_, _, false) => default data (png_reencode data)
                  | _ => data
                  end in
      let '(w, h) := match cfg with Some (w, h, _) => (w, h) | None => (0, 0) end in
      (data, if Width info =? 0 then set_size w h info else info)
    else (data, info) in
  let info := if is_image && (Width info =? 0) then let '(w, h) := image_config data in set_size w h info else info in
  (data, info).

(** [reuploadMediaToWhatsApp]: the upload, the name of the file and the content, whose type and
    info it changes. *)
Definition reuploadMediaToWhatsApp (content : MatrixContent) : H (MediaTransport * string * MatrixContent) :=
  match Info content with
  | None => panic
  | Some info =>
      let fileName := if (FileName content =? "")%string then mx_Body content else FileName content in
      '(data, mimeType, fileName) ← download_media content (MimeType info) fileName;
      let is_image := bool_decide (MsgType content = MsgImage) in
      let '(data, info) := image_fixes is_image mimeType data info in
      let gif := is_image && (mimeType =? "image/gif")%string in
      let content := set_info (if gif then set_gif info else info)
                       (if gif then set_type MsgVideo content else content) in
      u ← ask (QWAUpload data (msgToMediaType (MsgType content)));
      match u with
      | inr e => throw (ErrMediaReuploadFailed ++ ": " ++ e)
      | inl uploaded =>
          let '(w, h) := clampTo400 (Width info) (Height info) in
          let '(w, h) := if (w =? 0) && bool_decide (MsgType content = MsgImage) then (400, 400) else (w, h) in
          now ← ask QNow;
          mret (mkTransport uploaded (now / Second) (slen data) mimeType (uint32 w) (uint32 h), fileName, content)
      end
  end.

(** [wrapWhatsAppMedia] of a content with info; the encoder does not fail. *)
Definition wrapWhatsAppMedia (raw_voice : bool) (type : MessageType) (info : FileInfo) (t : MediaTransport)
    (caption : option string) (fileName : string) : MediaMessage :=
  let h := uint32 (Height info) in
  let w := uint32 (Width info) in
  match type with
  | MsgImage => OutImage t caption h w
  | MsgSticker => OutSticker t h w
  | MsgVideo => OutVideo t caption h w
      (if negb (Duration info =? 0) then Some (uint32 (Z.quot (Duration info) 1000)) else None)
      (if MauGIF info then Some true else None)
  | MsgAudio => OutAudio t raw_voice (uint32 (Z.quot (Duration info) 1000))
  | MsgFile => OutDocument t fileName
  | _ => OutNothing
  end.

(** The setting of a disappearing message; the timers are whole milliseconds. *)
Definition ephemeral_setting (content : MatrixContent) (portal : Portal) : option (Z * option Z) :=
  let disappearTimer := match BeeperTimer content with Some t => t | None => DisappearTimer portal end in
  if disappearTimer >? 0 then
    Some (uint32 (disappearTimer / Second),
          if EphemeralSettingTimestamp portal =? 0 then None else Some (EphemeralSettingTimestamp portal))
  else None.

(** The quoted message, if it is one of an encrypted chat. *)
Definition quoted_message (replyTo : option DBMessage) : option (string * string) :=
  match replyTo with
  | Some r =>
      match parse_id (msg_ID r) with
      | Some (ParsedWAMessageID _ sender id) => Some (id, JID_String sender)
      | _ => None
      end
  | None => None
  end.

(** [ToWhatsApp] *)
Definition ToWhatsApp (evt : MatrixEvent) (content : MatrixContent) (portal : Portal) (relaybotFormatted : bool)
    (replyTo : option DBMessage) : H (OutMessage * WAMetadata) :=
  let content := prepare MsgSticker evt relaybotFormatted content in
  c ←
    match MsgType content with
    | MsgText | MsgNotice | MsgEmote => mret (OutText (TextToWhatsApp content))
    | MsgImage | MsgVideo | MsgAudio | MsgFile | MsgSticker =>
        '(t, fileName, content) ← reuploadMediaToWhatsApp content;
        let caption := if negb (FileName content =? "")%string && negb (mx_Body content =? FileName content)%string
                       then Some (TextToWhatsApp content) else None in
        match Info content with
        | None => panic
        | Some info => mret (wrapWhatsAppMedia (raw_voice evt) (MsgType content) info t caption fileName)
        end
    | MsgLocation =>
        '(lat, long) ← of_res (parseGeoURI (GeoURI content));
        mret (OutLocation ("messenger://location_share?lat=" ++ Format6 lat ++ "&long=" ++ Format6 long))
    | MsgOther _ => throw ErrUnsupportedMessageType
    end;
  mret (OutContent c, mkWAMetadata (quoted_message replyTo) (ephemeral_setting content portal)).
(** ** Lemmas *)

Lemma emote_prefix_type relay c : MsgType (emote_prefix relay c) = MsgType c.
Proof. unfold emote_prefix. by case_match. Qed.
Lemma emote_prefix_info relay c : Info (emote_prefix relay c) = Info c.
Proof. unfold emote_prefix. by case_match. Qed.

Lemma download_silent content mime fileName : asks_only silent (download_media content mime fileName).
Proof. unfold download_media. asks_tac. Qed.
#[local] Hint Resolve download_silent : asks.

Lemma fallback_silent random data mime : asks_only silent (reuploadVideoToMetaFallback random data mime).
Proof. unfold reuploadVideoToMetaFallback. asks_tac. Qed.
#[local] Hint Resolve fallback_silent : asks.

Lemma reupload_silent random portal content : asks_only silent (reuploadFileToMeta random portal content).
Proof. unfold reuploadFileToMeta. asks_tac. Qed.
#[local] Hint Resolve reupload_silent : asks.

Lemma target_thread_silent portal root : asks_only silent (target_thread portal root).
Proof. unfold target_thread. asks_tac. Qed.
#[local] Hint Resolve target_thread_silent : asks.

(** Converting sends nothing. *)
Lemma ToMeta_silent random evt content replyTo threadRoot otid relay portal :
  asks_only silent (ToMeta random evt content replyTo threadRoot otid relay portal).
Proof. unfold ToMeta. asks_tac. Qed.

Lemma reuploadMedia_silent content : asks_only silent (reuploadMediaToWhatsApp content).
Proof. unfold reuploadMediaToWhatsApp. asks_tac. Qed.
#[local] Hint Resolve reuploadMedia_silent : asks.

Lemma ToWhatsApp_silent evt content portal relay replyTo :
  asks_only silent (ToWhatsApp evt content portal relay replyTo).
Proof. unfold ToWhatsApp. asks_tac. Qed.

(** A file that was uploaded has an id. *)
Lemma reupload_id random portal content tr id :
  runs (reuploadFileToMeta random portal content) tr (Ok id) -> id <> 0.
Proof.
  unfold reuploadFileToMeta. destruct (Info content) as [info|]; [|by intros [_ H]]. cbv zeta.
  intros H. run_step H. destruct a as [[data mime] fileName]. run_step H. destruct x as [a|e]; run_step H.
  by destruct (Z.eqb_spec a0 0) as [->|Hne]; run_step H.
Qed.

Lemma target_thread_plain portal root tr thread : runs (target_thread portal root) tr (Ok thread) ->
  root = None \/ ThreadType portal <> COMMUNITY_GROUP -> thread = ParseFBPortalID (portal_ID portal).
Proof.
  unfold target_thread. cbv zeta. intros H [->|Hne]; [by run_step H|].
  destruct root; [|by run_step H]. rewrite (proj2 (Z.eqb_neq _ _) Hne) in H. by run_step H.
Qed.

Lemma target_thread_total portal root tr r : runs (target_thread portal root) tr r -> exists thread, r = Ok thread.
Proof.
  unfold target_thread. cbv zeta. intros H. destruct root; [|run_step H; by eexists].
  destruct (_ =? _); [|run_step H; by eexists]. run_step H. destruct H. by eexists.
Qed.

(** The task of a message. *)
Lemma ToMeta_shape random evt content replyTo threadRoot otid relay portal tr t read :
  runs (ToMeta random evt content replyTo threadRoot otid relay portal) tr (Ok (t, read)) ->
  exists thread type att mentions text now,
    t = send_task thread otid type (if ThreadType portal =? COMMUNITY_GROUP then 104 else 1) att (reply_metadata replyTo) mentions text /\
    read = ThreadMarkReadTask.mkThreadMarkReadTask thread now 1 /\
    (threadRoot = None \/ ThreadType portal <> COMMUNITY_GROUP -> thread = ParseFBPortalID (portal_ID portal)) /\
    ((type = TEXT /\ att = None) \/ (type = MEDIA /\ exists id, id <> 0 /\ att = Some [id])).
Proof.
  unfold ToMeta. cbv zeta. set (c := prepare _ _ _ _). clearbody c. intros H.
  run_step H. rename a into thread, H0 into Hthread. run_step H. rename a into t', H0 into Ht.
  run_step H. run_step H. pose proof (target_thread_plain _ _ _ _ Hthread) as Hplain.
  assert (exists type att mentions text, t' = send_task thread otid type (if ThreadType portal =? COMMUNITY_GROUP then 104 else 1) att (reply_metadata replyTo) mentions text /\
    ((type = TEXT /\ att = None) \/ (type = MEDIA /\ exists id, id <> 0 /\ att = Some [id]))) as (type & att & mentions & text & -> & Hatt).
  { destruct (MsgType c); try (by run_step Ht);
      try (destruct (mx_HTML c);
           [run_step Ht; destruct (parseFormattedBody _ _); run_step Ht|run_step Ht];
           do 4 eexists; (split; [reflexivity|by left]));
      run_step Ht; run_step Ht; do 4 eexists; (split; [reflexivity|]); right; (split; [done|]); eexists;
      (split; [by eapply reupload_id|done]). }
  by do 6 eexists.
Qed.

(** ** Properties *)

(** The tasks of a message: the message goes to the portal's own thread unless it answers in
    a community's subthread, carries the transaction id it was given, refers to the message it
    replies to, and is either a text without attachments or media with one file that was
    uploaded; the mark that the thread is read is for the thread of the message. *)
Theorem to_meta_task random evt content replyTo threadRoot otid relay portal tr t read
    (H : runs (ToMeta random evt content replyTo threadRoot otid relay portal) tr (Ok (t, read))) :
  SendMessageTask.Otid t = otid /\ ThreadMarkReadTask.ThreadId read = SendMessageTask.ThreadId t /\
  SendMessageTask.ReplyMetaData t = reply_metadata replyTo /\
  ((SendMessageTask.SendType t = TEXT /\ SendMessageTask.AttachmentFBIds t = None) \/
   (SendMessageTask.SendType t = MEDIA /\ exists id, id <> 0 /\ SendMessageTask.AttachmentFBIds t = Some [id])) /\
  (threadRoot = None \/ ThreadType portal <> COMMUNITY_GROUP ->
   SendMessageTask.ThreadId t = ParseFBPortalID (portal_ID portal)).
Proof.
  apply ToMeta_shape in H as (thread & type & att & mentions & text & now & -> & -> & Hthread & Hatt).
  by split_and!.
Qed.

(** Without info in its content a file is never sent: the program panics. *)
Theorem file_without_info_panics random evt content replyTo threadRoot otid relay portal
    (Hinfo : Info content = None)
    (Htype : is_sticker evt = true \/ MsgType content ∈ [MsgImage; MsgVideo; MsgAudio; MsgFile]) :
  (forall tr r, runs (ToMeta random evt content replyTo threadRoot otid relay portal) tr r -> r = Panic) /\
  (forall tr r, runs (ToWhatsApp evt content portal relay replyTo) tr r -> r = Panic).
Proof.
  assert (forall st, Info (prepare st evt relay content) = None) as Hi.
  { intros st. unfold prepare. rewrite emote_prefix_info. by destruct (is_sticker evt). }
  assert (forall st, MsgType (prepare st evt relay content) ∈ [st; MsgImage; MsgVideo; MsgAudio; MsgFile]) as Ht.
  { intros st. unfold prepare. rewrite emote_prefix_type. destruct (is_sticker evt); [by left|].
    destruct Htype as [?|Htype]; [done|]. by right. }
  split; intros tr r H.
  - unfold ToMeta in H. cbv zeta in H. specialize (Hi MsgImage). specialize (Ht MsgImage).
    set (c := prepare _ _ _ _) in *. clearbody c.
    run_step H. apply target_thread_total in H0 as [thread ->].
    run_step H. assert (r0 = Panic) as ->; [|by destruct H].
    repeat (apply elem_of_cons in Ht as [E|Ht]; [rewrite E in H0; apply run_bind in H0 as (r1 & ? & ? & _ & Hu & H0);
      unfold reuploadFileToMeta in Hu; rewrite Hi in Hu; destruct Hu as [_ ->]; by destruct H0|]).
    by apply elem_of_nil in Ht.
  - unfold ToWhatsApp in H. cbv zeta in H. specialize (Hi MsgSticker). specialize (Ht MsgSticker).
    set (c := prepare _ _ _ _) in *. clearbody c.
    run_step H. assert (r0 = Panic) as ->; [|by destruct H].
    repeat (apply elem_of_cons in Ht as [E|Ht]; [rewrite E in H0; apply run_bind in H0 as (r1 & ? & ? & _ & Hu & H0);
      unfold reuploadMediaToWhatsApp in Hu; rewrite Hi in Hu; destruct Hu as [_ ->]; by destruct H0|]).
    by apply elem_of_nil in Ht.
Qed.

(** The size of a thumbnail is at most 400 by 400, and is not empty unless one side is more
    than 400 times the other. *)
Theorem thumbnail_bounds w h (Hw : 0 < w < 2 ^ 54) (Hh : 0 < h < 2 ^ 54) :
  let '(w', h') := clampTo400 w h in
  0 <= w' <= 400 /\ 0 <= h' <= 400 /\ (w <= 400 * h -> h <= 400 * w -> 0 < w' /\ 0 < h').
Proof.
  assert (forall x, 0 <= x < 2 ^ 54 -> int64 (x * 400) = x * 400) as Hx.
  { intros x Hx. apply intN_small; [lia|]. unfold in_int. change (64 - 1) with 63. lia. }
  unfold clampTo400. destruct (Z.gtb_spec w 400) as [H|H].
  - rewrite Hx by lia. rewrite Z.quot_div_nonneg by lia. set (h1 := h * 400 / w).
    assert (0 <= h1 < 2 ^ 54) by (split; [apply Z.div_pos; lia|]; apply Z.div_lt_upper_bound; nia).
    assert (w <= 400 * h -> 0 < h1) by (intros; apply Z.div_str_pos; lia).
    assert (h <= 400 * w -> h1 <= 160000).
    { intros. apply Z.lt_succ_r. apply Z.div_lt_upper_bound; nia. }
    destruct (Z.gtb_spec h1 400); [|lia]. rewrite Hx by lia. rewrite Z.quot_div_nonneg by lia.
    split_and!; [apply Z.div_pos; lia|apply Z.lt_succ_r, Z.div_lt_upper_bound; lia|lia|lia|].
    intros. split; [apply Z.div_str_pos; lia|lia].
  - destruct (Z.gtb_spec h 400); [|lia]. rewrite Hx by lia. rewrite Z.quot_div_nonneg by lia.
    split_and!; [apply Z.div_pos; lia|apply Z.lt_succ_r, Z.div_lt_upper_bound; lia|lia|lia|].
    intros. split; [apply Z.div_str_pos; lia|lia].
Qed.
End Outgoing.

(** ** Witnesses *)

Definition demo_portal : Portal := mkPortal "77" "" 2 "" RoomTypeDefault 0 0.
Definition demo_text (s : string) : MatrixContent := mkMatrix MsgText s false "" "" "" None false "" None.
Definition demo_event : MatrixEvent := mkMatrixEvent false 1700000000000 false.

Lemma to_meta_task_witness : exists tr t read,
  runs (ToMeta (JID := demo_jid) id false false "" demo_event (demo_text "hi") (Some (mkDBMessage "fb:mid.$x" "9" 0)) None 5 false demo_portal)
    tr (Ok (t, read)) /\
  SendMessageTask.Otid t = 5 /\ SendMessageTask.Text t = "hi"%string /\
  SendMessageTask.ReplyMetaData t = Some (ReplyMetaData.mkReplyMetaData "mid.$x" 1 0 9) /\
  SendMessageTask.ThreadId t = 77 /\ ThreadMarkReadTask.ThreadId read = 77.
Proof.
  set (p := ToMeta (JID := demo_jid) id false false "" demo_event (demo_text "hi") (Some (mkDBMessage "fb:mid.$x" "9" 0)) None 5 false demo_portal).
  pose proof (play_runs (calm ∅ 0) p tt) as Hr.
  destruct (play (calm ∅ 0) p tt).1.1 as [[t read]| |] eqn:E; [|by vm_compute in E..].
  destruct (to_meta_task id false false "" demo_event (demo_text "hi") (Some (mkDBMessage "fb:mid.$x" "9" 0)) None 5 false demo_portal
    _ t read Hr) as (Ho & Hread & Hreply & _ & Ht).
  do 3 eexists. split; [exact Hr|]. split; [exact Ho|]. rewrite Hread, Hreply, Ht by (by left).
  vm_compute in E. injection E as <- <-. by vm_compute.
Defined.

Lemma file_without_info_panics_witness :
  let content := mkMatrix MsgFile "a.txt" false "" "" "" None false "" None in
  forall tr r, runs (ToMeta (JID := demo_jid) id false false "" demo_event content None None 5 false demo_portal) tr r -> r = Panic.
Proof.
  apply (file_without_info_panics (JID := demo_jid) id false (fun _ => None) (fun _ => (0, 0)) (fun _ => None) (F := Z) (fun _ => None) (fun _ => "") false
    "" demo_event (mkMatrix MsgFile "a.txt" false "" "" "" None false "" None) None None 5 false demo_portal).
  - done.
  - right. set_solver.
Defined.

(** A banner whose thumbnail has no height. *)
Lemma thumbnail_bounds_witness :
  (let '(w', h') := clampTo400 1920 1080 in
   0 <= w' <= 400 /\ 0 <= h' <= 400 /\ (1920 <= 400 * 1080 -> 1080 <= 400 * 1920 -> 0 < w' /\ 0 < h')) /\
  clampTo400 1920 1080 = (400, 225) /\ clampTo400 10000 10 = (400, 0).
Proof. split; [apply (thumbnail_bounds 1920 1080); lia|by vm_compute]. Defined.
