(* ===== verification/HandleMatrix.v ===== *)
(** * HandleMatrix: local events ([connector/handlematrix.go])

    The handlers of what the user does in Matrix: messages, edits, reactions, deletions, read
    receipts, typing, rooms and members.  Each is a tree of requests; what it changes of the
    objects it is given is part of its result. *)

From Stdlib Require Import Ascii.
From S2P Require Import Prelude Strconv TableKinds TableMessages Tables Lightspeed WrapMessages Events MetaID Cookies MessageID ChatInfo.
From S2P Require Import Json Mentions TaskTypes Tasks EventMethods Interaction Requests Outgoing.
#[local] Open Scope Z_scope.

Definition ErrNotLoggedIn : string := "not logged in".
Definition ErrServerRejectedMessage : string := "server rejected message".
Definition ErrNotConnected : string := "not connected".
Definition invalid_id : string := "invalid message ID".

(** The errors that are told apart. *)
Variant KnownError := ErrPleaseReloadPage | ErrTokenInvalidated | ErrConsentRequired.

Section HandleMatrix.
Context {JID : Type} `{WJ : !WhatsAppJID JID} `{EJ : !EqDecision JID}.
Context (m : Login).
(** Of the client: whether there are cookies, the platform, the device, whether the client for
    encrypted chats exists, the minimal time between full reconnects in seconds, and whether
    presence is sent with typing. *)
Context (has_cookies : bool) (platform : Platform) (DeviceID : JID) (hasE2EE : bool)
  (MinFullReconnectIntervalSeconds : Z) (SendPresenceOnTyping : bool).
(** [errors.Is], on the text of an error. *)
Context (errors_Is : string -> KnownError -> bool).
(** Functions of libraries, as in [Outgoing]; removing the variation selectors of an emoji. *)
Context (DetectContentType : string -> string) (ffmpeg_Supported : bool).
Context (png_config : string -> option (Z * Z * bool)) (image_config : string -> Z * Z)
  (png_reencode : string -> option string).
Context {F : Type} (ParseFloat : string -> option F) (Format6 : F -> string).
Context (variationselector_Remove : string -> string).

Abbreviation H := (M (answer (JID := JID) (WAOut := OutMessage))).
Abbreviation trace := (list (event (answer (JID := JID) (WAOut := OutMessage)))).
Abbreviation ask q := (Interaction.ask (answer := answer (JID := JID) (WAOut := OutMessage)) q).

Definition ToMeta_ := Outgoing.ToMeta (JID := JID) DetectContentType ffmpeg_Supported (IsInstagram platform).
Definition ToWhatsApp_ := Outgoing.ToWhatsApp (JID := JID) DetectContentType ffmpeg_Supported
  png_config image_config png_reencode ParseFloat Format6.

Definition portal_JID (portal : Portal) : JID :=
  PortalMetadata_JID NewJID set_Server JID_Server GroupServer MessengerServer
    (ThreadType portal) (WhatsAppServer portal) (portal_ID portal).

(** Both waits of a handler. *)
Definition connected : H unit := b ← ask QConnected; if b : bool then mret () else throw ErrNotConnected.
Definition e2ee_connected : H unit := b ← ask QE2EEConnected; if b : bool then mret () else throw ErrNotConnected.
Definition logged_in : H unit := if has_cookies then mret () else throw ErrNotLoggedIn.

Definition execute (tasks : list AnyTask) : H tables := r ← ask (QExecuteTasks tasks); lift r.

Definition send_fb (chat : JID) (msg : OutMessage) (meta : option WAMetadata) (id : string) : H Z :=
  r ← ask (QSendFBMessage chat msg meta id); lift r.

(** ** Messages *)

Definition getOTID (inputTxnID : string) : H Z :=
  if negb (inputTxnID =? "")%string then
    match ParseInt 10 inputTxnID with
    | (otid, None) => if otid >? 0 then mret otid else ask QEpochID
    | _ => ask QEpochID
    end
  else ask QEpochID.

(** [canReconnect] ([client.go]) *)
Definition canReconnect : H bool :=
  last ← ask QLastReconnect;
  now ← ask QNow;
  mret ((now - last >? MinFullReconnectIntervalSeconds * Second) && has_cookies).

(** What the framework stores of a message that was sent: its id, sender, time in nanoseconds
    and place in the stream. *)
Record MessageResponse := mkMessageResponse { resp_ID : string; resp_Sender : string; resp_Timestamp : Z; resp_StreamOrder : Z }.

(** A task of any type. *)
Definition task {T} {C : Task T} (t : T) : AnyTask := mkTask t.

(** The loop around sending: at most [n] attempts. *)
Fixpoint send_loop (n : nat) (tasks : list AnyTask) (err : option string) : H (option tables) :=
  match n with
  | O => match err with Some e => throw e | None => mret None end
  | S n =>
      w ← ask (QCanSend 15000);
      match w with
      | Some e => c ← ask QCtxErr; match c with Some e => throw e | None => send_loop n tasks (Some e) end
      | None =>
          r ← ask (QExecuteTasks tasks);
          match r with
          | inl t => mret (Some t)
          | inr e => c ← ask QCtxErr; match c with Some e => throw e | None => send_loop n tasks (Some e) end
          end
      end
  end.

(** The id the server gave the message, the last one for its [otid]. *)
Definition replaced_id (otidStr : string) (resp : tables) : string :=
  foldl (fun id replace =>
           if (row_str LSReplaceOptimsiticMessage "OfflineThreadingId" replace =? otidStr)%string
           then row_str LSReplaceOptimsiticMessage "MessageId" replace else id)
    "" (rows resp "LSReplaceOptimsiticMessage").

Definition rejection (resp : tables) : string :=
  match rows resp "LSMarkOptimisticMessageFailed" with
  | failed :: _ => ErrServerRejectedMessage ++ ": " ++ row_str LSMarkOptimisticMessageFailed "Message" failed
  | [] => match rows resp "LSHandleFailedTask" with
          | failed :: _ => ErrServerRejectedMessage ++ ": " ++ row_str LSHandleFailedTask "Message" failed
          | [] => ErrServerRejectedMessage ++ ": message send response didn't include message ID"
          end
  end.

(** The time in a message id, dropped when it is more than an hour off. *)
Definition checked_time (msgID : string) : H (Z * Z) :=
  match MessageID.ParseMessageID msgID with
  | Ok parsedTS =>
      now ← ask QNow;
      if from_millis parsedTS <? now - Hour then mret (zero_time, 0)
      else
        now ← ask QNow;
        if from_millis parsedTS >? now + Hour then mret (zero_time, 0)
        else mret (from_millis parsedTS, parsedTS)
  | Err e => throw (ErrServerRejectedMessage ++ ": failed to parse message ID: " ++ e)
  | Halt h => of_res (Halt h)
  end.

(** What is done with an error of the conversion. *)
Definition conversion_error {A} (err : string) : H A :=
  if errors_Is err ErrTokenInvalidated then
    b ← canReconnect;
    _ ← (if b : bool then ask QGoFullReconnect else mret ());
    throw err
  else if errors_Is err ErrConsentRequired then
    _ ← ask (QBridgeState (if IsMessenger platform then "fb-consent-required" else "ig-consent-required"));
    throw err
  else throw ("failed to convert message: " ++ err).

(** A message of the framework. *)
Record MatrixMessage := mkMatrixMessage {
  mm_Portal : Portal; mm_Event : MatrixEvent; mm_Content : MatrixContent; mm_ReplyTo : option DBMessage;
  mm_ThreadRoot : option DBMessage; mm_Relay : bool; mm_TxnID : string; mm_random : string
}.

(** The conversion, with one retry after a full reconnect when the page has to be reloaded; the
    second time it starts from the content the first one left. *)
Definition convert_to_meta (msg : MatrixMessage) (otid : Z) : H (SendMessageTask.SendMessageTask * ThreadMarkReadTask.ThreadMarkReadTask) :=
  let conv (content : MatrixContent) := ToMeta_ (mm_random msg) (mm_Event msg) content (mm_ReplyTo msg) (mm_ThreadRoot msg)
                        otid (mm_Relay msg) (mm_Portal msg) in
  r ← attempt (conv (mm_Content msg));
  match r with
  | Ok tasks => mret tasks
  | Halt h => of_res (Halt h)
  | Err err =>
      retry ← (if errors_Is err ErrPleaseReloadPage then canReconnect else mret false);
      if retry : bool then
        _ ← ask QFullReconnect;
        r ← attempt (conv (prepare MsgImage (mm_Event msg) (mm_Relay msg) (mm_Content msg)));
        match r with Ok tasks => mret tasks | Err err => conversion_error err | Halt h => of_res (Halt h) end
      else conversion_error err
  end.

Definition send_encrypted (msg : MatrixMessage) (otid : Z) : H MessageResponse :=
  _ ← e2ee_connected;
  c ← attempt (ToWhatsApp_ (mm_Event msg) (mm_Content msg) (mm_Portal msg) (mm_Relay msg) (mm_ReplyTo msg));
  match c with
  | Err e => throw ("failed to convert message: " ++ e)
  | Halt h => of_res (Halt h)
  | Ok (waMsg, waMeta) =>
      let messageID := FormatInt 10 otid in
      let chatJID := portal_JID (mm_Portal msg) in
      ts ← send_fb chatJID waMsg (Some waMeta) messageID;
      mret (mkMessageResponse (MakeWAMessageID JID_String ToNonAD chatJID (ToNonAD DeviceID) messageID)
              (LoginID m) ts (UnixMilli ts))
  end.

Definition send_plain (msg : MatrixMessage) (otid : Z) : H MessageResponse :=
  _ ← connected;
  '(t, read) ← convert_to_meta msg otid;
  resp ← send_loop 5 [task t; task read] None;
  match resp with
  | Some resp =>
      let msgID := replaced_id (FormatInt 10 otid) resp in
      if (msgID =? "")%string then throw (rejection resp)
      else
        '(time, ts) ← checked_time msgID;
        mret (mkMessageResponse (MakeFBMessageID msgID) (LoginID m) time ts)
  | None => '(time, ts) ← checked_time "";
            mret (mkMessageResponse (MakeFBMessageID "") (LoginID m) time ts)
  end.

Definition HandleMatrixMessage (msg : MatrixMessage) : H MessageResponse :=
  _ ← logged_in;
  otid ← getOTID (mm_TxnID msg);
  if (ThreadType (mm_Portal msg) =? ENCRYPTED_OVER_WA_ONE_TO_ONE) || (ThreadType (mm_Portal msg) =? ENCRYPTED_OVER_WA_GROUP)
  then send_encrypted msg otid
  else send_plain msg otid.

(** ** Reactions *)

(** [PreHandleMatrixReaction]: the sender, the emoji, and how many reactions there may be. *)
Definition PreHandleMatrixReaction (key : string) : string * string * Z :=
  (LoginID m, variationselector_Remove key, 1).

Definition wrapReaction (key : MessageKey) (text : string) (senderTimestampMS : Z) : ConsumerPayload :=
  PayloadContent (ReactionMessage (Some key) text senderTimestampMS).
Definition wrapEdit (key : MessageKey) (timestampMS : Z) (message : string) : ConsumerPayload :=
  PayloadContent (EditMessage (Some key) timestampMS message).
Definition wrapRevoke (key : MessageKey) : ConsumerPayload := PayloadRevoke (Some key).

Definition reaction_task (portal : Portal) (timestamp : Z) (messageID emoji sender : string) : SendReactionTask.SendReactionTask :=
  SendReactionTask.mkSendReactionTask (ParseFBPortalID (portal_ID portal)) timestamp messageID
    (ParseUserID sender) emoji None 1 MESSENGER_INBOX_IN_THREAD.

(** Both handlers of reactions: put [emoji], of [sender], on a message. *)
Definition send_reaction (portal : Portal) (timestamp : Z) (target emoji sender txnID : string) : H unit :=
  _ ← logged_in;
  match parse_id target with
  | Some (ParsedFBMessageID id) =>
      _ ← connected;
      _ ← execute [task (reaction_task portal timestamp id emoji sender)];
      mret ()
  | Some (ParsedWAMessageID chat from id) =>
      _ ← e2ee_connected;
      _ ← send_fb (portal_JID portal)
            (OutConsumer (wrapReaction (messageIDToWAKey m chat from id) emoji timestamp)) None txnID;
      mret ()
  | None => throw invalid_id
  end.

Definition HandleMatrixReaction (portal : Portal) (timestamp : Z) (target emoji sender txnID : string) : H unit :=
  send_reaction portal timestamp target emoji sender txnID.

Definition HandleMatrixReactionRemove (portal : Portal) (timestamp : Z) (target sender txnID : string) : H unit :=
  send_reaction portal timestamp target "" sender txnID.

(** ** Edits *)

(** A message that is edited, the edits so far and the time of the last one. *)
Record EditTarget := mkEditTarget { et_ID : string; et_EditCount : Z; et_EditTimestamp : Z }.

(** The wait for a correction: the first of the edits that has the text. *)
Fixpoint corrected (text : string) (extra : list Inst) (e : EditEnd) : res Inst :=
  match extra with
  | newEdit :: extra =>
      if (row_str LSEditMessage "Text" newEdit =? text)%string then Ok newEdit else corrected text extra e
  | [] => match e with TimedOut => Err "edit reverted" | Cancelled err => Err err end
  end.

(** The edit of a message that is not encrypted, while its channel is registered: the new count
    of edits, [None] when the response says nothing of the message. *)
Definition run_edit (editTask : EditMessageTask.EditMessageTask) : H (option Z) :=
  r ← ask (QExecuteTasks [task editTask]);
  match r with
  | inr e => throw ("failed to send edit to Meta: " ++ e)
  | inl resp =>
      match rows resp "LSEditMessage" with
      | [] => mret None
      | editMsg :: _ =>
          if negb (row_str LSEditMessage "MessageID" editMsg =? EditMessageTask.MessageID editTask)%string then mret None
          else
            editMsg ←
              (if negb (row_str LSEditMessage "Text" editMsg =? EditMessageTask.Text editTask)%string then
                 '(extra, e) ← ask (QExtraEdits (EditMessageTask.MessageID editTask));
                 of_res (corrected (EditMessageTask.Text editTask) extra e)
               else mret editMsg);
            mret (Some (row_int LSEditMessage "EditCount" editMsg))
      end
  end.

(** [defer] of the removal of the channel: also on errors and panics. *)
Definition with_channel {A} (id : string) (body : H A) : H A :=
  _ ← ask (QRegisterEdits id);
  prog_bind body (fun r => prog_bind (ask (QUnregisterEdits id)) (fun _ => Ret r)).

Definition set_count (n : Z) (t : EditTarget) : EditTarget := mkEditTarget (et_ID t) n (et_EditTimestamp t).
Definition set_edited (ts : Z) (t : EditTarget) : EditTarget := mkEditTarget (et_ID t) (et_EditCount t) ts.

(** [HandleMatrixEdit]: the target as the handler leaves it. *)
Definition HandleMatrixEdit (portal : Portal) (evt : MatrixEvent) (content : MatrixContent) (target : EditTarget)
    (txnID random : string) : H EditTarget :=
  _ ← logged_in;
  otid ← getOTID txnID;
  match parse_id (et_ID target) with
  | Some (ParsedFBMessageID id) =>
      _ ← connected;
      c ← attempt (ToMeta_ random evt content None None otid false portal);
      match c with
      | Err e => throw ("failed to convert message: " ++ e)
      | Halt h => of_res (Halt h)
      | Ok (fakeTask, _) =>
          count ← with_channel id (run_edit (EditMessageTask.mkEditMessageTask id (SendMessageTask.Text fakeTask)));
          mret match count with Some n => set_count n target | None => target end
      end
  | Some (ParsedWAMessageID chat sender id) =>
      _ ← e2ee_connected;
      let msg := wrapEdit (messageIDToWAKey m chat sender id) (evt_Timestamp evt) (TextToWhatsApp content) in
      _ ← send_fb (portal_JID portal) (OutConsumer msg) None (FormatInt 10 otid);
      mret (set_edited (evt_Timestamp evt) target)
  | None => throw invalid_id
  end.

(** ** Deletions *)

Definition HandleMatrixMessageRemove (portal : Portal) (target txnID : string) : H unit :=
  _ ← logged_in;
  match parse_id target with
  | Some (ParsedFBMessageID id) =>
      _ ← connected;
      _ ← execute [task (DeleteMessageTask.mkDeleteMessageTask id)];
      mret ()
  | Some (ParsedWAMessageID chat sender id) =>
      _ ← e2ee_connected;
      _ ← send_fb (portal_JID portal) (OutConsumer (wrapRevoke (messageIDToWAKey m chat sender id))) None txnID;
      mret ()
  | None => throw invalid_id
  end.
(** ** Read receipts *)

Record ReadReceipt := mkReadReceipt { LastRead : Z; ReadUpTo : Z; ReceiptTimestamp : Z; Implicit : bool }.

(** The empty JID, and the order in which Go walks the map of read messages. *)
Context (EmptyJID : JID) (map_order : list (JID * list string) -> list (JID * list string)).

(** The encrypted messages to mark, by key: the sender in groups, no one in direct chats. *)
Definition add_read (key : JID) (id : string) (l : list (JID * list string)) : list (JID * list string) :=
  if bool_decide (key ∈ l.*1)
  then map (fun kv => if bool_decide (kv.1 = key) then (kv.1, kv.2 ++ [id]) else kv) l
  else l ++ [(key, [id])].

(** One message: the watermark and the encrypted messages. *)
Definition collect_read (s : Z * list (JID * list string)) (msg : DBMessage) : Z * list (JID * list string) :=
  match parse_id (msg_ID msg) with
  | Some (ParsedFBMessageID _) => (if s.1 <? msg_Timestamp msg then msg_Timestamp msg else s.1, s.2)
  | Some (ParsedWAMessageID chat sender id) =>
      if (msg_Sender msg =? LoginID m)%string then s
      else (s.1, add_read (if bool_decide (sender = chat) then EmptyJID else sender) id s.2)
  | None => s
  end.

Fixpoint mark_read_all (timestamp : Z) (chat : JID) (l : list (JID * list string)) : H unit :=
  match l with
  | [] => mret ()
  | (key, ids) :: l =>
      _ ← ask (QMarkRead ids timestamp chat key);
      mark_read_all timestamp chat l
  end.

Definition HandleMatrixReadReceipt (portal : Portal) (receipt : ReadReceipt) : H unit :=
  _ ← logged_in;
  if negb (ReadUpTo receipt >? LastRead receipt) then mret ()
  else
    let lastRead := if LastRead receipt =? zero_time then ReadUpTo receipt - 5 * Second else LastRead receipt in
    r ← ask (QMessagesBetween lastRead (ReadUpTo receipt));
    match r with
    | inr e => throw ("failed to get messages to mark as read: " ++ e)
    | inl messages =>
        if llen messages =? 0 then mret ()
        else
          let '(watermark, waMessages) := foldl collect_read (zero_time, []) messages in
          let threadID := ParseFBPortalID (portal_ID portal) in
          _ ← (if negb (watermark =? zero_time) && negb (threadID =? 0) && negb (Implicit receipt) then
                 _ ← ask (QExecuteTasks [task (ThreadMarkReadTask.mkThreadMarkReadTask threadID (UnixMilli watermark) 1)]);
                 mret ()
               else mret ());
          if (0 <? llen waMessages) && negb (IsEmpty (portal_JID portal))
          then mark_read_all (ReceiptTimestamp receipt) (portal_JID portal) (map_order waMessages)
          else mret ()
    end.

(** ** Presence and typing *)

(** [updateWAPresence] ([client.go]): the last presence, which is kept when it could be sent. *)
Definition updateWAPresence (presence : bool) (waLastPresence : option bool) : H (option string * option bool) :=
  e ← ask (QSendPresence presence);
  mret (e, match e with None => Some presence | Some _ => waLastPresence end).

(** [HandleMatrixViewingChat]: the last presence as the handler leaves it; errors are only
    logged. *)
Definition HandleMatrixViewingChat (portal : option Portal) (waLastPresence : option bool) : H (option bool) :=
  if negb hasE2EE then mret waLastPresence
  else
    let presence := match portal with Some p => IsWhatsApp (ThreadType p) | None => false end in
    if bool_decide (waLastPresence = Some presence) then mret waLastPresence
    else '(_, last) ← updateWAPresence presence waLastPresence; mret last.

Variant TypingType := TypingTypeText | TypingTypeUploadingMedia | TypingTypeRecordingMedia.

(** [HandleMatrixTyping], with the last presence. *)
Definition HandleMatrixTyping (portal : Portal) (isTyping : bool) (type : TypingType) (waLastPresence : option bool)
    : H (option bool) :=
  if IsWhatsApp (ThreadType portal) then
    match type with
    | TypingTypeUploadingMedia => mret waLastPresence
    | _ =>
        last ← (if SendPresenceOnTyping then '(_, last) ← updateWAPresence true waLastPresence; mret last
                else mret waLastPresence);
        e ← ask (QSendChatPresence (portal_JID portal) isTyping (match type with TypingTypeRecordingMedia => true | _ => false end));
        _ ← call_error e;
        mret last
    end
  else
    e ← ask (QExecuteStateless (task (UpdatePresenceTask.mkUpdatePresenceTask (ParseFBPortalID (portal_ID portal))
              (if IsOneToOne (ThreadType portal) then 0 else 1) (if isTyping then 1 else 0) 0 1 (ThreadType portal))));
    _ ← call_error e;
    mret waLastPresence.

(** ** Rooms *)

Definition instagram (c : InstagramCall) : H unit := e ← ask (QInstagram c); call_error e.

Definition HandleMatrixDeleteChat (portal : Portal) : H unit :=
  let threadID := ParseFBPortalID (portal_ID portal) in
  if IsInstagram platform then instagram (DeleteThread (FormatInt 10 threadID))
  else if IsMessenger platform then
    _ ← execute [task (DeleteThreadTask.mkDeleteThreadTask threadID 0 1)];
    if IsWhatsApp (ThreadType portal) then
      _ ← execute [task (DeleteThreadTask.mkDeleteThreadTask threadID 0 95)];
      mret ()
    else mret ()
  else throw "unknown platform for deleting chat".

Definition is_dm (portal : Portal) : bool := match RoomType_ portal with RoomTypeDM => true | _ => false end.

Definition HandleMatrixRoomName (portal : Portal) (name : string) : H bool :=
  if is_dm portal then throw "renaming not supported in DMs"
  else
    let threadID := ParseFBPortalID (portal_ID portal) in
    if bool_decide (platform = Instagram) then
      _ ← instagram (EditGroupTitle (FormatInt 10 threadID) name);
      mret true
    else if IsMessenger platform then
      _ ← execute [task (RenameThreadTask.mkRenameThreadTask threadID name 1)];
      mret true
    else throw "unknown platform for renaming chat".

Definition with_prefix {A} (prefix : string) (body : H A) : H A :=
  prog_bind body (fun r => Ret match r with Err e => Err (prefix ++ e) | r => r end).

Definition HandleMatrixRoomAvatar (portal : Portal) (url : string) : H bool :=
  if is_dm portal then throw "changing avatar not supported in DMs"
  else
    let threadID := ParseFBPortalID (portal_ID portal) in
    let download := d ← ask (QDownload url); lift d in
    if bool_decide (platform = Instagram) then
      if (url =? "")%string then
        _ ← with_prefix "failed to remove Instagram avatar: " (instagram (RemoveGroupAvatar (FormatInt 10 threadID)));
        mret true
      else
        data ← with_prefix "failed to download avatar: " download;
        _ ← with_prefix "failed to set Instagram avatar: " (instagram (EditGroupAvatar (FormatInt 10 threadID) data));
        mret true
    else if (url =? "")%string then throw "removing avatar not implemented"
    else
      data ← with_prefix "failed to download avatar: " download;
      imageID ← with_prefix "failed to upload avatar: "
                  (u ← ask (QMercuryUpload threadID "avatar.jpg" (DetectContentType data) data false); lift u);
      if imageID =? 0 then throw "no image ID received from upload"
      else
        _ ← execute [task (SetThreadImageTask.mkSetThreadImageTask threadID imageID 1)];
        mret true.

(** ** Members *)

Variant MembershipTarget := TargetGhost (id : string) | TargetLogin (id : string) | TargetOther.
Variant MembershipChange := Invite | Kick | OtherChange.

(** [HandleMatrixMembership]: [None] is the nil result, [Some] the ghost to redirect to. *)
Definition HandleMatrixMembership (portal : Portal) (target : MembershipTarget) (change : MembershipChange)
    : H (option (option string)) :=
  if is_dm portal then throw "cannot change members for DM"
  else
    targetID ← match target with
               | TargetGhost id => mret (ParseUserID id)
               | TargetLogin id => mret (ParseUserLoginID id)
               | TargetOther => throw "unknown membership target type"
               end;
    if targetID =? 0 then throw "invalid target user ID"
    else if ThreadType portal =? ENCRYPTED_OVER_WA_GROUP then
      let targetJID := NewJID (FormatInt 10 targetID) MessengerServer in
      let update (add : bool) : H (option (option string)) :=
        r ← ask (QGroupParticipants (portal_JID portal) targetJID add);
        resp ← lift r;
        match resp with
        | [] => throw "no response for participant change"
        | (code, jid) :: _ =>
            if negb (code =? 0) then throw ("failed to change participant: code " ++ FormatInt 10 code)
            else mret (Some (Some (MakeWAUserID jid)))
        end in
      match change with
      | Invite => update true
      | Kick => update false
      | OtherChange => mret None
      end
    else
      let threadID := ParseFBPortalID (portal_ID portal) in
      let run (t : AnyTask) : H (option (option string)) := _ ← execute [t]; mret (Some None) in
      match change with
      | Invite => run (task (AddParticipantsTask.mkAddParticipantsTask threadID (Some [targetID]) 1))
      | Kick => run (task (RemoveParticipantTask.mkRemoveParticipantTask threadID targetID))
      | OtherChange => mret None
      end.
(** ** Lemmas: which requests are made *)

Lemma connected_silent : asks_only silent connected.
Proof. unfold connected. asks_tac. Qed.
Lemma e2ee_connected_silent : asks_only silent e2ee_connected.
Proof. unfold e2ee_connected. asks_tac. Qed.
Lemma logged_in_silent : asks_only silent logged_in.
Proof. unfold logged_in. asks_tac. Qed.
Lemma getOTID_silent s : asks_only silent (getOTID s).
Proof. unfold getOTID. asks_tac. Qed.
Lemma canReconnect_silent : asks_only silent canReconnect.
Proof. unfold canReconnect. asks_tac. Qed.
Lemma ToMeta_silent_ random evt content replyTo threadRoot otid relay portal :
  asks_only silent (ToMeta_ random evt content replyTo threadRoot otid relay portal).
Proof. apply ToMeta_silent. Qed.
Lemma checked_time_silent id : asks_only silent (checked_time id).
Proof. unfold checked_time. asks_tac. Qed.
#[local] Hint Resolve connected_silent e2ee_connected_silent logged_in_silent getOTID_silent canReconnect_silent
  ToMeta_silent_ checked_time_silent : asks.

Lemma conversion_error_silent {A} e : asks_only silent (conversion_error (A := A) e).
Proof. unfold conversion_error. asks_tac. Qed.
#[local] Hint Resolve conversion_error_silent : asks.

Lemma convert_to_meta_silent msg otid : asks_only silent (convert_to_meta msg otid).
Proof. unfold convert_to_meta. asks_tac. Qed.

Lemma silent_executed {A} (p : prog (answer (JID := JID) (WAOut := OutMessage)) A) tr r : asks_only silent p -> runs p tr r -> executed tr = [] /\ sent tr = [].
Proof. intros Hp Hr. apply silent_nothing. by eapply Hp. Qed.

(** ** Lemmas: sending a message *)

Definition not_ok {A} (r : res A) : Prop := forall a, r <> Ok a.

Definition failed_sends (tasks : list AnyTask) (errs : list string) : list (list AnyTask * (tables + string)) :=
  map (fun e => (tasks, inr e)) errs.

(** What is run by the loop: failures, and at most one success behind them. *)
Lemma send_loop_runs n tasks : forall err tr r, runs (send_loop n tasks err) tr r -> (0 < n)%nat \/ err <> None ->
  exists errs, sent tr = [] /\
    ((executed tr = failed_sends tasks errs /\ (length errs <= n)%nat /\ not_ok r) \/
     (exists t, executed tr = failed_sends tasks errs ++ [(tasks, inl t)] /\ (length errs < n)%nat /\ r = Ok (Some t))).
Proof.
  induction n as [|n IH]; intros err tr r H Hn.
  { exists []. destruct err as [e|]; [|destruct Hn; [lia|done]]. destruct H as [-> ->].
    split; [done|]. left. by split_and!. }
  cbn [send_loop] in H.
  assert (forall e tr r, runs (ask QCtxErr ≫= (fun c => match c with Some e => throw e | None => send_loop n tasks (Some e) end)) tr r ->
    exists errs, sent tr = [] /\
      ((executed tr = failed_sends tasks errs /\ (length errs <= n)%nat /\ not_ok r) \/
       (exists t, executed tr = failed_sends tasks errs ++ [(tasks, inl t)] /\ (length errs < n)%nat /\ r = Ok (Some t)))) as Hrec.
  { clear H. intros e tr' r' H. run_step H. destruct x as [c|].
    - destruct H as [-> ->]. exists []. split; [done|]. left. split; [done|]. by split; [cbn; lia|].
    - destruct (IH _ _ _ H) as (errs & Hs & Hx); [by right|]. by exists errs. }
  run_step H. destruct x as [e|].
  - destruct (Hrec e _ _ H) as (errs & Hs & Hx). exists errs. split; [done|].
    destruct Hx as [(Hx & Hl & Hr)|(t & Hx & Hl & Hr)]; [left|right; exists t]; (split; [done|]; split; [lia|done]).
  - run_step H. destruct x as [t|e].
    + destruct H as [-> ->]. exists []. split; [done|]. right. exists t. split; [done|]. split; [cbn; lia|done].
    + destruct (Hrec e _ _ H) as (errs & Hs & Hx). exists (e :: errs). split; [done|].
      destruct Hx as [(Hx & Hl & Hr)|(t & Hx & Hl & Hr)]; [left|right; exists t]; unfold executed in *; cbn; rewrite Hx;
        (split; [done|]; split; [lia|done]).
Qed.
Lemma conversion_error_fails {A} e tr r : runs (conversion_error (A := A) e) tr r -> not_ok r.
Proof.
  unfold conversion_error. destruct (errors_Is e ErrTokenInvalidated); [|destruct (errors_Is e ErrConsentRequired)];
    intros H a ->; [|by run_step H; run_step H..|by destruct H].
  run_step H. run_step H. by destruct H.
Qed.

Lemma convert_otid msg otid tr t read : runs (convert_to_meta msg otid) tr (Ok (t, read)) -> SendMessageTask.Otid t = otid.
Proof.
  assert (forall c tr r1 t read, runs (ToMeta_ (mm_random msg) (mm_Event msg) c (mm_ReplyTo msg) (mm_ThreadRoot msg) otid (mm_Relay msg) (mm_Portal msg)) tr r1 ->
    r1 = Ok (t, read) -> SendMessageTask.Otid t = otid) as Hc.
  { intros c tr' r1 t' read' H ->. by apply ToMeta_shape in H as (thread & type & att & mentions & text & now & -> & _). }
  unfold convert_to_meta. intros H. run_step H. destruct r as [[t' read']|e|h]; [| |discriminate H0]; injection H0 as ->.
  - run_step H. by eapply Hc.
  - run_step H. destruct a; [|by destruct (conversion_error_fails _ _ _ H (t, read))].
    run_step H. run_step H. match goal with E : Ok _ = match ?r with _ => _ end |- _ =>
      destruct r as [[t' read']|e'|h']; [| |discriminate E]; injection E as -> end.
    + run_step H. by eapply Hc.
    + by destruct (conversion_error_fails _ _ _ H (t, read)).
Qed.

Lemma checked_time_runs id tr time ts : runs (checked_time id) tr (Ok (time, ts)) ->
  exists real, MessageID.ParseMessageID id = Ok real /\
    ((ts = real /\ time = from_millis real) \/ (ts = 0 /\ time = zero_time)).
Proof.
  unfold checked_time. destruct (MessageID.ParseMessageID id) as [real|e|h]; intros H; [|by destruct H..].
  exists real. split; [done|]. run_step H. destruct (_ <? _); [run_step H; by right|].
  run_step H. destruct (_ >? _); run_step H; [by right|by left].
Qed.

Lemma getOTID_given s otid tr o : ParseInt 10 s = (otid, None) -> 0 < otid -> runs (getOTID s) tr (Ok o) -> o = otid.
Proof.
  unfold getOTID. intros Hp Ho H. destruct (String.eqb_spec s "") as [->|_]; [vm_compute in Hp; discriminate Hp|].
  cbn [negb] in H. rewrite Hp in H. destruct (Z.gtb_spec otid 0); [|lia]. by run_step H.
Qed.

(** What the handler makes of the response to the message with the transaction id [otid]. *)
Definition delivered (otid : Z) (reply : tables) (r : res MessageResponse) : Prop :=
  let id := replaced_id (FormatInt 10 otid) reply in
  (id = ""%string /\ r = Err (rejection reply)) \/
  (id <> ""%string /\ exists time ts real,
     r = Ok (mkMessageResponse (MakeFBMessageID id) (LoginID m) time ts) /\ MessageID.ParseMessageID id = Ok real /\
     ((ts = real /\ time = from_millis real) \/ (ts = 0 /\ time = zero_time))) \/
  (id <> ""%string /\ not_ok (MessageID.ParseMessageID id) /\ not_ok r).

Lemma checked_time_total id tr r : runs (checked_time id) tr r -> not_ok r -> not_ok (MessageID.ParseMessageID id).
Proof.
  unfold checked_time. intros H Hr real E. rewrite E in H. run_step H.
  destruct (_ <? _); [destruct H as [_ ->]; by eapply Hr|].
  run_step H. destruct (_ >? _); destruct H as [_ ->]; by eapply Hr.
Qed.

(** C2. Delivery of a message that is not encrypted: its two tasks are sent at most five times
    and never again once the server has taken them; without a taken send the handler fails.  The
    message is then recorded under the id the server gave for its transaction id, at the time in
    that id (or none, when that is more than an hour off), and without such an id the handler
    fails with the server's reason. *)
Theorem message_delivery msg tr r
    (Hplain : (ThreadType (mm_Portal msg) =? ENCRYPTED_OVER_WA_ONE_TO_ONE) || (ThreadType (mm_Portal msg) =? ENCRYPTED_OVER_WA_GROUP) = false)
    (H : runs (HandleMatrixMessage msg) tr r) :
  sent tr = [] /\
  ((executed tr = [] /\ not_ok r) \/
   exists (t : SendMessageTask.SendMessageTask) (read : ThreadMarkReadTask.ThreadMarkReadTask) errs,
     (forall otid, ParseInt 10 (mm_TxnID msg) = (otid, None) -> 0 < otid -> SendMessageTask.Otid t = otid) /\
     ((executed tr = failed_sends [task t; task read] errs /\ (length errs <= 5)%nat /\ not_ok r) \/
      exists reply, executed tr = failed_sends [task t; task read] errs ++ [([task t; task read], inl reply)] /\
        (length errs < 5)%nat /\ delivered (SendMessageTask.Otid t) reply r)).
Proof.
  unfold HandleMatrixMessage in H. rewrite Hplain in H.
  apply run_bind in H as (r1 & t1 & tr1 & -> & H1 & H). destruct (silent_executed _ _ _ logged_in_silent H1) as [E1 S1].
  rewrite executed_app, sent_app, E1, S1. cbn [app].
  destruct r1 as [[]| |]; [|destruct H as [-> ->]; split; [done|]; left; by split..].
  apply run_bind in H as (r2 & t2 & tr2 & -> & H2 & H).
  destruct (silent_executed _ _ _ (getOTID_silent _) H2) as [E2 S2]. rewrite executed_app, sent_app, E2, S2. cbn [app].
  destruct r2 as [otid| |]; [|destruct H as [-> ->]; split; [done|]; left; by split..].
  unfold send_plain in H.
  apply run_bind in H as (r3 & t3 & tr3 & -> & H3 & H). destruct (silent_executed _ _ _ connected_silent H3) as [E3 S3].
  rewrite executed_app, sent_app, E3, S3. cbn [app].
  destruct r3 as [[]| |]; [|destruct H as [-> ->]; split; [done|]; left; by split..].
  apply run_bind in H as (r4 & t4 & tr4 & -> & H4 & H). destruct (silent_executed _ _ _ (convert_to_meta_silent _ _) H4) as [E4 S4].
  rewrite executed_app, sent_app, E4, S4. cbn [app].
  destruct r4 as [[t read]| |]; [|destruct H as [-> ->]; split; [done|]; left; by split..].
  pose proof (convert_otid _ _ _ _ _ H4) as Hotid.
  apply run_bind in H as (r5 & t5 & tr5 & -> & H5 & H). rewrite executed_app, sent_app.
  destruct (send_loop_runs _ _ _ _ _ H5) as (errs & S5 & Hx); [by left; lia|]. rewrite S5. cbn [app].
  assert (forall otid', ParseInt 10 (mm_TxnID msg) = (otid', None) -> 0 < otid' -> SendMessageTask.Otid t = otid') as Ht.
  { intros otid' Hp Ho. rewrite Hotid. by eapply getOTID_given. }
  destruct Hx as [(E5 & Hl & Hr)|(reply & E5 & Hl & ->)]; rewrite E5.
  { destruct r5 as [x| |]; [by destruct (Hr x)|destruct H as [-> ->]..]; cbn; rewrite app_nil_r;
      (split; [done|]; right; exists t, read, errs; split; [done|]; left; by split_and!). }
  assert (executed tr5 = [] /\ sent tr5 = [] /\ delivered (SendMessageTask.Otid t) reply r) as (-> & -> & Hd).
  { cbv zeta in H. rewrite Hotid. unfold delivered. cbv zeta.
    destruct (String.eqb_spec (replaced_id (FormatInt 10 otid) reply) "") as [E|Hne].
    - destruct H as [-> ->]. split_and!; [done..|]. by left.
    - apply run_bind in H as (r6 & t6 & tr6 & -> & H6 & H).
      destruct (silent_executed _ _ _ (checked_time_silent _) H6) as [E6 S6].
      rewrite executed_app, sent_app, E6, S6. destruct r6 as [[time ts]| |]; destruct H as [-> ->].
      + split_and!; [done..|]. right. left. split; [done|]. apply checked_time_runs in H6 as (real & ? & ?).
        by exists time, ts, real.
      + split_and!; [done..|]. right. right. split; [done|]. split; [|done]. by eapply checked_time_total.
      + split_and!; [done..|]. right. right. split; [done|]. split; [|done]. by eapply checked_time_total. }
  rewrite app_nil_r. split; [done|]. right. exists t, read, errs. split; [done|]. right. exists reply. by split_and!.
Qed.
(** ** Lemmas: edits *)

Lemma runs_with_channel {A} id (body : H A) tr r : runs (with_channel id body) tr r ->
  exists tr', channels tr = (true, id) :: channels tr' ++ [(false, id)] /\ executed tr = executed tr' /\ runs body tr' r.
Proof.
  unfold with_channel. intros H. apply run_bind in H as (r1 & t1 & t2 & -> & H1 & H). run_step H1.
  apply runs_prog_bind in H as (r2 & t3 & t4 & -> & Hb & H).
  apply runs_prog_bind in H as (r3 & t5 & t6 & -> & H5 & [-> ->]). run_step H5.
  exists t3. rewrite app_nil_r. cbn [app]. split_and!; [| |done]; unfold channels, executed; cbn; rewrite omap_app; [done|].
  by rewrite app_nil_r.
Qed.

Lemma corrected_text text extra e row : corrected text extra e = Ok row -> row_str LSEditMessage "Text" row = text.
Proof.
  induction extra as [|x extra IH]; cbn [corrected]; [by destruct e|].
  destruct (String.eqb_spec (row_str LSEditMessage "Text" x) text); [by intros [= <-]|done].
Qed.

Lemma run_edit_runs et tr r : runs (run_edit et) tr r ->
  channels tr = [] /\ exists ans, executed tr = [([task et], ans)] /\
    forall n, r = Ok (Some n) -> exists reply row, ans = inl reply /\
      row_str LSEditMessage "Text" row = EditMessageTask.Text et /\ n = row_int LSEditMessage "EditCount" row.
Proof.
  unfold run_edit. intros H. run_step H. destruct x as [reply|e].
  2: { destruct H as [-> ->]. split; [done|]. by eexists. }
  assert (forall t : trace, Forall (fun e => silent (asked e)) t ->
    channels (Event (answer := answer (JID := JID) (WAOut := OutMessage)) (QExecuteTasks [task et]) (inl reply) :: t) = [] /\
    executed (Event (answer := answer (JID := JID) (WAOut := OutMessage)) (QExecuteTasks [task et]) (inl reply) :: t) = [([task et], inl reply)]) as Hs.
  { intros t Ht. split; [exact (silent_channels t Ht)|]. unfold executed. cbn. f_equal. exact (proj1 (silent_nothing t Ht)). }
  destruct (rows reply "LSEditMessage") as [|row rs].
  { destruct H as [-> ->]. cbn [app]. destruct (Hs [] ltac:(constructor)) as [-> ->]. split; [done|]. by eexists. }
  destruct (negb _).
  { destruct H as [-> ->]. cbn [app]. destruct (Hs [] ltac:(constructor)) as [-> ->]. split; [done|]. by eexists. }
  destruct (String.eqb_spec (row_str LSEditMessage "Text" row) (EditMessageTask.Text et)) as [E|Ne]; cbn [negb] in H.
  { run_step H. destruct H as [-> ->]. cbn [app]. destruct (Hs [] ltac:(constructor)) as [-> ->]. split; [done|].
    eexists. split; [done|]. intros n [= <-]. by exists reply, row. }
  apply run_bind in H as (r2 & t3 & t4 & -> & H2 & H). run_step H2. destruct x as [extra e]. destruct H2 as [-> ->].
  destruct (corrected (EditMessageTask.Text et) extra e) as [row'|e'|h] eqn:Ec; destruct H as [-> ->];
    cbn [app]; destruct (Hs [Event (QExtraEdits (EditMessageTask.MessageID et)) (extra, e)] ltac:(by repeat constructor)) as [-> ->];
    (split; [done|]; eexists; split; [done|]; intros n; try done).
  intros [= <-]. exists reply, row'. split_and!; [done|by eapply corrected_text|done].
Qed.

(** ** Properties: edits and reactions *)

(** The outcome of an edit of a message that is not encrypted: the channel for its
    corrections is registered while the edit runs and removed again, also when the edit fails;
    the edit is sent at most once; and the count of edits changes only to the one in a row of
    the server that has the text that was sent. *)
Theorem edit_outcome portal evt content target txnID random id tr r
    (Hid : parse_id (JID := JID) (et_ID target) = Some (ParsedFBMessageID id))
    (H : runs (HandleMatrixEdit portal evt content target txnID random) tr r) :
  (channels tr = [] /\ executed tr = [] /\ not_ok r) \/
  (channels tr = [(true, id); (false, id)] /\
   exists text ans, executed tr = [([task (EditMessageTask.mkEditMessageTask id text)], ans)] /\
     forall target', r = Ok target' -> target' = target \/
       exists reply row, ans = inl reply /\ row_str LSEditMessage "Text" row = text /\
         target' = set_count (row_int LSEditMessage "EditCount" row) target).
Proof.
  unfold HandleMatrixEdit in H. rewrite Hid in H.
  assert (forall t : trace, Forall (fun e => silent (asked e)) t -> channels t = [] /\ executed t = []) as Hs.
  { intros t Ht. split; [by apply silent_channels|by apply silent_nothing]. }
  apply run_bind in H as (r1 & t1 & tr1 & -> & H1 & H). destruct (Hs _ (logged_in_silent _ _ H1)) as [C1 E1].
  rewrite channels_app, executed_app, C1, E1. cbn [app].
  destruct r1 as [[]| |]; [|destruct H as [-> ->]; by left..].
  apply run_bind in H as (r2 & t2 & tr2 & -> & H2 & H). destruct (Hs _ (getOTID_silent _ _ _ H2)) as [C2 E2].
  rewrite channels_app, executed_app, C2, E2. cbn [app].
  destruct r2 as [otid| |]; [|destruct H as [-> ->]; by left..].
  apply run_bind in H as (r3 & t3 & tr3 & -> & H3 & H). destruct (Hs _ (connected_silent _ _ H3)) as [C3 E3].
  rewrite channels_app, executed_app, C3, E3. cbn [app].
  destruct r3 as [[]| |]; [|destruct H as [-> ->]; by left..].
  apply run_bind in H as (r4 & t4 & tr4 & -> & H4 & H).
  destruct (Hs _ (asks_attempt _ _ (ToMeta_silent_ _ _ _ _ _ _ _ _) _ _ H4)) as [C4 E4].
  rewrite channels_app, executed_app, C4, E4. cbn [app].
  destruct r4 as [[[t read]|e|h]| |]; [|destruct H as [-> ->]; by left..].
  right. apply run_bind in H as (r5 & t5 & tr5 & -> & H5 & H).
  apply runs_with_channel in H5 as (t5' & C5 & E5 & H5). apply run_edit_runs in H5 as (C5' & ans & E5' & Hr).
  assert (tr5 = []) as -> by (by destruct r5 as [[]| |], H).
  rewrite app_nil_r, C5, C5', E5, E5'. split; [done|]. exists (SendMessageTask.Text t), ans. split; [done|].
  intros target' ->. destruct r5 as [[n|]| |]; [|destruct H as [_ [= <-]]; by left|by destruct H..].
  destruct H as [_ [= ->]]. right. destruct (Hr n eq_refl) as (reply & row & -> & Ht & ->). by exists reply, row.
Qed.
(** The message the framework sees when a payload that was sent to an encrypted chat comes back
    to another device. *)
Definition echo (chat sender : JID) (id : string) (p : ConsumerPayload) : WAMessageEvent :=
  mkWAMessageEvent chat sender id 0 (ConsumerApplication p) false.

(** A reaction (or its removal, the reaction without a text) to an encrypted message is sent
    to the chat of its portal once, and every device of the user that receives it sees exactly
    that: a reaction with this text, to this message. *)
Theorem reaction_reaches_its_message portal timestamp target emoji sender txnID chat from id tr own e
    (H : runs (send_reaction portal timestamp target emoji sender txnID) tr (Ok ()))
    (WL : WhatsAppJIDLaws JID)
    (Hid : parse_id target = Some (ParsedWAMessageID chat from id)) (Hchat : portal_JID portal = chat)
    (Hown : JID_User own = LoginID m) (He : JID_User e = LoginID m)
    (Hself : JID_User from = LoginID m -> ToNonAD e = ToNonAD from)
    (Hs : ToNonAD from = from) (Hserver : IsEmpty from = false) (Hlegacy : JID_Server from <> LegacyUserServer)
    (Hgroup : JID_Server chat = GroupServer -> ToNonAD chat = chat)
    (Hdirect : JID_Server chat = MessengerServer \/ JID_Server chat = DefaultUserServer ->
               JID_User from <> LoginID m -> from = chat) :
  executed tr = [] /\ exists p, sent tr = [(chat, OutConsumer p, txnID)] /\
    let evt := echo chat e txnID p in
    WA_GetTargetMessage own evt = MakeWAMessageID JID_String ToNonAD chat from id /\
    WA_GetReactionEmoji evt = emoji /\
    WA_GetType evt = if (emoji =? "")%string then RemoteEventReactionRemove else RemoteEventReaction.
Proof.
  unfold send_reaction in H. rewrite Hid in H.
  apply run_bind_Ok in H as ([] & t1 & tr1 & -> & H1 & H). destruct (silent_executed _ _ _ logged_in_silent H1) as [E1 S1].
  apply run_bind_Ok in H as ([] & t2 & tr2 & -> & H2 & H). destruct (silent_executed _ _ _ e2ee_connected_silent H2) as [E2 S2].
  apply run_bind_Ok in H as (ts & t3 & tr3 & -> & H3 & H). destruct H as [-> _].
  unfold send_fb in H3. run_step H3. destruct x as [ts'|]; destruct H3 as [-> H3]; [|discriminate H3].
  rewrite !executed_app, !sent_app, E1, E2, S1, S2. split; [done|].
  eexists. unfold sent. cbn. split; [done|]. split; [|done].
  by apply (wa_key_roundtrip m).
Qed.
(** ** Lemmas: read receipts *)

(** The encrypted messages among [l] that are not the user's, with their keys. *)
Definition wa_read (msg : DBMessage) : option (JID * string) :=
  match parse_id (msg_ID msg) with
  | Some (ParsedWAMessageID chat sender id) =>
      if (msg_Sender msg =? LoginID m)%string then None
      else Some (if bool_decide (sender = chat) then EmptyJID else sender, id)
  | _ => None
  end.

(** The times of the others. *)
Definition fb_time (msg : DBMessage) : option Z :=
  match parse_id (msg_ID msg) with Some (ParsedFBMessageID _) => Some (msg_Timestamp msg) | _ => None end.

Definition ids_of (key : JID) (l : list (JID * string)) : list string := (filter (fun x => x.1 = key) l).*2.

(** The groups hold every message once, in order, under its key. *)
Definition grouped (l : list (JID * string)) (g : list (JID * list string)) : Prop :=
  NoDup g.*1 /\ (forall k, k ∈ g.*1 <-> k ∈ l.*1) /\ forall k ids, (k, ids) ∈ g -> ids = ids_of k l.

Lemma ids_of_app k l x : ids_of k (l ++ [x]) = ids_of k l ++ (if bool_decide (x.1 = k) then [x.2] else []).
Proof.
  unfold ids_of. rewrite filter_app, fmap_app. f_equal. rewrite filter_cons, filter_nil.
  destruct (decide (x.1 = k)); [rewrite bool_decide_true by done|rewrite bool_decide_false by done]; done.
Qed.

Lemma add_read_grouped l g k id : grouped l g -> grouped (l ++ [(k, id)]) (add_read k id g).
Proof.
  intros (Hn & Hk & Hg). unfold add_read. destruct (bool_decide (k ∈ g.*1)) eqn:E.
  - apply bool_decide_eq_true in E.
    assert ((map (fun kv : JID * list string => if bool_decide (kv.1 = k) then (kv.1, kv.2 ++ [id]) else kv) g).*1 = g.*1) as E1.
    { rewrite <- list_fmap_compose. apply list_fmap_ext. intros i [k' ids] _. cbn. by case_match. }
    split; [by rewrite E1|]. split.
    + intros k'. rewrite E1, Hk, fmap_app, elem_of_app. cbn. split; [by left|]. intros [H|H]; [done|].
      apply list_elem_of_singleton in H as ->. by apply Hk.
    + intros k' ids (kv & Ekv & Hin)%list_elem_of_fmap. destruct kv as [k2 ids2]. cbn in Ekv.
      specialize (Hg _ _ Hin). rewrite ids_of_app. cbn. destruct (decide (k2 = k)) as [->|Hne].
      * rewrite bool_decide_true in Ekv by done. injection Ekv as -> ->. by rewrite bool_decide_true, Hg.
      * rewrite bool_decide_false in Ekv by done. injection Ekv as -> ->. rewrite bool_decide_false by done.
        by rewrite app_nil_r.
  - apply bool_decide_eq_false in E. split.
    { rewrite fmap_app. apply NoDup_app. split_and!; [done| |apply NoDup_singleton].
      intros x Hx ->%list_elem_of_singleton. done. }
    split.
    + intros k'. rewrite !fmap_app, !elem_of_app, Hk. done.
    + intros k' ids [Hin|Hin]%elem_of_app.
      * rewrite ids_of_app. cbn. rewrite bool_decide_false; [rewrite app_nil_r; by apply Hg|].
        intros ->. apply E. apply list_elem_of_fmap. by exists (k', ids).
      * apply list_elem_of_singleton in Hin as [= -> ->]. rewrite ids_of_app. cbn. rewrite bool_decide_true by done.
        assert (ids_of k l = []) as ->; [|done]. unfold ids_of.
        destruct (filter _ l) as [|x f] eqn:Ef; [done|]. exfalso. apply E, Hk, list_elem_of_fmap.
        assert (x ∈ filter (fun x => x.1 = k) l) as Hx by (rewrite Ef; by left).
        apply list_elem_of_filter in Hx as [<- Hx]. by exists x.
Qed.

(** The watermark: the newest time, if there is any. *)
Definition newest (start : Z) (times : list Z) : Z := foldl Z.max start times.

Lemma collect_reads msgs : forall s l, grouped l s.2 ->
  let s' := foldl collect_read s msgs in
  s'.1 = newest s.1 (omap fb_time msgs) /\ grouped (l ++ omap wa_read msgs) s'.2.
Proof.
  induction msgs as [|msg msgs IH]; intros [w g] l Hg; cbn [foldl].
  { cbn. by rewrite app_nil_r. }
  assert (exists l', (collect_read (w, g) msg).1 = newest w (option_list (fb_time msg)) /\
    l' = option_list (wa_read msg) /\ grouped (l ++ l') (collect_read (w, g) msg).2) as (l' & Hw & -> & Hg').
  { eexists. split; [|split; [reflexivity|]].
    - unfold collect_read, fb_time, newest. destruct (parse_id (msg_ID msg)) as [[]|]; cbn; [by case_match| |done].
      destruct (Z.ltb_spec w (msg_Timestamp msg)); cbn; lia.
    - unfold collect_read, wa_read. destruct (parse_id (msg_ID msg)) as [[]|]; cbn; [|by rewrite app_nil_r..].
      destruct (_ =? _)%string; cbn; [by rewrite app_nil_r|]. by apply add_read_grouped. }
  destruct (IH (collect_read (w, g) msg) _ Hg') as [E1 E2]. split.
  - rewrite E1, Hw. cbn. by destruct (fb_time msg).
  - rewrite <- app_assoc in E2. cbn. by destruct (wa_read msg).
Qed.

Lemma mark_read_all_runs ts chat l : forall tr r, runs (mark_read_all ts chat l) tr r ->
  r = Ok () /\ marked tr = l /\ executed tr = [] /\ fetched tr = [].
Proof.
  induction l as [|[k ids] l IH]; intros tr r H; cbn [mark_read_all] in H; [by destruct H as [-> ->]|].
  run_step H. destruct (IH _ _ H) as (-> & E1 & E2 & E3). unfold marked, executed, fetched in *. cbn. by rewrite E1, E2, E3.
Qed.

(** The effects of a read receipt, once the messages it covers are looked up: the thread is
    marked as read up to the newest message that is not encrypted, unless the receipt is
    implicit; and of the encrypted messages every one that is not the user's is marked exactly
    once, together with those of the same sender and in their order. *)
Theorem read_receipt_effects portal receipt tr r
    (Horder : forall l, map_order l ≡ₚ l)
    (H : runs (HandleMatrixReadReceipt portal receipt) tr r) :
  (executed tr = [] /\ marked tr = [] /\ forall msgs, inl msgs ∈ fetched tr -> msgs = []) \/
  exists msgs, fetched tr = [inl msgs] /\ r = Ok () /\
    let watermark := newest zero_time (omap fb_time msgs) in
    let thread := ParseFBPortalID (portal_ID portal) in
    (exists ans, executed tr =
       if negb (watermark =? zero_time) && negb (thread =? 0) && negb (Implicit receipt)
       then [([task (ThreadMarkReadTask.mkThreadMarkReadTask thread (UnixMilli watermark) 1)], ans)] else []) /\
    (if IsEmpty (portal_JID portal) then marked tr = [] else grouped (omap wa_read msgs) (marked tr)).
Proof.
  unfold HandleMatrixReadReceipt in H.
  apply run_bind in H as (r1 & t1 & tr1 & -> & H1 & H).
  assert (t1 = [] /\ (r1 = Ok () \/ exists e, r1 = Err e)) as [-> Hr1].
  { unfold logged_in in H1. destruct has_cookies; destruct H1 as [-> ->]; eauto. }
  cbn [app]. destruct Hr1 as [-> |[e ->]]; [|destruct H as [-> ->]; left; split_and!; [done..|by intros ? ?%elem_of_nil]].
  destruct (negb _) in H; [destruct H as [-> ->]; left; split_and!; [done..|by intros ? ?%elem_of_nil]|]. cbv zeta in H.
  run_step H. destruct x as [msgs|e]; [|destruct H as [-> ->]; left; split_and!; [done..|]; intros msgs Hm; by apply list_elem_of_singleton in Hm].
  destruct (Z.eqb_spec (llen msgs) 0) as [E0|Hne].
  { destruct H as [-> ->]. left. split_and!; [done..|]. intros msgs' Hm. cbn in Hm.
    apply list_elem_of_singleton in Hm as [= ->]. by destruct msgs. }
  right. exists msgs.
  destruct (collect_reads msgs (zero_time, []) []) as [Hw Hg]; [split_and!; [constructor|done|]; intros k ids Hin; by apply elem_of_nil in Hin|].
  destruct (foldl collect_read (zero_time, []) msgs) as [watermark waMessages]. cbn [fst snd app] in Hw, Hg. subst watermark.
  set (w := newest zero_time (omap fb_time msgs)) in *. cbv zeta.
  apply run_bind in H as (r2 & t2 & tr2 & -> & H2 & H).
  assert (r2 = Ok () /\ fetched t2 = [] /\ marked t2 = [] /\ exists ans, executed t2 =
    if negb (w =? zero_time) && negb (ParseFBPortalID (portal_ID portal) =? 0) && negb (Implicit receipt)
    then [([task (ThreadMarkReadTask.mkThreadMarkReadTask (ParseFBPortalID (portal_ID portal)) (UnixMilli w) 1)], ans)] else []) as (-> & F2 & M2 & ans & E2).
  { destruct (_ && _ && _); [|destruct H2 as [-> ->]; split_and!; [done..|]; by exists (inl ∅)].
    run_step H2. destruct H2 as [-> ->]. split_and!; [done..|]. by exists x. }
  assert (r = Ok () /\ fetched tr2 = [] /\ executed tr2 = [] /\
    (if IsEmpty (portal_JID portal) then marked tr2 = [] else grouped (omap wa_read msgs) (marked tr2))) as (-> & F3 & E3 & M3).
  { destruct (IsEmpty (portal_JID portal)); [rewrite andb_false_r in H; by destruct H as [-> ->]|]. rewrite andb_true_r in H.
    destruct (Z.ltb_spec 0 (llen waMessages)).
    - apply mark_read_all_runs in H as (-> & Hm & He & Hf). split_and!; [done..|]. rewrite Hm.
      destruct Hg as (Hn & Hk & Hids). pose proof (Horder waMessages) as Hp. split_and!.
      + by rewrite Hp.
      + intros k. rewrite <- Hk. by rewrite Hp.
      + intros k ids Hin. apply Hids. by rewrite <- Hp.
    - destruct H as [-> ->]. split_and!; [done..|]. by destruct waMessages as [|? ?]; [|cbn in *; lia]. }
  unfold fetched, executed, marked in *. rewrite !omap_app. rewrite F2, F3, M2, E2, E3. cbn. rewrite app_nil_r.
  split_and!; [done..|by exists ans|done].
Qed.
End HandleMatrix.

(** ** Witnesses *)

(** A message that is sent, with the server's answer. *)
Definition demo_reply : tables :=
  {[ "LSReplaceOptimsiticMessage" :=
       [mkInst [VStr "5"; VStr "mid.$gAAAAAAAAAE2LhXLEjGLLQVDWhEjT"; VNil] None] ]}.
Definition demo_message : MatrixMessage :=
  mkMatrixMessage demo_portal demo_event (demo_text "hi") None None false "5" "".

Abbreviation demo_handle := (HandleMatrixMessage (JID := demo_jid) demo_user true Facebook Me 60 (fun _ _ => false) id false
  (fun _ => None) (fun _ => (0, 0)) (fun _ => None) (F := Z) (fun _ => None) (fun _ => "") demo_message).

Lemma demo_answers : snd <$> executed (play (calm demo_reply 0) demo_handle tt).1.2 = [inl demo_reply].
Proof. by vm_compute. Qed.

Lemma message_delivery_witness : exists tr r,
  runs demo_handle tr r /\ sent tr = [] /\
  exists t : SendMessageTask.SendMessageTask, SendMessageTask.Otid t = 5 /\
    delivered demo_user 5 demo_reply r.
Proof.
  exists (play (calm demo_reply 0) demo_handle tt).1.2, (play (calm demo_reply 0) demo_handle tt).1.1.
  pose proof (play_runs (calm demo_reply 0) demo_handle tt) as Hr.
  split; [exact Hr|].
  destruct (message_delivery demo_user true Facebook Me 60 (fun _ _ => false) id false
    (fun _ => None) (fun _ => (0, 0)) (fun _ => None) (F := Z) (fun _ => None) (fun _ => "") demo_message _ _ eq_refl Hr)
    as (Hs & [[He _]|(t & read & errs & Ho & [(He & _)|(reply & He & _ & Hd)])]).
  - apply (f_equal length) in He. vm_compute in He. discriminate He.
  - exfalso. apply (f_equal (fmap snd)) in He. rewrite demo_answers in He. by destruct errs as [|? [|? ?]].
  - split; [exact Hs|]. exists t. assert (SendMessageTask.Otid t = 5) as Ht by by apply Ho.
    split; [exact Ht|]. rewrite Ht in Hd. apply (f_equal (fmap snd)) in He. rewrite demo_answers in He.
    destruct errs as [|? [|? ?]]; [|discriminate He..]. by injection He as <-.
Defined.

(** An edit whose response carries the old text, corrected by a later one. *)
Definition demo_edits : tables := {[ "LSEditMessage" := [mkInst [VStr "mid.$x"; VInt64 0; VStr "old"; VInt64 0; VNil] None] ]}.
Definition correcting (q : Req demo_jid OutMessage) (s : unit) : answer q * unit :=
  (match q return answer q -> answer q with
   | QExtraEdits _ => fun _ => ([mkInst [VStr "mid.$x"; VInt64 0; VStr "new"; VInt64 1; VNil] None], TimedOut)
   | _ => fun x => x
   end (calm demo_edits 0 q s).1, s).

Abbreviation demo_edit := (HandleMatrixEdit (JID := demo_jid) demo_user true Facebook id false
  demo_portal demo_event (demo_text "new") (mkEditTarget "fb:mid.$x" 0 0) "5" "").

Lemma edit_outcome_witness : exists tr,
  runs demo_edit tr (Ok (mkEditTarget "fb:mid.$x" 1 0)) /\ channels tr = [(true, "mid.$x"); (false, "mid.$x")]%string.
Proof.
  exists (play correcting demo_edit tt).1.2. pose proof (play_runs correcting demo_edit tt) as Hr.
  assert ((play correcting demo_edit tt).1.1 = Ok (mkEditTarget "fb:mid.$x" 1 0)) as E by by vm_compute.
  rewrite E in Hr. split; [exact Hr|].
  destruct (edit_outcome demo_user true Facebook id false
    demo_portal demo_event (demo_text "new") (mkEditTarget "fb:mid.$x" 0 0) "5" "" "mid.$x" _ _ eq_refl Hr) as [(_ & _ & Hn)|[Hc _]].
  - by destruct (Hn (mkEditTarget "fb:mid.$x" 1 0)).
  - exact Hc.
Defined.

(** A reaction in a group. *)
Definition demo_group : Portal := mkPortal "7" "" ENCRYPTED_OVER_WA_GROUP "" RoomTypeDefault 0 0.

Abbreviation demo_react := (send_reaction (JID := demo_jid) demo_user true demo_group 9 "wa:7@g.us:200@msgr:AB" "+1" "100" "txn").

Lemma reaction_reaches_its_message_witness : exists tr p,
  runs demo_react tr (Ok ()) /\ sent tr = [(FriendsGroup, OutConsumer p, "txn"%string)] /\
  WA_GetTargetMessage Me (echo FriendsGroup MyPhone "txn" p) = "wa:7@g.us:200@msgr:AB"%string /\
  WA_GetType (echo FriendsGroup MyPhone "txn" p) = RemoteEventReaction.
Proof.
  exists (play (calm ∅ 0) demo_react tt).1.2. pose proof (play_runs (calm ∅ 0) demo_react tt) as Hr.
  assert ((play (calm ∅ 0) demo_react tt).1.1 = Ok ()) as E by by vm_compute. rewrite E in Hr.
  destruct (reaction_reaches_its_message demo_user true demo_group 9 "wa:7@g.us:200@msgr:AB" "+1" "100" "txn"
    FriendsGroup Friend "AB" _ Me MyPhone Hr _) as (_ & p & Hs & Ht & _ & Hty); [try done..|].
  { by intros [|]. }
  exists p. split; [exact Hr|]. split; [exact Hs|]. split; [exact Ht|exact Hty].
Defined.

(** A read receipt over a plain message and two encrypted ones of a group. *)
Definition some_messages (q : Req demo_jid OutMessage) (s : unit) : answer q * unit :=
  (match q return answer q -> answer q with
   | QMessagesBetween _ _ => fun _ => inl
       [mkDBMessage "fb:mid.$x" "9" 5000000; mkDBMessage "wa:7@g.us:200@msgr:A" "200" 6; mkDBMessage "wa:7@g.us:200@msgr:B" "200" 7]
   | _ => fun x => x
   end (calm ∅ 0 q s).1, s).

#[export] Instance demo_jid_eq_dec : EqDecision demo_jid.
Proof. solve_decision. Defined.

Abbreviation demo_read := (HandleMatrixReadReceipt (JID := demo_jid) demo_user true NoJID id demo_group (mkReadReceipt 0 100 0 false)).

Lemma read_receipt_effects_witness : exists tr,
  runs demo_read tr (Ok ()) /\ marked tr = [(Friend, ["A"; "B"]%string)] /\
  fetched tr <> [] /\ grouped (omap (wa_read demo_user NoJID) [mkDBMessage "wa:7@g.us:200@msgr:A" "200" 6; mkDBMessage "wa:7@g.us:200@msgr:B" "200" 7]) (marked tr).
Proof.
  exists (play some_messages demo_read tt).1.2. pose proof (play_runs some_messages demo_read tt) as Hr.
  assert ((play some_messages demo_read tt).1.1 = Ok ()) as E by by vm_compute. rewrite E in Hr.
  split; [exact Hr|]. split; [by vm_compute|]. split; [by vm_compute|].
  destruct (read_receipt_effects demo_user true NoJID id demo_group (mkReadReceipt 0 100 0 false) _ _ (fun l => Permutation_refl l) Hr)
    as [(_ & Hm & _)|(msgs & Hf & _ & _ & Hg)].
  - vm_compute in Hm. discriminate Hm.
  - assert (msgs = [mkDBMessage "fb:mid.$x" "9" 5000000; mkDBMessage "wa:7@g.us:200@msgr:A" "200" 6; mkDBMessage "wa:7@g.us:200@msgr:B" "200" 7]) as ->.
    { vm_compute in Hf. by injection Hf as <-. }
    exact Hg.
Defined.
