(* ===== verification/ParseTable.v ===== *)
(** * ParseTable: what the events of a table are ([connector/handlemeta.go], [parseTable])

    The handlers of [RemoteEvents] one by one (what they leave alone, what they emit), then the
    stages of [parseTable] (deletions, merging into resyncs, chunks, messages), then its
    properties: it always ends, its events come in the order the framework needs, resyncs carry
    every change of their thread, and no message is lost. *)

From S2P Require Import Prelude Strconv Lightspeed TableKinds TableThreads TableMessages Tables.
From S2P Require Import WrapMessages MetaID MetaDB ChatInfo Backfill RemoteEvents.
#[local] Open Scope Z_scope.

(** ** Lemmas: what a handler touches *)

Section Frames.
Context {A : Type}.
Implicit Types (fn : handlerParams -> Handler A).

(** A view of the state no call of the handler changes. *)
Definition keeps {B} (f : PS -> B) fn : Prop := forall tk x s e s', fn tk x s = Ok (e, s') -> f s' = f s.
Definition emits (P : RemoteEvent -> Prop) fn : Prop := forall tk x s e s', fn tk x s = Ok (Some e, s') -> P e.
Definition unqueued {B} (f : PS -> B) : Prop := forall q s, f (enqueue q s) = f s.

Context (m : Login) (db_err : Z -> bool) (key : PS -> A -> Z).

Lemma collect_keeps {B} (f : PS -> B) fn l : forall s s', unqueued f -> keeps f fn ->
  collectPortalEvents m db_err key fn l s = Ok s' -> f s' = f s.
Proof.
  induction l as [|x l IH]; intros s s' Hf Hk; cbn [collectPortalEvents]; [by intros [= <-]|].
  destruct (fn _ x s) as [[e s1]| |] eqn:E; cbn; [|done..]. intros H. apply IH in H; [|done..].
  rewrite H. transitivity (f s1); [|by eapply Hk]. by destruct e.
Qed.

Lemma collect_emits (P : RemoteEvent -> Prop) fn l : forall s s', keeps queue fn -> emits P fn ->
  collectPortalEvents m db_err key fn l s = Ok s' -> exists evs, queue s' = queue s ++ evs /\ Forall P evs.
Proof.
  induction l as [|x l IH]; intros s s' Hq He; cbn [collectPortalEvents].
  { intros [= <-]. exists []. by rewrite app_nil_r. }
  destruct (fn _ x s) as [[e s1]| |] eqn:E; cbn; [|done..]. intros H.
  apply IH in H as (evs & H & Hevs); [|done..]. pose proof (Hq _ _ _ _ _ E) as Hs1.
  destruct e as [e|].
  - exists (e :: evs). cbn in H. rewrite H, Hs1, <- app_assoc. split; [done|]. constructor; [by eapply He|done].
  - exists evs. by rewrite H, Hs1.
Qed.

Lemma collect_total (P : PS -> Prop) fn l : forall s, (forall q s, P s -> P (enqueue q s)) ->
  (forall tk x s, x ∈ l -> P s -> exists e s', fn tk x s = Ok (e, s') /\ P s') ->
  P s -> exists s', collectPortalEvents m db_err key fn l s = Ok s' /\ P s'.
Proof.
  induction l as [|x l IH]; intros s Hq Hfn Hs; cbn [collectPortalEvents]; [eauto|].
  destruct (Hfn (handler_params m db_err (key s x) s) x s) as (e & s1 & -> & H1); [left|done|]. cbn.
  apply IH; [done| |by destruct e; [apply Hq|]]. intros tk y s' Hy. apply Hfn. by right.
Qed.
End Frames.

(** Handlers that only look at the row and its thread. *)
Definition pure_handler (fn : handlerParams -> Handler Inst) : Prop :=
  forall tk x s e s', fn tk x s = Ok (e, s') -> s' = s.

Lemma pure_keeps {B} (f : PS -> B) fn : pure_handler fn -> keeps f fn.
Proof. intros Hp tk x s e s' H. by rewrite (Hp _ _ _ _ _ H). Qed.

(** The events that open and close portals, and the messages. *)
Definition opening (e : RemoteEvent) : Prop :=
  match e with FBFolderResync _ _ | VerifyThreadExistsEvent _ | ChatResync _ | ChatDelete _ _ _ => True | _ => False end.
Definition message_ptr (e : RemoteEvent) : option ptr :=
  match e with FBMessageEvent _ _ p => Some p | _ => None end.
Definition refers (e : RemoteEvent) : Prop := ~ opening e /\ message_ptr e = None.

Create HintDb remote.
(** ** Lemmas: each handler *)

Ltac unfold_handlers := unfold handleUpdateThreadName, handleSetThreadImage, handleUpdateReadReceipt,
  handleMarkThreadRead, handleTypingIndicator, handleDeleteMessage, handleDeleteThenInsertMessage,
  handleUpsertReaction, handleDeleteReaction, handleRemoveParticipant, wrapAvatar.

Section Each.
Context (m : Login) (avatar_id : string -> option string) (parse_url : string -> option (string * string)).
Context (db_err : Z -> bool) (orig_message : string -> res (option OrigMessage)).

Ltac handler := intros tk x s e s' H; revert H; unfold_handlers;
  repeat (cbn; match goal with
               | |- context [match ?x with _ => _ end] => destruct x eqn:?
               end); try done; cbn; by intros [= <- <-].

Lemma pure_UpdateThreadName : pure_handler (handleUpdateThreadName m). Proof. handler. Qed.
Lemma pure_SetThreadImage : pure_handler (handleSetThreadImage m avatar_id). Proof. handler. Qed.
Lemma pure_UpdateReadReceipt : pure_handler (handleUpdateReadReceipt m). Proof. handler. Qed.
Lemma pure_MarkThreadRead : pure_handler (handleMarkThreadRead m). Proof. handler. Qed.
Lemma pure_TypingIndicator : pure_handler (handleTypingIndicator m). Proof. handler. Qed.
Lemma pure_DeleteMessage : pure_handler handleDeleteMessage. Proof. handler. Qed.
Lemma pure_DeleteThenInsertMessage : pure_handler handleDeleteThenInsertMessage. Proof. handler. Qed.
Lemma pure_UpsertReaction : pure_handler (handleUpsertReaction m). Proof. handler. Qed.
Lemma pure_DeleteReaction : pure_handler (handleDeleteReaction m). Proof. handler. Qed.
Lemma pure_RemoveParticipant : pure_handler (handleRemoveParticipant m). Proof. handler. Qed.

Ltac emitter := intros tk x s e s' H; revert H; unfold_handlers;
  repeat (cbn; match goal with
               | |- context [match ?x with _ => _ end] => destruct x eqn:?
               end); try done; cbn; intros E; simplify_eq; (split; [intros []|done]).

Lemma refers_UpdateThreadName : emits refers (handleUpdateThreadName m). Proof. emitter. Qed.
Lemma refers_SetThreadImage : emits refers (handleSetThreadImage m avatar_id). Proof. emitter. Qed.
Lemma refers_UpdateReadReceipt : emits refers (handleUpdateReadReceipt m). Proof. emitter. Qed.
Lemma refers_MarkThreadRead : emits refers (handleMarkThreadRead m). Proof. emitter. Qed.
Lemma refers_TypingIndicator : emits refers (handleTypingIndicator m). Proof. emitter. Qed.
Lemma refers_DeleteMessage : emits refers handleDeleteMessage. Proof. emitter. Qed.
Lemma refers_DeleteThenInsertMessage : emits refers handleDeleteThenInsertMessage. Proof. emitter. Qed.
Lemma refers_UpsertReaction : emits refers (handleUpsertReaction m). Proof. emitter. Qed.
Lemma refers_DeleteReaction : emits refers (handleDeleteReaction m). Proof. emitter. Qed.
Lemma refers_RemoveParticipant : emits refers (handleRemoveParticipant m). Proof. emitter. Qed.

(** A step appends events that refer to what exists, and leaves the rest of a view alone. *)
Definition appends (P : RemoteEvent -> Prop) (s s' : PS) : Prop :=
  exists evs, queue s' = queue s ++ evs /\ Forall P evs.
Definition same_stores (s s' : PS) : Prop :=
  db s' = db s /\ bf s' = bf s /\ syncs s' = syncs s /\ msgs s' = msgs s /\ vtes s' = vtes s.

#[export] Instance appends_trans P : Transitive (appends P).
Proof.
  intros s1 s2 s3 (e1 & H1 & F1) (e2 & H2 & F2). exists (e1 ++ e2).
  rewrite H2, H1, app_assoc. split; [done|by apply Forall_app].
Qed.
#[export] Instance same_stores_trans : Transitive same_stores.
Proof. intros s1 s2 s3 (?&?&?&?&?) (?&?&?&?&?). repeat split; congruence. Qed.

Lemma collect_pure key fn (l : list Inst) s s' : pure_handler fn -> emits refers fn ->
  collectPortalEvents m db_err key fn l s = Ok s' -> appends refers s s' /\ same_stores s s'.
Proof.
  intros Hp He H. split; [by eapply collect_emits; [apply pure_keeps| |]|].
  split_and!; by eapply (fun f => collect_keeps m db_err key f fn l s s'); [|by apply pure_keeps|].
Qed.

Lemma edits_append l : forall s s', foldM (handleEdit orig_message) s l = Ok s' ->
  appends refers s s' /\ same_stores s s'.
Proof.
  induction l as [|x l IH]; intros s s'; cbn [foldM].
  - intros [= <-]. split; [exists []; by rewrite app_nil_r|done].
  - destruct (handleEdit orig_message s x) as [s1| |] eqn:E; cbn; [|done..]. intros H. apply IH in H.
    enough (appends refers s s1 /\ same_stores s s1) as [Ha Hs] by (split; [etransitivity; [exact Ha|apply H]|etransitivity; [exact Hs|apply H]]).
    clear H IH. revert E. unfold handleEdit. destruct (orig_message _) as [[orig|]|e|h]; [|intros [= <-]..|done].
    2, 3: split; [exists []; by rewrite app_nil_r|done].
    intros E. assert (queue s1 = queue s ++ [FBEditEvent x orig] /\ same_stores s s1) as [Hq Hst].
    { revert E. cbv zeta. destruct (editChannels _ !! _) as [ch|]; [destruct (length ch <? 5)%nat|];
        intros E; inversion E; repeat split. }
    split; [|done]. exists [FBEditEvent x orig]. split; [done|]. apply Forall_singleton. split; [intros []|done].
Qed.

Lemma ig_threads_frame l : forall s, queue (foldl put_ig_thread s l) = queue s /\
  syncs (foldl put_ig_thread s l) = syncs s /\ msgs (foldl put_ig_thread s l) = msgs s /\
  meta_thread (db (foldl put_ig_thread s l)) = meta_thread (db s).
Proof.
  induction l as [|x l IH]; intros s; [done|]. cbn [foldl].
  destruct (IH (put_ig_thread s x)) as (-> & -> & -> & ->).
  unfold put_ig_thread, putFBIDForIGThread. by destruct (_ =? _).
Qed.
End Each.

#[export] Hint Resolve pure_UpdateThreadName pure_SetThreadImage pure_UpdateReadReceipt pure_MarkThreadRead
  pure_TypingIndicator pure_DeleteMessage pure_DeleteThenInsertMessage pure_UpsertReaction pure_DeleteReaction
  pure_RemoveParticipant refers_UpdateThreadName refers_SetThreadImage refers_UpdateReadReceipt
  refers_MarkThreadRead refers_TypingIndicator refers_DeleteMessage refers_DeleteThenInsertMessage
  refers_UpsertReaction refers_DeleteReaction refers_RemoveParticipant : remote.

(** ** Messages *)

Section MessageStage.
Context (m : Login) (avatar_id : string -> option string) (parse_url : string -> option (string * string)).
Context (db_err : Z -> bool) (orig_message : string -> res (option OrigMessage)).

(** The thread key of a message, its own or, when the database has it as a subthread, its
    parent's. *)
Definition routed (d : MetaDB) (key dest : Z) : Prop :=
  dest = key \/ exists mid, meta_thread d !! key = Some (dest, mid).

(** The event of message [p] of heap [h]. *)
Definition delivers (d : MetaDB) (h : list WrappedMessage) (p : ptr) (e : RemoteEvent) : Prop :=
  exists w dest tt, h !! p = Some w /\ routed d (insert_key (LSInsert w)) dest /\
    e = FBMessageEvent (makeFBPortalKey m dest tt) (tt =? UNKNOWN_THREAD_TYPE) p.

Lemma handleSubthread_key d w : insert_key (LSInsert (handleSubthread parse_url d w).2) = insert_key (LSInsert w).
Proof.
  unfold handleSubthread. destruct (negb _); [done|]. destruct (XMAAttachments w) as [|x [|]]; [done| |done].
  destruct (is_subthread_url _ _); [|done]. cbn [snd set_text subthread_start LSInsert].
  unfold insert_key, row_int, row_field, row_set. cbn. by rewrite list_lookup_insert_ne.
Qed.

Lemma handleSubthread_mono d w k v : meta_thread d !! k = Some v ->
  meta_thread (handleSubthread parse_url d w).1 !! k = Some v.
Proof.
  intros Hk. unfold handleSubthread. destruct (negb _); [by apply insert_ignore_mono|].
  destruct (XMAAttachments w) as [|x [|]]; [done| |done].
  destruct (is_subthread_url _ _); [by apply insert_ignore_mono|done].
Qed.

Lemma handler_params_routed key s : let tk := handler_params m db_err key s in
  SyncKey tk = key /\ Portal tk = makeFBPortalKey m (ID tk) (Type_ tk) /\ routed (db s) key (ID tk).
Proof.
  unfold handler_params. cbv zeta.
  destruct (if db_err key then _ else _) as [parent mid] eqn:E.
  destruct (mid =? "")%string eqn:Em; cbn; [split_and!; [done..|by left]|]. split_and!; [done..|].
  right. exists mid. destruct (db_err key); [by injection E as <- <-|]. unfold GetThreadByKey in E.
  destruct (meta_thread (db s) !! key) as [v|]; cbn in E; [by subst|by injection E as <- <-].
Qed.

Lemma routed_mono d d' k dest : (forall k v, meta_thread d !! k = Some v -> meta_thread d' !! k = Some v) ->
  routed d k dest -> routed d' k dest.
Proof. intros Hm [->|(mid & H)]; [by left|]. right. exists mid. by apply Hm. Qed.

Definition msg_key (w : WrappedMessage) : Z := insert_key (LSInsert w).

Lemma delivers_mono d d' h h' p e : (forall k v, meta_thread d !! k = Some v -> meta_thread d' !! k = Some v) ->
  (forall q, msg_key <$> h !! q = msg_key <$> h' !! q) -> delivers d h p e -> delivers d' h' p e.
Proof.
  intros Hm Hh (w & dest & tt & Hw & Hr & ->). specialize (Hh p). rewrite Hw in Hh. cbn in Hh.
  destruct (h' !! p) as [w'|] eqn:E; [|done]. cbn in Hh. injection Hh as Hk.
  exists w', dest, tt. split_and!; [done| |done]. unfold msg_key in Hk. rewrite <- Hk. by eapply routed_mono.
Qed.

Lemma message_inserted tk p s e s' : handleMessageInsert parse_url tk p s = Ok (e, s') ->
  e = Some (FBMessageEvent (Portal tk) (IsUncertainReceiver tk) p) /\ (exists w, msgs s !! p = Some w) /\
  queue s' = queue s /\ syncs s' = syncs s /\
  (forall k v, meta_thread (db s) !! k = Some v -> meta_thread (db s') !! k = Some v) /\
  (forall q, msg_key <$> msgs s' !! q = msg_key <$> msgs s !! q).
Proof.
  unfold handleMessageInsert. destruct (msgs s !! p) as [w|] eqn:Ew; [|done].
  pose proof (handleSubthread_key (db s) w) as Hk.
  pose proof (fun k v => handleSubthread_mono (db s) w k v) as Hm.
  destruct (handleSubthread parse_url (db s) w) as [d w']. cbn in Hk, Hm.
  intros H. inversion H; subst. clear H. cbn. split_and!; [done|by eexists|done..|].
  intros q. destruct (decide (p = q)) as [<-|Hne].
  - rewrite list_lookup_insert_eq by (by eapply lookup_lt_Some). rewrite Ew. cbn. unfold msg_key. cbn. by rewrite Hk.
  - by rewrite list_lookup_insert_ne.
Qed.

Lemma collect_messages ins : forall s s',
  collectPortalEvents m db_err message_key (handleMessageInsert parse_url) ins s = Ok s' ->
  exists evs, queue s' = queue s ++ evs /\ Forall2 (delivers (db s') (msgs s)) ins evs /\
    syncs s' = syncs s /\
    (forall k v, meta_thread (db s) !! k = Some v -> meta_thread (db s') !! k = Some v) /\
    (forall q, msg_key <$> msgs s' !! q = msg_key <$> msgs s !! q).
Proof.
  induction ins as [|p ins IH]; intros s s'; cbn [collectPortalEvents].
  { intros [= <-]. exists []. rewrite app_nil_r. by split_and!. }
  pose proof (handler_params_routed (message_key s p) s) as Hp.
  set (tk := handler_params _ _ _ _) in *. cbv zeta in Hp. destruct Hp as (_ & Hportal & Hr).
  destruct (handleMessageInsert parse_url tk p s) as [[e s1]| |] eqn:E; cbn; [|done..].
  apply message_inserted in E as (-> & (w & Hw) & Hq & Hs & Hm & Hk). intros H.
  apply IH in H as (evs & Hq' & Hevs & Hs' & Hm' & Hk'). cbn in Hq', Hm', Hk', Hevs, Hs'.
  exists (FBMessageEvent (Portal tk) (IsUncertainReceiver tk) p :: evs).
  rewrite Hq', Hq, <- app_assoc. split_and!; [done| |congruence|auto|intros q; by rewrite Hk'].
  constructor.
  - exists w, (ID tk), (Type_ tk). split_and!; [done| |by rewrite Hportal].
    unfold message_key in Hr. rewrite Hw in Hr. eapply routed_mono; [|exact Hr]. auto.
  - eapply Forall2_impl; [exact Hevs|]. intros q e. by apply delivers_mono.
Qed.
End MessageStage.

(** ** The stages *)

Section Stages.
Context (m : Login) (avatar_id : string -> option string) (parse_url : string -> option (string * string)).
Context (db_err : Z -> bool) (values : forall V : Type, gmap Z V -> list V).
Context (orig_message : string -> res (option OrigMessage)) (t : gmap string (list Inst)).

Definition referring (s s' : PS) : Prop := appends refers s s' /\ same_stores s s'.

#[export] Instance referring_trans : Transitive referring.
Proof. intros s1 s2 s3 [H1 H2] [H3 H4]. split; by etransitivity. Qed.

Lemma rows_pure sch fn s s' : pure_handler fn -> emits refers fn ->
  collect_rows m db_err t sch fn s = Ok s' -> referring s s'.
Proof. apply collect_pure. Qed.

Lemma rest_appends ins s s' : parse_rest m avatar_id parse_url db_err orig_message t ins s = Ok s' ->
  exists ms rs, queue s' = queue s ++ ms ++ rs /\ Forall2 (delivers m (db s') (msgs s)) ins ms /\
    Forall refers rs /\ syncs s' = syncs s.
Proof.
  unfold parse_rest. intros (s1 & H1 & H)%res_bind_Ok.
  apply collect_messages in H1 as (ms & Hq & Hms & Hsy & _).
  enough (referring s1 s') as ((rs & Hq' & Hrs) & Hdb & _ & Hsy' & _).
  { exists ms, rs. rewrite Hq', Hq, app_assoc, Hdb, Hsy'. done. }
  apply res_bind_Ok in H as (s2 & H2 & H). transitivity s2; [by eapply edits_append|].
  repeat match type of H with
         | mbind _ _ = _ => apply res_bind_Ok in H as (? & ?%rows_pure & H); [|auto with remote..];
                            etransitivity; [eassumption|]
         end.
  apply rows_pure in H; auto with remote.
Qed.

(** *** Deletions *)

Lemma enqueue_nil s : enqueue [] s = s.
Proof. destruct s. unfold enqueue. cbn. by rewrite app_nil_r. Qed.
Lemma enqueue_app a b s : enqueue b (enqueue a s) = enqueue (a ++ b) s.
Proof. unfold enqueue. cbn. by rewrite app_assoc. Qed.
Lemma delete_absent k s : vtes s !! k = None -> set_vtes (delete k (vtes s)) s = s.
Proof. destruct s. unfold set_vtes. cbn. intros H. by rewrite delete_id. Qed.

(** The thread whose portal gets the events of thread [key]. *)
Definition resolve (d : MetaDB) (key : Z) : Z :=
  let '(parent, mid) := if db_err key then (0, ""%string) else GetThreadByKey key d in
  if (mid =? "")%string then key else parent.

Lemma handler_params_ID key s : ID (handler_params m db_err key s) = resolve (db s) key.
Proof.
  unfold handler_params, resolve. cbv zeta. destruct (if db_err key then _ else _) as [parent mid].
  by destruct (mid =? "")%string.
Qed.

Lemma handler_params_unknown key s : vtes s !! key = None -> syncs s !! key = None ->
  let tk := handler_params m db_err key s in
  Type_ tk = UNKNOWN_THREAD_TYPE /\ Portal tk = makeFBPortalKey m (resolve (db s) key) UNKNOWN_THREAD_TYPE.
Proof.
  intros Hv Hs. unfold handler_params, resolve. rewrite Hv, Hs. cbv zeta.
  destruct (if db_err key then _ else _) as [parent mid]. by destruct (mid =? "")%string.
Qed.

(** The deletion of a thread the table does not write to. *)
Definition deletion (d : MetaDB) (onlyForMe : bool) (key : Z) : option RemoteEvent :=
  if decide (key ∈ activeThreads t) then None
  else Some (ChatDelete (makeFBPortalKey m (resolve d key) UNKNOWN_THREAD_TYPE) true onlyForMe).

Definition all_active (s : PS) : Prop :=
  forall k, k ∉ activeThreads t -> vtes s !! k = None /\ syncs s !! k = None.

Lemma collect_deletions (fn : handlerParams -> Handler Inst) (P : Inst -> bool) key only l : forall s,
  all_active s ->
  (forall tk x s, fn tk x s =
     if P x then handleDeleteThreadKey (activeThreads t) tk (key x) only s else Ok (None, s)) ->
  collectPortalEvents m db_err (fun _ => key) fn l s =
  Ok (enqueue (omap (fun x => if P x then deletion (db s) only (key x) else None) l) s).
Proof.
  induction l as [|x l IH]; intros s Ha Hfn; cbn [collectPortalEvents omap list_omap]; [by rewrite enqueue_nil|].
  rewrite Hfn. destruct (P x); [|cbn; by rewrite IH]. unfold handleDeleteThreadKey, deletion.
  destruct (decide (key x ∈ activeThreads t)) as [Hin|Hout]; [cbn; by rewrite IH|].
  destruct (Ha _ Hout) as [Hv Hs]. cbn. rewrite delete_absent by done.
  destruct (handler_params_unknown (key x) s Hv Hs) as [HT HP].
  rewrite IH by done. rewrite enqueue_app. cbn. unfold IsUncertainReceiver. by rewrite HT, HP.
Qed.

(** The deletions the table asks for: of threads, then of threads the user left. *)
Definition deletions (d : MetaDB) : list RemoteEvent :=
  omap (fun x => deletion d false (row_int LSDeleteThread "ThreadKey" x)) (rows t "LSDeleteThread")
  ++ omap (fun x => if (MakeUserLoginID (participant_id x) =? LoginID m)%string
                    then deletion d true (participant_key x) else None)
       (rows t "LSRemoveParticipantFromThread").

Lemma parse_deletions_ok s : all_active s ->
  parse_deletions m db_err t s = Ok (enqueue (deletions (db s)) s).
Proof.
  intros Ha. unfold parse_deletions, collect_rows, deletions.
  rewrite (collect_deletions _ (fun _ => true) (row_int LSDeleteThread "ThreadKey") false) by done. cbn [mbind res_bind].
  rewrite (collect_deletions _ (fun x => MakeUserLoginID (participant_id x) =? LoginID m)%string participant_key true);
    [by rewrite enqueue_app|done|].
  intros tk x s'. unfold handleSelfLeaveThread. by destruct (_ =? _)%string.
Qed.

(** *** Resyncs *)

Lemma by_key_lookup {V} (key : V -> Z) l k : by_key key l !! k = last (filter (fun x => key x = k) l).
Proof.
  unfold by_key. rewrite <- (rev_involutive l). induction (rev l) as [|x r IH]; [done|].
  cbn [rev]. rewrite foldl_app, filter_app. cbn [foldl]. rewrite filter_cons, filter_nil.
  case_decide as E.
  - by rewrite <- E, lookup_insert_eq, last_snoc.
  - by rewrite lookup_insert_ne, app_nil_r by done.
Qed.

(** The resync of a row, before anything is merged into it. *)
Definition resync_of (row : Inst) (info : ChatInfo) : FBChatResync :=
  mkFBChatResync (Some row) (makeFBPortalKey m (thread_int "ThreadKey" row) (thread_int "ThreadType" row))
    (Some info) ∅ None 0 (thread_int "ThreadType" row =? UNKNOWN_THREAD_TYPE).

Lemma new_resync_ok mp row mp' : new_resync m avatar_id mp row = Ok mp' ->
  exists info, wrapChatInfo m avatar_id row = Ok info /\
    mp' = <[thread_int "ThreadKey" row := resync_of row info]> mp.
Proof. unfold new_resync. intros (info & E & H)%res_bind_Ok. exists info. split; [done|]. unfold resync_of. congruence. Qed.

Lemma threadResyncs_lookup l : forall mp mp' k, foldM (new_resync m avatar_id) mp l = Ok mp' ->
  match last (filter (fun x => thread_int "ThreadKey" x = k) l) with
  | None => mp' !! k = mp !! k
  | Some row => exists info, wrapChatInfo m avatar_id row = Ok info /\ mp' !! k = Some (resync_of row info)
  end.
Proof.
  induction l as [|x l IH]; intros mp mp' k; cbn [foldM]; [by intros [= <-]|].
  intros (mp1 & (info & Hi & ->)%new_resync_ok & H)%res_bind_Ok. apply (IH _ _ k) in H.
  rewrite filter_cons. case_decide as E.
  - rewrite last_cons. destruct (last (filter _ l)) as [row|]; [done|]. exists info. by rewrite H, E, lookup_insert_eq.
  - destruct (last (filter _ l)); [done|]. by rewrite H, lookup_insert_ne.
Qed.

Lemma initially_active mp b d ig ed q : threadResyncs m avatar_id t = Ok mp ->
  all_active (mkPS [] (threadExists t) mp b d ig ed q).
Proof.
  intros Hmp k Hk. unfold activeThreads in Hk. rewrite !list_to_set_app, !not_elem_of_union in Hk.
  destruct Hk as (Hv & _ & _ & Hr). cbn. split.
  - unfold threadExists. rewrite by_key_lookup.
    destruct (last _) as [x|] eqn:E; [|done]. exfalso. apply Hv.
    apply elem_of_list_to_set, list_elem_of_fmap. exists x.
    apply last_Some_elem_of, list_elem_of_filter in E as [<- Hx]. done.
  - pose proof (threadResyncs_lookup _ _ _ k Hmp) as H.
    destruct (last _) as [x|] eqn:E; [|by rewrite H, lookup_empty]. exfalso. apply Hr.
    apply elem_of_list_to_set, list_elem_of_fmap. exists x.
    apply last_Some_elem_of, list_elem_of_filter in E as [<- Hx]. done.
Qed.

(** *** Merging *)

(** What a merged row leaves alone. *)
Definition same_but_syncs (s s' : PS) : Prop :=
  db s' = db s /\ bf s' = bf s /\ msgs s' = msgs s.

(** Events of their own are changes of a chat, or resyncs that only carry messages. *)
Definition merged_event (e : RemoteEvent) : Prop :=
  match e with ChatInfoChangeEvent _ _ _ => True | ChatResync r => Raw r = None | _ => False end.

Definition merges (upd : Inst -> FBChatResync -> FBChatResync) (fn : handlerParams -> Handler Inst) : Prop :=
  forall tk x s e s', fn tk x s = Ok (e, s') ->
    match Sync tk s with
    | Some r => e = None /\ s' = set_sync tk (upd x r) s
    | None => s' = s
    end.

Definition rows_of (key : Inst -> Z) (k : Z) (l : list Inst) : list Inst := filter (fun x => key x = k) l.

Lemma handler_params_SyncKey key s : SyncKey (handler_params m db_err key s) = key.
Proof. by destruct (handler_params_routed m db_err key s). Qed.

Lemma collect_merges upd fn key l : forall s s', merges upd fn ->
  emits merged_event fn -> collectPortalEvents m db_err (fun _ => key) fn l s = Ok s' ->
  appends merged_event s s' /\ same_but_syncs s s' /\
  forall k, syncs s' !! k = (fun r => foldl (fun r x => upd x r) r (rows_of key k l)) <$> syncs s !! k.
Proof.
  induction l as [|x l IH]; intros s s' Hm He; cbn [collectPortalEvents].
  { intros [= <-]. split_and!; [exists []; by rewrite app_nil_r|done|]. intros k. cbn. by destruct (syncs s !! k). }
  set (tk := handler_params _ _ _ _). destruct (fn tk x s) as [[e s1]| |] eqn:E; cbn; [|done..].
  intros H. apply IH in H as ((evs & Hq & Hevs) & (Hd & Hb & Hms) & Hsy); [|done..].
  pose proof (Hm _ _ _ _ _ E) as Hx. unfold Sync in Hx.
  assert (SyncKey tk = key x) as Hkey by apply handler_params_SyncKey. rewrite Hkey in Hx.
  destruct (syncs s !! key x) as [r|] eqn:Er.
  - destruct Hx as [-> ->]. cbn in Hq, Hd, Hb, Hms, Hsy. unfold set_sync in *. rewrite Hkey in Hsy.
    cbn [syncs set_syncs] in Hsy.
    split_and!; [by exists evs|done|]. intros k. rewrite Hsy. unfold rows_of.
    case_decide as Ek; [subst k; by rewrite lookup_insert_eq, Er|by rewrite lookup_insert_ne].
  - subst s1. split_and!.
    + exists (match e with Some e => e :: evs | None => evs end). destruct e as [e|]; cbn in Hq; [|done].
      rewrite Hq, <- app_assoc. split; [done|]. constructor; [by eapply He|done].
    + by destruct e.
    + intros k. rewrite Hsy. unfold rows_of.
      assert (syncs (match e with Some e => enqueue [e] s | None => s end) !! k = syncs s !! k) as -> by by destruct e.
      case_decide as Ek; [subst k; by rewrite Er|done].
Qed.

Definition mute_of (row : Inst) : MutedUntil :=
  let ms := row_int LSUpdateThreadMuteSetting "MuteExpireTimeMS" row in
  if ms <? 0 then MutedForever else MutedUntilMs ms.

Lemma merges_AddParticipant :
  merges (fun p => with_member (row_int LSAddParticipantIdToGroupThread "ContactId" p) (wrapChatMember m p))
    (handleAddParticipant m).
Proof. intros tk x s e s'. unfold handleAddParticipant. by destruct (Sync tk s); intros [= <- <-]. Qed.
Lemma merges_Mute : merges (fun x => with_info (set_muted (Some (mute_of x)))) (handleUpdateMuteSetting m).
Proof. intros tk x s e s'. unfold handleUpdateMuteSetting. by destruct (Sync tk s); intros [= <- <-]. Qed.
Lemma merges_E2EE : merges (fun _ => with_info (add_updater MarkPortalAsEncrypted)) (handleMoveThreadToE2EE m).
Proof. intros tk x s e s'. unfold handleMoveThreadToE2EE. by destruct (Sync tk s); intros [= <- <-]. Qed.

Lemma emits_AddParticipant : emits merged_event (handleAddParticipant m).
Proof. intros tk x s e s'. unfold handleAddParticipant. destruct (Sync tk s); [done|]. by intros [= <- <-]. Qed.
Lemma emits_Mute : emits merged_event (handleUpdateMuteSetting m).
Proof. intros tk x s e s'. unfold handleUpdateMuteSetting. destruct (Sync tk s); [done|]. by intros [= <- <-]. Qed.
Lemma emits_E2EE : emits merged_event (handleMoveThreadToE2EE m).
Proof. intros tk x s e s'. unfold handleMoveThreadToE2EE. destruct (Sync tk s); [done|]. by intros [= <- <-]. Qed.

(** *** Chunks *)

(** The key under which a chunk is handled. *)
Definition chunk_key (h : list WrappedMessage) (u : UpsertMessages) : Z := UpsertMessages_GetThreadKey h u.

(** A resync without its messages. *)
Definition bare (r : FBChatResync) : FBChatResync :=
  mkFBChatResync (Raw r) (r_portal r) (Info r) (r_members r) None 0 (UncertainReceiver r).

(** The chunk is in the resync of its thread, or in a queued resync. *)
Definition carried (s : PS) (key : Z) (u : UpsertMessages) : Prop :=
  (exists r, syncs s !! key = Some r /\ r_backfill r = Some u) \/
  (exists r, ChatResync r ∈ queue s /\ r_backfill r = Some u).

Lemma collect_upsert_state k c u b b' : collect_upsert k c u b = Ok b' ->
  backfillCollectors b !! k = Some c ->
  forall k', backfillCollectors b !! k' = None -> backfillCollectors b' !! k' = None.
Proof.
  unfold collect_upsert. intros (r & _ & H)%res_bind_Ok Hk k' Hk'.
  assert (k <> k') by congruence. destruct r; inversion H; subst; cbn; [done|..].
  - by rewrite lookup_insert_ne.
  - by rewrite lookup_delete_ne.
Qed.

(** One chunk: what the state becomes, and that the chunk is carried unless a collector has it. *)
Lemma upsert_handled tk u s e s' : handleUpsertMessages tk u s = Ok (e, s') ->
  db s' = db s /\ msgs s' = msgs s /\ queue s' = queue s /\ default True (merged_event <$> e) /\
  (forall k, SyncKey tk <> k -> syncs s' !! k = syncs s !! k) /\
  (forall k, bare <$> syncs s' !! k = bare <$> syncs s !! k) /\
  (forall k, backfillCollectors (bf s) !! k = None -> backfillCollectors (bf s') !! k = None) /\
  (backfillCollectors (bf s) !! ID tk = None ->
   carried (match e with Some e => enqueue [e] s' | None => s' end) (SyncKey tk) u).
Proof.
  unfold handleUpsertMessages, Sync. destruct (Range u); [|done]. cbn [next_upsert backfillCollectors].
  destruct (backfillCollectors (bf s) !! ID tk) as [c|] eqn:Ec.
  - intros (b' & Hb & H)%res_bind_Ok. inversion H; subst; cbn. clear H. split_and!; try done.
    intros k Hk. eapply collect_upsert_state; [exact Hb|done|done].
  - destruct (syncs s !! SyncKey tk) as [r|] eqn:Er; intros H; inversion H; subst; cbn; clear H; split_and!; try done.
    + intros k Hk. by rewrite lookup_insert_ne.
    + intros k. destruct (decide (SyncKey tk = k)) as [<-|Hk]; [|by rewrite lookup_insert_ne].
      by rewrite lookup_insert_eq, Er.
    + intros _. left. eexists. cbn. by rewrite lookup_insert_eq.
    + intros _. right. eexists. cbn. split; [apply elem_of_app; right; by left|done].
Qed.

Lemma carried_mono s s' key u : carried s key u -> syncs s' !! key = syncs s !! key ->
  (exists evs, queue s' = queue s ++ evs) -> carried s' key u.
Proof.
  intros [(r & H & Hr)|(r & H & Hr)] Hsy (evs & Hq); [left|right]; exists r; split; try done; [congruence|].
  rewrite Hq. apply elem_of_app. by left.
Qed.

Lemma collect_chunks l : forall s s',
  collectPortalEvents m db_err (fun s => chunk_key (msgs s)) handleUpsertMessages l s = Ok s' ->
  NoDup (chunk_key (msgs s) <$> l) ->
  appends merged_event s s' /\ db s' = db s /\ msgs s' = msgs s /\
  (forall k, k ∉ chunk_key (msgs s) <$> l -> syncs s' !! k = syncs s !! k) /\
  (forall k, bare <$> syncs s' !! k = bare <$> syncs s !! k) /\
  (forall u, u ∈ l -> backfillCollectors (bf s) !! resolve (db s) (chunk_key (msgs s) u) = None ->
     carried s' (chunk_key (msgs s) u) u).
Proof.
  induction l as [|u l IH]; intros s s'; cbn [collectPortalEvents].
  { intros [= <-] _. split_and!; [exists []; by rewrite app_nil_r|done..|]. intros u Hu. set_solver. }
  pose proof (handler_params_ID (chunk_key (msgs s) u) s) as Hid.
  pose proof (handler_params_SyncKey (chunk_key (msgs s) u) s) as Hkey.
  set (tk := handler_params _ _ _ _) in *.
  destruct (handleUpsertMessages tk u s) as [[e s1]| |] eqn:E; cbn [mbind res_bind]; [|done..].
  apply upsert_handled in E as (Hd & Hms & Hq & Hev & Hoth & Hbare & Hcol & Hcar). rewrite Hkey in Hoth, Hcar.
  set (s2 := match e with Some e => enqueue [e] s1 | None => s1 end) in *.
  assert (msgs s2 = msgs s /\ db s2 = db s /\ bf s2 = bf s1 /\ syncs s2 = syncs s1 /\ appends merged_event s s2)
    as (Hm2 & Hd2 & Hb2 & Hs2 & Ha2).
  { unfold s2. destruct e as [e|]; cbn in *; split_and!; try done.
    - exists [e]. cbn. rewrite Hq. split; [done|by apply Forall_singleton].
    - exists []. by rewrite app_nil_r. }
  clearbody s2. rewrite fmap_cons. intros H [Hnew Hnd]%NoDup_cons.
  apply IH in H; [|by rewrite Hm2]. clear IH.
  rewrite Hm2, Hd2, Hb2, Hs2 in H. destruct H as (Ha & Hd' & Hm' & Hoth' & Hbare' & Hcar').
  split_and!; [by etransitivity|done|done|..].
  - intros k Hk. rewrite Hoth' by set_solver. apply Hoth. set_solver.
  - intros k. by rewrite Hbare'.
  - intros u' [->|Hu']%elem_of_cons Hc.
    + apply (carried_mono s2); [apply Hcar; by rewrite Hid|rewrite Hs2; by apply Hoth'|].
      destruct Ha as (evs & Ha & _). by exists evs.
    + apply Hcar'; [done|]. by apply Hcol.
Qed.

Lemma existing_range_frame l s s' : collect_rows m db_err t l handleExistingRange s = Ok s' ->
  queue s' = queue s /\ syncs s' = syncs s /\ db s' = db s /\ msgs s' = msgs s.
Proof.
  intros H. assert (forall B (f : PS -> B), (forall b s, f (set_bf b s) = f s) -> keeps f handleExistingRange) as K.
  { intros B f Hf tk x s0 e s1. unfold handleExistingRange. intros (b & _ & E)%res_bind_Ok.
    inversion E; subst. apply Hf. }
  assert (emits (fun _ => False) handleExistingRange) as He.
  { intros tk x s0 e s1. unfold handleExistingRange. by intros (b & _ & E)%res_bind_Ok. }
  unfold collect_rows in H. split.
  - destruct (collect_emits m db_err _ _ _ _ _ _ (K _ queue (fun _ _ => eq_refl)) He H) as (evs & -> & Hevs).
    destruct evs as [|e evs]; [by rewrite app_nil_r|]. by inversion Hevs.
  - split_and!; by eapply (fun f => collect_keeps m db_err _ f handleExistingRange _ s s'); [|by apply K|].
Qed.

(** Everything the rows merge into the resync of thread [k]. *)
Definition merged_resync (k : Z) (r : FBChatResync) : FBChatResync :=
  let rs (sch : Schema) := rows_of (row_int sch "ThreadKey") k (rows t (sname sch)) in
  foldl (fun r _ => with_info (add_updater MarkPortalAsEncrypted) r)
    (foldl (fun r x => with_info (set_muted (Some (mute_of x))) r)
       (foldl (fun r p => with_member (row_int LSAddParticipantIdToGroupThread "ContactId" p) (wrapChatMember m p) r)
          r (rs LSAddParticipantIdToGroupThread))
       (rs LSUpdateThreadMuteSetting))
    (rs LSMoveThreadToE2EECutoverFolder).

Lemma merged_ok ups s s' : parse_merged m db_err t ups s = Ok s' -> NoDup (chunk_key (msgs s) <$> ups) ->
  appends merged_event s s' /\ db s' = db s /\ msgs s' = msgs s /\
  (forall k, bare <$> syncs s' !! k = (fun r => bare (merged_resync k r)) <$> syncs s !! k) /\
  (forall u, u ∈ ups -> backfillCollectors (bf s) !! resolve (db s) (chunk_key (msgs s) u) = None ->
     carried s' (chunk_key (msgs s) u) u).
Proof.
  unfold parse_merged. intros (s1 & H1 & (s2 & H2 & (s3 & H3 & (s4 & H4 & H5)%res_bind_Ok)%res_bind_Ok)%res_bind_Ok)%res_bind_Ok Hnd.
  apply (collect_merges _ _ _ _ _ _ merges_AddParticipant emits_AddParticipant) in H1 as (A1 & (D1 & B1 & M1) & S1).
  apply (collect_merges _ _ _ _ _ _ merges_Mute emits_Mute) in H2 as (A2 & (D2 & B2 & M2) & S2).
  apply (collect_merges _ _ _ _ _ _ merges_E2EE emits_E2EE) in H3 as (A3 & (D3 & B3 & M3) & S3).
  assert (db s3 = db s /\ bf s3 = bf s /\ msgs s3 = msgs s) as (D & B & M) by (split_and!; congruence).
  apply collect_chunks in H4 as (A4 & D4 & M4 & _ & R4 & C4); [|by rewrite M].
  apply existing_range_frame in H5 as (Q5 & S5 & D5 & M5).
  assert (appends merged_event s s4) as (evs & Hq & Hevs) by (do 3 (etransitivity; [eassumption|]); done).
  split_and!; [exists evs; by rewrite Q5|congruence|congruence|..].
  - intros k. rewrite S5, R4, S3, S2, S1. by destruct (syncs s !! k).
  - intros u Hu Hc. rewrite <- M. apply (carried_mono s4); [|by rewrite S5|exists []; by rewrite app_nil_r, Q5].
    apply C4; [done|]. by rewrite B, D, M.
Qed.

(** ** The whole table *)

(** Go visits every value of a map once. *)
Context (Hvalues : forall V (mp : gmap Z V), values V mp ≡ₚ (map_to_list mp).*2).

Lemma elem_of_values {V} (mp : gmap Z V) v : v ∈ values V mp <-> exists k, mp !! k = Some v.
Proof.
  rewrite Hvalues, list_elem_of_fmap. split.
  - intros ([k v'] & -> & H%elem_of_map_to_list). by exists k.
  - intros (k & H). exists (k, v). split; [done|]. by apply elem_of_map_to_list.
Qed.

Lemma values_keys {V} (mp : gmap Z V) (key : V -> Z) : (forall k v, mp !! k = Some v -> key v = k) ->
  NoDup (key <$> values V mp).
Proof.
  intros Hk. rewrite Hvalues, <- list_fmap_compose.
  rewrite (list_fmap_ext _ fst); [apply NoDup_fst_map_to_list|].
  intros i [k v] H. cbn. apply Hk. apply elem_of_map_to_list. by eapply list_elem_of_lookup_2.
Qed.

Lemma chunk_keys h ups ins k u : WrapMessages t = Ok (h, ups, ins) -> ups !! k = Some u -> chunk_key h u = k.
Proof.
  intros Hw. rewrite (WrapMessages_chunk _ _ _ _ k Hw). destruct (last _) as [rng|] eqn:E; [|done]. cbn.
  intros [= <-]. by apply last_Some_elem_of, list_elem_of_filter in E as [E _].
Qed.

(** The threads verified that neither a resync nor a folder row covers. *)
Definition verified (mp : gmap Z FBChatResync) : list RemoteEvent :=
  verify_events values t (mkPS [] (threadExists t) mp (mkBackfillState ∅ [] [] 0) emptyDB ∅ ∅ []).

Lemma parseTable_stages b d ig ed s' :
  parseTable m avatar_id parse_url db_err values orig_message t b d ig ed = Ok s' ->
  exists mp h ups ins merged ms rs,
    threadResyncs m avatar_id t = Ok mp /\ WrapMessages t = Ok (h, ups, ins) /\
    queue s' = folder_events m t ++ deletions d ++ verified mp ++ merged
                 ++ (ChatResync <$> values _ (syncs s')) ++ ms ++ rs /\
    Forall merged_event merged /\ Forall2 (delivers m (db s') h) ins ms /\ Forall refers rs /\
    (forall k, bare <$> syncs s' !! k = (fun r => bare (merged_resync k r)) <$> mp !! k) /\
    (forall k u, ups !! k = Some u -> backfillCollectors b !! resolve d k = None ->
       exists r, ChatResync r ∈ queue s' /\ r_backfill r = Some u).
Proof.
  unfold parseTable. intros (mp & Hmp & (s1 & Hdel & H)%res_bind_Ok)%res_bind_Ok.
  rewrite parse_deletions_ok in Hdel by (by apply initially_active).
  injection Hdel as <-. apply res_bind_Ok in H as ([[h ups] ins] & Hw & H).
  apply res_bind_Ok in H as (s2 & Hmerged & H). apply res_bind_Ok in H as (s3 & Hrest & H).
  assert (NoDup (chunk_key h <$> values _ ups)) as Hnd.
  { apply values_keys. intros k u. by eapply chunk_keys. }
  apply merged_ok in Hmerged as ((merged & Hq & Hmev) & Hd & Hms & Hsy & Hcar); [|done].
  cbn in Hq, Hd, Hms, Hsy, Hcar.
  apply rest_appends in Hrest as (ms & rs & Hq3 & Hdel & Href & Hs3). cbn in Hq3, Hdel, Hs3.
  assert (foldl put_ig_thread s3 (rows t "LSDeleteThenInsertIgThreadInfo") = s') as Hfin by congruence.
  destruct (ig_threads_frame (rows t "LSDeleteThenInsertIgThreadInfo") s3) as (Fq & Fs & _ & Fd).
  rewrite Hfin in Fq, Fs, Fd. clear H Hfin.
  assert (queue s' = folder_events m t ++ deletions d ++ verified mp ++ merged
    ++ (ChatResync <$> values _ (syncs s')) ++ ms ++ rs) as Hqueue.
  { rewrite Fq, Hq3, Hq, Fs, Hs3. rewrite <- !app_assoc. done. }
  exists mp, h, ups, ins, merged, ms, rs. split_and!; [done..| | | |].
  - rewrite Hms in Hdel. eapply Forall2_impl; [exact Hdel|]. intros p e.
    apply delivers_mono; [|done]. intros k v. by rewrite Fd.
  - done.
  - intros k. by rewrite Fs, Hs3, Hsy.
  - intros k u Hu Hc. pose proof (chunk_keys _ _ _ _ _ Hw Hu) as Hk.
    destruct (Hcar u) as [(r & Hr & Hb)|(r & Hr & Hb)].
    + apply elem_of_values. by exists k.
    + by rewrite Hk.
    + exists r. split; [|done]. rewrite Hqueue, !elem_of_app. do 4 right. left. apply list_elem_of_fmap.
      exists r. split; [done|]. apply elem_of_values. exists (chunk_key h u). by rewrite Fs, Hs3.
    + exists r. split; [|done]. rewrite Fq, Hq3, !elem_of_app. left. by left.
Qed.
End Stages.

(** ** Totality *)

(** Every collector has a range, as [FetchMessages] gives it one. *)
Definition collectors_ok (b : BackfillState) : Prop :=
  map_Forall (fun _ c => is_Some (Range (collected c))) (backfillCollectors b).

Lemma collect_ranges k c u : is_Some (Range (collected c)) -> is_Some (Range u) ->
  exists r, collect k c u = Ok r /\
    match r with Unexpected => True | NeedsMore c' _ | Complete c' => is_Some (Range (collected c')) end.
Proof.
  intros [crng Hc] [rng Hu]. unfold collect. rewrite Hc, Hu. destruct (_ >? _); [by eexists|].
  unfold Join. rewrite Hc, Hu. cbn [mbind res_bind]. destruct (negb _ && negb _ && negb _); (eexists; split; [done|by eexists]).
Qed.

Lemma collect_upsert_total k c u b : collectors_ok b -> backfillCollectors b !! k = Some c -> is_Some (Range u) ->
  exists b', collect_upsert k c u b = Ok b' /\ collectors_ok b'.
Proof.
  intros Hb Hk Hu. destruct (collect_ranges k c u (Hb _ _ Hk) Hu) as (r & E & Hr). unfold collect_upsert. rewrite E.
  cbn. destruct r; eexists; (split; [done|]); [done| |]; unfold collectors_ok; cbn.
  - by apply map_Forall_insert_2.
  - by apply map_Forall_delete.
Qed.

Lemma existing_range_total k rng b : collectors_ok b ->
  exists b', handleUpdateExistingMessageRange k rng b = Ok b' /\ collectors_ok b'.
Proof.
  intros Hb. unfold handleUpdateExistingMessageRange. cbn [next_upsert backfillCollectors].
  destruct (backfillCollectors b !! k) as [c|] eqn:Ec; [|by eexists; split].
  destruct (Hb _ _ Ec) as [crng Hc]. rewrite Hc. destruct (negb _); [by eexists; split|].
  eexists. split; [done|]. by apply map_Forall_delete.
Qed.

Create HintDb remote_total.

Section Total.
Context (m : Login) (avatar_id : string -> option string) (parse_url : string -> option (string * string)).
Context (db_err : Z -> bool) (values : forall V : Type, gmap Z V -> list V).
Context (orig_message : string -> res (option OrigMessage)) (t : gmap string (list Inst)).
Context (Havatar : forall u, is_Some (avatar_id u)) (Horig : forall i, is_halt (orig_message i) = false).
Context (Hvalues : forall V (mp : gmap Z V), values V mp ≡ₚ (map_to_list mp).*2).

Lemma wrapAvatar_total u : exists a, wrapAvatar avatar_id u = Ok a.
Proof. unfold wrapAvatar. destruct (_ =? _)%string; [by eexists|]. destruct (Havatar u) as [i ->]. by eexists. Qed.

Lemma wrapChatInfo_total row : exists i, wrapChatInfo m avatar_id row = Ok i.
Proof.
  unfold wrapChatInfo. case_decide; cbn [mbind res_bind]; [by eexists|].
  destruct (thread_str "ThreadPictureUrl" row =? "")%string; cbn [mbind res_bind]; [by eexists|].
  destruct (wrapAvatar_total (thread_str "ThreadPictureUrl" row)) as [a ->]. by eexists.
Qed.

Lemma threadResyncs_total : exists mp, threadResyncs m avatar_id t = Ok mp.
Proof.
  unfold threadResyncs. generalize (∅ : gmap Z FBChatResync). induction (rows t _) as [|x l IH]; intros mp; cbn [foldM]; [by eexists|].
  assert (exists mp', new_resync m avatar_id mp x = Ok mp') as [mp' ->]; [|apply IH].
  unfold new_resync. destruct (wrapChatInfo_total x) as [i ->]. by eexists.
Qed.

(** What the stages keep: the collectors have ranges, the heap has all messages. *)
Definition healthy (n : nat) (s : PS) : Prop := collectors_ok (bf s) /\ length (msgs s) = n.

Lemma healthy_enqueue n q s : healthy n s -> healthy n (enqueue q s).
Proof. done. Qed.

Definition total_on {A} (n : nat) (P : A -> Prop) (fn : handlerParams -> Handler A) : Prop :=
  forall tk x s, P x -> healthy n s -> exists e s', fn tk x s = Ok (e, s') /\ healthy n s'.

Lemma collect_healthy {A} n (P : A -> Prop) key fn l s : total_on n P fn -> Forall P l -> healthy n s ->
  exists s', collectPortalEvents m db_err key fn l s = Ok s' /\ healthy n s'.
Proof.
  intros Hfn Hl Hs. apply (collect_total m db_err key (healthy n)); [by intros ??; apply healthy_enqueue| |done].
  intros tk x s' Hx. apply Hfn. rewrite Forall_forall in Hl. by apply Hl.
Qed.


Ltac total := let Hh := fresh "Hh" in intros ??? _ Hh; unfold_handlers;
  unfold handleDeleteThread, handleSelfLeaveThread, handleDeleteThreadKey, handleAddParticipant,
    handleUpdateMuteSetting, handleMoveThreadToE2EE; repeat case_decide; repeat case_match;
    (do 2 eexists; split; [reflexivity|exact Hh]).

Lemma total_SetThreadImage n : total_on n (fun _ => True) (handleSetThreadImage m avatar_id).
Proof.
  intros tk x s _ Hs. unfold handleSetThreadImage. destruct (_ && _); [by eauto|].
  destruct (wrapAvatar_total (row_str LSSetThreadImageURL "ImageURL" x)) as [a ->]. cbn. by eauto.
Qed.

Lemma total_ExistingRange n : total_on n (fun _ => True) handleExistingRange.
Proof.
  intros tk x s _ [Hb Hn]. unfold handleExistingRange.
  destruct (existing_range_total (ID tk) x (bf s) Hb) as (b' & -> & Hb').
  do 2 eexists. split; [done|by split].
Qed.

Lemma total_UpsertMessages n : total_on n (fun u => is_Some (Range u)) handleUpsertMessages.
Proof.
  intros tk u s Hu [Hb Hn]. unfold handleUpsertMessages, Sync. destruct (Range u) eqn:Er; [|by destruct Hu].
  rewrite <- Er in Hu. cbn [next_upsert backfillCollectors].
  destruct (backfillCollectors (bf s) !! ID tk) as [c|] eqn:Ec; [|destruct (syncs s !! _); (do 2 eexists; split; [done|by split])].
  destruct (collect_upsert_total (ID tk) c u (next_upsert (bf s)) Hb Ec Hu) as (b' & -> & Hb').
  do 2 eexists. split; [done|by split].
Qed.

Lemma total_MessageInsert n : total_on n (fun p => (p < n)%nat) (handleMessageInsert parse_url).
Proof.
  intros tk p s Hp [Hb Hn]. unfold handleMessageInsert. subst n.
  destruct (lookup_lt_is_Some_2 _ _ Hp) as [w ->]. destruct (handleSubthread parse_url (db s) w) as [d w'].
  do 2 eexists. split; [done|]. split; [done|]. cbn. by rewrite length_insert.
Qed.

Lemma total_edits n l : forall s, healthy n s ->
  exists s', foldM (handleEdit orig_message) s l = Ok s' /\ healthy n s'.
Proof.
  induction l as [|x l IH]; intros s Hs; cbn [foldM]; [by eauto|].
  enough (exists s', handleEdit orig_message s x = Ok s' /\ healthy n s') as (s' & -> & Hs') by (by apply IH).
  unfold handleEdit. pose proof (Horig (MakeFBMessageID (row_str LSEditMessage "MessageID" x))) as Ho.
  destruct (orig_message _) as [[orig|]| |]; [|by eauto|by eauto|done]. cbv zeta.
  destruct (editChannels _ !! _) as [l'|]; [destruct (length l' <? 5)%nat|];
    (eexists; split; [done|by split; apply Hs]).
Qed.

Lemma rows_healthy n sch fn s : total_on n (fun _ => True) fn -> healthy n s ->
  exists s', collect_rows m db_err t sch fn s = Ok s' /\ healthy n s'.
Proof. intros Hfn. apply (collect_healthy n (fun _ => True)); [done|]. by apply Forall_true. Qed.

Ltac rows_step := match goal with
  | |- context [collect_rows _ _ _ ?sch ?fn ?s0] =>
      let s := fresh "s" in let E := fresh "E" in let H := fresh "H" in
      destruct (rows_healthy _ sch fn s0 ltac:(first [by eauto with remote_total | total]) ltac:(eassumption))
        as (s & E & H);
      rewrite E; cbn [mbind res_bind]
  end.

#[local] Hint Resolve total_SetThreadImage total_ExistingRange : remote_total.

Lemma parse_merged_total n ups s : Forall (fun u => is_Some (Range u)) ups -> healthy n s ->
  exists s', parse_merged m db_err t ups s = Ok s' /\ healthy n s'.
Proof.
  intros Hu Hs. unfold parse_merged. do 3 rows_step.
  edestruct (fun s => collect_healthy n _ (fun s => UpsertMessages_GetThreadKey (msgs s)) _ ups s (total_UpsertMessages n) Hu)
    as (s4 & -> & H4); [eassumption|].
  cbn [mbind res_bind]. rows_step. by eauto.
Qed.

Lemma parse_rest_total n ins s : Forall (fun p => (p < n)%nat) ins -> healthy n s ->
  exists s', parse_rest m avatar_id parse_url db_err orig_message t ins s = Ok s' /\ healthy n s'.
Proof.
  intros Hi Hs. unfold parse_rest.
  destruct (collect_healthy n _ message_key _ ins s (total_MessageInsert n) Hi Hs) as (s1 & -> & H1).
  cbn [mbind res_bind]. destruct (total_edits n (rows t "LSEditMessage") s1 H1) as (s2 & -> & H2). cbn [mbind res_bind].
  do 10 rows_step. by eauto.
Qed.
End Total.

(** ** The properties of parseTable *)

Section Properties.
Context (m : Login) (avatar_id : string -> option string) (parse_url : string -> option (string * string)).
Context (db_err : Z -> bool) (values : forall V : Type, gmap Z V -> list V).
Context (orig_message : string -> res (option OrigMessage)) (t : gmap string (list Inst)).
Context (Hvalues : forall V (mp : gmap Z V), values V mp ≡ₚ (map_to_list mp).*2).
Context (b : BackfillState) (d : MetaDB) (ig : gmap string Z) (ed : gmap string (list Inst)).

Let parse := parseTable m avatar_id parse_url db_err values orig_message t b d ig ed.

(** [parseTable] never fails: whatever the rows, if the URLs of avatars parse and the message
    lookup returns, it comes to the end with its events. *)
Theorem parse_table_total (Havatar : forall u, is_Some (avatar_id u))
    (Horig : forall i, is_halt (orig_message i) = false) (Hb : collectors_ok b) :
  exists s', parseTable m avatar_id parse_url db_err values orig_message t b d ig ed = Ok s'.
Proof.
  destruct (threadResyncs_total m avatar_id t Havatar) as [mp Hmp]. unfold parseTable. rewrite Hmp. cbn [mbind res_bind].
  rewrite parse_deletions_ok by (by eapply initially_active). cbn [mbind res_bind].
  destruct (WrapMessages_stages t) as (ups0 & _ & h & Hw & Hlen & _). rewrite Hw. cbn [mbind res_bind].
  set (ups := upsert (inserted t ups0)) in *.
  set (s1 := set_msgs h _).
  assert (healthy (length h) s1) as Hs1 by (split; done).
  edestruct (parse_merged_total m db_err t (length h) (values _ ups) s1) as (s2 & -> & Hs2); [|done|].
  { apply Forall_forall. intros u (k & Hu)%(elem_of_values values Hvalues).
    rewrite (WrapMessages_chunk _ _ _ _ k Hw) in Hu. destruct (last _) as [rng|]; [|done].
    injection Hu as <-. by eexists. }
  cbn [mbind res_bind].
  edestruct (fun s ins => parse_rest_total m avatar_id parse_url db_err orig_message t Havatar Horig (length h) ins s)
    as (s3 & -> & _); [| |by eexists].
  - apply Forall_forall. intros p Hp%elem_of_seq. rewrite Hlen. unfold all_messages.
    rewrite length_app, !length_fmap. lia.
  - by apply healthy_enqueue.
Qed.

(** C31. What [parseTable] queues, in order: the folders, the deletions of threads the table does
    not write to, the threads that are only verified, the changes that are not part of a resync,
    the resyncs, one message event for every inserted message in table order, in the portal of
    its thread or of the thread's parent, and last what refers to threads and messages. *)
Theorem parse_table_order s' (Hp : parse = Ok s') :
  exists mp h ups merged ms rs,
    threadResyncs m avatar_id t = Ok mp /\
    WrapMessages t = Ok (h, ups, seq (length (rows t "LSUpsertMessage")) (length (rows t "LSInsertMessage"))) /\
    queue s' = folder_events m t ++ deletions m db_err t d ++ verified values t mp ++ merged
                 ++ (ChatResync <$> values _ (syncs s')) ++ ms ++ rs /\
    Forall merged_event merged /\
    Forall2 (delivers m (db s') h)
      (seq (length (rows t "LSUpsertMessage")) (length (rows t "LSInsertMessage"))) ms /\
    Forall refers rs.
Proof.
  destruct (parseTable_stages _ _ _ _ _ _ _ Hvalues _ _ _ _ _ Hp)
    as (mp & h & ups & ins & merged & ms & rs & Hmp & Hw & Hq & Hm & Hd & Hr & _).
  destruct (WrapMessages_stages t) as (ups0 & _ & h0 & Hw0 & _).
  assert (ins = seq (length (rows t "LSUpsertMessage")) (length (rows t "LSInsertMessage"))) as -> by congruence.
  by exists mp, h, ups, merged, ms, rs.
Qed.

(** A thread with a row of its own is resynced with exactly the changes the table has for it:
    the last row's info, then its participants, mute settings and moves to encrypted folders
    merged in, in table order. *)
Theorem resyncs_carry_changes s' (Hp : parse = Ok s') k row
    (Hrow : last (filter (fun x => thread_int "ThreadKey" x = k) (rows t "LSDeleteThenInsertThread")) = Some row) :
  exists info r, wrapChatInfo m avatar_id row = Ok info /\ ChatResync r ∈ queue s' /\
    bare r = bare (merged_resync m t k (resync_of m row info)).
Proof.
  destruct (parseTable_stages _ _ _ _ _ _ _ Hvalues _ _ _ _ _ Hp)
    as (mp & h & ups & ins & merged & ms & rs & Hmp & _ & Hq & _ & _ & _ & Hsy & _).
  pose proof (threadResyncs_lookup _ _ _ _ _ k Hmp) as Hk. rewrite Hrow in Hk.
  destruct Hk as (info & Hinfo & Hk). specialize (Hsy k). rewrite Hk in Hsy.
  destruct (syncs s' !! k) as [r|] eqn:Er; [|done]. cbn [fmap option_fmap option_map] in Hsy. exists info, r. split_and!; [done| |congruence].
  rewrite Hq, !elem_of_app. do 4 right. left. apply list_elem_of_fmap. exists r. split; [done|].
  apply (elem_of_values values Hvalues). by exists k.
Qed.

(** No upserted message is dropped: the chunk of a thread no collector waits for is in the
    backfill of a queued resync, of the thread's own one if it has one. *)
Theorem no_chunk_lost s' (Hp : parse = Ok s') h ups ins (Hw : WrapMessages t = Ok (h, ups, ins)) k u
    (Hu : ups !! k = Some u) (Hc : backfillCollectors b !! resolve db_err d k = None) :
  exists r, ChatResync r ∈ queue s' /\ r_backfill r = Some u.
Proof.
  destruct (parseTable_stages _ _ _ _ _ _ _ Hvalues _ _ _ _ _ Hp)
    as (mp & h' & ups' & ins' & merged & ms & rs & _ & Hw' & _ & _ & _ & _ & _ & Hchunk).
  rewrite Hw in Hw'. injection Hw' as <- <- <-. by eapply Hchunk.
Qed.
End Properties.

(** ** Witnesses *)

Definition ex_login : Login := mkLogin "100" false true false.
Definition ex_values (V : Type) (mp : gmap Z V) : list V := (map_to_list mp).*2.
Definition with_key (s : Schema) (k : Z) (r : Inst) : Inst := row_set s "ThreadKey" (VInt64 k) r.

(** Thread 7 is resynced with a participant, a mute setting, an upserted and a new message;
    thread 8 is deleted. *)
Definition ex_tables : gmap string (list Inst) :=
  <["LSDeleteThenInsertThread" :=
      [with_key LSDeleteThenInsertThread 7 (row_set LSDeleteThenInsertThread "ThreadType" (VInt64 2)
         (reflect_New LSDeleteThenInsertThread))]]>
  (<["LSDeleteThread" := [with_key LSDeleteThread 8 (reflect_New LSDeleteThread)]]>
  (<["LSAddParticipantIdToGroupThread" :=
       [with_key LSAddParticipantIdToGroupThread 7 (row_set LSAddParticipantIdToGroupThread "ContactId" (VInt64 5)
          (reflect_New LSAddParticipantIdToGroupThread))]]>
  (<["LSUpdateThreadMuteSetting" :=
       [with_key LSUpdateThreadMuteSetting 7 (row_set LSUpdateThreadMuteSetting "MuteExpireTimeMS" (VInt64 (-1))
          (reflect_New LSUpdateThreadMuteSetting))]]>
  (<["LSInsertMessage" := [row_set LSInsertMessage "MessageId" (VStr "n")
       (with_key LSInsertMessage 7 (reflect_New LSInsertMessage))]]> sample_tables)))).

Definition ex_parse : res PS :=
  parseTable ex_login (fun _ => Some ""%string) (fun _ => None) (fun _ => false) ex_values (fun _ => Ok None)
    ex_tables (mkBackfillState ∅ [] [] 0) emptyDB ∅ ∅.

Lemma parse_table_total_witness : exists s', ex_parse = Ok s'.
Proof.
  apply (parse_table_total ex_login _ _ _ ex_values).
  - intros V mp. done.
  - intros u. by eexists.
  - done.
  - intros k c H. discriminate H.
Defined.

Definition ex_events : list RemoteEvent := match ex_parse with Ok s => queue s | _ => [] end.

(** Deletion, resync, message. *)
Example ex_kinds : (fun e => match e with
    | ChatDelete k _ _ => ("delete", PortalID k) | ChatResync r => ("resync", PortalID (r_portal r))
    | FBMessageEvent k _ _ => ("message", PortalID k) | _ => ("other", "") end)%string <$> ex_events
  = [("delete", "8"); ("resync", "7"); ("message", "7")]%string.
Proof. vm_compute. reflexivity. Qed.

(** The state [ex_parse] ends in. *)
Definition ex_final : PS :=
  match ex_parse with Ok s => s | _ => mkPS [] ∅ ∅ (mkBackfillState ∅ [] [] 0) emptyDB ∅ ∅ [] end.

Lemma ex_parse_Ok : ex_parse = Ok ex_final.
Proof.
  unfold ex_final. assert (match ex_parse with Ok _ => True | _ => False end) as H by (vm_compute; exact I).
  by destruct ex_parse.
Qed.

Lemma ex_values_ok V (mp : gmap Z V) : ex_values V mp ≡ₚ (map_to_list mp).*2.
Proof. done. Qed.

Lemma parse_table_order_witness : exists mp h ups merged ms rs,
    threadResyncs ex_login (fun _ => Some ""%string) ex_tables = Ok mp /\
    WrapMessages ex_tables = Ok (h, ups, [1%nat]) /\
    queue ex_final = folder_events ex_login ex_tables ++ deletions ex_login (fun _ => false) ex_tables emptyDB
      ++ verified ex_values ex_tables mp ++ merged ++ (ChatResync <$> ex_values _ (syncs ex_final)) ++ ms ++ rs /\
    Forall merged_event merged /\ Forall2 (delivers ex_login (db ex_final) h) [1%nat] ms /\ Forall refers rs.
Proof. exact (parse_table_order _ _ _ _ _ _ _ ex_values_ok _ _ _ _ _ ex_parse_Ok). Defined.

Definition ex_row : Inst :=
  with_key LSDeleteThenInsertThread 7 (row_set LSDeleteThenInsertThread "ThreadType" (VInt64 2)
    (reflect_New LSDeleteThenInsertThread)).

Lemma resyncs_carry_changes_witness : exists info r,
  wrapChatInfo ex_login (fun _ => Some ""%string) ex_row = Ok info /\ ChatResync r ∈ queue ex_final /\
  bare r = bare (merged_resync ex_login ex_tables 7 (resync_of ex_login ex_row info)).
Proof. exact (resyncs_carry_changes _ _ _ _ _ _ _ ex_values_ok _ _ _ _ _ ex_parse_Ok 7 ex_row eq_refl). Defined.

Lemma no_chunk_lost_witness : exists u r, ChatResync r ∈ queue ex_final /\ r_backfill r = Some u /\ Messages u = [0%nat].
Proof.
  destruct (WrapMessages ex_tables) as [[[h ups] ins]| |] eqn:E; [|discriminate E..].
  exists (mkUpsertMessages (Some WrapMessages.sample_range) [0%nat] true).
  destruct (no_chunk_lost _ _ _ _ _ _ _ ex_values_ok _ _ _ _ _ ex_parse_Ok h ups ins E 7
    (mkUpsertMessages (Some WrapMessages.sample_range) [0%nat] true)) as (r & Hr & Hb);
    [rewrite (WrapMessages_chunk _ _ _ _ 7 E); vm_compute; reflexivity|reflexivity|].
  by exists r.
Defined.
