(* ===== verification/Effects.v ===== *)
(** * Effects: computations that change a state and can fail

    Methods that mutate an object graph and return an error are functions from the state to the
    state and a result: what they did before an error or a panic stays done.  The file has the
    monad and the three judgements the components use: a relation every run respects, that a run
    comes back, and that a run with less fuel agrees with a run with more. *)

From S2P Require Import Prelude.

Definition M (S A : Type) : Type := S -> S * res A.

#[global] Instance M_ret {S} : MRet (M S) := fun A a s => (s, Ok a).
#[global] Instance M_bind {S} : MBind (M S) := fun A B f m s =>
  match m s with
  | (s', Ok a) => f a s'
  | (s', Err e) => (s', Err e)
  | (s', Halt h) => (s', Halt h)
  end.

Section Ops.
Context {S : Type}.

Definition lift {A} (r : res A) : M S A := fun s => (s, r).
Definition throw {A} (e : string) : M S A := lift (Err e).
Definition panic {A} : M S A := lift Panic.
Definition diverge {A} : M S A := lift Diverge.
Definition gets {A} (f : S -> A) : M S A := fun s => (s, Ok (f s)).
Definition modify (f : S -> S) : M S unit := fun s => (f s, Ok tt).

(** The error of [m] is handled by [h]; a panic is not an error. *)
Definition catch {A} (m : M S A) (h : string -> M S A) : M S A := fun s =>
  match m s with
  | (s', Err e) => h e s'
  | (s', r) => (s', r)
  end.

Fixpoint each {A B} (f : A -> M S B) (l : list A) : M S (list B) :=
  match l with
  | [] => mret []
  | a :: l => b ← f a; bs ← each f l; mret (b :: bs)
  end.

Fixpoint iter {A} (f : A -> M S unit) (l : list A) : M S unit :=
  match l with
  | [] => mret tt
  | a :: l => f a;; iter f l
  end.
End Ops.

(** ** A relation every run respects *)

Section Respects.
Context {S : Type} (R : relation S) `{!PreOrder R}.

Definition respects {A} (m : M S A) : Prop := forall s, R s (fst (m s)).

Lemma respects_lift {A} (r : res A) : respects (lift r).
Proof. intros s. cbn. reflexivity. Qed.
Lemma respects_ret {A} (a : A) : respects (mret a).
Proof. intros s. cbn. reflexivity. Qed.
Lemma respects_gets {A} (f : S -> A) : respects (gets f).
Proof. intros s. cbn. reflexivity. Qed.
Lemma respects_modify f : (forall s, R s (f s)) -> respects (modify f).
Proof. intros H s. apply H. Qed.

Lemma respects_bind {A B} (m : M S A) (f : A -> M S B) :
  respects m -> (forall a, respects (f a)) -> respects (m ≫= f).
Proof.
  intros Hm Hf s. unfold mbind, M_bind. specialize (Hm s).
  destruct (m s) as [s' [a| |]]; cbn in *; [|done..]. etrans; [exact Hm|apply Hf].
Qed.

Lemma respects_catch {A} (m : M S A) h : respects m -> (forall e, respects (h e)) -> respects (catch m h).
Proof.
  intros Hm Hh s. unfold catch. specialize (Hm s).
  destruct (m s) as [s' [a| |]]; cbn in *; [done| |done]. etrans; [exact Hm|apply Hh].
Qed.

End Respects.

(** ** Runs that come back *)

Section Ends.
Context {S : Type}.

Definition diverges {A} (r : res A) : bool := match r with Diverge => true | _ => false end.
Definition ends {A} (m : M S A) : Prop := forall s, diverges (snd (m s)) = false.

Lemma ends_lift {A} (r : res A) : diverges r = false -> ends (lift r).
Proof. intros H s. exact H. Qed.
Lemma ends_ret {A} (a : A) : ends (mret a).
Proof. done. Qed.
Lemma ends_gets {A} (f : S -> A) : ends (gets f).
Proof. done. Qed.
Lemma ends_modify f : ends (modify f).
Proof. done. Qed.

Lemma ends_bind {A B} (m : M S A) (f : A -> M S B) : ends m -> (forall a, ends (f a)) -> ends (m ≫= f).
Proof.
  intros Hm Hf s. unfold mbind, M_bind. specialize (Hm s).
  destruct (m s) as [s' [a| |[]]]; cbn in *; [apply Hf|done..].
Qed.

Lemma ends_catch {A} (m : M S A) h : ends m -> (forall e, ends (h e)) -> ends (catch m h).
Proof.
  intros Hm Hh s. unfold catch. specialize (Hm s).
  destruct (m s) as [s' [a| |]]; cbn in *; [done|apply Hh|done].
Qed.

End Ends.

(** ** Less fuel, more fuel *)

Section Below.
Context {S : Type}.

(** [m] runs out of fuel, or does what [m'] does. *)
Definition below {A} (m m' : M S A) : Prop := forall s, snd (m s) = Diverge \/ m s = m' s.

#[global] Instance below_refl {A} : Reflexive (@below A).
Proof. intros m s. by right. Qed.

#[global] Instance below_trans {A} : Transitive (@below A).
Proof.
  intros m1 m2 m3 H1 H2 s. destruct (H1 s) as [E|E]; [by left|]. rewrite E. apply H2.
Qed.

Lemma below_diverge {A} (m : M S A) : below diverge m.
Proof. intros s. by left. Qed.

Lemma below_bind {A B} (m m' : M S A) (f f' : A -> M S B) :
  below m m' -> (forall a, below (f a) (f' a)) -> below (m ≫= f) (m' ≫= f').
Proof.
  intros Hm Hf s. unfold mbind, M_bind. destruct (Hm s) as [E|E].
  - left. destruct (m s) as [s' r]. cbn in E. by subst.
  - rewrite <- E. destruct (m s) as [s' [a| |]]; [apply Hf|by right..].
Qed.

Lemma below_catch {A} (m m' : M S A) h h' :
  below m m' -> (forall e, below (h e) (h' e)) -> below (catch m h) (catch m' h').
Proof.
  intros Hm Hh s. unfold catch. destruct (Hm s) as [E|E].
  - left. destruct (m s) as [s' r]. cbn in E. by subst.
  - rewrite <- E. destruct (m s) as [s' [a| |]]; [by right|apply Hh|by right].
Qed.

End Below.

(** ** What holds of all computations built from a set of operations *)

Definition returns {S A} (m : M S A) (a : A) : Prop := exists s s', m s = (s', Ok a).

(** A relation between computations that the operations of the monad keep.  A judgement about one
    computation is one, too: it ignores the second. *)
Class MonadRel {S} (Q : forall A, M S A -> M S A -> Prop) := {
  rel_lift : forall A (r : res A), diverges r = false -> Q A (lift r) (lift r);
  rel_gets : forall A (f : S -> A), Q A (gets f) (gets f);
  rel_bind : forall A B (m m' : M S A) (f f' : A -> M S B),
    Q A m m' -> (forall a, returns m a -> Q B (f a) (f' a)) -> Q B (m ≫= f) (m' ≫= f');
  rel_catch : forall A (m m' : M S A) h h',
    Q A m m' -> (forall e, Q A (h e) (h' e)) -> Q A (catch m h) (catch m' h');
}.

#[export] Instance respects_rel {S} (R : relation S) `{!PreOrder R} : MonadRel (fun A m _ => respects R m).
Proof.
  split.
  - intros A r _. apply respects_lift, _.
  - intros A f. apply respects_gets, _.
  - intros A B m _ f _ Hm Hf s. specialize (Hm s). unfold mbind, M_bind.
    destruct (m s) as [s' [a| |]] eqn:E; cbn in *; [|done..]. etrans; [exact Hm|]. apply Hf. by exists s, s'.
  - intros A m _ h _. apply respects_catch, _.
Qed.

#[export] Instance ends_rel {S} : MonadRel (fun A (m _ : M S A) => ends m).
Proof.
  split.
  - intros A r H. by apply ends_lift.
  - done.
  - intros A B m _ f _ Hm Hf s. specialize (Hm s). unfold mbind, M_bind.
    destruct (m s) as [s' [a| |[]]] eqn:E; cbn in *; [|done..]. apply Hf. by exists s, s'.
  - intros A m _ h _. apply ends_catch.
Qed.

#[export] Instance below_rel {S} : MonadRel (@below S).
Proof.
  split; [done|done| |].
  - intros A B m m' f f' Hm Hf s. unfold mbind, M_bind. destruct (Hm s) as [E|E].
    + left. destruct (m s) as [s' r]. cbn in E. by subst.
    + rewrite <- E. destruct (m s) as [s' [a| |]] eqn:Em; [|by right..]. apply Hf. by exists s, s'.
  - intros A m m' h h'. apply below_catch.
Qed.

Section Rel.
Context {S : Type} (Q : forall A, M S A -> M S A -> Prop) `{!MonadRel Q}.

Lemma rel_ret {A} (a : A) : Q A (mret a) (mret a).
Proof. by apply (rel_lift A (Ok a)). Qed.

Lemma rel_each {A B} (f f' : A -> M S B) l :
  (forall a, a ∈ l -> Q B (f a) (f' a)) -> Q _ (each f l) (each f' l).
Proof.
  induction l as [|a l IH]; intros Hf; [apply rel_ret|]. cbn [each].
  apply rel_bind; [apply Hf; set_solver|intros b _].
  apply rel_bind; [apply IH; set_solver|intros; apply rel_ret].
Qed.

Lemma rel_iter {A} (f f' : A -> M S unit) l :
  (forall a, a ∈ l -> Q _ (f a) (f' a)) -> Q _ (iter f l) (iter f' l).
Proof.
  induction l as [|a l IH]; intros H; [apply rel_ret|]. cbn [iter].
  apply rel_bind; [apply H; set_solver|intros _ _; apply IH; set_solver].
Qed.
End Rel.
