(* ===== verification/BloksScript.v ===== *)
(** * BloksScript: the scripts of the login pages ([bloks/script.go])

    Scripts are S-expressions: calls of functions, and literals.  [Parse] takes the rest of the
    text where the source passes the text and an index into it; the index it returns is the
    length of what is consumed.  [None] for a node is the source's [ErrParseEndOfFuncall].
    Values, which the interpreter computes with, are here because a literal holds one: maps and
    closures are objects with an identity, so a value refers to them by location. *)

From S2P Require Import Prelude Strconv Unicode.
From Stdlib Require Import Ascii SpecFloat.
#[local] Open Scope string_scope.
#[local] Open Scope Z_scope.

(** ** Values and nodes *)

(** A [BloksJavascriptValue].  A map, a closure, a reference to an element or a bundle is a
    pointer.  The elements of an array are pointers to literals, which may be nil. *)
Inductive value :=
| VNull
| VBool (b : bool)
| VStr (s : string)
| VInt (z : Z)
| VFloat (f : spec_float)
| VArr (l : list (option value))
| VMap (loc : nat)
| VLambda (loc : nat)
| VElem (loc : nat)
| VBundle (loc : nat)
| VIllegal.

(** A [*BloksScriptLiteral]. *)
Abbreviation lit := (option value).

Inductive Node :=
| Literal (l : lit)
| Funcall (Function : string) (Args : list Node).

Section NodeInd.
Variable P : Node -> Prop.
Hypothesis Hlit : forall l, P (Literal l).
Hypothesis Hcall : forall f args, Forall P args -> P (Funcall f args).

Fixpoint Node_ind' (n : Node) : P n :=
  match n with
  | Literal l => Hlit l
  | Funcall f args =>
      Hcall f args ((fix go (l : list Node) : Forall P l :=
        match l with
        | [] => Forall_nil_2 P
        | n :: l => Forall_cons_2 P n l (Node_ind' n) (go l)
        end) args)
  end.
End NodeInd.

(** ** Characters *)

Definition is_blank (c : ascii) : bool := (c =? "009")%char || (c =? " ")%char || (c =? ",")%char.
Definition between (lo hi c : ascii) : bool :=
  (nat_of_ascii lo <=? nat_of_ascii c)%nat && (nat_of_ascii c <=? nat_of_ascii hi)%nat.

(** The characters of a function's name. *)
Definition is_name_char (c : ascii) : bool :=
  between "a" "z" c || between "A" "Z" c || is_digit c || (c =? ".")%char || (c =? "_")%char.
(** What may follow a name or a number. *)
Definition is_delim (c : ascii) : bool :=
  (c =? " ")%char || (c =? "(")%char || (c =? ")")%char || (c =? ",")%char.
Definition is_number_char (c : ascii) : bool := is_digit c || (c =? "-")%char || (c =? ".")%char.

Fixpoint skip_blank (s : string) : string :=
  match s with
  | String c s' => if is_blank c then skip_blank s' else s
  | EmptyString => EmptyString
  end.

(** The loops that move [start] to the first character that is not blank: without one, [start]
    stays. *)
Definition skip_to (s : string) : string :=
  match skip_blank s with EmptyString => s | s' => s' end.

(** The longest prefix of characters that satisfy [p], and the rest. *)
Fixpoint span (p : ascii -> bool) (s : string) : string * string :=
  match s with
  | String c s' => if p c then let '(a, b) := span p s' in (String c a, b) else (EmptyString, s)
  | EmptyString => (EmptyString, EmptyString)
  end.

(** ** Numbers *)

(** [strconv.ParseFloat] of a text of digits, signs and dots: an optional sign, digits around at
    most one dot, at least one digit; the result is the nearest double. *)
Definition decimal_value (s : string) : Z :=
  (fix go (acc : Z) (s : string) : Z :=
     match s with String c s => go (acc * 10 + char_digit c) s | EmptyString => acc end) 0 s.

Definition float_of (neg : bool) (m : Z) (k : nat) : spec_float :=
  match m with
  | Zpos p => SFdiv 53 1024 (S754_finite neg p 0) (S754_finite false (Z.to_pos (10 ^ Z.of_nat k)) 0)
  | _ => S754_zero neg
  end.

(** What follows [c], if the text starts with it. *)
Definition cut_char (c : ascii) (s : string) : option string :=
  match s with String c' s => if (c' =? c)%char then Some s else None | EmptyString => None end.

Definition ParseFloat (s : string) : res spec_float :=
  let '(neg, s) := match cut_char "-" s with Some s => (true, s) | None => (false, s) end in
  let '(whole, s) := span is_digit s in
  let '(frac, s) := match cut_char "." s with Some s => span is_digit s | None => ("", s) end in
  match s with
  | EmptyString =>
      if (String.length whole + String.length frac =? 0)%nat then Err "invalid syntax"
      else match float_of neg (decimal_value (whole ++ frac)) (String.length frac) with
           | S754_infinity _ => Err "value out of range"
           | f => Ok f
           end
  | _ => Err "invalid syntax"
  end.

Definition parse_int (s : string) : res Z :=
  match ParseInt 10 s with
  | (z, None) => Ok z
  | (_, Some ErrSyntax) => Err "invalid syntax"
  | (_, Some ErrRange) => Err "value out of range"
  end.

(** ** Strings *)

Definition hex_digit (c : ascii) : option Z :=
  if is_digit c then Some (char_digit c)
  else if between "a" "f" c then Some (Z.of_nat (nat_of_ascii c) - 87)
  else if between "A" "F" c then Some (Z.of_nat (nat_of_ascii c) - 55)
  else None.

(** [strconv.Unquote] of a quoted escape [\uXXXX]: surrogates are not runes. *)
Definition Unquote_u (a b c d : ascii) : res string :=
  match hex_digit a, hex_digit b, hex_digit c, hex_digit d with
  | Some a, Some b, Some c, Some d =>
      let r := ((a * 16 + b) * 16 + c) * 16 + d in
      if (55296 <=? r) && (r <=? 57343) then Err "parsing unicode escape" else Ok (l2s (utf8_encode r))
  | _, _, _, _ => Err "parsing unicode escape"
  end.

(** The text behind an opening quote: the string and what follows the closing quote. *)
Fixpoint parse_string (s : string) : res (string * string) :=
  match s with
  | EmptyString => Err "unterminated string literal"
  | String c s =>
      if (c =? "034")%char then Ok ("", s)
      else if (c =? "\")%char then
        match s with
        | EmptyString => Err "backslash at eof"
        | String e s =>
            if (e =? "n")%char then '(r, t) ← parse_string s; Ok (String "010" r, t)
            else if (e =? "u")%char then
              match s with
              | String a (String b (String c (String d ((String _ _) as s)))) =>
                  u ← Unquote_u a b c d; '(r, t) ← parse_string s; Ok (u ++ r, t)
              | _ => Err "got eof during unicode escape sequence"
              end
            else '(r, t) ← parse_string s; Ok (String e r, t)
        end
      else '(r, t) ← parse_string s; Ok (String c r, t)
  end.

(** ** The parser *)

(** The text starts with [w] and goes on after it. *)
Definition starts_with (w s : string) : bool := HasPrefix s w && (String.length w <? String.length s)%nat.
Definition drop_string (n : nat) (s : string) : string := String.substring n (String.length s - n) s.

Definition ParseLiteral (code : string) : res (value * string) :=
  let s := skip_to code in
  let '(num, rest) := span is_number_char s in
  match num, rest with
  | String _ _, String c _ =>
      if is_delim c then
        if (snd (span (fun c => negb (c =? ".")%char) num) =? "")%string
        then z ← parse_int num; Ok (VInt z, rest)
        else f ← ParseFloat num; Ok (VFloat f, rest)
      else Err "unexpected char in numeric literal"
  | _, _ =>
      match s with
      | String c s' =>
          if (c =? "034")%char then '(r, t) ← parse_string s'; Ok (VStr r, t)
          else if starts_with "null" s then Ok (VNull, drop_string 4 s)
          else if starts_with "true" s then Ok (VBool true, drop_string 4 s)
          else if starts_with "false" s then Ok (VBool false, drop_string 5 s)
          else Err "unknown char"
      | EmptyString => Panic
      end
  end.

(** The name behind an opening parenthesis. *)
Definition ParseName (code : string) : res (string * string) :=
  let '(name, rest) := span is_name_char (skip_to code) in
  match rest with
  | EmptyString => Err "eof during func name"
  | String c _ =>
      if is_delim c then
        if (name =? "")%string then Err "bad char instead of func name" else Ok (name, rest)
      else Err "unexpected char in func name"
  end.

(** The parenthesis that ended the arguments. *)
Definition close_paren (s : string) : res string :=
  match skip_blank s with
  | EmptyString => Err "end of funcall"
  | String c t => if (c =? ")")%char then Ok t else Err "eof during close paren"
  end.

Fixpoint ParseAny (fuel : nat) (code : string) : res (option Node * string) :=
  match fuel with
  | O => Diverge
  | S fuel =>
      match skip_blank code with
      | EmptyString => Err "eof at toplevel"
      | String c rest as s =>
          if (c =? "(")%char then
            '(name, s) ← ParseName rest;
            '(args, s) ← ParseArgs fuel s;
            Ok (Some (Funcall name args), s)
          else if (c =? ")")%char then Ok (None, s)
          else '(v, s) ← ParseLiteral s; Ok (Some (Literal (Some v)), s)
      end
  end
with ParseArgs (fuel : nat) (code : string) : res (list Node * string) :=
  match fuel with
  | O => Diverge
  | S fuel =>
      '(arg, s) ← ParseAny fuel code;
      match arg with
      | None => t ← close_paren s; Ok ([], t)
      | Some arg => '(args, s) ← ParseArgs fuel s; Ok (arg :: args, s)
      end
  end.

(** [BloksTreeScript.Parse] ([bloks/tree.go]): what follows the first form is not looked at. *)
Definition Parse (code : string) : res Node :=
  '(n, _) ← ParseAny (2 * String.length code + 2) code;
  match n with Some n => Ok n | None => Err "end of funcall" end.

(** ** Unminifying *)

(** Names the maps know, and know a real name of, are replaced. *)
Definition real_name (names : gmap string string) (i : string) : string :=
  match names !! i with Some real => if (real =? "")%string then i else real | None => i end.

Fixpoint Unminify (Functions Variables : gmap string string) (n : Node) : Node :=
  match n with
  | Literal (Some (VStr s)) => Literal (Some (VStr (real_name Variables s)))
  | Literal l => Literal l
  | Funcall f args => Funcall (real_name Functions f) (map (Unminify Functions Variables) args)
  end.

(** ** Literals *)

(** [IsTruthy]: the interpreter's integers are [int64], which the case for [int] does not match. *)
Definition IsTruthy (v : value) : bool :=
  match v with
  | VBool b => b
  | VStr s => negb (s =? "")%string
  | VNull => false
  | _ => true
  end.

(** ** Termination *)

Lemma span_length p s a b : span p s = (a, b) -> (String.length a + String.length b = String.length s)%nat.
Proof.
  revert a b. induction s as [|c s IH]; cbn; intros a b; [by intros [= <- <-]|].
  destruct (p c); [|by intros [= <- <-]]. destruct (span p s) as [a' b'] eqn:E.
  intros [= <- <-]. cbn. by rewrite (IH _ _ eq_refl).
Qed.

Lemma skip_blank_length s : (String.length (skip_blank s) <= String.length s)%nat.
Proof. induction s as [|c s IH]; cbn; [lia|]. destruct (is_blank c); cbn; lia. Qed.

Lemma skip_to_length s : (String.length (skip_to s) <= String.length s)%nat.
Proof. unfold skip_to. destruct (skip_blank s) eqn:E; [lia|]. rewrite <- E. apply skip_blank_length. Qed.

(** [m] comes back, with at most [n] characters left. *)
Definition leaves {A} (n : nat) (m : res (A * string)) : Prop :=
  match m with Ok (_, s) => (String.length s <= n)%nat | Err _ => True | Halt _ => False end.

Lemma leaves_bind {A B} n n' (m : res (A * string)) (f : A * string -> res (B * string)) :
  leaves n m -> (forall a s, (String.length s <= n)%nat -> leaves n' (f (a, s))) -> leaves n' (m ≫= f).
Proof. intros Hm Hf. destruct m as [[a s]| |]; cbn in *; auto. Qed.

Lemma leaves_weaken {A} n n' (m : res (A * string)) : leaves n m -> (n <= n')%nat -> leaves n' m.
Proof. destruct m as [[a s]| |]; cbn; auto. lia. Qed.

Lemma Unquote_u_halts a b c d : is_halt (Unquote_u a b c d) = false.
Proof. unfold Unquote_u. by repeat case_match. Qed.

Lemma parse_string_leaves s : leaves (String.length s) (parse_string s).
Proof.
  enough (forall n s, (String.length s <= n)%nat -> leaves n (parse_string s)) as H by by apply H.
  clear s. induction n as [|n IH]; intros s Hs; [destruct s; cbn in *; [done|lia]|].
  assert (forall s (f : string -> string), (String.length s <= n)%nat ->
    leaves (S n) ('(r, t) ← parse_string s; Ok (f r, t))) as Hrec.
  { intros s' f H. apply (leaves_bind n); [by apply IH|]. cbn. lia. }
  destruct s as [|c s]; [done|]. cbn [String.length] in Hs. cbn [parse_string].
  destruct (c =? "034")%char; [cbn; lia|]. destruct (c =? "\")%char; [|apply Hrec; lia].
  destruct s as [|e s]; [done|]. cbn [String.length] in Hs.
  destruct (e =? "n")%char; [apply Hrec; lia|]. destruct (e =? "u")%char; [|apply Hrec; lia].
  destruct s as [|a [|b [|x [|d [|y s]]]]]; try done. cbn [String.length] in Hs.
  pose proof (Unquote_u_halts a b x d). destruct (Unquote_u a b x d); cbn [mbind res_bind]; [|done..].
  apply Hrec. cbn. lia.
Qed.

Lemma substring_length n m s : (n + m <= String.length s)%nat -> String.length (String.substring n m s) = m.
Proof.
  revert m s. induction n as [|n IH].
  - induction m as [|m IH]; intros [|c s]; cbn; try lia. intros H. rewrite IH; lia.
  - intros m [|c s] H; cbn in *; [lia|]. apply IH. lia.
Qed.

Lemma starts_with_drop w s : starts_with w s = true -> (String.length w > 0)%nat ->
  (String.length (drop_string (String.length w) s) < String.length s)%nat.
Proof.
  unfold starts_with, drop_string. intros [_ H]%andb_true_iff Hw. apply Nat.ltb_lt in H.
  rewrite substring_length; lia.
Qed.

Lemma ParseFloat_halts s : is_halt (ParseFloat s) = false.
Proof. unfold ParseFloat. by repeat case_match. Qed.
Lemma parse_int_halts s : is_halt (parse_int s) = false.
Proof. unfold parse_int. by repeat case_match. Qed.

(** A literal takes at least one character. *)
Lemma ParseLiteral_leaves s : s <> ""%string -> leaves (String.length s - 1) (ParseLiteral s).
Proof.
  intros Hne. unfold ParseLiteral. destruct (span is_number_char (skip_to s)) as [num rest] eqn:E.
  pose proof (span_length _ _ _ _ E) as Hl. pose proof (skip_to_length s) as Hs.
  assert (leaves (String.length s - 1) (match skip_to s with
      | String c s' =>
          if (c =? "034")%char then '(r, t) ← parse_string s'; Ok (VStr r, t)
          else if starts_with "null" (skip_to s) then Ok (VNull, drop_string 4 (skip_to s))
          else if starts_with "true" (skip_to s) then Ok (VBool true, drop_string 4 (skip_to s))
          else if starts_with "false" (skip_to s) then Ok (VBool false, drop_string 5 (skip_to s))
          else Err "unknown char"
      | EmptyString => Panic
      end)) as Hother.
  { destruct (skip_to s) as [|c s'] eqn:Es; [unfold skip_to in Es; by destruct (skip_blank s)|].
    destruct (c =? "034")%char.
    - apply (leaves_bind (String.length s')); [apply parse_string_leaves|]. cbn in *. lia.
    - destruct (starts_with "null" _) eqn:En; [apply (starts_with_drop "null") in En; cbn in *; lia|].
      destruct (starts_with "true" _) eqn:Et; [apply (starts_with_drop "true") in Et; cbn in *; lia|].
      destruct (starts_with "false" _) eqn:Ef; [apply (starts_with_drop "false") in Ef; cbn in *; lia|done]. }
  destruct num as [|n num]; [done|]. destruct rest as [|c rest]; [done|]. clear Hother.
  destruct (is_delim c); [|done]. case_match.
  - pose proof (parse_int_halts (String n num)). destruct (parse_int _); cbn in *; [lia|done..].
  - pose proof (ParseFloat_halts (String n num)). destruct (ParseFloat _); cbn in *; [lia|done..].
Qed.

Lemma ParseName_leaves s : leaves (String.length s) (ParseName s).
Proof.
  unfold ParseName. destruct (span is_name_char (skip_to s)) as [name rest] eqn:E.
  pose proof (span_length _ _ _ _ E). pose proof (skip_to_length s).
  destruct rest; [done|]. destruct (is_delim _); [|done]. destruct (_ =? _)%string; [done|]. cbn in *. lia.
Qed.

(** What a call of the parser gives back: a node and a shorter text, or the parenthesis. *)
Definition any_result (s : string) (m : res (option Node * string)) : Prop :=
  match m with
  | Ok (Some _, t) => (String.length t < String.length s)%nat
  | Ok (None, t) => (exists t', t = String ")" t') /\ (String.length t <= String.length s)%nat
  | Err _ => True
  | Halt _ => False
  end.

(** Fuel: each call is on a shorter text, or is the call of [ParseAny] on the same text. *)
Lemma parse_ends fuel : forall s,
  ((2 * String.length s + 1 <= fuel)%nat -> any_result s (ParseAny fuel s)) /\
  ((2 * String.length s + 2 <= fuel)%nat -> leaves (String.length s) (ParseArgs fuel s)).
Proof.
  induction fuel as [|fuel IH]; intros s; [split; lia|]. split; intros Hf.
  - cbn [ParseAny]. pose proof (skip_blank_length s) as Hs. destruct (skip_blank s) as [|c rest] eqn:Es; [done|].
    cbn [String.length] in Hs. destruct (c =? "(")%char.
    + pose proof (ParseName_leaves rest) as Hn. destruct (ParseName rest) as [[name s1]| |]; cbn in Hn |- *; [|done..].
      pose proof (proj2 (IH s1) ltac:(lia)) as Ha. destruct (ParseArgs fuel s1) as [[args s2]| |]; cbn in *; [lia|done..].
    + destruct (c =? ")")%char eqn:Ep; [apply Ascii.eqb_eq in Ep; subst c; cbn; split; [by eexists|lia]|].
      pose proof (ParseLiteral_leaves (String c rest) ltac:(done)) as Hl.
      destruct (ParseLiteral _) as [[v t]| |]; cbn in *; [lia|done..].
  - cbn [ParseArgs]. pose proof (proj1 (IH s) ltac:(lia)) as Ha.
    destruct (ParseAny fuel s) as [[[arg|] t]| |]; cbn [any_result mbind res_bind] in *; [| |done..].
    + pose proof (proj2 (IH t) ltac:(lia)) as Hr. destruct (ParseArgs fuel t) as [[args u]| |]; cbn in *; [lia|done..].
    + destruct Ha as [[t' ->] Ht]. cbn in *. lia.
Qed.

(** The parser of scripts comes back on every text, and never reads past its end: the fuel for
    the length of the text is enough, and the result is a node or an error. *)
Theorem bloks_parse_total code : is_halt (Parse code) = false.
Proof.
  unfold Parse. pose proof (proj1 (parse_ends (2 * String.length code + 2) code) ltac:(lia)) as H.
  by destruct (ParseAny _ code) as [[[n|] t]| |].
Qed.

(** ** Scripts in canonical form *)

(** How a string is written so that the parser reads it: only the quote, the backslash and the
    newline need an escape. *)
Fixpoint escape (s : string) : string :=
  match s with
  | EmptyString => EmptyString
  | String c s =>
      if (c =? "034")%char then String "\" (String "034" (escape s))
      else if (c =? "\")%char then String "\" (String "\" (escape s))
      else if (c =? "010")%char then String "\" (String "n" (escape s))
      else String c (escape s)
  end.

Definition render_value (v : value) : string :=
  match v with
  | VNull => "null"
  | VBool b => if b then "true" else "false"
  | VStr s => String "034" (escape s ++ String "034" "")
  | VInt z => FormatInt 10 z
  | _ => ""
  end.

Fixpoint render (n : Node) : string :=
  match n with
  | Literal (Some v) => render_value v
  | Literal None => ""
  | Funcall f args => String "(" (f ++ (fix go (l : list Node) : string :=
                                          match l with
                                          | [] => ")"
                                          | n :: l => String "," (String " " (render n ++ go l))
                                          end) args)
  end.

Fixpoint render_args (l : list Node) : string :=
  match l with [] => ")" | n :: l => String "," (String " " (render n ++ render_args l)) end.



(** Nodes that have a text: constants other than floats, names of name characters. *)
Definition canonical_value (v : value) : Prop :=
  match v with VNull | VBool _ | VStr _ => True | VInt z => in_int 64 z | _ => False end.

Inductive canonical : Node -> Prop :=
| canonical_literal v : canonical_value v -> canonical (Literal (Some v))
| canonical_funcall f args : f <> ""%string -> all_chars is_name_char f = true -> Forall canonical args ->
    canonical (Funcall f args).

(** ** Lemmas: rendering *)

#[local] Arguments String.append !_ _ / : simpl nomatch.

Lemma render_Funcall f args : render (Funcall f args) = String "(" (f ++ render_args args).
Proof. reflexivity. Qed.

Lemma span_app p a c rest : all_chars p a = true -> p c = false ->
  span p (a ++ String c rest) = (a, String c rest).
Proof.
  intros Ha Hc. induction a as [|x a IH]; cbn in *; [by rewrite Hc|].
  apply andb_true_iff in Ha as [-> Ha]. by rewrite (IH Ha).
Qed.

Lemma number_chars z : all_chars is_number_char (FormatInt 10 z) = true /\
  all_chars (fun c => negb (c =? ".")%char) (FormatInt 10 z) = true /\ FormatInt 10 z <> ""%string.
Proof.
  assert (forall n, 0 <= n -> all_chars is_digit (digits 10 64 n "") = true) as Hd by (intros; by apply digits_all).
  assert (forall c, is_digit c = true -> is_number_char c = true) as H1 by (intros c H; unfold is_number_char; by rewrite H).
  assert (forall c, is_digit c = true -> negb (c =? ".")%char = true) as H2.
  { intros c H. destruct (c =? ".")%char eqn:E; [|done]. by apply Ascii.eqb_eq in E as ->. }
  unfold FormatInt. destruct (z <? 0) eqn:E.
  - cbn [all_chars]. assert (0 <= - z) as Hz by lia. specialize (Hd _ Hz).
    split_and!; [by rewrite (all_chars_impl _ _ _ H1 Hd)|by rewrite (all_chars_impl _ _ _ H2 Hd)|done].
  - assert (0 <= z) as Hz by lia. specialize (Hd _ Hz).
    split_and!; [by apply (all_chars_impl _ _ _ H1 Hd)|by apply (all_chars_impl _ _ _ H2 Hd)|].
    apply digits_nonempty. by left.
Qed.

Lemma parse_string_escape s t : parse_string (escape s ++ String "034" t) = Ok (s, t).
Proof.
  induction s as [|c s IH]; [done|]. cbn [escape].
  destruct (c =? "034")%char eqn:Eq; [|destruct (c =? "\")%char eqn:Eb; [|destruct (c =? "010")%char eqn:En]];
    rewrite ?Ascii.eqb_eq in *; subst; cbn [append parse_string].
  1-3: cbn; by rewrite IH.
  rewrite Eq, Eb, IH. done.
Qed.

Lemma span_all p s : all_chars p s = true -> span p s = (s, ""%string).
Proof. induction s as [|c s IH]; [done|]. cbn. rewrite andb_true_iff. intros [-> H]. by rewrite (IH H). Qed.

Lemma append_length a b : (String.length (a ++ b) = String.length a + String.length b)%nat.
Proof. induction a as [|c a IH]; [done|]. cbn. by rewrite IH. Qed.

(** A value's text is not empty, and does not start with a blank. *)
Lemma render_value_head v : canonical_value v ->
  exists c s, render_value v = String c s /\ is_blank c = false /\ (c =? "(")%char = false /\ (c =? ")")%char = false.
Proof.
  destruct v; intros Hv; try done.
  - by eexists _, _.
  - destruct b; by eexists _, _.
  - by eexists _, _.
  - cbn. destruct (number_chars z) as (H & _ & Hne). destruct (FormatInt 10 z) as [|c s]; [done|].
    cbn in H. apply andb_true_iff in H as [H _]. exists c, s. split; [done|].
    unfold is_blank. unfold is_number_char in H.
    split_and!; repeat match goal with |- context [(c =? ?x)%char] => destruct (Ascii.eqb_spec c x) as [->|] end; done.
Qed.

Lemma delim_not_number c : is_delim c = true -> is_number_char c = false /\ is_name_char c = false.
Proof.
  unfold is_delim. rewrite !orb_true_iff, !Ascii.eqb_eq. by intros [[[->| ->]| ->]| ->].
Qed.

Lemma skip_to_head c s : is_blank c = false -> skip_to (String c s) = String c s.
Proof. intros H. unfold skip_to. cbn. by rewrite H. Qed.

Lemma ParseLiteral_number num c t : num <> ""%string -> all_chars is_number_char num = true ->
  all_chars (fun c => negb (c =? ".")%char) num = true -> is_delim c = true ->
  ParseLiteral (num ++ String c t) = (z ← parse_int num; Ok (VInt z, String c t)).
Proof.
  intros Hne Hn Hd Hc. unfold ParseLiteral.
  assert (skip_to (num ++ String c t) = (num ++ String c t)%string) as ->.
  { destruct num as [|d num]; [done|]. cbn in Hn |- *. apply andb_true_iff in Hn as [Hn _].
    apply skip_to_head. unfold is_blank. unfold is_number_char in Hn.
    repeat match goal with |- context [(d =? ?x)%char] => destruct (Ascii.eqb_spec d x) as [->|] end; done. }
  rewrite span_app by (done || by apply delim_not_number).
  destruct num as [|d num]; [done|]. rewrite Hc, span_all by done. done.
Qed.

Lemma ParseLiteral_render v c t : canonical_value v -> is_delim c = true ->
  ParseLiteral (render_value v ++ String c t) = Ok (v, String c t).
Proof.
  intros Hv Hc. destruct v; try done.
  - unfold ParseLiteral, drop_string. cbn. by rewrite substring_all.
  - destruct b; unfold ParseLiteral, drop_string; cbn; by rewrite substring_all.
  - unfold ParseLiteral. cbn. rewrite <- string_app_assoc. cbn. by rewrite parse_string_escape.
  - cbn [render_value]. destruct (number_chars z) as (H & Hd & Hne).
    rewrite ParseLiteral_number by done. unfold parse_int. by rewrite ParseInt_FormatInt by (lia || done).
Qed.

Lemma ParseName_render f c t : f <> ""%string -> all_chars is_name_char f = true -> is_delim c = true ->
  ParseName (f ++ String c t) = Ok (f, String c t).
Proof.
  intros Hne Hf Hc. unfold ParseName.
  assert (skip_to (f ++ String c t) = (f ++ String c t)%string) as ->.
  { destruct f as [|d f]; [done|]. cbn in Hf |- *. apply andb_true_iff in Hf as [Hf _].
    apply skip_to_head. unfold is_blank. unfold is_name_char in Hf.
    repeat match goal with |- context [(d =? ?x)%char] => destruct (Ascii.eqb_spec d x) as [->|] end; done. }
  rewrite span_app by (done || by apply delim_not_number). rewrite Hc.
  destruct (String.eqb_spec f ""); [done|]. done.
Qed.

Lemma ParseAny_blank fuel c s : is_blank c = true -> ParseAny fuel (String c s) = ParseAny fuel s.
Proof. intros H. destruct fuel; [done|]. cbn. by rewrite H. Qed.

Lemma render_args_head l : exists c t, render_args l = String c t /\ is_delim c = true.
Proof. destruct l; by eexists _, _. Qed.

(** What can follow the text of a node: a literal needs a delimiter. *)
Definition may_follow (n : Node) (rest : string) : Prop :=
  match n with Literal _ => exists c t, rest = String c t /\ is_delim c = true | Funcall _ _ => True end.

Definition reads_back (n : Node) : Prop := canonical n -> forall fuel rest, may_follow n rest ->
  (2 * String.length (render n) <= fuel)%nat -> ParseAny fuel (render n ++ rest) = Ok (Some n, rest).

Lemma args_read_back l : Forall reads_back l -> Forall canonical l -> forall fuel rest,
  (2 * String.length (render_args l) + 1 <= fuel)%nat -> ParseArgs fuel (render_args l ++ rest) = Ok (l, rest).
Proof.
  induction l as [|n l IH]; intros Hl Hc fuel rest Hf.
  - cbn in Hf. do 2 (destruct fuel as [|fuel]; [lia|]). done.
  - inversion Hl; inversion Hc; subst. cbn [render_args String.length] in Hf. rewrite append_length in Hf.
    destruct fuel as [|fuel]; [lia|]. cbn [render_args]. cbn [append]. rewrite <- string_app_assoc.
    cbn [ParseArgs]. rewrite !ParseAny_blank by done.
    rewrite H1; [|done| |lia].
    + cbn. rewrite IH by (done || lia). done.
    + destruct (render_args_head l) as (c & t & -> & Hd). destruct n; [|done]. by eexists _, _.
Qed.

Lemma node_read_back n : reads_back n.
Proof.
  induction n as [l|f args IH] using Node_ind'; intros Hc fuel rest Hr Hf; inversion Hc; subst.
  - destruct Hr as (c & t & -> & Hd). cbn [render] in *.
    destruct (render_value_head v H0) as (h & s & Eh & Hb & Ho & Hcl).
    pose proof (ParseLiteral_render v c t H0 Hd) as Hp. rewrite Eh in *. cbn in Hf.
    destruct fuel as [|fuel]; [lia|]. cbn [append ParseAny skip_blank] in *. rewrite Hb, Ho, Hcl, Hp. done.
  - rewrite render_Funcall in *. cbn [String.length] in Hf. rewrite append_length in Hf.
    destruct fuel as [|fuel]; [lia|]. cbn [append]. rewrite <- string_app_assoc. cbn [ParseAny skip_blank].
    change (is_blank "(") with false. change ("(" =? "(")%char with true. cbn iota.
    destruct (render_args_head args) as (c & t & E & Hd). rewrite E. cbn [append].
    rewrite ParseName_render by done. cbn [mbind res_bind].
    change (String c (t ++ rest)) with (String c t ++ rest)%string. rewrite <- E.
    rewrite args_read_back by (done || lia). done.
Qed.

(** A script written in canonical form is read back: every call of functions with names of
    name characters, whose arguments are calls, strings of any characters, integers, truth values
    and null, parses to itself.  In particular the escapes undo what they stand for. *)
Theorem bloks_roundtrip f args : canonical (Funcall f args) ->
  Parse (render (Funcall f args)) = Ok (Funcall f args).
Proof.
  intros Hc. unfold Parse. rewrite <- (string_app_nil_r (render _)) at 2.
  rewrite (node_read_back _ Hc) by (done || lia). done.
Qed.

Definition sample_script : Node :=
  Funcall "bk.action.array.Make"
    [Literal (Some (VStr (String "034" (String "\" (String "010" "a"))))); Literal (Some (VInt (-9223372036854775808)));
     Funcall "f4i" []; Literal (Some (VBool false)); Literal (Some VNull)].

Lemma bloks_roundtrip_witness : canonical sample_script /\ Parse (render sample_script) = Ok sample_script.
Proof.
  assert (canonical sample_script) as H.
  { apply canonical_funcall; [done|reflexivity|].
    repeat apply Forall_cons_2; try apply Forall_nil_2; try (apply canonical_literal; cbn; unfold in_int; try lia; done).
    apply canonical_funcall; [done|reflexivity|apply Forall_nil_2]. }
  split; [exact H|]. apply bloks_roundtrip, H.
Defined.
