(* ===== verification/BloksTree.v ===== *)
(** * BloksTree: the pages of the login flow ([bloks/tree.go], the searches of [bloks/selenium.go])

    A page is a tree of components.  A component's identity, and the way to its parent, is its
    path from the root: a pair per level, of the attribute that holds the child and the place of
    the child in it.  The attributes of a component are a map in the source, which is searched in
    no fixed order: the model fixes one, the order of the list. *)

From S2P Require Import Prelude BloksScript.
From Stdlib Require Import SpecFloat.
#[local] Open Scope string_scope.
#[local] Open Scope Z_scope.
#[local] Open Scope list_scope.

(** ** Data *)

(** A JSON value, or one a bridge passes ([BloksJavascriptValue]). *)
Inductive js :=
| JNull
| JBool (b : bool)
| JStr (s : string)
| JFloat (f : spec_float)
| JInt (z : Z)
| JArr (l : list js)
| JObj (l : list (string * js)).

Inductive Component :=
| Comp (ComponentID : string) (Attributes : list (string * TreeNode))
with TreeNode : Type :=
| TComponent (c : Component)
| TComponentList (l : list Component)
| TLiteral (j : js)
| TScript (AST : Node)
| TScriptSet (Scripts : list (string * Node)).

Definition ComponentID (c : Component) : string := let 'Comp i _ := c in i.
Definition Attributes (c : Component) : list (string * TreeNode) := let 'Comp _ l := c in l.

(** [m[key]] of a map that is a list of keys and values. *)
Fixpoint assoc {A} (key : string) (l : list (string * A)) : option A :=
  match l with
  | [] => None
  | (k, a) :: l => if (k =? key)%string then Some a else assoc key l
  end.

Record Variable_ := { ID : string; Type_ : string; Initial : js; InitialScript : option Node }.

(** A [BloksPayload]: what the program reads of it. *)
Inductive Payload := MkPayload
  (Scripts : list (string * Node)) (Variables : list Variable_) (Embedded : list (string * Payload))
  (Tree : option TreeNode) (Action : option Node).

(** ** Paths *)

Definition path := list (nat * nat).

Definition node_children (n : TreeNode) : list Component :=
  match n with TComponent c => [c] | TComponentList l => l | _ => [] end.

Definition child (c : Component) (step : nat * nat) : option Component :=
  '(_, n) ← Attributes c !! step.1; node_children n !! step.2.

Fixpoint at_path (c : Component) (p : path) : option Component :=
  match p with
  | [] => Some c
  | step :: p => c' ← child c step; at_path c' p
  end.

(** ** Searching *)

Section Find.
Variable pred : Component -> bool.

(** [FindDescendant] of a component, of a tree node: the first match, a component before what
    is below it. *)
Fixpoint FindDescendant (c : Component) : option path :=
  if pred c then Some []
  else match c with
       | Comp _ attrs =>
           (fix go i (l : list (string * TreeNode)) : option path :=
              match l with
              | [] => None
              | (_, n) :: l =>
                  match node_FindDescendant n with
                  | Some (j, p) => Some ((i, j) :: p)
                  | None => go (S i) l
                  end
              end) 0%nat attrs
       end
with node_FindDescendant (n : TreeNode) : option (nat * path) :=
  match n with
  | TComponent c => p ← FindDescendant c; Some (0%nat, p)
  | TComponentList l =>
      (fix go j (l : list Component) : option (nat * path) :=
         match l with
         | [] => None
         | c :: l => match FindDescendant c with Some p => Some (j, p) | None => go (S j) l end
         end) 0%nat l
  | _ => None
  end.

(** [FindDescendants]: what is below a match is not looked at. *)
Fixpoint FindDescendants (c : Component) : list path :=
  if pred c then [[]]
  else match c with
       | Comp _ attrs =>
           (fix go i (l : list (string * TreeNode)) : list path :=
              match l with
              | [] => []
              | (_, n) :: l => map (fun '(j, p) => (i, j) :: p) (node_FindDescendants n) ++ go (S i) l
              end) 0%nat attrs
       end
with node_FindDescendants (n : TreeNode) : list (nat * path) :=
  match n with
  | TComponent c => map (pair 0%nat) (FindDescendants c)
  | TComponentList l =>
      (fix go j (l : list Component) : list (nat * path) :=
         match l with
         | [] => []
         | c :: l => map (pair j) (FindDescendants c) ++ go (S j) l
         end) 0%nat l
  | _ => []
  end.

End Find.

(** The way up from [p]: [p] first, the root last. *)
Fixpoint way_up (p : path) : list path :=
  match p with
  | [] => [[]]
  | step :: p => map (cons step) (way_up p) ++ [[]]
  end.

Fixpoint first_some {A B} (f : A -> option B) (l : list A) : option B :=
  match l with
  | [] => None
  | a :: l => match f a with Some b => Some b | None => first_some f l end
  end.

(** [FindAncestor], the component itself included. *)
Definition FindAncestor (pred : Component -> bool) (root : Component) (p : path) : option path :=
  first_some (fun q => c ← at_path root q; if pred c then Some q else None) (way_up p).

(** [FindCousin]: the first match below the nearest ancestor that has one. *)
Definition FindCousin (pred : Component -> bool) (root : Component) (p : path) : option path :=
  first_some (A := path) (B := path) (fun q => c ← at_path root q; r ← FindDescendant pred c; Some (q ++ r)) (way_up p).

Definition is_button (c : Component) : bool :=
  existsb (fun prop => match assoc prop (Attributes c) with Some _ => true | None => false end)
    ["on_click"; "on_touch_down"; "on_touch_up"].

Definition FindContainingButton : Component -> path -> option path := FindCousin is_button.

(** ** Attributes *)

Definition GetAttribute (c : Component) (name : string) : string :=
  match assoc name (Attributes c) with Some (TLiteral (JStr s)) => s | _ => "" end.

Definition GetScript (c : Component) (name : string) : option Node :=
  match assoc name (Attributes c) with Some (TScript n) => Some n | _ => None end.

Definition GetChildren (c : Component) (name : string) : list Component :=
  match assoc name (Attributes c) with Some (TComponentList l) => l | _ => [] end.

Definition FilterByComponent (compid : string) (c : Component) : bool := (ComponentID c =? compid)%string.

Definition FilterByAttribute (compid attr value : string) (c : Component) : bool :=
  (ComponentID c =? compid)%string && (GetAttribute c attr =? value)%string.

(** [SetTextContent] is for inputs only. *)
Definition takes_text (c : Component) : bool := (ComponentID c =? "bk.components.TextInput")%string.

(** ** Lemmas *)

Section ComponentInd.
Variable P : Component -> Prop.
Hypothesis step : forall i attrs,
  (forall k name n j c, attrs !! k = Some (name, n) -> node_children n !! j = Some c -> P c) -> P (Comp i attrs).

(** Induction on components: the hypothesis is about every child. *)
Lemma Component_children_ind : forall c, P c.
Proof.
  fix IH 1 with (IHn (n : TreeNode) : forall j c, node_children n !! j = Some c -> P c).
  - intros [i attrs]. apply step. induction attrs as [|[name' n'] attrs IHl]; intros [|k] name n j c H Hc; try discriminate H.
    + injection H as _ <-. exact (IHn n' j c Hc).
    + exact (IHl k name n j c H Hc).
  - intros [c'|l|v|a|sc] j c H; try (destruct j; discriminate H).
    + destruct j as [|[|j]]; try discriminate H. injection H as <-. exact (IH c').
    + revert j H. induction l as [|c' l IHl]; intros [|j] H; try discriminate H.
      * injection H as <-. exact (IH c').
      * exact (IHl j H).
Qed.
End ComponentInd.

Section FindSpec.
Context (pred : Component -> bool).

Fixpoint all_attrs (i : nat) (l : list (string * TreeNode)) : list path :=
  match l with
  | [] => []
  | (_, n) :: l => map (fun '(j, p) => (i, j) :: p) (node_FindDescendants pred n) ++ all_attrs (S i) l
  end.

Fixpoint all_list (j : nat) (l : list Component) : list (nat * path) :=
  match l with [] => [] | c :: l => map (pair j) (FindDescendants pred c) ++ all_list (S j) l end.

Lemma FindDescendants_Comp i attrs :
  FindDescendants pred (Comp i attrs) = if pred (Comp i attrs) then [[]] else all_attrs 0 attrs.
Proof. reflexivity. Qed.
Lemma node_FindDescendants_list l : node_FindDescendants pred (TComponentList l) = all_list 0 l.
Proof. reflexivity. Qed.

Lemma elem_of_all_attrs p l : forall i, p ∈ all_attrs i l <->
  exists k name n j q, l !! k = Some (name, n) /\ p = ((i + k)%nat, j) :: q /\ (j, q) ∈ node_FindDescendants pred n.
Proof.
  induction l as [|[name n] l IH]; intros i; cbn [all_attrs].
  - split; [set_solver|]. intros (k & ? & ? & ? & ? & H & _). done.
  - rewrite elem_of_app, IH, list_elem_of_fmap. split.
    + intros [([j q] & -> & H)|(k & name' & n' & j & q & H & -> & Hq)].
      * exists 0%nat, name, n, j, q. rewrite Nat.add_0_r. done.
      * exists (S k), name', n', j, q. rewrite Nat.add_succ_r. done.
    + intros ([|k] & name' & n' & j & q & H & -> & Hq).
      * injection H as <- <-. left. exists (j, q). rewrite Nat.add_0_r. done.
      * right. exists k, name', n', j, q. rewrite Nat.add_succ_r. done.
Qed.

Lemma elem_of_all_list j q l : forall i, (j, q) ∈ all_list i l <->
  exists k c, l !! k = Some c /\ j = (i + k)%nat /\ q ∈ FindDescendants pred c.
Proof.
  induction l as [|c l IH]; intros i; cbn [all_list].
  - split; [set_solver|]. intros (k & ? & H & _). done.
  - rewrite elem_of_app, IH, list_elem_of_fmap. split.
    + intros [(q' & [= -> ->] & H)|(k & c' & H & -> & Hq)].
      * exists 0%nat, c. rewrite Nat.add_0_r. done.
      * exists (S k), c'. rewrite Nat.add_succ_r. done.
    + intros ([|k] & c' & H & -> & Hq).
      * injection H as <-. left. exists q. rewrite Nat.add_0_r. done.
      * right. exists k, c'. rewrite Nat.add_succ_r. done.
Qed.

Lemma elem_of_node j q n : (j, q) ∈ node_FindDescendants pred n <->
  exists c, node_children n !! j = Some c /\ q ∈ FindDescendants pred c.
Proof.
  destruct n as [c|l|v|a|s]; try (split; [cbn; set_solver|by intros (? & ? & _); destruct j]).
  - cbn. rewrite list_elem_of_fmap. split.
    + intros (q' & [= -> ->] & H). by exists c.
    + intros (c' & H & Hq). destruct j as [|[|j]]; try done. injection H as <-. by exists q.
  - rewrite node_FindDescendants_list, elem_of_all_list. cbn. naive_solver.
Qed.

(** [FindDescendants] finds the matches that are not below another match. *)
Lemma elem_of_FindDescendants c : forall p, p ∈ FindDescendants pred c <->
  (exists c', at_path c p = Some c' /\ pred c' = true) /\
  (forall q c', strict prefix q p -> at_path c q = Some c' -> pred c' = false).
Proof.
  induction c as [i attrs IH] using Component_children_ind. intros p.
  rewrite FindDescendants_Comp. destruct (pred (Comp i attrs)) eqn:Ep.
  - rewrite list_elem_of_singleton. split.
    + intros ->. split; [by exists (Comp i attrs)|].
      intros q c' [Hq Hn]. apply prefix_nil_inv in Hq as ->. by destruct Hn.
    + intros [_ H]. destruct p as [|s p]; [done|]. rewrite (H [] (Comp i attrs)) in Ep; [done| |done].
      split; [apply prefix_nil|]. apply prefix_nil_not.
  - rewrite elem_of_all_attrs. split.
    + intros (k & name & n & j & q & Hl & -> & Hq). apply elem_of_node in Hq as (c & Hc & Hq).
      assert (forall r, at_path (Comp i attrs) ((k, j) :: r) = at_path c r) as Hat.
      { intros r. cbn. unfold child. cbn. rewrite Hl. cbn. rewrite Hc. done. }
      apply (IH k name n j c Hl Hc) in Hq as [(c' & Hc' & Hp) Hmin]. cbn [Nat.add]. split.
      * exists c'. by rewrite Hat.
      * intros [|s r] c'' [Hr Hn]; [by intros [= <-]|].
        assert (s = (k, j)) as ->
          by (destruct Hr as [x Hr]; by injection Hr).
        rewrite Hat. apply Hmin. split; [by apply prefix_cons_inv_2 in Hr|].
        intros Hx. apply Hn. by apply prefix_cons.
    + intros [(c' & Hc' & Hp) Hmin]. destruct p as [|[k j] q]; [injection Hc' as <-; congruence|].
      cbn in Hc'. unfold child in Hc'. cbn in Hc'.
      destruct (attrs !! k) as [[name n]|] eqn:Hl; [|done]. cbn in Hc'.
      destruct (node_children n !! j) as [c|] eqn:Hc; [|done]. cbn in Hc'.
      exists k, name, n, j, q. split; [done|]. split; [done|]. apply elem_of_node. exists c. split; [done|].
      apply (IH k name n j c Hl Hc). split; [by exists c'|].
      intros r c'' [Hr Hn] Hat. apply (Hmin ((k, j) :: r)).
      * split; [by apply prefix_cons|]. intros Hx. by apply Hn, (prefix_cons_inv_2 (k, j) (k, j)).
      * cbn. unfold child. cbn. rewrite Hl. cbn. rewrite Hc. done.
Qed.

Fixpoint find_attrs (i : nat) (l : list (string * TreeNode)) : option path :=
  match l with
  | [] => None
  | (_, n) :: l =>
      match node_FindDescendant pred n with Some (j, p) => Some ((i, j) :: p) | None => find_attrs (S i) l end
  end.

Fixpoint find_list (j : nat) (l : list Component) : option (nat * path) :=
  match l with
  | [] => None
  | c :: l => match FindDescendant pred c with Some p => Some (j, p) | None => find_list (S j) l end
  end.

Lemma FindDescendant_Comp i attrs :
  FindDescendant pred (Comp i attrs) = if pred (Comp i attrs) then Some [] else find_attrs 0 attrs.
Proof. reflexivity. Qed.
Lemma node_FindDescendant_list l : node_FindDescendant pred (TComponentList l) = find_list 0 l.
Proof. reflexivity. Qed.

Lemma head_map_app {A B} (f : A -> B) l l' :
  head (map f l ++ l') = match head l with Some a => Some (f a) | None => head l' end.
Proof. by destruct l. Qed.

(** The first match is the first of all matches. *)
Lemma FindDescendant_head c : FindDescendant pred c = head (FindDescendants pred c).
Proof.
  induction c as [i attrs IH] using Component_children_ind.
  rewrite FindDescendant_Comp, FindDescendants_Comp. destruct (pred _); [done|].
  assert (forall k name n, attrs !! k = Some (name, n) ->
    node_FindDescendant pred n = head (node_FindDescendants pred n)) as Hn.
  { intros k name n Hk. specialize (IH k name n). destruct n as [c|l|v|a|s]; try done.
    - cbn. rewrite (IH 0%nat c) by done. by destruct (FindDescendants pred c).
    - rewrite node_FindDescendant_list, node_FindDescendants_list.
      assert (forall j c, l !! j = Some c -> FindDescendant pred c = head (FindDescendants pred c)) as Hl
        by (intros; by apply (IH j)).
      clear -Hl. generalize 0%nat. induction l as [|c l IHl]; intros j; [done|]. cbn.
      rewrite head_map_app, (Hl 0%nat c eq_refl), IHl by (intros k; apply (Hl (S k))). by destruct (head _). }
  clear -Hn. generalize 0%nat. induction attrs as [|[name n] l IHl]; intros j; [done|]. cbn.
  rewrite head_map_app, (Hn 0%nat name n eq_refl), IHl by (intros k; apply (Hn (S k))).
  by destruct (head _) as [[]|].
Qed.

Lemma some_match p : forall c c', at_path c p = Some c' -> pred c' = true -> exists q, q ∈ FindDescendants pred c.
Proof.
  induction p as [|[k j] p IH]; intros [i attrs] c' Hat Hp; rewrite FindDescendants_Comp.
  - injection Hat as ->. rewrite Hp. exists []. set_solver.
  - destruct (pred (Comp i attrs)); [exists []; set_solver|].
    cbn in Hat. unfold child in Hat. cbn in Hat. destruct (attrs !! k) as [[name n]|] eqn:Hl; [|done].
    cbn in Hat. destruct (node_children n !! j) as [c|] eqn:Hc; [|done]. cbn in Hat.
    destruct (IH c c' Hat Hp) as [q Hq]. exists ((k, j) :: q). apply elem_of_all_attrs.
    exists k, name, n, j, q. split_and!; [done..|]. apply elem_of_node. by exists c.
Qed.

Lemma FindDescendant_spec c :
  match FindDescendant pred c with
  | Some p => exists c', at_path c p = Some c' /\ pred c' = true
  | None => forall p c', at_path c p = Some c' -> pred c' = false
  end.
Proof.
  rewrite FindDescendant_head. destruct (FindDescendants pred c) as [|p l] eqn:E; cbn.
  - intros p c' Hat. destruct (pred c') eqn:Hp; [|done]. destruct (some_match p c c' Hat Hp) as [q Hq].
    rewrite E in Hq. set_solver.
  - assert (p ∈ FindDescendants pred c) as Hp by (rewrite E; set_solver).
    by apply elem_of_FindDescendants in Hp as [H _].
Qed.
End FindSpec.

Lemma at_path_app c p q : at_path c (p ++ q) = (c' ← at_path c p; at_path c' q).
Proof. revert c. induction p as [|s p IH]; intros c; [done|]. cbn. destruct (child c s); [apply IH|done]. Qed.

(** [way_up p] lists the prefixes of [p], longest first. *)
Lemma way_up_lookup p k : way_up p !! k = if decide (k <= length p)%nat then Some (take (length p - k) p) else None.
Proof.
  revert k. induction p as [|s p IH]; intros k; cbn [way_up].
  - destruct k; [done|]. rewrite decide_False by (cbn; lia). done.
  - rewrite lookup_app, list_lookup_fmap, IH. cbn [length].
    assert (length (map (cons s) (way_up p)) = S (length p)) as Hlen.
    { rewrite length_map. clear. induction p as [|s p IH]; [done|]. cbn. rewrite length_app, length_map. cbn. lia. }
    case_decide as H.
    + cbn. rewrite decide_True by lia. f_equal. by replace (S (length p) - k)%nat with (S (length p - k)) by lia.
    + cbn. rewrite Hlen. destruct (decide (k = S (length p))) as [->|Hk].
      * rewrite decide_True, !Nat.sub_diag by lia. done.
      * rewrite decide_False by lia. destruct (k - S (length p))%nat eqn:E; [lia|done].
Qed.

Lemma first_some_spec {A B} (f : A -> option B) l :
  match first_some f l with
  | Some b => exists k a, l !! k = Some a /\ f a = Some b /\ forall j a', (j < k)%nat -> l !! j = Some a' -> f a' = None
  | None => forall a, a ∈ l -> f a = None
  end.
Proof.
  induction l as [|a l IH]; cbn; [set_solver|]. destruct (f a) as [b|] eqn:E.
  - exists 0%nat, a. split_and!; [done..|]. lia.
  - destruct (first_some f l) as [b|].
    + destruct IH as (k & a' & Hk & Hf & Hj). exists (S k), a'. split_and!; [done..|].
      intros [|j] a'' Hlt Hl; [by injection Hl as <-|]. apply (Hj j); [lia|done].
    + intros a' [->|H]%elem_of_cons; auto.
Qed.

Section CousinSpec.
Context (pred : Component -> bool) (root : Component).

(** The match below [q], if there is one. *)
Definition below_ancestor (q : path) : option path :=
  c ← at_path root q; r ← FindDescendant pred c; Some (q ++ r).

Lemma FindCousin_first p :
  match FindCousin pred root p with
  | Some b => exists k a, way_up p !! k = Some a /\ below_ancestor a = Some b /\
      forall j a', (j < k)%nat -> way_up p !! j = Some a' -> below_ancestor a' = None
  | None => forall a, a ∈ way_up p -> below_ancestor a = None
  end.
Proof. apply (first_some_spec below_ancestor). Qed.

Lemma below_ancestor_Some q b : below_ancestor q = Some b ->
  exists r c, b = q ++ r /\ at_path root b = Some c /\ pred c = true.
Proof.
  unfold below_ancestor. destruct (at_path root q) as [a|] eqn:Ha; [|done]. cbn.
  pose proof (FindDescendant_spec pred a) as H. destruct (FindDescendant pred a) as [r|]; [|done].
  intros [= <-]. destruct H as (c & Hc & Hp). exists r, c. by rewrite at_path_app, Ha.
Qed.

Lemma below_ancestor_None q r c : below_ancestor q = None -> at_path root (q ++ r) = Some c -> pred c = false.
Proof.
  unfold below_ancestor. rewrite at_path_app. destruct (at_path root q) as [a|]; [|done]. cbn.
  pose proof (FindDescendant_spec pred a) as H. destruct (FindDescendant pred a); [done|]. intros _. apply H.
Qed.

Lemma FindCousin_spec p :
  match FindCousin pred root p with
  | Some q => exists k r b, (k <= length p)%nat /\ q = take k p ++ r /\ at_path root q = Some b /\ pred b = true /\
      forall k' r' b', (k < k' <= length p)%nat -> at_path root (take k' p ++ r') = Some b' -> pred b' = false
  | None => forall q b, at_path root q = Some b -> pred b = false
  end.
Proof.
  pose proof (FindCousin_first p) as H. destruct (FindCousin pred root p) as [q|].
  - destruct H as (i & a & Hi & Hf & Hmin). rewrite way_up_lookup in Hi. case_decide as Hle; [|done].
    injection Hi as <-. apply below_ancestor_Some in Hf as (r & b & -> & Hb & Hp).
    exists (length p - i)%nat, r, b. split_and!; [lia|done..|].
    intros k' r' b' Hk'. apply below_ancestor_None, (Hmin (length p - k')%nat); [lia|].
    rewrite way_up_lookup, decide_True by lia. do 2 f_equal. lia.
  - intros q b. apply (below_ancestor_None []), H, list_elem_of_lookup. exists (length p).
    by rewrite way_up_lookup, decide_True, Nat.sub_diag by lia.
Qed.
End CousinSpec.

(** The button that is tapped for a text is in the page, below the nearest ancestor of the text
    that has a button at all: no button is closer; and there is none only if the page has none. *)
Theorem containing_button_nearest root p :
  match FindContainingButton root p with
  | Some q => exists k r b, (k <= length p)%nat /\ q = take k p ++ r /\ at_path root q = Some b /\ is_button b = true /\
      forall k' r' b', (k < k' <= length p)%nat -> at_path root (take k' p ++ r') = Some b' -> is_button b' = false
  | None => forall q b, at_path root q = Some b -> is_button b = false
  end.
Proof. apply FindCousin_spec. Qed.

Definition sample_page : Component :=
  Comp "root"
    [("children", TComponentList
       [Comp "box" [("on_click", TScript (Funcall "f" [])); ("text", TComponent (Comp "bk.data.TextSpan" [("text", TLiteral (JStr "Log in"))]))];
        Comp "box" [("on_click", TScript (Funcall "g" []))]])].

Example sample_button : FindContainingButton sample_page [(0, 0); (1, 0)]%nat = Some [(0, 0)]%nat.
Proof. reflexivity. Qed.
