(* ===== verification/BloksPages.v ===== *)
(** * BloksPages: decoding pages and giving them their names ([bloks/tree.go], [minify.go], [id.go])

    The server sends a page as JSON, with names made short.  A value of a component's attribute
    is a component, a list of components, a script, a set of scripts or a literal, by its form.
    The JSON parser is a library function: a document is what it makes of a text; the parts of a
    bundle whose decoding is the program's are documents.  The table of names is data of the
    build, a parameter here.  A Go map is a list of keys and values, which is ranged over in the
    order of the list. *)

From Stdlib Require Import Ascii SpecFloat.
From S2P Require Import Prelude Strconv Unicode Text BloksScript BloksTree.
#[local] Open Scope Z_scope.

(** ** Maps *)

Definition has_key {A} (k : string) (l : list (string * A)) : bool := match assoc k l with Some _ => true | None => false end.

(** [m[k] = a] and [delete(m, k)]. *)
Fixpoint put {A} (k : string) (a : A) (l : list (string * A)) : list (string * A) :=
  match l with
  | [] => [(k, a)]
  | (k', a') :: l => if (k' =? k)%string then (k, a) :: l else (k', a') :: put k a l
  end.
Definition del {A} (k : string) (l : list (string * A)) : list (string * A) := List.filter (fun ka => negb (ka.1 =? k)%string) l.

(** The map of an object's members, the last of a name. *)
Fixpoint members {A} (l : list (string * A)) : list (string * A) :=
  match l with [] => [] | (k, a) :: l => if has_key k l then members l else (k, a) :: members l end.

(** ** Decoding *)

Inductive DecodeError :=
| NotOneComponent (ids : list string)
| WrongType
| InComponent (id : string) (e : DecodeError)
| InAttribute (id : string) (e : DecodeError)
| InItem (i : nat) (e : DecodeError)
| NotAComponent (i : nat)
| InScript (text : string).

(** The values of a map, in order, up to the first error. *)
Fixpoint all_values {A} (wrap : string -> DecodeError -> DecodeError) (l : list (string * (A + DecodeError))) : list (string * A) + DecodeError :=
  match l with
  | [] => inl []
  | (k, inr e) :: _ => inr (wrap k e)
  | (k, inl a) :: l => match all_values wrap l with inl r => inl ((k, a) :: r) | inr e => inr e end
  end.

Fixpoint all_items (i : nat) (l : list (TreeNode + DecodeError)) : list Component + DecodeError :=
  match l with
  | [] => inl []
  | inr e :: _ => inr (InItem i e)
  | inl (TComponent c) :: l => match all_items (S i) l with inl r => inl (c :: r) | inr e => inr e end
  | inl _ :: _ => inr (NotAComponent i)
  end.

Definition tab : string := String "009" "".

(** [BloksTreeScript.Parse]; it does not panic ([bloks_parse_total]). *)
Definition parse_script (code : string) : Node + DecodeError :=
  match Parse code with Ok n => inl n | Err e => inr (InScript e) | Halt _ => inr (InScript "") end.

(** [BloksTreeScript.UnmarshalJSON]: [null] leaves the empty text. *)
Definition decode_script (j : js) : Node + DecodeError :=
  match j with JStr s => parse_script s | JNull => parse_script "" | _ => inr WrongType end.

(** A value the library decodes into a map. *)
Definition is_map (j : js) : bool := match j with JNull | JObj _ => true | _ => false end.

(** Keys and scripts in turn; [None] when the array is not one of those. *)
Fixpoint script_pairs (acc : list (string * Node)) (l : list js) : option (list (string * Node) + DecodeError) :=
  match l with
  | [] => Some (inl acc)
  | JStr key :: JStr str :: l =>
      if HasPrefix str tab then
        match parse_script str with inl n => script_pairs (put key n acc) l | inr e => Some (inr e) end
      else None
  | _ => None
  end.

Definition decode_array (l : list js) : TreeNode + DecodeError :=
  if negb (llen l =? 0) && (llen l mod 2 =? 0) then
    match script_pairs [] l with
    | Some (inl set) => inl (TScriptSet set)
    | Some (inr e) => inr e
    | None => inl (TLiteral (JArr l))
    end
  else inl (TLiteral (JArr l)).

Definition decode_string (s : string) : TreeNode + DecodeError :=
  if HasPrefix s tab || HasPrefix s "(" then match parse_script s with inl n => inl (TScript n) | inr e => inr e end
  else inl (TLiteral (JStr s)).

(** [BloksTreeNode.UnmarshalJSON], [BloksTreeComponentList.UnmarshalJSON]; and
    [BloksTreeComponent.UnmarshalJSON], the attributes of a component. *)
Fixpoint decode_node (j : js) : TreeNode + DecodeError :=
  match j with
  | JNull => inr (NotOneComponent [])
  | JObj l =>
      match members (map (fun '(k, v) => (k, decode_component v)) l) with
      | [(id, inl attrs)] => inl (TComponent (Comp id attrs))
      | [(id, inr e)] => inr (InComponent id e)
      | ms => inr (NotOneComponent ms.*1)
      end
  | JArr l =>
      if forallb is_map l then match all_items 0 (map decode_node l) with inl r => inl (TComponentList r) | inr e => inr e end
      else decode_array l
  | JStr s => decode_string s
  | _ => inl (TLiteral j)
  end
with decode_component (j : js) : list (string * TreeNode) + DecodeError :=
  match j with
  | JNull => inl []
  | JObj l => all_values InAttribute (members (map (fun '(k, v) => (k, decode_node v)) l))
  | _ => inr WrongType
  end.

(** ** Names *)

(** The table of names, and the names of a bundle's variables. *)
Record Unminifier := mkUnminifier {
  Functions : gmap string string; Components : gmap string string; Properties : gmap string (gmap string string); Variables : gmap string string
}.

(** [BloksAttributeID.ToInt]: a name of one character is a number. *)
Definition ToInt (i : string) : option Z :=
  match runes i with [c] => if (c <? 32) || (c >? 255) then None else Some (c - 32) | _ => None end.

(** The real name of an attribute of a component. *)
Definition real_attribute (m : Unminifier) (comp : string) (i : string) : option string :=
  match ToInt i with
  | None => None
  | Some idx =>
      match default ∅ (Properties m !! comp) !! FormatInt 10 idx with
      | Some real => if (real =? "")%string then None else Some real
      | None => None
      end
  end.

(** The loop over a map that gives its keys their names. *)
Definition rename_step {A} (m : Unminifier) (comp : string) (l : list (string * A)) (i : string) : list (string * A) :=
  match assoc i l, real_attribute m comp i with Some a, Some real => del i (put real a l) | _, _ => l end.

Definition rename {A} (m : Unminifier) (comp : string) (l : list (string * A)) : list (string * A) := foldl (rename_step m comp) l l.*1.

Definition unminify_script (m : Unminifier) : Node -> Node := BloksScript.Unminify (Functions m) (Variables m).

(** [Unminify] of a node below a component, of a component. *)
Fixpoint unminify_node (m : Unminifier) (parent : string) (n : TreeNode) : TreeNode :=
  match n with
  | TComponent c => TComponent (unminify_component m c)
  | TComponentList l => TComponentList (map (unminify_component m) l)
  | TLiteral j => TLiteral j
  | TScript s => TScript (unminify_script m s)
  | TScriptSet l => TScriptSet (map (fun '(k, s) => (k, unminify_script m s)) (rename m parent l))
  end
with unminify_component (m : Unminifier) (c : Component) : Component :=
  match c with
  | Comp id attrs =>
      let id := real_name (Components m) id in
      Comp id (rename m id (map (fun '(k, n) => (k, unminify_node m id n)) attrs))
  end.

(** ** Bundles *)

Record RawDatum := mkRawDatum { rd_ID : string; rd_Type : string; rd_Name : string; rd_Initial : js; rd_InitialScript : option js }.

(** A bundle before the program decodes its parts; [None] is a nil pointer. *)
Inductive RawBundle := MkRaw
  (ft : list (string * js)) (data : list (option RawDatum)) (embedded : list (option (string * RawBundle)))
  (templates : list (string * js)) (tree action : option js).

(** A variable, with the name the page gives it. *)
Record Datum := mkDatum { variable : Variable_; Name : string }.

Inductive Bundle := MkBundle
  (scripts : list (string * Node)) (vars : list (option Datum)) (embedded : list (option (string * Bundle)))
  (templates : list (string * TreeNode)) (tree : option TreeNode) (action : option Node).

Definition b_scripts (b : Bundle) := let 'MkBundle s _ _ _ _ _ := b in s.
Definition b_vars (b : Bundle) := let 'MkBundle _ v _ _ _ _ := b in v.
Definition b_tree (b : Bundle) := let 'MkBundle _ _ _ _ t _ := b in t.

(** What the interpreter and the browser read of it. *)
Fixpoint payload (b : Bundle) : Payload :=
  match b with
  | MkBundle s v e _ t a =>
      MkPayload s (omap (fmap variable) v)
        ((fix go (l : list (option (string * Bundle))) : list (string * Payload) :=
            match l with [] => [] | None :: l => go l | Some (i, b) :: l => (i, payload b) :: go l end) e) t a
  end.

(** [GetUnminifier]: the variables of the bundle that have a name; it dereferences them all. *)
Fixpoint variable_names (acc : gmap string string) (l : list (option Datum)) : res (gmap string string) :=
  match l with
  | [] => Ok acc
  | None :: _ => Panic
  | Some d :: l => variable_names (if (Name d =? "")%string then acc else <[ID (variable d) := Name d]> acc) l
  end.

Definition GetUnminifier (names : Unminifier) (vars : list (option Datum)) : res Unminifier :=
  v ← variable_names ∅ vars;
  Ok (mkUnminifier (Functions names) (Components names) (Properties names) v).

(** A node that is below no component: the parent of a set of scripts is dereferenced for a key
    of one character. *)
Definition unminify_top (m : Unminifier) (n : TreeNode) : res TreeNode :=
  match n with
  | TScriptSet l => if existsb (fun ks => bool_decide (is_Some (ToInt ks.1))) l then Panic else Ok (unminify_node m "" n)
  | _ => Ok (unminify_node m "" n)
  end.

Fixpoint unminify_templates (m : Unminifier) (l : list (string * TreeNode)) : res (list (string * TreeNode)) :=
  match l with
  | [] => Ok []
  | (k, n) :: l => n ← unminify_top m n; l ← unminify_templates m l; Ok ((k, n) :: l)
  end.

Definition unminify_datum (m : Unminifier) (d : Datum) : Datum :=
  let v := variable d in
  mkDatum {| ID := real_name (Variables m) (ID v); Type_ := Type_ v; Initial := Initial v; InitialScript := unminify_script m <$> InitialScript v |} (Name d).

Fixpoint unminify_vars (m : Unminifier) (l : list (option Datum)) : res (list (option Datum)) :=
  match l with
  | [] => Ok []
  | None :: _ => Panic
  | Some d :: l => r ← unminify_vars m l; Ok (Some (unminify_datum m d) :: r)
  end.

(** [BloksBundle.Unminify], from the variables the bundle has in the end: an embedded bundle has
    those of the bundle it is in, which are the same pointers and get their names anew. *)
Fixpoint unminify_bundle (m : Unminifier) (vars : list (option Datum)) (b : Bundle) {struct b} : res (Bundle * list (option Datum)) :=
  match b with
  | MkBundle s _ e ts t a =>
      vars ← unminify_vars m vars;
      '(e, vars) ← (fix go (vars : list (option Datum)) (l : list (option (string * Bundle))) {struct l} : res (list (option (string * Bundle)) * list (option Datum)) :=
                     match l with
                     | [] => Ok ([], vars)
                     | None :: _ => Panic
                     | Some (i, b) :: l =>
                         '(b, vars) ← unminify_bundle m vars b;
                         '(l, vars) ← go vars l;
                         Ok (Some (i, b) :: l, vars)
                     end) vars e;
      ts ← unminify_templates m ts;
      t ← match t with Some n => n ← unminify_top m n; Ok (Some n) | None => Ok None end;
      Ok (MkBundle (map (fun '(k, n) => (k, unminify_script m n)) s) vars e ts t (unminify_script m <$> a), vars)
  end.

(** Every bundle below points to the variables as they are in the end. *)
Fixpoint share (vars : list (option Datum)) (b : Bundle) : Bundle :=
  match b with
  | MkBundle s _ e ts t a => MkBundle s vars (map (fmap (fun '(i, b) => (i, share vars b))) e) ts t a
  end.

Definition Unminify (m : Unminifier) (b : Bundle) : res Bundle := '(b, vars) ← unminify_bundle m (b_vars b) b; Ok (share vars b).

(** The library goes on after an error, of which the first is reported. *)
Definition both {A B} (x : res (A + DecodeError)) (y : res (B + DecodeError)) : res ((A * B) + DecodeError) :=
  a ← x;
  b ← y;
  Ok (match a, b with inr e, _ | _, inr e => inr e | inl a, inl b => inl (a, b) end).

Definition decode_datum (d : RawDatum) : Datum + DecodeError :=
  match decode_script <$> rd_InitialScript d with
  | Some (inr e) => inr e
  | Some (inl n) => inl (mkDatum {| ID := rd_ID d; Type_ := rd_Type d; Initial := rd_Initial d; InitialScript := Some n |} (rd_Name d))
  | None => inl (mkDatum {| ID := rd_ID d; Type_ := rd_Type d; Initial := rd_Initial d; InitialScript := None |} (rd_Name d))
  end.

Fixpoint decode_data (l : list (option RawDatum)) : list (option Datum) + DecodeError :=
  match l with
  | [] => inl []
  | None :: l => match decode_data l with inl r => inl (None :: r) | inr e => inr e end
  | Some d :: l => match decode_datum d, decode_data l with inr e, _ | _, inr e => inr e | inl d, inl r => inl (Some d :: r) end
  end.

Definition decode_option {A} (f : js -> A + DecodeError) (j : option js) : option A + DecodeError :=
  match j with None => inl None | Some j => match f j with inl a => inl (Some a) | inr e => inr e end end.

(** A map whose values decode themselves: all of them are decoded, the last of a name stays. *)
Definition decode_map {A} (f : js -> A + DecodeError) (l : list (string * js)) : list (string * A) + DecodeError :=
  match all_values (fun _ e => e) (map (fun '(k, j) => (k, f j)) l) with inl r => inl (members r) | inr e => inr e end.

(** [BloksBundle.UnmarshalJSON]. *)
Fixpoint UnmarshalJSON (names : Unminifier) (b : RawBundle) : res (Bundle + DecodeError) :=
  match b with
  | MkRaw ft data emb ts t a =>
      r ← both (Ok (decode_map decode_script ft)) (both (Ok (decode_data data))
            (both ((fix go (l : list (option (string * RawBundle))) : res (list (option (string * Bundle)) + DecodeError) :=
                      match l with
                      | [] => Ok (inl [])
                      | None :: l => r ← go l; Ok (match r with inl r => inl (None :: r) | inr e => inr e end)
                      | Some (i, b) :: l =>
                          r ← both (UnmarshalJSON names b) (go l);
                          Ok (match r with inl (b, l) => inl (Some (i, b) :: l) | inr e => inr e end)
                      end) emb)
               (both (Ok (decode_map decode_node ts)) (both (Ok (decode_option decode_node t)) (Ok (decode_option decode_script a))))));
      match r with
      | inr e => Ok (inr e)
      | inl (s, (v, (e, (ts, (t, a))))) =>
          m ← GetUnminifier names v;
          b ← Unminify m (MkBundle s v e ts t a);
          Ok (inl b)
      end
  end.

(** * Properties *)

Section TreeInd.
Context (P : TreeNode -> Prop) (Q : Component -> Prop).
Context (Hcomp : forall id attrs, Forall (fun kn => P kn.2) attrs -> Q (Comp id attrs)).
Context (Hc : forall c, Q c -> P (TComponent c)) (Hl : forall l, Forall Q l -> P (TComponentList l)).
Context (Hj : forall j, P (TLiteral j)) (Hs : forall s, P (TScript s)) (Hss : forall l, P (TScriptSet l)).

Fixpoint tree_ind (n : TreeNode) : P n :=
  match n with
  | TComponent c => Hc c (component_ind c)
  | TComponentList l => Hl l ((fix go l : Forall Q l := match l with [] => Forall_nil_2 _ | c :: l => Forall_cons_2 _ _ _ (component_ind c) (go l) end) l)
  | TLiteral j => Hj j
  | TScript s => Hs s
  | TScriptSet l => Hss l
  end
with component_ind (c : Component) : Q c :=
  match c with
  | Comp id attrs =>
      Hcomp id attrs ((fix go l : Forall (fun kn => P kn.2) l :=
        match l with [] => Forall_nil_2 _ | (k, n) :: l => Forall_cons_2 (fun kn => P kn.2) (k, n) l (tree_ind n) (go l) end) attrs)
  end.
End TreeInd.

(** ** Maps *)

Lemma has_key_In {A} k (l : list (string * A)) : has_key k l = true <-> k ∈ l.*1.
Proof.
  induction l as [|[k' a] l IH]; [by split; [|intros ?%elem_of_nil]|]. unfold has_key in *. cbn. destruct (String.eqb_spec k' k) as [->|Hk].
  - split; [left|done].
  - rewrite IH. split; [by right|]. intros [->|]%elem_of_cons; done.
Qed.

Lemma members_NoDup {A} (l : list (string * A)) : NoDup l.*1 -> members l = l.
Proof.
  induction l as [|[k a] l IH]; [done|]. cbn. intros [Hk Hl]%NoDup_cons. rewrite IH by done.
  destruct (has_key k l) eqn:E; [|done]. by apply has_key_In in E.
Qed.

Lemma assoc_NoDup {A} k a (l : list (string * A)) : NoDup l.*1 -> (k, a) ∈ l -> assoc k l = Some a.
Proof.
  induction l as [|[k' a'] l IH]; [by intros _ ?%elem_of_nil|]. cbn. intros [Hk Hl]%NoDup_cons [[= <- <-]|H]%elem_of_cons.
  - by rewrite String.eqb_refl.
  - destruct (String.eqb_spec k' k) as [->|]; [|by apply IH]. destruct Hk. apply list_elem_of_fmap. by exists (k, a).
Qed.

Lemma put_new {A} k (a : A) l : k ∉ l.*1 -> put k a l = l ++ [(k, a)].
Proof.
  induction l as [|[k' a'] l IH]; [done|]. cbn. intros [Hk Hl]%not_elem_of_cons. destruct (String.eqb_spec k' k) as [->|]; [done|]. by rewrite IH.
Qed.

Lemma del_cons {A} k k' (a : A) l : del k ((k', a) :: l) = if (k' =? k)%string then del k l else (k', a) :: del k l.
Proof. unfold del. cbn [List.filter fst]. by destruct (k' =? k)%string. Qed.

Lemma del_absent {A} k (l : list (string * A)) : k ∉ l.*1 -> del k l = l.
Proof.
  induction l as [|[k' a] l IH]; [done|]. cbn [fmap list_fmap fst]. intros [Hk Hl]%not_elem_of_cons. rewrite del_cons.
  destruct (String.eqb_spec k' k) as [->|]; [done|]. by rewrite IH.
Qed.

Lemma del_perm {A} k (l l' : list (string * A)) : l ≡ₚ l' -> del k l ≡ₚ del k l'.
Proof.
  induction 1 as [|[k1 a1] l l' H IH|[k1 a1] [k2 a2] l|l1 l2 l3 H1 IH1 H2 IH2]; [done| | |by etrans]; rewrite ?del_cons.
  - destruct (k1 =? k)%string; [done|by constructor].
  - destruct (k1 =? k)%string, (k2 =? k)%string; [done..|constructor].
Qed.

(** ** The loop that renames *)

Definition final (m : Unminifier) (comp i : string) : string := default i (real_attribute m comp i).

(** The real names of attributes are not numbers themselves. *)
Definition proper (m : Unminifier) : Prop :=
  forall comp i real, default ∅ (Properties m !! comp) !! i = Some real -> real <> ""%string -> ToInt real = None.

Lemma real_attribute_proper m comp i real : proper m -> real_attribute m comp i = Some real -> ToInt real = None.
Proof.
  intros Hm H. unfold real_attribute in H. destruct (ToInt i) as [idx|]; [|done]. destruct (_ !! _) as [r|] eqn:E; [|done].
  destruct (String.eqb_spec r ""); [done|]. injection H as <-. by eapply Hm.
Qed.

Lemma real_attribute_none m comp i : ToInt i = None -> real_attribute m comp i = None.
Proof. unfold real_attribute. by intros ->. Qed.

Lemma rename_foldl {A} m comp (l : list (string * A)) : rename m comp l = foldl (rename_step m comp) l l.*1.
Proof. reflexivity. Qed.

Definition renamed {A} (m : Unminifier) (comp : string) (l : list (string * A)) : list (string * A) := (fun ka => (final m comp ka.1, ka.2)) <$> l.

Lemma rename_step_perm {A} m comp k (a : A) l rest : proper m -> l ≡ₚ (k, a) :: rest -> NoDup (k :: rest.*1) ->
  (final m comp k = k \/ final m comp k ∉ rest.*1) -> rename_step m comp l k ≡ₚ (final m comp k, a) :: rest.
Proof.
  intros Hm Hl Hd Hf. assert (NoDup l.*1) as Hn by by rewrite Hl. unfold rename_step.
  rewrite (assoc_NoDup k a) by (try done; rewrite Hl; left). unfold final in *. destruct (real_attribute m comp k) as [real|] eqn:E; cbn in *; [|done].
  assert (real <> k) as Hne.
  { intros ->. apply real_attribute_proper in E as E'; [|done]. by rewrite (real_attribute_none _ _ _ E') in E. }
  destruct Hf as [Hf|Hf]; [done|]. apply NoDup_cons in Hd as [Hk Hd].
  assert (real ∉ l.*1) as Hr by (rewrite Hl; cbn; by apply not_elem_of_cons). rewrite put_new by done.
  rewrite (del_perm k _ ((k, a) :: (real, a) :: rest)) by (rewrite Hl; cbn; by rewrite <- Permutation_cons_append).
  rewrite del_cons, String.eqb_refl, del_cons. destruct (String.eqb_spec real k); [done|]. by rewrite del_absent.
Qed.

Lemma rename_loop {A} m comp (todo : list (string * A)) : forall done_ l, proper m ->
  NoDup (renamed m comp (done_ ++ todo)).*1 -> NoDup (renamed m comp done_ ++ todo).*1 -> l ≡ₚ renamed m comp done_ ++ todo ->
  foldl (rename_step m comp) l todo.*1 ≡ₚ renamed m comp (done_ ++ todo).
Proof.
  induction todo as [|[k a] todo IH]; intros ds l Hm Hd Hn Hl; [by rewrite app_nil_r in *|]. cbn [fmap list_fmap foldl fst].
  assert (Hp : (k, a) :: renamed m comp ds ++ todo ≡ₚ renamed m comp ds ++ (k, a) :: todo) by apply Permutation_middle.
  assert (NoDup (k :: (renamed m comp ds ++ todo).*1)) as Hn' by (rewrite <- Hp in Hn; exact Hn).
  assert (final m comp k = k \/ final m comp k ∉ (renamed m comp ds ++ todo).*1) as Hf.
  { destruct (decide (final m comp k = k)) as [|Hne]; [by left|right]. rewrite fmap_app. intros [H|H]%elem_of_app.
    - revert Hd. unfold renamed. rewrite fmap_app, fmap_app, NoDup_app. intros (_ & Hx & _). eapply Hx; [exact H|]. cbn. left.
    - apply list_elem_of_fmap in H as ([k' a'] & E & H). cbn in E.
      assert (final m comp k' = k') as Ek.
      { unfold final in *. destruct (real_attribute m comp k) as [r|] eqn:Er; [|done]. cbn in *. subst r.
        apply real_attribute_proper in Er; [|done]. by rewrite (real_attribute_none _ _ _ Er). }
      revert Hd. unfold renamed. rewrite fmap_app, fmap_app, NoDup_app. intros (_ & _ & Hx). cbn in Hx. apply NoDup_cons in Hx as [Hx _].
      apply Hx. rewrite E, <- Ek, <- list_fmap_compose. apply list_elem_of_fmap. by exists (k', a'). }
  assert (Hp' : renamed m comp (ds ++ [(k, a)]) ++ todo ≡ₚ (final m comp k, a) :: renamed m comp ds ++ todo).
  { unfold renamed. rewrite fmap_app, <- app_assoc. symmetry. apply Permutation_middle. }
  rewrite cons_middle, app_assoc. apply IH; [done|by rewrite <- app_assoc| |].
  - rewrite Hp'. cbn [fmap list_fmap fst]. apply NoDup_cons in Hn' as [H1 H2]. constructor; [|done]. by destruct Hf as [->|Hf].
  - rewrite Hp'. by apply rename_step_perm; [|rewrite Hl, Hp|..].
Qed.

Lemma rename_renamed {A} m comp (l : list (string * A)) : proper m -> NoDup l.*1 -> NoDup (renamed m comp l).*1 -> rename m comp l ≡ₚ renamed m comp l.
Proof. intros Hm Hl Hd. rewrite rename_foldl. by apply (rename_loop m comp l []). Qed.

(** C35. A component gets its real name and its attributes theirs, those of that name: nothing is
    lost and nothing else changes, as long as no two attributes get one name. *)
Theorem attributes_get_their_names m id attrs (Hm : proper m) (Hd : NoDup attrs.*1)
    (Hr : NoDup (final m (real_name (Components m) id) <$> attrs.*1)) :
  let comp := real_name (Components m) id in
  let c := unminify_component m (Comp id attrs) in
  ComponentID c = comp /\
  Attributes c ≡ₚ (fun kn => (final m comp kn.1, unminify_node m comp kn.2)) <$> attrs /\
  (forall k n, (k, n) ∈ attrs -> assoc (final m comp k) (Attributes c) = Some (unminify_node m comp n)).
Proof.
  cbv zeta. set (comp := real_name _ id) in *. cbn [unminify_component ComponentID Attributes]. fold comp. split; [done|].
  set (l := map _ attrs). assert (l = (fun kn => (kn.1, unminify_node m comp kn.2)) <$> attrs) as El by (apply map_ext; by intros []).
  assert (l.*1 = attrs.*1) as Ek by (rewrite El, <- list_fmap_compose; by apply list_fmap_ext; intros ? []).
  assert (Hf : (renamed m comp l).*1 = final m comp <$> attrs.*1).
  { unfold renamed. rewrite <- Ek, <- !list_fmap_compose. by apply list_fmap_ext. }
  assert (rename m comp l ≡ₚ (fun kn => (final m comp kn.1, unminify_node m comp kn.2)) <$> attrs) as Hp.
  { rewrite rename_renamed by (rewrite ?Ek, ?Hf; done). unfold renamed. by rewrite El, <- list_fmap_compose. }
  split; [done|]. intros k n H. apply assoc_NoDup.
  - rewrite Hp, <- list_fmap_compose. change (NoDup ((final m comp ∘ fst) <$> attrs)). by rewrite list_fmap_compose.
  - rewrite Hp. apply list_elem_of_fmap. by exists (k, n).
Qed.

(** ** Naming twice *)

(** Real names are not short names of others. *)
Definition closed (m : Unminifier) : Prop :=
  proper m /\ (forall names, names ∈ [Functions m; Components m; Variables m] -> forall i, real_name names (real_name names i) = real_name names i).

Lemma script_idempotent m s : closed m -> unminify_script m (unminify_script m s) = unminify_script m s.
Proof.
  intros [_ Hc]. unfold unminify_script. induction s as [l|f args IH] using Node_ind'.
  - destruct l as [[]|]; try done. cbn. rewrite Hc; [done|]. set_solver.
  - cbn. rewrite Hc by set_solver. f_equal. rewrite map_map. apply map_ext_in. intros x Hx. rewrite Forall_forall in IH. apply IH. by apply list_elem_of_In.
Qed.

Lemma put_keys {A} k (a : A) l k' : k' ∈ (put k a l).*1 -> k' = k \/ k' ∈ l.*1.
Proof.
  induction l as [|[k1 a1] l IH]; cbn; [intros [->|H]%elem_of_cons; auto|]. destruct (String.eqb_spec k1 k) as [->|Hk]; cbn.
  - intros [->|H]%elem_of_cons; [by left|]. right. by right.
  - intros [->|H]%elem_of_cons; [right; left|]. destruct (IH H) as [->|Hi]; [by left|]. right. by right.
Qed.

Lemma del_keys {A} k (l : list (string * A)) k' : k' ∈ (del k l).*1 -> k' <> k /\ k' ∈ l.*1.
Proof.
  induction l as [|[k1 a1] l IH]; [by intros ?%elem_of_nil|]. rewrite del_cons. cbn [fmap list_fmap fst].
  destruct (String.eqb_spec k1 k) as [->|Hk].
  - intros H. destruct (IH H) as [Hi1 Hi2]. split; [done|by right].
  - cbn. intros [->|H]%elem_of_cons; [split; [done|left]|]. destruct (IH H) as [Hi1 Hi2]. split; [done|by right].
Qed.

Lemma rename_done {A} m comp (todo : list string) : forall l : list (string * A), proper m ->
  (forall k, k ∈ l.*1 -> real_attribute m comp k = None \/ k ∈ todo) ->
  forall k, k ∈ (foldl (rename_step m comp) l todo).*1 -> real_attribute m comp k = None.
Proof.
  induction todo as [|i todo IH]; intros l Hm Hl; cbn [foldl].
  - intros k Hk. destruct (Hl k Hk) as [|[]%elem_of_nil]. done.
  - apply IH; [done|]. intros k Hk. unfold rename_step in Hk. destruct (assoc i l) as [a|] eqn:Ea; cycle 1.
    { destruct (Hl k Hk) as [|[->|]%elem_of_cons]; auto. apply has_key_In in Hk. unfold has_key in Hk. by rewrite Ea in Hk. }
    destruct (real_attribute m comp i) as [real|] eqn:Er.
    + apply del_keys in Hk as [Hne Hk]. apply put_keys in Hk as [->|Hk].
      * left. apply real_attribute_none. by eapply real_attribute_proper.
      * destruct (Hl k Hk) as [|[->|]%elem_of_cons]; auto. done.
    + destruct (Hl k Hk) as [|[->|]%elem_of_cons]; auto.
Qed.

Lemma rename_all_done {A} m comp (l : list (string * A)) : (forall k, k ∈ l.*1 -> real_attribute m comp k = None) -> rename m comp l = l.
Proof.
  rewrite rename_foldl. intros H. assert (forall todo, (forall k, k ∈ todo -> real_attribute m comp k = None) -> foldl (rename_step m comp) l todo = l) as Hx; [|by apply Hx].
  induction todo as [|i todo IH]; [done|]. intros Ht. cbn [foldl]. assert (rename_step m comp l i = l) as ->.
  { unfold rename_step. rewrite (Ht i) by left. by destruct (assoc i l). }
  apply IH. intros k Hk. apply Ht. by right.
Qed.

Lemma rename_map {A B} m comp (f : A -> B) (l : list (string * A)) :
  rename m comp (prod_map id f <$> l) = prod_map id f <$> rename m comp l.
Proof.
  rewrite !rename_foldl. rewrite <- list_fmap_compose. change (fst ∘ prod_map id f) with (fun x : string * A => id x.1).
  change ((fun x : string * A => id x.1) <$> l) with (l.*1). generalize (l.*1) as todo. intros todo. revert l.
  induction todo as [|i todo IH]; [done|]. intros l. cbn [foldl]. rewrite <- IH. f_equal. unfold rename_step.
  assert (forall l : list (string * A), assoc i (prod_map id f <$> l) = f <$> assoc i l) as ->.
  { clear. induction l as [|[k a] l IH]; [done|]. cbn. by destruct (k =? i)%string. }
  destruct (assoc i l) as [a|]; [|done]. cbn. destruct (real_attribute m comp i) as [real|]; [|done].
  assert (forall l : list (string * A), put real (f a) (prod_map id f <$> l) = prod_map id f <$> put real a l) as ->.
  { clear. induction l as [|[k a'] l IH]; [done|]. cbn. destruct (k =? real)%string; [done|]. cbn. by rewrite IH. }
  generalize (put real a l). clear. unfold del. induction l as [|[k a'] l IH]; [done|]. cbn. destruct (k =? i)%string; [done|]. cbn. by rewrite IH.
Qed.

Definition idempotent {A} (f : A -> A) (a : A) : Prop := f (f a) = f a.

Lemma names_idempotent {A} m comp (f : A -> A) (l : list (string * A)) : proper m -> Forall (fun ka => idempotent f ka.2) l ->
  rename m comp (prod_map id f <$> rename m comp (prod_map id f <$> l)) = rename m comp (prod_map id f <$> l).
Proof.
  intros Hm Hl. rewrite <- rename_map. rewrite <- list_fmap_compose.
  replace (prod_map id f ∘ prod_map id f <$> l) with (prod_map id f <$> l).
  - apply rename_all_done. rewrite rename_foldl. apply rename_done; [done|]. auto.
  - apply list_fmap_ext. intros i [k a] H. cbn. apply Forall_lookup_1 with (i := i) (x := (k, a)) in Hl; [|done]. unfold id. f_equal. symmetry. exact Hl.
Qed.

Lemma map_prod_map {A B} (f : A -> B) (l : list (string * A)) : map (fun '(k, a) => (k, f a)) l = prod_map id f <$> l.
Proof. apply map_ext. by intros []. Qed.

Lemma map_idempotent {A} (f : A -> A) l : Forall (idempotent f) l -> map f (map f l) = map f l.
Proof. induction 1 as [|a l H Hl IH]; [done|]. cbn. by rewrite H, IH. Qed.

Lemma node_idempotent m (H : closed m) : forall n parent, idempotent (unminify_node m parent) n.
Proof.
  intros n. apply (tree_ind (fun n => forall parent, idempotent (unminify_node m parent) n) (fun c => idempotent (unminify_component m) c)); unfold idempotent.
  - intros id attrs IH. cbn [unminify_component]. destruct H as [Hm Hc]. rewrite (Hc (Components m)) by set_solver. f_equal.
    rewrite !map_prod_map. apply names_idempotent; [done|]. eapply Forall_impl; [exact IH|]. intros [k x] Hx. apply Hx.
  - intros c IH parent. cbn [unminify_node]. by rewrite IH.
  - intros l IH parent. cbn [unminify_node]. f_equal. by apply map_idempotent.
  - done.
  - intros s parent. cbn [unminify_node]. f_equal. by apply script_idempotent.
  - intros l parent. cbn [unminify_node]. f_equal. rewrite !map_prod_map, rename_map, (rename_all_done m parent (rename m parent l)).
    + rewrite <- list_fmap_compose. apply list_fmap_ext. intros i [k s] _. cbn. unfold id. f_equal. by apply script_idempotent.
    + rewrite rename_foldl. apply rename_done; [by destruct H|]. auto.
Qed.

Lemma top_idempotent m n n' : closed m -> unminify_top m n = Ok n' -> unminify_top m n' = Ok n'.
Proof.
  intros H E. assert (n' = unminify_node m "" n) as -> by (destruct n; cbn in E |- *; try destruct (existsb _ _); congruence).
  assert (forall x, match x with TScriptSet l => forall k, k ∈ l.*1 -> ToInt k = None | _ => True end -> unminify_top m x = Ok (unminify_node m "" x)) as Hx.
  { intros x Hx. destruct x as [| | | |l]; try reflexivity. cbn. destruct (existsb _ _) eqn:Ex; [|reflexivity].
    apply existsb_exists in Ex as ([k s] & Hk & Hb). apply bool_decide_eq_true in Hb. cbn in Hb. rewrite Hx in Hb; [by destruct Hb|].
    apply list_elem_of_fmap. exists (k, s). split; [done|]. by apply list_elem_of_In. }
  rewrite Hx; [f_equal; apply (node_idempotent m H n "")|]. destruct n as [| | | |l]; try exact I. cbn in E |- *. destruct (existsb _ _) eqn:Ex; [done|].
  assert (forall k, k ∈ l.*1 -> ToInt k = None) as Hl.
  { intros k ([k' s] & -> & Hk)%list_elem_of_fmap. destruct (ToInt k') eqn:Ek; [|by cbn]. exfalso. rewrite <- not_true_iff_false in Ex. apply Ex.
    apply existsb_exists. exists (k', s). split; [by apply list_elem_of_In|]. apply bool_decide_true. cbn. by rewrite Ek. }
  rewrite map_prod_map, rename_all_done by (intros k Hk; apply real_attribute_none; auto). rewrite <- list_fmap_compose. exact Hl.
Qed.

Section BundleInd.
Context (P : Bundle -> Prop) (step : forall s v e ts t a, Forall (fun x => forall i b, x = Some (i, b) -> P b) e -> P (MkBundle s v e ts t a)).

Fixpoint bundle_ind (b : Bundle) : P b :=
  match b with
  | MkBundle s v e ts t a =>
      step s v e ts t a ((fix go l : Forall (fun x => forall i b, x = Some (i, b) -> P b) l :=
        match l with
        | [] => Forall_nil_2 _
        | x :: l => Forall_cons_2 _ x l (match x return forall i b, x = Some (i, b) -> P b with
                                         | Some (j, c) => fun i b E => match E in _ = y return match y with Some (_, b) => P b | None => True end with eq_refl => bundle_ind c end
                                         | None => fun i b E => match E in _ = y return match y with Some _ => P b | None => True end with eq_refl => I end
                                         end) (go l)
        end) e)
  end.
End BundleInd.

Lemma vars_idempotent m : closed m -> forall l l', unminify_vars m l = Ok l' -> unminify_vars m l' = Ok l'.
Proof.
  intros H. induction l as [|[d|] l IH]; intros l'; cbn; [by intros [= <-]| |done].
  destruct (unminify_vars m l) as [r| |]; [|done..]. intros [= <-]. cbn. rewrite (IH r eq_refl). cbn. do 3 f_equal.
  unfold unminify_datum. cbn. destruct H as [Hm Hc]. rewrite (Hc (Variables m)) by set_solver. f_equal. f_equal.
  destruct (InitialScript (variable d)) as [s|]; [|done]. cbn. by rewrite script_idempotent by done.
Qed.

Lemma templates_idempotent m : closed m -> forall l l', unminify_templates m l = Ok l' -> unminify_templates m l' = Ok l'.
Proof.
  intros H. induction l as [|[k n] l IH]; intros l'; cbn; [by intros [= <-]|].
  destruct (unminify_top m n) as [n'| |] eqn:En; [|done..]. cbn. destruct (unminify_templates m l) as [r| |]; [|done..]. intros [= <-]. cbn.
  rewrite (top_idempotent m n n') by done. cbn. by rewrite (IH r eq_refl).
Qed.

(** The loop over the embedded bundles. *)
Definition unminify_embedded (m : Unminifier) := fix go (vars : list (option Datum)) (l : list (option (string * Bundle))) {struct l} : res (list (option (string * Bundle)) * list (option Datum)) :=
  match l with
  | [] => Ok ([], vars)
  | None :: _ => Panic
  | Some (i, b) :: l =>
      '(b, vars) ← unminify_bundle m vars b;
      '(l, vars) ← go vars l;
      Ok (Some (i, b) :: l, vars)
  end.

Lemma bundle_idempotent m : closed m -> forall b vars, unminify_vars m vars = Ok vars ->
  forall b' v, unminify_bundle m vars b = Ok (b', v) -> v = vars /\ share vars b' = b' /\ unminify_bundle m vars b' = Ok (b', vars).
Proof.
  intros H. induction b as [s v0 e ts t a IH] using bundle_ind. intros vars Hv b' v. cbn [unminify_bundle]. rewrite Hv. cbn [mbind res_bind].
  fold (unminify_embedded m). 
  assert (forall l' v', unminify_embedded m vars e = Ok (l', v') -> v' = vars /\ map (fmap (fun '(i, b) => (i, share vars b))) l' = l' /\ unminify_embedded m vars l' = Ok (l', vars)) as He.
  { induction IH as [|x l Hx Hl IHl]; cbn; [by intros l' v' [= <- <-]|]. intros l' v'. destruct x as [[i b]|]; [|done].
    destruct (unminify_bundle m vars b) as [[b1 v1]| |] eqn:Eb; [|done..]. cbn. destruct (Hx i b eq_refl vars Hv b1 v1 Eb) as (-> & Hs & Hu).
    destruct (unminify_embedded m vars l) as [[l1 v2]| |] eqn:El; [|done..]. cbn. intros [= <- <-]. destruct (IHl l1 v2 eq_refl) as (-> & Hs' & Hu').
    split; [done|]. cbn. rewrite Hs, Hs', Hu. cbn. rewrite Hu'. done. }
  destruct (unminify_embedded m vars e) as [[e' v']| |] eqn:Ee; [|done..]. destruct (He e' v' eq_refl) as (-> & Hs & Hu). cbn [mbind res_bind].
  destruct (unminify_templates m ts) as [ts'| |] eqn:Et; [|done..]. cbn [mbind res_bind].
  destruct (match t with Some n => n ← unminify_top m n; Ok (Some n) | None => Ok None end) as [t'| |] eqn:Ett; [|done..]. cbn [mbind res_bind].
  intros [= <- <-]. split; [done|]. split; [cbn [share]; by rewrite Hs|]. cbn [unminify_bundle]. rewrite Hv. cbn [mbind res_bind]. fold (unminify_embedded m).
  rewrite Hu. cbn [mbind res_bind]. rewrite (templates_idempotent m H ts ts' Et). cbn [mbind res_bind].
  assert (match t' with Some n => n ← unminify_top m n; Ok (Some n) | None => Ok None end = Ok t') as ->.
  { destruct t as [n|]; [|by injection Ett as <-]. destruct (unminify_top m n) as [n'| |] eqn:En; [|done..]. injection Ett as <-. by rewrite (top_idempotent m n n'). }
  cbn [mbind res_bind]. do 3 f_equal.
  - rewrite map_map. apply map_ext. intros [k x]. f_equal. by apply script_idempotent.
  - destruct a as [x|]; [|done]. cbn. f_equal. by apply script_idempotent.
Qed.

(** Naming a page twice is naming it once, as long as real names are no short names: so the
    embedded bundles, which are named on their own and again with the bundle they are in, and the
    variables, which are named with every bundle that shares them, are none the worse for it. *)
Theorem naming_is_idempotent m b b' (Hm : closed m) (H : Unminify m b = Ok b') : Unminify m b' = Ok b'.
Proof.
  unfold Unminify in H. destruct (unminify_bundle m (b_vars b) b) as [[b1 v1]| |] eqn:E; [|done..]. injection H as <-.
  assert (exists v, unminify_vars m (b_vars b) = Ok v) as [v Hv].
  { destruct b. cbn [unminify_bundle] in E. destruct (unminify_vars m _) as [v| |]; [by exists v|done..]. }
  assert (unminify_bundle m v b = Ok (b1, v1)) as E1.
  { destruct b. cbn [unminify_bundle] in *. by rewrite Hv in E; rewrite (vars_idempotent m Hm _ _ Hv). }
  destruct (bundle_idempotent m Hm b v (vars_idempotent m Hm _ _ Hv) b1 v1 E1) as (-> & Hs & Hu).
  rewrite Hs. assert (b_vars b1 = v) as Hb by (destruct b1; cbn in Hs; injection Hs; auto).
  unfold Unminify. rewrite Hb, Hu. cbn. by rewrite Hs.
Qed.

(** ** Writing pages *)

(** The document of a node: a script is its text, in a set after a tab. *)
Fixpoint encode_node (n : TreeNode) : js :=
  match n with
  | TComponent c => JObj [encode_component c]
  | TComponentList l => JArr (map (fun c => JObj [encode_component c]) l)
  | TLiteral j => j
  | TScript s => JStr (render s)
  | TScriptSet l => JArr (l ≫= (fun ks => [JStr ks.1; JStr (tab ++ render ks.2)]))
  end
with encode_component (c : Component) : string * js :=
  match c with Comp id attrs => (id, JObj (map (fun '(k, n) => (k, encode_node n)) attrs)) end.

(** A literal that is none of the other forms. *)
Definition plain (j : js) : bool :=
  match j with
  | JNull | JObj _ => false
  | JStr s => negb (HasPrefix s tab || HasPrefix s "(")
  | JArr l => negb (forallb is_map l) && match decode_array l with inl (TLiteral _) => true | _ => false end
  | _ => true
  end.

Definition call (n : Node) : Prop := canonical n /\ exists f args, n = Funcall f args.

(** A node that has a document. *)
Inductive writable : TreeNode -> Prop :=
| writable_component c : writable_comp c -> writable (TComponent c)
| writable_list l : Forall writable_comp l -> writable (TComponentList l)
| writable_literal j : plain j = true -> writable (TLiteral j)
| writable_script s : call s -> writable (TScript s)
| writable_set l : l <> [] -> NoDup l.*1 -> Forall (fun ks => call ks.2) l -> writable (TScriptSet l)
with writable_comp : Component -> Prop :=
| writable_attrs id attrs : NoDup attrs.*1 -> Forall (fun kn => writable kn.2) attrs -> writable_comp (Comp id attrs).

Lemma parse_render s : call s -> parse_script (render s) = inl s.
Proof. intros [Hc (f & args & ->)]. unfold parse_script. by rewrite bloks_roundtrip. Qed.

Lemma parse_tab_render s : call s -> parse_script (tab ++ render s) = inl s.
Proof.
  intros [Hc (f & args & ->)]. unfold parse_script, Parse. change (tab ++ render (Funcall f args))%string with (String "009" (render (Funcall f args))). rewrite ParseAny_blank by done.
  rewrite <- (string_app_nil_r (render _)) at 2. rewrite (node_read_back _ Hc); [done..|]. cbn [String.length]. lia.
Qed.

Lemma all_values_inl {A} wrap (l : list (string * A)) : all_values wrap (map (fun '(k, a) => (k, inl a)) l) = inl l.
Proof. induction l as [|[k a] l IH]; [done|]. cbn. by rewrite IH. Qed.

Lemma all_items_inl l : forall i, all_items i (map (fun c => inl (TComponent c)) l) = inl l.
Proof. induction l as [|c l IH]; [done|]. intros i. cbn. by rewrite IH. Qed.

Lemma script_pairs_read l : forall acc, Forall (fun ks => call ks.2) l -> NoDup (acc ++ l).*1 ->
  script_pairs acc (l ≫= (fun ks => [JStr ks.1; JStr (tab ++ render ks.2)])) = Some (inl (acc ++ l)).
Proof.
  induction l as [|[k s] l IH]; intros acc Hl Hd; [cbn; by rewrite app_nil_r|]. apply Forall_cons in Hl as [Hs Hl].
  change (script_pairs acc (JStr k :: JStr (tab ++ render s) :: (l ≫= (fun ks => [JStr ks.1; JStr (tab ++ render ks.2)]))) = Some (inl (acc ++ (k, s) :: l))).
  cbn [script_pairs]. replace (HasPrefix (tab ++ render s) tab) with true by (symmetry; apply HasPrefix_app).
  rewrite parse_tab_render by done. rewrite put_new.
  - rewrite IH by (try done; by rewrite <- app_assoc). by rewrite <- app_assoc.
  - rewrite fmap_app, NoDup_app in Hd. destruct Hd as (_ & Hx & _). intros H. eapply Hx; [exact H|]. cbn. left.
Qed.

Lemma pairs_length (l : list (string * Node)) : length (l ≫= (fun ks => [JStr ks.1; JStr (tab ++ render ks.2)])) = (2 * length l)%nat.
Proof. induction l as [|x l IH]; [done|]. cbn in *. rewrite IH. lia. Qed.

Lemma render_call s : call s -> exists t, render s = String "(" t.
Proof. intros [_ (f & args & ->)]. rewrite render_Funcall. by eexists. Qed.

(** C28. A page that has a document ([writable]) is read as it was written: components with their
    attributes, of distinct names, lists of them, scripts that are calls in canonical form, sets
    of such scripts, not empty and of distinct names, and the literals that are no other form
    ([plain]).  Not among them are the literals the reader takes for something else or refuses:
    null and objects, texts that begin with a parenthesis or a tab, lists of nothing but maps and
    lists that read as sets of scripts. *)
Theorem page_is_read_back n (H : writable n) : decode_node (encode_node n) = inl n.
Proof.
  revert n H. apply (tree_ind (fun n => writable n -> decode_node (encode_node n) = inl n)
    (fun c => writable_comp c -> decode_node (JObj [encode_component c]) = inl (TComponent c))).
  - intros id attrs IH Hw. inversion Hw as [? ? Hd Ha]; subst.
    assert (decode_component (JObj (map (fun '(k, n) => (k, encode_node n)) attrs)) = inl attrs) as E; [|cbn [encode_component decode_node map members has_key assoc]; by rewrite E].
    cbn [decode_component]. rewrite map_map.
    assert (map (fun x => let '(k, v) := let '(k, n) := x in (k, encode_node n) in (k, decode_node v)) attrs = map (fun '(k, a) => (k, inl a : TreeNode + DecodeError)) attrs) as ->.
    { apply map_ext_in. intros [k n] Hin. apply list_elem_of_In in Hin. rewrite Forall_forall in IH, Ha. f_equal. by apply (IH _ Hin), (Ha _ Hin). }
    rewrite members_NoDup, all_values_inl; [done|]. erewrite <- list_fmap_compose, list_fmap_ext; [exact Hd|]. by intros ? [].
  - intros c IH Hw. inversion Hw; subst. by apply IH.
  - intros l IH Hw. inversion Hw as [|? Hl| | |]; subst. cbn [encode_node decode_node].
    assert (forallb is_map (map (fun c => JObj [encode_component c]) l) = true) as -> by (clear; induction l; done).
    assert (map decode_node (map (fun c => JObj [encode_component c]) l) = map (fun c => inl (TComponent c)) l) as ->; [|by rewrite all_items_inl].
    rewrite map_map. apply map_ext_in. intros c Hin. apply list_elem_of_In in Hin. rewrite Forall_forall in IH, Hl. by apply (IH _ Hin), Hl.
  - intros j Hw. inversion Hw as [| |? Hj| |]; subst. cbn [encode_node]. destruct j; cbn [plain] in Hj; try done.
    + cbn. unfold decode_string. by apply negb_true_iff in Hj as ->.
    + apply andb_prop in Hj as [H1 H2]. apply negb_true_iff in H1. cbn [decode_node]. rewrite H1. unfold decode_array in *.
      destruct (_ && _); [|done]. destruct (script_pairs [] l) as [[]|]; done.
  - intros s Hw. inversion Hw as [| | |? Hs|]; subst. cbn [encode_node decode_node]. unfold decode_string. rewrite parse_render by done.
    destruct (render_call s Hs) as [t ->]. assert (HasPrefix (String "(" t) "(" = true) as -> by (by destruct t). by rewrite orb_true_r.
  - intros l Hw. inversion Hw as [| | | |? Hne Hd Hl]; subst. cbn [encode_node decode_node].
    destruct l as [|[k s] l]; [done|]. set (j := _ ≫= _).
    assert (forallb is_map j = false) as -> by done. 
    assert (llen j = llen ((k, s) :: l) * 2) as Ej by (unfold j; rewrite pairs_length; lia). unfold decode_array. rewrite Ej, Z_mod_mult.
    assert ((llen ((k, s) :: l) * 2 =? 0) = false) as -> by (apply Z.eqb_neq; cbn [length]; lia). cbn [negb andb Z.eqb].
    unfold j. by rewrite script_pairs_read.
Qed.

(** * Examples *)

Definition demo_names : Unminifier := mkUnminifier {["abc" := "bk.action.core.If"]}%string {["x" := "bk.components.Text"]}%string
  {["bk.components.Text" := {["3" := "on_load"; "4" := "text"]}]}%string ∅.

(** A text, whose attribute of index 4 is the character 36. *)
Definition demo_text : js := JObj [("x", JObj [("$", JStr "Hello"); ("id", JStr "1"); ("#", JArr [JStr "a"; JStr (tab ++ "(abc 1)")])])]%string.
Definition demo_component : Component := Comp "x" [("$", TLiteral (JStr "Hello")); ("id", TLiteral (JStr "1")); ("#", TScriptSet [("a", Funcall "abc" [Literal (Some (VInt 1))])])]%string.

Example demo_decoded : decode_node demo_text = inl (TComponent demo_component).
Proof. vm_compute. reflexivity. Qed.

Example demo_named : unminify_component demo_names demo_component =
  Comp "bk.components.Text" [("id", TLiteral (JStr "1")); ("text", TLiteral (JStr "Hello")); ("on_load", TScriptSet [("a", Funcall "bk.action.core.If" [Literal (Some (VInt 1))])])]%string.
Proof. vm_compute. reflexivity. Qed.

(** A value that is [null] or an empty object makes the page unreadable; so does a text that
    begins with a parenthesis and is no script, and one that could be a script is taken for it. *)
Example null_is_refused : decode_node (JObj [("x", JObj [("a", JNull)])])%string = inr (InComponent "x" (InAttribute "a" (NotOneComponent []))).
Proof. vm_compute. reflexivity. Qed.
Example phone_number_is_refused : exists e, decode_node (JStr "(+1) 555 0100") = inr (InScript e).
Proof. eexists. vm_compute. reflexivity. Qed.
Example word_is_a_script : decode_node (JStr "(optional)") = inl (TScript (Funcall "optional" [])).
Proof. vm_compute. reflexivity. Qed.

(** A page that is only a set of scripts has no parent to look names up at. *)
Example top_set_panics : unminify_top demo_names (TScriptSet [("#", Funcall "abc" [])]%string) = Panic.
Proof. vm_compute. reflexivity. Qed.

Lemma demo_proper : proper demo_names.
Proof.
  intros comp i real. cbn [Properties demo_names]. destruct (decide (comp = "bk.components.Text"%string)) as [->|Hc].
  - rewrite lookup_singleton_eq. cbn [default id]. unfold id. intros H _. apply lookup_insert_Some in H as [[<- <-]|[_ H]]; [reflexivity|].
    apply lookup_singleton_Some in H as [<- <-]. reflexivity.
  - rewrite lookup_singleton_ne by congruence. cbn. by rewrite lookup_empty.
Qed.

Lemma attributes_get_their_names_witness :
  assoc "text" (Attributes (unminify_component demo_names demo_component)) = Some (TLiteral (JStr "Hello")).
Proof.
  refine (proj2 (proj2 (attributes_get_their_names demo_names "x" (Attributes demo_component) demo_proper _ _)) "$"%string (TLiteral (JStr "Hello")) _).
  - by apply (bool_decide_unpack _); vm_compute.
  - by apply (bool_decide_unpack _); vm_compute.
  - left.
Defined.

Lemma real_name_singleton i0 r0 i : i0 <> r0 -> real_name {[i0 := r0]} (real_name {[i0 := r0]} i) = real_name {[i0 := r0]} i.
Proof.
  intros Hne. unfold real_name. destruct (decide (i = i0)) as [->|Hi].
  - rewrite lookup_singleton_eq. destruct (String.eqb_spec r0 "") as [->|].
    + by rewrite lookup_singleton_eq.
    + by rewrite lookup_singleton_ne.
  - rewrite (lookup_singleton_ne i0 i) by congruence. cbn. by rewrite (lookup_singleton_ne i0 i) by congruence.
Qed.

Definition demo_bundle : Bundle :=
  MkBundle [("s", Funcall "abc" [])]%string [Some (mkDatum {| ID := "v"; Type_ := "ls"; Initial := JNull; InitialScript := None |} "email")]%string
    [Some ("e", MkBundle [] [] [] [] (Some (TComponent demo_component)) None)]%string [] (Some (TComponent demo_component)) None.
Definition demo_unminifier : Unminifier := mkUnminifier (Functions demo_names) (Components demo_names) (Properties demo_names) {["v" := "email"]}%string.

Lemma demo_closed : closed demo_unminifier.
Proof.
  split; [exact demo_proper|]. intros names H i. repeat (apply elem_of_cons in H as [->|H]; [by apply real_name_singleton|]). by apply elem_of_nil in H.
Qed.

Lemma naming_is_idempotent_witness : exists b, Unminify demo_unminifier demo_bundle = Ok b /\ Unminify demo_unminifier b = Ok b.
Proof.
  destruct (Unminify demo_unminifier demo_bundle) as [b|e|h] eqn:E; [|exfalso; vm_compute in E; discriminate E..].
  exists b. split; [done|]. exact (naming_is_idempotent demo_unminifier demo_bundle b demo_closed E).
Defined.

Lemma page_is_read_back_witness : writable (TComponent demo_component) /\ decode_node (encode_node (TComponent demo_component)) = inl (TComponent demo_component).
Proof.
  assert (writable (TComponent demo_component)) as H.
  { constructor. constructor; [by apply (bool_decide_unpack _); vm_compute|].
    repeat apply Forall_cons_2; [by constructor..| |apply Forall_nil_2]. constructor; [done|apply NoDup_singleton|].
    constructor; [|constructor]. split; [|by eexists _, _]. constructor; [done|done|]. constructor; [|constructor]. constructor. by vm_compute. }
  split; [exact H|]. exact (page_is_read_back _ H).
Defined.
