(* ===== verification/HttpMethods.v ===== *)
(** * HttpMethods: what the client asks over HTTP
    ([http.go], [graphql.go], [instagram.go], [facebook.go], [messengerlite.go], [media.go])

    A request is made by [MakeRequest] ([Http.MakeRequest], which is one request here: it blocks,
    and what other goroutines do to the client meanwhile is in the state it leaves).  Header
    names are written in lower case, which is how they are compared.  The decoders of answers,
    the random identifiers and the image library are parameters or requests. *)

From Stdlib Require Import Ascii SpecFloat.
From S2P Require Import Prelude Strconv Text Url Base64 Lightspeed TableKinds TableThreads TableMessages Tables WrapMessages Events.
From S2P Require Import Json.
From S2P Require Import Cookies Errors Endpoints.
From S2P Require Http BloksPages PageModules.
From S2P Require Import Interaction Stateful.
#[local] Open Scope Z_scope.

(** ** Texts *)

Definition lower_char (c : ascii) : ascii :=
  let x := nat_of_ascii c in if (65 <=? x)%nat && (x <=? 90)%nat then ascii_of_nat (x + 32) else c.
Fixpoint ToLower (s : string) : string := match s with "" => "" | String c s => String (lower_char c) (ToLower s) end%string.
Definition upper_char (c : ascii) : ascii :=
  let x := nat_of_ascii c in if (97 <=? x)%nat && (x <=? 122)%nat then ascii_of_nat (x - 32) else c.
Fixpoint ToUpper (s : string) : string := match s with "" => "" | String c s => String (upper_char c) (ToUpper s) end%string.

(** [strconv.FormatInt(n, 36)] of a number that is not negative. *)
Definition digit36 (d : Z) : ascii := ascii_of_nat (Z.to_nat (if d <? 10 then 48 + d else 87 + d)).
Fixpoint digits36 (fuel : nat) (n : Z) (acc : string) : string :=
  match fuel with
  | O => acc
  | S fuel => if n <? 36 then String (digit36 n) acc else digits36 fuel (n / 36) (String (digit36 (n mod 36)) acc)
  end.
Definition FormatInt36 (n : Z) : string := digits36 64 n "".

(** [%v] of a list of strings. *)
Definition show_list (l : list string) : string := "[" ++ String.concat " " l ++ "]".

(** ** User agents ([useragent.go]) *)

Definition DPR : string := "1".
Definition ChromeVersion : string := "138".
Definition ChromeVersionFull : string := ChromeVersion ++ ".0.7204.92".
Definition UserAgent : string := "Mozilla/5.0 (X11; Linux x86_64) AppleWebKit/537.36 (KHTML, like Gecko) Chrome/" ++ ChromeVersion ++ ".0.0.0 Safari/537.36".
Definition brand (name version : string) : string := in_quotes name ++ ";v=" ++ in_quotes version.
Definition SecCHUserAgent : string := brand "Chromium" ChromeVersion ++ ", " ++ brand "Google Chrome" ChromeVersion ++ ", " ++ brand "Not-A.Brand" "99".
Definition SecCHFullVersionList : string :=
  brand "Chromium" ChromeVersionFull ++ ", " ++ brand "Google Chrome" ChromeVersionFull ++ ", " ++ brand "Not-A.Brand" "99.0.0.0".
Definition OSName : string := "Linux".
Definition OSVersion : string := "6.8.0".
Definition SecCHPlatform : string := in_quotes OSName.
Definition SecCHPlatformVersion : string := in_quotes OSVersion.
Definition SecCHMobile : string := "?0".
Definition SecCHModel : string := in_quotes "".
Definition SecCHPrefersColorScheme : string := "light".
Definition AndroidUserAgent : string :=
  "Instagram 404.0.0.48.76 Android (35/15; 420dpi; 1080x2400; Google/google; Pixel 7; panther; panther; en_US; 813748018)".
Definition IGAndroidAppID : string := "567067343352427".
Definition MessengerLiteAppId : string := "437626316973788".
Definition MessengerLiteAccessToken : string := MessengerLiteAppId ++ "|3e1a7033ae7883bfb31f35375bad9c7a".
Definition MessengerLiteUserAgent : string :=
  "LightSpeed [FBAN/MessengerLiteForiOS;FBAV/545.0.0.12.108;FBBV/865730320;FBDV/iPhone10,3;FBMD/iPhone;FBSN/iOS;FBSV/16.7.2;FBSS/3;FBCR/;FBID/phone;FBLC/en_US;FBOP/0]".

(** ** Documents ([graphql/docs.go], [bloks/docs.go]) *)

Record GraphQLDoc := mkDoc { DocId : string; ClientDocID : string; CallerClass : string; FriendlyName : string; Jsessw : string }.

Definition GraphQLDocs : gmap string GraphQLDoc := list_to_map
  [("LSGraphQLRequest", mkDoc "7357432314358409" "" "RelayModern" "LSPlatformGraphQLLightspeedRequestQuery" "");
   ("LSGraphQLRequestIG", mkDoc "6195354443842040" "" "RelayModern" "LSPlatformGraphQLLightspeedRequestForIGDQuery" "");
   ("MAWCatQuery", mkDoc "23999698219677129" "" "RelayModern" "MAWCatQuery" "1");
   ("IGDeleteThread", mkDoc "23915602751379354" "" "RelayModern" "IGDInboxInfoDeleteThreadDialogOffMsysMutation" "");
   ("IGEditGroupTitle", mkDoc "29088580780787855" "" "RelayModern" "IGDEditThreadNameDialogOffMsysMutation" "");
   ("IGUpdateGroupAvatar", mkDoc "" "5576567352987267181917649770" "RelayModern" "IGDirectUpdateThreadImageMutation" "");
   ("IGRemoveGroupAvatar", mkDoc "" "50027745118339199321503686240" "RelayModern" "IGDirectRemoveThreadImageMutation" "")]%string.

Record BloksDoc := mkBloksDoc { bd_Name : string; bd_ClientDocID : string; RootField : string }.
Definition BloksActionDoc : BloksDoc := mkBloksDoc "MSGBloksActionRootQuery" "15577570885164679244236938926" "bloks_action".
Definition BloksAppDoc : BloksDoc := mkBloksDoc "MSGBloksAppRootQuery" "28114594639880354457944446921" "bloks_app".

(** The variables of a document. *)
Definition delete_thread_variables (ThreadID : string) : value :=
  struct [field "thread_fbid" ThreadID; field "should_move_future_requests_to_spam" false].
Definition edit_title_variables (ThreadID NewTitle : string) : value := struct [field "thread_fbid" ThreadID; field "new_title" NewTitle].
Definition edit_avatar_variables (ThreadID OfflineThreadingID AttachmentFBID : string) : value :=
  struct [field "ig_thread_igid" ThreadID; field "offline_threading_id" OfflineThreadingID; omitempty "attachment_fbid" AttachmentFBID].

Record LSVariables := mkLSVariables { Database : Z; EpochID : Z; lsv_SyncParams : option value; LastAppliedCursor : value; Version : Z }.
Definition ls_variables (v : LSVariables) : value :=
  struct [omitempty "database" (Database v); field "epoch_id" (EpochID v);
          match lsv_SyncParams v with Some p => field "sync_params" p | None => [] end;
          field "last_applied_cursor" (LastAppliedCursor v); omitempty "version" (Version v)].
Definition ls_request (DeviceID : string) (RequestID : Z) (RequestPayload : string) (RequestType : Z) : value :=
  struct [omitempty "deviceId" DeviceID; field "includeChatVisibility" false; field "requestId" RequestID;
          omitempty "requestPayload" RequestPayload; field "requestType" RequestType].

(** ** The client *)

(** What a page told of the site; [Pr] is the number as it is printed. *)
Record Site := mkSite {
  UserID : string; AppID : string; HasteSession : string; Pr : string; Hsi : string; SpinR : Z; SpinB : string; SpinT : Z;
  ConnectionClass : string; WebSessionID : string; Dyn : string; Csr : string; CometReq : string; DTSGToken : string; Jazoest : string;
  LSDToken : string; RoutingNamespace : string; ClientID : string
}.

Record WClient := mkWClient { platform : Platform; site : Site; cookies : option Cookies; graphQLRequests : Z; lsRequests : Z }.

Definition count_graphQL (c : WClient) : WClient := mkWClient (platform c) (site c) (cookies c) (graphQLRequests c + 1) (lsRequests c).
Definition count_ls (c : WClient) : WClient := mkWClient (platform c) (site c) (cookies c) (graphQLRequests c) (lsRequests c + 1).
Definition set_cookies (j : Cookies) (c : WClient) : WClient := mkWClient (platform c) (site c) (Some j) (graphQLRequests c) (lsRequests c).

(** A response: its status, its cookie lines and its claim header. *)
Record WResponse := mkWResponse { StatusCode : Z; CookieLines : list (Z * HTTPCookie); WWWClaim : string }.

Variant WReq := WMake (rq : Http.Request) | WUUID | WRandom (n : Z) | WEpochID | WSleep (ns : Z).
Definition wanswer (q : WReq) : Type :=
  match q with
  | WMake _ => (WResponse * string) + error
  | WUUID | WRandom _ => string
  | WEpochID => Z
  | WSleep _ => unit
  end.

Abbreviation WM := (SM WClient wanswer).

Definition of_res {A} (r : res A) : WM A :=
  match r with Ok a => mret a | Err e => sthrow e | Halt HDiverge => spin | Halt _ => spanic end.

Definition wblock (q : WReq) : WM (wanswer q) := Stateful.block q.
Definition wtell (q : WReq) : WM (wanswer q) := Stateful.tell q.

(** Go's [if err != nil]. *)
Definition bind_ok {A B} (m : WM (A + error)) (f : A -> WM (B + error)) : WM (B + error) :=
  r ← m; match r with inl a => f a | inr e => mret (inr e) end.
#[local] Notation "x ⇐ m ; f" := (bind_ok m (fun x => f)) (at level 20, m at level 100, f at level 200).
Definition fail {A} (e : error) : WM (A + error) := mret (inr e).
Definition wrap {A} (text : string) (m : WM (A + error)) : WM (A + error) :=
  r ← m; mret match r with inl a => inl a | inr e => inr (Wrap text e) end.

Definition bad_status (r : WResponse) : bool := (StatusCode r >=? 300) || (StatusCode r <? 200).

(** [GetEndpoint] *)
Definition GetEndpoint (name : string) : WM string :=
  p ← gets platform;
  match selectedEndpoints p !! name with Some e => mret e | None => spanic end.

(** [UpdateFromResponse] of the client's cookies, which must be there. *)
Definition update_cookies (r : WResponse) : WM unit :=
  j ← gets cookies;
  match j with
  | None => spanic
  | Some j => j ← of_res (UpdateFromResponse (CookieLines r) (WWWClaim r) j); modify (set_cookies j)
  end.

(** ** Queries *)

(** An [HttpQuery], by the names of its fields in the address; a field that is not there is
    empty, and empty ones are left out. *)
Definition HttpQuery : Type := gmap string string.
Definition qset (k v : string) (q : HttpQuery) : HttpQuery := if (v =? "")%string then delete k q else <[k := v]> q.
Definition qsets (l : list (string * string)) (q : HttpQuery) : HttpQuery := foldl (fun q kv => qset kv.1 kv.2 q) q l.

(** [query.Values(q).Encode()] *)
Definition form (q : HttpQuery) : string := Values_Encode (map_to_list q).

Definition site_query (c : WClient) : HttpQuery :=
  let s := site c in
  qsets (app [("__user", UserID s); ("__a", "1"); ("__req", FormatInt36 (graphQLRequests c)); ("__hs", HasteSession s); ("dpr", Pr s);
          ("__ccg", ConnectionClass s); ("__rev", FormatInt 10 (SpinR s)); ("__s", WebSessionID s); ("__hsi", Hsi s); ("__dyn", Dyn s);
          ("__csr", Csr s); ("__comet_req", CometReq s); ("fb_dtsg", DTSGToken s); ("jazoest", Jazoest s); ("lsd", LSDToken s);
          ("__spin_r", FormatInt 10 (SpinR s)); ("__spin_b", SpinB s); ("__spin_t", FormatInt 10 (SpinT s))]
         (if IsInstagram (platform c) then [("__d", "www"); ("__jssesw", "1")] else [("__aaid", "0")]))%string ∅.

Definition newHTTPQuery : WM HttpQuery := modify count_graphQL;; gets site_query.

(** [url.Values.Encode] of values with several entries a key. *)
Definition Values_Encode_all (l : list (string * string)) : string :=
  String.concat "&" ((fun kv => QueryEscape kv.1 ++ "=" ++ QueryEscape kv.2)%string <$>
    ((sort_keys ((fun k => (k, ""%string)) <$> remove_dups l.*1)).*1 ≫= (fun k => List.filter (fun kv => (kv.1 =? k)%string) l))).

(** ** Headers *)

Definition Header : Type := gmap string string.
Definition hset (k v : string) (h : Header) : Header := <[ToLower k := v]> h.
Definition hsets (l : list (string * string)) (h : Header) : Header := foldl (fun h kv => hset kv.1 kv.2 h) h l.

Definition addFacebookHeaders (c : WClient) (h : Header) : Header :=
  if negb (LSDToken (site c) =? "")%string then hset "x-fb-lsd" (LSDToken (site c)) h else h.

(** The cookies are dereferenced. *)
Definition addInstagramHeaders (c : WClient) (h : Header) : res Header :=
  match cookies c with
  | None => Panic
  | Some j =>
      let csrfToken := Get IGCookieCSRFToken j in
      let mid := Get IGCookieMachineID j in
      let h := if negb (csrfToken =? "")%string then hset "x-csrftoken" csrfToken h else h in
      let h := if negb (mid =? "")%string then hset "x-mid" mid h else h in
      let h := if negb (IGWWWClaim j =? "")%string then hset "x-ig-www-claim" (IGWWWClaim j) h else h in
      Ok (hset "x-ig-app-id" (AppID (site c)) h)
  end.

Definition browser_headers : Header := hsets
  [("accept", "text/html,application/xhtml+xml,application/xml;q=0.9,image/avif,image/webp,image/apng,*/*;q=0.8,application/signed-exchange;v=b3;q=0.7");
   ("accept-language", "en-US,en;q=0.9"); ("dpr", DPR); ("user-agent", UserAgent); ("sec-ch-ua", SecCHUserAgent);
   ("sec-ch-ua-platform", SecCHPlatform); ("sec-ch-prefers-color-scheme", SecCHPrefersColorScheme);
   ("sec-ch-ua-full-version-list", SecCHFullVersionList); ("sec-ch-ua-mobile", SecCHMobile); ("sec-ch-ua-model", SecCHModel);
   ("sec-ch-ua-platform-version", SecCHPlatformVersion)]%string ∅.

Section HttpMethods.
(** The text of a Cookie header, whose order is that of a Go map. *)
Context (cookie_text : Cookies -> string).

Definition buildHeaders (withCookies isSecFetchDocument : bool) (c : WClient) : res Header :=
  h ← (if isSecFetchDocument then
         Ok (hsets [("sec-fetch-dest", "document"); ("sec-fetch-mode", "navigate"); ("sec-fetch-site", "none"); ("sec-fetch-user", "?1");
                    ("upgrade-insecure-requests", "1")]%string browser_headers)
       else
         let h := addFacebookHeaders c browser_headers in
         if negb (IsMessenger (platform c)) then addInstagramHeaders c h else Ok h);
  Ok match cookies c with
     | Some j =>
         if withCookies then
           let h := if negb (cookie_text j =? "")%string then hset "cookie" (cookie_text j) h else h in
           hset "x-asbd-id" "129477" (hset "viewport-width" (GetViewports j).1 h)
         else h
     | None => h
     end.

Definition headers_with (l : list (string * string)) : WM Header :=
  h ← gets (buildHeaders true false);
  h ← of_res h;
  mret (hsets l h).

Definition make (url method : string) (h : Header) (payload contentType : string) : WM ((WResponse * string) + error) :=
  wblock (WMake (Http.mkRequest url method h payload contentType)).

Definition FORM : string := "application/x-www-form-urlencoded".

(** [makeRequestAnalyticsHeader] *)
Definition analytics : string :=
  Marshal (struct [field "network_tags" (struct [field "product" MessengerLiteAppId; field "purpose" "fetch"%string;
                                                 field "request_category" "graphql"%string; field "retry_attempt" "0"%string])]).

Definition buildMessengerLiteHeaders : Header := hsets
  [("user-agent", MessengerLiteUserAgent); ("x-fb-http-engine", "Tigon+iOS"); ("accept", "*/*"); ("priority", "u=3, i");
   ("accept-language", "en-US,en;q=0.9"); ("x-fb-request-analytics-tags", analytics)]%string ∅.

(** ** GraphQL ([graphql.go]) *)

Definition antiJSPrefix : string := "for (;;);".

Definition graphql_query (doc : GraphQLDoc) (variables : value) (q : HttpQuery) : HttpQuery :=
  qsets [("fb_api_caller_class", CallerClass doc); ("fb_api_req_friendly_name", FriendlyName doc); ("variables", Marshal variables);
         ("server_timestamps", "true");
         (if negb (ClientDocID doc =? "") then ("client_doc_id", ClientDocID doc) else ("doc_id", DocId doc));
         ("__jssesw", Jsessw doc)]%string q.

(** The answer, without the prefix it has; its cookies are taken over. *)
Definition makeGraphQLRequest (name : string) (variables : value) : WM ((WResponse * string) + error) :=
  match GraphQLDocs !! name with
  | None => fail (OtherError ("could not find graphql doc by the name of: " ++ name))
  | Some doc =>
      q ← newHTTPQuery;
      let q := graphql_query doc variables q in
      base ← GetEndpoint "base_url";
      messages ← GetEndpoint "messages";
      h ← headers_with [("x-fb-friendly-name", FriendlyName doc); ("sec-fetch-dest", "empty"); ("sec-fetch-mode", "cors");
                        ("sec-fetch-site", "same-origin"); ("origin", base); ("referer", messages ++ "/")]%string;
      url ← GetEndpoint "graphql";
      r ⇐ make url "POST" h (form q) FORM;
      update_cookies r.1;;
      mret (inl (r.1, TrimPrefix r.2 antiJSPrefix))
  end.

(** The answer of a LightSpeed request: [None] is [null]; the errors of the query may be nil. *)
Record LSAnswer := mkLSAnswer { ls_Error : ErrorResponse; ls_Errors : option (list (string * list string)); ls_Data : option PageModules.LSQuery }.

(** A failure, or the errors of the query joined; no errors joined are no failure. *)
Variant LSFailure := LSFailed (e : error) | LSErrors (l : list error).

Context (U_lsanswer : string -> option LSAnswer + string) (U_lightspeed : string -> option json + string).
Context (now : nat -> Z) (slack : nat -> nat) (fmt_float : spec_float -> string).

(** The program and its procedures, of the first of the two places it may be in. *)
Definition web_request (q : PageModules.LSQuery) : option PageModules.LightspeedWebRequest :=
  match PageModules.ForIG q with Some r => Some r | None => PageModules.ForViewer q end.

(** The program is run on tables of its own. *)
Definition run_program (r : PageModules.LightspeedWebRequest) : WM (option tables + LSFailure) :=
  match U_lightspeed (PageModules.ls_Payload r) with
  | inr e => mret (inr (LSFailed (Wrap "failed to unmarshal LSRequest lightspeed payload into lightspeed.LightSpeedData: " (OtherError e))))
  | inl None => spanic
  | inl (Some steps) =>
      x ← of_res (Decode (ToMap (PageModules.Dependencies r)) LSTable now slack fmt_float (jsize steps) steps (NewLightSpeedDecoder ∅));
      mret (inl (Some (table x.2)))
  end.

Definition ls_answer (body : string) : WM (option tables + LSFailure) :=
  match U_lsanswer body with
  | inr e => mret (inr (LSFailed (Wrap "failed to unmarshal LSRequest response bytes into LSPlatformGraphQLLightspeedRequestQuery struct: " (OtherError e))))
  | inl None => spanic
  | inl (Some a) =>
      match ls_Data a with
      | None => mret (inr (LSFailed (if negb (ErrorCode (ls_Error a) =? 0) then Wrap "graphql error " (ResponseError (ls_Error a))
                                     else OtherError "graphql request didn't return data")))
      | Some q =>
          match web_request q with
          | Some r => run_program r
          | None =>
              mret match ls_Errors a with
                   | Some [] => inl None
                   | Some l => inr (LSErrors ((fun e => GraphQLError e.1 e.2) <$> l))
                   | None => inr (LSFailed (OtherError "graphql request didn't return LS data"))
                   end
          end
      end
  end.

Definition makeLSRequest (variables : LSVariables) (reqType : Z) : WM (option tables + LSFailure) :=
  c ← gets (fun c => c);
  let lsVariables := ls_request (ClientID (site c)) (lsRequests c) (Marshal (ls_variables variables)) reqType in
  modify count_ls;;
  r ← makeGraphQLRequest (if IsMessenger (platform c) then "LSGraphQLRequest" else "LSGraphQLRequestIG") lsVariables;
  match r with
  | inr e => mret (inr (LSFailed e))
  | inl (_, respBody) => ls_answer respBody
  end.

(** ** Bloks pages ([graphql.go]) *)

(** The errors of an answer, by their summaries, and the page it has as a text. *)
Record BloksAnswer := mkBloksAnswer { summaries : list string; bundle_tree : option string; bundle_action : option string }.

Variant BloksFailure := BloksFailed (e : error) | BloksUnreadable (e : BloksPages.DecodeError).

Context (U_bloks : string -> BloksAnswer + string) (U_bundle : string -> BloksPages.RawBundle + string) (names : BloksPages.Unminifier).

Definition bloks_answer (body : string) : WM (BloksPages.Bundle + BloksFailure) :=
  match U_bloks body with
  | inr e => mret (inr (BloksFailed (Wrap "parsing outer bloks payload: " (OtherError e))))
  | inl a =>
      match summaries a with
      | _ :: _ => mret (inr (BloksFailed (OtherError ("bloks error: " ++ String.concat "; " (summaries a)))))
      | [] =>
          let innerData := default (default ""%string (bundle_tree a)) (bundle_action a) in
          if (innerData =? "")%string then mret (inr (BloksFailed (OtherError "couldn't find inner bloks payload")))
          else
            match U_bundle innerData with
            | inr e => mret (inr (BloksFailed (Wrap "parsing inner bloks payload: " (OtherError e))))
            | inl raw =>
                b ← of_res (BloksPages.UnmarshalJSON names raw);
                mret match b with inl b => inl b | inr e => inr (BloksUnreadable e) end
            end
      end
  end.

(** [variables] is a document with its app id. *)
Definition MakeBloksRequest (doc : BloksDoc) (appID : string) (variables : value) : WM (BloksPages.Bundle + BloksFailure) :=
  let q := qsets [("method", "post"); ("pretty", "false"); ("format", "json"); ("server_timestamps", "true"); ("locale", "en_US");
                  ("purpose", "fetch"); ("fb_api_req_friendly_name", bd_Name doc ++ "-" ++ appID); ("client_doc_id", bd_ClientDocID doc);
                  ("enable_canonical_naming", "true"); ("enable_canonical_variable_overrides", "true");
                  ("enable_canonical_naming_ambiguous_type_prefixing", "true"); ("variables", Marshal variables)]%string ∅ in
  uuid ← wtell WUUID;
  let h := hsets [("x-fb-friendly-name", bd_Name doc ++ "-" ++ appID); ("x-root-field-name", RootField doc);
                  ("x-graphql-request-purpose", "fetch"); ("x-graphql-client-library", "pando"); ("x-fb-client-ip", "True");
                  ("x-fb-server-cluster", "True"); ("x-fb-conn-uuid-client", ReplaceAll uuid "-" ""); ("x-fb-http-engine", "Tigon/MNS/TCP");
                  ("x-fb-rmd", "fail=Server:INVALID_MAP,Default:INVALID_MAP;v=;ip=;tkn=;reqTime=0;recvTime=0");
                  ("Authorization", "OAuth " ++ MessengerLiteAccessToken)]%string buildMessengerLiteHeaders in
  url ← GetEndpoint "graph_graphql";
  r ← make url "POST" h (form q) FORM;
  match r with
  | inr e => mret (inr (BloksFailed e))
  | inl (_, respData) => bloks_answer respData
  end.

(** ** Messenger Lite ([messengerlite.go]) *)

Record KeyResponse := mkKeyResponse { KeyID : Z; PublicKey : string }.
Context (U_key : string -> KeyResponse + string).

Definition FetchLightspeedKey (deviceID machineID : string) : WM (KeyResponse + error) :=
  endpoint ← GetEndpoint "pwd_key";
  let query := Values_Encode [("access_token", MessengerLiteAccessToken); ("device_id", ToUpper deviceID); ("machine_id", machineID); ("version", "3")]%string in
  uuid ← wtell WUUID;
  let h := hsets [("accept", "*/*"); ("x-fb-appid", MessengerLiteAppId); ("x-fb-request-analytics-tags", analytics);
                  ("user-agent", MessengerLiteUserAgent); ("accept-language", "en-US,en;q=0.9"); ("request_token", uuid)]%string ∅ in
  r ⇐ make (endpoint ++ "?" ++ query) "GET" h "" "";
  mret match U_key r.2 with inl k => inl k | inr e => inr (OtherError e) end.

(** ** Fetching from Instagram ([instagram.go]) *)

(** A document of the site; the cookies of the answer are taken over before it is read. *)
Definition fetch_document {T} (U : string -> T + string) (type text url : string) (h : Header) : WM (T + error) :=
  r ⇐ wrap text (make url "GET" h "" "");
  update_cookies r.1;;
  mret match U r.2 with
       | inl x => inl x
       | inr e => inr (Wrap ("failed to unmarshal response bytes into *responses." ++ type ++ " (statusCode=" ++ FormatInt 10 (StatusCode r.1) ++ "): ")
                            (OtherError e))
       end.

Definition FetchProfile {T} (U : string -> T + string) (username : string) : WM (T + error) :=
  base ← GetEndpoint "base_url";
  h ← headers_with [("x-requested-with", "XMLHttpRequest"); ("referer", base ++ username ++ "/")]%string;
  url ← GetEndpoint "web_profile_info";
  fetch_document U "ProfileInfoResponse" ("failed to fetch the profile by username @" ++ username ++ ": ") (url ++ "username=" ++ username) h.

Definition FetchMedia {T} (U : string -> T + string) (mediaID mediaShortcode : string) : WM (T + error) :=
  base ← GetEndpoint "base_url";
  let referer := if negb (mediaShortcode =? "")%string then (base ++ "/p/" ++ mediaShortcode ++ "/")%string else base in
  h ← headers_with [("x-requested-with", "XMLHttpRequest"); ("referer", referer); ("Accept", "*/*")]%string;
  url ← GetEndpoint "media_info";
  fetch_document U "FetchMediaResponse" ("failed to fetch the media by id " ++ mediaID ++ ": ") (ReplaceAll url "%s" mediaID) h.

Definition FetchReel {T} (U : string -> T + string) (reelIDs : list string) (mediaID : string) : WM (T + error) :=
  base ← GetEndpoint "base_url";
  h ← headers_with [("x-requested-with", "XMLHttpRequest"); ("referer", base); ("Accept", "*/*")]%string;
  url ← GetEndpoint "reels_media";
  let query := app (if negb (mediaID =? "") then [("media_id", mediaID)] else [])%string ((fun id => ("reel_ids"%string, id)) <$> reelIDs) in
  fetch_document U "ReelInfoResponse" ("failed to fetch reels by ids " ++ show_list reelIDs ++ ": ") (url ++ Values_Encode_all query) h.

Definition FetchHighlights {T} (U : string -> T + string) (highlightIDs : list string) : WM (T + error) := FetchReel U highlightIDs "".

(** ** Push notifications ([instagram.go], [facebook.go]) *)

Record PushKeys := mkPushKeys { P256DH : list byte; Auth : list byte }.
Definition push_keys (k : PushKeys) : string :=
  Marshal (struct [field "p256dh" (EncodeToString RawURLEncoding (P256DH k)); field "auth" (EncodeToString RawURLEncoding (Auth k))]).

Definition status_error (text : string) (r : WResponse) : error := OtherError (text ++ FormatInt 10 (StatusCode r)).

(** Whether the answer of Instagram can be read, and what that of Facebook says. *)
Context (U_status : string -> unit + string) (U_push : string -> bool + string).

Definition ig_RegisterPushNotifications (endpoint : string) (keys : PushKeys) : WM (unit + error) :=
  uuid ← wtell WUUID;
  q ← newHTTPQuery;
  let q := qsets [("mid", uuid); ("device_type", "web_vapid"); ("device_token", endpoint); ("subscription_keys", push_keys keys)]%string q in
  base ← GetEndpoint "base_url";
  h ← headers_with [("x-requested-with", "XMLHttpRequest"); ("Referer", base); ("Referrer-Policy", "strict-origin-when-cross-origin")]%string;
  url ← GetEndpoint "web_push";
  r ⇐ make url "POST" h (form q) FORM;
  if bad_status r.1 then fail (status_error "bad status code: " r.1)
  else mret match U_status r.2 with
            | inl _ => inl tt
            | inr _ => inr (OtherError "failed to decode response payload, not subscribed to push notifications")
            end.

Definition fb_RegisterPushNotifications (endpoint : string) (keys : PushKeys) : WM (unit + error) :=
  q ← newHTTPQuery;
  let q := qsets [("app_id", "1443096165982425"); ("push_endpoint", endpoint); ("subscription_keys", push_keys keys)]%string q in
  base ← GetEndpoint "base_url";
  h ← headers_with [("Referer", base); ("Sec-fetch-site", "same-origin"); ("Accept", "*/*")]%string;
  url ← GetEndpoint "web_push";
  r ⇐ make url "POST" h (form q) FORM;
  if bad_status r.1 then fail (status_error "bad status code: " r.1)
  else mret match U_push (TrimPrefix r.2 antiJSPrefix) with
            | inr e => inr (OtherError e)
            | inl false => inr (OtherError "non-success response payload")
            | inl true => inl tt
            end.

(** ** Threads of Instagram ([instagram.go]) *)

(** What a route definition says: whether it is an error, and the id of the thread. *)
Record RouteDefinition := mkRoute { route_error : bool; ThreadFBID : string }.
Context (U_route : string -> RouteDefinition + string).

Definition crlf : string := String "013" (String "010" "").

Definition read_route (threadID body : string) : string + error :=
  let responseBody := TrimPrefix (default ""%string (head (PageModules.strings_Split body crlf))) antiJSPrefix in
  match U_route responseBody with
  | inr e => inr (Wrap ("failed to unmarshal route definition response for thread " ++ threadID ++ ": ") (OtherError e))
  | inl r =>
      if route_error r then inr (OtherError ("route definition response returned error for thread " ++ threadID))
      else if (ThreadFBID r =? "")%string then inr (OtherError ("thread_fbid not found in route definition response for thread " ++ threadID))
      else inl (ThreadFBID r)
  end.

(** The query, to which an empty value is added. *)
Definition route_form (q : HttpQuery) : string := Values_Encode (app (map_to_list q) [("trace_policy", "")]%string).

Definition route_query (threadID namespace : string) (q : HttpQuery) : HttpQuery :=
  qsets [("client_previous_actor_id", "17841477657023246"); ("route_url", "/direct/t/" ++ threadID ++ "/"); ("routing_namespace", namespace);
         ("__crn", "comet.igweb.PolarisDirectInboxRoute")]%string q.

Definition fetchRouteDefinition (threadID : string) : WM (string + error) :=
  q ← newHTTPQuery;
  c ← gets (fun c => c);
  let namespace := RoutingNamespace (site c) in
  if (namespace =? "")%string then fail (OtherError ("routing namespace is empty, cannot fetch route definition for thread " ++ threadID))
  else
    base ← GetEndpoint "base_url";
    messages ← GetEndpoint "messages";
    h ← headers_with [("accept", "*/*"); ("origin", base); ("accept", "*/*"); ("referer", messages); ("priority", "u=1, i");
                      ("sec-fetch-dest", "empty"); ("sec-fetch-mode", "cors"); ("sec-fetch-site", "same-origin")]%string;
    url ← GetEndpoint "route_definition";
    r ⇐ wrap ("failed to fetch route definition for thread " ++ threadID ++ ": ") (make url "POST" h (route_form (route_query threadID namespace q)) FORM);
    if bad_status r.1 then fail (status_error ("bad status code when fetching route definition for thread " ++ threadID ++ ": ") r.1)
    else mret (read_route threadID r.2).

Definition DeleteThread (threadID : string) : WM (unit + error) :=
  id ⇐ wrap ("failed to fetch route definition for thread " ++ threadID ++ ": ") (fetchRouteDefinition threadID);
  r ⇐ wrap ("failed to delete thread " ++ threadID ++ ": ") (makeGraphQLRequest "IGDeleteThread" (delete_thread_variables id));
  mret (if bad_status r.1 then inr (status_error "failed to delete thread with bad status code " r.1) else inl tt).

Definition EditGroupTitle (threadID newTitle : string) : WM (unit + error) :=
  r ⇐ wrap ("failed to edit group title for thread " ++ threadID ++ ": ") (makeGraphQLRequest "IGEditGroupTitle" (edit_title_variables threadID newTitle));
  mret (if bad_status r.1 then inr (status_error "failed to edit group title with bad status code " r.1) else inl tt).

(** [GetRUploadToken] ([media.go]) *)
Definition GetRUploadToken (j : Cookies) : string :=
  "Bearer IGT:2:" ++ EncodeToString StdEncoding (s2l (Marshal (struct [field "ds_user_id" (Get IGCookieDSUserID j); field "sessionid" (Get IGCookieSessionID j)]))).

(** The cookies, which are dereferenced. *)
Definition jar : WM Cookies := j ← gets cookies; match j with Some j => mret j | None => spanic end.

Definition android_headers (j : Cookies) : Header :=
  hsets [("authorization", GetRUploadToken j); ("user-agent", AndroidUserAgent); ("ig-intended-user-id", FormatInt 10 (GetUserID j));
         ("ig-u-ds-user-id", FormatInt 10 (GetUserID j)); ("x-mid", Get IGCookieMachineID j); ("x-ig-app-id", IGAndroidAppID)]%string ∅.
Definition buildAndroidHeaders : WM Header := j ← jar; mret (android_headers j).

Definition igraphql_query (doc : GraphQLDoc) (variables : value) : HttpQuery :=
  qsets [("method", "post"); ("pretty", "false"); ("format", "json"); ("server_timestamps", "true"); ("locale", "user");
         ("fb_api_req_friendly_name", FriendlyName doc); ("client_doc_id", ClientDocID doc); ("enable_canonical_naming", "true");
         ("enable_canonical_variable_overrides", "true"); ("enable_canonical_naming_ambiguous_type_prefixing", "true");
         ("variables", Marshal variables)]%string ∅.

Definition makeIGraphQLRequest (docName rootFieldName : string) (variables : value) : WM (string + error) :=
  match GraphQLDocs !! docName with
  | None => fail (OtherError ("graphql doc " ++ docName ++ " not found"))
  | Some doc =>
      h ← buildAndroidHeaders;
      let h := hsets (app [("x-fb-friendly-name", FriendlyName doc)]
                          (app (if negb (rootFieldName =? "") then [("x-root-field-name", rootFieldName)] else [])
                               [("x-graphql-client-library", "pando"); ("x-fb-http-engine", "Tigon/MNS/TCP")]))%string h in
      url ← GetEndpoint "i_graphql";
      r ⇐ make url "POST" h (form (igraphql_query doc variables)) FORM;
      if bad_status r.1 then fail (OtherError ("bad status code " ++ FormatInt 10 (StatusCode r.1) ++ ": " ++ r.2))
      else mret (inl r.2)
  end.

(** The library for images: the type of a file, decoding it, and encoding what was decoded. *)
Context {Image : Type} (DetectContentType : string -> string) (image_Decode : string -> Image + string) (jpeg_Encode : Image -> string + string).
(** The id of an uploaded file, zero when there is none. *)
Context (U_upload : string -> Z + string).

(** The file that is uploaded, with its type: what is no JPEG or PNG becomes a JPEG. *)
Definition avatar_file (avatar : string) : (string * string) + error :=
  let detectedType := DetectContentType avatar in
  if negb (detectedType =? "image/jpeg")%string && negb (detectedType =? "image/png")%string then
    match image_Decode avatar with
    | inr e => inr (Wrap "failed to decode avatar image: " (OtherError e))
    | inl img =>
        match jpeg_Encode img with
        | inr e => inr (Wrap "failed to encode avatar image as jpeg: " (OtherError e))
        | inl avatar => inl (avatar, "image/jpeg"%string)
        end
    end
  else inl (avatar, detectedType).

Definition upload_avatar (avatar detectedType : string) : WM (Z + error) :=
  j ← jar;
  epoch ← wtell WEpochID;
  let entityID := (FormatInt 10 (GetUserID j) ++ "_0_" ++ FormatInt 10 epoch)%string in
  endpoint ← GetEndpoint "rupload_ig";
  h ← buildAndroidHeaders;
  let h := hsets [("content-type", "application/octet-stream"); ("image_type", "FILE_ATTACHMENT"); ("x-entity-name", entityID);
                  ("x-entity-length", FormatInt 10 (slen avatar)); ("x-entity-type", detectedType); ("offset", "0"); ("priority", "u=6, i")]%string h in
  r ⇐ wrap "failed to upload group avatar: " (make (endpoint ++ entityID) "POST" h avatar "");
  mret match U_upload r.2 with
       | inr e => inr (Wrap "failed to unmarshal upload response: " (OtherError e))
       | inl MediaID =>
           if MediaID =? 0 then inr (OtherError ("failed to upload group avatar: no media id received. response: " ++ r.2)) else inl MediaID
       end.

Definition EditGroupAvatar (threadID avatar : string) : WM (unit + error) :=
  match avatar_file avatar with
  | inr e => fail e
  | inl (avatar, detectedType) =>
      MediaID ⇐ upload_avatar avatar detectedType;
      epoch ← wtell WEpochID;
      _ ⇐ wrap "failed to set group avatar: " (makeIGraphQLRequest "IGUpdateGroupAvatar" "xig_direct_update_thread_image"
                                                 (edit_avatar_variables threadID (FormatInt 10 epoch) (FormatInt 10 MediaID)));
      mret (inl tt)
  end.

Definition RemoveGroupAvatar (threadID : string) : WM (unit + error) :=
  epoch ← wtell WEpochID;
  _ ⇐ wrap "failed to remove group avatar: " (makeIGraphQLRequest "IGRemoveGroupAvatar" "xig_direct_remove_thread_image"
                                                (edit_avatar_variables threadID (FormatInt 10 epoch) ""));
  mret (inl tt).
End HttpMethods.

(** * Properties *)

(** ** Runs *)

Abbreviation wtrace := (list (event (reply (S := WClient) wanswer))).

(** What was sent, and what came back. *)
Definition sent (tr : wtrace) : list Http.Request := omap (fun e => match (asked e).1 with WMake rq => Some rq | _ => None end) tr.
Definition came (e : event (reply (S := WClient) wanswer)) : option ((WResponse * string) + error) :=
  match e with
  | Event q x =>
      match q as q0 return reply (S := WClient) wanswer q0 -> option ((WResponse * string) + error) with
      | (WMake _, _) => fun x => Some x.1
      | _ => fun _ => None
      end x
  end.
Definition answers (tr : wtrace) : list ((WResponse * string) + error) := omap came tr.
Definition sleeps (tr : wtrace) : list Z := omap (fun e => match (asked e).1 with WSleep ns => Some ns | _ => None end) tr.

Lemma wsent_app t1 t2 : sent (t1 ++ t2) = sent t1 ++ sent t2. Proof. apply omap_app. Qed.
Lemma answers_app t1 t2 : answers (t1 ++ t2) = answers t1 ++ answers t2. Proof. apply omap_app. Qed.
Lemma sleeps_app t1 t2 : sleeps (t1 ++ t2) = sleeps t1 ++ sleeps t2. Proof. apply omap_app. Qed.

(** A part of a handler that asks nothing. *)
Definition silent {A} (m : WM A) : Prop := forall s tr r s', sruns m s tr r s' -> tr = [].

Lemma silent_ret {A} (a : A) : silent (mret a).
Proof. by intros s tr r s' (-> & _)%sruns_ret. Qed.
Lemma silent_gets {A} (f : WClient -> A) : silent (gets f).
Proof. by intros s tr r s' (-> & _)%sruns_gets. Qed.
Lemma silent_modify f : silent (modify f).
Proof. by intros s tr r s' (-> & _)%sruns_modify. Qed.
Lemma silent_panic {A} : silent (spanic (A := A)).
Proof. by intros s tr r s' (-> & _)%sruns_panic. Qed.
Lemma silent_of_res {A} (x : res A) : silent (of_res x).
Proof. destruct x as [a|e|[]]; intros s tr r s' H; cbn in H; first [apply sruns_ret in H|apply sruns_throw in H|apply sruns_panic in H|apply sruns_end in H]; by destruct H. Qed.
Lemma silent_bind {A B} (m : WM A) (f : A -> WM B) : silent m -> (forall a, silent (f a)) -> silent (m ≫= f).
Proof.
  intros Hm Hf s tr r s' (r1 & s1 & t1 & t2 & -> & H1 & H2)%sruns_bind. rewrite (Hm _ _ _ _ H1). cbn.
  destruct r1; [by eapply Hf|by destruct H2..].
Qed.

Create HintDb silent.
#[export] Hint Resolve silent_ret silent_gets silent_modify silent_panic silent_of_res silent_bind : silent.

Lemma silent_GetEndpoint name : silent (GetEndpoint name).
Proof. apply silent_bind; [apply silent_gets|]. intros p. destruct (_ !! _); auto with silent. Qed.
Lemma silent_newHTTPQuery : silent newHTTPQuery.
Proof. unfold newHTTPQuery. auto with silent. Qed.
Lemma silent_headers cookie_text l : silent (headers_with cookie_text l).
Proof. unfold headers_with. auto 6 with silent. Qed.
Lemma silent_update r : silent (update_cookies r).
Proof. apply silent_bind; [apply silent_gets|]. intros [j|]; auto with silent. Qed.
Lemma silent_jar : silent jar.
Proof. apply silent_bind; [apply silent_gets|]. intros [j|]; auto with silent. Qed.
#[export] Hint Resolve silent_GetEndpoint silent_newHTTPQuery silent_headers silent_update silent_jar : silent.

(** After a silent part the handler goes on, or it has ended without a value. *)
Lemma sruns_silent {A B} (m : WM A) (f : A -> WM B) s tr r s' : silent m -> sruns (m ≫= f) s tr r s' ->
  (exists a s1, sruns m s [] (Ok a) s1 /\ sruns (f a) s1 tr r s') \/ (tr = [] /\ forall b, r <> Ok b).
Proof.
  intros Hm (r1 & s1 & t1 & t2 & -> & H1 & H2)%sruns_bind. pose proof (Hm _ _ _ _ H1) as ->. destruct r1 as [a| |].
  - left. by exists a, s1.
  - right. by destruct H2 as (-> & -> & _).
  - right. by destruct H2 as (-> & -> & _).
Qed.

Lemma sruns_wblock q s tr r s' : sruns (wblock q) s tr r s' -> exists x, tr = [Event (answer := reply wanswer) (q, s) (x, s')] /\ r = Ok x.
Proof. intros H. by apply (proj1 (sruns_block (answer := wanswer) q s tr r s')). Qed.
Lemma sruns_wtell q s tr r s' : sruns (wtell q) s tr r s' -> exists x s1, tr = [Event (answer := reply wanswer) (q, s) (x, s1)] /\ r = Ok x /\ s' = s.
Proof. intros H. by apply (proj1 (sruns_tell (answer := wanswer) q s tr r s')). Qed.

(** What a handler sends and receives: its requests with their answers, nothing else. *)
Definition exchange (tr : wtrace) : list (Http.Request * ((WResponse * string) + error)) :=
  omap (fun e => match e with
                 | Event q x =>
                     match q as q0 return reply (S := WClient) wanswer q0 -> option (Http.Request * ((WResponse * string) + error)) with
                     | (WMake rq, _) => fun x => Some (rq, x.1)
                     | _ => fun _ => None
                     end x
                 end) tr.
Lemma exchange_app t1 t2 : exchange (t1 ++ t2) = exchange t1 ++ exchange t2. Proof. apply omap_app. Qed.

(** A handler that makes one request: what it sends satisfies [P], what it makes of the answer [R]. *)
Definition asks_once {A} (m : WM A) (P : Http.Request -> Prop) (R : ((WResponse * string) + error) -> A -> Prop) : Prop :=
  forall s tr a s', sruns m s tr (Ok a) s' -> exists rq u, exchange tr = [(rq, u)] /\ P rq /\ R u a.

Lemma make_asks url method h payload ct : asks_once (make url method h payload ct) (fun rq => Http.payload rq = payload /\ Http.url rq = url) eq.
Proof. intros s tr a s' (x & -> & [= ->])%sruns_wblock. by eexists _, x. Qed.

Lemma asks_after {A B} (m : WM A) (f : A -> WM B) P R : silent m -> (forall a, (exists s s', sruns m s [] (Ok a) s') -> asks_once (f a) P R) -> asks_once (m ≫= f) P R.
Proof.
  intros Hm Hf s tr b s' H. apply sruns_silent in H as [(a & s1 & Ha & H)|[_ H]]; [|by destruct (H b)|done].
  eapply Hf; [by exists s, s1|exact H].
Qed.

Lemma asks_then {A B} (m : WM A) (f : A -> WM B) P (R : _ -> A -> Prop) (R' : _ -> B -> Prop) : asks_once m P R ->
  (forall u a s tr b s', R u a -> sruns (f a) s tr (Ok b) s' -> exchange tr = [] /\ R' u b) -> asks_once (m ≫= f) P R'.
Proof.
  intros Hm Hf s tr b s' (r1 & s1 & t1 & t2 & -> & H1 & H2)%sruns_bind. destruct r1 as [a| |]; [|by destruct H2 as (_ & [=] & _)..].
  destruct (Hm _ _ _ _ H1) as (rq & u & E & HP & HR). destruct (Hf u a _ _ _ _ HR H2) as [E2 HR']. exists rq, u. by rewrite exchange_app, E, E2.
Qed.

Lemma once_weaken {A} (m : WM A) (P P' : _ -> Prop) (R R' : _ -> A -> Prop) : asks_once m P R -> (forall rq, P rq -> P' rq) -> (forall u a, R u a -> R' u a) -> asks_once m P' R'.
Proof. intros H HP HR s tr a s' Ha. destruct (H _ _ _ _ Ha) as (rq & u & E & H1 & H2). exists rq, u. auto. Qed.

Lemma wrap_asks {A} text (m : WM (A + error)) P R : asks_once m P R ->
  asks_once (wrap text m) P (fun u b => exists a, R u a /\ b = match a with inl x => inl x | inr e => inr (Wrap text e) end).
Proof.
  intros H. eapply asks_then; [exact H|]. intros u a s tr b s' HR (-> & [= ->] & _)%sruns_ret. split; [done|]. by exists a.
Qed.

Section Sent.
Context (cookie_text : Cookies -> string).

(** Documents are compared as they are written. *)
#[local] Opaque form graphql_query route_form route_query.

(** A GraphQL request names its document and its variables, and gives the answer without prefix. *)
Lemma graphql_asks name doc variables (Hd : GraphQLDocs !! name = Some doc) :
  asks_once (makeGraphQLRequest cookie_text name variables)
    (fun rq => exists c, Http.payload rq = form (graphql_query doc variables (site_query c)))
    (fun u a => match u, a with
                | inl (resp, body), inl (resp', body') => resp' = resp /\ body' = TrimPrefix body antiJSPrefix
                | inr e, inr e' => e = e'
                | _, _ => False
                end).
Proof.
  unfold makeGraphQLRequest. rewrite Hd.
  apply asks_after; [auto with silent|]. intros q (s0 & s1 & Hq).
  assert (exists c, q = site_query c) as [c ->].
  { apply sruns_bind in Hq as (r1 & s2 & t1 & t2 & _ & (_ & -> & ->)%sruns_modify & (_ & [= ->] & _)%sruns_gets). by eexists. }
  apply asks_after; [auto with silent|]; intros base _. apply asks_after; [auto with silent|]; intros messages _.
  apply asks_after; [auto with silent|]; intros h _. apply asks_after; [auto with silent|]; intros url _. unfold bind_ok.
  eapply asks_then; [eapply once_weaken; [apply make_asks|intros rq [E _]; by exists c|intros u a E; exact E]|].
  intros u y s tr b s' <- H. destruct u as [[resp body]|e].
  - apply sruns_silent in H as [(x & s2 & _ & H)|[_ H]]; [|by destruct (H b)|auto with silent]. by apply sruns_ret in H as (-> & [= ->] & _).
  - by apply sruns_ret in H as (-> & [= ->] & _).
Qed.

(** What is sent to ask for the route of a thread, and what an answer must be. *)
Record route_asked (U_route : string -> RouteDefinition + string) (threadID id : string) (rq : Http.Request) (u : (WResponse * string) + error) : Prop := {
  ra_form : exists c, RoutingNamespace (site c) <> ""%string /\
    Http.payload rq = route_form (route_query threadID (RoutingNamespace (site c)) (site_query c));
  ra_answer : exists resp body, u = inl (resp, body) /\ bad_status resp = false /\ read_route U_route threadID body = inl id
}.

Lemma route_succeeds U_route threadID id s tr s' : sruns (fetchRouteDefinition cookie_text U_route threadID) s tr (Ok (inl id)) s' ->
  exists rq u, exchange tr = [(rq, u)] /\ route_asked U_route threadID id rq u.
Proof.
  unfold fetchRouteDefinition. intros H.
  apply sruns_silent in H as [(q & s1 & Hq & H)|[_ H]]; [|by destruct (H (inl id))|auto with silent].
  apply sruns_bind in Hq as (r0 & s2 & t3 & t4 & _ & (_ & -> & ->)%sruns_modify & (_ & [= ->] & ->)%sruns_gets).
  apply sruns_silent in H as [(c & s3 & (_ & [= ->] & ->)%sruns_gets & H)|[_ H]]; [|by destruct (H (inl id))|auto with silent].
  destruct (String.eqb_spec (RoutingNamespace (site (count_graphQL s))) ""); [by apply sruns_ret in H as (_ & [=] & _)|].
  do 4 (apply sruns_silent in H as [(? & ? & _ & H)|[_ H]]; [|by destruct (H (inl id))|auto with silent]).
  apply sruns_bind in H as (r1 & s4 & t1 & t2 & -> & H1 & H2).
  destruct r1 as [a| |]; [|by destruct H2 as (_ & [=] & _)..].
  apply (wrap_asks _ _ _ _ (make_asks _ _ _ _ _)) in H1 as (rq & u & E & [Hp _] & a' & <- & ->).
  destruct u as [[resp body]|e]; [|by apply sruns_ret in H2 as (_ & [=] & _)].
  cbn [fst snd] in H2. destruct (bad_status resp) eqn:Eb; [by apply sruns_ret in H2 as (_ & [=] & _)|]. apply sruns_ret in H2 as (-> & [= Er] & _).
  exists rq, (inl (resp, body)). rewrite exchange_app, E. split; [done|]. split; [by exists (count_graphQL s)|by exists resp, body].
Qed.

(** C25. A thread of Instagram is deleted by the id its route has, not by the one it is known
    by: two requests were made, the first asks for the route of the thread and was answered
    well with that id, the second names it and was answered well too. *)
Theorem thread_deleted_by_its_route U_route threadID s tr s'
    (H : sruns (DeleteThread cookie_text U_route threadID) s tr (Ok (inl tt)) s') :
  exists id rq1 u1 rq2 resp body doc, exchange tr = [(rq1, u1); (rq2, inl (resp, body))] /\ route_asked U_route threadID id rq1 u1 /\
    GraphQLDocs !! "IGDeleteThread"%string = Some doc /\ bad_status resp = false /\
    exists c, Http.payload rq2 = form (graphql_query doc (delete_thread_variables id) (site_query c)).
Proof.
  apply sruns_bind in H as (r1 & s1 & t1 & t2 & -> & H1 & H2). destruct r1 as [a| |]; [|by destruct H2 as (_ & [=] & _)..].
  apply sruns_bind in H1 as (r2 & s2 & t3 & t4 & -> & H1 & H3). destruct r2 as [b| |]; [|by destruct H3 as (_ & [=] & _)..].
  apply sruns_ret in H3 as (-> & [= ->] & ->). destruct b as [id|e]; [|by apply sruns_ret in H2 as (_ & [=] & _)].
  apply route_succeeds in H1 as (rq1 & u1 & E1 & Hu).
  apply sruns_bind in H2 as (r3 & s3 & t5 & t6 & -> & H2 & H4). destruct r3 as [b| |]; [|by destruct H4 as (_ & [=] & _)..].
  apply (wrap_asks _ _ _ _ (graphql_asks "IGDeleteThread" _ _ eq_refl)) in H2 as (rq2 & u2 & E2 & Hp & a' & Hr & ->).
  destruct a' as [[resp' body']|e]; [|by apply sruns_ret in H4 as (_ & [=] & _)]. destruct u2 as [[resp body]|e]; [|done]. destruct Hr as [-> _].
  apply sruns_ret in H4 as (-> & [= Eb] & _). cbn [fst] in Eb. destruct (bad_status resp) eqn:Es; [done|].
  eexists id, rq1, u1, rq2, resp, body, _. rewrite !exchange_app, E1, E2. by split_and!.
Qed.

Context (U_lsanswer : string -> option LSAnswer + string) (U_lightspeed : string -> option json + string).
Context (now : nat -> Z) (slack : nat -> nat) (fmt_float : spec_float -> string).

(** The program an answer carries, and the name it is asked under. *)
Definition carries (body : string) (r : PageModules.LightspeedWebRequest) : Prop :=
  exists a q, U_lsanswer body = inl (Some a) /\ ls_Data a = Some q /\ web_request q = Some r.
Definition ls_name (p : Platform) : string := if IsMessenger p then "LSGraphQLRequest" else "LSGraphQLRequestIG".

(** The tables a program leaves when it is run by the decoder from empty tables. *)
Definition program_gives (deps : list Dependency) (steps : json) (t : tables) : Prop :=
  exists v d, Decode (ToMap deps) LSTable now slack fmt_float (jsize steps) steps (NewLightSpeedDecoder ∅) = Ok (v, d) /\ t = table d.

Lemma program_runs r s tr t s' : sruns (run_program U_lightspeed now slack fmt_float r) s tr (Ok (inl (Some t))) s' ->
  tr = [] /\ exists steps, U_lightspeed (PageModules.ls_Payload r) = inl (Some steps) /\ program_gives (PageModules.Dependencies r) steps t /\ table_ok LSTable t.
Proof.
  unfold run_program. destruct (U_lightspeed _) as [[steps|]|e]; intros H; [|by apply sruns_panic in H as (_ & [=] & _)|by apply sruns_ret in H as (_ & [=] & _)].
  apply sruns_bind in H as (r2 & s2 & t3 & t4 & -> & H3 & H2).
  destruct (Decode _ _ _ _ _ _ _ _) as [[v d]|e|h] eqn:Ed.
  - apply sruns_ret in H3 as (-> & -> & ->). apply sruns_ret in H2 as (-> & [= ->] & ->). cbn [snd]. split; [done|]. exists steps. split; [done|]. split; [by exists v, d|].
    pose proof (Decode_runs (ToMap (PageModules.Dependencies r)) LSTable now slack fmt_float (jsize steps) steps (le_n _) (NewLightSpeedDecoder ∅)) as H.
    rewrite Ed in H. remember (NewLightSpeedDecoder ∅) as s0 eqn:E0.
    assert (table_ok LSTable (table s0)) as H0 by (subst s0; intros f rows; cbn; by rewrite lookup_empty).
    clear E0 Ed. induction H; eauto using prim_table_ok.
  - apply sruns_throw in H3 as (_ & -> & _). by destruct H2 as (_ & [=] & _).
  - destruct h; cbn in H3; first [apply sruns_panic in H3|apply sruns_end in H3]; destruct H3 as (_ & -> & _); by destruct H2 as (_ & [=] & _).
Qed.

(** C12. A LightSpeed request that gives tables has made one request, for the document of its
    platform, with the parameters of the request, and the tables are those the decoder has after
    it ran the program in the answer, with the names the answer gives its procedures, from empty
    tables; all their rows are of the types of their tables.  When it succeeds without tables,
    the answer has neither a program nor an error. *)
Theorem ls_request_gives_tables variables reqType s tr t s'
    (H : sruns (makeLSRequest cookie_text U_lsanswer U_lightspeed now slack fmt_float variables reqType) s tr (Ok (inl t)) s') :
  exists doc rq resp body, GraphQLDocs !! ls_name (platform s) = Some doc /\ exchange tr = [(rq, inl (resp, body))] /\
    (exists c, Http.payload rq = form (graphql_query doc (ls_request (ClientID (site s)) (lsRequests s) (Marshal (ls_variables variables)) reqType) (site_query c))) /\
    match t with
    | Some t => exists r steps, carries (TrimPrefix body antiJSPrefix) r /\ U_lightspeed (PageModules.ls_Payload r) = inl (Some steps) /\
        program_gives (PageModules.Dependencies r) steps t /\ table_ok LSTable t
    | None => exists a q, U_lsanswer (TrimPrefix body antiJSPrefix) = inl (Some a) /\ ls_Data a = Some q /\ web_request q = None /\ ls_Errors a = Some []
    end.
Proof.
  unfold makeLSRequest in H.
  apply sruns_silent in H as [(c & s1 & (_ & [= ->] & ->)%sruns_gets & H)|[_ H]]; [|by destruct (H (inl t))|auto with silent].
  apply sruns_silent in H as [(u & s2 & _ & H)|[_ H]]; [|by destruct (H (inl t))|auto with silent].
  apply sruns_bind in H as (r2 & s3 & t3 & t4 & -> & H1 & H2). destruct r2 as [b| |]; [|by destruct H2 as (_ & [=] & _)..].
  destruct (GraphQLDocs !! ls_name (platform s)) as [doc|] eqn:Ed; cycle 1.
  { exfalso. unfold ls_name in Ed. by destruct (IsMessenger _). }
  apply (graphql_asks _ _ _ Ed) in H1 as (rq & u1 & E1 & Hp & Hr).
  destruct b as [[resp' body']|e]; [|by apply sruns_ret in H2 as (_ & [=] & _)]. destruct u1 as [[resp body]|e]; [|done]. destruct Hr as [-> ->].
  exists doc, rq, resp, body. split; [done|].
  assert (t4 = [] /\ match t with
    | Some t => exists r steps, carries (TrimPrefix body antiJSPrefix) r /\ U_lightspeed (PageModules.ls_Payload r) = inl (Some steps) /\
        program_gives (PageModules.Dependencies r) steps t /\ table_ok LSTable t
    | None => exists a q, U_lsanswer (TrimPrefix body antiJSPrefix) = inl (Some a) /\ ls_Data a = Some q /\ web_request q = None /\ ls_Errors a = Some []
    end) as [-> Ht]; [|by rewrite app_nil_r].
  clear E1. unfold ls_answer in H2. destruct (U_lsanswer (TrimPrefix body antiJSPrefix)) as [[a|]|e] eqn:Ea.
  2: by apply sruns_panic in H2 as (_ & [=] & _). 2: by apply sruns_ret in H2 as (_ & [=] & _).
  destruct (ls_Data a) as [q|] eqn:Eq; [|by apply sruns_ret in H2 as (_ & [=] & _)].
  destruct (web_request q) as [r|] eqn:Er.
  - assert (exists x, t = Some x) as [x ->].
    { destruct t as [x|]; [by exists x|]. exfalso. unfold run_program in H2. destruct (U_lightspeed _) as [[steps|]|e];
        [|by apply sruns_panic in H2 as (_ & [=] & _)|by apply sruns_ret in H2 as (_ & [=] & _)].
      apply sruns_silent in H2 as [(y & s4 & _ & H2)|[_ H2]]; [|by destruct (H2 (inl None))|auto with silent]. by apply sruns_ret in H2 as (_ & [=] & _). }
    apply program_runs in H2 as (-> & steps & Es & Hg & Hok). split; [done|]. exists r, steps. split_and!; [by exists a, q|done..].
  - destruct (ls_Errors a) as [[|e l]|] eqn:Ee; apply sruns_ret in H2 as (-> & [=] & _). subst t. split; [done|]. by exists a, q.
Qed.
End Sent.

(** * Examples *)

Definition demo_site (namespace : string) : Site := mkSite "1" "936619743392459" "hs" "1" "7" 9 "t" 5 "GOOD" "a:b:c" "dyn" "csr" "1" "dtsg" "2" "lsd" namespace "id".
Definition demo_insta (namespace : string) : WClient := mkWClient Instagram (demo_site namespace) (Some Cookies.demo_cookies) 0 0.
Definition demo_cookie_text (j : Cookies) : string := "mid=" ++ Get IGCookieMachineID j.

(** A server that answers with the texts of a list, with the status 200, then not at all. *)
Definition demo_server (q : WReq * WClient) (l : list string) : (wanswer q.1 * WClient) * list string :=
  match q.1 as q0 return (wanswer q0 * WClient) * list string with
  | WMake _ => match l with
               | body :: l => ((inl (mkWResponse 200 [] "", body), q.2), l)
               | [] => ((inr (OtherError "EOF"), q.2), [])
               end
  | WUUID => (("2b7e"%string, q.2), l)
  | WRandom _ => (("rnd"%string, q.2), l)
  | WEpochID => ((42, q.2), l)
  | WSleep _ => ((tt, q.2), l)
  end%string.

(** The id of a thread is its answer; [none] has none. *)
Definition demo_route (body : string) : RouteDefinition + string := inl (mkRoute false (if (body =? "none")%string then "" else body)).
Definition demo_delete (l : list string) := play demo_server (DeleteThread demo_cookie_text demo_route "340282" (demo_insta "igx_www")) l.

(** The text of the first answer. *)
Definition first_body (l : list (Http.Request * ((WResponse * string) + error))) : string :=
  match l with (_, inl (_, body)) :: _ => body | _ => "" end.

Lemma thread_deleted_by_its_route_witness : exists id rq1 u1 rq2 resp body doc,
  exchange (demo_delete ["for (;;);17845"; "{}"]%string).1.2 = [(rq1, u1); (rq2, inl (resp, body))] /\ id = "17845"%string /\
  exists c, Http.payload rq2 = form (graphql_query doc (delete_thread_variables id) (site_query c)).
Proof.
  destruct (thread_deleted_by_its_route demo_cookie_text demo_route "340282" (demo_insta "igx_www") _ _
    ltac:(exact (play_sruns demo_server (DeleteThread demo_cookie_text demo_route "340282") (demo_insta "igx_www") ["for (;;);17845"; "{}"]%string)))
    as (id & rq1 & u1 & rq2 & resp & body & doc & E & [_ (resp1 & body1 & -> & _ & Er)] & _ & _ & Hp).
  exists id, rq1, (inl (resp1, body1)), rq2, resp, body, doc. split_and!; [exact E| |exact Hp].
  apply (f_equal first_body) in E. cbn [first_body] in E. rewrite <- E in Er. vm_compute in Er. congruence.
Defined.

(** A thread without an id, and a page without the namespace: nothing is deleted. *)
Example thread_without_id : exists e, (demo_delete ["for (;;);none"]%string).1.1.1 = Ok (inr e) /\
  length (sent (demo_delete ["for (;;);none"]%string).1.2) = 1%nat.
Proof. eexists. split; vm_compute; reflexivity. Qed.
Example no_namespace : sent (play demo_server (DeleteThread demo_cookie_text demo_route "340282" (demo_insta "")) []).1.2 = [].
Proof. vm_compute. reflexivity. Qed.

(** Answers with a program that does nothing, with nothing, with an empty list of errors. *)
Definition demo_lsanswer (body : string) : option LSAnswer + string :=
  let none := mkErrorResponse 0 "" in
  if (body =? "program")%string then inl (Some (mkLSAnswer none None (Some (PageModules.mkLSQuery (Some (PageModules.mkWebRequest [mkDependency "upsertFolder" "LSUpsertFolder"] "steps")) None))))
  else if (body =? "empty errors")%string then inl (Some (mkLSAnswer none (Some []) (Some (PageModules.mkLSQuery None None))))
  else inl None.
Definition demo_program (payload : string) : option json + string :=
  if (payload =? "steps")%string then inl (Some (JArr (num 5 :: JStr "upsertFolder" :: sample_args))) else inr "no JSON"%string.
Definition demo_ls : WM (option tables + LSFailure) :=
  makeLSRequest demo_cookie_text demo_lsanswer demo_program (const 0) (const 0%nat) (const ""%string) (mkLSVariables 1 42 None Json.Null 9) 1.

Definition demo_tables := play demo_server (demo_ls (demo_insta "")) ["program"]%string.
Definition demo_table : option tables := match demo_tables.1.1.1 with Ok (inl t) => t | _ => None end.
Lemma demo_tables_end : demo_tables.1.1.1 = Ok (inl demo_table).
Proof. vm_compute. reflexivity. Qed.
Example demo_table_rows : (fun t : tables => length (default [] (t !! "LSUpsertFolder"%string))) <$> demo_table = Some 1%nat.
Proof. vm_compute. reflexivity. Qed.

Lemma ls_request_gives_tables_witness : exists t, demo_table = Some t /\ table_ok LSTable t /\
  exists deps steps, program_gives (const 0) (const 0%nat) (const ""%string) deps steps t.
Proof.
  destruct (ls_request_gives_tables demo_cookie_text demo_lsanswer demo_program (const 0) (const 0%nat) (const ""%string) (mkLSVariables 1 42 None Json.Null 9) 1
    (demo_insta "") demo_tables.1.2 demo_table demo_tables.1.1.2
    ltac:(rewrite <- demo_tables_end; exact (play_sruns demo_server demo_ls (demo_insta "") ["program"]%string))) as (doc & rq & resp & body & _ & _ & _ & H).
  pose proof demo_table_rows as Hr. destruct demo_table as [t|]; [|discriminate Hr]. destruct H as (r & steps & _ & _ & Hg & Hok). exists t.
  split; [reflexivity|]. split; [exact Hok|]. exists (PageModules.Dependencies r), steps. exact Hg.
Defined.

(** No errors at all are a success without tables. *)
Example empty_errors_succeed : (play demo_server (demo_ls (demo_insta "")) ["empty errors"]%string).1.1.1 = Ok (inl None).
Proof. vm_compute. reflexivity. Qed.
(** An answer that is [null] makes the request panic. *)
Example null_answer_panics : (play demo_server (demo_ls (demo_insta "")) ["null"]%string).1.1.1 = Panic.
Proof. vm_compute. reflexivity. Qed.
