(* ===== verification/Mercury.v ===== *)
(** * Mercury: uploading files ([messagix/mercury.go], [types/mercury.go])

    A file is sent as one part of a form; the answer says what became of it, and an answer that
    is no success is asked for again.  The decoders of the answer and the encoding of waveforms
    are parameters. *)

From Stdlib Require Import Ascii.
From S2P Require Import Prelude Strconv Text Cookies Errors.
From S2P Require Http.
From S2P Require Import Interaction Stateful HttpMethods.
#[local] Open Scope Z_scope.

(** ** Numbers that may be texts *)

Definition maxSafeIntInFloat64 : Z := 2 ^ 53 - 1.
Definition minSafeIntInFloat64 : Z := - maxSafeIntInFloat64.

(** [StringOrInt.MarshalJSON]: a number that is safe is marshalled through the same method,
    until the stack ends. *)
Fixpoint StringOrInt_MarshalJSON (stack : nat) (soi : Z) : res string :=
  match stack with
  | O => Exit
  | S stack => if (soi >? maxSafeIntInFloat64) || (soi <? minSafeIntInFloat64) then Ok (in_quotes (FormatInt 10 soi)) else StringOrInt_MarshalJSON stack soi
  end.

Definition num_error (s : string) (e : NumError) : string :=
  "strconv.ParseInt: parsing " ++ in_quotes s ++ ": " ++ match e with ErrSyntax => "invalid syntax" | ErrRange => "value out of range" end.

(** The library reads the two forms; what is set besides an error is not used. *)
Definition StringOrInt_UnmarshalJSON (U_string : string -> string + string) (U_int64 : string -> Z + string) (data : string) : res (Z + string) :=
  match data with
  | ""%string => Panic
  | String c _ =>
      if (c =? "034")%char then
        Ok match U_string data with
           | inr e => inr e
           | inl str => match ParseInt 10 str with (n, None) => inl n | (_, Some e) => inr (num_error str e) end
           end
      else Ok (U_int64 data)
  end.

(** ** Files *)

Record FileMetadata := mkFileMetadata {
  FileID : Z; AudioID : Z; VideoID : Z; ImageID : Z; GifID : Z; fm_Filename : string; Filetype : string; Src : string; ThumbnailSrc : string
}.
Definition no_metadata : FileMetadata := mkFileMetadata 0 0 0 0 0 "" "" "" "".

Definition GetFbId (vid : FileMetadata) : Z :=
  if negb (VideoID vid =? 0) then VideoID vid
  else if negb (AudioID vid =? 0) then AudioID vid
  else if negb (ImageID vid =? 0) then ImageID vid
  else if negb (GifID vid =? 0) then GifID vid
  else if negb (FileID vid =? 0) then FileID vid
  else 0.

(** A file to send; the waveform is its document, or the error of making it. *)
Record MercuryUploadMedia := mkMedia { Filename : string; MimeType : string; MediaData : string; IsVoiceClip : bool; WaveformData : option (string + string) }.

(** What is used of the answer. *)
Record MercuryResponse := mkMercury { m_Error : ErrorResponse; Redirect : string; Metadata : string }.

(** ** The form *)

Definition crlf : string := String "013" (String "010" "").

(** [CreatePart]: a part begins with the boundary, after a line break when it is not the first. *)
Definition part (first : bool) (boundary : string) (headers : list (string * string)) (body : string) : string :=
  (if first then "" else crlf) ++ "--" ++ boundary ++ crlf ++
  String.concat "" ((fun kv => kv.1 ++ ": " ++ kv.2 ++ crlf)%string <$> headers) ++ crlf ++ body.

Definition disposition (name : string) : string * string := ("Content-Disposition", "form-data; name=" ++ in_quotes name)%string.

(** The parts of the form: the name of the file is put into the header as it is. *)
Definition file_part (media : MercuryUploadMedia) : list (string * string) * string :=
  ([("Content-Disposition", "form-data; name=" ++ in_quotes "farr" ++ "; filename=" ++ in_quotes (Filename media)); ("Content-Type", MimeType media)],
   MediaData media)%string.

Definition parts (media : MercuryUploadMedia) : list (list (string * string) * string) + error :=
  let voice := if IsVoiceClip media then [([disposition "voice_clip"], "true")]%string else [] in
  match (if IsVoiceClip media then WaveformData media else None) with
  | Some (inr e) => inr (Wrap "messagix-mercury: Failed to marshal waveform (" (WrapSuffix (OtherError e) ")"))
  | Some (inl w) => inl (app voice [([disposition "voice_clip_waveform_data"], w); file_part media])
  | None => inl (app voice [file_part media])
  end.

Fixpoint write_parts (first : bool) (boundary : string) (l : list (list (string * string) * string)) : string :=
  match l with
  | [] => crlf ++ "--" ++ boundary ++ "--" ++ crlf
  | (h, b) :: l => part first boundary h b ++ write_parts false boundary l
  end.

(** The form and its type. *)
Definition newMercuryMediaPayload (random : string) (media : MercuryUploadMedia) : (string * string) + error :=
  let boundary := ("----WebKitFormBoundary" ++ random)%string in
  match parts media with
  | inr e => inr e
  | inl l => inl (write_parts true boundary l, "multipart/form-data; boundary=" ++ boundary)%string
  end.

(** ** The answer *)

Section Mercury.
Context (cookie_text : Cookies -> string).
Context (U_mercury : string -> option MercuryResponse + string) (U_list : string -> list FileMetadata + string) (U_map : string -> gmap string FileMetadata + string).

(** Of a list the first is taken, which must be there, of a map the one under the key 0. *)
Definition parseMetadata (metadata : string) : res (FileMetadata + error) :=
  match metadata with
  | ""%string => Ok (inr (OtherError "no metadata in upload response"))
  | String c _ =>
      if (c =? "[")%char then
        match U_list metadata with
        | inr e => Ok (inr (Wrap "failed to unmarshal image metadata in upload response: " (OtherError e)))
        | inl [] => Panic
        | inl (x :: _) => Ok (inl x)
        end
      else if (c =? "{")%char then
        match U_map metadata with
        | inr e => Ok (inr (Wrap "failed to unmarshal video metadata in upload response: " (OtherError e)))
        | inl m => Ok (inl (default no_metadata (m !! "0"%string)))
        end
      else Ok (inr (OtherError "unexpected metadata in upload response"))
  end.

Definition parseMercuryResponse (respBody : string) : res (FileMetadata + error) :=
  match U_mercury (TrimPrefix respBody antiJSPrefix) with
  | inr e => Ok (inr (Wrap "failed to parse mercury response: " (OtherError e)))
  | inl None => Panic
  | inl (Some r) =>
      if negb (ErrorCode (m_Error r) =? 0) then Ok (inr (Wrap "error in mercury upload: " (ResponseError (m_Error r))))
      else if StrContains (Redirect r) "/consent/" then
        Ok (inr (WrapSuffix (SentinelError ErrConsentRequired) (": mercury upload redirected to " ++ Redirect r)))
      else parseMetadata (Metadata r)
  end.

(** ** The upload *)

(** An error after which the upload is not tried again. *)
Definition no_more (attempts : Z) (e : error) : bool :=
  (attempts >? Http.MaxHTTPRetries) || isPermanentRequestError e || errors_Is e ErrPleaseReloadPage.

(** One request; the query and the headers are made anew. *)
Definition upload_once (threadID : Z) (payload contentType : string) : WM ((WResponse * string) + error) :=
  q ← newHTTPQuery;
  url ← GetEndpoint "media_upload";
  base ← GetEndpoint "base_url";
  thread ← GetEndpoint "thread";
  h ← headers_with cookie_text
        [("accept", "*/*"); ("content-type", contentType); ("origin", base); ("referer", thread ++ FormatInt 10 threadID ++ "/"); ("priority", "u=1, i");
         ("sec-fetch-dest", "empty"); ("sec-fetch-mode", "cors"); ("sec-fetch-site", "same-origin")]%string;
  make (url ++ form q) "POST" h payload "".

Definition Second : Z := 1000000000.

(** The loop, which [n] bounds; [attempts] rounds are behind it. *)
Fixpoint upload_loop (n : nat) (attempts threadID : Z) (payload contentType : string) : WM (option (FileMetadata + error)) :=
  match n with
  | O => mret None
  | S n =>
      let attempts := attempts + 1 in
      r ← upload_once threadID payload contentType;
      match r with
      | inr e => mret (Some (inr (Wrap "failed to send MercuryUploadRequest: " e)))
      | inl (_, respBody) =>
          x ← of_res (parseMercuryResponse respBody);
          match x with
          | inl m => mret (Some (inl m))
          | inr e =>
              if no_more attempts e then mret (Some (inr e))
              else wblock (WSleep (attempts * 3 * Second));; upload_loop n attempts threadID payload contentType
          end
      end
  end.

(** Of a client that is not nil. *)
Definition SendMercuryUploadRequest (threadID : Z) (media : MercuryUploadMedia) : WM (option (FileMetadata + error)) :=
  random ← wtell (WRandom 16);
  match newMercuryMediaPayload random media with
  | inr e => mret (Some (inr e))
  | inl (payload, contentType) => upload_loop 6 0 threadID payload contentType
  end.
End Mercury.

(** * Properties *)

(** A number that is safe in a float cannot be marshalled, however large the stack. *)
Theorem safe_numbers_overflow_the_stack stack soi : minSafeIntInFloat64 <= soi <= maxSafeIntInFloat64 -> StringOrInt_MarshalJSON stack soi = Exit.
Proof.
  intros H. induction stack as [|stack IH]; [done|]. cbn [StringOrInt_MarshalJSON].
  replace (_ || _) with false; [done|]. symmetry. apply orb_false_iff. lia.
Qed.

Section Uploads.
Context (cookie_text : Cookies -> string).
Context (U_mercury : string -> option MercuryResponse + string) (U_list : string -> list FileMetadata + string) (U_map : string -> gmap string FileMetadata + string).

Abbreviation parse := (parseMercuryResponse U_mercury U_list U_map).

Lemma once_runs threadID payload contentType s tr r s' : sruns (upload_once cookie_text threadID payload contentType) s tr r s' ->
  (exists rq s1 x, tr = [Event (answer := reply wanswer) (WMake rq, s1) (x, s')] /\ r = Ok x /\ Http.payload rq = payload) \/ (tr = [] /\ forall b, r <> Ok b).
Proof.
  intros H. unfold upload_once in H.
  repeat (apply sruns_silent in H as [(? & ? & _ & H)|H]; [|by right|auto with silent]).
  apply sruns_wblock in H as (y & -> & ->). left. by eexists _, _, y.
Qed.

(** The requests and the pauses between them, with their lengths, in the order they come. *)
Definition beat_of (e : event (reply (S := WClient) wanswer)) : option (option Z) :=
  match (asked e).1 with WMake _ => Some None | WSleep ns => Some (Some ns) | _ => None end.
Definition rhythm (tr : wtrace) : list (option Z) := omap beat_of tr.

(** [n] rounds after [attempts] of them: a request each, and between two of them a pause, three
    seconds longer each time. *)
Fixpoint rounds (attempts : Z) (n : nat) : list (option Z) :=
  match n with
  | O => []
  | S O => [None]
  | S n => None :: Some ((attempts + 1) * 3 * Second) :: rounds (attempts + 1) n
  end.

(** An answer after which another one is asked for. *)
Definition may_pass (u : (WResponse * string) + error) : Prop :=
  exists resp body e, u = inl (resp, body) /\ parse body = Ok (inr e) /\ isPermanentRequestError e = false /\ errors_Is e ErrPleaseReloadPage = false.

Record upload_run (n : nat) (attempts : Z) (payload : string) (tr : wtrace) (r : res (option (FileMetadata + error))) : Prop := {
  up_ends : r <> Ok None;
  up_rounds : (length (answers tr) <= n)%nat;
  up_same : Forall (fun rq => Http.payload rq = payload) (sent tr);
  up_rhythm : rhythm tr `prefix_of` rounds attempts n;
  up_passed : Forall may_pass (take (length (answers tr) - 1) (answers tr));
  up_success : forall m, r = Ok (Some (inl m)) -> exists resp body, last (answers tr) = Some (inl (resp, body)) /\ parse body = Ok (inl m)
}.

Lemma loop_runs n : forall attempts threadID payload contentType s tr r s', (0 < n)%nat -> attempts + Z.of_nat n = 6 ->
  sruns (upload_loop cookie_text U_mercury U_list U_map n attempts threadID payload contentType) s tr r s' -> upload_run n attempts payload tr r.
Proof.
  induction n as [|n IH]; intros attempts threadID payload contentType s tr r s' Hn Ha H; [lia|]. cbn [upload_loop] in H.
  apply sruns_bind in H as (r1 & s1 & t1 & t2 & -> & H1 & H2). apply once_runs in H1 as [(rq & s0 & u & -> & -> & Hp)|[-> Hr]]; cycle 1.
  { destruct r1 as [a|e|h]; [by destruct (Hr a)|destruct H2 as (-> & -> & _)..]; split; first [done|cbn; lia|apply Forall_nil_2|apply prefix_nil]. }
  assert ([None] `prefix_of` rounds attempts (S n)) as Hone by (destruct n; [done|]; cbn [rounds]; apply (prefix_app [None]), prefix_nil).
  assert (forall tr r, (forall m, r = Ok (Some (inl m)) -> exists resp body, u = inl (resp, body) /\ parse body = Ok (inl m)) -> r <> Ok None -> tr = [] ->
    upload_run (S n) attempts payload ([Event (answer := reply wanswer) (WMake rq, s0) (u, s1)] ++ tr) r) as Hend.
  { intros tr x Hx Hne ->. split; [done|cbn; lia|by repeat constructor|exact Hone|apply Forall_nil_2|].
    intros m Em. destruct (Hx m Em) as (resp & body & -> & E). by exists resp, body. }
  destruct u as [[resp body]|e]; [|apply sruns_ret in H2 as (-> & -> & _); by apply Hend].
  apply sruns_silent in H2 as [(x & s2 & Hx & H2)|[-> Hr]]; [| |apply silent_of_res]; cycle 1.
  { apply Hend; [by intros m ->; destruct (Hr (Some (inl m)))|apply Hr|done]. }
  assert (parse body = Ok x) as Ex.
  { destruct (parse body) as [y|e|[]]; cbn in Hx; first [apply sruns_ret in Hx|apply sruns_throw in Hx|apply sruns_panic in Hx|apply sruns_end in Hx]; destruct Hx as (_ & E & _); congruence. }
  destruct x as [m|e].
  { apply sruns_ret in H2 as (-> & -> & _). apply Hend; [|done..]. intros m' [= <-]. by exists resp, body. }
  destruct (no_more (attempts + 1) e) eqn:En; [apply sruns_ret in H2 as (-> & -> & _); by apply Hend|].
  unfold no_more in En. apply orb_false_iff in En as [[En1 En2]%orb_false_iff En3]. unfold Http.MaxHTTPRetries in En1.
  apply sruns_bind in H2 as (r2 & s3 & t3 & t4 & -> & H3 & H2). apply sruns_wblock in H3 as (z & -> & ->).
  apply IH in H2; [|lia..]. destruct H2 as [E1 E2 E3 E4 E5 E6].
  assert (forall q, answers ([Event (answer := reply wanswer) (WMake rq, s0) (inl (resp, body), s1)] ++ [Event (answer := reply wanswer) (WSleep q, s2) (z, s3)] ++ t4) = inl (resp, body) :: answers t4) as Ea by done.
  split; rewrite ?Ea; cbn [length].
  - done.
  - lia.
  - by apply Forall_cons.
  - change (rhythm _) with (None :: Some ((attempts + 1) * 3 * Second) :: rhythm t4). destruct n as [|n]; [lia|].
    change (rounds attempts (S (S n))) with (None :: Some ((attempts + 1) * 3 * Second) :: rounds (attempts + 1) (S n)). by do 2 apply prefix_cons.
  - replace (S (length (answers t4)) - 1)%nat with (length (answers t4)) by lia. destruct (answers t4) as [|a l]; [apply Forall_nil_2|].
    cbn [length] in E5 |- *. replace (S (length l) - 1)%nat with (length l) in E5 by lia. cbn [take]. constructor; [|done].
    by exists resp, body, e.
  - intros m Em. destruct (E6 m Em) as (resp' & body' & El & Ep). exists resp', body'. split; [|done]. by rewrite last_cons, El.
Qed.

(** C20. An upload ends: it is made at most six times, each time with the same form, again only
    after an answer that may pass, and after each such answer only when a pause is over, of three
    seconds after the first and of three more after each further one; it succeeds with what the
    last answer says of the file. *)
Theorem upload_ends threadID media s tr r s'
    (H : sruns (SendMercuryUploadRequest cookie_text U_mercury U_list U_map threadID media) s tr r s') : exists payload, upload_run 6 0 payload tr r.
Proof.
  unfold SendMercuryUploadRequest in H. apply sruns_bind in H as (r1 & s1 & t1 & t2 & -> & H1 & H2). apply sruns_wtell in H1 as (random & s0 & -> & -> & ->).
  destruct (newMercuryMediaPayload random media) as [[payload contentType]|e].
  - exists payload. apply loop_runs in H2; [|lia..]. by destruct H2.
  - apply sruns_ret in H2 as (-> & -> & _). exists ""%string. split; first [done|cbn; lia|apply Forall_nil_2|apply prefix_nil].
Qed.
End Uploads.

(** * Examples *)

(** Answers by their texts: a list of one file, none, [null], a transient error. *)
Definition demo_mercury (body : string) : option MercuryResponse + string :=
  if (body =? "null")%string then inl None
  else if (body =? "busy")%string then inl (Some (mkMercury (mkErrorResponse 1357031 "try again") "" ""))
  else inl (Some (mkMercury (mkErrorResponse 0 "") "" body)).
Definition demo_list (s : string) : list FileMetadata + string :=
  inl (if (s =? "[]")%string then [] else [mkFileMetadata 0 0 0 77 0 "cat.jpg" "image/jpeg" "" ""]).
Definition demo_map (s : string) : gmap string FileMetadata + string := inl ∅.

Definition cat : MercuryUploadMedia := mkMedia "cat.jpg" "image/jpeg" "JFIF" false None.
Definition demo_send (media : MercuryUploadMedia) : WM (option (FileMetadata + error)) :=
  SendMercuryUploadRequest demo_cookie_text demo_mercury demo_list demo_map 5 media.
Definition demo_upload (media : MercuryUploadMedia) (l : list string) := play demo_server (demo_send media (demo_insta "")) l.

(** Twice busy, then done: after three and six seconds. *)
Example third_time : sleeps (demo_upload cat ["busy"; "busy"; "[x]"]%string).1.2 = [3 * Second; 6 * Second] /\
  match (demo_upload cat ["busy"; "busy"; "[x]"]%string).1.1.1 with Ok (Some (inl m)) => GetFbId m | _ => 0 end = 77.
Proof. vm_compute. auto. Qed.

Lemma upload_ends_witness : exists payload, upload_run demo_mercury demo_list demo_map 6 0 payload (demo_upload cat ["busy"; "busy"; "[x]"]%string).1.2
  (demo_upload cat ["busy"; "busy"; "[x]"]%string).1.1.1.
Proof.
  exact (upload_ends demo_cookie_text demo_mercury demo_list demo_map 5 cat (demo_insta "") _ _ _
    (play_sruns demo_server (demo_send cat) (demo_insta "") ["busy"; "busy"; "[x]"]%string)).
Defined.

(** A list without a file, and [null], make the upload panic. *)
Example empty_list_panics : (demo_upload cat ["[]"]%string).1.1.1 = Panic.
Proof. vm_compute. reflexivity. Qed.
Example null_panics : (demo_upload cat ["null"]%string).1.1.1 = Panic.
Proof. vm_compute. reflexivity. Qed.

(** The name of a file may end the header that holds it and begin another. *)
Definition evil : MercuryUploadMedia := mkMedia ("a" ++ String "034" (crlf ++ "X-Injected: 1")) "image/jpeg" "JFIF" false None.
Example name_injects_header : exists form ct, newMercuryMediaPayload "rnd" evil = inl (form, ct) /\ StrContains form (crlf ++ "X-Injected: 1") = true.
Proof. eexists _, _. split; vm_compute; reflexivity. Qed.
