(* ===== verification/DgwLoop.v ===== *)
(** * DgwLoop: the goroutines of the realtime gateway ([dgw/dgwsocket.go])

    Six goroutines share a connection: the reader, the writer, one that watches for pongs, the
    processor of frames, the pinger, and the caller, which shakes hands and then waits for the
    others.  Frames pass through channels without room: a sender waits until its receiver takes
    what it sends, so that both move in one step.  A state is where each goroutine is beside
    what they share; an action is a step of one of them, or of two that meet.  Frames are those
    of [DGW]; a message is split by [DGW.read_message], a frame handled by [DGW.handle_frame]. *)

From Stdlib Require Import Ascii.
From S2P Require Import Prelude Strconv Url Json Errors DGW.
From S2P Require HttpMethods.
#[local] Open Scope Z_scope.

(** ** Connecting *)

Definition CanConnect (conn authenticated : bool) : option error :=
  if conn then Some (Wrap "DGW: " (SentinelError ErrSocketAlreadyOpen))
  else if negb authenticated then Some (Wrap "DGW: " (SentinelError ErrNotAuthenticated))
  else None.

(** The dialler gives a connection, or an error with the status of the response if there is one;
    the read loop always ends with an error. *)
Definition Connect (dialled : unit + error * option Z) (loop_error : error) : error :=
  match dialled with
  | inr (e, status) =>
      Wrap "DGW: " (WrapSuffix (WrapBoth (SentinelError ErrDial) e) (" (status code " ++ FormatInt 10 (default 999 status) ++ ")"))
  | inl _ => Wrap "DGW: " (WrapBoth (SentinelError ErrInReadLoop) loop_error)
  end.

Definition getConnHeaders (cookie base_url : string) : list (string * string) :=
  [("cookie", cookie); ("user-agent", HttpMethods.UserAgent); ("origin", base_url)]%string.

Definition getConnURL (deviceID : string) : string :=
  "wss://gateway.instagram.com/ws/realtime?" ++
  Values_Encode [("x-dgw-appid", "936619743392459"); ("x-dgw-appversion", "0"); ("x-dgw-authtype", "6:0"); ("x-dgw-version", "5");
                 ("x-dgw-uuid", "0"); ("x-dgw-tier", "prod"); ("x-dgw-deviceid", deviceID); ("x-dgw-app-stream-group", "group1")]%string.

(** The parameters of the second frame of the handshake. *)
Definition typing_parameters (userID : string) : value :=
  struct [field "input_data" (struct [field "user_id" userID]);
          field "%options" (struct [field "useOSSResponseFormat" true; field "client_has_ods_usecase_counters" true])].
Definition json_payload (userID : string) : res (list byte) := Ok (s2l (Json.Marshal (typing_parameters userID))).

(** ** States *)

(** The reader hands over the frames of a message, [f] first, and then ends the message as [r]
    says; it may be in a loop that takes nothing off the message. *)
Inductive Reader := Reading | Handing (f : Frame) (fs : list Frame) (r : res ()) | Spinning | ReaderEnded.
Inductive Writer := WFree | WWriting (f : Frame) | WEnded.
(** The processor waits for the writer to take the acknowledgement of a frame. *)
Inductive Processor := Receiving | Acking (f : Frame) | ProcessorEnded.
Inductive Pinger := Ticking | Pinging | PingerEnded.
(** The caller hands over the first frame, waits for its answer, hands over the second, waits
    again, serves, waits for the others, and returns. *)
Inductive Main := Subscribing | AwaitsOpen | Asking (f : Frame) | AwaitsAck | Serving | Joining (e : option error) | Returned (e : error).

(** [err] is the first fatal error, which also closes the channel [done]; [loop] is what the
    processor leaves.  [arrived] are the frames of all messages, [taken] those the processor
    took, [sent] those the writer took, [written] those it wrote. *)
Record Gateway := mkGateway {
  reader : Reader; writer : Writer; watching : bool; processor : Processor; pinger : Pinger; main : Main;
  err : option error; loop : LoopState; arrived : list Frame; taken : list Frame; sent : list Frame; written : list Frame;
  crashed : option halt
}.

Definition set_reader (r : Reader) (s : Gateway) : Gateway :=
  mkGateway r (writer s) (watching s) (processor s) (pinger s) (main s) (err s) (loop s) (arrived s) (taken s) (sent s) (written s) (crashed s).
Definition set_writer (w : Writer) (s : Gateway) : Gateway :=
  mkGateway (reader s) w (watching s) (processor s) (pinger s) (main s) (err s) (loop s) (arrived s) (taken s) (sent s) (written s) (crashed s).
Definition unwatch (s : Gateway) : Gateway :=
  mkGateway (reader s) (writer s) false (processor s) (pinger s) (main s) (err s) (loop s) (arrived s) (taken s) (sent s) (written s) (crashed s).
Definition set_processor (p : Processor) (s : Gateway) : Gateway :=
  mkGateway (reader s) (writer s) (watching s) p (pinger s) (main s) (err s) (loop s) (arrived s) (taken s) (sent s) (written s) (crashed s).
Definition set_pinger (p : Pinger) (s : Gateway) : Gateway :=
  mkGateway (reader s) (writer s) (watching s) (processor s) p (main s) (err s) (loop s) (arrived s) (taken s) (sent s) (written s) (crashed s).
Definition set_main (m : Main) (s : Gateway) : Gateway :=
  mkGateway (reader s) (writer s) (watching s) (processor s) (pinger s) m (err s) (loop s) (arrived s) (taken s) (sent s) (written s) (crashed s).
Definition set_err (e : option error) (s : Gateway) : Gateway :=
  mkGateway (reader s) (writer s) (watching s) (processor s) (pinger s) (main s) e (loop s) (arrived s) (taken s) (sent s) (written s) (crashed s).
Definition set_loop (l : LoopState) (s : Gateway) : Gateway :=
  mkGateway (reader s) (writer s) (watching s) (processor s) (pinger s) (main s) (err s) l (arrived s) (taken s) (sent s) (written s) (crashed s).
Definition note_arrived (fs : list Frame) (s : Gateway) : Gateway :=
  mkGateway (reader s) (writer s) (watching s) (processor s) (pinger s) (main s) (err s) (loop s) (arrived s ++ fs) (taken s) (sent s) (written s) (crashed s).
Definition note_taken (f : Frame) (s : Gateway) : Gateway :=
  mkGateway (reader s) (writer s) (watching s) (processor s) (pinger s) (main s) (err s) (loop s) (arrived s) (taken s ++ [f]) (sent s) (written s) (crashed s).
Definition note_sent (f : Frame) (s : Gateway) : Gateway :=
  mkGateway (reader s) (writer s) (watching s) (processor s) (pinger s) (main s) (err s) (loop s) (arrived s) (taken s) (sent s ++ [f]) (written s) (crashed s).
Definition note_written (f : Frame) (s : Gateway) : Gateway :=
  mkGateway (reader s) (writer s) (watching s) (processor s) (pinger s) (main s) (err s) (loop s) (arrived s) (taken s) (sent s) (written s ++ [f]) (crashed s).
Definition crash (h : halt) (s : Gateway) : Gateway :=
  mkGateway (reader s) (writer s) (watching s) (processor s) (pinger s) (main s) (err s) (loop s) (arrived s) (taken s) (sent s) (written s) (Some h).

Definition started : Gateway := mkGateway Reading WFree true Receiving Ticking Subscribing None initial_loop [] [] [] [] None.

(** [fatalError], which does its work once. *)
Definition fatal_error (e : error) (s : Gateway) : Gateway := match err s with None => set_err (Some e) s | Some _ => s end.
Definition done (s : Gateway) : bool := match err s with Some _ => true | None => false end.

(** ** Actions *)

Inductive Action :=
| RRead (mt : MessageType) (data : list byte)   (* a message *)
| RError (e : string)
| RHand                                         (* the processor takes a frame *)
| WWrite (e : option string)
| WDone
| PongTimeout
| PongDone
| HandAck                                       (* the writer takes an acknowledgement *)
| ProcessorDone
| PingTick
| HandPing
| PingDone
| HandMain
| MainAcked
| MainTimeout (e : error)
| MainDone
| MainCancelled (e : error)
| MainJoined.

Section Gateway.
Context (json_Marshal : OpenFrameParams -> res (list byte)) (json_Unmarshal : list byte -> OpenFrameParams -> res OpenFrameParams).
Context (parse_event : list byte -> res (list XDTOp)) (parse_indicator : string -> res ActivityIndicator).
Context (userID : string).

(** The reader with the frames [fs] of a message left. *)
Definition hand (fs : list Frame) (r : res ()) (s : Gateway) : Gateway :=
  match fs, r with
  | f :: fs, _ => set_reader (Handing f fs r) s
  | [], Halt HDiverge => set_reader Spinning s
  | [], Halt h => crash h s
  | [], _ => set_reader Reading s
  end.

(** The processor handles a frame whose acknowledgement, if it asks for one, is sent. *)
Definition process (f : Frame) (s : Gateway) : Gateway :=
  match handle_frame parse_event parse_indicator (loop s) f with
  | Ok l =>
      let s := set_processor Receiving (set_loop l s) in
      match DGW.fatal l with Some e => fatal_error (OtherError e) s | None => s end
  | Err _ => s
  | Halt h => crash h s
  end.

Definition take_frame (f : Frame) (s : Gateway) : Gateway :=
  match acks f with
  | [] => process f (note_taken f s)
  | _ :: _ => set_processor (Acking f) (note_taken f s)
  end.

Definition to_writer (f : Frame) (s : Gateway) : Gateway := set_writer (WWriting f) (note_sent f s).

Definition write_frame (f : Frame) (e : option string) (s : Gateway) : Gateway :=
  match DGW.Marshal json_Marshal f with
  | Halt h => crash h s
  | Err _ => set_writer WFree s
  | Ok _ =>
      match e with
      | None => set_writer WFree (note_written f s)
      | Some e => set_writer WFree (fatal_error (Wrap "writing message: " (OtherError e)) s)
      end
  end.

Definition no_ack (which : string) (e : error) (s : Gateway) : Gateway :=
  let e := Wrap ("didn't get ack for " ++ which ++ " subscription frame: ") e in
  set_main (Joining (Some e)) (fatal_error e s).

Definition all_ended (s : Gateway) : bool :=
  match reader s, writer s, watching s, processor s, pinger s with
  | ReaderEnded, WEnded, false, ProcessorEnded, PingerEnded => true
  | _, _, _, _, _ => false
  end.

Definition reader_act (a : Action) (s : Gateway) : option Gateway :=
  match reader s, a with
  | Reading, RRead mt data =>
      let '(fs, r) := read_message json_Unmarshal (length data) mt data in Some (hand fs r (note_arrived fs s))
  | Reading, RError e => Some (set_reader ReaderEnded (fatal_error (Wrap "reading message: " (OtherError e)) s))
  | Handing f fs r, RHand => match processor s with Receiving => Some (take_frame f (hand fs r s)) | _ => None end
  | _, _ => None
  end.

Definition writer_act (a : Action) (s : Gateway) : option Gateway :=
  match writer s, a with
  | WWriting f, WWrite e => Some (write_frame f e s)
  | WFree, WDone => if done s then Some (set_writer WEnded s) else None
  | _, _ => None
  end.

Definition watcher_act (a : Action) (s : Gateway) : option Gateway :=
  match watching s, a with
  | true, PongTimeout => Some (unwatch (fatal_error (OtherError "pong timeout") s))
  | true, PongDone => if done s then Some (unwatch s) else None
  | _, _ => None
  end.

Definition processor_act (a : Action) (s : Gateway) : option Gateway :=
  match processor s, a with
  | Acking f, HandAck =>
      match writer s, acks f with WFree, ack :: _ => Some (process f (to_writer ack s)) | _, _ => None end
  | Receiving, ProcessorDone => match reader s with ReaderEnded => Some (set_processor ProcessorEnded s) | _ => None end
  | _, _ => None
  end.

Definition pinger_act (a : Action) (s : Gateway) : option Gateway :=
  match pinger s, a with
  | Ticking, PingTick => Some (set_pinger Pinging s)
  | Ticking, PingDone => if done s then Some (set_pinger PingerEnded s) else None
  | Pinging, HandPing => match writer s with WFree => Some (set_pinger Ticking (to_writer PingFrame s)) | _ => None end
  | _, _ => None
  end.

Definition main_act (a : Action) (s : Gateway) : option Gateway :=
  match main s, a with
  | Subscribing, HandMain =>
      match writer s with WFree => Some (set_main AwaitsOpen (to_writer getTypingIndicatorSubscriptionFrame s)) | _ => None end
  | AwaitsOpen, MainAcked =>
      if ackSubscription (loop s) then
        Some (match getTypingIndicatorParametersFrame json_payload userID with
              | Ok f => set_main (Asking f) s
              | Err e => set_main (Returned (OtherError e)) s
              | Halt h => crash h s
              end)
      else None
  | AwaitsOpen, MainTimeout e => Some (no_ack "first" e s)
  | Asking f, HandMain => match writer s with WFree => Some (set_main AwaitsAck (to_writer f s)) | _ => None end
  | AwaitsAck, MainAcked => if ackParameters (loop s) then Some (set_main Serving s) else None
  | AwaitsAck, MainTimeout e => Some (no_ack "second" e s)
  | Serving, MainDone => if done s then Some (set_main (Joining None) s) else None
  | Serving, MainCancelled e => Some (set_main (Joining None) (fatal_error e s))
  | Joining e, MainJoined =>
      if all_ended s then
        match e, err s with
        | Some e, _ | None, Some e => Some (set_main (Returned e) s)
        | None, None => Some (crash HPanic s)
        end
      else None
  | _, _ => None
  end.

Definition act (a : Action) (s : Gateway) : option Gateway :=
  match crashed s with
  | Some _ => None
  | None =>
      match a with
      | RRead _ _ | RError _ | RHand => reader_act a s
      | WWrite _ | WDone => writer_act a s
      | PongTimeout | PongDone => watcher_act a s
      | HandAck | ProcessorDone => processor_act a s
      | PingTick | HandPing | PingDone => pinger_act a s
      | _ => main_act a s
      end
  end.

Fixpoint run (l : list Action) (s : Gateway) : option Gateway :=
  match l with
  | [] => Some s
  | a :: l => match act a s with Some s => run l s | None => None end
  end.

Definition reachable (s : Gateway) : Prop := exists l, run l started = Some s.
End Gateway.

(** * Lemmas *)

Lemma json_payload_ok userID : exists f, getTypingIndicatorParametersFrame json_payload userID = Ok f /\
  f = DataFrame Stream_TYPING ([x2c; x18; x78] ++ s2l (Json.Marshal (typing_parameters userID)) ++ [x00; x00]) true 0.
Proof. by eexists. Qed.

Definition acknowledgement (f : Frame) : option Frame := match f with AckFrame _ _ => Some f | _ => None end.
Definition asks (f : Frame) : option Frame := match f with DataFrame _ _ _ _ => Some f | _ => None end.
Definition opens (f : Frame) : option Frame := match f with OpenFrame _ _ _ => Some f | _ => None end.

Lemma omap_one {A} (g : Frame -> option A) f : omap g [f] = match g f with Some x => [x] | None => [] end.
Proof. done. Qed.

Section Proofs.
Context (json_Marshal : OpenFrameParams -> res (list byte)) (json_Unmarshal : list byte -> OpenFrameParams -> res OpenFrameParams).
Context (parse_event : list byte -> res (list XDTOp)) (parse_indicator : string -> res ActivityIndicator).
Context (userID : string).

#[local] Abbreviation act := (act json_Marshal json_Unmarshal parse_event parse_indicator userID).
#[local] Abbreviation run := (run json_Marshal json_Unmarshal parse_event parse_indicator userID).
#[local] Abbreviation reachable := (reachable json_Marshal json_Unmarshal parse_event parse_indicator userID).
#[local] Abbreviation handle_frames := (handle_frames parse_event parse_indicator).
#[local] Abbreviation handle_frame := (handle_frame parse_event parse_indicator).
#[local] Abbreviation process := (process parse_event parse_indicator).
#[local] Abbreviation take_frame := (take_frame parse_event parse_indicator).

Lemma handle_frames_app fs1 : forall s fs2, handle_frames s (fs1 ++ fs2) = (s ← handle_frames s fs1; handle_frames s fs2).
Proof. induction fs1 as [|f fs1 IH]; intros s fs2; [done|]. cbn. destruct (handle_frame s f); [apply IH|done..]. Qed.

Lemma handle_frames_snoc fs f s l : handle_frames s fs = Ok l -> handle_frames s (fs ++ [f]) = handle_frame l f.
Proof. intros H. rewrite handle_frames_app, H. cbn. by destruct (handle_frame l f). Qed.

(** ** The invariant *)

(** The frames of the message at hand that are still to be taken. *)
Definition pending (s : Gateway) : list Frame := match reader s with Handing f fs _ => f :: fs | _ => [] end.
(** The frames the processor is done with. *)
Definition processed (s : Gateway) (l : list Frame) : Prop :=
  match processor s with Acking f => taken s = l ++ [f] /\ acks f <> [] | _ => taken s = l end.
Definition the_parameters : Frame := DataFrame Stream_TYPING ([x2c; x18; x78] ++ s2l (Json.Marshal (typing_parameters userID)) ++ [x00; x00]) true 0.
Definition writing (s : Gateway) : list Frame := match writer s with WWriting f => [f] | _ => [] end.

(** What the caller has done, and what it knows. *)
Definition main_ok (s : Gateway) : Prop :=
  match main s with
  | Subscribing | AwaitsOpen => omap asks (sent s) = []
  | Asking f => f = the_parameters /\ omap asks (sent s) = [] /\ ackSubscription (loop s) = true
  | Serving => ackParameters (loop s) = true
  | Joining _ => is_Some (err s)
  | Returned e => all_ended s = true /\ is_Some (err s)
  | AwaitsAck => True
  end.

(** What holds of the goroutines beside the processor. *)
Record core (s : Gateway) : Prop := {
  c_arrived : arrived s = taken s ++ pending s;
  c_fatal : DGW.fatal (loop s) <> None -> is_Some (err s);
  c_ended : reader s = ReaderEnded \/ writer s = WEnded \/ watching s = false \/ pinger s = PingerEnded -> is_Some (err s);
  c_opens : omap opens (sent s) = match main s with Subscribing => [] | _ => [getTypingIndicatorSubscriptionFrame] end;
  c_asks : omap asks (sent s) = [] \/ omap asks (sent s) = [the_parameters] /\ ackSubscription (loop s) = true;
  c_main : main_ok s;
  c_written : written s ++ writing s `sublist_of` sent s
}.

Record inv (s : Gateway) : Prop := {
  inv_core : core s;
  inv_loop : exists l, processed s l /\ handle_frames initial_loop l = Ok (loop s);
  inv_processor : processor s = ProcessorEnded -> reader s = ReaderEnded;
  inv_acks : omap acknowledgement (sent s) = outgoing (loop s)
}.

Definition down (s : Gateway) : Prop := exists h, crashed s = Some h.

Lemma gateway_inv_started : inv started.
Proof. split; [split; cbn; try done; [naive_solver|by left]|by exists []|done..]. Qed.

(** *** Steps that change little *)

Lemma core_fatal_error e s : core s -> core (fatal_error e s).
Proof.
  unfold fatal_error. destruct (err s) eqn:E; [done|]. intros [H1 H2 H3 H4 H5 H6 H7]. split; cbn; try done; try (intros; by eexists).
  unfold main_ok in *. cbn. destruct (main s); first [done|by eexists|destruct H6; split; [done|by eexists]].
Qed.
Lemma inv_fatal_error e s : inv s -> inv (fatal_error e s).
Proof.
  intros [H1 H2 H3 H4]. split; [by apply core_fatal_error|..]; unfold fatal_error; by destruct (err s).
Qed.
Lemma err_fatal_error e s : is_Some (err (fatal_error e s)).
Proof. unfold fatal_error. destruct (err s) eqn:E; cbn; [by rewrite E|by eexists]. Qed.
Lemma done_err s : done s = true -> is_Some (err s).
Proof. unfold done. by destruct (err s). Qed.

(** Nobody returns while a goroutine runs. *)
Lemma not_returned s : inv s -> all_ended s = false -> forall e, main s <> Returned e.
Proof. intros [[_ _ _ _ _ H _] _ _ _] Ha e E. unfold main_ok in H. rewrite E, Ha in H. by destruct H. Qed.

Lemma main_ok_same s s' : main s' = main s -> (forall e, main s <> Returned e) -> omap asks (sent s') = omap asks (sent s) ->
  (ackSubscription (loop s) = true -> ackSubscription (loop s') = true) -> (ackParameters (loop s) = true -> ackParameters (loop s') = true) ->
  (is_Some (err s) -> is_Some (err s')) -> main_ok s -> main_ok s'.
Proof. unfold main_ok. intros -> Hr -> H1 H2 H3. destruct (main s); naive_solver. Qed.

(** *** The processor *)

Lemma handle_frame_keeps s f l : handle_frame s f = Ok l ->
  outgoing l = outgoing s ++ acks f /\ (ackSubscription s = true -> ackSubscription l = true) /\ (ackParameters s = true -> ackParameters l = true).
Proof. intros (E1 & E2 & E3 & _)%handle_frame_effect. split; [done|]. rewrite E2, E3. split; intros ->; done. Qed.

Lemma handle_ops_no_error evs : forall s e, handle_ops parse_indicator s evs <> Err e.
Proof.
  induction evs as [|ev evs IH]; intros s e; [done|]. cbn. unfold handle_op.
  destruct (parse_indicator _) as [ind| |]; cbn; [destruct (match_activity_path _)|..]; cbn; done || apply IH.
Qed.
Lemma handle_frame_no_error s f e : handle_frame s f <> Err e.
Proof.
  destruct f as [raw| | |sid payload ra aid|sid aid|sid p raw]; cbn [DGW.handle_frame]; try (by repeat case_match).
  set (s1 := if ra then _ else _). clearbody s1. destruct (Contains payload activity_marker); [|done].
  destruct (slice_cases payload (IndexByte payload open_brace) (LastIndexByte payload close_brace + 1)) as [->|[j ->]]; [done|].
  cbn. destruct (parse_event j); [apply handle_ops_no_error|done..].
Qed.

Lemma process_inv l f s : core s -> (forall e, main s <> Returned e) -> taken s = l ++ [f] -> handle_frames initial_loop l = Ok (loop s) ->
  omap acknowledgement (sent s) = outgoing (loop s) ++ acks f -> down (process f s) \/ inv (process f s).
Proof.
  intros Hc Hm Ht Hl Ha. unfold DgwLoop.process. destruct (handle_frame (loop s) f) as [l'|e|h] eqn:E; [|by apply handle_frame_no_error in E|left; by exists h].
  right. apply handle_frame_keeps in E as Hk. destruct Hk as (Eo & Es & Ep).
  set (s2 := match DGW.fatal l' with Some e => fatal_error (OtherError e) s | None => s end).
  assert (match DGW.fatal l' with Some e => fatal_error (OtherError e) (set_processor Receiving (set_loop l' s)) | None => set_processor Receiving (set_loop l' s) end
    = set_processor Receiving (set_loop l' s2)) as ->.
  { unfold s2, fatal_error. destruct (DGW.fatal l'); [|done]. cbn. by destruct (err s). }
  assert (DGW.fatal l' <> None -> is_Some (err s2)) as Hf by (unfold s2; destruct (DGW.fatal l'); [intros _; apply err_fatal_error|done]).
  assert (core s2) as [H1 H2 H3 H4 H5 H6 H7] by (unfold s2; destruct (DGW.fatal l'); [by apply core_fatal_error|done]).
  assert (main s2 = main s /\ loop s2 = loop s /\ taken s2 = taken s /\ sent s2 = sent s) as (E1 & E2 & E3 & E4).
  { unfold s2, fatal_error. destruct (DGW.fatal l'); [|done]. by destruct (err s). }
  clearbody s2. split; cbn; try done.
  - split; cbn; try done.
    + rewrite E2 in H5. destruct H5 as [?|[? ?]]; [by left|right; auto].
    + rewrite <- E1 in Hm. rewrite <- E2 in Es, Ep. by eapply main_ok_same; [..|exact H6].
  - exists (l ++ [f]). split; [congruence|]. by rewrite (handle_frames_snoc _ _ _ _ Hl).
  - congruence.
Qed.

(** *** Actions *)

(** A step of a goroutine other than the caller and the processor. *)
Lemma core_of s s' : core s -> (forall e, main s <> Returned e) -> main s' = main s -> loop s' = loop s -> sent s' = sent s ->
  (is_Some (err s) -> is_Some (err s')) -> arrived s' = taken s' ++ pending s' ->
  (reader s' = ReaderEnded \/ writer s' = WEnded \/ watching s' = false \/ pinger s' = PingerEnded -> is_Some (err s')) ->
  written s' ++ writing s' `sublist_of` sent s' -> core s'.
Proof.
  intros [H1 H2 H3 H4 H5 H6 H7] Hm Em El Es He Ha Hd Hw. split; rewrite ?Em, ?El, ?Es; auto.
  - by eapply main_ok_same; [exact Em|exact Hm|by rewrite Es|rewrite El..|exact He|exact H6].
  - by rewrite <- Es.
Qed.

Lemma inv_of s s' : inv s -> core s' -> processor s' = processor s -> loop s' = loop s -> sent s' = sent s -> taken s' = taken s ->
  (reader s = ReaderEnded -> reader s' = ReaderEnded) -> inv s'.
Proof.
  intros [H1 (l & H2 & H2') H3 H4] Hc Ep El Es Et Hr. split; [done|exists l|..]; unfold processed; rewrite ?Ep, ?El, ?Es, ?Et; auto.
Qed.

Lemma down_process f s : down s -> down (process f s).
Proof.
  intros [h Hh]. unfold DgwLoop.process. destruct (handle_frame _ _) as [l|e|h']; [|by exists h|by exists h'].
  destruct (DGW.fatal l); [unfold fatal_error; cbn; destruct (err s)|]; by exists h.
Qed.
Lemma down_take f s : down s -> down (take_frame f s).
Proof. intros [h Hh]. unfold DgwLoop.take_frame. destruct (acks f); [apply down_process|]; by exists h. Qed.

(** What the reader goes on with. *)
Lemma hand_cases fs r s : down (hand fs r s) \/
  exists r', hand fs r s = set_reader r' s /\ pending (set_reader r' s) = fs /\ r' <> ReaderEnded.
Proof.
  destruct fs as [|f fs]; cbn [hand]; [|right; by eexists].
  destruct r as [[]|e|[]]; cbn; first [left; by eexists|right; by eexists].
Qed.

Lemma take_inv f fs r s : inv s -> reader s = Handing f fs r -> processor s = Receiving ->
  let s' := take_frame f (hand fs r s) in down s' \/ inv s'.
Proof.
  intros H Hr Hp. cbv zeta. assert (forall e, main s <> Returned e) as Hm by (apply not_returned; [done|unfold all_ended; by rewrite Hr]).
  destruct (hand_cases fs r s) as [Hd|(r' & -> & Hpe & Hne)]; [left; by apply down_take|].
  destruct H as [Hc (l & Hl & Hf) _ Ha]. unfold processed in Hl. rewrite Hp in Hl.
  assert (core (note_taken f (set_reader r' s))) as Hc2.
  { eapply core_of; [exact Hc|done..|cbn|cbn|]; cbn.
    - rewrite (c_arrived _ Hc). unfold pending. rewrite Hr. unfold pending in Hpe. cbn in *. by rewrite Hpe, <- app_assoc.
    - intros [?|Hx]; [done|]. apply (c_ended _ Hc). by right.
    - apply (c_written _ Hc). }
  unfold DgwLoop.take_frame. destruct (acks f) as [|a l'] eqn:Ef.
  - eapply (process_inv l); [done|done|cbn; by rewrite Hl|done|]. cbn. by rewrite Ef, app_nil_r.
  - right. split; cbn; [|exists l; unfold processed; cbn; split; [split; [by rewrite Hl|congruence]|done]|done..].
    eapply core_of; [exact Hc2|done..|apply (c_arrived _ Hc2)|apply (c_ended _ Hc2)|apply (c_written _ Hc2)].
Qed.

Lemma gateway_reader_act_inv a s s' : inv s -> reader_act json_Unmarshal parse_event parse_indicator a s = Some s' -> down s' \/ inv s'.
Proof.
  intros H E. unfold reader_act in E. destruct (reader s) as [|f fs r| |] eqn:Hr, a as [mt data|e| | | | | | | | | | | | | | | |]; try done.
  all: assert (forall e, main s <> Returned e) as Hm by (apply not_returned; [done|unfold all_ended; by rewrite Hr]).
  - destruct (read_message _ _ _ _) as [fs r]. injection E as <-. destruct (hand_cases fs r (note_arrived fs s)) as [Hd|(r' & -> & Hpe & Hne)]; [by left|].
    right. eapply inv_of; [exact H| |done..|cbn; congruence]. eapply core_of; [apply H|done..| | |cbn; apply (c_written s), H].
    + cbn. rewrite (c_arrived s) by apply H. unfold pending in *. rewrite Hr. cbn in *. by rewrite Hpe, app_nil_r.
    + cbn. intros [?|Hx]; [done|]. apply (c_ended s); [apply H|by right].
  - injection E as <-. right. pose proof (err_fatal_error (Wrap "reading message: " (OtherError e)) s) as He.
    apply (inv_fatal_error (Wrap "reading message: " (OtherError e))) in H.
    assert (main (fatal_error (Wrap "reading message: " (OtherError e)) s) = main s /\ reader (fatal_error (Wrap "reading message: " (OtherError e)) s) = Reading) as [Em Er].
    { unfold fatal_error. by destruct (err s). }
    set (s1 := fatal_error _ s) in *. clearbody s1. rewrite <- Em in Hm.
    eapply inv_of; [exact H| |done..]. eapply core_of; [apply H|done..| |done|apply (c_written s1), H].
    cbn. rewrite (c_arrived s1) by apply H. unfold pending. by rewrite Er.
  - destruct (processor s) eqn:Hp; try done. injection E as <-. by apply take_inv.
Qed.

Lemma fatal_error_frame e s : let s' := fatal_error e s in reader s' = reader s /\ writer s' = writer s /\ watching s' = watching s /\
  processor s' = processor s /\ pinger s' = pinger s /\ main s' = main s /\ loop s' = loop s /\ sent s' = sent s /\ written s' = written s.
Proof. unfold fatal_error. by destruct (err s). Qed.

Lemma writer_act_inv a s s' : inv s -> writer_act json_Marshal a s = Some s' -> down s' \/ inv s'.
Proof.
  intros H E. unfold writer_act in E. destruct (writer s) as [|f|] eqn:Hw, a as [| | |e| | | | | | | | | | | | | |]; try done.
  all: assert (forall e, main s <> Returned e) as Hm by (apply not_returned; [done|unfold all_ended; rewrite Hw; by destruct (reader s)]).
  - destruct (done s) eqn:Hd; [|done]. injection E as <-. right. apply done_err in Hd. eapply inv_of; [exact H| |done..].
    pose proof (inv_core s H) as Hc. eapply core_of; [exact Hc|done..|apply (c_arrived s Hc)|done|].
    pose proof (c_written s Hc) as Hx. unfold writing in *. rewrite Hw in Hx. exact Hx.
  - injection E as <-. unfold write_frame. pose proof (inv_core s H) as Hc. pose proof (c_written s Hc) as Hx. unfold writing in Hx. rewrite Hw in Hx.
    destruct (DGW.Marshal json_Marshal f) as [b|e'|h]; [|right|left; by exists h].
    + right. destruct e as [e|].
      * set (er := Wrap _ _). apply (inv_fatal_error er) in H. pose proof (fatal_error_frame er s) as (E1 & E2 & E3 & E4 & E5 & E6 & E7 & E8 & E9).
        pose proof (err_fatal_error er s) as He. set (s1 := fatal_error er s) in *. clearbody s1.
        eapply inv_of; [exact H| |done..]. eapply core_of; [apply H|by rewrite E6|done..|apply (c_arrived s1), H|done|].
        cbn. rewrite app_nil_r, E9, E8. etrans; [by apply sublist_inserts_r|exact Hx].
      * eapply inv_of; [exact H| |done..]. eapply core_of; [exact Hc|done..|apply (c_arrived s Hc)| |].
        -- cbn. intros Hy. apply (c_ended s Hc). naive_solver.
        -- cbn. by rewrite app_nil_r.
    + eapply inv_of; [exact H| |done..]. eapply core_of; [exact Hc|done..|apply (c_arrived s Hc)| |].
      * cbn. intros Hy. apply (c_ended s Hc). naive_solver.
      * cbn. rewrite app_nil_r. etrans; [by apply sublist_inserts_r|exact Hx].
Qed.

Lemma watcher_act_inv a s s' : inv s -> watcher_act a s = Some s' -> inv s'.
Proof.
  intros H E. unfold watcher_act in E. destruct (watching s) eqn:Hw; [|by destruct a].
  assert (forall e, main s <> Returned e) as Hm by (apply not_returned; [done|unfold all_ended; rewrite Hw; by destruct (reader s), (writer s)]).
  assert (forall s1, inv s1 -> main s1 = main s -> is_Some (err s1) -> inv (unwatch s1)) as Hu.
  { intros s1 H1 Em He. eapply inv_of; [exact H1| |done..]. eapply core_of; [apply H1|by rewrite Em|done..|apply (c_arrived s1), H1|done|apply (c_written s1), H1]. }
  destruct a; try done.
  - injection E as <-. apply Hu; [by apply inv_fatal_error|apply fatal_error_frame|apply err_fatal_error].
  - destruct (done s) eqn:Hd; [|done]. injection E as <-. apply Hu; [done..|by apply done_err].
Qed.

(** The writer takes a frame that is no part of the handshake. *)
Lemma core_to_writer f s : core s -> (forall e, main s <> Returned e) -> writer s = WFree -> opens f = None -> asks f = None -> core (to_writer f s).
Proof.
  intros [H1 H2 H3 H4 H5 H6 H7] Hm Hw Ho Ha. split; cbn; try done.
  - intros Hx. apply H3. naive_solver.
  - by rewrite omap_app, H4, (omap_one opens), Ho, app_nil_r.
  - rewrite omap_app, (omap_one asks), Ha, app_nil_r. done.
  - eapply (main_ok_same s); [done|exact Hm| |done..]. cbn. by rewrite omap_app, (omap_one asks), Ha, app_nil_r.
  - unfold writing in H7. rewrite Hw, app_nil_r in H7. cbn. apply sublist_app; [done|reflexivity].
Qed.

Lemma acks_shape f a l : acks f = a :: l -> l = [] /\ opens a = None /\ asks a = None /\ acknowledgement a = Some a.
Proof. destruct f as [| | |? ? [] ?| |]; cbn; try done. by intros [= <- <-]. Qed.

Lemma processor_act_inv a s s' : inv s -> processor_act parse_event parse_indicator a s = Some s' -> down s' \/ inv s'.
Proof.
  intros H E. unfold processor_act in E. destruct (processor s) as [|f|] eqn:Hp, a; try done.
  all: assert (forall e, main s <> Returned e) as Hm by (apply not_returned; [done|unfold all_ended; rewrite Hp; by destruct (reader s), (writer s), (watching s)]).
  - destruct (reader s) eqn:Hr; try done. injection E as <-. right. destruct H as [Hc (l & Hl & Hf) _ Ha]. split; cbn; try done.
    + eapply core_of; [exact Hc|done..|apply (c_arrived s Hc)|apply (c_ended s Hc)|apply (c_written s Hc)].
    + exists l. unfold processed in *. by rewrite Hp in Hl.
  - destruct (writer s) eqn:Hw; try done. destruct (acks f) as [|b l'] eqn:Ef; [done|]. injection E as <-.
    apply acks_shape in Ef as Hs. destruct Hs as (-> & Ho & Hk & Hb). destruct H as [Hc (l & Hl & Hf) _ Ha]. unfold processed in Hl. rewrite Hp in Hl.
    apply (process_inv l); [by apply core_to_writer|done|apply Hl|done|]. cbn. by rewrite omap_app, (omap_one acknowledgement), Hb, Ha, Ef.
Qed.

Lemma pinger_act_inv a s s' : inv s -> pinger_act a s = Some s' -> inv s'.
Proof.
  intros H E. pose proof (inv_core s H) as Hc. unfold pinger_act in E. destruct (pinger s) eqn:Hp, a; try done.
  all: assert (forall e, main s <> Returned e) as Hm by (apply not_returned; [done|unfold all_ended; rewrite Hp; by destruct (reader s), (writer s), (watching s), (processor s)]).
  - injection E as <-. eapply inv_of; [exact H| |done..]. eapply core_of; [exact Hc|done..|apply (c_arrived s Hc)| |apply (c_written s Hc)].
    cbn. intros Hx. apply (c_ended s Hc). naive_solver.
  - destruct (done s) eqn:Hd; [|done]. injection E as <-. eapply inv_of; [exact H| |done..].
    eapply core_of; [exact Hc|done..|apply (c_arrived s Hc)|cbn; intros _; by apply done_err|apply (c_written s Hc)].
  - destruct (writer s) eqn:Hw; try done. injection E as <-.
    pose proof (core_to_writer PingFrame s Hc Hm Hw eq_refl eq_refl) as Hc2. destruct H as [_ (l & Hl & Hf) Hr Ha]. split; cbn; try done.
    + eapply core_of; [exact Hc2|done..|apply (c_arrived _ Hc2)| |apply (c_written _ Hc2)]. cbn. intros Hx. apply (c_ended s Hc). naive_solver.
    + by exists l.
    + by rewrite omap_app, app_nil_r.
Qed.

(** A step of the caller, which touches nothing of the others but the writer. *)
Lemma inv_main s s' : inv s -> core s' -> processor s' = processor s -> loop s' = loop s -> taken s' = taken s -> reader s' = reader s ->
  omap acknowledgement (sent s') = omap acknowledgement (sent s) -> inv s'.
Proof.
  intros [H1 (l & H2 & H2') H3 H4] Hc Ep El Et Er Es. split; [done|exists l|..]; unfold processed; rewrite ?Ep, ?El, ?Es, ?Et, ?Er; auto.
Qed.

Lemma no_ack_inv which e s : inv s -> main s = AwaitsOpen \/ main s = AwaitsAck -> inv (no_ack which e s).
Proof.
  intros H Hm. unfold no_ack. set (er := Wrap _ e). apply (inv_fatal_error er) in H. pose proof (err_fatal_error er s) as He.
  pose proof (fatal_error_frame er s) as (_ & _ & _ & _ & _ & Em & _). set (s1 := fatal_error er s) in *. clearbody s1.
  eapply inv_main; [exact H| |done..]. destruct (inv_core s1 H) as [H1 H2 H3 H4 H5 H6 H7]. split; cbn; try done.
  rewrite H4, Em. by destruct Hm as [->| ->].
Qed.

(** The caller has the writer take a frame of the handshake. *)
Lemma core_handshake f m s : core s -> writer s = WFree ->
  omap opens (sent s) ++ omap opens [f] = match m with Subscribing => [] | _ => [getTypingIndicatorSubscriptionFrame] end ->
  omap asks (sent s) ++ omap asks [f] = [] \/ omap asks (sent s) ++ omap asks [f] = [the_parameters] /\ ackSubscription (loop s) = true ->
  main_ok (set_main m (to_writer f s)) -> core (set_main m (to_writer f s)).
Proof.
  intros [H1 H2 H3 H4 H5 H6 H7] Hw Ho Ha Hk. split; cbn; try done.
  - intros Hx. apply H3. naive_solver.
  - by rewrite omap_app.
  - by rewrite omap_app.
  - unfold writing in H7. rewrite Hw, app_nil_r in H7. apply sublist_app; [done|reflexivity].
Qed.

Lemma main_act_inv a s s' : inv s -> main_act userID a s = Some s' -> down s' \/ inv s'.
Proof.
  intros H E. pose proof (inv_core s H) as Hc. pose proof (c_main s Hc) as Hk. pose proof (c_opens s Hc) as Ho. pose proof (c_asks s Hc) as Ha.
  unfold main_act in E. unfold main_ok in Hk. destruct (main s) as [| |f| | |e|e] eqn:Hm, a; try done.
  - destruct (writer s) eqn:Hw; try done. injection E as <-. right. eapply inv_main; [exact H| |done..|].
    + apply core_handshake; [done..|by rewrite Ho|by rewrite Hk; left|]. unfold main_ok. cbn. by rewrite omap_app, Hk.
    + cbn. by rewrite omap_app, app_nil_r.
  - destruct (ackSubscription (loop s)) eqn:Es; [|done]. destruct (json_payload_ok userID) as (f & Ef & Ep). rewrite Ef in E. injection E as <-.
    right. eapply inv_main; [exact H| |done..]. destruct Hc as [H1 H2 H3 H4 H5 H6 H7]. split; cbn; try done; by rewrite Ho.
  - injection E as <-. right. apply no_ack_inv; [done|by left].
  - destruct (writer s) eqn:Hw; try done. injection E as <-. right. destruct Hk as (-> & Hn & Es). eapply inv_main; [exact H| |done..|].
    + apply core_handshake; [done..|by rewrite Ho|right; by rewrite Hn|done].
    + cbn. by rewrite omap_app, app_nil_r.
  - destruct (ackParameters (loop s)) eqn:Es; [|done]. injection E as <-. right. eapply inv_main; [exact H| |done..].
    destruct Hc as [H1 H2 H3 H4 H5 H6 H7]. split; cbn; try done; by rewrite Ho.
  - injection E as <-. right. apply no_ack_inv; [done|by right].
  - destruct (done s) eqn:Hd; [|done]. injection E as <-. right. eapply inv_main; [exact H| |done..].
    destruct Hc as [H1 H2 H3 H4 H5 H6 H7]. split; cbn; try done; first [by rewrite Ho|by apply done_err].
  - injection E as <-. right. match goal with |- context [fatal_error ?er s] => set (e0 := er) end.
    apply (inv_fatal_error e0) in H. pose proof (err_fatal_error e0 s) as He. pose proof (fatal_error_frame e0 s) as (_ & _ & _ & _ & _ & Em & _ & Es & _).
    set (s1 := fatal_error e0 s) in *. clearbody s1. eapply inv_main; [exact H| |done..].
    destruct (inv_core s1 H) as [H1 H2 H3 H4 H5 H6 H7]. split; cbn; try done; by rewrite Es, Ho.
  - destruct (all_ended s) eqn:He; [|done].
    assert (forall e', inv (set_main (Returned e') s)) as Hx.
    { intros e'. eapply inv_main; [exact H| |done..]. destruct Hc as [H1 H2 H3 H4 H5 H6 H7]. split; cbn; try done; by rewrite Ho. }
    destruct e as [e|]; [|destruct (err s) as [e|]]; injection E as <-; [right; apply Hx..|left; by eexists].
Qed.

Lemma act_inv a s s' : inv s -> act a s = Some s' -> down s' \/ inv s'.
Proof.
  intros H E. unfold DgwLoop.act in E. destruct (crashed s); [done|].
  destruct a; first [by eapply gateway_reader_act_inv|by eapply writer_act_inv|right; by eapply watcher_act_inv|by eapply processor_act_inv|
    right; by eapply pinger_act_inv|by eapply main_act_inv].
Qed.

Lemma gateway_run_inv l : forall s s', inv s -> run l s = Some s' -> down s' \/ inv s'.
Proof.
  induction l as [|a l IH]; intros s s' H E; cbn [DgwLoop.run] in E; [injection E as <-; by right|].
  destruct (act a s) as [s1|] eqn:Ea; [|done]. destruct (act_inv _ _ _ H Ea) as [[h Hh]|H1]; [|by apply (IH s1)].
  destruct l as [|b l]; cbn [DgwLoop.run] in E; [injection E as <-; by left; exists h|]. unfold DgwLoop.act in E. by rewrite Hh in E.
Qed.

Lemma gateway_reachable_inv s : reachable s -> down s \/ inv s.
Proof. intros (l & E). eapply gateway_run_inv; [apply gateway_inv_started|exact E]. Qed.

(** ** Ending *)

(** The gateway can come to its end, or the process goes down. *)
Definition ends_from (s : Gateway) : Prop := exists l s', run l s = Some s' /\ (down s' \/ exists e, main s' = Returned e).

Lemma ends_down s : down s -> ends_from s.
Proof. intros H. exists [], s. split; [done|by left]. Qed.
Lemma gateway_ends_step a s s' : act a s = Some s' -> ends_from s' -> ends_from s.
Proof. intros Ha (l & s2 & Hl & He). exists (a :: l), s2. cbn [DgwLoop.run]. by rewrite Ha. Qed.

(** Everyone but the writer is where they were. *)
Record same_but_writer (s s' : Gateway) : Prop := {
  sw_reader : reader s' = reader s; sw_watching : watching s' = watching s; sw_processor : processor s' = processor s;
  sw_pinger : pinger s' = pinger s; sw_main : main s' = main s; sw_err : err s' = err s; sw_crashed : crashed s' = crashed s
}.

(** A writer that runs becomes free. *)
Lemma ends_free s : crashed s = None -> writer s <> WEnded -> (forall s', writer s' = WFree -> same_but_writer s s' -> ends_from s') -> ends_from s.
Proof.
  intros Hl Hw H. destruct (writer s) as [|f|] eqn:E; [by apply H| |done]. eapply (gateway_ends_step (WWrite None)).
  { unfold DgwLoop.act. rewrite Hl. cbn [writer_act]. unfold writer_act. by rewrite E. }
  unfold write_frame. destruct (DGW.Marshal _ _) as [b|e|h]; [by apply H|by apply H|apply ends_down; by eexists].
Qed.

(** Everyone is told to end. *)
Record closing (s : Gateway) : Prop := {
  cl_live : crashed s = None; cl_main : exists e, main s = Joining e; cl_err : is_Some (err s); cl_writer : writer s <> WEnded
}.

Lemma closing_same s s' : closing s -> same_but_writer s s' -> writer s' <> WEnded -> closing s'.
Proof. intros [H1 (e & H2) H3 _] [] Hw. split; [congruence|exists e; congruence|congruence|done]. Qed.

Lemma closing_done s : closing s -> done s = true.
Proof. intros [_ _ [e He] _]. unfold done. by rewrite He. Qed.

Lemma ends_joined s : closing s -> reader s = ReaderEnded -> processor s = ProcessorEnded -> pinger s = PingerEnded -> watching s = false -> ends_from s.
Proof.
  intros Hc Hr Hp Hi Hw. apply ends_free; [apply Hc..|]. intros s1 W1 Hs. assert (closing s1) as H1 by (by eapply closing_same; [..|rewrite W1]).
  eapply (gateway_ends_step WDone).
  { unfold DgwLoop.act. rewrite (cl_live _ H1). cbn. unfold writer_act. by rewrite W1, (closing_done _ H1). }
  destruct H1 as [L1 (e & M1) (e' & E1) _], Hs as [E2 E3 E4 E5 _ _ _].
  exists [MainJoined]. cbn [DgwLoop.run]. unfold DgwLoop.act. cbn. rewrite L1. unfold main_act. cbn. rewrite M1. unfold all_ended. cbn. rewrite E2, E3, E4, E5, Hr, Hw, Hp, Hi.
  destruct e as [e|]; cbn; rewrite ?E1; eexists; (split; [done|right; by eexists]).
Qed.

(** The end of a frame's processing. *)
Lemma process_frame f s : let s' := process f s in down s' \/
  processor s' = Receiving /\ reader s' = reader s /\ writer s' = writer s /\ watching s' = watching s /\ pinger s' = pinger s /\ main s' = main s /\
  (is_Some (err s) -> is_Some (err s')) /\ crashed s' = crashed s.
Proof.
  cbv zeta. unfold DgwLoop.process. destruct (handle_frame (loop s) f) as [l|e|h] eqn:E; [|by apply handle_frame_no_error in E|left; by eexists].
  right. destruct (DGW.fatal l); [|by split_and!]. unfold fatal_error. cbn. destruct (err s) eqn:Ee; cbn; rewrite ?Ee; by split_and!.
Qed.

(** The reader and the processor are left, in a message that ends. *)
Definition spins (s : Gateway) : bool := match reader s with Spinning | Handing _ _ (Halt HDiverge) => true | _ => false end.
Record draining (s : Gateway) : Prop := { dr_closing : closing s; dr_pinger : pinger s = PingerEnded; dr_watching : watching s = false; dr_spins : spins s = false }.

Lemma draining_process f s s0 : process f s0 = s -> draining s0 -> ends_from s \/ draining s /\ processor s = Receiving /\ pending s = pending s0 /\ reader s = reader s0.
Proof.
  intros <- [[H1 (e & H2) H3 H4] H5 H6 H7]. destruct (process_frame f s0) as [Hd|(E1 & E2 & E3 & E4 & E5 & E6 & E7 & E8)]; [left; by apply ends_down|right].
  split_and!; [|done|by unfold pending; rewrite E2|done]. split; [split|..]; unfold spins in *; rewrite ?E2, ?E3, ?E4, ?E5, ?E6, ?E8; eauto.
Qed.

Lemma ends_acking f s : draining s -> processor s = Acking f -> acks f <> [] ->
  (forall s', draining s' -> processor s' = Receiving -> pending s' = pending s -> reader s' = reader s -> ends_from s') -> ends_from s.
Proof.
  intros [Hc Hi Hw Hs] Hp Ha H. apply ends_free; [apply Hc..|]. intros s1 W1 S1. destruct (acks f) as [|a l] eqn:Ef; [done|].
  eapply (gateway_ends_step HandAck).
  { unfold DgwLoop.act. rewrite (sw_crashed _ _ S1), (cl_live _ Hc). cbn. unfold processor_act. by rewrite (sw_processor _ _ S1), Hp, W1, Ef. }
  destruct S1 as [E1 E2 E3 E4 E5 E6 E7]. destruct Hc as [H1 H2 H3 H4].
  destruct (draining_process f _ (to_writer a s1) eq_refl) as [He|(Hd & P1 & P2 & P3)]; [|done|].
  - split; [split|..]; unfold spins in *; cbn; rewrite ?E1, ?E2, ?E4, ?E5, ?E6, ?E7; eauto.
  - apply H; [done..| |by rewrite P3]. rewrite P2. unfold pending. cbn. by rewrite E1.
Qed.

Lemma ends_receiving n : forall s, length (pending s) = n -> draining s -> processor s = Receiving -> ends_from s.
Proof.
  induction n as [|n IH]; intros s Hn Hd Hp; pose proof Hd as [Hc Hi Hw Hs]; destruct (reader s) as [|f fs r| |] eqn:Hr; unfold pending in Hn; rewrite Hr in Hn; try done.
  2: by unfold spins in Hs; rewrite Hr in Hs.
  - eapply (gateway_ends_step (RError "EOF")). { unfold DgwLoop.act. rewrite (cl_live _ Hc). cbn. unfold reader_act. by rewrite Hr. }
    destruct Hc as [H1 H2 [e He] H4]. unfold fatal_error. rewrite He.
    eapply (gateway_ends_step ProcessorDone). { unfold DgwLoop.act. cbn. rewrite H1. unfold processor_act. cbn. by rewrite Hp. }
    apply ends_joined; [split; cbn; eauto|done..].
  - eapply (gateway_ends_step ProcessorDone). { unfold DgwLoop.act. rewrite (cl_live _ Hc). cbn. unfold processor_act. by rewrite Hp, Hr. }
    destruct Hc as [H1 H2 H3 H4]. apply ends_joined; [split; cbn; eauto|done..].
  - eapply (gateway_ends_step RHand). { unfold DgwLoop.act. rewrite (cl_live _ Hc). cbn. unfold reader_act. by rewrite Hr, Hp. }
    destruct (hand_cases fs r s) as [Hx|(r' & E & Hpe & Hne)]; [by apply ends_down, down_take|]. rewrite E.
    assert (draining (note_taken f (set_reader r' s))) as Hd2.
    { split; [|done..|].
      - destruct Hc as [H1 H2 H3 H4]. by split.
      - unfold spins in *. rewrite Hr in Hs. cbn. destruct fs as [|g fs]; cbn in E.
        + pose proof (f_equal crashed E) as E1. apply (f_equal reader) in E. destruct r as [[]|e|[]]; cbn in E, E1; first [rewrite (cl_live _ Hc) in E1; discriminate E1|by subst r'].
        + apply (f_equal reader) in E. cbn in E. by subst r'. }
    assert (length (pending (note_taken f (set_reader r' s))) = n) as Hn2.
    { change (pending (note_taken f (set_reader r' s))) with (pending (set_reader r' s)). rewrite Hpe. cbn in Hn. lia. }
    unfold DgwLoop.take_frame. destruct (acks f) as [|a l] eqn:Ef.
    + destruct (draining_process f _ _ eq_refl Hd2) as [He|(Hd3 & P1 & P2 & _)]; [done|]. apply IH; [by rewrite P2|done..].
    + eapply (ends_acking f); [|done|by rewrite Ef|].
      * destruct Hd2 as [[H1 H2 H3 H4] H5 H6 H7]. split; [by split|done..].
      * intros s' Hd3 P1 P2 _. apply IH; [by rewrite P2|done..].
Qed.

(** Where the processor may be. *)
Definition processor_ok (s : Gateway) : Prop :=
  match processor s with Receiving => True | Acking f => acks f <> [] | ProcessorEnded => reader s = ReaderEnded end.

Lemma inv_processor_ok s : inv s -> processor_ok s.
Proof.
  intros [_ (l & H & _) Hp _]. unfold processor_ok, processed in *. destruct (processor s); [done|by destruct H|by apply Hp].
Qed.

Lemma gateway_ends_draining s : draining s -> processor_ok s -> ends_from s.
Proof.
  intros Hd Hp. unfold processor_ok in Hp. destruct (processor s) as [|f|] eqn:E.
  - by eapply ends_receiving.
  - eapply ends_acking; [done..|]. intros s' Hd' P _ _. by eapply ends_receiving.
  - destruct Hd as [Hc Hi Hw Hs]. by apply ends_joined.
Qed.

Lemma ends_watched s : closing s -> pinger s = PingerEnded -> spins s = false -> processor_ok s -> ends_from s.
Proof.
  intros Hc Hi Hs Hp. destruct (watching s) eqn:Hw; [|apply gateway_ends_draining; [by split|done]].
  eapply (gateway_ends_step PongDone). { unfold DgwLoop.act. rewrite (cl_live _ Hc). cbn. unfold watcher_act. by rewrite Hw, (closing_done _ Hc). }
  apply gateway_ends_draining; [|done]. destruct Hc as [H1 H2 H3 H4]. split; [by split|done..].
Qed.

Lemma ends_ticking s : closing s -> pinger s = Ticking -> spins s = false -> processor_ok s -> ends_from s.
Proof.
  intros Hc Hi Hs Hp. eapply (gateway_ends_step PingDone). { unfold DgwLoop.act. rewrite (cl_live _ Hc). cbn. unfold pinger_act. by rewrite Hi, (closing_done _ Hc). }
  apply ends_watched; [|done..]. destruct Hc as [H1 H2 H3 H4]. by split.
Qed.

Lemma same_ok s s' : same_but_writer s s' -> (spins s' = spins s) /\ (processor_ok s -> processor_ok s').
Proof. intros [E1 _ E3 _ _ _ _]. unfold spins, processor_ok. by rewrite E1, E3. Qed.

Lemma ends_closing s : closing s -> spins s = false -> processor_ok s -> ends_from s.
Proof.
  intros Hc Hs Hp. destruct (pinger s) eqn:Hi; [by apply ends_ticking| |by apply ends_watched].
  apply ends_free; [apply Hc..|]. intros s1 W1 S1. assert (closing s1) as H1 by (by eapply closing_same; [..|rewrite W1]).
  destruct (same_ok _ _ S1) as [E1 E2]. eapply (gateway_ends_step HandPing).
  { unfold DgwLoop.act. rewrite (cl_live _ H1). cbn. unfold pinger_act. by rewrite (sw_pinger _ _ S1), Hi, W1. }
  apply ends_ticking; [|done|by rewrite <- Hs, <- E1|by apply E2]. destruct H1 as [L1 L2 L3 L4]. by split.
Qed.

(** The caller gives up. *)
Lemma ends_timeout s : crashed s = None -> writer s <> WEnded -> main s = AwaitsOpen \/ main s = AwaitsAck -> spins s = false -> processor_ok s -> ends_from s.
Proof.
  intros Hl Hw Hm Hs Hp. assert (exists which, act (MainTimeout (OtherError "timeout")) s = Some (no_ack which (OtherError "timeout") s)) as [which Ha].
  { unfold DgwLoop.act. rewrite Hl. cbn. unfold main_act. destruct Hm as [->| ->]; by eexists. }
  eapply gateway_ends_step; [exact Ha|]. unfold no_ack. set (e := Wrap _ _). pose proof (fatal_error_frame e s) as (E1 & E2 & E3 & E4 & E5 & E6 & _).
  pose proof (err_fatal_error e s) as He. assert (crashed (fatal_error e s) = None) as El by (unfold fatal_error; by destruct (err s)).
  set (s1 := fatal_error e s) in *. clearbody s1.
  apply ends_closing; [split; cbn; [done|by eexists|done|congruence]|unfold spins in *; cbn; by rewrite E1|unfold processor_ok in *; cbn; by rewrite E4, E1].
Qed.

Lemma ends_handshake f m s : crashed s = None -> writer s <> WEnded -> spins s = false -> processor_ok s -> m = AwaitsOpen \/ m = AwaitsAck ->
  (forall s1, writer s1 = WFree -> main s1 = main s -> main_act userID HandMain s1 = Some (set_main m (to_writer f s1))) -> ends_from s.
Proof.
  intros Hl Hw Hs Hp Hm Ha. apply ends_free; [done..|]. intros s1 W1 S1. destruct (same_ok _ _ S1) as [E1 E2].
  eapply (gateway_ends_step HandMain). { unfold DgwLoop.act. rewrite (sw_crashed _ _ S1), Hl. apply Ha; [done|apply S1]. }
  apply ends_timeout; [by rewrite <- Hl, <- (sw_crashed _ _ S1)|done|done|by rewrite <- Hs, <- E1|by apply E2].
Qed.

Lemma ends_writing s : inv s -> crashed s = None -> writer s <> WEnded -> spins s = false -> ends_from s.
Proof.
  intros H Hl Hw Hs. pose proof (inv_processor_ok s H) as Hp. pose proof (c_main s (inv_core s H)) as Hk. unfold main_ok in Hk.
  destruct (main s) as [| |f| | |e|e] eqn:Hm.
  - eapply (ends_handshake _ AwaitsOpen); [done..|by left|]. intros s1 W1 M1. unfold main_act. by rewrite M1, Hm, W1.
  - apply ends_timeout; [done..|by left|done|done].
  - eapply (ends_handshake f AwaitsAck); [done..|by right|]. intros s1 W1 M1. unfold main_act. by rewrite M1, Hm, W1.
  - apply ends_timeout; [done..|by right|done|done].
  - eapply (gateway_ends_step (MainCancelled (OtherError "context canceled"))). { unfold DgwLoop.act. rewrite Hl. cbn. unfold main_act. by rewrite Hm. }
    set (e := OtherError _). pose proof (fatal_error_frame e s) as (E1 & E2 & E3 & E4 & E5 & E6 & _). pose proof (err_fatal_error e s) as He.
    assert (crashed (fatal_error e s) = None) as El by (unfold fatal_error; by destruct (err s)). set (s1 := fatal_error e s) in *. clearbody s1.
    apply ends_closing; [split; cbn; [done|by eexists|done|congruence]|unfold spins in *; cbn; by rewrite E1|unfold processor_ok in *; cbn; by rewrite E4, E1].
  - apply ends_closing; [split; [done|by eexists|done|done]|done|done].
  - exists [], s. split; [done|right; by exists e].
Qed.

(** ** Waiting for ever *)

(** A goroutine waits for a writer that has ended, or the reader for itself. *)
Definition stuck (s : Gateway) : Prop :=
  reader s = Spinning /\ (forall e, main s <> Returned e) \/
  writer s = WEnded /\ (forall e, main s <> Returned e) /\
    (main s = Subscribing \/ (exists f, main s = Asking f) \/ (exists f, processor s = Acking f) \/ pinger s = Pinging).

(** Steps that leave everyone who waits where they are. *)
Lemma stuck_by s s' : stuck s -> (reader s = Spinning -> reader s' = Spinning) -> writer s' = writer s \/ writer s <> WEnded -> main s' = main s ->
  (forall f, processor s = Acking f -> writer s = WEnded -> processor s' = Acking f) -> (pinger s = Pinging -> writer s = WEnded -> pinger s' = Pinging) -> stuck s'.
Proof.
  intros [[H1 H2]|(H1 & H2 & H3)] Hr Hw Hm Hp Hi; [left; rewrite Hm; auto|]. destruct Hw as [Hw|?]; [|done].
  right. rewrite Hw, Hm. split_and!; [done..|]. naive_solver.
Qed.

Lemma process_positions f s : let s' := process f s in reader s' = reader s /\ writer s' = writer s /\ main s' = main s /\ pinger s' = pinger s.
Proof.
  cbv zeta. unfold DgwLoop.process. destruct (handle_frame (loop s) f) as [l|e|h]; [|done..].
  destruct (DGW.fatal l); [|done]. unfold fatal_error. cbn. by destruct (err s).
Qed.

Lemma take_positions f s : let s' := take_frame f s in reader s' = reader s /\ writer s' = writer s /\ main s' = main s /\ pinger s' = pinger s.
Proof. cbv zeta. unfold DgwLoop.take_frame. destruct (acks f); [exact (process_positions f (note_taken f s))|done]. Qed.

Lemma hand_positions fs r s : let s' := hand fs r s in writer s' = writer s /\ main s' = main s /\ pinger s' = pinger s /\ processor s' = processor s.
Proof. destruct fs, r as [|e|[]]; done. Qed.

Lemma stuck_not_joined s : stuck s -> all_ended s = false \/ forall e, main s <> Joining e.
Proof.
  unfold stuck, all_ended. intros [[-> _]|(-> & _ & [H|[[f H]|[[f H]|H]]])]; [by left|right; congruence..|left|left]; rewrite H.
  - by destruct (reader s), (watching s).
  - by destruct (reader s), (watching s), (processor s).
Qed.

Lemma stuck_main a s s' : stuck s -> main_act userID a s = Some s' -> stuck s'.
Proof.
  intros H E. pose proof (stuck_not_joined s H) as Hj. unfold main_act in E.
  assert (forall m s1, reader s1 = reader s -> writer s1 = writer s -> processor s1 = processor s -> pinger s1 = pinger s ->
    main s <> Subscribing -> (forall f, main s <> Asking f) -> (forall e, m <> Returned e) -> stuck (set_main m s1)) as Hm.
  { intros m s1 Er Ew Ep Ei H1 H2 H3. unfold stuck. cbn. rewrite Er, Ew, Ep, Ei.
    destruct H as [[E1 _]|(E1 & _ & [?|[[f ?]|[[f ?]|?]]])]; [by left|done|by destruct (H2 f)|right; split_and!; [done..|]; eauto|right; split_and!; [done..|]; eauto]. }
  assert (writer s = WFree -> main s = Subscribing \/ (exists f, main s = Asking f) -> reader s = Spinning) as Hs.
  { intros Hw _. destruct H as [[? _]|[? _]]; [done|congruence]. }
  destruct (main s) as [| |f| | |e|e] eqn:Em, a as [| | | | | | | | | | | | | |e'| |e'|]; try done.
  - destruct (writer s) eqn:Hw; try done. injection E as <-. left. split; [by apply Hs; [|left]|done].
  - destruct (ackSubscription (loop s)); [|done]. destruct (json_payload_ok userID) as (f & Ef & _). rewrite Ef in E. injection E as <-. by apply Hm.
  - injection E as <-. pose proof (fatal_error_frame (Wrap ("didn't get ack for " ++ "first" ++ " subscription frame: ") e') s) as (E1 & E2 & _ & E4 & E5 & _). by apply Hm.
  - destruct (writer s) eqn:Hw; try done. injection E as <-. left. split; [by apply Hs; [|right; eexists]|done].
  - destruct (ackParameters (loop s)); [|done]. injection E as <-. by apply Hm.
  - injection E as <-. pose proof (fatal_error_frame (Wrap ("didn't get ack for " ++ "second" ++ " subscription frame: ") e') s) as (E1 & E2 & _ & E4 & E5 & _). by apply Hm.
  - destruct (done s); [|done]. injection E as <-. by apply Hm.
  - injection E as <-. pose proof (fatal_error_frame e' s) as (E1 & E2 & _ & E4 & E5 & _). by apply Hm.
  - destruct Hj as [Hj|Hj]; [by rewrite Hj in E|by destruct (Hj e)].
Qed.

Lemma stuck_reader a s s' : stuck s -> reader_act json_Unmarshal parse_event parse_indicator a s = Some s' -> stuck s'.
Proof.
  intros H E. unfold reader_act in E. destruct (reader s) as [|f fs r| |] eqn:Hr, a as [mt data|e| | | | | | | | | | | | | | | |]; try done.
  - destruct (read_message _ _ _ _) as [fs r]. injection E as <-. pose proof (hand_positions fs r (note_arrived fs s)) as (E1 & E2 & E3 & E4).
    apply (stuck_by s); [done|congruence|by left|done|by intros f Hf _; rewrite E4|by rewrite E3].
  - injection E as <-. pose proof (fatal_error_frame (Wrap "reading message: " (OtherError e)) s) as (E1 & E2 & _ & E4 & E5 & E6 & _).
    apply (stuck_by s); cbn; [done|congruence|by left|done|by rewrite E4|by rewrite E5].
  - destruct (processor s) eqn:Hp; try done. injection E as <-. pose proof (hand_positions fs r s) as (E1 & E2 & E3 & E4).
    pose proof (take_positions f (hand fs r s)) as (F1 & F2 & F3 & F4).
    apply (stuck_by s); [done|congruence|left; by rewrite F2|by rewrite F3|congruence|by rewrite F4, E3].
Qed.

Lemma stuck_step a s s' : stuck s -> act a s = Some s' -> stuck s'.
Proof.
  intros H E. unfold DgwLoop.act in E. destruct (crashed s); [done|].
  assert (writer_act json_Marshal a s = Some s' -> stuck s') as Hw.
  { unfold writer_act. intros Ew. destruct (writer s) as [|f|] eqn:W, a as [| | |e| | | | | | | | | | | | | |]; try done.
    - destruct (done s); [|done]. injection Ew as <-. apply (stuck_by s); [done|done|right; congruence|done..].
    - injection Ew as <-. unfold write_frame. destruct (DGW.Marshal _ f) as [b|e'|h]; [|apply (stuck_by s); [done|done|right; congruence|done..]|apply (stuck_by s); [done|done|by left|done..]].
      destruct e as [e|]; [|apply (stuck_by s); [done|done|right; congruence|done..]].
      pose proof (fatal_error_frame (Wrap "writing message: " (OtherError e)) s) as (E1 & E2 & _ & E4 & E5 & E6 & _).
      apply (stuck_by s); cbn; [done|by rewrite E1|right; congruence|done|by rewrite E4|by rewrite E5]. }
  assert (watcher_act a s = Some s' -> stuck s') as Ht.
  { unfold watcher_act. intros Ew. destruct (watching s), a; try done.
    - injection Ew as <-. pose proof (fatal_error_frame (OtherError "pong timeout") s) as (E1 & E2 & _ & E4 & E5 & E6 & _).
      apply (stuck_by s); cbn; [done|by rewrite E1|by left|done|by rewrite E4|by rewrite E5].
    - destruct (done s); [|done]. injection Ew as <-. by apply (stuck_by s); [|auto..]. }
  assert (processor_act parse_event parse_indicator a s = Some s' -> stuck s') as Hp.
  { unfold processor_act. intros Ep. destruct (processor s) as [|f|] eqn:P, a; try done.
    - destruct (reader s) eqn:R; try done. injection Ep as <-. apply (stuck_by s); [done|cbn; congruence|by left|done|congruence|done].
    - destruct (writer s) eqn:W; try done. destruct (acks f) as [|b l]; [done|]. injection Ep as <-.
      pose proof (process_positions f (to_writer b s)) as (E1 & E2 & E3 & E4).
      apply (stuck_by s); [done|by rewrite E1|right; congruence|done|congruence|by rewrite E4]. }
  assert (pinger_act a s = Some s' -> stuck s') as Hi.
  { unfold pinger_act. intros Ei. destruct (pinger s) eqn:P, a; try done.
    - injection Ei as <-. by apply (stuck_by s); [|auto..].
    - destruct (done s); [|done]. injection Ei as <-. apply (stuck_by s); [done|done|by left|done..|congruence].
    - destruct (writer s) eqn:W; try done. injection Ei as <-. apply (stuck_by s); [done|done|right; congruence|done..|congruence]. }
  destruct a; first [by eapply stuck_reader|by apply Hw|by apply Ht|by apply Hp|by apply Hi|by eapply stuck_main].
Qed.

Lemma gateway_stuck_run l : forall s s', stuck s -> run l s = Some s' -> stuck s'.
Proof.
  induction l as [|a l IH]; intros s s' H E; cbn [DgwLoop.run] in E; [by injection E as <-|].
  destruct (act a s) as [s1|] eqn:Ea; [|done]. eapply IH; [by eapply stuck_step|done].
Qed.

(** ** What goes wrong, in the order it does *)

(** The error of a frame that refuses the subscription. *)
Definition frame_error (f : Frame) : option error :=
  match f with
  | OpenFrame _ p _ => if refuses f then Some (OtherError ("error " ++ FormatInt 10 (StatusCode p) ++ " from EstabStream response")) else None
  | _ => None
  end.

(** The caller gives up the handshake. *)
Definition timeout_of (a : Action) (s : Gateway) : option error :=
  match a, main s with
  | MainTimeout e, AwaitsOpen => Some (Wrap "didn't get ack for first subscription frame: " e)
  | MainTimeout e, AwaitsAck => Some (Wrap "didn't get ack for second subscription frame: " e)
  | _, _ => None
  end.

(** The fatal error an action brings up, whether it is kept or not. *)
Definition error_of (a : Action) (s : Gateway) : option error :=
  match a with
  | RError e => Some (Wrap "reading message: " (OtherError e))
  | RHand => match reader s with Handing f _ _ => frame_error f | _ => None end
  | WWrite (Some e) =>
      match writer s with
      | WWriting f => match DGW.Marshal json_Marshal f with Ok _ => Some (Wrap "writing message: " (OtherError e)) | _ => None end
      | _ => None
      end
  | PongTimeout => Some (OtherError "pong timeout")
  | MainCancelled e => Some e
  | MainTimeout _ => timeout_of a s
  | _ => None
  end.

Fixpoint history {A} (g : Action -> Gateway -> option A) (l : list Action) (s : Gateway) : list A :=
  match l with
  | [] => []
  | a :: l => option_list (g a s) ++ match act a s with Some s' => history g l s' | None => [] end
  end.

Definition first_of (before : option error) (errors : list error) : option error :=
  match before with Some e => Some e | None => head errors end.

Lemma first_none b : first_of b [] = b.
Proof. by destruct b. Qed.
Lemma first_app b l1 l2 : first_of b (l1 ++ l2) = first_of (first_of b l1) l2.
Proof. destruct b; [done|]. by destruct l1. Qed.
Lemma err_fatal e s : err (fatal_error e s) = first_of (err s) [e].
Proof. unfold fatal_error. by destruct (err s) eqn:E. Qed.
Lemma err_hand fs r s : err (hand fs r s) = err s.
Proof. destruct fs, r as [|e|[]]; done. Qed.
Lemma loop_hand fs r s : loop (hand fs r s) = loop s.
Proof. destruct fs, r as [|e|[]]; done. Qed.

Lemma handle_frame_fatal l f l' : DGW.fatal l = None -> handle_frame l f = Ok l' ->
  OtherError <$> DGW.fatal l' = frame_error f.
Proof.
  intros H0 H. destruct (refuses f) eqn:Hr.
  - destruct f as [| | | | |sid p raw]; try done. unfold frame_error. rewrite Hr. unfold refuses in Hr. apply andb_prop in Hr as [Hr H3].
    apply andb_prop in Hr as [H1 H2]. cbn [DGW.handle_frame] in H. rewrite H1, H3 in H. destruct (StatusCode p =? 0); [done|].
    cbn in H. injection H as <-. unfold fatalError. cbn. by rewrite H0.
  - assert (DGW.fatal l' = None) as -> by (apply handle_frame_effect in H as (_ & _ & _ & ->); done).
    destruct f; try done. unfold frame_error. by rewrite Hr.
Qed.

Lemma err_process f s : (DGW.fatal (loop s) <> None -> is_Some (err s)) -> err (process f s) = first_of (err s) (option_list (frame_error f)).
Proof.
  intros Hf. unfold DgwLoop.process. destruct (handle_frame (loop s) f) as [l|e|h] eqn:E.
  - destruct (err s) as [e0|] eqn:Ee.
    + destruct (DGW.fatal l); [rewrite err_fatal|]; cbn; by rewrite Ee.
    + assert (DGW.fatal (loop s) = None) as H0 by (destruct (DGW.fatal (loop s)); [by destruct Hf|done]).
      rewrite <- (handle_frame_fatal _ _ _ H0 E). destruct (DGW.fatal l); cbn; [|done]. rewrite err_fatal. cbn. by rewrite Ee.
  - by apply handle_frame_no_error in E.
  - assert (frame_error f = None) as ->.
    { destruct f as [| | | | |sid p raw]; try done. cbn [DGW.handle_frame] in E. by repeat case_match. }
    cbn. by rewrite first_none.
Qed.

Lemma acks_no_error f : acks f <> [] -> frame_error f = None.
Proof. by destruct f. Qed.

Lemma err_take f s : (DGW.fatal (loop s) <> None -> is_Some (err s)) -> err (take_frame f s) = first_of (err s) (option_list (frame_error f)).
Proof.
  intros Hf. unfold DgwLoop.take_frame. destruct (acks f) eqn:E; [by apply (err_process f (note_taken f s))|].
  rewrite acks_no_error by congruence. cbn. by rewrite first_none.
Qed.

Lemma err_reader_act a s s' : (DGW.fatal (loop s) <> None -> is_Some (err s)) ->
  reader_act json_Unmarshal parse_event parse_indicator a s = Some s' -> err s' = first_of (err s) (option_list (error_of a s)).
Proof.
  intros Hf E. unfold reader_act in E. destruct (reader s) as [|f fs r| |] eqn:Hr, a; try done; cbn [error_of]; rewrite ?Hr.
  - destruct (read_message _ _ _ _) as [fs r]. injection E as <-. by rewrite err_hand, first_none.
  - injection E as <-. apply err_fatal.
  - destruct (processor s); try done. injection E as <-. rewrite err_take; rewrite ?loop_hand, err_hand; done.
Qed.

Lemma err_writer_act a s s' : writer_act json_Marshal a s = Some s' -> err s' = first_of (err s) (option_list (error_of a s)).
Proof.
  intros E. unfold writer_act in E. destruct (writer s) as [|f|] eqn:Hw, a as [| | |e| | | | | | | | | | | | | |]; try done; cbn [error_of]; rewrite ?Hw.
  - destruct (done s); [|done]. injection E as <-. by rewrite first_none.
  - injection E as <-. unfold write_frame. destruct (DGW.Marshal _ f), e as [e|]; try (by rewrite first_none).
    exact (err_fatal (Wrap "writing message: " (OtherError e)) s).
Qed.

(** A step changes the error kept by the error it brings up. *)
Lemma act_err a s s' : inv s -> act a s = Some s' -> err s' = first_of (err s) (option_list (error_of a s)).
Proof.
  intros H E. unfold DgwLoop.act in E. destruct (crashed s); [done|]. pose proof (c_fatal s (inv_core s H)) as Hf.
  destruct a; try (by apply err_reader_act); try (by apply err_writer_act); cbn [error_of].
  - unfold watcher_act in E. destruct (watching s); [|done]. injection E as <-. apply (err_fatal _ s).
  - unfold watcher_act in E. destruct (watching s); [|done]. destruct (done s); [|done]. injection E as <-. by rewrite first_none.
  - unfold processor_act in E. destruct (processor s) as [|f|]; try done. destruct (writer s); try done. destruct (acks f) eqn:Ea; [done|].
    injection E as <-. pose proof (err_process f (to_writer f0 s) Hf) as Ex. rewrite acks_no_error in Ex by congruence. exact Ex.
  - unfold processor_act in E. destruct (processor s); try done. destruct (reader s); try done. injection E as <-. by rewrite first_none.
  - unfold pinger_act in E. destruct (pinger s); try done. injection E as <-. by rewrite first_none.
  - unfold pinger_act in E. destruct (pinger s); try done. destruct (writer s); try done. injection E as <-. by rewrite first_none.
  - unfold pinger_act in E. destruct (pinger s); try done. destruct (done s); try done. injection E as <-. by rewrite first_none.
  - unfold main_act in E. destruct (main s); try done; destruct (writer s); try done; injection E as <-; by rewrite first_none.
  - unfold main_act in E. destruct (main s); try done; [destruct (ackSubscription _)|destruct (ackParameters _)]; try done; injection E as <-; by rewrite first_none.
  - unfold main_act in E. unfold timeout_of. destruct (main s); try done; injection E as <-; unfold no_ack; apply (err_fatal _ s).
  - unfold main_act in E. destruct (main s); try done. destruct (done s); [|done]. injection E as <-. by rewrite first_none.
  - unfold main_act in E. destruct (main s); try done. injection E as <-. apply (err_fatal _ s).
  - unfold main_act in E. destruct (main s) as [| | | | |e|]; try done. destruct (all_ended s); [|done].
    destruct e, (err s) eqn:Ee; simplify_eq; cbn; by rewrite Ee.
Qed.

(** What the caller goes on with after it gave up the handshake with the errors [t]. *)
Definition main_after (t : option error) (s : Gateway) : Prop :=
  match main s with
  | Joining (Some e) => t = Some e
  | Returned e => first_of t (option_list (err s)) = Some e
  | _ => t = None
  end.

Lemma main_elsewhere t s s' : main s' = main s -> (is_Some (err s) -> err s' = err s) -> inv s -> main_after t s -> main_after t s'.
Proof.
  unfold main_after. intros -> He H Hm. pose proof (c_main s (inv_core s H)) as Hk. unfold main_ok in Hk.
  destruct (main s); try done. rewrite He; [done|apply Hk].
Qed.

Lemma main_of_process f s : main (process f s) = main s.
Proof. apply process_positions. Qed.

(** Only the caller moves the caller. *)
Definition mains (a : Action) : bool :=
  match a with HandMain | MainAcked | MainTimeout _ | MainDone | MainCancelled _ | MainJoined => true | _ => false end.

Lemma others_keep_main a s s' : mains a = false -> act a s = Some s' -> main s' = main s.
Proof.
  intros Ha E. unfold DgwLoop.act in E. destruct (crashed s); [done|]. destruct a; try done.
  - unfold reader_act in E. destruct (reader s); try done. destruct (read_message _ _ _ _) as [fs r]. injection E as <-.
    apply (hand_positions fs r (note_arrived fs s)).
  - unfold reader_act in E. destruct (reader s); try done. injection E as <-. apply (fatal_error_frame _ s).
  - unfold reader_act in E. destruct (reader s) as [|f fs r| |]; try done. destruct (processor s); try done. injection E as <-.
    destruct (take_positions f (hand fs r s)) as (_ & _ & -> & _). apply hand_positions.
  - unfold writer_act in E. destruct (writer s); try done. injection E as <-. unfold write_frame.
    destruct (DGW.Marshal _ _); [destruct e; [apply (fatal_error_frame _ s)|done]|done..].
  - unfold writer_act in E. destruct (writer s); try done. destruct (done s); by simplify_eq.
  - unfold watcher_act in E. destruct (watching s); try done. injection E as <-. apply (fatal_error_frame _ s).
  - unfold watcher_act in E. destruct (watching s); try done. destruct (done s); by simplify_eq.
  - unfold processor_act in E. destruct (processor s) as [|f|]; try done. destruct (writer s); try done. destruct (acks f); try done.
    injection E as <-. apply (main_of_process f (to_writer _ s)).
  - unfold processor_act in E. destruct (processor s); try done. destruct (reader s); by simplify_eq.
  - unfold pinger_act in E. destruct (pinger s); by simplify_eq.
  - unfold pinger_act in E. destruct (pinger s); try done. destruct (writer s); by simplify_eq.
  - unfold pinger_act in E. destruct (pinger s); try done. destruct (done s); by simplify_eq.
Qed.

Lemma act_main a s s' t : inv s -> act a s = Some s' -> crashed s' = None -> main_after t s -> main_after (first_of t (option_list (timeout_of a s))) s'.
Proof.
  intros H E Hl Hm. destruct (mains a) eqn:Ha.
  - unfold DgwLoop.act in E. destruct (crashed s); [done|]. unfold main_after in Hm.
    destruct (main s) as [| |f| | |e|e] eqn:Em, a; try done; unfold main_act in E; rewrite Em in E; try done; unfold timeout_of; rewrite ?Em.
    + destruct (writer s); try done. injection E as <-. by subst t.
    + destruct (ackSubscription _); [|done]. destruct (json_payload_ok userID) as (f & Ef & _). rewrite Ef in E. injection E as <-. by subst t.
    + injection E as <-. by subst t.
    + destruct (writer s); try done. injection E as <-. by subst t.
    + destruct (ackParameters _); [|done]. injection E as <-. by subst t.
    + injection E as <-. by subst t.
    + destruct (done s); [|done]. injection E as <-. by subst t.
    + injection E as <-. by subst t.
    + destruct (all_ended s); [|done]. unfold main_after. destruct e as [e|], (err s) eqn:Ee; simplify_eq; cbn; try done. by rewrite Ee.
  - assert (timeout_of a s = None) as -> by (unfold timeout_of; by destruct a). rewrite first_none.
    eapply main_elsewhere; [by eapply others_keep_main|intros [e He]|done|done]. rewrite (act_err a s s' H E), He. done.
Qed.

Lemma run_errors l : forall s s' t, inv s -> main_after t s -> run l s = Some s' -> crashed s' = None ->
  err s' = first_of (err s) (history error_of l s) /\ main_after (first_of t (history timeout_of l s)) s'.
Proof.
  induction l as [|a l IH]; intros s s' t H Hm E Hl; cbn [DgwLoop.run] in E.
  - injection E as <-. cbn. by rewrite !first_none.
  - destruct (act a s) as [s1|] eqn:Ea; [|done]. cbn [history]. rewrite Ea, !first_app, <- (act_err a s s1 H Ea).
    destruct (act_inv _ _ _ H Ea) as [[h Hh]|H1].
    + destruct l as [|b l]; cbn [DgwLoop.run] in E; [congruence|]. unfold DgwLoop.act in E. by rewrite Hh in E.
    + apply IH; try done. eapply act_main; [exact H|exact Ea| |exact Hm].
      destruct l as [|b l]; cbn [DgwLoop.run] in E; [congruence|]. unfold DgwLoop.act in E. by destruct (crashed s1).
Qed.

(** * Properties *)

(** C21. Whatever the goroutines do and however they interleave, the frames the processor is done
    with are the first that arrived, and what it leaves is what they make of it one after the
    other; the acknowledgements sent are exactly those they ask for, in their order; what is
    written was sent, in that order; the parameters are sent only after the server accepted the
    subscription, and the handshake is over only after it confirmed them. *)
Theorem gateway_handles_in_order s (Hs : reachable s) (Hl : crashed s = None) : exists l,
  l `prefix_of` arrived s /\ handle_frames initial_loop l = Ok (loop s) /\
  omap acknowledgement (sent s) = l ≫= acks /\
  written s `sublist_of` sent s /\
  (omap asks (sent s) <> [] -> omap asks (sent s) = [the_parameters] /\ existsb accepts l = true) /\
  (main s = Serving -> existsb confirms l = true).
Proof.
  destruct (gateway_reachable_inv s Hs) as [[h Hh]|[[H1 H2 H3 H4 H5 H6 H7] (l & Hp & Hf) _ Ha]]; [congruence|].
  exists l. destruct (dgw_frames_effect _ _ _ _ _ Hf) as (E1 & E2 & E3 & _). cbn in E1, E2, E3. split_and!.
  - rewrite H1. unfold processed in Hp. apply prefix_app_r. destruct (processor s); [by rewrite Hp|destruct Hp as [-> _]; by apply prefix_app_r|by rewrite Hp].
  - done.
  - by rewrite Ha.
  - etrans; [|exact H7]. by apply sublist_inserts_r.
  - intros Hne. destruct H5 as [?|[? Hk]]; [done|]. by rewrite <- E2.
  - intros Hm. unfold main_ok in H6. rewrite Hm in H6. by rewrite <- E3.
Qed.

(** C9. As long as the writer runs and the reader is not caught in a message it takes nothing
    off, the gateway can come to its end, or goes down with the process.  Once the writer has
    ended while another goroutine waits for it to take a frame, or the reader is caught, the
    gateway never returns, whatever happens.  The first fatal error is kept, whatever goes wrong
    after it.  The gateway returns only when every goroutine has ended, with that error, or,
    where the caller gave the handshake up, with the reason for that. *)
Theorem gateway_ends_unless_stuck plan s (Hs : run plan started = Some s) (Hl : crashed s = None) :
  (writer s <> WEnded -> spins s = false -> ends_from s) /\
  (stuck s -> forall l s' e, run l s = Some s' -> main s' <> Returned e) /\
  err s = head (history error_of plan started) /\
  (forall e, main s = Returned e -> all_ended s = true /\
     Some e = match head (history timeout_of plan started) with Some e' => Some e' | None => head (history error_of plan started) end).
Proof.
  assert (reachable s) as Hr by (by exists plan).
  destruct (run_errors plan started s None gateway_inv_started eq_refl Hs Hl) as [He Hm].
  destruct (gateway_reachable_inv s Hr) as [[h Hh]|H]; [congruence|]. split_and!.
  - by apply ends_writing.
  - intros Hst l s' e Hrun. pose proof (gateway_stuck_run _ _ _ Hst Hrun) as [[_ Hn]|(_ & Hn & _)]; apply Hn.
  - exact He.
  - intros e E. pose proof (c_main s (inv_core s H)) as Hk. unfold main_ok in Hk. rewrite E in Hk. split; [apply Hk|].
    unfold main_after in Hm. rewrite E in Hm. rewrite <- Hm. unfold first_of. change (err started) with (@None error) in He. cbn in He.
    destruct (head (history timeout_of plan started)); [done|]. rewrite <- He. by destruct (err s).
Qed.
End Proofs.

(** * Examples *)

Definition demo_marshal (p : OpenFrameParams) : res (list byte) := Ok (s2l (if StatusCode p =? 200 then "{200}" else "{}")).

Definition demo_run (l : list Action) : option Gateway := run demo_marshal sample_unmarshal no_event no_indicator "7" l started.
Definition demo_bytes (f : Frame) : list byte := match DGW.Marshal demo_marshal f with Ok b => b | _ => [] end.

(** The handshake, a message of two frames of which the first asks for an acknowledgement, a ping. *)
Definition demo_handshake : list Action :=
  [HandMain; WWrite None; RRead BinaryMessage (demo_bytes (OpenFrame 1 sample_params [])); RHand; MainAcked; HandMain; WWrite None;
   RRead BinaryMessage (demo_bytes (AckFrame 1 0)); RHand; MainAcked].
Definition demo_service : list Action :=
  [RRead BinaryMessage (demo_bytes (DataFrame 1 (s2l "hello") true 5) ++ demo_bytes PongFrame); RHand; PingTick; HandAck; WWrite None; RHand; HandPing; WWrite None].

Definition get_run (l : list Action) : Gateway := default started (demo_run l).
Definition demo_served : Gateway := get_run (demo_handshake ++ demo_service).

Lemma demo_served_runs : run demo_marshal sample_unmarshal no_event no_indicator "7" (demo_handshake ++ demo_service) started = Some demo_served.
Proof. vm_compute. reflexivity. Qed.
Lemma demo_served_reachable : reachable demo_marshal sample_unmarshal no_event no_indicator "7" demo_served.
Proof. eexists. exact demo_served_runs. Qed.

Lemma gateway_handles_in_order_witness : main demo_served = Serving /\ length (written demo_served) = 4%nat /\ exists l,
  l `prefix_of` arrived demo_served /\ omap acknowledgement (sent demo_served) = l ≫= acks.
Proof.
  split; [vm_compute; reflexivity|]. split; [vm_compute; reflexivity|].
  destruct (gateway_handles_in_order demo_marshal sample_unmarshal no_event no_indicator "7" demo_served demo_served_reachable eq_refl)
    as (l & H1 & _ & H2 & _). exists l. split; [exact H1|exact H2].
Defined.

(** A ping is due when the connection is lost: the writer ends first, and nobody takes the ping. *)
Definition demo_hangs_plan : list Action := demo_handshake ++ [PingTick; RError "EOF"; WDone; MainDone].
Definition demo_hangs : Gateway := get_run demo_hangs_plan.
Lemma demo_hangs_runs : run demo_marshal sample_unmarshal no_event no_indicator "7" demo_hangs_plan started = Some demo_hangs.
Proof. vm_compute. reflexivity. Qed.

Lemma gateway_ends_unless_stuck_witness :
  ends_from demo_marshal sample_unmarshal no_event no_indicator "7" demo_served /\
  err demo_hangs = Some (Wrap "reading message: " (OtherError "EOF")) /\
  forall l s' e, run demo_marshal sample_unmarshal no_event no_indicator "7" l demo_hangs = Some s' -> main s' <> Returned e.
Proof.
  pose proof (gateway_ends_unless_stuck demo_marshal sample_unmarshal no_event no_indicator "7" _ demo_hangs demo_hangs_runs eq_refl)
    as (_ & H2 & H3 & _).
  split_and!.
  - apply (gateway_ends_unless_stuck demo_marshal sample_unmarshal no_event no_indicator "7" _ demo_served demo_served_runs eq_refl);
      [vm_compute; discriminate|vm_compute; reflexivity].
  - transitivity (head (history demo_marshal sample_unmarshal no_event no_indicator "7" (error_of demo_marshal) demo_hangs_plan started));
      [exact H3|vm_compute; reflexivity].
  - apply H2. right. split_and!; [vm_compute; reflexivity|vm_compute; discriminate|]. right. right. right. vm_compute. reflexivity.
Defined.

(** A text message catches the reader. *)
Example text_message_spins : reader (get_run [RRead TextMessage [x7b]]) = Spinning.
Proof. vm_compute. reflexivity. Qed.
