(* ===== verification/BloksInterp.v ===== *)
(** * BloksInterp: the interpreter of the login pages' scripts ([bloks/interp.go])

    The interpreter computes on a graph of objects: maps and argument frames that scripts change,
    closures and references that are compared by identity, the variables of every interpreter
    that is alive, and, behind the bridge, the browser.  The state holds all of them.  [Evaluate]
    has a bound on the depth of calls; [diverge] is what happens when it is not enough. *)

From S2P Require Import Prelude Effects Base64 BloksScript BloksTree.
From Stdlib Require Import Ascii SpecFloat.
#[local] Open Scope string_scope.
#[local] Open Scope Z_scope.
#[local] Open Scope list_scope.

(** ** The state *)

Record Lambda := { Body : Node; BoundArgs : list lit }.

(** A component: the bundle, the place in the bundle's tree, the path below it. *)
Definition elem : Type := nat * (nat * path).

(** A [BloksBundle]: what the server sent, the locations of the embedded bundles, and the
    interpreter once it is set up. *)
Record Bundle := {
  BScripts : list (string * Node);
  BVariables : list Variable_;
  BEmbedded : list (string * nat);
  BTree : option TreeNode;
  BAction : option Node;
  BInterpreter : option nat;
}.

Record Interp := {
  Scripts : gmap string nat;
  Payloads : gmap string nat;
  LocalVars : gmap string lit;
  GlobalVars : gmap string lit;
}.

Record St (W : Type) := {
  dicts : list (gmap string lit);
  lambdas : list Lambda;
  frames : list (list lit);
  elems : list elem;
  brefs : list nat;
  bundles : list Bundle;
  texts : gmap elem string;
  interps : list Interp;
  world : W;
}.

Arguments dicts {W}. Arguments lambdas {W}. Arguments frames {W}. Arguments elems {W}.
Arguments brefs {W}. Arguments bundles {W}. Arguments texts {W}. Arguments interps {W}. Arguments world {W}.

Section Updates.
Context {W : Type}.
Implicit Types s : St W.

Definition set_dicts f s : St W :=
  {| dicts := f (dicts s); lambdas := lambdas s; frames := frames s; elems := elems s; brefs := brefs s;
     bundles := bundles s; texts := texts s; interps := interps s; world := world s |}.
Definition set_lambdas f s : St W :=
  {| dicts := dicts s; lambdas := f (lambdas s); frames := frames s; elems := elems s; brefs := brefs s;
     bundles := bundles s; texts := texts s; interps := interps s; world := world s |}.
Definition set_frames f s : St W :=
  {| dicts := dicts s; lambdas := lambdas s; frames := f (frames s); elems := elems s; brefs := brefs s;
     bundles := bundles s; texts := texts s; interps := interps s; world := world s |}.
Definition set_elems f s : St W :=
  {| dicts := dicts s; lambdas := lambdas s; frames := frames s; elems := f (elems s); brefs := brefs s;
     bundles := bundles s; texts := texts s; interps := interps s; world := world s |}.
Definition set_brefs f s : St W :=
  {| dicts := dicts s; lambdas := lambdas s; frames := frames s; elems := elems s; brefs := f (brefs s);
     bundles := bundles s; texts := texts s; interps := interps s; world := world s |}.
Definition set_bundles f s : St W :=
  {| dicts := dicts s; lambdas := lambdas s; frames := frames s; elems := elems s; brefs := brefs s;
     bundles := f (bundles s); texts := texts s; interps := interps s; world := world s |}.
Definition set_texts f s : St W :=
  {| dicts := dicts s; lambdas := lambdas s; frames := frames s; elems := elems s; brefs := brefs s;
     bundles := bundles s; texts := f (texts s); interps := interps s; world := world s |}.
Definition set_interps f s : St W :=
  {| dicts := dicts s; lambdas := lambdas s; frames := frames s; elems := elems s; brefs := brefs s;
     bundles := bundles s; texts := texts s; interps := f (interps s); world := world s |}.
Definition set_world f s : St W :=
  {| dicts := dicts s; lambdas := lambdas s; frames := frames s; elems := elems s; brefs := brefs s;
     bundles := bundles s; texts := texts s; interps := interps s; world := f (world s) |}.

(** A new object: its location. *)
Definition new_dict (d : gmap string lit) : M (St W) nat :=
  l ← gets (fun s => length (dicts s)); modify (set_dicts (fun ds => ds ++ [d]));; mret l.
Definition new_lambda (f : Lambda) : M (St W) nat :=
  l ← gets (fun s => length (lambdas s)); modify (set_lambdas (fun fs => fs ++ [f]));; mret l.
Definition new_frame (f : list lit) : M (St W) nat :=
  l ← gets (fun s => length (frames s)); modify (set_frames (fun fs => fs ++ [f]));; mret l.
Definition new_elem (e : elem) : M (St W) nat :=
  l ← gets (fun s => length (elems s)); modify (set_elems (fun es => es ++ [e]));; mret l.
Definition new_bref (b : nat) : M (St W) nat :=
  l ← gets (fun s => length (brefs s)); modify (set_brefs (fun bs => bs ++ [b]));; mret l.
Definition new_bundle (b : Bundle) : M (St W) nat :=
  l ← gets (fun s => length (bundles s)); modify (set_bundles (fun bs => bs ++ [b]));; mret l.
Definition new_interp (p : Interp) : M (St W) nat :=
  l ← gets (fun s => length (interps s)); modify (set_interps (fun ps => ps ++ [p]));; mret l.

(** An object at a location: the source dereferences a pointer. *)
Definition load {A} (get : St W -> list A) (loc : nat) : M (St W) A :=
  o ← gets (fun s => get s !! loc); match o with Some a => mret a | None => panic end.

(** A literal's value: the literal is a pointer, which may be nil. *)
Definition deref (l : lit) : M (St W) value :=
  match l with Some v => mret v | None => panic end.
End Updates.

(** ** The bridge *)

(** What a callback runs when the bridge calls it: the closure is applied by the interpreter, in
    the context, that made it. *)
Record callback := { cb_interp : nat; cb_ctx : option nat; cb_fn : nat }.

(** [InterpBridge]: what the host of an interpreter provides.  The first argument of some of the
    functions is the context of the call, the frame of arguments it was made in. *)
Record Bridge (W : Type) := {
  DeviceID : string;
  FamilyDeviceID : string;
  MachineID : string;
  EncryptPassword : option nat -> string -> M (St W) string;
  SIMPhones : value;
  DeviceEmails : value;
  IsAppInstalled : string -> list string -> bool;
  HasAppPermissions : list string -> bool;
  GetSecureNonces : list string;
  DoRPC : option nat -> string -> gmap string string -> bool -> option callback -> M (St W) unit;
  DisplayNewScreen : option nat -> string -> nat -> M (St W) unit;
  HandleLoginResponse : option nat -> string -> M (St W) unit;
  StartTimer : string -> Z -> callback -> M (St W) unit;
  OpenURL : string -> M (St W) unit;
  HandleVariableChange : string -> lit -> M (St W) unit;
}.

Arguments DeviceID {W}. Arguments FamilyDeviceID {W}. Arguments MachineID {W}. Arguments EncryptPassword {W}.
Arguments SIMPhones {W}. Arguments DeviceEmails {W}. Arguments IsAppInstalled {W}. Arguments HasAppPermissions {W}.
Arguments GetSecureNonces {W}. Arguments DoRPC {W}. Arguments DisplayNewScreen {W}. Arguments HandleLoginResponse {W}.
Arguments StartTimer {W}. Arguments OpenURL {W}. Arguments HandleVariableChange {W}.

(** A value ready for JSON. *)
Inductive flat :=
| FValue (v : value)
| FInt (z : Z)
| FMap (l : list (string * flat))
| FArr (l : list lit).

(** The library functions the interpreter calls: [regexp.Compile] and [MatchString] of a text and
    an expression, [json.Marshal] of a value with the objects it reaches, and the title and the
    message [json.Unmarshal] finds in a checkpoint flow. *)
Class Library := {
  regexp_MatchString : string -> string -> res bool;
  json_Marshal : list (gmap string lit) -> list Lambda -> flat -> res string;
  json_checkpointsFlow : string -> res (string * string);
}.

(** ** Values *)

Definition BloksNull : lit := Some VNull.
Definition BloksNothing : lit := Some VIllegal.

Definition as_string (v : value) : option string := match v with VStr s => Some s | _ => None end.
Definition as_int64 (v : value) : option Z := match v with VInt z => Some z | _ => None end.
Definition as_array (v : value) : option (list lit) := match v with VArr l => Some l | _ => None end.
Definition as_dict (v : value) : option nat := match v with VMap l => Some l | _ => None end.
Definition as_lambda (v : value) : option nat := match v with VLambda l => Some l | _ => None end.
Definition as_elem (v : value) : option nat := match v with VElem l => Some l | _ => None end.
Definition as_bundle (v : value) : option nat := match v with VBundle l => Some l | _ => None end.

(** [==] of two interface values: different types differ; maps and slices cannot be compared. *)
Definition same_value (a b : value) : res bool :=
  match a, b with
  | VNull, VNull => Ok true
  | VBool x, VBool y => Ok (Bool.eqb x y)
  | VStr x, VStr y => Ok (x =? y)%string
  | VInt x, VInt y => Ok (x =? y)
  | VFloat x, VFloat y => Ok (SFeqb x y)
  | VArr _, VArr _ => Panic
  | VMap _, VMap _ => Panic
  | VLambda x, VLambda y => Ok (x =? y)%nat
  | VElem x, VElem y => Ok (x =? y)%nat
  | VBundle x, VBundle y => Ok (x =? y)%nat
  | VIllegal, VIllegal => Ok true
  | _, _ => Ok false
  end.

Definition getBloksType (v : value) : res Z :=
  match v with
  | VNull => Ok 0
  | VBool _ => Ok 1
  | VStr _ => Ok 2
  | VInt _ => Ok 3
  | VFloat _ => Ok 4
  | VArr _ => Ok 6
  | VMap _ => Ok 7
  | _ => Err "unexpected bloks typecheck"
  end.

(** The entries of a map; a nil literal is dereferenced. *)
Fixpoint flatten_entries (f : value -> res flat) (l : list (string * lit)) : res (list (string * flat)) :=
  match l with
  | [] => Ok []
  | (k, None) :: _ => Panic
  | (k, Some v) :: l => a ← f v; r ← flatten_entries f l; Ok ((k, a) :: r)
  end.

(** [Flatten].  A chain of maps longer than the number of maps there are goes in a circle, and
    the recursion of the source ends the program: [fuel] is the number of maps. *)
Fixpoint Flatten (fuel : nat) (ds : list (gmap string lit)) (facebookify : bool) (v : value) : res flat :=
  match v with
  | VMap loc =>
      match fuel, ds !! loc with
      | O, _ => Exit
      | _, None => Panic
      | S fuel, Some d => FMap <$> flatten_entries (Flatten fuel ds facebookify) (map_to_list d)
      end
  | VArr l => Ok (FArr l)
  | VBool b => Ok (if facebookify then FInt (if b then 1 else 0) else FValue v)
  | _ => Ok (FValue v)
  end.

(** [BloksLiteralFromJavaScript] makes a map for every object. *)
Section FromJavaScript.
Context {W : Type}.

Fixpoint BloksLiteralFromJavaScript (j : js) : M (St W) value :=
  match j with
  | JArr l =>
      vs ← (fix go (l : list js) : M (St W) (list lit) :=
              match l with
              | [] => mret []
              | j :: l => v ← BloksLiteralFromJavaScript j; r ← go l; mret (Some v :: r)
              end) l;
      mret (VArr vs)
  | JObj l =>
      kvs ← (fix go (l : list (string * js)) : M (St W) (list (string * lit)) :=
               match l with
               | [] => mret []
               | (k, j) :: l => v ← BloksLiteralFromJavaScript j; r ← go l; mret ((k, Some v) :: r)
               end) l;
      loc ← new_dict (list_to_map kvs); mret (VMap loc)
  | JNull => mret VNull
  | JBool b => mret (VBool b)
  | JStr s => mret (VStr s)
  | JFloat f => mret (VFloat f)
  | JInt z => mret (VInt z)
  end.
End FromJavaScript.

(** ** The functions of scripts *)

(** One constructor per case of [Evaluate]. *)
Inductive Builtin :=
| BIf | BOr | BAnd | BGetVariable | BTakeLast | BApply | BFuncConst | BGetArg | BSetArg
| BEq | BLt | BGt | BConst | BGetScript | BWriteLocalState | BWriteGlobal | BArrayMake | BMapMake
| BGetUniqueDeviceId | BGetFamilyDeviceId | BFetchMachineID | BEncryptPassword | BGetText | BNot
| BCallRuntime | BPut | BArrayLength | BIsDarkModeEnabled | BInByVal | BGetSimPhones | BGetDeviceEmails
| BIsAppInstalled | BCheckPermissionStatus | BGetSecureNonces | BRefRead | BRefWrite | BAsyncAction
| BJsonEncode | BMapMerge | BMatchesRegex | BBindWithArray | BH9a | BHandleLoginResponse | BMapGet
| BAsNonnull | BAssertType | BTypeOf | BGetByValOr | BOpenSyncScreen | BGetPayload | BPushScreen
| BStringLength | BGe | BLe | BTimerStart | BPresentCheckpointsFlow | BOpenDialog | BOpenUrl | BIgnored.

Definition builtins : list (string * Builtin) :=
  [("bk.action.core.If", BIf);
   ("bk.action.bool.Or", BOr); ("bk.action.core.Coalesce", BOr);
   ("bk.action.bool.And", BAnd);
   ("bk.action.bloks.GetVariable2", BGetVariable); ("bk.action.bloks.GetVariableWithScope", BGetVariable);
   ("bk.action.core.TakeLast", BTakeLast);
   ("bk.action.core.Apply", BApply);
   ("bk.action.core.FuncConst", BFuncConst);
   ("bk.action.core.GetArg", BGetArg);
   ("bk.action.core.SetArg", BSetArg);
   ("bk.action.f32.Eq", BEq);
   ("bk.action.f32.Lt", BLt); ("bk.action.i64.Lt", BLt);
   ("bk.action.f32.Gt", BGt); ("bk.action.i64.Gt", BGt);
   ("bk.action.f32.Const", BConst); ("null", BConst); ("bk.action.ref.Make", BConst); ("bk.action.i64.Const", BConst);
   ("bk.action.bloks.GetScript", BGetScript);
   ("bk.action.bloks.WriteLocalState", BWriteLocalState);
   ("bk.action.bloks.WriteGlobalConsistencyStore", BWriteGlobal);
   ("bk.action.array.Make", BArrayMake);
   ("bk.action.map.Make", BMapMake);
   ("bk.action.caa.login.GetUniqueDeviceId", BGetUniqueDeviceId);
   ("bk.fx.action.GetFamilyDeviceId", BGetFamilyDeviceId);
   ("bk.action.caa.FetchMachineID", BFetchMachineID);
   ("bk.action.string.EncryptPassword", BEncryptPassword);
   ("bk.action.textinput.GetText", BGetText); ("bk.action.caa.GetPasswordText", BGetText);
   ("bk.action.bool.Not", BNot);
   ("bk.action.mins.CallRuntime", BCallRuntime);
   ("bk.action.array.Put", BPut); ("bk.action.mins.PutByVal", BPut);
   ("bk.action.array.Length", BArrayLength);
   ("ig.action.IsDarkModeEnabled", BIsDarkModeEnabled);
   ("bk.action.mins.InByVal", BInByVal);
   ("bk.action.caa.login.GetSimPhones", BGetSimPhones);
   ("bk.action.caa.login.GetDeviceEmails", BGetDeviceEmails);
   ("bk.action.bloks.IsAppInstalled", BIsAppInstalled);
   ("bk.action.CheckPermissionStatus", BCheckPermissionStatus);
   ("bk.action.ig.protection.GetSecureNonces", BGetSecureNonces);
   ("bk.action.ref.Read", BRefRead);
   ("bk.action.ref.Write", BRefWrite);
   ("bk.action.bloks.AsyncActionWithDataManifestV2", BAsyncAction);
   ("bk.action.string.JsonEncode", BJsonEncode);
   ("bk.action.map.Merge", BMapMerge);
   ("bk.action.string.MatchesRegex", BMatchesRegex);
   ("bk.action.function.BindWithArrayV2", BBindWithArray);
   ("h9a", BH9a);
   ("bk.action.caa.HandleLoginResponseForContextChange", BHandleLoginResponse);
   ("bk.action.map.Get", BMapGet);
   ("bk.action.core.AsNonnull", BAsNonnull);
   ("bk.action.mins.AssertType", BAssertType);
   ("bk.action.mins.TypeOf", BTypeOf);
   ("bk.action.mins.GetByValOr", BGetByValOr);
   ("bk.action.fx.OpenSyncScreen", BOpenSyncScreen); ("bk.action.fx.PushSyncScreen", BOpenSyncScreen);
   ("bk.action.bloks.GetPayload", BGetPayload);
   ("bk.action.cds.PushScreen", BPushScreen);
   ("bk.action.string.Length", BStringLength);
   ("bk.action.mins.Ge", BGe);
   ("bk.action.mins.Le", BLe);
   ("bk.action.timer.Start", BTimerStart);
   ("bk.action.caa.PresentCheckpointsFlow", BPresentCheckpointsFlow);
   ("bk.action.dialog.OpenDialog", BOpenDialog);
   ("bk.action.navigation.OpenUrl", BOpenUrl)]
  ++ map (fun f => (f, BIgnored))
  ["bk.action.animated.Start"; "bk.action.logging.LogEvent"; "bk.action.LogFlytrapData";
   "bk.action.qpl.MarkerStartV2"; "bk.action.qpl.MarkerAnnotate"; "bk.action.bloks.ClearFocus";
   "bk.action.qpl.MarkerPoint"; "bk.action.qpl.MarkerEndV2"; "bk.action.bloks.DismissKeyboard";
   "bk.action.qpl.userflow.MarkPointV2"; "bk.action.qpl.userflow.EndFlowSuccessV2";
   "bk.action.qpl.userflow.AnnotateV2"; "bk.action.caa.reg.SaveCachedInfo";
   "bk.action.textinput.SetTextV2"; "bk.action.caa.reg.SaveMachineID";
   "bk.action.caa.ShowLoggedInResetPassword"; "bk.fx.action.FetchAllAvailableNativeAuthDataForCaller"].

Definition builtin_of (f : string) : option Builtin := assoc f builtins.

Definition maxInterpArgs : nat := 100.

Section Eval.
Context {W : Type} `{Library} (br : Bridge W) (i : nat).

(** [ev] evaluates the nodes of a call's arguments, in a context. *)
Section Call.
Variables (ev : option nat -> Node -> M (St W) lit) (c : option nat) (args : list Node).

(** [call.Args[n]] *)
Definition arg (n : nat) : M (St W) Node := match args !! n with Some a => mret a | None => panic end.
Definition ev_arg (n : nat) : M (St W) lit := a ← arg n; ev c a.

(** [val.Value().(T)] *)
Definition cast {A} (f : value -> option A) (l : lit) : M (St W) A :=
  v ← deref l; match f v with Some a => mret a | None => throw "unexpected type" end.
(** [evalAs] *)
Definition evalAs {A} (f : value -> option A) (n : Node) : M (St W) A := l ← ev c n; cast f l.
Definition arg_as {A} (f : value -> option A) (n : nat) : M (St W) A := a ← arg n; evalAs f a.

Definition truthy (l : lit) : M (St W) bool := v ← deref l; mret (IsTruthy v).
Definition ret_value (v : value) : M (St W) lit := mret (Some v).

Definition this_interp : M (St W) Interp := load interps i.
Definition set_vars (f : Interp -> Interp) : M (St W) unit := modify (set_interps (alter f i)).
Definition put_local (name : string) (l : lit) (p : Interp) : Interp :=
  {| Scripts := Scripts p; Payloads := Payloads p; LocalVars := <[name := l]> (LocalVars p); GlobalVars := GlobalVars p |}.
Definition put_global (name : string) (l : lit) (p : Interp) : Interp :=
  {| Scripts := Scripts p; Payloads := Payloads p; LocalVars := LocalVars p; GlobalVars := <[name := l]> (GlobalVars p) |}.

Definition eval_GetVariable : M (St W) lit :=
  name ← arg_as as_string 0;
  p ← this_interp;
  mret (match LocalVars p !! name with
        | Some v => v
        | None => match GlobalVars p !! name with Some v => v | None => BloksNull end
        end).

Fixpoint eval_TakeLast (last : lit) (l : list Node) : M (St W) lit :=
  match l with [] => mret last | n :: l => r ← ev c n; eval_TakeLast r l end.

(** The arguments of an application go behind the bound ones. *)
Fixpoint apply_args (pos : nat) (frame : list lit) (l : list Node) : M (St W) (list lit) :=
  match l with
  | [] => mret frame
  | n :: l =>
      r ← ev c n;
      if (pos <? maxInterpArgs)%nat then apply_args (S pos) (<[pos := r]> frame) l else panic
  end.

Definition eval_Apply : M (St W) lit :=
  fn ← arg_as as_lambda 0;
  f ← load lambdas fn;
  let bound := take maxInterpArgs (BoundArgs f) in
  newArgs ← apply_args (length (BoundArgs f)) (bound ++ replicate (maxInterpArgs - length bound) None) (drop 1 args);
  frame ← new_frame newArgs;
  ev (Some frame) (Body f).

(** An index into the frame of arguments; without a frame all of them are nil. *)
Definition get_arg (frame : list lit) (idx : Z) : M (St W) lit :=
  if (0 <=? idx) then match frame !! Z.to_nat idx with Some v => mret v | None => panic end else panic.

Definition eval_GetArg : M (St W) lit :=
  idx ← arg_as as_int64 0;
  frame ← match c with Some f => load frames f | None => mret (replicate maxInterpArgs None) end;
  get_arg frame idx.

Definition eval_SetArg : M (St W) lit :=
  idx ← arg_as as_int64 0;
  v ← ev_arg 1;
  match c with
  | None => panic
  | Some f =>
      frame ← load frames f;
      get_arg frame idx;;
      modify (set_frames (alter (<[Z.to_nat idx := v]>) f));;
      mret BloksNothing
  end.

Definition compare (op : Z -> Z -> bool) : M (St W) lit :=
  a ← arg_as as_int64 0; b ← arg_as as_int64 1; ret_value (VBool (op a b)).

Definition eval_WriteVar (put : string -> lit -> Interp -> Interp) (notify : string -> lit -> M (St W) unit) : M (St W) lit :=
  name ← arg_as as_string 0;
  v ← ev_arg 1;
  set_vars (put name v);;
  notify name v;;
  mret BloksNothing.

Definition eval_MapMake : M (St W) lit :=
  first ← arg_as as_array 0;
  second ← arg_as as_array 1;
  if (length first =? length second)%nat then
    keys ← each (cast as_string) first;
    loc ← new_dict (list_to_map (reverse (zip keys second)));
    ret_value (VMap loc)
  else throw "mismatching map lengths".

Definition eval_GetText : M (St W) lit :=
  ref ← arg_as as_elem 0;
  e ← load elems ref;
  t ← gets (fun s => texts s !! e);
  match t with Some t => ret_value (VStr t) | None => throw "no text content in referenced element" end.

Definition eval_CallRuntime : M (St W) lit :=
  num ← arg_as as_int64 0;
  if num =? 6 then
    match length args with
    | 1%nat => loc ← new_dict ∅; ret_value (VMap loc)
    | 3%nat =>
        key ← arg_as as_string 1;
        v ← ev_arg 2;
        loc ← new_dict {[key := v]};
        ret_value (VMap loc)
    | _ => throw "bad arg count for runtime subr 6"
    end
  else throw "unknown runtime subr".

Definition eval_Put : M (St W) lit :=
  dict ← arg_as as_dict 0;
  key ← arg_as as_string 1;
  v ← ev_arg 2;
  modify (set_dicts (alter (<[key := v]>) dict));;
  mret BloksNothing.

(** A map and a key of it. *)
Definition dict_and_key : M (St W) (gmap string lit * string) :=
  dict ← arg_as as_dict 0;
  key ← arg_as as_string 1;
  d ← load dicts dict;
  mret (d, key).

Definition strings (l : list lit) : M (St W) (list string) := each (cast as_string) l.

(** The parameters of an RPC.  The source goes through the map in no fixed order, which matters
    only for which of several errors is reported. *)
Definition string_params (d : gmap string lit) : M (St W) (gmap string string) :=
  l ← each (fun '(k, v) => s ← cast as_string v; mret (k, s)) (map_to_list d);
  mret (list_to_map l).

(** The reference of [ref.Read] and [ref.Write] is a form, not a value. *)
Definition ref_name : M (St W) string :=
  ref ← arg 0;
  match ref with
  | Literal _ => throw "reading from non-ref"
  | Funcall f refargs =>
      if (f =? "bk.action.bloks.GetVariable2")%string
      then match refargs with a :: _ => evalAs as_string a | [] => panic end
      else throw "reading from non-ref funcall"
  end.

(** [evalTreeProp35] and [evalTreeCallback]: the first attribute that is wanted and whose data
    evaluates to what is expected. *)
Fixpoint tree_prop {A} (want : Z -> bool) (as_data : value -> option A) (lastEvalErr : string) (l : list Node) : M (St W) A :=
  match l with
  | k :: d :: l =>
      attr ← evalAs as_int64 k;
      if want attr
      then catch (evalAs as_data d) (fun e => tree_prop want as_data e l)
      else tree_prop want as_data lastEvalErr l
  | _ => throw (("no matching prop in tree: " ++ lastEvalErr)%string)
  end.

Definition evalTree {A} (want : Z -> bool) (as_data : value -> option A) (form : Node) : M (St W) A :=
  match form with
  | Literal _ => throw "non-funcall"
  | Funcall f l =>
      if (f =? "bk.action.tree.Make")%string then
        if Nat.even (length l) then throw "tree.make even number of args"
        else tree_prop want as_data "%!w(<nil>)" (drop 1 l)
      else throw "non-tree funcall"
  end.

Definition evalTreeProp35 : Node -> M (St W) string :=
  evalTree (fun attr => (attr =? 35) || (attr =? 41) || (attr =? 43)) as_string.
Definition evalTreeCallback : Node -> M (St W) nat := evalTree (fun attr => attr =? 36) as_lambda.

Definition eval_AsyncAction : M (St W) lit :=
  name ← arg_as as_string 0;
  params ← arg_as as_dict 1;
  d ← load dicts params;
  flatParams ← string_params d;
  cb ← (a ← arg 2; evalTreeCallback a);
  DoRPC br c name flatParams false (Some {| cb_interp := i; cb_ctx := c; cb_fn := cb |});;
  mret BloksNothing.

Definition eval_PushScreen : M (St W) lit :=
  name ← (a ← arg 0; evalTreeProp35 a);
  params ← arg_as as_dict 2;
  d ← load dicts params;
  flatParams ← string_params d;
  DoRPC br c name flatParams true None;;
  mret BloksNothing.

Definition eval_OpenSyncScreen : M (St W) lit :=
  name ← (a ← arg 0; evalTreeProp35 a);
  ref ← arg_as as_bundle 1;
  b ← load brefs ref;
  DisplayNewScreen br c name b;;
  mret BloksNothing.

Definition eval_TimerStart : M (St W) lit :=
  interval ← arg_as as_int64 1;
  cb ← arg_as as_lambda 3;
  name ← arg_as as_string 4;
  StartTimer br name (int64 (interval * 1000000)) {| cb_interp := i; cb_ctx := c; cb_fn := cb |};;
  mret BloksNothing.

Definition eval_If : M (St W) lit :=
  cond ← ev_arg 0; t ← truthy cond; if t : bool then ev_arg 1 else ev_arg 2.

Definition eval_Or : M (St W) lit :=
  first ← ev_arg 0; t ← truthy first; if t : bool then mret first else ev_arg 1.

Definition eval_And : M (St W) lit :=
  first ← ev_arg 0; t ← truthy first; if t : bool then ev_arg 1 else mret first.

Definition eval_FuncConst : M (St W) lit :=
  body ← arg 0; loc ← new_lambda {| Body := body; BoundArgs := [] |}; ret_value (VLambda loc).

Definition eval_Eq : M (St W) lit :=
  a ← ev_arg 0; b ← ev_arg 1; va ← deref a; vb ← deref b; r ← lift (same_value va vb); ret_value (VBool r).

Definition eval_Lt : M (St W) lit := compare Z.ltb.

Definition eval_Gt : M (St W) lit := compare (fun a b => b <? a).

Definition eval_Const : M (St W) lit := ev_arg 0.

Definition eval_GetScript : M (St W) lit :=
  name ← arg_as as_string 0;
  p ← this_interp;
  match Scripts p !! name with Some loc => ret_value (VLambda loc) | None => throw (("no such script " ++ name)%string) end.

Definition eval_ArrayMake : M (St W) lit := l ← each (ev c) args; ret_value (VArr l).

Definition eval_GetUniqueDeviceId : M (St W) lit := ret_value (VStr (DeviceID br)).

Definition eval_GetFamilyDeviceId : M (St W) lit := ret_value (VStr (FamilyDeviceID br)).

Definition eval_FetchMachineID : M (St W) lit := ret_value (VStr (MachineID br)).

Definition eval_EncryptPassword : M (St W) lit :=
  pass ← arg_as as_string 0; enc ← EncryptPassword br c pass; ret_value (VStr enc).

Definition eval_Not : M (St W) lit := a ← ev_arg 0; t ← truthy a; ret_value (VBool (negb t)).

Definition eval_ArrayLength : M (St W) lit := arr ← arg_as as_array 0; ret_value (VInt (llen arr)).

Definition eval_IsDarkModeEnabled : M (St W) lit := ret_value (VBool false).

Definition eval_InByVal : M (St W) lit :=
  dk ← dict_and_key; ret_value (VBool (bool_decide (is_Some (fst dk !! snd dk)))).

Definition eval_GetSimPhones : M (St W) lit := ret_value (SIMPhones br).

Definition eval_GetDeviceEmails : M (St W) lit := ret_value (DeviceEmails br).

Definition eval_IsAppInstalled : M (St W) lit :=
  url ← arg_as as_string 0; ids ← arg_as as_array 1; strs ← strings ids;
  ret_value (VBool (IsAppInstalled br url strs)).

Definition eval_CheckPermissionStatus : M (St W) lit :=
  perms ← arg_as as_array 0; strs ← strings perms; ret_value (VBool (HasAppPermissions br strs)).

Definition eval_GetSecureNonces : M (St W) lit :=
  ret_value (VArr (map (fun n => Some (VStr n)) (GetSecureNonces br))).

Definition eval_RefRead : M (St W) lit :=
  name ← ref_name; p ← this_interp;
  mret (match GlobalVars p !! name with Some v => v | None => BloksNull end).

Definition eval_RefWrite : M (St W) lit :=
  name ← ref_name; v ← ev_arg 1; set_vars (put_global name v);; mret BloksNothing.

Definition eval_JsonEncode : M (St W) lit :=
  a ← ev_arg 0; v ← deref a;
  ds ← gets dicts; fs ← gets lambdas;
  f ← lift (Flatten (length ds) ds true v);
  s ← lift (json_Marshal ds fs f);
  ret_value (VStr s).

Definition eval_MapMerge : M (St W) lit :=
  first ← arg_as as_dict 0; second ← arg_as as_dict 1;
  d1 ← load dicts first; d2 ← load dicts second;
  loc ← new_dict (d2 ∪ d1);
  ret_value (VMap loc).

Definition eval_MatchesRegex : M (St W) lit :=
  str ← arg_as as_string 0; regex ← arg_as as_string 1;
  r ← lift (regexp_MatchString str regex); ret_value (VBool r).

Definition eval_BindWithArray : M (St W) lit :=
  fn ← arg_as as_lambda 0; newArgs ← arg_as as_array 1;
  f ← load lambdas fn;
  loc ← new_lambda {| Body := Body f; BoundArgs := newArgs |};
  ret_value (VLambda loc).

Definition eval_H9a : M (St W) lit :=
  a2 ← arg 2; a0 ← arg 0;
  ev c (Funcall "bk.action.core.Apply" [a2; Funcall "bk.action.string.EncryptPassword" [a0]]).

Definition eval_HandleLoginResponse : M (St W) lit :=
  data ← (a ← arg 0; evalTreeProp35 a); HandleLoginResponse br c data;; mret BloksNothing.

Definition eval_MapGet : M (St W) lit :=
  dk ← dict_and_key; mret (match fst dk !! snd dk with Some v => v | None => BloksNull end).

Definition eval_AsNonnull : M (St W) lit :=
  r ← ev_arg 0; v ← deref r;
  match v with VNull => throw "asnonnull got null" | _ => mret r end.

Definition eval_AssertType : M (St W) lit :=
  val ← ev_arg 0; expected ← arg_as as_int64 1;
  v ← deref val; actual ← lift (getBloksType v);
  if expected =? actual then mret val else throw "bloks type assertion failure".

Definition eval_TypeOf : M (St W) lit :=
  val ← ev_arg 0; v ← deref val; t ← lift (getBloksType v); ret_value (VInt t).

Definition eval_GetByValOr : M (St W) lit :=
  a0 ← arg 0; a1 ← arg 1; a2 ← arg 2;
  ev c (Funcall "bk.action.bool.Or" [Funcall "bk.action.map.Get" [a0; a1]; a2]).

Definition eval_GetPayload : M (St W) lit :=
  name ← arg_as as_string 0;
  p ← this_interp;
  match Payloads p !! name with Some loc => ret_value (VBundle loc) | None => throw (("no such payload " ++ name)%string) end.

Definition eval_StringLength : M (St W) lit := str ← arg_as as_string 0; ret_value (VInt (slen str)).

Definition eval_Ge : M (St W) lit := compare (fun a b => b <=? a).

Definition eval_Le : M (St W) lit := compare Z.leb.

Definition eval_PresentCheckpointsFlow : M (St W) lit :=
  flow ← arg_as as_string 0;
  tm ← lift (json_checkpointsFlow flow);
  throw ((fst tm ++ ": " ++ snd tm)%string).

Definition eval_OpenDialog : M (St W) lit := msg ← (a ← arg 0; evalTreeProp35 a); throw msg.

Definition eval_OpenUrl : M (St W) lit := url ← arg_as as_string 0; OpenURL br url;; mret BloksNothing.

Definition eval_Ignored : M (St W) lit := mret BloksNothing.

Definition eval_builtin (b : Builtin) : M (St W) lit :=
  match b with
  | BIf => eval_If
  | BOr => eval_Or
  | BAnd => eval_And
  | BGetVariable => eval_GetVariable
  | BTakeLast => eval_TakeLast None args
  | BApply => eval_Apply
  | BFuncConst => eval_FuncConst
  | BGetArg => eval_GetArg
  | BSetArg => eval_SetArg
  | BEq => eval_Eq
  | BLt => eval_Lt
  | BGt => eval_Gt
  | BConst => eval_Const
  | BGetScript => eval_GetScript
  | BWriteLocalState => eval_WriteVar put_local (fun _ _ => mret tt)
  | BWriteGlobal => eval_WriteVar put_global (HandleVariableChange br)
  | BArrayMake => eval_ArrayMake
  | BMapMake => eval_MapMake
  | BGetUniqueDeviceId => eval_GetUniqueDeviceId
  | BGetFamilyDeviceId => eval_GetFamilyDeviceId
  | BFetchMachineID => eval_FetchMachineID
  | BEncryptPassword => eval_EncryptPassword
  | BGetText => eval_GetText
  | BNot => eval_Not
  | BCallRuntime => eval_CallRuntime
  | BPut => eval_Put
  | BArrayLength => eval_ArrayLength
  | BIsDarkModeEnabled => eval_IsDarkModeEnabled
  | BInByVal => eval_InByVal
  | BGetSimPhones => eval_GetSimPhones
  | BGetDeviceEmails => eval_GetDeviceEmails
  | BIsAppInstalled => eval_IsAppInstalled
  | BCheckPermissionStatus => eval_CheckPermissionStatus
  | BGetSecureNonces => eval_GetSecureNonces
  | BRefRead => eval_RefRead
  | BRefWrite => eval_RefWrite
  | BAsyncAction => eval_AsyncAction
  | BJsonEncode => eval_JsonEncode
  | BMapMerge => eval_MapMerge
  | BMatchesRegex => eval_MatchesRegex
  | BBindWithArray => eval_BindWithArray
  | BH9a => eval_H9a
  | BHandleLoginResponse => eval_HandleLoginResponse
  | BMapGet => eval_MapGet
  | BAsNonnull => eval_AsNonnull
  | BAssertType => eval_AssertType
  | BTypeOf => eval_TypeOf
  | BGetByValOr => eval_GetByValOr
  | BOpenSyncScreen => eval_OpenSyncScreen
  | BGetPayload => eval_GetPayload
  | BPushScreen => eval_PushScreen
  | BStringLength => eval_StringLength
  | BGe => eval_Ge
  | BLe => eval_Le
  | BTimerStart => eval_TimerStart
  | BPresentCheckpointsFlow => eval_PresentCheckpointsFlow
  | BOpenDialog => eval_OpenDialog
  | BOpenUrl => eval_OpenUrl
  | BIgnored => eval_Ignored
  end.
End Call.

Fixpoint Evaluate (fuel : nat) (c : option nat) (form : Node) : M (St W) lit :=
  match fuel with
  | O => diverge
  | S fuel =>
      match form with
      | Literal l => mret l
      | Funcall f args =>
          match builtin_of f with
          | Some b => eval_builtin (Evaluate fuel) c args b
          | None => throw (("unimplemented function " ++ f)%string)
          end
      end
  end.
End Eval.

Create HintDb bloks.
#[export] Hint Unfold eval_If eval_Or eval_And eval_FuncConst eval_Eq eval_Lt eval_Gt eval_Const
  eval_GetScript eval_ArrayMake eval_GetUniqueDeviceId eval_GetFamilyDeviceId eval_FetchMachineID
  eval_EncryptPassword eval_Not eval_ArrayLength eval_IsDarkModeEnabled eval_InByVal
  eval_GetSimPhones eval_GetDeviceEmails eval_IsAppInstalled eval_CheckPermissionStatus
  eval_GetSecureNonces eval_RefRead eval_RefWrite eval_JsonEncode eval_MapMerge eval_MatchesRegex
  eval_BindWithArray eval_H9a eval_HandleLoginResponse eval_MapGet eval_AsNonnull eval_AssertType
  eval_TypeOf eval_GetByValOr eval_GetPayload eval_StringLength eval_Ge eval_Le
  eval_PresentCheckpointsFlow eval_OpenDialog eval_OpenUrl eval_Ignored : bloks.

(** ** Making an interpreter *)

(** What the host sets of an [InterpBridge]: the functions it leaves nil get a default. *)
Record InterpBridge (W : Type) := {
  set_DeviceID : string;
  set_FamilyDeviceID : string;
  set_MachineID : string;
  set_EncryptPassword : option (option nat -> string -> M (St W) string);
  set_SIMPhones : value;
  set_DeviceEmails : value;
  set_IsAppInstalled : option (string -> list string -> bool);
  set_HasAppPermissions : option (list string -> bool);
  set_GetSecureNonces : option (list string);
  set_DoRPC : option (option nat -> string -> gmap string string -> bool -> option callback -> M (St W) unit);
  set_DisplayNewScreen : option (option nat -> string -> nat -> M (St W) unit);
  set_HandleLoginResponse : option (option nat -> string -> M (St W) unit);
  set_StartTimer : option (string -> Z -> callback -> M (St W) unit);
  set_OpenURL : option (string -> M (St W) unit);
  set_HandleVariableChange : option (string -> lit -> M (St W) unit);
}.

Arguments set_DeviceID {W}. Arguments set_FamilyDeviceID {W}. Arguments set_MachineID {W}.
Arguments set_EncryptPassword {W}. Arguments set_SIMPhones {W}. Arguments set_DeviceEmails {W}.
Arguments set_IsAppInstalled {W}. Arguments set_HasAppPermissions {W}. Arguments set_GetSecureNonces {W}.
Arguments set_DoRPC {W}. Arguments set_DisplayNewScreen {W}. Arguments set_HandleLoginResponse {W}.
Arguments set_StartTimer {W}. Arguments set_OpenURL {W}. Arguments set_HandleVariableChange {W}.

Section NewInterpreter.
Context {W : Type} `{Library}.

(** The digest of no bytes: [sha256.New().Sum(pw)] puts it behind [pw]. *)
Definition sha256_empty : list Z :=
  [227; 176; 196; 66; 152; 252; 28; 20; 154; 251; 244; 200; 153; 111; 185; 36; 39; 174; 65; 228; 100; 155; 147; 76; 164; 149; 153; 27; 120; 82; 184; 85].

Definition fake_password (pw : string) : string :=
  ("#PWD_LIGHTSPEED_FAKE:" ++ EncodeToString StdEncoding (s2l pw ++ map z2b sha256_empty))%string.

(** The defaults; [uuid1], [uuid2] are the fresh identifiers of the device. *)
Definition with_defaults (uuid1 uuid2 : string) (b : InterpBridge W) : Bridge W := {|
  DeviceID := if (set_DeviceID b =? "")%string then uuid1 else set_DeviceID b;
  FamilyDeviceID := if (set_FamilyDeviceID b =? "")%string then uuid2 else set_FamilyDeviceID b;
  MachineID := set_MachineID b;
  EncryptPassword := default (fun _ pw => mret (fake_password pw)) (set_EncryptPassword b);
  SIMPhones := set_SIMPhones b;
  DeviceEmails := set_DeviceEmails b;
  IsAppInstalled := default (fun _ _ => false) (set_IsAppInstalled b);
  HasAppPermissions := default (fun _ => false) (set_HasAppPermissions b);
  GetSecureNonces := default [] (set_GetSecureNonces b);
  DoRPC := default (fun _ name _ _ _ => throw ("unhandled rpc " ++ name)%string) (set_DoRPC b);
  DisplayNewScreen := default (fun _ name _ => throw ("unhandled new screen " ++ name)%string) (set_DisplayNewScreen b);
  HandleLoginResponse := default (fun _ _ => throw "unhandled login response") (set_HandleLoginResponse b);
  StartTimer := default (fun name _ _ => throw ("unhandled timer " ++ name)%string) (set_StartTimer b);
  OpenURL := default (fun url => throw ("unhandled url " ++ url)%string) (set_OpenURL b);
  HandleVariableChange := default (fun _ _ => mret tt) (set_HandleVariableChange b);
|}.

(** The value a global variable keeps from the interpreter of the page before. *)
Definition old_global (old : option nat) (id : string) : M (St W) (option lit) :=
  match old with
  | None => mret None
  | Some o => p ← load interps o; mret (GlobalVars p !! id)
  end.

(** The loop over the variables that have no script. *)
Fixpoint static_vars (old : option nat) (vars : list Variable_) (p : Interp) : M (St W) Interp :=
  match vars with
  | [] => mret p
  | v :: vars =>
      match InitialScript v with
      | Some _ => static_vars old vars p
      | None =>
          if (Type_ v =? "gs")%string then
            o ← old_global old (ID v);
            l ← match o with
                | Some l => mret l
                | None => x ← BloksLiteralFromJavaScript (Initial v); mret (Some x)
                end;
            static_vars old vars (put_global (ID v) l p)
          else if (Type_ v =? "ls")%string then
            x ← BloksLiteralFromJavaScript (Initial v);
            static_vars old vars (put_local (ID v) (Some x) p)
          else throw "unexpected var type"
      end
  end.

(** The loop over the others: the interpreter is already running. *)
Fixpoint dynamic_vars (eval : Node -> M (St W) lit) (i : nat) (old : option nat) (vars : list Variable_) : M (St W) unit :=
  match vars with
  | [] => mret tt
  | v :: vars =>
      match InitialScript v with
      | None => dynamic_vars eval i old vars
      | Some script =>
          l ← catch (eval script) (fun e => throw ("var " ++ ID v ++ ": " ++ e)%string);
          if (Type_ v =? "gs")%string then
            o ← old_global old (ID v);
            set_vars i (put_global (ID v) (match o with Some l' => l' | None => l end));;
            dynamic_vars eval i old vars
          else if (Type_ v =? "ls")%string then
            set_vars i (put_local (ID v) l);;
            dynamic_vars eval i old vars
          else throw "unexpected var type"
      end
  end.

Definition NewInterpreter (br : Bridge W) (fuel : nat) (c : option nat) (b : nat) (old : option nat) : M (St W) nat :=
  p ← load bundles b;
  scripts ← each (fun '(id, script) => loc ← new_lambda {| Body := script; BoundArgs := [] |}; mret (id, loc)) (BScripts p);
  payloads ← each (fun '(id, e) => loc ← new_bref e; mret (id, loc)) (BEmbedded p);
  p0 ← static_vars old (BVariables p)
         {| Scripts := list_to_map scripts; Payloads := list_to_map (reverse payloads); LocalVars := ∅; GlobalVars := ∅ |};
  i ← new_interp p0;
  dynamic_vars (Evaluate br i fuel c) i old (BVariables p);;
  mret i.

(** [SetupInterpreter]: the bundle gets its interpreter once it is complete. *)
Definition SetupInterpreter (br : Bridge W) (fuel : nat) (c : option nat) (b : nat) (prev : option nat) : M (St W) unit :=
  i ← NewInterpreter br fuel c b prev;
  modify (set_bundles (alter (fun b => {| BScripts := BScripts b; BVariables := BVariables b; BEmbedded := BEmbedded b;
                                          BTree := BTree b; BAction := BAction b; BInterpreter := Some i |}) b)).
End NewInterpreter.
