(* ===== verification/BloksEval.v ===== *)
(** * BloksEval: what holds of every script ([bloks/interp.go])

    One theorem goes through the cases of the interpreter: [eval_builtin_rel], for any relation
    between computations that the operations of the monad keep.  It is used for what every
    evaluation respects, for the fuel, and for the runs that come back. *)

From S2P Require Import Prelude Effects BloksScript BloksTree BloksInterp.
#[local] Open Scope string_scope.
#[local] Open Scope Z_scope.
#[local] Open Scope list_scope.

(** ** The changes an interpreter makes to the state *)

Inductive step {W} : (St W -> St W) -> Prop :=
| step_new_dict d : step (set_dicts (fun ds => ds ++ [d]))
| step_put dict key v : step (set_dicts (alter (<[key := v]>) dict))
| step_new_lambda f : step (set_lambdas (fun fs => fs ++ [f]))
| step_new_frame f : length f = maxInterpArgs -> step (set_frames (fun fs => fs ++ [f]))
| step_set_arg idx v f : step (set_frames (alter (<[idx := v]>) f))
| step_put_local i name v : step (set_interps (alter (put_local name v) i))
| step_put_global i name v : step (set_interps (alter (put_global name v) i))
| step_new_bref b : step (set_brefs (fun bs => bs ++ [b]))
| step_new_interp p : step (set_interps (fun ps => ps ++ [p])).

(** Two bridges that differ in their effects only, and those are related. *)
Class BridgeRel {W} (Q : forall A, M (St W) A -> M (St W) A -> Prop) (br br' : Bridge W) := {
  same_DeviceID : DeviceID br = DeviceID br';
  same_FamilyDeviceID : FamilyDeviceID br = FamilyDeviceID br';
  same_MachineID : MachineID br = MachineID br';
  same_SIMPhones : SIMPhones br = SIMPhones br';
  same_DeviceEmails : DeviceEmails br = DeviceEmails br';
  same_IsAppInstalled : IsAppInstalled br = IsAppInstalled br';
  same_HasAppPermissions : HasAppPermissions br = HasAppPermissions br';
  same_GetSecureNonces : GetSecureNonces br = GetSecureNonces br';
  rel_EncryptPassword c pw : Q _ (EncryptPassword br c pw) (EncryptPassword br' c pw);
  rel_DoRPC c name params isPage cb : Q _ (DoRPC br c name params isPage cb) (DoRPC br' c name params isPage cb);
  rel_DisplayNewScreen c name b : Q _ (DisplayNewScreen br c name b) (DisplayNewScreen br' c name b);
  rel_HandleLoginResponse c data : Q _ (HandleLoginResponse br c data) (HandleLoginResponse br' c data);
  rel_StartTimer name interval cb : Q _ (StartTimer br name interval cb) (StartTimer br' name interval cb);
  rel_OpenURL url : Q _ (OpenURL br url) (OpenURL br' url);
  rel_HandleVariableChange name v : Q _ (HandleVariableChange br name v) (HandleVariableChange br' name v);
}.

(** The library functions come back. *)
Class LibraryEnds (L : Library) := {
  regexp_ends s r : diverges (regexp_MatchString s r) = false;
  json_Marshal_ends ds fs f : diverges (json_Marshal ds fs f) = false;
  json_flow_ends s : diverges (json_checkpointsFlow s) = false;
}.

Lemma Flatten_ends b ds fuel : forall v, diverges (Flatten fuel ds b v) = false.
Proof.
  induction fuel as [|fuel IH]; intros []; try done. cbn [Flatten]. destruct (ds !! loc) as [d|]; [|done].
  enough (forall l, diverges (flatten_entries (Flatten fuel ds b) l) = false) as H
    by (specialize (H (map_to_list d)); by destruct (flatten_entries _ _) as [| |[]]).
  induction l as [|[k [v|]] l IHl]; [done| |done]. cbn [flatten_entries]. specialize (IH v).
  destruct (Flatten fuel ds b v) as [f| |[]]; try done. cbn.
  by destruct (flatten_entries _ l) as [| |[]].
Qed.

Lemma same_value_ends a b : diverges (same_value a b) = false.
Proof. by destruct a, b. Qed.
Lemma getBloksType_ends v : diverges (getBloksType v) = false.
Proof. by destruct v. Qed.

Section Param.
Context {W : Type} `{L : Library} `{!LibraryEnds L}.
Context (Q : forall A, M (St W) A -> M (St W) A -> Prop) `{!MonadRel Q}.
Hypothesis Hmod : forall f, step f -> Q _ (modify f) (modify f).
Context (br br' : Bridge W) `{!BridgeRel Q br br'} (i : nat).

(** The operations of the monad, for [Q]. *)
Lemma q_ret {A} (a : A) : Q A (mret a) (mret a).
Proof. apply (rel_ret Q). Qed.
Lemma q_lift {A} (r : res A) : diverges r = false -> Q A (lift r) (lift r).
Proof. apply (rel_lift (Q := Q)). Qed.
Lemma q_gets {A} (f : St W -> A) : Q A (gets f) (gets f).
Proof. apply (rel_gets (Q := Q)). Qed.
Lemma q_bind {A B} (m m' : M (St W) A) (f f' : A -> M (St W) B) :
  Q A m m' -> (forall a, returns m a -> Q B (f a) (f' a)) -> Q B (m ≫= f) (m' ≫= f').
Proof. apply (rel_bind (Q := Q)). Qed.
Lemma q_catch {A} (m m' : M (St W) A) h h' :
  Q A m m' -> (forall e, Q A (h e) (h' e)) -> Q A (catch m h) (catch m' h').
Proof. apply (rel_catch (Q := Q)). Qed.
Lemma q_each {A B} (f f' : A -> M (St W) B) l :
  (forall a, a ∈ l -> Q B (f a) (f' a)) -> Q _ (each f l) (each f' l).
Proof. apply (rel_each Q). Qed.

Lemma rel_load {A} (get : St W -> list A) loc : Q _ (load get loc) (load get loc).
Proof. apply q_bind; [apply q_gets|]. intros [a|] _; [by apply q_ret|by apply q_lift]. Qed.

Lemma rel_deref l : Q _ (deref l) (deref l).
Proof. destruct l; [by apply q_ret|by apply q_lift]. Qed.

Lemma rel_cast {A} (f : value -> option A) l : Q _ (cast f l) (cast f l).
Proof. apply q_bind; [apply rel_deref|]. intros v _. destruct (f v); [by apply q_ret|by apply q_lift]. Qed.

Lemma rel_throw {A} e : Q A (throw e) (throw e).
Proof. by apply q_lift. Qed.

Lemma rel_panic {A} : Q A panic panic.
Proof. by apply q_lift. Qed.

(** A new object: the length, the update, the location. *)
Lemma rel_new (len : St W -> nat) f : step f ->
  Q _ (l ← gets len; modify f;; mret l) (l ← gets len; modify f;; mret l).
Proof.
  intros Hf. apply q_bind; [apply q_gets|intros l _].
  apply q_bind; [by apply Hmod|intros; by apply q_ret].
Qed.

Lemma rel_new_dict d : Q _ (new_dict d) (new_dict d).
Proof. apply rel_new. constructor. Qed.
Lemma rel_new_lambda f : Q _ (new_lambda f) (new_lambda f).
Proof. apply rel_new. constructor. Qed.
Lemma rel_new_bref b : Q _ (new_bref b) (new_bref b).
Proof. apply rel_new. constructor. Qed.
Lemma rel_new_interp p : Q _ (new_interp p) (new_interp p).
Proof. apply rel_new. constructor. Qed.
Lemma rel_new_frame f : length f = maxInterpArgs -> Q _ (new_frame f) (new_frame f).
Proof. intros. apply rel_new. by constructor. Qed.

(** ** A call *)

Context (E : Node -> Prop) (ev ev' : option nat -> Node -> M (St W) lit) (c : option nat).
Hypothesis Hev : forall c a, E a -> Q _ (ev c a) (ev' c a).

Lemma rel_evalAs {A} (f : value -> option A) a : E a -> Q _ (evalAs ev c f a) (evalAs ev' c f a).
Proof. intros Ha. apply q_bind; [by apply Hev|intros; apply rel_cast]. Qed.

Lemma rel_tree_prop {A} (want : Z -> bool) (f : value -> option A) l : Forall E l ->
  forall last, Q _ (tree_prop ev c want f last l) (tree_prop ev' c want f last l).
Proof.
  enough (forall n l, (length l <= n)%nat -> Forall E l ->
    forall last, Q _ (tree_prop ev c want f last l) (tree_prop ev' c want f last l)) as H by (by apply (H (length l))).
  clear l. induction n as [|n IH]; intros [|k [|d l]] Hn Hl last; cbn in *; try apply rel_throw; try lia.
  inversion Hl as [|? ? Hk Hl']. inversion Hl' as [|? ? Hd Hl'']. subst.
  apply q_bind; [by apply rel_evalAs|]. intros attr _. destruct (want attr).
  - apply q_catch; [by apply rel_evalAs|]. intros e. apply IH; [lia|done].
  - apply IH; [lia|done].
Qed.

Lemma rel_evalTree {A} (want : Z -> bool) (f : value -> option A) form :
  (forall g l, form = Funcall g l -> Forall E l) -> Q _ (evalTree ev c want f form) (evalTree ev' c want f form).
Proof.
  intros Hsub. destruct form as [l|g l]; [apply rel_throw|]. cbn [evalTree].
  destruct (_ =? _)%string; [|apply rel_throw]. destruct (Nat.even _); [apply rel_throw|].
  apply rel_tree_prop. by apply Forall_drop, (Hsub g).
Qed.

Context (args : list Node).
Hypothesis Hargs : Forall E args.
Hypothesis Hsub : forall g l, Funcall g l ∈ args -> Forall E l.

Lemma rel_arg n : Q _ (arg args n) (arg args n).
Proof. unfold arg. destruct (args !! n); [by apply q_ret|apply rel_panic]. Qed.

Lemma returns_arg n a : returns (S := St W) (arg args n) a -> a ∈ args.
Proof.
  intros (s & s' & H). unfold arg in H. destruct (args !! n) as [b|] eqn:Eb; [|done].
  injection H as _ ->. by eapply list_elem_of_lookup_2.
Qed.

Lemma rel_ev_arg n : Q _ (ev_arg ev c args n) (ev_arg ev' c args n).
Proof.
  apply q_bind; [apply rel_arg|]. intros a Ha. apply Hev.
  rewrite Forall_forall in Hargs. by apply Hargs, (returns_arg n).
Qed.

Lemma rel_arg_as {A} (f : value -> option A) n : Q _ (arg_as ev c args f n) (arg_as ev' c args f n).
Proof.
  apply q_bind; [apply rel_arg|]. intros a Ha. apply rel_evalAs.
  rewrite Forall_forall in Hargs. by apply Hargs, (returns_arg n).
Qed.

Lemma rel_tree_arg {A} (want : Z -> bool) (f : value -> option A) n :
  Q _ (a ← arg args n; evalTree ev c want f a) (a ← arg args n; evalTree ev' c want f a).
Proof.
  apply q_bind; [apply rel_arg|]. intros a Ha. apply rel_evalTree.
  intros g l ->. by apply (Hsub g), (returns_arg n).
Qed.

Lemma rel_TakeLast l : Forall E l -> forall last, Q _ (eval_TakeLast ev c last l) (eval_TakeLast ev' c last l).
Proof.
  induction 1 as [|n l Hn _ IH]; intros last; [by apply q_ret|]. cbn.
  apply q_bind; [by apply Hev|intros; apply IH].
Qed.

Lemma rel_apply_args l : Forall E l -> forall pos frame, Q _ (apply_args ev c pos frame l) (apply_args ev' c pos frame l).
Proof.
  induction 1 as [|n l Hn _ IH]; intros pos frame; [by apply q_ret|]. cbn [apply_args].
  apply q_bind; [by apply Hev|]. intros r _. destruct (_ <? _)%nat; [apply IH|apply rel_panic].
Qed.

Lemma apply_args_length l : forall pos frame fr, returns (apply_args ev c pos frame l) fr -> length fr = length frame.
Proof.
  induction l as [|n l IH]; intros pos frame fr (s & s' & H); [by injection H as _ ->|].
  cbn [apply_args] in H. unfold mbind, M_bind in H. destruct (ev c n s) as [s1 [r| |]]; try discriminate H.
  destruct (pos <? maxInterpArgs)%nat; [|discriminate H].
  rewrite (IH (S pos) (<[pos:=r]> frame) fr) by (by exists s1, s'). apply length_insert.
Qed.

Lemma rel_strings l : Q _ (strings l) (strings l).
Proof. apply q_each. intros; apply rel_cast. Qed.

Lemma rel_string_params d : Q _ (string_params d) (string_params d).
Proof.
  apply q_bind; [|intros; by apply q_ret]. apply q_each. intros [k v] _.
  apply q_bind; [apply rel_cast|intros; by apply q_ret].
Qed.

Lemma rel_ref_name : Q _ (ref_name ev c args) (ref_name ev' c args).
Proof.
  apply q_bind; [apply rel_arg|]. intros [l|f refargs] Ha; [apply rel_throw|].
  destruct (_ =? _)%string; [|apply rel_throw]. apply returns_arg, Hsub in Ha.
  destruct refargs as [|a refargs]; [apply rel_panic|]. apply rel_evalAs. by inversion Ha.
Qed.

Lemma rel_get_arg frame idx : Q _ (get_arg frame idx) (get_arg frame idx).
Proof. unfold get_arg. destruct (0 <=? idx); [|apply rel_panic]. destruct (frame !! _); [by apply q_ret|apply rel_panic]. Qed.

Lemma rel_set_vars f : step (W := W) (set_interps (alter f i)) -> Q _ (set_vars i f) (set_vars i f).
Proof. apply Hmod. Qed.

(** [rel] takes a computation apart, down to the operations above. *)
Ltac rel_atom := first
  [ by apply q_ret | apply rel_throw | apply rel_panic | apply q_gets | apply rel_load | apply rel_deref | apply rel_cast
  | apply rel_arg | apply rel_ev_arg | apply rel_arg_as | apply rel_tree_arg | apply rel_strings | apply rel_string_params
  | apply rel_ref_name | apply rel_get_arg | apply rel_new_dict | apply rel_new_lambda
  | apply rel_EncryptPassword | apply rel_DoRPC | apply rel_DisplayNewScreen | apply rel_HandleLoginResponse
  | apply rel_StartTimer | apply rel_OpenURL | apply rel_HandleVariableChange
  | apply q_lift, same_value_ends | apply q_lift, getBloksType_ends | apply q_lift, Flatten_ends
  | apply q_lift, regexp_ends | apply q_lift, json_Marshal_ends | apply q_lift, json_flow_ends
  | apply Hmod; constructor | apply rel_set_vars; constructor ].
Ltac rel := repeat first
  [ rel_atom
  | apply q_bind; [|intros ? ?]
  | match goal with
    | |- Q _ (match ?x with _ => _ end) _ => destruct x
    | |- Q _ (if ?x then _ else _) _ => destruct x
    end ].

Lemma rel_Apply : Forall E args -> (forall n, E n) -> Q _ (eval_Apply ev c args) (eval_Apply ev' c args).
Proof.
  intros Ha Hall. unfold eval_Apply. apply q_bind; [rel|intros fn _]. apply q_bind; [rel|intros f _].
  apply q_bind; [apply rel_apply_args, Forall_drop, Ha|]. intros newArgs Hr.
  apply q_bind; [|intros fr _; by apply Hev]. apply rel_new_frame.
  apply apply_args_length in Hr. rewrite Hr, length_app, length_replicate, length_take. unfold maxInterpArgs. lia.
Qed.

Lemma eval_builtin_rel b :
  (b = BApply -> forall n, E n) ->
  (b = BH9a -> forall a0 a2, a0 ∈ args -> a2 ∈ args ->
     E (Funcall "bk.action.core.Apply" [a2; Funcall "bk.action.string.EncryptPassword" [a0]])) ->
  (b = BGetByValOr -> forall a0 a1 a2, a0 ∈ args -> a1 ∈ args -> a2 ∈ args ->
     E (Funcall "bk.action.bool.Or" [Funcall "bk.action.map.Get" [a0; a1]; a2])) ->
  Q _ (eval_builtin br i ev c args b) (eval_builtin br' i ev' c args b).
Proof.
  intros Happly Hh9a Hor.
  destruct b; cbn [eval_builtin]; autounfold with bloks; try (apply rel_Apply; [done|by apply Happly]); try (by apply rel_TakeLast); unfold eval_GetVariable, eval_GetArg, eval_SetArg, eval_WriteVar, eval_MapMake,
    eval_GetText, eval_CallRuntime, eval_Put, dict_and_key, eval_AsyncAction, eval_PushScreen, eval_OpenSyncScreen,
    eval_TimerStart, compare, truthy, ret_value, this_interp, evalTreeProp35, evalTreeCallback;
    rewrite <- ?(same_DeviceID (br := br) (br' := br')), <- ?(same_FamilyDeviceID (br := br) (br' := br')),
      <- ?(same_MachineID (br := br) (br' := br')), <- ?(same_SIMPhones (br := br) (br' := br')),
      <- ?(same_DeviceEmails (br := br) (br' := br')), <- ?(same_IsAppInstalled (br := br) (br' := br')),
      <- ?(same_HasAppPermissions (br := br) (br' := br')), <- ?(same_GetSecureNonces (br := br) (br' := br')); rel.
  - apply q_each. intros a Ha. apply Hev. rewrite Forall_forall in Hargs. by apply Hargs.
  - apply Hev, Hh9a; [done|by eapply returns_arg..].
  - apply Hev, Hor; [done|by eapply returns_arg..].
Qed.
End Param.

(** ** Every evaluation, every new interpreter *)

Section All.
Context {W : Type} `{L : Library} `{!LibraryEnds L}.
Context (Q : forall A, M (St W) A -> M (St W) A -> Prop) `{!MonadRel Q}.
Hypothesis Hmod : forall f, step f -> Q _ (modify f) (modify f).
Context (br br' : Bridge W) `{!BridgeRel Q br br'} (fuel fuel' : nat).
(** What is out of fuel is related to anything, or both run out at once. *)
Hypothesis Hout : (fuel <= fuel')%nat /\ (forall m : M (St W) lit, Q _ diverge m) \/ fuel = fuel' /\ Q lit diverge diverge.

Lemma Evaluate_rel i c n : Q _ (Evaluate br i fuel c n) (Evaluate br' i fuel' c n).
Proof.
  revert fuel' Hout c n. induction fuel as [|f IH]; intros f' Ho c n.
  - destruct Ho as [[_ H]|[<- H]]; apply H.
  - assert (exists g, f' = S g /\ ((f <= g)%nat /\ (forall m : M (St W) lit, Q _ diverge m) \/ f = g /\ Q lit diverge diverge)) as (g & -> & Hg).
    { destruct Ho as [[Hle H]|[<- H]]; [|by exists f; auto]. destruct f' as [|g]; [lia|]. exists g. split; [done|]. left. split; [lia|done]. }
    cbn [Evaluate]. destruct n as [l|name args]; [apply (rel_ret Q)|].
    destruct (builtin_of name) as [b|]; [|by apply (rel_lift (Q := Q))].
    apply (eval_builtin_rel Q Hmod br br' i (fun _ => True)); try done.
    + intros c' a _. by apply IH.
    + by apply Forall_true.
    + intros. by apply Forall_true.
Qed.

Lemma old_global_rel old id : Q _ (old_global old id) (old_global old id).
Proof.
  destruct old as [o|]; [|apply (rel_ret Q)]. apply (rel_bind (Q := Q)); [by apply rel_load|].
  intros; apply (rel_ret Q).
Qed.

Lemma FromJavaScript_rel : forall j, Q _ (BloksLiteralFromJavaScript j) (BloksLiteralFromJavaScript j).
Proof.
  fix IH 1. intros [|b|s|f|z|l|l]; cbn [BloksLiteralFromJavaScript]; try exact (rel_ret Q _).
  - apply (rel_bind (Q := Q)); [|intros; apply (rel_ret Q)].
    induction l as [|j l IHl]; [apply (rel_ret Q)|].
    apply (rel_bind (Q := Q)); [exact (IH j)|intros v _].
    apply (rel_bind (Q := Q)); [exact IHl|intros; apply (rel_ret Q)].
  - apply (rel_bind (Q := Q)).
    + induction l as [|[k j] l IHl]; [apply (rel_ret Q)|].
      apply (rel_bind (Q := Q)); [exact (IH j)|intros v _].
      apply (rel_bind (Q := Q)); [exact IHl|intros; apply (rel_ret Q)].
    + intros kvs _. apply (rel_bind (Q := Q)); [by apply rel_new_dict|intros; apply (rel_ret Q)].
Qed.

Lemma static_vars_rel old vars : forall p, Q _ (static_vars old vars p) (static_vars old vars p).
Proof.
  induction vars as [|v vars IH]; intros p; cbn [static_vars]; [apply (rel_ret Q)|].
  destruct (InitialScript v); [apply IH|]. destruct (Type_ v =? "gs")%string.
  - apply (rel_bind (Q := Q)); [apply old_global_rel|intros o _].
    apply (rel_bind (Q := Q)); [|intros; apply IH]. destruct o; [apply (rel_ret Q)|].
    apply (rel_bind (Q := Q)); [apply FromJavaScript_rel|intros; apply (rel_ret Q)].
  - destruct (Type_ v =? "ls")%string; [|by apply (rel_lift (Q := Q))].
    apply (rel_bind (Q := Q)); [apply FromJavaScript_rel|intros; apply IH].
Qed.

Lemma dynamic_vars_rel (e e' : Node -> M (St W) lit) i old vars : (forall n, Q _ (e n) (e' n)) ->
  Q _ (dynamic_vars e i old vars) (dynamic_vars e' i old vars).
Proof.
  intros He. induction vars as [|v vars IH]; cbn [dynamic_vars]; [apply (rel_ret Q)|].
  destruct (InitialScript v) as [script|]; [|apply IH].
  apply (rel_bind (Q := Q)).
  { apply (rel_catch (Q := Q)); [apply He|]. intros. by apply (rel_lift (Q := Q)). }
  intros l _. destruct (Type_ v =? "gs")%string.
  - apply (rel_bind (Q := Q)); [apply old_global_rel|intros o _].
    apply (rel_bind (Q := Q)); [apply Hmod; constructor|intros; apply IH].
  - destruct (Type_ v =? "ls")%string; [|by apply (rel_lift (Q := Q))].
    apply (rel_bind (Q := Q)); [apply Hmod; constructor|intros; apply IH].
Qed.

Lemma NewInterpreter_rel c b old : Q _ (NewInterpreter br fuel c b old) (NewInterpreter br' fuel' c b old).
Proof.
  unfold NewInterpreter. apply (rel_bind (Q := Q)); [by apply rel_load|intros p _].
  apply (rel_bind (Q := Q)).
  { apply (rel_each Q). intros [id script] _. apply (rel_bind (Q := Q)); [by apply rel_new_lambda|intros; apply (rel_ret Q)]. }
  intros scripts _. apply (rel_bind (Q := Q)).
  { apply (rel_each Q). intros [id e] _. apply (rel_bind (Q := Q)); [by apply rel_new_bref|intros; apply (rel_ret Q)]. }
  intros payloads _. apply (rel_bind (Q := Q)); [apply static_vars_rel|intros p0 _].
  apply (rel_bind (Q := Q)); [by apply rel_new_interp|intros i _].
  apply (rel_bind (Q := Q)); [|intros; apply (rel_ret Q)].
  apply dynamic_vars_rel. intros n. apply Evaluate_rel.
Qed.
End All.

(** ** Fuel *)

#[export] Instance below_bridge {W} (br : Bridge W) : BridgeRel (@below (St W)) br br.
Proof. by split. Qed.

Lemma Evaluate_below {W} `{L : Library} `{!LibraryEnds L} (br br' : Bridge W) `{!BridgeRel (@below (St W)) br br'} f f' i c n :
  (f <= f')%nat -> below (Evaluate br i f c n) (Evaluate br' i f' c n).
Proof. intros Hf. apply Evaluate_rel; [apply _|done|done|]. left. split; [done|]. intros m. apply below_diverge. Qed.

(** Scripts that call no closure: what they evaluate is part of their text. *)
Definition calls_closures (f : string) : bool :=
  match builtin_of f with Some BApply | Some BH9a => true | _ => false end.

Fixpoint first_order (n : Node) : bool :=
  match n with
  | Literal _ => true
  | Funcall f args => negb (calls_closures f) && forallb first_order args
  end.

(** The depth of the calls: [GetByValOr] makes two calls of its own. *)
Fixpoint rank (n : Node) : nat :=
  match n with
  | Literal _ => 1
  | Funcall f args => S (list_max (map rank args)) + (if builtin_of f is Some BGetByValOr then 2 else 0)
  end%nat.

Lemma rank_arg n args : n ∈ args -> (rank n <= list_max (map rank args))%nat.
Proof.
  intros H. assert (list_max (map rank args) <= list_max (map rank args))%nat as Hm by done.
  apply list_max_le in Hm. rewrite Forall_forall in Hm. apply Hm, list_elem_of_fmap_2, H.
Qed.

Lemma Evaluate_ends_within {W} `{L : Library} `{!LibraryEnds L} (br : Bridge W)
    `{!BridgeRel (fun A m _ => ends m) br br} i fuel : forall c n,
  first_order n = true -> (rank n <= fuel)%nat -> ends (Evaluate br i fuel c n).
Proof.
  induction fuel as [|fuel IH]; intros c n Hf Hr; [destruct n; cbn in Hr; lia|].
  cbn [Evaluate]. destruct n as [l|f args]; [done|]. cbn [first_order rank] in Hf, Hr.
  apply andb_true_iff in Hf as [Hc Ha]. rewrite forallb_forall in Ha. setoid_rewrite <- list_elem_of_In in Ha.
  unfold calls_closures in Hc.
  destruct (builtin_of f) as [b|] eqn:Hb; [|done].
  set (E := fun n => first_order n = true /\ (rank n <= fuel)%nat).
  assert (forall a, a ∈ args -> E a) as HE.
  { intros a H. split; [by apply Ha|]. apply rank_arg in H. destruct b; lia. }
  apply (eval_builtin_rel (fun A m _ => ends m) ltac:(done) br br i E (Evaluate br i fuel) (Evaluate br i fuel)); try done.
  - intros c' a [H1 H2]. by apply IH.
  - rewrite Forall_forall. exact HE.
  - intros g l H. specialize (HE _ H) as [H1 H2]. cbn [first_order rank] in H1, H2.
    apply andb_true_iff in H1 as [_ H1]. rewrite forallb_forall in H1. rewrite Forall_forall. intros x Hx. split.
    + by apply H1, list_elem_of_In.
    + apply rank_arg in Hx. destruct (builtin_of g) as [[]|]; lia.
  - by intros ->.
  - by intros ->.
  - intros -> a0 a1 a2 H0 H1 H2. apply rank_arg in H0 as R0. apply rank_arg in H1 as R1. apply rank_arg in H2 as R2.
    split; cbn; [by rewrite !Ha by done|]. lia.
Qed.

(** C37. A script that calls no closure ends, whatever the state, with a value or an error or by a
    panic or an exit of the process (as where a map that was put into itself is flattened and the
    stack overflows): a bound of its depth is enough, as long as the functions of the libraries
    come back and so does the bridge, whose calls may run the scripts of further pages.  Only
    [Apply] (and the function [h9a], which applies its third argument) can make a script itself
    run forever. *)
Theorem scripts_end {W} (L : Library) (HL : LibraryEnds L) (br : Bridge W)
    (Hbr : BridgeRel (fun A m _ => ends m) br br) fuel i c n s :
  first_order n = true -> (rank n <= fuel)%nat ->
  diverges (snd (Evaluate br i fuel c n s)) = false.
Proof. intros Hf Hr. by apply Evaluate_ends_within. Qed.

(** The bound on the depth does not change what a script does: a run that does not exhaust it
    is the same, in state and in result, under every larger bound. *)
Theorem more_fuel_same_run {W} (L : Library) (HL : LibraryEnds L) (br : Bridge W) fuel fuel' i c n s :
  (fuel <= fuel')%nat -> snd (Evaluate br i fuel c n s) <> Diverge ->
  Evaluate br i fuel' c n s = Evaluate br i fuel c n s.
Proof.
  intros Hf Hd. destruct (Evaluate_below br br fuel fuel' i c n Hf s) as [H|H]; [done|by symmetry].
Qed.

(** ** What scripts cannot do *)

(** [s'] is [s] with more in it: no closure, element reference or bundle changes, no map, variable
    or frame disappears, no map loses a key, no interpreter its scripts, and frames keep their size. *)
Record extends {W} (s s' : St W) : Prop := {
  ext_lambdas : lambdas s `prefix_of` lambdas s';
  ext_elems : elems s = elems s';
  ext_brefs : brefs s `prefix_of` brefs s';
  ext_dicts : forall l d, dicts s !! l = Some d -> exists d', dicts s' !! l = Some d' /\ dom d ⊆ dom d';
  ext_frames : forall l f, frames s !! l = Some f -> exists f', frames s' !! l = Some f' /\ length f' = length f;
  ext_frame_size : Forall (fun f => length f = maxInterpArgs) (frames s) -> Forall (fun f => length f = maxInterpArgs) (frames s');
  ext_interps : forall i p, interps s !! i = Some p -> exists p', interps s' !! i = Some p' /\
    Scripts p' = Scripts p /\ Payloads p' = Payloads p /\
    dom (LocalVars p) ⊆ dom (LocalVars p') /\ dom (GlobalVars p) ⊆ dom (GlobalVars p');
}.

#[export] Instance extends_preorder {W} : PreOrder (@extends W).
Proof.
  split.
  - intros s. split; try done; eauto 10.
  - intros s1 s2 s3 [] []. split; try (by etrans); try by auto.
    + intros l d Hd. destruct (ext_dicts0 l d Hd) as (d' & Hd' & Hs). destruct (ext_dicts1 l d' Hd') as (d'' & ? & ?).
      exists d''. split; [done|set_solver].
    + intros l f Hl. destruct (ext_frames0 l f Hl) as (f' & Hf' & ?). destruct (ext_frames1 l f' Hf') as (f'' & ? & ?).
      exists f''. split; [done|congruence].
    + intros i p Hp. destruct (ext_interps0 i p Hp) as (p' & Hp' & ? & ? & ? & ?).
      destruct (ext_interps1 i p' Hp') as (p'' & ? & ? & ? & ? & ?). exists p''. split_and!; [done|congruence..|set_solver|set_solver].
Qed.

Lemma lookup_alter_Some {A} (f : A -> A) (l : list A) i j a : l !! j = Some a ->
  alter f i l !! j = Some (if decide (i = j) then f a else a).
Proof. intros H. rewrite list_lookup_alter. case_decide; [subst; by rewrite H|done]. Qed.

Lemma step_extends {W} (f : St W -> St W) s : step f -> extends s (f s).
Proof.
  intros Hf. destruct Hf; split; cbn; try done; eauto 10; try (by apply prefix_app_r).
  - intros l d' H. exists d'. split; [by apply lookup_app_l_Some|done].
  - intros l d H. rewrite (lookup_alter_Some _ _ _ _ _ H). eexists. split; [done|].
    case_decide; [|done]. rewrite dom_insert. set_solver.
  - intros l f' Hl. exists f'. split; [by apply lookup_app_l_Some|done].
  - intros Hs. apply Forall_app. split; [done|]. by apply Forall_singleton.
  - intros l f' Hl. rewrite (lookup_alter_Some _ _ _ _ _ Hl). eexists. split; [done|].
    case_decide; [|done]. apply length_insert.
  - intros Hs. apply Forall_alter; [done|]. intros x _ Hx. by rewrite length_insert.
  - intros j p Hp. rewrite (lookup_alter_Some _ _ _ _ _ Hp). eexists. split; [done|].
    case_decide; [|done]. cbn. rewrite dom_insert. set_solver.
  - intros j p Hp. rewrite (lookup_alter_Some _ _ _ _ _ Hp). eexists. split; [done|].
    case_decide; [|done]. cbn. rewrite dom_insert. set_solver.
  - intros j p' Hp. exists p'. split; [by apply lookup_app_l_Some|done].
Qed.

(** What a script can do to the objects it reaches: closures, references and the scripts of
    interpreters stay as they are, maps and variables only gain entries or get other values, and a
    frame of arguments keeps its hundred places, so that an index from 0 to 99 is always good. *)
Theorem evaluation_only_adds {W} (L : Library) (HL : LibraryEnds L) (br : Bridge W)
    (Hbr : BridgeRel (fun A m _ => respects extends m) br br) fuel i c n s :
  extends s (fst (Evaluate br i fuel c n s)).
Proof.
  refine (Evaluate_rel (fun A m _ => respects extends m) _ br br fuel fuel _ i c n s).
  - intros f Hf. apply respects_modify. intros s'. by apply step_extends.
  - right. split; [done|]. apply respects_lift, _.
Qed.

(** ** Variables *)

Section Functional.
Context {W : Type} `{L : Library} (br : Bridge W) (i : nat).

Abbreviation str s := (Literal (Some (VStr s))).

(** The value a script reads: a local variable hides a global one. *)
Definition variable_value (p : Interp) (name : string) : lit :=
  match LocalVars p !! name with
  | Some v => v
  | None => match GlobalVars p !! name with Some v => v | None => BloksNull end
  end.

Lemma Evaluate_call fuel c f b args : builtin_of f = Some b ->
  Evaluate br i (S fuel) c (Funcall f args) = eval_builtin br i (Evaluate br i fuel) c args b.
Proof. intros H. cbn [Evaluate]. by rewrite H. Qed.

Lemma Evaluate_literal fuel c l : Evaluate br i (S fuel) c (Literal l) = mret l.
Proof. reflexivity. Qed.

Lemma arg_as_literal {A} fuel c args (f : value -> option A) n v a s :
  args !! n = Some (Literal (Some v)) -> f v = Some a ->
  arg_as (Evaluate br i (S fuel)) c args f n s = (s, Ok a).
Proof.
  intros Ha Hf. unfold arg_as, arg, evalAs, cast, deref. rewrite Ha. cbn. unfold mbind, M_bind, mret, M_ret. cbn.
  by rewrite Hf.
Qed.

Lemma ev_arg_literal fuel c args n l s :
  args !! n = Some (Literal l) -> ev_arg (Evaluate br i (S fuel)) c args n s = (s, Ok l).
Proof. intros Ha. unfold ev_arg, arg. rewrite Ha. done. Qed.

Lemma bind_Ok {S A B} (m : M S A) (f : A -> M S B) s s' a : m s = (s', Ok a) -> (m ≫= f) s = f a s'.
Proof. intros H. unfold mbind, M_bind. by rewrite H. Qed.

(** A variable that a script writes is the one it reads: a local write is read back; a global
    write is read back unless a local variable of that name hides it, and then the script still
    reads the local one.  A read of a name nobody wrote gives null. *)
Theorem variables_read_back fuel c name v p s :
  interps s !! i = Some p ->
  let read := Funcall "bk.action.bloks.GetVariable2" [str name] in
  let after f := Evaluate br i (S (S (S fuel))) c (Funcall "bk.action.core.TakeLast" [Funcall f [str name; Literal v]; read]) s in
  Evaluate br i (S (S fuel)) c read s = (s, Ok (variable_value p name)) /\
  after "bk.action.bloks.WriteLocalState" = (set_interps (alter (put_local name v) i) s, Ok v) /\
  ((forall s, HandleVariableChange br name v s = (s, Ok tt)) ->
   after "bk.action.bloks.WriteGlobalConsistencyStore" =
     (set_interps (alter (put_global name v) i) s,
      Ok (match LocalVars p !! name with Some l => l | None => v end))).
Proof.
  intros Hp read after.
  assert (forall s' p', interps s' !! i = Some p' ->
    Evaluate br i (S (S fuel)) c read s' = (s', Ok (variable_value p' name))) as Hread.
  { intros s' p' Hp'. unfold read. rewrite (Evaluate_call _ _ _ BGetVariable) by done.
    cbn [eval_builtin]. unfold eval_GetVariable.
    rewrite (bind_Ok _ _ _ s' name) by (by apply arg_as_literal with (v := VStr name)).
    unfold this_interp, load. erewrite bind_Ok; [reflexivity|]. erewrite bind_Ok; [|reflexivity]. by rewrite Hp'. }
  assert (forall f b put notify s', builtin_of f = Some b ->
    eval_builtin br i (Evaluate br i (S fuel)) c [str name; Literal v] b =
      eval_WriteVar i (Evaluate br i (S fuel)) c [str name; Literal v] put notify ->
    (forall s, notify name v s = (s, Ok tt)) -> interps s' !! i = Some p ->
    Evaluate br i (S (S (S fuel))) c (Funcall "bk.action.core.TakeLast" [Funcall f [str name; Literal v]; read]) s'
    = (set_interps (alter (put name v) i) s', Ok (variable_value (put name v p) name))) as Hwrite.
  { intros f b put notify s' Hf Hb Hn Hs. rewrite (Evaluate_call _ _ _ BTakeLast) by done. cbn [eval_builtin eval_TakeLast].
    rewrite (bind_Ok _ _ _ (set_interps (alter (put name v) i) s') BloksNothing).
    - assert (interps (set_interps (alter (put name v) i) s') !! i = Some (put name v p)) as Hi
        by (cbn; by rewrite list_lookup_alter_eq, Hs).
      rewrite (bind_Ok _ _ _ _ _ (Hread _ _ Hi)). done.
    - rewrite (Evaluate_call _ _ _ b), Hb by done. unfold eval_WriteVar.
      rewrite (bind_Ok _ _ _ s' name) by (by apply arg_as_literal with (v := VStr name)).
      rewrite (bind_Ok _ _ _ s' v) by (by apply ev_arg_literal).
      rewrite (bind_Ok _ _ _ (set_interps (alter (put name v) i) s') tt) by done.
      rewrite (bind_Ok _ _ _ _ _ (Hn _)). done. }
  split_and!.
  - by apply Hread.
  - unfold after. erewrite Hwrite; [|done|reflexivity|done|done].
    unfold variable_value, put_local. cbn. by rewrite lookup_insert_eq.
  - intros Hn. unfold after. erewrite Hwrite; [|done|reflexivity|done|done].
    unfold variable_value, put_global. cbn. by rewrite lookup_insert_eq.
Qed.

(** ** Application *)

(** The frame of an application: the bound arguments, then the others, and nil up to the size. *)
Definition application_frame (bound vs : list lit) : list lit :=
  bound ++ vs ++ replicate (maxInterpArgs - length bound - length vs) None.

Lemma insert_replicate (pre : list lit) r n :
  <[length pre := r]> (pre ++ replicate (S n) None) = (pre ++ [r]) ++ replicate n None.
Proof. rewrite insert_app_r_alt, Nat.sub_diag by done. cbn. by rewrite <- app_assoc. Qed.

Lemma apply_args_literals fuel c vs : forall pre s,
  (length pre + length vs <= maxInterpArgs)%nat ->
  apply_args (Evaluate br i (S fuel)) c (length pre) (pre ++ replicate (maxInterpArgs - length pre) None) (map Literal vs) s
  = (s, Ok (application_frame pre vs)).
Proof.
  induction vs as [|v vs IH]; intros pre s Hl; cbn [map apply_args length] in *.
  - unfold application_frame. cbn. by rewrite Nat.sub_0_r.
  - rewrite (bind_Ok _ _ _ s v) by done. destruct (Nat.ltb_spec (length pre) maxInterpArgs); [|lia].
    replace (maxInterpArgs - length pre)%nat with (S (maxInterpArgs - length pre - 1)) by lia.
    rewrite insert_replicate. specialize (IH (pre ++ [v]) s). rewrite length_app in IH. cbn [length] in IH.
    replace (length pre + 1)%nat with (S (length pre)) in IH by lia.
    replace (maxInterpArgs - length pre - 1)%nat with (maxInterpArgs - S (length pre))%nat by lia.
    rewrite IH by lia. unfold application_frame. rewrite <- app_assoc. cbn [app length].
    by replace (maxInterpArgs - length (pre ++ [v]) - length vs)%nat with (maxInterpArgs - length pre - S (length vs))%nat
      by (rewrite length_app; cbn; lia).
Qed.

(** Applying a closure evaluates its body in a new frame: the arguments that were bound come
    first, the arguments of the call behind them, and what is not given is nil.  The frame of the
    caller is not touched. *)
Theorem application_binds fuel c loc f vs s :
  lambdas s !! loc = Some f -> (length (BoundArgs f) + length vs <= maxInterpArgs)%nat ->
  Evaluate br i (S (S fuel)) c (Funcall "bk.action.core.Apply" (Literal (Some (VLambda loc)) :: map Literal vs)) s =
  Evaluate br i (S fuel) (Some (length (frames s))) (Body f)
    (set_frames (fun fs => fs ++ [application_frame (BoundArgs f) vs]) s).
Proof.
  intros Hf Hl. rewrite (Evaluate_call _ _ _ BApply) by done. cbn [eval_builtin]. unfold eval_Apply.
  rewrite (bind_Ok _ _ _ s loc) by (by apply arg_as_literal with (v := VLambda loc)).
  rewrite (bind_Ok _ _ _ s f) by (unfold load; erewrite bind_Ok; [|reflexivity]; by rewrite Hf).
  rewrite (bind_Ok _ _ _ s (application_frame (BoundArgs f) vs)).
  - unfold new_frame. erewrite bind_Ok; [reflexivity|]. reflexivity.
  - rewrite take_ge by lia. by apply apply_args_literals.
Qed.
End Functional.

(** ** A host without functions *)

(** Library functions that fail, and a host that sets nothing: the defaults answer. *)
Definition no_library : Library := {|
  regexp_MatchString := fun _ _ => Ok false;
  json_Marshal := fun _ _ _ => Err "unsupported";
  json_checkpointsFlow := fun _ => Err "unexpected end of JSON input";
|}.

Lemma no_library_ends : LibraryEnds no_library.
Proof. by split. Qed.

Definition bare_bridge : Bridge unit := with_defaults "D" "F" {|
  set_DeviceID := "device"; set_FamilyDeviceID := ""; set_MachineID := "";
  set_EncryptPassword := None; set_SIMPhones := VNull; set_DeviceEmails := VNull;
  set_IsAppInstalled := None; set_HasAppPermissions := None; set_GetSecureNonces := None;
  set_DoRPC := None; set_DisplayNewScreen := None; set_HandleLoginResponse := None;
  set_StartTimer := None; set_OpenURL := None; set_HandleVariableChange := None |}.

Lemma bare_bridge_rel Q `{!MonadRel Q} : BridgeRel Q bare_bridge bare_bridge.
Proof.
  split; try done; intros; cbn [bare_bridge with_defaults EncryptPassword DoRPC DisplayNewScreen HandleLoginResponse
    StartTimer OpenURL HandleVariableChange]; cbn; first [by apply (rel_ret Q)|by apply (rel_lift (Q := Q))].
Qed.

Definition empty_state : St unit := {|
  dicts := []; lambdas := []; frames := []; elems := []; brefs := []; bundles := []; texts := ∅;
  interps := [{| Scripts := ∅; Payloads := ∅; LocalVars := {["a" := Some (VInt 1)]}; GlobalVars := ∅ |}]; world := tt |}.

Definition sample_write : Node :=
  Funcall "bk.action.bloks.WriteLocalState" [Literal (Some (VStr "b")); Funcall "bk.action.map.Make"
    [Funcall "bk.action.array.Make" [Literal (Some (VStr "k"))]; Funcall "bk.action.array.Make" [Literal (Some (VInt 7))]]].

Lemma scripts_end_witness : first_order sample_write = true /\ (rank sample_write <= 4)%nat /\
  diverges (snd (@Evaluate unit no_library bare_bridge 0 4 None sample_write empty_state)) = false.
Proof.
  split; [reflexivity|]. split; [apply Nat.leb_le; reflexivity|].
  apply (scripts_end no_library no_library_ends bare_bridge (bare_bridge_rel _)); [reflexivity|apply Nat.leb_le; reflexivity].
Defined.

Lemma more_fuel_same_run_witness : (4 <= 9)%nat /\
  snd (@Evaluate unit no_library bare_bridge 0 4 None sample_write empty_state) <> Diverge /\
  @Evaluate unit no_library bare_bridge 0 9 None sample_write empty_state =
  @Evaluate unit no_library bare_bridge 0 4 None sample_write empty_state.
Proof.
  split; [lia|]. split; [by vm_compute|].
  apply (more_fuel_same_run no_library no_library_ends); [lia|by vm_compute].
Defined.

Lemma evaluation_only_adds_witness :
  extends empty_state (fst (@Evaluate unit no_library bare_bridge 0 4 None sample_write empty_state)) /\
  length (dicts (fst (@Evaluate unit no_library bare_bridge 0 4 None sample_write empty_state))) = 1%nat.
Proof.
  split; [|reflexivity].
  exact (evaluation_only_adds no_library no_library_ends bare_bridge (bare_bridge_rel _) 4 0 None sample_write empty_state).
Defined.

Lemma variables_read_back_witness :
  @Evaluate unit no_library bare_bridge 0 2 None (Funcall "bk.action.bloks.GetVariable2" [Literal (Some (VStr "a"))]) empty_state
  = (empty_state, Ok (Some (VInt 1))).
Proof.
  exact (proj1 (@variables_read_back unit no_library bare_bridge 0 0 None "a" None _ empty_state eq_refl)).
Defined.

Definition applied_state : St unit :=
  set_lambdas (fun _ => [{| Body := Funcall "bk.action.core.GetArg" [Literal (Some (VInt 1))]; BoundArgs := [Some (VBool true)] |}]) empty_state.

Lemma application_binds_witness :
  snd (@Evaluate unit no_library bare_bridge 0 3 None
         (Funcall "bk.action.core.Apply" [Literal (Some (VLambda 0)); Literal (Some (VStr "x"))]) applied_state)
  = Ok (Some (VStr "x")).
Proof.
  etrans; [apply (f_equal snd), (@application_binds unit no_library bare_bridge 0 1 None 0 _ [Some (VStr "x")] applied_state eq_refl)|].
  - apply Nat.leb_le. reflexivity.
  - reflexivity.
Defined.
