(* ===== verification/BloksBrowser.v ===== *)
(** * BloksBrowser: the login flow ([bloks/selenium.go])

    The browser walks through the pages of a login: it fills in and taps what a page shows, runs
    the action a request answers with, and keeps a state that says what the server expects next.
    Scripts drive it through the bridge of the interpreter, so a request can be made in the middle
    of an evaluation, and a new page runs scripts of its own before it is shown: the bridge is
    built from the interpreter, one level of nesting less at a time. *)

From S2P Require Import Prelude Strconv Text Effects BloksScript BloksTree BloksInterp.
From Stdlib Require Import Ascii.
#[local] Open Scope string_scope.
#[local] Open Scope Z_scope.
#[local] Open Scope list_scope.

(** ** Data *)

Inductive BrowserState :=
| StateUnknown | StateTestCaptcha | StateInitial | StateRedirectToLoginAction |
StateEmailPasswordPage | StateEnteredEmailPasswordAction | StateEmailCodePage |
StateEnteredEmailCodeAction | StateEnteredEmailCodeAPAction | StateRedirectToMFALandingAction |
StateCaptchaPage | StateEnteredCaptchaAction | StateMFALandingAPAction | StateMFALandingPage |
StatePossibleMandatoryAFADPAge | StateChooseMFAAPAction | StateChooseMFAPage |
StateChosenMFAAPAction | StateChosenMFAAction | StateAFADPage | StateAFADAction | StateAFADWait |
StateAFADCompleteAction | StateTOTPPage | StateEnteredTOTPAction | StateOAuthPage | StateSMSPage |
StateSMSPageAfterSend | StateSendSMSAction | StateEnteredSMSAction | StateBackupCodePage |
StateEnteredBackupCodeAction | StateWhatsAppPage | StateWhatsAppPageAfterSend |
StateSendWhatsAppAction | StateEnteredWhatsAppAction | StateSuccess.

#[export] Instance BrowserState_eq_dec : EqDecision BrowserState.
Proof. solve_decision. Defined.

(** A request: a page or an action, by name; its parameters are those a script gave, as JSON, or
    the client data of the first request. *)
Inductive request_params :=
| FromScript (json : string)
| ClientData (family_device_id device_id machine_id : string).

Record request := { isPage_ : bool; rpc_name : string; rpc_params : request_params }.

Record Browser := {
  State : BrowserState;
  CurrentPage : option nat;
  CurrentAction : option nat;
  CaptchaCallback : option callback;
  NumCaptchaAttempts : Z;
  AFADNotification : string;
  AFADInterval : Z;
  AFADCallback : option callback;
  AFADDisplayed : bool;
  LoginData : string;
  DisplayedURL : string;
  LastError : string;
  (** the requests that were made, and the answers of the user *)
  requests : list request;
  userInput : gmap string string;
}.

(** Assignment to a field. *)
Definition set_State v b : Browser := {|
  State := v; CurrentPage := CurrentPage b; CurrentAction := CurrentAction b; CaptchaCallback :=
  CaptchaCallback b; NumCaptchaAttempts := NumCaptchaAttempts b; AFADNotification :=
  AFADNotification b; AFADInterval := AFADInterval b; AFADCallback := AFADCallback b;
  AFADDisplayed := AFADDisplayed b; LoginData := LoginData b; DisplayedURL := DisplayedURL b;
  LastError := LastError b; requests := requests b; userInput := userInput b |}.
Definition set_CurrentPage v b : Browser := {|
  State := State b; CurrentPage := v; CurrentAction := CurrentAction b; CaptchaCallback :=
  CaptchaCallback b; NumCaptchaAttempts := NumCaptchaAttempts b; AFADNotification :=
  AFADNotification b; AFADInterval := AFADInterval b; AFADCallback := AFADCallback b;
  AFADDisplayed := AFADDisplayed b; LoginData := LoginData b; DisplayedURL := DisplayedURL b;
  LastError := LastError b; requests := requests b; userInput := userInput b |}.
Definition set_CurrentAction v b : Browser := {|
  State := State b; CurrentPage := CurrentPage b; CurrentAction := v; CaptchaCallback :=
  CaptchaCallback b; NumCaptchaAttempts := NumCaptchaAttempts b; AFADNotification :=
  AFADNotification b; AFADInterval := AFADInterval b; AFADCallback := AFADCallback b;
  AFADDisplayed := AFADDisplayed b; LoginData := LoginData b; DisplayedURL := DisplayedURL b;
  LastError := LastError b; requests := requests b; userInput := userInput b |}.
Definition set_CaptchaCallback v b : Browser := {|
  State := State b; CurrentPage := CurrentPage b; CurrentAction := CurrentAction b;
  CaptchaCallback := v; NumCaptchaAttempts := NumCaptchaAttempts b; AFADNotification :=
  AFADNotification b; AFADInterval := AFADInterval b; AFADCallback := AFADCallback b;
  AFADDisplayed := AFADDisplayed b; LoginData := LoginData b; DisplayedURL := DisplayedURL b;
  LastError := LastError b; requests := requests b; userInput := userInput b |}.
Definition set_NumCaptchaAttempts v b : Browser := {|
  State := State b; CurrentPage := CurrentPage b; CurrentAction := CurrentAction b;
  CaptchaCallback := CaptchaCallback b; NumCaptchaAttempts := v; AFADNotification :=
  AFADNotification b; AFADInterval := AFADInterval b; AFADCallback := AFADCallback b;
  AFADDisplayed := AFADDisplayed b; LoginData := LoginData b; DisplayedURL := DisplayedURL b;
  LastError := LastError b; requests := requests b; userInput := userInput b |}.
Definition set_AFADNotification v b : Browser := {|
  State := State b; CurrentPage := CurrentPage b; CurrentAction := CurrentAction b;
  CaptchaCallback := CaptchaCallback b; NumCaptchaAttempts := NumCaptchaAttempts b;
  AFADNotification := v; AFADInterval := AFADInterval b; AFADCallback := AFADCallback b;
  AFADDisplayed := AFADDisplayed b; LoginData := LoginData b; DisplayedURL := DisplayedURL b;
  LastError := LastError b; requests := requests b; userInput := userInput b |}.
Definition set_AFADInterval v b : Browser := {|
  State := State b; CurrentPage := CurrentPage b; CurrentAction := CurrentAction b;
  CaptchaCallback := CaptchaCallback b; NumCaptchaAttempts := NumCaptchaAttempts b;
  AFADNotification := AFADNotification b; AFADInterval := v; AFADCallback := AFADCallback b;
  AFADDisplayed := AFADDisplayed b; LoginData := LoginData b; DisplayedURL := DisplayedURL b;
  LastError := LastError b; requests := requests b; userInput := userInput b |}.
Definition set_AFADCallback v b : Browser := {|
  State := State b; CurrentPage := CurrentPage b; CurrentAction := CurrentAction b;
  CaptchaCallback := CaptchaCallback b; NumCaptchaAttempts := NumCaptchaAttempts b;
  AFADNotification := AFADNotification b; AFADInterval := AFADInterval b; AFADCallback := v;
  AFADDisplayed := AFADDisplayed b; LoginData := LoginData b; DisplayedURL := DisplayedURL b;
  LastError := LastError b; requests := requests b; userInput := userInput b |}.
Definition set_AFADDisplayed v b : Browser := {|
  State := State b; CurrentPage := CurrentPage b; CurrentAction := CurrentAction b;
  CaptchaCallback := CaptchaCallback b; NumCaptchaAttempts := NumCaptchaAttempts b;
  AFADNotification := AFADNotification b; AFADInterval := AFADInterval b; AFADCallback :=
  AFADCallback b; AFADDisplayed := v; LoginData := LoginData b; DisplayedURL := DisplayedURL b;
  LastError := LastError b; requests := requests b; userInput := userInput b |}.
Definition set_LoginData v b : Browser := {|
  State := State b; CurrentPage := CurrentPage b; CurrentAction := CurrentAction b;
  CaptchaCallback := CaptchaCallback b; NumCaptchaAttempts := NumCaptchaAttempts b;
  AFADNotification := AFADNotification b; AFADInterval := AFADInterval b; AFADCallback :=
  AFADCallback b; AFADDisplayed := AFADDisplayed b; LoginData := v; DisplayedURL := DisplayedURL
  b; LastError := LastError b; requests := requests b; userInput := userInput b |}.
Definition set_DisplayedURL v b : Browser := {|
  State := State b; CurrentPage := CurrentPage b; CurrentAction := CurrentAction b;
  CaptchaCallback := CaptchaCallback b; NumCaptchaAttempts := NumCaptchaAttempts b;
  AFADNotification := AFADNotification b; AFADInterval := AFADInterval b; AFADCallback :=
  AFADCallback b; AFADDisplayed := AFADDisplayed b; LoginData := LoginData b; DisplayedURL := v;
  LastError := LastError b; requests := requests b; userInput := userInput b |}.
Definition set_LastError v b : Browser := {|
  State := State b; CurrentPage := CurrentPage b; CurrentAction := CurrentAction b;
  CaptchaCallback := CaptchaCallback b; NumCaptchaAttempts := NumCaptchaAttempts b;
  AFADNotification := AFADNotification b; AFADInterval := AFADInterval b; AFADCallback :=
  AFADCallback b; AFADDisplayed := AFADDisplayed b; LoginData := LoginData b; DisplayedURL :=
  DisplayedURL b; LastError := v; requests := requests b; userInput := userInput b |}.
Definition set_requests v b : Browser := {|
  State := State b; CurrentPage := CurrentPage b; CurrentAction := CurrentAction b;
  CaptchaCallback := CaptchaCallback b; NumCaptchaAttempts := NumCaptchaAttempts b;
  AFADNotification := AFADNotification b; AFADInterval := AFADInterval b; AFADCallback :=
  AFADCallback b; AFADDisplayed := AFADDisplayed b; LoginData := LoginData b; DisplayedURL :=
  DisplayedURL b; LastError := LastError b; requests := v; userInput := userInput b |}.
Definition set_userInput v b : Browser := {|
  State := State b; CurrentPage := CurrentPage b; CurrentAction := CurrentAction b;
  CaptchaCallback := CaptchaCallback b; NumCaptchaAttempts := NumCaptchaAttempts b;
  AFADNotification := AFADNotification b; AFADInterval := AFADInterval b; AFADCallback :=
  AFADCallback b; AFADDisplayed := AFADDisplayed b; LoginData := LoginData b; DisplayedURL :=
  DisplayedURL b; LastError := LastError b; requests := requests b; userInput := v |}.

(** ** What the browser is given *)

Class Host := {
  (** [BrowserConfig]: the answer to the last of the requests that were made *)
  cfg_EncryptPassword : string -> res string;
  cfg_MakeBloksRequest : list request -> res Payload;
  (** [json.Unmarshal] of the parameters of a request into a map: an error or nothing *)
  json_BloksParamsInner : string -> res unit;
  (** [http.Get] and [io.ReadAll]: the content type and the body; the size of an image *)
  http_Get : string -> res (string * string);
  image_DecodeConfig : string -> Z * Z;
  ExtensionFromMimetype : string -> string;
}.

Definition ErrLoginUninformative : string :=
  "FI.MAU.META_UNINFORMATIVE_ERROR: Facebook rejected the login without providing a reason, please try again".
Definition ErrLoginPhoneNumber : string :=
  "FI.MAU.META_PHONE_NUMBER: Phone number login is not supported, please try email address or username".

(** [strings.TrimSuffix(s, ".")] *)
Fixpoint trim_dot (s : string) : string :=
  match s with
  | EmptyString => EmptyString
  | String c EmptyString => if (c =? ".")%char then EmptyString else s
  | String c t => String c (trim_dot t)
  end.

(** [strings.Replace(s, old, new, 1)] *)
Fixpoint replace_first (old new s : string) : string :=
  if HasPrefix s old then (new ++ drop_string (String.length old) s)%string
  else match s with EmptyString => EmptyString | String c s => String c (replace_first old new s) end.

(** [definitelyNotPhoneNumberRegexp]: one line, with a letter or an at sign. *)
Fixpoint has_where (p : ascii -> bool) (s : string) : bool :=
  match s with EmptyString => false | String c s => p c || has_where p s end.
Definition definitelyNotPhoneNumber (s : string) : bool :=
  negb (has_where (fun c => (c =? "010")%char) s) &&
  has_where (fun c => (c =? "@")%char || between "a" "z" c || between "A" "Z" c) s.

(** ** Transitions *)

Abbreviation transitions := (list (BrowserState * BrowserState)).

(** [transitions[state]]: a state that is not there gives [StateUnknown]. *)
Fixpoint transition (ts : transitions) (s : BrowserState) : BrowserState :=
  match ts with
  | [] => StateUnknown
  | (a, b) :: ts => if decide (a = s) then b else transition ts s
  end.

Definition rpc_transitions : list (string * transitions) :=
  [("com.bloks.www.bloks.caa.login.async.send_login_request",
      [(StateEmailPasswordPage, StateEnteredEmailPasswordAction)]);
   ("com.bloks.www.two_step_verification.entrypoint",
      [(StateEnteredEmailPasswordAction, StateMFALandingPage); (StateEnteredEmailCodeAction, StateMFALandingPage); (StateEnteredCaptchaAction, StateMFALandingPage)]);
   ("com.bloks.www.two_step_verification.async.entrypoint",
      [(StateEnteredEmailPasswordAction, StateRedirectToMFALandingAction)]);
   ("com.bloks.www.two_step_verification.enter_text_captcha_code",
      [(StateRedirectToMFALandingAction, StateCaptchaPage)]);
   ("com.bloks.www.two_step_verification.login.async.text_captcha",
      [(StateCaptchaPage, StateEnteredCaptchaAction)]);
   ("com.bloks.www.ap.two_step_verification.entrypoint_async",
      [(StateEnteredEmailPasswordAction, StateMFALandingAPAction); (StateEnteredCaptchaAction, StateMFALandingAPAction)]);
   ("com.bloks.www.ap.two_step_verification.approve_from_another_device",
      [(StateMFALandingAPAction, StatePossibleMandatoryAFADPAge); (StateChosenMFAAPAction, StateAFADPage)]);
   ("com.bloks.www.ap.two_step_verification.approve_from_another_device_async",
      [(StatePossibleMandatoryAFADPAge, StateChooseMFAAPAction); (StateMFALandingPage, StateChooseMFAAPAction)]);
   ("com.bloks.www.ap.two_step_verification.challenge_picker",
      [(StateChooseMFAAPAction, StateChooseMFAPage)]);
   ("com.bloks.www.bloks.ap.two_step_verification.challenge_picker.async",
      [(StateChooseMFAPage, StateChosenMFAAPAction)]);
   ("com.bloks.www.two_step_verification.verify_code.async",
      [(StateTOTPPage, StateEnteredTOTPAction); (StateSMSPageAfterSend, StateEnteredSMSAction); (StateWhatsAppPageAfterSend, StateEnteredWhatsAppAction); (StateBackupCodePage, StateEnteredBackupCodeAction)]);
   ("com.bloks.www.two_step_verification.method_picker",
      [(StateMFALandingPage, StateChooseMFAPage)]);
   ("com.bloks.www.two_step_verification.method_picker.navigation.async",
      [(StateChooseMFAPage, StateChosenMFAAction)]);
   ("com.bloks.www.ap.two_step_verification.code_entry",
      [(StateChosenMFAAPAction, StateEmailCodePage)]);
   ("com.bloks.www.caa.ar.submit_code.async",
      [(StateEmailCodePage, StateEnteredEmailCodeAction)]);
   ("com.bloks.www.ap.two_step_verification.code_entry_async",
      [(StateEmailCodePage, StateEnteredEmailCodeAPAction)]);
   ("com.bloks.www.two_factor_login.enter_totp_code",
      [(StateChosenMFAAction, StateTOTPPage)]);
   ("com.bloks.www.two_step_verification.approve_from_another_device",
      [(StateChosenMFAAction, StateAFADPage)]);
   ("com.bloks.www.two_step_verification.afad_state.async",
      [(StateAFADPage, StateAFADAction)]);
   ("com.bloks.www.two_step_verification.afad_complete.async",
      [(StateAFADAction, StateAFADCompleteAction)]);
   ("com.bloks.www.ap.two_step_verification.login_with_third_party",
      [(StateChosenMFAAPAction, StateOAuthPage)]);
   ("com.bloks.www.two_step_verification.enter_sms_code",
      [(StateChosenMFAAction, StateSMSPage)]);
   ("com.bloks.www.two_step_verification.send_code.async",
      [(StateSMSPage, StateSendSMSAction); (StateWhatsAppPage, StateSendWhatsAppAction)]);
   ("com.bloks.www.two_factor_login.enter_backup_code",
      [(StateChosenMFAAction, StateBackupCodePage)]);
   ("com.bloks.www.two_step_verification.enter_whatsapp_code",
      [(StateChosenMFAAction, StateWhatsAppPage)])].

Definition screen_transitions : list (string * transitions) :=
  [("com.bloks.www.caa.login.login_homepage", [(StateRedirectToLoginAction, StateEmailPasswordPage)]);
   ("com.bloks.www.caa.ar.code_entry", [(StateEnteredEmailPasswordAction, StateEmailCodePage)])].

Definition login_transitions : transitions :=
  map (fun s => (s, StateSuccess))
    [StateEnteredEmailPasswordAction; StateEnteredCaptchaAction; StateEnteredTOTPAction; StateEnteredSMSAction;
     StateEnteredWhatsAppAction; StateEnteredBackupCodeAction; StateAFADCompleteAction; StateEnteredEmailCodeAction;
     StateEnteredEmailCodeAPAction].

(** The request that is ignored, and the one whose rejection is nobody's fault. *)
Definition ignored_rpc : string := "com.bloks.www.bloks.caa.reg.youthregulation.deletepregent.async".
Definition may_query_error : string := "com.bloks.www.ap.two_step_verification.entrypoint_async".

(** ** The bridge of the browser *)

(** Computations of the browser. *)
Abbreviation BM := (M (St Browser)).

Section Browser.
Context `{Host} `{Library}.

Definition browser {A} (f : Browser -> A) : BM A := gets (fun s => f (world s)).
Definition assign (f : Browser -> Browser) : BM unit := modify (set_world f).
Definition goto (st : BrowserState) : BM unit := assign (set_State st).

(** The bundles of an answer, the embedded ones first. *)
Fixpoint alloc_bundle (p : Payload) : BM nat :=
  let 'MkPayload scripts vars emb tree action := p in
  es ← (fix go (l : list (string * Payload)) : BM (list (string * nat)) :=
          match l with
          | [] => mret []
          | (id, e) :: l => loc ← alloc_bundle e; r ← go l; mret ((id, loc) :: r)
          end) emb;
  new_bundle {| BScripts := scripts; BVariables := vars; BEmbedded := es; BTree := tree; BAction := action; BInterpreter := None |}.

(** [MakeBloksRequest]; an error goes to [on_error]. *)
Definition make_request (r : request) (on_error : string -> string) : BM nat :=
  assign (fun b => set_requests (requests b ++ [r]) b);;
  h ← browser requests;
  match cfg_MakeBloksRequest h with
  | Ok p => alloc_bundle p
  | Err e => throw (on_error e)
  | Halt h => lift (Halt h)
  end.

(** [b.CurrentPage.GetInterpreter()] *)
Definition page_interpreter : BM (option nat) :=
  p ← browser CurrentPage;
  match p with
  | None => mret None
  | Some b => bundle ← load bundles b; mret (BInterpreter bundle)
  end.

(** [setup] is [SetupInterpreter] with this bridge, one level down. *)
Section Bridge.
Variable setup : option nat -> nat -> option nat -> BM unit.

Definition do_rpc (c : option nat) (name : string) (params : gmap string string) (isPage : bool) (cb : option callback) : BM unit :=
  if (name =? ignored_rpc)%string then mret tt
  else match assoc name rpc_transitions with
  | None => throw ("unexpected rpc " ++ name)%string
  | Some ts =>
      st ← browser State;
      if decide (transition ts st = StateUnknown) then throw ("can't handle rpc " ++ name)%string
      else
        catch (lift (json_BloksParamsInner (default "" (params !! "params")))) (fun e => throw ("parsing " ++ name ++ " params: " ++ e)%string);;
        loc ← make_request {| isPage_ := isPage; rpc_name := name; rpc_params := FromScript (default "" (params !! "params")) |}
          (fun e => if (name =? may_query_error)%string && StrContains e "Query Error" then ErrLoginUninformative
                    else ("rpc " ++ name ++ ": " ++ e)%string);
        prev ← page_interpreter;
        setup c loc prev;;
        assign (if isPage then set_CurrentPage (Some loc) else set_CurrentAction (Some loc));;
        assign (fun b => set_State (transition ts (State b)) b);;
        st' ← browser State;
        match st' with
        | StateAFADAction => assign (set_AFADCallback cb)
        | StateEnteredCaptchaAction => assign (set_CaptchaCallback cb)
        | StateSendSMSAction => goto StateSMSPageAfterSend
        | StateSendWhatsAppAction => goto StateWhatsAppPageAfterSend
        | _ => mret tt
        end
  end.

Definition display_new_screen (c : option nat) (name : string) (page : nat) : BM unit :=
  match assoc name screen_transitions with
  | None => throw ("unexpected new screen " ++ name)%string
  | Some ts =>
      st ← browser State;
      if decide (transition ts st = StateUnknown) then throw ("can't handle new screen " ++ name)%string
      else
        prev ← page_interpreter;
        setup c page prev;;
        assign (set_CurrentPage (Some page));;
        assign (fun b => set_State (transition ts (State b)) b)
  end.

Definition handle_login_response (data : string) : BM unit :=
  st ← browser State;
  if decide (transition login_transitions st = StateUnknown) then throw "can't handle login response"
  else assign (set_LoginData data);; assign (fun b => set_State (transition login_transitions (State b)) b).

Definition start_timer (name : string) (interval : Z) : BM unit :=
  if (name =? "approve_from_another_device_polling_timer")%string then assign (set_AFADInterval interval)
  else throw ("unexpected timer " ++ name)%string.

(** A variable that holds the message of a rejected code. *)
Definition note_error (v : lit) : BM unit :=
  x ← deref v; match x with VStr msg => assign (set_LastError msg) | _ => throw "non-string code error" end.

Definition handle_variable_change (name : string) (v : lit) : BM unit :=
  st ← browser State;
  if (name =? "BLOKS_TWO_STEP_VERIFICATION_ENTER_CODE:error_message")%string then
    match st with
    | StateEnteredTOTPAction | StateEnteredSMSAction | StateEnteredWhatsAppAction | StateEnteredBackupCodeAction => note_error v
    | _ => mret tt
    end
  else if (name =? "BLOKS_AUTH_PLATFORM_ENTER_CODE:error_message")%string then
    match st with StateEnteredEmailCodeAPAction => note_error v | _ => mret tt end
  else mret tt.

(** [NewBrowser]: the bridge; [uuid1], [uuid2] are the identifiers of the new device. *)
Definition NewBrowser_Bridge (uuid1 uuid2 : string) : InterpBridge Browser := {|
  set_DeviceID := uuid1;
  set_FamilyDeviceID := uuid2;
  set_MachineID := "";
  set_EncryptPassword := Some (fun _ pw => lift (cfg_EncryptPassword pw));
  set_SIMPhones := VNull;
  set_DeviceEmails := VNull;
  set_IsAppInstalled := None;
  set_HasAppPermissions := None;
  set_GetSecureNonces := None;
  set_DoRPC := Some do_rpc;
  set_DisplayNewScreen := Some display_new_screen;
  set_HandleLoginResponse := Some (fun _ => handle_login_response);
  set_StartTimer := Some (fun name interval _ => start_timer name interval);
  set_OpenURL := Some (fun url => assign (set_DisplayedURL url));
  set_HandleVariableChange := Some handle_variable_change;
|}.
End Bridge.

(** The bridge whose pages may be nested [fuel] deep. *)
Fixpoint browser_bridge (uuid1 uuid2 : string) (fuel : nat) : Bridge Browser :=
  with_defaults uuid1 uuid2 (NewBrowser_Bridge
    (fun c b prev => match fuel with
                     | O => diverge
                     | S fuel => SetupInterpreter (browser_bridge uuid1 uuid2 fuel) fuel c b prev
                     end) uuid1 uuid2).

(** [NewBrowser]: the fields. *)
Definition NewBrowser : Browser := {|
  State := StateInitial; CurrentPage := None; CurrentAction := None; CaptchaCallback := None; NumCaptchaAttempts := 0;
  AFADNotification := ""; AFADInterval := 0; AFADCallback := None; AFADDisplayed := false; LoginData := "";
  DisplayedURL := ""; LastError := ""; requests := []; userInput := ∅ |}.

(** ** What the browser does on a page *)

(** A step of the login that is shown to the user. *)
Inductive StepType := StepUserInput | StepDisplayAndWait.
Record Attachment := { FileName : string; MimeType : string; Content : string; Dimensions : option (Z * Z) }.
Record LoginStep := {
  StepType_ : StepType;
  StepID : string;
  Instructions : string;
  Fields : list string;
  Options : list string;
  Attachments : list Attachment;
}.

Definition input_step (id instructions : string) (fields : list string) : LoginStep :=
  {| StepType_ := StepUserInput; StepID := "fi.mau.meta.messengerlite." ++ id; Instructions := instructions;
     Fields := fields; Options := []; Attachments := [] |}%string.

Section Steps.
Variables (br : Bridge Browser) (fuel : nat).

Definition current_page : BM (nat * Bundle) :=
  p ← browser CurrentPage;
  match p with None => panic | Some b => bundle ← load bundles b; mret (b, bundle) end.

(** A script of the current page, evaluated by its interpreter in a context. *)
Definition page_eval (c : option nat) (script : Node) : BM lit :=
  pb ← current_page;
  match BInterpreter (snd pb) with None => panic | Some i => Evaluate br i fuel c script end.

(** [b.CurrentAction.Interpreter.Evaluate(ctx, b.CurrentAction.Action())]: an action that is
    missing is a nil pointer whose field is taken. *)
Definition eval_action : BM lit :=
  a ← browser CurrentAction;
  match a with
  | None => panic
  | Some b =>
      bundle ← load bundles b;
      match BInterpreter bundle, BAction bundle with
      | Some i, Some script => Evaluate br i fuel None script
      | _, _ => panic
      end
  end.

(** A callback that a script left, on a result; it may be nil. *)
Definition call_back (cb : option callback) (result : lit) : BM unit :=
  match cb with
  | None => panic
  | Some cb =>
      Evaluate br (cb_interp cb) fuel (cb_ctx cb)
        (Funcall "bk.action.core.Apply" [Literal (Some (VLambda (cb_fn cb))); Literal result]);;
      mret tt
  end.

Definition with_prefix {A} (pre : string) (m : BM A) : BM A := catch m (fun e => throw (pre ++ ": " ++ e)%string).

(** The component of the page at a place. *)
Definition page_roots (t : option TreeNode) : list Component :=
  match t with Some n => node_children n | None => [] end.
Definition component_of (bundle : Bundle) (e : elem) : option Component :=
  root ← page_roots (BTree bundle) !! fst (snd e); at_path root (snd (snd e)).

Definition component_at (e : elem) : BM Component :=
  bundle ← load bundles (fst e);
  match component_of bundle e with Some c => mret c | None => panic end.

(** [b.CurrentPage.FindDescendant], [FindDescendants] *)
Definition page_find (pred : Component -> bool) : BM (option elem) :=
  pb ← current_page;
  mret (n ← BTree (snd pb); r ← node_FindDescendant pred n; Some (fst pb, r)).
Definition page_find_all (pred : Component -> bool) : BM (list elem) :=
  pb ← current_page;
  mret (match BTree (snd pb) with Some n => map (pair (fst pb)) (node_FindDescendants pred n) | None => [] end).

(** The searches from a component that may be nil. *)
Definition from_root (f : Component -> path -> option path) (o : option elem) : BM (option elem) :=
  match o with
  | None => mret None
  | Some (b, (j, p)) =>
      bundle ← load bundles b;
      mret (root ← page_roots (BTree bundle) !! j; q ← f root p; Some (b, (j, q)))
  end.
Definition containing_button : option elem -> BM (option elem) := from_root FindContainingButton.
Definition find_ancestor (pred : Component -> bool) : option elem -> BM (option elem) := from_root (FindAncestor pred).

(** [FindDescendant] of a nil component reads its fields. *)
Definition find_descendant (pred : Component -> bool) (o : option elem) : BM (option elem) :=
  match o with
  | None => panic
  | Some (b, (j, p)) =>
      c ← component_at (b, (j, p));
      mret (r ← FindDescendant pred c; Some (b, (j, p ++ r)))
  end.

(** [GetChildren] of a component that may be nil, with the places of the children. *)
Fixpoint attr_index (name : string) (i : nat) (l : list (string * TreeNode)) : option (nat * TreeNode) :=
  match l with
  | [] => None
  | (k, n) :: l => if (k =? name)%string then Some (i, n) else attr_index name (S i) l
  end.

Definition children_of (name : string) (o : option elem) : BM (list elem) :=
  match o with
  | None => mret []
  | Some (b, (j, p)) =>
      c ← component_at (b, (j, p));
      mret (match attr_index name 0 (Attributes c) with
            | Some (i, TComponentList l) => map (fun k => (b, (j, p ++ [(i, k)]))) (seq 0 (length l))
            | _ => []
            end)
  end.

Definition attribute_of (name : string) (o : option elem) : BM string :=
  match o with None => mret "" | Some e => c ← component_at e; mret (GetAttribute c name) end.

(** [InterpBindThis] in a context without arguments. *)
Definition bind_this (e : elem) : BM nat :=
  ref ← new_elem e;
  new_frame (Some (VElem ref) :: replicate (maxInterpArgs - 1) None).

Definition FillInput (o : option elem) (text : string) : BM unit :=
  match o with
  | None => throw "no such input"
  | Some e =>
      c ← component_at e;
      if takes_text c then
        modify (set_texts (<[e := text]>));;
        match assoc "on_text_change" (Attributes c) with
        | None => panic
        | Some (TScript script) =>
            frame ← bind_this e;
            with_prefix "on_text_change" (page_eval (Some frame) script);;
            mret tt
        | Some _ => throw "no on_text_change script"
        end
      else throw ("can't set text content of " ++ ComponentID c)%string
  end.

Definition TapButton (o : option elem) : BM unit :=
  match o with
  | None => throw "no such button"
  | Some e =>
      c ← component_at e;
      match GetScript c "on_click", GetScript c "on_touch_down", GetScript c "on_touch_up" with
      | Some script, _, _ =>
          frame ← bind_this e; with_prefix "on_click" (page_eval (Some frame) script);; mret tt
      | None, Some down, Some up =>
          frame ← bind_this e; with_prefix "on_touch_down" (page_eval (Some frame) down);;
          frame ← bind_this e; with_prefix "on_touch_up" (page_eval (Some frame) up);;
          mret tt
      | _, _, _ => throw "couldn't find any event handlers on button"
      end
  end.

(** [GetDynamicAttribute] *)
Definition GetDynamicAttribute (e : elem) (name : string) : BM string :=
  c ← component_at e;
  if negb (GetAttribute c name =? "")%string then mret (GetAttribute c name)
  else match assoc "on_bind" (Attributes c) with
       | Some (TScriptSet scripts) =>
           match assoc name scripts with
           | Some script => catch (l ← page_eval None script; cast as_string l) (fun _ => mret "")
           | None => mret ""
           end
       | _ => mret ""
       end.

(** ** The steps *)

Definition is_input_with (label : string) (c : Component) : bool :=
  FilterByComponent "bk.components.TextInput" c &&
  match FindDescendant (FilterByAttribute "bk.components.AccessibilityExtension" "label" label) c with
  | Some _ => true
  | None => false
  end.

Definition text_span (text : string) : Component -> bool := FilterByAttribute "bk.data.TextSpan" "text" text.

Definition getCodeInstructions : BM string :=
  o ← page_find (fun c => FilterByComponent "bk.data.TextSpan" c &&
        (HasPrefix (GetAttribute c "text") "Enter the code" || HasPrefix (GetAttribute c "text") "We sent a code"));
  attribute_of "text" o.

Definition answer (field : string) : BM string := browser (fun b => default "" (userInput b !! field)).
Definition forget (field : string) : BM unit := assign (fun b => set_userInput (delete field (userInput b)) b).

(** The message of the last error, said once. *)
Definition with_last_error (trim : string -> string) (instructions : string) : BM string :=
  e ← browser LastError;
  if (e =? "")%string then mret instructions
  else assign (set_LastError "");; mret (trim e ++ ". " ++ instructions)%string.

(** A page for a code: ask for it, or fill it in and go on. *)
Definition code_page (field step_id : string) (instructions : BM string) (input : Component -> bool) (what : string) : BM (option LoginStep) :=
  code ← answer field;
  if (code =? "")%string then
    i ← instructions;
    i ← with_last_error trim_dot i;
    mret (Some (input_step step_id i [field]))
  else
    o ← page_find input;
    with_prefix ("filling " ++ what ++ " code input")%string (FillInput o code);;
    o ← page_find (text_span "Continue");
    btn ← containing_button o;
    with_prefix "tapping continue" (TapButton btn);;
    mret None.

(** An action that checks a code: a message that it left sends the user back. *)
Definition check_code (field : string) (page : BrowserState) : BM (option LoginStep) :=
  with_prefix "execute" eval_action;;
  e ← browser LastError;
  if (e =? "")%string then mret None
  else forget field;; goto page;; mret None.

Definition step_initial : BM (option LoginStep) :=
  loc ← make_request {| isPage_ := false; rpc_name := "com.bloks.www.bloks.caa.login.process_client_data_and_redirect";
                        rpc_params := ClientData (FamilyDeviceID br) (DeviceID br) (MachineID br) |}
          (fun e => "rpc com.bloks.www.bloks.caa.login.process_client_data_and_redirect: " ++ e)%string;
  prev ← page_interpreter;
  with_prefix "setup interpreter" (SetupInterpreter br fuel None loc prev);;
  assign (set_CurrentAction (Some loc));;
  goto StateRedirectToLoginAction;;
  mret None.

Definition step_entered_captcha : BM (option LoginStep) :=
  assign (fun b => set_NumCaptchaAttempts (int64 (NumCaptchaAttempts b + 1)) b);;
  result ← with_prefix "execute" eval_action;
  cb ← browser CaptchaCallback;
  with_prefix "execute captcha callback" (call_back cb result);;
  st ← browser State;
  if decide (st = StateEnteredCaptchaAction) then goto StateCaptchaPage;; forget "captcha_code";; mret None
  else mret None.

Definition step_ap_action : BM (option LoginStep) :=
  with_prefix "execute" eval_action;;
  st ← browser State;
  e ← browser LastError;
  if decide (st = StateEnteredEmailCodeAPAction) then
    if (e =? "")%string then mret None else forget "email_code";; goto StateEmailCodePage;; mret None
  else mret None.

Definition step_afad_action : BM (option LoginStep) :=
  result ← with_prefix "execute" eval_action;
  cb ← browser AFADCallback;
  with_prefix "execute AFAD callback" (call_back cb result);;
  st ← browser State;
  if decide (st = StateAFADAction) then
    interval ← browser AFADInterval;
    if interval <=? 0 then throw "no AFAD timer scheduled"
    else
      goto StateAFADWait;;
      shown ← browser AFADDisplayed;
      if shown : bool then mret None
      else
        text ← browser AFADNotification;
        assign (set_AFADDisplayed true);;
        mret (Some {| StepType_ := StepDisplayAndWait; StepID := "fi.mau.meta.messengerlite.afad_wait"; Instructions := text;
                      Fields := []; Options := []; Attachments := [] |})
  else mret None.

Definition step_entered_password : BM (option LoginStep) :=
  catch (eval_action;; mret None)
    (fun e =>
       if (e =? "Invalid username or password")%string then
         forget "username";; forget "password";;
         assign (set_LastError e);;
         goto StateEmailPasswordPage;; mret None
       else if StrContains e "isn't connected to an account" then
         forget "username";; forget "password";;
         username ← answer "username";
         assign (set_LastError
           ("That " ++ (if StrContains "@" username then "email address" else "username")
            ++ " is not connected to a Messenger account")%string);;
         goto StateEmailPasswordPage;; mret None
       else throw ("execute: " ++ e)%string).

Definition step_entered_email_code : BM (option LoginStep) :=
  catch (eval_action;; mret None)
    (fun e =>
       if HasPrefix e "Please re-enter" then
         forget "email_code";; assign (set_LastError e);; goto StateEmailCodePage;; mret None
       else throw ("execute: " ++ e)%string).

Definition step_password_page : BM (option LoginStep) :=
  username ← answer "username";
  password ← answer "password";
  if (username =? "")%string || (password =? "")%string then
    i ← with_last_error id "Enter your Facebook credentials. The Messenger network will only work with Facebook accounts.";
    mret (Some (input_step "email_password" i ["username"; "password"]))
  else if negb (definitelyNotPhoneNumber username) then throw ErrLoginPhoneNumber
  else
    o ← page_find (FilterByAttribute "bk.components.TextInput" "html_name" "email");
    with_prefix "filling email input" (FillInput o username);;
    password ← answer "password";
    o ← page_find (FilterByAttribute "bk.components.TextInput" "html_name" "password");
    with_prefix "filling password input" (FillInput o password);;
    o ← page_find (text_span "Log in");
    btn ← containing_button o;
    with_prefix "tapping login button" (TapButton btn);;
    mret None.

(** The image and the sound of a captcha. *)
Definition fetch (kind url : string) : BM (string * string) :=
  r ← catch (lift (http_Get url)) (fun e => throw ("error fetching " ++ kind ++ " response: " ++ e)%string);
  if HasPrefix (fst r) (kind ++ "/")%string then mret r
  else throw ("bad " ++ kind ++ " captcha mime type " ++ fst r)%string.

Definition captcha_step : BM (option LoginStep) :=
  img ← page_find (FilterByAttribute "bk.components.Image" "unique_id"
          "i:com.bloks.www.two_step_verification.enter_text_captcha_code/p:captcha_image");
  match img with
  | None => throw "can't find captcha image"
  | Some img =>
      imageURL ← GetDynamicAttribute img "url";
      if (imageURL =? "")%string then throw "captcha image has no url" else
      audio ← page_find (text_span "play audio");
      match audio with
      | None => throw "can't find audio text"
      | Some _ =>
          clickable ← find_descendant (FilterByComponent "bk.style.textspan.ClickableStyle") audio;
          match clickable with
          | None => throw "audio text is not clickable"
          | Some e =>
              c ← component_at e;
              match GetScript c "on_click" with
              | None => throw "no on_click on audio text"
              | Some script =>
                  with_prefix "clicking on audio text" (page_eval None script);;
                  shown ← browser DisplayedURL;
                  if (shown =? "")%string then throw "clicking on audio text failed to open url" else
                  image ← fetch "image" imageURL;
                  sound ← fetch "audio" (replace_first "/player/" "/" shown);
                  n ← browser NumCaptchaAttempts;
                  mret (Some {|
                    StepType_ := StepUserInput; StepID := "fi.mau.meta.messengerlite.captcha";
                    Instructions := if 0 <? n then "Facebook rejected that captcha solution" else "Facebook requires solving a captcha";
                    Fields := ["captcha_code"]; Options := [];
                    Attachments :=
                      [{| FileName := "captcha" ++ ExtensionFromMimetype (fst image); MimeType := fst image; Content := snd image;
                          Dimensions := Some (image_DecodeConfig (snd image)) |};
                       {| FileName := "captcha" ++ ExtensionFromMimetype (fst sound); MimeType := fst sound; Content := snd sound;
                          Dimensions := None |}]%string |})
              end
          end
      end
  end.

Definition step_captcha_page : BM (option LoginStep) :=
  code ← answer "captcha_code";
  if (code =? "")%string then captcha_step
  else code_page "captcha_code" "captcha" (mret "") (is_input_with "Enter characters") "captcha".

Definition step_mfa_landing : BM (option LoginStep) :=
  o ← page_find (text_span "Try another way");
  btn ← containing_button o;
  st ← browser State;
  match btn, st with
  | None, StatePossibleMandatoryAFADPAge => goto StateAFADPage;; mret None
  | _, _ => with_prefix "tapping method selection button" (TapButton btn);; mret None
  end.

Definition known_methods : list string :=
  ["Notification on another device"; "Authentication app"; "Email"; "Text message"; "Backup code"; "WhatsApp"].

(** The methods the page offers that are known, with the text that names them. *)
Fixpoint mfa_methods (items : list elem) : BM (list (string * elem)) :=
  match items with
  | [] => mret []
  | item :: items =>
      rich ← find_descendant (FilterByComponent "bk.components.RichText") (Some item);
      spans ← children_of "spans" rich;
      match spans with
      | [] => panic
      | s :: _ =>
          span ← find_descendant (FilterByComponent "bk.data.TextSpan") (Some s);
          method ← attribute_of "text" span;
          rest ← mfa_methods items;
          mret (match span with
                | Some e => if existsb (String.eqb method) known_methods then (method, e) :: rest else rest
                | None => rest
                end)
      end
  end.

Definition step_choose_mfa : BM (option LoginStep) :=
  title ← page_find (text_span "Choose a way to confirm it’s you");
  coll ← find_ancestor (FilterByComponent "bk.components.Collection") title;
  box ← find_descendant (FilterByAttribute "bk.components.BoxDecoration" "border_width" "1dp") coll;
  flex ← find_ancestor (FilterByComponent "bk.components.Flexbox") box;
  items ← children_of "children" flex;
  found ← mfa_methods items;
  let names := map fst found in
  match names with
  | [] => throw "couldn't find any allowed mfa types"
  | first :: _ =>
      choice ← answer "mfatype";
      let chosen := if (choice =? "")%string && forallb (String.eqb first) names then first else choice in
      if (chosen =? "")%string then
        mret (Some {| StepType_ := StepUserInput; StepID := "fi.mau.meta.messengerlite.mfa_type";
                      Instructions := "Choose how to finish signing in"; Fields := ["mfatype"]; Options := names; Attachments := [] |})
      else
        match assoc chosen (reverse found) with
        | None => throw ("not a valid mfa method: " ++ chosen)%string
        | Some span =>
            btn ← containing_button (Some span);
            with_prefix "tapping method button" (TapButton btn);;
            o ← page_find (text_span "Continue");
            btn ← containing_button o;
            with_prefix "tapping continue button" (TapButton btn);;
            mret None
        end
  end.

(** The scripts of the components that were found, evaluated by the page that is current then. *)
Definition run_scripts (attr what : string) (es : list elem) : BM unit :=
  iter (fun e =>
    c ← component_at e;
    match GetScript c attr with
    | None => mret tt
    | Some script => with_prefix what (page_eval None script);; mret tt
    end) es.

Definition step_afad_page : BM (option LoginStep) :=
  notif ← page_find (fun c => FilterByComponent "bk.data.TextSpan" c && HasPrefix (GetAttribute c "text") "We sent a notification");
  match notif with
  | None => throw "couldn't find AFAD notification info"
  | Some _ =>
      text ← attribute_of "text" notif;
      assign (set_AFADNotification text);;
      es ← page_find_all (fun c => FilterByComponent "bk.components.VisibilityExtension" c &&
             match GetScript c "on_appear" with Some _ => true | None => false end);
      run_scripts "on_appear" "on_appear" es;;
      mret None
  end.

Definition step_mount (what : string) : BM (option LoginStep) :=
  es ← page_find_all (FilterByComponent "bk.components.OnMount");
  run_scripts "on_first_mount" what es;;
  mret None.

Definition step_test_captcha : BM (option LoginStep) :=
  code ← answer "captcha_code";
  if (code =? "")%string then mret (Some (input_step "captcha" "Here is a test captcha" ["captcha_code"]))
  else goto StateInitial;; mret None.

Definition step_entered_totp : BM (option LoginStep) := check_code "totp_code" StateTOTPPage.
Definition step_entered_sms : BM (option LoginStep) := check_code "sms_code" StateSMSPageAfterSend.
Definition step_entered_whatsapp : BM (option LoginStep) := check_code "whatsapp_code" StateWhatsAppPageAfterSend.
Definition step_entered_backup : BM (option LoginStep) := check_code "backup_code" StateBackupCodePage.
Definition step_run_action : BM (option LoginStep) := with_prefix "execute" eval_action;; mret None.

Definition step_email_code_page : BM (option LoginStep) :=
  code_page "email_code" "email_code" getCodeInstructions (is_input_with "Enter code") "email".
Definition step_backup_code_page : BM (option LoginStep) :=
  code_page "backup_code" "backup_code" (mret "Enter one of your two-factor backup codes.") (is_input_with "Code") "backup".
Definition step_totp_page : BM (option LoginStep) :=
  code_page "totp_code" "totp" (mret "Enter a six-digit code from your authenticator app") (is_input_with "Code") "mfa".
Definition step_sms_after_send : BM (option LoginStep) :=
  code_page "sms_code" "sms" getCodeInstructions (is_input_with "Code") "sms".
Definition step_whatsapp_after_send : BM (option LoginStep) :=
  code_page "whatsapp_code" "whatsapp" getCodeInstructions (is_input_with "Code") "whatsapp".
Definition step_sms_page : BM (option LoginStep) := step_mount "sms on_mount script".
Definition step_whatsapp_page : BM (option LoginStep) := step_mount "whatsapp on_mount script".
Definition step_afad_wait : BM (option LoginStep) := goto StateAFADPage;; mret None.

(** The case of a state. *)
Definition step_of (st : BrowserState) : BM (option LoginStep) :=
  match st with
  | StateTestCaptcha => step_test_captcha
  | StateInitial => step_initial
  | StateEnteredCaptchaAction => step_entered_captcha
  | StateMFALandingAPAction | StateChooseMFAAPAction | StateChosenMFAAPAction | StateEnteredEmailCodeAPAction => step_ap_action
  | StateAFADAction => step_afad_action
  | StateEnteredEmailPasswordAction => step_entered_password
  | StateEnteredEmailCodeAction => step_entered_email_code
  | StateEnteredTOTPAction => step_entered_totp
  | StateEnteredSMSAction => step_entered_sms
  | StateEnteredWhatsAppAction => step_entered_whatsapp
  | StateEnteredBackupCodeAction => step_entered_backup
  | StateRedirectToLoginAction | StateRedirectToMFALandingAction | StateChosenMFAAction | StateAFADCompleteAction => step_run_action
  | StateEmailPasswordPage => step_password_page
  | StateEmailCodePage => step_email_code_page
  | StateBackupCodePage => step_backup_code_page
  | StateCaptchaPage => step_captcha_page
  | StateMFALandingPage | StatePossibleMandatoryAFADPAge => step_mfa_landing
  | StateChooseMFAPage => step_choose_mfa
  | StateTOTPPage => step_totp_page
  | StateAFADPage => step_afad_page
  | StateAFADWait => step_afad_wait
  | StateOAuthPage => throw "can't handle Google OAuth yet"
  | StateSMSPage => step_sms_page
  | StateSMSPageAfterSend => step_sms_after_send
  | StateWhatsAppPage => step_whatsapp_page
  | StateWhatsAppPageAfterSend => step_whatsapp_after_send
  | StateUnknown | StateSendSMSAction | StateSendWhatsAppAction | StateSuccess => throw "unexpected state"
  end.

(** [DoLoginStep]: a step that does not ask for anything has to advance. *)
Definition DoLoginStep : BM (option LoginStep) :=
  prev ← browser State;
  step ← step_of prev;
  st ← browser State;
  match step with
  | None => if decide (st = prev) then throw "handling failed to advance flow" else mret None
  | Some step => mret (Some step)
  end.

(** The loop of [DoLoginSteps] ([messengerlite.go]): steps until one asks for something, or the
    login is through; [rounds] bounds it. *)
Fixpoint DoLoginSteps (rounds : nat) : BM (option LoginStep) :=
  match rounds with
  | O => diverge
  | S rounds =>
      st ← browser State;
      if decide (st = StateSuccess) then mret None
      else
        step ← DoLoginStep;
        match step with Some step => mret (Some step) | None => DoLoginSteps rounds end
  end.
End Steps.
End Browser.
