(* ===== verification/BloksLogin.v ===== *)
(** * BloksLogin: the login flow refines a state machine ([bloks/selenium.go])

    The states a browser goes through are those of a machine that the tables of the bridge give,
    whatever the scripts of the pages do: [bridge_move] is a move a script can make, [local_move]
    what a step of the login does itself. *)

From stdpp Require Import relations.
From S2P Require Import Prelude Strconv Text Effects BloksScript BloksTree BloksInterp BloksEval BloksBrowser.
#[local] Open Scope string_scope.
#[local] Open Scope Z_scope.
#[local] Open Scope list_scope.

(** ** The machine *)

(** A move of a script: a request, a screen, the answer to a login.  A page whose own scripts moved
    the browser while it was being set up can leave it in no known state. *)
Inductive bridge_move : BrowserState -> BrowserState -> Prop :=
| move_rpc name ts s s' : (name, ts) ∈ rpc_transitions -> (s, s') ∈ ts -> bridge_move s s'
| move_screen name ts s s' : (name, ts) ∈ screen_transitions -> (s, s') ∈ ts -> bridge_move s s'
| move_login s : (s, StateSuccess) ∈ login_transitions -> bridge_move s StateSuccess
| move_sms : bridge_move StateSendSMSAction StateSMSPageAfterSend
| move_whatsapp : bridge_move StateSendWhatsAppAction StateWhatsAppPageAfterSend
| move_lost s : bridge_move s StateUnknown.

Abbreviation moves := (rtc bridge_move).

(** The states from which a login response is taken. *)
Definition accepting (s : BrowserState) : Prop := (s, StateSuccess) ∈ login_transitions.

(** The last move of a step that began in the first state, when scripts have moved to the second:
    the start, a page that is read again, an answer that was rejected. *)
Inductive local_move : BrowserState -> BrowserState -> BrowserState -> Prop :=
| local_test q : local_move StateTestCaptcha q StateInitial
| local_start q : local_move StateInitial q StateRedirectToLoginAction
| local_captcha : local_move StateEnteredCaptchaAction StateEnteredCaptchaAction StateCaptchaPage
| local_password q : local_move StateEnteredEmailPasswordAction q StateEmailPasswordPage
| local_email q : local_move StateEnteredEmailCodeAction q StateEmailCodePage
| local_email_ap p : local_move p StateEnteredEmailCodeAPAction StateEmailCodePage
| local_totp q : local_move StateEnteredTOTPAction q StateTOTPPage
| local_sms q : local_move StateEnteredSMSAction q StateSMSPageAfterSend
| local_whatsapp q : local_move StateEnteredWhatsAppAction q StateWhatsAppPageAfterSend
| local_backup q : local_move StateEnteredBackupCodeAction q StateBackupCodePage
| local_afad : local_move StateAFADAction StateAFADAction StateAFADWait
| local_afad_poll q : local_move StateAFADWait q StateAFADPage
| local_afad_only : local_move StatePossibleMandatoryAFADPAge StatePossibleMandatoryAFADPAge StateAFADPage.

(** A step of the login: moves of scripts, then at most one of the step itself. *)
Definition login_step (p s : BrowserState) : Prop :=
  exists q, moves p q /\ (s = q \/ local_move p q s).

(** ** What every script respects *)

Abbreviation state_of s := (State (world s)).

Record advances (s s' : St Browser) : Prop := {
  adv_moves : moves (state_of s) (state_of s');
  adv_login : LoginData (world s') = LoginData (world s) \/ exists q, moves (state_of s) q /\ accepting q;
}.

#[export] Instance advances_preorder : PreOrder advances.
Proof.
  split.
  - intros s. split; [done|by left].
  - intros s1 s2 s3 [M1 L1] [M2 L2]. split; [by etrans|].
    destruct L2 as [E2|(q & Hq & Ha)]; [|right; exists q; split; [by etrans|done]].
    destruct L1 as [E1|L1]; [left; congruence|by right].
Qed.

Lemma advances_same (s s' : St Browser) :
  state_of s' = state_of s -> LoginData (world s') = LoginData (world s) -> advances s s'.
Proof. intros H1 H2. split; [by rewrite H1|by left]. Qed.

Lemma step_advances (f : St Browser -> St Browser) s : step f -> advances s (f s).
Proof. intros Hf. apply advances_same; by destruct Hf. Qed.

(** The relation between computations that stands for it. *)
Abbreviation Adv := (fun A (m _ : M (St Browser) A) => respects advances m).

Lemma adv_modify f : step f -> Adv _ (modify f) (modify f).
Proof. intros Hf s. by apply step_advances. Qed.

Lemma transition_spec ts s : transition ts s = StateUnknown \/ (s, transition ts s) ∈ ts.
Proof.
  induction ts as [|[a b] ts IH]; [by left|]. cbn. destruct (decide (a = s)) as [->|Hn]; [right; apply list_elem_of_here|].
  destruct IH as [->|IH]; [by left|]. right. by apply list_elem_of_further.
Qed.

Lemma assoc_elem_of {A} key (l : list (string * A)) a : assoc key l = Some a -> (key, a) ∈ l.
Proof.
  induction l as [|[k b] l IH]; [done|]. cbn. destruct (String.eqb_spec k key) as [->|Hne]; intros H.
  - injection H as ->. apply list_elem_of_here.
  - by apply list_elem_of_further, IH.
Qed.

Section Login.
Context `{Hst : Host} `{L : Library} `{!LibraryEnds L}.

#[local] Arguments transition : simpl never.
#[local] Arguments login_transitions : simpl never.
#[local] Arguments rpc_transitions : simpl never.
#[local] Arguments screen_transitions : simpl never.

Lemma assign_same f : (forall b, State (f b) = State b) -> (forall b, LoginData (f b) = LoginData b) ->
  respects advances (assign f).
Proof. intros H1 H2 s. by apply advances_same; cbn. Qed.

Lemma with_prefix_respects {A} pre (m : BM A) : respects advances m -> respects advances (with_prefix pre m).
Proof. intros H. apply respects_catch; [apply _|done|]. intros e. apply respects_lift, _. Qed.

Lemma alloc_bundle_respects : forall p, respects advances (alloc_bundle p).
Proof.
  fix IH 1. intros [scripts vars emb tree action]. cbn [alloc_bundle]. apply respects_bind; [apply _| |].
  - induction emb as [|[id e] emb IHe]; [apply respects_ret, _|].
    apply respects_bind; [apply _|exact (IH e)|]. intros loc.
    apply respects_bind; [apply _|exact IHe|]. intros r. apply respects_ret, _.
  - intros es. unfold new_bundle. apply respects_bind; [apply _|apply respects_gets, _|intros l].
    apply respects_bind; [apply _|intros s; by apply advances_same|intros; apply respects_ret, _].
Qed.

(** [adv] takes a computation of the browser apart. *)
Ltac adv_atom := first
  [ by apply respects_ret, _ | by apply respects_lift, _ | by apply respects_gets, _ | apply alloc_bundle_respects
  | apply with_prefix_respects | by apply assign_same | apply (rel_load (fun A m _ => respects advances m))
  | done ].
Ltac adv := repeat first
  [ adv_atom
  | apply respects_bind; [apply _| |intros ?]
  | apply respects_catch; [apply _| |intros ?]
  | match goal with
    | |- respects _ (match ?x with _ => _ end) => destruct x
    | |- respects _ (if ?x then _ else _) => destruct x
    end ].

Lemma load_respects {A} (get : St Browser -> list A) loc : respects advances (load get loc).
Proof. unfold load. adv. Qed.

Lemma make_request_respects r e : respects advances (make_request r e).
Proof. unfold make_request, browser. adv. Qed.

Lemma page_interpreter_respects : respects advances page_interpreter.
Proof. unfold page_interpreter, browser. adv. Qed.

Lemma rpc_move_respects name ts : assoc name rpc_transitions = Some ts ->
  respects advances (assign (fun b => set_State (transition ts (State b)) b)).
Proof.
  intros H s. split; [|by left]. cbn. apply rtc_once.
  destruct (transition_spec ts (state_of s)) as [->|Hin]; [apply move_lost|].
  by eapply move_rpc; [apply assoc_elem_of|].
Qed.

Lemma screen_move_respects name ts : assoc name screen_transitions = Some ts ->
  respects advances (assign (fun b => set_State (transition ts (State b)) b)).
Proof.
  intros H s. split; [|by left]. cbn. apply rtc_once.
  destruct (transition_spec ts (state_of s)) as [->|Hin]; [apply move_lost|].
  by eapply move_screen; [apply assoc_elem_of|].
Qed.

(** What [DoRPC] does in the state it moved to. *)
Lemma arrival_respects cb :
  respects advances (st' ← browser State;
        match st' with
        | StateAFADAction => assign (set_AFADCallback cb)
        | StateEnteredCaptchaAction => assign (set_CaptchaCallback cb)
        | StateSendSMSAction => goto StateSMSPageAfterSend
        | StateSendWhatsAppAction => goto StateWhatsAppPageAfterSend
        | _ => mret tt
        end).
Proof.
  intros s. unfold mbind, M_bind. cbn. destruct (state_of s) eqn:E; try (by apply advances_same).
  - split; [|by left]. cbn. rewrite E. apply rtc_once, move_sms.
  - split; [|by left]. cbn. rewrite E. apply rtc_once, move_whatsapp.
Qed.

Lemma handle_login_response_respects data : respects advances (handle_login_response data).
Proof.
  intros s. unfold handle_login_response, mbind, M_bind. cbn. destruct (decide _) as [E|H]; cbn; [by apply advances_same|].
  destruct (transition_spec login_transitions (state_of s)) as [|Hin]; [done|].
  assert (transition login_transitions (state_of s) = StateSuccess) as Es.
  { unfold login_transitions in Hin. apply list_elem_of_fmap in Hin as (x & Hx & _). by injection Hx. }
  rewrite Es in Hin. split; cbn; rewrite ?Es.
  - by apply rtc_once, move_login.
  - right. by exists (state_of s).
Qed.

(** The bridge of a browser respects it, if the interpreters of new pages do. *)
Lemma browser_bridge_rel u1 u2 fuel : BridgeRel Adv (browser_bridge u1 u2 fuel) (browser_bridge u1 u2 fuel).
Proof.
  induction fuel as [fuel IH] using (well_founded_ind lt_wf).
  assert (forall c b prev, respects advances (match fuel with
                     | O => diverge
                     | S fuel => SetupInterpreter (browser_bridge u1 u2 fuel) fuel c b prev
                     end)) as Hsetup.
  { intros c b prev. destruct fuel as [|f]; [by apply respects_lift, _|].
    unfold SetupInterpreter. apply respects_bind; [apply _| |].
    - pose proof (IH f ltac:(lia)).
      refine (NewInterpreter_rel Adv _ (browser_bridge u1 u2 f) (browser_bridge u1 u2 f) f f _ c b prev); [exact adv_modify|].
      right. split; [done|]. by apply respects_lift, _.
    - intros i s. by apply advances_same. }
  split; try done.
  - intros. destruct fuel; cbn; by apply respects_lift, _.
  - intros c name params isPage cb.
    assert (DoRPC (browser_bridge u1 u2 fuel) c name params isPage cb = do_rpc (fun c b prev => match fuel with
                     | O => diverge
                     | S fuel => SetupInterpreter (browser_bridge u1 u2 fuel) fuel c b prev
                     end) c name params isPage cb) as -> by (by destruct fuel).
    unfold do_rpc. destruct (_ =? _)%string; [adv|]. destruct (assoc name rpc_transitions) as [ts|] eqn:E; [|adv].
    apply respects_bind; [apply _|adv|]. intros st. destruct (decide _); [adv|].
    apply respects_bind; [apply _|adv|]. intros _. apply respects_bind; [apply _|apply make_request_respects|]. intros loc.
    apply respects_bind; [apply _|apply page_interpreter_respects|]. intros prev.
    apply respects_bind; [apply _|apply Hsetup|]. intros _.
    apply respects_bind; [apply _|apply assign_same; by destruct isPage|]. intros _.
    apply respects_bind; [apply _|by apply (rpc_move_respects name)|]. intros _. apply arrival_respects.
  - intros c name b.
    assert (DisplayNewScreen (browser_bridge u1 u2 fuel) c name b = display_new_screen (fun c b prev => match fuel with
                     | O => diverge
                     | S fuel => SetupInterpreter (browser_bridge u1 u2 fuel) fuel c b prev
                     end) c name b) as -> by (by destruct fuel).
    unfold display_new_screen. destruct (assoc name screen_transitions) as [ts|] eqn:E; [|adv].
    apply respects_bind; [apply _|adv|]. intros st. destruct (decide _); [adv|].
    apply respects_bind; [apply _|apply page_interpreter_respects|]. intros prev.
    apply respects_bind; [apply _|apply Hsetup|]. intros _.
    apply respects_bind; [apply _|by apply assign_same|]. intros _. by apply (screen_move_respects name).
  - intros c data. destruct fuel; apply handle_login_response_respects.
  - intros name interval cb. destruct fuel; cbn; unfold start_timer; adv.
  - intros url. destruct fuel; cbn; adv.
  - intros name v. destruct fuel; cbn; unfold handle_variable_change, note_error, deref, browser; adv.
Qed.

(** ** What a step does itself *)

Record stepped (p : BrowserState) (s s' : St Browser) : Prop := {
  step_move : exists q, moves (state_of s) q /\ (state_of s' = q \/ local_move p q (state_of s'));
  step_login : LoginData (world s') = LoginData (world s) \/ exists q, moves (state_of s) q /\ accepting q;
}.

Lemma stepped_refl p s : stepped p s s.
Proof. split; [|by left]. exists (state_of s). split; [done|by left]. Qed.

Definition same_login (s s' : St Browser) : Prop :=
  state_of s' = state_of s /\ LoginData (world s') = LoginData (world s).

#[export] Instance same_login_preorder : PreOrder same_login.
Proof. split; [by intros s|]. intros s1 s2 s3 [] []. split; congruence. Qed.

Definition local_ok {A} (p : BrowserState) (m : BM A) : Prop := forall s, stepped p s (fst (m s)).

Lemma local_adv {A} p (m : BM A) : respects advances m -> local_ok p m.
Proof. intros H s. destruct (H s) as [M Lg]. split; [|done]. eexists. split; [exact M|by left]. Qed.

Lemma local_bind {A B} p (m : BM A) (f : A -> BM B) :
  respects advances m -> (forall a, local_ok p (f a)) -> local_ok p (m ≫= f).
Proof.
  intros Hm Hf s. unfold mbind, M_bind. specialize (Hm s).
  destruct (m s) as [s' [a| |]] eqn:E; cbn in *; [|by destruct Hm as [M Lg]; split; [eexists; split; [exact M|by left]|]..].
  destruct (Hf a s') as [(q & Hq & Hl) Lg]. destruct Hm as [M Lg']. split.
  - exists q. split; [by etrans|done].
  - destruct Lg as [E2|(x & Hx & Ha)]; [|right; exists x; split; [by etrans|done]].
    destruct Lg' as [E1|]; [left; congruence|by right].
Qed.

Lemma local_bind_r {A B} p (m : BM A) (f : A -> BM B) :
  local_ok p m -> (forall a, respects same_login (f a)) -> local_ok p (m ≫= f).
Proof.
  intros Hm Hf s. unfold mbind, M_bind. specialize (Hm s).
  destruct (m s) as [s' [a| |]] eqn:E; cbn in *; [|done..].
  destruct (Hf a s') as [E1 E2]. destruct Hm as [M Lg]. split; [by rewrite E1|by rewrite E2].
Qed.

Lemma local_catch {A} p (m : BM A) h : respects advances m -> (forall e, local_ok p (h e)) -> local_ok p (catch m h).
Proof.
  intros Hm Hh s. unfold catch. specialize (Hm s).
  destruct (m s) as [s' [a|e|]] eqn:E; cbn in *; [by destruct Hm as [M Lg]; split; [eexists; split; [exact M|by left]|]| |].
  2: by destruct Hm as [M Lg]; split; [eexists; split; [exact M|by left]|].
  destruct (Hh e s') as [(q & Hq & Hl) Lg]. destruct Hm as [M Lg']. split.
  - exists q. split; [by etrans|done].
  - destruct Lg as [E2|(x & Hx & Ha)]; [|right; exists x; split; [by etrans|done]].
    destruct Lg' as [E1|]; [left; congruence|by right].
Qed.

Lemma local_goto p X : (forall q, local_move p q X) -> local_ok p (goto X).
Proof. intros H s. split; [|by left]. exists (state_of s). split; [done|]. right. apply H. Qed.

(** A move that is made only if the scripts left the browser in a state. *)
Lemma local_when {A} p X Y (m m' : BM A) :
  local_move p X Y -> respects same_login m -> local_ok p m' ->
  local_ok p (st ← browser State; if decide (st = X) then goto Y;; m else m').
Proof.
  intros Hl Hm Hm' s. unfold mbind, M_bind. cbn. destruct (decide (state_of s = X)) as [E|_]; [|apply Hm'].
  destruct (Hm (set_world (set_State Y) s)) as [E1 E2]. destruct (m _) as [s' r]. cbn in *. split.
  - exists X. rewrite E1, E. split; [done|by right].
  - left. by rewrite E2.
Qed.

Lemma same_assign f : (forall b, State (f b) = State b) -> (forall b, LoginData (f b) = LoginData b) ->
  respects same_login (assign f).
Proof. intros H1 H2 s. by split; cbn. Qed.

Section Steps.
Variables (u1 u2 : string) (level fuel : nat).
Abbreviation br := (browser_bridge u1 u2 level).

Lemma eval_respects i c n : respects advances (Evaluate br i fuel c n).
Proof.
  pose proof (browser_bridge_rel u1 u2 level).
  refine (Evaluate_rel Adv adv_modify br br fuel fuel _ i c n). right. split; [done|]. by apply respects_lift, _.
Qed.

Lemma setup_respects c b prev : respects advances (SetupInterpreter br fuel c b prev).
Proof.
  pose proof (browser_bridge_rel u1 u2 level). unfold SetupInterpreter. apply respects_bind; [apply _| |].
  - refine (NewInterpreter_rel Adv adv_modify br br fuel fuel _ c b prev). right. split; [done|]. by apply respects_lift, _.
  - intros i s. by apply advances_same.
Qed.

Lemma page_eval_respects c n : respects advances (page_eval br fuel c n).
Proof. pose proof eval_respects. unfold page_eval, current_page, browser. adv. Qed.
Lemma eval_action_respects : respects advances (eval_action br fuel).
Proof. pose proof eval_respects. unfold eval_action, browser. adv. Qed.
Lemma call_back_respects cb r : respects advances (call_back br fuel cb r).
Proof. pose proof eval_respects. unfold call_back. adv. Qed.

Lemma component_at_respects e : respects advances (component_at e).
Proof. unfold component_at. adv. Qed.
Lemma page_find_respects pred : respects advances (page_find pred).
Proof. unfold page_find, current_page, browser. adv. Qed.
Lemma page_find_all_respects pred : respects advances (page_find_all pred).
Proof. unfold page_find_all, current_page, browser. adv. Qed.
Lemma from_root_respects f o : respects advances (from_root f o).
Proof. unfold from_root. adv. Qed.
Lemma find_descendant_respects pred o : respects advances (find_descendant pred o).
Proof. pose proof component_at_respects. unfold find_descendant. adv. Qed.
Lemma children_of_respects name o : respects advances (children_of name o).
Proof. pose proof component_at_respects. unfold children_of. adv. Qed.
Lemma attribute_of_respects name o : respects advances (attribute_of name o).
Proof. pose proof component_at_respects. unfold attribute_of. adv. Qed.

Lemma bind_this_respects e : respects advances (bind_this e).
Proof.
  unfold bind_this, new_elem, new_frame. adv; intros s; by apply advances_same.
Qed.

Lemma FillInput_respects o text : respects advances (FillInput br fuel o text).
Proof.
  pose proof page_eval_respects. pose proof bind_this_respects. pose proof component_at_respects.
  unfold FillInput. adv. intros s; by apply advances_same.
Qed.
Lemma TapButton_respects o : respects advances (TapButton br fuel o).
Proof.
  pose proof page_eval_respects. pose proof bind_this_respects. pose proof component_at_respects.
  unfold TapButton. adv.
Qed.
Lemma GetDynamicAttribute_respects e name : respects advances (GetDynamicAttribute br fuel e name).
Proof.
  pose proof page_eval_respects. pose proof component_at_respects.
  unfold GetDynamicAttribute, cast, deref. adv.
Qed.

Lemma code_page_respects field id instr input what : respects advances instr ->
  respects advances (code_page br fuel field id instr input what).
Proof.
  intros Hi. pose proof page_find_respects. pose proof from_root_respects.
  pose proof FillInput_respects. pose proof TapButton_respects.
  unfold code_page, answer, with_last_error, containing_button, browser. adv.
Qed.

Lemma getCodeInstructions_respects : respects advances getCodeInstructions.
Proof. pose proof page_find_respects. pose proof attribute_of_respects. unfold getCodeInstructions. adv. Qed.

Lemma captcha_step_respects : respects advances (captcha_step br fuel).
Proof.
  pose proof page_find_respects. pose proof GetDynamicAttribute_respects. pose proof find_descendant_respects.
  pose proof component_at_respects. pose proof page_eval_respects.
  unfold captcha_step, fetch, browser. adv.
Qed.

Lemma mfa_methods_respects items : respects advances (mfa_methods items).
Proof.
  pose proof find_descendant_respects. pose proof children_of_respects. pose proof attribute_of_respects.
  induction items as [|item items IH]; cbn [mfa_methods]; adv.
Qed.

Lemma run_scripts_respects attr what es : respects advances (run_scripts br fuel attr what es).
Proof.
  pose proof component_at_respects. pose proof page_eval_respects.
  unfold run_scripts. apply (rel_iter Adv _ (fun _ => mret tt)). intros e _. adv.
Qed.

Lemma check_code_local p field page : (forall q, local_move p q page) -> local_ok p (check_code br fuel field page).
Proof.
  intros Hp. pose proof eval_action_respects. unfold check_code.
  apply local_bind; [adv|intros _]. apply local_bind; [unfold browser; adv|intros e]. destruct (_ =? _)%string.
  - apply local_adv. adv.
  - apply local_bind; [by apply assign_same|intros _]. apply local_bind_r; [by apply local_goto|].
    intros _. by apply respects_ret, _.
Qed.

Lemma step_ap_action_local p : local_ok p (step_ap_action br fuel).
Proof.
  pose proof eval_action_respects. unfold step_ap_action. apply local_bind; [adv|intros _]. intros s.
  unfold mbind, M_bind. cbn. destruct (decide (state_of s = _)) as [E|_]; [|apply stepped_refl].
  destruct (LastError _ =? "")%string; cbn; (split; [|by left]); exists (state_of s); (split; [done|]); [by left|].
  right. cbn. rewrite E. constructor.
Qed.

Lemma rejected_local p page (m : BM unit) : (forall q, local_move p q page) -> respects advances m ->
  local_ok p (m;; goto page;; mret (None : option LoginStep)).
Proof.
  intros Hp Hm. apply local_bind; [done|intros _]. apply local_bind_r; [by apply local_goto|].
  intros _. by apply respects_ret, _.
Qed.

Lemma step_entered_password_local : local_ok StateEnteredEmailPasswordAction (step_entered_password br fuel).
Proof.
  pose proof eval_action_respects. unfold step_entered_password, forget, answer, browser.
  apply local_catch; [adv|]. intros e. destruct (_ =? _)%string; [|destruct (StrContains _ _); [|apply local_adv; adv]].
  - do 2 (apply local_bind; [by apply assign_same|intros _]).
    apply rejected_local; [constructor|by apply assign_same].
  - do 2 (apply local_bind; [by apply assign_same|intros _]). apply local_bind; [adv|intros username].
    apply rejected_local; [constructor|by apply assign_same].
Qed.

Lemma step_entered_email_code_local : local_ok StateEnteredEmailCodeAction (step_entered_email_code br fuel).
Proof.
  pose proof eval_action_respects. unfold step_entered_email_code, forget.
  apply local_catch; [adv|]. intros e. destruct (HasPrefix _ _); [|apply local_adv; adv].
  apply local_bind; [by apply assign_same|intros _]. apply rejected_local; [constructor|by apply assign_same].
Qed.

Lemma step_afad_action_local : local_ok StateAFADAction (step_afad_action br fuel).
Proof.
  pose proof eval_action_respects. pose proof call_back_respects. unfold step_afad_action.
  apply local_bind; [adv|intros r]. apply local_bind; [unfold browser; adv|intros cb]. apply local_bind; [adv|intros _].
  intros s. unfold mbind, M_bind. cbn. destruct (decide (state_of s = _)) as [E|_]; [|apply stepped_refl].
  cbn. destruct (AFADInterval _ <=? 0); [apply stepped_refl|].
  cbn. destruct (AFADDisplayed _); cbn; (split; [|by left]); exists (state_of s); (split; [done|]); right; cbn; rewrite E; constructor.
Qed.

(** Looking at the page changes nothing. *)
Lemma page_find_reads pred s : fst (page_find pred s) = s.
Proof.
  unfold page_find, current_page, load, mbind, M_bind. cbn. destruct (CurrentPage (world s)) as [b|]; [|done].
  cbn. by destruct (bundles s !! b).
Qed.
Lemma from_root_reads f o s : fst (from_root f o s) = s.
Proof.
  unfold from_root, load, mbind, M_bind. destruct o as [[b [j q]]|]; [|done]. cbn. by destruct (bundles s !! b).
Qed.

Lemma step_mfa_landing_stepped s : stepped (state_of s) s (fst (step_mfa_landing br fuel s)).
Proof.
  pose proof TapButton_respects.
  assert (forall p o, local_ok p (with_prefix "tapping method selection button" (TapButton br fuel o);; mret (None : option LoginStep))) as Htap
    by (intros; apply local_adv; adv).
  unfold step_mfa_landing, mbind at 1, M_bind at 1. pose proof (page_find_reads (text_span "Try another way") s) as H1.
  destruct (page_find _ s) as [s1 [o| |]]; cbn in H1; subst s1; [|apply stepped_refl..].
  unfold mbind at 1, M_bind at 1. pose proof (from_root_reads FindContainingButton o s) as H2. unfold containing_button.
  destruct (from_root _ o s) as [s1 [btn| |]]; cbn in H2; subst s1; [|apply stepped_refl..].
  unfold mbind at 1, M_bind at 1. cbn. destruct btn as [e|]; [apply Htap|].
  destruct (state_of s) eqn:E; try apply Htap. cbn. split; [|by left]. cbn. rewrite E.
  eexists. split; [done|]. right. constructor.
Qed.

Lemma step_entered_captcha_local : local_ok StateEnteredCaptchaAction (step_entered_captcha br fuel).
Proof.
  pose proof eval_action_respects. pose proof call_back_respects. unfold step_entered_captcha, forget.
  apply local_bind; [by apply assign_same|intros _]. apply local_bind; [adv|intros r].
  apply local_bind; [unfold browser; adv|intros cb]. apply local_bind; [adv|intros _].
  apply local_when; [constructor| |apply local_adv; adv].
  intros s. by split.
Qed.

Lemma step_initial_local : local_ok StateInitial (step_initial br fuel).
Proof.
  pose proof make_request_respects. pose proof page_interpreter_respects. pose proof setup_respects.
  unfold step_initial. apply local_bind; [adv|intros loc]. apply local_bind; [adv|intros prev].
  apply local_bind; [adv|intros _]. apply rejected_local; [constructor|by apply assign_same].
Qed.

(** The pages only let scripts run. *)
Lemma page_steps_respect :
  respects advances (step_password_page br fuel) /\ respects advances (step_captcha_page br fuel) /\
  respects advances (step_choose_mfa br fuel) /\ respects advances (step_afad_page br fuel) /\
  (forall what, respects advances (step_mount br fuel what)).
Proof.
  pose proof page_find_respects. pose proof page_find_all_respects. pose proof from_root_respects.
  pose proof FillInput_respects. pose proof TapButton_respects. pose proof find_descendant_respects.
  pose proof children_of_respects. pose proof attribute_of_respects. pose proof mfa_methods_respects.
  pose proof run_scripts_respects. pose proof captcha_step_respects. pose proof code_page_respects as Hcode.
  assert (forall o, respects advances (containing_button o)) by (intros; apply from_root_respects).
  assert (forall pred o, respects advances (find_ancestor pred o)) by (intros; apply from_root_respects).
  unfold step_password_page, step_captcha_page, step_choose_mfa, step_afad_page, step_mount, answer, with_last_error, browser.
  split_and!; [adv|adv; apply Hcode; adv|adv|adv|intros; adv].
Qed.

Lemma step_of_stepped s : stepped (state_of s) s (fst (step_of br fuel (state_of s) s)).
Proof.
  destruct page_steps_respect as (Hpw & Hcap & Hmfa & Hafad & Hmount).
  pose proof eval_action_respects. pose proof code_page_respects. pose proof getCodeInstructions_respects.
  destruct (state_of s) eqn:E; cbn [step_of]; unfold step_entered_totp, step_entered_sms, step_entered_whatsapp,
    step_entered_backup, step_run_action, step_email_code_page, step_backup_code_page, step_totp_page, step_sms_after_send,
    step_whatsapp_after_send, step_sms_page, step_whatsapp_page, step_afad_wait;
    try (by apply local_adv, respects_lift, _); try (by apply local_adv, Hmount); try (by apply local_adv);
    try (by apply check_code_local; constructor); try (by apply step_ap_action_local);
    try (by apply local_adv, code_page_respects; adv); try (by apply local_adv; adv).
  - unfold step_test_captcha. apply local_bind; [unfold answer, browser; adv|intros code].
    destruct (_ =? _)%string; [apply local_adv; adv|]. apply local_bind_r; [apply local_goto; constructor|].
    intros _. by apply respects_ret, _.
  - apply step_initial_local.
  - apply step_entered_password_local.
  - apply step_entered_email_code_local.
  - apply step_entered_captcha_local.
  - pose proof (step_mfa_landing_stepped s) as Hs. by rewrite E in Hs.
  - pose proof (step_mfa_landing_stepped s) as Hs. by rewrite E in Hs.
  - apply step_afad_action_local.
  - apply local_bind_r; [apply local_goto; constructor|]. intros _. by apply respects_ret, _.
Qed.

Lemma DoLoginStep_state s : fst (DoLoginStep br fuel s) = fst (step_of br fuel (state_of s) s).
Proof.
  unfold DoLoginStep, browser, mbind, M_bind. cbn. destruct (step_of _ _ _ s) as [s' [[st|]| |]]; [done| |done..].
  cbn. by destruct (decide _).
Qed.

(** C1. The login flow refines the state machine: whatever the pages' scripts are, whatever the
    server and the user answer, a step takes the browser along moves of the machine, ending with
    at most one move of its own.  Login data is set only if the scripts reach a state from which a
    login response is taken. *)
Theorem login_refines_machine s :
  let s' := fst (DoLoginStep br fuel s) in
  login_step (state_of s) (state_of s') /\
  (LoginData (world s') = LoginData (world s) \/ exists q, moves (state_of s) q /\ accepting q).
Proof. cbn zeta. rewrite DoLoginStep_state. destruct (step_of_stepped s) as [H1 H2]. split; [exact H1|exact H2]. Qed.

(** No request and no screen leads to the success state. *)
Definition no_success (l : list (string * transitions)) : bool :=
  forallb (fun r => forallb (fun m => bool_decide (snd m <> StateSuccess)) (snd r)) l.

Lemma no_success_spec l name ts q : no_success l = true -> (name, ts) ∈ l -> (q, StateSuccess) ∈ ts -> False.
Proof.
  unfold no_success. rewrite forallb_forall. intros H H1 H2. apply list_elem_of_In in H1, H2.
  apply H in H1. rewrite forallb_forall in H1. apply H1 in H2. by apply bool_decide_eq_true in H2.
Qed.

Lemma moves_to_success p : moves p StateSuccess -> p <> StateSuccess -> exists q, moves p q /\ accepting q.
Proof.
  intros H Hp. apply rtc_inv_r in H as [->|(q & Hq & Hm)]; [done|]. inversion Hm; subst.
  - by destruct (no_success_spec rpc_transitions name ts q).
  - by destruct (no_success_spec screen_transitions name ts q).
  - by exists q.
Qed.

(** A login succeeds only with a response that was taken: a step that ends in the success state
    passed, by moves of scripts, through one of the nine states in which the answers of the user
    have been sent. *)
Theorem success_is_accepted s :
  state_of s <> StateSuccess -> state_of (fst (DoLoginStep br fuel s)) = StateSuccess ->
  exists q, moves (state_of s) q /\ accepting q.
Proof.
  intros Hs. rewrite DoLoginStep_state. destruct (step_of_stepped s) as [(q & Hq & [E|Hl]) _]; intros H.
  - rewrite E in H. rewrite H in Hq. by apply moves_to_success.
  - rewrite H in Hl. inversion Hl.
Qed.

Lemma DoLoginStep_None s s' : DoLoginStep br fuel s = (s', Ok None) -> state_of s' <> state_of s.
Proof.
  unfold DoLoginStep, browser, mbind, M_bind. cbn. destruct (step_of _ _ _ s) as [s1 [[st|]| |]]; try done.
  cbn. destruct (decide _) as [E|E]; [done|]. by intros [= <-].
Qed.

(** The loop over the steps goes on only while it gets on: it ends with a step for the user, or
    in the success state; and each round that shows nothing has changed the state, along the
    machine. *)
Theorem login_loop_progress rounds s : forall s' r, DoLoginSteps br fuel rounds s = (s', r) ->
  rtc login_step (state_of s) (state_of s') /\
  (r = Ok None -> state_of s' = StateSuccess) /\
  (forall s1, DoLoginStep br fuel s = (s1, Ok None) -> state_of s1 <> state_of s).
Proof.
  intros s' r H. split; [|split; [|apply DoLoginStep_None]].
  - revert s H. induction rounds as [|n IH]; intros s H; [by injection H as <- _|].
    cbn [DoLoginSteps] in H. unfold browser, mbind, M_bind in H. cbn in H.
    destruct (decide (state_of s = StateSuccess)); [by injection H as <- _|].
    pose proof (DoLoginStep_state s) as Hs. destruct (step_of_stepped s) as [H1 _]. rewrite <- Hs in H1.
    destruct (DoLoginStep br fuel s) as [s1 [[st|]| |]]; cbn in H, H1.
    + injection H as <- _. by apply rtc_once.
    + eapply rtc_l; [exact H1|]. by apply IH.
    + injection H as <- _. by apply rtc_once.
    + injection H as <- _. by apply rtc_once.
  - intros ->. revert s H. induction rounds as [|n IH]; intros s H; [done|].
    cbn [DoLoginSteps] in H. unfold browser, mbind, M_bind in H. cbn in H.
    destruct (decide (state_of s = StateSuccess)); [by injection H as <-|].
    destruct (DoLoginStep br fuel s) as [s1 [[st|]| |]]; cbn in H; try done. by apply (IH s1).
Qed.

(** ** Answers that are rejected *)

(** A code that was rejected is asked for again: after a step that checked a code and found a
    message from the page, the code is forgotten, and the next step, on the page of the code,
    asks for it with that message in front, which is then used up. *)
Theorem rejected_code_asked_again s s1 :
  state_of s = StateEnteredTOTPAction -> DoLoginStep br fuel s = (s1, Ok None) -> LastError (world s1) <> "" ->
  state_of s1 = StateTOTPPage /\ userInput (world s1) !! "totp_code" = None /\
  DoLoginStep br fuel s1 =
    (set_world (set_LastError "") s1,
     Ok (Some (input_step "totp" (trim_dot (LastError (world s1)) ++ ". " ++ "Enter a six-digit code from your authenticator app")%string ["totp_code"]))).
Proof.
  intros Hs H He.
  assert (state_of s1 = StateTOTPPage /\ userInput (world s1) !! "totp_code" = None) as [H1 H2].
  { unfold DoLoginStep, browser, mbind, M_bind in H. cbn in H. rewrite Hs in H. cbn [step_of] in H.
    unfold step_entered_totp, check_code, browser, mbind, M_bind in H. destruct (with_prefix _ _ s) as [s2 [l| |]]; try done. cbn in H.
    destruct (LastError (world s2) =? "")%string eqn:E.
    - cbn in H. destruct (decide _); [done|]. injection H as <-. by apply String.eqb_eq in E.
    - cbn in H. injection H as <-. split; [done|]. cbn. apply lookup_delete_eq. }
  split; [done|]. split; [done|].
  unfold DoLoginStep, browser, mbind, M_bind. cbn. rewrite H1. cbn [step_of].
  unfold step_totp_page, code_page, answer, with_last_error, browser, mbind, M_bind. cbn. rewrite H2. cbn.
  destruct (String.eqb_spec (LastError (world s1)) ""); [done|]. done.
Qed.

(** What is said about an unknown account does not depend on what the user typed: the name is
    forgotten before it is looked at, and the search is for the name in the at sign, so that it is
    always called an email address. *)
Theorem unknown_account_message s s1 e :
  eval_action br fuel s = (s1, Err e) -> e <> "Invalid username or password" ->
  StrContains e "isn't connected to an account" = true ->
  exists s2, step_entered_password br fuel s = (s2, Ok None) /\ state_of s2 = StateEmailPasswordPage /\
    LastError (world s2) = "That email address is not connected to a Messenger account".
Proof.
  intros H Hne Hc. unfold step_entered_password, catch. unfold mbind at 1, M_bind at 1. rewrite H.
  destruct (String.eqb_spec e "Invalid username or password"); [done|]. rewrite Hc.
  unfold forget, answer, browser, mbind, M_bind. cbn. rewrite lookup_delete_ne, lookup_delete_eq by done. cbn.
  eexists. split; [done|]. done.
Qed.

(** An answer that is formatted as a page, with its script in a component and no action of its
    own, ends the program: the action's field is taken before the test whether it is nil, and the
    script of the component is never looked for. *)
Theorem ap_action_without_script_panics s loc bundle i :
  state_of s = StateMFALandingAPAction -> CurrentAction (world s) = Some loc -> bundles s !! loc = Some bundle ->
  BInterpreter bundle = Some i -> BAction bundle = None ->
  DoLoginStep br fuel s = (s, Panic).
Proof.
  intros Hs Ha Hb Hi Hn. unfold DoLoginStep, browser, mbind, M_bind. cbn. rewrite Hs. cbn [step_of].
  unfold step_ap_action, with_prefix, catch, eval_action, load, browser, mbind, M_bind. cbn. rewrite Ha. cbn. rewrite Hb. cbn. by rewrite Hi, Hn.
Qed.
End Steps.
End Login.

(** ** A login *)

Definition script_str (s : string) : Node := Literal (Some (VStr s)).
Definition script_int (z : Z) : Node := Literal (Some (VInt z)).

(** The server: an action that shows the page it carries; for the credentials, a login response. *)
Definition login_page : Component :=
  Comp "root" [("children", TComponentList
    [Comp "bk.components.TextInput"
       [("html_name", TLiteral (JStr "email"));
        ("on_text_change", TScript (Funcall "bk.action.bloks.WriteLocalState"
           [script_str "email"; Funcall "bk.action.textinput.GetText" [Funcall "bk.action.core.GetArg" [script_int 0]]]))];
     Comp "bk.components.TextInput"
       [("html_name", TLiteral (JStr "password")); ("on_text_change", TScript (Funcall "bk.action.logging.LogEvent" []))];
     Comp "box"
       [("on_click", TScript (Funcall "bk.action.bloks.AsyncActionWithDataManifestV2"
           [script_str "com.bloks.www.bloks.caa.login.async.send_login_request";
            Funcall "bk.action.map.Make" [Funcall "bk.action.array.Make" [script_str "params"];
              Funcall "bk.action.array.Make" [Funcall "bk.action.bloks.GetVariable2" [script_str "email"]]];
            Funcall "bk.action.tree.Make" [script_int 16131; script_int 36; Funcall "bk.action.core.FuncConst" [script_int 0]]]));
        ("child", TComponent (Comp "bk.data.TextSpan" [("text", TLiteral (JStr "Log in"))]))]])].

Definition first_answer : Payload :=
  MkPayload [] [] [("home", MkPayload [] [] [] (Some (TComponent login_page)) None)] None
    (Some (Funcall "bk.action.fx.OpenSyncScreen"
       [Funcall "bk.action.tree.Make" [script_int 1; script_int 35; script_str "com.bloks.www.caa.login.login_homepage"];
        Funcall "bk.action.bloks.GetPayload" [script_str "home"]])).

Definition login_answer : Payload :=
  MkPayload [] [] [] None
    (Some (Funcall "bk.action.caa.HandleLoginResponseForContextChange"
       [Funcall "bk.action.tree.Make" [script_int 1; script_int 35; script_str "the login data"]])).

Definition unknown_answer : Payload :=
  MkPayload [] [] [] None
    (Some (Funcall "bk.action.dialog.OpenDialog"
       [Funcall "bk.action.tree.Make" [script_int 1; script_int 35; script_str "That name isn't connected to an account."]])).

Definition sample_host (second : Payload) : Host := {|
  cfg_EncryptPassword := fun pw => Ok pw;
  cfg_MakeBloksRequest := fun h => if (length h =? 1)%nat then Ok first_answer else Ok second;
  json_BloksParamsInner := fun _ => Ok tt;
  http_Get := fun _ => Err "no network";
  image_DecodeConfig := fun _ => (0, 0);
  ExtensionFromMimetype := fun _ => "";
|}.

Definition start (input : gmap string string) : St Browser := {|
  dicts := []; lambdas := []; frames := []; elems := []; brefs := []; bundles := []; texts := ∅; interps := [];
  world := set_userInput input NewBrowser |}.

Definition credentials : gmap string string := {["username" := "someone"; "password" := "secret"]}.

(** One step and the whole loop, with the sample server. *)
Definition sample_step (second : Payload) : St Browser -> St Browser * res (option LoginStep) :=
  @DoLoginStep (sample_host second) no_library (@browser_bridge (sample_host second) no_library "D" "F" 3) 12.
Definition sample_login (second : Payload) (rounds : nat) : St Browser -> St Browser * res (option LoginStep) :=
  @DoLoginSteps (sample_host second) no_library (@browser_bridge (sample_host second) no_library "D" "F" 3) 12 rounds.

Example sample_login_succeeds :
  let '(s, r) := sample_login login_answer 9 (start credentials) in
  (state_of s, LoginData (world s), map rpc_name (requests (world s)), r) =
  (StateSuccess, "the login data",
   ["com.bloks.www.bloks.caa.login.process_client_data_and_redirect"; "com.bloks.www.bloks.caa.login.async.send_login_request"], Ok None).
Proof. vm_compute. reflexivity. Qed.

Example sample_login_asks :
  (fun r => match r with Ok (Some st) => Fields st | _ => [] end) (snd (sample_login login_answer 9 (start ∅))) = ["username"; "password"].
Proof. vm_compute. reflexivity. Qed.

Fixpoint sample_steps (second : Payload) (n : nat) (s : St Browser) : St Browser :=
  match n with O => s | S n => sample_steps second n (fst (sample_step second s)) end.

Lemma login_refines_machine_witness :
  let s := start credentials in
  login_step (state_of s) (state_of (fst (sample_step login_answer s))) /\
  state_of (fst (sample_step login_answer s)) = StateRedirectToLoginAction.
Proof.
  split; [|vm_compute; reflexivity].
  exact (proj1 (@login_refines_machine (sample_host login_answer) no_library no_library_ends "D" "F" 3 12 (start credentials))).
Defined.

Lemma success_is_accepted_witness :
  let s := sample_steps login_answer 3 (start credentials) in
  state_of s <> StateSuccess /\ state_of (fst (sample_step login_answer s)) = StateSuccess /\
  exists q, moves (state_of s) q /\ accepting q.
Proof.
  split; [by vm_compute|]. split; [vm_compute; reflexivity|].
  apply (@success_is_accepted (sample_host login_answer) no_library no_library_ends "D" "F" 3 12
           (sample_steps login_answer 3 (start credentials))); [by vm_compute|vm_compute; reflexivity].
Defined.

Lemma login_loop_progress_witness :
  state_of (fst (sample_login login_answer 9 (start credentials))) = StateSuccess.
Proof.
  unfold sample_login.
  pose proof (@login_loop_progress (sample_host login_answer) no_library no_library_ends "D" "F" 3 12 9
    (start credentials) _ _ (surjective_pairing _)) as (_ & H & _).
  apply H. vm_compute. reflexivity.
Defined.

(** A browser whose action leaves the message of a rejected code. *)
Definition reject_script : Node :=
  Funcall "bk.action.bloks.WriteGlobalConsistencyStore"
    [script_str "BLOKS_TWO_STEP_VERIFICATION_ENTER_CODE:error_message"; script_str "Wrong code."].

Definition in_action (st : BrowserState) (action : option Node) (input : gmap string string) : St Browser :=
  set_interps (fun _ => [{| Scripts := ∅; Payloads := ∅; LocalVars := ∅; GlobalVars := ∅ |}])
    (set_bundles (fun _ => [{| BScripts := []; BVariables := []; BEmbedded := []; BTree := None; BAction := action; BInterpreter := Some 0%nat |}])
       (set_world (fun b => set_CurrentAction (Some 0%nat) (set_State st b)) (start input))).

Lemma rejected_code_asked_again_witness :
  let s := in_action StateEnteredTOTPAction (Some reject_script) {["totp_code" := "123"]} in
  let s1 := fst (sample_step login_answer s) in
  state_of s = StateEnteredTOTPAction /\ LastError (world s1) = "Wrong code." /\
  snd (sample_step login_answer s1) = Ok (Some (input_step "totp"
    "Wrong code. Enter a six-digit code from your authenticator app" ["totp_code"])).
Proof.
  split; [reflexivity|]. split; [vm_compute; reflexivity|].
  etrans; [apply (f_equal snd), (proj2 (proj2 (@rejected_code_asked_again (sample_host login_answer) no_library "D" "F" 3 12
    (in_action StateEnteredTOTPAction (Some reject_script) {["totp_code" := "123"]})
    (fst (sample_step login_answer (in_action StateEnteredTOTPAction (Some reject_script) {["totp_code" := "123"]})))
    eq_refl ltac:(vm_compute; reflexivity) ltac:(by vm_compute))))|].
  vm_compute. reflexivity.
Defined.

Lemma unknown_account_message_witness :
  let s := in_action StateEnteredEmailPasswordAction (match unknown_answer with MkPayload _ _ _ _ a => a end) credentials in
  exists s2, snd (sample_step login_answer s) = Ok None /\ state_of s2 = StateEmailPasswordPage /\
    LastError (world s2) = "That email address is not connected to a Messenger account".
Proof.
  intros s.
  destruct (@unknown_account_message (sample_host login_answer) no_library "D" "F" 3 12 s s "That name isn't connected to an account."
    ltac:(vm_compute; reflexivity) ltac:(done) ltac:(reflexivity)) as (s2 & _ & H1 & H2).
  exists s2. split; [vm_compute; reflexivity|]. by split.
Defined.

Lemma ap_action_without_script_panics_witness :
  snd (sample_step login_answer (in_action StateMFALandingAPAction None ∅)) = Panic.
Proof.
  etrans; [apply (f_equal snd), (@ap_action_without_script_panics (sample_host login_answer) no_library "D" "F" 3 12
    (in_action StateMFALandingAPAction None ∅) 0 _ 0 eq_refl eq_refl eq_refl eq_refl eq_refl)|reflexivity].
Defined.
